(* ===== verification/_CoqProject ===== *)
-Q . S2P
Prelude.v
Calendar.v
GoStr.v
Kernel.v
Resource.v
Ipc.v
Jobs.v
Policy.v
Spending.v
Approval.v
Quota.v
Cron.v
Scheduler.v
Workflow.v
AuditLog.v
RateLimit.v
Base64.v
Auth.v
Utf8.v
Regexp.v
Redact.v
AgentSession.v
AgentStore.v
AgentMemory.v
Personality.v
AgentTurn.v
AgentTrace.v
AgentRuntime.v
AgentGate.v
AgentAccess.v
AgentTranscript.v
NetGuard.v
Federation.v
Crew.v
Chunker.v
Pairing.v
Channel.v
GoText.v
Paths.v
Skills.v
Float64.v
Curator.v
CuratorLlm.v
Node.v
Sla.v
Config.v
Tenants.v
Mcp.v
McpManager.v
Eval.v
Trajectory.v
Api.v
ApiAgents.v
ApiModules.v
ApiRoutes.v
ApiAccess.v
UserModel.v
UserDistill.v
Gateway.v
Recall.v
ToolFiles.v
ToolPlan.v
ToolAgents.v
ToolShell.v
ToolQuery.v
ToolKnowledge.v
Adapters.v
Slack.v
Nostr.v
ChatLinks.v
Providers.v
Notify.v
SkillFiles.v
ToolWeb.v
Tui.v
Batch.v
Live.v
ToolReach.v
ToolVendors.v
Host.v
