(* ===== verification/Prelude.v ===== *)
(** * A verification library for Cyntr

    Cyntr is a multi-tenant agent platform: a kernel boots modules that talk over an
    in-process message bus, and the modules enforce policy, quotas and approvals, run
    scheduled jobs and workflows, and keep a tamper-evident audit log.  This library
    models the parts that carry that logic and proves what makes them correct.

    ** Conventions

    The definitions follow the Go source under [src/], one definition per function,
    method or type, with its names (a trailing underscore or a prefix where Rocq or a
    second type of the same file needs the name).  State is passed explicitly; a method
    takes its receiver last and returns the new one.  A call that returns [(T, error)]
    is a [Result]; a panic of the caller is [None].  Maps are [gmap], sets [gset], maps
    whose iteration order matters are visited in an order given as an argument, and
    [sort.Slice], which is unstable, is any function that permutes and orders
    ([SliceSorter]).  Times and durations are nanoseconds; [int] and [int64] wrap where
    the code can overflow.  Clocks, random identifiers, replies of other systems and the
    success of database statements are arguments.  Goroutines that share state become a
    step relation over a world, cut at the code's lock sections.

    ** Files

    - Prelude (this file): results, automation, lists, the sorting interface, strings,
      64-bit integers, time.
    - Calendar, GoStr: the parts of Go's [time], [strings] and [strconv] that are used.
    - Kernel ([src/kernel]): registry, boot order, lifecycle.  The boot order respects
      every dependency or the failure is named; boot calls modules in that order and
      stops at the first failure; shutdown is its exact reverse.
    - Resource ([src/kernel/resource]): limits hold across all operations; what the
      snapshot reports.
    - Ipc ([src/kernel/ipc]): the bus under interleaving.  No request is sent on a closed
      inbox; every accepted request is in exactly one place and is eventually
      answerable, once, by its own handler's reply; closing is safe, registering again
      afterwards is not.
    - Jobs ([src/kernel/jobs]): the job queue under interleaving and crashes.  A job is
      never run twice at once, tenant and global caps hold, a pass refines the
      interleaved steps and a specification of its own, retries end; and the batch limit can
      starve runnable jobs.
    - Policy, Spending, Approval ([src/modules/policy]): the decision is the stricter of
      both evaluators and comes from a highest-priority rule; reloads never lose a
      policy; budgets; an approval is decided at most once, by an authorised source,
      before its deadline, and stays readable.
    - Quota ([src/modules/quota]): daily budgets against everything recorded, slots
      counted exactly, the rate of the token bucket.
    - Cron, Scheduler ([src/modules/scheduler]): parsed values are in range, the next run
      is the first match by the local clock, runs keep their distance, the history is the last 20.
    - Workflow ([src/modules/workflow]): runs that end are completed or failed, acyclic ones whose
      steps return end, approval steps fail closed, substitution ends or provably does not.
    - AuditLog ([src/modules/audit]): every day's database stays append-only whatever writes and
      rotations happen, and a chain that verifies as long as entries arrive unsigned; the last
      hash commits to the history; queries stay within one tenant.
    - RateLimit ([src/modules/proxy/ratelimit.go]): at most twice the rate in any interval,
      across evictions, and a bounded number of buckets.
    - Base64, Auth ([src/auth]): tokens validate exactly until they expire, credentials
      resolve only when authentic and to the permissions the roles grant, OIDC logins only
      from verified ID tokens.
    - Utf8, Regexp, Redact ([src/modules/agent/masking.go], [pii.go]): Go's decoding of runes, a matcher
      of the regular expressions used, and what masking and redaction leave of a text.
    - AgentSession, AgentStore, AgentMemory, Personality ([src/modules/agent]): sessions with their
      window and compaction, the stores behind them by the effect of each statement, personalities.
    - AgentTurn, AgentRuntime, AgentTrace, AgentGate, AgentAccess, AgentTranscript
      ([src/modules/agent/runtime.go]): a chat turn in any world that answers, and every handler.
      AgentTrace gives the effects of a turn; AgentGate shows that tools run only when policy and
      operators allow it and that slots are released; AgentTranscript that every tool call is
      answered in the transcript; AgentAccess that sessions stay in their tenant.
    - NetGuard ([src/kernel/netguard]): which addresses and redirects the guarded client follows.
    - Federation, Crew, Chunker, Pairing, Channel: peers and delegation, crews' runs, splitting of
      messages, pairing of senders, and the channel manager's routing.
    - GoText, Paths: the parts of [strings] and [path/filepath] that are used.
    - Skills ([src/modules/skill]): the registry with its versions, candidates and their approval,
      confinement of executors.  Float64, Curator, CuratorLlm ([src/modules/curator]): scores, health
      and pruning in binary64 arithmetic, against an interface the registry implements; the judge
      and the improver, whose prompt fences off what it quotes.
    - Node ([src/modules/node]): pairing codes and grants of remote nodes.
    - Sla ([src/modules/sla]): rules and violations; pruning loses nothing.
    - Config ([src/kernel/config]), Tenants ([src/tenant]): versions and migration of the
      configuration; tenants and the arguments of their containers.
    - Mcp, McpManager ([src/modules/mcp]): the protocol's messages, client, adapter and server; the
      manager keeps tenants' servers apart.
    - Eval, Trajectory ([src/modules/eval]): scoring of cases; recording, storing and compressing
      trajectories.
    - Api, ApiAgents, ApiModules, ApiRoutes, ApiAccess ([src/web/api]): the HTTP API.  A handler is what
      it asks of the bus and of the stores, one question after another, until it responds; ApiRoutes
      has the table of routes and the multiplexer; ApiAccess composes middleware, multiplexer and
      handlers: what an authenticated request has shown, and that a tenant-bound caller's requests
      about agents stay in the tenant.

    - UserModel, UserDistill ([src/modules/usermodel]): profiles, facts and activity by the effect of each
      statement; distilling passes with their consent checks, and the slots they share as a step relation.
    - Gateway ([src/modules/proxy]): the gateway with its parsers, identity, the reverse proxy's request and
      agents' keys.
    - Recall ([src/modules/recall], [src/modules/learn]): indexing of turns, search, summaries and learning.
    - ToolFiles, ToolPlan, ToolAgents, ToolShell, ToolQuery, ToolKnowledge ([src/modules/agent/tools]): files;
      plans and scripts that call other tools, gated call by call; delegation, recall, profiles and the canvas
      for the caller's tenant; shells and their backends; databases, JSON, CSV; documents.
    - Adapters, Slack, Nostr, ChatLinks ([src/modules/channel]): what each adapter checks before an agent
      hears a message and what it posts; deliveries counted once; BIP-340 signatures over any group with
      the curve's laws; Google's tokens; IRC's lines.
    - Providers ([src/modules/agent/providers], [failover.go]): how each provider puts a
      transcript to its service, which read back says what the transcript says, and reads the answer; which
      failures another provider is tried for; the tokens of subscriptions.
    - Notify ([src/modules/notify], [src/kernel/log]): routing, payloads and retries of notifications; levels of logs.
    - SkillFiles ([src/modules/skill]): the loader, signing, the marketplace with the path a download stays
      below, importers, catalogue and watcher.
    - ToolWeb, ToolReach, ToolVendors ([src/modules/agent/tools]): the guarded fetch, its pages and the
      tools declared in YAML; browsers, cloud accounts and PDFs; the APIs of GitHub, Jira, search, pictures
      and speech, and who is sent the credentials.
    - Tui, Batch ([src/cmd/cyntr]): the terminal's state machine with its stream of events; the trajectories'
      batch runner.
    - Live ([src/web], [src/cmd/cyntr/main.go]): the activity stream, the canvas's WebSocket, and what the node mounts.
    - Host ([src/modules/agent], [src/cmd/cyntr]): context files of an agent and schema migrations; the
      import from another platform; backup and restore.

    ** Fuel

    [Kernel.topoSort] runs with one round more than there are modules and is proved never
    to run out.  [Cron.steps] runs with 256 rounds, proved enough for every field.
    [Cron.Next] makes the code's own 525,960 rounds.  [Workflow.executeWorkflow] takes a
    fuel for the steps of the run and one for nesting; a rank along the step graph gives
    enough of the first.  [Workflow.substituteVar] loops for ever on some inputs, which
    the theorem about it says.  A turn's poll for an approval runs 150 rounds, the code's five
    minutes of two seconds; its attempts at a provider 4 and its rounds with the model [MaxTurns], the
    code's own bounds; [NetGuard.fetch] 11, the client's ten redirects.  Loops over a text
    ([Chunker.chunk_loop], replacements, [range], [ToolReach.drop_blocks], [ToolReach.shown]) run with its
    length, each round taking at least a byte.  [ToolWeb.follow] runs 11 rounds, the client's ten redirects.
    [Batch.drive] follows the list of what each pass of the queue did.

    ** Not modelled

    Files, YAML decoding, SQL parsing, logging, the transports of the Model Context Protocol, the dashboard:
    input and output, or third-party code; where modelled code depends on them they are arguments.  The
    command line ([src/cmd/cyntr]: main's wiring apart from what Live mounts, init, doctor, onboarding, docs, the
    chat and evaluation commands) parses flags and prints.  The news pack ([src/packs/loomfeed]) and tracing
    ([src/modules/observability]) drive services over HTTP and no part of the core calls them.  OpenID discovery,
    starting and stopping of the chat adapters' servers, and the tickers that only call a modelled
    operation again. *)
From stdpp Require Export gmap strings list pretty sorting.
From Stdlib Require Export ZArith Lia Ascii.

#[export] Set Default Goal Selector "!".

Declare Scope go_scope.
Delimit Scope go_scope with go.

(** ** Errors and results

    A Go [error] is its rendered text; a call that returns [(T, error)] is a
    [Result T]. *)
Abbreviation error := string (only parsing).

Inductive Result (A : Type) : Type :=
  | Ok (a : A)
  | Err (e : error).
Arguments Ok {_} _.
Arguments Err {_} _.

#[export] Instance Result_eq_dec {A} `{EqDecision A} : EqDecision (Result A).
Proof. solve_decision. Defined.

Definition is_Ok {A} (r : Result A) : bool :=
  match r with Ok _ => true | Err _ => false end.

Definition rbind {A B} (r : Result A) (k : A -> Result B) : Result B :=
  match r with Ok a => k a | Err e => Err e end.

(** [fmt.Errorf("prefix: %w", err)] around a failing call. *)
Definition wrap_err {A} (prefix : string) (r : Result A) : Result A :=
  match r with Ok a => Ok a | Err e => Err (prefix +:+ ": " +:+ e) end.

Notation "x <-? c ;; k" := (rbind c (fun x => k))
  (at level 100, c at next level, right associativity) : go_scope.

Lemma rbind_Ok {A B} (r : Result A) (k : A -> Result B) b :
  rbind r k = Ok b <-> exists a, r = Ok a /\ k a = Ok b.
Proof. destruct r; naive_solver. Qed.

Lemma wrap_err_Ok {A} p (r : Result A) a : wrap_err p r = Ok a <-> r = Ok a.
Proof. destruct r; naive_solver. Qed.

(** ** Automation *)

(** Case on every [decide] of the goal; close the cases that are equal, or
    impossible by membership or arithmetic. *)
Ltac by_cases :=
  repeat case_decide; subst; try done; try congruence; try lia; exfalso; set_solver.

(** Case on the condition of the first [if decide ... then] of the goal. *)
Tactic Notation "dec" "as" simple_intropattern(pat) :=
  match goal with
  | |- context [if @decide ?P ?d then _ else _] => destruct (@decide P d) as pat
  end.

(** ** Lists *)
Lemma list_filter_ext_in {A} (P1 P2 : A -> Prop)
    `{!forall x, Decision (P1 x), !forall x, Decision (P2 x)} (l : list A) :
  (forall x, x ∈ l -> P1 x <-> P2 x) -> filter P1 l = filter P2 l.
Proof.
  induction l as [|x l IH]; intros Hiff; [done|]. rewrite !filter_cons.
  rewrite IH by (intros y Hy; apply Hiff; by right).
  pose proof (Hiff x ltac:(left)). repeat case_decide; tauto.
Qed.

Lemma list_filter_all {A} (P : A -> Prop) `{!forall x, Decision (P x)} (l : list A) :
  (forall x, x ∈ l -> P x) -> filter P l = l.
Proof.
  induction l as [|x l IH]; intros Hall; [done|].
  rewrite filter_cons_True by (apply Hall; left). f_equal. apply IH. intros; apply Hall. by right.
Qed.

Lemma list_filter_none {A} (P : A -> Prop) `{!forall x, Decision (P x)} (l : list A) :
  (forall x, x ∈ l -> ~ P x) -> filter P l = [].
Proof.
  induction l as [|x l IH]; intros Hno; [done|].
  rewrite filter_cons_False by (apply Hno; left). apply IH. intros; apply Hno. by right.
Qed.

(** In a sorted list an element of the first [n] has fewer than [n] elements
    strictly before it. *)
Lemma sorted_prefix {A} (R : relation A) `{!RelDecision R} (l : list A) n i x :
  StronglySorted R l -> R x x -> take n l !! i = Some x ->
  length (filter (fun y => ~ R x y) l) < n.
Proof.
  intros Hs Hx Hi. apply lookup_take_Some in Hi as [Hi Hn].
  rewrite <- (take_drop_middle l i x Hi) in Hs |- *.
  apply StronglySorted_app in Hs as (_ & _ & Hs). apply StronglySorted_inv in Hs as [_ Hs].
  rewrite filter_app, filter_cons_False, (list_filter_none _ (drop (S i) l)) by
    first [by intros []|intros y Hy Hny; apply Hny; by apply (proj1 (Forall_forall _ _) Hs)].
  rewrite app_nil_r.
  pose proof (length_filter (fun y => ~ R x y) (take i l)) as Hl. rewrite length_take in Hl. lia.
Qed.

(** Updating one element of a list updates one summand of its flat map. *)
Lemma bind_insert_Permutation {A B} (f : A -> list B) (l : list A) i x y :
  l !! i = Some x ->
  exists rest, l ≫= f ≡ₚ f x ++ rest /\ <[i := y]> l ≫= f ≡ₚ f y ++ rest.
Proof.
  intros Hi. exists ((take i l ++ drop (S i) l) ≫= f).
  rewrite insert_take_drop by (by apply lookup_lt_Some in Hi).
  rewrite <- (take_drop_middle l i x Hi) at 1.
  rewrite !bind_app, !bind_cons. split; by rewrite !app_assoc, (Permutation_app_comm (take i l ≫= f)).
Qed.

(** ** [sort.Slice]

    The sort is not stable: all that is promised is a permutation of the slice
    ordered by the comparison. *)
Class SliceSorter {A} (R : relation A) := {
  sortSlice : list A -> list A;
  sortSlice_perm : forall l, sortSlice l ≡ₚ l;
  sortSlice_sorted : forall l, StronglySorted R (sortSlice l);
}.
Arguments sortSlice {_} _ {_} _.

Definition merge_sorter {A} (R : relation A) `{!RelDecision R, !Total R, !Transitive R} :
  SliceSorter R := {|
  sortSlice := merge_sort R;
  sortSlice_perm l := merge_sort_Permutation R l;
  sortSlice_sorted l := StronglySorted_merge_sort R l;
|}.

(** ** Invariants of a step relation *)
Lemma rtc_invariant {A} (R : relation A) (P : A -> Prop) x y :
  P x -> (forall a b, R a b -> P a -> P b) -> rtc R x y -> P y.
Proof. intros Hx Hstep H; revert Hx; induction H; eauto. Qed.

(** ** Strings *)
Lemma str_app_cons c s t : String c s +:+ t = String c (s +:+ t).
Proof. done. Qed.
Lemma str_app_nil_r s : s +:+ "" = s.
Proof. induction s as [|c s IH]; [done|]. by rewrite str_app_cons, IH. Qed.
Lemma str_app_assoc s t u : (s +:+ t) +:+ u = s +:+ t +:+ u.
Proof. induction s as [|c s IH]; [done|]. by rewrite !str_app_cons, IH. Qed.
Lemma str_length_app s t : String.length (s +:+ t) = String.length s + String.length t.
Proof. induction s as [|c s IH]; [done|]. rewrite str_app_cons; simpl. by rewrite IH. Qed.

(** Byte order of strings is a total preorder. *)
Lemma string_compare_le_trans s : forall t u,
  String.compare s t <> Gt -> String.compare t u <> Gt -> String.compare s u <> Gt.
Proof.
  induction s as [|a s IH]; intros [|b t] [|c u]; simpl; try done. unfold Ascii.compare.
  destruct (N.compare_spec (N_of_ascii a) (N_of_ascii b)) as [E1|L1|G1];
    destruct (N.compare_spec (N_of_ascii b) (N_of_ascii c)) as [E2|L2|G2]; try done; intros H1 H2.
  - rewrite E1, E2, N.compare_refl. by eapply IH.
  - rewrite E1. by rewrite (proj2 (N.compare_lt_iff _ _) L2).
  - rewrite <- E2. by rewrite (proj2 (N.compare_lt_iff _ _) L1).
  - rewrite (proj2 (N.compare_lt_iff _ _)); [done|]. lia.
Qed.

Lemma string_leb_trans s t u :
  String.leb s t = true -> String.leb t u = true -> String.leb s u = true.
Proof.
  unfold String.leb. pose proof (string_compare_le_trans s t u) as H.
  destruct (String.compare s t), (String.compare t u), (String.compare s u); try done; by destruct H.
Qed.

(** Go's [<=] on strings, which is bytewise, and [sort.Strings]. *)
Definition string_le (s t : string) : Prop := String.leb s t = true.
#[export] Instance string_le_dec : RelDecision string_le.
Proof. intros s t. unfold string_le. apply _. Defined.
#[export] Instance string_le_total : Total string_le.
Proof. intros s t. apply String.leb_total. Qed.
#[export] Instance string_le_trans : Transitive string_le.
Proof. intros s t u. apply string_leb_trans. Qed.
Definition sort_strings (l : list string) : list string := merge_sort string_le l.

(** Rewriting of string concatenations and lengths. *)
#[export] Hint Rewrite str_app_cons str_app_nil_r str_length_app : go_string.

(** ** Machine integers

    Go's [int] and [int64] are 64-bit two's complement: arithmetic wraps. *)
Definition minInt64 : Z := - 2 ^ 63.
Definition maxInt64 : Z := 2 ^ 63 - 1.
Definition in_int64 (z : Z) : Prop := (minInt64 <= z <= maxInt64)%Z.
Definition wrap64 (z : Z) : Z := ((z + 2 ^ 63) mod 2 ^ 64 - 2 ^ 63)%Z.

Lemma wrap64_range z : in_int64 (wrap64 z).
Proof.
  unfold in_int64, wrap64, minInt64, maxInt64.
  pose proof (Z.mod_pos_bound (z + 2 ^ 63) (2 ^ 64) ltac:(lia)). lia.
Qed.

Lemma wrap64_id z : in_int64 z -> wrap64 z = z.
Proof.
  unfold in_int64, wrap64, minInt64, maxInt64. intros ?.
  rewrite Z.mod_small; lia.
Qed.

Create HintDb go.
#[export] Hint Resolve wrap64_range wrap64_id list_filter_all list_filter_none list_filter_ext_in : go.

#[export] Instance in_int64_dec z : Decision (in_int64 z).
Proof. unfold in_int64. apply _. Defined.

(** ** Time

    A [time.Time] is the number of nanoseconds since Go's zero time (January 1,
    year 1, 00:00:00 UTC), so [IsZero] is [t = 0] and [Truncate] rounds the
    number itself, as the package documents.  A [time.Duration] is a number of
    nanoseconds. *)
Abbreviation time := Z (only parsing).
Abbreviation duration := Z (only parsing).

Definition Nanosecond : duration := 1.
Definition Millisecond : duration := 1000000.
Definition Second : duration := 1000000000.
Definition Minute : duration := 60000000000.
Definition Hour : duration := 3600000000000.
Definition Day : duration := 86400000000000.

Definition IsZero (t : time) : bool := (t =? 0)%Z.
Definition After (t u : time) : bool := (u <? t)%Z.
Definition Before (t u : time) : bool := (t <? u)%Z.
(** [t.Sub(u)] saturates instead of wrapping. *)
Definition Sub (t u : time) : duration := Z.max minInt64 (Z.min maxInt64 (t - u)).
Definition Truncate (t : time) (d : duration) : time := (t - t mod d)%Z.
(** Seconds from the zero time to the Unix epoch. *)
Definition unixToInternal : Z := 62135596800.
Definition Unix (t : time) : Z := (t / Second - unixToInternal)%Z.
(** Midnight UTC of the day of [t], and its day number. *)
Definition dayNumber (t : time) : Z := (t / Day)%Z.

(** [fmt]'s [%d] verb. *)
Definition itoa (z : Z) : string := pretty z.

(** [fmt]'s [%q] verb ([strconv.Quote]): the quote, the backslash and the
    control bytes are escaped; printable UTF-8 is copied. *)
Definition dquote : ascii := "034"%char.
Definition backslash : ascii := "092"%char.
Definition hexdigit (n : N) : ascii :=
  ascii_of_N (if (n <? 10)%N then 48 + n else 87 + n).
Definition quote_char (c : ascii) : string :=
  let n := N_of_ascii c in
  if decide (c = dquote) then String backslash (String dquote "")
  else if decide (c = backslash) then String backslash (String backslash "")
  else if decide (n = 7)%N then String backslash "a"
  else if decide (n = 8)%N then String backslash "b"
  else if decide (n = 9)%N then String backslash "t"
  else if decide (n = 10)%N then String backslash "n"
  else if decide (n = 11)%N then String backslash "v"
  else if decide (n = 12)%N then String backslash "f"
  else if decide (n = 13)%N then String backslash "r"
  else if decide (n < 32 \/ n = 127)%N then
    String backslash (String "x" (String (hexdigit (n / 16)) (String (hexdigit (n mod 16)) "")))
  else String c "".
Fixpoint quote_body (s : string) : string :=
  match s with
  | "" => ""
  | String c s' => quote_char c +:+ quote_body s'
  end.
Definition quote (s : string) : string :=
  String dquote (quote_body s +:+ String dquote "").
