(* ===== verification/Calendar.v ===== *)
(** * Calendar: the parts of Go's [time] package the program computes with

    Civil dates of the proleptic Gregorian calendar, weekdays, [time.Date]'s
    inverse on normalised fields and the RFC 3339 text of a UTC time.  Days are
    numbered from January 1 of year 1, as in Prelude. *)
From S2P Require Import Prelude.

Record civil := { c_year : Z; c_month : Z; c_day : Z }.

#[export] Instance civil_eq_dec : EqDecision civil.
Proof. solve_decision. Defined.

Definition daysPer400Years : Z := 146097.
Definition daysBeforeMarch : Z := 306.

(** Day [doe] of a 400-year era that starts on March 1: year of the era (from
    March), month and day of month. *)
Definition era_civil (doe : Z) : Z * Z * Z :=
  let yoe := ((doe - doe / 1460 + doe / 36524 - doe / 146096) / 365)%Z in
  let doy := (doe - (365 * yoe + yoe / 4 - yoe / 100))%Z in
  let mp := ((5 * doy + 2) / 153)%Z in
  (yoe, (if mp <? 10 then mp + 3 else mp - 9)%Z, (doy - (153 * mp + 2) / 5 + 1)%Z).

Definition civil_of_days (d : Z) : civil :=
  let z := (d + daysBeforeMarch)%Z in
  let '(yoe, m, day) := era_civil (z mod daysPer400Years) in
  {| c_year := (yoe + 400 * (z / daysPer400Years) + (if m <=? 2 then 1 else 0))%Z;
     c_month := m; c_day := day |}.

Definition days_of_civil (c : civil) : Z :=
  let y := (c_year c - (if c_month c <=? 2 then 1 else 0))%Z in
  let yoe := (y mod 400)%Z in
  let mp := (if c_month c <=? 2 then c_month c + 9 else c_month c - 3)%Z in
  ((y / 400) * daysPer400Years + (yoe * 365 + yoe / 4 - yoe / 100)
   + ((153 * mp + 2) / 5 + c_day c - 1) - daysBeforeMarch)%Z.

Definition isLeap (y : Z) : bool :=
  ((y mod 4 =? 0) && (negb (y mod 100 =? 0) || (y mod 400 =? 0)))%Z.

Definition daysIn (y m : Z) : Z :=
  (if (m =? 2) then (if isLeap y then 29 else 28)
   else if (m =? 4) || (m =? 6) || (m =? 9) || (m =? 11) then 30 else 31)%Z.

(** [time.Weekday]: Sunday is 0; January 1 of year 1 is a Monday. *)
Definition weekday_of_days (d : Z) : Z := ((d + 1) mod 7)%Z.

(** ** Civil dates and day numbers correspond *)

(** First day of year [y] of an era (years of an era start in March). *)
Definition era_start (y : Z) : Z := (365 * y + y / 4 - y / 100 + y / 400)%Z.

Definition era_year (doe : Z) : Z := ((doe - doe / 1460 + doe / 36524 - doe / 146096) / 365)%Z.

Lemma era_year_mono d d' : (0 <= d <= d')%Z -> (era_year d <= era_year d')%Z.
Proof.
  intros Hd. unfold era_year. apply Z.div_le_mono; [lia|].
  pose proof (Z.div_mod d 1460 ltac:(lia)). pose proof (Z.mod_pos_bound d 1460 ltac:(lia)).
  pose proof (Z.div_mod d' 1460 ltac:(lia)). pose proof (Z.mod_pos_bound d' 1460 ltac:(lia)).
  pose proof (Z.div_le_mono d d' 36524 ltac:(lia) ltac:(lia)).
  pose proof (Z.div_mod d 36524 ltac:(lia)). pose proof (Z.mod_pos_bound d 36524 ltac:(lia)).
  pose proof (Z.div_mod d' 36524 ltac:(lia)). pose proof (Z.mod_pos_bound d' 36524 ltac:(lia)).
  pose proof (Z.div_mod d 146096 ltac:(lia)). pose proof (Z.mod_pos_bound d 146096 ltac:(lia)).
  pose proof (Z.div_mod d' 146096 ltac:(lia)). pose proof (Z.mod_pos_bound d' 146096 ltac:(lia)).
  lia.
Qed.

(** One year of an era and one day of a year, decided by computation. *)
Definition era_year_ok (y : Z) : bool :=
  ((era_year (era_start y) =? y) && (era_year (era_start (y + 1) - 1) =? y) &&
   (era_start (y + 1) - era_start y =? if isLeap (y + 1) then 366 else 365))%Z.

Definition era_day_ok (doy : Z) : bool :=
  let mp := ((5 * doy + 2) / 153)%Z in
  let m := (if mp <? 10 then mp + 3 else mp - 9)%Z in
  let d := (doy - (153 * mp + 2) / 5 + 1)%Z in
  let mp' := (if m <=? 2 then m + 9 else m - 3)%Z in
  ((1 <=? m) && (m <=? 12) && (1 <=? d) &&
   (d <=? if m =? 2 then (if doy <=? 364 then 28 else 29) else daysIn 1 m) &&
   ((153 * mp' + 2) / 5 + d - 1 =? doy))%Z.

Lemma forallb_seqZ (f : Z -> bool) n : forallb f (seqZ 0 n) = true ->
  forall x, (0 <= x < n)%Z -> f x = true.
Proof.
  rewrite forallb_forall. intros H x Hx. apply H, list_elem_of_In, elem_of_seqZ. lia.
Qed.

Lemma era_year_all y : (0 <= y < 400)%Z -> era_year_ok y = true.
Proof. apply forallb_seqZ. vm_compute. reflexivity. Qed.

Lemma era_day_all doy : (0 <= doy < 366)%Z -> era_day_ok doy = true.
Proof. apply forallb_seqZ. vm_compute. reflexivity. Qed.

Lemma era_split (n : nat) doe : (0 <= doe < era_start (Z.of_nat n))%Z ->
  exists y, (0 <= y < Z.of_nat n)%Z /\ (era_start y <= doe < era_start (y + 1))%Z.
Proof.
  induction n as [|n IH]; intros Hd; [change (era_start (Z.of_nat 0)) with 0%Z in Hd; lia|].
  destruct (Z.lt_ge_cases doe (era_start (Z.of_nat n))) as [Hlt|Hge].
  - destruct IH as (y & Hy & Hr); [lia|]. exists y. split; [lia|done].
  - exists (Z.of_nat n). split; [lia|]. rewrite Nat2Z.inj_succ, <- Z.add_1_r in Hd. lia.
Qed.

Lemma era_civil_spec doe : (0 <= doe < daysPer400Years)%Z ->
  exists yoe m d, era_civil doe = (yoe, m, d) /\ (0 <= yoe < 400)%Z /\ (1 <= m <= 12)%Z /\
    (1 <= d <= daysIn (yoe + (if m <=? 2 then 1 else 0)) m)%Z /\
    (era_start yoe + ((153 * (if m <=? 2 then m + 9 else m - 3) + 2) / 5 + d - 1) = doe)%Z.
Proof.
  intros Hdoe. destruct (era_split 400 doe Hdoe) as (y & Hy & Hr).
  pose proof (era_year_all y Hy) as Hok. unfold era_year_ok in Hok.
  rewrite !andb_true_iff, !Z.eqb_eq in Hok. destruct Hok as [[Ha Hb] Hc].
  assert (Hys : (0 <= era_start y)%Z).
  { unfold era_start. pose proof (Z.div_le_mono y y 4). pose proof (Z.div_pos y 4). pose proof (Z.div_le_upper_bound y 100 y). pose proof (Z.div_pos y 400). lia. }
  assert (Hyear : era_year doe = y).
  { pose proof (era_year_mono (era_start y) doe ltac:(lia)).
    pose proof (era_year_mono doe (era_start (y + 1) - 1) ltac:(lia)). lia. }
  assert (Hdoy : (0 <= doe - era_start y < 366)%Z) by (destruct (isLeap (y + 1)); lia).
  pose proof (era_day_all _ Hdoy) as Hday. unfold era_day_ok in Hday.
  assert (Heq : era_civil doe = (y, (let mp := (5 * (doe - era_start y) + 2) / 153 in if mp <? 10 then mp + 3 else mp - 9)%Z,
     (doe - era_start y - (153 * ((5 * (doe - era_start y) + 2) / 153) + 2) / 5 + 1)%Z)).
  { unfold era_civil. fold (era_year doe). rewrite Hyear. unfold era_start.
    by rewrite (Z.div_small y 400), Z.add_0_r by lia. }
  rewrite Heq. clear Heq. cbv zeta in *.
  set (m := (if (_ <? 10)%Z then _ else _)) in *. set (d := (doe - era_start y - _ + 1)%Z) in *.
  rewrite !andb_true_iff, !Z.leb_le, Z.eqb_eq in Hday. destruct Hday as [[[[H1 H2] H3] H4] H5].
  exists y, m, d. split; [done|]. split; [done|]. split; [done|]. split; [|lia]. split; [done|].
  etrans; [exact H4|]. unfold daysIn. destruct (Z.eqb_spec m 2) as [->|Hm]; [|done].
  change (2 <=? 2)%Z with true. cbv iota.
  destruct (isLeap (y + 1)), (Z.leb_spec (doe - era_start y) 364); lia.
Qed.

Lemma isLeap_400 y k : isLeap (y + 400 * k) = isLeap y.
Proof.
  unfold isLeap.
  assert (H4 : ((y + 400 * k) mod 4 = y mod 4)%Z) by (replace (400 * k)%Z with ((100 * k) * 4)%Z by lia; apply Z_mod_plus_full).
  assert (H100 : ((y + 400 * k) mod 100 = y mod 100)%Z) by (replace (400 * k)%Z with ((4 * k) * 100)%Z by lia; apply Z_mod_plus_full).
  assert (H400 : ((y + 400 * k) mod 400 = y mod 400)%Z) by (replace (400 * k)%Z with (k * 400)%Z by lia; apply Z_mod_plus_full).
  by rewrite H4, H100, H400.
Qed.

Lemma daysIn_400 y k m : daysIn (y + 400 * k) m = daysIn y m.
Proof. unfold daysIn. by rewrite isLeap_400. Qed.

Record valid_civil (c : civil) : Prop := {
  valid_month : (1 <= c_month c <= 12)%Z;
  valid_day : (1 <= c_day c <= daysIn (c_year c) (c_month c))%Z;
}.

Lemma civil_of_days_spec d :
  days_of_civil (civil_of_days d) = d /\ valid_civil (civil_of_days d).
Proof.
  unfold civil_of_days. set (z := (d + daysBeforeMarch)%Z).
  destruct (era_civil_spec (z mod daysPer400Years)) as (yoe & m & day & -> & Hy & Hm & Hd & Hz);
    [by apply Z.mod_pos_bound|].
  split.
  - unfold days_of_civil; simpl.
    replace (yoe + 400 * (z / daysPer400Years) + (if m <=? 2 then 1 else 0) - (if m <=? 2 then 1 else 0))%Z
      with (yoe + (z / daysPer400Years) * 400)%Z by lia.
    rewrite Z_mod_plus_full, Z.mod_small by lia.
    rewrite Z_div_plus_full by lia. rewrite (Z.div_small yoe) by lia.
    pose proof (Z.div_mod z daysPer400Years ltac:(done)). unfold era_start in Hz.
    rewrite (Z.div_small yoe 400) in Hz by lia. subst z. lia.
  - split; simpl; [lia|]. split; [lia|].
    replace (yoe + 400 * (z / daysPer400Years) + (if m <=? 2 then 1 else 0))%Z
      with (yoe + (if m <=? 2 then 1 else 0) + 400 * (z / daysPer400Years))%Z by lia.
    rewrite daysIn_400. apply Hd.
Qed.

Lemma civil_of_days_inj d d' : civil_of_days d = civil_of_days d' -> d = d'.
Proof.
  intros H. rewrite <- (proj1 (civil_of_days_spec d)), H. apply civil_of_days_spec.
Qed.

(** ** Fields of a time *)
Definition Date (t : time) : civil := civil_of_days (dayNumber t).
Definition Year (t : time) : Z := c_year (Date t).
Definition Month (t : time) : Z := c_month (Date t).
Definition DayOf (t : time) : Z := c_day (Date t).
Definition Weekday (t : time) : Z := weekday_of_days (dayNumber t).
Definition HourOf (t : time) : Z := ((t mod Day) / Hour)%Z.
Definition MinuteOf (t : time) : Z := ((t mod Hour) / Minute)%Z.
Definition SecondOf (t : time) : Z := ((t mod Minute) / Second)%Z.
Definition NanosecondOf (t : time) : Z := (t mod Second)%Z.

(** ** [t.UTC().Format(time.RFC3339Nano)] *)
Definition zpad (n : nat) (z : Z) : string :=
  let s := itoa z in Nat.iter (n - String.length s) (fun s => "0" +:+ s) s.

(** The fraction without its trailing zeros, and nothing when it is zero. *)
Definition nano_text (ns : Z) : string :=
  if (ns =? 0)%Z then ""
  else let fix strip (n : nat) (z : Z) : string :=
         match n with
         | O => zpad n z
         | S n' => if (z mod 10 =? 0)%Z then strip n' (z / 10)%Z else zpad n z
         end in "." +:+ strip 9%nat ns.

Definition RFC3339Nano (t : time) : string :=
  zpad 4 (Year t) +:+ "-" +:+ zpad 2 (Month t) +:+ "-" +:+ zpad 2 (DayOf t) +:+ "T" +:+
  zpad 2 (HourOf t) +:+ ":" +:+ zpad 2 (MinuteOf t) +:+ ":" +:+ zpad 2 (SecondOf t) +:+
  nano_text (NanosecondOf t) +:+ "Z".

(** [t.UTC().Format(time.RFC3339)] and [t.UTC().Format("2006-01-02")]. *)
Definition DateOnly (t : time) : string :=
  zpad 4 (Year t) +:+ "-" +:+ zpad 2 (Month t) +:+ "-" +:+ zpad 2 (DayOf t).
Definition RFC3339 (t : time) : string :=
  DateOnly t +:+ "T" +:+
  zpad 2 (HourOf t) +:+ ":" +:+ zpad 2 (MinuteOf t) +:+ ":" +:+ zpad 2 (SecondOf t) +:+ "Z".

(** [t.UTC().Format("2006-01-02T15:04:05.000Z")]: milliseconds, truncated. *)
Definition RFC3339Milli (t : time) : string :=
  DateOnly t +:+ "T" +:+
  zpad 2 (HourOf t) +:+ ":" +:+ zpad 2 (MinuteOf t) +:+ ":" +:+ zpad 2 (SecondOf t) +:+ "." +:+
  zpad 3 (NanosecondOf t / Millisecond) +:+ "Z".
