(* ===== verification/GoStr.v ===== *)
(** * GoStr: the parts of Go's [strings] and [strconv] packages the program uses

    Strings are byte strings, as in Go. *)
From S2P Require Import Prelude.

(** [strings.IndexByte], as the text before and after the first occurrence. *)
Fixpoint cut (c : ascii) (s : string) : option (string * string) :=
  match s with
  | "" => None
  | String d s' =>
      if decide (d = c) then Some ("", s')
      else '(a, b) ← cut c s'; Some (String d a, b)
  end.

(** [strings.Contains] of a one-byte needle. *)
Definition contains_byte (c : ascii) (s : string) : bool :=
  match cut c s with Some _ => true | None => false end.

(** [strings.Split] at a one-byte separator: the empty string is one empty part. *)
Fixpoint split (c : ascii) (s : string) : list string :=
  match s with
  | "" => [""]
  | String d s' =>
      if decide (d = c) then "" :: split c s'
      else match split c s' with
           | p :: ps => String d p :: ps
           | [] => [String d ""]
           end
  end.

(** [strings.SplitN] at a one-byte separator, with n = 2. *)
Definition splitN2 (c : ascii) (s : string) : list string :=
  match cut c s with Some (a, b) => [a; b] | None => [s] end.

(** The number of bytes of the white space rune ([unicode.IsSpace]) a string
    starts with, 0 when it starts with something else. *)
Definition space_prefix (s : string) : nat :=
  match s with
  | "" => 0
  | String a s1 =>
      let x := N_of_ascii a in
      if decide ((9 <= x <= 13) \/ x = 32)%N then 1
      else match s1 with
      | "" => 0
      | String b s2 =>
          let y := N_of_ascii b in
          if decide (x = 194 /\ (y = 133 \/ y = 160))%N then 2
          else match s2 with
          | "" => 0
          | String c _ =>
              let z := N_of_ascii c in
              if decide ((x = 225 /\ y = 154 /\ z = 128) \/
                         (x = 226 /\ y = 128 /\ ((128 <= z <= 138) \/ z = 168 \/ z = 169 \/ z = 175)) \/
                         (x = 226 /\ y = 129 /\ z = 159) \/
                         (x = 227 /\ y = 128 /\ z = 128))%N then 3
              else 0
          end
      end
  end.

Fixpoint drop_bytes (n : nat) (s : string) : string :=
  match n, s with S n', String _ s' => drop_bytes n' s' | _, _ => s end.

(** [strings.Fields].  [word] is the field being read, backwards; the fuel is the
    number of bytes. *)
Fixpoint fields_loop (fuel : nat) (word : string) (s : string) : list string :=
  match fuel with
  | O => if decide (word = "") then [] else [word]
  | S fuel' =>
      match s with
      | "" => if decide (word = "") then [] else [word]
      | String c s' =>
          match space_prefix s with
          | O => fields_loop fuel' (word +:+ String c "") s'
          | n => if decide (word = "") then fields_loop fuel' "" (drop_bytes n s)
                 else word :: fields_loop fuel' "" (drop_bytes n s)
          end
      end
  end.
Definition Fields (s : string) : list string := fields_loop (String.length s) "" s.

(** [strconv.Atoi]: an optional sign and decimal digits, in the range of int. *)
Definition digit (c : ascii) : option Z :=
  let n := N_of_ascii c in
  if decide (48 <= n <= 57)%N then Some (Z.of_N n - 48)%Z else None.
Fixpoint digits (acc : Z) (s : string) : option Z :=
  match s with
  | "" => Some acc
  | String c s' => d ← digit c; digits (acc * 10 + d)%Z s'
  end.
Definition unsigned (s : string) : option Z := if decide (s = "") then None else digits 0 s.
Definition Atoi (s : string) : option Z :=
  v ← match s with
      | String "-" s' => Z.opp <$> unsigned s'
      | String "+" s' => unsigned s'
      | _ => unsigned s
      end;
  if decide (in_int64 v) then Some v else None.

(** ** Size of a parsed number *)
Lemma digit_range c d : digit c = Some d -> (0 <= d <= 9)%Z.
Proof. unfold digit. case_decide; [|done]. intros [= <-]. lia. Qed.

Lemma digits_bound s : forall acc v, (0 <= acc)%Z -> digits acc s = Some v ->
  (0 <= v < (acc + 1) * 10 ^ Z.of_nat (String.length s))%Z.
Proof.
  induction s as [|c s IH]; intros acc v Hacc; simpl digits.
  - intros [= <-]. simpl. lia.
  - intros (d & Hd%digit_range & H)%bind_Some. apply IH in H; [|lia].
    change (String.length (String c s)) with (S (String.length s)).
    rewrite Nat2Z.inj_succ, Z.pow_succ_r by lia. nia.
Qed.

Lemma Atoi_bound s v : Atoi s = Some v -> (Z.abs v < 10 ^ Z.of_nat (String.length s))%Z.
Proof.
  unfold Atoi. intros (v' & Hv & H)%bind_Some. case_decide; [|done]. injection H as ->.
  assert (Hu : forall t n, unsigned t = Some n -> (0 <= n < 10 ^ Z.of_nat (String.length t))%Z).
  { intros t n. unfold unsigned. case_decide; [done|]. intros Ht. apply digits_bound in Ht; lia. }
  assert (Hm : forall t, (10 ^ Z.of_nat (String.length t) <= 10 ^ Z.of_nat (S (String.length t)))%Z).
  { intros t. apply Z.pow_le_mono_r; lia. }
  assert (Hplain : unsigned s = Some v -> (Z.abs v < 10 ^ Z.of_nat (String.length s))%Z).
  { intros Ht%Hu. lia. }
  destruct s as [|c s]; [by apply Hplain|]. specialize (Hm s).
  change (String.length (String c s)) with (S (String.length s)) in *.
  destruct c as [[] [] [] [] [] [] [] []]; try (by apply Hplain).
  - apply Hu in Hv. lia.
  - apply fmap_Some in Hv as (n & Hn%Hu & ->). lia.
Qed.

Lemma cut_spec c s a b : cut c s = Some (a, b) -> s = a +:+ String c b.
Proof.
  revert a b. induction s as [|d s IH]; intros a b; simpl; [done|].
  case_decide; subst; [by intros [= <- <-]|].
  intros ([a' b'] & Hc & [= <- <-])%bind_Some. rewrite str_app_cons. f_equal. by apply IH.
Qed.

Lemma split_app_sep c a b : split c (a +:+ String c b) = split c a ++ split c b.
Proof.
  induction a as [|d a IH]; [change ("" +:+ ?x) with x; cbn [split]; by rewrite decide_True|]. change (String d a +:+ ?x) with (String d (a +:+ x)). cbn [split]. rewrite IH.
  case_decide; [done|]. destruct (split c a) as [|p ps] eqn:E; [|done]. destruct a; cbn in E; [done|]. repeat case_match; done.
Qed.

Lemma split_length c s p : p ∈ split c s -> String.length p <= String.length s.
Proof.
  revert p. induction s as [|d s IH]; intros p; simpl split.
  - intros ->%list_elem_of_singleton. done.
  - change (String.length (String d s)) with (S (String.length s)). case_decide.
    + intros [->|Hp]%elem_of_cons; [simpl; lia|]. apply IH in Hp. lia.
    + destruct (split c s) as [|q qs] eqn:E.
      * intros ->%list_elem_of_singleton. simpl. lia.
      * intros [->|Hp]%elem_of_cons.
        -- simpl. specialize (IH q ltac:(left)). lia.
        -- specialize (IH p ltac:(by right)). lia.
Qed.

(** ** Searching and replacing *)

(** [s[i:i+len(p)] == p] at the head. *)
Fixpoint has_prefix (p s : string) : bool :=
  match p, s with
  | "", _ => true
  | String a p', String b s' => bool_decide (a = b) && has_prefix p' s'
  | String _ _, "" => false
  end.

Lemma has_prefix_spec p s : has_prefix p s = true <-> exists t, s = p +:+ t.
Proof.
  revert s. induction p as [|a p IH]; intros s; simpl.
  - split; [|done]. intros _. by exists s.
  - destruct s as [|b s]; [split; [done|by intros [t [=]]]|].
    rewrite andb_true_iff, bool_decide_eq_true, IH. split.
    + intros [-> [t ->]]. by exists t.
    + intros [t Ht]. rewrite str_app_cons in Ht. injection Ht as -> ->. eauto.
Qed.

Lemma drop_bytes_app p t : drop_bytes (String.length p) (p +:+ t) = t.
Proof. induction p as [|a p IH]; [done|]. apply IH. Qed.

(** [strings.Index], as the text before and after the first occurrence of [old]. *)
Fixpoint find (old s : string) : option (string * string) :=
  if has_prefix old s then Some ("", drop_bytes (String.length old) s)
  else match s with
       | "" => None
       | String c s' => '(a, b) ← find old s'; Some (String c a, b)
       end.

(** [strings.Contains] *)
Definition Contains (s sub : string) : bool := if find sub s is None then false else true.
Lemma find_spec old s a b : find old s = Some (a, b) -> s = a +:+ old +:+ b.
Proof.
  revert a b. induction s as [|c s IH]; intros a b; simpl.
  - destruct old as [|o old]; [by intros [= <- <-]|done].
  - destruct (has_prefix old (String c s)) eqn:E.
    + apply has_prefix_spec in E as [t Ht]. intros [= <- <-]. rewrite Ht, drop_bytes_app. done.
    + intros ([a' b'] & Hf & [= <- <-])%bind_Some. rewrite str_app_cons. f_equal. by apply IH.
Qed.

Lemma find_prefix old s t : find old s <> None -> find old (t +:+ s) <> None.
Proof.
  intros H. induction t as [|c t IH]; [done|]. rewrite str_app_cons. simpl.
  case_match; [done|]. by destruct (find old (t +:+ s)) as [[? ?]|].
Qed.

Lemma has_prefix_app old s t : has_prefix old s = true -> has_prefix old (s +:+ t) = true.
Proof.
  rewrite !has_prefix_spec. intros [u ->]. exists (u +:+ t). by rewrite str_app_assoc.
Qed.

Lemma find_suffix old s t : find old s <> None -> find old (s +:+ t) <> None.
Proof.
  induction s as [|c s IH]; simpl.
  - destruct (has_prefix old "") eqn:E; [|done]. intros _. apply (has_prefix_app _ _ t) in E.
    change ("" +:+ t) with t in *. destruct t; simpl in *; by rewrite E.
  - destruct (has_prefix old (String c s)) eqn:E.
    + intros _. apply (has_prefix_app _ _ t) in E. rewrite str_app_cons in E. by rewrite E.
    + intros H. simpl. case_match; [done|].
      destruct (find old s) as [[? ?]|]; [|done]. specialize (IH ltac:(done)).
      by destruct (find old (s +:+ t)) as [[? ?]|].
Qed.

Lemma Contains_part s t u : Contains s (t +:+ u) = true -> Contains s u = true.
Proof.
  unfold Contains. destruct (find (t +:+ u) s) as [[a b]|] eqn:E; [|done]. intros _. apply find_spec in E as ->.
  rewrite !str_app_assoc. pose proof (find_prefix u (u +:+ b) (a +:+ t)) as H. rewrite str_app_assoc in H.
  destruct (find u (a +:+ t +:+ u +:+ b)); [done|]. exfalso. apply H; [|done].
  pose proof (find_suffix u u b) as Hs. intros Hn. apply Hs; [|done]. destruct u as [|c u]; [done|]. cbn [find].
  assert (has_prefix (String c u) (String c u) = true) as -> by (apply has_prefix_spec; exists ""; by rewrite str_app_nil_r). done.
Qed.

(** A word without [x] is not found across an [x]. *)
Lemma has_prefix_across x w c rest : contains_byte x w = false -> has_prefix w (c +:+ String x rest) = true -> has_prefix w c = true.
Proof.
  revert c. induction w as [|d w IH]; intros c Hw; [done|].
  assert (d <> x /\ contains_byte x w = false) as [Hd Hw'].
  { unfold contains_byte in *. cbn [cut] in Hw. case_decide; [done|]. split; [done|]. by destruct (cut x w) as [[? ?]|]. }
  destruct c as [|e c].
  - change ("" +:+ String x rest) with (String x rest). cbn. case_bool_decide; [done|discriminate].
  - rewrite str_app_cons. cbn. case_bool_decide; [|done]. cbn. by apply IH.
Qed.
Lemma find_line x w c rest : contains_byte x w = false -> w <> "" -> Contains c w = false ->
  find w (c +:+ String x rest) = '(a, b) ← find w rest; Some (c +:+ String x a, b).
Proof.
  intros Hx Hw. unfold Contains. induction c as [|d c IH]; intros Hc.
  - change ("" +:+ ?t) with t. cbn [find]. destruct (has_prefix w (String x rest)) eqn:E; [|by destruct (find w rest) as [[? ?]|]].
    apply (has_prefix_across x w "" rest Hx) in E. by destruct w.
  - cbn [find] in Hc. rewrite str_app_cons. cbn [find].
    destruct (has_prefix w (String d (c +:+ String x rest))) eqn:E.
    { apply (has_prefix_across x w (String d c) rest Hx) in E. by rewrite E in Hc. }
    destruct (has_prefix w (String d c)); [done|]. rewrite IH by (by destruct (find w c) as [[? ?]|]).
    by destruct (find w rest) as [[? ?]|].
Qed.
Lemma has_prefix_shorter w u rest : String.length w <= String.length u -> has_prefix w (u +:+ rest) = true -> has_prefix w u = true.
Proof.
  revert u. induction w as [|c w IH]; intros u Hl; [done|]. destruct u as [|d u]; [cbn in Hl; lia|].
  rewrite str_app_cons. cbn in *. case_bool_decide; [|done]. cbn. apply IH. lia.
Qed.
(** What follows the first occurrence does not move it. *)
Lemma find_leftmost w pre rest : find w (pre +:+ w) = Some (pre, "") -> find w (pre +:+ w +:+ rest) = Some (pre, rest).
Proof.
  induction pre as [|c pre IH].
  - intros _. change ("" +:+ ?t) with t. assert (has_prefix w (w +:+ rest) = true) as Hp by (apply has_prefix_spec; eauto).
    destruct (w +:+ rest) eqn:E; cbn [find]; rewrite Hp, <- E, drop_bytes_app; done.
  - rewrite !str_app_cons. cbn [find]. destruct (has_prefix w (String c (pre +:+ w))) eqn:E; [done|].
    intros ([a b] & Hf & [= -> ->])%bind_Some. rewrite IH by done. cbn.
    destruct (has_prefix w (String c (pre +:+ w +:+ rest))) eqn:E'; [|done].
    exfalso. rewrite <- str_app_assoc in E'. change (String c ((pre +:+ w) +:+ rest)) with (String c (pre +:+ w) +:+ rest) in E'.
    apply has_prefix_shorter in E'; [congruence|]. cbn. rewrite str_length_app. lia.
Qed.

(** [strings.ReplaceAll] of a non-empty [old]; the fuel is the number of bytes. *)
Fixpoint replace_loop (fuel : nat) (old new s : string) : string :=
  match fuel with
  | O => s
  | S fuel' =>
      match find old s with
      | None => s
      | Some (a, b) => a +:+ new +:+ replace_loop fuel' old new b
      end
  end.
Definition ReplaceAll (s old new : string) : string := replace_loop (String.length s) old new s.

(** [strings.TrimSpace]. *)
Fixpoint trim_left (fuel : nat) (s : string) : string :=
  match fuel with
  | O => s
  | S fuel' => match space_prefix s with O => s | n => trim_left fuel' (drop_bytes n s) end
  end.
Fixpoint take_bytes (n : nat) (s : string) : string :=
  match n, s with S n', String c s' => String c (take_bytes n' s') | _, _ => "" end.
Lemma take_bytes_le n : forall s, (String.length (take_bytes n s) <= n)%nat.
Proof. induction n as [|n IH]; intros [|c s]; cbn; [lia|lia|lia|]. specialize (IH s). lia. Qed.
(** The number of bytes of the white space rune a string ends with. *)
Definition space_suffix (s : string) : nat :=
  let len := String.length s in
  let ends n := bool_decide (n <= len) && bool_decide (space_prefix (drop_bytes (len - n) s) = n) in
  if ends 1 then 1 else if ends 2 then 2 else if ends 3 then 3 else 0.
Fixpoint trim_right (fuel : nat) (s : string) : string :=
  match fuel with
  | O => s
  | S fuel' => match space_suffix s with O => s | n => trim_right fuel' (take_bytes (String.length s - n) s) end
  end.
Definition TrimSpace (s : string) : string :=
  let l := trim_left (String.length s) s in trim_right (String.length l) l.

(** [strings.Join]. *)
Fixpoint Join (parts : list string) (sep : string) : string :=
  match parts with
  | [] => ""
  | [p] => p
  | p :: ps => p +:+ sep +:+ Join ps sep
  end.
