(* ===== verification/Kernel.v ===== *)
(** * Kernel: module registry, boot order and lifecycle

    [src/kernel/kernel.go] and [src/kernel/module.go].  The registry is a map of
    modules with their state; [topoSort] is the code's queue of modules whose
    dependencies are placed (Kahn's algorithm), its loop bounded by the number of
    modules plus one (the fuel is proved enough).  A module is an opaque party: what its [Init], [Start], [Stop]
    and [Health] return is an argument, and the calls made are logged in order, so
    that the theorems speak about every call.  Registration, configuration loading,
    boot, shutdown and the reports are all here; contexts and logging are not. *)
From S2P Require Import Prelude.

(** ** Data *)

(* [kernel/module.go:ModuleState] *)
Inductive ModuleState :=
  | ModuleStateRegistered
  | ModuleStateInitialized
  | ModuleStateRunning
  | ModuleStateStopped
  | ModuleStateFailed.

#[export] Instance ModuleState_eq_dec : EqDecision ModuleState.
Proof. solve_decision. Defined.

(* [kernel/module.go:ModuleState.String] *)
Definition ModuleState_String (s : ModuleState) : string :=
  match s with
  | ModuleStateRegistered => "registered"
  | ModuleStateInitialized => "initialized"
  | ModuleStateRunning => "running"
  | ModuleStateStopped => "stopped"
  | ModuleStateFailed => "failed"
  end.

(* [kernel/module.go:HealthStatus] *)
Record HealthStatus := { Healthy : bool; hs_Message : string }.

(** The part of a [Module] the kernel reads before it runs it; what its
    [Init], [Start], [Stop] and [Health] do is the environment's, see
    [outcome] below. *)
(* [kernel/module.go:Module] *)
Record Module_ := { Name : string; Dependencies : list string }.

(* [kernel/kernel.go:moduleEntry] *)
Record moduleEntry := { me_module : Module_; me_state : ModuleState }.

(** The calls the kernel makes on modules, as a log, oldest first. *)
Inductive call :=
  | CInit (name : string)
  | CStart (name : string)
  | CStop (name : string).

(* [kernel/kernel.go:Kernel] *)
Record Kernel := {
  modules : list moduleEntry;
  moduleIndex : gmap string nat;
  running : bool;
  configLoaded : bool;
  bootOrder : list nat;
  calls : list call;
}.

(* [kernel/kernel.go:New] *)
Definition New : Kernel :=
  {| modules := []; moduleIndex := ∅; running := false; configLoaded := false;
     bootOrder := []; calls := [] |}.

Definition set_modules (ms : list moduleEntry) (k : Kernel) : Kernel :=
  {| modules := ms; moduleIndex := moduleIndex k; running := running k;
     configLoaded := configLoaded k; bootOrder := bootOrder k; calls := calls k |}.
Definition set_running (b : bool) (k : Kernel) : Kernel :=
  {| modules := modules k; moduleIndex := moduleIndex k; running := b;
     configLoaded := configLoaded k; bootOrder := bootOrder k; calls := calls k |}.
Definition set_bootOrder (o : list nat) (k : Kernel) : Kernel :=
  {| modules := modules k; moduleIndex := moduleIndex k; running := running k;
     configLoaded := configLoaded k; bootOrder := o; calls := calls k |}.
Definition log_call (c : call) (k : Kernel) : Kernel :=
  {| modules := modules k; moduleIndex := moduleIndex k; running := running k;
     configLoaded := configLoaded k; bootOrder := bootOrder k; calls := calls k ++ [c] |}.
(** [k.modules[idx].state = st] *)
Definition set_state (idx : nat) (st : ModuleState) (k : Kernel) : Kernel :=
  set_modules (alter (fun e => {| me_module := me_module e; me_state := st |}) idx (modules k)) k.

(** [config.Load] reads a file: [loaded] is its result. *)
(* [kernel/kernel.go:Kernel.LoadConfig] *)
Definition LoadConfig (loaded : Result unit) (k : Kernel) : Kernel * Result unit :=
  match wrap_err "load config" loaded with
  | Err e => (k, Err e)
  | Ok _ =>
      ({| modules := modules k; moduleIndex := moduleIndex k; running := running k;
          configLoaded := true; bootOrder := bootOrder k; calls := calls k |}, Ok tt)
  end.

(* [kernel/kernel.go:Kernel.Register] *)
Definition Register (md : Module_) (k : Kernel) : Kernel * Result unit :=
  let name := Name md in
  match moduleIndex k !! name with
  | Some _ => (k, Err ("module " +:+ quote name +:+ " already registered"))
  | None =>
      let idx := length (modules k) in
      ({| modules := modules k ++ [{| me_module := md; me_state := ModuleStateRegistered |}];
          moduleIndex := <[name := idx]> (moduleIndex k);
          running := running k; configLoaded := configLoaded k;
          bootOrder := bootOrder k; calls := calls k |}, Ok tt)
  end.

(* [kernel/kernel.go:Kernel.Modules] *)
Definition Modules (k : Kernel) : list string :=
  (fun e => Name (me_module e)) <$> modules k.

(* [kernel/kernel.go:Kernel.ModuleState] *)
Definition get_ModuleState (name : string) (k : Kernel) : ModuleState :=
  match moduleIndex k !! name with
  | Some idx => match modules k !! idx with
                | Some e => me_state e
                | None => ModuleStateFailed (* index out of range: not reachable *)
                end
  | None => ModuleStateFailed
  end.

(** ** Boot order: [topoSort] *)

(** One dependency of module [i]: [adj[depIdx] = append(adj[depIdx], i)] and
    [inDegree[i]++]. *)
Definition add_edge (i depIdx : nat) (g : list Z * list (list nat)) : list Z * list (list nat) :=
  (alter Z.succ i g.1, alter (fun l => l ++ [i]) depIdx g.2).

Fixpoint add_deps (index : gmap string nat) (name : string) (i : nat) (deps : list string)
    (g : list Z * list (list nat)) : Result (list Z * list (list nat)) :=
  match deps with
  | [] => Ok g
  | dep :: deps' =>
      match index !! dep with
      | None => Err ("module " +:+ quote name +:+ " depends on unregistered module " +:+ quote dep)
      | Some depIdx => add_deps index name i deps' (add_edge i depIdx g)
      end
  end.

Fixpoint build_graph (index : gmap string nat) (i : nat) (ms : list moduleEntry)
    (g : list Z * list (list nat)) : Result (list Z * list (list nat)) :=
  match ms with
  | [] => Ok g
  | e :: ms' =>
      (g' <-? add_deps index (Name (me_module e)) i (Dependencies (me_module e)) g ;;
       build_graph index (S i) ms' g')%go
  end.

(** The inner loop over [adj[curr]]: decrement, and enqueue at zero. *)
Fixpoint relax (nexts : list nat) (inDegree : list Z) (queue : list nat) : list Z * list nat :=
  match nexts with
  | [] => (inDegree, queue)
  | next :: nexts' =>
      let inDegree' := alter Z.pred next inDegree in
      relax nexts' inDegree'
        (if decide (inDegree' !! next = Some 0%Z) then queue ++ [next] else queue)
  end.

(** The loop [for len(queue) > 0]; [None] when the fuel runs out first. *)
Fixpoint kahn (fuel : nat) (adj : list (list nat)) (inDegree : list Z) (queue order : list nat)
    : option (list nat) :=
  match queue with
  | [] => Some order
  | curr :: queue' =>
      match fuel with
      | 0 => None
      | S fuel' =>
          let '(inDegree', queue'') := relax (adj !!! curr) inDegree queue' in
          kahn fuel' adj inDegree' queue'' (order ++ [curr])
      end
  end.

Definition zero_degrees (inDegree : list Z) : list nat :=
  filter (fun i => inDegree !! i = Some 0%Z) (seq 0 (length inDegree)).

Definition cyclic_error : error := "cyclic dependency detected among modules".

(* [kernel/kernel.go:Kernel.topoSort] *)
Definition topoSort (k : Kernel) : Result (list nat) :=
  let n := length (modules k) in
  (g <-? build_graph (moduleIndex k) 0 (modules k) (replicate n 0%Z, replicate n []) ;;
   match kahn n g.2 g.1 (zero_degrees g.1) [] with
   | None => Err "topoSort: out of fuel"
   | Some order => if decide (length order = n) then Ok order else Err cyclic_error
   end)%go.

(** ** Lifecycle *)

Section Lifecycle.
(** What the call [c] on a module returns, given the calls made before it:
    [None] is a nil error. *)
Context (outcome : list call -> call -> option error).
(** What a module's [Health] returns. *)
Context (health : string -> HealthStatus).

(** One phase of [Start]: call every module of the order, stop at the first
    error. *)
Fixpoint run_phase (mk : string -> call) (okState : ModuleState) (verb : string)
    (order : list nat) (k : Kernel) : Kernel * Result unit :=
  match order with
  | [] => (k, Ok tt)
  | idx :: order' =>
      match modules k !! idx with
      | None => (k, Err "index out of range")
      | Some e =>
          let name := Name (me_module e) in
          let k1 := log_call (mk name) k in
          match outcome (calls k) (mk name) with
          | Some err =>
              (set_state idx ModuleStateFailed k1,
               Err ("module " +:+ quote name +:+ " " +:+ verb +:+ " failed: " +:+ err))
          | None => run_phase mk okState verb order' (set_state idx okState k1)
          end
      end
  end.

(* [kernel/kernel.go:Kernel.Start] *)
Definition Start (k : Kernel) : Kernel * Result unit :=
  if negb (configLoaded k) then (k, Err "config not loaded: call LoadConfig before Start")
  else match topoSort k with
  | Err e => (k, Err e)
  | Ok order =>
      let k := set_bootOrder order k in
      match run_phase CInit ModuleStateInitialized "init" order k with
      | (k, Err e) => (k, Err e)
      | (k, Ok _) =>
          match run_phase CStart ModuleStateRunning "start" order k with
          | (k, Err e) => (k, Err e)
          | (k, Ok _) => (set_running true k, Ok tt)
          end
      end
  end.

Definition first_err (a b : option error) : option error :=
  match a with Some _ => a | None => b end.

(** The body of [Stop]'s loop, over the reversed boot order. *)
Fixpoint stop_all (order : list nat) (k : Kernel) (firstErr : option error)
    : Kernel * option error :=
  match order with
  | [] => (k, firstErr)
  | idx :: order' =>
      match modules k !! idx with
      | None => (k, Some "index out of range")
      | Some e =>
          if decide (me_state e = ModuleStateRunning) then
            let name := Name (me_module e) in
            let k1 := log_call (CStop name) k in
            match outcome (calls k) (CStop name) with
            | Some err =>
                stop_all order' (set_state idx ModuleStateFailed k1)
                  (first_err firstErr
                     (Some ("module " +:+ quote name +:+ " stop failed: " +:+ err)))
            | None => stop_all order' (set_state idx ModuleStateStopped k1) firstErr
            end
          else stop_all order' k firstErr
      end
  end.

(* [kernel/kernel.go:Kernel.Stop] *)
Definition Stop (k : Kernel) : Kernel * option error :=
  let '(k, firstErr) := stop_all (reverse (bootOrder k)) k None in
  (set_running false k, firstErr).

(* [kernel/kernel.go:Kernel.HealthReport] *)
Definition HealthReport (k : Kernel) : gmap string HealthStatus :=
  let running := filter (fun e => me_state e = ModuleStateRunning) (modules k) in
  fold_left (fun report e => <[Name (me_module e) := health (Name (me_module e))]> report)
    running ∅.
End Lifecycle.

(** ** The registry invariant *)

(** Every state the kernel can be in: the operations of the API, in any order. *)
Inductive kstep : Kernel -> Kernel -> Prop :=
  | step_load loaded k : kstep k (LoadConfig loaded k).1
  | step_register md k : kstep k (Register md k).1
  | step_start outcome k : kstep k (Start outcome k).1
  | step_stop outcome k : kstep k (Stop outcome k).1.

Definition reachable (k : Kernel) : Prop := rtc kstep New k.

(** The index maps each name to the one entry that has it. *)
Definition index_ok (k : Kernel) : Prop :=
  forall name idx, moduleIndex k !! name = Some idx <->
    exists e, modules k !! idx = Some e /\ Name (me_module e) = name.

(** The identity of the registry: names and dependencies, without states. *)
Definition registry (k : Kernel) : list Module_ := me_module <$> modules k.

Definition same_registry (k k' : Kernel) : Prop :=
  registry k' = registry k /\ moduleIndex k' = moduleIndex k.

#[export] Instance same_registry_equiv : Equivalence same_registry.
Proof.
  split; unfold same_registry; [done | intros x y [-> ->]; done | ].
  intros x y z [-> ->] [-> ->]; done.
Qed.

Lemma registry_set_state idx st k : registry (set_state idx st k) = registry k.
Proof.
  unfold registry, set_state; simpl. apply list_eq; intros i.
  rewrite !list_lookup_fmap.
  destruct (decide (i = idx)) as [->|Hne].
  - rewrite list_lookup_alter_eq. by destruct (modules k !! idx).
  - by rewrite list_lookup_alter_ne.
Qed.

Lemma same_registry_set_state idx st k : same_registry k (set_state idx st k).
Proof. split; [apply registry_set_state | done]. Qed.
Lemma same_registry_log c k : same_registry k (log_call c k).
Proof. done. Qed.
#[local] Hint Resolve same_registry_set_state same_registry_log : core.

Lemma run_phase_registry outcome mk st verb order k :
  same_registry k (run_phase outcome mk st verb order k).1.
Proof.
  revert k; induction order as [|idx order IH]; intros k; simpl; [done|].
  case_match; [|done]. case_match; simpl.
  - by rewrite <- same_registry_set_state.
  - rewrite <- IH, <- same_registry_set_state. done.
Qed.

Lemma stop_all_registry outcome order k fe :
  same_registry k (stop_all outcome order k fe).1.
Proof.
  revert k fe; induction order as [|idx order IH]; intros k fe; simpl; [done|].
  case_match; [|done]. case_match; [|done].
  case_match; rewrite <- IH, <- same_registry_set_state; done.
Qed.

Lemma same_registry_index_ok k k' : same_registry k k' -> index_ok k -> index_ok k'.
Proof.
  intros [Hr Hi] Hok name idx. rewrite Hi, (Hok name idx).
  assert (Hl : forall i, me_module <$> modules k' !! i = me_module <$> modules k !! i).
  { intros i. rewrite <- !list_lookup_fmap. by f_equal. }
  specialize (Hl idx).
  destruct (modules k !! idx) as [e|], (modules k' !! idx) as [e'|]; simplify_eq/=;
    split; intros (e0 & ? & ?); simplify_eq; eexists; (split; [done|]); congruence.
Qed.

Lemma Start_registry outcome k : same_registry k (Start outcome k).1.
Proof.
  unfold Start. case_match; [done|]. destruct (topoSort k) as [order|]; [|done].
  set (k0 := set_bootOrder order k).
  pose proof (run_phase_registry outcome CInit ModuleStateInitialized "init" order k0) as H1.
  destruct (run_phase _ CInit _ _ _ _) as [k1 [|]]; [|done]; simpl in H1.
  pose proof (run_phase_registry outcome CStart ModuleStateRunning "start" order k1) as H2.
  destruct (run_phase _ CStart _ _ _ _) as [k2 [|]]; simpl in *; transitivity k1; done.
Qed.

Lemma Stop_registry outcome k : same_registry k (Stop outcome k).1.
Proof.
  unfold Stop. pose proof (stop_all_registry outcome (reverse (bootOrder k)) k None) as H.
  destruct (stop_all _ _ _ _) as [k1 fe]; done.
Qed.

Lemma Register_index_ok md k : index_ok k -> index_ok (Register md k).1.
Proof.
  intros Hok. unfold Register. destruct (moduleIndex k !! Name md) eqn:Hm; [done|].
  intros name idx; simpl. rewrite lookup_insert.
  case_decide as Hd.
  - subst. split.
    + intros [= <-]. eexists. rewrite list_lookup_middle by done. done.
    + intros (e & He & Hn). f_equal.
      destruct (decide (idx < length (modules k))) as [Hlt|Hge].
      * rewrite lookup_app_l in He by done.
        assert (moduleIndex k !! Name md = Some idx) by (apply Hok; eauto). congruence.
      * rewrite lookup_app_r in He by lia.
        apply list_lookup_singleton_Some in He. lia.
  - rewrite (Hok name idx). split; intros (e & He & Hn); exists e; split; [ | done | | done].
    + by rewrite lookup_app_l by (eapply lookup_lt_Some; eauto).
    + destruct (decide (idx < length (modules k))) as [Hlt|Hge].
      * by rewrite lookup_app_l in He by done.
      * rewrite lookup_app_r in He by lia.
        apply list_lookup_singleton_Some in He as [_ <-]. done.
Qed.

Lemma kstep_index_ok k k' : kstep k k' -> index_ok k -> index_ok k'.
Proof.
  intros [loaded k1|md k1|outcome k1|outcome k1].
  - unfold LoadConfig. by destruct loaded.
  - apply Register_index_ok.
  - apply same_registry_index_ok, Start_registry.
  - apply same_registry_index_ok, Stop_registry.
Qed.

Lemma reachable_index_ok k : reachable k -> index_ok k.
Proof.
  intros H; eapply rtc_invariant; [ | exact kstep_index_ok | exact H].
  intros name idx; simpl. rewrite lookup_empty, lookup_nil. split; [done | by intros (? & ? & _)].
Qed.

(** ** Correctness of the boot order *)

(** Module [i] declares a dependency on the name registered at index [j]. *)
Definition depends_on (k : Kernel) (i j : nat) : Prop :=
  exists e d, modules k !! i = Some e /\ d ∈ Dependencies (me_module e) /\
              moduleIndex k !! d = Some j.

(** Every dependency of every module is registered. *)
Definition deps_registered (k : Kernel) : Prop :=
  forall i e d, modules k !! i = Some e -> d ∈ Dependencies (me_module e) ->
                is_Some (moduleIndex k !! d).

(** A boot sequence lists every module once, dependencies first. *)
Definition boot_sequence (k : Kernel) (o : list nat) : Prop :=
  o ≡ₚ seq 0 (length (modules k)) /\
  forall p i j, o !! p = Some i -> depends_on k i j -> j ∈ take p o.

Section Kahn.
(** The loop over a graph given by predecessor lists. *)
Context (n : nat) (preds : nat -> list nat) (adj : list (list nat)).
Context (preds_lt : forall v u, u ∈ preds v -> u < n /\ v < n).
Context (adj_preds : forall u v,
           count_occ Nat.eq_dec (adj !!! u) v = count_occ Nat.eq_dec (preds v) u).

Definition remaining (order : list nat) (v : nat) : list nat :=
  filter (fun u => u ∉ order) (preds v).

Record kahn_inv (deg : list Z) (queue order : list nat) : Prop := {
  ki_len : length deg = n;
  ki_deg : forall v, v < n -> deg !! v = Some (Z.of_nat (length (remaining order v)));
  ki_nodup : NoDup (order ++ queue);
  ki_mem : forall v, v ∈ order ++ queue <-> v < n /\ remaining order v = [];
  ki_topo : forall p v u, order !! p = Some v -> u ∈ preds v -> u ∈ take p order;
}.

Lemma relax_spec nexts deg queue :
  (forall v, v ∈ nexts -> exists d, deg !! v = Some d /\
     (Z.of_nat (count_occ Nat.eq_dec nexts v) <= d)%Z) ->
  exists new,
    (relax nexts deg queue).2 = queue ++ new /\ NoDup new /\
    length (relax nexts deg queue).1 = length deg /\
    (forall v, (relax nexts deg queue).1 !! v =
       (fun d => d - Z.of_nat (count_occ Nat.eq_dec nexts v))%Z <$> deg !! v) /\
    (forall v, v ∈ new <-> v ∈ nexts /\
       deg !! v = Some (Z.of_nat (count_occ Nat.eq_dec nexts v))).
Proof.
  revert deg queue; induction nexts as [|x nexts IH]; intros deg queue Hge; simpl.
  { exists []. rewrite app_nil_r. split_and!; try done; [constructor | |].
    - intros v. destruct (deg !! v); simpl; [f_equal; lia | done].
    - intros v; split; [by intros ?%elem_of_nil | by intros [?%elem_of_nil _]]. }
  set (deg' := alter Z.pred x deg).
  assert (Hdeg' : forall v, deg' !! v = (if decide (x = v) then Z.pred else id) <$> deg !! v).
  { intros v. unfold deg'. destruct (decide (x = v)) as [->|Hne].
    - by rewrite list_lookup_alter_eq.
    - rewrite list_lookup_alter_ne by done. by destruct (deg !! v). }
  destruct (Hge x) as (dx & Hdx & Hlex); [left|].
  simpl in Hlex. destruct (Nat.eq_dec x x) as [_|]; [|done].
  assert (Hcnt : forall v, count_occ Nat.eq_dec nexts v = 0 <-> v ∉ nexts).
  { intros v. by rewrite list_elem_of_In, count_occ_not_In. }
  assert (Hpre : forall v, v ∈ nexts -> exists d, deg' !! v = Some d /\
             (Z.of_nat (count_occ Nat.eq_dec nexts v) <= d)%Z).
  { intros v Hv. destruct (Hge v) as (d & Hdv & Hle); [by right|].
    rewrite Hdeg', Hdv; simpl. eexists; split; [done|]. simpl in Hle.
    destruct (Nat.eq_dec x v), (decide (x = v)); simpl in *; try done; lia. }
  assert (Hx : deg' !! x = Some (Z.pred dx)).
  { rewrite Hdeg', Hdx. by destruct (decide (x = x)). }
  (* Degrees of other nodes, and the count at the head. *)
  assert (Hcons : forall v, deg !! v = Some (Z.of_nat (if Nat.eq_dec x v
            then S (count_occ Nat.eq_dec nexts v) else count_occ Nat.eq_dec nexts v))
          <-> deg' !! v = Some (Z.of_nat (count_occ Nat.eq_dec nexts v))).
  { intros v. rewrite Hdeg'. destruct (Nat.eq_dec x v), (decide (x = v)); try done;
      destruct (deg !! v); simpl; split; intros; simplify_eq; f_equal; lia. }
  set (queue' := if decide (deg' !! x = Some 0%Z) then queue ++ [x] else queue).
  destruct (IH deg' queue' Hpre) as (new & Hq & Hnd & Hlen & Hd & Hin).
  assert (Hd' : forall v, (relax nexts deg' queue').1 !! v =
            (fun d => d - Z.of_nat (if Nat.eq_dec x v then S (count_occ Nat.eq_dec nexts v)
               else count_occ Nat.eq_dec nexts v))%Z <$> deg !! v).
  { intros v. rewrite Hd, Hdeg'. destruct (Nat.eq_dec x v), (decide (x = v)); try done;
      destruct (deg !! v); simpl; f_equal; lia. }
  assert (Hlen' : length (relax nexts deg' queue').1 = length deg).
  { rewrite Hlen. apply length_alter. }
  fold queue'. rewrite Hq. unfold queue'.
  destruct (decide (deg' !! x = Some 0%Z)) as [Hz|Hnz].
  - exists (x :: new). rewrite Hx in Hz. assert (Hcx : count_occ Nat.eq_dec nexts x = 0)
      by (simplify_eq; lia).
    split_and!; try done.
    + by rewrite <- app_assoc.
    + constructor; [|done]. rewrite Hin. apply Hcnt in Hcx. tauto.
    + intros v. rewrite elem_of_cons, elem_of_cons, Hin, Hcons.
      split; [ | tauto]. intros [->|?]; [|tauto]. split; [by left|].
      rewrite Hcx, Hx. done.
  - exists new. split_and!; try done.
    intros v. rewrite elem_of_cons, Hin, Hcons. split; [tauto|].
    intros [[->|?] Hv]; [|done]. split; [|done].
    destruct (decide (x ∈ nexts)) as [Hi|Hi]; [done|].
    apply Hcnt in Hi. rewrite Hi in Hv. done.
Qed.

Lemma count_remaining order curr v :
  curr ∉ order ->
  length (remaining order v) =
    length (remaining (order ++ [curr]) v) + count_occ Nat.eq_dec (preds v) curr.
Proof.
  intros Hc. unfold remaining. induction (preds v) as [|u l IH]; simpl; [done|].
  rewrite !filter_cons. destruct (Nat.eq_dec u curr) as [->|Hne].
  - rewrite decide_True by done. rewrite decide_False by set_solver. simpl. lia.
  - destruct (decide (u ∉ order)).
    + rewrite decide_True by set_solver. simpl. lia.
    + rewrite decide_False by set_solver. lia.
Qed.

Lemma kahn_step deg curr queue order :
  kahn_inv deg (curr :: queue) order ->
  let '(deg', queue') := relax (adj !!! curr) deg queue in
  kahn_inv deg' queue' (order ++ [curr]).
Proof.
  intros [Hlen Hdeg Hnd Hmem Htopo].
  assert (Hc : curr ∉ order).
  { apply NoDup_app in Hnd as (_ & Hd & _). intros Hin. apply (Hd curr Hin). by left. }
  assert (Hrem := fun v => count_remaining order curr v Hc).
  assert (Hpre : forall v, v ∈ adj !!! curr -> exists d, deg !! v = Some d /\
             (Z.of_nat (count_occ Nat.eq_dec (adj !!! curr) v) <= d)%Z).
  { intros v Hv. rewrite adj_preds.
    assert (0 < count_occ Nat.eq_dec (preds v) curr) as Hpos.
    { rewrite <- adj_preds. by apply count_occ_In, list_elem_of_In. }
    assert (v < n) as Hvn.
    { apply count_occ_In, list_elem_of_In in Hpos. by apply preds_lt in Hpos as [_ ?]. }
    exists (Z.of_nat (length (remaining order v))). rewrite (Hdeg v Hvn).
    split; [done|]. specialize (Hrem v). lia. }
  destruct (relax_spec (adj !!! curr) deg queue Hpre) as (new & Hq & Hnd2 & Hl & Hd & Hin).
  destruct (relax (adj !!! curr) deg queue) as [deg' queue']; simpl in *. subst queue'.
  assert (Hnew : forall v, v ∈ new <-> v < n /\ remaining order v <> [] /\
                   remaining (order ++ [curr]) v = []).
  { intros v. rewrite Hin. split.
    - intros [Hv Hdv]. assert (0 < count_occ Nat.eq_dec (preds v) curr) as Hpos.
      { rewrite <- adj_preds. by apply count_occ_In, list_elem_of_In. }
      assert (v < n) as Hvn.
      { apply count_occ_In, list_elem_of_In in Hpos. by apply preds_lt in Hpos as [_ ?]. }
      rewrite (Hdeg v Hvn), adj_preds in Hdv. simplify_eq.
      specialize (Hrem v). split_and!; [done| |apply length_zero_iff_nil; lia].
      intros Heq; rewrite Heq in Hrem; simpl in Hrem; lia.
    - intros (Hvn & Hne & Heq). specialize (Hrem v). rewrite Heq in Hrem; simpl in Hrem.
      rewrite (Hdeg v Hvn), adj_preds, Hrem. split; [|done].
      apply list_elem_of_In, (count_occ_In Nat.eq_dec). rewrite adj_preds, <- Hrem.
      destruct (remaining order v); [done|simpl; lia]. }
  assert (Hshift : (order ++ [curr]) ++ queue ++ new = (order ++ curr :: queue) ++ new)
    by by rewrite <- !app_assoc.
  split.
  - congruence.
  - intros v Hv. rewrite Hd, (Hdeg v Hv); simpl. f_equal. rewrite adj_preds.
    specialize (Hrem v). lia.
  - rewrite Hshift. apply NoDup_app; split_and!; [done| |done].
    intros v Hv Hvn. apply Hmem in Hv as [_ Hv]. apply Hnew in Hvn as (_ & ? & _). done.
  - intros v. rewrite Hshift, elem_of_app, Hmem, Hnew. specialize (Hrem v). split.
    + intros [[Hv Heq]|(? & _ & ?)]; [|done]. split; [done|].
      rewrite Heq in Hrem. apply length_zero_iff_nil. simpl in Hrem; lia.
    + intros [Hv Heq]. destruct (remaining order v) eqn:E; [by left|right]. done.
  - intros p v u Hp Hu. destruct (decide (p < length order)) as [Hlt|Hge].
    + rewrite lookup_app_l in Hp by done. rewrite take_app_le by lia. eauto.
    + rewrite lookup_app_r in Hp by lia.
      apply list_lookup_singleton_Some in Hp as [Hp <-].
      rewrite take_app_length' by lia.
      assert (curr ∈ order ++ curr :: queue) as Hm by set_solver.
      apply Hmem in Hm as [_ Hm]. destruct (decide (u ∈ order)) as [|Hnu]; [done|].
      assert (u ∈ remaining order curr) as Hbad by (apply list_elem_of_filter; done).
      rewrite Hm in Hbad. by apply elem_of_nil in Hbad.
Qed.

Lemma kahn_bound deg queue order :
  kahn_inv deg queue order -> order ++ queue ⊆+ seq 0 n.
Proof.
  intros [_ _ Hnd Hmem _]. apply NoDup_submseteq; [done|].
  intros v [Hv _]%Hmem. apply elem_of_seq. lia.
Qed.

Lemma kahn_run fuel deg queue order :
  kahn_inv deg queue order -> n <= fuel + length order ->
  exists order' deg', kahn fuel adj deg queue order = Some order' /\ kahn_inv deg' [] order'.
Proof.
  revert deg queue order; induction fuel as [|fuel IH]; intros deg queue order Hinv Hfuel.
  - destruct queue as [|curr queue]; [by eauto|].
    apply kahn_bound, submseteq_length in Hinv.
    rewrite length_app, length_seq in Hinv; simpl in *. lia.
  - destruct queue as [|curr queue]; simpl; [by eauto|].
    pose proof (kahn_step _ _ _ _ Hinv) as Hs.
    destruct (relax (adj !!! curr) deg queue) as [deg' queue'].
    apply (IH deg'); [done|]. rewrite length_app; simpl. lia.
Qed.

Lemma kahn_full deg order :
  kahn_inv deg [] order -> length order = n -> order ≡ₚ seq 0 n.
Proof.
  intros Hinv Hlen. apply kahn_bound in Hinv. rewrite app_nil_r in Hinv.
  apply submseteq_length_Permutation; [done|]. rewrite length_seq. lia.
Qed.

(** If any topological order exists, the loop has processed every node. *)
Lemma kahn_complete deg order o :
  kahn_inv deg [] order -> o ≡ₚ seq 0 n ->
  (forall p v u, o !! p = Some v -> u ∈ preds v -> u ∈ take p o) ->
  length order = n.
Proof.
  intros Hinv Ho Htopo.
  assert (Hall : forall p v, o !! p = Some v -> v ∈ order).
  { intros p. induction (lt_wf p) as [p _ IH]. intros v Hp.
    destruct Hinv as [_ _ _ Hmem _]. setoid_rewrite app_nil_r in Hmem.
    apply Hmem. split.
    - assert (v ∈ o) as Hv by (eapply list_elem_of_lookup_2; eauto).
      rewrite Ho in Hv. apply elem_of_seq in Hv. lia.
    - destruct (remaining order v) as [|u l] eqn:E; [done|].
      assert (u ∈ remaining order v) as Hu by (rewrite E; left).
      apply list_elem_of_filter in Hu as [Hno Hu].
      destruct Hno. specialize (Htopo p v u Hp Hu).
      apply elem_of_take in Htopo as (q & Hq & Hlt). eauto. }
  apply Nat.le_antisymm.
  - apply kahn_bound, submseteq_length in Hinv.
    by rewrite app_nil_r, length_seq in Hinv.
  - rewrite <- (length_seq n 0), <- Ho. apply submseteq_length, NoDup_submseteq.
    + rewrite Ho. apply NoDup_seq.
    + intros v [p Hp]%list_elem_of_lookup. eauto.
Qed.
End Kahn.

(** The resolved dependencies of module [i], in the order it lists them. *)
Definition dep_indices (index : gmap string nat) (e : moduleEntry) : list nat :=
  omap (fun d => index !! d) (Dependencies (me_module e)).
Definition preds_of (k : Kernel) (i : nat) : list nat :=
  match modules k !! i with Some e => dep_indices (moduleIndex k) e | None => [] end.

Lemma elem_of_preds k i j : j ∈ preds_of k i <-> depends_on k i j.
Proof.
  unfold preds_of, depends_on, dep_indices. split.
  - intros Hj. destruct (modules k !! i) as [e|]; [|by apply elem_of_nil in Hj].
    apply list_elem_of_omap in Hj as (d & Hd & Hj). eauto.
  - intros (e & d & -> & Hd & Hj). apply list_elem_of_omap. eauto.
Qed.

(** What [build_graph] computes from the modules from index [i] on. *)
Definition graph_step (n : nat) (f : nat -> list nat)
    (g g' : list Z * list (list nat)) : Prop :=
  length g'.1 = length g.1 /\ length g'.2 = length g.2 /\
  (forall v, g'.1 !! v = (fun d => d + Z.of_nat (length (f v)))%Z <$> g.1 !! v) /\
  (forall u v, u < n -> count_occ Nat.eq_dec (g'.2 !!! u) v =
     count_occ Nat.eq_dec (g.2 !!! u) v + count_occ Nat.eq_dec (f v) u).

Lemma add_edge_step n i d g :
  length g.2 = n ->
  graph_step n (fun v => if decide (v = i) then [d] else []) g (add_edge i d g).
Proof.
  intros Hlen. unfold graph_step, add_edge; simpl. rewrite !length_alter.
  split_and!; try done.
  - intros v. destruct (decide (v = i)) as [->|Hne].
    + rewrite list_lookup_alter_eq. destruct (g.1 !! i); simpl; [f_equal; lia|done].
    + rewrite list_lookup_alter_ne by done. destruct (g.1 !! v); simpl; [f_equal; lia|done].
  - intros u v Hu. rewrite !list_lookup_total_alt.
    destruct (decide (d = u)) as [->|Hne].
    + rewrite list_lookup_alter_eq.
      destruct (lookup_lt_is_Some_2 g.2 u) as [l Hl]; [lia|]. rewrite Hl; simpl.
      rewrite count_occ_app; simpl.
      destruct (Nat.eq_dec i v), (decide (v = i)); try done; simpl;
        destruct (Nat.eq_dec u u); done.
    + rewrite list_lookup_alter_ne by done.
      destruct (decide (v = i)); simpl; [destruct (Nat.eq_dec d u); [done|lia] | lia].
Qed.

Lemma graph_step_trans n f1 f2 f g1 g2 g3 :
  (forall v, f v = f1 v ++ f2 v) ->
  graph_step n f1 g1 g2 -> graph_step n f2 g2 g3 -> graph_step n f g1 g3.
Proof.
  intros Hf (H1 & H2 & H3 & H4) (H1' & H2' & H3' & H4'). split_and!.
  - congruence.
  - congruence.
  - intros v. rewrite H3', H3, Hf, length_app. destruct (g1.1 !! v); simpl; [f_equal; lia|done].
  - intros u v Hu. rewrite H4', H4, Hf, count_occ_app by done. lia.
Qed.

Lemma add_deps_spec n index name i deps g :
  length g.2 = n ->
  match add_deps index name i deps g with
  | Ok g' => Forall (fun d => is_Some (index !! d)) deps /\
      graph_step n (fun v => if decide (v = i) then omap (fun d => index !! d) deps else []) g g'
  | Err e => exists d, d ∈ deps /\ index !! d = None /\
      e = "module " +:+ quote name +:+ " depends on unregistered module " +:+ quote d
  end.
Proof.
  revert g; induction deps as [|d deps IH]; intros g Hlen; simpl.
  - split; [constructor|]. split_and!; try done.
    + intros v. destruct (decide _); destruct (g.1 !! v); simpl; f_equal; lia.
    + intros u v _. destruct (decide _); simpl; lia.
  - destruct (index !! d) as [j|] eqn:Ed.
    + pose proof (add_edge_step n i j g Hlen) as Hs.
      specialize (IH (add_edge i j g)). destruct Hs as (? & Hl & Hs).
      specialize (IH ltac:(congruence)).
      destruct (add_deps _ _ _ deps _) as [g'|e].
      * destruct IH as [Hall IH]. split; [by constructor; eauto|].
        eapply graph_step_trans; [ | split_and!; [done|done|apply Hs..] | exact IH].
        intros v; simpl. by destruct (decide (v = i)).
      * destruct IH as (d' & Hd' & ?). exists d'. split; [by right|done].
    + exists d. split; [left|done].
Qed.

Lemma build_graph_spec n index i ms g :
  length g.2 = n ->
  match build_graph index i ms g with
  | Ok g' => Forall (fun e => Forall (fun d => is_Some (index !! d)) (Dependencies (me_module e))) ms /\
      graph_step n (fun v => if decide (i <= v) then
        match ms !! (v - i) with Some e => dep_indices index e | None => [] end else []) g g'
  | Err e => exists m d, m ∈ ms /\ d ∈ Dependencies (me_module m) /\ index !! d = None /\
      e = "module " +:+ quote (Name (me_module m)) +:+ " depends on unregistered module " +:+ quote d
  end.
Proof.
  revert i g; induction ms as [|m ms IH]; intros i g Hlen; simpl.
  - split; [constructor|]. split_and!; try done.
    + intros v. rewrite ?lookup_nil. destruct (decide _); destruct (g.1 !! v); simpl; f_equal; lia.
    + intros u v _. destruct (decide _); simpl; lia.
  - pose proof (add_deps_spec n index (Name (me_module m)) i (Dependencies (me_module m)) g Hlen) as Ha.
    destruct (add_deps _ _ _ _ g) as [g1|e]; simpl.
    + destruct Ha as [Hall Hs]. specialize (IH (S i) g1).
      destruct Hs as (? & Hl & Hs). specialize (IH ltac:(congruence)).
      destruct (build_graph _ _ ms _) as [g2|e].
      * destruct IH as [Hall2 IH]. split; [by constructor|].
        eapply graph_step_trans; [ | split_and!; [done|done|apply Hs..] | exact IH].
        intros v; simpl. destruct (decide (v = i)) as [->|Hne].
        -- rewrite decide_True, Nat.sub_diag, decide_False by lia. simpl. by rewrite app_nil_r.
        -- destruct (decide (i <= v)), (decide (S i <= v)); try lia; [|done].
           destruct (v - i) as [|w] eqn:E; [lia|]. replace (v - S i) with w by lia. done.
      * destruct IH as (m' & d & Hm & ?). exists m', d. split; [by right|done].
    + destruct Ha as (d & Hd & Hn & ->). exists m, d. split_and!; try done. left.
Qed.

Lemma build_graph_init k :
  index_ok k ->
  match build_graph (moduleIndex k) 0 (modules k)
          (replicate (length (modules k)) 0%Z, replicate (length (modules k)) []) with
  | Ok g => deps_registered k /\
      kahn_inv (length (modules k)) (preds_of k) g.1 (zero_degrees g.1) [] /\
      (forall u v, count_occ Nat.eq_dec (g.2 !!! u) v = count_occ Nat.eq_dec (preds_of k v) u)
  | Err e => exists m d, m ∈ modules k /\ d ∈ Dependencies (me_module m) /\
      moduleIndex k !! d = None /\
      e = "module " +:+ quote (Name (me_module m)) +:+ " depends on unregistered module " +:+ quote d
  end.
Proof.
  intros Hok. set (n := length (modules k)).
  pose proof (build_graph_spec n (moduleIndex k) 0 (modules k)
    (replicate n 0%Z, replicate n []) (length_replicate _ _)) as Hs.
  destruct (build_graph _ _ _ _) as [g|e]; [|done].
  destruct Hs as (Hall & Hl1 & Hl2 & Hdeg & Hadj). cbn [fst snd] in *.
  assert (Hf : forall v, (if decide (0 <= v) then match modules k !! (v - 0) with
      | Some e => dep_indices (moduleIndex k) e | None => [] end else []) = preds_of k v).
  { intros v. rewrite decide_True by lia. by rewrite Nat.sub_0_r. }
  assert (Hdeg' : forall v, g.1 !! v =
     (fun d => d + Z.of_nat (length (preds_of k v)))%Z <$> replicate n 0%Z !! v)
    by (intros v; by rewrite Hdeg, Hf).
  assert (Hrep : forall v, v < n -> g.1 !! v = Some (Z.of_nat (length (preds_of k v)))).
  { intros v Hv. by rewrite Hdeg', lookup_replicate_2. }
  rewrite length_replicate in Hl1.
  assert (Hlt : forall v u, u ∈ preds_of k v -> u < n /\ v < n).
  { intros v u (e & d & Hv & _ & Hu)%elem_of_preds. split; [|by eapply lookup_lt_Some].
    apply Hok in Hu as (e' & He' & _). by eapply lookup_lt_Some. }
  split_and!.
  - intros i e d Hi Hd. rewrite Forall_forall in Hall. specialize (Hall e).
    rewrite Forall_forall in Hall. apply Hall; [|done]. by eapply list_elem_of_lookup_2.
  - assert (Hrem : forall v, remaining (preds_of k) [] v = preds_of k v).
    { intros v. unfold remaining. induction (preds_of k v) as [|u l IH]; [done|].
      rewrite filter_cons_True; [by f_equal|]. by intros ?%elem_of_nil. }
    assert (Hz : forall v, v ∈ zero_degrees g.1 <-> v < n /\ preds_of k v = []).
    { intros v. unfold zero_degrees. rewrite list_elem_of_filter, elem_of_seq, Hl1.
      split.
      - intros [Hv Hr]. split; [lia|]. rewrite Hrep in Hv by lia.
        apply length_zero_iff_nil. simplify_eq. lia.
      - intros [Hv Hn]. split; [|lia]. by rewrite Hrep, Hn. }
    split; simpl; try done.
    + intros v Hv. by rewrite Hrem, Hrep.
    + apply NoDup_filter, NoDup_seq.
    + intros v. by rewrite Hz, Hrem.
  - intros u v. destruct (decide (u < n)) as [Hu|Hu].
    + rewrite Hadj, Hf by done. rewrite list_lookup_total_alt, lookup_replicate_2 by done. done.
    + assert (g.2 !!! u = []) as ->.
      { rewrite list_lookup_total_alt, lookup_ge_None_2; [done|]. rewrite Hl2, length_replicate. lia. }
      symmetry. apply count_occ_not_In. rewrite <- list_elem_of_In. intros [? _]%Hlt. lia.
Qed.

Lemma topoSort_spec k :
  index_ok k ->
  match topoSort k with
  | Ok o => deps_registered k /\ boot_sequence k o
  | Err e =>
      (exists m d, m ∈ modules k /\ d ∈ Dependencies (me_module m) /\ moduleIndex k !! d = None /\
         e = "module " +:+ quote (Name (me_module m)) +:+
             " depends on unregistered module " +:+ quote d) \/
      (deps_registered k /\ e = cyclic_error /\ ~ exists o, boot_sequence k o)
  end.
Proof.
  intros Hok. pose proof (build_graph_init k Hok) as Hg. unfold topoSort.
  destruct (build_graph _ _ _ _) as [g|e]; simpl; [|by left].
  destruct Hg as (Hdeps & Hinv & Hadj). set (n := length (modules k)) in *.
  assert (Hlt : forall v u, u ∈ preds_of k v -> u < n /\ v < n).
  { intros v u (e & d & Hv & _ & Hu)%elem_of_preds. split; [|by eapply lookup_lt_Some].
    apply Hok in Hu as (e' & He' & _). by eapply lookup_lt_Some. }
  destruct (kahn_run n (preds_of k) g.2 Hlt Hadj n _ _ _ Hinv) as (o & deg & -> & Ho); [simpl; lia|].
  case_decide as Hlen.
  - split; [done|]. split; [by eapply kahn_full|].
    intros p i j Hp Hd%elem_of_preds. by eapply (ki_topo _ _ _ _ _ Ho).
  - right. split_and!; [done..|]. intros (o' & Hperm & Htopo). apply Hlen.
    eapply kahn_complete; [done|done|]. intros p v u Hp Hu%elem_of_preds. by eapply Htopo.
Qed.

(** ** Lifecycle: what [Start] and [Stop] do *)

Definition state_of (k : Kernel) (i : nat) : option ModuleState := me_state <$> modules k !! i.
Definition name_at (k : Kernel) (i : nat) : string :=
  match modules k !! i with Some e => Name (me_module e) | None => "" end.
(** The calls [mk] on the modules of [o], in order. *)
Definition calls_on (mk : string -> call) (k : Kernel) (o : list nat) : list call :=
  (fun i => mk (name_at k i)) <$> o.

Lemma state_of_set idx st k i :
  idx < length (modules k) ->
  state_of (set_state idx st k) i = if decide (i = idx) then Some st else state_of k i.
Proof.
  intros Hlt. unfold state_of, set_state; simpl. destruct (decide (i = idx)) as [->|Hne].
  - rewrite list_lookup_alter_eq. destruct (lookup_lt_is_Some_2 (modules k) idx) as [e ->]; done.
  - by rewrite list_lookup_alter_ne.
Qed.

Lemma name_at_registry k k' i : same_registry k k' -> name_at k' i = name_at k i.
Proof.
  intros [Hr _]. unfold name_at.
  assert (me_module <$> modules k' !! i = me_module <$> modules k !! i) as He.
  { rewrite <- !list_lookup_fmap. by f_equal. }
  destruct (modules k !! i), (modules k' !! i); simplify_eq/=; congruence.
Qed.

Lemma calls_on_registry mk k k' o : same_registry k k' -> calls_on mk k' o = calls_on mk k o.
Proof.
  intros Hr. apply list_fmap_ext; intros i x _. by rewrite (name_at_registry k k').
Qed.

Lemma length_set_state idx st k : length (modules (set_state idx st k)) = length (modules k).
Proof. apply length_alter. Qed.

(** Fields a phase leaves alone. *)
Definition same_rest (k k' : Kernel) : Prop :=
  running k' = running k /\ configLoaded k' = configLoaded k /\ bootOrder k' = bootOrder k /\
  same_registry k k'.

Section LifecycleSpec.
Context (outcome : list call -> call -> option error).

Lemma run_phase_spec mk st verb o k :
  NoDup o -> (forall i, i ∈ o -> i < length (modules k)) ->
  let '(k', r) := run_phase outcome mk st verb o k in
  same_rest k k' /\
  match r with
  | Ok _ => calls k' = calls k ++ calls_on mk k o /\
      forall i, state_of k' i = if decide (i ∈ o) then Some st else state_of k i
  | Err e => exists o1 idx o2 err, o = o1 ++ idx :: o2 /\
      outcome (calls k ++ calls_on mk k o1) (mk (name_at k idx)) = Some err /\
      e = "module " +:+ quote (name_at k idx) +:+ " " +:+ verb +:+ " failed: " +:+ err /\
      calls k' = calls k ++ calls_on mk k (o1 ++ [idx]) /\
      forall i, state_of k' i = if decide (i = idx) then Some ModuleStateFailed
                                else if decide (i ∈ o1) then Some st else state_of k i
  end.
Proof.
  revert k; induction o as [|idx o IH]; intros k Hnd Hlt; simpl.
  { split_and!; try done. by rewrite app_nil_r. }
  apply NoDup_cons in Hnd as [Hni Hnd].
  assert (idx < length (modules k)) as Hidx by (apply Hlt; left).
  destruct (modules k !! idx) as [e|] eqn:He; [|by apply lookup_ge_None in He; lia].
  assert (Hname : name_at k idx = Name (me_module e)) by (unfold name_at; by rewrite He).
  destruct (outcome _ _) as [err|] eqn:Hout.
  - split; [split_and!; try done; apply (same_registry_set_state idx _ (log_call _ k))|].
    exists [], idx, o, err. rewrite app_nil_r, Hname; simpl. split_and!; try done.
    + by rewrite Hname.
    + intros i. rewrite state_of_set by done.
      by_cases.
  - set (k1 := set_state idx st (log_call (mk (Name (me_module e))) k)).
    assert (Hr1 : same_registry k k1) by apply (same_registry_set_state idx _ (log_call _ k)).
    assert (Hst : forall i, state_of k1 i = if decide (i = idx) then Some st else state_of k i)
      by (intros i; unfold k1; by rewrite state_of_set).
    specialize (IH k1 Hnd). destruct (run_phase _ _ _ _ o k1) as [k' r].
    destruct IH as (Hrest & IH).
    { intros i Hi. unfold k1. rewrite length_set_state. apply Hlt. by right. }
    assert (Hc1 : calls k1 = calls k ++ [mk (name_at k idx)]) by (by rewrite Hname).
    split.
    { destruct Hrest as (?&?&?&?). split_and!; try done. by transitivity k1. }
    destruct r as [[]|ee].
    + destruct IH as [Hc Hs]. split.
      * by rewrite Hc, Hc1, <- app_assoc, (calls_on_registry _ k k1).
      * intros i. rewrite Hs, Hst. by_cases.
    + destruct IH as (o1 & j & o2 & err & -> & Ho & -> & Hc & Hs).
      exists (idx :: o1), j, o2, err. rewrite (name_at_registry k k1) in * by done.
      rewrite Hc1, <- app_assoc, (calls_on_registry _ k k1) in Ho by done.
      split_and!; try done.
      * by rewrite Hc, Hc1, <- app_assoc, (calls_on_registry _ k k1).
      * intros i. rewrite Hs, Hst. by_cases.
Qed.

Lemma stop_all_spec o k fe :
  NoDup o -> (forall i, i ∈ o -> i < length (modules k)) ->
  let '(k', fe') := stop_all outcome o k fe in
  let R := filter (fun i => state_of k i = Some ModuleStateRunning) o in
  same_rest k k' /\
  calls k' = calls k ++ calls_on CStop k R /\
  (forall i, i ∉ R -> state_of k' i = state_of k i) /\
  (forall i, i ∈ R -> state_of k' i = Some ModuleStateStopped \/
                     state_of k' i = Some ModuleStateFailed) /\
  (fe' = None <-> fe = None /\ forall i, i ∈ R -> state_of k' i = Some ModuleStateStopped).
Proof.
  revert k fe; induction o as [|idx o IH]; intros k fe Hnd Hlt; simpl.
  { split_and!; try done.
    - by rewrite app_nil_r.
    - by intros i ?%elem_of_nil.
    - split; [|by intros [-> _]]. intros ->. split; [done|]. by intros i ?%elem_of_nil. }
  apply NoDup_cons in Hnd as [Hni Hnd].
  assert (idx < length (modules k)) as Hidx by (apply Hlt; left).
  destruct (modules k !! idx) as [e|] eqn:He; [|by apply lookup_ge_None in He; lia].
  assert (Hname : name_at k idx = Name (me_module e)) by (unfold name_at; by rewrite He).
  assert (Hstate : state_of k idx = Some (me_state e)) by (unfold state_of; by rewrite He).
  destruct (decide (me_state e = ModuleStateRunning)) as [Hrun|Hrun].
  2:{ rewrite filter_cons_False by (rewrite Hstate; congruence).
      apply IH; [done|]. intros i Hi. apply Hlt. by right. }
  rewrite filter_cons_True by (rewrite Hstate; congruence).
  (* Both outcomes of the call: the module leaves the running state. *)
  assert (Hgo : forall st fe1, st = ModuleStateStopped \/ st = ModuleStateFailed ->
    (fe1 = None <-> fe = None /\ st = ModuleStateStopped) ->
    let k1 := set_state idx st (log_call (CStop (Name (me_module e))) k) in
    let '(k', fe') := stop_all outcome o k1 fe1 in
    let R := idx :: filter (fun i => state_of k i = Some ModuleStateRunning) o in
    same_rest k k' /\ calls k' = calls k ++ calls_on CStop k R /\
    (forall i, i ∉ R -> state_of k' i = state_of k i) /\
    (forall i, i ∈ R -> state_of k' i = Some ModuleStateStopped \/
                       state_of k' i = Some ModuleStateFailed) /\
    (fe' = None <-> fe = None /\ forall i, i ∈ R -> state_of k' i = Some ModuleStateStopped)).
  { intros st fe1 Hst Hfe k1. specialize (IH k1 fe1 Hnd).
    assert (Hr1 : same_registry k k1) by apply (same_registry_set_state idx _ (log_call _ k)).
    assert (Hs1 : forall i, state_of k1 i = if decide (i = idx) then Some st else state_of k i)
      by (intros i; unfold k1; by rewrite state_of_set).
    destruct (stop_all _ o k1 fe1) as [k' fe'].
    destruct IH as (Hrest & Hc & Hsame & Hstop & Hnone).
    { intros i Hi. unfold k1. rewrite length_set_state. apply Hlt. by right. }
    assert (HR : filter (fun i => state_of k1 i = Some ModuleStateRunning) o =
                 filter (fun i => state_of k i = Some ModuleStateRunning) o).
    { apply list_filter_ext_in. intros i Hi. rewrite Hs1. by_cases. }
    rewrite HR in *. set (R := filter (fun i => state_of k i = Some ModuleStateRunning) o) in *.
    assert (HidxR : idx ∉ R) by (intros [_ ?]%list_elem_of_filter; done).
    assert (Hk'idx : state_of k' idx = Some st) by (rewrite Hsame, Hs1 by done; by_cases).
    split_and!.
    - destruct Hrest as (?&?&?&?). split_and!; try done. by transitivity k1.
    - rewrite Hc, (calls_on_registry _ k k1) by done. simpl. by rewrite <- app_assoc, Hname.
    - intros i Hi. rewrite Hsame, Hs1 by set_solver. by_cases.
    - intros i [->|Hi]%elem_of_cons; [|by apply Hstop]. rewrite Hk'idx. naive_solver.
    - rewrite Hnone, Hfe. split.
      + intros [[-> ->] Hall]. split; [done|]. intros i [->|Hi]%elem_of_cons; auto.
      + intros [-> Hall]. split; [split; [done|]|].
        * specialize (Hall idx ltac:(left)). congruence.
        * intros i Hi. apply Hall. by right. }
  destruct (outcome _ _) as [err|].
  - apply Hgo; [by right|]. destruct fe; naive_solver.
  - apply Hgo; [by left|]. naive_solver.
Qed.
End LifecycleSpec.

Lemma boot_sequence_range k o :
  boot_sequence k o -> NoDup o /\ (forall i, i ∈ o <-> i < length (modules k)).
Proof.
  intros [Hp _]. split.
  - rewrite Hp. apply NoDup_seq.
  - intros i. rewrite Hp, elem_of_seq. lia.
Qed.

(** ** Properties *)

(** C12 [functional]: for every reachable registry, [topoSort] returns an order that lists every
    module exactly once with each module after all of its dependencies, or it fails: naming a
    dependency that is not registered, or with the cycle error when every dependency is
    registered and no such order exists.  It always returns: the loop never exhausts its fuel. *)
Theorem topoSort_correct (k : Kernel) (Hk : reachable k) :
  match topoSort k with
  | Ok o => deps_registered k /\ boot_sequence k o
  | Err e =>
      (exists m d, m ∈ modules k /\ d ∈ Dependencies (me_module m) /\ moduleIndex k !! d = None /\
         e = "module " +:+ quote (Name (me_module m)) +:+
             " depends on unregistered module " +:+ quote d) \/
      (deps_registered k /\ e = cyclic_error /\ ~ exists o, boot_sequence k o)
  end.
Proof. apply topoSort_spec, reachable_index_ok, Hk. Qed.

(** Calls and final states of a [Start] that fails after the boot order is known: the modules
    before the failing one completed the phase, the ones after it were not called. *)
Definition start_failed (k k' : Kernel) (e : error) : Prop :=
  exists o1 idx o2 err, boot_sequence k (o1 ++ idx :: o2) /\ bootOrder k' = o1 ++ idx :: o2 /\
    running k' = running k /\ state_of k' idx = Some ModuleStateFailed /\
    ((e = "module " +:+ quote (name_at k idx) +:+ " init failed: " +:+ err /\
      calls k' = calls k ++ calls_on CInit k (o1 ++ [idx]) /\
      (forall i, i ∈ o1 -> state_of k' i = Some ModuleStateInitialized) /\
      (forall i, i ∈ o2 -> state_of k' i = state_of k i)) \/
     (e = "module " +:+ quote (name_at k idx) +:+ " start failed: " +:+ err /\
      calls k' = calls k ++ calls_on CInit k (o1 ++ idx :: o2) ++ calls_on CStart k (o1 ++ [idx]) /\
      (forall i, i ∈ o1 -> state_of k' i = Some ModuleStateRunning) /\
      (forall i, i ∈ o2 -> state_of k' i = Some ModuleStateInitialized))).

Lemma nodup_split_l {A} (o1 o2 : list A) x i : NoDup (o1 ++ x :: o2) -> i ∈ o1 -> i <> x.
Proof. intros (_ & Hd & _)%NoDup_app Hi ->. apply (Hd x Hi). by left. Qed.

Lemma nodup_split_r {A} (o1 o2 : list A) x i :
  NoDup (o1 ++ x :: o2) -> i ∈ o2 -> i <> x /\ i ∉ o1.
Proof.
  intros (Hn1 & Hd & Hn2)%NoDup_app Hi. apply NoDup_cons in Hn2 as [Hx Hn2].
  split; [by intros -> |]. intros Hi1. apply (Hd i Hi1). by right.
Qed.

(** [Start] without a loaded configuration or with a bad dependency graph calls
    no module and changes nothing; otherwise it initialises every module in boot order before it
    starts any, and either all modules end up running, or the first module whose [Init] or
    [Start] fails is marked failed, its error returned, and no later module is called. *)
Lemma Start_spec outcome (k : Kernel) (Hk : reachable k) :
  match Start outcome k with
  | (k', Ok _) => configLoaded k = true /\ exists o, boot_sequence k o /\ bootOrder k' = o /\
      running k' = true /\ registry k' = registry k /\
      calls k' = calls k ++ calls_on CInit k o ++ calls_on CStart k o /\
      forall i, i < length (modules k) -> state_of k' i = Some ModuleStateRunning
  | (k', Err e) => ((configLoaded k = false \/ topoSort k = Err e) /\ k' = k) \/
      (configLoaded k = true /\ start_failed k k' e)
  end.
Proof.
  apply reachable_index_ok in Hk. unfold Start.
  destruct (configLoaded k); simpl; [|left; auto].
  pose proof (topoSort_spec k Hk) as Ht. destruct (topoSort k) as [o|e]; [|left; auto].
  destruct Ht as [_ Hb]. destruct (boot_sequence_range k o Hb) as [Hnd Hrange].
  set (k0 := set_bootOrder o k).
  pose proof (run_phase_spec outcome CInit ModuleStateInitialized "init" o k0 Hnd) as H1.
  destruct (run_phase _ CInit _ _ o k0) as [k1 r1].
  destruct H1 as ((Hr1 & _ & Hb1 & Hreg1) & H1); [intros i Hi; by apply Hrange|].
  destruct r1 as [[]|e]; cycle 1.
  { right. split; [done|]. destruct H1 as (o1 & idx & o2 & err & -> & _ & -> & Hc & Hs).
    exists o1, idx, o2, err. split_and!; try done; [rewrite Hs; by_cases|]. left.
    split_and!; try done; intros i Hi; rewrite Hs.
    - pose proof (nodup_split_l _ _ _ _ Hnd Hi). by_cases.
    - destruct (nodup_split_r _ _ _ _ Hnd Hi). by rewrite !decide_False. }
  destruct H1 as [Hc1 Hs1].
  pose proof (run_phase_spec outcome CStart ModuleStateRunning "start" o k1 Hnd) as H2.
  destruct (run_phase _ CStart _ _ o k1) as [k2 r2].
  destruct H2 as ((Hr2 & _ & Hb2 & Hreg2) & H2).
  { intros i Hi. rewrite <- (length_fmap me_module). destruct Hreg1 as [Hreg1 _].
    unfold registry in Hreg1. rewrite Hreg1, length_fmap. by apply Hrange. }
  assert (Hcalls : forall mk l, calls_on mk k1 l = calls_on mk k l)
    by (intros; by apply calls_on_registry).
  destruct r2 as [[]|e]; [|right].
  - destruct H2 as [Hc2 Hs2]. split; [done|]. exists o. simpl. split_and!; try done.
    + by rewrite Hb2, Hb1.
    + transitivity (registry k1); [apply Hreg2 | apply Hreg1].
    + by rewrite Hc2, Hc1, Hcalls, <- app_assoc.
    + intros i Hi. change (state_of k2 i = Some ModuleStateRunning).
      rewrite Hs2. apply Hrange in Hi. by_cases.
  - split; [done|]. destruct H2 as (o1 & idx & o2 & err & -> & _ & -> & Hc2 & Hs2).
    exists o1, idx, o2, err. split_and!; try done.
    + by rewrite Hb2, Hb1.
    + by rewrite Hr2, Hr1.
    + rewrite Hs2. by_cases.
    + right. rewrite (name_at_registry k k1) by done. split_and!; try done.
      * by rewrite Hc2, Hc1, Hcalls, <- app_assoc.
      * intros i Hi. rewrite Hs2. pose proof (nodup_split_l _ _ _ _ Hnd Hi). by_cases.
      * intros i Hi. rewrite Hs2, Hs1.
        destruct (nodup_split_r _ _ _ _ Hnd Hi). rewrite !decide_False by done. by_cases.
Qed.

(** After a successful [Start], [Stop] calls every module's [Stop] exactly once, in
    the reverse of the boot order — every module is stopped before the modules it depends on —
    whatever the modules return; no module is left running, and the result is nil exactly when
    every module stopped cleanly. *)
Lemma Start_Stop_reverse outcome outcome' (k k1 : Kernel) (Hk : reachable k)
    (Hstart : Start outcome k = (k1, Ok tt)) :
  let '(k2, err) := Stop outcome' k1 in
  running k2 = false /\
  (exists o, boot_sequence k o /\ calls k2 = calls k1 ++ calls_on CStop k (reverse o)) /\
  (forall i, i < length (modules k) ->
     state_of k2 i = Some ModuleStateStopped \/ state_of k2 i = Some ModuleStateFailed) /\
  (err = None <-> forall i, i < length (modules k) -> state_of k2 i = Some ModuleStateStopped).
Proof.
  pose proof (Start_spec outcome k Hk) as Hs. rewrite Hstart in Hs.
  destruct Hs as (_ & o & Hb & Hbo & Hrun & Hreg & Hc & Hst).
  destruct (boot_sequence_range k o Hb) as [Hnd Hrange].
  pose proof (Start_registry outcome k) as Hsame. rewrite Hstart in Hsame; simpl in Hsame.
  assert (Hlen : length (modules k1) = length (modules k)).
  { rewrite <- (length_fmap me_module (modules k1)), <- (length_fmap me_module (modules k)).
    by f_equal. }
  unfold Stop. rewrite Hbo.
  pose proof (stop_all_spec outcome' (reverse o) k1 None) as Hstop.
  destruct (stop_all outcome' (reverse o) k1 None) as [k2 err].
  assert (HR : filter (fun i => state_of k1 i = Some ModuleStateRunning) (reverse o) = reverse o).
  { apply list_filter_all. intros i Hi%elem_of_reverse%Hrange. by apply Hst. }
  assert (Hrev : forall i, i ∈ reverse o <-> i < length (modules k))
    by (intros i; by rewrite elem_of_reverse).
  rewrite HR in Hstop.
  destruct Hstop as (_ & Hc2 & _ & Hin & Herr).
  { by rewrite reverse_Permutation. }
  { intros i Hi. rewrite Hlen. by apply Hrev. }
  split_and!; [done | | intros i Hi; by apply Hin, Hrev | ].
  - exists o. split; [done|]. simpl. by rewrite Hc2, (calls_on_registry _ k k1).
  - rewrite Herr. split.
    + intros [_ Hall] i Hi. by apply Hall, Hrev.
    + intros Hall. split; [done|]. intros i Hi. by apply Hall, Hrev.
Qed.

(** ** Witnesses: a four-module kernel *)

Definition demo_modules : list Module_ :=
  [ {| Name := "workflow"; Dependencies := ["agent_runtime"] |};
    {| Name := "agent_runtime"; Dependencies := ["policy"; "audit"; "policy"] |};
    {| Name := "policy"; Dependencies := [] |};
    {| Name := "audit"; Dependencies := [] |} ].
Definition demo_kernel : Kernel :=
  (LoadConfig (Ok tt) (fold_left (fun k m => (Register m k).1) demo_modules New)).1.

Lemma demo_reachable : reachable demo_kernel.
Proof.
  unfold reachable, demo_kernel, demo_modules; simpl fold_left.
  repeat (eapply rtc_r; [ | first [apply step_load | apply step_register] ]). constructor.
Defined.

Lemma topoSort_correct_witness :
  topoSort demo_kernel = Ok [2; 3; 1; 0] /\ boot_sequence demo_kernel [2; 3; 1; 0].
Proof.
  split; [vm_compute; reflexivity|].
  pose proof (topoSort_correct demo_kernel demo_reachable) as H.
  assert (E : topoSort demo_kernel = Ok [2; 3; 1; 0]) by (vm_compute; reflexivity).
  rewrite E in H. exact (proj2 H).
Defined.

(** [audit] fails to initialise. *)
Definition demo_outcome (_ : list call) (c : call) : option error :=
  match c with CInit "audit" => Some "disk full" | _ => None end.

Lemma Start_spec_witness :
  configLoaded demo_kernel = true /\
  start_failed demo_kernel (Start demo_outcome demo_kernel).1
    ("module " +:+ quote "audit" +:+ " init failed: disk full").
Proof.
  pose proof (Start_spec demo_outcome demo_kernel demo_reachable) as H.
  destruct (Start demo_outcome demo_kernel) as [k' [[]|e]] eqn:E; vm_compute in E; [discriminate|].
  injection E as <- <-. destruct H as [[[H|H] _]|H]; [discriminate H| |exact H].
  vm_compute in H. discriminate H.
Defined.

Lemma Start_Stop_reverse_witness :
  let k1 := (Start (fun _ _ => None) demo_kernel).1 in
  let '(k2, err) := Stop (fun _ c => match c with CStop "policy" => Some "busy" | _ => None end) k1 in
  running k2 = false /\
  (exists o, boot_sequence demo_kernel o /\ calls k2 = calls k1 ++ calls_on CStop demo_kernel (reverse o)).
Proof.
  intros k1.
  assert (E : Start (fun _ _ => None) demo_kernel = (k1, Ok tt)) by (vm_compute; reflexivity).
  pose proof (Start_Stop_reverse (fun _ _ => None)
    (fun _ c => match c with CStop "policy" => Some "busy" | _ => None end)
    demo_kernel k1 demo_reachable E) as H.
  destruct (Stop _ k1) as [k2 err]. exact (conj (proj1 H) (proj1 (proj2 H))).
Defined.
