(* ===== verification/Resource.v ===== *)
(** * Resource: per-tenant resource counters and limits

    [src/kernel/resource/manager.go], every operation.  Counters and limits are
    nested maps; the snapshot is sorted by an unstable sort, through [SliceSorter]. *)
From S2P Require Import Prelude.
Local Open Scope Z_scope.

(* [kernel/resource/manager.go:ResourceType] *)
Inductive ResourceType := ResourceGoroutines | ResourceFileDescriptors | ResourceAPICalls.

#[export] Instance ResourceType_eq_dec : EqDecision ResourceType.
Proof. solve_decision. Defined.
#[export] Instance ResourceType_countable : Countable ResourceType.
Proof.
  refine (inj_countable'
    (fun r => match r with
      | ResourceGoroutines => 0 | ResourceFileDescriptors => 1 | ResourceAPICalls => 2 end)%nat
    (fun n => match n with
      | 0 => ResourceGoroutines | 1 => ResourceFileDescriptors | _ => ResourceAPICalls end)%nat _).
  by intros [].
Defined.

(* [kernel/resource/manager.go:ErrLimitExceeded] *)
Definition ErrLimitExceeded : error := "resource: limit exceeded".
(* [kernel/resource/manager.go:Unlimited] *)
Definition Unlimited : Z := -1.

(* [kernel/resource/manager.go:UsageEntry] *)
Record UsageEntry := { Current : Z; Limit : Z }.

(* [kernel/resource/manager.go:Manager] *)
Record Manager := {
  usage : gmap string (gmap ResourceType Z);
  limits : gmap string (gmap ResourceType Z);
}.

(* [kernel/resource/manager.go:NewManager] *)
Definition NewManager : Manager := {| usage := ∅; limits := ∅ |}.

(** Reading a nested Go map: a missing key reads as the zero value. *)
Definition read2 (m : gmap string (gmap ResourceType Z)) (t : string) (r : ResourceType) : Z :=
  default 0 (default ∅ (m !! t) !! r).

(* [kernel/resource/manager.go:Manager.SetLimit] *)
Definition SetLimit (tenant : string) (res : ResourceType) (limit : Z) (m : Manager) : Manager :=
  {| usage := usage m;
     limits := <[tenant := <[res := limit]> (default ∅ (limits m !! tenant))]> (limits m) |}.

(* [kernel/resource/manager.go:Manager.getLimit] *)
Definition getLimit (tenant : string) (res : ResourceType) (m : Manager) : Z :=
  match limits m !! tenant with
  | None => Unlimited
  | Some ls => match ls !! res with None => Unlimited | Some l => l end
  end.

(* [kernel/resource/manager.go:Manager.Acquire] *)
Definition Acquire (tenant : string) (res : ResourceType) (m : Manager) : Manager * Result unit :=
  let u := default ∅ (usage m !! tenant) in
  let m := {| usage := <[tenant := u]> (usage m); limits := limits m |} in
  let current := default 0 (u !! res) in
  let limit := getLimit tenant res m in
  if negb (limit =? Unlimited) && (limit <=? current) then (m, Err ErrLimitExceeded)
  else ({| usage := <[tenant := <[res := wrap64 (current + 1)]> u]> (usage m);
           limits := limits m |}, Ok tt).

(* [kernel/resource/manager.go:Manager.Release] *)
Definition Release (tenant : string) (res : ResourceType) (m : Manager) : Manager :=
  match usage m !! tenant with
  | None => m
  | Some u =>
      let current := default 0 (u !! res) in
      if 0 <? current then
        {| usage := <[tenant := <[res := current - 1]> u]> (usage m); limits := limits m |}
      else m
  end.

(* [kernel/resource/manager.go:Manager.Usage] *)
Definition Usage (tenant : string) (res : ResourceType) (m : Manager) : Z :=
  match usage m !! tenant with
  | None => 0
  | Some u => default 0 (u !! res)
  end.

(** The two loops of [Snapshot]: one entry per configured limit, then one per
    used resource that has none. *)
(* [kernel/resource/manager.go:Manager.Snapshot] *)
Definition Snapshot (tenant : string) (m : Manager) : gmap ResourceType UsageEntry :=
  let fromLimits :=
    map_imap (fun res limit => Some {| Current := read2 (usage m) tenant res; Limit := limit |})
             (default ∅ (limits m !! tenant)) in
  fromLimits ∪
    ((fun current => {| Current := current; Limit := 0 |}) <$> default ∅ (usage m !! tenant)).

(* [kernel/resource/manager.go:Manager.RemoveTenant] *)
Definition RemoveTenant (tenant : string) (m : Manager) : Manager :=
  {| usage := delete tenant (usage m); limits := delete tenant (limits m) |}.

(** ** Traces *)

Inductive op :=
  | OpSetLimit (t : string) (r : ResourceType) (l : Z)
  | OpAcquire (t : string) (r : ResourceType)
  | OpRelease (t : string) (r : ResourceType)
  | OpRemoveTenant (t : string).

Definition apply (o : op) (m : Manager) : Manager :=
  match o with
  | OpSetLimit t r l => SetLimit t r l m
  | OpAcquire t r => (Acquire t r m).1
  | OpRelease t r => Release t r m
  | OpRemoveTenant t => RemoveTenant t m
  end.

Definition run (ops : list op) (m : Manager) : Manager := fold_left (fun m o => apply o m) ops m.

Definition tenant_of (o : op) : string :=
  match o with
  | OpSetLimit t _ _ | OpAcquire t _ | OpRelease t _ | OpRemoveTenant t => t
  end.

(** Operations that change the limit of [(t, r)]. *)
Definition configures (t : string) (r : ResourceType) (o : op) : bool :=
  match o with
  | OpSetLimit t' r' _ => bool_decide (t' = t /\ r' = r)
  | OpRemoveTenant t' => bool_decide (t' = t)
  | _ => false
  end.

Lemma Usage_read2 t r m : Usage t r m = read2 (usage m) t r.
Proof. unfold Usage, read2. by destruct (usage m !! t). Qed.

Lemma read2_insert m t u t' r' :
  read2 (<[t := u]> m) t' r' = if decide (t = t') then default 0 (u !! r') else read2 m t' r'.
Proof. unfold read2. rewrite lookup_insert. by case_decide. Qed.

Lemma default_insert (u : gmap ResourceType Z) r v r' :
  default 0 (<[r := v]> u !! r') = if decide (r = r') then v else default 0 (u !! r').
Proof. rewrite lookup_insert. by case_decide. Qed.

Lemma getLimit_limits t r m m' : limits m' = limits m -> getLimit t r m' = getLimit t r m.
Proof. intros H. unfold getLimit. by rewrite H. Qed.

Lemma Acquire_spec t r m :
  limits (Acquire t r m).1 = limits m /\
  ((Acquire t r m).2 = Ok tt <-> getLimit t r m = Unlimited \/ Usage t r m < getLimit t r m) /\
  forall t' r', Usage t' r' (Acquire t r m).1 =
    if decide (t = t' /\ r = r' /\ (Acquire t r m).2 = Ok tt)
    then wrap64 (Usage t' r' m + 1) else Usage t' r' m.
Proof.
  unfold Acquire. set (u := default ∅ (usage m !! t)).
  rewrite (getLimit_limits t r m) by done.
  assert (Hu : Usage t r m = default 0 (u !! r)) by (rewrite Usage_read2; done). rewrite Hu.
  destruct (negb (getLimit t r m =? Unlimited) && (getLimit t r m <=? default 0 (u !! r))) eqn:E;
    cbn [fst snd limits]; split_and!; try done.
  - split; [done|]. intros [?|?]; exfalso; lia.
  - intros t' r'. rewrite !Usage_read2; simpl. rewrite read2_insert.
    rewrite (decide_False (P := _ /\ _)) by naive_solver. case_decide; by subst.
  - split; [|done]. intros _. destruct (Z.eqb_spec (getLimit t r m) Unlimited); [by left|].
    right. simpl in E. lia.
  - intros t' r'. rewrite !Usage_read2; simpl. rewrite !read2_insert, default_insert.
    unfold read2. repeat case_decide; subst; fold u; naive_solver.
Qed.

Lemma Release_spec t r m :
  limits (Release t r m) = limits m /\
  forall t' r', Usage t' r' (Release t r m) =
    if decide (t = t' /\ r = r' /\ 0 < Usage t' r' m) then Usage t' r' m - 1 else Usage t' r' m.
Proof.
  unfold Release. destruct (usage m !! t) as [u|] eqn:E; [destruct (Z.ltb_spec 0 (default 0 (u !! r)))|];
    split; try done; intros t' r'; rewrite !Usage_read2; simpl.
  - rewrite read2_insert, default_insert. unfold read2.
    repeat case_decide; subst; rewrite ?E in *; naive_solver.
  - unfold read2. repeat case_decide; destruct_and?; subst; rewrite ?E in *; simpl in *; done || lia.
  - unfold read2. repeat case_decide; destruct_and?; subst; rewrite ?E in *; simpl in *; done || lia.
Qed.

(** Operations of another tenant leave a tenant's usage and limits alone. *)
Lemma apply_other o t m :
  tenant_of o <> t ->
  (forall r, Usage t r (apply o m) = Usage t r m) /\
  (forall r, getLimit t r (apply o m) = getLimit t r m).
Proof.
  intros Hne. destruct o as [t' r' l|t' r'|t' r'|t']; simpl in *.
  - split; [done|]. intros r. unfold getLimit; simpl. by rewrite lookup_insert_ne.
  - destruct (Acquire_spec t' r' m) as (Hl & _ & Hu). split; intros r.
    + rewrite Hu. by rewrite decide_False by naive_solver.
    + by apply getLimit_limits.
  - destruct (Release_spec t' r' m) as (Hl & Hu). split; intros r.
    + rewrite Hu. by rewrite decide_False by naive_solver.
    + by apply getLimit_limits.
  - split; intros r; unfold Usage, getLimit; simpl; by rewrite lookup_delete_ne.
Qed.

Lemma apply_limit o t r m :
  configures t r o = false -> getLimit t r (apply o m) = getLimit t r m.
Proof.
  intros Hc. destruct o as [t' r' l|t' r'|t' r'|t']; simpl in *.
  - apply bool_decide_eq_false in Hc. unfold getLimit; simpl. rewrite lookup_insert.
    case_decide as Ht; [subst|done]. destruct (limits m !! t) as [ls|]; simpl.
    + rewrite lookup_insert_ne by naive_solver. done.
    + rewrite lookup_insert_ne by naive_solver. by rewrite lookup_empty.
  - apply getLimit_limits, Acquire_spec.
  - apply getLimit_limits, Release_spec.
  - apply bool_decide_eq_false in Hc. unfold getLimit; simpl. by rewrite lookup_delete_ne.
Qed.

Lemma apply_bounded o t r m L :
  0 <= L <= maxInt64 -> getLimit t r m = L -> configures t r o = false ->
  0 <= Usage t r m <= L -> 0 <= Usage t r (apply o m) <= L.
Proof.
  intros HL Hlim Hc Hu. destruct o as [t' r' l|t' r'|t' r'|t']; simpl in *.
  - done.
  - destruct (Acquire_spec t' r' m) as (_ & Hok & Hus). rewrite Hus. 
    destruct (decide (t' = t /\ r' = r /\ (Acquire t' r' m).2 = Ok tt)) as [Hd|_]; [|done].
    destruct Hd as (-> & -> & Hd). rewrite Hok, Hlim in Hd. unfold Unlimited, maxInt64 in *.
    rewrite wrap64_id by (unfold in_int64, minInt64, maxInt64; lia). lia.
  - destruct (Release_spec t' r' m) as (_ & Hus). rewrite Hus. case_decide; lia.
  - apply bool_decide_eq_false in Hc. unfold Usage in *; simpl. by rewrite lookup_delete_ne.
Qed.

(** ** Properties *)

(** Once a limit [L >= 0] is in force for a tenant's resource and respected, it stays
    respected across every sequence of operations that does not reconfigure it — by any tenant, in
    any order: usage stays within [0, L], and in each state reached [Acquire] succeeds exactly when
    usage is below the limit, so a limit of 0 denies everything. *)
Lemma limit_enforced t r L ops m
    (HL : 0 <= L <= maxInt64) (Hlim : getLimit t r m = L) (Hu : 0 <= Usage t r m <= L)
    (Hops : forallb (fun o => negb (configures t r o)) ops = true) :
  let m' := run ops m in
  0 <= Usage t r m' <= L /\
  (is_Ok (Acquire t r m').2 = true <-> Usage t r m' < L) /\
  (L = 0 -> (Acquire t r m').2 = Err ErrLimitExceeded).
Proof.
  simpl. unfold run.
  assert (H : getLimit t r (fold_left (fun m o => apply o m) ops m) = L /\
              0 <= Usage t r (fold_left (fun m o => apply o m) ops m) <= L).
  { revert m Hlim Hu. induction ops as [|o ops IH]; intros m Hlim Hu; simpl in *; [done|].
    apply andb_true_iff in Hops as [Ho Hops]. apply negb_true_iff in Ho.
    apply IH; [done| |].
    - by rewrite apply_limit.
    - by apply apply_bounded. }
  set (m' := fold_left _ ops m) in *. destruct H as [Hl' Hu']. split; [done|].
  destruct (Acquire_spec t r m') as (_ & Hok & _). rewrite Hl' in Hok.
  assert (Hiff : is_Ok (Acquire t r m').2 = true <-> Usage t r m' < L).
  { transitivity ((Acquire t r m').2 = Ok tt); [|rewrite Hok; unfold Unlimited; lia].
    destruct (Acquire t r m').2 as [[]|]; simpl; split; done. }
  split; [done|]. intros ->. unfold Acquire in *.
  destruct (_ && _); simpl in *; [done|]. lia.
Qed.

Definition demo : Manager := SetLimit "acme" ResourceAPICalls 2 NewManager.
Definition demo_ops : list op :=
  [OpAcquire "acme" ResourceAPICalls; OpAcquire "globex" ResourceAPICalls;
   OpAcquire "acme" ResourceAPICalls; OpAcquire "acme" ResourceAPICalls;
   OpRemoveTenant "globex"].
Lemma limit_enforced_witness :
  0 <= Usage "acme" ResourceAPICalls (run demo_ops demo) <= 2 /\
  Usage "acme" ResourceAPICalls (run demo_ops demo) = 2.
Proof.
  split; [|vm_compute; reflexivity].
  apply (limit_enforced "acme" ResourceAPICalls 2 demo_ops demo);
    vm_compute; try split; try reflexivity; discriminate.
Defined.

Lemma Snapshot_lookup t m r :
  Snapshot t m !! r =
    match default ∅ (limits m !! t) !! r with
    | Some l => Some {| Current := Usage t r m; Limit := l |}
    | None => (fun c => {| Current := c; Limit := 0 |}) <$> default ∅ (usage m !! t) !! r
    end.
Proof.
  unfold Snapshot. rewrite lookup_union, map_lookup_imap, lookup_fmap, Usage_read2.
  by destruct (default ∅ (limits m !! t) !! r), (default ∅ (usage m !! t) !! r).
Qed.

(** A tenant's snapshot reports the current usage of exactly the resources that
    are limited or used, and no operation of another tenant changes an entry.  But a used resource
    without a configured limit, on which [Acquire] always succeeds, is reported with limit 0 — the
    same entry as a resource whose limit 0 makes every [Acquire] fail. *)
Lemma Snapshot_spec t m :
  (forall r e, Snapshot t m !! r = Some e -> Current e = Usage t r m) /\
  (forall r, is_Some (Snapshot t m !! r) <->
     is_Some (default ∅ (limits m !! t) !! r) \/ is_Some (default ∅ (usage m !! t) !! r)) /\
  (forall r, is_Some (Snapshot t m !! r) -> default ∅ (limits m !! t) !! r = None ->
     Limit <$> Snapshot t m !! r = Some 0 /\ (Acquire t r m).2 = Ok tt) /\
  (forall r, default ∅ (limits m !! t) !! r = Some 0 -> 0 <= Usage t r m ->
     Limit <$> Snapshot t m !! r = Some 0 /\ (Acquire t r m).2 = Err ErrLimitExceeded) /\
  (forall o r, tenant_of o <> t -> Usage t r (apply o m) = Usage t r m /\
                                  getLimit t r (apply o m) = getLimit t r m).
Proof.
  assert (Hget : forall r, getLimit t r m = default Unlimited (default ∅ (limits m !! t) !! r)).
  { intros r. unfold getLimit. destruct (limits m !! t) as [ls|]; simpl;
      [by destruct (ls !! r) | by rewrite lookup_empty]. }
  assert (Huse : forall r c, default ∅ (usage m !! t) !! r = Some c -> Usage t r m = c).
  { intros r c Hc. rewrite Usage_read2. unfold read2. by rewrite Hc. }
  split_and!.
  - intros r e. rewrite Snapshot_lookup. destruct (default ∅ (limits m !! t) !! r); [naive_solver|].
    destruct (default ∅ (usage m !! t) !! r) as [c|] eqn:E; [|done].
    intros [= <-]; simpl. symmetry; by apply Huse.
  - intros r. rewrite Snapshot_lookup.
    destruct (default ∅ (limits m !! t) !! r), (default ∅ (usage m !! t) !! r); simpl;
      rewrite <- !not_eq_None_Some; intuition discriminate.
  - intros r Hs Hl. rewrite Snapshot_lookup, Hl in *.
    destruct (default ∅ (usage m !! t) !! r) as [c|]; [|by destruct Hs]. split; [done|].
    apply Acquire_spec. left. by rewrite Hget, Hl.
  - intros r Hl Hu. rewrite Snapshot_lookup, Hl. split; [done|].
    destruct (Acquire_spec t r m) as (_ & Hok & _). rewrite Hget, Hl in Hok; simpl in Hok.
    unfold Acquire in *. destruct (_ && _); [done|]. simpl in Hok.
    destruct (proj1 Hok eq_refl); unfold Unlimited in *; lia.
  - intros o r Hne. destruct (apply_other o t m Hne); auto.
Qed.

(** [Snapshot_spec] on a tenant with one limited and one unlimited resource. *)
Definition demo2 : Manager :=
  run [OpAcquire "acme" ResourceGoroutines; OpSetLimit "acme" ResourceAPICalls 0] NewManager.
Lemma Snapshot_spec_witness :
  Limit <$> Snapshot "acme" demo2 !! ResourceGoroutines = Some 0 /\
  (Acquire "acme" ResourceGoroutines demo2).2 = Ok tt /\
  Limit <$> Snapshot "acme" demo2 !! ResourceAPICalls = Some 0 /\
  (Acquire "acme" ResourceAPICalls demo2).2 = Err ErrLimitExceeded.
Proof.
  destruct (Snapshot_spec "acme" demo2) as (_ & _ & Hunl & Hzero & _).
  destruct (Hunl ResourceGoroutines) as [H1 H2]; [vm_compute; eauto | vm_compute; reflexivity|].
  destruct (Hzero ResourceAPICalls) as [H3 H4]; [vm_compute; reflexivity | vm_compute; discriminate|].
  auto.
Defined.
