(* ===== verification/Ipc.v ===== *)
(** * Ipc: the in-process message bus

    [src/kernel/ipc/bus.go] and [types.go].  A Go channel is an entry of [chans]: the
    buffered envelopes, whether it is closed, and the handler its consumer calls; the
    handler maps hold channel numbers, so a channel that was replaced keeps draining.
    [World] adds the handler goroutines and the replies sent; [step] interleaves every
    operation with them.  Reply channels are numbered by request.  A panic in the
    caller is [None].  The identifiers drawn and the context's deadline are arguments;
    a request that gives up waiting (ErrTimeout) leaves the world as it is. *)
From S2P Require Import Prelude.

(** ** Data *)

(* [kernel/ipc/types.go:MessageType] *)
Inductive MessageType := MessageTypeRequest | MessageTypeResponse | MessageTypeEvent | MessageTypeOther (n : Z).
(* [kernel/ipc/types.go:MessageType.String] *)
Definition MessageType_String (t : MessageType) : string :=
  match t with
  | MessageTypeRequest => "request"
  | MessageTypeResponse => "response"
  | MessageTypeEvent => "event"
  | MessageTypeOther n => "unknown(" +:+ itoa n +:+ ")"
  end.

(* [kernel/ipc/types.go:ErrModuleOverloaded] *)
Definition ErrModuleOverloaded : error := "ipc: target module overloaded".
(* [kernel/ipc/types.go:ErrTimeout] *)
Definition ErrTimeout : error := "ipc: request timed out".
(* [kernel/ipc/types.go:ErrBusClosed] *)
Definition ErrBusClosed : error := "ipc: bus is closed".
(* [kernel/ipc/types.go:ErrNoHandler] *)
Definition ErrNoHandler : error := "ipc: no handler registered for topic".

(* [kernel/ipc/bus.go:defaultBufferSize] *)
Definition defaultBufferSize : nat := 1024.

Section Bus.
(** Payloads are opaque to the bus. *)
Context {Payload_ : Type}.

(* [kernel/ipc/types.go:Message] *)
Record Message := {
  ID : string; Source : string; Target : string; Type_ : MessageType; Topic : string;
  Payload : Payload_; Deadline : time; TraceID : string;
}.

(** A handler is a Go function value: its identity is a number, its result comes
    with the step that runs it. *)
Abbreviation Handler := nat (only parsing).
Inductive handler_result :=
  | HReturn (resp : Message)
  | HError (err : error)
  | HPanic (value : string).

(** A reply channel is identified by the number of the request it was made for. *)
(* [kernel/ipc/bus.go:requestEnvelope] *)
Record requestEnvelope := { env_msg : Message; env_reply : nat }.
(* [kernel/ipc/bus.go:replyEnvelope] *)
Definition replyEnvelope : Type := Result Message.
(* [kernel/ipc/bus.go:subscriberEntry] *)
Record subscriberEntry := { sub_module : string; sub_handler : Handler; sub_id : string }.

(** The Go channel [inbox], with the goroutine that ranges over it: the handler
    it calls, the buffered envelopes, and whether it is closed. *)
(* [kernel/ipc/bus.go:handlerEntry] *)
Record inbox := { ib_handler : Handler; ib_queue : list requestEnvelope; ib_closed : bool }.

(** [handlers] holds channel numbers; the channels themselves live in [chans]. *)
(* [kernel/ipc/bus.go:Bus] *)
Record Bus := {
  handlers : gmap string (gmap string nat);
  subscribers : gmap string (list subscriberEntry);
  closed : bool;
  bufferSize : nat;
  chans : list inbox;
}.

(** Sizes are positive: the node's is 1024.  (An unbuffered inbox would take a message just when its consumer waits.) *)
(* [kernel/ipc/bus.go:NewBusWithBufferSize] *)
Definition NewBusWithBufferSize (size : nat) : Bus :=
  {| handlers := ∅; subscribers := ∅; closed := false; bufferSize := size; chans := [] |}.
(* [kernel/ipc/bus.go:NewBus] *)
Definition NewBus : Bus := NewBusWithBufferSize defaultBufferSize.

Definition handler_at (module topic : string) (b : Bus) : option nat :=
  handlers b !! module ≫= (fun topics => topics !! topic).

Definition set_chans (cs : list inbox) (b : Bus) : Bus :=
  {| handlers := handlers b; subscribers := subscribers b; closed := closed b;
     bufferSize := bufferSize b; chans := cs |}.

(** [close(ch)]: closing a closed channel panics, here [None]. *)
Definition close_chan (ch : nat) (b : Bus) : option Bus :=
  match chans b !! ch with
  | None => None
  | Some ib =>
      if ib_closed ib then None
      else Some (set_chans (<[ch := {| ib_handler := ib_handler ib; ib_queue := ib_queue ib;
                                        ib_closed := true |}]> (chans b)) b)
  end.

(** ** Operations *)

(** [None] is a panic in the caller. *)
(* [kernel/ipc/bus.go:Bus.Handle] *)
Definition Handle (module topic : string) (h : Handler) (b : Bus) : option Bus :=
  let topics := default ∅ (handlers b !! module) in
  b ← match topics !! topic with
      | Some prev => close_chan prev b
      | None => Some b
      end;
  let ch := length (chans b) in
  Some {| handlers := <[module := <[topic := ch]> topics]> (handlers b);
          subscribers := subscribers b; closed := closed b; bufferSize := bufferSize b;
          chans := chans b ++ [{| ib_handler := h; ib_queue := []; ib_closed := false |}] |}.

(** The message as it is sent: missing identifiers are drawn, the context's
    deadline is copied. *)
Definition stamp_request (freshID freshTrace : string) (deadline : option time) (msg : Message) : Message :=
  {| ID := if decide (ID msg = "") then freshID else ID msg;
     Source := Source msg; Target := Target msg; Type_ := Type_ msg; Topic := Topic msg;
     Payload := Payload msg;
     Deadline := match deadline with Some d => d | None => Deadline msg end;
     TraceID := if decide (TraceID msg = "") then freshTrace else TraceID msg |}.

(** The non-blocking send of [Request]: sending on a closed channel panics and is
    recovered as [ErrBusClosed]; a full buffer is [ErrModuleOverloaded]. *)
Definition send (ch : nat) (env : requestEnvelope) (b : Bus) : Result Bus :=
  match chans b !! ch with
  | None => Err ErrBusClosed
  | Some ib =>
      if ib_closed ib then Err ErrBusClosed
      else if decide (length (ib_queue ib) < bufferSize b) then
        Ok (set_chans (<[ch := {| ib_handler := ib_handler ib; ib_queue := ib_queue ib ++ [env];
                                   ib_closed := false |}]> (chans b)) b)
      else Err ErrModuleOverloaded
  end.

(** [Request] up to the point where it waits for the reply numbered [reply]. *)
(* [kernel/ipc/bus.go:Bus.Request] *)
Definition Request (freshID freshTrace : string) (deadline : option time) (reply : nat)
    (msg : Message) (b : Bus) : Result Bus :=
  if closed b then Err ErrBusClosed
  else match handlers b !! Target msg with
  | None => Err ErrNoHandler
  | Some topics =>
      match topics !! Topic msg with
      | None => Err ErrNoHandler
      | Some ch =>
          send ch {| env_msg := stamp_request freshID freshTrace deadline msg; env_reply := reply |} b
      end
  end.

(** The reply the handler goroutine sends for an envelope. *)
(* [kernel/ipc/bus.go:Bus.Handle@76-97] *)
Definition reply_of (req : requestEnvelope) (r : handler_result) : replyEnvelope :=
  match r with
  | HPanic v => Err ("ipc: handler panicked: " +:+ v)
  | HError e => Err e
  | HReturn resp =>
      Ok {| ID := ID (env_msg req); Source := Target (env_msg req); Target := Source (env_msg req);
            Type_ := Type_ resp; Topic := Topic resp; Payload := Payload resp;
            Deadline := Deadline resp; TraceID := TraceID (env_msg req) |}
  end.

(** The handle [Subscribe] returns: topic, module, and the identifier its cancel
    function removes, if any. *)
(* [kernel/ipc/types.go:Subscription] *)
Record Subscription := { s_Topic : string; s_Module : string; s_cancel : option string }.

(* [kernel/ipc/bus.go:Bus.Subscribe] *)
Definition Subscribe (fresh module topic : string) (h : Handler) (b : Bus) : Bus * Subscription :=
  if closed b then (b, {| s_Topic := topic; s_Module := module; s_cancel := None |})
  else
    ({| handlers := handlers b;
        subscribers := <[topic := default [] (subscribers b !! topic) ++
          [{| sub_module := module; sub_handler := h; sub_id := fresh |}]]> (subscribers b);
        closed := closed b; bufferSize := bufferSize b; chans := chans b |},
     {| s_Topic := topic; s_Module := module; s_cancel := Some fresh |}).

Fixpoint remove_first (id : string) (subs : list subscriberEntry) : list subscriberEntry :=
  match subs with
  | [] => []
  | s :: subs' => if decide (sub_id s = id) then subs' else s :: remove_first id subs'
  end.

(* [kernel/ipc/bus.go:Bus.unsubscribe] *)
Definition unsubscribe (topic id : string) (b : Bus) : Bus :=
  match subscribers b !! topic with
  | None => b
  | Some subs =>
      {| handlers := handlers b; subscribers := <[topic := remove_first id subs]> (subscribers b);
         closed := closed b; bufferSize := bufferSize b; chans := chans b |}
  end.

(* [kernel/ipc/types.go:Subscription.Cancel] *)
Definition Cancel (s : Subscription) (b : Bus) : Bus :=
  match s_cancel s with Some id => unsubscribe (s_Topic s) id b | None => b end.

(** The message as it is published: a missing ID is drawn. *)
Definition stamp_event (freshID : string) (msg : Message) : Message :=
  {| ID := if decide (ID msg = "") then freshID else ID msg;
     Source := Source msg; Target := Target msg; Type_ := Type_ msg; Topic := Topic msg;
     Payload := Payload msg; Deadline := Deadline msg; TraceID := TraceID msg |}.

(** [Publish] returns the handler calls it spawns: each runs in a goroutine of its
    own and its result is discarded. *)
(* [kernel/ipc/bus.go:Bus.Publish] *)
Definition Publish (freshID : string) (msg : Message) (b : Bus) : Result (list (Handler * Message)) :=
  if closed b then Err ErrBusClosed
  else Ok ((fun s => (sub_handler s, stamp_event freshID msg)) <$>
           default [] (subscribers b !! Topic msg)).

(** The registered channels, over which [Close] ranges in some order. *)
Definition registered (b : Bus) : list nat :=
  map_to_list (handlers b) ≫= (fun mt => (map_to_list mt.2).*2).

Fixpoint close_all (chs : list nat) (b : Bus) : option Bus :=
  match chs with
  | [] => Some b
  | ch :: chs' => b ← close_chan ch b; close_all chs' b
  end.

(* [kernel/ipc/bus.go:Bus.Close] *)
Definition Close (b : Bus) : option Bus :=
  if closed b then Some b
  else close_all (registered b)
         {| handlers := handlers b; subscribers := subscribers b; closed := true;
            bufferSize := bufferSize b; chans := chans b |}.

(** The consumer goroutine of channel [ch] takes the next envelope, closed or not:
    ranging over a closed channel still drains its buffer. *)
Definition receive (ch : nat) (b : Bus) : option (requestEnvelope * Bus) :=
  match chans b !! ch with
  | Some {| ib_handler := h; ib_queue := env :: rest; ib_closed := c |} =>
      Some (env, set_chans (<[ch := {| ib_handler := h; ib_queue := rest; ib_closed := c |}]> (chans b)) b)
  | _ => None
  end.

(** ** The running system *)

(** Requests handed to handler goroutines, the answers sent, what the handlers' runs came to
    (the answers are made of it), and how many requests were accepted. *)
Record World := {
  w_bus : Bus;
  w_running : list requestEnvelope;
  w_replies : list (requestEnvelope * replyEnvelope);
  w_runs : list (requestEnvelope * handler_result);
  w_next : nat;
}.

Inductive step : World -> World -> Prop :=
  | step_handle m t h w b' : Handle m t h (w_bus w) = Some b' ->
      step w {| w_bus := b'; w_running := w_running w; w_replies := w_replies w; w_runs := w_runs w; w_next := w_next w |}
  | step_request fi ft d msg w b' : Request fi ft d (w_next w) msg (w_bus w) = Ok b' ->
      step w {| w_bus := b'; w_running := w_running w; w_replies := w_replies w; w_runs := w_runs w;
                w_next := S (w_next w) |}
  | step_receive ch w env b' : receive ch (w_bus w) = Some (env, b') ->
      step w {| w_bus := b'; w_running := w_running w ++ [env]; w_replies := w_replies w; w_runs := w_runs w;
                w_next := w_next w |}
  | step_finish l1 env l2 r w : w_running w = l1 ++ env :: l2 ->
      step w {| w_bus := w_bus w; w_running := l1 ++ l2;
                w_replies := w_replies w ++ [(env, reply_of env r)]; w_runs := w_runs w ++ [(env, r)]; w_next := w_next w |}
  | step_subscribe f m t h w :
      step w {| w_bus := (Subscribe f m t h (w_bus w)).1; w_running := w_running w;
                w_replies := w_replies w; w_runs := w_runs w; w_next := w_next w |}
  | step_cancel s w :
      step w {| w_bus := Cancel s (w_bus w); w_running := w_running w; w_replies := w_replies w; w_runs := w_runs w;
                w_next := w_next w |}
  | step_close w b' : Close (w_bus w) = Some b' ->
      step w {| w_bus := b'; w_running := w_running w; w_replies := w_replies w; w_runs := w_runs w; w_next := w_next w |}.

Definition initial (size : nat) : World :=
  {| w_bus := NewBusWithBufferSize size; w_running := []; w_replies := []; w_runs := []; w_next := 0 |}.
Definition reachable (size : nat) (w : World) : Prop := rtc step (initial size) w.

(** ** Well-formed worlds *)

Definition queued (b : Bus) : list requestEnvelope := chans b ≫= ib_queue.

(** Every accepted request, wherever it is now. *)
Definition accepted (w : World) : list requestEnvelope :=
  queued (w_bus w) ++ w_running w ++ (w_replies w).*1.

Definition open_at (b : Bus) (ch : nat) : Prop :=
  exists ib, chans b !! ch = Some ib /\ ib_closed ib = false.

Record wf_bus (size : nat) (b : Bus) : Prop := {
  wf_size : bufferSize b = size;
  wf_bound : Forall (fun ib => length (ib_queue ib) <= size) (chans b);
  wf_open : closed b = false -> forall m t ch, handler_at m t b = Some ch -> open_at b ch;
  wf_lt : forall m t ch, handler_at m t b = Some ch -> ch < length (chans b);
  wf_inj : forall m t m' t' ch, handler_at m t b = Some ch -> handler_at m' t' b = Some ch ->
    m = m' /\ t = t';
}.

Record wf (size : nat) (w : World) : Prop := {
  wf_w_bus : wf_bus size (w_bus w);
  wf_account : env_reply <$> accepted w ≡ₚ seq 0 (w_next w);
  wf_replies : w_replies w = (fun a => (a.1, reply_of a.1 a.2)) <$> w_runs w;
}.

Lemma handler_at_default m t b : default ∅ (handlers b !! m) !! t = handler_at m t b.
Proof. unfold handler_at. by destruct (handlers b !! m). Qed.

Lemma handler_at_insert m t ch b sub c bs cs m' t' :
  handler_at m' t' {| handlers := <[m := <[t := ch]> (default ∅ (handlers b !! m))]> (handlers b);
                      subscribers := sub; closed := c; bufferSize := bs; chans := cs |} =
  if decide (m' = m /\ t' = t) then Some ch else handler_at m' t' b.
Proof.
  unfold handler_at; simpl. destruct (decide (m' = m)) as [->|Hm].
  - rewrite lookup_insert_eq; simpl. destruct (decide (t' = t)) as [->|Ht].
    + rewrite lookup_insert_eq. by_cases.
    + rewrite lookup_insert_ne by done. rewrite decide_False by tauto.
      by destruct (handlers b !! m).
  - rewrite lookup_insert_ne by done. by rewrite decide_False by tauto.
Qed.

(** What closing channels leaves alone. *)
Lemma close_chan_frame ch b b' : close_chan ch b = Some b' ->
  handlers b' = handlers b /\ subscribers b' = subscribers b /\ closed b' = closed b /\
  bufferSize b' = bufferSize b /\ ib_queue <$> chans b' = ib_queue <$> chans b /\
  open_at b ch /\ ~ open_at b' ch /\ (forall ch', ch' <> ch -> chans b' !! ch' = chans b !! ch').
Proof.
  unfold close_chan, open_at. destruct (chans b !! ch) as [ib|] eqn:E; [|done].
  destruct (ib_closed ib) eqn:Ec; [done|]. intros [= <-]; simpl.
  repeat split; eauto.
  - rewrite list_fmap_insert. apply list_insert_id. by rewrite list_lookup_fmap, E.
  - intros (ib' & H & Hc). rewrite list_lookup_insert_eq in H by (by apply lookup_lt_Some in E).
    by injection H as <-.
  - intros ch' Hne. by rewrite list_lookup_insert_ne.
Qed.

Lemma close_chan_open ch b : open_at b ch -> is_Some (close_chan ch b).
Proof. intros (ib & E & Ec). unfold close_chan. rewrite E, Ec. eauto. Qed.

Lemma close_all_frame chs b b' : close_all chs b = Some b' ->
  handlers b' = handlers b /\ subscribers b' = subscribers b /\ closed b' = closed b /\
  bufferSize b' = bufferSize b /\ ib_queue <$> chans b' = ib_queue <$> chans b /\
  (forall ch, ch ∈ chs -> ~ open_at b' ch).
Proof.
  revert b; induction chs as [|ch chs IH]; simpl; intros b.
  { intros [= <-]. repeat split; try done. intros ch Hc. by apply elem_of_nil in Hc. }
  intros H. apply bind_Some in H as (b1 & H1 & H2).
  destruct (close_chan_frame _ _ _ H1) as (Hh & Hs & Hc & Hb & Hq & _ & Hcl & _).
  destruct (IH _ H2) as (Hh' & Hs' & Hc' & Hb' & Hq' & Hcl').
  repeat split; try congruence. intros ch' [->|Hin]%elem_of_cons; [|by apply Hcl'].
  clear - H2 Hcl. revert b1 H2 Hcl. induction chs as [|c chs IH]; simpl; intros b1 H2 Hcl.
  { by injection H2 as <-. }
  apply bind_Some in H2 as (b2 & H1 & H2). apply (IH _ H2).
  destruct (close_chan_frame _ _ _ H1) as (_ & _ & _ & _ & _ & _ & Hn & Hsame).
  destruct (decide (ch = c)) as [->|Hne]; [done|]. intros (ib & Hib & Hop). apply Hcl.
  exists ib. by rewrite <- Hsame.
Qed.

Lemma close_all_some chs b : NoDup chs -> (forall ch, ch ∈ chs -> open_at b ch) ->
  is_Some (close_all chs b).
Proof.
  revert b; induction chs as [|ch chs IH]; simpl; intros b Hnd Hop; [eauto|].
  apply NoDup_cons in Hnd as [Hni Hnd].
  destruct (close_chan_open ch b) as [b1 H1]; [apply Hop; left|]. rewrite H1; simpl.
  apply IH; [done|]. intros ch' Hin.
  destruct (close_chan_frame _ _ _ H1) as (_ & _ & _ & _ & _ & _ & _ & Hsame).
  unfold open_at. rewrite Hsame by set_solver. apply Hop. by right.
Qed.

Lemma elem_of_registered ch b :
  ch ∈ registered b <-> exists m t, handler_at m t b = Some ch.
Proof.
  unfold registered, handler_at. rewrite list_elem_of_bind. split.
  - intros ([m ts] & Hch & Hm). apply elem_of_map_to_list in Hm.
    apply list_elem_of_fmap in Hch as ([t c] & -> & Ht). apply elem_of_map_to_list in Ht.
    exists m, t. by rewrite Hm.
  - intros (m & t & (ts & Hm & Ht)%bind_Some). exists (m, ts). split.
    + apply list_elem_of_fmap. exists (t, ch). split; [done|]. by apply elem_of_map_to_list.
    + by apply elem_of_map_to_list.
Qed.

Lemma registered_NoDup size b : wf_bus size b -> NoDup (registered b).
Proof.
  intros Hwf. apply NoDup_bind; [| |apply NoDup_map_to_list].
  - intros [m ts] [m' ts'] ch Hm%elem_of_map_to_list Hm'%elem_of_map_to_list H1 H2.
    apply list_elem_of_fmap in H1 as ([t c] & -> & Ht%elem_of_map_to_list).
    apply list_elem_of_fmap in H2 as ([t' c'] & Heq & Ht'%elem_of_map_to_list). simpl in *; subst.
    destruct (wf_inj _ _ Hwf m t m' t' c') as [-> ->];
      [unfold handler_at; by rewrite Hm|unfold handler_at; by rewrite Hm'|congruence].
  - intros [m ts] Hm%elem_of_map_to_list; simpl. apply NoDup_fmap_2_strong; [|apply NoDup_map_to_list].
    intros [t c] [t' c'] Ht%elem_of_map_to_list Ht'%elem_of_map_to_list Heq; simpl in *; subst.
    destruct (wf_inj _ _ Hwf m t m t' c') as [_ ->];
      [unfold handler_at; by rewrite Hm|unfold handler_at; by rewrite Hm|done].
Qed.

Lemma Close_some size b : wf_bus size b -> is_Some (Close b).
Proof.
  intros Hwf. unfold Close. destruct (closed b) eqn:Hc; [eauto|].
  apply close_all_some; [by eapply registered_NoDup|].
  intros ch (m & t & H)%elem_of_registered. by apply (wf_open _ _ Hwf Hc) in H.
Qed.

(** ** Each operation keeps the bus well formed *)

Lemma queued_fmap (cs : list inbox) : cs ≫= ib_queue = concat (ib_queue <$> cs).
Proof. induction cs as [|c cs IH]; [done|]. by rewrite bind_cons, IH. Qed.

Lemma bound_fmap size (cs cs' : list inbox) : ib_queue <$> cs' = ib_queue <$> cs ->
  Forall (fun ib => length (ib_queue ib) <= size) cs ->
  Forall (fun ib => length (ib_queue ib) <= size) cs'.
Proof.
  intros Hq H.
  assert (Hf : Forall (fun q => length q <= size) (ib_queue <$> cs')).
  { rewrite Hq, Forall_fmap. exact H. }
  by rewrite Forall_fmap in Hf.
Qed.

Lemma Handle_inv m t h b b' : Handle m t h b = Some b' ->
  exists b1, handlers b1 = handlers b /\ closed b1 = closed b /\ bufferSize b1 = bufferSize b /\
    ib_queue <$> chans b1 = ib_queue <$> chans b /\
    (forall ch, (handler_at m t b <> Some ch) -> chans b1 !! ch = chans b !! ch) /\
    b' = {| handlers := <[m := <[t := length (chans b1)]> (default ∅ (handlers b1 !! m))]> (handlers b1);
            subscribers := subscribers b1; closed := closed b1; bufferSize := bufferSize b1;
            chans := chans b1 ++ [{| ib_handler := h; ib_queue := []; ib_closed := false |}] |}.
Proof.
  unfold Handle. intros (b1 & H1 & [= <-])%bind_Some. exists b1.
  rewrite handler_at_default in H1. destruct (handler_at m t b) as [prev|] eqn:E.
  - destruct (close_chan_frame _ _ _ H1) as (Hh & Hs & Hc & Hb & Hq & _ & _ & Hsame).
    rewrite Hh. repeat split; try done. intros ch Hne. apply Hsame. congruence.
  - injection H1 as <-. by repeat split.
Qed.

Lemma Handle_wf size m t h b b' : Handle m t h b = Some b' -> wf_bus size b ->
  wf_bus size b' /\ queued b' = queued b.
Proof.
  intros (b1 & Hh & Hc & Hb & Hq & Hsame & ->)%Handle_inv Hwf.
  assert (Hlen : length (chans b1) = length (chans b)).
  { by rewrite <- !(length_fmap ib_queue), Hq. }
  assert (Hcase : forall m' t' ch, handler_at m' t' {| handlers := handlers b1; subscribers := subscribers b1;
      closed := closed b1; bufferSize := bufferSize b1; chans := chans b1 |} = Some ch ->
      handler_at m' t' b = Some ch).
  { intros m' t' ch. unfold handler_at; simpl. by rewrite Hh. }
  split.
  - split; simpl.
    + rewrite Hb. apply Hwf.
    + apply Forall_app. split; [eapply bound_fmap; [done|apply Hwf]|]. repeat constructor; simpl; lia.
    + intros Hcl m' t' ch. rewrite handler_at_insert. dec as [[-> ->]|Hne].
      * intros [= <-]. eexists. split; [apply list_lookup_middle; done|done].
      * intros H. destruct (wf_open _ _ Hwf ltac:(congruence) m' t' ch) as (ib & Hib & Hop).
        { unfold handler_at in *. by rewrite <- Hh. }
        exists ib. split; [|done]. simpl. rewrite lookup_app_l.
        -- rewrite Hsame; [done|]. intros Hx.
           apply Hne. eapply wf_inj; [exact Hwf| |exact Hx]. unfold handler_at in *. by rewrite <- Hh.
        -- rewrite Hlen. by apply lookup_lt_Some in Hib.
    + intros m' t' ch. rewrite handler_at_insert, length_app; simpl. dec as [[-> ->]|Hne].
      * intros [= <-]. lia.
      * intros H. enough (ch < length (chans b)) by lia. eapply wf_lt; [exact Hwf|].
        unfold handler_at in *. by rewrite <- Hh.
    + assert (Hfresh : forall m' t', handler_at m' t' b1 <> Some (length (chans b1))).
      { intros m' t' H. unfold handler_at in H. rewrite Hh in H. apply (wf_lt _ _ Hwf) in H. lia. }
      intros m1 t1 m2 t2 ch. rewrite !handler_at_insert. dec as [[-> ->]|H1]; dec as [[-> ->]|H2]; try done.
      * intros [= <-] H. by apply Hfresh in H.
      * intros H [= <-]. by apply Hfresh in H.
      * intros Ha Hb2. eapply wf_inj; [exact Hwf| |]; unfold handler_at in *; rewrite <- Hh; eassumption.
  - unfold queued; simpl. rewrite bind_app, !queued_fmap, Hq. simpl. by rewrite !app_nil_r.
Qed.

Lemma set_chan_wf size ch ib ib' b : chans b !! ch = Some ib -> ib_closed ib' = ib_closed ib ->
  length (ib_queue ib') <= size -> wf_bus size b -> wf_bus size (set_chans (<[ch := ib']> (chans b)) b).
Proof.
  intros E Hcl Hlen [H1 H2 H3 H4 H5]. split; simpl; try done.
  - by apply Forall_insert.
  - intros Hc m t ch' Hat. destruct (H3 Hc m t ch' Hat) as (ib1 & Hib1 & Hop). unfold open_at; simpl.
    destruct (decide (ch' = ch)) as [->|Hne].
    + exists ib'. rewrite list_lookup_insert_eq by (by apply lookup_lt_Some in E).
      split; [done|]. congruence.
    + rewrite list_lookup_insert_ne by done. eauto.
  - intros m t ch' Hat. rewrite length_insert. eauto.
Qed.

Lemma Request_inv fi ft d n msg b b' : Request fi ft d n msg b = Ok b' ->
  exists ch ib env, handler_at (Target msg) (Topic msg) b = Some ch /\ chans b !! ch = Some ib /\
    ib_closed ib = false /\ length (ib_queue ib) < bufferSize b /\
    env = {| env_msg := stamp_request fi ft d msg; env_reply := n |} /\
    b' = set_chans (<[ch := {| ib_handler := ib_handler ib; ib_queue := ib_queue ib ++ [env];
                               ib_closed := false |}]> (chans b)) b.
Proof.
  unfold Request, send, handler_at. destruct (closed b); [done|].
  destruct (handlers b !! Target msg) as [ts|]; simpl; [|done].
  destruct (ts !! Topic msg) as [ch|]; [|done].
  destruct (chans b !! ch) as [ib|] eqn:E; [|done].
  destruct (ib_closed ib) eqn:Ec; [done|]. dec as [Hlt|]; [|done]. intros [= <-].
  exists ch, ib. eexists. by repeat split.
Qed.

Lemma Request_wf size fi ft d n msg b b' : Request fi ft d n msg b = Ok b' -> wf_bus size b ->
  wf_bus size b' /\
  queued b' ≡ₚ queued b ++ [{| env_msg := stamp_request fi ft d msg; env_reply := n |}].
Proof.
  intros (ch & ib & env & _ & E & Hc & Hlt & -> & ->)%Request_inv Hwf. split.
  - eapply set_chan_wf; simpl; [done|done| |done].
    rewrite length_app; simpl. rewrite (wf_size _ _ Hwf) in Hlt. lia.
  - unfold queued; simpl. edestruct (bind_insert_Permutation ib_queue (chans b) ch ib) as (rest & -> & ->);
      [done|]; simpl. rewrite <- !app_assoc. apply Permutation_app_head, Permutation_app_comm.
Qed.

Lemma receive_wf size ch b env b' : receive ch b = Some (env, b') -> wf_bus size b ->
  wf_bus size b' /\ queued b ≡ₚ env :: queued b'.
Proof.
  unfold receive. destruct (chans b !! ch) as [[h [|e q] c]|] eqn:E; [done| |done].
  intros [= <- <-] Hwf. split.
  - eapply set_chan_wf; simpl; [done|done| |done].
    pose proof (proj1 (Forall_lookup _ _) (wf_bound _ _ Hwf) _ _ E) as Hb. simpl in Hb. lia.
  - unfold queued; simpl. by edestruct (bind_insert_Permutation ib_queue (chans b) ch) as (rest & -> & ->).
Qed.

Lemma Close_wf size b b' : Close b = Some b' -> wf_bus size b ->
  wf_bus size b' /\ queued b' = queued b /\ closed b' = true.
Proof.
  unfold Close. destruct (closed b) eqn:Hc; [by intros [= <-]|]. intros H Hwf.
  apply close_all_frame in H as (Hh & _ & Hcl & Hb & Hq & _); simpl in *.
  assert (Hlen : length (chans b') = length (chans b)).
  { by rewrite <- !(length_fmap ib_queue), Hq. }
  split; [split|split; [|done]].
  - rewrite Hb. apply Hwf.
  - eapply bound_fmap; [done|apply Hwf].
  - congruence.
  - intros m t ch Hat. rewrite Hlen. eapply wf_lt; [done|]. unfold handler_at in *. by rewrite <- Hh.
  - intros m t m' t' ch H1 H2. eapply wf_inj; [done| |]; unfold handler_at in *; rewrite <- Hh; eassumption.
  - unfold queued. by rewrite !queued_fmap, Hq.
Qed.

Lemma unsubscribe_wf size topic id b : wf_bus size b ->
  wf_bus size (unsubscribe topic id b) /\ queued (unsubscribe topic id b) = queued b.
Proof. unfold unsubscribe. intros [H1 H2 H3 H4 H5]. destruct (subscribers b !! topic); (split; [split|]; done). Qed.

Lemma Subscribe_wf size f m t h b : wf_bus size b ->
  wf_bus size (Subscribe f m t h b).1 /\ queued (Subscribe f m t h b).1 = queued b.
Proof. unfold Subscribe. intros [H1 H2 H3 H4 H5]. destruct (closed b) eqn:E; simpl; (split; [split|]; simpl; congruence || done). Qed.

Lemma accepted_bus (b b' : Bus) run rep runs n n' :
  queued b' = queued b ->
  accepted {| w_bus := b'; w_running := run; w_replies := rep; w_runs := runs; w_next := n |} =
  accepted {| w_bus := b; w_running := run; w_replies := rep; w_runs := runs; w_next := n' |}.
Proof. unfold accepted; simpl. by intros ->. Qed.

Lemma step_wf size w w' : step w w' -> wf size w -> wf size w'.
Proof.
  intros Hs [Hb Ha Hr]. destruct Hs as [m t h w b' H|fi ft d msg w b' H|ch w env b' H
    |l1 env l2 r w H|f m t h w|s w|w b' H].
  - apply (Handle_wf size) in H as [Hb' Hq]; [|done]. split; simpl; try done.
    by rewrite (accepted_bus (w_bus w) b' _ _ _ _ (w_next w)) by done.
  - apply (Request_wf size) in H as [Hb' Hq]; [|done]. split; [done| |done].
    unfold accepted in *; cbn [w_bus w_running w_replies w_next]. rewrite Hq, seq_S, <- Ha, !fmap_app; simpl.
    rewrite <- !app_assoc. apply Permutation_app_head. by rewrite Permutation_app_comm, <- app_assoc.
  - apply (receive_wf size) in H as [Hb' Hq]; [|done]. split; simpl; [done| |done].
    rewrite <- Ha. unfold accepted; simpl. rewrite Hq, !fmap_app, !fmap_cons.
    solve_Permutation.
  - split; simpl; [done| |].
    + rewrite <- Ha. unfold accepted; simpl. rewrite H, !fmap_app, !fmap_cons.
      solve_Permutation.
    + by rewrite Hr, fmap_app.
  - destruct (Subscribe_wf size f m t h (w_bus w) Hb) as [Hb' Hq]. split; simpl; try done.
    by rewrite (accepted_bus (w_bus w) _ _ _ _ _ (w_next w)) by done.
  - unfold Cancel. destruct (s_cancel s) as [id|]; [|by split].
    destruct (unsubscribe_wf size (s_Topic s) id (w_bus w) Hb) as [Hb' Hq]. split; simpl; try done.
    by rewrite (accepted_bus (w_bus w) _ _ _ _ _ (w_next w)) by done.
  - apply (Close_wf size) in H as (Hb' & Hq & _); [|done]. split; simpl; try done.
    by rewrite (accepted_bus (w_bus w) b' _ _ _ _ (w_next w)) by done.
Qed.

Lemma initial_wf size : wf size (initial size).
Proof.
  split; simpl; [split; simpl|done|constructor]; try done.
Qed.

Lemma reachable_wf size w : reachable size w -> wf size w.
Proof. intros H. eapply rtc_invariant; [|intros a b; apply step_wf|exact H]. apply initial_wf. Qed.

(** ** Draining *)

Lemma receive_progress b : queued b <> [] -> exists ch env b', receive ch b = Some (env, b').
Proof.
  unfold queued, receive. intros Hne.
  destruct (chans b ≫= ib_queue) as [|env l] eqn:E; [done|].
  assert (Hin : env ∈ chans b ≫= ib_queue) by (rewrite E; left).
  apply list_elem_of_bind in Hin as (ib & Hq & Hib).
  apply list_elem_of_lookup in Hib as [ch Hch]. exists ch. rewrite Hch.
  destruct ib as [h [|e q] c]; [by apply elem_of_nil in Hq|]. eauto.
Qed.

Lemma receive_closed ch b env b' : receive ch b = Some (env, b') -> closed b' = closed b.
Proof.
  unfold receive. destruct (chans b !! ch) as [[h [|e q] c]|]; [done| |done]. by intros [= _ <-].
Qed.

Lemma drain_queues n : forall size w, length (queued (w_bus w)) = n -> wf size w ->
  exists w', rtc step w w' /\ queued (w_bus w') = [] /\ w_next w' = w_next w /\
    closed (w_bus w') = closed (w_bus w) /\ w_replies w' = w_replies w.
Proof.
  induction n as [|n IH]; intros size w Hn Hwf.
  { exists w. split; [constructor|]. by apply nil_length_inv in Hn. }
  destruct (receive_progress (w_bus w)) as (ch & env & b' & H); [by intros E; rewrite E in Hn|].
  pose proof (step_receive ch w env b' H) as Hs.
  pose proof (step_wf size _ _ Hs Hwf) as Hwf'.
  destruct (receive_wf size _ _ _ _ H (wf_w_bus _ _ Hwf)) as [_ Hp%Permutation_length].
  destruct (fun Hl => IH size _ Hl Hwf') as (w' & Hr & Hq & Hnx & Hc & Hrep).
  { simpl in *. lia. }
  exists w'. simpl in *. repeat split; try done; [by econstructor|].
  by rewrite Hc; apply receive_closed in H.
Qed.

Lemma drain_running n : forall w, length (w_running w) = n ->
  exists w' answers, rtc step w w' /\ w_running w' = [] /\ w_bus w' = w_bus w /\
    w_next w' = w_next w /\ w_replies w' = w_replies w ++ answers.
Proof.
  induction n as [|n IH]; intros w Hn.
  { exists w, []. rewrite app_nil_r. split; [constructor|]. by apply nil_length_inv in Hn. }
  destruct (w_running w) as [|env l] eqn:E; [done|].
  pose proof (step_finish [] env l (HError "") w E) as Hs.
  edestruct (IH) with (w := {| w_bus := w_bus w; w_running := [] ++ l;
     w_replies := w_replies w ++ [(env, reply_of env (HError ""))]; w_runs := w_runs w ++ [(env, HError "")]; w_next := w_next w |})
    as (w' & ans & Hr & Hq & Hb & Hnx & Hrep); [simpl in *; lia|].
  exists w', ((env, reply_of env (HError "")) :: ans). simpl in *.
  repeat split; try done; [by econstructor|]. by rewrite Hrep, <- app_assoc.
Qed.

(** ** Properties *)

(** C24 [error]: On any bus the running system can reach, [Request] never sends on a closed or missing inbox: it returns ErrBusClosed exactly when the bus is closed, ErrNoHandler exactly when the open bus has no handler for the (target, topic), and otherwise the handler's inbox is open and holds at most [bufferSize] envelopes; the request, stamped with its identifiers and deadline, is appended in FIFO order when there is room, and refused with ErrModuleOverloaded when there is none. *)
Theorem Request_outcome size w fi ft d n msg :
  reachable size w ->
  let b := w_bus w in
  let r := Request fi ft d n msg b in
  if closed b then r = Err ErrBusClosed
  else match handler_at (Target msg) (Topic msg) b with
  | None => r = Err ErrNoHandler
  | Some ch => exists h q, chans b !! ch = Some {| ib_handler := h; ib_queue := q; ib_closed := false |} /\
      length q <= size /\
      if decide (length q < size) then
        exists b', r = Ok b' /\ closed b' = false /\ handlers b' = handlers b /\
          chans b' = <[ch := {| ib_handler := h;
            ib_queue := q ++ [{| env_msg := stamp_request fi ft d msg; env_reply := n |}];
            ib_closed := false |}]> (chans b)
      else r = Err ErrModuleOverloaded
  end.
Proof.
  intros Hwf%reachable_wf%wf_w_bus b r. subst b r. unfold Request.
  destruct (closed (w_bus w)) eqn:Hc; [done|].
  destruct (handler_at _ _ _) as [ch|] eqn:Hat.
  - destruct (wf_open _ _ Hwf Hc _ _ _ Hat) as ([h q c] & Hch & Hop). simpl in Hop; subst c.
    exists h, q. split; [done|]. split.
    { by apply (proj1 (Forall_lookup _ _) (wf_bound _ _ Hwf) _ _ Hch). }
    unfold handler_at in Hat. destruct (handlers (w_bus w) !! Target msg); [|done]. simpl in Hat.
    rewrite Hat. unfold send. rewrite Hch; simpl. rewrite (wf_size _ _ Hwf).
    case_decide; [|done]. eexists. by repeat split.
  - unfold handler_at in Hat. destruct (handlers (w_bus w) !! Target msg); [|done]. simpl in Hat.
    by rewrite Hat.
Qed.

(** What the answer to an envelope must be, given what its handler's run came to. *)
Definition carries (env : requestEnvelope) (r : handler_result) (e : replyEnvelope) : Prop :=
  match r with
  | HPanic v => e = Err ("ipc: handler panicked: " +:+ v)
  | HError err => e = Err err
  | HReturn resp => exists m, e = Ok m /\ ID m = ID (env_msg env) /\ TraceID m = TraceID (env_msg env) /\
      Source m = Target (env_msg env) /\ Target m = Source (env_msg env) /\
      Type_ m = Type_ resp /\ Topic m = Topic resp /\ Payload m = Payload resp /\ Deadline m = Deadline resp
  end.

(** C9 [invariant]: Requests are accounted for: in every reachable world the requests accepted so far (numbered in order) are exactly the ones queued in some inbox, running in a handler goroutine or answered, each once.  The answers are, one for one and in order, those of the handlers' runs that ended: a run that panicked gives the error that says so, a run that failed gives its error, and a run that returned gives its message's content with the request's ID and trace and its source and target swapped. *)
Theorem request_accounting size w :
  reachable size w ->
  env_reply <$> (queued (w_bus w) ++ w_running w ++ (w_replies w).*1) ≡ₚ seq 0 (w_next w) /\
  Forall2 (fun run answer => answer.1 = run.1 /\ carries run.1 run.2 answer.2) (w_runs w) (w_replies w).
Proof.
  intros Hwf%reachable_wf. split; [apply Hwf|]. rewrite (wf_replies _ _ Hwf), Forall2_fmap_r.
  apply Forall_Forall2_diag, Forall_forall. intros [env r] _. split; [done|]. destruct r; [by eexists; repeat split|done..].
Qed.

(** C32 [liveness]: No accepted request is stuck: from any reachable world, open or closed, the consumer goroutines and the handlers can finish so that every request accepted so far is answered, exactly once, the answers already given kept; in particular [Close] does not lose the requests still buffered. *)
Theorem every_request_answered size w :
  reachable size w ->
  exists w' answers, rtc step w w' /\ closed (w_bus w') = closed (w_bus w) /\
    w_replies w' = w_replies w ++ answers /\
    env_reply <$> (w_replies w').*1 ≡ₚ seq 0 (w_next w).
Proof.
  intros Hwf%reachable_wf.
  destruct (drain_queues _ size w eq_refl Hwf) as (w1 & Hr1 & Hq1 & Hn1 & Hc1 & Hrep1).
  destruct (drain_running _ w1 eq_refl) as (w2 & ans & Hr2 & Hq2 & Hb2 & Hn2 & Hrep2).
  assert (Hr : rtc step w w2) by (by etrans).
  exists w2, ans. repeat split; [done|congruence|congruence|].
  assert (Hwf2 : wf size w2).
  { eapply (rtc_invariant step (wf size)); [exact Hwf|intros a b; apply step_wf|exact Hr]. }
  pose proof (wf_account _ _ Hwf2) as Ha. unfold accepted in Ha.
  rewrite Hb2, Hq1, Hq2, Hn2, Hn1 in Ha. exact Ha.
Qed.

(** In every reachable world [Close] succeeds and [Handle] cannot panic while the bus is open; after [Close] every request, publication and subscription is refused or inert and closing again does nothing, but re-registering a handler for a (module, topic) that was registered closes its inbox a second time, which panics. *)
Lemma Close_Handle size w :
  reachable size w ->
  exists b', Close (w_bus w) = Some b' /\ closed b' = true /\ Close b' = Some b' /\
    (closed (w_bus w) = false ->
       (forall m t h, is_Some (Handle m t h (w_bus w))) /\
       (forall m t h, Handle m t h b' = None <-> handler_at m t (w_bus w) <> None)) /\
    (forall fi ft d n msg, Request fi ft d n msg b' = Err ErrBusClosed) /\
    (forall fi msg, Publish fi msg b' = Err ErrBusClosed) /\
    (forall f m t h, exists s, Subscribe f m t h b' = (b', s) /\ Cancel s b' = b').
Proof.
  intros Hwf%reachable_wf%wf_w_bus. destruct (Close_some _ _ Hwf) as [b' H]. exists b'.
  destruct (Close_wf size _ _ H Hwf) as (Hwf' & _ & Hc). split; [done|]. split; [done|].
  split; [unfold Close; by rewrite Hc|]. split.
  - intros Ho. unfold Close in H. rewrite Ho in H.
    apply close_all_frame in H as (Hh & _ & _ & _ & _ & Hcl); simpl in *. split; intros m t h.
    + unfold Handle. rewrite handler_at_default.
      destruct (handler_at m t (w_bus w)) as [ch|] eqn:E; simpl; [|eauto].
      destruct (close_chan_open ch (w_bus w)) as [b1 ->]; [by eapply wf_open|simpl; eauto].
    + unfold Handle. rewrite Hh. rewrite handler_at_default.
      destruct (handler_at m t (w_bus w)) as [ch|] eqn:E; simpl; [|done].
      destruct (close_chan ch b') as [b1|] eqn:E1; simpl; [|done].
      exfalso. apply (Hcl ch); [|by apply close_chan_frame in E1 as (_ & _ & _ & _ & _ & ? & _)].
      apply elem_of_registered. eauto.
  - split; [intros; unfold Request; by rewrite Hc|]. split; [intros; unfold Publish; by rewrite Hc|].
    intros. unfold Subscribe. rewrite Hc. by eexists.
Qed.

(** Publishing reaches every current subscriber of the topic once, in subscription order, all with the same stamped message; a new subscription adds exactly one delivery, and cancelling it removes that delivery and no other, whatever was subscribed after it. *)
Lemma Subscribe_Publish_Cancel fid f m h f2 m2 h2 msg b :
  closed b = false -> f ∉ sub_id <$> default [] (subscribers b !! Topic msg) ->
  let b1 := (Subscribe f m (Topic msg) h b).1 in
  let s := (Subscribe f m (Topic msg) h b).2 in
  let b2 := (Subscribe f2 m2 (Topic msg) h2 b1).1 in
  let sent := stamp_event fid msg in
  exists old, Forall (fun d => d.2 = sent) old /\
    Publish fid msg b = Ok old /\
    Publish fid msg b1 = Ok (old ++ [(h, sent)]) /\
    Publish fid msg b2 = Ok (old ++ [(h, sent); (h2, sent)]) /\
    Publish fid msg (Cancel s b2) = Ok (old ++ [(h2, sent)]) /\
    (forall msg', Topic msg' <> Topic msg -> Publish fid msg' b2 = Publish fid msg' b).
Proof.
  intros Hc Hf. unfold Subscribe, Publish, Cancel, unsubscribe.
  repeat first [rewrite Hc | rewrite lookup_insert_eq | progress simpl].
  eexists. split; [|split; [reflexivity|]].
  - apply Forall_fmap, Forall_true. done.
  - rewrite !fmap_app; simpl. rewrite <- app_assoc. split; [done|]. split; [done|]. split.
    + rewrite <- app_assoc. f_equal.
      induction (default [] (subscribers b !! Topic msg)) as [|e l IH]; simpl.
      * by rewrite decide_True.
      * rewrite fmap_cons, not_elem_of_cons in Hf. rewrite decide_False by naive_solver.
        simpl. f_equal. apply IH. tauto.
    + intros msg' Hne. by rewrite !lookup_insert_ne.
Qed.

End Bus.

(** ** Witnesses *)

(** A bus of capacity one with a handler for ("a", "t"), a first request sent. *)
Definition demo_msg : @Message nat :=
  {| ID := "1"; Source := "s"; Target := "a"; Type_ := MessageTypeRequest; Topic := "t";
     Payload := 7; Deadline := 0%Z; TraceID := "x" |}.
Definition demo_bus : @Bus nat :=
  default (NewBusWithBufferSize 1) (Handle "a" "t" 5 (NewBusWithBufferSize 1)).
Definition demo_sent : @Bus nat :=
  match Request "f" "g" None 0 demo_msg demo_bus with Ok b => b | Err _ => demo_bus end.
Definition demo_world : @World nat :=
  {| w_bus := demo_sent; w_running := []; w_replies := []; w_runs := []; w_next := 1 |}.

Lemma demo_world_reachable : reachable 1 demo_world.
Proof.
  eapply rtc_l; [eapply (step_handle "a" "t" 5 _ demo_bus); vm_compute; reflexivity|].
  eapply rtc_l; [eapply (step_request "f" "g" None demo_msg _ demo_sent); vm_compute; reflexivity|].
  apply rtc_refl.
Qed.

Lemma Request_outcome_witness :
  reachable 1 demo_world /\ Request "f" "g" None 1 demo_msg demo_sent = Err ErrModuleOverloaded.
Proof.
  split; [apply demo_world_reachable|].
  pose proof (Request_outcome 1 demo_world "f" "g" None 1 demo_msg demo_world_reachable) as H.
  vm_compute in H. destruct H as (h & q & Hq & _ & Hr). injection Hq as <- <-. exact Hr.
Defined.

Lemma request_accounting_witness :
  env_reply <$> (queued (w_bus demo_world) ++ w_running demo_world ++ (w_replies demo_world).*1) ≡ₚ [0].
Proof. exact (proj1 (request_accounting 1 demo_world demo_world_reachable)). Defined.

Lemma every_request_answered_witness :
  exists w' answers, rtc step demo_world w' /\ closed (w_bus w') = false /\
    w_replies w' = [] ++ answers /\ env_reply <$> (w_replies w').*1 ≡ₚ [0].
Proof. exact (every_request_answered 1 demo_world demo_world_reachable). Defined.

Lemma Close_Handle_witness :
  exists b', Close demo_sent = Some b' /\ Handle "a" "t" 6 b' = None.
Proof.
  destruct (Close_Handle 1 demo_world demo_world_reachable) as (b' & H & _ & _ & Hh & _).
  exists b'. split; [exact H|]. apply (Hh eq_refl). vm_compute. discriminate.
Defined.

Lemma Subscribe_Publish_Cancel_witness :
  Publish "p" demo_msg (Cancel (Subscribe "f" "m" "t" 1 demo_sent).2
    (Subscribe "g" "m" "t" 2 (Subscribe "f" "m" "t" 1 demo_sent).1).1) = Ok [(2, demo_msg)].
Proof.
  destruct (Subscribe_Publish_Cancel "p" "f" "m" 1 "g" "m" 2 demo_msg demo_sent eq_refl)
    as (old & _ & H1 & _ & _ & H4 & _).
  - vm_compute. intros H. inversion H.
  - vm_compute in H1. injection H1 as <-. exact H4.
Defined.
