(* ===== verification/Jobs.v ===== *)
(** * Jobs: the durable background job queue

    [src/kernel/jobs/queue.go].  The table is a map keyed by job ID; each SQL statement
    is its effect on the map, with an argument that says whether it succeeds.  [lease]
    and [finish] are the code run without interruption; [lease_step] cuts a lease pass
    at its lock sections and statements, and [step] interleaves any number of passes
    with handlers, registrations, enqueues and crash restarts.  The [run_after] column
    is compared through its RFC 3339 text, as SQLite does. *)
From S2P Require Import Prelude Calendar.

(** ** Data *)

(* [kernel/jobs/queue.go:StatePending@35-35] *)
Definition StatePending : string := "pending".
(* [kernel/jobs/queue.go:StateRunning@36-36] *)
Definition StateRunning : string := "running".
(* [kernel/jobs/queue.go:StateDone@37-37] *)
Definition StateDone : string := "done".
(* [kernel/jobs/queue.go:StateFailed@38-38] *)
Definition StateFailed : string := "failed".

(** A row of the [jobs] table, and a job as it is handed to a handler.  The text
    columns that hold times are kept as times; where the code compares their
    text, the model formats them. *)
(* [kernel/jobs/queue.go:Job] *)
Record Job := {
  ID : string; Tenant : string; Kind : string; Payload : string; RunAfter : time;
  Attempts : Z; State : string; LastError : string; CreatedAt : time; UpdatedAt : time;
}.

#[export] Instance Job_eq_dec : EqDecision Job.
Proof. solve_decision. Defined.

(** The options of a queue. *)
Record Config := {
  maxAttempts : Z; perTenantCap : Z; globalCap : Z; leaseBatch : nat; backoff : Z -> duration;
}.

(* [kernel/jobs/queue.go:defaultBackoff] *)
Definition defaultBackoff (attempt : Z) : duration :=
  let d := wrap64 (Z.shiftl Second attempt) in
  if decide (d > Minute \/ d <= 0)%Z then Minute else d.

(* [kernel/jobs/queue.go:NewQueue@160-172] *)
Definition default_config : Config := {|
  maxAttempts := 5; perTenantCap := 4; globalCap := 8; leaseBatch := 100;
  backoff := defaultBackoff;
|}.

(** The queue: the table it persists, the kinds with a handler, and the number of
    running jobs of each tenant. *)
(* [kernel/jobs/queue.go:Queue] *)
Record Queue := {
  table : gmap string Job; handlers : gset string; inflight : gmap string Z;
}.

Definition set_table (t : gmap string Job) (q : Queue) : Queue :=
  {| table := t; handlers := handlers q; inflight := inflight q |}.
Definition set_inflight (m : gmap string Z) (q : Queue) : Queue :=
  {| table := table q; handlers := handlers q; inflight := m |}.
Definition inflight_of (q : Queue) (tenant : string) : Z := default 0%Z (inflight q !! tenant).

(** Jobs a crash left running become pending again. *)
Definition recover (j : Job) : Job :=
  if decide (State j = StateRunning) then
    {| ID := ID j; Tenant := Tenant j; Kind := Kind j; Payload := Payload j; RunAfter := RunAfter j;
       Attempts := Attempts j; State := StatePending; LastError := LastError j;
       CreatedAt := CreatedAt j; UpdatedAt := UpdatedAt j |}
  else j.

(** [stored] is the table found at [dbPath]. *)
(* [kernel/jobs/queue.go:NewQueue] *)
Definition NewQueue (stored : gmap string Job) : Queue :=
  {| table := recover <$> stored; handlers := ∅; inflight := ∅ |}.

(* [kernel/jobs/queue.go:Queue.Register] *)
Definition Register (kind : string) (q : Queue) : Queue :=
  {| table := table q; handlers := {[kind]} ∪ handlers q; inflight := inflight q |}.

(** The insertion fails when the drawn identifier is taken (primary key). *)
(* [kernel/jobs/queue.go:Queue.Enqueue] *)
Definition Enqueue (fresh : string) (now : time) (tenant kind payload : string) (runAfter : time)
    (q : Queue) : Result (string * Queue) :=
  if decide (tenant = "" \/ kind = "") then Err "jobs: tenant and kind are required"
  else
    let runAfter := if IsZero runAfter then now else runAfter in
    match table q !! fresh with
    | Some _ => Err "jobs: enqueue: UNIQUE constraint failed: jobs.id"
    | None =>
        Ok (fresh, set_table (<[fresh := {| ID := fresh; Tenant := tenant; Kind := kind;
              Payload := payload; RunAfter := runAfter; Attempts := 0; State := StatePending;
              LastError := ""; CreatedAt := now; UpdatedAt := now |}]> (table q)) q)
    end.

(* [kernel/jobs/queue.go:Queue.Get] *)
Definition Get (id : string) (q : Queue) : Result Job :=
  match table q !! id with Some j => Ok j | None => Err "sql: no rows in result set" end.

(* [kernel/jobs/queue.go:Queue.CountByState] *)
Definition CountByState (tenant state : string) (q : Queue) : Z :=
  Z.of_nat (length (filter (fun j => State j = state /\ (tenant = "" \/ Tenant j = tenant))
                      (map_to_list (table q)).*2)).

(** The comparison of the [run_after] column: the bytes of the text. *)
Definition text_le (t u : time) : Prop := String.leb (RFC3339Nano t) (RFC3339Nano u) = true.
#[export] Instance text_le_dec t u : Decision (text_le t u).
Proof. unfold text_le. apply _. Defined.
Lemma text_le_refl t : text_le t t.
Proof.
  unfold text_le, String.leb.
  destruct (String.compare (RFC3339Nano t) (RFC3339Nano t)) eqn:E; [done|done|].
  pose proof (String.compare_antisym (RFC3339Nano t) (RFC3339Nano t)) as H.
  rewrite E in H. discriminate.
Qed.
Definition run_after_le : relation Job := fun j j' => text_le (RunAfter j) (RunAfter j').

#[export] Instance run_after_le_dec : RelDecision run_after_le.
Proof. intros j j'. unfold run_after_le. apply _. Defined.

Definition due (now : time) (j : Job) : Prop :=
  State j = StatePending /\ text_le (RunAfter j) now.
#[export] Instance due_dec now j : Decision (due now j).
Proof. unfold due. apply _. Defined.

Section Queue.
Context (cfg : Config) `{!SliceSorter run_after_le}.

(** ** Leasing *)

Definition used (q : Queue) : Z := map_fold (fun _ c acc => (acc + c)%Z) 0%Z (inflight q).

(** The capacity snapshot: [None] when the pass ends before the query. *)
(* [kernel/jobs/queue.go:Queue.lease@322-340] *)
Definition lease_begin (q : Queue) : option (Z * gset string) :=
  if decide (handlers q = ∅) then None
  else
    let slots := (globalCap cfg - used q)%Z in
    if decide (slots <= 0)%Z then None else Some (slots, handlers q).

(** [SELECT ... WHERE state='pending' AND run_after<=now ORDER BY run_after LIMIT n]; [db_ok] is whether it
    succeeds, and a pass whose query failed has no candidates. *)
(* [kernel/jobs/queue.go:Queue.lease@342-366] *)
Definition lease_query (db_ok : bool) (now : time) (q : Queue) : list Job :=
  if db_ok then take (leaseBatch cfg) (sortSlice run_after_le (filter (due now) (map_to_list (table q)).*2)) else [].

(* [kernel/jobs/queue.go:Queue.lease@379-385] *)
Definition reserve (tenant : string) (q : Queue) : option Queue :=
  if decide (perTenantCap cfg <= inflight_of q tenant)%Z then None
  else Some (set_inflight (<[tenant := (inflight_of q tenant + 1)%Z]> (inflight q)) q).

(** The conditional [UPDATE]; [db_ok] is whether the statement succeeds. *)
(* [kernel/jobs/queue.go:Queue.lease@387-396] *)
Definition claim (db_ok : bool) (now : time) (id : string) (q : Queue) : Queue * bool :=
  match table q !! id with
  | Some j =>
      if decide (db_ok = true /\ State j = StatePending) then
        (set_table (<[id := {| ID := ID j; Tenant := Tenant j; Kind := Kind j; Payload := Payload j;
            RunAfter := RunAfter j; Attempts := Attempts j; State := StateRunning;
            LastError := LastError j; CreatedAt := CreatedAt j; UpdatedAt := now |}]> (table q)) q, true)
      else (q, false)
  | None => (q, false)
  end.

(* [kernel/jobs/queue.go:Queue.lease@399-406] *)
Definition release (tenant : string) (q : Queue) : Queue :=
  let c := inflight_of q tenant in
  if decide (0 < c)%Z then
    set_inflight (if decide (c - 1 = 0)%Z then delete tenant (inflight q)
                  else <[tenant := (c - 1)%Z]> (inflight q)) q
  else q.

(** The job handed out: the selected columns of the row, marked running. *)
(* [kernel/jobs/queue.go:Queue.lease@409-412] *)
Definition as_running (j : Job) : Job :=
  {| ID := ID j; Tenant := Tenant j; Kind := Kind j; Payload := Payload j; RunAfter := RunAfter j;
     Attempts := Attempts j; State := StateRunning; LastError := ""; CreatedAt := 0; UpdatedAt := 0 |}.

(** The claiming loop, run without interruption.  [db_ok id] is whether the
    [UPDATE] of that row succeeds. *)
(* [kernel/jobs/queue.go:Queue.lease@368-414] *)
Fixpoint lease_loop (db_ok : string -> bool) (now : time) (kinds : gset string) (cands : list Job)
    (slots : Z) (q : Queue) : list Job * Queue :=
  match cands with
  | [] => ([], q)
  | c :: cands' =>
      if decide (slots <= 0)%Z then ([], q)
      else if decide (Kind c ∉ kinds) then lease_loop db_ok now kinds cands' slots q
      else match reserve (Tenant c) q with
      | None => lease_loop db_ok now kinds cands' slots q
      | Some q1 =>
          let '(q2, claimed) := claim (db_ok (ID c)) now (ID c) q1 in
          if claimed then
            let '(js, q3) := lease_loop db_ok now kinds cands' (slots - 1) q2 in
            (as_running c :: js, q3)
          else lease_loop db_ok now kinds cands' slots (release (Tenant c) q2)
      end
  end.

(* [kernel/jobs/queue.go:Queue.lease] *)
Definition lease (query_ok : bool) (db_ok : string -> bool) (now : time) (q : Queue) : list Job * Queue :=
  match lease_begin q with
  | None => ([], q)
  | Some (slots, kinds) => lease_loop db_ok now kinds (lease_query query_ok now q) slots q
  end.

(** ** Running *)

Inductive handler_result := HNil | HError (e : string) | HPanic (v : string).

(** [h] is whether a handler is registered for the kind; [None] is success. *)
(* [kernel/jobs/queue.go:safeInvoke] *)
Definition safeInvoke (h : bool) (r : handler_result) (job : Job) : option error :=
  if h then
    match r with
    | HNil => None
    | HError e => Some e
    | HPanic v => Some ("jobs: handler panicked: " +:+ v)
    end
  else Some ("jobs: no handler for kind " +:+ quote (Kind job)).

(** The row written when a run ends, and the write itself: an [UPDATE] by id. *)
Definition outcome (now : time) (job : Job) (herr : option error) (row : Job) : Job :=
  match herr with
  | None =>
      {| ID := ID row; Tenant := Tenant row; Kind := Kind row; Payload := Payload row;
         RunAfter := RunAfter row; Attempts := Attempts row; State := StateDone;
         LastError := LastError row; CreatedAt := CreatedAt row; UpdatedAt := now |}
  | Some e =>
      let attempts := (Attempts job + 1)%Z in
      if decide (attempts >= maxAttempts cfg)%Z then
        {| ID := ID row; Tenant := Tenant row; Kind := Kind row; Payload := Payload row;
           RunAfter := RunAfter row; Attempts := attempts; State := StateFailed;
           LastError := e; CreatedAt := CreatedAt row; UpdatedAt := now |}
      else
        {| ID := ID row; Tenant := Tenant row; Kind := Kind row; Payload := Payload row;
           RunAfter := (now + backoff cfg attempts)%Z; Attempts := attempts; State := StatePending;
           LastError := e; CreatedAt := CreatedAt row; UpdatedAt := now |}
  end.

(** The end of [run]: the handler's result is recorded.  A failed write is
    ignored by the code. *)
(* [kernel/jobs/queue.go:Queue.run] *)
Definition finish (db_ok : bool) (now : time) (job : Job) (r : handler_result) (q : Queue) : Queue :=
  let herr := safeInvoke (bool_decide (Kind job ∈ handlers q)) r job in
  let q := release (Tenant job) q in
  if db_ok then set_table (alter (outcome now job herr) (ID job) (table q)) q else q.

(** ** Interleaving

    [mu] is held for the single accesses above and never across a statement:
    passes, handlers and callers interleave at these points. *)

(** A lease pass in progress.  [l_cands] is [None] until the query has run;
    [l_reserved] is the candidate whose claim is about to be tried. *)
Record Lease := {
  l_now : time; l_slots : Z; l_kinds : gset string; l_cands : option (list Job);
  l_reserved : option Job; l_claimed : list Job;
}.

(** One atomic step of a pass; [None] when the pass is over. *)
Definition lease_step (db_ok : bool) (l : Lease) (q : Queue) : option (Lease * Queue) :=
  let upd slots cands reserved claimed :=
    {| l_now := l_now l; l_slots := slots; l_kinds := l_kinds l; l_cands := Some cands;
       l_reserved := reserved; l_claimed := claimed |} in
  match l_cands l with
  | None => Some (upd (l_slots l) (lease_query db_ok (l_now l) q) (l_reserved l) (l_claimed l), q)
  | Some cands =>
      match l_reserved l with
      | Some c =>
          let '(q', claimed) := claim db_ok (l_now l) (ID c) q in
          if claimed then Some (upd (l_slots l - 1)%Z cands None (l_claimed l ++ [as_running c]), q')
          else Some (upd (l_slots l) cands None (l_claimed l), release (Tenant c) q')
      | None =>
          match cands with
          | [] => None
          | c :: cands =>
              if decide (l_slots l <= 0)%Z then None
              else if decide (Kind c ∉ l_kinds l) then Some (upd (l_slots l) cands None (l_claimed l), q)
              else match reserve (Tenant c) q with
                   | None => Some (upd (l_slots l) cands None (l_claimed l), q)
                   | Some q' => Some (upd (l_slots l) cands (Some c) (l_claimed l), q')
                   end
          end
      end
  end.

Record World := { w_queue : Queue; w_leases : list Lease; w_running : list Job }.

Inductive step : World -> World -> Prop :=
  | step_register k w :
      step w {| w_queue := Register k (w_queue w); w_leases := w_leases w; w_running := w_running w |}
  | step_enqueue f now t k p ra id q' w : Enqueue f now t k p ra (w_queue w) = Ok (id, q') ->
      step w {| w_queue := q'; w_leases := w_leases w; w_running := w_running w |}
  | step_begin now slots kinds w : lease_begin (w_queue w) = Some (slots, kinds) ->
      step w {| w_queue := w_queue w; w_running := w_running w;
                w_leases := w_leases w ++ [{| l_now := now; l_slots := slots; l_kinds := kinds;
                  l_cands := None; l_reserved := None; l_claimed := [] |}] |}
  | step_lease ok l1 l l2 l' q' w : w_leases w = l1 ++ l :: l2 ->
      lease_step ok l (w_queue w) = Some (l', q') ->
      step w {| w_queue := q'; w_leases := l1 ++ l' :: l2; w_running := w_running w |}
  | step_dispatch ok l1 l l2 w : w_leases w = l1 ++ l :: l2 ->
      lease_step ok l (w_queue w) = None ->
      step w {| w_queue := w_queue w; w_leases := l1 ++ l2; w_running := w_running w ++ l_claimed l |}
  | step_finish ok now j1 j j2 r w : w_running w = j1 ++ j :: j2 ->
      step w {| w_queue := finish ok now j r (w_queue w); w_leases := w_leases w;
                w_running := j1 ++ j2 |}
  | step_restart w :
      step w {| w_queue := NewQueue (table (w_queue w)); w_leases := []; w_running := [] |}.

Definition initial (stored : gmap string Job) : World :=
  {| w_queue := NewQueue stored; w_leases := []; w_running := [] |}.
(** Rows are keyed by their identifier, the primary key. *)
Definition keyed (t : gmap string Job) : Prop := forall id j, t !! id = Some j -> ID j = id.
Definition reachable (w : World) : Prop :=
  exists stored, keyed stored /\ rtc step (initial stored) w.

(** At most one pass at a time: the background ticker, without [RunOnce]. *)
Definition step1 (w w' : World) : Prop := step w w' /\ length (w_leases w') <= 1.

(** ** Accounting *)

(** Jobs that hold a tenant slot, and jobs handed out. *)
Definition lease_held (l : Lease) : list Job := option_list (l_reserved l) ++ l_claimed l.
Definition held (w : World) : list Job := w_running w ++ (w_leases w ≫= lease_held).
Definition owned (w : World) : list Job := w_running w ++ (w_leases w ≫= l_claimed).

Definition tcount (t : string) (js : list Job) : Z :=
  Z.of_nat (length (filter (fun j => Tenant j = t) js)).

#[local] Instance tcount_proper t : Proper (Permutation ==> eq) (tcount t).
Proof. intros js js' H. unfold tcount. by rewrite H. Qed.

Lemma tcount_app t js js' : tcount t (js ++ js') = (tcount t js + tcount t js')%Z.
Proof. unfold tcount. rewrite filter_app, length_app. lia. Qed.

Lemma tcount_cons t j js :
  tcount t (j :: js) = ((if decide (Tenant j = t) then 1 else 0) + tcount t js)%Z.
Proof. unfold tcount. rewrite filter_cons. case_decide; simpl; lia. Qed.

Lemma tcount_nonneg t js : (0 <= tcount t js)%Z.
Proof. unfold tcount. lia. Qed.

Lemma tcount_elem j js : j ∈ js -> (0 < tcount (Tenant j) js)%Z.
Proof.
  intros [l1 [l2 ->]]%list_elem_of_split. rewrite tcount_app, tcount_cons, decide_True by done.
  pose proof (tcount_nonneg (Tenant j) l1). pose proof (tcount_nonneg (Tenant j) l2). lia.
Qed.

Record accounted (q : Queue) (js : list Job) : Prop := {
  acc_tenant : forall t, inflight_of q t = tcount t js;
  acc_used : used q = Z.of_nat (length js);
}.

#[local] Instance accounted_proper q : Proper (Permutation ==> iff) (accounted q).
Proof.
  intros js js' H. assert (Hl := Permutation_length H).
  split; intros [H1 H2]; (split; [intros t; rewrite H1; by rewrite H|congruence]).
Qed.

Lemma used_lookup q t : used q = (inflight_of q t + used (set_inflight (delete t (inflight q)) q))%Z.
Proof.
  unfold used, inflight_of, set_inflight; simpl. destruct (inflight q !! t) as [c|] eqn:E; simpl.
  - rewrite (map_fold_delete_L _ _ t c (inflight q)); [lia|intros; lia|done].
  - by rewrite delete_id.
Qed.

Lemma inflight_of_insert q t c t' :
  inflight_of (set_inflight (<[t := c]> (inflight q)) q) t' = if decide (t' = t) then c else inflight_of q t'.
Proof.
  unfold inflight_of; simpl. case_decide; [subst; by rewrite lookup_insert_eq|by rewrite lookup_insert_ne].
Qed.

Lemma used_insert q t c :
  used (set_inflight (<[t := c]> (inflight q)) q) = (used q - inflight_of q t + c)%Z.
Proof.
  rewrite (used_lookup q t), (used_lookup _ t), inflight_of_insert, decide_True by done.
  unfold set_inflight; simpl. rewrite delete_insert_eq. lia.
Qed.

Lemma reserve_spec t q q' : reserve t q = Some q' ->
  (inflight_of q t < perTenantCap cfg)%Z /\ table q' = table q /\ handlers q' = handlers q /\
  used q' = (used q + 1)%Z /\
  forall t', inflight_of q' t' = (inflight_of q t' + if decide (t' = t) then 1 else 0)%Z.
Proof.
  unfold reserve. case_decide; [done|]. intros [= <-]. rewrite used_insert.
  repeat split; [lia|lia|]. intros t'. rewrite inflight_of_insert. case_decide; subst; lia.
Qed.

Lemma release_spec t q : (0 < inflight_of q t)%Z ->
  table (release t q) = table q /\ handlers (release t q) = handlers q /\
  used (release t q) = (used q - 1)%Z /\
  forall t', inflight_of (release t q) t' = (inflight_of q t' - if decide (t' = t) then 1 else 0)%Z.
Proof.
  intros Hpos. unfold release. rewrite decide_True by done. dec as [Hz|Hz].
  - repeat split; [rewrite (used_lookup q t); unfold set_inflight; simpl; lia|].
    intros t'. unfold inflight_of at 1; simpl. case_decide; subst.
    + rewrite lookup_delete_eq. simpl. lia.
    + rewrite lookup_delete_ne by done. fold (inflight_of q t'). lia.
  - rewrite used_insert. repeat split; [lia|]. intros t'. rewrite inflight_of_insert.
    case_decide; subst; lia.
Qed.

Lemma table_release t q : table (release t q) = table q.
Proof. unfold release. by repeat case_decide. Qed.

Lemma claim_spec ok now id q q' b : claim ok now id q = (q', b) ->
  inflight q' = inflight q /\ handlers q' = handlers q /\
  if b then exists j j', table q !! id = Some j /\ State j = StatePending /\
    State j' = StateRunning /\ ID j' = ID j /\ table q' = <[id := j']> (table q)
  else q' = q.
Proof.
  unfold claim. destruct (table q !! id) as [j|] eqn:E; [|by intros [= <- <-]].
  dec as [[_ Hp]|]; intros [= <- <-]; [|done]. repeat split. exists j. eexists. split; [done|]. split; [done|].
  split; [|split; [|reflexivity]]; done.
Qed.

Lemma accounted_reserve t q q' j js : reserve t q = Some q' -> Tenant j = t ->
  accounted q js -> accounted q' (j :: js).
Proof.
  intros (_ & _ & _ & Hu & Hi)%reserve_spec <- [H1 H2]. split.
  - intros t'. rewrite Hi, H1, tcount_cons. repeat case_decide; subst; try done; lia.
  - rewrite Hu, H2. simpl. lia.
Qed.

Lemma accounted_release j q js : accounted q (j :: js) ->
  accounted (release (Tenant j) q) js /\ table (release (Tenant j) q) = table q.
Proof.
  intros [H1 H2]. destruct (release_spec (Tenant j) q) as (Ht & _ & Hu & Hi).
  { rewrite H1. apply tcount_elem. left. }
  split; [|done]. split.
  - intros t'. rewrite Hi, H1, tcount_cons. repeat case_decide; subst; try done; lia.
  - rewrite Hu, H2. simpl. lia.
Qed.

Lemma accounted_inflight q q' js : inflight q' = inflight q -> accounted q js -> accounted q' js.
Proof. intros H [H1 H2]. split; [intros t|]; unfold inflight_of, used in *; rewrite H; auto. Qed.
(** ** Exclusive ownership *)

(** The jobs handed out are distinct and marked running. *)
Record exclusive (t : gmap string Job) (js : list Job) : Prop := {
  ex_nodup : NoDup (ID <$> js);
  ex_running : forall j, j ∈ js -> exists row, t !! ID j = Some row /\ State row = StateRunning;
}.

#[local] Instance exclusive_proper t : Proper (Permutation ==> iff) (exclusive t).
Proof.
  intros js js' H. split; intros [H1 H2]; split;
    [by rewrite <- H|intros j; rewrite <- H; apply H2|by rewrite H|intros j; rewrite H; apply H2].
Qed.

Lemma exclusive_claim t id j j' c js : t !! id = Some j -> State j = StatePending ->
  State j' = StateRunning -> ID c = id -> exclusive t js -> exclusive (<[id := j']> t) (c :: js).
Proof.
  intros Hid Hp Hr <- [H1 H2].
  assert (Hne : forall x, x ∈ js -> ID x <> ID c).
  { intros x (row & Hx & Hs)%H2 Heq. rewrite Heq, Hid in Hx. injection Hx as <-.
    rewrite Hp in Hs. discriminate. }
  split.
  - rewrite fmap_cons. constructor; [|done]. intros (x & Hx & Hin)%list_elem_of_fmap.
    by apply (Hne x Hin).
  - intros x [->|Hx]%elem_of_cons; [exists j'; by rewrite lookup_insert_eq|].
    rewrite lookup_insert_ne by (apply not_eq_sym, Hne, Hx). by apply H2.
Qed.

Lemma exclusive_cons t j js : exclusive t (j :: js) ->
  exclusive t js /\ forall x, x ∈ js -> ID x <> ID j.
Proof.
  intros [H1 H2]. rewrite fmap_cons in H1. apply NoDup_cons in H1 as [Hni Hnd]. split.
  - split; [done|]. intros x Hx. apply H2. by right.
  - intros x Hx Heq. apply Hni. rewrite <- Heq. by apply list_elem_of_fmap_2.
Qed.

Lemma exclusive_table t t' js : (forall j, j ∈ js -> t' !! ID j = t !! ID j) ->
  exclusive t js -> exclusive t' js.
Proof. intros H [H1 H2]. split; [done|]. intros j Hj. rewrite H by done. by apply H2. Qed.

(** ** The invariant of the running queue *)
Record inv (w : World) : Prop := {
  inv_keyed : keyed (table (w_queue w));
  inv_acc : accounted (w_queue w) (held w);
  inv_excl : exclusive (table (w_queue w)) (owned w);
  inv_cap : forall t, (inflight_of (w_queue w) t <= Z.max 0 (perTenantCap cfg))%Z;
}.

Lemma held_split q l1 l l2 js :
  held {| w_queue := q; w_leases := l1 ++ l :: l2; w_running := js |} ≡ₚ
  lease_held l ++ held {| w_queue := q; w_leases := l1 ++ l2; w_running := js |}.
Proof. unfold held; simpl. rewrite !bind_app, bind_cons. solve_Permutation. Qed.

Lemma owned_split q l1 l l2 js :
  owned {| w_queue := q; w_leases := l1 ++ l :: l2; w_running := js |} ≡ₚ
  l_claimed l ++ owned {| w_queue := q; w_leases := l1 ++ l2; w_running := js |}.
Proof. unfold owned; simpl. rewrite !bind_app, bind_cons. solve_Permutation. Qed.

Lemma keyed_insert t id j : keyed t -> ID j = id -> keyed (<[id := j]> t).
Proof. intros Hk <- id' j'. rewrite lookup_insert_Some. intros [[<- <-]|[_ H]]; [done|by apply Hk]. Qed.

Lemma cap_release t q c : (forall t, inflight_of q t <= c)%Z -> (forall t', inflight_of (release t q) t' <= c)%Z.
Proof.
  intros H t'. specialize (H t'). destruct (decide (0 < inflight_of q t)%Z) as [Hp|Hp].
  - destruct (release_spec t q Hp) as (_ & _ & _ & ->). case_decide; lia.
  - unfold release. by rewrite decide_False.
Qed.

(** One atomic step of a pass, with the rest of the world ([js], [js']) framed. *)
Lemma lease_step_inv ok l q l' q' js js' : lease_step ok l q = Some (l', q') ->
  keyed (table q) -> accounted q (lease_held l ++ js) -> exclusive (table q) (l_claimed l ++ js') ->
  (forall t, inflight_of q t <= Z.max 0 (perTenantCap cfg))%Z ->
  keyed (table q') /\ accounted q' (lease_held l' ++ js) /\
  exclusive (table q') (l_claimed l' ++ js') /\
  (forall t, inflight_of q' t <= Z.max 0 (perTenantCap cfg))%Z.
Proof.
  intros Hstep Hk Ha He Hc. destruct l as [now slots kinds cands res claimed].
  unfold lease_step in Hstep. unfold lease_held in *. simpl in *.
  destruct cands as [cands|]; [|by injection Hstep as <- <-].
  destruct res as [c|]; simpl in *.
  - destruct (claim ok now (ID c) q) as [q1 b] eqn:Eq.
    apply claim_spec in Eq as (Hi & _ & Hb). destruct b; injection Hstep as <- <-; simpl.
    + destruct Hb as (j & j' & Hj & Hp & Hr & Hid & Ht). rewrite Ht. split_and!.
      * apply keyed_insert; [done|]. rewrite Hid. by apply Hk.
      * eapply accounted_inflight; [done|]. destruct Ha as [H1 H2]. split.
        -- intros t. rewrite H1, <- app_assoc. simpl. rewrite tcount_cons, !tcount_app, tcount_cons.
           simpl. lia.
        -- rewrite H2. rewrite !length_app. simpl. rewrite length_app. lia.
      * rewrite <- app_assoc. simpl. rewrite <- Permutation_middle. by eapply exclusive_claim.
      * intros t. unfold inflight_of. rewrite Hi. apply Hc.
    + subst q1. destruct (accounted_release c q _ Ha) as [Ha' Ht]. rewrite Ht.
      split_and!; try done. by apply cap_release.
  - destruct cands as [|c cands]; [done|].
    revert Hstep. dec as [|_]; [done|]. dec as [|_]; [by intros [= <- <-]|].
    destruct (reserve (Tenant c) q) as [q1|] eqn:Er; intros [= <- <-]; simpl; [|done].
    pose proof (accounted_reserve _ _ _ c _ Er eq_refl Ha) as Ha'.
    apply reserve_spec in Er as (Hlt & Ht & _ & _ & Hi). rewrite Ht. split_and!; try done.
    intros t. rewrite Hi. specialize (Hc t). case_decide; subst; lia.
Qed.

Lemma outcome_ID now job e row : ID (outcome now job e row) = ID row.
Proof. unfold outcome. destruct e; [case_decide|]; done. Qed.

Lemma finish_inv ok now r j q js js' : keyed (table q) -> accounted q (j :: js) ->
  exclusive (table q) (j :: js') -> (forall t, inflight_of q t <= Z.max 0 (perTenantCap cfg))%Z ->
  let q' := finish ok now j r q in
  keyed (table q') /\ accounted q' js /\ exclusive (table q') js' /\
  (forall t, inflight_of q' t <= Z.max 0 (perTenantCap cfg))%Z.
Proof.
  intros Hk Ha He Hc. unfold finish.
  destruct (accounted_release j q _ Ha) as [Ha' Ht].
  destruct (exclusive_cons _ _ _ He) as [He' Hne].
  pose proof (cap_release (Tenant j) q _ Hc) as Hc'.
  destruct ok; simpl; rewrite Ht; split_and!; try done.
  - intros id x. rewrite lookup_alter_Some. intros [(<- & y & Hy & ->)|[_ Hx]]; [|by apply Hk].
    rewrite outcome_ID. by apply Hk.
  - by apply (accounted_inflight (release (Tenant j) q)).
  - eapply exclusive_table; [|done]. intros x Hx. rewrite lookup_alter_ne; [done|].
    by apply not_eq_sym, Hne.
Qed.

Lemma recover_ID j : ID (recover j) = ID j.
Proof. unfold recover. by case_decide. Qed.

Lemma NewQueue_inv stored : keyed stored -> inv (initial stored).
Proof.
  intros Hk. split; unfold initial, held, owned, inflight_of; simpl.
  - intros id j. rewrite lookup_fmap_Some. intros (x & <- & Hx). rewrite recover_ID. by apply Hk.
  - split; [done|]. reflexivity.
  - split; [constructor|]. intros j Hj. by apply elem_of_nil in Hj.
  - intros t. rewrite lookup_empty. simpl. lia.
Qed.

Lemma Enqueue_inv f now t k p ra q id q' js js' : Enqueue f now t k p ra q = Ok (id, q') ->
  keyed (table q) -> accounted q js -> exclusive (table q) js' ->
  keyed (table q') /\ accounted q' js /\ exclusive (table q') js' /\ inflight q' = inflight q.
Proof.
  unfold Enqueue. case_decide; [done|]. destruct (table q !! f) eqn:Ef; [done|].
  intros [= <- <-] Hk Ha He; simpl. split_and!; [by apply keyed_insert| |  |done].
  - by apply (accounted_inflight q).
  - eapply exclusive_table; [|done]. intros j Hj. rewrite lookup_insert_ne; [done|].
    intros ->. apply (ex_running _ _ He) in Hj as (row & Hrow & _). congruence.
Qed.

Lemma step_inv w w' : step w w' -> inv w -> inv w'.
Proof.
  intros Hs [Hk Ha He Hc]. destruct Hs as [k w|f now t k p ra id q' w H|now slots kinds w H
    |ok l1 l l2 l' q' w Hl H|ok l1 l l2 w Hl H|ok now j1 j j2 r w H|w].
  - split; try done. by apply (accounted_inflight (w_queue w)).
  - destruct (Enqueue_inv _ _ _ _ _ _ _ _ _ _ _ H Hk Ha He) as (Hk' & Ha' & He' & Hi).
    split; try done. intros t'. unfold inflight_of; simpl. rewrite Hi. apply Hc.
  - split; try done; unfold held, owned in *; simpl;
      rewrite bind_app; simpl; rewrite app_nil_r; done.
  - destruct w as [q ls js]; simpl in *; subst ls. rewrite held_split in Ha. rewrite owned_split in He.
    destruct (lease_step_inv _ _ _ _ _ _ _ H Hk Ha He Hc) as (Hk' & Ha' & He' & Hc').
    split; try done; [by rewrite held_split|by rewrite owned_split].
  - destruct w as [q ls js]; simpl in *; subst ls. rewrite held_split in Ha. rewrite owned_split in He.
    assert (Hres : l_reserved l = None).
    { unfold lease_step in H. destruct (l_cands l) as [cs|]; [|done].
      destruct (l_reserved l); [|done]. by destruct (claim _ _ _ _) as [? []]. }
    unfold lease_held in Ha. rewrite Hres in Ha. unfold held, owned in *; simpl in *.
    split; try done; unfold held, owned; simpl.
    + by rewrite <- app_assoc, (Permutation_app_comm js), <- app_assoc, (Permutation_app_comm _ js).
    + by rewrite <- app_assoc, (Permutation_app_comm js), <- app_assoc, (Permutation_app_comm _ js).
  - destruct w as [q ls js]; simpl in *; subst js. unfold held, owned in *; simpl in *.
    rewrite <- app_assoc in Ha, He. simpl in Ha, He. rewrite <- Permutation_middle in Ha, He.
    destruct (finish_inv ok now r j q _ _ Hk Ha He Hc) as (Hk' & Ha' & He' & Hc').
    split; try done; unfold held, owned; simpl; by rewrite <- app_assoc.
  - by apply NewQueue_inv.
Qed.

Lemma reachable_inv w : reachable w -> inv w.
Proof.
  intros (stored & Hk & H). eapply rtc_invariant; [by apply NewQueue_inv| |exact H].
  intros a b. apply step_inv.
Qed.

(** ** The global cap, with one pass at a time *)

(** Slots taken or still promised to the pass in progress. *)
Definition budget (w : World) : Prop :=
  match w_leases w with
  | [] => (used (w_queue w) <= Z.max 0 (globalCap cfg))%Z
  | [l] =>
      (used (w_queue w) + Z.max 0 (l_slots l) - Z.of_nat (length (option_list (l_reserved l)))
         <= Z.max 0 (globalCap cfg))%Z /\ (l_reserved l <> None -> 0 < l_slots l)%Z
  | _ => False
  end.

Lemma budget_used w : budget w -> (used (w_queue w) <= Z.max 0 (globalCap cfg))%Z.
Proof.
  unfold budget. destruct (w_leases w) as [|l [|]]; [done| |done]. intros [H1 H2].
  destruct (l_reserved l); simpl in *; [specialize (H2 ltac:(done))|]; lia.
Qed.

Lemma lease_step_budget ok l q l' q' js : lease_step ok l q = Some (l', q') ->
  accounted q (lease_held l ++ js) ->
  budget {| w_queue := q; w_leases := [l]; w_running := js |} ->
  budget {| w_queue := q'; w_leases := [l']; w_running := js |}.
Proof.
  intros Hstep Ha. destruct l as [now slots kinds cands res claimed].
  unfold lease_step in Hstep. unfold lease_held in *. unfold budget. simpl in *.
  destruct cands as [cands|]; [|by injection Hstep as <- <-].
  destruct res as [c|]; simpl in *.
  - destruct (claim ok now (ID c) q) as [q1 b] eqn:Eq. intros [H1 H2]. specialize (H2 ltac:(done)).
    apply claim_spec in Eq as (Hi & _ & Hb). destruct b; injection Hstep as <- <-; simpl.
    + unfold used in *. rewrite Hi. split; [lia|done].
    + subst q1. destruct (release_spec (Tenant c) q) as (_ & _ & Hu & _).
      { rewrite (acc_tenant _ _ Ha). apply tcount_elem. left. }
      rewrite Hu. split; [lia|done].
  - destruct cands as [|c cands]; [done|]. intros [H1 _].
    revert Hstep. dec as [|Hs]; [done|]. dec as [|_]; [by intros [= <- <-]|].
    destruct (reserve (Tenant c) q) as [q1|] eqn:Er; intros [= <- <-]; simpl; [|done].
    apply reserve_spec in Er as (_ & _ & _ & -> & _). split; lia.
Qed.

Lemma step1_budget w w' : step1 w w' -> inv w -> budget w -> budget w'.
Proof.
  intros [Hs Hlen] [Hk Ha He Hc] Hb. destruct Hs as [k w|f now t k p ra id q' w H|now slots kinds w H
    |ok l1 l l2 l' q' w Hl H|ok l1 l l2 w Hl H|ok now j1 j j2 r w H|w].
  - done.
  - assert (Hi : inflight q' = inflight (w_queue w)) by (by eapply Enqueue_inv).
    unfold budget, used in *; simpl. by rewrite Hi.
  - unfold budget in *; simpl in *. rewrite length_app in Hlen. simpl in Hlen.
    destruct (w_leases w); simpl in *; [|lia]. unfold lease_begin in H.
    revert H. dec as [|]; [done|]. dec as [|]; [done|]. intros [= <- _]. split; [lia|done].
  - destruct w as [q ls js]; simpl in *; subst ls.
    rewrite length_app in Hlen; simpl in Hlen.
    destruct l1, l2; simpl in *; try lia.
    eapply lease_step_budget; [exact H| |exact Hb].
    unfold held in Ha; simpl in Ha. rewrite app_nil_r in Ha. by rewrite Permutation_app_comm.
  - pose proof (budget_used _ Hb) as Hu. destruct w as [q ls js]; simpl in *; subst ls.
    unfold budget in *; simpl in *. destruct l1 as [|? [|]], l2; simpl in *; done.
  - destruct w as [q ls js]; simpl in *; subst js. unfold held in Ha; simpl in Ha.
    rewrite <- app_assoc in Ha. simpl in Ha. rewrite <- Permutation_middle in Ha.
    assert (Hu : used (finish ok now j r q) = (used q - 1)%Z).
    { destruct (release_spec (Tenant j) q) as (_ & _ & <- & _).
      { rewrite (acc_tenant _ _ Ha). apply tcount_elem. left. }
      unfold finish. by destruct ok. }
    unfold budget in *; simpl in *. rewrite Hu. destruct ls as [|l [|]]; [lia| |done].
    destruct Hb; split; [lia|done].
  - unfold budget, used; simpl. rewrite map_fold_empty. lia.
Qed.

(** ** A pass run without interruption is one of the interleavings *)

Ltac pass_step := unfold lease_step; cbn [l_cands l_reserved l_slots l_kinds l_claimed l_now w_queue].

Lemma lease_loop_steps ok now kinds cands : forall slots claimed q ls js,
  rtc step
    {| w_queue := q; w_running := js;
       w_leases := ls ++ [{| l_now := now; l_slots := slots; l_kinds := kinds;
         l_cands := Some cands; l_reserved := None; l_claimed := claimed |}] |}
    {| w_queue := (lease_loop ok now kinds cands slots q).2; w_leases := ls;
       w_running := js ++ claimed ++ (lease_loop ok now kinds cands slots q).1 |}.
Proof.
  induction cands as [|c cands IH]; intros slots claimed q ls js; simpl.
  { eapply rtc_l; [eapply (step_dispatch true ls _ []); [done|done]|]. rewrite !app_nil_r. done. }
  dec as [Hs|Hs].
  { eapply rtc_l; [eapply (step_dispatch true ls _ []); [done|pass_step; by rewrite decide_True]|].
    rewrite !app_nil_r. done. }
  dec as [Hk|Hk].
  { eapply rtc_l; [eapply (step_lease true ls _ []); [done|pass_step; by rewrite decide_False, decide_True]|].
    apply IH. }
  destruct (reserve (Tenant c) q) as [q1|] eqn:Er.
  2:{ eapply rtc_l; [eapply (step_lease true ls _ []); [done|pass_step; by rewrite (decide_False _ _ Hs), (decide_False _ _ Hk), Er]|].
      apply IH. }
  eapply rtc_l; [eapply (step_lease true ls _ []); [done|pass_step; by rewrite (decide_False _ _ Hs), (decide_False _ _ Hk), Er]|].
  simpl. destruct (claim (ok (ID c)) now (ID c) q1) as [q2 b] eqn:Eq.
  destruct b.
  - eapply rtc_l; [eapply (step_lease (ok (ID c)) ls _ []); [done|pass_step; by rewrite Eq]|].
    simpl. specialize (IH (slots - 1)%Z (claimed ++ [as_running c]) q2 ls js).
    destruct (lease_loop ok now kinds cands (slots - 1) q2) as [js' q3]; simpl in *.
    by rewrite <- app_assoc in IH.
  - eapply rtc_l; [eapply (step_lease (ok (ID c)) ls _ []); [done|pass_step; by rewrite Eq]|].
    apply IH.
Qed.

(** ** Blocked candidates *)

Definition blocked (q : Queue) (j : Job) : Prop :=
  Kind j ∉ handlers q \/ (perTenantCap cfg <= inflight_of q (Tenant j))%Z.

Lemma lease_loop_blocked ok now cands slots q : Forall (blocked q) cands ->
  lease_loop ok now (handlers q) cands slots q = ([], q).
Proof.
  induction 1 as [|c cands Hb Hf IH]; simpl; [done|].
  case_decide; [done|]. dec as [|Hk]; [done|]. unfold reserve.
  rewrite decide_True; [done|]. destruct Hb; [done|lia].
Qed.

(** ** Retries *)

(** One try of a job: claimed if pending, run, its result recorded. *)
Definition try_once (id : string) (q : Queue) (run : time * handler_result) : Queue :=
  let '(q1, ok) := claim true run.1 id q in
  match table q !! id with
  | Some row => if ok then finish true run.1 (as_running row) run.2 q1 else q
  | None => q
  end.

Definition budget_of : Z := Z.max 1 (maxAttempts cfg).

Definition try_state (n : nat) (row : Job) : Prop :=
  Attempts row = Z.min (Z.of_nat n) budget_of /\
  State row = if decide (Z.of_nat n < budget_of)%Z then StatePending else StateFailed.

Lemma fails_some h r j : r <> HNil -> exists e, safeInvoke h r j = Some e.
Proof. unfold safeInvoke. destruct h, r; eauto; done. Qed.

Lemma try_once_fails id q run n row : run.2 <> HNil -> keyed (table q) ->
  table q !! id = Some row -> try_state n row ->
  keyed (table (try_once id q run)) /\
  exists row', table (try_once id q run) !! id = Some row' /\ try_state (S n) row' /\
    Tenant row' = Tenant row /\ Kind row' = Kind row /\ Payload row' = Payload row.
Proof.
  intros Hf Hk Hrow [Ha Hs]. unfold try_once, claim. rewrite Hrow.
  unfold try_state, budget_of in *. dec as [[_ Hp]|Hp].
  - rewrite Hp in Hs. revert Hs. dec as [Hn|]; [|done]. intros _. unfold finish; simpl.
    edestruct (fails_some) as [e ->]; [exact Hf|].
    rewrite (Hk _ _ Hrow), table_release. simpl. rewrite alter_insert_eq. unfold outcome; simpl. split.
    { case_decide; by apply keyed_insert. }
    rewrite lookup_insert_eq. eexists; split; [reflexivity|].
    rewrite Ha. case_decide; simpl; rewrite ?Ha; (split; [split; [lia|]|done]).
    + rewrite decide_False; [done|lia].
    + rewrite decide_True; [done|lia].
  - split; [done|]. exists row. split; [done|]. split; [|done].
    revert Hs. dec as [Hn|Hn]; intros Hs; [exfalso; by apply Hp|].
    rewrite decide_False by lia. split; [lia|done].
Qed.

(** ** Properties *)

(** C5 [safety]: Any number of lease passes, handlers, registrations, enqueues and crash restarts may interleave: a job is never handed to two handlers at once, every job being run is marked running in the table, and a tenant never has more than [perTenantCap] jobs running. *)
Theorem running_exclusive_capped w t :
  reachable w ->
  NoDup (ID <$> w_running w) /\
  (forall j, j ∈ w_running w ->
     exists row, table (w_queue w) !! ID j = Some row /\ State row = StateRunning) /\
  (tcount t (w_running w) <= Z.max 0 (perTenantCap cfg))%Z.
Proof.
  intros [Hk Ha [Hnd He] Hc]%reachable_inv. unfold owned, held in *. split.
  - rewrite fmap_app in Hnd. by apply NoDup_app in Hnd as [? _].
  - split; [intros j Hj; apply He, elem_of_app; by left|].
    specialize (Hc t). rewrite (acc_tenant _ _ Ha), tcount_app in Hc.
    pose proof (tcount_nonneg t (w_leases w ≫= lease_held)). lia.
Qed.

(** With one lease pass at a time (the background ticker alone) the jobs running in the whole queue never exceed [globalCap], although the capacity is only read at the start of a pass and the claims happen outside the lock. *)
Lemma running_globally_capped stored w :
  keyed stored -> rtc step1 (initial stored) w ->
  (Z.of_nat (length (w_running w)) <= Z.max 0 (globalCap cfg))%Z.
Proof.
  intros Hk H.
  assert (Hw : inv w /\ budget w).
  { eapply (rtc_invariant step1 (fun w => inv w /\ budget w)); [|intros a b Hs [Hi Hb]|exact H].
    - split; [by apply NewQueue_inv|]. unfold budget, used; simpl. rewrite map_fold_empty. lia.
    - split; [eapply step_inv; [apply Hs|done]|by eapply step1_budget]. }
  destruct Hw as [Hi Hb]. apply budget_used in Hb. rewrite (acc_used _ _ (inv_acc _ Hi)) in Hb.
  unfold held in Hb. rewrite length_app in Hb. lia.
Qed.

(** ** What a pass promises *)

(** The candidates a pass takes, in order: those of a kind with a handler, while there is room for their tenant and in all, whose
    row can be written.  [room] is what is left of each tenant's cap, [slots] of the global one. *)
Fixpoint chosen (ok : string -> bool) (kinds : gset string) (room : string -> Z) (slots : Z) (cands : list Job) : list Job :=
  match cands with
  | [] => []
  | c :: cands =>
      if decide (0 < slots /\ Kind c ∈ kinds /\ 0 < room (Tenant c) /\ ok (ID c) = true)%Z
      then c :: chosen ok kinds (fun t => if decide (t = Tenant c) then room t - 1 else room t)%Z (slots - 1) cands
      else chosen ok kinds room slots cands
  end.
(** The first [leaseBatch] rows that are pending and due, the longest due first. *)
Definition candidates (query_ok : bool) (now : time) (rows : list Job) : list Job :=
  if query_ok then take (leaseBatch cfg) (sortSlice run_after_le (filter (fun j => State j = "pending" /\ text_le (RunAfter j) now) rows)) else [].
Definition pass_takes (query_ok : bool) (ok : string -> bool) (now : time) (q : Queue) : list Job :=
  if decide (handlers q = ∅) then []
  else chosen ok (handlers q) (fun t => perTenantCap cfg - default 0 (inflight q !! t))%Z
         (globalCap cfg - foldr (fun kv n => kv.2 + n) 0 (map_to_list (inflight q)))%Z (candidates query_ok now (map_to_list (table q)).*2).
(** The job handed to a handler for a row. *)
Definition handed (row j : Job) : Prop :=
  ID j = ID row /\ Tenant j = Tenant row /\ Kind j = Kind row /\ Payload j = Payload row /\ RunAfter j = RunAfter row /\
  Attempts j = Attempts row /\ State j = "running".
(** The row of a job that was taken. *)
Definition marked (now : time) (j : Job) : Job :=
  {| ID := ID j; Tenant := Tenant j; Kind := Kind j; Payload := Payload j; RunAfter := RunAfter j; Attempts := Attempts j;
     State := "running"; LastError := LastError j; CreatedAt := CreatedAt j; UpdatedAt := now |}.
(** A queue from which these rows were taken. *)
Record takes (now : time) (tk : list Job) (q q' : Queue) : Prop := {
  tk_handlers : handlers q' = handlers q;
  tk_table : forall id, table q' !! id = (fun j => if decide (id ∈ ID <$> tk) then marked now j else j) <$> table q !! id;
  tk_inflight : forall t, inflight_of q' t = (inflight_of q t + tcount t tk)%Z;
}.

Lemma chosen_full ok kinds room slots cands : (slots <= 0)%Z -> chosen ok kinds room slots cands = [].
Proof. intros H. induction cands as [|c cands IH]; [done|]. cbn [chosen]. by rewrite decide_False by lia. Qed.
Lemma chosen_sub ok kinds cands : forall room slots, chosen ok kinds room slots cands ⊆ cands.
Proof.
  induction cands as [|c cands IH]; intros room slots; cbn [chosen]; [done|]. pose proof (IH room slots).
  case_decide; [pose proof (IH (fun t => if decide (t = Tenant c) then room t - 1 else room t)%Z (slots - 1)%Z)|]; set_solver.
Qed.
Lemma chosen_room ok kinds cands : forall room room' slots, (forall t, room t = room' t) -> chosen ok kinds room slots cands = chosen ok kinds room' slots cands.
Proof.
  induction cands as [|c cands IH]; intros room room' slots H; cbn [chosen]; [done|]. rewrite H.
  destruct (decide _); [f_equal|]; apply IH; intros t; [by rewrite H|done].
Qed.

Lemma takes_nil now q q' : handlers q' = handlers q -> table q' = table q -> (forall t, inflight_of q' t = inflight_of q t) -> takes now [] q q'.
Proof.
  intros H1 H2 H3. split; [done| |].
  - intros id. rewrite H2. destruct (table q !! id); cbn; [|done]. by rewrite decide_False by set_solver.
  - intros t. rewrite H3. unfold tcount. cbn. lia.
Qed.
Lemma takes_cons now c tk q q2 q3 : table q !! ID c = Some c -> ID c ∉ ID <$> tk ->
  handlers q2 = handlers q -> table q2 = <[ID c := marked now c]> (table q) ->
  (forall t, inflight_of q2 t = inflight_of q t + if decide (t = Tenant c) then 1 else 0)%Z -> takes now tk q2 q3 -> takes now (c :: tk) q q3.
Proof.
  intros Hc Hni Hh Ht Hi [H1 H2 H3]. split; [congruence| |].
  - intros id. rewrite H2, Ht. destruct (decide (id = ID c)) as [->|Hne].
    + rewrite lookup_insert_eq, Hc. cbn. rewrite decide_False by done. by rewrite decide_True by set_solver.
    + rewrite lookup_insert_ne by done. destruct (table q !! id) as [j|]; [|done]. cbn. f_equal. repeat case_decide; set_solver.
  - intros t. rewrite H3, Hi, tcount_cons. repeat case_decide; subst; try done; lia.
Qed.
Lemma takes_same now tk q q1 q2 : handlers q1 = handlers q -> table q1 = table q -> (forall t, inflight_of q1 t = inflight_of q t) ->
  takes now tk q1 q2 -> takes now tk q q2.
Proof. intros Hh Ht Hi [H1 H2 H3]. split; [congruence|intros id; by rewrite H2, Ht|intros t; by rewrite H3, Hi]. Qed.

(** A claim of a pending row. *)
Lemma claim_pending ok now c q : table q !! ID c = Some c -> State c = "pending" ->
  claim ok now (ID c) q = if ok then (set_table (<[ID c := marked now c]> (table q)) q, true) else (q, false).
Proof. intros Hc Hs. unfold claim. rewrite Hc. destruct ok; [by rewrite decide_True|by rewrite decide_False by by intros []]. Qed.

Lemma lease_loop_takes ok now kinds cands : forall slots q room,
  (forall t, room t = perTenantCap cfg - inflight_of q t)%Z -> (forall t, 0 <= inflight_of q t)%Z ->
  (forall c, c ∈ cands -> table q !! ID c = Some c /\ State c = "pending") -> NoDup (ID <$> cands) ->
  let '(js, q') := lease_loop ok now kinds cands slots q in
  Forall2 handed (chosen ok kinds room slots cands) js /\ takes now (chosen ok kinds room slots cands) q q'.
Proof.
  induction cands as [|c cands IH]; intros slots q room Hroom Hpos Hrows Hnd; cbn [lease_loop].
  { split; [constructor|by apply takes_nil]. }
  dec as [Hs|Hs]; [rewrite chosen_full by lia; split; [constructor|by apply takes_nil]|]. cbn [chosen].
  rewrite fmap_cons in Hnd. apply NoDup_cons in Hnd as [Hni Hnd].
  assert (Hrest : forall c', c' ∈ cands -> table q !! ID c' = Some c' /\ State c' = "pending") by (intros c' H; apply Hrows; by right).
  destruct (Hrows c) as [Hc Hp]; [left|].
  dec as [Hk|Hk]; [rewrite decide_False by tauto; by apply IH|].
  destruct (reserve (Tenant c) q) as [q1|] eqn:Er.
  2:{ rewrite decide_False by (unfold reserve in Er; case_decide; [|done]; rewrite Hroom; lia). by apply IH. }
  apply reserve_spec in Er as (Hlt & Et & Eh & _ & Ei). rewrite claim_pending by (done || by rewrite Et).
  destruct (ok (ID c)) eqn:Eok.
  - rewrite decide_True by (rewrite Hroom; repeat split; [lia|by apply dec_stable|lia]).
    set (q2 := set_table _ q1). set (room' := fun t => if decide (t = Tenant c) then (room t - 1)%Z else room t).
    specialize (IH (slots - 1)%Z q2 room'). destruct (lease_loop ok now kinds cands (slots - 1) q2) as [js q3].
    assert (Hi2 : forall t, inflight_of q2 t = (inflight_of q t + if decide (t = Tenant c) then 1 else 0)%Z) by (intros t; apply Ei).
    destruct IH as [H1 H2]; [intros t; unfold room'; rewrite Hi2, Hroom; case_decide; lia|intros t; rewrite Hi2; specialize (Hpos t); case_decide; lia| |done|].
    { intros c' Hin. destruct (Hrest c' Hin) as [Hc' Hp']. split; [|done]. cbn. rewrite Et. rewrite lookup_insert_ne; [done|].
      intros E. apply Hni. rewrite E. by apply list_elem_of_fmap_2. }
    split; [by constructor|]. eapply (takes_cons _ _ _ _ q2); [done| |done| |exact Hi2|done].
    + intros Hin. apply Hni. apply list_elem_of_fmap in Hin as (c' & -> & Hin%chosen_sub). by apply list_elem_of_fmap_2.
    + cbn. by rewrite Et.
  - rewrite decide_False by by intros (_ & _ & _ & ?).
    destruct (release_spec (Tenant c) q1) as (Rt & Rh & _ & Ri); [rewrite Ei, decide_True by done; specialize (Hpos (Tenant c)); lia|].
    assert (Hi : forall t, inflight_of (release (Tenant c) q1) t = inflight_of q t) by (intros t; rewrite Ri, Ei; case_decide; lia).
    specialize (IH slots (release (Tenant c) q1) room). destruct (lease_loop _ _ _ _ _ _) as [js q3].
    destruct IH as [H1 H2]; [intros t; by rewrite Hi|intros t; by rewrite Hi| |done|].
    { intros c' Hin. rewrite Rt, Et. by apply Hrest. }
    split; [done|]. eapply takes_same; [| | |exact H2]; [congruence|congruence|done].
Qed.

Lemma candidates_rows qok now t : keyed t ->
  (forall c, c ∈ candidates qok now (map_to_list t).*2 -> t !! ID c = Some c /\ State c = "pending") /\ NoDup (ID <$> candidates qok now (map_to_list t).*2).
Proof.
  intros Hk. unfold candidates. destruct qok; [|split; [by intros c ?%elem_of_nil|constructor]].
  set (rows := filter _ _). assert (Hrow : forall c, c ∈ rows -> t !! ID c = Some c /\ State c = "pending").
  { intros c [[Hs _] Hc]%list_elem_of_filter. split; [|done]. apply list_elem_of_fmap in Hc as ([id j] & -> & Hc%elem_of_map_to_list).
    cbn in *. by rewrite (Hk _ _ Hc). }
  split.
  - intros c (i & Hc%list_elem_of_lookup_2 & _)%elem_of_take. rewrite sortSlice_perm in Hc. by apply Hrow.
  - eapply sublist_NoDup; [|apply fmap_sublist, sublist_take]. rewrite sortSlice_perm.
    eapply sublist_NoDup; [|apply fmap_sublist, sublist_filter]. rewrite <- list_fmap_compose.
    rewrite (list_fmap_ext (ID ∘ snd) fst) by (intros ? [id j] Hj%list_elem_of_lookup_2%elem_of_map_to_list; by apply Hk).
    apply NoDup_fst_map_to_list.
Qed.
Lemma lease_takes query_ok ok now w : reachable w ->
  let '(js, q') := lease query_ok ok now (w_queue w) in
  Forall2 handed (pass_takes query_ok ok now (w_queue w)) js /\ takes now (pass_takes query_ok ok now (w_queue w)) (w_queue w) q'.
Proof.
  intros [Hk [Ha _] _ _]%reachable_inv. unfold lease, lease_begin, pass_takes.
  destruct (decide (handlers _ = ∅)); [split; [constructor|by apply takes_nil]|]. cbv zeta.
  replace (foldr (fun kv n => kv.2 + n) 0 (map_to_list (inflight (w_queue w))))%Z with (used (w_queue w)).
  2:{ unfold used. rewrite map_fold_foldr. induction (map_to_list _) as [|[k v] l IH]; [done|]. cbn. rewrite IH. lia. }
  dec as [Hs|Hs]; [rewrite chosen_full by done; split; [constructor|by apply takes_nil]|].
  destruct (candidates_rows query_ok now (table (w_queue w)) Hk) as [Hrows Hnd].
  apply lease_loop_takes; [done| |exact Hrows|exact Hnd]. intros t. rewrite Ha. apply tcount_nonneg.
Qed.

(** C33 [refinement]: A lease pass implements its specification, whatever happened to the queue before: it takes, of the first leaseBatch rows that are pending and due (the longest due first, none when the query fails), in this order those of a kind with a handler, while the tenant's and the global cap leave room, whose row can be written; each is handed to its handler as its row with the state running; exactly the rows taken are marked running with the time of the pass, everything else of the table and the handlers stay, and each tenant's count of running jobs grows by the number of its jobs taken.  And the pass run uninterrupted is one of the interleavings of its atomic sections, whatever other passes are in progress. *)
Theorem lease_refines_steps query_ok ok now w : reachable w ->
  let '(js, q') := lease query_ok ok now (w_queue w) in
  let tk := pass_takes query_ok ok now (w_queue w) in
  Forall2 handed tk js /\ takes now tk (w_queue w) q' /\
  rtc step w {| w_queue := q'; w_leases := w_leases w; w_running := w_running w ++ js |}.
Proof.
  intros Hw. assert (Hspec := lease_takes query_ok ok now w Hw).
  assert (Hsteps : rtc step w {| w_queue := (lease query_ok ok now (w_queue w)).2; w_leases := w_leases w;
                                 w_running := w_running w ++ (lease query_ok ok now (w_queue w)).1 |}).
  { clear Hspec Hw. unfold lease. destruct (lease_begin (w_queue w)) as [[slots kinds]|] eqn:E; simpl.
    2:{ rewrite app_nil_r. by destruct w. }
    eapply rtc_l; [by eapply (step_begin now)|].
    eapply rtc_l; [by eapply (step_lease query_ok (w_leases w) _ [])|]. simpl.
    pose proof (lease_loop_steps ok now kinds (lease_query query_ok now (w_queue w)) slots [] (w_queue w)
      (w_leases w) (w_running w)) as H. by rewrite app_nil_l in H. }
  destruct (lease query_ok ok now (w_queue w)) as [js q']. destruct Hspec as [H1 H2]. by split.
Qed.

(** The batch limit starves: when every due job that could run has at least [leaseBatch] due jobs before it whose kind has no handler, or whose tenant is at its cap, the pass claims nothing and changes nothing, however many slots and runnable jobs there are. *)
Lemma lease_starvation qok ok now q :
  (forall j, due now j -> j ∈ (map_to_list (table q)).*2 -> ~ blocked q j ->
     leaseBatch cfg <= length (filter (fun b => due now b /\ ~ run_after_le j b)
                                (map_to_list (table q)).*2)) ->
  lease qok ok now q = ([], q).
Proof.
  intros H. unfold lease. destruct (lease_begin q) as [[slots kinds]|] eqn:E; [|done].
  assert (kinds = handlers q) as ->.
  { unfold lease_begin in E. by repeat case_decide; simplify_eq. }
  apply lease_loop_blocked, Forall_forall. intros j Hj.
  destruct (decide (Kind j ∉ handlers q)) as [|Hk]; [by left|].
  destruct (decide (perTenantCap cfg <= inflight_of q (Tenant j))%Z) as [|Hc]; [by right|].
  exfalso. unfold lease_query in Hj. destruct qok; [|by apply elem_of_nil in Hj]. set (rows := (map_to_list (table q)).*2) in *.
  apply list_elem_of_lookup in Hj as [i Hi].
  pose proof (sortSlice_perm (R := run_after_le) (filter (due now) rows)) as Hp.
  assert (Hin : j ∈ filter (due now) rows).
  { rewrite <- Hp. apply lookup_take_Some in Hi as [Hi _]. by eapply list_elem_of_lookup_2. }
  apply list_elem_of_filter in Hin as [Hd Hin].
  specialize (H j Hd Hin ltac:(intros [|]; [done|lia])).
  pose proof (sorted_prefix run_after_le _ _ _ _ (sortSlice_sorted (filter (due now) rows))
    (text_le_refl _) Hi) as Hlt.
  rewrite Hp, list_filter_filter in Hlt. 
  rewrite (list_filter_iff _ (fun b => due now b /\ ~ run_after_le j b)) in Hlt by tauto. lia.
Qed.

(** Retries end: a pending job that keeps failing (by an error or a panic) is run [max 1 maxAttempts] times, counting one attempt each, is then failed, and no further try runs it; its identity and payload never change. *)
Lemma retries_end id q runs row :
  keyed (table q) -> table q !! id = Some row -> State row = StatePending -> Attempts row = 0%Z ->
  Forall (fun r => r.2 <> HNil) runs ->
  exists row', table (foldl (try_once id) q runs) !! id = Some row' /\
    Attempts row' = Z.min (Z.of_nat (length runs)) (Z.max 1 (maxAttempts cfg)) /\
    State row' = (if decide (Z.of_nat (length runs) < Z.max 1 (maxAttempts cfg))%Z
                  then StatePending else StateFailed) /\
    Tenant row' = Tenant row /\ Kind row' = Kind row /\ Payload row' = Payload row.
Proof.
  intros Hk Hrow Hp Ha Hruns.
  enough (exists row', keyed (table (foldl (try_once id) q runs)) /\
    table (foldl (try_once id) q runs) !! id = Some row' /\ try_state (length runs) row' /\
    Tenant row' = Tenant row /\ Kind row' = Kind row /\ Payload row' = Payload row)
    as (row' & _ & H1 & [H2 H3] & H4) by eauto 10.
  induction runs as [|run runs IH] using rev_ind; simpl.
  - exists row. split; [done|]. split; [done|]. split; [|done].
    split; [rewrite Ha; simpl; unfold budget_of; lia|]. rewrite decide_True; [done|unfold budget_of; simpl; lia].
  - apply Forall_app in Hruns as [Hr Hf]. apply Forall_inv in Hf.
    destruct (IH Hr) as (r & Hkr & Hr1 & Hr2 & Hr3 & Hr4 & Hr5).
    rewrite foldl_snoc, length_app, Nat.add_1_r.
    destruct (try_once_fails _ _ _ _ _ Hf Hkr Hr1 Hr2) as (Hk' & r' & H1 & H2 & H3 & H4 & H5).
    exists r'. split_and!; try done; congruence.
Qed.

End Queue.

(** The default retry delay is min(60 s, 2^attempt s) for every attempt number, including those for which the shift overflows 64 bits. *)
Lemma defaultBackoff_spec (n : nat) :
  defaultBackoff (Z.of_nat n) = Z.min Minute (2 ^ Z.of_nat n * Second).
Proof.
  assert (Hb : (n < 64 -> defaultBackoff (Z.of_nat n) = Z.min Minute (2 ^ Z.of_nat n * Second))%nat).
  { intros Hn. do 64 (destruct n as [|n]; [vm_compute; reflexivity|]). lia. }
  destruct (decide (n < 64)) as [Hn|Hn]; [by apply Hb|].
  unfold defaultBackoff. rewrite Z.shiftl_mul_pow2 by lia.
  replace (Z.of_nat n) with (64 + (Z.of_nat n - 64))%Z by lia. set (k := (Z.of_nat n - 64)%Z).
  assert (Hk : (0 <= k)%Z) by lia. rewrite Z.pow_add_r by lia.
  pose proof (Z.pow_pos_nonneg 2 k ltac:(lia) Hk) as Hpos.
  assert (Hw : wrap64 (Second * (2 ^ 64 * 2 ^ k)) = 0%Z).
  { unfold wrap64. replace (Second * (2 ^ 64 * 2 ^ k) + 2 ^ 63)%Z with (2 ^ 63 + (Second * 2 ^ k) * 2 ^ 64)%Z by ring.
    rewrite Z_mod_plus_full. reflexivity. }
  rewrite Hw. rewrite decide_True by lia. unfold Minute, Second in *. nia.
Qed.

(** ** Witnesses *)

#[local] Instance run_after_le_trans : Transitive run_after_le.
Proof. intros a b c. apply string_leb_trans. Qed.
#[local] Instance run_after_le_total : Total run_after_le.
Proof. intros a b. apply String.leb_total. Qed.
#[local] Instance demo_sorter : SliceSorter run_after_le := merge_sorter run_after_le.

(** One job of tenant "a" claimed from a stored table with a job left running. *)
Definition demo_now : time := ((1704067200 + unixToInternal) * Second)%Z.
Definition demo_job : Job :=
  {| ID := "j"; Tenant := "a"; Kind := "k"; Payload := "p"; RunAfter := demo_now; Attempts := 0;
     State := StateRunning; LastError := ""; CreatedAt := demo_now; UpdatedAt := demo_now |}.
Definition demo_stored : gmap string Job := {["j" := demo_job]}.
Definition demo_queue : Queue := Register "k" (NewQueue demo_stored).

Lemma demo_keyed : keyed demo_stored.
Proof. intros id j. unfold demo_stored. rewrite lookup_singleton_Some. by intros [<- <-]. Qed.

Lemma demo_run : rtc (step default_config) (initial demo_stored)
  {| w_queue := (lease default_config true (fun _ => true) demo_now demo_queue).2; w_leases := [];
     w_running := (lease default_config true (fun _ => true) demo_now demo_queue).1 |}.
Proof.
  eapply rtc_l; [apply (step_register _ "k")|]. unfold lease.
  destruct (lease_begin default_config demo_queue) as [[slots kinds]|] eqn:E; [|by vm_compute in E].
  eapply rtc_l; [by eapply (step_begin _ demo_now)|].
  eapply rtc_l; [by eapply (step_lease _ true [] _ [])|].
  apply (lease_loop_steps default_config (fun _ => true) demo_now kinds
    (lease_query default_config true demo_now demo_queue) slots [] demo_queue [] []).
Qed.

Lemma running_exclusive_capped_witness :
  ID <$> (lease default_config true (fun _ => true) demo_now demo_queue).1 = ["j"] /\
  NoDup (ID <$> (lease default_config true (fun _ => true) demo_now demo_queue).1).
Proof.
  split; [vm_compute; reflexivity|].
  apply (running_exclusive_capped default_config
    {| w_queue := (lease default_config true (fun _ => true) demo_now demo_queue).2; w_leases := [];
       w_running := (lease default_config true (fun _ => true) demo_now demo_queue).1 |} "a").
  exists demo_stored. split; [apply demo_keyed|apply demo_run].
Defined.

(** The one job is taken, and its row marked. *)
Lemma lease_refines_steps_witness :
  let w := {| w_queue := demo_queue; w_leases := []; w_running := [] |} in
  let q' := (lease default_config true (fun _ => true) demo_now demo_queue).2 in
  reachable default_config w /\ ID <$> pass_takes default_config true (fun _ => true) demo_now demo_queue = ["j"] /\
  takes demo_now (pass_takes default_config true (fun _ => true) demo_now demo_queue) demo_queue q'.
Proof.
  intros w q'. assert (Hw : reachable default_config w).
  { exists demo_stored. split; [exact demo_keyed|]. eapply rtc_l; [apply (step_register _ "k")|apply rtc_refl]. }
  split; [exact Hw|]. split; [vm_compute; reflexivity|].
  pose proof (lease_refines_steps default_config true (fun _ => true) demo_now w Hw) as H.
  subst q'. cbn [w_queue w] in H. destruct (lease default_config true (fun _ => true) demo_now demo_queue) as [js q']. exact (proj1 (proj2 H)).
Defined.

(** The same run, one pass at a time. *)
Definition demo_pass (n : nat) : Lease * Queue :=
  Nat.iter n (fun lq => default lq (lease_step default_config true lq.1 lq.2))
    ({| l_now := demo_now; l_slots := 8; l_kinds := {["k"]} ∪ ∅; l_cands := None; l_reserved := None;
        l_claimed := [] |}, demo_queue).
Definition demo_dispatched : World :=
  {| w_queue := (demo_pass 3).2; w_leases := []; w_running := l_claimed (demo_pass 3).1 |}.

Lemma demo_run1 : rtc (step1 default_config) (initial demo_stored) demo_dispatched.
Proof.
  assert (Hp : forall n, lease_step default_config true (demo_pass n).1 (demo_pass n).2 <> None ->
    step1 default_config {| w_queue := (demo_pass n).2; w_leases := [(demo_pass n).1]; w_running := [] |}
      {| w_queue := (demo_pass (S n)).2; w_leases := [(demo_pass (S n)).1]; w_running := [] |}).
  { intros n Hn. split; [|simpl; lia]. eapply (step_lease _ true [] _ []); [done|]. simpl.
    destruct (lease_step _ _ (demo_pass n).1 _) as [[l q]|]; [done|]. done. }
  eapply rtc_l; [split; [apply (step_register _ "k")|simpl; lia]|].
  eapply rtc_l; [split; [eapply (step_begin _ demo_now 8 ({["k"]} ∪ ∅)); vm_compute; reflexivity|simpl; lia]|].
  eapply rtc_l; [apply (Hp 0); vm_compute; discriminate|].
  eapply rtc_l; [apply (Hp 1); vm_compute; discriminate|].
  eapply rtc_l; [apply (Hp 2); vm_compute; discriminate|].
  eapply rtc_l; [split; [eapply (step_dispatch _ true [] _ []); [reflexivity|vm_compute; reflexivity]|simpl; lia]|].
  apply rtc_refl.
Qed.

Lemma running_globally_capped_witness :
  ID <$> w_running demo_dispatched = ["j"] /\ (Z.of_nat (length (w_running demo_dispatched)) <= 8)%Z.
Proof.
  split; [vm_compute; reflexivity|].
  exact (running_globally_capped default_config demo_stored demo_dispatched demo_keyed demo_run1).
Defined.

(** A queue whose first batch (here of one) is a due job of a kind nobody handles. *)
Definition starved_config : Config :=
  {| maxAttempts := 5; perTenantCap := 4; globalCap := 8; leaseBatch := 1; backoff := defaultBackoff |}.
Definition starved_queue : Queue :=
  {| handlers := {["k"]}; inflight := ∅;
     table := {["o" := {| ID := "o"; Tenant := "a"; Kind := "orphan"; Payload := ""; RunAfter := demo_now;
        Attempts := 0; State := StatePending; LastError := ""; CreatedAt := demo_now; UpdatedAt := demo_now |};
      "j" := {| ID := "j"; Tenant := "b"; Kind := "k"; Payload := ""; RunAfter := demo_now + Second;
        Attempts := 0; State := StatePending; LastError := ""; CreatedAt := demo_now; UpdatedAt := demo_now |}]} |}.

Lemma lease_starvation_witness :
  lease starved_config true (fun _ => true) (demo_now + Hour) starved_queue = ([], starved_queue).
Proof.
  apply (lease_starvation starved_config). intros j Hd Hin Hb.
  assert (Hj : Forall (fun j => Kind j = "orphan" \/ 1 <= length (filter
      (fun b => due (demo_now + Hour) b /\ ~ run_after_le j b) (map_to_list (table starved_queue)).*2))
      (map_to_list (table starved_queue)).*2).
  { apply (bool_decide_unpack _). vm_compute. exact I. }
  destruct (proj1 (Forall_forall _ _) Hj j Hin) as [Hk|Hl]; [|exact Hl].
  exfalso. apply Hb. left. rewrite Hk. vm_compute. intros H. inversion H.
Defined.

Lemma retries_end_witness :
  exists row', table (foldl (try_once default_config "j") demo_queue
     (replicate 7 (demo_now, HError "boom"))) !! "j" = Some row' /\
    Attempts row' = 5%Z /\ State row' = StateFailed.
Proof.
  destruct (retries_end default_config "j" demo_queue (replicate 7 (demo_now, HError "boom"))
    (recover demo_job)) as (row' & H1 & H2 & H3 & _).
  - intros id j. simpl. unfold demo_stored. rewrite lookup_fmap_Some.
    intros (x & <- & Hx). apply lookup_singleton_Some in Hx as [<- <-]. reflexivity.
  - vm_compute. reflexivity.
  - reflexivity.
  - reflexivity.
  - repeat constructor; discriminate.
  - exists row'. split; [exact H1|]. split; [exact H2|exact H3].
Defined.

(** The [run_after] column is compared as text, which is not the order of times:
    RFC 3339 drops a zero fraction, and "." sorts before "Z". *)
Lemma due_is_textual :
  due demo_now {| ID := "j"; Tenant := "a"; Kind := "k"; Payload := ""; RunAfter := demo_now + 1;
     Attempts := 0; State := StatePending; LastError := ""; CreatedAt := 0; UpdatedAt := 0 |} /\
  ~ due (demo_now + 1) {| ID := "j"; Tenant := "a"; Kind := "k"; Payload := ""; RunAfter := demo_now;
     Attempts := 0; State := StatePending; LastError := ""; CreatedAt := 0; UpdatedAt := 0 |}.
Proof. split; [split; vm_compute; reflexivity|]. intros [_ H]. vm_compute in H. discriminate. Qed.
