(* ===== verification/Policy.v ===== *)
(** * Policy: the rules and the engine that evaluates them

    [src/modules/policy/types.go], [rules.go], [rego.go] and [engine.go].  What the YAML
    decoder and the Rego evaluator return is an argument; validation, the sort by
    priority (unstable, through [SliceSorter]), matching, the composition of both
    decisions and the reload of the files are the code's. *)
From S2P Require Import Prelude.

(** ** Data *)

(** An [int]: the three constants 0, 1, 2, and any other number. *)
(* [modules/policy/types.go:Decision] *)
Inductive Decision_ := Deny | Allow | RequireApproval | OtherDecision (n : Z).
#[export] Instance Decision_eq_dec : EqDecision Decision_.
Proof. solve_decision. Defined.
(* [modules/policy/types.go:Decision.String] *)
Definition Decision_String (d : Decision_) : string :=
  match d with
  | Allow => "allow"
  | Deny => "deny"
  | RequireApproval => "require_approval"
  | OtherDecision n => "unknown(" +:+ itoa n +:+ ")"
  end.

(* [modules/policy/types.go:CheckRequest] *)
Record CheckRequest := {
  req_Tenant : string; req_Action : string; req_Tool : string;
  req_Agent : string; req_User : string;
}.

(* [modules/policy/types.go:CheckResponse] *)
Record CheckResponse := { resp_Decision : Decision_; resp_Rule : string; resp_Reason : string }.

(* [modules/policy/types.go:PolicyRule] *)
Record PolicyRule := {
  Name : string; Tenant : string; Action : string; Tool : string; Agent : string;
  Decision : Decision_; DecisionStr : string; Priority : Z;
}.

(* [modules/policy/types.go:PolicyConfig] *)
Record PolicyConfig := { cfg_Rules : list PolicyRule; SecretPatterns : list string }.

(* [modules/policy/rules.go:RuleSet] *)
Record RuleSet := { Rules : list PolicyRule }.

(** ** Rules *)

(* [modules/policy/rules.go:parseDecision] *)
Definition parseDecision (s : string) : Result Decision_ :=
  if decide (s = "allow") then Ok Allow
  else if decide (s = "deny") then Ok Deny
  else if decide (s = "require_approval") then Ok RequireApproval
  else Err ("invalid decision " +:+ quote s +:+ ": must be allow, deny, or require_approval").

(* [modules/policy/rules.go:matches] *)
Definition matches (rule : PolicyRule) (req : CheckRequest) : bool :=
  if decide (Tenant rule <> "*" /\ Tenant rule <> req_Tenant req) then false
  else if decide (Action rule <> "*" /\ Action rule <> req_Action req) then false
  else if decide (Tool rule <> "*" /\ Tool rule <> req_Tool req) then false
  else if decide (Agent rule <> "*" /\ Agent rule <> req_Agent req) then false
  else true.

Definition default_deny : CheckResponse :=
  {| resp_Decision := Deny; resp_Rule := ""; resp_Reason := "no matching rule — deny by default" |}.

Fixpoint eval_rules (rules : list PolicyRule) (req : CheckRequest) : CheckResponse :=
  match rules with
  | [] => default_deny
  | rule :: rules' =>
      if matches rule req then
        {| resp_Decision := Decision rule; resp_Rule := Name rule;
           resp_Reason := "matched rule " +:+ quote (Name rule) |}
      else eval_rules rules' req
  end.

(* [modules/policy/rules.go:RuleSet.Evaluate] *)
Definition Evaluate (rs : RuleSet) (req : CheckRequest) : CheckResponse := eval_rules (Rules rs) req.

Definition set_Decision (d : Decision_) (r : PolicyRule) : PolicyRule :=
  {| Name := Name r; Tenant := Tenant r; Action := Action r; Tool := Tool r; Agent := Agent r;
     Decision := d; DecisionStr := DecisionStr r; Priority := Priority r |}.

(** The loop that resolves every rule's decision string. *)
Fixpoint resolve_decisions (rules : list PolicyRule) : Result (list PolicyRule) :=
  match rules with
  | [] => Ok []
  | r :: rules' =>
      (d <-? wrap_err ("rule " +:+ quote (Name r)) (parseDecision (DecisionStr r)) ;;
       rs <-? resolve_decisions rules' ;;
       Ok (set_Decision d r :: rs))%go
  end.

(** Higher priority first. *)
Definition by_priority (a b : PolicyRule) : Prop := (Priority b <= Priority a)%Z.

(** [file] is what [os.ReadFile] and [yaml.Unmarshal] yield for the path. *)
(* [modules/policy/rules.go:LoadRuleSet] *)
Definition LoadRuleSet {sorter : SliceSorter by_priority} (file : Result PolicyConfig) : Result RuleSet :=
  (cfg <-? file ;;
   rules <-? resolve_decisions (cfg_Rules cfg) ;;
   Ok {| Rules := sortSlice by_priority rules |})%go.

(** ** Rego *)

(** What the prepared OPA query returns for an input: an error, or a result set,
    here the expression values of each result. *)
Inductive rego_value := RVString (s : string) | RVOther (go_type : string).
Definition rego_query : Type := CheckRequest -> Result (list (list rego_value)).

(* [modules/policy/rego.go:RegoEvaluator] *)
Record RegoEvaluator := { query : rego_query; sources : list string }.

Definition rego_response (d : Decision_) (reason : string) : CheckResponse :=
  {| resp_Decision := d; resp_Rule := "rego"; resp_Reason := reason |}.

(* [modules/policy/rego.go:RegoEvaluator.Evaluate] *)
Definition Rego_Evaluate (e : option RegoEvaluator) (req : CheckRequest) : CheckResponse :=
  match e with
  | None => rego_response Deny "rego evaluator is nil"
  | Some e =>
      match query e req with
      | Err err => rego_response Deny ("rego eval error: " +:+ err)
      | Ok [] | Ok ([] :: _) => rego_response Deny "rego returned no decision"
      | Ok ((RVOther t :: _) :: _) => rego_response Deny ("rego decision not a string: " +:+ t)
      | Ok ((RVString decStr :: _) :: _) =>
          if decide (decStr = "allow") then rego_response Allow "rego policy allowed"
          else if decide (decStr = "deny") then rego_response Deny "rego policy denied"
          else if decide (decStr = "require_approval") then
            rego_response RequireApproval "rego policy requires approval"
          else rego_response Deny ("rego decision unrecognized: " +:+ quote decStr)
      end
  end.

(** ** Engine *)

(* [modules/policy/engine.go:Engine@16-23] *)
Record Engine := { ruleSet : option RuleSet; rego : option RegoEvaluator }.

(* [modules/policy/engine.go:Engine.evaluate] *)
Definition evaluate (rs : RuleSet) (rego : option RegoEvaluator) (req : CheckRequest) : CheckResponse :=
  let yamlResp := Evaluate rs req in
  if decide (resp_Decision yamlResp = Deny) then yamlResp
  else match rego with
  | None => yamlResp
  | Some _ =>
      let regoResp := Rego_Evaluate rego req in
      if decide (resp_Decision regoResp = Deny) then regoResp
      else if decide (resp_Decision regoResp = RequireApproval \/ resp_Decision yamlResp = RequireApproval)
      then if decide (resp_Decision yamlResp = RequireApproval) then yamlResp else regoResp
      else yamlResp
  end.

(** [yaml] and [regoFile] are what the two files hold; [Ok None] disables Rego. *)
(* [modules/policy/engine.go:Engine.Init] *)
Definition Init {sorter : SliceSorter by_priority} (yaml : Result PolicyConfig)
    (regoFile : Result (option RegoEvaluator)) (e : Engine) : Engine * Result unit :=
  match wrap_err "policy engine init" (LoadRuleSet yaml) with
  | Err err => (e, Err err)
  | Ok rs =>
      let e := {| ruleSet := Some rs; rego := rego e |} in
      match wrap_err "policy engine init (rego)" regoFile with
      | Err err => (e, Err err)
      | Ok rg => ({| ruleSet := Some rs; rego := rg |}, Ok tt)
      end
  end.

(* [modules/policy/engine.go:Engine.handleConfigReload] *)
Definition handleConfigReload {sorter : SliceSorter by_priority} (yaml : Result PolicyConfig)
    (regoFile : Result (option RegoEvaluator)) (e : Engine) : Engine :=
  match LoadRuleSet yaml with
  | Err _ => e
  | Ok rs =>
      match regoFile with
      | Err _ => {| ruleSet := Some rs; rego := rego e |}
      | Ok rg => {| ruleSet := Some rs; rego := rg |}
      end
  end.

(** Payloads of the messages the engine handles; [go_type] is what [%T] prints. *)
Inductive Payload :=
  | PCheckRequest (r : CheckRequest)
  | PCheckResponse (r : CheckResponse)
  | PRules (rs : list PolicyRule)
  | POther (go_type : string).
Definition go_type (p : Payload) : string :=
  match p with
  | PCheckRequest _ => "policy.CheckRequest"
  | PCheckResponse _ => "policy.CheckResponse"
  | PRules _ => "[]policy.PolicyRule"
  | POther t => t
  end.

(* [modules/policy/engine.go:Engine.handleCheck] *)
Definition handleCheck (e : Engine) (p : Payload) : Result Payload :=
  match p with
  | PCheckRequest req =>
      match ruleSet e with
      | None => Err "ipc: handler panicked: nil pointer dereference"
      | Some rs => Ok (PCheckResponse (evaluate rs (rego e) req))
      end
  | _ => Err ("expected CheckRequest, got " +:+ go_type p)
  end.

(* [modules/policy/engine.go:Engine.handleListRules] *)
Definition handleListRules (e : Engine) (p : Payload) : Result Payload :=
  match ruleSet e with
  | None => Ok (PRules [])
  | Some rs => Ok (PRules (Rules rs))
  end.

(** ** Lemmas on rules *)

Lemma matches_set_Decision d r req : matches (set_Decision d r) req = matches r req.
Proof. done. Qed.

Definition resolved (r r' : PolicyRule) : Prop :=
  exists d, parseDecision (DecisionStr r) = Ok d /\ r' = set_Decision d r.

Lemma resolve_decisions_spec rules :
  match resolve_decisions rules with
  | Ok rs => Forall2 resolved rules rs
  | Err _ => Exists (fun r => is_Ok (parseDecision (DecisionStr r)) = false) rules
  end.
Proof.
  induction rules as [|r rules IH]; simpl; [constructor|].
  destruct (parseDecision (DecisionStr r)) as [d|e] eqn:Ed; simpl.
  - destruct (resolve_decisions rules); simpl; [|by apply Exists_cons_tl].
    constructor; [by exists d|done].
  - apply Exists_cons_hd. by rewrite Ed.
Qed.

(** Evaluation over a list sorted by priority. *)
Lemma eval_rules_spec rules req :
  StronglySorted by_priority rules ->
  (eval_rules rules req = default_deny /\ forall r, r ∈ rules -> matches r req = false) \/
  exists r, r ∈ rules /\ matches r req = true /\
    resp_Decision (eval_rules rules req) = Decision r /\
    resp_Rule (eval_rules rules req) = Name r /\
    forall r', r' ∈ rules -> matches r' req = true -> (Priority r' <= Priority r)%Z.
Proof.
  induction 1 as [|r rules Hs IH Hall]; simpl.
  { left. split; [done|]. by intros r ?%elem_of_nil. }
  rewrite Forall_forall in Hall. destruct (matches r req) eqn:Hm.
  - right. exists r. split_and!; try done; [left|].
    intros r' [->|Hr']%elem_of_cons _; [lia|]. by apply Hall.
  - destruct IH as [[-> Hno]|(r0 & Hin & Hm0 & Hd & Hn & Hmax)]; [left|right].
    + split; [done|]. intros r' [->|Hr']%elem_of_cons; [done|]. by apply Hno.
    + exists r0. split_and!; try done; [by right|].
      intros r' [->|Hr']%elem_of_cons Hm'; [congruence|]. by apply Hmax.
Qed.

(** ** Properties *)

(** What a loaded rule set answers. *)
Lemma LoadRuleSet_answers {sorter : SliceSorter by_priority} cfg :
  match LoadRuleSet (Ok cfg) with
  | Err _ => exists r, r ∈ cfg_Rules cfg /\ is_Ok (parseDecision (DecisionStr r)) = false
  | Ok rs => (forall r, r ∈ cfg_Rules cfg -> is_Ok (parseDecision (DecisionStr r)) = true) /\
      forall req,
      (Evaluate rs req = default_deny /\ forall r, r ∈ cfg_Rules cfg -> matches r req = false) \/
      exists r, r ∈ cfg_Rules cfg /\ matches r req = true /\
        parseDecision (DecisionStr r) = Ok (resp_Decision (Evaluate rs req)) /\
        resp_Rule (Evaluate rs req) = Name r /\
        forall r', r' ∈ cfg_Rules cfg -> matches r' req = true -> (Priority r' <= Priority r)%Z
  end.
Proof.
  unfold LoadRuleSet; simpl. pose proof (resolve_decisions_spec (cfg_Rules cfg)) as H.
  destruct (resolve_decisions (cfg_Rules cfg)) as [rs|e]; simpl; [|by apply Exists_exists in H].
  assert (Hto : forall r, r ∈ cfg_Rules cfg -> exists d, parseDecision (DecisionStr r) = Ok d /\
            set_Decision d r ∈ sortSlice by_priority rs).
  { intros r Hr. apply list_elem_of_lookup in Hr as [i Hi].
    destruct (Forall2_lookup_l _ _ _ _ _ H Hi) as (r' & Hi' & d & Hd & ->).
    exists d. split; [done|]. rewrite sortSlice_perm. by eapply list_elem_of_lookup_2. }
  assert (Hfrom : forall r', r' ∈ sortSlice by_priority rs -> exists r, r ∈ cfg_Rules cfg /\ resolved r r').
  { intros r' Hr'. rewrite sortSlice_perm in Hr'. apply list_elem_of_lookup in Hr' as [i Hi].
    destruct (Forall2_lookup_r _ _ _ _ _ H Hi) as (r & Hi' & Hres).
    exists r. split; [by eapply list_elem_of_lookup_2|done]. }
  split; [intros r (d & -> & _)%Hto; done|]. intros req. unfold Evaluate; simpl.
  destruct (eval_rules_spec _ req (sortSlice_sorted rs))
    as [[-> Hno]|(r0 & Hin & Hm & Hd & Hn & Hmax)]; [left|right].
  - split; [done|]. intros r (d & _ & Hr)%Hto. by apply Hno in Hr.
  - apply Hfrom in Hin as (r & Hr & d & Hpd & ->). exists r. rewrite Hd.
    split_and!; try done. intros r' Hr' Hm'. apply Hto in Hr' as (d' & _ & Hr').
    apply (Hmax _ Hr'). by rewrite matches_set_Decision.
Qed.

Lemma matches_spec r req : matches r req = true <->
  Forall2 (fun pat v => pat = "*" \/ pat = v) [Tenant r; Action r; Tool r; Agent r] [req_Tenant req; req_Action req; req_Tool req; req_Agent req].
Proof.
  rewrite !Forall2_cons, Forall2_nil. unfold matches.
  repeat case_decide; split; try done; try (intros; exfalso; tauto); intros _; repeat split; apply dec_stable; tauto.
Qed.

(** C1 [functional]: a rule set loads exactly when every rule's decision string is valid, and it
    then answers every request with the decision of a matching rule of highest priority from the
    file, whichever order the unstable sort leaves equal priorities in; with no matching rule the
    answer is deny.  A rule matches by "*" or by equality of tenant, action, tool and agent, nothing
    else.  (src/docs/concepts/policy.md says the default is allow and that rules have globs and
    argument keys: findings.) *)
Theorem LoadRuleSet_Evaluate {sorter : SliceSorter by_priority} cfg :
  match LoadRuleSet (Ok cfg) with
  | Err _ => exists r, r ∈ cfg_Rules cfg /\ is_Ok (parseDecision (DecisionStr r)) = false
  | Ok rs => (forall r, r ∈ cfg_Rules cfg -> is_Ok (parseDecision (DecisionStr r)) = true) /\
      forall req,
      (forall r, matches r req = true <-> Forall2 (fun pat v => pat = "*" \/ pat = v) [Tenant r; Action r; Tool r; Agent r]
                                           [req_Tenant req; req_Action req; req_Tool req; req_Agent req]) /\
      ((Evaluate rs req = default_deny /\ forall r, r ∈ cfg_Rules cfg -> matches r req = false) \/
      exists r, r ∈ cfg_Rules cfg /\ matches r req = true /\
        parseDecision (DecisionStr r) = Ok (resp_Decision (Evaluate rs req)) /\
        resp_Rule (Evaluate rs req) = Name r /\
        forall r', r' ∈ cfg_Rules cfg -> matches r' req = true -> (Priority r' <= Priority r)%Z)
  end.
Proof.
  pose proof (LoadRuleSet_answers cfg) as H. destruct (LoadRuleSet (Ok cfg)) as [rs|e]; [|done]. destruct H as [H1 H2].
  split; [done|]. intros req. split; [intros r; apply matches_spec|apply H2].
Qed.

(** Rego answers with one of the constants. *)
Lemma Rego_Evaluate_defined e req n : resp_Decision (Rego_Evaluate e req) <> OtherDecision n.
Proof.
  destruct e as [e|]; [|done]. cbn. destruct (query e req) as [[|[|[s|t] es] rest]|err]; try done.
  repeat case_decide; done.
Qed.

(** The composed answer is one of the two. *)
Lemma evaluate_one_of rs rg req : evaluate rs rg req = Evaluate rs req \/ evaluate rs rg req = Rego_Evaluate rg req.
Proof. unfold evaluate. repeat case_decide; destruct rg; auto. Qed.

(** A decision that is none of the constants holds nothing back. *)
Definition severity (d : Decision_) : nat :=
  match d with Allow | OtherDecision _ => 0 | RequireApproval => 1 | Deny => 2 end.

(** C4 [safety]: the composed decision is exactly the stricter of the YAML and Rego decisions
    (allow < require_approval < deny), given by one of the two responses; so a request is allowed
    only if the YAML rules allow it and Rego is disabled or its query returned the string "allow"
    — an evaluation error, an empty result or any other value denies.  (Rego is so asked whenever the
    YAML rules do not deny: src/docs says it is only asked when no rule matches, see the findings.) *)
Theorem evaluate_strictest rs rg req :
  severity (resp_Decision (evaluate rs rg req)) =
    Nat.max (severity (resp_Decision (Evaluate rs req)))
      (match rg with None => 0 | Some _ => severity (resp_Decision (Rego_Evaluate rg req)) end) /\
  (evaluate rs rg req = Evaluate rs req \/ evaluate rs rg req = Rego_Evaluate rg req) /\
  (resp_Decision (evaluate rs rg req) = Allow <->
     resp_Decision (Evaluate rs req) = Allow /\
     (rg = None \/ exists e es rest, rg = Some e /\
        query e req = Ok ((RVString "allow" :: es) :: rest))).
Proof.
  assert (Hrego : forall e, resp_Decision (Rego_Evaluate (Some e) req) = Allow <->
            exists es rest, query e req = Ok ((RVString "allow" :: es) :: rest)).
  { intros e. simpl. destruct (query e req) as [[|[|[s|t] es] rest]|err]; simpl;
      try (split; [done|intros (?&?&?); discriminate]).
    repeat case_decide; subst; simpl; split; try done; try (by eauto);
      intros (?&?&?); congruence. }
  assert (Hsome : forall e, resp_Decision (Rego_Evaluate (Some e) req) = Allow <->
            Some e = None \/ exists e' es rest, Some e = Some e' /\ query e' req = Ok ((RVString "allow" :: es) :: rest)).
  { intros e. rewrite Hrego. naive_solver. }
  unfold evaluate. destruct rg as [e|].
  - rewrite <- Hsome. destruct (resp_Decision (Evaluate rs req)) eqn:Ey, (resp_Decision (Rego_Evaluate (Some e) req)) eqn:Er;
      try (by apply Rego_Evaluate_defined in Er);
      repeat first [rewrite decide_True by tauto|rewrite decide_False by intuition congruence]; rewrite ?Ey, ?Er;
      (split; [done|]); (split; [auto|]); clear; intuition congruence.
  - assert (E : (if decide (resp_Decision (Evaluate rs req) = Deny) then Evaluate rs req else Evaluate rs req) = Evaluate rs req) by by_cases.
    rewrite E, Nat.max_0_r. naive_solver.
Qed.

(** The contents of the two policy files at a reload. *)
Definition reload_event : Type := Result PolicyConfig * Result (option RegoEvaluator).
Definition reloads {sorter : SliceSorter by_priority} (evs : list reload_event) (e : Engine) : Engine :=
  fold_left (fun e ev => handleConfigReload ev.1 ev.2 e) evs e.

Lemma reloads_snoc {sorter : SliceSorter by_priority} evs ev e :
  reloads (evs ++ [ev]) e = handleConfigReload ev.1 ev.2 (reloads evs e).
Proof. unfold reloads. by rewrite fold_left_app. Qed.

Definition yaml_loads {sorter : SliceSorter by_priority} (ev : reload_event) : Prop :=
  is_Ok (LoadRuleSet ev.1) = true.
#[export] Instance yaml_loads_dec {sorter : SliceSorter by_priority} ev : base.Decision (yaml_loads ev).
Proof. unfold yaml_loads. apply _. Defined.

(** Once initialised, the engine keeps a policy through every sequence of reloads: the
    rules in force come from a file that loaded, the Rego evaluator from a load that succeeded, a
    reload whose YAML is broken changes nothing at all, and every check request is answered. *)
Lemma reload_keeps_policy {sorter : SliceSorter by_priority} y0 r0 e0 e1 evs
    (Hinit : Init y0 r0 e0 = (e1, Ok tt)) :
  reloads evs e1 = reloads (filter yaml_loads evs) e1 /\
  exists rs rg, reloads evs e1 = {| ruleSet := Some rs; rego := rg |} /\
    (exists y, y ∈ y0 :: evs.*1 /\ LoadRuleSet y = Ok rs) /\ Ok rg ∈ r0 :: evs.*2 /\
    forall req, handleCheck (reloads evs e1) (PCheckRequest req) =
                Ok (PCheckResponse (evaluate rs rg req)).
Proof.
  unfold Init in Hinit. destruct (LoadRuleSet y0) as [rs0|] eqn:E0; simpl in Hinit; [|done].
  destruct r0 as [rg0|]; simpl in Hinit; [|done]. injection Hinit as <-.
  split.
  - generalize {| ruleSet := Some rs0; rego := rg0 |} as e.
    induction evs as [|[y r] evs IH]; intros e; [done|]. rewrite filter_cons. simpl.
    dec as [Hl|Hl]; simpl; [apply IH|]. rewrite <- IH. unfold yaml_loads in Hl; simpl in Hl.
    f_equal. unfold handleConfigReload. by destruct (LoadRuleSet y).
  - assert (H : exists rs rg, reloads evs {| ruleSet := Some rs0; rego := rg0 |} =
        {| ruleSet := Some rs; rego := rg |} /\
        (exists y, y ∈ y0 :: evs.*1 /\ LoadRuleSet y = Ok rs) /\ Ok rg ∈ Ok rg0 :: evs.*2).
    { induction evs as [|[y r] evs IH] using rev_ind.
      - exists rs0, rg0. split_and!; [done|exists y0; split; [left|done]|left].
      - destruct IH as (rs & rg & He & (y1 & Hy1 & Hl1) & Hr1).
        rewrite reloads_snoc, He. simpl. unfold handleConfigReload.
        rewrite !fmap_app; simpl.
        destruct (LoadRuleSet y) as [rs'|] eqn:Ey; [destruct r as [rg'|]|]; do 2 eexists;
          (split; [done|]); (split; [eexists; split; [|done]|]); set_solver. }
    destruct H as (rs & rg & He & Hy & Hr). exists rs, rg. split_and!; try done.
    intros req. by rewrite He.
Qed.

(** An engine that was initialised, after any reloads. *)
Definition running {sorter : SliceSorter by_priority} (e : Engine) : Prop :=
  exists y0 r0 e0 e1 evs, Init y0 r0 e0 = (e1, Ok tt) /\ e = reloads evs e1.
(** Such an engine answers with one of the constants: no file has another decision. *)
Lemma running_defined {sorter : SliceSorter by_priority} e req cr n :
  running e -> handleCheck e (PCheckRequest req) = Ok (PCheckResponse cr) -> resp_Decision cr <> OtherDecision n.
Proof.
  intros (y0 & r0 & e0 & e1 & evs & Hinit & ->) H. destruct (reload_keeps_policy _ _ _ _ evs Hinit) as (_ & rs & rg & _ & (y & _ & Hy) & _ & Ha).
  rewrite Ha in H. injection H as <-. unfold LoadRuleSet in Hy. destruct y as [cfg|]; [|done].
  pose proof (LoadRuleSet_answers cfg) as Hl. unfold LoadRuleSet in Hl. cbn [rbind] in *. rewrite Hy in Hl. destruct Hl as [_ Hl].
  assert (Hd : resp_Decision (Evaluate rs req) <> OtherDecision n).
  { destruct (Hl req) as [[-> _]|(r & _ & _ & Hp & _)]; [done|]. intros E. rewrite E in Hp. unfold parseDecision in Hp. by repeat case_decide. }
  destruct (evaluate_one_of rs rg req) as [->| ->]; [done|apply Rego_Evaluate_defined].
Qed.

(** ** Witnesses *)

#[export] Instance by_priority_dec : RelDecision by_priority.
Proof. intros a b. unfold by_priority. apply _. Defined.
#[export] Instance by_priority_total : Total by_priority.
Proof. intros a b. unfold by_priority. lia. Qed.
#[export] Instance by_priority_trans : Transitive by_priority.
Proof. intros a b c. unfold by_priority. lia. Qed.
Definition rule_sorter : SliceSorter by_priority := merge_sorter by_priority.

Definition demo_rule (name tenant tool d : string) (p : Z) : PolicyRule :=
  {| Name := name; Tenant := tenant; Action := "tool_call"; Tool := tool; Agent := "*";
     Decision := Deny; DecisionStr := d; Priority := p |}.
Definition demo_cfg : PolicyConfig :=
  {| cfg_Rules := [demo_rule "allow-all" "*" "*" "allow" 1;
                   demo_rule "no-shell" "*" "shell" "deny" 10;
                   demo_rule "ask-http" "acme" "http" "require_approval" 5];
     SecretPatterns := [] |}.
Definition demo_req (tenant tool : string) : CheckRequest :=
  {| req_Tenant := tenant; req_Action := "tool_call"; req_Tool := tool; req_Agent := "bot";
     req_User := "u" |}.
Definition demo_rego : RegoEvaluator :=
  {| query := fun req => if decide (req_Tool req = "http") then Ok [[RVString "allow"]] else Err "no data";
     sources := ["p.rego"] |}.

Lemma LoadRuleSet_Evaluate_witness :
  exists rs, @LoadRuleSet rule_sorter (Ok demo_cfg) = Ok rs /\
    (Evaluate rs (demo_req "acme" "shell") = default_deny /\ 
       (forall r, r ∈ cfg_Rules demo_cfg -> matches r (demo_req "acme" "shell") = false) \/
     exists r, r ∈ cfg_Rules demo_cfg /\ Name r = "no-shell" /\
       parseDecision (DecisionStr r) = Ok (resp_Decision (Evaluate rs (demo_req "acme" "shell")))).
Proof.
  pose proof (@LoadRuleSet_Evaluate rule_sorter demo_cfg) as H.
  destruct (@LoadRuleSet rule_sorter (Ok demo_cfg)) as [rs|e] eqn:E; vm_compute in E; [|discriminate].
  injection E as <-. eexists. split; [reflexivity|].
  destruct H as [_ H]. destruct (H (demo_req "acme" "shell")) as [_ [?|(r & Hr & _ & Hd & Hn & _)]];
    [by left|right]. exists r. split; [exact Hr|]. split; [|exact Hd].
  rewrite <- Hn. vm_compute. reflexivity.
Defined.

Lemma reload_keeps_policy_witness :
  let e1 := (@Init rule_sorter (Ok demo_cfg) (Ok (Some demo_rego)) {| ruleSet := None; rego := None |}).1 in
  let evs := [(Err "parse policy", Ok None); (Ok demo_cfg, Err "compile rego policy")] in
  @reloads rule_sorter evs e1 = @reloads rule_sorter (filter (@yaml_loads rule_sorter) evs) e1 /\
  is_Ok (handleCheck (@reloads rule_sorter evs e1) (PCheckRequest (demo_req "acme" "http"))) = true.
Proof.
  intros e1 evs.
  destruct (@reload_keeps_policy rule_sorter (Ok demo_cfg) (Ok (Some demo_rego))
    {| ruleSet := None; rego := None |} e1 evs) as [H1 (rs & rg & _ & _ & _ & H2)].
  { vm_compute. reflexivity. }
  split; [exact H1|]. rewrite H2. reflexivity.
Defined.
