(* ===== verification/Spending.v ===== *)
(** * Spending: per-tenant and per-agent budgets

    [src/modules/policy/spending.go], in IEEE 754 binary64 arithmetic. *)
From S2P Require Import Prelude.
From Stdlib Require Import SpecFloat.

(** A Go [float64] is an IEEE binary64 number; [+] and [>] are the IEEE
    operations of the Standard Library's [SpecFloat]. *)
Abbreviation float64 := spec_float (only parsing).
Definition fadd (x y : float64) : float64 := SFadd 53 1024 x y.
Definition fgt (x y : float64) : bool := SFltb y x.
Definition fzero : float64 := S754_zero false.

(* [modules/policy/spending.go:SpendingTracker] *)
Record SpendingTracker := { usage : gmap string float64; budgets : gmap string float64 }.

(* [modules/policy/spending.go:NewSpendingTracker] *)
Definition NewSpendingTracker : SpendingTracker := {| usage := ∅; budgets := ∅ |}.

(* [modules/policy/spending.go:SpendingTracker.SetBudget] *)
Definition SetBudget (key : string) (budget : float64) (st : SpendingTracker) : SpendingTracker :=
  {| usage := usage st; budgets := <[key := budget]> (budgets st) |}.

(* [modules/policy/spending.go:SpendingTracker.Usage] *)
Definition Usage (key : string) (st : SpendingTracker) : float64 := default fzero (usage st !! key).

(* [modules/policy/spending.go:SpendingTracker.Budget] *)
Definition Budget (key : string) (st : SpendingTracker) : float64 := default fzero (budgets st !! key).

(* [modules/policy/spending.go:SpendingTracker.Reset] *)
Definition Reset (st : SpendingTracker) : SpendingTracker := {| usage := ∅; budgets := budgets st |}.

Definition add_usage (key : string) (cost : float64) (st : SpendingTracker) : SpendingTracker :=
  {| usage := <[key := fadd (Usage key st) cost]> (usage st); budgets := budgets st |}.

(** [hasBudget && st.usage[key]+cost > budget] *)
Definition over_budget (key : string) (cost : float64) (st : SpendingTracker) : bool :=
  match budgets st !! key with
  | None => false
  | Some budget => fgt (fadd (Usage key st) cost) budget
  end.

(** The error of [RecordCost]; its message shows the amounts. *)
Inductive BudgetError :=
  | TenantBudgetExceeded (tenant : string) (spend budget : float64)
  | AgentBudgetExceeded (agentKey : string) (spend budget : float64).

(* [modules/policy/spending.go:SpendingTracker.RecordCost] *)
Definition RecordCost (tenant agent : string) (cost : float64) (st : SpendingTracker)
    : SpendingTracker * option BudgetError :=
  if over_budget tenant cost st then
    (st, Some (TenantBudgetExceeded tenant (fadd (Usage tenant st) cost) (Budget tenant st)))
  else if decide (agent <> "") then
    let agentKey := tenant +:+ "/" +:+ agent in
    if over_budget agentKey cost st then
      (st, Some (AgentBudgetExceeded agentKey (fadd (Usage agentKey st) cost) (Budget agentKey st)))
    else (add_usage tenant cost (add_usage agentKey cost st), None)
  else (add_usage tenant cost st, None).

(** The keys a call charges. *)
Definition charged (tenant agent : string) : list string :=
  tenant :: (if decide (agent <> "") then [tenant +:+ "/" +:+ agent] else []).

Lemma agentKey_ne tenant agent : tenant +:+ "/" +:+ agent <> tenant.
Proof.
  intros H. apply (f_equal String.length) in H. rewrite str_length_app in H.
  change ("/" +:+ agent) with (String "/" agent) in H. simpl in H. lia.
Qed.

Lemma Usage_add_usage k cost st k' :
  Usage k' (add_usage k cost st) = if decide (k = k') then fadd (Usage k st) cost else Usage k' st.
Proof. unfold Usage, add_usage; simpl. rewrite lookup_insert. dec as [->|]; done. Qed.

Lemma fadd_nan_l x : fadd S754_nan x = S754_nan.
Proof. by destruct x. Qed.
Lemma fadd_nan_r x : fadd x S754_nan = S754_nan.
Proof. by destruct x. Qed.
Lemma fgt_nan x : fgt S754_nan x = false.
Proof. unfold fgt, SFltb, SFcompare. by destruct x as [[]|[]| |[]]. Qed.

(** A cost that is refused changes nothing; a cost that is accepted is added to
    the tenant's total and, when an agent is named, to that agent's, leaves every other total
    alone, and never leaves a charged total above its budget. *)
Lemma RecordCost_spec tenant agent cost st :
  match RecordCost tenant agent cost st with
  | (st', Some _) => st' = st /\ exists k, k ∈ charged tenant agent /\ over_budget k cost st = true
  | (st', None) => budgets st' = budgets st /\
      (forall k, Usage k st' = if decide (k ∈ charged tenant agent)
                               then fadd (Usage k st) cost else Usage k st) /\
      (forall k b, k ∈ charged tenant agent -> budgets st !! k = Some b -> fgt (Usage k st') b = false)
  end.
Proof.
  pose proof (agentKey_ne tenant agent) as Hne. unfold RecordCost, charged. cbv zeta.
  destruct (over_budget tenant cost st) eqn:Et.
  { cbv beta iota. split; [done|]. exists tenant. split; [left|done]. }
  assert (Hover : forall k b, over_budget k cost st = false -> budgets st !! k = Some b ->
            fgt (fadd (Usage k st) cost) b = false).
  { intros k b. unfold over_budget. intros Ho Hb. by rewrite Hb in Ho. }
  destruct (decide (agent <> "")) as [Ha|Ha]; [destruct (over_budget (tenant +:+ "/" +:+ agent) cost st) eqn:Ea|]; cbv beta iota.
  - split; [done|]. exists (tenant +:+ "/" +:+ agent). split; [set_solver|done].
  - assert (HU : forall k, Usage k (add_usage tenant cost (add_usage (tenant +:+ "/" +:+ agent) cost st)) =
      if decide (k ∈ [tenant; tenant +:+ "/" +:+ agent]) then fadd (Usage k st) cost else Usage k st).
    { intros k. rewrite !Usage_add_usage, (decide_False (P := _ = tenant)) by done.
      destruct (decide (tenant = k)), (decide (tenant +:+ "/" +:+ agent = k));
        dec as [Hk|Hk]; try (subst; congruence); exfalso; set_solver. }
    split_and!; [done|exact HU|]. intros k b Hk Hb. rewrite HU, decide_True by done.
    apply Hover; [|done]. set_solver.
  - assert (HU : forall k, Usage k (add_usage tenant cost st) =
      if decide (k ∈ [tenant]) then fadd (Usage k st) cost else Usage k st).
    { intros k. rewrite Usage_add_usage.
      destruct (decide (tenant = k)); dec as [Hk|Hk]; try (subst; congruence);
        exfalso; set_solver. }
    split_and!; [done|exact HU|]. intros k b Hk Hb. rewrite HU, decide_True by done.
    apply Hover; [|done]. set_solver.
Qed.

(** Recording a list of costs of a tenant, with the error of each. *)
Fixpoint record_all (tenant : string) (costs : list float64) (st : SpendingTracker)
    : list (option BudgetError) :=
  match costs with
  | [] => []
  | c :: costs' =>
      let '(st', r) := RecordCost tenant "" c st in r :: record_all tenant costs' st'
  end.

(** A budget does not survive a cost that is not a number: a NaN is accepted whatever
    the budget, and every later cost of the tenant, however large, is then accepted too. *)
Lemma RecordCost_nan tenant st costs :
  record_all tenant (S754_nan :: costs) st = replicate (S (length costs)) None.
Proof.
  assert (Hstep : forall c s, c = S754_nan \/ Usage tenant s = S754_nan ->
            (RecordCost tenant "" c s).2 = None /\
            Usage tenant (RecordCost tenant "" c s).1 = S754_nan).
  { intros c s Hc. assert (Hn : fadd (Usage tenant s) c = S754_nan).
    { destruct Hc as [->| ->]; [apply fadd_nan_r|apply fadd_nan_l]. }
    assert (Ho : over_budget tenant c s = false).
    { unfold over_budget. destruct (budgets s !! tenant); [|done]. rewrite Hn. apply fgt_nan. }
    unfold RecordCost. rewrite Ho. simpl. split; [done|].
    by rewrite Usage_add_usage, decide_True. }
  assert (Hall : forall cs s, Usage tenant s = S754_nan ->
            record_all tenant cs s = replicate (length cs) None).
  { induction cs as [|c cs IH]; intros s Hs; simpl; [done|].
    destruct (Hstep c s) as [H1 H2]; [by right|].
    destruct (RecordCost tenant "" c s) as [s' r]; simpl in *. by rewrite H1, IH. }
  simpl. destruct (Hstep S754_nan st) as [H1 H2]; [by left|].
  destruct (RecordCost tenant "" S754_nan st) as [s' r]; simpl in *. by rewrite H1, Hall.
Qed.
