(* ===== verification/Approval.v ===== *)
(** * Approval: the queue of human decisions and its bus handlers

    [src/modules/policy/approval.go] and the approval handlers of [engine.go].  The
    queue is a map of requests; an event is a message to one of the handlers or a
    sweep, with the time and the identifier it draws, and the machine runs any
    sequence of events. *)
From S2P Require Import Prelude.
Local Open Scope Z_scope.

(** ** Data *)

(* [modules/policy/approval.go:ApprovalStatus] *)
Inductive ApprovalStatus := ApprovalPending | ApprovalApproved | ApprovalDenied | ApprovalExpired.
#[export] Instance ApprovalStatus_eq_dec : EqDecision ApprovalStatus.
Proof. solve_decision. Defined.

(* [modules/policy/approval.go:ApprovalStatus.String] *)
Definition Status_String (s : ApprovalStatus) : string :=
  match s with
  | ApprovalPending => "pending"
  | ApprovalApproved => "approved"
  | ApprovalDenied => "denied"
  | ApprovalExpired => "expired"
  end.

(* [modules/policy/approval.go:ApprovalRequest] *)
Record ApprovalRequest := {
  ID : string; Tenant : string; User : string; Agent : string; Action : string; Tool : string;
  Rule : string; Status : ApprovalStatus; CreatedAt : time; ExpiresAt : time;
  DecidedBy : string; DecidedAt : time;
}.

(* [modules/policy/approval.go:retainAfterTerminal] *)
Definition retainAfterTerminal : duration := 10 * Minute.

(* [modules/policy/approval.go:ApprovalQueue] *)
Record ApprovalQueue := {
  requests : gmap string ApprovalRequest; ttl : duration; retain : duration;
}.

(* [modules/policy/approval.go:NewApprovalQueue] *)
Definition NewApprovalQueue (ttl : duration) : ApprovalQueue :=
  {| requests := ∅; ttl := if ttl =? 0 then 15 * Minute else ttl; retain := retainAfterTerminal |}.

Definition set_requests (rs : gmap string ApprovalRequest) (q : ApprovalQueue) : ApprovalQueue :=
  {| requests := rs; ttl := ttl q; retain := retain q |}.

(** [r.Status = s; r.DecidedBy = by; r.DecidedAt = at] *)
Definition decide_request (s : ApprovalStatus) (by_ : string) (at_ : time) (r : ApprovalRequest)
    : ApprovalRequest :=
  {| ID := ID r; Tenant := Tenant r; User := User r; Agent := Agent r; Action := Action r;
     Tool := Tool r; Rule := Rule r; Status := s; CreatedAt := CreatedAt r;
     ExpiresAt := ExpiresAt r; DecidedBy := by_; DecidedAt := at_ |}.

(** ** Operations

    Each [time.Now()] of an operation is an argument, in the order of the calls. *)

(** What one pass of the sweep does to a request; [None] deletes it. *)
Definition sweep_one (now : time) (retain : duration) (r : ApprovalRequest) : option ApprovalRequest :=
  if decide (Status r = ApprovalPending) then
    if After now (ExpiresAt r) then Some (decide_request ApprovalExpired (DecidedBy r) now r)
    else Some r
  else
    let terminalAt := if IsZero (DecidedAt r) then ExpiresAt r else DecidedAt r in
    if After now (terminalAt + retain) then None else Some r.

(* [modules/policy/approval.go:ApprovalQueue.sweepLocked] *)
Definition sweepLocked (now : time) (q : ApprovalQueue) : ApprovalQueue :=
  set_requests (omap (sweep_one now (retain q)) (requests q)) q.

(* [modules/policy/approval.go:ApprovalQueue.Sweep] *)
Definition Sweep (now : time) (q : ApprovalQueue) : ApprovalQueue := sweepLocked now q.

(** [fresh] is the identifier [newApprovalID] draws. *)
(* [modules/policy/approval.go:ApprovalQueue.Submit] *)
Definition Submit (fresh : string) (now now' : time) (req : ApprovalRequest) (q : ApprovalQueue)
    : ApprovalQueue * string :=
  let id := if decide (ID req = "") then fresh else ID req in
  let req := {| ID := id; Tenant := Tenant req; User := User req; Agent := Agent req;
                Action := Action req; Tool := Tool req; Rule := Rule req;
                Status := ApprovalPending; CreatedAt := now; ExpiresAt := now + ttl q;
                DecidedBy := DecidedBy req; DecidedAt := DecidedAt req |} in
  (sweepLocked now' (set_requests (<[id := req]> (requests q)) q), id).

(* [modules/policy/approval.go:ApprovalQueue.Approve] *)
Definition Approve (id decidedBy : string) (now now' : time) (q : ApprovalQueue)
    : ApprovalQueue * Result unit :=
  match requests q !! id with
  | None => (q, Err ("approval " +:+ quote id +:+ " not found"))
  | Some req =>
      if decide (Status req <> ApprovalPending) then
        (q, Err ("approval " +:+ quote id +:+ " already " +:+ Status_String (Status req)))
      else if After now (ExpiresAt req) then
        (set_requests (<[id := decide_request ApprovalExpired (DecidedBy req) now' req]> (requests q)) q,
         Err ("approval " +:+ quote id +:+ " expired"))
      else
        (set_requests (<[id := decide_request ApprovalApproved decidedBy now' req]> (requests q)) q, Ok tt)
  end.

(** [Deny] of the queue; a denial is accepted after the deadline too. *)
(* [modules/policy/approval.go:ApprovalQueue.Deny] *)
Definition Deny (id decidedBy : string) (now : time) (q : ApprovalQueue) : ApprovalQueue * Result unit :=
  match requests q !! id with
  | None => (q, Err ("approval " +:+ quote id +:+ " not found"))
  | Some req =>
      if decide (Status req <> ApprovalPending) then
        (q, Err ("approval " +:+ quote id +:+ " already " +:+ Status_String (Status req)))
      else (set_requests (<[id := decide_request ApprovalDenied decidedBy now req]> (requests q)) q, Ok tt)
  end.

(* [modules/policy/approval.go:ApprovalQueue.Get] *)
Definition Get (id : string) (q : ApprovalQueue) : option ApprovalRequest := requests q !! id.

Definition by_creation (a b : ApprovalRequest) : Prop := CreatedAt a <= CreatedAt b.

(* [modules/policy/approval.go:ApprovalQueue.ListPending] *)
Definition ListPending {sorter : SliceSorter by_creation} (now : time) (q : ApprovalQueue)
    : ApprovalQueue * list ApprovalRequest :=
  let q := sweepLocked now q in
  (q, sortSlice by_creation
        (filter (fun r => Status r = ApprovalPending) ((map_to_list (requests q)).*2))).

(* [modules/policy/approval.go:ApprovalQueue.Count] *)
Definition Count {sorter : SliceSorter by_creation} (now : time) (q : ApprovalQueue)
    : ApprovalQueue * nat :=
  let '(q, l) := ListPending now q in (q, length l).

(** ** Bus handlers *)

Inductive Payload :=
  | PMap (m : gmap string string)
  | PString (s : string)
  | PRequests (l : list ApprovalRequest)
  | POther (go_type : string).
Definition go_type (p : Payload) : string :=
  match p with
  | PMap _ => "map[string]string"
  | PString _ => "string"
  | PRequests _ => "[]policy.ApprovalRequest"
  | POther t => t
  end.
Definition param (m : gmap string string) (k : string) : string := default "" (m !! k).

(* [modules/policy/engine.go:authorizedDecisionSources] *)
Definition authorizedDecisionSources (source : string) : bool :=
  bool_decide (source = "api" \/ source = "cli").
(* [modules/policy/engine.go:authorizedStatusSources] *)
Definition authorizedStatusSources (source : string) : bool :=
  bool_decide (source = "api" \/ source = "cli" \/ source = "agent_runtime").

(* [modules/policy/engine.go:Engine.handleApprovalList] *)
Definition handleApprovalList {sorter : SliceSorter by_creation} (now : time) (source : string)
    (q : ApprovalQueue) : ApprovalQueue * Result Payload :=
  if negb (authorizedDecisionSources source) then
    (q, Err ("approval.list: not authorized for source " +:+ quote source))
  else let '(q, pending) := ListPending now q in (q, Ok (PRequests pending)).

(* [modules/policy/engine.go:Engine.handleApprovalApprove] *)
Definition handleApprovalApprove (now now' : time) (source : string) (p : Payload) (q : ApprovalQueue)
    : ApprovalQueue * Result Payload :=
  if negb (authorizedDecisionSources source) then
    (q, Err ("approval.approve: not authorized for source " +:+ quote source))
  else match p with
  | PMap params =>
      let decidedBy := param params "decided_by" in
      if decide (decidedBy = "") then
        (q, Err "approval.approve: decided_by (authenticated principal) is required")
      else match Approve (param params "id") decidedBy now now' q with
      | (q, Err e) => (q, Err e)
      | (q, Ok _) => (q, Ok (PString "approved"))
      end
  | _ => (q, Err ("expected map[string]string, got " +:+ go_type p))
  end.

(* [modules/policy/engine.go:Engine.handleApprovalDeny] *)
Definition handleApprovalDeny (now : time) (source : string) (p : Payload) (q : ApprovalQueue)
    : ApprovalQueue * Result Payload :=
  if negb (authorizedDecisionSources source) then
    (q, Err ("approval.deny: not authorized for source " +:+ quote source))
  else match p with
  | PMap params =>
      let decidedBy := param params "decided_by" in
      if decide (decidedBy = "") then
        (q, Err "approval.deny: decided_by (authenticated principal) is required")
      else match Deny (param params "id") decidedBy now q with
      | (q, Err e) => (q, Err e)
      | (q, Ok _) => (q, Ok (PString "denied"))
      end
  | _ => (q, Err ("expected map[string]string, got " +:+ go_type p))
  end.

(* [modules/policy/engine.go:Engine.handleApprovalSubmit] *)
Definition handleApprovalSubmit (fresh : string) (now now' : time) (p : Payload) (q : ApprovalQueue)
    : ApprovalQueue * Result Payload :=
  match p with
  | PMap params =>
      let '(q, id) := Submit fresh now now'
        {| ID := ""; Tenant := param params "tenant"; User := param params "user";
           Agent := param params "agent"; Action := param params "action";
           Tool := param params "tool"; Rule := ""; Status := ApprovalPending;
           CreatedAt := 0; ExpiresAt := 0; DecidedBy := ""; DecidedAt := 0 |} q in
      (q, Ok (PString id))
  | _ => (q, Err ("expected map[string]string, got " +:+ go_type p))
  end.

(* [modules/policy/engine.go:Engine.handleApprovalGet] *)
Definition handleApprovalGet (source : string) (p : Payload) (q : ApprovalQueue) : Result Payload :=
  if negb (authorizedStatusSources source) then
    Err ("approval.get: not authorized for source " +:+ quote source)
  else match p with
  | PString id =>
      match Get id q with
      | None => Err ("approval " +:+ quote id +:+ " not found")
      | Some req => Ok (PString (Status_String (Status req)))
      end
  | _ => Err ("expected string, got " +:+ go_type p)
  end.

(** ** The queue as a state machine *)

(** The messages that reach the queue, with the clock readings of their handling. *)
Inductive event :=
  | ESubmit (fresh : string) (now now' : time) (p : Payload)
  | EApprove (now now' : time) (source : string) (p : Payload)
  | EDeny (now : time) (source : string) (p : Payload)
  | EList (now : time) (source : string)
  | ESweep (now : time).

Section Machine.
Context {sorter : SliceSorter by_creation}.

Definition exec (e : event) (q : ApprovalQueue) : ApprovalQueue :=
  match e with
  | ESubmit fresh now now' p => (handleApprovalSubmit fresh now now' p q).1
  | EApprove now now' source p => (handleApprovalApprove now now' source p q).1
  | EDeny now source p => (handleApprovalDeny now source p q).1
  | EList now source => (handleApprovalList now source q).1
  | ESweep now => Sweep now q
  end.

Definition exec_all (evs : list event) (q : ApprovalQueue) : ApprovalQueue :=
  fold_left (fun q e => exec e q) evs q.

(** The clock reading a sweep of this event uses. *)
Definition sweep_time (e : event) : option time :=
  match e with
  | ESubmit _ _ now' _ => Some now'
  | EList now _ | ESweep now => Some now
  | _ => None
  end.

Definition submits (id : string) (e : event) : bool :=
  match e with ESubmit fresh _ _ _ => bool_decide (fresh = id) | _ => false end.

(** When a request left the pending state, as the sweep sees it. *)
Definition terminal_at (r : ApprovalRequest) : time :=
  if IsZero (DecidedAt r) then ExpiresAt r else DecidedAt r.

(** What one event may do to the request [r] stored under [id]. *)
Definition transition (retain : duration) (e : event) (id : string) (r : ApprovalRequest)
    (after : option ApprovalRequest) : Prop :=
  after = Some r \/
  match Status r with
  | ApprovalPending =>
      (exists now now' source params, e = EApprove now now' source (PMap params) /\
         (source = "api" \/ source = "cli") /\ param params "id" = id /\
         param params "decided_by" <> "" /\
         ((now <= ExpiresAt r /\
           after = Some (decide_request ApprovalApproved (param params "decided_by") now' r)) \/
          (ExpiresAt r < now /\ after = Some (decide_request ApprovalExpired (DecidedBy r) now' r)))) \/
      (exists now source params, e = EDeny now source (PMap params) /\
         (source = "api" \/ source = "cli") /\ param params "id" = id /\
         param params "decided_by" <> "" /\
         after = Some (decide_request ApprovalDenied (param params "decided_by") now r)) \/
      (exists now, sweep_time e = Some now /\ ExpiresAt r < now /\
         after = Some (decide_request ApprovalExpired (DecidedBy r) now r))
  | _ => after = None /\ exists now, sweep_time e = Some now /\ terminal_at r + retain < now
  end.

Lemma sweep_lookup now q id : Get id (sweepLocked now q) = Get id q ≫= sweep_one now (retain q).
Proof. apply lookup_omap. Qed.

Lemma sweep_transition e now retain id r :
  sweep_time e = Some now -> transition retain e id r (sweep_one now retain r).
Proof.
  intros He. unfold transition, sweep_one, After, terminal_at.
  destruct (Status r) eqn:Es; simpl.
  - destruct (Z.ltb_spec (ExpiresAt r) now); [right; right; right; eauto|by left].
  - destruct (Z.ltb_spec ((if IsZero (DecidedAt r) then ExpiresAt r else DecidedAt r) + retain) now);
      [right; eauto|by left].
  - destruct (Z.ltb_spec ((if IsZero (DecidedAt r) then ExpiresAt r else DecidedAt r) + retain) now);
      [right; eauto|by left].
  - destruct (Z.ltb_spec ((if IsZero (DecidedAt r) then ExpiresAt r else DecidedAt r) + retain) now);
      [right; eauto|by left].
Qed.

Lemma exec_config e q : ttl (exec e q) = ttl q /\ retain (exec e q) = retain q.
Proof.
  destruct e as [fresh now now' p|now now' source p|now source p|now source|now]; simpl; try done.
  - by destruct p.
  - unfold handleApprovalApprove, Approve. repeat case_match; simplify_eq; done.
  - unfold handleApprovalDeny, Deny. repeat case_match; simplify_eq; done.
  - unfold handleApprovalList. case_match; done.
Qed.

Lemma authorized_decision source :
  authorizedDecisionSources source = true <-> source = "api" \/ source = "cli".
Proof. apply bool_decide_eq_true. Qed.

Lemma approve_transition now now' source p q id r :
  Get id q = Some r ->
  transition (retain q) (EApprove now now' source p) id r
    (Get id (handleApprovalApprove now now' source p q).1).
Proof.
  intros Hget. unfold handleApprovalApprove.
  destruct (authorizedDecisionSources source) eqn:Ha; simpl; [|by left].
  apply authorized_decision in Ha. destruct p as [params| | |]; try by left.
  dec as [_|Hby]; [by left|]. unfold Approve.
  destruct (requests q !! param params "id") as [req|] eqn:Hreq; [|by left].
  dec as [_|Hp]; [by left|]. apply dec_stable in Hp.
  destruct (decide (param params "id" = id)) as [Hid|Hid].
  - rewrite Hid in *. assert (req = r) as -> by (unfold Get in Hget; congruence).
    right. rewrite Hp. left. exists now, now', source, params. split_and!; try done.
    unfold After. destruct (Z.ltb_spec (ExpiresAt r) now); simpl; unfold Get; simpl;
      rewrite lookup_insert_eq; [right|left]; done.
  - left. unfold Get in *. destruct (After now (ExpiresAt req)); simpl;
      by rewrite lookup_insert_ne.
Qed.

Lemma deny_transition now source p q id r :
  Get id q = Some r ->
  transition (retain q) (EDeny now source p) id r (Get id (handleApprovalDeny now source p q).1).
Proof.
  intros Hget. unfold handleApprovalDeny.
  destruct (authorizedDecisionSources source) eqn:Ha; simpl; [|by left].
  apply authorized_decision in Ha. destruct p as [params| | |]; try by left.
  dec as [_|Hby]; [by left|]. unfold Deny.
  destruct (requests q !! param params "id") as [req|] eqn:Hreq; [|by left].
  dec as [_|Hp]; [by left|]. apply dec_stable in Hp.
  destruct (decide (param params "id" = id)) as [Hid|Hid].
  - rewrite Hid in *. assert (req = r) as -> by (unfold Get in Hget; congruence).
    right. rewrite Hp. right; left. exists now, source, params. split_and!; try done.
    unfold Get; simpl. by rewrite lookup_insert_eq.
  - left. unfold Get in *; simpl. by rewrite lookup_insert_ne.
Qed.

Lemma exec_transition e q id r :
  Get id q = Some r -> submits id e = false -> transition (retain q) e id r (Get id (exec e q)).
Proof.
  intros Hget Hsub. destruct e as [fresh now now' p|now now' source p|now source p|now source|now];
    simpl in *.
  - destruct p as [params| | |]; try by left. simpl. apply bool_decide_eq_false in Hsub.
    rewrite sweep_lookup. unfold Get at 1; simpl. rewrite lookup_insert_ne by done.
    change (requests q !! id) with (Get id q). rewrite Hget; simpl. by apply sweep_transition.
  - by apply approve_transition.
  - by apply deny_transition.
  - unfold handleApprovalList. destruct (authorizedDecisionSources source); simpl; [|by left].
    rewrite sweep_lookup, Hget; simpl. by apply sweep_transition.
  - unfold Sweep. rewrite sweep_lookup, Hget; simpl. by apply sweep_transition.
Qed.

Lemma exec_absent e q id :
  Get id q = None -> submits id e = false -> Get id (exec e q) = None.
Proof.
  intros Hget Hsub. destruct e as [fresh now now' p|now now' source p|now source p|now source|now];
    simpl in *.
  - destruct p as [params| | |]; try done. simpl. apply bool_decide_eq_false in Hsub.
    rewrite sweep_lookup. unfold Get at 1; simpl. rewrite lookup_insert_ne by done.
    change (requests q !! id) with (Get id q). by rewrite Hget.
  - unfold handleApprovalApprove, Approve, Get in *. repeat case_match; simplify_eq; try done;
      simpl; rewrite lookup_insert_ne; congruence.
  - unfold handleApprovalDeny, Deny, Get in *. repeat case_match; simplify_eq; try done;
      simpl; rewrite lookup_insert_ne; congruence.
  - unfold handleApprovalList. destruct (authorizedDecisionSources source); simpl; [|done].
    by rewrite sweep_lookup, Hget.
  - unfold Sweep. by rewrite sweep_lookup, Hget.
Qed.
End Machine.

(** ** Properties *)

(** C10 [safety]: the only way a stored request changes in one event: a pending request becomes
    approved or denied only through a message from the API or the CLI that names this request and
    a non-empty deciding principal — approved only before its deadline — or expires after it; a
    decided or expired request never changes, and disappears only in a sweep after its retention. *)
Theorem request_transitions {sorter : SliceSorter by_creation} e q id r
    (Hget : Get id q = Some r) (Hfresh : submits id e = false) :
  transition (retain q) e id r (Get id (exec e q)).
Proof. by apply exec_transition. Qed.

Lemma terminal_step {sorter : SliceSorter by_creation} e q id r :
  Get id q = Some r -> Status r <> ApprovalPending -> submits id e = false ->
  Get id (exec e q) = Some r \/
  (Get id (exec e q) = None /\ exists now, sweep_time e = Some now /\ terminal_at r + retain q < now).
Proof.
  intros Hget Hst Hsub. destruct (exec_transition e q id r Hget Hsub) as [?|H]; [by left|right].
  by destruct (Status r).
Qed.

Lemma absent_forever {sorter : SliceSorter by_creation} evs q id :
  Get id q = None -> forallb (fun e => negb (submits id e)) evs = true ->
  Get id (exec_all evs q) = None.
Proof.
  revert q; induction evs as [|e evs IH]; intros q Hget Hall; simpl in *; [done|].
  apply andb_true_iff in Hall as [He Hall]. apply negb_true_iff in He.
  apply IH; [by apply exec_absent|done].
Qed.

(** A decision is final: along every later sequence of messages (none drawing the same
    random identifier again) a decided or expired request reads back unchanged, until a sweep later
    than its terminal time plus the retention window removes it, for good; in particular a waiter
    that polls before then sees the outcome. *)
Lemma decision_final {sorter : SliceSorter by_creation} evs q id r
    (Hget : Get id q = Some r) (Hst : Status r <> ApprovalPending)
    (Hfresh : forallb (fun e => negb (submits id e)) evs = true) :
  Get id (exec_all evs q) = Some r \/
  (Get id (exec_all evs q) = None /\
   exists e now, e ∈ evs /\ sweep_time e = Some now /\ terminal_at r + retain q < now).
Proof.
  revert q Hget. induction evs as [|e evs IH]; intros q Hget; simpl in *; [by left|].
  apply andb_true_iff in Hfresh as [He Hall]. apply negb_true_iff in He.
  destruct (terminal_step e q id r Hget Hst He) as [Hsame|(Hnone & now & Ht & Hlt)].
  - destruct (IH Hall (exec e q) Hsame) as [?|(Hn & e' & now & Hin & Ht & Hlt)]; [by left|right].
    destruct (exec_config e q) as [_ Hr]. rewrite Hr in Hlt.
    split; [done|]. exists e', now. split_and!; [by right|done|done].
  - right. split; [by apply absent_forever|]. exists e, now. split_and!; [left|done|done].
Qed.

(** Listing returns, ordered by creation time, exactly the stored requests that
    are pending and whose deadline has not passed, and leaves no pending request past its
    deadline in the queue; [Count] is the length of that list. *)
Lemma ListPending_spec {sorter : SliceSorter by_creation} now q :
  let '(q', l) := ListPending now q in
  (forall r, r ∈ l <-> exists id, Get id q = Some r /\ Status r = ApprovalPending /\ now <= ExpiresAt r) /\
  StronglySorted by_creation l /\
  (forall id r, Get id q' = Some r -> Status r = ApprovalPending -> now <= ExpiresAt r) /\
  Count now q = (q', length l).
Proof.
  assert (Hsw : forall r r', sweep_one now (retain q) r = Some r' -> Status r' = ApprovalPending ->
            r' = r /\ now <= ExpiresAt r).
  { intros r r' Hr Hp. unfold sweep_one, After in Hr. revert Hr. dec as [Hst|Hst].
    - destruct (Z.ltb_spec (ExpiresAt r) now); intros [= <-]; [discriminate|]. split; [done|lia].
    - destruct (_ <? _); intros [= <-]; done. }
  simpl. split_and!; try done.
  - intros r. rewrite sortSlice_perm, list_elem_of_filter, list_elem_of_fmap. split.
    + intros (Hp & [id r'] & -> & Hin). apply elem_of_map_to_list in Hin; simpl in *.
      change (Get id (sweepLocked now q) = Some r') in Hin. rewrite sweep_lookup in Hin.
      apply bind_Some in Hin as (r & Hget & Hr). destruct (Hsw r r' Hr Hp) as [-> ?]. by exists id.
    + intros (id & Hget & Hp & Hle). split; [done|]. exists (id, r). split; [done|].
      apply elem_of_map_to_list. change (Get id (sweepLocked now q) = Some r).
      rewrite sweep_lookup, Hget; simpl. unfold sweep_one, After. rewrite decide_True by done.
      by rewrite (proj2 (Z.ltb_ge _ _) Hle).
  - apply sortSlice_sorted.
  - intros id r Hget Hp. rewrite sweep_lookup in Hget. apply bind_Some in Hget as (r0 & _ & Hr).
    destruct (Hsw r0 r Hr Hp) as [-> ?]. done.
Qed.

(** ** Witnesses *)

#[export] Instance by_creation_dec : RelDecision by_creation.
Proof. intros a b. unfold by_creation. apply _. Defined.
#[export] Instance by_creation_total : Total by_creation.
Proof. intros a b. unfold by_creation. lia. Qed.
#[export] Instance by_creation_trans : Transitive by_creation.
Proof. intros a b c. unfold by_creation. lia. Qed.
Definition creation_sorter : SliceSorter by_creation := merge_sorter by_creation.

Definition demo_q : ApprovalQueue :=
  (handleApprovalSubmit "apr_1" Hour Hour
     (PMap {["tenant" := "acme"; "tool" := "shell"; "agent" := "bot"]}) (NewApprovalQueue 0)).1.
Definition demo_approve : event :=
  EApprove (Hour + Minute) (Hour + Minute) "api" (PMap {["id" := "apr_1"; "decided_by" := "ann"]}).

Lemma request_transitions_witness :
  exists r, Get "apr_1" demo_q = Some r /\ Status r = ApprovalPending /\
    transition (retain demo_q) demo_approve "apr_1" r
      (Get "apr_1" (@exec creation_sorter demo_approve demo_q)) /\
    (Status <$> Get "apr_1" (@exec creation_sorter demo_approve demo_q)) = Some ApprovalApproved.
Proof.
  destruct (Get "apr_1" demo_q) as [r|] eqn:E; [|vm_compute in E; discriminate].
  exists r. split; [reflexivity|].
  split; [vm_compute in E; injection E as <-; reflexivity|].
  split; [|vm_compute; reflexivity].
  apply (@request_transitions creation_sorter demo_approve demo_q "apr_1" r E).
  vm_compute. reflexivity.
Defined.

Lemma decision_final_witness :
  let q := @exec creation_sorter demo_approve demo_q in
  let evs := [EDeny (Hour + 2 * Minute) "api" (PMap {["id" := "apr_1"; "decided_by" := "bob"]});
              ESweep (Hour + 5 * Minute)] in
  exists r, Get "apr_1" q = Some r /\ 
    (Get "apr_1" (@exec_all creation_sorter evs q) = Some r \/
     (Get "apr_1" (@exec_all creation_sorter evs q) = None /\
      exists e now, e ∈ evs /\ sweep_time e = Some now /\ terminal_at r + retain q < now)) /\
    DecidedBy r = "ann".
Proof.
  intros q evs. destruct (Get "apr_1" q) as [r|] eqn:E; [|vm_compute in E; discriminate].
  exists r. split; [reflexivity|]. split.
  - apply (@decision_final creation_sorter evs q "apr_1" r E); [|vm_compute; reflexivity].
    vm_compute in E. injection E as <-. discriminate.
  - vm_compute in E. injection E as <-. reflexivity.
Defined.
