(* ===== verification/Quota.v ===== *)
(** * Quota: per-tenant token, rate, concurrency and session caps

    [src/modules/quota]: types, store, enforcer and the module's handlers.  Slot objects
    are shared between the enforcer's map and the release callbacks handed out: they
    live in a heap and the map holds indices, so that replacing the map entry leaves
    the old object to its callbacks, as in the code.  Counters of the store are keyed by
    tenant and UTC day.  Integers wrap at 64 bits where the code computes with them. *)
From S2P Require Import Prelude Calendar.

(** ** Data *)

(* [modules/quota/types.go:QuotaConfig] *)
Record QuotaConfig := {
  Tenant : string; TokensPerDay : Z; RequestsPerMinute : Z; MaxConcurrentAgents : Z;
  MaxSessionsPerDay : Z;
}.

(** The zero config of a tenant: everything unlimited. *)
Definition unlimited (tenant : string) : QuotaConfig :=
  {| Tenant := tenant; TokensPerDay := 0; RequestsPerMinute := 0; MaxConcurrentAgents := 0;
     MaxSessionsPerDay := 0 |}.

(* [modules/quota/types.go:QuotaConfig.IsUnlimited] *)
Definition IsUnlimited (c : QuotaConfig) : bool :=
  ((TokensPerDay c =? 0) && (RequestsPerMinute c =? 0) && (MaxConcurrentAgents c =? 0) &&
   (MaxSessionsPerDay c =? 0))%Z.

(* [modules/quota/types.go:KindTokens@36-36] *)
Definition KindTokens : string := "tokens".
(* [modules/quota/types.go:KindRate@37-37] *)
Definition KindRate : string := "rate".
(* [modules/quota/types.go:KindConcurrency@38-38] *)
Definition KindConcurrency : string := "concurrency".
(* [modules/quota/types.go:KindSessions@39-39] *)
Definition KindSessions : string := "sessions".

(* [modules/quota/types.go:ErrQuotaExceeded] *)
Record ErrQuotaExceeded := {
  q_Tenant : string; q_Kind : string; q_Limit : Z; q_Current : Z; q_ResetAt : time;
}.

(* [modules/quota/types.go:ErrQuotaExceeded.Error] *)
Definition Error (e : ErrQuotaExceeded) : string :=
  "quota exceeded for tenant " +:+ quote (q_Tenant e) +:+ " kind=" +:+ q_Kind e +:+
  " limit=" +:+ itoa (q_Limit e) +:+ " current=" +:+ itoa (q_Current e) +:+
  " resets_at=" +:+ RFC3339 (q_ResetAt e).

(* [modules/quota/types.go:CheckRequest] *)
Record CheckRequest := { cr_Tenant : string; cr_Kind : string; cr_Amount : Z }.
(* [modules/quota/types.go:CheckResponse] *)
Record CheckResponse := {
  Allowed : bool; ResetAt : time; Current : Z; Limit : Z; Reason : string;
}.
(* [modules/quota/types.go:RecordRequest] *)
Record RecordRequest := { rr_Tenant : string; rr_Kind : string; rr_Amount : Z }.
(* [modules/quota/types.go:SlotResponse] *)
Record SlotResponse := { s_Allowed : bool; s_SlotID : string; s_Reason : string }.
(* [modules/quota/types.go:Usage] *)
Record Usage := {
  u_Tenant : string; TokensToday : Z; SessionsToday : Z; ActiveAgents : Z; RateBucketTokens : Z;
  WindowResetAt : time;
}.

(** ** The store

    A boolean argument says whether the database statement of the call succeeds. *)

(* [modules/quota/store.go:Store] *)
Record Store := {
  configs_ : gmap string QuotaConfig;
  counters : gmap (string * string) (Z * Z);
}.

(** The empty store, as a new database has it. *)
(* [modules/quota/store.go:NewStore] *)
Definition NewStore : Store := {| configs_ := ∅; counters := ∅ |}.

(* [modules/quota/store.go:Store.SetConfig] *)
Definition Store_SetConfig (ok : bool) (cfg : QuotaConfig) (s : Store) : Result Store :=
  if decide (Tenant cfg = "") then Err "tenant is required"
  else if ok then Ok {| configs_ := <[Tenant cfg := cfg]> (configs_ s); counters := counters s |}
  else Err "database error".

(** The config found, if any. *)
(* [modules/quota/store.go:Store.GetConfig] *)
Definition Store_GetConfig (ok : bool) (tenant : string) (s : Store) : Result (option QuotaConfig) :=
  if ok then Ok (configs_ s !! tenant) else Err "database error".

(* [modules/quota/store.go:dayKey] *)
Definition dayKey (t : time) : string := DateOnly t.

Definition counter (s : Store) (tenant day : string) : Z * Z := default (0, 0)%Z (counters s !! (tenant, day)).

(** A counter past the 64-bit range has become a REAL, which does not scan into
    an int64. *)
Definition scan_int64 (z : Z) : Result Z :=
  if decide (in_int64 z) then Ok z else Err "sql: Scan error: converting to int64".

Lemma scan_int64_ok z : in_int64 z -> scan_int64 z = Ok z.
Proof. intros H. unfold scan_int64. by rewrite decide_True. Qed.

(* [modules/quota/store.go:Store.tokensLocked] *)
Definition tokensLocked (ok : bool) (tenant day : string) (s : Store) : Result Z :=
  if ok then scan_int64 (counter s tenant day).1 else Err "database error".

(* [modules/quota/store.go:Store.AddTokens] *)
Definition AddTokens (ok : bool) (tenant : string) (amount : Z) (now : time) (s : Store) : Store * Result Z :=
  let day := dayKey now in
  if ok then
    let s' := {| configs_ := configs_ s;
                 counters := <[(tenant, day) := ((counter s tenant day).1 + amount, (counter s tenant day).2)%Z]>
                               (counters s) |} in
    (s', tokensLocked true tenant day s')
  else (s, Err "database error").

(* [modules/quota/store.go:Store.CurrentTokens] *)
Definition CurrentTokens (ok : bool) (tenant : string) (now : time) (s : Store) : Result Z :=
  tokensLocked ok tenant (dayKey now) s.

(* [modules/quota/store.go:Store.IncrementSessions] *)
Definition IncrementSessions (ok : bool) (tenant : string) (now : time) (s : Store) : Store * Result Z :=
  let day := dayKey now in
  if ok then
    let s' := {| configs_ := configs_ s;
                 counters := <[(tenant, day) := ((counter s tenant day).1, (counter s tenant day).2 + 1)%Z]>
                               (counters s) |} in
    (s', scan_int64 (counter s' tenant day).2)
  else (s, Err "database error").

(* [modules/quota/store.go:Store.CurrentSessions] *)
Definition CurrentSessions (ok : bool) (tenant : string) (now : time) (s : Store) : Result Z :=
  if ok then scan_int64 (counter s tenant (dayKey now)).2 else Err "database error".

(** ** The token bucket *)

(* [modules/quota/enforcer.go:rateBucket] *)
Record rateBucket := { b_tokens : Z; b_capacity : Z; b_lastRefill : time }.

(** The refill of [allow], in 64-bit arithmetic. *)
(* [modules/quota/enforcer.go:rateBucket.allow@30-43] *)
Definition refill (now : time) (b : rateBucket) : rateBucket :=
  let elapsed := Sub now (b_lastRefill b) in
  if decide (elapsed > 0)%Z then
    let n := Z.quot (wrap64 (elapsed * b_capacity b)) Minute in
    if decide (n > 0)%Z then
      let tokens := wrap64 (b_tokens b + n) in
      {| b_tokens := if decide (tokens > b_capacity b)%Z then b_capacity b else tokens;
         b_capacity := b_capacity b; b_lastRefill := now |}
    else b
  else b.

(** The answer carries the time of the next token when it is negative. *)
(* [modules/quota/enforcer.go:rateBucket.allow] *)
Definition allow (now : time) (b : rateBucket) : rateBucket * (bool * time) :=
  if decide (b_capacity b <= 0)%Z then (b, (true, 0%Z))
  else
    let b := refill now b in
    if decide (b_tokens b > 0)%Z then
      ({| b_tokens := b_tokens b - 1; b_capacity := b_capacity b; b_lastRefill := b_lastRefill b |},
       (true, 0%Z))
    else (b, (false, (b_lastRefill b + Z.quot Minute (b_capacity b))%Z)).

(** ** Agent slots *)

(* [modules/quota/enforcer.go:agentSlots] *)
Record agentSlots := { a_cap : Z; a_inUse : Z }.

(* [modules/quota/enforcer.go:agentSlots.acquire] *)
Definition acquire (a : agentSlots) : agentSlots * bool :=
  let taken := {| a_cap := a_cap a; a_inUse := a_inUse a + 1 |} in
  if decide (a_cap a <= 0)%Z then (taken, true)
  else if decide (a_inUse a >= a_cap a)%Z then (a, false)
  else (taken, true).

(* [modules/quota/enforcer.go:agentSlots.release] *)
Definition release (a : agentSlots) : agentSlots :=
  if decide (a_inUse a > 0)%Z then {| a_cap := a_cap a; a_inUse := a_inUse a - 1 |} else a.

(** ** The enforcer

    [agentSlots] objects are shared between the [slots] map and the release
    callbacks: they live in [heap], the map holds their index.  A callback is
    an entry of [callbacks]: the object it releases ([None] for the no-op of an
    unlimited tenant) and its [released] flag. *)
(* [modules/quota/enforcer.go:Enforcer] *)
Record Enforcer := {
  store : option Store;
  configs : gmap string QuotaConfig;
  buckets : gmap string rateBucket;
  slots : gmap string nat;
  heap : list agentSlots;
  callbacks : list (option nat * bool);
}.

(* [modules/quota/enforcer.go:NewEnforcer] *)
Definition NewEnforcer (st : option Store) : Enforcer :=
  {| store := st; configs := ∅; buckets := ∅; slots := ∅; heap := []; callbacks := [] |}.

Definition set_store (st : option Store) (e : Enforcer) : Enforcer :=
  {| store := st; configs := configs e; buckets := buckets e; slots := slots e; heap := heap e;
     callbacks := callbacks e |}.
Definition set_slots (sl : gmap string nat) (h : list agentSlots) (cbs : list (option nat * bool))
    (e : Enforcer) : Enforcer :=
  {| store := store e; configs := configs e; buckets := buckets e; slots := sl; heap := h;
     callbacks := cbs |}.
Definition set_bucket (tenant : string) (b : rateBucket) (e : Enforcer) : Enforcer :=
  {| store := store e; configs := configs e; buckets := <[tenant := b]> (buckets e);
     slots := slots e; heap := heap e; callbacks := callbacks e |}.

(* [modules/quota/enforcer.go:Enforcer.SetConfig] *)
Definition SetConfig (ok : bool) (cfg : QuotaConfig) (e : Enforcer) : Enforcer * option error :=
  let e1 := {| store := store e; configs := <[Tenant cfg := cfg]> (configs e);
               buckets := delete (Tenant cfg) (buckets e); slots := delete (Tenant cfg) (slots e);
               heap := heap e; callbacks := callbacks e |} in
  match store e with
  | None => (e1, None)
  | Some s => match Store_SetConfig ok cfg s with
              | Ok s' => (set_store (Some s') e1, None)
              | Err err => (e1, Some err)
              end
  end.

(* [modules/quota/enforcer.go:Enforcer.GetConfig] *)
Definition GetConfig (ok : bool) (tenant : string) (e : Enforcer) : Enforcer * QuotaConfig :=
  match configs e !! tenant with
  | Some cfg => (e, cfg)
  | None =>
      match store e with
      | None => (e, unlimited tenant)
      | Some s =>
          match Store_GetConfig ok tenant s with
          | Ok (Some persisted) =>
              ({| store := store e; configs := <[tenant := persisted]> (configs e);
                  buckets := buckets e; slots := slots e; heap := heap e; callbacks := callbacks e |},
               persisted)
          | _ => (e, unlimited tenant)
          end
      end
  end.

(* [modules/quota/enforcer.go:endOfUTCDay] *)
Definition endOfUTCDay (t : time) : time := (dayNumber t * Day + 24 * Hour)%Z.

(* [modules/quota/enforcer.go:Enforcer.CheckTokens] *)
Definition CheckTokens (cfg_ok read_ok : bool) (now : time) (tenant : string) (requested : Z)
    (e : Enforcer) : Enforcer * option ErrQuotaExceeded :=
  let '(e, cfg) := GetConfig cfg_ok tenant e in
  let exceeded current := Some {| q_Tenant := tenant; q_Kind := KindTokens; q_Limit := TokensPerDay cfg;
                                  q_Current := current; q_ResetAt := endOfUTCDay now |} in
  (e, if decide (TokensPerDay cfg <= 0)%Z then None
      else match (match store e with Some s => CurrentTokens read_ok tenant now s | None => Ok 0%Z end) with
           | Err _ => exceeded (TokensPerDay cfg)
           | Ok current =>
               if decide (wrap64 (current + requested) > TokensPerDay cfg)%Z then exceeded current
               else None
           end).

(* [modules/quota/enforcer.go:Enforcer.RecordTokens] *)
Definition RecordTokens (ok : bool) (now : time) (tenant : string) (used : Z) (e : Enforcer) : Enforcer :=
  match store e with
  | Some s => if decide (used <= 0)%Z then e
              else set_store (Some (AddTokens ok tenant used now s).1) e
  | None => e
  end.

(* [modules/quota/enforcer.go:Enforcer.CheckRate] *)
Definition CheckRate (cfg_ok : bool) (now : time) (tenant : string) (e : Enforcer) :
    Enforcer * option ErrQuotaExceeded :=
  let '(e, cfg) := GetConfig cfg_ok tenant e in
  if decide (RequestsPerMinute cfg <= 0)%Z then (e, None)
  else
    let b := default {| b_capacity := RequestsPerMinute cfg; b_tokens := RequestsPerMinute cfg;
                        b_lastRefill := now |} (buckets e !! tenant) in
    let '(b', (allowed, nextAt)) := allow now b in
    (set_bucket tenant b' e,
     if allowed : bool then None
     else Some {| q_Tenant := tenant; q_Kind := KindRate; q_Limit := RequestsPerMinute cfg;
                  q_Current := RequestsPerMinute cfg; q_ResetAt := nextAt |}).

(** The tenant's slot object, created if missing, its cap brought up to date. *)
(* [modules/quota/enforcer.go:Enforcer.AcquireAgentSlot@254-265] *)
Definition slot_object (tenant : string) (cap : Z) (e : Enforcer) : nat * Enforcer :=
  let '(l, e) := match slots e !! tenant with
                 | Some l => (l, e)
                 | None => (length (heap e),
                            set_slots (<[tenant := length (heap e)]> (slots e))
                              (heap e ++ [{| a_cap := cap; a_inUse := 0 |}]) (callbacks e) e)
                 end in
  (l, set_slots (slots e)
        (alter (fun a => {| a_cap := cap; a_inUse := a_inUse a |}) l (heap e)) (callbacks e) e).

(** The callback returned, by its number. *)
(* [modules/quota/enforcer.go:Enforcer.AcquireAgentSlot] *)
Definition AcquireAgentSlot (cfg_ok : bool) (now : time) (tenant : string) (e : Enforcer) :
    Enforcer * (ErrQuotaExceeded + nat) :=
  let '(e, cfg) := GetConfig cfg_ok tenant e in
  if decide (MaxConcurrentAgents cfg <= 0)%Z then
    (set_slots (slots e) (heap e) (callbacks e ++ [(None, false)]) e, inr (length (callbacks e)))
  else
    let '(l, e) := slot_object tenant (MaxConcurrentAgents cfg) e in
    match heap e !! l with
    | None => (e, inr (length (callbacks e)))
    | Some a =>
        let '(a', granted) := acquire a in
        if granted : bool then
          (set_slots (slots e) (<[l := a']> (heap e)) (callbacks e ++ [(Some l, false)]) e,
           inr (length (callbacks e)))
        else
          (e, inl {| q_Tenant := tenant; q_Kind := KindConcurrency; q_Limit := MaxConcurrentAgents cfg;
                     q_Current := a_inUse a; q_ResetAt := now |})
    end.

(** Calling a release callback. *)
(* [modules/quota/enforcer.go:Enforcer.AcquireAgentSlot@277-287] *)
Definition callRelease (k : nat) (e : Enforcer) : Enforcer :=
  match callbacks e !! k with
  | Some (Some l, false) =>
      set_slots (slots e) (alter release l (heap e)) (<[k := (Some l, true)]> (callbacks e)) e
  | _ => e
  end.

(* [modules/quota/enforcer.go:Enforcer.RecordSession] *)
Definition RecordSession (cfg_ok inc_ok : bool) (now : time) (tenant : string) (e : Enforcer) :
    Enforcer * option ErrQuotaExceeded :=
  let '(e, cfg) := GetConfig cfg_ok tenant e in
  match store e with
  | None => (e, None)
  | Some s =>
      let '(s', r) := IncrementSessions inc_ok tenant now s in
      (set_store (Some s') e,
       match r with
       | Err _ => None
       | Ok count =>
           if decide (MaxSessionsPerDay cfg <= 0)%Z then None
           else if decide (count > MaxSessionsPerDay cfg)%Z then
             Some {| q_Tenant := tenant; q_Kind := KindSessions; q_Limit := MaxSessionsPerDay cfg;
                     q_Current := count; q_ResetAt := endOfUTCDay now |}
           else None
       end)
  end.

(* [modules/quota/enforcer.go:Enforcer.CurrentUsage] *)
Definition CurrentUsage (tok_ok ses_ok : bool) (now : time) (tenant : string) (e : Enforcer) : Usage :=
  let read r := match r with Ok v => v | Err _ => 0%Z end in
  {| u_Tenant := tenant;
     TokensToday := match store e with Some s => read (CurrentTokens tok_ok tenant now s) | None => 0%Z end;
     SessionsToday := match store e with Some s => read (CurrentSessions ses_ok tenant now s) | None => 0%Z end;
     ActiveAgents := default 0%Z (a_inUse <$> (slots e !! tenant ≫= (heap e !!.)));
     RateBucketTokens := default 0%Z (b_tokens <$> buckets e !! tenant);
     WindowResetAt := endOfUTCDay now |}.

(** ** The module: handlers of the bus topics *)

(** Payloads the handlers distinguish by type assertion; [POther] is any other
    dynamic type, by its name. *)
Inductive Payload :=
  | PCheck (r : CheckRequest)
  | PRecord (r : RecordRequest)
  | PConfig (c : QuotaConfig)
  | PString (s : string)
  | POther (type_name : string).

Definition type_name (p : Payload) : string :=
  match p with
  | PCheck _ => "quota.CheckRequest"
  | PRecord _ => "quota.RecordRequest"
  | PConfig _ => "quota.QuotaConfig"
  | PString _ => "string"
  | POther t => t
  end.

Inductive Response :=
  | RCheck (r : CheckResponse)
  | RSlot (r : SlotResponse)
  | RConfig (c : QuotaConfig)
  | RUsage (u : Usage)
  | ROk (ok : bool).

(* [modules/quota/module.go:Module] *)
Record Module := {
  m_enforcer : Enforcer;
  m_slotCounter : Z;
  m_slots : gmap string nat;
}.

Definition set_enforcer (e : Enforcer) (m : Module) : Module :=
  {| m_enforcer := e; m_slotCounter := m_slotCounter m; m_slots := m_slots m |}.

(** [Init] on a store that opens. *)
(* [modules/quota/module.go:Module.Init] *)
Definition Init (st : Store) : Module :=
  {| m_enforcer := NewEnforcer (Some st); m_slotCounter := 0; m_slots := ∅ |}.

(** Which statements of a call succeed. *)
Record Db := { cfg_ok : bool; rate_cfg_ok : bool; tok_ok : bool; ses_ok : bool }.

Definition wrong_payload (topic expected : string) (p : Payload) : error :=
  topic +:+ ": expected " +:+ expected +:+ ", got " +:+ type_name p.

(** The response of a check that ended with [err]. *)
Definition check_response (current limit : Z) (err : option ErrQuotaExceeded) : CheckResponse :=
  match err with
  | None => {| Allowed := true; ResetAt := 0; Current := current; Limit := limit; Reason := "" |}
  | Some qe => {| Allowed := false; ResetAt := q_ResetAt qe; Current := q_Current qe; Limit := q_Limit qe;
                  Reason := Error qe |}
  end.

(* [modules/quota/module.go:Module.handleCheck] *)
Definition handleCheck (db : Db) (now : time) (p : Payload) (m : Module) : Module * Result Response :=
  match p with
  | PCheck req =>
      let '(e, cfg) := GetConfig (cfg_ok db) (cr_Tenant req) (m_enforcer m) in
      if decide (cr_Kind req = KindTokens) then
        let '(e, err) := CheckTokens (rate_cfg_ok db) (tok_ok db) now (cr_Tenant req) (cr_Amount req) e in
        (set_enforcer e m, Ok (RCheck (check_response 0 (TokensPerDay cfg) err)))
      else if decide (cr_Kind req = KindRate) then
        let '(e, err) := CheckRate (rate_cfg_ok db) now (cr_Tenant req) e in
        (set_enforcer e m, Ok (RCheck (check_response 0 (RequestsPerMinute cfg) err)))
      else if decide (cr_Kind req = KindConcurrency) then
        let usage := CurrentUsage (tok_ok db) (ses_ok db) now (cr_Tenant req) e in
        (set_enforcer e m, Ok (RCheck (check_response (ActiveAgents usage) (MaxConcurrentAgents cfg)
           (if decide (MaxConcurrentAgents cfg > 0 /\ ActiveAgents usage >= MaxConcurrentAgents cfg)%Z then
              Some {| q_Tenant := cr_Tenant req; q_Kind := KindConcurrency;
                      q_Limit := MaxConcurrentAgents cfg; q_Current := ActiveAgents usage; q_ResetAt := 0 |}
            else None))))
      else if decide (cr_Kind req = KindSessions) then
        let usage := CurrentUsage (tok_ok db) (ses_ok db) now (cr_Tenant req) e in
        (set_enforcer e m, Ok (RCheck (check_response (SessionsToday usage) (MaxSessionsPerDay cfg)
           (if decide (MaxSessionsPerDay cfg > 0 /\ SessionsToday usage >= MaxSessionsPerDay cfg)%Z then
              Some {| q_Tenant := cr_Tenant req; q_Kind := KindSessions;
                      q_Limit := MaxSessionsPerDay cfg; q_Current := SessionsToday usage;
                      q_ResetAt := endOfUTCDay now |}
            else None))))
      else (set_enforcer e m, Err ("quota.check: unknown kind " +:+ quote (cr_Kind req)))
  | _ => (m, Err (wrong_payload "quota.check" "CheckRequest" p))
  end.

(* [modules/quota/module.go:Module.handleRecord] *)
Definition handleRecord (db : Db) (now : time) (p : Payload) (m : Module) : Module * Result Response :=
  match p with
  | PRecord req =>
      let e := if decide (rr_Kind req = KindTokens) then
                 RecordTokens (tok_ok db) now (rr_Tenant req) (rr_Amount req) (m_enforcer m)
               else if decide (rr_Kind req = KindSessions) then
                 (RecordSession (cfg_ok db) (ses_ok db) now (rr_Tenant req) (m_enforcer m)).1
               else m_enforcer m in
      (set_enforcer e m, Ok (ROk true))
  | _ => (m, Err (wrong_payload "quota.record" "RecordRequest" p))
  end.

(* [modules/quota/module.go:Module.handleConfigSet] *)
Definition handleConfigSet (db : Db) (p : Payload) (m : Module) : Module * Result Response :=
  match p with
  | PConfig cfg =>
      let '(e, err) := SetConfig (cfg_ok db) cfg (m_enforcer m) in
      (set_enforcer e m, match err with Some er => Err er | None => Ok (RConfig cfg) end)
  | _ => (m, Err (wrong_payload "quota.config.set" "QuotaConfig" p))
  end.

(* [modules/quota/module.go:Module.handleConfigGet] *)
Definition handleConfigGet (db : Db) (p : Payload) (m : Module) : Module * Result Response :=
  match p with
  | PString tenant =>
      let '(e, cfg) := GetConfig (cfg_ok db) tenant (m_enforcer m) in
      (set_enforcer e m, Ok (RConfig cfg))
  | _ => (m, Err (wrong_payload "quota.config.get" "tenant string" p))
  end.

(* [modules/quota/module.go:Module.handleSlotAcquire] *)
Definition handleSlotAcquire (db : Db) (now : time) (p : Payload) (m : Module) : Module * Result Response :=
  match p with
  | PString tenant =>
      match AcquireAgentSlot (cfg_ok db) now tenant (m_enforcer m) with
      | (e, inl qe) => (set_enforcer e m, Ok (RSlot {| s_Allowed := false; s_SlotID := ""; s_Reason := Error qe |}))
      | (e, inr k) =>
          let n := (m_slotCounter m + 1)%Z in
          let slotID := tenant +:+ "-" +:+ itoa n in
          ({| m_enforcer := e; m_slotCounter := n; m_slots := <[slotID := k]> (m_slots m) |},
           Ok (RSlot {| s_Allowed := true; s_SlotID := slotID; s_Reason := "" |}))
      end
  | _ => (m, Err (wrong_payload "quota.slot.acquire" "tenant string" p))
  end.

(* [modules/quota/module.go:Module.handleSlotRelease] *)
Definition handleSlotRelease (p : Payload) (m : Module) : Module * Result Response :=
  match p with
  | PString slotID =>
      match m_slots m !! slotID with
      | Some k => ({| m_enforcer := callRelease k (m_enforcer m); m_slotCounter := m_slotCounter m;
                      m_slots := delete slotID (m_slots m) |}, Ok (ROk true))
      | None => (m, Ok (ROk false))
      end
  | _ => (m, Err (wrong_payload "quota.slot.release" "slotID string" p))
  end.

(* [modules/quota/module.go:Module.handleSessionStart] *)
Definition handleSessionStart (db : Db) (now : time) (p : Payload) (m : Module) : Module * Result Response :=
  match p with
  | PString tenant =>
      let '(e, cfg) := GetConfig (cfg_ok db) tenant (m_enforcer m) in
      let '(e, err) := RecordSession (rate_cfg_ok db) (ses_ok db) now tenant e in
      (set_enforcer e m, Ok (RCheck (check_response 0 (MaxSessionsPerDay cfg) err)))
  | _ => (m, Err (wrong_payload "quota.session.start" "tenant string" p))
  end.

(* [modules/quota/module.go:Module.handleUsage] *)
Definition handleUsage (db : Db) (now : time) (p : Payload) (m : Module) : Module * Result Response :=
  match p with
  | PString tenant => (m, Ok (RUsage (CurrentUsage (tok_ok db) (ses_ok db) now tenant (m_enforcer m))))
  | _ => (m, Err (wrong_payload "quota.usage" "tenant string" p))
  end.

(** A request to the module, and its handler. *)
Inductive Topic :=
  | TopicCheck | TopicRecord | TopicConfigSet | TopicConfigGet | TopicUsage
  | TopicSlotAcquire | TopicSlotRelease | TopicSessionStart.

(* [modules/quota/module.go:Module.Start] *)
Definition handle (t : Topic) (db : Db) (now : time) (p : Payload) (m : Module) : Module * Result Response :=
  match t with
  | TopicCheck => handleCheck db now p m
  | TopicRecord => handleRecord db now p m
  | TopicConfigSet => handleConfigSet db p m
  | TopicConfigGet => handleConfigGet db p m
  | TopicUsage => handleUsage db now p m
  | TopicSlotAcquire => handleSlotAcquire db now p m
  | TopicSlotRelease => handleSlotRelease p m
  | TopicSessionStart => handleSessionStart db now p m
  end.

Record Call := { c_topic : Topic; c_db : Db; c_now : time; c_payload : Payload }.
Definition call (m : Module) (c : Call) : Module := (handle (c_topic c) (c_db c) (c_now c) (c_payload c) m).1.
Definition calls (m : Module) (cs : list Call) : Module := foldl call m cs.

(** ** The token bucket conforms to its rate *)

(** Requests at the given times, and how many were admitted. *)
Fixpoint admitted (ts : list time) (b : rateBucket) : Z :=
  match ts with
  | [] => 0%Z
  | t :: ts' => let '(b', (ok, _)) := allow t b in ((if ok : bool then 1 else 0) + admitted ts' b')%Z
  end.

Lemma wrap64_le z : (0 <= z)%Z -> (wrap64 z <= z)%Z.
Proof. intros Hz. unfold wrap64. pose proof (Z.mod_le (z + 2 ^ 63) (2 ^ 64)). lia. Qed.

(** Tokens in hand against the rate since [t0]. *)
Definition within (t0 : time) (cap n : Z) (b : rateBucket) : Prop :=
  b_capacity b = cap /\ (t0 <= b_lastRefill b)%Z /\ (minInt64 <= b_tokens b)%Z /\
  (n + Z.max 0 (b_tokens b) <= cap + (b_lastRefill b - t0) * cap / Minute)%Z.

Lemma refill_within t0 cap n now b : (0 < cap)%Z -> (b_lastRefill b <= now)%Z ->
  within t0 cap n b -> within t0 cap n (refill now b).
Proof.
  intros Hcap Hnow (Hc & Ht & Hmin & Hn). unfold refill. dec as [He|]; [|done]. dec as [Hr|]; [|done].
  rewrite Hc in *. split; [done|]. simpl. split; [lia|].
  split. { pose proof (wrap64_range (b_tokens b + Z.quot (wrap64 (Sub now (b_lastRefill b) * cap)) Minute)) as [? ?].
    case_decide; unfold minInt64 in *; lia. }
  set (el := Sub now (b_lastRefill b)) in *.
  assert (Hel : (0 < el <= now - b_lastRefill b)%Z).
  { split; [lia|]. subst el. unfold Sub, minInt64, maxInt64. lia. }
  assert (Hq : (Z.quot (wrap64 (el * cap)) Minute <= (now - b_lastRefill b) * cap / Minute)%Z).
  { pose proof (wrap64_le (el * cap)) as Hw. assert (0 < wrap64 (el * cap))%Z.
    { destruct (Z.le_gt_cases (wrap64 (el * cap)) 0) as [Hneg|]; [|lia].
      assert (Z.quot (wrap64 (el * cap)) Minute <= 0)%Z; [|lia].
      rewrite <- (Z.opp_involutive (wrap64 _)), Z.quot_opp_l by done.
      pose proof (Z.quot_pos (- wrap64 (el * cap)) Minute). unfold Minute in *. lia. }
    rewrite Z.quot_div_nonneg by (unfold Minute; lia). apply Z.div_le_mono; [done|]. nia. }
  assert (Hsum : ((b_lastRefill b - t0) * cap / Minute + (now - b_lastRefill b) * cap / Minute
      <= (now - t0) * cap / Minute)%Z).
  { apply Z.div_le_lower_bound; [done|].
    pose proof (Z.mul_div_le ((b_lastRefill b - t0) * cap) Minute ltac:(done)).
    pose proof (Z.mul_div_le ((now - b_lastRefill b) * cap) Minute ltac:(done)). nia. }
  assert (Htok : (Z.max 0 (wrap64 (b_tokens b + Z.quot (wrap64 (el * cap)) Minute)) <=
     Z.max 0 (b_tokens b) + Z.quot (wrap64 (el * cap)) Minute)%Z).
  { destruct (Z.le_gt_cases 0 (b_tokens b + Z.quot (wrap64 (el * cap)) Minute)) as [Hp|Hneg].
    - pose proof (wrap64_le _ Hp). lia.
    - rewrite wrap64_id; [lia|]. unfold in_int64, maxInt64, minInt64 in *. lia. }
  case_decide; lia.
Qed.

Lemma allow_within t0 cap n now b : (0 < cap)%Z -> (b_lastRefill b <= now)%Z -> within t0 cap n b ->
  let r := allow now b in
  within t0 cap (n + if r.2.1 then 1 else 0) r.1 /\ (b_lastRefill r.1 <= now)%Z.
Proof.
  intros Hcap Hnow Hw. unfold allow. rewrite decide_False by (destruct Hw; lia).
  pose proof (refill_within t0 cap n now b Hcap Hnow Hw) as (Hc & Ht & Hmin & Hn).
  assert (Hl : (b_lastRefill (refill now b) <= now)%Z).
  { unfold refill. case_decide; [|done]. by case_decide. }
  dec as [Htok|Htok]; simpl; (split; [|done]); repeat split; simpl; try done; try lia.
  unfold minInt64 in *. lia.
Qed.

Lemma admitted_within t0 tn cap ts : forall n b last,
  (0 < cap)%Z -> within t0 cap n b -> (b_lastRefill b <= last <= tn)%Z ->
  StronglySorted Z.le (last :: ts) -> Forall (fun t => t <= tn)%Z ts ->
  (n + admitted ts b <= cap + (tn - t0) * cap / Minute)%Z.
Proof.
  induction ts as [|t ts IH]; intros n b last Hcap Hw Hl Hs Htn; simpl admitted.
  - destruct Hw as (Hc & Ht & _ & Hn).
    pose proof (Z.div_le_mono ((b_lastRefill b - t0) * cap) ((tn - t0) * cap) Minute ltac:(done) ltac:(nia)). lia.
  - apply StronglySorted_inv in Hs as [Hs Hall]. apply Forall_cons in Hall as [Hlt _].
    apply Forall_cons in Htn as [Ht Htn].
    destruct (allow_within t0 cap n t b Hcap ltac:(lia) Hw) as [Hw' Hl'].
    destruct (allow t b) as [b' [ok nx]]. simpl in *.
    specialize (IH _ b' t Hcap Hw' ltac:(lia) Hs Htn). lia.
Qed.

(** A burst at the instant the bucket was filled. *)
Lemma admitted_burst t cap n : forall k, (0 <= k <= cap)%Z -> (0 < cap)%Z ->
  admitted (replicate n t) {| b_tokens := k; b_capacity := cap; b_lastRefill := t |} =
  Z.min (Z.of_nat n) k.
Proof.
  induction n as [|n IH]; intros k Hk Hcap; [simpl; lia|].
  simpl replicate. unfold admitted; fold admitted. unfold allow, refill. simpl.
  rewrite decide_False by lia. rewrite (decide_False (P := (Sub t t > 0)%Z)) by (unfold Sub, minInt64, maxInt64; lia).
  simpl. dec as [Hp|Hp]; rewrite IH by lia; lia.
Qed.

(** ** Slots are counted *)

Definition live (l : nat) (cbs : list (option nat * bool)) : Z :=
  Z.of_nat (length (filter (fun c => c = (Some l, false)) cbs)).

Record slots_inv (e : Enforcer) : Prop := {
  si_live : forall l a, heap e !! l = Some a -> a_inUse a = live l (callbacks e);
  si_cap : forall l a, heap e !! l = Some a -> (0 < a_cap a /\ a_inUse a <= a_cap a)%Z;
  si_config : forall t l, slots e !! t = Some l -> exists cfg a, configs e !! t = Some cfg /\
    heap e !! l = Some a /\ a_cap a = MaxConcurrentAgents cfg;
  si_callbacks : forall l b, (Some l, b) ∈ callbacks e -> l < length (heap e);
}.

Lemma live_app l cbs c : live l (cbs ++ [c]) = (live l cbs + if decide (c = (Some l, false)) then 1 else 0)%Z.
Proof. unfold live. rewrite filter_app, length_app, filter_cons, filter_nil. case_decide; simpl; lia. Qed.

Lemma live_insert l k l' cbs : cbs !! k = Some (Some l', false) ->
  live l (<[k := (Some l', true)]> cbs) = (live l cbs - if decide (l = l') then 1 else 0)%Z.
Proof.
  intros Hk. unfold live.
  assert (Hlt : k < length cbs) by (by apply lookup_lt_Some in Hk).
  rewrite insert_take_drop by done. rewrite <- (take_drop_middle cbs k _ Hk) at 3.
  rewrite !filter_app, !filter_cons, !length_app.
  rewrite decide_False by (intros [=]). destruct (decide (l = l')) as [->|Hne].
  - rewrite decide_True by done. simpl. lia.
  - rewrite decide_False by (intros [=]; done). lia.
Qed.

Lemma live_none l cbs : (forall b, (Some l, b) ∉ cbs) -> live l cbs = 0%Z.
Proof. intros H. unfold live. enough (filter (fun c => c = (Some l, false)) cbs = []) as -> by done.
  apply list_filter_none. intros c Hc ->. by apply H in Hc. Qed.

Lemma GetConfig_frame ok t e e' cfg : GetConfig ok t e = (e', cfg) ->
  store e' = store e /\ buckets e' = buckets e /\ slots e' = slots e /\ heap e' = heap e /\
  callbacks e' = callbacks e /\ (forall t' c, configs e !! t' = Some c -> configs e' !! t' = Some c) /\
  (forall c, configs e !! t = Some c -> cfg = c /\ e' = e) /\ (configs e' !! t = Some cfg \/ e' = e /\ cfg = unlimited t).
Proof.
  unfold GetConfig. destruct (configs e !! t) as [c|] eqn:E.
  { intros [= <- <-]. split_and!; try done; [naive_solver|by left]. }
  destruct (store e) as [s|] eqn:Es; [|intros [= <- <-]; split_and!; try done; by right].
  destruct (Store_GetConfig ok t s) as [[p|]|]; intros [= <- <-]; simpl; split_and!; try done; try (by right).
  - intros t' c Hc. destruct (decide (t' = t)) as [->|]; [congruence|]. by rewrite lookup_insert_ne.
  - left. by rewrite lookup_insert_eq.
Qed.

Lemma slots_inv_frame e e' : slots e' = slots e -> heap e' = heap e -> callbacks e' = callbacks e ->
  (forall t c, configs e !! t = Some c -> configs e' !! t = Some c) -> slots_inv e -> slots_inv e'.
Proof.
  intros Hs Hh Hc Hcf [H1 H2 H3 H4]. split; rewrite ?Hs, ?Hh, ?Hc; try done.
  intros t l Hl. destruct (H3 t l Hl) as (cfg & a & Ha & Hb & Hcap). exists cfg, a. auto.
Qed.

Lemma GetConfig_slots ok t e : slots_inv e -> slots_inv (GetConfig ok t e).1.
Proof.
  intros H. destruct (GetConfig ok t e) as [e' cfg] eqn:E.
  apply GetConfig_frame in E as (_ & _ & Hs & Hh & Hc & Hcf & _). by eapply slots_inv_frame.
Qed.

Lemma alter_same {A} (f : A -> A) i (l : list A) x : l !! i = Some x -> f x = x -> alter f i l = l.
Proof.
  intros Hi Hf. apply list_eq. intros j. destruct (decide (j = i)) as [->|Hne].
  - by rewrite list_lookup_alter_eq, Hi; simpl; rewrite Hf.
  - by rewrite list_lookup_alter_ne.
Qed.

Lemma alter_last {A} (f : A -> A) (l : list A) x : alter f (length l) (l ++ [x]) = l ++ [f x].
Proof. induction l as [|y l IH]; [done|]. simpl. f_equal. apply IH. Qed.

Lemma slot_object_inv t cfg e l e' : slots_inv e -> configs e !! t = Some cfg ->
  (0 < MaxConcurrentAgents cfg)%Z -> slot_object t (MaxConcurrentAgents cfg) e = (l, e') ->
  slots_inv e' /\ configs e' = configs e /\ callbacks e' = callbacks e /\ slots e' !! t = Some l /\
  store e' = store e /\
  exists a, heap e' !! l = Some a /\ a_cap a = MaxConcurrentAgents cfg.
Proof.
  intros Hinv Hcfg Hpos. unfold slot_object. destruct (slots e !! t) as [l0|] eqn:Es.
  - destruct (si_config _ Hinv t l0 Es) as (cfg' & a & Hcfg' & Ha & Hcap).
    assert (cfg' = cfg) as -> by congruence. intros [= <- <-].
    rewrite (alter_same _ _ _ a) by (first [done|destruct a; simpl in *; congruence]).
    destruct e; simpl in *. split_and!; try done. eauto.
  - intros [= <- <-]. simpl. rewrite alter_last. simpl. destruct Hinv as [H1 H2 H3 H4].
    split_and!; try done; [|by rewrite lookup_insert_eq|].
    2:{ exists {| a_cap := MaxConcurrentAgents cfg; a_inUse := 0 |}. split; [|done].
        by apply list_lookup_middle. }
    assert (Hcase : forall l a, (heap e ++ [{| a_cap := MaxConcurrentAgents cfg; a_inUse := 0 |}]) !! l = Some a ->
      heap e !! l = Some a \/ l = length (heap e) /\ a = {| a_cap := MaxConcurrentAgents cfg; a_inUse := 0 |}).
    { intros l a. rewrite lookup_app_Some, list_lookup_singleton_Some. intros [?|(? & ? & <-)]; [by left|right]. split; [lia|done]. }
    split; simpl.
    + intros l a [Hl|[-> ->]]%Hcase; [by apply H1|]. simpl. symmetry. apply live_none.
      intros b Hb%H4. lia.
    + intros l a [Hl|[-> ->]]%Hcase; [by eapply H2|]. simpl. lia.
    + intros t' l. rewrite lookup_insert_Some. intros [[<- <-]|[_ Hl]].
      * exists cfg, {| a_cap := MaxConcurrentAgents cfg; a_inUse := 0 |}.
        split_and!; try done. by apply list_lookup_middle.
      * destruct (H3 t' l Hl) as (c & a & Hc & Ha & Hcap). exists c, a. split_and!; try done.
        by apply lookup_app_l_Some.
    + intros l b Hb. rewrite length_app. apply H4 in Hb. simpl. lia.
Qed.

Lemma acquire_spec a : (0 < a_cap a)%Z ->
  acquire a = if decide (a_inUse a < a_cap a)%Z then ({| a_cap := a_cap a; a_inUse := a_inUse a + 1 |}, true)
              else (a, false).
Proof. intros H. unfold acquire. rewrite decide_False by lia. repeat case_decide; try lia; done. Qed.

(** The whole of [AcquireAgentSlot] under the invariant. *)
Lemma AcquireAgentSlot_inv ok now t e e' r : slots_inv e -> AcquireAgentSlot ok now t e = (e', r) ->
  slots_inv e' /\ store e' = store e /\
  (forall l cfg, slots e !! t = Some l -> configs e !! t = Some cfg ->
     ((live l (callbacks e) < MaxConcurrentAgents cfg)%Z <-> exists k, r = inr k)).
Proof.
  intros Hinv. unfold AcquireAgentSlot. destruct (GetConfig ok t e) as [e1 cfg] eqn:Eg.
  pose proof (GetConfig_slots ok t e Hinv) as Hinv1. rewrite Eg in Hinv1. simpl in Hinv1.
  apply GetConfig_frame in Eg as (Hst & _ & Hs & Hh & Hcb & Hcf & Hsame & Hor).
  assert (Hcfg : forall l, slots e !! t = Some l -> configs e !! t = Some cfg /\ (0 < MaxConcurrentAgents cfg)%Z).
  { intros l Hl. destruct (si_config _ Hinv t l Hl) as (c & a & Hc & Ha & Hcap).
    destruct (Hsame c Hc) as [-> _]. pose proof (si_cap _ Hinv l a Ha). split; [done|lia]. }
  dec as [Hmax|Hmax].
  - intros [= <- <-]. simpl. split_and!; [|done|].
    + destruct Hinv1 as [H1 H2 H3 H4]. split; simpl; try done.
      * intros l a Ha. rewrite live_app, decide_False by done. rewrite Z.add_0_r. by apply H1.
      * intros l b. rewrite elem_of_app, list_elem_of_singleton. intros [?|?]; [by eapply H4|done].
    + intros l cfg' Hl. apply Hcfg in Hl as [_ ?]. lia.
  - assert (Hc1 : configs e1 !! t = Some cfg) by (destruct Hor as [?|[_ ->]]; [done|simpl in Hmax; lia]).
    destruct (slot_object t (MaxConcurrentAgents cfg) e1) as [l e2] eqn:Eo.
    destruct (slot_object_inv t cfg e1 l e2 Hinv1 Hc1 ltac:(lia) Eo)
      as (Hinv2 & Hc2 & Hcb2 & Hs2 & Hst2 & a & Ha & Hcap).
    rewrite Ha, acquire_spec by lia. pose proof (si_live _ Hinv2 l a Ha) as Hlive.
    assert (Hlive' : forall l0 cfg', slots e !! t = Some l0 -> configs e !! t = Some cfg' ->
      live l0 (callbacks e) = a_inUse a /\ MaxConcurrentAgents cfg' = a_cap a).
    { intros l0 cfg' Hl0 Hcfg'. rewrite Hcap, Hlive, Hcb2, Hcb.
      destruct (Hcfg l0 Hl0) as [Hx _]. rewrite Hcfg' in Hx. injection Hx as ->. split; [|done].
      unfold slot_object in Eo. rewrite Hs, Hl0 in Eo. by injection Eo as <- _. }
    destruct (decide (a_inUse a < a_cap a)%Z) as [Hlt|Hlt]; intros [= <- <-]; simpl; (split_and!; [|congruence|]).
    + destruct Hinv2 as [H1 H2 H3 H4]. split; simpl.
      * intros l' a'. rewrite live_app. rewrite list_lookup_insert_Some. intros [(-> & <- & _)|[Hne Hl']].
        -- simpl. rewrite decide_True by done. rewrite Hlive. lia.
        -- rewrite decide_False by (intros [=]; done). rewrite Z.add_0_r. by apply H1.
      * intros l' a'. rewrite list_lookup_insert_Some. intros [(-> & <- & _)|[Hne Hl']]; [simpl; lia|by eapply H2].
      * intros t' l'. intros (c & x & Hc & Hx & Hcx)%H3. exists c.
        destruct (decide (l' = l)) as [->|Hne].
        -- eexists. rewrite list_lookup_insert_eq by (by apply lookup_lt_Some in Ha).
           split_and!; try done. simpl. congruence.
        -- exists x. by rewrite list_lookup_insert_ne.
      * intros l' b. rewrite length_insert, elem_of_app, list_elem_of_singleton.
        intros [?|[= -> _]]; [by eapply H4|by apply lookup_lt_Some in Ha].
    + intros l0 cfg' Hl0 Hcfg'. destruct (Hlive' _ _ Hl0 Hcfg') as [-> ->]. split; [eauto|done].
    + done.
    + intros l0 cfg' Hl0 Hcfg'. destruct (Hlive' _ _ Hl0 Hcfg') as [-> ->]. split; [done|by intros [? [=]]].
Qed.

Lemma callRelease_inv k e : slots_inv e -> slots_inv (callRelease k e).
Proof.
  intros Hinv. unfold callRelease. destruct (callbacks e !! k) as [[[l|] []]|] eqn:Ek; try done.
  destruct Hinv as [H1 H2 H3 H4].
  assert (Hl : exists a, heap e !! l = Some a).
  { apply lookup_lt_is_Some. eapply H4. by eapply list_elem_of_lookup_2. }
  destruct Hl as [a Ha].
  assert (Hin : (0 < a_inUse a)%Z).
  { rewrite (H1 l a Ha). unfold live.
    rewrite <- (take_drop_middle _ _ _ Ek), filter_app, filter_cons_True, length_app by done. simpl. lia. }
  split; simpl.
  - intros l' a'. rewrite (live_insert l' k l) by done. destruct (decide (l' = l)) as [->|Hne].
    + rewrite list_lookup_alter_eq, Ha. intros [= <-]. unfold release. rewrite decide_True by lia. simpl.
      rewrite (H1 l a Ha). lia.
    + rewrite list_lookup_alter_ne by done. intros Ha'. rewrite (H1 _ _ Ha'). lia.
  - intros l' a'. destruct (decide (l' = l)) as [->|Hne].
    + rewrite list_lookup_alter_eq, Ha. intros [= <-]. pose proof (H2 l a Ha).
      unfold release. rewrite decide_True by lia. simpl. lia.
    + rewrite list_lookup_alter_ne by done. apply H2.
  - intros t l' (c & x & Hc & Hx & Hcx)%H3. exists c. destruct (decide (l' = l)) as [->|Hne].
    + exists (release x). rewrite list_lookup_alter_eq, Hx. split_and!; try done.
      unfold release. by case_decide.
    + exists x. by rewrite list_lookup_alter_ne.
  - intros l' b Hb. rewrite length_alter. apply list_elem_of_lookup in Hb as [i Hi].
    apply list_lookup_insert_Some in Hi as [(-> & [= -> _] & _)|[_ Hi]].
    + by apply lookup_lt_Some in Ha.
    + eapply H4. by eapply list_elem_of_lookup_2.
Qed.

Lemma SetConfig_inv ok cfg e : slots_inv e -> slots_inv (SetConfig ok cfg e).1.
Proof.
  intros [H1 H2 H3 H4].
  assert (Hi : slots_inv {| store := store e; configs := <[Tenant cfg := cfg]> (configs e);
      buckets := delete (Tenant cfg) (buckets e); slots := delete (Tenant cfg) (slots e);
      heap := heap e; callbacks := callbacks e |}).
  { split; simpl; try done. intros t l. rewrite lookup_delete_Some. intros [Hne Hl].
    destruct (H3 t l Hl) as (c & a & Hc & Ha & Hcap). exists c, a. by rewrite lookup_insert_ne. }
  unfold SetConfig. destruct (store e) as [s|]; [|done].
  destruct (Store_SetConfig ok cfg s); simpl; [|done]. by destruct Hi as [I1 I2 I3 I4]; split.
Qed.

(** ** What the calls record *)

Definition bill (e : Enforcer) (t d : string) : option (Z * Z) := (fun s => counter s t d) <$> store e.

(** Tokens and sessions a call charges to tenant [t] on day [d]. *)
Definition charged (t d : string) (c : Call) : Z * Z :=
  match c_topic c, c_payload c with
  | TopicRecord, PRecord r =>
      if decide (rr_Tenant r = t /\ dayKey (c_now c) = d) then
        if decide (rr_Kind r = KindTokens) then
          (if decide (0 < rr_Amount r /\ tok_ok (c_db c) = true)%Z then rr_Amount r else 0, 0)%Z
        else if decide (rr_Kind r = KindSessions) then (0, if ses_ok (c_db c) then 1 else 0)%Z
        else (0, 0)%Z
      else (0, 0)%Z
  | TopicSessionStart, PString t' =>
      if decide (t' = t /\ dayKey (c_now c) = d) then (0, if ses_ok (c_db c) then 1 else 0)%Z else (0, 0)%Z
  | _, _ => (0, 0)%Z
  end.

Definition plus (x y : Z * Z) : Z * Z := (x.1 + y.1, x.2 + y.2)%Z.
Definition charges (t d : string) (cs : list Call) : Z * Z :=
  foldl (fun acc c => plus acc (charged t d c)) (0, 0)%Z cs.

Lemma plus_0_r x : plus x (0, 0)%Z = x.
Proof. destruct x. unfold plus. simpl. by rewrite !Z.add_0_r. Qed.

Lemma bill_store e e' : store e' = store e -> forall t d, bill e' t d = bill e t d.
Proof. unfold bill. by intros ->. Qed.

Lemma counter_insert s t d x t' d' :
  counter {| configs_ := configs_ s; counters := <[(t, d) := x]> (counters s) |} t' d' =
  if decide (t = t' /\ d = d') then x else counter s t' d'.
Proof.
  unfold counter; simpl. dec as [[-> ->]|Hne]; [by rewrite lookup_insert_eq|].
  rewrite lookup_insert_ne; [done|]. intros [= -> ->]. by apply Hne.
Qed.

Lemma RecordTokens_bill ok now t n e t' d : store e <> None ->
  bill (RecordTokens ok now t n e) t' d =
  (fun x => plus x (if decide (t = t' /\ dayKey now = d) then
     (if decide (0 < n /\ ok = true)%Z then n else 0, 0)%Z else (0, 0)%Z)) <$> bill e t' d.
Proof.
  intros Hst. unfold RecordTokens, bill. destruct (store e) as [s|] eqn:Es; [|done]. simpl.
  dec as [Hn|Hn].
  - rewrite (decide_False (P := (0 < n /\ ok = true)%Z)) by lia. rewrite Es. simpl. f_equal.
    by case_decide; rewrite plus_0_r.
  - unfold AddTokens. destruct ok; simpl; f_equal.
    + rewrite counter_insert. rewrite (decide_True (P := (0 < n /\ true = true)%Z)) by (split; [lia|done]).
      dec as [[-> ->]|]; [|by rewrite plus_0_r]. unfold plus; simpl. by rewrite Z.add_0_r.
    + rewrite (decide_False (P := (0 < n /\ false = true)%Z)) by (by intros []). by case_decide; rewrite plus_0_r.
Qed.

Lemma RecordSession_bill c ok now t e t' d : store e <> None ->
  bill (RecordSession c ok now t e).1 t' d =
  (fun x => plus x (if decide (t = t' /\ dayKey now = d) then (0, if ok : bool then 1 else 0)%Z else (0, 0)%Z))
    <$> bill e t' d.
Proof.
  intros Hst. unfold RecordSession, bill. destruct (GetConfig c t e) as [e1 cfg] eqn:Eg.
  apply GetConfig_frame in Eg as (Hs & _). rewrite Hs. destruct (store e) as [s|]; [|done]. simpl.
  unfold IncrementSessions. destruct ok; simpl; f_equal.
  - rewrite counter_insert. dec as [[-> ->]|]; [|by rewrite plus_0_r]. unfold plus; simpl. by rewrite Z.add_0_r.
  - by case_decide; rewrite plus_0_r.
Qed.

Lemma RecordSession_slots c ok now t e : slots_inv e -> slots_inv (RecordSession c ok now t e).1.
Proof.
  intros H. unfold RecordSession. pose proof (GetConfig_slots c t e H) as H1.
  destruct (GetConfig c t e) as [e1 cfg]. simpl in H1. destruct (store e1) as [s|]; [|done].
  destruct (IncrementSessions ok t now s) as [s' r]. simpl. by apply (slots_inv_frame e1).
Qed.

Lemma CheckTokens_state c r now t n e : (CheckTokens c r now t n e).1 = (GetConfig c t e).1.
Proof. unfold CheckTokens. by destruct (GetConfig c t e). Qed.

Lemma CheckRate_slots c now t e : slots_inv e ->
  slots_inv (CheckRate c now t e).1 /\ store (CheckRate c now t e).1 = store e.
Proof.
  intros H. unfold CheckRate. pose proof (GetConfig_slots c t e H) as H1.
  destruct (GetConfig c t e) as [e1 cfg] eqn:Eg. apply GetConfig_frame in Eg as (Hs & _). simpl in H1.
  case_decide; [done|]. destruct (allow now _) as [b' [ok nx]]. simpl.
  split; [by apply (slots_inv_frame e1)|done].
Qed.

Lemma GetConfig_store ok t e : store (GetConfig ok t e).1 = store e.
Proof. destruct (GetConfig ok t e) as [e' c] eqn:E. apply GetConfig_frame in E as (Hs & _). exact Hs. Qed.

(** From [e] to [e'] the slots stay counted and [x] is charged to [t] on [d]. *)
Definition effect (t d : string) (e : Enforcer) (x : Z * Z) (e' : Enforcer) : Prop :=
  slots_inv e' /\ bill e' t d = (fun y => plus y x) <$> bill e t d.

Lemma effect_none t d e e' : slots_inv e' -> store e' = store e -> effect t d e (0, 0)%Z e'.
Proof.
  intros Hi Hs. split; [done|]. rewrite (bill_store e e' Hs). destruct (bill e t d); simpl; [|done].
  by rewrite plus_0_r.
Qed.
#[local] Hint Resolve effect_none : core.

Lemma handleCheck_effect t d db now p m : slots_inv (m_enforcer m) ->
  effect t d (m_enforcer m) (0, 0)%Z (m_enforcer (handleCheck db now p m).1).
Proof.
  intros Hinv. unfold handleCheck. destruct p as [r| | | |]; simpl; auto.
  pose proof (GetConfig_slots (cfg_ok db) (cr_Tenant r) _ Hinv) as Hi.
  pose proof (GetConfig_store (cfg_ok db) (cr_Tenant r) (m_enforcer m)) as Hs.
  destruct (GetConfig (cfg_ok db) (cr_Tenant r) (m_enforcer m)) as [e1 cfg]. simpl in *.
  dec as [|_].
  { pose proof (CheckTokens_state (rate_cfg_ok db) (tok_ok db) now (cr_Tenant r) (cr_Amount r) e1) as Ht.
    destruct (CheckTokens _ _ _ _ _ e1) as [e2 err]. simpl in *. subst e2.
    apply effect_none; [by apply GetConfig_slots|]. by rewrite GetConfig_store. }
  dec as [|_].
  { destruct (CheckRate_slots (rate_cfg_ok db) now (cr_Tenant r) e1 Hi) as [H1 H2].
    destruct (CheckRate _ _ _ e1) as [e2 err]. simpl in *. apply effect_none; congruence. }
  repeat case_decide; simpl; auto.
Qed.

Lemma handleRecord_effect t d db now p m : slots_inv (m_enforcer m) -> store (m_enforcer m) <> None ->
  effect t d (m_enforcer m) (charged t d {| c_topic := TopicRecord; c_db := db; c_now := now; c_payload := p |})
    (m_enforcer (handleRecord db now p m).1).
Proof.
  intros Hinv Hst. unfold handleRecord, charged. destruct p as [|r| | |]; simpl; auto.
  destruct (decide (rr_Kind r = KindTokens)) as [Hk|Hk]; simpl.
  { split; [|by rewrite RecordTokens_bill].
    unfold RecordTokens. destruct (store (m_enforcer m)); [|done]. case_decide; [done|].
    by apply (slots_inv_frame (m_enforcer m)). }
  destruct (decide (rr_Kind r = KindSessions)) as [Hk'|Hk']; simpl.
  { split; [by apply RecordSession_slots|by rewrite RecordSession_bill]. }
  destruct (decide (rr_Tenant r = t /\ dayKey now = d)); auto.
Qed.

Lemma handleConfigSet_effect t d db p m : slots_inv (m_enforcer m) ->
  effect t d (m_enforcer m) (0, 0)%Z (m_enforcer (handleConfigSet db p m).1).
Proof.
  intros Hinv. unfold handleConfigSet. destruct p as [| |cfg| |]; simpl; auto.
  pose proof (SetConfig_inv (cfg_ok db) cfg _ Hinv) as Hi. unfold SetConfig in *.
  destruct (store (m_enforcer m)) as [s|] eqn:Es; [|simpl in *; auto]. unfold Store_SetConfig in *.
  case_decide; [by simpl in *; auto|]. destruct (cfg_ok db); simpl in *; [|by auto].
  split; [done|]. unfold bill. rewrite Es. simpl. by rewrite plus_0_r.
Qed.

Lemma handleSlot_effect t d db now p m : slots_inv (m_enforcer m) ->
  effect t d (m_enforcer m) (0, 0)%Z (m_enforcer (handleSlotAcquire db now p m).1) /\
  effect t d (m_enforcer m) (0, 0)%Z (m_enforcer (handleSlotRelease p m).1).
Proof.
  intros Hinv. split.
  - unfold handleSlotAcquire. destruct p as [| | |t'|]; simpl; auto.
    destruct (AcquireAgentSlot (cfg_ok db) now t' (m_enforcer m)) as [e' r] eqn:E.
    apply AcquireAgentSlot_inv in E as (H1 & H2 & _); [|done]. destruct r; simpl; auto.
  - unfold handleSlotRelease. destruct p as [| | |id|]; simpl; auto.
    destruct (m_slots m !! id) as [k|]; simpl; auto. apply effect_none; [by apply callRelease_inv|].
    unfold callRelease. by destruct (callbacks (m_enforcer m) !! k) as [[[l|] []]|].
Qed.

Lemma handleSessionStart_effect t d db now p m : slots_inv (m_enforcer m) -> store (m_enforcer m) <> None ->
  effect t d (m_enforcer m)
    (charged t d {| c_topic := TopicSessionStart; c_db := db; c_now := now; c_payload := p |})
    (m_enforcer (handleSessionStart db now p m).1).
Proof.
  intros Hinv Hst. unfold handleSessionStart, charged. destruct p as [| | |t'|]; simpl; auto.
  pose proof (GetConfig_slots (cfg_ok db) t' _ Hinv) as Hi.
  pose proof (GetConfig_store (cfg_ok db) t' (m_enforcer m)) as Hs.
  destruct (GetConfig (cfg_ok db) t' (m_enforcer m)) as [e1 cfg]. simpl in *.
  pose proof (RecordSession_slots (rate_cfg_ok db) (ses_ok db) now t' e1 Hi) as H1.
  pose proof (RecordSession_bill (rate_cfg_ok db) (ses_ok db) now t' e1 t d ltac:(congruence)) as H2.
  destruct (RecordSession _ _ now t' e1) as [e2 err]. simpl in *. split; [done|].
  rewrite H2. by rewrite (bill_store _ _ Hs).
Qed.

(** Every call keeps the slots counted and charges what it records. *)
Lemma call_effect m c t d : slots_inv (m_enforcer m) -> store (m_enforcer m) <> None ->
  effect t d (m_enforcer m) (charged t d c) (m_enforcer (call m c)).
Proof.
  intros Hinv Hst. destruct c as [topic db now p]. unfold call. simpl.
  destruct topic; cbn [handle].
  - by apply handleCheck_effect.
  - by apply handleRecord_effect.
  - by apply handleConfigSet_effect.
  - unfold handleConfigGet. destruct p as [| | |t'|]; simpl; auto.
    pose proof (GetConfig_slots (cfg_ok db) t' _ Hinv) as Hi.
    pose proof (GetConfig_store (cfg_ok db) t' (m_enforcer m)) as Hs.
    destruct (GetConfig (cfg_ok db) t' (m_enforcer m)) as [e1 cfg]. simpl in *. by apply effect_none.
  - unfold handleUsage. destruct p; simpl; by apply effect_none.
  - by apply handleSlot_effect.
  - by apply (handleSlot_effect t d db now).
  - by apply handleSessionStart_effect.
Qed.

Lemma calls_effect cs st t d : effect t d (NewEnforcer (Some st)) (charges t d cs) (m_enforcer (calls (Init st) cs)) /\
  store (m_enforcer (calls (Init st) cs)) <> None.
Proof.
  induction cs as [|c cs IH] using rev_ind.
  - split; [|done]. apply effect_none; [|done]. split; try done. intros l b H. by apply elem_of_nil in H.
  - unfold calls, charges in *. rewrite !foldl_snoc. destruct IH as [[Hi Hb] Hst].
    destruct (call_effect _ c t d Hi Hst) as [Hi' Hb']. split; [split; [done|]|].
    + rewrite Hb', Hb. simpl. unfold plus. simpl. by rewrite !Z.add_assoc.
    + intros Hn. unfold bill in Hb'. rewrite Hn in Hb'. by destruct (store (m_enforcer (foldl call (Init st) cs))).
Qed.

(** ** Properties *)

(** The rate bucket conforms: whatever the arrival times (non-decreasing) and however the 64-bit product of the refill wraps, a bucket created full at [t0] admits at most capacity + capacity * (tn - t0) / 1 minute requests up to time [tn], and a burst at [t0] is admitted exactly up to the capacity. *)
Lemma rate_conformance cap t0 tn ts n :
  (0 < cap <= maxInt64)%Z -> (t0 <= tn)%Z -> StronglySorted Z.le (t0 :: ts) ->
  Forall (fun t => t <= tn)%Z ts ->
  let full := {| b_tokens := cap; b_capacity := cap; b_lastRefill := t0 |} in
  (admitted ts full <= cap + (tn - t0) * cap / Minute)%Z /\
  admitted (replicate n t0) full = Z.min (Z.of_nat n) cap.
Proof.
  intros Hcap Ht Hs Htn full. split; [|by apply admitted_burst; lia].
  pose proof (admitted_within t0 tn cap ts 0 full t0) as H. simpl in H. apply H; try done; try lia.
  split; [done|]. simpl. split; [lia|]. split; [unfold minInt64; lia|].
  rewrite Z.sub_diag. rewrite Z.mul_0_l, Z.div_0_l by done. lia.
Qed.

(** After any sequence of bus calls, on any stored state and whatever statements fail, a tenant's slot object counts exactly the release callbacks handed out for it and not yet called (calling one twice frees one slot), never more than the tenant's configured MaxConcurrentAgents, and the next acquisition is granted exactly when that count is below the cap. *)
Lemma slots_capped st cs tenant l :
  let e := m_enforcer (calls (Init st) cs) in
  slots e !! tenant = Some l ->
  exists cfg, configs e !! tenant = Some cfg /\
    (0 < MaxConcurrentAgents cfg)%Z /\
    (live l (callbacks e) <= MaxConcurrentAgents cfg)%Z /\
    (forall a b now, ActiveAgents (CurrentUsage a b now tenant e) = live l (callbacks e)) /\
    (forall ok now, (exists k, (AcquireAgentSlot ok now tenant e).2 = inr k) <->
                    (live l (callbacks e) < MaxConcurrentAgents cfg)%Z) /\
    (forall k, callRelease k (callRelease k e) = callRelease k e).
Proof.
  intros e Hl. destruct (calls_effect cs st tenant "") as [[Hinv _] _]. fold e in Hinv.
  destruct (si_config _ Hinv _ _ Hl) as (cfg & a & Hc & Ha & Hcap).
  pose proof (si_cap _ Hinv l a Ha) as [Hpos Hle]. pose proof (si_live _ Hinv l a Ha) as Hlive.
  exists cfg. split_and!; try done; try lia.
  - intros x y now. simpl. rewrite Hl. simpl. by rewrite Ha.
  - intros ok now. destruct (AcquireAgentSlot ok now tenant e) as [e' r] eqn:E.
    apply AcquireAgentSlot_inv in E as (_ & _ & H); [|done]. simpl. by rewrite (H l cfg Hl Hc).
  - intros k. unfold callRelease. destruct (callbacks e !! k) as [[[l'|] []]|] eqn:Ek; rewrite ?Ek; try done.
    simpl. rewrite list_lookup_insert_eq; [done|]. by apply lookup_lt_Some in Ek.
Qed.

(** Storing a tenant's quota, even an unchanged one, discards the count of its running agents: the outstanding callbacks stay outstanding, the reported number of active agents becomes 0, and releasing them later does not reach the new count, so the cap is granted again in full. *)
Lemma SetConfig_forgets_slots ok cfg e k :
  let e' := (SetConfig ok cfg e).1 in
  callbacks e' = callbacks e /\
  (forall a b now, ActiveAgents (CurrentUsage a b now (Tenant cfg) e') = 0%Z) /\
  slots (callRelease k e') !! Tenant cfg = None /\
  ((0 < MaxConcurrentAgents cfg)%Z ->
     forall ok' now, exists k', (AcquireAgentSlot ok' now (Tenant cfg) e').2 = inr k').
Proof.
  intros e'.
  assert (Hs : slots e' = delete (Tenant cfg) (slots e) /\ configs e' !! Tenant cfg = Some cfg /\
    callbacks e' = callbacks e).
  { subst e'. unfold SetConfig. destruct (store e); [destruct (Store_SetConfig ok cfg s)|];
      simpl; by rewrite lookup_insert_eq. }
  destruct Hs as (Hs & Hc & Hcb). split_and!; [done| | |].
  - intros a b now. simpl. by rewrite Hs, lookup_delete_eq.
  - unfold callRelease. destruct (callbacks e' !! k) as [[[l|] []]|]; simpl; by rewrite Hs, lookup_delete_eq.
  - intros Hpos ok' now. unfold AcquireAgentSlot, GetConfig. rewrite Hc.
    rewrite decide_False by lia. unfold slot_object. rewrite Hs, lookup_delete_eq. simpl.
    rewrite alter_last. rewrite list_lookup_middle by done. rewrite acquire_spec by (simpl; lia).
    simpl. rewrite decide_True by lia. simpl. eauto.
Qed.


(** The sum of the check wraps: a request of almost 2^63 tokens passes. *)
Lemma CheckTokens_wraps :
  (CheckTokens true true 0 "t" maxInt64
     {| store := Some {| configs_ := ∅; counters := {[("t", dayKey 0) := (5, 0)%Z]} |};
        configs := {["t" := {| Tenant := "t"; TokensPerDay := 10; RequestsPerMinute := 0;
                               MaxConcurrentAgents := 0; MaxSessionsPerDay := 0 |}]};
        buckets := ∅; slots := ∅; heap := []; callbacks := [] |}).2 = None.
Proof. vm_compute. reflexivity. Qed.

(** ** Witnesses *)

Lemma rate_conformance_witness :
  (admitted [0; 0; 0; 30000000000; 60000000000]%Z {| b_tokens := 2; b_capacity := 2; b_lastRefill := 0 |} <= 4)%Z.
Proof.
  apply (rate_conformance 2 0 60000000000 [0; 0; 0; 30000000000; 60000000000]%Z 0).
  - unfold maxInt64. lia.
  - lia.
  - repeat constructor; lia.
  - repeat constructor; lia.
Defined.

Definition demo_config : QuotaConfig :=
  {| Tenant := "t"; TokensPerDay := 100; RequestsPerMinute := 0; MaxConcurrentAgents := 2; MaxSessionsPerDay := 1 |}.
Definition all_ok : Db := {| cfg_ok := true; rate_cfg_ok := true; tok_ok := true; ses_ok := true |}.
Definition demo_calls : list Call :=
  [{| c_topic := TopicConfigSet; c_db := all_ok; c_now := 0; c_payload := PConfig demo_config |};
   {| c_topic := TopicSlotAcquire; c_db := all_ok; c_now := 0; c_payload := PString "t" |};
   {| c_topic := TopicRecord; c_db := all_ok; c_now := 0;
      c_payload := PRecord {| rr_Tenant := "t"; rr_Kind := KindTokens; rr_Amount := 60 |} |}].

Lemma slots_capped_witness :
  slots (m_enforcer (calls (Init NewStore) demo_calls)) !! "t" = Some 0 /\
  (live 0 (callbacks (m_enforcer (calls (Init NewStore) demo_calls))) <= 2)%Z.
Proof.
  split; [vm_compute; reflexivity|].
  destruct (slots_capped NewStore demo_calls "t" 0) as (cfg & Hc & _ & Hle & _).
  - vm_compute. reflexivity.
  - vm_compute in Hc. injection Hc as <-. exact Hle.
Defined.


(** Two agents run, the unchanged quota is stored again, and a third one starts. *)
Definition full_calls : list Call :=
  demo_calls ++ [{| c_topic := TopicSlotAcquire; c_db := all_ok; c_now := 0; c_payload := PString "t" |}].

Lemma SetConfig_forgets_slots_witness :
  let e := m_enforcer (calls (Init NewStore) full_calls) in
  (AcquireAgentSlot true 0 "t" e).2 <> inr 2 /\
  exists k, (AcquireAgentSlot true 0 "t" (SetConfig true demo_config e).1).2 = inr k.
Proof.
  intros e. split; [vm_compute; discriminate|].
  apply (SetConfig_forgets_slots true demo_config e 0). reflexivity.
Defined.
