(* ===== verification/Cron.v ===== *)
(** * Cron: five-field cron expressions

    [src/modules/scheduler/cron.go].  The step loop adds in 64-bit arithmetic, with a
    fuel of 256 rounds, proved enough for every field and every step an int holds;
    [Next] searches the code's 525,960 minutes. *)
From S2P Require Import Prelude Calendar GoStr.

(** ** Parsing *)

(* [modules/scheduler/cron.go:CronSchedule] *)
Record CronSchedule := {
  minutes : list Z; hours : list Z; days : list Z; months : list Z; weekdays : list Z;
}.

(** [for i := range vals { vals[i] = lo + i }] over [hi - lo + 1] values. *)
Definition range (lo hi : Z) : list Z := seqZ lo (hi - lo + 1).

(* [modules/scheduler/cron.go:parseRange] *)
Definition parseRange (s : string) (min max : Z) : Result (list Z) :=
  match splitN2 "-" s with
  | [a; b] =>
      match Atoi a, Atoi b with
      | Some start, Some end_ =>
          if decide (start < min \/ end_ > max \/ start > end_)%Z then
            Err ("range " +:+ itoa start +:+ "-" +:+ itoa end_ +:+ " out of bounds " +:+
                 itoa min +:+ "-" +:+ itoa max)
          else Ok (range start end_)
      | _, _ => Err ("invalid range: " +:+ s)
      end
  | _ => Err ("invalid range: " +:+ s)
  end.

(** [for i := start; i <= end; i += step], in 64-bit arithmetic; [None] when the
    fuel does not suffice. *)
(* [modules/scheduler/cron.go:parseField@79-81] *)
Fixpoint steps (fuel : nat) (i end_ step : Z) : option (list Z) :=
  match fuel with
  | O => None
  | S fuel' =>
      if decide (i <= end_)%Z then (i ::.) <$> steps fuel' (wrap64 (i + step)) end_ step
      else Some []
  end.

Definition step_fuel : nat := 256.

(** One comma-separated part of a field. *)
(* [modules/scheduler/cron.go:parseField@64-97] *)
Definition parsePart (part : string) (min max : Z) : Result (list Z) :=
  if contains_byte "/" part then
    match splitN2 "/" part with
    | [base_; stepText] =>
        match Atoi stepText with
        | Some step =>
            if decide (step <= 0)%Z then Err ("invalid step: " +:+ part)
            else
              rbind (if decide (base_ = "*") then Ok (min, max)
                     else rbind (parseRange base_ min max)
                            (fun r => Ok (default min (head r), default max (last r))))
                (fun se => match steps step_fuel se.1 se.2 step with
                           | Some vals => Ok vals
                           | None => Err "out of fuel"
                           end)
        | None => Err ("invalid step: " +:+ part)
        end
    | _ => Err ("invalid step: " +:+ part)
    end
  else if contains_byte "-" part then parseRange part min max
  else
    match Atoi part with
    | Some v =>
        if decide (v < min \/ v > max)%Z then
          Err ("value " +:+ itoa v +:+ " out of range " +:+ itoa min +:+ "-" +:+ itoa max)
        else Ok [v]
    | None => Err ("invalid value: " +:+ part)
    end.

Fixpoint parseParts (parts : list string) (min max : Z) : Result (list Z) :=
  match parts with
  | [] => Ok []
  | p :: ps => (vs <-? parsePart p min max ;; ws <-? parseParts ps min max ;; Ok (vs ++ ws))%go
  end.

(* [modules/scheduler/cron.go:parseField] *)
Definition parseField (field : string) (min max : Z) : Result (list Z) :=
  if decide (field = "*") then Ok (range min max) else parseParts (split "," field) min max.

(* [modules/scheduler/cron.go:ParseCron] *)
Definition ParseCron (expr : string) : Result CronSchedule :=
  match Fields expr with
  | [f0; f1; f2; f3; f4] =>
      (mi <-? wrap_err "minute" (parseField f0 0 59) ;;
       ho <-? wrap_err "hour" (parseField f1 0 23) ;;
       da <-? wrap_err "day" (parseField f2 1 31) ;;
       mo <-? wrap_err "month" (parseField f3 1 12) ;;
       wd <-? wrap_err "weekday" (parseField f4 0 6) ;;
       Ok {| minutes := mi; hours := ho; days := da; months := mo; weekdays := wd |})%go
  | fs => Err ("expected 5 fields, got " +:+ itoa (Z.of_nat (length fs)))
  end.

(** ** Matching *)

(* [modules/scheduler/cron.go:contains] *)
Fixpoint contains (vals : list Z) (v : Z) : bool :=
  match vals with
  | [] => false
  | x :: vals' => if (x =? v)%Z then true else contains vals' v
  end.

Section Location.
(** What the clocks of the times' location are ahead of UTC at an instant. *)
Context (zone : time -> duration).

(* [modules/scheduler/cron.go:CronSchedule.Matches] *)
Definition Matches (cs : CronSchedule) (t : time) : bool :=
  let l := (t + zone t)%Z in
  contains (minutes cs) (MinuteOf l) && contains (hours cs) (HourOf l) &&
  contains (days cs) (DayOf l) && contains (months cs) (Month l) && contains (weekdays cs) (Weekday l).

Fixpoint search (n : nat) (cs : CronSchedule) (t : time) : time :=
  match n with
  | O => t
  | S n' => if Matches cs t then t else search n' cs (t + Minute)%Z
  end.

(** Minutes searched: about a year. *)
Definition horizon : Z := 525960.

(* [modules/scheduler/cron.go:CronSchedule.Next] *)
Definition Next (cs : CronSchedule) (from : time) : time :=
  search (Z.to_nat horizon) cs (Truncate from Minute + Minute)%Z.
End Location.

(** A location whose clocks are a whole number of minutes off UTC, and change that on whole minutes. *)
Definition whole_minutes (zone : time -> duration) : Prop :=
  forall t, (Minute | zone t)%Z /\ forall u, (t / Minute = u / Minute)%Z -> zone t = zone u.
Definition UTC : time -> duration := fun _ => 0%Z.
Lemma UTC_whole : whole_minutes UTC.
Proof. intros t. split; [exists 0%Z; done|done]. Qed.
(** India's half hour, and a clock that is put forward by an hour at an instant. *)
Example India_whole : whole_minutes (fun _ => 330 * Minute)%Z.
Proof. intros t. split; [by exists 330%Z|done]. Qed.
Example summer_whole at_ : (Minute | at_)%Z -> whole_minutes (fun t => if decide (t < at_)%Z then Hour else 2 * Hour)%Z.
Proof.
  intros [k ->] t. split; [case_decide; [by exists 60%Z|by exists 120%Z]|]. intros u H.
  assert (Hlt : forall x, (x < k * Minute <-> x / Minute < k)%Z).
  { intros x. split; [intros ?; by apply Z.div_lt_upper_bound; [|lia]|]. intros Hx.
    pose proof (Z.div_mod x Minute ltac:(done)). pose proof (Z.mod_pos_bound x Minute ltac:(done)). unfold Minute in *. lia. }
  repeat case_decide; rewrite ?Hlt in *; congruence || lia.
Qed.

(** ** The step loop *)

(** Without overflow the loop yields the arithmetic progression. *)
Lemma steps_exact fuel : forall i end_ step,
  (0 < step)%Z -> (end_ + step <= maxInt64)%Z -> (minInt64 <= i)%Z -> (Z.max (-1) (end_ - i) + 1 < Z.of_nat fuel)%Z ->
  exists vals, steps fuel i end_ step = Some vals /\
    forall v, v ∈ vals <-> (i <= v <= end_ /\ (step | v - i))%Z.
Proof.
  induction fuel as [|fuel IH]; intros i end_ step Hs Ho Hi Hf; [lia|]. simpl. dec as [Hle|Hgt].
  - rewrite wrap64_id by (unfold in_int64, minInt64 in *; lia).
    destruct (IH (i + step)%Z end_ step) as (vals & -> & Hv); try lia. exists (i :: vals). split; [done|].
    intros v. rewrite elem_of_cons, Hv. split.
    + intros [->|[Hr [k Hk]]]; [split; [lia|exists 0%Z; lia]|]. split; [lia|]. exists (k + 1)%Z. lia.
    + intros [Hr [k Hk]]. destruct (decide (v = i)) as [|Hne]; [by left|right].
      assert (1 <= k)%Z by nia. split; [nia|]. exists (k - 1)%Z. lia.
  - exists []. split; [done|]. intros v. split; [by intros ?%elem_of_nil|lia].
Qed.

Lemma steps_S f i end_ step : steps (S f) i end_ step =
  if decide (i <= end_)%Z then (i ::.) <$> steps f (wrap64 (i + step)) end_ step else Some [].
Proof. done. Qed.

Lemma steps_mono f : forall f' i end_ step, steps f i end_ step <> None -> f <= f' ->
  steps f' i end_ step <> None.
Proof.
  induction f as [|f IH]; intros [|f'] i end_ step H Hle; simpl in *; try done; [lia|].
  case_decide; [|done]. specialize (IH f' (wrap64 (i + step)) end_ step).
  destruct (steps f (wrap64 (i + step)) end_ step); [|done].
  destruct (steps f' (wrap64 (i + step)) end_ step); [done|]. exfalso. apply IH; [done|lia|done].
Qed.

(** With a step so large that the sum wraps, every second value is two or more
    below the one before it. *)
Lemma steps_wrap n : forall i end_ step,
  (-100 <= i <= Z.of_nat n)%Z -> (i <= end_ <= 59)%Z -> (maxInt64 - 59 < step <= maxInt64)%Z ->
  steps (2 * n + 3) i end_ step <> None.
Proof.
  induction n as [n IH] using lt_wf_ind. intros i end_ step Hi He Hs. unfold maxInt64 in Hs.
  replace (2 * n + 3) with (S (S (S (2 * n)))) by lia.
  rewrite steps_S, decide_True by lia. rewrite steps_S.
  destruct (decide (i + step <= maxInt64)%Z) as [Hno|Hov]; unfold maxInt64 in *.
  - rewrite wrap64_id by (unfold in_int64, minInt64, maxInt64; lia).
    rewrite decide_False by lia. done.
  - assert (Hw1 : wrap64 (i + step) = (i + step - 2 ^ 64)%Z).
    { unfold wrap64. replace (i + step + 2 ^ 63)%Z with (i + step + 2 ^ 63 - 2 ^ 64 + 1 * 2 ^ 64)%Z by lia.
      rewrite Z_mod_plus_full, Z.mod_small; lia. }
    rewrite Hw1. rewrite decide_True by lia.
    rewrite (wrap64_id (i + step - 2 ^ 64 + step)) by (unfold in_int64, minInt64, maxInt64; lia).
    assert (Hnext : steps (S (2 * n)) (i + step - 2 ^ 64 + step) end_ step <> None).
    { destruct (decide (n <= 1)) as [Hn1|Hn1].
      - assert (n = 1) as -> by lia. cbn [steps Nat.mul Nat.add]. rewrite decide_True by lia.
        rewrite wrap64_id by (unfold in_int64, minInt64, maxInt64; lia). by rewrite decide_False by lia.
      - eapply (steps_mono (2 * (n - 2) + 3)); [|lia].
        apply IH; [lia|lia|lia|unfold maxInt64; lia]. }
    by destruct (steps (S (2 * n)) (i + step - 2 ^ 64 + step) end_ step).
Qed.

(** The fuel suffices for every field. *)
Lemma steps_total i end_ step : (0 <= i <= end_)%Z -> (end_ <= 59)%Z -> (0 < step <= maxInt64)%Z ->
  steps step_fuel i end_ step <> None.
Proof.
  intros Hi He Hs. destruct (decide (step <= maxInt64 - 59)%Z) as [Hsmall|Hbig].
  - destruct (steps_exact step_fuel i end_ step) as (vals & -> & _); try done; unfold minInt64, step_fuel in *; lia.
  - eapply (steps_mono (2 * 59 + 3)); [|unfold step_fuel; lia].
    apply steps_wrap; unfold maxInt64 in *; lia.
Qed.

#[local] Opaque steps.

(** ** Parsed values *)

Definition within (min max : Z) (vals : list Z) : Prop :=
  vals <> [] /\ Forall (fun v => min <= v <= max)%Z vals.

Lemma range_within lo hi min max : (min <= lo)%Z -> (lo <= hi)%Z -> (hi <= max)%Z -> within min max (range lo hi).
Proof.
  intros H1 H2 H3. unfold range. split.
  - intros H. apply (f_equal length) in H. rewrite length_seqZ in H. simpl in H. lia.
  - apply Forall_forall. intros v Hv%elem_of_seqZ. lia.
Qed.

Lemma parseRange_within s min max vals : parseRange s min max = Ok vals ->
  within min max vals /\ exists lo hi, (min <= lo <= hi)%Z /\ (hi <= max)%Z /\ vals = range lo hi.
Proof.
  unfold parseRange. destruct (splitN2 "-" s) as [|a [|b [|]]]; try done.
  destruct (Atoi a) as [lo|], (Atoi b) as [hi|]; try done. case_decide; [done|]. intros [= <-].
  split; [apply range_within; lia|]. exists lo, hi. split; [lia|]. split; [lia|done].
Qed.

Lemma range_ends lo hi : (lo <= hi)%Z -> head (range lo hi) = Some lo /\ last (range lo hi) = Some hi.
Proof.
  intros H. unfold range. rewrite head_lookup, last_lookup, length_seqZ, !lookup_seqZ. split; (split; [|lia]); lia.
Qed.

Lemma parsePart_within part min max vals : (0 <= min <= max)%Z -> (max <= 59)%Z ->
  String.length part < 19 -> parsePart part min max = Ok vals -> within min max vals.
Proof.
  intros Hm H59 Hlen. unfold parsePart. destruct (contains_byte "/" part) eqn:Hc.
  - unfold splitN2. destruct (cut "/" part) as [[a b]|] eqn:E; [|done].
    destruct (Atoi b) as [step|] eqn:Eb; [|done]. case_decide as Hst; [done|].
    intros ([lo hi] & Hse & Hv)%rbind_Ok. simpl in Hv.
    assert (Hr : (min <= lo <= hi)%Z /\ (hi <= max)%Z).
    { revert Hse. case_decide; [intros [= <- <-]; lia|]. intros (r & Hr & Heq)%rbind_Ok.
      apply parseRange_within in Hr as [_ (x & y & Hx & Hy & ->)].
      destruct (range_ends x y ltac:(lia)) as [Hh Hl]. rewrite Hh, Hl in Heq. injection Heq as <- <-. done. }
    assert (Hb : (step < 10 ^ 18)%Z).
    { apply Atoi_bound in Eb. apply cut_spec in E.
      assert (Hl : String.length b <= 17).
      { apply (f_equal String.length) in E. autorewrite with go_string in E. simpl in E. lia. }
      assert (10 ^ Z.of_nat (String.length b) <= 10 ^ 18)%Z by (apply Z.pow_le_mono_r; lia). lia. }
    destruct (steps_exact step_fuel lo hi step) as (vs & Hsteps & Hvs);
      try (unfold maxInt64, minInt64, step_fuel; lia).
    rewrite Hsteps in Hv. injection Hv as <-. split.
    + intros ->. apply (elem_of_nil lo), Hvs. split; [lia|]. exists 0%Z. lia.
    + apply Forall_forall. intros v [? _]%Hvs. lia.
  - destruct (contains_byte "-" part); [by intros [? _]%parseRange_within|].
    destruct (Atoi part); [|done]. case_decide; [done|]. intros [= <-].
    split; [done|]. repeat constructor; lia.
Qed.

Lemma parseParts_within ps min max vals : (0 <= min <= max)%Z -> (max <= 59)%Z ->
  Forall (fun p => String.length p < 19) ps -> parseParts ps min max = Ok vals ->
  ps <> [] -> within min max vals.
Proof.
  intros Hm H59 Hps. revert vals. induction Hps as [|p ps Hp Hps IH]; intros vals; simpl; [done|].
  intros (vs & Hvs & (ws & Hws & Heq)%rbind_Ok)%rbind_Ok _. injection Heq as <-.
  apply parsePart_within in Hvs as [Hne Hall]; [|done..]. split.
  - by destruct vs.
  - apply Forall_app. split; [done|]. destruct ps; [by injection Hws as <-|]. by apply IH.
Qed.

Lemma split_not_nil c s : split c s <> [].
Proof. destruct s as [|d s]; simpl; [done|]. case_decide; [done|]. by destruct (split c s). Qed.

(** ** The search *)

Section Search.
Context (zone : time -> duration).
#[local] Abbreviation Matches := (Matches zone).
#[local] Abbreviation search := (search zone).

Lemma search_spec n cs : forall t,
  (exists k, k < n /\ search n cs t = (t + Z.of_nat k * Minute)%Z /\ Matches cs (search n cs t) = true /\
     forall j, j < k -> Matches cs (t + Z.of_nat j * Minute) = false) \/
  (search n cs t = (t + Z.of_nat n * Minute)%Z /\
     forall j, j < n -> Matches cs (t + Z.of_nat j * Minute) = false).
Proof.
  induction n as [|n IH]; intros t; simpl; [right; split; [lia|lia]|].
  destruct (Matches cs t) eqn:Em.
  { left. exists 0. split; [lia|]. split; [lia|]. split; [done|lia]. }
  assert (Hj : forall j (P : Prop), (forall i, i < j -> Matches cs (t + Minute + Z.of_nat i * Minute) = false) ->
    forall i, i < S j -> Matches cs (t + Z.of_nat i * Minute) = false).
  { intros j _ H [|i] Hi; [by rewrite Z.mul_0_l, Z.add_0_r|].
    rewrite <- (H i) by lia. f_equal. lia. }
  destruct (IH (t + Minute)%Z) as [(k & Hk & Hs & Hm & Hno)|[Hs Hno]].
  - left. exists (S k). split; [lia|]. split; [lia|]. split; [done|]. by apply (Hj k True).
  - right. split; [lia|]. by apply (Hj n True).
Qed.

Lemma mod_div a b t : (0 < a)%Z -> (0 < b)%Z -> ((t mod (a * b)) / a = (t / a) mod b)%Z.
Proof.
  intros Ha Hb. rewrite Z.rem_mul_r by lia. rewrite Z.mul_comm, Z.div_add by lia.
  rewrite Z.div_small by (apply Z.mod_pos_bound; lia). lia.
Qed.

Lemma Truncate_div t : (Truncate t Minute / Minute = t / Minute)%Z.
Proof.
  unfold Truncate. pose proof (Z.div_mod t Minute ltac:(done)).
  replace (t - t mod Minute)%Z with ((t / Minute) * Minute)%Z by lia. by apply Z.div_mul.
Qed.

(** A schedule cannot tell two times of the same minute apart. *)
Lemma Matches_minute cs t u : whole_minutes zone -> (t / Minute = u / Minute)%Z -> Matches cs t = Matches cs u.
Proof.
  intros Hz H. destruct (Hz t) as [[k Hk] Hu]. specialize (Hu u H). unfold Cron.Matches. rewrite <- Hu.
  assert (Hl : ((t + zone t) / Minute = (u + zone t) / Minute)%Z) by (rewrite Hk, !Z.div_add by done; by rewrite H).
  clear H Hu. generalize dependent (t + zone t)%Z. generalize (u + zone t)%Z. clear t u k Hk. intros u t H.
  unfold Weekday, DayOf, Month, Date, MinuteOf, HourOf, dayNumber.
  change Day with (Minute * 1440)%Z. change Hour with (Minute * 60)%Z.
  assert (Hd : (t / (Minute * 1440) = u / (Minute * 1440))%Z) by (rewrite <- !Z.div_div by done; by rewrite H).
  assert (Hm : ((t mod (Minute * 60)) / Minute = (u mod (Minute * 60)) / Minute)%Z)
    by (rewrite !mod_div by done; by rewrite H).
  assert (Hh : (t mod (Minute * 1440) / (Minute * 60) = u mod (Minute * 1440) / (Minute * 60))%Z).
  { change (Minute * 1440)%Z with (Minute * 60 * 24)%Z. rewrite !mod_div by done.
    rewrite <- !Z.div_div by done. by rewrite H. }
  by rewrite Hd, Hm, Hh.
Qed.
End Search.

(** ** Properties *)

(** Parsing a cron field is total (the step loop ends within its fuel for every step an int can hold), and for fields of fewer than 19 bytes every value of a successfully parsed field lies within the field's bounds, at least one value being produced; a step part yields exactly the progression from its start. *)
Lemma parseField_bounds field min max vals i end_ step :
  (0 <= min <= max)%Z -> (max <= 59)%Z -> String.length field < 19 ->
  parseField field min max = Ok vals ->
  (0 <= i <= end_)%Z -> (end_ <= 59)%Z -> (0 < step <= maxInt64)%Z ->
  vals <> [] /\ Forall (fun v => min <= v <= max)%Z vals /\
  steps step_fuel i end_ step <> None /\
  ((step <= maxInt64 - 59)%Z -> exists vs, steps step_fuel i end_ step = Some vs /\
     forall v, v ∈ vs <-> (i <= v <= end_ /\ (step | v - i))%Z).
Proof.
  intros Hm H59 Hlen Hp Hi He Hs.
  assert (Hw : within min max vals).
  { revert Hp. unfold parseField. case_decide; [intros [= <-]; apply range_within; lia|].
    intros Hp. eapply parseParts_within; [done|done| |exact Hp|apply split_not_nil].
    apply Forall_forall. intros p Hin%split_length. lia. }
  destruct Hw as [Hne Hall]. split_and!; [done|done|by apply steps_total|].
  intros Hsm. apply steps_exact; unfold minInt64, maxInt64, step_fuel in *; lia.
Qed.

(** C39 [functional]: [Next] returns a whole minute after its argument; when some time within about a year matches it is the first minute that does, and no time in between matches, whole minute or not; otherwise it returns the end of the search, whether or not that time matches.  The clock is that of the times' location, any whose offset from UTC is a whole number of minutes and changes on whole minutes. *)
Theorem Next_spec zone cs from : whole_minutes zone ->
  let start := (Truncate from Minute + Minute)%Z in
  let t := Next zone cs from in
  (from < start <= from + Minute)%Z /\ (start <= t <= start + horizon * Minute)%Z /\
  (forall u, (start <= u < t)%Z -> Matches zone cs u = false) /\
  (Matches zone cs t = true \/ t = (start + horizon * Minute)%Z).
Proof.
  intros Hz start t.
  assert (Hstart : exists q, start = (q * Minute)%Z /\ (from < start <= from + Minute)%Z).
  { exists (from / Minute + 1)%Z. unfold start, Truncate. pose proof (Z.div_mod from Minute ltac:(done)).
    pose proof (Z.mod_pos_bound from Minute ltac:(done)). unfold Minute in *. lia. }
  destruct Hstart as (q & Hq & Hrange).
  assert (Hk : exists k, (Z.of_nat k <= horizon)%Z /\ t = (start + Z.of_nat k * Minute)%Z /\
    (Matches zone cs t = true \/ Z.of_nat k = horizon) /\
    forall j, j < k -> Matches zone cs (start + Z.of_nat j * Minute) = false).
  { unfold t, Next. fold start.
    destruct (search_spec zone (Z.to_nat horizon) cs start) as [(k & Hk & Hs & Hm & Hno)|[Hs Hno]].
    - exists k. unfold horizon in *. split; [lia|]. auto.
    - exists (Z.to_nat horizon). rewrite Z2Nat.id in * by done. split; [lia|]. auto. }
  destruct Hk as (k & Hk & Ht & Hor & Hno). split; [done|]. split; [unfold Minute in *; nia|]. split.
  - intros u Hu. rewrite (Matches_minute zone cs u (start + Z.of_nat (Z.to_nat (u / Minute - q)) * Minute) Hz).
    + apply Hno. assert (u / Minute < q + Z.of_nat k)%Z by (apply Z.div_lt_upper_bound; [done|unfold Minute in *; lia]).
      assert (q <= u / Minute)%Z by (apply Z.div_le_lower_bound; [done|unfold Minute in *; lia]). lia.
    + assert (q <= u / Minute)%Z by (apply Z.div_le_lower_bound; [done|unfold Minute in *; lia]).
      rewrite Z2Nat.id by lia. rewrite Hq, <- Z.mul_add_distr_r. rewrite Z.div_mul by done. lia.
  - destruct Hor as [?|Hh]; [by left|right]. by rewrite Ht, Hh.
Qed.

(** A step near the top of the int range wraps: the 30th and 31st become negative
    numbers and earlier days of the month. *)
Lemma step_overflow : parseField "31-31/9223372036854775807" 1 31 <> Ok [31%Z].
Proof. vm_compute. discriminate. Qed.

(** ** Witness *)
Lemma parseField_bounds_witness :
  Forall (fun v => 0 <= v <= 59)%Z [0; 20; 40; 7; 50; 51; 52]%Z.
Proof.
  apply (parseField_bounds "*/20,7,50-52" 0 59 [0; 20; 40; 7; 50; 51; 52]%Z 0 59 20);
    first [lia|vm_compute; reflexivity|idtac]; unfold maxInt64; try lia; vm_compute; lia.
Defined.

(** Nine in the morning, in India, after the start of the calendar. *)
Definition nine : CronSchedule := default {| minutes := []; hours := []; days := []; months := []; weekdays := [] |}
  match ParseCron "0 9 * * *" with Ok cs => Some cs | Err _ => None end.
Lemma Next_spec_witness : let t := Next (fun _ => 330 * Minute)%Z nine 0 in
  t = (210 * Minute)%Z /\ (Matches (fun _ => 330 * Minute)%Z nine t = true \/ t = (Minute + horizon * Minute)%Z).
Proof.
  intros t. split; [vm_compute; reflexivity|].
  exact (proj2 (proj2 (proj2 (Next_spec (fun _ => 330 * Minute)%Z nine 0 India_whole)))).
Defined.
