(* ===== verification/Scheduler.v ===== *)
(** * Scheduler: scheduled agent jobs

    [src/modules/scheduler/scheduler.go] and [types.go].  A tick visits the jobs in an
    arbitrary order (Go's map iteration), given as an argument; the copies handed to
    goroutines are returned.  The agent's answer and [regexp.MatchString] are arguments
    of the execution of a job. *)
From S2P Require Import Prelude Calendar Cron.

(** ** Data *)

(* [modules/scheduler/types.go:JobCondition] *)
Record JobCondition := { c_Type : string; c_Pattern : string }.

(* [modules/scheduler/types.go:Job] *)
Record Job := {
  ID : string; Name : string; Tenant : string; Agent : string; Message : string;
  Interval : duration; CronExpr : string; LastRun : time; NextRun : time; Enabled : bool;
  DestChannel : string; DestChannelID : string; Condition : option JobCondition;
  DependsOn : list string; ReportMode : bool; ReportTitle : string;
}.

(* [modules/scheduler/types.go:JobRun] *)
Record JobRun := {
  r_ID : string; r_JobID : string; r_Status : string; r_Output : string; r_Error : string;
  r_Duration : duration; r_StartedAt : time;
}.

(* [modules/scheduler/scheduler.go:Scheduler] *)
Record Scheduler := { jobs : gmap string Job; history : gmap string (list JobRun) }.

(* [modules/scheduler/scheduler.go:New] *)
Definition New : Scheduler := {| jobs := ∅; history := ∅ |}.

Definition set_jobs (js : gmap string Job) (s : Scheduler) : Scheduler :=
  {| jobs := js; history := history s |}.

(** [job.LastRun], [job.NextRun] and [job.Enabled] replaced. *)
Definition with_run (last next : time) (enabled : bool) (j : Job) : Job :=
  {| ID := ID j; Name := Name j; Tenant := Tenant j; Agent := Agent j; Message := Message j;
     Interval := Interval j; CronExpr := CronExpr j; LastRun := last; NextRun := next;
     Enabled := enabled; DestChannel := DestChannel j; DestChannelID := DestChannelID j;
     Condition := Condition j; DependsOn := DependsOn j; ReportMode := ReportMode j;
     ReportTitle := ReportTitle j |}.

(** ** The tick *)

Section Ticks.
(** The offset of the local clock, by which schedules are read, from UTC. *)
Context (zone : time -> duration).

(** The loop over [job.DependsOn]. *)
(* [modules/scheduler/scheduler.go:Scheduler.checkDependencies] *)
Fixpoint check_deps (deps : list string) (last : time) (js : gmap string Job) : bool :=
  match deps with
  | [] => true
  | d :: deps' =>
      match js !! d with
      | None => false
      | Some dep =>
          if negb (Enabled dep) then false
          else if IsZero (LastRun dep) || Before (LastRun dep) last then false
          else check_deps deps' last js
      end
  end.
Definition checkDependencies (job : Job) (s : Scheduler) : bool :=
  check_deps (DependsOn job) (LastRun job) (jobs s).

(* [modules/scheduler/scheduler.go:Scheduler.checkAndRun@96-112] *)
Definition shouldRun (now : time) (job : Job) : bool :=
  if negb (Enabled job) then false
  else if decide (CronExpr job <> "") then
    match ParseCron (CronExpr job) with
    | Ok cs => Matches zone cs now && After now (LastRun job + Minute)%Z
    | Err _ => false
    end
  else negb (Before now (NextRun job)).

(** The run times written back after a job was started. *)
(* [modules/scheduler/scheduler.go:Scheduler.checkAndRun@127-135] *)
Definition reschedule (now : time) (job : Job) : Job :=
  with_run now
    (if decide (CronExpr job <> "") then
       match ParseCron (CronExpr job) with Ok cs => Next zone cs now | Err _ => NextRun job end
     else (now + Interval job)%Z) (Enabled job) job.

(** One iteration of the loop: the new state and the copy handed to a goroutine. *)
Definition visit (now : time) (s : Scheduler) (id : string) : Scheduler * option Job :=
  match jobs s !! id with
  | None => (s, None)
  | Some job =>
      if shouldRun now job && checkDependencies job s then
        (set_jobs (<[id := reschedule now job]> (jobs s)) s, Some job)
      else (s, None)
  end.

(** The loop over the map, whose order the language leaves open: [order] lists the
    keys. *)
(* [modules/scheduler/scheduler.go:Scheduler.checkAndRun] *)
Fixpoint checkAndRun (order : list string) (now : time) (s : Scheduler) : Scheduler * list Job :=
  match order with
  | [] => (s, [])
  | id :: order' =>
      let '(s1, started) := visit now s id in
      let '(s2, more) := checkAndRun order' now s1 in
      (s2, option_list started ++ more)
  end.

(** ** Running a job *)

(** The last 20 runs of a job are kept. *)
(* [modules/scheduler/scheduler.go:Scheduler.recordJobRun] *)
Definition recordJobRun (jobID : string) (run : JobRun) (s : Scheduler) : Scheduler :=
  let runs := default [] (history s !! jobID) ++ [run] in
  let runs := if decide (20 < length runs) then drop (length runs - 20) runs else runs in
  {| jobs := jobs s; history := <[jobID := runs]> (history s) |}.

(** What the agent answers, and the message delivered to a channel. *)
Inductive chat_result := ChatError (e : error) | ChatOther | ChatResponse (content : string).
Record OutboundMessage := { o_Channel : string; o_ChannelID : string; o_Text : string }.

Section Execute.
(** [regexp.MatchString], false when the pattern does not compile. *)
Context (MatchString : string -> string -> bool).

(** Whether the condition of the job lets its output through. *)
(* [modules/scheduler/scheduler.go:Scheduler.executeJob@173-193] *)
Definition condition_met (job : Job) (content : string) (s : Scheduler) : bool :=
  match Condition job with
  | None => true
  | Some c =>
      if decide (c_Type c = "output_changed") then
        match last (default [] (history s !! ID job)) with
        | Some prev => negb (bool_decide (r_Output prev = content))
        | None => true
        end
      else if decide (c_Type c = "output_matches") then
        if decide (c_Pattern c <> "") then MatchString (c_Pattern c) content else true
      else true
  end.

(** [runID], [start], [took] and [stamp] are the identifier drawn, the start, the
    duration and the formatted time of the run. *)
(* [modules/scheduler/scheduler.go:Scheduler.executeJob] *)
Definition executeJob (runID : string) (start : time) (took : duration) (stamp : string) (job : Job)
    (resp : chat_result) (s : Scheduler) : Scheduler * option OutboundMessage :=
  let run status output err :=
    {| r_ID := runID; r_JobID := ID job; r_Status := status; r_Output := output; r_Error := err;
       r_Duration := took; r_StartedAt := start |} in
  match resp with
  | ChatError e => (recordJobRun (ID job) (run "failure" "" e) s, None)
  | ChatOther => (recordJobRun (ID job) (run "failure" "" "unexpected response type") s, None)
  | ChatResponse content =>
      if condition_met job content s then
        (recordJobRun (ID job) (run "success" content "") s,
         if decide (DestChannel job <> "" /\ DestChannelID job <> "") then
           let title := if decide (ReportTitle job = "") then "Scheduled Report: " +:+ Name job
                        else ReportTitle job in
           let nl := String "010" "" in
           Some {| o_Channel := DestChannel job; o_ChannelID := DestChannelID job;
                   o_Text := if ReportMode job
                             then "*" +:+ title +:+ "*" +:+ nl +:+ "_" +:+ stamp +:+ "_" +:+ nl +:+ nl +:+ content
                             else content |}
         else None)
      else (s, None)
  end.
End Execute.

(** ** Handlers *)

Inductive Payload := PJob (j : Job) | PString (s : string) | POther (type_name : string).
Definition type_name (p : Payload) : string :=
  match p with PJob _ => "scheduler.Job" | PString _ => "string" | POther t => t end.

(* [modules/scheduler/scheduler.go:Scheduler.handleAdd] *)
Definition handleAdd (now : time) (p : Payload) (s : Scheduler) : Result Scheduler :=
  match p with
  | PJob job =>
      rbind (if decide (CronExpr job <> "") then
               match ParseCron (CronExpr job) with
               | Ok cs => Ok (Next zone cs now)
               | Err e => Err ("invalid cron expression: " +:+ e)
               end
             else Ok (now + Interval job)%Z)
        (fun next => Ok (set_jobs (<[ID job := with_run (LastRun job) next true job]> (jobs s)) s))
  | _ => Err ("expected Job, got " +:+ type_name p)
  end.

(* [modules/scheduler/scheduler.go:Scheduler.handleRemove] *)
Definition handleRemove (p : Payload) (s : Scheduler) : Result Scheduler :=
  match p with
  | PString id => Ok (set_jobs (delete id (jobs s)) s)
  | _ => Err ("expected string, got " +:+ type_name p)
  end.

Definition name_le : relation Job := fun a b => String.leb (Name a) (Name b) = true.

(* [modules/scheduler/scheduler.go:Scheduler.handleList] *)
Definition handleList `{!SliceSorter name_le} (s : Scheduler) : list Job :=
  sortSlice name_le (map_to_list (jobs s)).*2.

(* [modules/scheduler/scheduler.go:Scheduler.handleHistory] *)
Definition handleHistory (p : Payload) (s : Scheduler) : Result (list JobRun) :=
  match p with
  | PString id => Ok (default [] (history s !! id))
  | _ => Err "expected string"
  end.

(** [loadJobs], given the jobs decoded from the file. *)
(* [modules/scheduler/scheduler.go:Scheduler.loadJobs] *)
Definition loadJobs (stored : list Job) (s : Scheduler) : Scheduler :=
  set_jobs (foldl (fun js j => <[ID j := j]> js) (jobs s) stored) s.

(** ** Ticks *)

Definition keyed (s : Scheduler) : Prop := forall id j, jobs s !! id = Some j -> ID j = id.

Lemma reschedule_ID now j : ID (reschedule now j) = ID j.
Proof. done. Qed.

Lemma visit_keyed now s id : keyed s -> keyed (visit now s id).1.
Proof.
  intros Hk. unfold visit. destruct (jobs s !! id) as [j|] eqn:E; [|done].
  destruct (shouldRun now j && checkDependencies j s); [|done]. simpl. intros id' j'. simpl.
  rewrite lookup_insert_Some. intros [[<- <-]|[_ H]]; [|by apply Hk]. simpl. by apply Hk.
Qed.

Lemma visit_ne now s id id' : id' <> id -> jobs (visit now s id).1 !! id' = jobs s !! id'.
Proof.
  intros Hne. unfold visit. destruct (jobs s !! id); [|done].
  destruct (shouldRun now j && checkDependencies j s); [|done]. simpl. by rewrite lookup_insert_ne.
Qed.

Lemma visit_started now s id j : (visit now s id).2 = Some j ->
  jobs s !! id = Some j /\ shouldRun now j = true /\ checkDependencies j s = true /\
  jobs (visit now s id).1 !! id = Some (reschedule now j).
Proof.
  unfold visit. destruct (jobs s !! id) as [x|]; [|done].
  destruct (shouldRun now x && checkDependencies x s) eqn:E; [|done]. simpl. intros [= ->].
  apply andb_true_iff in E as [? ?]. by rewrite lookup_insert_eq.
Qed.

Lemma visit_idle now s id : (visit now s id).2 = None -> (visit now s id).1 = s.
Proof.
  unfold visit. destruct (jobs s !! id) as [x|]; [|done].
  by destruct (shouldRun now x && checkDependencies x s).
Qed.

Lemma checkAndRun_other order now : forall s id, id ∉ order ->
  jobs (checkAndRun order now s).1 !! id = jobs s !! id.
Proof.
  induction order as [|k order IH]; intros s id Hni; simpl; [done|].
  apply not_elem_of_cons in Hni as [Hne Hni].
  pose proof (visit_ne now s k id Hne) as Hv. destruct (visit now s k) as [s1 st]. simpl in Hv.
  specialize (IH s1 id Hni). destruct (checkAndRun order now s1) as [s2 more]. simpl in *. congruence.
Qed.

(** What one tick starts, and what it leaves in the table. *)
Lemma checkAndRun_spec order now : forall s, NoDup order -> keyed s ->
  let r := checkAndRun order now s in
  keyed r.1 /\
  (forall j, j ∈ r.2 -> ID j ∈ order /\ jobs s !! ID j = Some j /\ shouldRun now j = true /\
     jobs r.1 !! ID j = Some (reschedule now j)) /\
  NoDup (ID <$> r.2) /\
  (forall id, (forall j, j ∈ r.2 -> ID j <> id) -> jobs r.1 !! id = jobs s !! id) /\
  (forall id j, id ∈ order -> jobs s !! id = Some j -> DependsOn j = [] -> shouldRun now j = true -> j ∈ r.2).
Proof.
  induction order as [|k order IH]; intros s Hnd Hk.
  { simpl. split; [done|]. split; [intros j Hj; by apply elem_of_nil in Hj|].
    split; [constructor|]. split; [done|]. intros id j Hid. by apply elem_of_nil in Hid. }
  apply NoDup_cons in Hnd as [Hni Hnd]. simpl.
  pose proof (visit_keyed now s k Hk) as Hk1. pose proof (visit_ne now s k) as Hne.
  pose proof (visit_started now s k) as Hst. pose proof (visit_idle now s k) as Hidle.
  assert (Hrun : forall j, jobs s !! k = Some j -> DependsOn j = [] -> shouldRun now j = true ->
    (visit now s k).2 = Some j).
  { intros j Hj Hd Hs. unfold visit, checkDependencies. rewrite Hj, Hs, Hd. done. }
  destruct (visit now s k) as [s1 st]. simpl in *.
  pose proof (checkAndRun_other order now s1 k Hni) as Hkeep.
  destruct (IH s1 Hnd Hk1) as (I1 & I2 & I3 & I4 & I5). destruct (checkAndRun order now s1) as [s2 more].
  simpl in *. split; [done|]. split; [|split; [|split]].
  - intros j [Hj|Hj]%elem_of_app.
    + destruct st as [x|]; simpl in Hj; [|by apply elem_of_nil in Hj].
      apply list_elem_of_singleton in Hj as ->. destruct (Hst x eq_refl) as (Hl & Hs & _ & Hr).
      rewrite (Hk _ _ Hl). split; [left|]. split; [done|]. split; [done|]. congruence.
    + destruct (I2 j Hj) as (Hin & Hl & Hs & Hr). assert (ID j <> k) by (by intros <-).
      rewrite <- (Hne (ID j)) by done. split; [by right|done].
  - rewrite fmap_app. apply NoDup_app. split; [destruct st; repeat constructor; set_solver|]. split; [|done].
    intros id Hid (j & -> & Hj)%list_elem_of_fmap. destruct st as [x|]; simpl in Hid; [|by apply elem_of_nil in Hid].
    apply list_elem_of_singleton in Hid. destruct (Hst x eq_refl) as (Hl & _). apply Hk in Hl.
    destruct (I2 j Hj) as (Hin & _). congruence.
  - intros id Hno. rewrite I4 by (intros j Hj; apply Hno, elem_of_app; by right).
    destruct (decide (id = k)) as [->|]; [|by apply Hne]. destruct st as [x|]; [|by rewrite Hidle].
    destruct (Hst x eq_refl) as (Hl & _). exfalso. apply (Hno x); [left|by apply Hk].
  - intros id j [->|Hid]%elem_of_cons Hl Hd Hs.
    + rewrite (Hrun j Hl Hd Hs). apply elem_of_app. left. by left.
    + apply elem_of_app. right. apply (I5 id); try done. rewrite Hne; [done|]. by intros ->.
Qed.

(** A sequence of ticks, and the runs they start. *)
Fixpoint run_ticks (ts : list (list string * time)) (s : Scheduler) : list (time * Job) :=
  match ts with
  | [] => []
  | (order, now) :: ts' =>
      let '(s1, started) := checkAndRun order now s in ((now,.) <$> started) ++ run_ticks ts' s1
  end.

(** The next run of a job [j] of the table is a run of [j] itself, when due. *)
Lemma run_ticks_next ts : forall s j l1 t' j' l2, keyed s -> Forall (fun ot => NoDup ot.1) ts ->
  jobs s !! ID j = Some j -> run_ticks ts s = l1 ++ (t', j') :: l2 -> ID j' = ID j ->
  (forall r, r ∈ l1 -> ID r.2 <> ID j) -> j' = j /\ shouldRun t' j = true.
Proof.
  induction ts as [|[order now] ts IH]; intros s j l1 t' j' l2 Hk Hts Hj Heq Hid Hno; simpl in Heq.
  { by destruct l1. }
  apply Forall_cons in Hts as [Hnd Hts]. simpl in Hnd.
  destruct (checkAndRun_spec order now s Hnd Hk) as (I1 & I2 & I3 & I4 & _).
  destruct (checkAndRun order now s) as [s1 started]. simpl in *.
  apply app_eq_app in Heq as (l & [[Hl1 Hl2]|[Hl1 Hl2]]).
  - destruct l as [|[t0 x] l]; simpl in *.
    + rewrite app_nil_r in Hl1. apply (IH s1 j [] t' j' l2); try done; [|by intros r ?%elem_of_nil].
      rewrite I4; [done|]. intros y Hy. apply (Hno (now, y)). rewrite <- Hl1. by apply list_elem_of_fmap_2.
    + injection Hl2 as <- <- _. assert (Hin : (t', j') ∈ (now,.) <$> started) by (rewrite Hl1; set_solver).
      apply list_elem_of_fmap in Hin as (y & [= -> ->] & Hy). destruct (I2 y Hy) as (_ & Hl & Hs & _).
      rewrite Hid in Hl. assert (j = y) as -> by congruence. done.
  - apply (IH s1 j l t' j' l2); try done.
    + rewrite I4; [done|]. intros y Hy. apply (Hno (now, y)). rewrite Hl1. apply elem_of_app. left.
      by apply list_elem_of_fmap_2.
    + intros r Hr. apply Hno. rewrite Hl1. apply elem_of_app. by right.
Qed.

(** ** History *)

Lemma drop_snoc_20 {A} (l : list A) x : length (drop (length l - 20) l) <= 20 /\
  drop (length (drop (length l - 20) l ++ [x]) - 20) (drop (length l - 20) l ++ [x]) =
  drop (length (l ++ [x]) - 20) (l ++ [x]).
Proof.
  rewrite !length_app, length_drop. simpl. split; [lia|].
  destruct (decide (length l < 20)) as [Hlt|Hge].
  - replace (length l - 20) with 0 by lia. rewrite !drop_0, Nat.sub_0_r. done.
  - replace (length l - (length l - 20) + 1 - 20) with 1 by lia.
    replace (length l + 1 - 20) with ((length l - 20) + 1) by lia.
    rewrite <- drop_drop, (drop_app_le l [x] (length l - 20)) by lia. done.
Qed.

Lemma record_history id run s all : default [] (history s !! id) = drop (length all - 20) all ->
  default [] (history (recordJobRun id run s) !! id) = drop (length (all ++ [run]) - 20) (all ++ [run]).
Proof.
  intros H. unfold recordJobRun; simpl. rewrite lookup_insert_eq; simpl. rewrite H.
  destruct (drop_snoc_20 all run) as [Hl <-]. case_decide; [done|].
  replace (length (drop (length all - 20) all ++ [run]) - 20) with 0 by lia. by rewrite drop_0.
Qed.

(** ** Properties *)

(** A tick starts each job at most once, only enabled jobs that are due, and every due job without dependencies, whatever the order of the map; and a started job is not started again by any later ticks before its cadence allows: strictly more than a minute later for a cron job, no earlier than its interval for an interval job. *)
Lemma run_spacing order now s ts j l1 t' j' l2 :
  keyed s -> NoDup order -> Forall (fun ot => NoDup ot.1) ts ->
  let r := checkAndRun order now s in
  j ∈ r.2 -> run_ticks ts r.1 = l1 ++ (t', j') :: l2 -> ID j' = ID j ->
  (forall x, x ∈ l1 -> ID x.2 <> ID j) ->
  NoDup (ID <$> r.2) /\ Enabled j = true /\
  (forall i, ID i ∈ order -> jobs s !! ID i = Some i -> DependsOn i = [] ->
     (i ∈ r.2 <-> shouldRun now i = true)) /\
  (if decide (CronExpr j = "") then (now + Interval j <= t')%Z else (now + Minute < t')%Z).
Proof.
  intros Hk Hnd Hts r Hj Heq Hid Hno. subst r.
  destruct (checkAndRun_spec order now s Hnd Hk) as (I1 & I2 & I3 & I4 & I5).
  destruct (I2 j Hj) as (_ & Hl & Hs & Hr). split; [done|]. split; [|split].
  - unfold shouldRun in Hs. by destruct (Enabled j).
  - intros i Hi Hli Hd. split; [by intros (_ & _ & ? & _)%I2|]. intros. by apply (I5 (ID i)).
  - rewrite <- (reschedule_ID now j) in Hr, Hid, Hno.
    destruct (run_ticks_next ts _ _ l1 t' j' l2 I1 Hts Hr Heq Hid Hno) as [-> Hdue].
    unfold shouldRun in Hdue. simpl in Hdue. destruct (Enabled j); [|done]. simpl in Hdue.
    destruct (decide (CronExpr j = "")) as [Hc|Hc].
    + rewrite decide_False in Hdue by (intros H; by apply H).
      rewrite decide_False in Hdue by (intros H; by apply H).
      unfold Before in Hdue. apply negb_true_iff, Z.ltb_ge in Hdue. lia.
    + rewrite decide_True in Hdue by done. destruct (ParseCron (CronExpr j)); [|done].
      apply andb_true_iff in Hdue as [_ Ha]. unfold After in Ha. apply Z.ltb_lt in Ha. lia.
Qed.

(** The history of a job is always its most recent 20 runs in order: recording any sequence of runs for a job leaves the last 20 of everything ever recorded for it, and other jobs' histories alone. *)
Lemma history_recent id runs s other :
  length (default [] (history s !! id)) <= 20 ->
  let all := default [] (history s !! id) ++ runs in
  let s' := foldl (fun s run => recordJobRun id run s) s runs in
  default [] (history s' !! id) = drop (length all - 20) all /\
  jobs s' = jobs s /\ (other <> id -> history s' !! other = history s !! other).
Proof.
  intros H20 all s'. subst all s'. induction runs as [|run runs IH] using rev_ind; simpl.
  - rewrite app_nil_r. replace (length _ - 20) with 0 by lia. rewrite drop_0. done.
  - rewrite foldl_snoc. destruct IH as (I1 & I2 & I3). split; [|split].
    + rewrite app_assoc. by apply record_history.
    + done.
    + intros Hne. simpl. rewrite lookup_insert_ne by done. by apply I3.
Qed.

End Ticks.

(** ** Witnesses *)
Definition demo_job : Job :=
  {| ID := "a"; Name := "a"; Tenant := "t"; Agent := "g"; Message := "m"; Interval := 10 * Second;
     CronExpr := ""; LastRun := 0; NextRun := 5 * Second; Enabled := true; DestChannel := ""; DestChannelID := "";
     Condition := None; DependsOn := []; ReportMode := false; ReportTitle := "" |}.
Definition demo_sched : Scheduler := set_jobs {["a" := demo_job]} New.

Lemma run_spacing_witness :
  (7 * Second + 10 * Second <= 17 * Second)%Z /\
  run_ticks UTC [(["a"], 12 * Second); (["a"], 17 * Second)]%Z (checkAndRun UTC ["a"] (7 * Second) demo_sched).1 =
    [(17 * Second, reschedule UTC (7 * Second) demo_job)]%Z.
Proof.
  split; [|vm_compute; reflexivity].
  destruct (run_spacing UTC ["a"] (7 * Second) demo_sched [(["a"], 12 * Second); (["a"], 17 * Second)]%Z demo_job
    [] (17 * Second) (reschedule UTC (7 * Second) demo_job) []) as (_ & _ & _ & H).
  - intros id j. unfold demo_sched. simpl. rewrite lookup_singleton_Some. by intros [<- <-].
  - repeat constructor; set_solver.
  - repeat constructor; set_solver.
  - vm_compute. left.
  - vm_compute. reflexivity.
  - reflexivity.
  - intros x Hx. by apply elem_of_nil in Hx.
  - exact H.
Defined.
