(* ===== verification/Workflow.v ===== *)
(** * Workflow: multi-step workflow runs

    [src/modules/workflow/engine.go] and [types.go].  [Env] is the outside world: the
    answers of agents, webhooks, operators and approvals, the clock, and the orders in
    which the language iterates over a map and runs goroutines; calls are numbered and
    an answer may depend on the number.  A run and the call counter are threaded
    through.  The goroutines of a parallel step run one after the other, in any order.
    [None] means that execution does not return: nesting deeper than the fuel, a
    substitution that does not end, or a cycle longer than the fuel.
    [time.ParseDuration] and [Duration.String] are arguments.  The last part composes
    the approval step with the bus of Ipc. *)
From S2P Require Import Prelude GoStr Ipc.

(** ** Data *)

Abbreviation StepType := string (only parsing).
(* [modules/workflow/types.go:StepToolCall@9-9] *)
Definition StepToolCall : StepType := "tool_call".
(* [modules/workflow/types.go:StepAgentChat@10-10] *)
Definition StepAgentChat : StepType := "agent_chat".
(* [modules/workflow/types.go:StepCondition@11-11] *)
Definition StepCondition : StepType := "condition".
(* [modules/workflow/types.go:StepApproval@12-12] *)
Definition StepApproval : StepType := "approval".
(* [modules/workflow/types.go:StepWebhook@13-13] *)
Definition StepWebhook : StepType := "webhook".
(* [modules/workflow/types.go:StepDelay@14-14] *)
Definition StepDelay : StepType := "delay".
(* [modules/workflow/types.go:StepParallel@15-15] *)
Definition StepParallel : StepType := "parallel".
(* [modules/workflow/types.go:StepLoop@16-16] *)
Definition StepLoop : StepType := "loop".
(* [modules/workflow/types.go:StepHumanInput@17-17] *)
Definition StepHumanInput : StepType := "human_input".

(* [modules/workflow/types.go:Step] *)
Record Step := {
  s_ID : string; s_Name : string; s_Type : StepType; Config : gmap string string;
  OnSuccess : string; OnFailure : string; RetryCount : Z; Timeout : duration;
  SubSteps : list string; LoopOver : string;
}.
(** The zero value of the struct. *)
Definition zero_step : Step :=
  {| s_ID := ""; s_Name := ""; s_Type := ""; Config := ∅; OnSuccess := ""; OnFailure := "";
     RetryCount := 0; Timeout := 0; SubSteps := []; LoopOver := "" |}.

(* [modules/workflow/types.go:Workflow] *)
Record Workflow := {
  wf_ID : string; wf_Name : string; Description : string; wf_Tenant : string; StartStep : string;
  Steps : list Step;
}.

(* [modules/workflow/types.go:RunStatus] *)
Inductive RunStatus :=
  RunPending | RunRunning | RunCompleted | RunFailed | RunWaiting | RunWaitingInput.

(* [modules/workflow/types.go:StepResult] *)
Record StepResult := {
  StepID : string; r_Status : string; Output : string; r_Error : string; Duration : duration;
  Timestamp : time;
}.

(* [modules/workflow/types.go:Run] *)
Record Run := {
  run_ID : string; WorkflowID : string; run_Tenant : string; Status : RunStatus; CurrentStep : string;
  Results : gmap string StepResult; StartedAt : time; CompletedAt : time; run_Error : string;
}.

(* [modules/workflow/types.go:Trigger] *)
Record Trigger := { t_Type : string; t_Pattern : string; t_WorkflowID : string }.

Definition set_status (st : RunStatus) (r : Run) : Run :=
  {| run_ID := run_ID r; WorkflowID := WorkflowID r; run_Tenant := run_Tenant r; Status := st;
     CurrentStep := CurrentStep r; Results := Results r; StartedAt := StartedAt r;
     CompletedAt := CompletedAt r; run_Error := run_Error r |}.
Definition set_current (id : string) (r : Run) : Run :=
  {| run_ID := run_ID r; WorkflowID := WorkflowID r; run_Tenant := run_Tenant r; Status := Status r;
     CurrentStep := id; Results := Results r; StartedAt := StartedAt r;
     CompletedAt := CompletedAt r; run_Error := run_Error r |}.
Definition set_result (id : string) (x : StepResult) (r : Run) : Run :=
  {| run_ID := run_ID r; WorkflowID := WorkflowID r; run_Tenant := run_Tenant r; Status := Status r;
     CurrentStep := CurrentStep r; Results := <[id := x]> (Results r); StartedAt := StartedAt r;
     CompletedAt := CompletedAt r; run_Error := run_Error r |}.
Definition set_end (st : RunStatus) (err : string) (at_ : time) (r : Run) : Run :=
  {| run_ID := run_ID r; WorkflowID := WorkflowID r; run_Tenant := run_Tenant r; Status := st;
     CurrentStep := CurrentStep r; Results := Results r; StartedAt := StartedAt r;
     CompletedAt := at_; run_Error := err |}.

(** [m[k]] of a map of strings: the empty string when absent. *)
Definition cfg (k : string) (s : Step) : string := default "" (Config s !! k).

(** ** Substitution *)

(** [indexOf], as the text before and after the first occurrence. *)
(* [modules/workflow/engine.go:indexOf] *)
Definition indexOf (s sub : string) : option (string * string) := find sub s.

(** The loop of [substituteVar] does not always end: [None] when [fuel] rounds
    are not enough. *)
(* [modules/workflow/engine.go:substituteVar] *)
Fixpoint substituteVar (fuel : nat) (s old new : string) : option string :=
  match indexOf s old with
  | None => Some s
  | Some (a, b) => match fuel with
                   | O => None
                   | S fuel' => substituteVar fuel' (a +:+ new +:+ b) old new
                   end
  end.

Section Engine.

(** ** The outside world

    What the bus, the HTTP client, the operator and the clock answer.  Calls are
    numbered; each answer may depend on its number.  [map_order] is the order in
    which the language iterates over the results of the run, [par_order] the
    order in which the goroutines of a parallel step run. *)
Inductive chat_reply := ChatError (e : error) | ChatOther (type_name : string) | ChatContent (s : string).
Inductive approval_reply := ApprovalError (e : error) | ApprovalString (s : string) | ApprovalOther.
Record Env := {
  env_chat : nat -> string -> string -> string -> chat_reply;  (* agent, tenant, message *)
  env_webhook : nat -> Step -> Result string + (string * error);
  env_input : nat -> option string;
  env_approval : nat -> approval_reply;
  env_start : nat -> time;
  env_end : nat -> time;
  env_map_order : nat -> list string;
  env_par_order : nat -> list nat;
}.
Context (env : Env).
(** [time.ParseDuration] (0 when it fails) and [Duration.String]. *)
Context (ParseDuration : string -> duration) (DurationString : duration -> string).
(** [e.workflows[run.WorkflowID]] while the run executes. *)
Context (registered : option Workflow).
(** Rounds allowed to one substitution. *)
Context (sub_fuel : nat).

(** The run being mutated, and the number of calls made so far. *)
Definition State : Type := Run * nat.

Definition mk_result (n : nat) (id status output err : string) : StepResult :=
  {| StepID := id; r_Status := status; Output := output; r_Error := err;
     Duration := (env_end env n - env_start env n)%Z; Timestamp := env_end env n |}.

(** ** Steps without sub-steps *)

(** [fmt]'s [%v] of a map: sorted by key. *)
Definition key_le : relation (string * string) := fun a b => String.leb a.1 b.1 = true.
#[local] Instance key_le_dec : RelDecision key_le.
Proof. intros a b. unfold key_le. apply _. Defined.
Definition map_text (m : gmap string string) : string :=
  "map[" +:+ Join ((fun kv => kv.1 +:+ ":" +:+ kv.2) <$> merge_sort key_le (map_to_list m)) " " +:+ "]".

(** Output and error of a step that calls out. *)
Definition call_result (n : nat) (id : string) (r : string * option error) : StepResult :=
  {| StepID := id; r_Status := match r.2 with None => "success" | Some _ => "failure" end;
     Output := r.1; r_Error := default "" r.2;
     Duration := (env_end env n - env_start env n)%Z; Timestamp := env_start env n |}.

(* [modules/workflow/engine.go:Engine.executeToolCall] *)
Definition executeToolCall (n : nat) (step : Step) (run : Run) : string * option error :=
  let message := "Execute tool " +:+ cfg "tool" step +:+ " with input: " +:+
                 map_text (delete "tool" (Config step)) in
  match env_chat env n (cfg "agent" step) (run_Tenant run) message with
  | ChatError e => ("", Some e)
  | ChatOther _ => ("", Some "unexpected response")
  | ChatContent c => (c, None)
  end.

(** The keys of the results, in the order of this iteration. *)
Definition result_keys (n : nat) (run : Run) : list string :=
  if decide (env_map_order env n ≡ₚ (map_to_list (Results run)).*1) then env_map_order env n
  else (map_to_list (Results run)).*1.

Fixpoint substitute_all (keys : list string) (results : gmap string StepResult) (message : string) : option string :=
  match keys with
  | [] => Some message
  | k :: keys' =>
      message ← substituteVar sub_fuel message ("{{" +:+ k +:+ ".output}}")
                  (default "" (Output <$> results !! k));
      substitute_all keys' results message
  end.

(** [None] when a substitution does not end. *)
(* [modules/workflow/engine.go:Engine.executeAgentChat] *)
Definition executeAgentChat (n : nat) (step : Step) (run : Run) : option (string * option error) :=
  message ← substitute_all (result_keys n run) (Results run) (cfg "message" step);
  Some match env_chat env n (cfg "agent" step) (run_Tenant run) message with
       | ChatError e => ("", Some e)
       | ChatOther t => ("", Some ("unexpected response type: " +:+ t))
       | ChatContent c => (c, None)
       end.

(** The request itself is the environment's; a URL the guard refuses, or a request
    that fails, is an error without output, a status of 400 or more an error with it. *)
(* [modules/workflow/engine.go:Engine.executeWebhook] *)
Definition executeWebhook (n : nat) (step : Step) : string * option error :=
  match env_webhook env n step with
  | inl (Ok body) => (body, None)
  | inl (Err e) => ("", Some e)
  | inr (body, e) => (body, Some e)
  end.

(* [modules/workflow/engine.go:Engine.executeHumanInputStep] *)
Definition executeHumanInputStep (n : nat) (step : Step) (run : Run) : StepResult * Run :=
  (match env_input env n with
   | Some input => mk_result n (s_ID step) "success" input ""
   | None => mk_result n (s_ID step) "failure" "" "input timeout"
   end, set_status RunWaitingInput run).

(* [modules/workflow/engine.go:Engine.executeApprovalStep] *)
Definition executeApprovalStep (n : nat) (step : Step) (run : Run) : StepResult * Run :=
  (match env_approval env n with
   | ApprovalError e => mk_result n (s_ID step) "failure" "" ("approval unavailable: " +:+ e)
   | ApprovalString s =>
       if decide (s = "approved") then mk_result n (s_ID step) "success" "approved" ""
       else mk_result n (s_ID step) "failure" "" ("approval denied: " +:+ s)
   | ApprovalOther => mk_result n (s_ID step) "failure" "" "approval denied: "
   end, set_status RunWaitingInput run).

(* [modules/workflow/engine.go:Engine.executeStep@378-388] *)
Definition executeCondition (n : nat) (step : Step) (run : Run) : StepResult :=
  {| StepID := s_ID step;
     r_Status := match Results run !! cfg "check_step" step with
                 | Some prev => if decide (r_Status prev = "success") then "success" else "failure"
                 | None => "failure"
                 end;
     Output := ""; r_Error := ""; Duration := (env_end env n - env_start env n)%Z;
     Timestamp := env_start env n |}.

(** ** Steps with sub-steps *)

(** [stepMap[id]]: a later step of the same ID wins. *)
Definition step_of (steps : list Step) (id : string) : option Step :=
  list_find (fun s => s_ID s = id) (reverse steps) ≫= (fun x => Some x.2).

(** The body step of a loop: the first step of that ID, the zero step when none. *)
Definition body_of (id : string) : Step :=
  match registered with
  | Some wf => match list_find (fun s => s_ID s = id) (Steps wf) with
               | Some (_, s) => s
               | None => zero_step
               end
  | None => zero_step
  end.

Definition nl : string := String "010" "".

(** The items a loop iterates over. *)
(* [modules/workflow/engine.go:Engine.executeLoopStep@575-586] *)
Definition loop_items (step : Step) (run : Run) : list string :=
  if decide (LoopOver step = "") then
    match Config step !! "loop_source" with
    | Some ref => match Results run !! ref with
                  | Some prev => split "010" (Output prev)
                  | None => [""]
                  end
    | None => [""]
    end
  else split "," (LoopOver step).

(** The step of iteration [i], with the item substituted in its config. *)
(* [modules/workflow/engine.go:Engine.executeLoopStep@613-620] *)
Definition iter_step (step body : Step) (i : nat) (item : string) : Step :=
  {| s_ID := s_ID step +:+ "_iter_" +:+ itoa (Z.of_nat i); s_Name := s_Name body; s_Type := s_Type body;
     Config := (fun v => ReplaceAll v "{{item}}" item) <$> Config body;
     OnSuccess := OnSuccess body; OnFailure := OnFailure body; RetryCount := RetryCount body;
     Timeout := Timeout body; SubSteps := SubSteps body; LoopOver := LoopOver body |}.

(** A step executor: the result and the new state, [None] when it does not return. *)
Definition Exec : Type := Step -> State -> option (StepResult * State).

(** One goroutine of a parallel step. *)
(* [modules/workflow/engine.go:Engine.executeParallelStep@531-543] *)
Definition run_sub (exec : Exec) (subID : string) (st : State) : option (StepResult * State) :=
  match step_of (default [] (Steps <$> registered)) subID with
  | None => Some ({| StepID := subID; r_Status := "failure"; Output := ""; r_Error := "sub-step not found";
                     Duration := 0; Timestamp := 0 |}, st)
  | Some s => exec s st
  end.

(** The goroutines, in the order they run, each to its end; the results by index. *)
Fixpoint run_subs (exec : Exec) (subs : list (nat * string)) (st : State) (acc : gmap nat StepResult) :
    option (gmap nat StepResult * State) :=
  match subs with
  | [] => Some (acc, st)
  | (i, subID) :: subs' =>
      '(r, st) ← run_sub exec subID st;
      run_subs exec subs' st (<[i := r]> acc)
  end.

Definition par_order (n : nat) (subs : list string) : list (nat * string) :=
  let order := if decide (env_par_order env n ≡ₚ seq 0 (length subs)) then env_par_order env n
               else seq 0 (length subs) in
  order ≫= (fun i => match subs !! i with Some id => [(i, id)] | None => [] end).

Definition record_results (rs : list StepResult) (run : Run) : Run :=
  foldl (fun run r => set_result (StepID r) r run) run rs.

(* [modules/workflow/engine.go:Engine.executeParallelStep] *)
Definition executeParallelStep (exec : Exec) (n : nat) (step : Step) (st : State) : option (StepResult * State) :=
  if decide (SubSteps step = []) then
    Some (mk_result n (s_ID step) "failure" "" "no sub-steps defined", st)
  else
    '(acc, st) ← run_subs exec (par_order n (SubSteps step)) st ∅;
    let rs := seq 0 (length (SubSteps step)) ≫= (fun i => option_list (acc !! i)) in
    let ok := forallb (fun r => bool_decide (r_Status r = "success")) rs in
    Some (mk_result n (s_ID step) (if ok then "success" else "failure")
            (Join (Output <$> rs) (nl +:+ "---" +:+ nl)) "",
          (record_results rs st.1, st.2)).

Fixpoint run_items (exec : Exec) (step body : Step) (i : nat) (items : list string) (st : State) :
    option (list string * State) :=
  match items with
  | [] => Some ([], st)
  | item :: items' =>
      let item := TrimSpace item in
      if decide (item = "") then run_items exec step body (S i) items' st
      else
        let it := iter_step step body i item in
        '(r, st) ← exec it st;
        '(outs, st) ← run_items exec step body (S i) items' (set_result (s_ID it) r st.1, st.2);
        Some (Output r :: outs, st)
  end.

(* [modules/workflow/engine.go:Engine.executeLoopStep] *)
Definition executeLoopStep (exec : Exec) (n : nat) (step : Step) (st : State) : option (StepResult * State) :=
  let items := loop_items step st.1 in
  let bodyStepID := cfg "body_step" step in
  if decide (bodyStepID = "") then
    Some (mk_result n (s_ID step) "failure" "" "body_step not configured", st)
  else
    '(outs, st) ← run_items exec step (body_of bodyStepID) 0 items st;
    Some (mk_result n (s_ID step) "success" (Join outs nl) "", st).

(** [fuel] bounds the nesting of parallel and loop steps. *)
(* [modules/workflow/engine.go:Engine.executeStep] *)
Fixpoint executeStep (fuel : nat) (step : Step) (st : State) : option (StepResult * State) :=
  let n := st.2 in
  let run := st.1 in
  let st := (run, S n) in
  let id := s_ID step in
  if decide (s_Type step = StepToolCall) then Some (call_result n id (executeToolCall n step run), st)
  else if decide (s_Type step = StepAgentChat) then
    r ← executeAgentChat n step run; Some (call_result n id r, st)
  else if decide (s_Type step = StepWebhook) then Some (call_result n id (executeWebhook n step), st)
  else if decide (s_Type step = StepDelay) then
    Some (call_result n id ("waited " +:+ DurationString (ParseDuration (cfg "duration" step)), None), st)
  else if decide (s_Type step = StepCondition) then Some (executeCondition n step run, st)
  else if decide (s_Type step = StepParallel) then
    match fuel with O => None | S fuel' => executeParallelStep (executeStep fuel') n step st end
  else if decide (s_Type step = StepLoop) then
    match fuel with O => None | S fuel' => executeLoopStep (executeStep fuel') n step st end
  else if decide (s_Type step = StepHumanInput) then
    let '(r, run) := executeHumanInputStep n step run in Some (r, (run, S n))
  else if decide (s_Type step = StepApproval) then
    let '(r, run) := executeApprovalStep n step run in Some (r, (run, S n))
  else Some (call_result n id ("", Some ("unknown step type: " +:+ s_Type step)), st).

(** ** Runs *)

(* [modules/workflow/engine.go:Engine.failRun] *)
Definition failRun (now : time) (err : string) (run : Run) : Run := set_end RunFailed err now run.

(** One try of a step: executed, its result stored. *)
Definition attempt (exec : Exec) (step : Step) (st : State) : option (StepResult * State) :=
  '(r, st) ← exec step st; Some (r, (set_result (s_ID step) r st.1, st.2)).

(** The retry loop: whether some retry succeeded. *)
(* [modules/workflow/engine.go:Engine.executeWorkflow@296-310] *)
Fixpoint retry (exec : Exec) (k : nat) (step : Step) (st : State) : option (bool * State) :=
  match k with
  | O => Some (false, st)
  | S k' =>
      '(r, st) ← attempt exec step st;
      if decide (r_Status r = "success") then Some (true, st) else retry exec k' step st
  end.

(** [fuel] bounds the number of steps executed: [None] when the run is still going. *)
(* [modules/workflow/engine.go:Engine.executeWorkflow] *)
Fixpoint workflow_loop (fuel : nat) (exec : Exec) (steps : list Step) (currentID : string) (st : State) :
    option State :=
  if decide (currentID = "") then Some (set_end RunCompleted (run_Error st.1) (env_end env st.2) st.1, st.2)
  else
    match fuel with
    | O => None
    | S fuel' =>
        match step_of steps currentID with
        | None => Some (failRun (env_end env st.2) ("step " +:+ quote currentID +:+ " not found") st.1, st.2)
        | Some step =>
            '(result, st) ← attempt exec step (set_current currentID st.1, st.2);
            if decide (r_Status result = "success") then workflow_loop fuel' exec steps (OnSuccess step) st
            else
              '(retried, st) ← retry exec (Z.to_nat (RetryCount step)) step st;
              if retried : bool then workflow_loop fuel' exec steps (OnSuccess step) st
              else if decide (OnFailure step = "") then
                Some (failRun (env_end env st.2)
                        ("step " +:+ quote (s_ID step) +:+ " failed: " +:+ r_Error result) st.1, st.2)
              else workflow_loop fuel' exec steps (OnFailure step) st
        end
    end.

Definition executeWorkflow (fuel nest : nat) (wf : Workflow) (run : Run) : option State :=
  workflow_loop fuel (executeStep nest) (Steps wf) (StartStep wf) (run, 0).
End Engine.

(** ** Handlers *)

Inductive Payload :=
  | PWorkflow (wf : Workflow) | PTrigger (t : Trigger) | PMap (m : gmap string string)
  | PString (s : string) | POther (type_name : string).
Definition type_name (p : Payload) : string :=
  match p with
  | PWorkflow _ => "workflow.Workflow" | PTrigger _ => "workflow.Trigger"
  | PMap _ => "map[string]string" | PString _ => "string" | POther t => t
  end.

(** [waitingInputs] holds one-element channels: their buffered input, if any. *)
(* [modules/workflow/engine.go:Engine] *)
Record Engine := {
  workflows : gmap string Workflow; runs : gmap string Run;
  waitingInputs : gmap string (option string); triggers : list Trigger; counter : Z;
  regexCache : gset string;
}.

(* [modules/workflow/engine.go:New] *)
Definition New : Engine :=
  {| workflows := ∅; runs := ∅; waitingInputs := ∅; triggers := []; counter := 0; regexCache := ∅ |}.

(* [modules/workflow/engine.go:maxPatternLen] *)
Definition maxPatternLen : nat := 512.

Section Handlers.
(** Whether [regexp.Compile] accepts a pattern (and the error when it does not), and
    whether the compiled pattern matches a text. *)
Context (Compile : string -> Result unit) (MatchString : string -> string -> bool).

(* [modules/workflow/engine.go:Engine.compilePattern] *)
Definition compilePattern (pattern : string) (e : Engine) : Engine * Result unit :=
  if decide (pattern = "") then (e, Err "empty pattern")
  else if decide (maxPatternLen < String.length pattern) then
    (e, Err ("pattern exceeds " +:+ itoa (Z.of_nat maxPatternLen) +:+ " bytes"))
  else if decide (pattern ∈ regexCache e) then (e, Ok tt)
  else match Compile pattern with
       | Err er => (e, Err er)
       | Ok _ =>
           ({| workflows := workflows e; runs := runs e; waitingInputs := waitingInputs e;
               triggers := triggers e; counter := counter e; regexCache := {[pattern]} ∪ regexCache e |}, Ok tt)
       end.

(* [modules/workflow/engine.go:Engine.handleRegister] *)
Definition handleRegister (p : Payload) (e : Engine) : Engine * Result string :=
  match p with
  | PWorkflow wf =>
      let n := if decide (wf_ID wf = "") then wrap64 (counter e + 1) else counter e in
      let id := if decide (wf_ID wf = "") then "wf_" +:+ itoa n else wf_ID wf in
      ({| workflows := <[id := {| wf_ID := id; wf_Name := wf_Name wf; Description := Description wf;
            wf_Tenant := wf_Tenant wf; StartStep := StartStep wf; Steps := Steps wf |}]> (workflows e);
          runs := runs e; waitingInputs := waitingInputs e; triggers := triggers e; counter := n;
          regexCache := regexCache e |}, Ok id)
  | _ => (e, Err ("expected Workflow, got " +:+ type_name p))
  end.

(** The run started, to be executed by a goroutine. *)
(* [modules/workflow/engine.go:Engine.handleRun] *)
Definition handleRun (now : time) (p : Payload) (e : Engine) : Engine * Result (string * (Workflow * Run)) :=
  match p with
  | PMap req =>
      let wfID := default "" (req !! "workflow_id") in
      match workflows e !! wfID with
      | None => (e, Err ("workflow " +:+ quote wfID +:+ " not found"))
      | Some wf =>
          let n := wrap64 (counter e + 1) in
          let runID := "run_" +:+ itoa n in
          let run := {| run_ID := runID; WorkflowID := wfID; run_Tenant := wf_Tenant wf; Status := RunRunning;
                        CurrentStep := StartStep wf; Results := ∅; StartedAt := now; CompletedAt := 0;
                        run_Error := "" |} in
          ({| workflows := workflows e; runs := <[runID := run]> (runs e);
              waitingInputs := waitingInputs e; triggers := triggers e; counter := n;
              regexCache := regexCache e |}, Ok (runID, (wf, run)))
      end
  | _ => (e, Err "expected map[string]string with workflow_id")
  end.

(* [modules/workflow/engine.go:Engine.handleStatus] *)
Definition handleStatus (p : Payload) (e : Engine) : Result Run :=
  match p with
  | PString runID => match runs e !! runID with
                     | Some r => Ok r
                     | None => Err ("run " +:+ quote runID +:+ " not found")
                     end
  | _ => Err "expected string run ID"
  end.

(* [modules/workflow/engine.go:Engine.handleGet] *)
Definition handleGet (p : Payload) (e : Engine) : Result Workflow :=
  match p with
  | PString id => match workflows e !! id with
                  | Some wf => Ok wf
                  | None => Err ("workflow " +:+ quote id +:+ " not found")
                  end
  | _ => Err ("expected string, got " +:+ type_name p)
  end.

(** In the order of the map iteration. *)
(* [modules/workflow/engine.go:Engine.handleList] *)
Definition handleList (e : Engine) : list string := (map_to_list (workflows e)).*1.
(* [modules/workflow/engine.go:Engine.handleListRuns] *)
Definition handleListRuns (e : Engine) : list Run := (map_to_list (runs e)).*2.

(** [None]: the send blocks, an input being buffered already. *)
(* [modules/workflow/engine.go:Engine.handleSubmitInput] *)
Definition handleSubmitInput (p : Payload) (e : Engine) : Engine * option (Result string) :=
  match p with
  | PMap params =>
      let runID := default "" (params !! "run_id") in
      let input := default "" (params !! "input") in
      match waitingInputs e !! runID with
      | None => (e, Some (Err ("no waiting input for run " +:+ quote runID)))
      | Some (Some _) => (e, None)
      | Some None =>
          ({| workflows := workflows e; runs := runs e;
              waitingInputs := <[runID := Some input]> (waitingInputs e); triggers := triggers e;
              counter := counter e; regexCache := regexCache e |}, Some (Ok "submitted"))
      end
  | _ => (e, Some (Err ("expected map[string]string, got " +:+ type_name p)))
  end.

(* [modules/workflow/engine.go:Engine.handleTriggerAdd] *)
Definition handleTriggerAdd (p : Payload) (e : Engine) : Engine * Result string :=
  match (match p with
         | PTrigger t => Some t
         | PMap m => Some {| t_Type := default "" (m !! "type"); t_Pattern := default "" (m !! "pattern");
                             t_WorkflowID := default "" (m !! "workflow_id") |}
         | _ => None
         end) with
  | None => (e, Err ("expected Trigger, got " +:+ type_name p))
  | Some trigger =>
      match compilePattern (t_Pattern trigger) e with
      | (e, Err er) => (e, Err ("invalid trigger pattern: " +:+ er))
      | (e, Ok _) =>
          ({| workflows := workflows e; runs := runs e; waitingInputs := waitingInputs e;
              triggers := triggers e ++ [trigger]; counter := counter e; regexCache := regexCache e |},
           Ok "added")
      end
  end.

(* [modules/workflow/engine.go:Engine.handleTriggerList] *)
Definition handleTriggerList (e : Engine) : list Trigger := triggers e.

Fixpoint match_triggers (ts : list Trigger) (eventType eventDetail : string) (e : Engine) : Engine * list string :=
  match ts with
  | [] => (e, [])
  | t :: ts' =>
      if decide (t_Type t <> "audit_event") then match_triggers ts' eventType eventDetail e
      else match compilePattern (t_Pattern t) e with
           | (e, Err _) => match_triggers ts' eventType eventDetail e
           | (e, Ok _) =>
               let '(e, started) := match_triggers ts' eventType eventDetail e in
               (e, if MatchString (t_Pattern t) eventType || MatchString (t_Pattern t) eventDetail
                   then t_WorkflowID t :: started else started)
           end
  end.

(** The workflows started by an activity event ([None]: another payload). *)
(* [modules/workflow/engine.go:Engine.handleActivityEvent] *)
Definition handleActivityEvent (evt : option (string * string)) (e : Engine) : Engine * list string :=
  match triggers e, evt with
  | [], _ | _, None => (e, [])
  | ts, Some (eventType, eventDetail) => match_triggers ts eventType eventDetail e
  end.
End Handlers.

(** ** The approval request on the bus *)

(* [modules/policy/engine.go:Engine.Start] *)
Definition policy_topics : list string :=
  ["policy.check"; "policy.list"; "policy.approval.submit"; "approval.list"; "approval.approve";
   "approval.deny"; "approval.get"].
Definition policy_Start {P} (h : string -> nat) (b : @Bus P) : option Bus :=
  foldl (fun ob t => b ← ob; Handle "policy" t (h t) b) (Some b) policy_topics.

Definition approval_topic : string := "policy.request_approval".

(** ** Substitution *)

Lemma substituteVar_diverges old new : find old new <> None ->
  forall fuel s, find old s <> None -> substituteVar fuel s old new = None.
Proof.
  intros Hn fuel. induction fuel as [|fuel IH]; intros s Hs; simpl; unfold indexOf.
  - destruct (find old s) as [[a b]|]; done.
  - destruct (find old s) as [[a b]|]; [|done]. apply IH. by apply find_prefix, find_suffix.
Qed.

Fixpoint count (c : ascii) (s : string) : nat :=
  match s with "" => 0 | String d s' => (if decide (d = c) then 1 else 0) + count c s' end.

Lemma count_app c s t : count c (s +:+ t) = count c s + count c t.
Proof. induction s as [|d s IH]; [done|]. rewrite str_app_cons. simpl. rewrite IH. lia. Qed.

Lemma count_length c s : count c s <= String.length s.
Proof. induction s as [|d s IH]; simpl; [lia|]. case_decide; lia. Qed.

Lemma substituteVar_ends c old new : count c new = 0 -> 0 < count c old ->
  forall fuel s, count c s <= fuel ->
  exists r, substituteVar fuel s old new = Some r /\ find old r = None.
Proof.
  intros Hn Ho fuel. induction fuel as [|fuel IH]; intros s Hs; simpl; unfold indexOf.
  - destruct (find old s) as [[a b]|] eqn:E; [|eauto].
    apply find_spec in E. rewrite E, !count_app in Hs. lia.
  - destruct (find old s) as [[a b]|] eqn:E; [|eauto].
    apply find_spec in E. apply IH. rewrite E, !count_app in Hs. rewrite !count_app. lia.
Qed.

(** ** Runs end in a final state *)

Definition final (r : Run) : Prop := Status r = RunCompleted \/ Status r = RunFailed.

Lemma workflow_loop_final env exec steps fuel : forall cur st st',
  workflow_loop env fuel exec steps cur st = Some st' ->
  final st'.1 /\ CompletedAt st'.1 = env_end env st'.2 /\ (Status st'.1 = RunFailed -> run_Error st'.1 <> "").
Proof.
  induction fuel as [|fuel IH]; intros cur st st'; simpl; case_decide.
  1, 3: intros [= <-]; simpl; split; [by left|done].
  { done. }
  destruct (step_of steps cur) as [step|]; [|intros [= <-]; simpl; split; [by right|done]].
  intros ([r st1] & _ & Hk)%bind_Some. revert Hk. case_decide; [by apply IH|].
  intros ([b st2] & _ & Hk)%bind_Some. destruct b; [by apply IH in Hk|].
  revert Hk. case_decide; [intros [= <-]; simpl; split; [by right|done]|]. apply IH.
Qed.

(** Steps that return from the states of an invariant, which they and the engine's bookkeeping keep. *)
Definition returns_within (exec : Exec) (steps : list Step) (I : State -> Prop) : Prop :=
  (forall id st, I st -> I (set_current id st.1, st.2)) /\
  forall s st, s ∈ steps -> I st -> exists r st', exec s st = Some (r, st') /\ I (set_result (s_ID s) r st'.1, st'.2).

Lemma attempt_total exec steps I step st : returns_within exec steps I -> step ∈ steps -> I st ->
  exists r st', attempt exec step st = Some (r, st') /\ I st'.
Proof. intros [_ H] Hs Hi. destruct (H step st Hs Hi) as (r & st' & He & Hi'). unfold attempt. rewrite He. simpl. eauto. Qed.

Lemma retry_total exec steps I step k : returns_within exec steps I -> step ∈ steps -> forall st, I st ->
  exists b st', retry exec k step st = Some (b, st') /\ I st'.
Proof.
  intros HI Hs. induction k as [|k IH]; intros st Hi; simpl; [eauto|].
  destruct (attempt_total exec steps I step st HI Hs Hi) as (r & st1 & -> & Hi1). simpl. case_decide; eauto.
Qed.

Definition acyclic (steps : list Step) (rank : string -> nat) : Prop :=
  forall s, s ∈ steps -> forall t, t = OnSuccess s \/ t = OnFailure s -> t = "" \/ rank t < rank (s_ID s).

Lemma workflow_loop_total env exec steps I rank : returns_within exec steps I -> acyclic steps rank ->
  forall fuel cur st, rank cur < fuel -> I st -> exists st', workflow_loop env fuel exec steps cur st = Some st'.
Proof.
  intros HI Hacyc fuel. induction fuel as [|fuel IH]; intros cur st Hr Hi; [lia|]. simpl.
  case_decide; [eauto|]. destruct (step_of steps cur) as [step|] eqn:E; [|eauto].
  unfold step_of in E. apply bind_Some in E as ([i x] & E & [= ->]).
  apply list_find_Some in E as (Hl & Hid & _). apply list_elem_of_lookup_2 in Hl.
  rewrite elem_of_reverse in Hl. simpl in Hid.
  assert (Hgo : forall t st', I st' -> t = OnSuccess step \/ t = OnFailure step ->
    exists st'', workflow_loop env fuel exec steps t st' = Some st'').
  { intros t st' Hi' Ht. destruct (Hacyc step Hl t Ht) as [->|Hlt]; [destruct fuel; simpl; eauto|].
    apply IH; [|done]. rewrite Hid in Hlt. lia. }
  destruct (attempt_total exec steps I step (set_current cur st.1, st.2) HI Hl) as (r & st1 & -> & Hi1); [by apply HI|].
  simpl. case_decide; [apply Hgo; [done|by left]|].
  destruct (retry_total exec steps I step (Z.to_nat (RetryCount step)) HI Hl st1 Hi1) as (b & st2 & -> & Hi2). simpl.
  destruct b; [apply Hgo; [done|by left]|]. case_decide; [eauto|]. apply Hgo; [done|by right].
Qed.

(** ** Steps that return *)

Definition plain_text (s : string) : Prop := count "{" s = 0.
(** The outside world answers without a brace. *)
Definition plain_world (env : Env) (ds : duration -> string) : Prop :=
  (forall n a t m c, env_chat env n a t m = ChatContent c -> plain_text c) /\
  (forall n s b, env_webhook env n s = inl (Ok b) -> plain_text b) /\
  (forall n s b e, env_webhook env n s = inr (b, e) -> plain_text b) /\
  (forall n i, env_input env n = Some i -> plain_text i) /\ (forall d, plain_text (ds d)).
Definition plain_results (st : State) : Prop := map_Forall (fun _ r => plain_text (Output r)) (Results st.1).
Definition flat (s : Step) : Prop := s_Type s <> StepParallel /\ s_Type s <> StepLoop.

Lemma substituteVar_plain old new : plain_text new -> 0 < count "{" old -> forall fuel s, count "{" s <= fuel ->
  exists r, substituteVar fuel s old new = Some r /\ count "{" r <= count "{" s.
Proof.
  intros Hn Ho fuel. induction fuel as [|fuel IH]; intros s Hs; simpl; unfold indexOf.
  - destruct (find old s) as [[a b]|] eqn:E; [|eauto]. apply find_spec in E. rewrite E, !count_app in Hs. lia.
  - destruct (find old s) as [[a b]|] eqn:E; [|eauto]. apply find_spec in E.
    assert (Hc : count "{" (a +:+ new +:+ b) < count "{" s) by (rewrite E, !count_app; unfold plain_text in Hn; lia).
    destruct (IH (a +:+ new +:+ b)) as (r & Hr & Hle); [lia|]. exists r. split; [done|lia].
Qed.
Lemma substitute_all_plain sf results keys : map_Forall (fun _ r => plain_text (Output r)) results ->
  forall message, count "{" message <= sf -> exists r, substitute_all sf keys results message = Some r.
Proof.
  intros Hp. induction keys as [|k keys IH]; intros message Hm; simpl; [eauto|].
  destruct (substituteVar_plain ("{{" +:+ k +:+ ".output}}") (default "" (Output <$> results !! k)) ltac:(
    destruct (results !! k) eqn:E; [by apply (Hp k)|done]) ltac:(rewrite !count_app; simpl; lia) sf message Hm) as (r & -> & Hle).
  simpl. apply IH. lia.
Qed.

(** A step that returned, with a plain output, and left the results to the caller. *)
Definition returned (st : State) (x : option (StepResult * State)) : Prop :=
  exists r st', x = Some (r, st') /\ plain_text (Output r) /\ Results st'.1 = Results st.1.
Lemma returned_call env n id (st : State) o e k : plain_text o -> returned st (Some (call_result env n id (o, e), (st.1, k))).
Proof. intros H. by eexists _, _. Qed.
Lemma tool_plain env ds n s run : plain_world env ds -> plain_text (executeToolCall env n s run).1.
Proof. intros (H & _). unfold executeToolCall. destruct (env_chat _ _ _ _ _) eqn:E; [done|done|]. by eapply H. Qed.
Lemma webhook_plain env ds n s : plain_world env ds -> plain_text (executeWebhook env n s).1.
Proof. intros (_ & H1 & H2 & _). unfold executeWebhook. destruct (env_webhook _ _ _) as [[b|e]|[b e]] eqn:E; [by eapply H1|done|by eapply H2]. Qed.
Lemma chat_plain env ds sf n s run : plain_world env ds -> plain_results (run, n) -> count "{" (cfg "message" s) <= sf ->
  exists o e, executeAgentChat env sf n s run = Some (o, e) /\ plain_text o.
Proof.
  intros (H & _) Hr Hm. unfold executeAgentChat.
  destruct (substitute_all_plain sf (Results run) (result_keys env n run) Hr (cfg "message" s) Hm) as (m & ->). cbn.
  destruct (env_chat _ _ _ _ _) as [e|t|c] eqn:E; eexists _, _; (split; [reflexivity|]); [done|done|by eapply H].
Qed.

Lemma flat_step_returns env pd ds reg sf nest s st : plain_world env ds -> flat s -> count "{" (cfg "message" s) <= sf ->
  plain_results st -> returned st (executeStep env pd ds reg sf nest s st).
Proof.
  intros Hw [Hp Hl] Hm Hr.
  assert (Hcall : forall x : string * option error, plain_text x.1 ->
    returned st (Some (call_result env st.2 (s_ID s) x, (st.1, S st.2)))) by (intros [o e]; apply returned_call).
  pose proof Hw as (_ & _ & _ & Hin & Hds).
  assert (Hstep : forall par loop, (s_Type s = StepParallel -> False) -> (s_Type s = StepLoop -> False) -> returned st (
    if decide (s_Type s = StepToolCall) then Some (call_result env st.2 (s_ID s) (executeToolCall env st.2 s st.1), (st.1, S st.2))
    else if decide (s_Type s = StepAgentChat) then
      r ← executeAgentChat env sf st.2 s st.1; Some (call_result env st.2 (s_ID s) r, (st.1, S st.2))
    else if decide (s_Type s = StepWebhook) then Some (call_result env st.2 (s_ID s) (executeWebhook env st.2 s), (st.1, S st.2))
    else if decide (s_Type s = StepDelay) then
      Some (call_result env st.2 (s_ID s) ("waited " +:+ ds (pd (cfg "duration" s)), None), (st.1, S st.2))
    else if decide (s_Type s = StepCondition) then Some (executeCondition env st.2 s st.1, (st.1, S st.2))
    else if decide (s_Type s = StepParallel) then par
    else if decide (s_Type s = StepLoop) then loop
    else if decide (s_Type s = StepHumanInput) then
      let '(r, run) := executeHumanInputStep env st.2 s st.1 in Some (r, (run, S st.2))
    else if decide (s_Type s = StepApproval) then
      let '(r, run) := executeApprovalStep env st.2 s st.1 in Some (r, (run, S st.2))
    else Some (call_result env st.2 (s_ID s) ("", Some ("unknown step type: " +:+ s_Type s)), (st.1, S st.2)))).
  { intros par loop Hpar Hloop. case_decide; [by eapply Hcall, tool_plain|].
    case_decide; [destruct (chat_plain env ds sf st.2 s st.1 Hw Hr Hm) as (o & e & -> & Ho); by apply Hcall|].
    case_decide; [by eapply Hcall, webhook_plain|]. case_decide.
    { apply Hcall. pose proof (Hds (pd (cfg "duration" s))) as Hd. unfold plain_text in *. cbn [fst]. by rewrite count_app, Hd. }
    case_decide; [by eexists _, _|]. case_decide; [done|]. case_decide; [done|]. case_decide.
    { eexists _, _. split; [reflexivity|]. split; [|done]. destruct (env_input env st.2) eqn:E; [by eapply Hin|done]. }
    case_decide; [|by apply Hcall]. eexists _, _. split; [reflexivity|]. split; [|done].
    destruct (env_approval env st.2); [done| |done]. by case_decide. }
  destruct nest; exact (Hstep _ _ Hp Hl).
Qed.

Lemma flat_steps_return env pd ds reg sf nest steps : plain_world env ds ->
  Forall (fun s => flat s /\ count "{" (cfg "message" s) <= sf) steps ->
  returns_within (executeStep env pd ds reg sf nest) steps plain_results.
Proof.
  intros Hw Hs. split; [done|]. intros s st Hin Hr. rewrite Forall_forall in Hs. destruct (Hs s Hin) as [Hf Hm].
  destruct (flat_step_returns env pd ds reg sf nest s st Hw Hf Hm Hr) as (r & st' & He & Hp & Heq).
  exists r, st'. split; [done|]. unfold plain_results, set_result. cbn. rewrite Heq. by apply map_Forall_insert_2.
Qed.

(** ** Registering other topics does not register this one *)

Lemma policy_Start_keeps {P} (h : string -> nat) ts : forall b b' : @Bus P,
  closed b = false -> handler_at "policy" approval_topic b = None -> approval_topic ∉ ts ->
  foldl (fun ob t => b ← ob; Handle "policy" t (h t) b) (Some b) ts = Some b' ->
  closed b' = false /\ handler_at "policy" approval_topic b' = None.
Proof.
  induction ts as [|t ts IH]; intros b b' Hc Hn Hni; simpl; [by intros [= <-]|].
  apply not_elem_of_cons in Hni as [Hne Hni]. destruct (Handle "policy" t (h t) b) as [b1|] eqn:E.
  - destruct (Handle_inv _ _ _ _ _ E) as (b2 & Hh & Hcl & _ & _ & _ & ->).
    apply IH; [simpl; congruence| |done].
    rewrite handler_at_insert, decide_False by (by intros [_ ?]). unfold handler_at in *. by rewrite Hh.
  - intros H. exfalso. clear -H. induction ts; simpl in *; [done|]. by apply IHts.
Qed.

(** ** Properties *)

(** Replacing "{{step.output}}" in a message ends, with no placeholder left, whenever the replacing output has no "{"; when the output contains the placeholder itself and the message mentions it, the replacement loop never ends, whatever the number of rounds. *)
Lemma substituteVar_termination s k new fuel :
  let old := "{{" +:+ k +:+ ".output}}" in
  (count "{" new = 0 -> exists r, substituteVar (String.length s) s old new = Some r /\ find old r = None) /\
  (find old new <> None -> find old s <> None -> substituteVar fuel s old new = None).
Proof.
  intros old. split.
  - intros Hn. apply (substituteVar_ends "{" old new Hn); [|apply count_length].
    unfold old. rewrite !count_app. simpl. lia.
  - intros Hn Hs. by apply substituteVar_diverges.
Qed.

(** C40 [termination]: every run that ends is completed or failed, with its end time set and, when failed, a
    reason.  A run whose step graph has no cycle (a rank decreases along OnSuccess and OnFailure) ends after at
    most rank + 1 steps as long as its steps return along the run: from the states of some invariant that holds at
    the start and that the steps keep.  Steps that are neither parallel nor loops do: when what agents, webhooks
    and operators answer and the results there are hold no opening brace, such a run ends, placeholders for the
    outputs of other steps included.  Otherwise an agent's step may not return: a message that mentions the output of
    the only step run so far, where that output holds the placeholder itself, is substituted without end. *)
Theorem executeWorkflow_ends env pd ds reg sf nest wf run :
  (forall fuel run' n, executeWorkflow env pd ds reg sf fuel nest wf run = Some (run', n) ->
     (Status run' = RunCompleted \/ Status run' = RunFailed) /\ CompletedAt run' = env_end env n /\
     (Status run' = RunFailed -> run_Error run' <> "")) /\
  (forall rank, acyclic (Steps wf) rank ->
     (forall I, returns_within (executeStep env pd ds reg sf nest) (Steps wf) I -> I (run, 0) ->
        executeWorkflow env pd ds reg sf (S (rank (StartStep wf))) nest wf run <> None) /\
     (plain_world env ds -> plain_results (run, 0) ->
        Forall (fun s => flat s /\ count "{" (cfg "message" s) <= sf) (Steps wf) ->
        executeWorkflow env pd ds reg sf (S (rank (StartStep wf))) nest wf run <> None)) /\
  (forall s st k x, s_Type s = StepAgentChat -> result_keys env st.2 st.1 = [k] -> Results st.1 !! k = Some x ->
     let old := "{{" +:+ k +:+ ".output}}" in
     Contains (cfg "message" s) old = true -> Contains (Output x) old = true ->
     executeStep env pd ds reg sf nest s st = None).
Proof.
  assert (Hend : forall rank I, acyclic (Steps wf) rank ->
    returns_within (executeStep env pd ds reg sf nest) (Steps wf) I -> I (run, 0) ->
    executeWorkflow env pd ds reg sf (S (rank (StartStep wf))) nest wf run <> None).
  { intros rank I Ha HI Hi. unfold executeWorkflow.
    destruct (workflow_loop_total env _ (Steps wf) I rank HI Ha (S (rank (StartStep wf))) (StartStep wf) (run, 0))
      as [st' ->]; [lia|done|done]. }
  split; [|split].
  - intros fuel run' n H. by apply workflow_loop_final in H.
  - intros rank Ha. split; [intros I HI Hi; by eapply Hend|]. intros Hw Hr Hf.
    apply (Hend rank plain_results Ha); [by apply flat_steps_return|done].
  - intros s st k x Ht Hk Hx old Hm Ho. unfold Contains in *. subst old.
    assert (Hnone : executeAgentChat env sf st.2 s st.1 = None).
    { unfold executeAgentChat. rewrite Hk. cbn [substitute_all]. rewrite Hx. cbn [fmap option_fmap option_map default].
      rewrite substituteVar_diverges; [done| |]; intros Hf; unfold id in Hf; [by rewrite Hf in Ho|by rewrite Hf in Hm]. }
    destruct nest; cbn [executeStep]; rewrite Ht, decide_False, decide_True by done; by rewrite Hnone.
Qed.

(** An approval step lets the workflow on only when the reply is exactly "approved"; and on a bus where the policy module has registered its topics the request the step sends has no handler, so the step always fails closed. *)
Lemma approval_step_blocked {P} env n step run (h : string -> nat) (b b' : @Bus P) fi ft d k msg e :
  closed b = false -> handler_at "policy" approval_topic b = None -> policy_Start h b = Some b' ->
  Target msg = "policy" -> Topic msg = approval_topic -> Request fi ft d k msg b' = Err e ->
  env_approval env n = ApprovalError e ->
  (forall env' n', r_Status (executeApprovalStep env' n' step run).1 = "success" <->
     env_approval env' n' = ApprovalString "approved") /\
  r_Status (executeApprovalStep env n step run).1 = "failure" /\
  r_Error (executeApprovalStep env n step run).1 = "approval unavailable: " +:+ ErrNoHandler.
Proof.
  intros Hc Hnone Hstart Ht Htop Hreq Henv. split.
  { intros env' n'. unfold executeApprovalStep. destruct (env_approval env' n') as [x|x|]; simpl; [done| |done].
    case_decide; subst; simpl; [done|]. split; [done|]. by intros [= ->]. }
  assert (He : e = ErrNoHandler).
  { destruct (policy_Start_keeps h policy_topics b b' Hc Hnone) as [Hc' Hn']; [|done|].
    { vm_compute. intros H. repeat (apply elem_of_cons in H as [H|H]; [discriminate|]). by apply elem_of_nil in H. }
    unfold Request in Hreq. rewrite Hc', Ht, Htop in Hreq. unfold handler_at in Hn'.
    destruct (handlers b' !! "policy") as [ts|]; simpl in *; [|congruence]. rewrite Hn' in Hreq. congruence. }
  subst e. unfold executeApprovalStep. rewrite Henv. done.
Qed.

(** ** Witnesses *)

Lemma substituteVar_termination_witness :
  substituteVar 1000 "say {{a.output}}" "{{a.output}}" "again {{a.output}}" = None.
Proof. apply (substituteVar_termination "say {{a.output}}" "a" "again {{a.output}}" 1000); discriminate. Defined.

Definition demo_env : Env :=
  {| env_chat := fun _ _ _ _ => ChatContent "hi"; env_webhook := fun _ _ => inl (Ok ""); env_input := fun _ => None;
     env_approval := fun _ => ApprovalError ErrNoHandler; env_start := fun n => Z.of_nat n;
     env_end := fun n => Z.of_nat n; env_map_order := fun _ => []; env_par_order := fun _ => [] |}.
Definition demo_step (id type_ next : string) : Step :=
  {| s_ID := id; s_Name := ""; s_Type := type_; Config := ∅; OnSuccess := next; OnFailure := ""; RetryCount := 1;
     Timeout := 0; SubSteps := []; LoopOver := "" |}.
(** The second step passes the first one's output on. *)
Definition demo_chat : Step :=
  {| s_ID := "b"; s_Name := ""; s_Type := StepAgentChat; Config := {["message" := "say {{a.output}}"]}; OnSuccess := "c";
     OnFailure := ""; RetryCount := 1; Timeout := 0; SubSteps := []; LoopOver := "" |}.
Definition demo_wf : Workflow :=
  {| wf_ID := "w"; wf_Name := ""; Description := ""; wf_Tenant := "t"; StartStep := "a";
     Steps := [demo_step "a" StepToolCall "b"; demo_chat; demo_step "c" StepApproval ""] |}.
Definition demo_run : Run :=
  {| run_ID := "r"; WorkflowID := "w"; run_Tenant := "t"; Status := RunRunning; CurrentStep := "a"; Results := ∅;
     StartedAt := 0; CompletedAt := 0; run_Error := "" |}.

Lemma executeWorkflow_ends_witness : exists run' n,
  executeWorkflow demo_env (fun _ => 0%Z) (fun _ => "0s") (Some demo_wf) 10 3 1 demo_wf demo_run = Some (run', n) /\
  (Status run' = RunCompleted \/ Status run' = RunFailed) /\ Results run' !! "b" <> None.
Proof.
  destruct (executeWorkflow_ends demo_env (fun _ => 0%Z) (fun _ => "0s") (Some demo_wf) 10 1 demo_wf demo_run) as (Hf & Ht & _).
  destruct (executeWorkflow demo_env (fun _ => 0%Z) (fun _ => "0s") (Some demo_wf) 10 3 1 demo_wf demo_run) as [[run' n]|] eqn:E.
  - exists run', n. split; [done|]. split; [exact (proj1 (Hf _ _ _ E))|].
    vm_compute in E. injection E as <- _. vm_compute. discriminate.
  - exfalso. destruct (Ht (fun id => if decide (id = "a") then 2 else if decide (id = "b") then 1 else 0)) as [_ Hend].
    + intros s Hs t Htt. repeat (apply elem_of_cons in Hs as [->|Hs]; [destruct Htt as [->| ->]; first [by left|right; vm_compute; lia]|]).
      by apply elem_of_nil in Hs.
    + refine (Hend _ (map_Forall_empty _) _ E).
      * unfold plain_world, demo_env, plain_text. cbn. split_and!; [by intros ? ? ? ? ? [= <-]|by intros ? ? ? [= <-]|done|done|done].
      * repeat constructor; try discriminate; vm_compute; lia.
Defined.

Definition demo_request : @Message unit :=
  {| ID := ""; Source := "workflow"; Target := "policy"; Type_ := MessageTypeRequest; Topic := approval_topic;
     Ipc.Payload := tt; Deadline := 0; TraceID := "" |}.

Lemma approval_step_blocked_witness :
  r_Status (executeApprovalStep demo_env 0 (demo_step "b" StepApproval "") demo_run).1 = "failure".
Proof.
  destruct (policy_Start (fun _ => 0) (@NewBus unit)) as [b'|] eqn:E; [|vm_compute in E; discriminate].
  refine (proj1 (proj2 (approval_step_blocked demo_env 0 (demo_step "b" StepApproval "") demo_run (fun _ => 0)
    NewBus b' "i" "t" None 0 demo_request ErrNoHandler _ _ E _ _ _ _))); try reflexivity.
  vm_compute in E. injection E as <-. vm_compute. reflexivity.
Defined.
