(* ===== verification/AuditLog.v ===== *)
(** * AuditLog: the hash-chained audit log

    [src/modules/audit]: the writer and its chain, verification, queries, daily rotation
    and the module's handlers.  A database is the list of its rows in rowid order.  The
    hash, the keyed hash and the JSON codec are arguments of the definitions; what the
    theorems use of them is stated as hypotheses. *)
From S2P Require Import Prelude Calendar.

(** ** Data *)

(* [modules/audit/types.go:Principal] *)
Record Principal := { User : string; Agent : string; Role : string }.
(* [modules/audit/types.go:Action] *)
Record Action := { a_Type : string; Module_ : string; Detail : gmap string string }.
(* [modules/audit/types.go:PolicyDecision] *)
Record PolicyDecision := { Rule : string; Decision : string; DecidedBy : string; EvaluationMs : Z }.
(* [modules/audit/types.go:Result] *)
Record Result_ := { Status : string; DurationMs : Z }.
(* [modules/audit/types.go:ChainInfo] *)
Record ChainInfo := { ParentEvent : string; Session : string }.

(* [modules/audit/types.go:Entry] *)
Record Entry := {
  ID : string; Timestamp : time; Instance : string; Tenant : string; e_Principal : Principal;
  e_Action : Action; e_Policy : PolicyDecision; e_Result : Result_; Chain : ChainInfo;
  Signature : string; PrevHash : string;
}.

(* [modules/audit/types.go:QueryFilter] *)
Record QueryFilter := {
  f_Tenant : string; f_ActionType : string; f_User : string; f_Agent : string; f_Since : time;
  f_Until : time; f_Limit : Z;
}.

(** A row of [audit_entries]. *)
Record Row := {
  id : string; timestamp : string; instance : string; tenant : string; data : string;
  signature : string; prev_hash : string; entry_hash : string;
}.

Definition genesis : string := "genesis".

Definition stamp (inst prev sig : string) (e : Entry) : Entry :=
  {| ID := ID e; Timestamp := Timestamp e; Instance := inst; Tenant := Tenant e;
     e_Principal := e_Principal e; e_Action := e_Action e; e_Policy := e_Policy e;
     e_Result := e_Result e; Chain := Chain e; Signature := sig; PrevHash := prev |}.
(** [entry.Signature = sig] *)
Definition with_signature (sig : string) (e : Entry) : Entry := stamp (Instance e) (PrevHash e) sig e.

Section Log.
Context (Marshal : Entry -> Result string) (Unmarshal : string -> Result Entry).
(** Hex of SHA-256, and of HMAC-SHA-256 with the writer's secret. *)
Context (sha256 : string -> string) (hmac : string -> string -> string).
(** SQLite's [json_extract]. *)
Context (json_extract : string -> string -> option string).

(** ** The writer *)

(* [modules/audit/writer.go:Writer] *)
Record Writer := { db : list Row; w_instance : string; secret : string; prevHash : string }.

(** Opening an existing database resumes its chain. *)
(* [modules/audit/writer.go:NewWriter] *)
Definition NewWriter (rows : list Row) (inst sec : string) : Writer :=
  {| db := rows; w_instance := inst; secret := sec;
     prevHash := match last rows with Some r => entry_hash r | None => genesis end |}.

(** [ok] is whether the insertion succeeds, apart from the primary key. *)
(* [modules/audit/writer.go:Writer.Write] *)
Definition Write (ok : bool) (entry : Entry) (w : Writer) : Writer * option error :=
  let entry := stamp (w_instance w) (prevHash w) (Signature entry) entry in
  match Marshal entry with
  | Err e => (w, Some ("marshal entry: " +:+ e))
  | Ok dat =>
      let entryHash := sha256 (prevHash w +:+ dat) in
      let sig := hmac (secret w) entryHash in
      let entry := with_signature sig entry in
      match Marshal entry with
      | Err e => (w, Some ("marshal signed entry: " +:+ e))
      | Ok dat =>
          if decide (ok = true /\ ID entry ∉ id <$> db w) then
            ({| db := db w ++ [{| id := ID entry; timestamp := RFC3339Milli (Timestamp entry);
                    instance := Instance entry; tenant := Tenant entry; data := dat; signature := sig;
                    prev_hash := prevHash w; entry_hash := entryHash |}];
                w_instance := w_instance w; secret := secret w; prevHash := entryHash |}, None)
          else (w, Some "insert entry")
      end
  end.

(** The content the hash of a row covers. *)
(* [modules/audit/writer.go:Writer.VerifyChain@122-132] *)
Definition preSignData (dat : string) : Result string :=
  rbind (Unmarshal dat) (fun e => Marshal (with_signature "" e)).

(* [modules/audit/writer.go:Writer.VerifyChain] *)
Fixpoint verify (rows : list Row) (expectedPrev : string) : option error :=
  match rows with
  | [] => None
  | r :: rows' =>
      if decide (prev_hash r <> expectedPrev) then
        Some ("chain broken at " +:+ id r +:+ ": prev_hash mismatch")
      else match Unmarshal (data r) with
      | Err e => Some ("unmarshal " +:+ id r +:+ ": " +:+ e)
      | Ok entry =>
          match Marshal (with_signature "" entry) with
          | Err e => Some ("remarshal " +:+ id r +:+ ": " +:+ e)
          | Ok pre =>
              let computed := sha256 (prev_hash r +:+ pre) in
              if decide (computed <> entry_hash r) then
                Some ("chain broken at " +:+ id r +:+ ": entry_hash mismatch (computed " +:+ computed +:+
                      ", stored " +:+ entry_hash r +:+ ")")
              else verify rows' (entry_hash r)
          end
      end
  end.
Definition VerifyChain (w : Writer) : option error := verify (db w) genesis.

(** ** Queries *)

(* [modules/audit/query.go:defaultQueryLimit@13-13] *)
Definition defaultQueryLimit : Z := 1000.
(* [modules/audit/query.go:maxQueryLimit@16-16] *)
Definition maxQueryLimit : Z := 10000.

(* [modules/audit/query.go:QueryEntries@25-49] *)
Definition selected (f : QueryFilter) (r : Row) : Prop :=
  tenant r = f_Tenant f /\
  (f_ActionType f = "" \/ json_extract (data r) "$.action.type" = Some (f_ActionType f)) /\
  (f_User f = "" \/ json_extract (data r) "$.principal.user" = Some (f_User f)) /\
  (f_Agent f = "" \/ json_extract (data r) "$.principal.agent" = Some (f_Agent f)) /\
  (IsZero (f_Since f) = true \/ string_le (RFC3339Milli (f_Since f)) (timestamp r)) /\
  (IsZero (f_Until f) = true \/ string_le (timestamp r) (RFC3339Milli (f_Until f))).
#[export] Instance selected_dec f r : base.Decision (selected f r).
Proof. unfold selected, string_le. apply _. Defined.

(* [modules/audit/query.go:QueryEntries@57-66] *)
Definition effective_limit (n : Z) : Z :=
  let n := if decide (n <= 0)%Z then defaultQueryLimit else n in
  if decide (n > maxQueryLimit)%Z then maxQueryLimit else n.

Fixpoint decode (rows : list Row) : Result (list Entry) :=
  match rows with
  | [] => Ok []
  | r :: rows' => match Unmarshal (data r) with
                  | Err e => Err ("unmarshal entry: " +:+ e)
                  | Ok x => rbind (decode rows') (fun xs => Ok (x :: xs))
                  end
  end.

(* [modules/audit/query.go:QueryEntries] *)
Definition QueryEntries (rows : list Row) (f : QueryFilter) : Result (list Entry) :=
  if decide (f_Tenant f = "") then Err "audit query: tenant is required"
  else decode (take (Z.to_nat (effective_limit (f_Limit f))) (filter (selected f) rows)).

(** ** The module's handlers *)

Inductive Payload := PEntry (e : Entry) | PFilter (f : QueryFilter) | POther (type_name : string).

(** Failures are logged, not returned. *)
(* [modules/audit/logger.go:Logger.handleWrite] *)
Definition handleWrite (ok : bool) (p : Payload) (w : Writer) : Writer :=
  match p with PEntry e => (Write ok e w).1 | _ => w end.

(* [modules/audit/logger.go:authorizedQuerySources] *)
Definition authorizedQuerySources (source : string) : bool :=
  bool_decide (source = "api" \/ source = "cli").

(* [modules/audit/logger.go:Logger.handleQuery] *)
Definition handleQuery (source : string) (p : Payload) (w : Writer) : Result (list Entry) :=
  if authorizedQuerySources source then
    match p with
    | PFilter f => wrap_err "query audit" (QueryEntries (db w) f)
    | PEntry _ => Err "expected QueryFilter, got audit.Entry"
    | POther t => Err ("expected QueryFilter, got " +:+ t)
    end
  else Err ("audit.query: not authorized for source " +:+ quote source).

(** ** Daily rotation *)

(** [rw_files]: the databases of the directory by date; the rows of the open one are those
    of its writer.  [live]: whether the current database is open. *)
(* [modules/audit/rotation.go:RotatingWriter] *)
Record RotatingWriter := {
  rw_files : gmap string (list Row); rw_instance : string; rw_secret : string; current : Writer;
  live : bool; curDate : string;
}.

(** The files once the current database is closed. *)
Definition on_disk (rw : RotatingWriter) : gmap string (list Row) :=
  if live rw then <[curDate rw := db (current rw)]> (rw_files rw) else rw_files rw.

(** [opens] is whether the database of [now]'s day can be opened.  When it cannot, the
    previous one has been closed already and stays the current one. *)
(* [modules/audit/rotation.go:RotatingWriter.rotateLocked] *)
Definition rotateLocked (opens : bool) (now : time) (rw : RotatingWriter) : RotatingWriter * option error :=
  let files := on_disk rw in
  let today := DateOnly now in
  if opens then
    ({| rw_files := files; rw_instance := rw_instance rw; rw_secret := rw_secret rw;
        current := NewWriter (default [] (files !! today)) (rw_instance rw) (rw_secret rw); live := true;
        curDate := today |}, None)
  else ({| rw_files := files; rw_instance := rw_instance rw; rw_secret := rw_secret rw; current := current rw;
           live := false; curDate := curDate rw |}, Some "open audit db").

(* [modules/audit/rotation.go:NewRotatingWriter] *)
Definition NewRotatingWriter (opens : bool) (now : time) (files : gmap string (list Row)) (inst sec : string)
    : option RotatingWriter :=
  if opens then
    Some {| rw_files := files; rw_instance := inst; rw_secret := sec;
            current := NewWriter (default [] (files !! DateOnly now)) inst sec; live := true; curDate := DateOnly now |}
  else None.

(** [now'] is the clock when the rotation reads it again. *)
(* [modules/audit/rotation.go:RotatingWriter.Write] *)
Definition Rotating_Write (opens : bool) (now now' : time) (ok : bool) (e : Entry) (rw : RotatingWriter)
    : RotatingWriter * option error :=
  let '(rw, err) := if decide (DateOnly now <> curDate rw) then rotateLocked opens now' rw else (rw, None) in
  match err with
  | Some e => (rw, Some ("rotate: " +:+ e))
  | None =>
      let '(w, err) := Write (ok && live rw) e (current rw) in
      ({| rw_files := rw_files rw; rw_instance := rw_instance rw; rw_secret := rw_secret rw; current := w;
          live := live rw; curDate := curDate rw |}, err)
  end.

(* [modules/audit/rotation.go:RotatingWriter.VerifyChain] *)
Definition Rotating_VerifyChain (rw : RotatingWriter) : option error :=
  if live rw then VerifyChain (current rw) else Some "query entries: sql: database is closed".
End Log.

(** ** Emitting *)

(** [t.Format("20060102150405.000")] *)
Definition compact_time (t : time) : string :=
  zpad 4 (Year t) +:+ zpad 2 (Month t) +:+ zpad 2 (DayOf t) +:+ zpad 2 (HourOf t) +:+ zpad 2 (MinuteOf t) +:+
  zpad 2 (SecondOf t) +:+ "." +:+ zpad 3 (NanosecondOf t / Millisecond).

(** The entry published on audit.write; [now] and [now'] are the two readings of the clock
    and [suffix] the random suffix of a fresh identifier. *)
(* [modules/audit/emitter.go:Emitter.Emit] *)
Definition Emit (now now' : time) (suffix inst : string) (e : Entry) : Entry :=
  {| ID := if decide (ID e = "") then "evt_" +:+ compact_time now' +:+ "_" +:+ suffix else ID e;
     Timestamp := if IsZero (Timestamp e) then now else Timestamp e; Instance := inst; Tenant := Tenant e;
     e_Principal := e_Principal e; e_Action := e_Action e; e_Policy := e_Policy e;
     e_Result := e_Result e; Chain := Chain e; Signature := Signature e; PrevHash := PrevHash e |}.

(** An entry of the given tenant, principal, action, policy and result, the rest zero. *)
Definition zero_entry (ten : string) (p : Principal) (a : Action) (d : PolicyDecision) (r : Result_) : Entry :=
  {| ID := ""; Timestamp := 0%Z; Instance := ""; Tenant := ten; e_Principal := p; e_Action := a; e_Policy := d;
     e_Result := r; Chain := {| ParentEvent := ""; Session := "" |}; Signature := ""; PrevHash := "" |}.
Definition zero_policy : PolicyDecision := {| Rule := ""; Decision := ""; DecidedBy := ""; EvaluationMs := 0 |}.

(* [modules/audit/emitter.go:Emitter.EmitPolicyCheck] *)
Definition EmitPolicyCheck (ten user agent action tool rule decision : string) (durationMs : Z) : Entry :=
  zero_entry ten {| User := user; Agent := agent; Role := "" |}
    {| a_Type := "policy_check"; Module_ := "proxy"; Detail := <["action" := action]> {["tool" := tool]} |}
    {| Rule := rule; Decision := decision; DecidedBy := "policy_engine"; EvaluationMs := durationMs |}
    {| Status := decision; DurationMs := 0 |}.

(* [modules/audit/emitter.go:Emitter.EmitAgentChat] *)
Definition EmitAgentChat (ten user agent message : string) (toolsUsed : list string) (durationMs : Z) : Entry :=
  let detail : gmap string string := {["message_length" := itoa (Z.of_nat (String.length message))]} in
  let detail := match toolsUsed with t :: _ => <["tools" := t]> detail | [] => detail end in
  zero_entry ten {| User := user; Agent := agent; Role := "" |}
    {| a_Type := "agent_chat"; Module_ := "agent_runtime"; Detail := detail |} zero_policy
    {| Status := "success"; DurationMs := durationMs |}.

(* [modules/audit/emitter.go:Emitter.EmitAuth] *)
Definition EmitAuth (ten user eventType result : string) : Entry :=
  zero_entry ten {| User := user; Agent := ""; Role := "" |}
    {| a_Type := eventType; Module_ := "auth"; Detail := ∅ |} zero_policy {| Status := result; DurationMs := 0 |}.

#[local] Arguments Write : simpl never.
#[local] Arguments Rotating_Write : simpl never.
#[local] Arguments rotateLocked : simpl never.
#[local] Arguments DateOnly : simpl never.

(** ** Chains *)

Section Chain.
Context (Marshal : Entry -> Result string) (Unmarshal : string -> Result Entry).
Context (sha256 : string -> string) (hmac : string -> string -> string).

(** The hash a chain ends with. *)
Definition last_hash (rows : list Row) : string :=
  match last rows with Some r => entry_hash r | None => genesis end.

Lemma last_hash_snoc rows r : last_hash (rows ++ [r]) = entry_hash r.
Proof. unfold last_hash. by rewrite last_snoc. Qed.

(** What verification asks of one row. *)
Definition linked (prev : string) (r : Row) : Prop :=
  prev_hash r = prev /\
  exists pre, preSignData Marshal Unmarshal (data r) = Ok pre /\ entry_hash r = sha256 (prev +:+ pre).

Lemma verify_cons r rows prev : verify Marshal Unmarshal sha256 (r :: rows) prev = None <->
  linked prev r /\ verify Marshal Unmarshal sha256 rows (entry_hash r) = None.
Proof.
  unfold linked, preSignData. simpl. destruct (decide (prev_hash r <> prev)) as [Hp|Hp]; [by split; [|intros [[? _] _]]|].
  apply dec_stable in Hp. rewrite Hp.
  destruct (Unmarshal (data r)) as [e|]; simpl; [|by split; [|intros [[_ (? & [=] & _)] _]]].
  destruct (Marshal (with_signature "" e)) as [pre|]; [|by split; [|intros [[_ (? & [=] & _)] _]]].
  destruct (decide (sha256 (prev +:+ pre) <> entry_hash r)) as [Hh|Hh].
  - split; [done|]. intros [[_ (? & [= <-] & Heq)] _]. by rewrite Heq in Hh.
  - apply dec_stable in Hh. split; [|by intros [_ ?]]. intros H. split; [|done]. split; [done|]. eauto.
Qed.

Lemma verify_snoc rows r prev : verify Marshal Unmarshal sha256 (rows ++ [r]) prev = None <->
  verify Marshal Unmarshal sha256 rows prev = None /\
  linked (match last rows with Some x => entry_hash x | None => prev end) r.
Proof.
  revert prev. induction rows as [|x rows IH]; intros prev.
  - rewrite app_nil_l, verify_cons. simpl. tauto.
  - rewrite <- app_comm_cons, !verify_cons, IH, last_cons. destruct (last rows); tauto.
Qed.

(** Verification reads only the data and the two hashes of a row. *)
Definition same_chain (r r' : Row) : Prop :=
  data r' = data r /\ prev_hash r' = prev_hash r /\ entry_hash r' = entry_hash r.

Lemma verify_same_chain rows rows' : Forall2 same_chain rows rows' -> forall prev,
  verify Marshal Unmarshal sha256 rows prev = None -> verify Marshal Unmarshal sha256 rows' prev = None.
Proof.
  induction 1 as [|r r' rows rows' (Hd & Hp & He) H IH]; intros prev; [done|].
  rewrite !verify_cons. unfold linked. rewrite Hd, Hp, He. intros [? ?]. auto.
Qed.

(** Splitting at the opening brace of the content. *)
Definition no_brace (s : string) : Prop := forall a b, s <> a +:+ String "{" b.

Lemma brace_split p q c d : no_brace p -> no_brace q ->
  p +:+ String "{" c = q +:+ String "{" d -> p = q /\ c = d.
Proof.
  revert q. induction p as [|a p IH]; intros [|b q] Hp Hq Heq.
  - by injection Heq as ->.
  - exfalso. rewrite str_app_cons in Heq. injection Heq as <- _. by apply (Hq "" q).
  - exfalso. rewrite str_app_cons in Heq. injection Heq as -> _. by apply (Hp "" p).
  - rewrite !str_app_cons in Heq. injection Heq as -> Heq.
    destruct (IH q) as [-> ->]; [|intros x y ->; by apply (Hq (String b x) y)|done|done].
    intros x y ->. by apply (Hp (String b x) y).
Qed.

Definition collision : Prop := exists x y, x <> y /\ sha256 x = sha256 y.

Section Commit.
Hypothesis sha256_text : forall x, sha256 x <> genesis /\ no_brace (sha256 x).
Hypothesis Marshal_object : forall e d, Marshal e = Ok d -> exists c, d = String "{" c.

Lemma genesis_no_brace : no_brace genesis.
Proof.
  intros a b. unfold genesis.
  do 8 (destruct a as [|? a]; [discriminate|]; rewrite str_app_cons; try discriminate; intros [= _ H]; revert H).
Qed.

Lemma preSignData_object dat pre : preSignData Marshal Unmarshal dat = Ok pre -> exists c, pre = String "{" c.
Proof. intros (e & _ & H)%rbind_Ok. by apply Marshal_object in H. Qed.

Lemma last_hash_text rows : verify Marshal Unmarshal sha256 rows genesis = None ->
  no_brace (last_hash rows) /\ (last_hash rows = genesis -> rows = []).
Proof.
  destruct rows as [|r rows _] using rev_ind; [intros _; split; [apply genesis_no_brace|done]|].
  rewrite verify_snoc, last_hash_snoc. intros [_ [_ (pre & _ & ->)]].
  split; [apply sha256_text|]. intros H. by apply sha256_text in H.
Qed.

Definition content (r : Row) : Result string * string * string :=
  (preSignData Marshal Unmarshal (data r), prev_hash r, entry_hash r).

Lemma chain_unique rows : forall rows',
  verify Marshal Unmarshal sha256 rows genesis = None ->
  verify Marshal Unmarshal sha256 rows' genesis = None ->
  last_hash rows = last_hash rows' -> content <$> rows = content <$> rows' \/ collision.
Proof.
  induction rows as [|r rows IH] using rev_ind; intros rows' H1 H2 Heq.
  { left. destruct (last_hash_text rows' H2) as [_ Hnil]. by rewrite Hnil by (by rewrite <- Heq). }
  destruct rows' as [|r' rows' _] using rev_ind.
  { exfalso. destruct (last_hash_text _ H1) as [_ Hnil]. specialize (Hnil Heq). by destruct rows. }
  rewrite !last_hash_snoc in Heq. apply verify_snoc in H1 as [H1 [Hp (pre & Hpre & Hh)]].
  apply verify_snoc in H2 as [H2 [Hp' (pre' & Hpre' & Hh')]].
  fold (last_hash rows) in Hp, Hh. fold (last_hash rows') in Hp', Hh'.
  destruct (decide (last_hash rows +:+ pre = last_hash rows' +:+ pre')) as [Hin|Hne].
  2:{ right. exists (last_hash rows +:+ pre), (last_hash rows' +:+ pre'). split; [done|]. congruence. }
  destruct (preSignData_object _ _ Hpre) as [c Hc]. destruct (preSignData_object _ _ Hpre') as [c' Hc'].
  subst pre pre'. apply brace_split in Hin as [Hlast <-];
    [|by apply last_hash_text..].
  destruct (IH rows' H1 H2 Hlast) as [Hrows|]; [left|by right].
  rewrite !fmap_app, Hrows. simpl. unfold content. by rewrite Hpre, Hpre', Hp, Hp', Heq, Hlast.
Qed.
End Commit.

(** ** Writing extends the chain *)

Section Writing.
Context (inst : string).

(** A writer whose next row will name the hash its database ends with. *)
Record chained (w : Writer) : Prop := {
  ch_instance : w_instance w = inst;
  ch_prev : prevHash w = last_hash (db w);
}.

(** The row a write of [e] appends: it names the hash the database ended with, its hash
    covers that and the entry as it arrived, and its data is the entry signed. *)
Definition row_for (sec : string) (e : Entry) (before : list Row) (r : Row) : Prop :=
  id r = ID e /\ tenant r = Tenant e /\ prev_hash r = last_hash before /\
  signature r = hmac sec (entry_hash r) /\
  Marshal (stamp inst (prev_hash r) (signature r) e) = Ok (data r) /\
  exists pre, Marshal (stamp inst (prev_hash r) (Signature e) e) = Ok pre /\
    entry_hash r = sha256 (prev_hash r +:+ pre).

Lemma Write_row ok e w w' err : chained w -> Write Marshal sha256 hmac ok e w = (w', err) ->
  chained w' /\ secret w' = secret w /\
  match err with
  | Some _ => w' = w
  | None => ok = true /\ exists r, db w' = db w ++ [r] /\ row_for (secret w) e (db w) r
  end.
Proof.
  intros [Hi Hp]. unfold Write. rewrite Hi.
  destruct (Marshal (stamp inst (prevHash w) (Signature e) e)) as [pre|er] eqn:E1; [|by intros [= <- <-]].
  set (h := sha256 (prevHash w +:+ pre)). set (sig := hmac (secret w) h).
  destruct (Marshal (with_signature sig _)) as [dat|er] eqn:E2; [|by intros [= <- <-]].
  case_decide as Hd; [|by intros [= <- <-]]. intros [= <- <-]. simpl.
  split; [split; simpl; [done|by rewrite last_hash_snoc]|]. split; [done|]. split; [apply Hd|].
  eexists. split; [reflexivity|]. unfold row_for. simpl. rewrite <- Hp.
  do 4 (split; [done|]). split; [exact E2|]. by exists pre.
Qed.

(** ** Rotation *)

Record rot_ok (sec : string) (rw : RotatingWriter) : Prop := {
  ro_current : chained (current rw);
  ro_instance : rw_instance rw = inst;
  ro_secret : rw_secret rw = sec /\ secret (current rw) = sec;
}.

(** The rows of a day. *)
Definition day_rows (rw : RotatingWriter) (d : string) : list Row := default [] (on_disk rw !! d).

Lemma rotateLocked_ok sec opens now rw rw' err : rot_ok sec rw -> rotateLocked opens now rw = (rw', err) ->
  rot_ok sec rw' /\ (forall d, day_rows rw' d = day_rows rw d).
Proof.
  intros [Hc Hi [Hs Hs']] Hr. unfold rotateLocked in Hr. destruct opens; injection Hr as <- <-.
  - split; [by split|]. intros d. unfold day_rows at 1, on_disk at 1. simpl.
    destruct (decide (d = DateOnly now)) as [->|Hne]; [by rewrite lookup_insert_eq|by rewrite lookup_insert_ne].
  - by split.
Qed.

Lemma NewRotatingWriter_ok opens now files sec rw : NewRotatingWriter opens now files inst sec = Some rw ->
  rot_ok sec rw /\ forall d, day_rows rw d = default [] (files !! d).
Proof.
  unfold NewRotatingWriter. destruct opens; [|done]. intros [= <-]. split; [by split|].
  intros d. unfold day_rows, on_disk. simpl.
  destruct (decide (d = DateOnly now)) as [->|Hne]; [by rewrite lookup_insert_eq|by rewrite lookup_insert_ne].
Qed.

Lemma live_day_rows rw : live rw = true -> day_rows rw (curDate rw) = db (current rw).
Proof. intros H. unfold day_rows, on_disk. by rewrite H, lookup_insert_eq. Qed.

(** What a write does to the days: nothing, or one row on one day. *)
Definition wrote (sec : string) (e : Entry) (before after : string -> list Row) (err : option error) : Prop :=
  match err with
  | Some _ => forall d, after d = before d
  | None => exists d r, after d = before d ++ [r] /\ (forall d', d' <> d -> after d' = before d') /\
      row_for sec e (before d) r
  end.

(** A write once the day's database is open. *)
Lemma current_Write_ok sec ok e rw w err : rot_ok sec rw ->
  Write Marshal sha256 hmac (ok && live rw) e (current rw) = (w, err) ->
  let rw' := {| rw_files := rw_files rw; rw_instance := rw_instance rw; rw_secret := rw_secret rw; current := w;
                live := live rw; curDate := curDate rw |} in
  rot_ok sec rw' /\ wrote sec e (day_rows rw) (day_rows rw') err.
Proof.
  intros H Hw rw'. destruct H as [Hc Hi [Hs Hs']].
  destruct (Write_row _ _ _ _ _ Hc Hw) as (Hc' & Hsec & Heff).
  split; [split; simpl; [done..|split; congruence]|].
  destruct err as [x|]; simpl in *; [subst w; by destruct rw|].
  destruct Heff as ([_ Hl]%andb_prop & r & Hdb & Hr). exists (curDate rw), r.
  change (curDate rw) with (curDate rw') at 1. rewrite !live_day_rows by done. rewrite <- Hs'.
  split; [done|]. split; [|done].
  intros d' Hd'. unfold day_rows, on_disk, rw'. simpl. by rewrite Hl, !lookup_insert_ne.
Qed.

Lemma Rotating_Write_ok sec opens now now' ok e rw rw' err : rot_ok sec rw ->
  Rotating_Write Marshal sha256 hmac opens now now' ok e rw = (rw', err) ->
  rot_ok sec rw' /\ wrote sec e (day_rows rw) (day_rows rw') err.
Proof.
  intros H. unfold Rotating_Write. destruct (if decide _ then _ else _) as [rw1 err1] eqn:E.
  assert (H1 : rot_ok sec rw1 /\ (forall d, day_rows rw1 d = day_rows rw d)).
  { case_decide; [|by injection E as <- <-]. by eapply rotateLocked_ok. }
  destruct H1 as (H1 & Hrows). destruct err1 as [er|]; [by intros [= <- <-]|].
  destruct (Write _ _ _ _ _ _) as [w er] eqn:Ew. intros [= <- <-].
  destruct (current_Write_ok _ _ _ _ _ _ H1 Ew) as [? Hwrote]. split; [done|]. clear E Ew.
  destruct er; cbn [wrote] in *; [intros d; by rewrite Hwrote|].
  destruct Hwrote as (d & r & Ha & Hb & Hr). exists d, r. rewrite <- !Hrows. split; [done|]. split; [|done].
  intros d' Hd. rewrite <- Hrows. auto.
Qed.

Lemma wrote_prefix sec e before after err d : wrote sec e before after err -> before d `prefix_of` after d.
Proof.
  destruct err as [x|]; simpl; [by intros ->|]. intros (d' & r & Ha & Hb & _).
  destruct (decide (d = d')) as [->|Hne]; [rewrite Ha; by apply prefix_app_r|by rewrite Hb].
Qed.

(** A request: whether the day's database opens, the two readings of the clock, whether the
    insertion succeeds, and the entry. *)
Record request := { q_opens : bool; q_now : time; q_now' : time; q_ok : bool; q_entry : Entry }.

Definition write_all (qs : list request) (rw : RotatingWriter) : RotatingWriter :=
  fold_left (fun rw q =>
    (Rotating_Write Marshal sha256 hmac (q_opens q) (q_now q) (q_now' q) (q_ok q) (q_entry q) rw).1) qs rw.

(** ** Which writes leave a chain that verifies *)

(** [valid]: the entries whose text survives the codec under this instance's name. *)
Context (valid : Entry -> Prop).
Hypothesis Unmarshal_Marshal : forall e d, valid e -> Marshal e = Ok d -> Unmarshal d = Ok e.
Hypothesis valid_stamp : forall e prev sig, valid e -> (prev = genesis \/ exists x, prev = sha256 x) ->
  (sig = "" \/ sig = Signature e \/ exists k x, sig = hmac k x) -> valid (stamp inst prev sig e).

(** What a database ends with. *)
Definition hashed (rows : list Row) : Prop := last_hash rows = genesis \/ exists x, last_hash rows = sha256 x.

Lemma verified_hashed rows : verify Marshal Unmarshal sha256 rows genesis = None -> hashed rows.
Proof.
  destruct rows as [|r rows _] using rev_ind; [by left|]. unfold hashed. rewrite verify_snoc, last_hash_snoc.
  intros [_ [_ (pre & _ & ->)]]. right. eauto.
Qed.

Lemma row_for_pre sec e before r : hashed before -> valid e -> row_for sec e before r ->
  preSignData Marshal Unmarshal (data r) = Marshal (stamp inst (prev_hash r) "" e).
Proof.
  intros Hh He (_ & _ & Hp & Hsig & Hdat & _). unfold preSignData.
  rewrite (Unmarshal_Marshal (stamp inst (prev_hash r) (signature r) e)); [done| |done].
  apply valid_stamp; [done|by rewrite Hp|]. right. right. eauto.
Qed.

(** A row of an unsigned entry continues the chain. *)
Lemma row_for_linked sec e before r : hashed before -> valid e -> Signature e = "" ->
  row_for sec e before r -> linked (last_hash before) r.
Proof.
  intros Hh He Hs H. pose proof (row_for_pre _ _ _ _ Hh He H) as Hpre.
  destruct H as (_ & _ & Hp & _ & _ & pre & Hm & Heq). rewrite Hs in Hm. split; [done|].
  exists pre. split; [congruence|]. by rewrite <- Hp.
Qed.

(** A row of a signed entry does not, unless two texts share a hash. *)
Lemma row_for_signed sec e before r : hashed before -> valid e -> Signature e <> "" ->
  row_for sec e before r -> linked (last_hash before) r -> collision.
Proof.
  intros Hh He Hs H [_ (pre & Hpre & Heq)]. rewrite (row_for_pre _ _ _ _ Hh He H) in Hpre.
  destruct H as (_ & _ & Hp & _ & _ & pre' & Hm & Heq').
  exists (prev_hash r +:+ pre), (prev_hash r +:+ pre'). split; [|rewrite Hp in *; congruence].
  intros ->%(inj (String.append (prev_hash r))). apply Hs.
  assert (Hv : forall sig, sig = "" \/ sig = Signature e -> valid (stamp inst (prev_hash r) sig e)).
  { intros sig Hsig. apply valid_stamp; [done|by rewrite Hp|]. tauto. }
  pose proof (Unmarshal_Marshal _ _ (Hv "" (or_introl eq_refl)) Hpre) as H1.
  pose proof (Unmarshal_Marshal _ _ (Hv _ (or_intror eq_refl)) Hm) as H2.
  rewrite H1 in H2. by injection H2.
Qed.

Lemma wrote_hashed sec e before after err : wrote sec e before after err ->
  (forall d, hashed (before d)) -> forall d, hashed (after d).
Proof.
  destruct err as [x|]; simpl; [intros Heq H d; by rewrite Heq|]. intros (d' & r & Ha & Hb & Hr) H d.
  destruct (decide (d = d')) as [->|Hne]; [|by rewrite Hb]. rewrite Ha. unfold hashed. rewrite last_hash_snoc.
  right. destruct Hr as (_ & _ & _ & _ & _ & pre & _ & ->). eauto.
Qed.

Lemma wrote_verifies sec e before after err : wrote sec e before after err -> valid e -> Signature e = "" ->
  (forall d, verify Marshal Unmarshal sha256 (before d) genesis = None) ->
  forall d, verify Marshal Unmarshal sha256 (after d) genesis = None.
Proof.
  destruct err as [x|]; simpl; [intros Heq _ _ H d; by rewrite Heq|]. intros (d' & r & Ha & Hb & Hr) He Hs H d.
  destruct (decide (d = d')) as [->|Hne]; [|by rewrite Hb]. rewrite Ha. apply verify_snoc. split; [done|].
  apply (row_for_linked sec e); try done. by apply verified_hashed.
Qed.

Lemma write_all_ok sec qs : forall rw, rot_ok sec rw ->
  rot_ok sec (write_all qs rw) /\
  (forall d, day_rows rw d `prefix_of` day_rows (write_all qs rw) d) /\
  ((forall d, hashed (day_rows rw d)) -> forall d, hashed (day_rows (write_all qs rw) d)) /\
  (Forall (fun q => valid (q_entry q) /\ Signature (q_entry q) = "") qs ->
    (forall d, verify Marshal Unmarshal sha256 (day_rows rw d) genesis = None) ->
    forall d, verify Marshal Unmarshal sha256 (day_rows (write_all qs rw) d) genesis = None).
Proof.
  induction qs as [|q qs IH]; intros rw H; [done|]. unfold write_all. cbn [fold_left].
  destruct (Rotating_Write _ _ _ _ _ _ _ _ _) as [rw1 err] eqn:E. cbn [fst]. fold (write_all qs rw1).
  destruct (Rotating_Write_ok _ _ _ _ _ _ _ _ _ H E) as (H1 & Hw).
  destruct (IH rw1 H1) as (? & Hp & Hh & Hv). split; [done|]. split; [|split].
  - intros d. etrans; [by eapply wrote_prefix|]. apply Hp.
  - intros Hr. apply Hh. by eapply wrote_hashed.
  - intros [[He Hs] Hqs]%Forall_cons Hr. apply Hv; [done|]. by eapply wrote_verifies.
Qed.

(** C11 [invariant]: take a rotating writer opened over a directory whose databases verify,
    and make any sequence of audit writes, across days, failed openings and failed insertions.
    No row is ever lost, and a write either fails and changes no row or appends exactly one row
    to one day: chained to the hash that day ended with, its own hash covering that hash and
    the entry as it arrived, signed under the writer's secret, its data the signed entry.  If
    the entries arrive unsigned and their text survives the JSON codec (which valid UTF-8
    does), the database of every day verifies after every write.  An entry that arrives with
    a signature is accepted too, but its hash covers that signature while verification clears
    it: the day it is written to no longer verifies, unless two texts share a SHA-256. *)
Theorem written_chain_verifies opened now0 files sec qs rw opens now now' ok e rw' err :
  NewRotatingWriter opened now0 files inst sec = Some rw ->
  map_Forall (fun _ rows => verify Marshal Unmarshal sha256 rows genesis = None) files ->
  Rotating_Write Marshal sha256 hmac opens now now' ok e (write_all qs rw) = (rw', err) ->
  (forall d, default [] (files !! d) `prefix_of` day_rows rw' d) /\
  wrote sec e (day_rows (write_all qs rw)) (day_rows rw') err /\
  (Forall (fun q => valid (q_entry q) /\ Signature (q_entry q) = "") qs -> valid e -> Signature e = "" ->
    (forall d, verify Marshal Unmarshal sha256 (day_rows rw' d) genesis = None) /\
    (live rw' = true -> Rotating_VerifyChain Marshal Unmarshal sha256 rw' = None)) /\
  (valid e -> Signature e <> "" -> err = None ->
    (exists d, verify Marshal Unmarshal sha256 (day_rows rw' d) genesis <> None) \/ collision).
Proof.
  intros Hnew Hfiles Hw. destruct (NewRotatingWriter_ok _ _ _ _ _ Hnew) as [H Hd].
  assert (H0 : forall d, verify Marshal Unmarshal sha256 (day_rows rw d) genesis = None).
  { intros d. rewrite Hd. destruct (files !! d) eqn:E; [|done]. by apply (Hfiles d). }
  destruct (write_all_ok sec qs rw H) as (H1 & Hp & Hh & Hv).
  destruct (Rotating_Write_ok _ _ _ _ _ _ _ _ _ H1 Hw) as (H2 & Hwrote).
  split; [|split; [done|split]].
  - intros d. rewrite <- Hd. etrans; [apply Hp|]. by eapply wrote_prefix.
  - intros Hqs He Hs. pose proof (wrote_verifies _ _ _ _ _ Hwrote He Hs (Hv Hqs H0)) as Hall. split; [done|].
    intros Hl. unfold Rotating_VerifyChain, VerifyChain. rewrite Hl, <- live_day_rows by done. apply Hall.
  - intros He Hs ->. destruct Hwrote as (d & r & Ha & _ & Hr).
    destruct (verify Marshal Unmarshal sha256 (day_rows rw' d) genesis) as [x|] eqn:E; [left; exists d; congruence|].
    right. rewrite Ha, verify_snoc in E. destruct E as [_ E]. apply (row_for_signed sec e) in E; try done.
    apply Hh. intros d'. by apply verified_hashed.
Qed.
End Writing.
End Chain.

(** ** Theorems on verification and queries *)

(** The last hash of a verified chain commits to its whole history: two chains
    that verify and end with the same hash hold the same contents in the same order, or two
    different texts with one SHA-256 are at hand.  The commitment covers the data and the
    hashes only: rows that differ in any other column verify alike. *)
Lemma chain_commits Marshal Unmarshal sha256 rows rows' :
  (forall x, sha256 x <> genesis /\ no_brace (sha256 x)) ->
  (forall e d, Marshal e = Ok d -> exists c, d = String "{" c) ->
  verify Marshal Unmarshal sha256 rows genesis = None ->
  (verify Marshal Unmarshal sha256 rows' genesis = None -> last_hash rows = last_hash rows' ->
    content Marshal Unmarshal <$> rows = content Marshal Unmarshal <$> rows' \/ collision sha256) /\
  (Forall2 same_chain rows rows' -> verify Marshal Unmarshal sha256 rows' genesis = None).
Proof.
  intros Hsha Hm H. split; [intros H' Heq; by eapply chain_unique|].
  intros Hs. by eapply verify_same_chain.
Qed.

Lemma effective_limit_range n : (1 <= effective_limit n <= maxQueryLimit)%Z /\
  ((1 <= n <= maxQueryLimit)%Z -> effective_limit n = n).
Proof. unfold effective_limit, defaultQueryLimit, maxQueryLimit. repeat case_decide; lia. Qed.

Lemma decode_Ok Unmarshal rows xs : decode Unmarshal rows = Ok xs <->
  Forall2 (fun r x => Unmarshal (data r) = Ok x) rows xs.
Proof.
  revert xs. induction rows as [|r rows IH]; intros xs; simpl.
  - split; [by intros [= <-]|by inversion 1].
  - destruct (Unmarshal (data r)) as [x|] eqn:E; [|split; [done|inversion 1; congruence]].
    rewrite rbind_Ok. split.
    + intros (ys & Hys & [= <-]). constructor; [done|]. by apply IH.
    + intros H. inversion H as [|? y ? ys Hy Hys]; subst. rewrite E in Hy. injection Hy as <-. exists ys. split; [by apply IH|done].
Qed.

(** The tenant column agrees with the stored entry, as [Write] leaves it. *)
Definition tenant_honest (Unmarshal : string -> Result Entry) (r : Row) : Prop :=
  forall e, Unmarshal (data r) = Ok e -> Tenant e = tenant r.

(** An audit query answers only requests from the API or the CLI that name a
    tenant; the answer is the decoded rows of that tenant that match the filter, in order,
    the first at most 10000 of them and all of them when they are fewer than the limit, so
    no entry of another tenant is disclosed. *)
Lemma query_scoped Unmarshal json_extract source p w xs :
  handleQuery Unmarshal json_extract source p w = Ok xs ->
  (source = "api" \/ source = "cli") /\
  exists f rest rows, p = PFilter f /\ f_Tenant f <> "" /\
    filter (selected json_extract f) (db w) = rows ++ rest /\
    Forall2 (fun r x => Unmarshal (data r) = Ok x) rows xs /\
    (Z.of_nat (length xs) <= effective_limit (f_Limit f) <= maxQueryLimit)%Z /\
    (rest <> [] -> Z.of_nat (length xs) = effective_limit (f_Limit f)) /\
    (Forall (tenant_honest Unmarshal) (db w) -> Forall (fun x => Tenant x = f_Tenant f) xs).
Proof.
  unfold handleQuery, authorizedQuerySources. case_bool_decide as Hsrc; [|done].
  destruct p as [e|f|t]; [done| |done]. unfold QueryEntries. intros Hq%wrap_err_Ok.
  case_decide as Hten; [done|]. apply decode_Ok in Hq. split; [done|].
  pose proof (effective_limit_range (f_Limit f)) as [Hr _]. set (n := Z.to_nat (effective_limit (f_Limit f))) in *.
  set (sel := filter (selected json_extract f) (db w)) in *.
  exists f, (drop n sel), (take n sel). pose proof (Forall2_length _ _ _ Hq) as Hlen.
  rewrite length_take in Hlen. split; [done|]. split; [done|]. split; [by rewrite take_drop|]. split; [done|].
  split; [lia|]. split.
  - intros Hne. destruct (decide (n < length sel)); [lia|]. rewrite drop_ge in Hne by lia. done.
  - intros Hh. apply Forall_lookup. intros i x Hx.
    destruct (Forall2_lookup_r _ _ _ _ _ Hq Hx) as (r & Hr' & Hdec).
    apply list_elem_of_lookup_2, elem_of_take in Hr' as (j & Hj%list_elem_of_lookup_2 & _).
    apply list_elem_of_filter in Hj as [[Ht _] Hdb]. rewrite <- Ht.
    by apply (proj1 (Forall_forall _ _) Hh).
Qed.

(** ** Witnesses: a codec for a table of entries *)

Module AuditExample.
Definition Marshal (e : Entry) : Result string :=
  Ok ("{" +:+ ID e +:+ "," +:+ PrevHash e +:+ "," +:+ Signature e +:+ "}").
Definition sha256 (_ : string) : string := "9f86d081".
Definition hmac (_ _ : string) : string := "5df6e0e2".

Definition entry (i : string) : Entry :=
  {| ID := i; Timestamp := 0%Z; Instance := "node1"; Tenant := "acme";
     e_Principal := {| User := "ann"; Agent := ""; Role := "" |};
     e_Action := {| a_Type := "auth_login"; Module_ := "auth"; Detail := ∅ |};
     e_Policy := zero_policy; e_Result := {| Status := "success"; DurationMs := 0%Z |};
     Chain := {| ParentEvent := ""; Session := "" |}; Signature := ""; PrevHash := "" |}.

Definition table : list Entry :=
  i ← ["e1"; "e2"]; p ← [""; genesis; sha256 ""]; s ← [""; hmac "" ""]; [stamp "node1" p s (entry i)].

Definition Unmarshal (d : string) : Result Entry :=
  match List.find (fun e => match Marshal e with Ok d' => String.eqb d' d | Err _ => false end) table with
  | Some e => Ok e
  | None => Err "unexpected end of JSON input"
  end.

Definition valid (e : Entry) : Prop := In e table.

Lemma table_roundtrip e d : valid e -> Marshal e = Ok d -> Unmarshal d = Ok e.
Proof.
  intros He [= <-]. unfold valid in He. simpl in He. repeat destruct He as [<-|He]; try reflexivity. done.
Qed.

Lemma table_stamp e prev sig : valid e -> (prev = genesis \/ exists x, prev = sha256 x) ->
  (sig = "" \/ sig = Signature e \/ exists k x, sig = hmac k x) -> valid (stamp "node1" prev sig e).
Proof.
  intros He Hp Hs. assert (Hp' : prev = genesis \/ prev = sha256 "") by (destruct Hp as [|[x ?]]; auto).
  assert (Hs' : sig = "" \/ sig = hmac "" "").
  { destruct Hs as [|[->|(k & x & ?)]]; auto. unfold valid in He. simpl in He. clear Hp Hp'.
    repeat destruct He as [<-|He]; try done; auto. }
  clear Hp Hs.
  unfold valid in *. simpl in He.
  repeat destruct He as [<-|He]; try done; destruct Hp' as [->| ->], Hs' as [->| ->]; simpl; tauto.
Qed.

(** A directory with no database yet, on the first of January of the year 1. *)
Definition rw0 : RotatingWriter := default
  {| rw_files := ∅; rw_instance := ""; rw_secret := ""; current := NewWriter [] "" ""; live := false; curDate := "" |}
  (NewRotatingWriter true 0%Z ∅ "node1" "k").
Definition q1 : request :=
  {| q_opens := true; q_now := 0%Z; q_now' := 0%Z; q_ok := true; q_entry := entry "e1" |}.

Definition row (i p : string) : Row :=
  {| id := i; timestamp := "0001-01-01T00:00:00.000Z"; instance := "node1"; tenant := "acme";
     data := "{" +:+ i +:+ "," +:+ p +:+ ",5df6e0e2}"; signature := "5df6e0e2"; prev_hash := p;
     entry_hash := "9f86d081" |}.
End AuditExample.

(** A second write the next day, after one on the first. *)
Lemma written_chain_verifies_witness : let w' := Rotating_Write AuditExample.Marshal AuditExample.sha256 AuditExample.hmac
    true Day Day true (AuditExample.entry "e2")
    (write_all AuditExample.Marshal AuditExample.sha256 AuditExample.hmac [AuditExample.q1] AuditExample.rw0) in
  w'.2 = None /\
  wrote AuditExample.Marshal AuditExample.sha256 AuditExample.hmac "node1" "k" (AuditExample.entry "e2")
    (day_rows (write_all AuditExample.Marshal AuditExample.sha256 AuditExample.hmac [AuditExample.q1] AuditExample.rw0))
    (day_rows w'.1) w'.2 /\
  forall d, verify AuditExample.Marshal AuditExample.Unmarshal AuditExample.sha256 (day_rows w'.1 d) genesis = None.
Proof.
  intros w'. split; [vm_compute; reflexivity|].
  destruct (written_chain_verifies AuditExample.Marshal AuditExample.Unmarshal AuditExample.sha256 AuditExample.hmac
    "node1" AuditExample.valid AuditExample.table_roundtrip AuditExample.table_stamp true 0%Z ∅ "k"
    [AuditExample.q1] AuditExample.rw0 true Day Day true (AuditExample.entry "e2") w'.1 w'.2) as (_ & H1 & H2 & _).
  - reflexivity.
  - apply map_Forall_empty.
  - apply surjective_pairing.
  - assert (Hv : AuditExample.valid (AuditExample.entry "e1") /\ AuditExample.valid (AuditExample.entry "e2"))
      by (vm_compute; tauto).
    split; [exact H1|]. refine (proj1 (H2 _ (proj2 Hv) eq_refl)).
    apply Forall_singleton. exact (conj (proj1 Hv) eq_refl).
Defined.

Lemma chain_commits_witness :
  (content AuditExample.Marshal AuditExample.Unmarshal <$> [AuditExample.row "e1" genesis] =
   content AuditExample.Marshal AuditExample.Unmarshal <$> [AuditExample.row "e2" genesis] \/ collision AuditExample.sha256).
Proof.
  apply (chain_commits AuditExample.Marshal AuditExample.Unmarshal AuditExample.sha256).
  - intros x. split; [discriminate|]. intros a b. unfold AuditExample.sha256.
    do 9 (destruct a as [|? a]; [discriminate|]; rewrite str_app_cons; try discriminate; intros [= _ H]; revert H).
  - intros e d [= <-]. eexists. reflexivity.
  - vm_compute. reflexivity.
  - vm_compute. reflexivity.
  - reflexivity.
Defined.

Lemma query_scoped_witness : exists f (rest rows : list Row),
  PFilter f = PFilter {| f_Tenant := "acme"; f_ActionType := ""; f_User := ""; f_Agent := ""; f_Since := 0%Z;
                         f_Until := 0%Z; f_Limit := 5%Z |} /\ rows ++ rest <> [].
Proof.
  set (f0 := {| f_Tenant := "acme"; f_ActionType := ""; f_User := ""; f_Agent := ""; f_Since := 0%Z;
                f_Until := 0%Z; f_Limit := 5%Z |}).
  destruct (query_scoped AuditExample.Unmarshal (fun _ _ => None) "api" (PFilter f0)
    (NewWriter [AuditExample.row "e1" genesis] "node1" "k") [stamp "node1" genesis "5df6e0e2" (AuditExample.entry "e1")])
    as (_ & f & rest & rows & Hf & _ & Hsel & _); [vm_compute; reflexivity|].
  exists f, rest, rows. split; [done|]. rewrite <- Hsel. injection Hf as <-. vm_compute. discriminate.
Defined.
