(* ===== verification/RateLimit.v ===== *)
(** * RateLimit: the proxy's request rate limiter

    [src/modules/proxy/ratelimit.go]: fixed windows per key, eviction of idle buckets, the
    derivation of the key from a request and the HTTP middleware.  A request is given by
    its header lookup; the keyed hash is an argument.  The theorem bounds what one key is
    allowed in any stretch of time as long as the interval, across evictions. *)
From S2P Require Import Prelude GoStr.

(** ** Data *)

(* [modules/proxy/ratelimit.go:maxRateLimitBuckets@15-15] *)
Definition maxRateLimitBuckets : nat := Z.to_nat 100000.

(* [modules/proxy/ratelimit.go:bucket] *)
Record bucket := { tokens : Z; lastReset : time; lastSeen : time }.

(* [modules/proxy/ratelimit.go:RateLimiter] *)
Record RateLimiter := {
  buckets : gmap string bucket; rate : Z; interval : duration; identitySecret : string; lastSweep : time;
}.

(** ** Operations *)

(* [modules/proxy/ratelimit.go:NewRateLimiter] *)
Definition NewRateLimiter (now : time) (rate : Z) (interval : duration) : RateLimiter :=
  {| buckets := ∅; rate := rate; interval := interval; identitySecret := ""; lastSweep := now |}.

(* [modules/proxy/ratelimit.go:RateLimiter.SetIdentitySecret] *)
Definition SetIdentitySecret (secret : string) (rl : RateLimiter) : RateLimiter :=
  {| buckets := buckets rl; rate := rate rl; interval := interval rl; identitySecret := secret;
     lastSweep := lastSweep rl |}.

Definition with_buckets (m : gmap string bucket) (rl : RateLimiter) : RateLimiter :=
  {| buckets := m; rate := rate rl; interval := interval rl; identitySecret := identitySecret rl;
     lastSweep := lastSweep rl |}.

(* [modules/proxy/ratelimit.go:RateLimiter.evictStaleLocked] *)
Definition evictStaleLocked (now : time) (rl : RateLimiter) : RateLimiter :=
  if decide (Sub now (lastSweep rl) < interval rl)%Z then rl
  else
    let ttl := wrap64 (2 * interval rl) in
    {| buckets := filter (fun '(_, b) => ~ (ttl < Sub now (lastSeen b))%Z) (buckets rl); rate := rate rl;
       interval := interval rl; identitySecret := identitySecret rl; lastSweep := now |}.

(* [modules/proxy/ratelimit.go:RateLimiter.Allow] *)
Definition Allow (now : time) (tenant : string) (rl : RateLimiter) : bool * RateLimiter :=
  let rl := evictStaleLocked now rl in
  let found :=
    match buckets rl !! tenant with
    | Some b => Some b
    | None => if decide (maxRateLimitBuckets <= size (buckets rl)) then None
              else Some {| tokens := rate rl; lastReset := now; lastSeen := 0%Z |}
    end in
  match found with
  | None => (false, rl)
  | Some b =>
      let b := {| tokens := tokens b; lastReset := lastReset b; lastSeen := now |} in
      let b := if decide (interval rl <= Sub now (lastReset b))%Z
               then {| tokens := rate rl; lastReset := now; lastSeen := lastSeen b |} else b in
      if decide (tokens b <= 0)%Z then (false, with_buckets (<[tenant := b]> (buckets rl)) rl)
      else (true, with_buckets (<[tenant := {| tokens := tokens b - 1; lastReset := lastReset b;
                                               lastSeen := lastSeen b |}]> (buckets rl)) rl)
  end.

Section Http.
(** Hex of HMAC-SHA-256 of a text under a secret. *)
Context (hmac : string -> string -> string).

(* [modules/proxy/ratelimit.go:RateLimiter.rateLimitKey] *)
Definition rateLimitKey (header : string -> string) (rl : RateLimiter) : string :=
  if decide (identitySecret rl <> "") then
    let identity := header "X-Cyntr-Identity" in
    let sig := header "X-Cyntr-Identity-Sig" in
    if decide (identity <> "" /\ sig <> "" /\ sig = hmac (identitySecret rl) identity) then
      let tenant := match cut ":" identity with Some (a, _) => a | None => identity end in
      if decide (tenant <> "") then tenant else "_unauthenticated"
    else "_unauthenticated"
  else
    let tenant := header "X-Cyntr-Tenant" in
    if decide (tenant = "") then "_anonymous" else tenant.

(** What the middleware does with a request: pass it on, or answer. *)
Inductive Outcome := Next | Reply (status : Z) (retry_after body : string).

(* [modules/proxy/ratelimit.go:RateLimiter.Middleware] *)
Definition Middleware (now : time) (header : string -> string) (rl : RateLimiter) : Outcome * RateLimiter :=
  let '(ok, rl) := Allow now (rateLimitKey header rl) rl in
  if ok then (Next, rl)
  else let q := String dquote "" in
       (Reply 429 "60" ("{" +:+ q +:+ "error" +:+ q +:+ ":" +:+ q +:+ "rate limit exceeded" +:+ q +:+
                         "}" +:+ String "010" ""), rl).

(** Requests served one after the other, with the key each was counted under and whether it
    was passed on. *)
Fixpoint serve (reqs : list (time * (string -> string))) (rl : RateLimiter)
    : list (time * string * bool) * RateLimiter :=
  match reqs with
  | [] => ([], rl)
  | (now, header) :: reqs' =>
      let key := rateLimitKey header rl in
      let '(o, rl) := Middleware now header rl in
      let '(log, rl) := serve reqs' rl in
      ((now, key, match o with Next => true | Reply _ _ _ => false end) :: log, rl)
  end.
End Http.

(** ** Counting allowed requests *)

(** How many of the times [L] lie in [[lo, hi)]. *)
Definition within (lo hi : Z) (L : list Z) : Z :=
  Z.of_nat (length (filter (fun t => (lo <= t < hi)%Z) L)).

Lemma within_cons lo hi t L :
  within lo hi (t :: L) = ((if decide (lo <= t < hi)%Z then 1 else 0) + within lo hi L)%Z.
Proof. unfold within. rewrite filter_cons. case_decide; simpl; lia. Qed.

Lemma within_nonneg lo hi L : (0 <= within lo hi L)%Z.
Proof. unfold within. lia. Qed.

Lemma within_split lo mid hi L : (within lo hi L <= within lo mid L + within mid hi L)%Z.
Proof.
  induction L as [|t L IH]; [done|]. rewrite !within_cons. repeat case_decide; lia.
Qed.

Lemma within_mono lo hi lo' hi' L : (lo' <= lo)%Z -> Forall (fun t => (t < hi)%Z -> (t < hi')%Z) L ->
  (within lo hi L <= within lo' hi' L)%Z.
Proof.
  intros Hlo. induction 1 as [|t L Ht HL IH]; [done|]. rewrite !within_cons. repeat case_decide; lia.
Qed.

Lemma within_none lo hi L : Forall (fun t => (t < lo)%Z) L -> within lo hi L = 0%Z.
Proof. induction 1 as [|t L Ht HL IH]; [done|]. rewrite within_cons, IH. case_decide; lia. Qed.

(** ** The invariant of one key *)

Section Window.
Context (R I : Z) (HI : (0 < I)%Z) (HI2 : (2 * I <= maxInt64)%Z).

(** [T] is the time of the last call and [L] the times at which the key was allowed. *)
Record bucket_ok (b : bucket) (L : list Z) : Prop := {
  bo_order : (lastReset b <= lastSeen b)%Z;
  bo_seen : Forall (fun t => (t <= lastSeen b /\ t < lastReset b + I)%Z) L;
  bo_now : (within (lastReset b) (lastReset b + I) L + Z.max 0 (tokens b) <= Z.max 0 R)%Z;
  bo_before : (within (lastReset b - I) (lastReset b) L <= Z.max 0 R)%Z;
}.

Record key_ok (T : time) (m : gmap string bucket) (k : string) (L : list Z) : Prop := {
  ko_bucket : match m !! k with
              | Some b => (lastSeen b <= T)%Z /\ bucket_ok b L
              | None => Forall (fun t => (t < T - I)%Z) L
              end;
  ko_window : forall a, (within a (a + I) L <= 2 * Z.max 0 R)%Z;
}.

Lemma key_ok_later T T' m k L : (T <= T')%Z -> key_ok T m k L -> key_ok T' m k L.
Proof.
  intros HT [Hb Hw]. split; [|done]. destruct (m !! k); [by destruct Hb; split; [lia|]|].
  eapply Forall_impl; [exact Hb|]. simpl. intros. lia.
Qed.

Lemma evict_key_ok now rl k L : interval rl = I -> key_ok now (buckets rl) k L ->
  key_ok now (buckets (evictStaleLocked now rl)) k L.
Proof.
  intros Hint [Hb Hw]. unfold evictStaleLocked. case_decide as Hs; [done|]. simpl. split; [|done].
  rewrite map_lookup_filter. destruct (buckets rl !! k) as [b|] eqn:E; simpl; [|done].
  rewrite Hint, wrap64_id by (split; [unfold minInt64|]; lia).
  case_guard as Hg; simpl; [done|].
  destruct Hb as [_ Hb]. eapply Forall_impl; [apply Hb|]. simpl. intros t [Ht _].
  unfold Sub, minInt64, maxInt64 in *. lia.
Qed.

Lemma window_restart now L : Forall (fun t => (t < now)%Z) L -> forall tok, (tok <= R)%Z ->
  (within (now - I) now L <= Z.max 0 R)%Z ->
  bucket_ok {| tokens := tok; lastReset := now; lastSeen := now |} L.
Proof.
  intros HL tok Htok Hb. split; simpl; [lia| | |done].
  - eapply Forall_impl; [exact HL|]. simpl. intros. lia.
  - rewrite within_none; [lia|]. eapply Forall_impl; [exact HL|]. simpl. intros. lia.
Qed.

(** Letting a request through with a token left. *)
Lemma take_token now b L : bucket_ok b L -> lastSeen b = now -> (0 < tokens b)%Z -> (now < lastReset b + I)%Z ->
  (forall a, (within a (a + I) L <= 2 * Z.max 0 R)%Z) ->
  bucket_ok {| tokens := tokens b - 1; lastReset := lastReset b; lastSeen := now |} (now :: L) /\
  (forall a, (within a (a + I) (now :: L) <= 2 * Z.max 0 R)%Z).
Proof.
  intros [Ho Hs Hn Hb] <- Htok Hin Hw. split.
  - split; simpl; [done| | |].
    + constructor; [lia|done].
    + rewrite within_cons. case_decide; lia.
    + rewrite within_cons. case_decide; lia.
  - intros a. rewrite within_cons. case_decide as Ha; [|apply Hw].
    pose proof (within_split a (lastReset b) (a + I) L) as H1.
    assert (H2 : (within a (lastReset b) L <= within (lastReset b - I) (lastReset b) L)%Z)
      by (apply within_mono; [lia|by apply Forall_true]).
    assert (H3 : (within (lastReset b) (a + I) L <= within (lastReset b) (lastReset b + I) L)%Z).
    { apply within_mono; [lia|]. eapply Forall_impl; [exact Hs|]. simpl. tauto. }
    lia.
Qed.

(** The bucket a request is counted in, once found or made and reset if due. *)
Lemma reset_ok now m k L b : key_ok now m k L ->
  match m !! k with Some b' => b = b' | None => b = {| tokens := R; lastReset := now; lastSeen := 0%Z |} end ->
  let b1 := {| tokens := tokens b; lastReset := lastReset b; lastSeen := now |} in
  let b2 := if decide (I <= Sub now (lastReset b1))%Z
            then {| tokens := R; lastReset := now; lastSeen := lastSeen b1 |} else b1 in
  bucket_ok b2 L /\ lastSeen b2 = now /\ (now < lastReset b2 + I)%Z.
Proof.
  intros [Hk _] Hb. destruct (m !! k) as [b'|]; subst b; simpl.
  - destruct Hk as [Hseen [Ho Hs Hn Hp]]. case_decide as Hd; simpl.
    + assert (Hd' : (lastReset b' + I <= now)%Z) by (unfold Sub, minInt64, maxInt64 in *; lia).
      split; [|lia]. apply window_restart; [|lia|].
      * eapply Forall_impl; [exact Hs|]. simpl. lia.
      * etrans; [apply (within_mono _ _ (lastReset b') (lastReset b' + I)); [lia|]|lia].
        eapply Forall_impl; [exact Hs|]. simpl. tauto.
    + split; [|unfold Sub, minInt64, maxInt64 in *; lia]. split; simpl; [lia| |done..].
      eapply Forall_impl; [exact Hs|]. simpl. lia.
  - rewrite decide_False by (unfold Sub, minInt64, maxInt64 in *; lia). simpl. split; [|lia].
    assert (HL : Forall (fun t => (t < now)%Z) L) by (eapply Forall_impl; [exact Hk|]; simpl; lia).
    apply window_restart; [done|lia|]. rewrite within_none; [lia|]. eapply Forall_impl; [exact Hk|]. simpl. lia.
Qed.

Lemma Allow_same now rl k L ok rl' : interval rl = I -> rate rl = R -> key_ok now (buckets rl) k L ->
  Allow now k rl = (ok, rl') -> key_ok now (buckets rl') k (if ok then now :: L else L).
Proof.
  intros Hi Hr Hk%evict_key_ok; [|done]. unfold Allow.
  set (rl1 := evictStaleLocked now rl) in *.
  assert (Hrl1 : interval rl1 = I /\ rate rl1 = R) by (unfold rl1, evictStaleLocked; by case_decide).
  clearbody rl1. destruct Hrl1 as [-> ->].
  destruct (match buckets rl1 !! k with Some b => _ | None => _ end) as [b|] eqn:E; [|by intros [= <- <-]].
  assert (Hb : match buckets rl1 !! k with Some b' => b = b'
               | None => b = {| tokens := R; lastReset := now; lastSeen := 0%Z |} end).
  { destruct (buckets rl1 !! k); [congruence|]. case_decide; [done|congruence]. }
  destruct (reset_ok now _ k L b Hk Hb) as (Hok & Hseen & Hin). clear Hb E.
  cbv zeta in Hok, Hseen, Hin |- *. set (b2 := if decide _ then _ else _) in *. clearbody b2.
  case_decide as Htok; intros [= <- <-]; simpl.
  - split; [rewrite lookup_insert_eq; split; [lia|done]|apply Hk].
  - destruct (take_token now b2 L Hok Hseen ltac:(lia) Hin (ko_window _ _ _ _ Hk)) as [Hb' Hw'].
    split; [|done]. rewrite lookup_insert_eq, Hseen. by split; [simpl; lia|].
Qed.

Lemma Allow_other now rl k k' L ok rl' : interval rl = I -> k' <> k -> key_ok now (buckets rl) k L ->
  Allow now k' rl = (ok, rl') -> key_ok now (buckets rl') k L.
Proof.
  intros Hi Hne Hk%evict_key_ok; [|done]. unfold Allow. set (rl1 := evictStaleLocked now rl) in *. clearbody rl1.
  destruct (match buckets rl1 !! k' with Some b => _ | None => _ end) as [b|]; [|by intros [= <- <-]].
  cbv zeta. destruct (if decide (_ <= Sub _ _)%Z then _ else _) as [tok lr ls]. case_decide; intros [= <- <-]; simpl;
    destruct Hk as [Hk Hw]; (split; [by rewrite lookup_insert_ne|done]).
Qed.
End Window.

Lemma Allow_config now k rl ok rl' : Allow now k rl = (ok, rl') ->
  interval rl' = interval rl /\ rate rl' = rate rl /\ identitySecret rl' = identitySecret rl /\
  (size (buckets rl) <= maxRateLimitBuckets -> size (buckets rl') <= maxRateLimitBuckets).
Proof.
  unfold Allow. set (rl1 := evictStaleLocked now rl).
  assert (H1 : interval rl1 = interval rl /\ rate rl1 = rate rl /\ identitySecret rl1 = identitySecret rl /\
               size (buckets rl1) <= size (buckets rl)).
  { unfold rl1, evictStaleLocked. case_decide; [done|]. simpl. repeat split. apply map_subseteq_size, map_filter_subseteq. }
  clearbody rl1. destruct H1 as (Hi & Hr & Hs & Hsz).
  destruct (buckets rl1 !! k) as [b|] eqn:E.
  - cbv zeta. destruct (if decide (_ <= Sub _ _)%Z then _ else _) as [tok lr ls]. case_decide; intros [= <- <-]; simpl;
      (repeat split; [done..|]); rewrite map_size_insert_Some by (by rewrite E); lia.
  - case_decide as Hc; [intros [= <- <-]; repeat split; [done..|lia]|].
    cbv zeta. destruct (if decide (_ <= Sub _ _)%Z then _ else _) as [tok lr ls]. case_decide; intros [= <- <-]; simpl;
      (repeat split; [done..|]); rewrite map_size_insert_None by done; lia.
Qed.

(** ** Serving requests *)

(** The times at which a key was let through. *)
Definition allowed (k : string) (log : list (time * string * bool)) : list Z :=
  (fun x => x.1.1) <$> filter (fun x => x.1.2 = k /\ x.2 = true) log.

Lemma allowed_cons k t k' ok log :
  allowed k ((t, k', ok) :: log) = if decide (k' = k /\ ok = true) then t :: allowed k log else allowed k log.
Proof. unfold allowed. rewrite filter_cons. simpl. by case_decide. Qed.

Lemma within_Permutation lo hi L L' : L ≡ₚ L' -> within lo hi L = within lo hi L'.
Proof. intros H. unfold within. by rewrite H. Qed.

(** A signature that is not the one the secret gives for the identity. *)
Definition forged (hmac : string -> string -> string) (secret : string) (header : string -> string) : Prop :=
  header "X-Cyntr-Identity-Sig" <> hmac secret (header "X-Cyntr-Identity").

Lemma forged_key hmac header rl : identitySecret rl <> "" -> forged hmac (identitySecret rl) header ->
  rateLimitKey hmac header rl = "_unauthenticated".
Proof.
  intros Hs Hf. unfold rateLimitKey. rewrite decide_True by done. by rewrite decide_False by naive_solver.
Qed.

Lemma serve_cons hmac now header reqs rl : serve hmac ((now, header) :: reqs) rl =
  let key := rateLimitKey hmac header rl in
  let '(ok, rl') := Allow now key rl in
  ((now, key, ok) :: (serve hmac reqs rl').1, (serve hmac reqs rl').2).
Proof.
  cbn [serve]. unfold Middleware. destruct (Allow _ _ _) as [[] rl'];
    by destruct (serve hmac reqs rl') as [log rl''].
Qed.

Lemma serve_ok hmac R I k reqs : (0 < I)%Z -> (2 * I <= maxInt64)%Z -> forall T rl L,
  StronglySorted Z.le (T :: reqs.*1) -> interval rl = I -> rate rl = R -> key_ok R I T (buckets rl) k L ->
  size (buckets rl) <= maxRateLimitBuckets ->
  exists L', L' ≡ₚ allowed k (serve hmac reqs rl).1 ++ L /\
    (forall a, (within a (a + I) L' <= 2 * Z.max 0 R)%Z) /\
    size (buckets (serve hmac reqs rl).2) <= maxRateLimitBuckets.
Proof.
  intros HI HI2. induction reqs as [|[now header] reqs IH]; intros T rl L Hs Hi Hr Hk Hsz.
  { exists L. split; [done|]. split; [apply Hk|done]. }
  rewrite serve_cons. cbv zeta. set (key := rateLimitKey hmac header rl).
  destruct (Allow now key rl) as [ok rl'] eqn:E. destruct (Allow_config _ _ _ _ _ E) as (Hi' & Hr' & _ & Hsz').
  inversion Hs as [|? ? Hs' Hle]; subst. inversion Hle as [|? ? HT _]; subst.
  apply (key_ok_later _ _ T now) in Hk; [|done]. cbn [fst snd]. rewrite allowed_cons.
  destruct (decide (key = k)) as [<-|Hne].
  - pose proof (Allow_same _ _ HI HI2 now rl _ L ok rl' eq_refl eq_refl Hk E) as Hk'.
    destruct (IH now rl' _ Hs' Hi' Hr' Hk' (Hsz' Hsz)) as (L' & HL' & Hw & Hsz''). exists L'.
    split; [|done]. rewrite HL'. destruct ok; [|by rewrite decide_False by naive_solver].
    rewrite decide_True by done. simpl. by rewrite <- Permutation_middle.
  - pose proof (Allow_other _ _ HI HI2 now rl k key L ok rl' eq_refl Hne Hk E) as Hk'.
    destruct (IH now rl' _ Hs' Hi' Hr' Hk' (Hsz' Hsz)) as (L' & HL' & Hw & Hsz''). exists L'.
    split; [|done]. by rewrite decide_False by naive_solver.
Qed.

Lemma serve_key hmac reqs : forall rl i t header t' k ok,
  reqs !! i = Some (t, header) -> (serve hmac reqs rl).1 !! i = Some (t', k, ok) ->
  exists rl1, identitySecret rl1 = identitySecret rl /\ k = rateLimitKey hmac header rl1.
Proof.
  induction reqs as [|[now h] reqs IH]; intros rl i t header t' k ok; [done|].
  rewrite serve_cons. cbv zeta. destruct (Allow _ _ rl) as [ok' rl'] eqn:E. destruct i as [|i]; simpl.
  - intros [= <- <-] [= <- <- <-]. by exists rl.
  - intros H1 H2. destruct (IH rl' i _ _ _ _ _ H1 H2) as (rl1 & Hs & Hk). exists rl1. split; [|done].
    rewrite Hs. by apply (Allow_config _ _ _ _ _ E).
Qed.

(** However requests arrive, however many keys they use and however often idle
    buckets are evicted, the limiter lets one key through at most twice its rate in any
    stretch of time as long as the interval (a fixed window can be used up on both sides of
    its boundary), and never holds more than 100000 buckets; with an identity secret set,
    every request whose signature is not valid is counted under one shared key. *)
Lemma rate_limited hmac t0 rate I secret reqs log rl :
  (0 < I)%Z -> (2 * I <= maxInt64)%Z -> StronglySorted Z.le (t0 :: reqs.*1) ->
  serve hmac reqs (SetIdentitySecret secret (NewRateLimiter t0 rate I)) = (log, rl) ->
  (forall k a, (within a (a + I) (allowed k log) <= 2 * Z.max 0 rate)%Z) /\
  size (buckets rl) <= maxRateLimitBuckets /\
  (secret <> "" -> forall i t header t' k ok, reqs !! i = Some (t, header) -> log !! i = Some (t', k, ok) ->
    forged hmac secret header -> k = "_unauthenticated").
Proof.
  intros HI HI2 Hs Hrun. set (rl0 := SetIdentitySecret secret (NewRateLimiter t0 rate I)) in *.
  assert (Hk : forall k, key_ok rate I t0 (buckets rl0) k []).
  { intros k. split; simpl; [by rewrite lookup_empty|intros a; unfold within; simpl; lia]. }
  assert (Hmain : forall k, exists L', L' ≡ₚ allowed k log ++ [] /\
    (forall a, (within a (a + I) L' <= 2 * Z.max 0 rate)%Z) /\ size (buckets rl) <= maxRateLimitBuckets).
  { intros k. pose proof (serve_ok hmac rate I k reqs HI HI2 t0 rl0 [] Hs eq_refl eq_refl (Hk k)) as H.
    rewrite Hrun in H. apply H. simpl. rewrite map_size_empty. lia. }
  split; [|split].
  - intros k a. destruct (Hmain k) as (L' & HL & Hw & _). rewrite app_nil_r in HL.
    rewrite <- (within_Permutation _ _ _ _ HL). apply Hw.
  - by destruct (Hmain "") as (? & _ & _ & ?).
  - intros Hsec i t header t' k ok H1 H2 Hf. pose proof (serve_key hmac reqs rl0 i t header t' k ok H1) as Hkey.
    rewrite Hrun in Hkey. destruct (Hkey H2) as (rl1 & Hid & ->). apply forged_key; rewrite Hid; done.
Qed.

(** More than the rate around a boundary: at 2 per second, three requests within 0.2 seconds. *)
Lemma rate_limited_witness :
  let reqs := (fun t => (t, fun h => if decide (h = "X-Cyntr-Tenant") then "acme" else "")) <$>
              [0; 900000000; 1000000000; 1100000000; 1200000000]%Z in
  let log := (serve (fun _ _ => "") reqs (NewRateLimiter 0 2 Second)).1 in
  allowed "acme" log = [0; 900000000; 1000000000; 1100000000]%Z /\
  (within 500000000 1500000000 (allowed "acme" log) <= 4)%Z.
Proof.
  intros reqs log. split; [vm_compute; reflexivity|].
  refine (proj1 (rate_limited (fun _ _ => "") 0 2 Second "" reqs log
    (serve (fun _ _ => "") reqs (NewRateLimiter 0 2 Second)).2 _ _ _ _) "acme" 500000000%Z).
  - reflexivity.
  - vm_compute. discriminate.
  - simpl. repeat (constructor; try done).
  - apply surjective_pairing.
Defined.
