(* ===== verification/Base64.v ===== *)
(** * Base64: the encodings of bytes the source uses

    [encoding/hex] and [encoding/base64]'s URL encoding, as the helpers of
    [src/auth/session.go] call it: without padding when encoding, with the padding put back
    when decoding. *)
From S2P Require Import Prelude GoStr.
From Stdlib Require Import Lia.

(** ** Hexadecimal *)

(** [hex.EncodeToString] *)
Fixpoint hex_encode (s : string) : string :=
  match s with
  | "" => ""
  | String c s' => String (hexdigit (N_of_ascii c / 16)) (String (hexdigit (N_of_ascii c mod 16)) (hex_encode s'))
  end.

(** ** The URL alphabet *)

Definition digit64 (n : N) : ascii :=
  ascii_of_N (if (n <? 26)%N then 65 + n else if (n <? 52)%N then 71 + n
              else if (n <? 62)%N then n - 4 else if (n =? 62)%N then 45 else 95).

Definition value64 (c : ascii) : option N :=
  let n := N_of_ascii c in
  if ((65 <=? n) && (n <=? 90))%N then Some (n - 65)%N
  else if ((97 <=? n) && (n <=? 122))%N then Some (n - 71)%N
  else if ((48 <=? n) && (n <=? 57))%N then Some (n + 4)%N
  else if (n =? 45)%N then Some 62%N else if (n =? 95)%N then Some 63%N else None.

(** ** [base64.URLEncoding] *)

Definition pad_char : ascii := "=".

Fixpoint EncodeToString (s : string) : string :=
  match s with
  | "" => ""
  | String a s1 =>
      let a := N_of_ascii a in
      match s1 with
      | "" => String (digit64 (a / 4)) (String (digit64 (a mod 4 * 16)) (String pad_char (String pad_char "")))
      | String b s2 =>
          let b := N_of_ascii b in
          match s2 with
          | "" => String (digit64 (a / 4)) (String (digit64 (a mod 4 * 16 + b / 16))
                    (String (digit64 (b mod 16 * 4)) (String pad_char "")))
          | String c s3 =>
              let c := N_of_ascii c in
              String (digit64 (a / 4)) (String (digit64 (a mod 4 * 16 + b / 16))
                (String (digit64 (b mod 16 * 4 + c / 64)) (String (digit64 (c mod 64)) (EncodeToString s3))))
          end
      end
  end.

(** Line ends are skipped when decoding. *)
Fixpoint skip_newlines (s : string) : string :=
  match s with
  | "" => ""
  | String c s' => if decide (c = "010"%char \/ c = "013"%char) then skip_newlines s' else String c (skip_newlines s')
  end.

Definition corrupt {A} : Result A := Err "illegal base64 data".

(** Four digits at a time, padding in the last four only; the unused low bits of the last
    digit are not checked.  The position in the error message is left out. *)
Fixpoint decode_quanta (s : string) : Result string :=
  match s with
  | "" => Ok ""
  | String a (String b (String c (String d s'))) =>
      match value64 a, value64 b with
      | Some a, Some b =>
          let first := ascii_of_N (a * 4 + b / 16) in
          if decide (c = pad_char) then
            if decide (d = pad_char /\ s' = "") then Ok (String first "") else corrupt
          else match value64 c with
          | None => corrupt
          | Some c =>
              let second := ascii_of_N (b mod 16 * 16 + c / 4) in
              if decide (d = pad_char) then
                if decide (s' = "") then Ok (String first (String second "")) else corrupt
              else match value64 d with
              | None => corrupt
              | Some d =>
                  rbind (decode_quanta s')
                    (fun t => Ok (String first (String second (String (ascii_of_N (c mod 4 * 64 + d)) t))))
              end
          end
      | _, _ => corrupt
      end
  | _ => corrupt
  end.
Definition DecodeString (s : string) : Result string := decode_quanta (skip_newlines s).

(** [strings.TrimRight] with a cutset of one byte. *)
Fixpoint trim_right (c : ascii) (s : string) : string :=
  match s with
  | "" => ""
  | String d s' => let t := trim_right c s' in if decide (d = c /\ t = "") then "" else String d t
  end.

(** ** The helpers of the source *)

(* [auth/session.go:base64url] *)
Definition base64url (data : string) : string := trim_right "=" (EncodeToString data).

(** The padding put back from the length. *)
(* [auth/session.go:base64urlDecode@155-162] *)
Definition add_padding (s : string) : string :=
  let n := (String.length s mod 4)%nat in
  if decide (n = 2) then s +:+ "==" else if decide (n = 3) then s +:+ "=" else s.

(* [auth/session.go:base64urlDecode] *)
Definition base64urlDecode (s : string) : Result string := DecodeString (add_padding s).

(** The same, written again for OIDC. *)
(* [auth/oidc.go:base64URLDecode] *)
Definition base64URLDecode (s : string) : Result string := DecodeString (add_padding s).

(** ** Round trip *)

Ltac nlia := zify; Z.to_euclidean_division_equations; lia.

Lemma byte_range c : (N_of_ascii c < 256)%N.
Proof. apply N_ascii_bounded. Qed.

(** What a digit of the alphabet is not. *)
Record digit_facts (n : N) : Prop := {
  df_value : value64 (digit64 n) = Some n;
  df_pad : digit64 n <> pad_char;
  df_line : ~ (digit64 n = "010"%char \/ digit64 n = "013"%char);
  df_dot : digit64 n <> "."%char;
}.

Definition digit_check (n : N) : bool :=
  bool_decide (value64 (digit64 n) = Some n) && bool_decide (digit64 n <> pad_char) &&
  bool_decide (~ (digit64 n = "010"%char \/ digit64 n = "013"%char)) && bool_decide (digit64 n <> "."%char).

Lemma digit64_facts n : (n < 64)%N -> digit_facts n.
Proof.
  intros Hn. assert (Hall : forallb digit_check (N.of_nat <$> seq 0 64) = true) by (vm_compute; reflexivity).
  rewrite forallb_forall in Hall. specialize (Hall n).
  assert (Hin : In n (N.of_nat <$> seq 0 64)).
  { apply list_elem_of_In, list_elem_of_fmap. exists (N.to_nat n). split; [lia|]. apply elem_of_seq. lia. }
  apply Hall in Hin. unfold digit_check in Hin. rewrite !andb_true_iff, !bool_decide_eq_true in Hin.
  destruct Hin as [[[? ?] ?] ?]. by split.
Qed.

(** Induction on bytes three at a time. *)
Lemma string_ind3 (P : string -> Prop) : P "" -> (forall a, P (String a "")) -> (forall a b, P (String a (String b ""))) ->
  (forall a b c s, P s -> P (String a (String b (String c s)))) -> forall s, P s.
Proof.
  intros H0 H1 H2 H3. fix IH 1. intros [|a [|b [|c s]]]; [exact H0|apply H1|apply H2|]. apply H3, IH.
Qed.

(** Splits a quantum into its digits, with the facts about each. *)
Ltac digits64 :=
  repeat match goal with
  | |- context [N_of_ascii ?c] => let n := fresh "n" in let Hn := fresh "Hn" in let E := fresh "E" in
      pose proof (byte_range c) as Hn; remember (N_of_ascii c) as n eqn:E
  end;
  repeat match goal with
  | |- context [digit64 ?x] => let F := fresh "F" in let d := fresh "d" in
      assert (F : digit_facts x) by (apply digit64_facts; nlia);
      destruct F as [? ? ? ?]; remember (digit64 x) as d
  end.

Lemma EncodeToString_no_newline s : skip_newlines (EncodeToString s) = EncodeToString s.
Proof.
  induction s as [|a|a b|a b c s IH] using string_ind3; cbn [EncodeToString]; digits64; simpl;
    rewrite ?(decide_False (P := _ \/ _)) by done; by rewrite ?IH.
Qed.

Lemma add_padding_quantum a b c d s :
  add_padding (String a (String b (String c (String d s)))) =
  String a (String b (String c (String d (add_padding s)))).
Proof.
  unfold add_padding. cbn [String.length].
  replace (S (S (S (S (String.length s))))) with (String.length s + 1 * 4) by lia. rewrite Nat.Div0.mod_add.
  repeat case_decide; by rewrite ?str_app_cons.
Qed.

Lemma add_padding_trim s : add_padding (base64url s) = EncodeToString s.
Proof.
  unfold base64url. induction s as [|a|a b|a b c s IH] using string_ind3; cbn [EncodeToString];
    [reflexivity| | |]; digits64; cbn [trim_right];
    rewrite ?(decide_False (P := _ /\ _)) by (by intros [? _]); [done..|].
  by rewrite add_padding_quantum, IH.
Qed.

Lemma ascii_of_byte n a : n = N_of_ascii a -> ascii_of_N n = a.
Proof. intros ->. apply ascii_N_embedding. Qed.

Lemma decode_quanta_encode s : decode_quanta (EncodeToString s) = Ok s.
Proof.
  induction s as [|a|a b|a b c s IH] using string_ind3; cbn [EncodeToString]; [reflexivity| | |];
    digits64; cbn [decode_quanta];
    repeat match goal with H : value64 _ = Some _ |- _ => rewrite H; clear H end;
    repeat first [rewrite decide_True by done|rewrite decide_False by done];
    rewrite ?IH; cbn [rbind]; repeat f_equal; apply ascii_of_byte; nlia.
Qed.

Lemma base64url_roundtrip s : base64urlDecode (base64url s) = Ok s.
Proof.
  unfold base64urlDecode, DecodeString. rewrite add_padding_trim, EncodeToString_no_newline.
  apply decode_quanta_encode.
Qed.

(** The text has no dot, the separator of a token. *)
Definition no_dot (s : string) : Prop := cut "." s = None.

Lemma no_dot_cons c s : c <> "."%char -> no_dot s -> no_dot (String c s).
Proof. unfold no_dot. intros Hc Hs. cbn [cut]. by rewrite decide_False, Hs by done. Qed.

Lemma base64url_no_dot s : no_dot (base64url s).
Proof.
  unfold base64url. induction s as [|a|a b|a b c s IH] using string_ind3; cbn [EncodeToString];
    [reflexivity| | |]; digits64; cbn [trim_right];
    rewrite ?(decide_False (P := _ /\ _)) by (by intros [? _]); repeat apply no_dot_cons; done.
Qed.

Lemma split_no_dot s : no_dot s -> split "." s = [s].
Proof.
  induction s as [|c s IH]; [done|]. unfold no_dot in *. cbn [cut split]. case_decide; [done|].
  destruct (cut "." s) as [[]|]; [done|]. intros _. by rewrite IH.
Qed.

Lemma split_dot a s : no_dot a -> split "." (a +:+ "." +:+ s) = a :: split "." s.
Proof.
  induction a as [|c a IH]; intros Ha; [done|]. unfold no_dot in *. rewrite str_app_cons.
  cbn [cut split] in *. case_decide; [done|]. destruct (cut "." a) as [[]|]; [done|]. by rewrite IH.
Qed.
