(* ===== verification/Auth.v ===== *)
(** * Auth: principals, roles, sessions, API keys and OIDC logins

    [src/auth]: role-based access control, signed session tokens and API keys, the identity
    mapper with its bus handler, channel identity bindings and the OIDC login.  The hash
    functions, the JSON codecs, RSA verification and the answers of the OIDC provider are
    arguments; base64 is Base64's. *)
From S2P Require Import Prelude GoStr Base64.

(** ** Types *)

(* [auth/types.go:PrincipalType@6-9] *)
Definition PrincipalUser : Z := 0.
Definition PrincipalAgent : Z := 1.
(* [auth/types.go:ScopeRead@13-13] *)
Definition ScopeRead : string := "read".
(* [auth/types.go:ScopeAgent@14-14] *)
Definition ScopeAgent : string := "agent".
(* [auth/types.go:ScopeAdmin@15-15] *)
Definition ScopeAdmin : string := "admin".

(* [auth/types.go:Principal] *)
Record Principal := {
  Type_ : Z; ID : string; Tenant : string; Roles : list string; Permissions : list string; Scopes : list string;
}.
(* [auth/types.go:Role] *)
Record Role := { r_Name : string; r_Permissions : list string }.

(** ** Roles *)

(* [auth/rbac.go:RBAC] *)
Record RBAC := { roles : gmap string Role }.

(* [auth/rbac.go:RBAC.AddRole] *)
Definition AddRole (role : Role) (r : RBAC) : RBAC := {| roles := <[r_Name role := role]> (roles r) |}.

(* [auth/rbac.go:NewRBAC] *)
Definition NewRBAC : RBAC :=
  fold_right AddRole {| roles := ∅ |} [
    {| r_Name := "admin"; r_Permissions := ["manage_tenants"; "manage_policies"; "manage_agents"; "view_all_audit"] |};
    {| r_Name := "team_lead";
       r_Permissions := ["manage_team_agents"; "manage_team_skills"; "approve_actions"; "view_team_audit"] |};
    {| r_Name := "user"; r_Permissions := ["interact_with_agents"; "view_own_audit"] |};
    {| r_Name := "auditor"; r_Permissions := ["view_all_audit"; "export_audit"] |}].

(* [auth/rbac.go:RBAC.RolePermissions] *)
Definition RolePermissions (name : string) (r : RBAC) : list string :=
  match roles r !! name with Some role => r_Permissions role | None => [] end.

(* [auth/rbac.go:RBAC.HasPermission] *)
Definition HasPermission (p : Principal) (perm : string) (r : RBAC) : bool :=
  existsb (fun name => match roles r !! name with
                       | Some role => existsb (String.eqb perm) (r_Permissions role)
                       | None => false
                       end) (Roles p).

(** ** Sessions and API keys *)

(* [auth/session.go:jwtClaims] *)
Record jwtClaims := {
  c_Sub : string; c_Tenant : string; c_Type : Z; c_Roles : list string; c_Exp : Z; c_Iat : Z;
}.

(* [auth/session.go:SessionManager] *)
Record SessionManager := { secret : string; apiKeys : gmap string Principal }.

(* [auth/session.go:NewSessionManager] *)
Definition NewSessionManager (sec : string) : SessionManager := {| secret := sec; apiKeys := ∅ |}.

Section Auth.
(** SHA-256 and HMAC-SHA-256, as bytes, and the JSON codec of the claims. *)
Context (sha256 : string -> string) (hmac : string -> string -> string).
Context (Marshal : jwtClaims -> Result string) (Unmarshal : string -> Result jwtClaims).

(* [auth/session.go:jwtHeader@32-32] *)
Definition jwtHeader : string :=
  let q := String dquote "" in
  base64url ("{" +:+ q +:+ "alg" +:+ q +:+ ":" +:+ q +:+ "HS256" +:+ q +:+ "," +:+ q +:+ "typ" +:+ q +:+ ":" +:+
             q +:+ "JWT" +:+ q +:+ "}").

(* [auth/session.go:SessionManager.CreateToken@45-53] *)
Definition claims_of (now : time) (p : Principal) (ttl : duration) : jwtClaims :=
  {| c_Sub := ID p; c_Tenant := Tenant p; c_Type := Type_ p; c_Roles := Roles p; c_Exp := Unix (now + ttl)%Z;
     c_Iat := Unix now |}.

(* [auth/session.go:SessionManager.CreateToken] *)
Definition CreateToken (now : time) (p : Principal) (ttl : duration) (sm : SessionManager) : Result string :=
  match Marshal (claims_of now p ttl) with
  | Err e => Err ("marshal claims: " +:+ e)
  | Ok claimsJSON =>
      let payload := base64url claimsJSON in
      let signingInput := jwtHeader +:+ "." +:+ payload in
      let signature := base64url (hmac (secret sm) signingInput) in
      Ok (signingInput +:+ "." +:+ signature)
  end.

(* [auth/session.go:SessionManager.ValidateToken] *)
Definition ValidateToken (now : time) (token : string) (sm : SessionManager) : Result Principal :=
  match split "." token with
  | [p0; p1; p2] =>
      let signingInput := p0 +:+ "." +:+ p1 in
      let expectedSig := base64url (hmac (secret sm) signingInput) in
      if decide (p2 <> expectedSig) then Err "invalid token signature"
      else match base64urlDecode p1 with
      | Err e => Err ("decode claims: " +:+ e)
      | Ok claimsJSON =>
          match Unmarshal claimsJSON with
          | Err e => Err ("parse claims: " +:+ e)
          | Ok claims =>
              if decide (c_Exp claims < Unix now)%Z then Err "token expired"
              else Ok {| Type_ := c_Type claims; ID := c_Sub claims; Tenant := c_Tenant claims;
                         Roles := c_Roles claims; Permissions := []; Scopes := [] |}
          end
      end
  | _ => Err "invalid token format"
  end.

(** [buf] is what the random source gives, or its error. *)
(* [auth/session.go:SessionManager.CreateAPIKey] *)
Definition CreateAPIKey (buf : Result string) (p : Principal) (sm : SessionManager) : Result string * SessionManager :=
  match buf with
  | Err e => (Err ("generate key: " +:+ e), sm)
  | Ok buf =>
      let key := "cyntr_" +:+ hex_encode buf in
      let p := if decide (Scopes p = []) then
                 {| Type_ := Type_ p; ID := ID p; Tenant := Tenant p; Roles := Roles p;
                    Permissions := Permissions p; Scopes := [ScopeRead] |} else p in
      (Ok key, {| secret := secret sm; apiKeys := <[hex_encode (sha256 key) := p]> (apiKeys sm) |})
  end.

(* [auth/session.go:SessionManager.ValidateAPIKey] *)
Definition ValidateAPIKey (key : string) (sm : SessionManager) : Result Principal :=
  match apiKeys sm !! hex_encode (sha256 key) with
  | None => Err "invalid API key"
  | Some p => Ok p
  end.

(** ** The identity mapper and its handler *)

(* [auth/identity.go:IdentityMapper.resolvePermissions] *)
Definition resolvePermissions (p : Principal) (rbac : RBAC) : list string :=
  let step (acc : gset string * list string) (perm : string) :=
    if decide (perm ∈ acc.1) then acc else ({[perm]} ∪ acc.1, acc.2 ++ [perm]) in
  (fold_left (fun acc roleName => fold_left step (RolePermissions roleName rbac) acc) (Roles p) (∅, [])).2.

(* [auth/identity.go:IdentityMapper.Resolve] *)
Definition Resolve (now : time) (scheme credential : string) (sm : SessionManager) (rbac : RBAC) : Result Principal :=
  let r := if decide (scheme = "bearer") then Some (ValidateToken now credential sm)
           else if decide (scheme = "apikey") then Some (ValidateAPIKey credential sm) else None in
  match r with
  | None => Err ("unsupported auth scheme: " +:+ quote scheme)
  | Some r =>
      rbind (wrap_err "auth failed" r) (fun p =>
        Ok {| Type_ := Type_ p; ID := ID p; Tenant := Tenant p; Roles := Roles p;
              Permissions := resolvePermissions p rbac; Scopes := Scopes p |})
  end.

(* [auth/module.go:ResolveRequest] *)
Inductive Payload := ResolveRequest (Scheme Credential : string) | POther (type_name : string).

(* [auth/module.go:trustedResolveSources@47-49] *)
Definition trustedResolveSources (source : string) : bool := bool_decide (source = "proxy").

(* [auth/module.go:Module.handleResolve] *)
Definition handleResolve (now : time) (source : string) (p : Payload) (sm : SessionManager) (rbac : RBAC)
    : Result Principal :=
  if trustedResolveSources source then
    match p with
    | POther t => Err ("expected ResolveRequest, got " +:+ t)
    | ResolveRequest scheme credential => Resolve now scheme credential sm rbac
    end
  else Err ("auth.resolve: caller " +:+ quote source +:+ " is not a trusted source").

(** ** OIDC logins *)

(* [auth/oidc.go:OIDCConfig] *)
Record OIDCConfig := {
  Issuer : string; ClientID : string; ClientSecret : string; RedirectURL : string; o_Scopes : list string;
}.
(** The modulus and the exponent. *)
Record PublicKey := { N_ : N; E_ : Z }.

(* [auth/oidc.go:OIDCProvider] *)
Record OIDCProvider := {
  config : OIDCConfig; authURL : string; tokenURL : string; userinfoURL : string; jwksURI : string;
  jwksKeys : option (gmap string PublicKey);
}.

(* [auth/oidc.go:NewOIDCProvider] *)
Definition NewOIDCProvider (c : OIDCConfig) : OIDCProvider :=
  {| config := c; authURL := ""; tokenURL := ""; userinfoURL := ""; jwksURI := ""; jwksKeys := None |}.

(* [auth/oidc.go:OIDCProvider.SetEndpoints] *)
Definition SetEndpoints (auth token userinfo : string) (p : OIDCProvider) : OIDCProvider :=
  {| config := config p; authURL := auth; tokenURL := token; userinfoURL := userinfo; jwksURI := jwksURI p;
     jwksKeys := jwksKeys p |}.

(* [auth/oidc.go:OIDCProvider.SetJWKSURI] *)
Definition SetJWKSURI (uri : string) (p : OIDCProvider) : OIDCProvider :=
  {| config := config p; authURL := authURL p; tokenURL := tokenURL p; userinfoURL := userinfoURL p;
     jwksURI := uri; jwksKeys := jwksKeys p |}.

(* [auth/oidc.go:IDTokenClaims] *)
Record IDTokenClaims := { Sub_ : string; Email : string; Name_ : string; Exp : Z; Aud : list string }.

(* [auth/oidc.go:audience.Contains] *)
Definition Contains (a : list string) (want : string) : bool := existsb (fun v => String.eqb v want) a.

(** The header and the claims of an ID token, decoded from JSON; the token endpoint's
    answer; RSA verification of a digest. *)
Context (parse_header : string -> Result (string * string)) (parse_claims : string -> Result IDTokenClaims).
Context (parse_tokens : string -> Result string).
Context (VerifyPKCS1v15 : PublicKey -> string -> string -> option error).

(* [auth/oidc.go:OIDCProvider.fetchJWKS@311-317] *)
Record JWK := { Kid : string; Kty : string; jN : string; jE : string; jAlg : string }.

(** What fetching the key set gives: the URL is refused, the request fails, the body does
    not decode, or keys. *)
Inductive FetchReply := Rejected (e : error) | GetFailed (e : error) | BadJSON (e : error) | Keys (l : list JWK).

(** [new(big.Int).SetBytes] and the exponent as an [int]. *)
Definition big_of_bytes (s : string) : N :=
  fold_left (fun n c => n * 256 + N_of_ascii c)%N (String.list_ascii_of_string s) 0%N.
Definition exponent (s : string) : Z :=
  fold_left (fun e c => wrap64 (wrap64 (Z.shiftl e 8) + Z.of_N (N_of_ascii c)))%Z (String.list_ascii_of_string s) 0%Z.

(* [auth/oidc.go:OIDCProvider.fetchJWKS@325-350] *)
Definition add_key (m : gmap string PublicKey) (k : JWK) : gmap string PublicKey :=
  if decide (Kty k <> "RSA") then m
  else match base64URLDecode (jN k), base64URLDecode (jE k) with
       | Ok n, Ok e => <[Kid k := {| N_ := big_of_bytes n; E_ := exponent e |}]> m
       | _, _ => m
       end.

(* [auth/oidc.go:OIDCProvider.fetchJWKS] *)
Definition fetchJWKS (reply : FetchReply) (p : OIDCProvider) : OIDCProvider * option error :=
  if decide (jwksURI p = "") then (p, Some "jwks_uri not configured")
  else match reply with
  | Rejected e => (p, Some ("jwks_uri rejected: " +:+ e))
  | GetFailed e => (p, Some e)
  | BadJSON e => (p, Some ("decode JWKS: " +:+ e))
  | Keys l => ({| config := config p; authURL := authURL p; tokenURL := tokenURL p; userinfoURL := userinfoURL p;
                  jwksURI := jwksURI p; jwksKeys := Some (fold_left add_key l ∅) |}, None)
  end.

(** [strings.SplitN(s, ".", 3)] *)
Definition splitN3 (s : string) : list string :=
  match cut "." s with
  | None => [s]
  | Some (a, b) => match cut "." b with None => [a; b] | Some (c, d) => [a; c; d] end
  end.

Definition lookup_key (kid : string) (p : OIDCProvider) : option PublicKey := m ← jwksKeys p; m !! kid.

(** The key for a key identifier: cached, fetched, or found after a refresh. *)
(* [auth/oidc.go:OIDCProvider.verifyIDTokenSignature@250-270] *)
Definition find_key (first again : FetchReply) (kid : string) (p : OIDCProvider) : OIDCProvider * Result PublicKey :=
  let '(p, err) := match jwksKeys p with None => fetchJWKS first p | Some _ => (p, None) end in
  match err with
  | Some e => (p, Err ("JWKS unavailable, cannot verify token signature: " +:+ e))
  | None =>
      match lookup_key kid p with
      | Some key => (p, Ok key)
      | None =>
          let '(p, err) := fetchJWKS again p in
          match err with
          | Some e => (p, Err ("JWKS refresh failed: " +:+ e))
          | None => (p, match lookup_key kid p with
                        | Some key => Ok key
                        | None => Err ("no matching key found for kid: " +:+ kid)
                        end)
          end
      end
  end.

(* [auth/oidc.go:OIDCProvider.verifyIDTokenSignature] *)
Definition verifyIDTokenSignature (first again : FetchReply) (idToken : string) (p : OIDCProvider)
    : OIDCProvider * option error :=
  match splitN3 idToken with
  | [p0; p1; p2] =>
      match base64URLDecode p0 with
      | Err e => (p, Some ("decode header: " +:+ e))
      | Ok headerJSON =>
          match parse_header headerJSON with
          | Err e => (p, Some ("parse header: " +:+ e))
          | Ok (alg, kid) =>
              if decide (alg <> "RS256") then
                (p, Some ("unsupported algorithm: " +:+ alg +:+ " (only RS256 supported)"))
              else
                let '(p, key) := find_key first again kid p in
                match key with
                | Err e => (p, Some e)
                | Ok key =>
                    let signedContent := p0 +:+ "." +:+ p1 in
                    match base64URLDecode p2 with
                    | Err e => (p, Some ("decode signature: " +:+ e))
                    | Ok signature =>
                        match VerifyPKCS1v15 key (sha256 signedContent) signature with
                        | Some e => (p, Some ("signature verification failed: " +:+ e))
                        | None => (p, None)
                        end
                    end
                end
          end
      end
  | _ => (p, Some "invalid JWT format: expected 3 parts")
  end.

(* [auth/oidc.go:parseIDTokenClaims] *)
Definition parseIDTokenClaims (idToken : string) : Result IDTokenClaims :=
  match split "." idToken with
  | [_; payload; _] =>
      match DecodeString (add_padding payload) with
      | Err e => Err ("decode payload: " +:+ e)
      | Ok decoded => wrap_err "parse claims" (parse_claims decoded)
      end
  | _ => Err "invalid JWT format"
  end.

(** The token endpoint: the request cannot be made, fails, or is answered. *)
Inductive PostReply := BadRequest (e : error) | PostFailed (e : error) | Posted (status : Z) (body : string).

(** The text of a list under the [%v] verb. *)
Definition list_text (l : list string) : string := "[" +:+ Join l " " +:+ "]".

(** From the token endpoint's answer to a session, the same in both exchanges.  [now] is the
    clock at the expiry check and [now'] when the session is made. *)
(* [auth/oidc.go:OIDCProvider.ExchangeCode@384-443] *)
Definition finish_login (now now' : time) (first again : FetchReply) (reply : PostReply) (tenant : string)
    (roles : list string) (p : OIDCProvider) (sm : SessionManager) : OIDCProvider * Result string :=
  match reply with
  | BadRequest e => (p, Err e)
  | PostFailed e => (p, Err ("token exchange: " +:+ e))
  | Posted status body =>
      if decide (status <> 200%Z) then (p, Err ("token error " +:+ itoa status +:+ ": " +:+ body))
      else match parse_tokens body with
      | Err e => (p, Err ("parse tokens: " +:+ e))
      | Ok idToken =>
          let '(p, err) := verifyIDTokenSignature first again idToken p in
          match err with
          | Some e => (p, Err ("ID token signature: " +:+ e))
          | None =>
              (p, rbind (wrap_err "parse ID token" (parseIDTokenClaims idToken)) (fun claims =>
                if decide (Exp claims <= 0 \/ Exp claims < Unix now)%Z then Err "ID token expired or missing exp"
                else if decide (Aud claims = []) then Err "ID token missing aud"
                else if Contains (Aud claims) (ClientID (config p)) then
                  wrap_err "create session" (CreateToken now'
                    {| Type_ := PrincipalUser; ID := Email claims; Tenant := tenant; Roles := roles;
                       Permissions := []; Scopes := [] |} (8 * Hour)%Z sm)
                else Err ("ID token audience mismatch: got " +:+ list_text (Aud claims) +:+ ", want " +:+
                          quote (ClientID (config p)))))
          end
      end
  end.

(** [post] is the token endpoint, a function of the form sent. *)
(* [auth/oidc.go:OIDCProvider.ExchangeCode] *)
Definition ExchangeCode (post : list (string * string) -> PostReply) (now now' : time) (first again : FetchReply)
    (code tenant : string) (roles : list string) (p : OIDCProvider) (sm : SessionManager)
    : OIDCProvider * Result string :=
  let data := [("grant_type", "authorization_code"); ("code", code); ("redirect_uri", RedirectURL (config p));
               ("client_id", ClientID (config p)); ("client_secret", ClientSecret (config p))] in
  finish_login now now' first again (post data) tenant roles p sm.

(* [auth/oidc.go:OIDCProvider.ExchangeCodeWithPKCE] *)
Definition ExchangeCodeWithPKCE (post : list (string * string) -> PostReply) (now now' : time)
    (first again : FetchReply) (code codeVerifier tenant : string) (roles : list string) (p : OIDCProvider)
    (sm : SessionManager) : OIDCProvider * Result string :=
  let data := [("grant_type", "authorization_code"); ("code", code); ("redirect_uri", RedirectURL (config p));
               ("client_id", ClientID (config p)); ("client_secret", ClientSecret (config p));
               ("code_verifier", codeVerifier)] in
  finish_login now now' first again (post data) tenant roles p sm.
End Auth.

(** ** Channel identities *)

(* [auth/binding.go:ChannelIdentity] *)
Record ChannelIdentity := { Channel : string; UserID : string }.
#[export] Instance ChannelIdentity_eq_dec : EqDecision ChannelIdentity.
Proof. solve_decision. Defined.
#[export] Instance ChannelIdentity_countable : Countable ChannelIdentity.
Proof.
  apply (inj_countable' (fun c => (Channel c, UserID c)) (fun '(a, b) => {| Channel := a; UserID := b |})). by intros [].
Defined.

(* [auth/binding.go:IdentityBinding] *)
Record IdentityBinding := {
  bindings : gmap ChannelIdentity string; reverse : gmap string (list ChannelIdentity);
}.

(* [auth/binding.go:NewIdentityBinding] *)
Definition NewIdentityBinding : IdentityBinding := {| bindings := ∅; reverse := ∅ |}.

(* [auth/binding.go:IdentityBinding.Bind] *)
Definition Bind (channel userID principalID : string) (ib : IdentityBinding) : IdentityBinding :=
  let ci := {| Channel := channel; UserID := userID |} in
  {| bindings := <[ci := principalID]> (bindings ib);
     reverse := <[principalID := default [] (reverse ib !! principalID) ++ [ci]]> (reverse ib) |}.

(* [auth/binding.go:IdentityBinding.Resolve] *)
Definition Binding_Resolve (channel userID : string) (ib : IdentityBinding) : option string :=
  bindings ib !! {| Channel := channel; UserID := userID |}.

(** The list without the first occurrence, or [None] when there is none. *)
Fixpoint remove_first (ci : ChannelIdentity) (l : list ChannelIdentity) : option (list ChannelIdentity) :=
  match l with
  | [] => None
  | x :: l' => if decide (x = ci) then Some l' else r ← remove_first ci l'; Some (x :: r)
  end.

(* [auth/binding.go:IdentityBinding.Unbind] *)
Definition Unbind (channel userID : string) (ib : IdentityBinding) : IdentityBinding :=
  let ci := {| Channel := channel; UserID := userID |} in
  match bindings ib !! ci with
  | None => ib
  | Some principalID =>
      {| bindings := delete ci (bindings ib);
         reverse := match remove_first ci (default [] (reverse ib !! principalID)) with
                    | Some l => <[principalID := l]> (reverse ib)
                    | None => reverse ib
                    end |}
  end.

(* [auth/binding.go:IdentityBinding.GetBindings] *)
Definition GetBindings (principalID : string) (ib : IdentityBinding) : list ChannelIdentity :=
  default [] (reverse ib !! principalID).

(* [auth/binding.go:IdentityBinding.Count] *)
Definition Binding_Count (ib : IdentityBinding) : nat := size (bindings ib).

(** ** Tokens and their parts *)

Lemma split_cut c s : split c s = match cut c s with None => [s] | Some (a, b) => a :: split c b end.
Proof.
  induction s as [|d s IH]; [done|]. cbn [split cut]. case_decide; [done|]. rewrite IH.
  by destruct (cut c s) as [[a b]|].
Qed.

(** A text split in three at its dots. *)
Lemma split_three s a b c : split "." s = [a; b; c] -> splitN3 s = [a; b; c] /\ s = a +:+ "." +:+ b +:+ "." +:+ c.
Proof.
  unfold splitN3. rewrite split_cut. destruct (cut "." s) as [[x y]|] eqn:E1; [|done]. intros [= <- H].
  rewrite split_cut in H. destruct (cut "." y) as [[u v]|] eqn:E2; [|done]. injection H as <- H.
  rewrite split_cut in H. destruct (cut "." v) as [[w z]|] eqn:E3.
  { injection H as _ H. rewrite split_cut in H. by destruct (cut "." z) as [[]|]. }
  injection H as <-.
  by rewrite (cut_spec _ _ _ _ E1), (cut_spec _ _ _ _ E2).
Qed.

Lemma split_token a b c : no_dot a -> no_dot b -> no_dot c -> split "." ((a +:+ "." +:+ b) +:+ "." +:+ c) = [a; b; c].
Proof. intros Ha Hb Hc. by rewrite !str_app_assoc, !split_dot, split_no_dot. Qed.

(** A principal as a token carries it. *)
Definition bare (p : Principal) : Principal :=
  {| Type_ := Type_ p; ID := ID p; Tenant := Tenant p; Roles := Roles p; Permissions := []; Scopes := [] |}.

(** What makes a token acceptable at [now] for a principal. *)
Definition signed_token (hmac : string -> string -> string) (Unmarshal : string -> Result jwtClaims) (now : time)
    (sec tok : string) (p : Principal) : Prop :=
  exists h b json c, tok = h +:+ "." +:+ b +:+ "." +:+ base64url (hmac sec (h +:+ "." +:+ b)) /\
    base64urlDecode b = Ok json /\ Unmarshal json = Ok c /\ (Unix now <= c_Exp c)%Z /\
    p = {| Type_ := c_Type c; ID := c_Sub c; Tenant := c_Tenant c; Roles := c_Roles c; Permissions := [];
           Scopes := [] |}.

Lemma ValidateToken_signed hmac Unmarshal now tok sm p : ValidateToken hmac Unmarshal now tok sm = Ok p ->
  signed_token hmac Unmarshal now (secret sm) tok p.
Proof.
  unfold ValidateToken. destruct (split "." tok) as [|p0 [|p1 [|p2 [|? ?]]]] eqn:E; try done.
  apply split_three in E as [_ ->]. case_decide as Hs; [done|]. subst p2.
  destruct (base64urlDecode p1) as [json|] eqn:Ed; [|done].
  destruct (Unmarshal json) as [c|] eqn:Eu; [|done]. case_decide as He; [done|]. intros [= <-].
  exists p0, p1, json, c. repeat split; [done..|lia].
Qed.

Lemma jwtHeader_no_dot : no_dot jwtHeader.
Proof. apply base64url_no_dot. Qed.

(** A session token validates exactly until its expiry, and yields the
    principal it was made for, with its type, name, tenant and roles and no scopes; after
    that it is refused as expired.  Any token accepted is signed with the manager's secret
    over the header and claims it carries, and has not expired. *)
Lemma session_tokens hmac Marshal Unmarshal now p ttl sm tok :
  (forall s, Marshal (claims_of now p ttl) = Ok s -> Unmarshal s = Ok (claims_of now p ttl)) ->
  CreateToken hmac Marshal now p ttl sm = Ok tok ->
  (forall now', ValidateToken hmac Unmarshal now' tok sm =
     if decide (Unix now' <= Unix (now + ttl))%Z then Ok (bare p) else Err "token expired") /\
  (forall now' tok' q, ValidateToken hmac Unmarshal now' tok' sm = Ok q ->
     signed_token hmac Unmarshal now' (secret sm) tok' q).
Proof.
  intros Hcodec Hc. split; [|intros; by apply ValidateToken_signed]. intros now'.
  unfold CreateToken in Hc. destruct (Marshal (claims_of now p ttl)) as [json|] eqn:Em; [|done].
  injection Hc as <-. unfold ValidateToken.
  rewrite split_token by (apply jwtHeader_no_dot || apply base64url_no_dot).
  rewrite decide_False by (intros H; by apply H). rewrite base64url_roundtrip, (Hcodec _ eq_refl). simpl.
  repeat case_decide; [lia|done|done|lia].
Qed.

(** ** Permissions *)

Lemma HasPermission_iff p perm r :
  HasPermission p perm r = true <-> exists name, name ∈ Roles p /\ perm ∈ RolePermissions name r.
Proof.
  unfold HasPermission, RolePermissions. rewrite existsb_exists. apply exist_proper. intros name.
  rewrite <- list_elem_of_In. apply and_iff_compat_l. destruct (roles r !! name) as [role|]; [|set_solver].
  rewrite existsb_exists. setoid_rewrite <- list_elem_of_In. split.
  - intros (x & Hx & ->%String.eqb_eq). done.
  - intros Hx. exists perm. by rewrite String.eqb_refl.
Qed.

Definition seen_step (acc : gset string * list string) (perm : string) : gset string * list string :=
  if decide (perm ∈ acc.1) then acc else ({[perm]} ∪ acc.1, acc.2 ++ [perm]).

Definition seen_ok (acc : gset string * list string) : Prop := NoDup acc.2 /\ forall x, x ∈ acc.1 <-> x ∈ acc.2.

Lemma seen_step_ok acc perm : seen_ok acc ->
  seen_ok (seen_step acc perm) /\ forall x, x ∈ (seen_step acc perm).2 <-> x ∈ acc.2 \/ x = perm.
Proof.
  intros [Hnd Heq]. unfold seen_step. case_decide as Hp.
  - split; [done|]. intros x. split; [by left|]. intros [?| ->]; [done|]. by apply Heq.
  - split; [split|]; simpl.
    + apply NoDup_app. split; [done|]. split; [|apply NoDup_singleton]. intros x Hx ->%list_elem_of_singleton.
      by apply Hp, Heq.
    + intros x. set_solver.
    + intros x. set_solver.
Qed.

(** Folding a step that adds a set of elements adds their union. *)
Lemma fold_seen {A} (f : gset string * list string -> A -> gset string * list string) (adds : A -> string -> Prop) :
  (forall acc a, seen_ok acc -> seen_ok (f acc a) /\ forall x, x ∈ (f acc a).2 <-> x ∈ acc.2 \/ adds a x) ->
  forall l acc, seen_ok acc ->
  seen_ok (fold_left f l acc) /\ forall x, x ∈ (fold_left f l acc).2 <-> x ∈ acc.2 \/ exists a, a ∈ l /\ adds a x.
Proof.
  intros Hf l. induction l as [|a l IH]; intros acc H; simpl.
  - split; [done|]. intros x. split; [by left|]. intros [?|(? & []%not_elem_of_nil & _)]. done.
  - destruct (Hf acc a H) as [H1 Hx1]. destruct (IH _ H1) as [H2 Hx2]. split; [done|].
    intros x. rewrite Hx2, Hx1. setoid_rewrite elem_of_cons. naive_solver.
Qed.

Lemma resolvePermissions_spec p r : NoDup (resolvePermissions p r) /\
  forall perm, perm ∈ resolvePermissions p r <-> HasPermission p perm r = true.
Proof.
  unfold resolvePermissions. fold seen_step.
  destruct (fold_seen (fun acc name => fold_left seen_step (RolePermissions name r) acc)
    (fun name x => x ∈ RolePermissions name r)) with (l := Roles p) (acc := (∅ : gset string, @nil string))
    as [[Hnd _] Hx].
  - intros acc name H. destruct (fold_seen seen_step (fun perm x => x = perm) seen_step_ok (RolePermissions name r) acc H)
      as [H1 H2]. split; [done|]. intros x. rewrite H2. naive_solver.
  - split; [constructor|set_solver].
  - split; [done|]. intros perm. rewrite Hx, HasPermission_iff. set_solver.
Qed.

(** ** API keys *)

(** The key a random buffer gives, and the principal stored for it. *)
Definition key_text (buf : string) : string := "cyntr_" +:+ hex_encode buf.
Definition stored (p : Principal) : Principal :=
  {| Type_ := Type_ p; ID := ID p; Tenant := Tenant p; Roles := Roles p; Permissions := Permissions p;
     Scopes := if decide (Scopes p = []) then [ScopeRead] else Scopes p |}.

Definition issue_keys (sha256 : string -> string) (ks : list (Result string * Principal)) (sec : string) : SessionManager :=
  fold_left (fun sm '(buf, p) => (CreateAPIKey sha256 buf p sm).2) ks (NewSessionManager sec).

Lemma CreateAPIKey_stored sha256 buf p sm : CreateAPIKey sha256 (Ok buf) p sm =
  (Ok (key_text buf), {| secret := secret sm; apiKeys := <[hex_encode (sha256 (key_text buf)) := stored p]> (apiKeys sm) |}).
Proof. unfold CreateAPIKey, stored. destruct p as [? ? ? ? ? sc]; simpl. by case_decide. Qed.

Lemma issue_keys_spec sha256 ks sec : secret (issue_keys sha256 ks sec) = sec /\
  forall h q, apiKeys (issue_keys sha256 ks sec) !! h = Some q ->
  exists buf p, (Ok buf, p) ∈ ks /\ h = hex_encode (sha256 (key_text buf)) /\ q = stored p.
Proof.
  unfold issue_keys. induction ks as [|[[buf|e] p] ks IH] using rev_ind; [done|..];
    rewrite fold_left_app; cbn [fold_left]; destruct IH as [Hs IH].
  - rewrite CreateAPIKey_stored. simpl. split; [done|]. intros h q [[<- <-]|[Hne Hl]]%lookup_insert_Some.
    + exists buf, p. set_solver.
    + apply IH in Hl as (b & p' & ? & ?). exists b, p'. set_solver.
  - simpl. split; [done|]. intros h q Hl. apply IH in Hl as (b & p' & ? & ?). exists b, p'. set_solver.
Qed.

(** C13 [safety]: the auth module turns a credential into a principal only for the proxy, and
    only from a token signed with its secret and not expired, or from an API key with the
    hash of one it issued, whose principal has at least one scope, read by default; the
    permissions it attaches are, without repetition, exactly those the roles grant. *)
Theorem resolve_authentic sha256 hmac Unmarshal now source pl ks sec rbac p :
  handleResolve sha256 hmac Unmarshal now source pl (issue_keys sha256 ks sec) rbac = Ok p ->
  source = "proxy" /\ NoDup (Permissions p) /\
  (forall perm, perm ∈ Permissions p <-> HasPermission p perm rbac = true) /\
  exists scheme cred q, pl = ResolveRequest scheme cred /\ ID p = ID q /\ Tenant p = Tenant q /\ Roles p = Roles q /\
    Scopes p = Scopes q /\
    ((scheme = "bearer" /\ signed_token hmac Unmarshal now sec cred q /\ Scopes p = []) \/
     (scheme = "apikey" /\ Scopes p <> [] /\ exists buf p0, (Ok buf, p0) ∈ ks /\
        hex_encode (sha256 cred) = hex_encode (sha256 (key_text buf)) /\ q = stored p0)).
Proof.
  destruct (issue_keys_spec sha256 ks sec) as [Hsec Hkeys]. set (sm := issue_keys sha256 ks sec) in *. clearbody sm.
  unfold handleResolve, trustedResolveSources. case_bool_decide as Hsrc; [|done].
  destruct pl as [scheme cred|t]; [|done]. unfold Resolve.
  destruct (if decide (scheme = "bearer") then _ else _) as [r|] eqn:Er; [|done].
  intros (q & Hq%wrap_err_Ok & [= <-])%rbind_Ok. subst r. simpl.
  destruct (resolvePermissions_spec q rbac) as [Hnd Hperm]. split; [done|]. split; [done|]. split; [apply Hperm|].
  exists scheme, cred, q. do 5 (split; [done|]). revert Er. case_decide as Hb; [|case_decide as Ha; [|done]]; intros [= Hq].
  - left. split; [done|]. apply ValidateToken_signed in Hq. rewrite Hsec in Hq. split; [done|].
    by destruct Hq as (? & ? & ? & ? & _ & _ & _ & _ & ->).
  - right. split; [done|]. unfold ValidateAPIKey in Hq. destruct (apiKeys sm !! _) as [q'|] eqn:E; [|done].
    injection Hq as ->. apply Hkeys in E as (buf & p0 & ? & ? & ->). split; [|by exists buf, p0].
    simpl. by case_decide.
Qed.

(** ** OIDC logins *)

Section Oidc.
Context (sha256 : string -> string) (hmac : string -> string -> string) (Marshal : jwtClaims -> Result string).
Context (parse_header : string -> Result (string * string)) (parse_claims : string -> Result IDTokenClaims).
Context (parse_tokens : string -> Result string) (VerifyPKCS1v15 : PublicKey -> string -> string -> option error).

Lemma fetchJWKS_config reply p : config (fetchJWKS reply p).1 = config p.
Proof. unfold fetchJWKS. case_decide; [done|]. by destruct reply. Qed.

Lemma find_key_Ok first again kid p p' key : find_key first again kid p = (p', Ok key) -> lookup_key kid p' = Some key.
Proof.
  unfold find_key. destruct (match jwksKeys p with None => _ | Some _ => _ end) as [p1 [e|]]; [done|].
  destruct (lookup_key kid p1) as [k|] eqn:E; [by intros [= <- <-]|].
  destruct (fetchJWKS again p1) as [p2 [e|]]; [done|]. destruct (lookup_key kid p2) eqn:E2; by intros [= <- <-].
Qed.

Lemma find_key_config first again kid p : config (find_key first again kid p).1 = config p.
Proof.
  unfold find_key. destruct (match jwksKeys p with None => _ | Some _ => _ end) as [p1 err] eqn:E.
  assert (H1 : config p1 = config p).
  { destruct (jwksKeys p); [by injection E as <- _|]. pose proof (fetchJWKS_config first p) as H. by rewrite E in H. }
  destruct err; [done|]. destruct (lookup_key kid p1); [done|].
  pose proof (fetchJWKS_config again p1) as H2. destruct (fetchJWKS again p1) as [p2 [e|]]; simpl in *; congruence.
Qed.

Lemma verify_config first again tok p :
  config (verifyIDTokenSignature sha256 parse_header VerifyPKCS1v15 first again tok p).1 = config p.
Proof.
  unfold verifyIDTokenSignature. destruct (splitN3 tok) as [|p0 [|p1 [|p2 [|? ?]]]]; try done.
  destruct (base64URLDecode p0); [|done]. destruct (parse_header _) as [[alg kid]|]; [|done]. case_decide; [done|].
  pose proof (find_key_config first again kid p) as Hcfg. destruct (find_key first again kid p) as [p' [key|e]]; [|done].
  destruct (base64URLDecode p2); [|done]. by destruct (VerifyPKCS1v15 _ _ _).
Qed.

(** An ID token whose claims are signed, with RS256, by a key of the provider's set. *)
Definition verified_claims (p : OIDCProvider) (idToken : string) (claims : IDTokenClaims) : Prop :=
  exists h b g hj kid key sig json, idToken = h +:+ "." +:+ b +:+ "." +:+ g /\
    base64URLDecode h = Ok hj /\ parse_header hj = Ok ("RS256", kid) /\ lookup_key kid p = Some key /\
    base64URLDecode g = Ok sig /\ VerifyPKCS1v15 key (sha256 (h +:+ "." +:+ b)) sig = None /\
    base64URLDecode b = Ok json /\ parse_claims json = Ok claims.

Lemma verify_parse first again tok p p' claims :
  verifyIDTokenSignature sha256 parse_header VerifyPKCS1v15 first again tok p = (p', None) ->
  parseIDTokenClaims parse_claims tok = Ok claims -> verified_claims p' tok claims.
Proof.
  unfold parseIDTokenClaims. destruct (split "." tok) as [|h [|b [|g [|? ?]]]] eqn:E; try done.
  apply split_three in E as [E Htok]. unfold verifyIDTokenSignature. rewrite E.
  destruct (base64URLDecode h) as [hj|] eqn:Eh; [|done]. destruct (parse_header hj) as [[alg kid]|] eqn:Ep; [|done].
  case_decide as Halg; [done|]. subst alg. destruct (find_key first again kid p) as [p1 [key|e]] eqn:Ek; [|done].
  destruct (base64URLDecode g) as [sig|] eqn:Eg; [|done]. destruct (VerifyPKCS1v15 _ _ _) eqn:Ev; [done|].
  intros [= <-]. apply find_key_Ok in Ek. fold (base64URLDecode b).
  destruct (base64URLDecode b) as [json|] eqn:Eb; [|done]. intros Hc%wrap_err_Ok.
  by exists h, b, g, hj, kid, key, sig, json.
Qed.

Lemma Contains_iff a want : Contains a want = true <-> want ∈ a.
Proof.
  unfold Contains. rewrite existsb_exists. setoid_rewrite <- list_elem_of_In. split.
  - by intros (x & Hx & <-%String.eqb_eq).
  - intros. exists want. by rewrite String.eqb_refl.
Qed.

(** C14 [safety]: a login through either exchange of an authorization code yields a session
    only when the token endpoint answered 200 with an ID token whose claims are signed with
    RS256 by a key of the provider's key set, not expired, and meant for this client; the
    session is then for the e-mail of exactly those claims, in the given tenant and roles,
    for eight hours. *)
Theorem oidc_login_verified post now now' first again code verifier tenant roles p sm p' tok :
  ExchangeCode sha256 hmac Marshal parse_header parse_claims parse_tokens VerifyPKCS1v15 post now now' first again
    code tenant roles p sm = (p', Ok tok) \/
  ExchangeCodeWithPKCE sha256 hmac Marshal parse_header parse_claims parse_tokens VerifyPKCS1v15 post now now' first
    again code verifier tenant roles p sm = (p', Ok tok) ->
  exists form body idToken claims, post form = Posted 200 body /\ ("code", code) ∈ form /\
    parse_tokens body = Ok idToken /\ verified_claims p' idToken claims /\
    (0 < Exp claims)%Z /\ (Unix now <= Exp claims)%Z /\ ClientID (config p) ∈ Aud claims /\
    CreateToken hmac Marshal now' {| Type_ := PrincipalUser; ID := Email claims; Tenant := tenant; Roles := roles;
      Permissions := []; Scopes := [] |} (8 * Hour)%Z sm = Ok tok.
Proof.
  intros H.
  assert (Hf : exists form, ("code", code) ∈ form /\
    finish_login sha256 hmac Marshal parse_header parse_claims parse_tokens VerifyPKCS1v15 now now' first again
      (post form) tenant roles p sm = (p', Ok tok)).
  { destruct H as [H|H]; (eexists; split; [|exact H]); set_solver. }
  destruct Hf as (form & Hcode & Hf). exists form. unfold finish_login in Hf.
  destruct (post form) as [e|e|status body]; [done|done|]. case_decide as Hst; [done|]. subst status.
  destruct (parse_tokens body) as [idToken|] eqn:Et; [|done]. exists body, idToken.
  pose proof (verify_config first again idToken p) as Hcfg.
  destruct (verifyIDTokenSignature _ _ _ _ _ _ _) as [p1 [e|]] eqn:Ev; [done|]. injection Hf as <- Hf. simpl in Hcfg.
  apply rbind_Ok in Hf as (claims & Hc%wrap_err_Ok & Hf). exists claims. case_decide as Hexp; [done|].
  case_decide as Haud; [done|]. destruct (Contains _ _) eqn:Hcon; [|done]. apply wrap_err_Ok in Hf.
  apply Contains_iff in Hcon. rewrite Hcfg in Hcon. split; [done|]. split; [done|]. split; [done|].
  split; [by eapply verify_parse|]. split; [lia|]. split; [lia|]. done.
Qed.
End Oidc.

(** ** Witnesses *)

Module AuthExample.
Definition ann : Principal :=
  {| Type_ := PrincipalUser; ID := "ann@acme"; Tenant := "acme"; Roles := ["auditor"; "user"]; Permissions := [];
     Scopes := [] |}.
Definition sm : SessionManager := NewSessionManager "k".
(** A codec for the claims of one session. *)
Definition Marshal (_ : jwtClaims) : Result string := Ok "{}".
Definition Unmarshal (_ : string) : Result jwtClaims := Ok (claims_of 0 ann Hour).

Definition claims : IDTokenClaims :=
  {| Sub_ := "1"; Email := "ann@acme"; Name_ := "Ann"; Exp := 1700000000%Z; Aud := ["other"; "cyntr"] |}.
Definition id_token : string := base64url "H" +:+ "." +:+ base64url "C" +:+ "." +:+ base64url "S".
Definition provider : OIDCProvider :=
  SetJWKSURI "https://idp/keys" (NewOIDCProvider {| Issuer := "https://idp"; ClientID := "cyntr"; ClientSecret := "s";
    RedirectURL := "https://cyntr/cb"; o_Scopes := [] |}).
Definition keys : FetchReply := Keys [{| Kid := "k1"; Kty := "RSA"; jN := "AQAB"; jE := "AQAB"; jAlg := "RS256" |}].
Definition exchange : OIDCProvider * Result string :=
  ExchangeCode id (fun _ s => s) Marshal (fun _ => Ok ("RS256", "k1")) (fun _ => Ok claims) (fun b => Ok b)
    (fun _ _ _ => None) (fun _ => Posted 200 id_token) 0%Z 0%Z keys keys "xyz" "acme" ["user"] provider sm.
End AuthExample.

Lemma session_tokens_witness : exists tok,
  CreateToken (fun k s => k +:+ s) AuthExample.Marshal 0 AuthExample.ann Hour AuthExample.sm = Ok tok /\
  ValidateToken (fun k s => k +:+ s) AuthExample.Unmarshal Hour tok AuthExample.sm = Ok AuthExample.ann.
Proof.
  eexists. split; [vm_compute; reflexivity|].
  rewrite (proj1 (session_tokens (fun k s => k +:+ s) AuthExample.Marshal AuthExample.Unmarshal 0 AuthExample.ann Hour
    AuthExample.sm _ (fun _ _ => eq_refl) ltac:(vm_compute; reflexivity)) Hour).
  vm_compute. reflexivity.
Defined.

Lemma resolve_authentic_witness : exists p,
  handleResolve id (fun _ s => s) AuthExample.Unmarshal 0 "proxy" (ResolveRequest "apikey" (key_text "ab"))
    (issue_keys id [(Ok "ab", AuthExample.ann)] "k") NewRBAC = Ok p /\
  (forall perm, perm ∈ Permissions p <-> HasPermission p perm NewRBAC = true).
Proof.
  eexists. split; [vm_compute; reflexivity|].
  eapply (resolve_authentic id (fun _ s => s) AuthExample.Unmarshal 0 "proxy" (ResolveRequest "apikey" (key_text "ab"))
    [(Ok "ab", AuthExample.ann)] "k" NewRBAC). vm_compute. reflexivity.
Defined.

Lemma oidc_login_verified_witness : exists tok claims,
  AuthExample.exchange.2 = Ok tok /\ "cyntr" ∈ Aud claims.
Proof.
  destruct (oidc_login_verified id (fun _ s => s) AuthExample.Marshal (fun _ => Ok ("RS256", "k1"))
    (fun _ => Ok AuthExample.claims) (fun b => Ok b) (fun _ _ _ => None) (fun _ => Posted 200 AuthExample.id_token)
    0 0 AuthExample.keys AuthExample.keys "xyz" "" "acme" ["user"] AuthExample.provider AuthExample.sm
    AuthExample.exchange.1 (match AuthExample.exchange.2 with Ok t => t | Err _ => "" end))
    as (form & body & tok & claims & _ & _ & _ & _ & _ & _ & Haud & _).
  - left. vm_compute. reflexivity.
  - exists (match AuthExample.exchange.2 with Ok t => t | Err _ => "" end), claims.
    split; [vm_compute; reflexivity|exact Haud].
Defined.
