(* ===== verification/Utf8.v ===== *)
(** * Utf8: runes of a byte string

    [unicode/utf8] as the program uses it: decoding the rune at the head of a string, with
    Go's treatment of invalid bytes (one byte, the replacement rune), and the test for the
    first byte of a rune. *)
From S2P Require Import Prelude GoStr.

Definition RuneError : N := 65533.

Definition in_range (lo hi : N) (c : ascii) : bool := ((lo <=? N_of_ascii c) && (N_of_ascii c <=? hi))%N.
(** A continuation byte, and its six bits. *)
Definition cont (c : ascii) : bool := in_range 128 191 c.
Definition low6 (c : ascii) : N := (N_of_ascii c - 128)%N.

(** The range of the second byte, which excludes overlong encodings, surrogates and runes
    past U+10FFFF. *)
Definition second_lo (x : N) : N := if (x =? 224)%N then 160 else if (x =? 240)%N then 144 else 128.
Definition second_hi (x : N) : N := if (x =? 237)%N then 159 else if (x =? 244)%N then 143 else 191.

(** [utf8.DecodeRuneInString]: the rune and its size in bytes. *)
Definition DecodeRune (s : string) : N * nat :=
  match s with
  | "" => (RuneError, 0)
  | String a s1 =>
      let x := N_of_ascii a in
      if (x <? 128)%N then (x, 1)
      else match s1 with
      | "" => (RuneError, 1)
      | String b s2 =>
          if negb ((194 <=? x) && (x <=? 244))%N || negb (in_range (second_lo x) (second_hi x) b) then (RuneError, 1)
          else if (x <=? 223)%N then (((x - 192) * 64 + low6 b)%N, 2)
          else match s2 with
          | "" => (RuneError, 1)
          | String c s3 =>
              if negb (cont c) then (RuneError, 1)
              else if (x <=? 239)%N then (((x - 224) * 4096 + low6 b * 64 + low6 c)%N, 3)
              else match s3 with
              | "" => (RuneError, 1)
              | String d _ =>
                  if negb (cont d) then (RuneError, 1)
                  else (((x - 240) * 262144 + low6 b * 4096 + low6 c * 64 + low6 d)%N, 4)
              end
          end
      end
  end.

(** [utf8.RuneStart] *)
Definition RuneStart (c : ascii) : bool := negb (cont c).

(** ** Sizes *)

(** The bytes of a string beyond the ASCII range. *)
Fixpoint high_bytes (s : string) : Prop :=
  match s with "" => True | String c s' => (128 <= N_of_ascii c)%N /\ high_bytes s' end.

Lemma cont_high c : cont c = true -> (128 <= N_of_ascii c)%N.
Proof. unfold cont, in_range. rewrite andb_true_iff, N.leb_le. tauto. Qed.

Lemma second_high x c : in_range (second_lo x) (second_hi x) c = true -> (128 <= N_of_ascii c)%N.
Proof.
  unfold in_range, second_lo. rewrite andb_true_iff, N.leb_le. intros [H _]. repeat case_match; lia.
Qed.

Lemma take_bytes_S n c s : take_bytes (S n) (String c s) = String c (take_bytes n s).
Proof. done. Qed.

Lemma take_drop_bytes n s : take_bytes n s +:+ drop_bytes n s = s.
Proof.
  revert s. induction n as [|n IH]; intros s; [by destruct s|]. destruct s as [|c s]; [done|].
  rewrite take_bytes_S, str_app_cons. f_equal. apply IH.
Qed.

Lemma length_take_bytes n s : n <= String.length s -> String.length (take_bytes n s) = n.
Proof.
  revert s. induction n as [|n IH]; intros s H; [by destruct s|]. destruct s as [|c s]; simpl in *; [lia|].
  by rewrite IH by lia.
Qed.

Lemma length_drop_bytes n s : String.length (drop_bytes n s) = String.length s - n.
Proof.
  revert s. induction n as [|n IH]; intros s; [destruct s; simpl; lia|]. destruct s as [|c s]; [done|]. apply IH.
Qed.

(** A rune is one ASCII byte, or one byte or more beyond ASCII. *)
Lemma DecodeRune_size s : s <> "" ->
  (1 <= (DecodeRune s).2 <= String.length s) /\
  ((exists c s', s = String c s' /\ (N_of_ascii c < 128)%N /\ DecodeRune s = (N_of_ascii c, 1)) \/
   high_bytes (take_bytes (DecodeRune s).2 s)).
Proof.
  destruct s as [|a s1]; [done|]. intros _. unfold DecodeRune. cbv zeta.
  destruct (N.ltb_spec (N_of_ascii a) 128) as [Ha|Ha].
  { simpl. split; [lia|]. left. by exists a, s1. }
  assert (H1 : 1 <= 1 <= String.length (String a s1)) by (simpl; lia).
  destruct s1 as [|b s2]; simpl; [split; [lia|right; done]|].
  destruct (_ || _) eqn:Eb; simpl; [split; [lia|right; done]|].
  apply orb_false_iff in Eb as [_ Eb%negb_false_iff%second_high].
  destruct (N_of_ascii a <=? 223)%N; simpl; [split; [lia|right; done]|].
  destruct s2 as [|c s3]; simpl; [split; [lia|right; done]|].
  destruct (cont c) eqn:Ec; simpl; [apply cont_high in Ec|split; [lia|right; done]].
  destruct (N_of_ascii a <=? 239)%N; simpl; [split; [lia|right; done]|].
  destruct s3 as [|d s4]; simpl; [split; [lia|right; done]|].
  destruct (cont d) eqn:Ed; simpl; [apply cont_high in Ed|]; (split; [lia|right; done]).
Qed.

Lemma DecodeRune_ascii c s : (N_of_ascii c < 128)%N -> DecodeRune (String c s) = (N_of_ascii c, 1).
Proof. intros H. unfold DecodeRune. by rewrite (proj2 (N.ltb_lt _ _) H). Qed.

(** A decoded rune below 128 is the byte itself. *)
Lemma DecodeRune_low s : s <> "" -> ((DecodeRune s).1 < 128)%N ->
  exists c s', s = String c s' /\ N_of_ascii c = (DecodeRune s).1 /\ (DecodeRune s).2 = 1.
Proof.
  destruct s as [|a s1]; [done|]. intros _. unfold DecodeRune, RuneError. cbv zeta.
  destruct (N.ltb_spec (N_of_ascii a) 128) as [Ha|Ha]; [intros _; by exists a, s1|].
  assert (Hcontra : forall A : Prop, (65533 < 128)%N -> A) by (intros; lia).
  destruct s1 as [|b s2]; simpl; [apply Hcontra|].
  destruct (_ || _) eqn:Eb; simpl; [apply Hcontra|].
  apply orb_false_iff in Eb as [Ex Eb]. rewrite negb_false_iff in Ex, Eb.
  rewrite andb_true_iff, !N.leb_le in Ex.
  assert (Hb := second_high _ _ Eb). unfold in_range, second_lo in Eb. rewrite andb_true_iff, !N.leb_le in Eb.
  unfold low6. destruct (N.leb_spec (N_of_ascii a) 223); simpl; [intros; nia|].
  destruct s2 as [|c s3]; simpl; [apply Hcontra|]. destruct (cont c); simpl; [|apply Hcontra].
  destruct (N.leb_spec (N_of_ascii a) 239); simpl.
  { intros Hlow. exfalso. destruct (N.eqb_spec (N_of_ascii a) 224) as [->|]; lia. }
  destruct s3 as [|d s4]; simpl; [apply Hcontra|]. destruct (cont d); simpl; [|apply Hcontra].
  intros Hlow. exfalso. destruct (N.eqb_spec (N_of_ascii a) 224) as [E|]; [lia|].
  destruct (N.eqb_spec (N_of_ascii a) 240) as [->|]; lia.
Qed.
