(* ===== verification/Regexp.v ===== *)
(** * Regexp: regular expressions

    [regexp] for the expressions the program compiles: a backtracking matcher that prefers
    the alternatives the way Go does (leftmost start, first alternative, greedy
    repetition), its meaning as a relation, and replacement of all matches.  Expressions
    that match the empty text are not used and not replaced. *)
From S2P Require Import Prelude GoStr Utf8.

(** [Rep r n e] repeats [r] [n] times and then up to [e] more, without bound for [None]. *)
Inductive regexp :=
  | Eps
  | Char (p : N -> bool)
  | Seq (r1 r2 : regexp)
  | Alt (r1 r2 : regexp)
  | Rep (r : regexp) (n : nat) (e : option nat)
  | WordB.

(** A place in the text: the byte before it and the text after it. *)
Definition pos : Type := option ascii * string.

Definition word_byte (c : ascii) : bool :=
  in_range 48 57 c || in_range 65 90 c || in_range 97 122 c || bool_decide (c = "_"%char).
Definition head_byte (s : string) : option ascii := match s with "" => None | String c _ => Some c end.
Definition boundary (x : pos) : bool :=
  let w o := match o with Some c => word_byte c | None => false end in xorb (w x.1) (w (head_byte x.2)).

Fixpoint last_byte (d : option ascii) (s : string) : option ascii :=
  match s with "" => d | String c s' => last_byte (Some c) s' end.

(** The place after the next rune. *)
Definition next_rune (x : pos) : pos :=
  let n := (DecodeRune x.2).2 in (last_byte x.1 (take_bytes n x.2), drop_bytes n x.2).

Definition step_rune (p : N -> bool) (x : pos) : option pos :=
  if decide (x.2 <> "" /\ p (DecodeRune x.2).1 = true) then Some (next_rune x) else None.

Definition shorter (y x : pos) : Prop := String.length y.2 < String.length x.2.
#[export] Instance shorter_dec y x : Decision (shorter y x).
Proof. unfold shorter. apply _. Defined.

Section Repetition.
Context (run_a : pos -> (pos -> option pos) -> option pos) (k : pos -> option pos).
Fixpoint run_opt (fuel : nat) (x : pos) : option pos :=
  match fuel with
  | O => k x
  | S f => match run_a x (fun y => if decide (shorter y x) then run_opt f y else None) with
           | Some z => Some z
           | None => k x
           end
  end.
Fixpoint run_req (n : nat) (e : option nat) (x : pos) : option pos :=
  match n with
  | O => run_opt (match e with Some m => m | None => String.length x.2 end) x
  | S n' => run_a x (run_req n' e)
  end.
End Repetition.

(** Matching at a place, continuing with [k]. *)
Fixpoint run (r : regexp) (x : pos) (k : pos -> option pos) : option pos :=
  match r with
  | Eps => k x
  | Char p => match step_rune p x with Some y => k y | None => None end
  | Seq a b => run a x (fun y => run b y k)
  | Alt a b => match run a x k with Some z => Some z | None => run b x k end
  | Rep a n e => run_req (run a) k n e x
  | WordB => if boundary x then k x else None
  end.
Definition match_at (r : regexp) (x : pos) : option pos := run r x Some.

(** [MatchString] and [ReplaceAllString]; the fuel is the number of bytes. *)
Fixpoint search (fuel : nat) (r : regexp) (x : pos) : bool :=
  match match_at r x with
  | Some _ => true
  | None => match fuel with
            | O => false
            | S f => if decide (x.2 = "") then false else search f r (next_rune x)
            end
  end.
Definition MatchString (r : regexp) (s : string) : bool := search (String.length s) r (None, s).

Fixpoint replace_from (fuel : nat) (r : regexp) (repl : string) (x : pos) : string :=
  match fuel with
  | O => x.2
  | S f =>
      if decide (x.2 = "") then ""
      else match match_at r x with
      | Some y => if decide (shorter y x) then repl +:+ replace_from f r repl y
                  else take_bytes (DecodeRune x.2).2 x.2 +:+ replace_from f r repl (next_rune x)
      | None => take_bytes (DecodeRune x.2).2 x.2 +:+ replace_from f r repl (next_rune x)
      end
  end.
Definition ReplaceAllString (r : regexp) (s repl : string) : string := replace_from (String.length s) r repl (None, s).

(** ** Building expressions *)

Definition rune_of (c : ascii) : N := N_of_ascii c.
Definition between (lo hi : ascii) (n : N) : bool := ((rune_of lo <=? n) && (n <=? rune_of hi))%N.
Definition one_of (s : string) (n : N) : bool := existsb (fun c => rune_of c =? n)%N (String.list_ascii_of_string s).
(** A literal text. *)
Fixpoint lit (s : string) : regexp :=
  match s with "" => Eps | String c s' => Seq (Char (N.eqb (rune_of c))) (lit s') end.
Definition alts (rs : list regexp) : regexp :=
  match rs with [] => Char (fun _ => false) | r :: rs => fold_left Alt rs r end.
Definition maybe (r : regexp) : regexp := Rep r 0 (Some 1).
Definition star (r : regexp) : regexp := Rep r 0 None.
Definition times (n : nat) (r : regexp) : regexp := Rep r n (Some 0).
Definition at_least (n : nat) (r : regexp) : regexp := Rep r n None.
Definition from_to (n m : nat) (r : regexp) : regexp := Rep r n (Some (m - n)).
Definition seqs (rs : list regexp) : regexp := fold_right Seq Eps rs.

(** [(?i)]: a letter in either case, and the two runes outside ASCII that fold to s and k. *)
Definition fold_char (c : ascii) (n : N) : bool :=
  let x := rune_of c in
  (n =? x)%N || (in_range 97 122 c && ((n =? x - 32)%N || ((x =? 115)%N && (n =? 383)%N) || ((x =? 107)%N && (n =? 8490)%N))).
Fixpoint lit_fold (s : string) : regexp :=
  match s with "" => Eps | String c s' => Seq (Char (fold_char c)) (lit_fold s') end.

(** ** The meaning of an expression *)

Inductive mt : regexp -> pos -> pos -> Prop :=
  | mt_eps x : mt Eps x x
  | mt_char p x y : step_rune p x = Some y -> mt (Char p) x y
  | mt_seq a b x y z : mt a x y -> mt b y z -> mt (Seq a b) x z
  | mt_alt_l a b x y : mt a x y -> mt (Alt a b) x y
  | mt_alt_r a b x y : mt b x y -> mt (Alt a b) x y
  | mt_word x : boundary x = true -> mt WordB x x
  | mt_rep_req a n e x y z : mt a x y -> mt (Rep a n e) y z -> mt (Rep a (S n) e) x z
  | mt_rep_stop a e x : mt (Rep a 0 e) x x
  | mt_rep_more a e x y z : e <> Some 0 -> mt a x y -> mt (Rep a 0 (pred <$> e)) y z -> mt (Rep a 0 e) x z.

Lemma next_rune_shorter x : x.2 <> "" -> shorter (next_rune x) x.
Proof.
  intros H. destruct (DecodeRune_size _ H) as [[H1 H2] _]. unfold shorter, next_rune. simpl.
  rewrite length_drop_bytes. lia.
Qed.

Lemma step_rune_next p x y : step_rune p x = Some y -> x.2 <> "" /\ p (DecodeRune x.2).1 = true /\ y = next_rune x.
Proof. unfold step_rune. case_decide as H; [|done]. intros [= <-]. tauto. Qed.

(** A match consumes text or stays where it is. *)
Lemma mt_consume r x y : mt r x y -> y = x \/ shorter y x.
Proof.
  unfold shorter. induction 1 as [| p x y H | a b x y z _ IH1 _ IH2 | | | | a n e x y z _ IH1 _ IH2 | |
    a e x y z _ _ IH1 _ IH2]; auto.
  - right. apply step_rune_next in H as (H & _ & ->). by apply next_rune_shorter.
  - destruct IH1 as [->|], IH2 as [->|]; auto. right. lia.
  - destruct IH1 as [->|], IH2 as [->|]; auto. right. lia.
  - destruct IH1 as [->|], IH2 as [->|]; auto. right. lia.
Qed.

Section Adequacy.
Context (a : regexp).
Context (IH_sound : forall x k z, run a x k = Some z -> exists y, mt a x y /\ k y = Some z).
Context (IH_complete : forall x y k, mt a x y -> k y <> None -> run a x k <> None).

Lemma run_opt_sound k fuel : forall x z, run_opt (run a) k fuel x = Some z ->
  forall e, match e with Some m => fuel <= m | None => True end ->
  exists y, mt (Rep a 0 e) x y /\ k y = Some z.
Proof.
  induction fuel as [|f IHf]; intros x z; simpl; intros H e He; [exists x; split; [apply mt_rep_stop|done]|].
  destruct (run a x _) as [z'|] eqn:E; [injection H as ->|exists x; split; [apply mt_rep_stop|done]].
  apply IH_sound in E as (y & Hy & E). case_decide; [|done].
  destruct (IHf _ _ E (pred <$> e)) as (w & Hw & Hk); [destruct e; simpl; lia|].
  exists w. split; [|done]. eapply mt_rep_more; [|done..]. intros ->. lia.
Qed.

Lemma run_req_sound k n e : forall x z, run_req (run a) k n e x = Some z ->
  exists y, mt (Rep a n e) x y /\ k y = Some z.
Proof.
  induction n as [|n IHn]; intros x z; simpl; intros H.
  - apply (run_opt_sound _ _ _ _ H). destruct e; [lia|done].
  - apply IH_sound in H as (y & Hy & H). destruct (IHn _ _ H) as (w & Hw & Hk). exists w.
    split; [by eapply mt_rep_req|done].
Qed.

Lemma run_opt_stop k fuel x : k x <> None -> run_opt (run a) k fuel x <> None.
Proof. destruct fuel; simpl; [done|]. intros H. by case_match. Qed.

Lemma run_req_complete k n e x y : mt (Rep a n e) x y -> k y <> None -> run_req (run a) k n e x <> None.
Proof.
  intros H Hk. remember (Rep a n e) as r eqn:Hr. revert n e Hr.
  assert (Hmain : match r with
    | Rep a' n e => a' = a -> run_req (run a) k n e x <> None /\
        (n = 0 -> forall fuel, match e with Some m => m | None => String.length x.2 end <= fuel ->
                    run_opt (run a) k fuel x <> None)
    | _ => True end).
  { induction H as [| | | | | | a' n e x y z Hxy _ Hyz IHz | a' e x | a' e x y z He Hxy _ Hyz IHz]; try done.
    - intros ->. split; [|done]. simpl. eapply IH_complete; [done|]. by apply IHz.
    - intros ->. split; [simpl; by apply run_opt_stop|]. intros _ fuel _. by apply run_opt_stop.
    - intros ->.
      assert (Hopt : forall fuel, match e with Some m => m | None => String.length x.2 end <= fuel ->
                run_opt (run a) k fuel x <> None).
      { intros fuel Hf. specialize (IHz Hk eq_refl) as [_ IHz]. specialize (IHz eq_refl).
        destruct (mt_consume _ _ _ Hxy) as [->|Hs].
        - apply IHz. destruct e as [m|]; simpl; lia.
        - destruct fuel as [|fuel].
          { destruct e as [[|m]|]; [done|lia|]. unfold shorter in Hs. lia. }
          simpl. assert (Hrun : run a x (fun y => if decide (shorter y x) then run_opt (run a) k fuel y else None) <> None).
          { eapply IH_complete; [done|]. rewrite decide_True by done. apply IHz.
            unfold shorter in Hs. destruct e as [m|]; simpl; lia. }
          by destruct (run a x _). }
      split; [simpl; by apply Hopt|auto]. }
  intros n e ->. by apply Hmain.
Qed.
End Adequacy.

Lemma run_sound r : forall x k z, run r x k = Some z -> exists y, mt r x y /\ k y = Some z.
Proof.
  induction r as [|p|a IHa b IHb|a IHa b IHb|a IHa n e|]; intros x k z; simpl; intros H.
  - exists x. split; [apply mt_eps|done].
  - destruct (step_rune p x) as [y|] eqn:E; [|done]. exists y. split; [by apply mt_char|done].
  - apply IHa in H as (y & Hy & H). apply IHb in H as (w & Hw & H). exists w. split; [by eapply mt_seq|done].
  - destruct (run a x k) as [z'|] eqn:E.
    + injection H as ->. apply IHa in E as (y & ? & ?). exists y. split; [by apply mt_alt_l|done].
    + apply IHb in H as (y & ? & ?). exists y. split; [by apply mt_alt_r|done].
  - by eapply run_req_sound.
  - destruct (boundary x) eqn:E; [|done]. exists x. split; [by apply mt_word|done].
Qed.

Lemma run_complete r : forall x y k, mt r x y -> k y <> None -> run r x k <> None.
Proof.
  induction r as [|p|a IHa b IHb|a IHa b IHb|a IHa n e|]; intros x y k H Hk.
  - by inversion H; subst.
  - inversion H as [|? ? ? Hp| | | | | | |]; subst. simpl. by rewrite Hp.
  - inversion H; subst. simpl. eapply IHa; [done|]. by eapply IHb.
  - simpl. inversion H; subst; destruct (run a x k) eqn:E; try done; [|by eapply IHb].
    exfalso. by eapply (IHa x y k).
  - simpl. by eapply run_req_complete.
  - inversion H; subst. simpl. by case_match.
Qed.

(** ** Finding a match *)

(** The matcher succeeds at a place exactly when the expression has a match there. *)
Lemma match_at_spec r x : match_at r x <> None <-> exists y, mt r x y.
Proof.
  unfold match_at. split.
  - destruct (run r x Some) as [z|] eqn:E; [|done]. intros _. apply run_sound in E as (y & Hy & _). eauto.
  - intros [y Hy]. by eapply run_complete.
Qed.

Definition rune_step (x y : pos) : Prop := x.2 <> "" /\ y = next_rune x.

Lemma regexp_search_spec r fuel : forall x, String.length x.2 <= fuel ->
  search fuel r x = true <-> exists y z, rtc rune_step x y /\ mt r y z.
Proof.
  induction fuel as [|f IH]; intros x Hf; simpl.
  - assert (Hx : x.2 = "") by (destruct x.2; simpl in *; [done|lia]).
    destruct (match_at r x) eqn:E; (split; [try done|intros (y & z & Hr & Hm); try done]).
    + intros _. destruct (proj1 (match_at_spec r x)) as [z Hz]; [by rewrite E|]. exists x, z. by split.
    + exfalso. inversion Hr as [|? y' ? [H1 _]]; subst; [|done]. by apply (match_at_spec r y); [eauto|].
  - destruct (match_at r x) eqn:E.
    { split; [|done]. intros _. destruct (proj1 (match_at_spec r x)) as [z Hz]; [by rewrite E|].
      exists x, z. by split. }
    case_decide as Hx.
    + split; [done|]. intros (y & z & Hr & Hm). exfalso.
      inversion Hr as [|? y' ? [H1 _]]; subst; [|done]. by apply (match_at_spec r y); [eauto|].
    + assert (Hs := next_rune_shorter x Hx). unfold shorter in Hs. rewrite IH by lia. split.
      * intros (y & z & Hr & Hm). exists y, z. split; [|done]. by eapply rtc_l.
      * intros (y & z & Hr & Hm). inversion Hr as [|? y' ? [H1 ->]]; subst.
        { exfalso. by apply (match_at_spec r y); [eauto|]. }
        exists y, z. by split.
Qed.

(** ** Texts, words and substrings *)

Fixpoint all_in (A : N -> bool) (s : string) : Prop :=
  match s with "" => True | String c s' => A (rune_of c) = true /\ all_in A s' end.

Definition substring (w s : string) : Prop := exists a b, s = a +:+ w +:+ b.

Lemma all_in_app A s t : all_in A (s +:+ t) <-> all_in A s /\ all_in A t.
Proof. induction s as [|c s IH]; [simpl; tauto|]. rewrite str_app_cons. simpl. rewrite IH. tauto. Qed.

Lemma substring_app_l w s t : substring w s -> substring w (s +:+ t).
Proof. intros (a & b & ->). exists a, (b +:+ t). by rewrite !str_app_assoc. Qed.
Lemma substring_app_r w s t : substring w t -> substring w (s +:+ t).
Proof. intros (a & b & ->). exists (s +:+ a), b. by rewrite !str_app_assoc. Qed.
Lemma substring_length w s : substring w s -> String.length w <= String.length s.
Proof. intros (a & b & ->). autorewrite with go_string. lia. Qed.

Lemma barrier_prefix A w b X c Y : all_in A w -> A (rune_of c) = false ->
  w +:+ b = X +:+ String c Y -> exists t, X = w +:+ t.
Proof.
  revert X. induction w as [|d w IH]; intros X Hw Hc Heq; [by exists X|]. rewrite str_app_cons in Heq.
  destruct Hw as [Hd Hw]. destruct X as [|x X].
  - change ("" +:+ String c Y) with (String c Y) in Heq. injection Heq as -> _. congruence.
  - rewrite str_app_cons in Heq. injection Heq as -> Heq. destruct (IH X Hw Hc Heq) as [t ->]. by exists t.
Qed.

(** A word cannot cross a byte outside its alphabet. *)
Lemma substring_barrier A w X c Y : all_in A w -> A (rune_of c) = false ->
  substring w (X +:+ String c Y) -> substring w X \/ substring w Y.
Proof.
  intros Hw Hc (a & b & Heq). revert X Heq. induction a as [|e a IH]; intros X Heq.
  - left. symmetry in Heq. destruct (barrier_prefix A w b X c Y Hw Hc Heq) as [t ->]. by exists "", t.
  - rewrite str_app_cons in Heq. destruct X as [|x X].
    + change ("" +:+ String c Y) with (String c Y) in Heq. injection Heq as _ ->. right. by exists a, b.
    + rewrite str_app_cons in Heq. injection Heq as _ Heq. destruct (IH X Heq) as [(p & q & ->)|]; [left|by right].
      exists (String x p), q. by rewrite str_app_cons.
Qed.

(** ** Expressions over an alphabet *)

(** Every character an expression accepts is in [A], and it has no [\b]. *)
Fixpoint plain (A : N -> bool) (r : regexp) : Prop :=
  match r with
  | Eps => True
  | Char p => forall n, p n = true -> A n = true
  | Seq a b | Alt a b => plain A a /\ plain A b
  | Rep a _ _ => plain A a
  | WordB => False
  end.

(** The words of an expression. *)
Definition lang (r : regexp) (w : string) : Prop := exists q, mt r (None, w) (q, "").

Section Alphabet.
Context (A : N -> bool) (A_ascii : forall n, A n = true -> (n < 128)%N).

Lemma step_rune_plain p x y : (forall n, p n = true -> A n = true) -> step_rune p x = Some y ->
  exists c, x.2 = String c y.2 /\ A (rune_of c) = true /\ p (rune_of c) = true.
Proof.
  intros Hp (Hx & Hr & ->)%step_rune_next. assert (Ha := Hp _ Hr).
  destruct (DecodeRune_low _ Hx (A_ascii _ Ha)) as (c & s' & Hs & Hc & Hn). exists c.
  unfold rune_of. rewrite Hc. split; [|done]. unfold next_rune. rewrite Hn, Hs. by destruct s'.
Qed.

(** A match is a word, and the word matches wherever it stands. *)
Lemma plain_mt r x y : plain A r -> mt r x y ->
  exists w, x.2 = w +:+ y.2 /\ all_in A w /\ forall q t, exists q', mt r (q, w +:+ t) (q', t).
Proof.
  intros Hp H. induction H as [x | p x y H | a b x y z _ IH1 _ IH2 | a b x y _ IH | a b x y _ IH | |
    a n e x y z _ IH1 _ IH2 | a e x | a e x y z He _ IH1 _ IH2]; simpl in Hp.
  - exists "". split; [done|]. split; [done|]. intros q t. exists q. apply mt_eps.
  - destruct (step_rune_plain _ _ _ Hp H) as (c & Hx & Hc & Hpc). exists (String c "").
    split; [done|]. split; [done|]. intros q t. rewrite str_app_cons. change ("" +:+ t) with t.
    exists (Some c). apply mt_char. unfold step_rune, next_rune. cbn [fst snd].
    rewrite (DecodeRune_ascii c t) by (by apply A_ascii). cbn [fst snd take_bytes drop_bytes last_byte].
    rewrite decide_True by done. by destruct t.
  - destruct Hp as [Hp1 Hp2]. destruct (IH1 Hp1) as (w1 & -> & Hw1 & Hm1). destruct (IH2 Hp2) as (w2 & -> & Hw2 & Hm2).
    exists (w1 +:+ w2). rewrite str_app_assoc, all_in_app. split; [done|]. split; [done|]. intros q t.
    destruct (Hm1 q (w2 +:+ t)) as [q1 H1]. destruct (Hm2 q1 t) as [q2 H2]. exists q2.
    rewrite str_app_assoc. by eapply mt_seq.
  - destruct Hp as [Hp1 _]. destruct (IH Hp1) as (w & -> & Hw & Hm). exists w. split; [done|]. split; [done|].
    intros q t. destruct (Hm q t) as [q' Hq]. exists q'. by apply mt_alt_l.
  - destruct Hp as [_ Hp1]. destruct (IH Hp1) as (w & -> & Hw & Hm). exists w. split; [done|]. split; [done|].
    intros q t. destruct (Hm q t) as [q' Hq]. exists q'. by apply mt_alt_r.
  - done.
  - destruct (IH1 Hp) as (w1 & -> & Hw1 & Hm1). destruct (IH2 Hp) as (w2 & -> & Hw2 & Hm2).
    exists (w1 +:+ w2). rewrite str_app_assoc, all_in_app. split; [done|]. split; [done|]. intros q t.
    destruct (Hm1 q (w2 +:+ t)) as [q1 H1]. destruct (Hm2 q1 t) as [q2 H2]. exists q2.
    rewrite str_app_assoc. by eapply mt_rep_req.
  - exists "". split; [done|]. split; [done|]. intros q t. exists q. apply mt_rep_stop.
  - destruct (IH1 Hp) as (w1 & -> & Hw1 & Hm1). destruct (IH2 Hp) as (w2 & -> & Hw2 & Hm2).
    exists (w1 +:+ w2). rewrite str_app_assoc, all_in_app. split; [done|]. split; [done|]. intros q t.
    destruct (Hm1 q (w2 +:+ t)) as [q1 H1]. destruct (Hm2 q1 t) as [q2 H2]. exists q2.
    rewrite str_app_assoc. by eapply mt_rep_more.
Qed.

Lemma mt_lang r x y : plain A r -> mt r x y -> exists w, x.2 = w +:+ y.2 /\ lang r w.
Proof.
  intros Hp H. destruct (plain_mt r x y Hp H) as (w & Hx & _ & Hm). exists w. split; [done|].
  destruct (Hm None "") as [q Hq]. rewrite str_app_nil_r in Hq. by exists q.
Qed.

Lemma lang_mt r w : plain A r -> lang r w -> all_in A w /\ forall q t, exists q', mt r (q, w +:+ t) (q', t).
Proof.
  intros Hp [q H]. destruct (plain_mt r _ _ Hp H) as (w' & Hw & Ha & Hm). simpl in Hw.
  rewrite str_app_nil_r in Hw. by subst w'.
Qed.

(** ** Replacement *)

(** A replacement text that no word can enter. *)
Record barrier (repl : string) : Prop := {
  bar_form : exists c m d, repl = String c (m +:+ String d "") /\ A (rune_of c) = false /\ A (rune_of d) = false;
}.

Lemma barrier_cross w u repl R : barrier repl -> all_in A w -> substring w (u +:+ repl +:+ R) ->
  substring w u \/ substring w repl \/ substring w R.
Proof.
  intros [(c & m & d & -> & Hc & Hd)] Hw Hs. rewrite str_app_cons, str_app_assoc in Hs.
  rewrite str_app_cons in Hs. change ("" +:+ R) with R in Hs.
  apply (substring_barrier A) in Hs as [Hs|Hs]; [by left| |done|done].
  apply (substring_barrier A) in Hs as [Hs|Hs]; [|by right; right|done|done]. right. left.
  change (String c (m +:+ String d "")) with (String c "" +:+ m +:+ String d "").
  by apply substring_app_r, substring_app_l.
Qed.

(** One step of the scan: a match is replaced, or a rune is copied. *)
Lemma replace_from_step f r repl x : x.2 <> "" ->
  (exists y, mt r x y /\ shorter y x /\ replace_from (S f) r repl x = repl +:+ replace_from f r repl y) \/
  ((forall y, mt r x y -> match_at r x = Some x) /\
   replace_from (S f) r repl x = take_bytes (DecodeRune x.2).2 x.2 +:+ replace_from f r repl (next_rune x)).
Proof.
  intros Hx. cbn [replace_from]. rewrite (decide_False (P := x.2 = "")) by done.
  destruct (match_at r x) as [y|] eqn:E.
  - assert (Hy : mt r x y) by (apply run_sound in E as (z & Hz & [= ->]); done).
    case_decide as Hs; [left; by exists y|]. right. split; [|done]. intros _ _.
    by destruct (mt_consume _ _ _ Hy) as [->|].
  - right. split; [|done]. intros y Hy. exfalso. by apply (match_at_spec r x); [eauto|].
Qed.

Lemma mt_suffix r x y : mt r x y -> exists v, x.2 = v +:+ y.2.
Proof.
  induction 1 as [x | p x y H | a b x y z _ [v1 H1] _ [v2 H2] | | | | a n e x y z _ [v1 H1] _ [v2 H2] | |
    a e x y z _ _ [v1 H1] _ [v2 H2]]; try done; try (by exists "").
  - apply step_rune_next in H as (_ & _ & ->). eexists. symmetry. apply take_drop_bytes.
  - exists (v1 +:+ v2). by rewrite str_app_assoc, <- H2.
  - exists (v1 +:+ v2). by rewrite str_app_assoc, <- H2.
  - exists (v1 +:+ v2). by rewrite str_app_assoc, <- H2.
Qed.

(** Whatever is replaced, no word appears that was not there. *)
Lemma replace_adds_no_word r repl w : barrier repl -> all_in A w -> forall f x u,
  substring w (u +:+ replace_from f r repl x) -> substring w (u +:+ x.2) \/ substring w repl.
Proof.
  intros Hb Hw. induction f as [|f IH]; intros x u Hs; [by left|].
  destruct (decide (x.2 = "")) as [Hx|Hx]; [left; cbn [replace_from] in Hs; rewrite decide_True in Hs by done; by rewrite Hx|].
  destruct (replace_from_step f r repl x Hx) as [(y & Hm & _ & E)|[_ E]]; rewrite E in Hs.
  - apply barrier_cross in Hs as [Hs|[Hs|Hs]]; [left; by apply substring_app_l|by right| |done|done].
    destruct (IH y "" Hs) as [H|]; [left|by right]. destruct (mt_suffix _ _ _ Hm) as [v ->].
    by apply substring_app_r, substring_app_r.
  - rewrite <- str_app_assoc in Hs. apply IH in Hs as [H|]; [left|by right].
    unfold next_rune in H. cbn [snd] in H. by rewrite str_app_assoc, take_drop_bytes in H.
Qed.

(** No text of the language occurs in [s]. *)
Definition free_of (r : regexp) (s : string) : Prop := forall w, lang r w -> ~ substring w s.

Lemma all_in_head w b v n rest : all_in A w -> w <> "" -> v +:+ rest = w +:+ b -> v <> "" -> n = String.length v ->
  high_bytes v -> False.
Proof.
  destruct w as [|c w]; [done|]. intros [Hc _] _ Heq Hv _ Hh. destruct v as [|d v]; [done|].
  rewrite !str_app_cons in Heq. injection Heq as -> _. destruct Hh as [Hd _]. specialize (A_ascii _ Hc).
  unfold rune_of in A_ascii. lia.
Qed.

(** Texts split at two places: one starts inside the prefix, or the prefix is a prefix of it. *)
Lemma app_eq_split u v a b : u +:+ v = a +:+ b -> String.length u <= String.length a ->
  exists t, a = u +:+ t /\ v = t +:+ b.
Proof.
  revert a. induction u as [|c u IH]; intros a Heq Hlen; [exists a; by split|].
  destruct a as [|d a]; [simpl in Hlen; lia|]. rewrite !str_app_cons in Heq. injection Heq as -> Heq.
  simpl in Hlen. destruct (IH a Heq ltac:(lia)) as (t & -> & ->). exists t. by split.
Qed.

Lemma high_bytes_app u v : high_bytes (u +:+ v) -> high_bytes v.
Proof. induction u as [|c u IH]; [done|]. rewrite str_app_cons. intros [_ H]. by apply IH. Qed.

Section Removal.
Context (r : regexp) (repl : string).
Hypothesis Hplain : plain A r.
Hypothesis Hnonempty : forall w, lang r w -> w <> "".
Hypothesis Hbar : barrier repl.
Hypothesis Hrepl : free_of r repl.

(** No word starts in the part of the text already scanned. *)
Definition scanned (u s : string) : Prop :=
  forall w a b, lang r w -> u +:+ s = a +:+ w +:+ b -> String.length u <= String.length a.

Lemma scanned_free u s : scanned u s -> free_of r u.
Proof.
  intros H w Hw (a & b & ->). specialize (H w a (b +:+ s) Hw). rewrite !str_app_assoc in H.
  specialize (H eq_refl). autorewrite with go_string in H. apply Hnonempty in Hw. destruct w; [done|simpl in H; lia].
Qed.

Lemma scanned_copy u x : x.2 <> "" -> (forall y, mt r x y -> match_at r x = Some x) -> scanned u x.2 ->
  scanned (u +:+ take_bytes (DecodeRune x.2).2 x.2) (drop_bytes (DecodeRune x.2).2 x.2).
Proof.
  intros Hx Hno Hu w a b Hw Heq. rewrite str_app_assoc, take_drop_bytes in Heq.
  pose proof (Hu w a b Hw Heq) as Hlen. destruct (app_eq_split _ _ _ _ Heq Hlen) as (t & -> & Ht).
  destruct (DecodeRune_size x.2 Hx) as [Hn Hkind]. set (n := (DecodeRune x.2).2) in *.
  autorewrite with go_string. rewrite length_take_bytes by lia.
  destruct (decide (n <= String.length t)) as [|Hlt]; [lia|]. exfalso.
  destruct (lang_mt r w Hplain Hw) as [Hall Hmt]. destruct Hkind as [(c & s' & Hs & _ & Hd)|Hhigh].
  - assert (Hn1 : n = 1) by (unfold n; by rewrite Hd). assert (t = "") as -> by (destruct t; simpl in *; [done|lia]).
    change ("" +:+ w +:+ b) with (w +:+ b) in Ht. destruct (Hmt x.1 b) as [q Hq]. rewrite <- Ht in Hq.
    destruct x as [p s]. simpl in Hq. pose proof (Hno _ Hq) as Hsome.
    apply run_sound in Hsome as (z & Hz & [= ->]). apply (mt_lang r _ _ Hplain) in Hz as (v & Hv & Hl).
    simpl in Hv. apply (f_equal String.length) in Hv. autorewrite with go_string in Hv.
    apply Hnonempty in Hl. destruct v; [done|simpl in Hv; lia].
  - pose proof (take_drop_bytes n x.2) as Hsplit. rewrite Ht in Hsplit at 3.
    destruct (app_eq_split t (w +:+ b) (take_bytes n x.2) (drop_bytes n x.2)) as (v & Hv & Hv');
      [done|rewrite length_take_bytes; lia|].
    rewrite Hv in Hhigh. apply high_bytes_app in Hhigh.
    eapply (all_in_head w b v _ (drop_bytes n x.2)); [done|by apply Hnonempty|done| |done|done].
    intros ->. rewrite str_app_nil_r in Hv. apply (f_equal String.length) in Hv. rewrite length_take_bytes in Hv by lia. lia.
Qed.

Lemma replace_from_free f : forall x u, String.length x.2 <= f -> scanned u x.2 ->
  free_of r (u +:+ replace_from f r repl x).
Proof.
  induction f as [|f IH]; intros x u Hf Hu.
  - assert (Hx : x.2 = "") by (destruct x.2; simpl in *; [done|lia]). cbn [replace_from]. rewrite Hx, str_app_nil_r.
    by eapply scanned_free.
  - destruct (decide (x.2 = "")) as [Hx|Hx].
    { cbn [replace_from]. rewrite decide_True by done. rewrite str_app_nil_r. by eapply scanned_free. }
    destruct (replace_from_step f r repl x Hx) as [(y & Hm & Hs & ->)|[Hno ->]].
    + intros w Hw [H|[H|H]]%barrier_cross; [|by eapply Hrepl| |done|by apply lang_mt in Hw as []].
      * by eapply (scanned_free _ _ Hu).
      * unfold shorter in Hs. apply (IH y "" ltac:(lia)) in H; [done| |done]. intros ? ? ? _ _. simpl. lia.
    + rewrite <- str_app_assoc. apply IH.
      * pose proof (next_rune_shorter x Hx) as Hs. unfold shorter in Hs. lia.
      * unfold next_rune. cbn [snd]. by apply scanned_copy.
Qed.

(** Replacing every match leaves none. *)
Lemma ReplaceAllString_free s : free_of r (ReplaceAllString r s repl).
Proof.
  unfold ReplaceAllString. change (replace_from _ r repl _) with ("" +:+ replace_from (String.length s) r repl (None, s)).
  apply replace_from_free; [done|]. intros ? ? ? _ _. simpl. lia.
Qed.

(** Replacing the matches of any other expression brings none back. *)
Lemma ReplaceAllString_keeps_free r' s : free_of r s -> free_of r (ReplaceAllString r' s repl).
Proof.
  intros Hs w Hw H. destruct (replace_adds_no_word r' repl w Hbar (proj1 (lang_mt r w Hplain Hw))
    (String.length s) (None, s) "" H) as [H'|H']; [by eapply Hs|by eapply Hrepl].
Qed.
End Removal.
End Alphabet.

(** The length of the shortest word. *)
Fixpoint min_len (r : regexp) : nat :=
  match r with
  | Eps | WordB => 0
  | Char _ => 1
  | Seq a b => min_len a + min_len b
  | Alt a b => Nat.min (min_len a) (min_len b)
  | Rep a n _ => n * min_len a
  end.

Lemma mt_min_len r x y : mt r x y -> min_len r + String.length y.2 <= String.length x.2.
Proof.
  induction 1 as [| p x y H | | | | | | | ]; simpl in *; try lia.
  apply step_rune_next in H as (Hx & _ & ->). pose proof (next_rune_shorter x Hx) as H. unfold shorter in H. lia.
Qed.

Lemma lang_min_len r w : lang r w -> min_len r <= String.length w.
Proof. intros [q H%mt_min_len]. simpl in H. lia. Qed.

(** A whole text the matcher accepts is a word. *)
Lemma match_at_lang r w q : match_at r (None, w) = Some (q, "") -> lang r w.
Proof. intros H. apply run_sound in H as (y & Hy & [= ->]). by exists q. Qed.
