(* ===== verification/AgentSession.v ===== *)
(** * AgentSession: the data of the agent runtime and its conversations

    [src/modules/agent]: messages, configurations and events (types.go), the session with
    its sliding window and context assembly (session.go), the compaction nudge (nudge.go),
    the sandbox (sandbox.go), the tool registry (tools.go) and the caller a tool is told of
    (toolctx.go). *)
From S2P Require Import Prelude Calendar GoStr.

(** ** Messages *)

(* [modules/agent/types.go:Role] *)
Inductive Role := RoleUser | RoleAssistant | RoleSystem | RoleTool | RoleOther (n : Z).
#[export] Instance Role_eq_dec : EqDecision Role.
Proof. solve_decision. Defined.

(* [modules/agent/types.go:Role.String] *)
Definition Role_String (r : Role) : string :=
  match r with
  | RoleUser => "user"
  | RoleAssistant => "assistant"
  | RoleSystem => "system"
  | RoleTool => "tool"
  | RoleOther n => "unknown(" +:+ itoa n +:+ ")"
  end.

(* [modules/agent/types.go:Attachment] *)
Record Attachment := { at_Type : string; at_URL : string; at_MimeType : string; at_Name : string }.
(* [modules/agent/types.go:ToolCall] *)
Record ToolCall := { tc_ID : string; tc_Name : string; tc_Input : gmap string string }.
(* [modules/agent/types.go:ToolResult] *)
Record ToolResult := { tr_CallID : string; tr_Content : string; tr_IsError : bool }.

(* [modules/agent/types.go:Message] *)
Record Message := {
  m_Role : Role; m_Content : string; m_ToolCalls : list ToolCall; m_ToolResults : list ToolResult;
  m_Attachments : list Attachment; m_InputTokens : Z; m_OutputTokens : Z;
}.

(** A message of a role and a content, the rest zero; and a tool's result. *)
Definition text_message (r : Role) (content : string) : Message :=
  {| m_Role := r; m_Content := content; m_ToolCalls := []; m_ToolResults := []; m_Attachments := [];
     m_InputTokens := 0; m_OutputTokens := 0 |}.
Definition tool_message (id content : string) (is_error : bool) : Message :=
  {| m_Role := RoleTool; m_Content := ""; m_ToolCalls := [];
     m_ToolResults := [{| tr_CallID := id; tr_Content := content; tr_IsError := is_error |}];
     m_Attachments := []; m_InputTokens := 0; m_OutputTokens := 0 |}.

(** ** Configuration, requests, events *)

(* [modules/agent/types.go:SandboxConfig] *)
Record SandboxConfig := { sb_Mode : string; sb_Backend : string }.

(* [modules/agent/types.go:AgentConfig] *)
Record AgentConfig := {
  Name : string; Tenant : string; Model : string; SystemPrompt : string; Tools : list string; MaxTurns : Z;
  MaxHistory : Z; SummarizeThreshold : Z; Secrets : gmap string string; RateLimit : Z; Skills : list string;
  MCPServers : list string; AutoMemory : bool; Sandbox : SandboxConfig;
}.

Definition with_MaxTurns (n : Z) (c : AgentConfig) : AgentConfig :=
  {| Name := Name c; Tenant := Tenant c; Model := Model c; SystemPrompt := SystemPrompt c; Tools := Tools c;
     MaxTurns := n; MaxHistory := MaxHistory c; SummarizeThreshold := SummarizeThreshold c; Secrets := Secrets c;
     RateLimit := RateLimit c; Skills := Skills c; MCPServers := MCPServers c; AutoMemory := AutoMemory c;
     Sandbox := Sandbox c |}.
(** [if cfg.MaxTurns == 0 { cfg.MaxTurns = 10 }] *)
Definition default_turns (c : AgentConfig) : AgentConfig :=
  if decide (MaxTurns c = 0%Z) then with_MaxTurns 10 c else c.

(* [modules/agent/types.go:ChatRequest] *)
Record ChatRequest := {
  rq_Agent : string; rq_Tenant : string; rq_User : string; rq_Message : string; rq_Channel : string;
  rq_ChannelID : string;
}.
(* [modules/agent/types.go:ChatResponse] *)
Record ChatResponse := { rs_Agent : string; rs_Content : string; rs_ToolsUsed : list string }.
(* [modules/agent/types.go:ProgressEvent] *)
Record ProgressEvent := {
  pe_Agent : string; pe_Tenant : string; pe_Channel : string; pe_ChannelID : string; pe_ToolName : string;
  pe_Status : string; pe_Message : string;
}.
(* [modules/agent/types.go:ActivityEvent] *)
Record ActivityEvent := {
  ae_Timestamp : string; ae_Agent : string; ae_Tenant : string; ae_Type : string; ae_Detail : string;
}.
(* [modules/agent/types.go:TurnRecord] *)
Record TurnRecord := {
  t_Tenant : string; t_User : string; t_Session : string; t_Agent : string; t_Model : string;
  t_UserMessage : string; t_Response : string; t_ToolsUsed : list string; t_ToolCalls : Z; t_Turns : Z;
  t_InputTokens : Z; t_OutputTokens : Z; t_TotalTokens : Z; t_Outcome : string; t_DurationMS : Z;
  t_StartedAt : time; t_Subagent : bool;
}.

(** ** Sessions *)

(** [s_stored]: whether a store is attached, to which every message is appended as well. *)
(* [modules/agent/session.go:Session] *)
Record Session := {
  s_id : string; s_config : AgentConfig; history : list Message; s_stored : bool; memories : string;
  skillInstructions : string; lastUser : string;
}.

(* [modules/agent/session.go:NewSession] *)
Definition NewSession (id : string) (config : AgentConfig) : Session :=
  {| s_id := id; s_config := default_turns config; history := []; s_stored := false; memories := "";
     skillInstructions := ""; lastUser := "" |}.

Definition with_history (h : list Message) (s : Session) : Session :=
  {| s_id := s_id s; s_config := s_config s; history := h; s_stored := s_stored s; memories := memories s;
     skillInstructions := skillInstructions s; lastUser := lastUser s |}.
(* [modules/agent/session.go:Session.SetStore] *)
Definition SetStore (s : Session) : Session :=
  {| s_id := s_id s; s_config := s_config s; history := history s; s_stored := true; memories := memories s;
     skillInstructions := skillInstructions s; lastUser := lastUser s |}.
(* [modules/agent/session.go:Session.SetMemories] *)
Definition SetMemories (text : string) (s : Session) : Session :=
  {| s_id := s_id s; s_config := s_config s; history := history s; s_stored := s_stored s; memories := text;
     skillInstructions := skillInstructions s; lastUser := lastUser s |}.
(* [modules/agent/session.go:Session.SetSkillInstructions] *)
Definition SetSkillInstructions (text : string) (s : Session) : Session :=
  {| s_id := s_id s; s_config := s_config s; history := history s; s_stored := s_stored s; memories := memories s;
     skillInstructions := text; lastUser := lastUser s |}.
(* [modules/agent/session.go:Session.SetLastUser] *)
Definition SetLastUser (user : string) (s : Session) : Session :=
  {| s_id := s_id s; s_config := s_config s; history := history s; s_stored := s_stored s; memories := memories s;
     skillInstructions := skillInstructions s; lastUser := user |}.

(** The last [n] elements. *)
Definition keep_last {A} (n : nat) (l : list A) : list A := drop (length l - n) l.

(** The history part of [AddMessage]; the message goes to the store too when one is attached. *)
(* [modules/agent/session.go:Session.AddMessage] *)
Definition AddMessage (msg : Message) (s : Session) : Session :=
  let h := history s ++ [msg] in
  let max := MaxHistory (s_config s) in
  if decide (0 < max /\ max < Z.of_nat (length h))%Z then with_history (keep_last (Z.to_nat max) h) s
  else with_history h s.

(* [modules/agent/session.go:Session.ClearHistory] *)
Definition ClearHistory (s : Session) : Session := with_history [] s.

(** A negative count of messages to keep panics on the slice bounds. *)
(* [modules/agent/session.go:Session.CompactHistory] *)
Definition CompactHistory (keepRecent : Z) (s : Session) : option Session :=
  let n := Z.of_nat (length (history s)) in
  if decide (n <= keepRecent)%Z then Some s
  else if decide (keepRecent < 0)%Z then None
  else Some (with_history
    (text_message RoleSystem ("[Earlier conversation: " +:+ itoa (n - keepRecent) +:+ " messages compacted]") ::
     keep_last (Z.to_nat keepRecent) (history s)) s).

(** [now.Format("15:04:05")] *)
Definition clock_text (now : time) : string :=
  zpad 2 (HourOf now) +:+ ":" +:+ zpad 2 (MinuteOf now) +:+ ":" +:+ zpad 2 (SecondOf now).

(** [now] is the clock in the local zone. *)
(* [modules/agent/session.go:expandTemplateVars] *)
Definition expandTemplateVars (now : time) (text user tenant agentName : string) : string :=
  let text := ReplaceAll text "{{user}}" user in
  let text := ReplaceAll text "{{date}}" (DateOnly now) in
  let text := ReplaceAll text "{{time}}" (clock_text now) in
  let text := ReplaceAll text "{{datetime}}" (DateOnly now +:+ " " +:+ clock_text now) in
  let text := ReplaceAll text "{{tenant}}" tenant in
  ReplaceAll text "{{agent}}" agentName.

(* [modules/agent/session.go:Session.AssembleContext] *)
Definition AssembleContext (now : time) (s : Session) : list Message :=
  let systemContent := SystemPrompt (s_config s) in
  let systemContent :=
    if decide (memories s = "") then systemContent
    else if decide (systemContent = "") then memories s
    else systemContent +:+ String "010" (String "010" "") +:+ memories s in
  let systemContent :=
    if decide (skillInstructions s = "") then systemContent
    else systemContent +:+ String "010" (String "010" "") +:+ skillInstructions s in
  (if decide (systemContent = "") then []
   else [text_message RoleSystem (expandTemplateVars now systemContent (lastUser s) (Tenant (s_config s)) (Name (s_config s)))])
  ++ history s.

(* [modules/agent/nudge.go:nudgeSystemMessage] *)
Definition nudgeSystemMessage : Message :=
  text_message RoleSystem "Before older messages are compacted away: if anything worth remembering for future conversations emerged — a durable fact about the user, a preference, a decision, or a reusable procedure — save it now using your memory or user-model tools. If nothing is worth saving, just continue.".

(* [modules/agent/nudge.go:nudgeBeforeCompact] *)
Definition nudgeBeforeCompact (keepRecent : Z) (s : Session) : option Session :=
  CompactHistory keepRecent (AddMessage nudgeSystemMessage s).

(** ** The sandbox *)

(* [modules/agent/sandbox.go:SandboxAlways@17-17] *)
Definition SandboxAlways : string := "always".
(* [modules/agent/sandbox.go:SandboxNonMain@16-16] *)
Definition SandboxNonMain : string := "non-main".

(* [modules/agent/sandbox.go:sandboxUnsafeTools] *)
Definition sandboxUnsafeTools : list string :=
  ["browse_web"; "advanced_browse"; "chromium_browser"; "web_search"; "http_request"; "kubectl";
   "aws_cross_account"; "aws_cost_explorer"; "github"; "jira"; "send_message"; "send_notification";
   "generate_image"; "database_query"; "orchestrate_agents"; "delegate_agent"].
(* [modules/agent/sandbox.go:sandboxHostExecTools] *)
Definition sandboxHostExecTools : list string := ["shell_exec"; "code_interpreter"].

(* [modules/agent/sandbox.go:AgentConfig.SandboxActive] *)
Definition SandboxActive (c : AgentConfig) : bool :=
  if decide (sb_Mode (Sandbox c) = SandboxAlways) then true
  else if decide (sb_Mode (Sandbox c) = SandboxNonMain) then bool_decide (Name c <> "main")
  else false.

(** A tool a sandboxed session may be given. *)
Definition sandbox_safe (backend name : string) : Prop :=
  name ∉ sandboxUnsafeTools /\ (name ∈ sandboxHostExecTools -> backend = "docker").
#[export] Instance sandbox_safe_dec b n : Decision (sandbox_safe b n).
Proof. unfold sandbox_safe. apply _. Defined.

(* [modules/agent/sandbox.go:SafeToolset] *)
Definition SafeToolset (requested : list string) (backend : string) : list string :=
  filter (sandbox_safe backend) requested.

(** ** Tools *)

(* [modules/agent/provider.go:ToolParam] *)
Record ToolParam := { p_Type : string; p_Description : string; p_Required : bool }.
(* [modules/agent/provider.go:ToolDef] *)
Record ToolDef := { d_Name : string; d_Description : string; d_Parameters : gmap string ToolParam }.

(** What a tool is told of the turn that calls it; [None] when a value was not set. *)
(* [modules/agent/toolctx.go:toolCtxKey@10-15] *)
Record ToolCtx := {
  x_Tenant : option string; x_Agent : option string; x_User : option string; x_Channel : option string;
}.
Definition background : ToolCtx := {| x_Tenant := None; x_Agent := None; x_User := None; x_Channel := None |}.
(* [modules/agent/toolctx.go:WithToolCaller] *)
Definition WithToolCaller (tenant agentName user : string) (c : ToolCtx) : ToolCtx :=
  {| x_Tenant := Some tenant; x_Agent := Some agentName; x_User := Some user; x_Channel := x_Channel c |}.
(* [modules/agent/toolctx.go:ToolCaller] *)
Definition ToolCaller (c : ToolCtx) : string * string * string :=
  (default "" (x_Tenant c), default "" (x_Agent c), default "" (x_User c)).
(* [modules/agent/toolctx.go:WithChannel] *)
Definition WithChannel (channel : string) (c : ToolCtx) : ToolCtx :=
  {| x_Tenant := x_Tenant c; x_Agent := x_Agent c; x_User := x_User c; x_Channel := Some channel |}.
(* [modules/agent/toolctx.go:Channel] *)
Definition ctx_Channel (c : ToolCtx) : string := default "" (x_Channel c).

(** The registry: what each tool says of itself.  What running it does is the world's. *)
(* [modules/agent/tools.go:ToolRegistry] *)
Record ToolRegistry := { tools : gmap string ToolDef }.
(* [modules/agent/tools.go:NewToolRegistry] *)
Definition NewToolRegistry : ToolRegistry := {| tools := ∅ |}.
(* [modules/agent/tools.go:ToolRegistry.Register] *)
Definition Register (t : ToolDef) (r : ToolRegistry) : ToolRegistry := {| tools := <[d_Name t := t]> (tools r) |}.
(* [modules/agent/tools.go:ToolRegistry.Unregister] *)
Definition Unregister (name : string) (r : ToolRegistry) : ToolRegistry := {| tools := delete name (tools r) |}.
(* [modules/agent/tools.go:ToolRegistry.Get] *)
Definition Get (name : string) (r : ToolRegistry) : option ToolDef := tools r !! name.

(* [modules/agent/tools.go:ToolRegistry.List] *)
Definition List_ (r : ToolRegistry) : list string := sort_strings (map_to_list (tools r)).*1.
(* [modules/agent/tools.go:ToolRegistry.ToolDefs] *)
Definition ToolDefs (names : list string) (r : ToolRegistry) : list ToolDef := omap (fun n => tools r !! n) names.
