(* ===== verification/AgentStore.v ===== *)
(** * AgentStore: the SQLite store of sessions, agents, versions and users

    [src/modules/agent/store.go].  Tables are lists of rows in the order of their row ids, or
    maps on their primary key.  A statement that fails does nothing and returns its error: the
    [fault] argument of an operation is the error its statement fails with, if any. *)
From S2P Require Import Prelude Calendar GoStr Utf8 AgentSession.

(** ** Tables *)

(** Timestamps are RFC 3339 text. *)
Record MessageRow := {
  row_id : Z; session_id : string; row_role : Z; row_content : string; row_calls : string; row_results : string;
}.
(* [modules/agent/store.go:User] *)
Record User := {
  u_ID : string; u_Tenant : string; u_Name : string; u_Email : string; u_Role : string; u_CreatedAt : string;
}.
Record UserRow := { u_user : User; api_key_hash : string }.
Record VersionRow := {
  v_tenant : string; v_name : string; version : Z; v_config : string; v_created : string;
}.

(** [messages_seq]: the largest row id [messages] ever had (AUTOINCREMENT).  [foreign_keys]:
    whether the pragma holds on the connection in use. *)
(* [modules/agent/store.go:SessionStore] *)
Record SessionStore := {
  sessions : gmap string string; messages : list MessageRow; messages_seq : Z;
  messages_fts : gmap Z string; agents_ : gmap (string * string) string; users : list UserRow;
  agent_versions : list VersionRow; foreign_keys : bool;
}.

(** A new database: every statement of the schema succeeded. *)
(* [modules/agent/store.go:NewSessionStore] *)
Definition NewSessionStore : SessionStore :=
  {| sessions := ∅; messages := []; messages_seq := 0; messages_fts := ∅; agents_ := ∅; users := [];
     agent_versions := []; foreign_keys := true |}.

Definition with_sessions (m : gmap string string) (s : SessionStore) : SessionStore :=
  {| sessions := m; messages := messages s; messages_seq := messages_seq s; messages_fts := messages_fts s;
     agents_ := agents_ s; users := users s; agent_versions := agent_versions s; foreign_keys := foreign_keys s |}.
Definition with_messages (l : list MessageRow) (s : SessionStore) : SessionStore :=
  {| sessions := sessions s; messages := l; messages_seq := messages_seq s; messages_fts := messages_fts s;
     agents_ := agents_ s; users := users s; agent_versions := agent_versions s; foreign_keys := foreign_keys s |}.
Definition with_agents (m : gmap (string * string) string) (s : SessionStore) : SessionStore :=
  {| sessions := sessions s; messages := messages s; messages_seq := messages_seq s;
     messages_fts := messages_fts s; agents_ := m; users := users s; agent_versions := agent_versions s;
     foreign_keys := foreign_keys s |}.
Definition with_users (l : list UserRow) (s : SessionStore) : SessionStore :=
  {| sessions := sessions s; messages := messages s; messages_seq := messages_seq s;
     messages_fts := messages_fts s; agents_ := agents_ s; users := l; agent_versions := agent_versions s;
     foreign_keys := foreign_keys s |}.
Definition with_versions (l : list VersionRow) (s : SessionStore) : SessionStore :=
  {| sessions := sessions s; messages := messages s; messages_seq := messages_seq s;
     messages_fts := messages_fts s; agents_ := agents_ s; users := users s; agent_versions := l;
     foreign_keys := foreign_keys s |}.

(** The statement runs, or fails with [fault] and changes nothing. *)
Definition exec {S} (fault : option error) (s s' : S) : S * option error :=
  match fault with Some e => (s, Some e) | None => (s', None) end.
Definition query {A} (fault : option error) (rows : A) : Result A :=
  match fault with Some e => Err e | None => Ok rows end.

(** The roles' numbers. *)
Definition role_int (r : Role) : Z :=
  match r with RoleUser => 0 | RoleAssistant => 1 | RoleSystem => 2 | RoleTool => 3 | RoleOther n => n end.
Definition int_role (n : Z) : Role :=
  match n with 0 => RoleUser | 1 => RoleAssistant | 2 => RoleSystem | 3 => RoleTool | _ => RoleOther n end%Z.

Definition ErrNoRows : error := "sql: no rows in result set".

(** ["sess_" + tenant + "_" + name] and its prefix. *)
Definition session_prefix (tenant : string) : string := "sess_" +:+ tenant +:+ "_".
Definition session_key (tenant name : string) : string := session_prefix tenant +:+ name.

(** SQLite's characters of a text: a byte, with the continuation bytes behind it when it is a
    lead byte; [substr(s, 1, n)] is the first [n] of them. *)
Fixpoint skip_cont (s : string) : string * string :=
  match s with
  | String c s' => if cont c then let '(a, b) := skip_cont s' in (String c a, b) else ("", s)
  | "" => ("", "")
  end.
Definition first_char (c : ascii) (s : string) : string * string :=
  if decide (192 <= N_of_ascii c)%N then let '(a, b) := skip_cont s in (String c a, b) else (String c "", s).
Fixpoint substr (n : nat) (s : string) : string :=
  match n, s with
  | S n', String c s' => let '(a, b) := first_char c s' in a +:+ substr n' b
  | _, _ => ""
  end.

(** The encodings the store relies on: [json.Marshal] and [json.Unmarshal] of the configurations
    and of the two lists of a message, and the full-text index's [MATCH] (the query first).
    Unmarshal gives what it left in the value too. *)
Class Codec := {
  marshal_config : AgentConfig -> string;
  unmarshal_config : string -> AgentConfig * option error;
  marshal_calls : list ToolCall -> string;
  unmarshal_calls : string -> list ToolCall;
  marshal_results : list ToolResult -> string;
  unmarshal_results : string -> list ToolResult;
  fts_match : string -> string -> bool;
}.

(** ** Operations *)
Section Store.
Context `{Codec}.

(** REPLACE deletes the row it replaces, which takes the session's messages with it where
    foreign keys are enforced. *)
(* [modules/agent/store.go:SessionStore.SaveSession] *)
Definition SaveSession (fault : option error) (id : string) (cfg : AgentConfig) (s : SessionStore) :
    SessionStore * option error :=
  let s1 :=
    if decide (foreign_keys s = true /\ is_Some (sessions s !! id))
    then with_messages (filter (fun r => session_id r <> id) (messages s)) s else s in
  exec fault s (with_sessions (<[id := marshal_config cfg]> (sessions s1)) s1).

Definition foreign_key_failed : error := "FOREIGN KEY constraint failed".

Definition message_row (id : Z) (sessionID : string) (msg : Message) : MessageRow :=
  {| row_id := id; session_id := sessionID; row_role := role_int (m_Role msg); row_content := m_Content msg;
     row_calls := marshal_calls (m_ToolCalls msg); row_results := marshal_results (m_ToolResults msg) |}.

(** [fts]: whether the insertion into the index succeeds; its error is ignored. *)
(* [modules/agent/store.go:SessionStore.AppendMessage] *)
Definition AppendMessage (fault : option error) (fts : bool) (sessionID : string) (msg : Message)
    (s : SessionStore) : SessionStore * option error :=
  if decide (foreign_keys s = true /\ sessions s !! sessionID = None) then (s, Some foreign_key_failed)
  else
    let id := (messages_seq s + 1)%Z in
    exec fault s
      {| sessions := sessions s; messages := messages s ++ [message_row id sessionID msg]; messages_seq := id;
         messages_fts :=
           if decide (m_Content msg <> "" /\ fts = true) then <[id := m_Content msg]> (messages_fts s)
           else messages_fts s;
         agents_ := agents_ s; users := users s; agent_versions := agent_versions s;
         foreign_keys := foreign_keys s |}.

(* [modules/agent/store.go:SessionStore.ClearMessages] *)
Definition ClearMessages (fault : option error) (sessionID : string) (s : SessionStore) : SessionStore * option error :=
  exec fault s (with_messages (filter (fun r => session_id r <> sessionID) (messages s)) s).

Definition unmarshal_list {A} (un : string -> list A) (text : string) : list A :=
  if decide (text <> "" /\ text <> "null") then un text else [].
Definition load_message (r : MessageRow) : Message :=
  {| m_Role := int_role (row_role r); m_Content := row_content r;
     m_ToolCalls := unmarshal_list unmarshal_calls (row_calls r);
     m_ToolResults := unmarshal_list unmarshal_results (row_results r);
     m_Attachments := []; m_InputTokens := 0; m_OutputTokens := 0 |}.

(* [modules/agent/store.go:SessionStore.LoadSession] *)
Definition LoadSession (fault : option error) (id : string) (s : SessionStore) : Result (AgentConfig * list Message) :=
  match fault with
  | Some e => Err e
  | None =>
      match sessions s !! id with
      | None => Err ("session " +:+ quote id +:+ " not found")
      | Some text =>
          match unmarshal_config text with
          | (_, Some e) => Err ("unmarshal config: " +:+ e)
          | (cfg, None) => Ok (cfg, load_message <$> filter (fun r => session_id r = id) (messages s))
          end
      end
  end.

(* [modules/agent/store.go:SessionStore.ListSessions] *)
Definition ListSessions (fault : option error) (s : SessionStore) : Result (list string) :=
  query fault (sort_strings (map_to_list (sessions s)).*1).

(** The first statement's error is ignored: its fault comes first. *)
(* [modules/agent/store.go:SessionStore.DeleteSession] *)
Definition DeleteSession (fault1 fault2 : option error) (id : string) (s : SessionStore) : SessionStore * option error :=
  let s1 := (exec fault1 s (with_messages (filter (fun r => session_id r <> id) (messages s)) s)).1 in
  let s2 := if foreign_keys s then with_messages (filter (fun r => session_id r <> id) (messages s1)) s1 else s1 in
  exec fault2 s1 (with_sessions (delete id (sessions s2)) s2).

(* [modules/agent/store.go:SessionStore.SaveAgent] *)
Definition SaveAgent (fault : option error) (cfg : AgentConfig) (s : SessionStore) : SessionStore * option error :=
  exec fault s (with_agents (<[(Tenant cfg, Name cfg) := marshal_config cfg]> (agents_ s)) s).

(** [ORDER BY tenant, name] *)
Definition pair_le (p q : string * string) : Prop :=
  p.1 <> q.1 /\ string_le p.1 q.1 \/ p.1 = q.1 /\ string_le p.2 q.2.
#[local] Instance pair_le_dec : RelDecision pair_le.
Proof. intros p q. unfold pair_le. apply _. Defined.

(* [modules/agent/store.go:SessionStore.LoadAgents] *)
Definition LoadAgents (fault : option error) (s : SessionStore) : Result (list AgentConfig) :=
  query fault ((fun k => (unmarshal_config (default "" (agents_ s !! k))).1) <$>
               merge_sort pair_le (map_to_list (agents_ s)).*1).

(* [modules/agent/store.go:SessionStore.DeleteAgent] *)
Definition DeleteAgent (fault : option error) (tenant name : string) (s : SessionStore) : SessionStore * option error :=
  exec fault s (with_agents (delete (tenant, name) (agents_ s)) s).

(* [modules/agent/store.go:SearchResult] *)
Record SearchResult := { sr_SessionID : string; sr_Content : string; sr_Role : Z }.

(** The rows that match, newest first, at most 50. *)
(* [modules/agent/store.go:SessionStore.SearchMessages] *)
Definition SearchMessages (fault : option error) (query_text tenant : string) (s : SessionStore) : Result (list SearchResult) :=
  if decide (tenant = "") then Err "SearchMessages: tenant is required"
  else
    let prefix := session_prefix tenant in
    let hit r := match messages_fts s !! row_id r with Some text => fts_match query_text text | None => false end in
    query fault
      ((fun r => {| sr_SessionID := session_id r; sr_Content := row_content r; sr_Role := row_role r |}) <$>
       take 50 (rev (filter (fun r => hit r = true /\ substr (String.length prefix) (session_id r) = prefix)
                            (messages s)))).

(* [modules/agent/store.go:SessionStore.CreateUser] *)
Definition CreateUser (fault : option error) (user : User) (apiKeyHash : string) (s : SessionStore) :
    SessionStore * option error :=
  if decide (u_ID user ∈ (fun r => u_ID (u_user r)) <$> users s)
  then (s, Some "UNIQUE constraint failed: users.id")
  else exec fault s (with_users (users s ++ [{| u_user := user; api_key_hash := apiKeyHash |}]) s).

(** Users of equal names come in any order. *)
Definition name_le (a b : User) : Prop := string_le (u_Name a) (u_Name b).
(* [modules/agent/store.go:SessionStore.ListUsers] *)
Definition ListUsers `{!SliceSorter name_le} (fault : option error) (tenant : string) (s : SessionStore) :
    Result (list User) :=
  query fault (sortSlice name_le (filter (fun u => u_Tenant u = tenant) (u_user <$> users s))).

(** The first row that matches, in row order. *)
Definition query_user (fault : option error) (p : UserRow -> Prop) `{!forall r, Decision (p r)} (s : SessionStore) :
    Result User :=
  match fault with
  | Some e => Err e
  | None => match filter p (users s) with r :: _ => Ok (u_user r) | [] => Err ErrNoRows end
  end.
(* [modules/agent/store.go:SessionStore.GetUserByKeyHash] *)
Definition GetUserByKeyHash (fault : option error) (hash : string) (s : SessionStore) : Result User :=
  query_user fault (fun r => api_key_hash r = hash) s.
(* [modules/agent/store.go:SessionStore.GetUser] *)
Definition GetUser (fault : option error) (id : string) (s : SessionStore) : Result User :=
  query_user fault (fun r => u_ID (u_user r) = id) s.
(* [modules/agent/store.go:SessionStore.DeleteUser] *)
Definition DeleteUser (fault : option error) (id : string) (s : SessionStore) : SessionStore * option error :=
  exec fault s (with_users (filter (fun r => u_ID (u_user r) <> id) (users s)) s).

(** The versions of an agent, oldest first. *)
Definition versions_of (tenant name : string) (s : SessionStore) : list VersionRow :=
  filter (fun r => v_tenant r = tenant /\ v_name r = name) (agent_versions s).
Definition max_version (l : list VersionRow) : Z := foldr (fun r m => Z.max (version r) m) 0%Z l.

(** A failing first query leaves the maximum at 0. *)
(* [modules/agent/store.go:SessionStore.SaveAgentVersion] *)
Definition SaveAgentVersion (fault1 fault2 : option error) (now : time) (cfg : AgentConfig) (s : SessionStore) :
    SessionStore * option error :=
  let maxVersion :=
    match fault1 with Some _ => 0%Z | None => max_version (versions_of (Tenant cfg) (Name cfg) s) end in
  exec fault2 s
    (with_versions (agent_versions s ++
       [{| v_tenant := Tenant cfg; v_name := Name cfg; version := (maxVersion + 1)%Z;
           v_config := marshal_config cfg; v_created := RFC3339 now |}]) s).

(** Each version's number, raw configuration and time; the newest first. *)
Definition version_ge (a b : VersionRow) : Prop := (version b <= version a)%Z.
(* [modules/agent/store.go:SessionStore.ListAgentVersions] *)
Definition ListAgentVersions `{!SliceSorter version_ge} (fault : option error) (tenant name : string) (s : SessionStore) :
    Result (list (Z * string * string)) :=
  query fault ((fun r => (version r, v_config r, v_created r)) <$> sortSlice version_ge (versions_of tenant name s)).

(* [modules/agent/store.go:SessionStore.GetAgentVersion] *)
Definition GetAgentVersion (fault : option error) (tenant name : string) (n : Z) (s : SessionStore) : Result AgentConfig :=
  match fault, filter (fun r => version r = n) (versions_of tenant name s) with
  | None, r :: _ => Ok (unmarshal_config (v_config r)).1
  | _, _ => Err ("version " +:+ itoa n +:+ " not found")
  end.
End Store.

(** ** Session identifiers *)

(** A session's tenant can be read off its identifier when no tenant's name has an underscore. *)
Definition no_underscore (s : string) : Prop := contains_byte "_" s = false.

Lemma no_underscore_cons c s : no_underscore (String c s) <-> c <> "_"%char /\ no_underscore s.
Proof.
  unfold no_underscore, contains_byte. simpl. destruct (decide (c = "_"%char)) as [->|H]; [naive_solver|].
  destruct (cut "_" s) as [[??]|]; naive_solver.
Qed.

Lemma tenant_of_key tenant tenant' s t : no_underscore tenant -> no_underscore tenant' ->
  tenant +:+ "_" +:+ s = tenant' +:+ "_" +:+ t -> tenant = tenant'.
Proof.
  revert tenant'. induction tenant as [|c tenant IH]; intros [|c' tenant'] H H' E; [done|..].
  - injection E as <- _. by apply no_underscore_cons in H' as [? _].
  - injection E as -> _. by apply no_underscore_cons in H as [? _].
  - injection E as -> E. apply no_underscore_cons in H as [_ H], H' as [_ H']. f_equal. by eapply IH.
Qed.

Lemma session_prefix_tenant tenant tenant' name : no_underscore tenant -> no_underscore tenant' ->
  has_prefix (session_prefix tenant) (session_key tenant' name) = true -> tenant = tenant'.
Proof.
  intros H H' [t E]%has_prefix_spec. unfold session_key, session_prefix in E. rewrite !str_app_assoc in E.
  rewrite !str_app_cons in E. injection E as E.
  by apply (tenant_of_key tenant tenant' t name).
Qed.

Lemma skip_cont_app s : (skip_cont s).1 +:+ (skip_cont s).2 = s.
Proof.
  induction s as [|c s IH]; [done|]. simpl. destruct (cont c); [|done]. destruct (skip_cont s). simpl in *.
  by rewrite str_app_cons, IH.
Qed.
Lemma substr_prefix n s : has_prefix (substr n s) s = true.
Proof.
  apply has_prefix_spec. revert s. induction n as [|n IH]; intros [|c s]; simpl; [by eexists..|].
  unfold first_char. destruct (decide _).
  - pose proof (skip_cont_app s) as E. destruct (skip_cont s) as [a b]. simpl in E. destruct (IH b) as [t Ht].
    exists t. by rewrite !str_app_cons, str_app_assoc, <- Ht, E.
  - destruct (IH s) as [t Ht]. exists t. rewrite !str_app_cons. f_equal. exact Ht.
Qed.

(** ** Versions *)

Section Versions.
Context `{Codec}.

(** Saves of configurations, each with its time, in order. *)
Definition save_versions (saves : list (time * AgentConfig)) (s : SessionStore) : SessionStore :=
  foldl (fun s c => (SaveAgentVersion None None c.1 c.2 s).1) s saves.

(** The configurations of one agent among them. *)
Definition saved_for (tenant name : string) (saves : list (time * AgentConfig)) : list AgentConfig :=
  filter (fun c => Tenant c = tenant /\ Name c = name) saves.*2.

Lemma versions_of_save now cfg tenant name s :
  versions_of tenant name (SaveAgentVersion None None now cfg s).1 =
  versions_of tenant name s ++
    (if decide (Tenant cfg = tenant /\ Name cfg = name)
     then [{| v_tenant := tenant; v_name := name; version := (max_version (versions_of tenant name s) + 1)%Z;
              v_config := marshal_config cfg; v_created := RFC3339 now |}] else []).
Proof.
  unfold SaveAgentVersion, exec. simpl. unfold versions_of at 1. simpl. rewrite filter_app. f_equal.
  destruct (decide (Tenant cfg = tenant /\ Name cfg = name)) as [[<- <-]|Hn]; [by rewrite filter_cons_True|].
  by rewrite filter_cons_False.
Qed.

Lemma max_version_app l1 l2 : max_version (l1 ++ l2) = Z.max (max_version l1) (max_version l2).
Proof.
  induction l1 as [|r l1 IH]; simpl; [|rewrite IH; lia].
  induction l2 as [|r l2 IH2]; simpl; lia.
Qed.

Lemma saved_for_snoc tenant name saves c : saved_for tenant name (saves ++ [c]) =
  saved_for tenant name saves ++ (if decide (Tenant c.2 = tenant /\ Name c.2 = name) then [c.2] else []).
Proof. unfold saved_for. rewrite fmap_app, filter_app. simpl. by rewrite filter_cons, filter_nil. Qed.

(** The rows of an agent number its saves from 1. *)
Lemma versions_of_saves tenant name s saves : agent_versions s = [] ->
  (fun r => (version r, v_config r)) <$> versions_of tenant name (save_versions saves s) =
    zip (Z.of_nat <$> seq 1 (length (saved_for tenant name saves))) (marshal_config <$> saved_for tenant name saves) /\
  max_version (versions_of tenant name (save_versions saves s)) = Z.of_nat (length (saved_for tenant name saves)).
Proof.
  intros Hs. induction saves as [|c saves [IH1 IH2]] using rev_ind.
  - unfold versions_of. simpl. by rewrite Hs.
  - unfold save_versions in *. rewrite foldl_app. cbn [foldl]. rewrite versions_of_save.
    rewrite saved_for_snoc.
    destruct (decide (Tenant c.2 = tenant /\ Name c.2 = name)).
    + rewrite fmap_app, IH1, max_version_app, IH2, length_app, seq_app, !fmap_app, zip_with_app by (by rewrite !length_fmap, length_seq).
      simpl. split; [|lia]. repeat f_equal. lia.
    + by rewrite !app_nil_r.
Qed.

Lemma decide_lookup_none {A} (l : list A) k : (forall i a, l !! i = Some a -> k <> Z.of_nat (S i)) ->
  (if decide (1 <= k)%Z then l !! Z.to_nat (k - 1) else None) = None.
Proof.
  intros Hl. destruct (decide _); [|done]. destruct (l !! _) as [a|] eqn:E; [|done]. exfalso. apply (Hl _ _ E). lia.
Qed.

(** The version history gives back exactly what was saved.  After any saves of
    any agents' configurations into a store without versions, version k of an agent is the
    k-th configuration saved for that tenant and name, as it was saved, and every other number
    is an error: saves of other agents neither show up nor shift the numbers. *)
Lemma versions_roundtrip tenant name s saves k :
  agent_versions s = [] ->
  Forall (fun c => unmarshal_config (marshal_config c) = (c, None)) saves.*2 ->
  GetAgentVersion None tenant name k (save_versions saves s) =
    match (if decide (1 <= k)%Z then saved_for tenant name saves !! Z.to_nat (k - 1) else None) with
    | Some cfg => Ok cfg
    | None => Err ("version " +:+ itoa k +:+ " not found")
    end.
Proof.
  intros Hs Hc. destruct (versions_of_saves tenant name s saves Hs) as [Hv _].
  unfold GetAgentVersion. set (rows := versions_of tenant name (save_versions saves s)) in *.
  set (cfgs := saved_for tenant name saves) in *.
  assert (Hrow : forall r, r ∈ rows -> exists i cfg, cfgs !! i = Some cfg /\ version r = Z.of_nat (S i) /\ v_config r = marshal_config cfg).
  { intros r Hr. assert (Hin : (version r, v_config r) ∈ (fun r => (version r, v_config r)) <$> rows) by (apply list_elem_of_fmap; eauto).
    rewrite Hv in Hin. apply list_elem_of_lookup in Hin as [i Hi]. apply lookup_zip_with_Some in Hi as (x & y & [= Hvx Hvy] & Hx & Hy).
    rewrite list_lookup_fmap in Hx. rewrite list_lookup_fmap in Hy. apply fmap_Some in Hx as (j & Hj & Hx), Hy as (cfg & Hcfg & Hy).
    apply lookup_seq in Hj as [-> _]. exists i, cfg. split_and!; [done|by rewrite Hvx, Hx|by rewrite Hvy, Hy]. }
  destruct (filter (fun r => version r = k) rows) as [|r l] eqn:E.
  - rewrite decide_lookup_none; [done|]. intros i cfg Hi Hk.
    assert (Hin : (Z.of_nat (S i), marshal_config cfg) ∈ (fun r => (version r, v_config r)) <$> rows).
    { rewrite Hv. apply list_elem_of_lookup. exists i. apply lookup_zip_with_Some. eexists _, _. split; [done|].
      rewrite !list_lookup_fmap, Hi. split; [|done]. apply fmap_Some. exists (S i). split; [|done]. apply lookup_seq.
      apply lookup_lt_Some in Hi. lia. }
    apply list_elem_of_fmap in Hin as (r & [= Hvr _] & Hr).
    assert (r ∈ filter (fun r => version r = k) rows) by (apply list_elem_of_filter; split; [lia|done]). rewrite E in *. set_solver.
  - assert (Hr : r ∈ filter (fun r => version r = k) rows) by (rewrite E; left).
    apply list_elem_of_filter in Hr as [Hk Hr]. destruct (Hrow r Hr) as (i & cfg & Hi & Hv' & Hm).
    rewrite decide_True by lia. replace (Z.to_nat (k - 1)) with i by lia. rewrite Hi, Hm.
    rewrite (proj1 (Forall_forall _ _) Hc); [done|]. unfold cfgs, saved_for in Hi.
    apply list_elem_of_lookup_2, list_elem_of_filter in Hi. by destruct Hi.
Qed.
End Versions.

Lemma versions_roundtrip_witness :
  let cfg n p := {| Name := n; Tenant := "t"; Model := "m"; SystemPrompt := p; Tools := []; MaxTurns := 3; MaxHistory := 0;
    SummarizeThreshold := 0; Secrets := ∅; RateLimit := 0; Skills := []; MCPServers := []; AutoMemory := true;
    Sandbox := {| sb_Mode := ""; sb_Backend := "" |} |} in
  let codec := {| marshal_config := SystemPrompt; unmarshal_config := fun p => (cfg (if decide (p = "other") then "h" else "g") p, None);
    marshal_calls := fun _ => ""; unmarshal_calls := fun _ => []; marshal_results := fun _ => "";
    unmarshal_results := fun _ => []; fts_match := fun _ _ => false |} in
  let saves := [(0%Z, cfg "g" "old"); (1%Z, cfg "h" "other"); (2%Z, cfg "g" "new")] in
  GetAgentVersion None "t" "g" 2 (save_versions saves NewSessionStore) = Ok (cfg "g" "new").
Proof.
  intros cfg codec saves.
  rewrite (versions_roundtrip "t" "g" NewSessionStore saves 2 eq_refl); [reflexivity|].
  repeat constructor.
Defined.
