(* ===== verification/AgentMemory.v ===== *)
(** * AgentMemory: long-term memories, shared notes, usage records, retention

    [src/modules/agent]: memory.go, sharedcontext.go, usage.go, retention.go.  The tables'
    timestamps are RFC 3339 text of whole seconds, which orders as the time does for the years
    0 to 9999: they are kept here as times truncated to the second. *)
From S2P Require Import Prelude Calendar GoStr AgentSession AgentStore.

(** The stored form of a time. *)
Definition seconds (t : time) : time := Truncate t Second.

(** ** Memories *)

(* [modules/agent/memory.go:Memory] *)
Record Memory := {
  mem_ID : string; mem_Agent : string; mem_Tenant : string; mem_Key : string; mem_Content : string;
  mem_CreatedAt : time; mem_UpdatedAt : time;
}.
(** The table, by primary key. *)
(* [modules/agent/memory.go:MemoryStore] *)
Record MemoryStore := { memories_ : gmap string Memory }.
(* [modules/agent/memory.go:NewMemoryStore] *)
Definition NewMemoryStore : MemoryStore := {| memories_ := ∅ |}.

(** [stamp] names a memory without an id: the clock in nanoseconds. *)
(* [modules/agent/memory.go:MemoryStore.Save] *)
Definition Save (fault : option error) (now : time) (stamp : Z) (m : Memory) (ms : MemoryStore) :
    MemoryStore * option error :=
  let id := if decide (mem_ID m = "") then "mem_" +:+ itoa stamp else mem_ID m in
  let row :=
    match memories_ ms !! id with
    | None =>
        {| mem_ID := id; mem_Agent := mem_Agent m; mem_Tenant := mem_Tenant m; mem_Key := mem_Key m;
           mem_Content := mem_Content m; mem_CreatedAt := seconds now; mem_UpdatedAt := seconds now |}
    | Some old =>
        {| mem_ID := id; mem_Agent := mem_Agent old; mem_Tenant := mem_Tenant old; mem_Key := mem_Key old;
           mem_Content := mem_Content m; mem_CreatedAt := mem_CreatedAt old; mem_UpdatedAt := seconds now |}
    end in
  exec fault ms {| memories_ := <[id := row]> (memories_ ms) |}.

(** [ORDER BY updated_at DESC]: memories of the same second come in any order. *)
Definition newest (a b : Memory) : Prop := (mem_UpdatedAt b <= mem_UpdatedAt a)%Z.
#[export] Instance newest_dec : RelDecision newest.
Proof. intros a b. unfold newest. apply _. Defined.
#[export] Instance newest_total : Total newest.
Proof. intros a b. unfold newest. lia. Qed.
#[export] Instance newest_trans : Transitive newest.
Proof. intros a b c. unfold newest. lia. Qed.

Section Memories.
Context `{!SliceSorter newest}.

Definition select (p : Memory -> Prop) `{!forall m, Decision (p m)} (ms : MemoryStore) : list Memory :=
  sortSlice newest (filter p (map_to_list (memories_ ms)).*2).

(* [modules/agent/memory.go:MemoryStore.Recall] *)
Definition Recall (fault : option error) (agent tenant : string) (ms : MemoryStore) : Result (list Memory) :=
  query fault (select (fun m => mem_Agent m = agent /\ mem_Tenant m = tenant) ms).
(* [modules/agent/memory.go:MemoryStore.RecallByKey] *)
Definition RecallByKey (fault : option error) (agent tenant key : string) (ms : MemoryStore) : Result (list Memory) :=
  query fault (select (fun m => mem_Agent m = agent /\ mem_Tenant m = tenant /\ mem_Key m = key) ms).
(** [like]: SQLite's LIKE, the pattern first. *)
(* [modules/agent/memory.go:MemoryStore.Search] *)
Definition Search_ (like : string -> string -> bool) (fault : option error) (agent tenant text : string)
    (ms : MemoryStore) : Result (list Memory) :=
  query fault
    (take 20 (select (fun m => mem_Agent m = agent /\ mem_Tenant m = tenant /\
                               like ("%" +:+ text +:+ "%") (mem_Content m) = true) ms)).
End Memories.

(* [modules/agent/memory.go:MemoryStore.Delete] *)
Definition Delete (fault : option error) (id : string) (ms : MemoryStore) : MemoryStore * option error :=
  exec fault ms {| memories_ := delete id (memories_ ms) |}.

Definition newline : string := String "010" "".
(* [modules/agent/memory.go:FormatForContext] *)
Definition FormatForContext (memories : list Memory) : string :=
  if decide (memories = []) then ""
  else
    foldl (fun result m => result +:+ "- [" +:+ mem_Key m +:+ "] " +:+ mem_Content m +:+ newline)
      ("## Long-term Memory" +:+ newline +:+ newline) memories.

(** ** Shared notes *)

(* [modules/agent/sharedcontext.go:SharedContextEntry] *)
Record SharedContextEntry := {
  n_Channel : string; n_Tenant : string; n_Key : string; n_Content : string; n_Author : string;
  n_CreatedAt : time;
}.
(** The rows with their ids, by the unique key (tenant, channel, key). *)
(* [modules/agent/sharedcontext.go:ContextStore] *)
Record ContextStore := { notes : gmap (string * string * string) (Z * SharedContextEntry); notes_seq : Z }.
(* [modules/agent/sharedcontext.go:NewContextStore] *)
Definition NewContextStore : ContextStore := {| notes := ∅; notes_seq := 0 |}.

(* [modules/agent/sharedcontext.go:sharedContextTTL] *)
Definition sharedContextTTL : duration := 24 * Hour.

(** [fault1] makes the pruning fail, which is ignored. *)
(* [modules/agent/sharedcontext.go:ContextStore.Write] *)
Definition Write (fault1 fault2 : option error) (now : time) (e : SharedContextEntry) (cs : ContextStore) :
    ContextStore * option error :=
  if decide (n_Tenant e = "" \/ n_Channel e = "" \/ n_Key e = "")
  then (cs, Some "shared context: tenant, channel and key are required")
  else
    let cs1 :=
      (exec fault1 cs
         {| notes := filter (fun kv => ~ (n_CreatedAt kv.2.2 < seconds (now - sharedContextTTL))%Z) (notes cs);
            notes_seq := notes_seq cs |}).1 in
    let k := (n_Tenant e, n_Channel e, n_Key e) in
    let row :=
      {| n_Channel := n_Channel e; n_Tenant := n_Tenant e; n_Key := n_Key e; n_Content := n_Content e;
         n_Author := n_Author e; n_CreatedAt := seconds now |} in
    exec fault2 cs1
      match notes cs1 !! k with
      | Some (id, _) => {| notes := <[k := (id, row)]> (notes cs1); notes_seq := notes_seq cs1 |}
      | None =>
          {| notes := <[k := ((notes_seq cs1 + 1)%Z, row)]> (notes cs1); notes_seq := (notes_seq cs1 + 1)%Z |}
      end.

(** [ORDER BY created_at DESC, id DESC] *)
Definition note_order (a b : Z * SharedContextEntry) : Prop :=
  (n_CreatedAt b.2 < n_CreatedAt a.2 \/ n_CreatedAt b.2 = n_CreatedAt a.2 /\ b.1 <= a.1)%Z.
#[export] Instance note_order_dec : RelDecision note_order.
Proof. intros a b. unfold note_order. apply _. Defined.

(* [modules/agent/sharedcontext.go:ContextStore.Read] *)
Definition Read (fault : option error) (tenant channel : string) (cs : ContextStore) : Result (list SharedContextEntry) :=
  if decide (tenant = "" \/ channel = "") then Ok []
  else
    query fault
      (merge_sort note_order
         (filter (fun r => n_Tenant r.2 = tenant /\ n_Channel r.2 = channel) (map_to_list (notes cs)).*2)).*2.

(* [modules/agent/sharedcontext.go:ContextStore.Clear] *)
Definition Clear (fault : option error) (tenant channel : string) (cs : ContextStore) : ContextStore * option error :=
  if decide (tenant = "" \/ channel = "") then (cs, None)
  else
    exec fault cs
      {| notes := filter (fun kv => ~ (n_Tenant kv.2.2 = tenant /\ n_Channel kv.2.2 = channel)) (notes cs);
         notes_seq := notes_seq cs |}.

(* [modules/agent/sharedcontext.go:FormatSharedContext] *)
Definition FormatSharedContext (entries : list SharedContextEntry) : string :=
  if decide (entries = []) then "No shared context has been set for this task."
  else
    foldl (fun out e => out +:+ "### " +:+ n_Key e +:+ " (set by " +:+ n_Author e +:+ ")" +:+ newline +:+
                        n_Content e +:+ newline +:+ newline)
      ("## Shared context from the coordinator" +:+ newline +:+ newline) entries.

(** ** Usage records *)

(* [modules/agent/usage.go:UsageRecord] *)
Record UsageRecord := {
  ur_ID : string; ur_Timestamp : time; ur_Tenant : string; ur_Agent : string; ur_Provider : string;
  ur_InputTokens : Z; ur_OutputTokens : Z; ur_TotalTokens : Z; ur_DurationMs : Z;
}.
(* [modules/agent/usage.go:UsageStore] *)
Record UsageStore := { usage : gmap string UsageRecord }.
(* [modules/agent/usage.go:NewUsageStore] *)
Definition NewUsageStore : UsageStore := {| usage := ∅ |}.

(* [modules/agent/usage.go:UsageStore.Record] *)
Definition Record_ (fault : option error) (stamp : Z) (rec : UsageRecord) (s : UsageStore) : UsageStore * option error :=
  let id := if decide (ur_ID rec = "") then "usage_" +:+ itoa stamp else ur_ID rec in
  let row :=
    {| ur_ID := id; ur_Timestamp := seconds (ur_Timestamp rec); ur_Tenant := ur_Tenant rec;
       ur_Agent := ur_Agent rec; ur_Provider := ur_Provider rec; ur_InputTokens := ur_InputTokens rec;
       ur_OutputTokens := ur_OutputTokens rec; ur_TotalTokens := ur_TotalTokens rec;
       ur_DurationMs := ur_DurationMs rec |} in
  if decide (is_Some (usage s !! id)) then (s, Some "UNIQUE constraint failed: usage.id")
  else exec fault s {| usage := <[id := row]> (usage s) |}.

Definition latest (a b : UsageRecord) : Prop := (ur_Timestamp b <= ur_Timestamp a)%Z.

(** The zero time and the empty name leave a condition out. *)
(* [modules/agent/usage.go:UsageStore.Query] *)
Definition Query `{!SliceSorter latest} (fault : option error) (tenant agent : string) (since until : time)
    (s : UsageStore) : Result (list UsageRecord) :=
  query fault
    (take 1000 (sortSlice latest
       (filter (fun r => (tenant = "" \/ ur_Tenant r = tenant) /\ (agent = "" \/ ur_Agent r = agent) /\
                         (since = 0%Z \/ (seconds since <= ur_Timestamp r)%Z) /\
                         (until = 0%Z \/ (ur_Timestamp r <= seconds until)%Z)) (map_to_list (usage s)).*2))).

(** The average duration is kept as the sum of the durations: divide by [su_TotalCalls]. *)
(* [modules/agent/usage.go:UsageSummary] *)
Record UsageSummary := {
  su_Tenant : string; su_Agent : string; su_Provider : string; su_TotalCalls : Z; su_TotalTokens : Z;
  su_InputTokens : Z; su_OutputTokens : Z; su_DurationMs : Z;
}.
Definition sum_of (f : UsageRecord -> Z) (l : list UsageRecord) : Z := foldr (fun r n => (f r + n)%Z) 0%Z l.
Definition group_of (r : UsageRecord) : string * string * string := (ur_Tenant r, ur_Agent r, ur_Provider r).
Definition summary (rows : list UsageRecord) (g : string * string * string) : UsageSummary :=
  let l := filter (fun r => group_of r = g) rows in
  {| su_Tenant := g.1.1; su_Agent := g.1.2; su_Provider := g.2; su_TotalCalls := Z.of_nat (length l);
     su_TotalTokens := sum_of ur_TotalTokens l; su_InputTokens := sum_of ur_InputTokens l;
     su_OutputTokens := sum_of ur_OutputTokens l; su_DurationMs := sum_of ur_DurationMs l |}.
Definition most_tokens (a b : UsageSummary) : Prop := (su_TotalTokens b <= su_TotalTokens a)%Z.

(* [modules/agent/usage.go:UsageStore.Summarize] *)
Definition Summarize `{!SliceSorter most_tokens} (fault : option error) (tenant : string) (s : UsageStore) :
    Result (list UsageSummary) :=
  let rows := filter (fun r => tenant = "" \/ ur_Tenant r = tenant) (map_to_list (usage s)).*2 in
  query fault (sortSlice most_tokens (summary rows <$> elements (list_to_set (group_of <$> rows) : gset (string * string * string)))).

(** ** Retention *)

(* [modules/agent/retention.go:RetentionPolicy] *)
Record RetentionPolicy := { SessionTTL : duration; MemoryTTL : duration; UsageTTL : duration }.

(** The newest message's row id, 0 without messages. *)
Definition max_row (l : list MessageRow) : Z :=
  match l with [] => 0%Z | r :: l => foldr (fun r n => Z.max (row_id r) n) (row_id r) l end.
(** A session with one of the last 1000 row ids is kept. *)
Definition recent_session (l : list MessageRow) (sid : string) : Prop :=
  sid ∈ session_id <$> filter (fun r => (max_row l - 1000 < row_id r)%Z) l.

#[export] Instance recent_session_dec l sid : Decision (recent_session l sid).
Proof. unfold recent_session. apply _. Defined.

(** The number of rows deleted is returned. *)
Definition purge_sessions (fault : option error) (s : SessionStore) : SessionStore * nat :=
  let s' :=
    (exec fault s (with_messages
       (filter (fun r => ~ (is_Some (sessions s !! session_id r) /\ ~ recent_session (messages s) (session_id r)))
               (messages s)) s)).1 in
  (s', length (messages s) - length (messages s')).
Definition purge_memories (fault : option error) (cutoff : time) (ms : MemoryStore) : MemoryStore * nat :=
  let ms' := (exec fault ms {| memories_ := filter (fun kv => ~ (mem_UpdatedAt kv.2 < seconds cutoff)%Z) (memories_ ms) |}).1 in
  (ms', size (memories_ ms) - size (memories_ ms')).
Definition purge_usage (fault : option error) (cutoff : time) (us : UsageStore) : UsageStore * nat :=
  let us' := (exec fault us {| usage := filter (fun kv => ~ (ur_Timestamp kv.2 < seconds cutoff)%Z) (usage us) |}).1 in
  (us', size (usage us) - size (usage us')).

(** Run on a store when there is one and its policy is set. *)
Definition when_set {S} (ttl : duration) (purge : S -> S * nat) (store : option S) : option S * nat :=
  match store with
  | Some s => if decide (0 < ttl)%Z then let '(s', n) := purge s in (Some s', n) else (Some s, 0)
  | None => (None, 0)
  end.

(* [modules/agent/retention.go:RunRetention] *)
Definition RunRetention (f1 f2 f3 : option error) (now : time) (policy : RetentionPolicy)
    (store : option SessionStore) (memStore : option MemoryStore) (usageStore : option UsageStore) :
    option SessionStore * option MemoryStore * option UsageStore * Z :=
  let '(s, n1) := when_set (SessionTTL policy) (purge_sessions f1) store in
  let '(m, n2) := when_set (MemoryTTL policy) (purge_memories f2 (now - MemoryTTL policy)%Z) memStore in
  let '(u, n3) := when_set (UsageTTL policy) (purge_usage f3 (now - UsageTTL policy)%Z) usageStore in
  (s, m, u, Z.of_nat (n1 + n2 + n3)).

(** ** What the shared notes promise *)

(** Every row is under its own key. *)
Definition notes_keyed (cs : ContextStore) : Prop :=
  map_Forall (fun k r => k = (n_Tenant r.2, n_Channel r.2, n_Key r.2)) (notes cs).

Lemma Read_spec fault tenant channel cs l : tenant <> "" -> channel <> "" -> Read fault tenant channel cs = Ok l ->
  notes_keyed cs ->
  forall e, e ∈ l <-> exists k id, notes cs !! (tenant, channel, k) = Some (id, e).
Proof.
  intros Ht Hc. unfold Read. rewrite decide_False by tauto. unfold query. destruct fault; [done|]. intros [= <-] Hk e.
  rewrite list_elem_of_fmap. split.
  - intros ([id e'] & -> & Hin). rewrite merge_sort_Permutation in Hin.
    apply list_elem_of_filter in Hin as [[H1 H2] Hin]. apply list_elem_of_fmap in Hin as ([k v] & Ev & Hin).
    apply elem_of_map_to_list in Hin. pose proof (Hk _ _ Hin) as E. simpl in *. subst v. simpl in *. subst. eexists _, _. exact Hin.
  - intros (k & id & Hl). pose proof (Hk _ _ Hl) as E. injection E as -> -> ->. exists (id, e). split; [done|].
    rewrite merge_sort_Permutation. apply list_elem_of_filter. split; [done|].
    apply list_elem_of_fmap. eexists (_, _). split; [|by apply elem_of_map_to_list]. done.
Qed.

Definition expired (now : time) (e : SharedContextEntry) : Prop :=
  (n_CreatedAt e < seconds (now - sharedContextTTL))%Z.

(** A write that succeeds leaves the new note and, of the old ones, those of other keys that
    have not expired. *)
Lemma Write_lookup now e cs cs' : Write None None now e cs = (cs', None) -> notes_keyed cs ->
  notes_keyed cs' /\
  forall t c k row, (exists id, notes cs' !! (t, c, k) = Some (id, row)) <->
    (t, c, k) = (n_Tenant e, n_Channel e, n_Key e) /\
      row = {| n_Channel := c; n_Tenant := t; n_Key := k; n_Content := n_Content e; n_Author := n_Author e;
               n_CreatedAt := seconds now |} \/
    (t, c, k) <> (n_Tenant e, n_Channel e, n_Key e) /\ ~ expired now row /\ exists id, notes cs !! (t, c, k) = Some (id, row).
Proof.
  unfold Write. destruct (decide _); [done|]. unfold exec. simpl.
  set (kept := filter _ (notes cs)). set (key := (n_Tenant e, n_Channel e, n_Key e)).
  set (row0 := Build_SharedContextEntry _ _ _ _ _ _). intros E Hk.
  assert (Hkept : forall t c k row, (exists id, kept !! (t, c, k) = Some (id, row)) <->
    ~ expired now row /\ exists id, notes cs !! (t, c, k) = Some (id, row)).
  { intros t c k row. unfold kept. setoid_rewrite map_lookup_filter_Some. simpl. unfold expired. naive_solver. }
  assert (Hrow : exists id0, notes cs' = <[key := (id0, row0)]> kept).
  { destruct (kept !! key) as [[id0 ?]|]; injection E as <-; simpl; eauto. }
  destruct Hrow as [id0 Hn]. split.
  - unfold notes_keyed. rewrite Hn. apply map_Forall_insert_2; [done|]. intros k r Hr. unfold kept in Hr. apply map_lookup_filter_Some in Hr as [Hr _]. by apply Hk.
  - intros t c k row. rewrite Hn. destruct (decide ((t, c, k) = key)) as [Ek|Ek].
    + rewrite Ek, lookup_insert. rewrite decide_True by done. injection Ek as -> -> ->. split.
      * intros [id [= -> <-]]. by left.
      * intros [[_ ->]|[[] _]]; [by exists id0|done].
    + rewrite lookup_insert_ne by done. rewrite Hkept. naive_solver.
Qed.

(** Shared notes are scoped and the last write wins.  After a write, a read of
    any tenant and channel returns, in the channel written to, the new note, and otherwise
    exactly what it would have returned before, less the notes of that key and the notes older
    than a day; so a note never shows in another tenant or another channel. *)
Lemma shared_notes_spec now e cs cs' tenant channel before after :
  notes_keyed cs -> Write None None now e cs = (cs', None) ->
  Read None tenant channel cs = Ok before -> Read None tenant channel cs' = Ok after ->
  notes_keyed cs' /\
  forall n, n ∈ after <->
    (tenant = n_Tenant e /\ channel = n_Channel e /\
       n = {| n_Channel := n_Channel e; n_Tenant := n_Tenant e; n_Key := n_Key e; n_Content := n_Content e;
              n_Author := n_Author e; n_CreatedAt := seconds now |}) \/
    (n ∈ before /\ ~ expired now n /\ (tenant, channel, n_Key n) <> (n_Tenant e, n_Channel e, n_Key e)).
Proof.
  intros Hk Hw Hb Ha. destruct (Write_lookup _ _ _ _ Hw Hk) as [Hk' Hl]. split; [done|].
  destruct (decide (tenant = "" \/ channel = "")) as [Hempty|Hne].
  { unfold Read in Ha, Hb. rewrite decide_True in Ha, Hb by done. injection Ha as <-. injection Hb as <-.
    unfold Write in Hw. destruct (decide _) as [|He]; [done|]. intros n. split; [by intros ?%elem_of_nil|].
    intros [(-> & -> & _)|[?%elem_of_nil _]]; [tauto|done]. }
  intros n. rewrite (Read_spec None tenant channel cs' after) by (done || tauto).
  rewrite (Read_spec None tenant channel cs before) by (done || tauto). setoid_rewrite Hl. split.
  - intros (k & [[[= -> -> ->] ->]|(Hn & He & id & Hid)]); [by left|]. right.
    pose proof (Hk _ _ Hid) as [= -> -> ->]. split_and!; [by eexists _, _|done|done].
  - intros [(-> & -> & ->)|((k & id & Hid) & He & Hn)]; [exists (n_Key e); by left|].
    pose proof (Hk _ _ Hid) as [= -> -> ->]. exists (n_Key n). right. eauto.
Qed.

Definition demo_note (tenant channel key content : string) : SharedContextEntry :=
  {| n_Channel := channel; n_Tenant := tenant; n_Key := key; n_Content := content; n_Author := "boss"; n_CreatedAt := 0 |}.
Lemma shared_notes_spec_witness :
  let cs := (Write None None Day (demo_note "t" "c" "plan" "old") NewContextStore).1 in
  let cs' := (Write None None Day (demo_note "t" "c" "plan" "new") cs).1 in
  n_Content <$> match Read None "t" "c" cs' with Ok l => l | Err _ => [] end = ["new"] /\
  forall before after, Read None "t" "c" cs = Ok before -> Read None "t" "c" cs' = Ok after -> notes_keyed cs'.
Proof.
  intros cs cs'. split; [vm_compute; reflexivity|]. intros before after Hb Ha.
  pose proof (proj1 (Write_lookup Day (demo_note "t" "c" "plan" "old") NewContextStore cs eq_refl (map_Forall_empty _))) as Hk.
  exact (proj1 (shared_notes_spec Day (demo_note "t" "c" "plan" "new") cs cs' "t" "c" before after Hk eq_refl Hb Ha)).
Defined.
