(* ===== verification/Personality.v ===== *)
(** * Personality: switchable personas

    [src/modules/agent/personality.go]: the per-tenant catalogue of named prompts and the persona
    each session has selected. *)
From S2P Require Import Prelude Calendar GoStr AgentSession AgentStore AgentMemory.

(* [modules/agent/personality.go:Personality] *)
Record Personality := {
  ps_Tenant : string; ps_Name : string; ps_Prompt : string; ps_CreatedAt : time; ps_UpdatedAt : time;
}.

(* [modules/agent/personality.go:ErrUnknownPersonality] *)
Definition ErrUnknownPersonality : error := "unknown personality".

(** Names and prompts. *)
(* [modules/agent/personality.go:DefaultPersonalities] *)
Definition DefaultPersonalities : list (string * string) :=
  [("default", "You are a helpful, balanced assistant. Answer clearly and completely.");
   ("concise", "Be extremely concise. Prefer short, direct answers. Omit preamble, caveats, and filler. Use lists only when they shorten the answer.");
   ("friendly", "Adopt a warm, friendly, encouraging tone. Be approachable and supportive while staying accurate and helpful.")].

(* [modules/agent/personality.go:PersonalityStore] *)
Record PersonalityStore := {
  personalities : gmap (string * string) Personality; active : gmap string string; seeded : gset string;
}.
(* [modules/agent/personality.go:NewPersonalityStore] *)
Definition NewPersonalityStore : PersonalityStore := {| personalities := ∅; active := ∅; seeded := ∅ |}.

(** [strings.TrimRight(s, "\n")] *)
Fixpoint trim_newlines (s : string) : string :=
  match s with
  | "" => ""
  | String c s' =>
      match trim_newlines s' with
      | "" => if decide (c = "010"%char) then "" else String c ""
      | t => String c t
      end
  end.

Section Names.
(** [strings.ToLower], which knows all of Unicode. *)
Context (ToLower : string -> string).

(* [modules/agent/personality.go:normName] *)
Definition normName (name : string) : string := ToLower (TrimSpace name).

(* [modules/agent/personality.go:selKey] *)
Definition selKey (tenant session : string) : string := tenant +:+ String "000" session.

(** INSERT OR IGNORE: a row that is there stays.  [faults] gives each statement's error; the
    first one ends the seeding. *)
Fixpoint seed (faults : list (option error)) (tenant : string) (now : time) (defaults : list (string * string))
    (t : gmap (string * string) Personality) : gmap (string * string) Personality * option error :=
  match defaults with
  | [] => (t, None)
  | (name, prompt) :: rest =>
      match mjoin (head faults) with
      | Some e => (t, Some ("seed personality " +:+ quote name +:+ ": " +:+ e))
      | None =>
          let n := normName name in
          let row :=
            {| ps_Tenant := tenant; ps_Name := n; ps_Prompt := prompt; ps_CreatedAt := seconds now;
               ps_UpdatedAt := seconds now |} in
          seed (tail faults) tenant now rest
            match t !! (tenant, n) with Some _ => t | None => <[(tenant, n) := row]> t end
      end
  end.

(* [modules/agent/personality.go:PersonalityStore.SeedDefaults] *)
Definition SeedDefaults (faults : list (option error)) (now : time) (tenant : string) (ps : PersonalityStore) :
    PersonalityStore * option error :=
  if decide (tenant = "") then (ps, Some "personality: tenant is required")
  else if decide (tenant ∈ seeded ps) then (ps, None)
  else
    let '(t, err) := seed faults tenant now DefaultPersonalities (personalities ps) in
    ({| personalities := t; active := active ps;
        seeded := if err is None then {[tenant]} ∪ seeded ps else seeded ps |}, err).

(* [modules/agent/personality.go:PersonalityStore.Save] *)
Definition Save_ (fault : option error) (now : time) (p : Personality) (ps : PersonalityStore) :
    PersonalityStore * option error :=
  let name := normName (ps_Name p) in
  if decide (ps_Tenant p = "") then (ps, Some "personality: tenant is required")
  else if decide (name = "") then (ps, Some "personality: name is required")
  else if decide (TrimSpace (ps_Prompt p) = "") then (ps, Some "personality: prompt is required")
  else
    let created :=
      match personalities ps !! (ps_Tenant p, name) with Some old => ps_CreatedAt old | None => seconds now end in
    exec fault ps
      {| personalities := <[(ps_Tenant p, name) :=
           {| ps_Tenant := ps_Tenant p; ps_Name := name; ps_Prompt := ps_Prompt p; ps_CreatedAt := created;
              ps_UpdatedAt := seconds now |}]> (personalities ps);
         active := active ps; seeded := seeded ps |}.

(** An error that wraps [ErrUnknownPersonality], or another one. *)
Inductive get_error := Unknown (e : error) | Other (e : error).

(* [modules/agent/personality.go:PersonalityStore.Get] *)
Definition Get_ (fault : option error) (tenant name : string) (ps : PersonalityStore) : Personality + get_error :=
  if decide (tenant = "") then inr (Other "personality: tenant is required")
  else
    match fault, personalities ps !! (tenant, normName name) with
    | Some e, _ => inr (Other e)
    | None, Some p => inl p
    | None, None =>
        inr (Unknown (ErrUnknownPersonality +:+ ": " +:+ quote (normName name) +:+ " (tenant " +:+ quote tenant +:+ ")"))
    end.

Definition persona_le (a b : Personality) : Prop := string_le (ps_Name a) (ps_Name b).
#[local] Instance persona_le_dec : RelDecision persona_le.
Proof. intros a b. unfold persona_le. apply _. Defined.

(** Sorted by name, which is unique within a tenant. *)
(* [modules/agent/personality.go:PersonalityStore.List] *)
Definition List__ (fault : option error) (tenant : string) (ps : PersonalityStore) : Result (list Personality) :=
  if decide (tenant = "") then Ok []
  else
    query fault
      (merge_sort persona_le
         (filter (fun p => ps_Tenant p = tenant) (map_to_list (personalities ps)).*2)).

(* [modules/agent/personality.go:PersonalityStore.Delete] *)
Definition Delete_ (fault : option error) (tenant name : string) (ps : PersonalityStore) : PersonalityStore * option error :=
  if decide (tenant = "") then (ps, Some "personality: tenant is required")
  else
    exec fault ps
      {| personalities := delete (tenant, normName name) (personalities ps); active := active ps;
         seeded := seeded ps |}.

(* [modules/agent/personality.go:PersonalityStore.Select] *)
Definition Select (fault : option error) (tenant session name : string) (ps : PersonalityStore) :
    PersonalityStore * (Personality + get_error) :=
  match Get_ fault tenant name ps with
  | inr e => (ps, inr e)
  | inl p =>
      ({| personalities := personalities ps; active := <[selKey tenant session := ps_Name p]> (active ps);
          seeded := seeded ps |}, inl p)
  end.

(* [modules/agent/personality.go:PersonalityStore.ActiveName] *)
Definition ActiveName (tenant session : string) (ps : PersonalityStore) : string :=
  default "" (active ps !! selKey tenant session).

(* [modules/agent/personality.go:PersonalityStore.ClearSelection] *)
Definition ClearSelection (tenant session : string) (ps : PersonalityStore) : PersonalityStore :=
  {| personalities := personalities ps; active := delete (selKey tenant session) (active ps); seeded := seeded ps |}.

(* [modules/agent/personality.go:PersonalityStore.ActivePrompt] *)
Definition ActivePrompt (fault : option error) (tenant session : string) (ps : PersonalityStore) : string :=
  let name := ActiveName tenant session ps in
  if decide (name = "") then ""
  else match Get_ fault tenant name ps with inl p => ps_Prompt p | inr _ => "" end.

(* [modules/agent/personality.go:PersonalityStore.Compose] *)
Definition Compose (fault : option error) (tenant session existingPrelude : string) (ps : PersonalityStore) : string :=
  let persona := ActivePrompt fault tenant session ps in
  if decide (persona = "") then existingPrelude
  else
    let block := "## Personality" +:+ newline +:+ newline +:+ trim_newlines persona in
    if decide (TrimSpace existingPrelude = "") then block
    else block +:+ newline +:+ newline +:+ existingPrelude.

(* [modules/agent/personality.go:PersonalityStore.PersonalityNames] *)
Definition PersonalityNames (fault : option error) (tenant : string) (ps : PersonalityStore) : list string :=
  match List__ fault tenant ps with Ok l => sort_strings (ps_Name <$> l) | Err _ => [] end.
End Names.

(** The requested name, [Some ""] for the bare command. *)
(* [modules/agent/personality.go:ParsePersonalityCommand] *)
Definition ParsePersonalityCommand (message : string) : option string :=
  let trimmed := TrimSpace message in
  let try (prefix : string) (k : option string) : option string :=
    if decide (trimmed = prefix) then Some ""
    else if has_prefix (prefix +:+ " ") trimmed
    then Some (TrimSpace (drop_bytes (String.length prefix) trimmed))
    else k in
  try "/personality" (try "/persona" None).
