(* ===== verification/AgentTurn.v ===== *)
(** * AgentTurn: one chat turn of an agent

    [src/modules/agent]: the agentic loop of [runtime.go] with its calls on the bus, and
    quota.go.  A turn is a computation over a state (the trace of what it did so far, the
    agent's session, the session store, the personas and the rate limiters) in a world that
    answers: every reply of the bus, of the model, of a tool, of the clock and of the database
    is a function of the trace, so any behaviour of the other modules is some world.  The
    agent's configuration does not change during a turn.  Goroutines the turn starts and does
    not wait for are events; tracing spans and metrics are left out. *)
From S2P Require Import Prelude Calendar GoStr Regexp Redact AgentSession AgentStore AgentMemory Personality.
From S2P Require Ipc Policy Quota.

(** ** What a turn does *)

(** The reply to a request on the bus: the payload of the type expected, another, or an error. *)
Inductive reply (A : Type) := Replied (a : A) | OtherPayload | Failed (e : error).
Arguments Replied {_} _.
Arguments OtherPayload {_}.
Arguments Failed {_} _.

(* [modules/usermodel/types.go:UserProfile] *)
Record UserProfile := {
  up_Tenant : string; up_User : string; ProfileMD : string; PreferencesMD : string; up_UpdatedAt : time;
}.

Inductive event :=
  | EvClock (t : time)
  | EvQuotaCheck (tenant kind : string) (amount : Z) (r : reply Quota.CheckResponse)
  | EvSlotAcquire (tenant : string) (r : reply Quota.SlotResponse)
  | EvSlotRelease (slot : string)
  | EvQuotaRecord (tenant : string) (tokens : Z)
  | EvProfile (tenant user : string) (r : reply UserProfile)
  | EvDistill (tenant user : string)
  | EvSkills (names : list string) (r : reply (list (string * string)))
  | EvActivity (a : ActivityEvent)
  | EvProgress (p : ProgressEvent)
  | EvMessage (m : Message)
  | EvChat (model : string) (context : list Message) (defs : list ToolDef) (r : Result Message)
  | EvUsage (rec : UsageRecord)
  | EvPolicyCheck (q : Policy.CheckRequest) (r : reply Policy.CheckResponse)
  | EvApprovalSubmit (tenant agent user tool : string) (r : reply string)
  | EvApprovalGet (id : string) (r : reply string)
  | EvTool (ctx : ToolCtx) (name : string) (input : gmap string string) (r : Result string)
  | EvSleep (d : duration)
  | EvRecordActivity (tenant user summary : string)
  | EvTurnCompleted (rec : TurnRecord)
  | EvExtract (lastResponse : string) (toolsUsed : list string).

(** ** The world that answers *)
Class World := {
  w_codec :: Codec;
  w_now : list event -> time;
  (** The local zone's offset from UTC. *)
  w_zone : duration;
  w_ToLower : string -> string;
  (** The order in which a map is visited. *)
  w_order : gmap string string -> list (string * string);
  (** The patterns loaded by [LoadSecretPatterns]. *)
  w_patterns : list regexp;
  (** [ContextLoader.Load]. *)
  w_context_files : string -> string -> string;
  (** The error of the next database statement, and whether the next index insertion succeeds. *)
  w_fault : list event -> option error;
  w_fts : list event -> bool;
  (** The errors of a seeding's statements. *)
  w_seed : list event -> list (option error);
  w_quota_check : list event -> string -> string -> Z -> reply Quota.CheckResponse;
  w_slot : list event -> string -> reply Quota.SlotResponse;
  w_profile : list event -> string -> string -> reply UserProfile;
  w_skills : list event -> list string -> reply (list (string * string));
  w_chat : list event -> string -> list Message -> list ToolDef -> Result Message;
  w_policy : list event -> Policy.CheckRequest -> reply Policy.CheckResponse;
  w_submit : list event -> string -> string -> string -> string -> reply string;
  w_status : list event -> string -> reply string;
  (** Whether the five minutes of [waitForApproval] are over. *)
  w_expired : list event -> bool;
  w_tool : list event -> ToolCtx -> string -> gmap string string -> Result string;
}.

(** ** The state of a turn *)

(* [modules/agent/runtime.go:agentRateLimiter@51-55] *)
Record agentRateLimiter := { rl_count : Z; rl_resetAt : time }.

Record Turn := {
  trace : list event; sess : Session; db : option SessionStore; personas : option PersonalityStore;
  limiters : gmap string agentRateLimiter;
}.
Definition with_trace (tr : list event) (t : Turn) : Turn :=
  {| trace := tr; sess := sess t; db := db t; personas := personas t; limiters := limiters t |}.
Definition with_sess (s : Session) (t : Turn) : Turn :=
  {| trace := trace t; sess := s; db := db t; personas := personas t; limiters := limiters t |}.
Definition with_db (d : option SessionStore) (t : Turn) : Turn :=
  {| trace := trace t; sess := sess t; db := d; personas := personas t; limiters := limiters t |}.
Definition with_personas (p : option PersonalityStore) (t : Turn) : Turn :=
  {| trace := trace t; sess := sess t; db := db t; personas := p; limiters := limiters t |}.
Definition with_limiters (l : gmap string agentRateLimiter) (t : Turn) : Turn :=
  {| trace := trace t; sess := sess t; db := db t; personas := personas t; limiters := l |}.

Definition M (A : Type) : Type := Turn -> A * Turn.
Definition ret {A} (a : A) : M A := fun t => (a, t).
Definition bind {A B} (m : M A) (k : A -> M B) : M B := fun t => let '(a, t') := m t in k a t'.
Declare Scope turn_scope.
Delimit Scope turn_scope with turn.
Notation "x <- m ;; k" := (bind m (fun x => k)) (at level 100, m at next level, right associativity) : turn_scope.
Notation "m ;;; k" := (bind m (fun _ => k)) (at level 100, right associativity) : turn_scope.
Open Scope turn_scope.

Definition emit (e : event) : M () := fun t => ((), with_trace (trace t ++ [e]) t).
(** An answer of the world, recorded. *)
Definition ask {A} (answer : list event -> A) (record : A -> event) : M A :=
  fun t => let a := answer (trace t) in (a, with_trace (trace t ++ [record a]) t).
Definition get {A} (f : Turn -> A) : M A := fun t => (f t, t).
Definition update (f : Turn -> Turn) : M () := fun t => ((), f t).
Definition when (b : bool) (m : M ()) : M () := if b then m else ret ().
Fixpoint fold_m {A B} (f : A -> B -> M A) (a : A) (l : list B) : M A :=
  match l with [] => ret a | b :: l => a' <- f a b;; fold_m f a' l end.

Section Run.
Context `{World}.

Definition now : M time := ask w_now EvClock.
Definition set_session (f : Session -> Session) : M () := update (fun t => with_sess (f (sess t)) t).

(** [session.AddMessage]: to the history, and to the store the session is attached to; an error
    of the store is ignored. *)
(* [modules/agent/session.go:Session.AddMessage] *)
Definition add (msg : Message) : M () :=
  emit (EvMessage msg);;;
  update (fun t =>
    let t := with_sess (AddMessage msg (sess t)) t in
    if s_stored (sess t)
    then with_db ((fun d => (AppendMessage (w_fault (trace t)) (w_fts (trace t)) (s_id (sess t)) msg d).1) <$> db t) t
    else t).

(* [modules/agent/runtime.go:Runtime.publishActivity] *)
Definition publishActivity (agent tenant eventType detail : string) : M () :=
  n <- now;;
  emit (EvActivity {| ae_Timestamp := RFC3339 n; ae_Agent := agent; ae_Tenant := tenant; ae_Type := eventType;
                      ae_Detail := detail |}).

(** ** Quotas *)

(* [modules/agent/quota.go:quotaCheck] *)
Definition quotaCheck (tenant kind : string) (amount : Z) : M (bool * string) :=
  r <- ask (fun tr => w_quota_check tr tenant kind amount) (EvQuotaCheck tenant kind amount);;
  match r with
  | Replied cr => if Quota.Allowed cr then ret (true, "") else ret (false, Quota.Reason cr)
  | _ => ret (true, "")
  end.

(** What releases the slot, whether the turn may go on, and the reason when not. *)
(* [modules/agent/quota.go:quotaAcquireSlot] *)
Definition quotaAcquireSlot (tenant : string) : M (M () * bool * string) :=
  r <- ask (fun tr => w_slot tr tenant) (EvSlotAcquire tenant);;
  match r with
  | Replied sr =>
      if Quota.s_Allowed sr then ret (emit (EvSlotRelease (Quota.s_SlotID sr)), true, "")
      else ret (ret (), false, Quota.s_Reason sr)
  | _ => ret (ret (), true, "")
  end.

(* [modules/agent/quota.go:quotaRecord] *)
Definition quotaRecord (tenant : string) (tokens : Z) : M () :=
  when (0 <? tokens)%Z (emit (EvQuotaRecord tenant tokens)).

(** A limit of 0 or less means unlimited.  Each [time.Now()] is drawn where the code draws it. *)
(* [modules/agent/runtime.go:checkAgentRateLimit] *)
Definition checkAgentRateLimit (key : string) (limit : Z) : M (option error) :=
  if decide (limit <= 0)%Z then ret None
  else
    ls <- get limiters;;
    rl <- match ls !! key with
          | Some rl => ret rl
          | None => n <- now;; ret {| rl_count := 0; rl_resetAt := (n + Minute)%Z |}
          end;;
    n <- now;;
    rl <- (if After n (rl_resetAt rl)
           then n <- now;; ret {| rl_count := 0; rl_resetAt := (n + Minute)%Z |}
           else ret rl);;
    if decide (limit <= rl_count rl)%Z
    then
      update (fun t => with_limiters (<[key := rl]> (limiters t)) t);;;
      ret (Some ("rate limit exceeded: " +:+ itoa limit +:+ " requests/minute for agent"))
    else
      update (fun t =>
        with_limiters (<[key := {| rl_count := rl_count rl + 1; rl_resetAt := rl_resetAt rl |}]> (limiters t)) t);;;
      ret None.

(** ** Policy and approvals *)

Definition check_request (tenant user agentName toolName : string) : Policy.CheckRequest :=
  {| Policy.req_Tenant := tenant; Policy.req_Action := "tool_call"; Policy.req_Tool := toolName;
     Policy.req_Agent := agentName; Policy.req_User := user |}.

(** The bus is there: [Init] sets it before any handler is registered. *)
(* [modules/agent/runtime.go:Runtime.checkToolPolicy] *)
Definition checkToolPolicy (tenant user agentName toolName : string) : M string :=
  let q := check_request tenant user agentName toolName in
  r <- ask (fun tr => w_policy tr q) (EvPolicyCheck q);;
  match r with
  | Replied cr => ret (Policy.Decision_String (Policy.resp_Decision cr))
  | OtherPayload => ret "deny"
  | Failed e => if decide (e = Ipc.ErrNoHandler) then ret "allow" else ret "deny"
  end.

(** The requests to poll with: each waits two seconds first, so that five minutes allow 150. *)
Fixpoint poll (n : nat) (approvalID : string) : M string :=
  match n with
  | O => ret "timeout"
  | S n' =>
      over <- get (fun t => w_expired (trace t));;
      if (over : bool) then ret "timeout"
      else
        emit (EvSleep (2 * Second));;;
        r <- ask (fun tr => w_status tr approvalID) (EvApprovalGet approvalID);;
        match r with
        | Replied status =>
            if decide (status = "approved" \/ status = "denied" \/ status = "expired") then ret status
            else poll n' approvalID
        | _ => poll n' approvalID
        end
  end.
(* [modules/agent/runtime.go:Runtime.waitForApproval] *)
Definition waitForApproval (approvalID : string) : M string := poll 150 approvalID.

(** ** Tools *)

(* [modules/agent/tools.go:ToolRegistry.Execute] *)
Definition Execute (reg : ToolRegistry) (ctx : ToolCtx) (name : string) (input : gmap string string) : M (Result string) :=
  match tools reg !! name with
  | None => ret (Err ("tool " +:+ quote name +:+ " not found"))
  | Some _ => ask (fun tr => w_tool tr ctx name input) (EvTool ctx name input)
  end.

Definition is_limit (errStr : string) : bool :=
  Contains errStr "limited to" || Contains errStr "duplicate" || Contains errStr "maximum number" ||
  Contains errStr "already posted" || Contains errStr "prohibited content" ||
  (Contains errStr "429" && Contains errStr "Alatirok").

(** [attempt] counts from 0 to [maxRetries] = 3; [n] is the number of attempts left. *)
Fixpoint attempts (n : nat) (attempt : Z) (reg : ToolRegistry) (ctx : ToolCtx) (toolName : string)
    (input : gmap string string) (lastErr : error) : M (Result string) :=
  match n with
  | O => ret (Err lastErr)
  | S n' =>
      r <- Execute reg ctx toolName input;;
      match r with
      | Ok result => ret (Ok result)
      | Err e =>
          if is_limit e then ret (Err e)
          else
            when (attempt <? 3)%Z (emit (EvSleep (Z.shiftl 1 attempt * 100 * Millisecond)%Z));;;
            attempts n' (attempt + 1)%Z reg ctx toolName input e
      end
  end.
(* [modules/agent/runtime.go:Runtime.executeToolWithRetry] *)
Definition executeToolWithRetry (reg : ToolRegistry) (ctx : ToolCtx) (toolName : string)
    (input : gmap string string) : M (Result string) := attempts 4 0 reg ctx toolName input "".

(** The agent's secrets under lower-case names, where the call did not give the name itself. *)
(* [modules/agent/runtime.go:Runtime.handleChat@854-867] *)
Definition inject_secrets (secrets input : gmap string string) : gmap string string :=
  if decide (secrets = ∅) then input
  else
    foldl (fun merged kv => let lk := w_ToLower kv.1 in if merged !! lk is None then <[lk := kv.2]> merged else merged)
      input (w_order secrets).

(* [modules/agent/runtime.go:redactSecretValues] *)
Definition redactSecretValues (text : string) (secrets : gmap string string) : string :=
  if decide (text = "" \/ secrets = ∅) then text
  else
    foldl (fun text kv => if decide (String.length kv.2 < 4) then text else ReplaceAll text kv.2 redacted)
      text (w_order secrets).

(** [strings.ToUpper] of the statuses the wait ends with. *)
Definition upper_status (status : string) : string :=
  if decide (status = "approved") then "APPROVED" else if decide (status = "denied") then "DENIED"
  else if decide (status = "expired") then "EXPIRED" else "TIMEOUT".

(** Running a tool that may run; the list of tools used is threaded through.  [channel] is the
    batch's identifier for a subagent's turn. *)
(* [modules/agent/runtime.go:Runtime.handleChat@823-916] *)
Definition run_tool (reg : option ToolRegistry) (secrets : gmap string string) (channel : option string)
    (req : ChatRequest) (toolsUsed : list string) (tc : ToolCall) : M (list string) :=
  publishActivity (rq_Agent req) (rq_Tenant req) "tool_exec" ("Executing: " +:+ tc_Name tc);;;
  when (bool_decide (rq_Channel req <> "" /\ rq_ChannelID req <> ""))
    (emit (EvProgress {| pe_Agent := rq_Agent req; pe_Tenant := rq_Tenant req; pe_Channel := rq_Channel req;
                         pe_ChannelID := rq_ChannelID req; pe_ToolName := tc_Name tc; pe_Status := "running";
                         pe_Message := "_Running `" +:+ tc_Name tc +:+ "`..._" |}));;;
  r <- match reg with
       | None => ret ("tool registry not available", true)
       | Some reg =>
           let ctx := WithToolCaller (rq_Tenant req) (rq_Agent req) (rq_User req) background in
           let ctx := match channel with Some c => WithChannel c ctx | None => ctx end in
           r <- executeToolWithRetry reg ctx (tc_Name tc) (inject_secrets secrets (tc_Input tc));;
           match r with
           | Ok result => ret (result, false)
           | Err e => ret (redactSecretValues e secrets, true)
           end
       end;;
  add (tool_message (tc_ID tc) r.1 r.2);;;
  publishActivity (rq_Agent req) (rq_Tenant req) "tool_result" (tc_Name tc +:+ " completed");;;
  ret (toolsUsed ++ [tc_Name tc]).

(** One call of a tool. *)
(* [modules/agent/runtime.go:Runtime.handleChat@782-821] *)
Definition call_tool (reg : option ToolRegistry) (secrets : gmap string string) (channel : option string)
    (req : ChatRequest) (toolsUsed : list string) (tc : ToolCall) : M (list string) :=
  decision <- checkToolPolicy (rq_Tenant req) (rq_User req) (rq_Agent req) (tc_Name tc);;
  if decide (decision = "deny") then
    add (tool_message (tc_ID tc) ("DENIED: Policy does not allow " +:+ tc_Name tc) true);;;
    ret (toolsUsed ++ [tc_Name tc +:+ "(denied)"])
  else if decide (decision = "require_approval") then
    r <- ask (fun tr => w_submit tr (rq_Tenant req) (rq_Agent req) (rq_User req) (tc_Name tc))
             (EvApprovalSubmit (rq_Tenant req) (rq_Agent req) (rq_User req) (tc_Name tc));;
    let approvalID := match r with Replied id => id | _ => "" end in
    publishActivity (rq_Agent req) (rq_Tenant req) "approval_needed"
      ("Tool " +:+ tc_Name tc +:+ " requires approval (ID: " +:+ approvalID +:+ ")");;;
    status <- waitForApproval approvalID;;
    if decide (status <> "approved") then
      add (tool_message (tc_ID tc) ("APPROVAL " +:+ upper_status status +:+ ": " +:+ tc_Name tc) true);;;
      ret (toolsUsed ++ [tc_Name tc +:+ "(" +:+ status +:+ ")"])
    else run_tool reg secrets channel req toolsUsed tc
  else run_tool reg secrets channel req toolsUsed tc.

(** ** The loop *)

(** What the turn's agent and runtime look like; fixed while the turn runs. *)
Record setting := {
  st_config : AgentConfig; st_req : ChatRequest; st_subagent : bool; st_channel : option string;
  st_registry : option ToolRegistry; st_defs : list ToolDef; st_usage : bool; st_memory : bool;
  st_start : time;
}.

(* [modules/agent/runtime.go:truncate] *)
Definition truncate (s : string) (maxLen : nat) : string :=
  if decide (String.length s <= maxLen) then s else take_bytes maxLen s +:+ "...".

Definition mask (text : string) : string := MaskSecrets w_patterns text.
Definition Milliseconds (d : duration) : Z := Z.quot d Millisecond.

(** The turn's last steps, on a response without tool calls. *)
(* [modules/agent/runtime.go:Runtime.handleChat@670-750] *)
Definition finish (st : setting) (turn : Z) (toolsUsed : list string) (toolCallCount tin tout : Z) (response : Message) :
    M (Result ChatResponse) :=
  let req := st_req st in
  n <- now;;
  let d := Sub n (st_start st) in
  publishActivity (rq_Agent req) (rq_Tenant req) "chat_complete" "Response sent";;;
  when (AutoMemory (st_config st) && st_memory st && bool_decide (toolsUsed <> []))
    (emit (EvExtract (m_Content response) toolsUsed));;;
  when (negb (st_subagent st))
    (emit (EvRecordActivity (rq_Tenant req) (rq_User req)
       (truncate (RedactPII (mask (rq_Message req))) 200 +:+ " -> " +:+
        truncate (mask (RedactPII (m_Content response))) 200)));;;
  id <- get (fun t => s_id (sess t));;
  emit (EvTurnCompleted
    {| t_Tenant := rq_Tenant req; t_User := rq_User req; t_Session := id; t_Agent := rq_Agent req;
       t_Model := Model (st_config st); t_UserMessage := rq_Message req; t_Response := m_Content response;
       t_ToolsUsed := toolsUsed; t_ToolCalls := toolCallCount; t_Turns := (turn + 1)%Z; t_InputTokens := tin;
       t_OutputTokens := tout; t_TotalTokens := wrap64 (tin + tout)%Z; t_Outcome := "ok";
       t_DurationMS := Milliseconds d; t_StartedAt := st_start st; t_Subagent := st_subagent st |});;;
  ret (Ok {| rs_Agent := rq_Agent req; rs_Content := RedactPII (mask (m_Content response)); rs_ToolsUsed := toolsUsed |}).

Definition wrap_up : Message :=
  text_message RoleSystem
    "IMPORTANT: You have 2 tool-use turns remaining. Please wrap up your response and provide a final answer.".

(** The goroutines that record the usage and debit the tenant's tokens. *)
(* [modules/agent/runtime.go:Runtime.handleChat@641-666] *)
Definition record_usage (st : setting) (response : Message) : M () :=
  let total := wrap64 (m_InputTokens response + m_OutputTokens response)%Z in
  (if st_usage st
   then
     n1 <- now;;
     n2 <- now;;
     emit (EvUsage
       {| ur_ID := ""; ur_Timestamp := n1; ur_Tenant := rq_Tenant (st_req st); ur_Agent := rq_Agent (st_req st);
          ur_Provider := Model (st_config st); ur_InputTokens := m_InputTokens response;
          ur_OutputTokens := m_OutputTokens response; ur_TotalTokens := total;
          ur_DurationMs := Milliseconds (Sub n2 (st_start st)) |})
   else ret ());;;
  quotaRecord (rq_Tenant (st_req st)) total.

(** One call of the model, with what is recorded about it. *)
(* [modules/agent/runtime.go:Runtime.handleChat@628-669] *)
Definition call_model (st : setting) (turn : Z) : M (Result Message) :=
  let cfg := st_config st in
  when (bool_decide (3 < MaxTurns cfg /\ turn = MaxTurns cfg - 2)%Z) (add wrap_up);;;
  n <- now;;
  context <- get (fun t => AssembleContext (n + w_zone)%Z (sess t));;
  r <- ask (fun tr => w_chat tr (Model cfg) context (st_defs st)) (EvChat (Model cfg) context (st_defs st));;
  match r with
  | Err e => ret (Err ("model call failed: " +:+ e))
  | Ok response => record_usage st response;;; add response;;; ret (Ok response)
  end.

(** [n] is the number of turns left of [MaxTurns]. *)
(* [modules/agent/runtime.go:Runtime.handleChat@620-628] *)
Fixpoint chat_loop (n : nat) (st : setting) (turn : Z) (toolsUsed : list string) (toolCallCount tin tout : Z) :
    M (Result ChatResponse) :=
  match n with
  | O => ret (Err ("max turns (" +:+ itoa (MaxTurns (st_config st)) +:+ ") exceeded"))
  | S n' =>
      r <- call_model st turn;;
      match r with
      | Err e => ret (Err e)
      | Ok response =>
          let tin := wrap64 (tin + m_InputTokens response)%Z in
          let tout := wrap64 (tout + m_OutputTokens response)%Z in
          if decide (m_ToolCalls response = []) then finish st turn toolsUsed toolCallCount tin tout response
          else
            used <- fold_m (call_tool (st_registry st) (Secrets (st_config st)) (st_channel st) (st_req st))
                           toolsUsed (m_ToolCalls response);;
            chat_loop n' st (turn + 1) used (toolCallCount + Z.of_nat (length (m_ToolCalls response))) tin tout
      end
  end.

(** ** The system context *)

(* [modules/agent/runtime.go:Runtime.loadUserProfile] *)
Definition loadUserProfile (tenant user : string) : M string :=
  if decide (tenant = "" \/ user = "") then ret ""
  else
    r <- ask (fun tr => w_profile tr tenant user) (EvProfile tenant user);;
    match r with
    | Replied p =>
        if decide (ProfileMD p = "" /\ PreferencesMD p = "") then emit (EvDistill tenant user);;; ret ""
        else
          ret ("User profile:" +:+ newline +:+ (if decide (ProfileMD p = "") then "(none)" else ProfileMD p) +:+
               newline +:+ newline +:+ "User preferences:" +:+ newline +:+
               (if decide (PreferencesMD p = "") then "(none)" else PreferencesMD p) +:+ newline)
    | _ => ret ""
    end.

(* [modules/agent/runtime.go:autoMemoryPrefix] *)
Definition autoMemoryPrefix : string := "auto:".
(* [modules/agent/runtime.go:sanitizeMemoryUser] *)
Definition sanitizeMemoryUser (user : string) : string := ReplaceAll user ":" "_".
(* [modules/agent/runtime.go:autoMemoryKey] *)
Definition autoMemoryKey (user userQuery : string) : string :=
  autoMemoryPrefix +:+ sanitizeMemoryUser user +:+ ":" +:+ truncate userQuery 50.
(** A memory the user may be shown. *)
Definition visible_to (user : string) (m : Memory) : bool :=
  negb (has_prefix autoMemoryPrefix (mem_Key m)) ||
  has_prefix (autoMemoryPrefix +:+ sanitizeMemoryUser user +:+ ":") (mem_Key m).
(* [modules/agent/runtime.go:filterUserScopedMemories] *)
Definition filterUserScopedMemories (memories : list Memory) (user : string) : list Memory :=
  filter (fun m => visible_to user m = true) memories.

(** [prelude += "\n\n" + text], or [text] alone. *)
Definition join_prelude (prelude text : string) : string :=
  if decide (text = "") then prelude
  else if decide (prelude = "") then text
  else prelude +:+ newline +:+ newline +:+ text.

(** [files]: whether a context loader is attached; [memories]: the memory store, if any. *)
(* [modules/agent/runtime.go:Runtime.handleChat@532-574] *)
Definition build_prelude `{!SliceSorter newest} (files : bool) (memories : option MemoryStore) (req : ChatRequest) :
    M () :=
  let p0 := if files then w_context_files (rq_Tenant req) (rq_Agent req) else "" in
  profile <- loadUserProfile (rq_Tenant req) (rq_User req);;
  fault <- get (fun t => w_fault (trace t));;
  let p1 := join_prelude p0 profile in
  let p2 :=
    match (fun ms => Recall fault (rq_Agent req) (rq_Tenant req) ms) <$> memories with
    | Some (Ok ms) => join_prelude p1 (FormatForContext (filterUserScopedMemories ms (rq_User req)))
    | _ => p1
    end in
  id <- get (fun t => s_id (sess t));;
  n <- now;;
  p3 <- (fun t =>
    match personas t with
    | None => (p2, t)
    | Some ps =>
        let ps' := (SeedDefaults w_ToLower (w_seed (trace t)) n (rq_Tenant req) ps).1 in
        (Compose w_ToLower (w_fault (trace t)) (rq_Tenant req) id p2 ps', with_personas (Some ps') t)
    end);;
  when (bool_decide (p3 <> "")) (set_session (SetMemories p3)).

(** The instructions in the order the map is visited. *)
(* [modules/agent/runtime.go:formatSkillInstructions] *)
Definition formatSkillInstructions (instructions : list (string * string)) : string :=
  if decide (instructions = []) then ""
  else
    foldl (fun sb kv => sb +:+ "### Skill: " +:+ kv.1 +:+ newline +:+ newline +:+ kv.2 +:+ newline +:+ newline +:+
                        "---" +:+ newline +:+ newline)
      ("## Active Skills" +:+ newline +:+ newline) instructions.

(* [modules/agent/runtime.go:Runtime.handleChat@576-589] *)
Definition load_skills (cfg : AgentConfig) : M () :=
  if decide (Skills cfg = []) then ret ()
  else
    r <- ask (fun tr => w_skills tr (Skills cfg)) (EvSkills (Skills cfg));;
    match r with
    | Replied instructions => set_session (SetSkillInstructions (formatSkillInstructions instructions))
    | _ => ret ()
    end.

(** Half of a positive threshold is never negative, so the compaction never panics. *)
(* [modules/agent/runtime.go:Runtime.handleChat@597-601] *)
Definition auto_compact (cfg : AgentConfig) : M () :=
  s <- get sess;;
  when (bool_decide (0 < SummarizeThreshold cfg /\ SummarizeThreshold cfg < Z.of_nat (length (history s)))%Z)
    (add nudgeSystemMessage;;;
     set_session (fun s => default s (CompactHistory (SummarizeThreshold cfg / 2) s))).

(** The tools the model is told of. *)
(* [modules/agent/runtime.go:Runtime.handleChat@603-619] *)
Definition tool_defs (reg : option ToolRegistry) (cfg : AgentConfig) : list ToolDef :=
  match reg with
  | None => []
  | Some reg =>
      if decide (Tools cfg = []) then []
      else
        let names := if decide (Tools cfg = ["*"]) then List_ reg else Tools cfg in
        ToolDefs (if SandboxActive cfg then SafeToolset names (sb_Backend (Sandbox cfg)) else names) reg
  end.
End Run.
