(* ===== verification/AgentTrace.v ===== *)
(** * AgentTrace: reasoning about turns

    A weakest precondition for the computations of [AgentTurn]: what holds of the answer, of the
    events added to the trace and of the state afterwards; its rules, a tactic that applies
    them, and the predicates on traces that hold of every part of a turn. *)
From S2P Require Import Prelude AgentSession AgentStore AgentTurn.

Definition wp {A} (m : M A) (Q : A -> list event -> Turn -> Prop) (t : Turn) : Prop :=
  exists tr, trace (m t).2 = trace t ++ tr /\ Q (m t).1 tr (m t).2.

Lemma wp_mono {A} (m : M A) (Q Q' : A -> list event -> Turn -> Prop) t :
  wp m Q t -> (forall a tr t', Q a tr t' -> Q' a tr t') -> wp m Q' t.
Proof. intros (tr & E & HQ) H. exists tr. auto. Qed.

Lemma wp_ret {A} (a : A) (Q : A -> list event -> Turn -> Prop) t : Q a [] t -> wp (ret a) Q t.
Proof. intros H. exists []. by rewrite app_nil_r. Qed.

Lemma wp_bind {A B} (m : M A) (k : A -> M B) (Q : B -> list event -> Turn -> Prop) t :
  wp m (fun a tr1 => wp (k a) (fun b tr2 => Q b (tr1 ++ tr2))) t -> wp (bind m k) Q t.
Proof.
  unfold wp, bind. destruct (m t) as [a t1]; simpl. intros (tr1 & E1 & tr2 & E2 & HQ).
  exists (tr1 ++ tr2). by rewrite app_assoc, E2, E1.
Qed.

Lemma wp_emit e (Q : () -> list event -> Turn -> Prop) t :
  Q () [e] (with_trace (trace t ++ [e]) t) -> wp (emit e) Q t.
Proof. intros H. by exists [e]. Qed.

Lemma wp_ask {A} (answer : list event -> A) (record : A -> event) (Q : A -> list event -> Turn -> Prop) t :
  (forall a, Q a [record a] (with_trace (trace t ++ [record a]) t)) -> wp (ask answer record) Q t.
Proof. intros H. exists [record (answer (trace t))]. split; [done|]. apply H. Qed.

Lemma wp_get {A} (f : Turn -> A) (Q : A -> list event -> Turn -> Prop) t : Q (f t) [] t -> wp (get f) Q t.
Proof. intros H. exists []. by rewrite app_nil_r. Qed.

Lemma wp_update f (Q : () -> list event -> Turn -> Prop) t :
  trace (f t) = trace t -> Q () [] (f t) -> wp (update f) Q t.
Proof. intros E H. exists []. by rewrite app_nil_r. Qed.

Lemma wp_when b m (Q : () -> list event -> Turn -> Prop) t :
  (b = true -> wp m Q t) -> (b = false -> Q () [] t) -> wp (when b m) Q t.
Proof. intros H1 H2. unfold when. destruct b; [by apply H1|apply wp_ret; by apply H2]. Qed.

(** ** Predicates that hold of parts *)
Class Segment (P : list event -> Prop) := {
  segment_nil : P [];
  segment_app : forall t1 t2, P t1 -> P t2 -> P (t1 ++ t2);
}.

#[export] Instance Forall_segment (Q : event -> Prop) : Segment (Forall Q).
Proof. split; [constructor|]. intros t1 t2. rewrite Forall_app. auto. Qed.

(** The computation adds a trace with [P], from any state. *)
Definition emits (P : list event -> Prop) {A} (m : M A) : Prop := forall t, wp m (fun _ tr _ => P tr) t.

Section Emits.
Context (P : list event -> Prop) `{!Segment P}.

Lemma emits_ret {A} (a : A) : emits P (ret a).
Proof. intros t. apply wp_ret, segment_nil. Qed.
Lemma emits_bind {A B} (m : M A) (k : A -> M B) : emits P m -> (forall a, emits P (k a)) -> emits P (bind m k).
Proof.
  intros Hm Hk t. apply wp_bind. eapply wp_mono; [apply Hm|]. intros a tr1 t1 H1. simpl.
  eapply wp_mono; [apply Hk|]. intros b tr2 t2 H2. by apply segment_app.
Qed.
Lemma emits_emit e : P [e] -> emits P (emit e).
Proof. intros H t. by apply wp_emit. Qed.
Lemma emits_ask {A} (answer : list event -> A) (record : A -> event) : (forall a, P [record a]) -> emits P (ask answer record).
Proof. intros H t. by apply wp_ask. Qed.
Lemma emits_get {A} (f : Turn -> A) : emits P (get f).
Proof. intros t. apply wp_get, segment_nil. Qed.
Lemma emits_update f : (forall t, trace (f t) = trace t) -> emits P (update f).
Proof. intros H t. apply wp_update; [done|]. apply segment_nil. Qed.
Lemma emits_when b m : (b = true -> emits P m) -> emits P (when b m).
Proof. intros H t. apply wp_when; [intros Hb; by apply H|]. intros _. apply segment_nil. Qed.
Lemma emits_fold {A B} (f : A -> B -> M A) l : (forall a b, b ∈ l -> emits P (f a b)) -> forall a, emits P (fold_m f a l).
Proof.
  induction l as [|b l IH]; intros Hf a; simpl; [apply emits_ret|].
  apply emits_bind; [apply Hf; left|]. intros a'. apply IH. intros; apply Hf. by right.
Qed.
End Emits.

Lemma emits_weaken {A} (P Q : list event -> Prop) (m : M A) : (forall tr, P tr -> Q tr) -> emits P m -> emits Q m.
Proof. intros H Hm t. eapply wp_mono; [apply Hm|]. intros; by apply H. Qed.

(** Walk through a computation by its shape. *)
Ltac emits_step :=
  match goal with
  | |- emits _ (bind _ _) => apply emits_bind; [typeclasses eauto| |intros ?]
  | |- emits _ (ret _) => apply emits_ret; typeclasses eauto
  | |- emits _ (emit _) => apply emits_emit
  | |- emits _ (ask _ _) => apply emits_ask; intros ?
  | |- emits _ (get _) => apply emits_get; typeclasses eauto
  | |- emits _ (update _) => apply emits_update; [typeclasses eauto|done]
  | |- emits _ (set_session _) => apply emits_update; [typeclasses eauto|done]
  | |- emits _ (when _ _) => apply emits_when; [typeclasses eauto|intros ?]
  | |- emits _ (if decide ?P then _ else _) => destruct (decide P)
  | |- emits _ (match ?x with _ => _ end) => destruct x
  end.

Section Turns.
Context `{W : World}.

(** A predicate that holds of every event but those [skip]s. *)
Definition avoids (skip : event -> Prop) : event -> Prop := fun e => ~ skip e.

(** Parts of a turn that only announce things and keep messages. *)
Definition background_event (e : event) : Prop :=
  match e with EvClock _ | EvActivity _ | EvMessage _ | EvProgress _ | EvSleep _ => True | _ => False end.

Lemma background_singleton (Q : event -> Prop) e : (forall e, background_event e -> Q e) -> background_event e -> Forall Q [e].
Proof. intros H He. by apply Forall_singleton, H. Qed.

Lemma emits_now (P : list event -> Prop) : (forall e, background_event e -> P [e]) -> emits P now.
Proof. intros H0 t. apply wp_ask. intros a. by apply H0. Qed.
Lemma emits_add (P : list event -> Prop) `{!Segment P} m : (forall e, background_event e -> P [e]) -> emits P (add m).
Proof.
  intros H0. unfold add. apply emits_bind; [done|by apply emits_emit, H0|]. intros ?.
  apply emits_update; [done|]. intros t. by case_match.
Qed.
Lemma emits_publish (P : list event -> Prop) `{!Segment P} a b c d :
  (forall e, background_event e -> P [e]) -> emits P (publishActivity a b c d).
Proof. intros H0. unfold publishActivity. apply emits_bind; [done|by apply emits_now|]. intros n. by apply emits_emit, H0. Qed.
End Turns.
