(* ===== verification/AgentRuntime.v ===== *)
(** * AgentRuntime: the runtime module and its handlers

    [src/modules/agent/runtime.go]: the agents, the chat handler around the turn of [AgentTurn],
    and the handlers that create, update, inspect and delete agents, sessions, memories,
    versions and shared notes.  A handler runs on the runtime's state without interleaving; its
    locks make the same of the code except where a chat turn runs alongside. *)
From S2P Require Import Prelude Calendar GoStr Utf8 Regexp Redact AgentSession AgentStore AgentMemory Personality AgentTurn.
From S2P Require Ipc Policy Quota.

(* [modules/agent/runtime.go:agentInstance] *)
Record agentInstance := { config : AgentConfig; session : Session }.

(** [rt_limiters]: the package's map of rate limiters.  [rt_usage], [rt_files]: whether a usage
    store and a context loader are attached. *)
(* [modules/agent/runtime.go:Runtime] *)
Record Runtime := {
  rt_providers : gset string; toolReg : option ToolRegistry; agents : gmap string agentInstance;
  store : option SessionStore; memoryStore : option MemoryStore; rt_usage : bool; rt_files : bool;
  contextStore : option ContextStore; personalityStore : option PersonalityStore;
  rt_limiters : gmap string agentRateLimiter;
}.

(* [modules/agent/runtime.go:NewRuntime] *)
Definition NewRuntime : Runtime :=
  {| rt_providers := ∅; toolReg := None; agents := ∅; store := None; memoryStore := None; rt_usage := false;
     rt_files := false; contextStore := None; personalityStore := None; rt_limiters := ∅ |}.

Definition with_agents_ (a : gmap string agentInstance) (r : Runtime) : Runtime :=
  {| rt_providers := rt_providers r; toolReg := toolReg r; agents := a; store := store r;
     memoryStore := memoryStore r; rt_usage := rt_usage r; rt_files := rt_files r;
     contextStore := contextStore r; personalityStore := personalityStore r; rt_limiters := rt_limiters r |}.
(* [modules/agent/runtime.go:Runtime.SetSessionStore] *)
Definition SetSessionStore (s : option SessionStore) (r : Runtime) : Runtime :=
  {| rt_providers := rt_providers r; toolReg := toolReg r; agents := agents r; store := s;
     memoryStore := memoryStore r; rt_usage := rt_usage r; rt_files := rt_files r;
     contextStore := contextStore r; personalityStore := personalityStore r; rt_limiters := rt_limiters r |}.
(* [modules/agent/runtime.go:Runtime.SetMemoryStore] *)
Definition SetMemoryStore (m : option MemoryStore) (r : Runtime) : Runtime :=
  {| rt_providers := rt_providers r; toolReg := toolReg r; agents := agents r; store := store r;
     memoryStore := m; rt_usage := rt_usage r; rt_files := rt_files r;
     contextStore := contextStore r; personalityStore := personalityStore r; rt_limiters := rt_limiters r |}.
(* [modules/agent/runtime.go:Runtime.SetUsageStore] *)
Definition SetUsageStore (r : Runtime) : Runtime :=
  {| rt_providers := rt_providers r; toolReg := toolReg r; agents := agents r; store := store r;
     memoryStore := memoryStore r; rt_usage := true; rt_files := rt_files r;
     contextStore := contextStore r; personalityStore := personalityStore r; rt_limiters := rt_limiters r |}.
(* [modules/agent/runtime.go:Runtime.SetContextLoader] *)
Definition SetContextLoader (r : Runtime) : Runtime :=
  {| rt_providers := rt_providers r; toolReg := toolReg r; agents := agents r; store := store r;
     memoryStore := memoryStore r; rt_usage := rt_usage r; rt_files := true;
     contextStore := contextStore r; personalityStore := personalityStore r; rt_limiters := rt_limiters r |}.
(* [modules/agent/runtime.go:Runtime.SetContextStore] *)
Definition SetContextStore (c : option ContextStore) (r : Runtime) : Runtime :=
  {| rt_providers := rt_providers r; toolReg := toolReg r; agents := agents r; store := store r;
     memoryStore := memoryStore r; rt_usage := rt_usage r; rt_files := rt_files r;
     contextStore := c; personalityStore := personalityStore r; rt_limiters := rt_limiters r |}.
(* [modules/agent/runtime.go:Runtime.SetPersonalityStore] *)
Definition SetPersonalityStore (p : option PersonalityStore) (r : Runtime) : Runtime :=
  {| rt_providers := rt_providers r; toolReg := toolReg r; agents := agents r; store := store r;
     memoryStore := memoryStore r; rt_usage := rt_usage r; rt_files := rt_files r;
     contextStore := contextStore r; personalityStore := p; rt_limiters := rt_limiters r |}.
(* [modules/agent/runtime.go:Runtime.RegisterProvider] *)
Definition RegisterProvider (name : string) (r : Runtime) : Runtime :=
  {| rt_providers := {[name]} ∪ rt_providers r; toolReg := toolReg r; agents := agents r; store := store r;
     memoryStore := memoryStore r; rt_usage := rt_usage r; rt_files := rt_files r;
     contextStore := contextStore r; personalityStore := personalityStore r; rt_limiters := rt_limiters r |}.
(* [modules/agent/runtime.go:Runtime.SetToolRegistry] *)
Definition SetToolRegistry (reg : ToolRegistry) (r : Runtime) : Runtime :=
  {| rt_providers := rt_providers r; toolReg := Some reg; agents := agents r; store := store r;
     memoryStore := memoryStore r; rt_usage := rt_usage r; rt_files := rt_files r;
     contextStore := contextStore r; personalityStore := personalityStore r; rt_limiters := rt_limiters r |}.
(* [modules/agent/runtime.go:Runtime.Health] *)
Definition Health (r : Runtime) : string := itoa (Z.of_nat (size (agents r))) +:+ " agents running".

(** [tenant + "/" + name] *)
Definition agent_key (tenant name : string) : string := tenant +:+ "/" +:+ name.
Definition not_found (tenant name : string) : error :=
  "agent " +:+ quote name +:+ " not found in tenant " +:+ quote tenant.

Section Handlers.
Context `{World} `{!SliceSorter newest}.

(** ** Chatting *)

(* [modules/agent/runtime.go:Runtime.handleChat@451-481] *)
Definition personality_command (req : ChatRequest) (name : string) : M (Result ChatResponse) :=
  let reply content := Ok {| rs_Agent := rq_Agent req; rs_Content := content; rs_ToolsUsed := [] |} in
  n <- now;;
  fun t =>
    match personas t with
    | None => (Err "", t)
    | Some ps =>
        let fault := w_fault (trace t) in
        let id := s_id (sess t) in
        let ps := (SeedDefaults w_ToLower (w_seed (trace t)) n (rq_Tenant req) ps).1 in
        let names := Join (PersonalityNames fault (rq_Tenant req) ps) ", " in
        if decide (name = "") then
          (reply ("Active personality: " +:+ quote (ActiveName (rq_Tenant req) id ps) +:+ ". Available: " +:+ names),
           with_personas (Some ps) t)
        else
          let '(ps', r) := Select w_ToLower fault (rq_Tenant req) id name ps in
          (match r with
           | inl p => reply ("Personality set to " +:+ ps_Name p +:+ ".")
           | inr (Unknown _) => reply ("Unknown personality " +:+ quote name +:+ ". Available: " +:+ names)
           | inr (Other e) => Err e
           end, with_personas (Some ps') t)
    end.

(** What comes before the loop. *)
(* [modules/agent/runtime.go:Runtime.handleChat@590-601] *)
Definition prepare (r : Runtime) (cfg : AgentConfig) (req : ChatRequest) : M () :=
  build_prelude (rt_files r) (memoryStore r) req;;;
  load_skills cfg;;;
  set_session (SetLastUser (rq_User req));;;
  add (text_message RoleUser (rq_Message req));;;
  auto_compact cfg.

(** The turn proper, once a slot is held. *)
(* [modules/agent/runtime.go:Runtime.handleChat@511-531] *)
Definition chat_turn (r : Runtime) (cfg : AgentConfig) (subagent : bool) (channel : option string)
    (req : ChatRequest) : M (Result ChatResponse) :=
  start <- now;;
  publishActivity (rq_Agent req) (rq_Tenant req) "chat_start" ("User: " +:+ take_bytes 80 (rq_Message req));;;
  if decide (Model cfg ∉ rt_providers r) then ret (Err ("model provider " +:+ quote (Model cfg) +:+ " not found"))
  else
    prepare r cfg req;;;
    chat_loop (Z.to_nat (MaxTurns cfg))
      {| st_config := cfg; st_req := req; st_subagent := subagent; st_channel := channel;
         st_registry := toolReg r; st_defs := tool_defs (toolReg r) cfg; st_usage := rt_usage r;
         st_memory := if memoryStore r is None then false else true; st_start := start |}
      0 [] 0 0 0.

(** Rate limit, quotas, then the turn with the slot's release deferred. *)
(* [modules/agent/runtime.go:Runtime.handleChat@482-509] *)
Definition guarded_turn (r : Runtime) (key : string) (cfg : AgentConfig) (subagent : bool) (channel : option string)
    (req : ChatRequest) : M (Result ChatResponse) :=
  let exceeded reason :=
    Ok {| rs_Agent := rq_Agent req; rs_Content := "quota exceeded: " +:+ reason; rs_ToolsUsed := [] |} in
  limited <- checkAgentRateLimit key (RateLimit cfg);;
  match limited with
  | Some e => ret (Err e)
  | None =>
      ok <- quotaCheck (rq_Tenant req) "rate" 1;;
      if negb ok.1 then ret (exceeded ok.2)
      else
        slot <- quotaAcquireSlot (rq_Tenant req);;
        let '(release, ok, reason) := slot in
        if negb ok then ret (exceeded reason)
        else
          res <- chat_turn r cfg subagent channel req;;
          release;;;
          ret res
  end.

(** The runtime afterwards, what the turn did, and its answer. *)
(* [modules/agent/runtime.go:Runtime.handleChat@415-449] *)
Definition handleChat (source traceID : string) (req : ChatRequest) (r : Runtime) :
    Runtime * list event * Result ChatResponse :=
  let subagent := bool_decide (source = "orchestrate" \/ source = "delegate_tool") in
  let key := agent_key (rq_Tenant req) (rq_Agent req) in
  match agents r !! key with
  | None => (r, [], Err (not_found (rq_Tenant req) (rq_Agent req)))
  | Some inst =>
      let channel := if decide (subagent = true /\ traceID <> "") then Some traceID else None in
      let command := if personalityStore r is None then None else ParsePersonalityCommand (rq_Message req) in
      let run :=
        match command with
        | Some name => personality_command req name
        | None => guarded_turn r key (config inst) subagent channel req
        end in
      let '(res, t) :=
        run {| trace := []; sess := session inst; db := store r; personas := personalityStore r;
               limiters := rt_limiters r |} in
      ({| rt_providers := rt_providers r; toolReg := toolReg r;
          agents := <[key := {| config := config inst; session := sess t |}]> (agents r); store := db t;
          memoryStore := memoryStore r; rt_usage := rt_usage r; rt_files := rt_files r;
          contextStore := contextStore r; personalityStore := personas t; rt_limiters := limiters t |},
       trace t, res)
  end.

(** ** Agents *)

(** The error of the handler's [k]-th database statement, if it fails. *)
Abbreviation faults := (nat -> option error) (only parsing).

Definition on_store (f : SessionStore -> SessionStore * option error) (s : option SessionStore) : option SessionStore :=
  (fun st => (f st).1) <$> s.

(** Errors of the store are ignored. *)
(* [modules/agent/runtime.go:Runtime.handleCreate] *)
Definition handleCreate (f : faults) (now : time) (cfg : AgentConfig) (r : Runtime) : Runtime * Result string :=
  let cfg := default_turns cfg in
  let sessID := session_key (Tenant cfg) (Name cfg) in
  let s := NewSession sessID cfg in
  let s := if store r is None then s else SetStore s in
  let st := on_store (SaveSession (f 0) sessID cfg) (store r) in
  let st := on_store (SaveAgent (f 1) cfg) st in
  let st := on_store (SaveAgentVersion (f 2) (f 3) now cfg) st in
  (SetSessionStore st
     (with_agents_ (<[agent_key (Tenant cfg) (Name cfg) := {| config := cfg; session := s |}]> (agents r)) r), Ok "ok").

(** What one saved agent adds; an agent that is there already stays. *)
Definition load_agent (f : faults) (r : Runtime) (cfg : AgentConfig) : Runtime :=
  match store r with
  | None => r
  | Some st =>
      let cfg := default_turns cfg in
      let key := agent_key (Tenant cfg) (Name cfg) in
      match agents r !! key with
      | Some _ => r
      | None =>
          let sessID := session_key (Tenant cfg) (Name cfg) in
          let s := SetStore (NewSession sessID cfg) in
          let s := match LoadSession (f 0) sessID st with Ok (_, ms) => with_history (history s ++ ms) s | Err _ => s end in
          let s :=
            match (fun ms => Recall (f 1) (Name cfg) (Tenant cfg) ms) <$> memoryStore r with
            | Some (Ok ((_ :: _) as ms)) => SetMemories (FormatForContext ms) s
            | _ => s
            end in
          with_agents_ (<[key := {| config := cfg; session := s |}]> (agents r)) r
      end
  end.
(* [modules/agent/runtime.go:Runtime.LoadSavedAgents] *)
Definition LoadSavedAgents (f : faults) (fs : nat -> faults) (r : Runtime) : Runtime * option error :=
  match store r with
  | None => (r, None)
  | Some st =>
      match LoadAgents (f 0) st with
      | Err e => (r, Some ("load saved agents: " +:+ e))
      | Ok cfgs => (foldl (fun r '(i, cfg) => load_agent (fs i) r cfg) r (zip (seq 0 (length cfgs)) cfgs), None)
      end
  end.

(* [modules/agent/runtime.go:Runtime.handleList] *)
Definition handleList (tenantFilter : string) (r : Runtime) : Result (list string) :=
  Ok (sort_strings ((fun i => Name (config i)) <$> filter (fun i => Tenant (config i) = tenantFilter) (map_to_list (agents r)).*2)).

Definition param (k : string) (params : gmap string string) : string := default "" (params !! k).

(* [modules/agent/runtime.go:Runtime.handleGet] *)
Definition handleGet (f : faults) (params : gmap string string) (r : Runtime) : Result AgentConfig :=
  let tenant := param "tenant" params in
  let name := param "name" params in
  match agents r !! agent_key tenant name with
  | Some inst => Ok (config inst)
  | None =>
      match (fun st => LoadAgents (f 0) st) <$> store r with
      | Some (Ok cfgs) =>
          match filter (fun c => Tenant c = tenant /\ Name c = name) cfgs with
          | c :: _ => Ok c
          | [] => Err (not_found tenant name)
          end
      | _ => Err (not_found tenant name)
      end
  end.

(* [modules/agent/runtime.go:Runtime.handleDelete] *)
Definition handleDelete (f : faults) (params : gmap string string) (r : Runtime) : Runtime * Result string :=
  let tenant := param "tenant" params in
  let name := param "name" params in
  let st := on_store (DeleteAgent (f 0) tenant name) (store r) in
  let st := on_store (DeleteSession (f 1) (f 2) (session_key tenant name)) st in
  (SetSessionStore st (with_agents_ (delete (agent_key tenant name) (agents r)) r), Ok "deleted").

Definition or_else {A} (set : Prop) `{Decision set} (new old : A) : A := if decide set then new else old.

(** Every field that is set replaces the agent's, [AutoMemory] always; the sandbox is left. *)
Definition update_config (new old : AgentConfig) : AgentConfig :=
  {| Name := Name old; Tenant := Tenant old;
     Model := or_else (Model new <> "") (Model new) (Model old);
     SystemPrompt := or_else (SystemPrompt new <> "") (SystemPrompt new) (SystemPrompt old);
     Tools := or_else (Tools new <> []) (Tools new) (Tools old);
     MaxTurns := or_else (0 < MaxTurns new)%Z (MaxTurns new) (MaxTurns old);
     MaxHistory := or_else (0 < MaxHistory new)%Z (MaxHistory new) (MaxHistory old);
     SummarizeThreshold := or_else (0 < SummarizeThreshold new)%Z (SummarizeThreshold new) (SummarizeThreshold old);
     Secrets := or_else (Secrets new <> ∅) (Secrets new) (Secrets old);
     RateLimit := or_else (0 < RateLimit new)%Z (RateLimit new) (RateLimit old);
     Skills := or_else (Skills new <> []) (Skills new) (Skills old);
     MCPServers := or_else (MCPServers new <> []) (MCPServers new) (MCPServers old);
     AutoMemory := AutoMemory new; Sandbox := Sandbox old |}.

(** The session keeps the configuration it was made with. *)
(* [modules/agent/runtime.go:Runtime.handleUpdate] *)
Definition handleUpdate (f : faults) (now : time) (cfg : AgentConfig) (r : Runtime) : Runtime * Result string :=
  let key := agent_key (Tenant cfg) (Name cfg) in
  match agents r !! key with
  | None => (r, Err (not_found (Tenant cfg) (Name cfg)))
  | Some inst =>
      let c := update_config cfg (config inst) in
      let st := on_store (SaveAgent (f 0) c) (store r) in
      let st := on_store (SaveAgentVersion (f 1) (f 2) now c) st in
      (SetSessionStore st (with_agents_ (<[key := {| config := c; session := session inst |}]> (agents r)) r), Ok "updated")
  end.

(** [fmt.Sscanf(s, "%d", &version)], the variable starting at 0: white space except a newline,
    a sign, digits; what follows is not read. *)
Fixpoint leading_digits (s : string) : string :=
  match s with String c s' => if digit c is None then "" else String c (leading_digits s') | "" => "" end.
Fixpoint skip_blank (fuel : nat) (s : string) : option string :=
  match fuel with
  | O => Some s
  | S fuel' =>
      if has_prefix newline s || has_prefix (String "013" newline) s then None
      else match space_prefix s with O => Some s | n => skip_blank fuel' (drop_bytes n s) end
  end.
Definition Sscanf_d (s : string) : Z :=
  match skip_blank (String.length s) s with
  | None => 0
  | Some s =>
      let '(sign, body) :=
        match s with
        | String c s' => if decide (c = "-"%char) then (-1, s')%Z else if decide (c = "+"%char) then (1, s')%Z else (1, s)%Z
        | "" => (1, "")%Z
        end in
      match unsigned (leading_digits body) with
      | Some n => if decide (in_int64 (sign * n)) then (sign * n)%Z else 0%Z
      | None => 0%Z
      end
  end%Z.

(* [modules/agent/runtime.go:Runtime.handleVersions] *)
Definition handleVersions `{!SliceSorter version_ge} (f : faults) (params : gmap string string) (r : Runtime) :
    Result (list (Z * string * string)) :=
  match store r with
  | None => Ok []
  | Some st => ListAgentVersions (f 0) (param "tenant" params) (param "name" params) st
  end.

(* [modules/agent/runtime.go:Runtime.handleRollback] *)
Definition handleRollback (f : faults) (params : gmap string string) (r : Runtime) : Runtime * Result string :=
  match store r with
  | None => (r, Err "store not configured")
  | Some st =>
      match GetAgentVersion (f 0) (param "tenant" params) (param "name" params) (Sscanf_d (param "version" params)) st with
      | Err e => (r, Err e)
      | Ok cfg =>
          let key := agent_key (Tenant cfg) (Name cfg) in
          let a :=
            match agents r !! key with
            | Some inst => <[key := {| config := cfg; session := session inst |}]> (agents r)
            | None => agents r
            end in
          (SetSessionStore (Some (SaveAgent (f 1) cfg st).1) (with_agents_ a r),
           Ok ("rolled back to version " +:+ param "version" params))
      end
  end.

(** ** Sessions *)

(* [modules/agent/runtime.go:Runtime.handleSessions] *)
Definition handleSessions (f : faults) (params : gmap string string) (r : Runtime) : Result (list string) :=
  match store r with
  | None => Ok []
  | Some st =>
      match ListSessions (f 0) st with
      | Err e => Err e
      | Ok all =>
          Ok (filter (fun id => has_prefix (session_key (param "tenant" params) (param "name" params)) id = true) all)
      end
  end.

(** Role, content, calls, results. *)
(* [modules/agent/runtime.go:Runtime.handleSessionMessages@1050-1055] *)
Record msgOut := { o_Role : string; o_Content : string; o_ToolCalls : list ToolCall; o_ToolResults : list ToolResult }.

(* [modules/agent/runtime.go:Runtime.handleSessionMessages] *)
Definition handleSessionMessages (f : faults) (params : gmap string string) (r : Runtime) : Result (list msgOut) :=
  let tenant := param "tenant" params in
  let sessionID := param "sid" params in
  if decide (tenant = "" \/ sessionID = "") then Err "agent.session.messages: tenant and sid are required"
  else
    match store r with
    | None => Err "session store not configured"
    | Some st =>
        if has_prefix (session_prefix tenant) sessionID then
          match LoadSession (f 0) sessionID st with
          | Err e => Err e
          | Ok (_, messages) =>
              Ok ((fun m => {| o_Role := Role_String (m_Role m); o_Content := RedactPII (mask (m_Content m));
                               o_ToolCalls := m_ToolCalls m; o_ToolResults := m_ToolResults m |}) <$> messages)
          end
        else Err ("session " +:+ quote sessionID +:+ " not found in tenant " +:+ quote tenant)
    end.

(* [modules/agent/runtime.go:Runtime.handleSessionClear] *)
Definition handleSessionClear (f : faults) (params : gmap string string) (r : Runtime) : Runtime * Result string :=
  let tenant := param "tenant" params in
  let name := param "name" params in
  let key := agent_key tenant name in
  match agents r !! key with
  | None => (r, Err (not_found tenant name))
  | Some inst =>
      let s := ClearHistory (session inst) in
      let st := if s_stored s then on_store (ClearMessages (f 0) (s_id s)) (store r) else store r in
      (SetSessionStore st (with_agents_ (<[key := {| config := config inst; session := s |}]> (agents r)) r), Ok "cleared")
  end.

(* [modules/agent/runtime.go:Runtime.handleSearch] *)
Definition handleSearch (f : faults) (params : gmap string string) (r : Runtime) : Result (list SearchResult) :=
  let tenant := param "tenant" params in
  if decide (tenant = "") then Err "agent.search: tenant is required"
  else
    match store r with
    | None => Ok []
    | Some st => SearchMessages (f 0) (param "query" params) tenant st
    end.

(** ** Memories and shared notes *)

Definition with_content (c : string) (m : Memory) : Memory :=
  {| mem_ID := mem_ID m; mem_Agent := mem_Agent m; mem_Tenant := mem_Tenant m; mem_Key := mem_Key m;
     mem_Content := c; mem_CreatedAt := mem_CreatedAt m; mem_UpdatedAt := mem_UpdatedAt m |}.
Definition with_key (k : string) (m : Memory) : Memory :=
  {| mem_ID := mem_ID m; mem_Agent := mem_Agent m; mem_Tenant := mem_Tenant m; mem_Key := k;
     mem_Content := mem_Content m; mem_CreatedAt := mem_CreatedAt m; mem_UpdatedAt := mem_UpdatedAt m |}.

(* [modules/agent/runtime.go:Runtime.handleMemories] *)
Definition handleMemories (f : faults) (params : gmap string string) (r : Runtime) : Result (list Memory) :=
  match memoryStore r with
  | None => Ok []
  | Some ms =>
      match Recall (f 0) (param "name" params) (param "tenant" params) ms with
      | Err e => Err e
      | Ok l => Ok ((fun m => with_content (RedactPII (mask (mem_Content m))) m) <$> l)
      end
  end.

(* [modules/agent/runtime.go:Runtime.handleMemorySave] *)
Definition handleMemorySave (f : faults) (now : time) (stamp : Z) (m : Memory) (r : Runtime) : Runtime * Result string :=
  match memoryStore r with
  | None => (r, Err "memory store not configured")
  | Some ms =>
      if decide (mem_Tenant m = "" \/ mem_Agent m = "" \/ mem_Content m = "")
      then (r, Err "agent.memory.save: tenant, agent and content are required")
      else
        let m := with_content (RedactPII (mask (mem_Content m))) m in
        let m := if decide (mem_Key m = "") then with_key "learned" m else m in
        let '(ms', err) := Save (f 0) now stamp m ms in
        (SetMemoryStore (Some ms') r, match err with Some e => Err e | None => Ok "ok" end)
  end.

(* [modules/agent/runtime.go:Runtime.handleMemoryDelete] *)
Definition handleMemoryDelete (f : faults) (params : gmap string string) (r : Runtime) : Runtime * Result string :=
  let memID := param "id" params in
  let tenant := param "tenant" params in
  let agentName := param "agent" params in
  if decide (memID = "" \/ tenant = "" \/ agentName = "")
  then (r, Err "agent.memory.delete: id, tenant and agent are required")
  else
    match memoryStore r with
    | None => (r, Err "memory store not configured")
    | Some ms =>
        match Recall (f 0) agentName tenant ms with
        | Err e => (r, Err e)
        | Ok owned =>
            if decide (memID ∈ mem_ID <$> owned) then
              let '(ms', err) := Delete (f 1) memID ms in
              (SetMemoryStore (Some ms') r, match err with Some e => Err e | None => Ok "deleted" end)
            else (r, Err "agent.memory.delete: memory not found")
        end
    end.

(** The goroutine a turn starts to remember it; [hist] is the session's history when it runs
    and [answer] the model's reply to the prompt, when the provider is registered. *)
(* [modules/agent/runtime.go:Runtime.extractMemories] *)
Definition extractMemories (fault : option error) (now : time) (stamp : Z)
    (answer : string -> option (Result Message)) (hist : list Message) (req : ChatRequest) (lastResponse : string)
    (toolsUsed : list string) (r : Runtime) : Runtime :=
  match memoryStore r with
  | None => r
  | Some ms =>
      if decide (lastResponse = "" \/ length hist < 2) then r
      else
        match filter (fun m => m_Role m = RoleUser) (rev hist) with
        | [] => r
        | m :: _ =>
            let userQuery := m_Content m in
            if decide (userQuery = "") then r
            else
              let prompt :=
                "Extract 1-3 key facts worth remembering from this exchange. Return only the facts, one per line. No preamble." +:+
                newline +:+ newline +:+ "User: " +:+ truncate userQuery 300 +:+ newline +:+ "Assistant: " +:+
                truncate lastResponse 500 in
              let heuristic :=
                "User asked: " +:+ truncate userQuery 100 +:+ " | Tools used: " +:+ Join toolsUsed ", " +:+
                " | Response: " +:+ truncate lastResponse 200 in
              let summary :=
                match answer prompt with
                | Some (Ok resp) => if decide (m_Content resp = "") then heuristic else m_Content resp
                | _ => heuristic
                end in
              SetMemoryStore
                (Some (Save fault now stamp
                   {| mem_ID := ""; mem_Agent := rq_Agent req; mem_Tenant := rq_Tenant req;
                      mem_Key := autoMemoryKey (rq_User req) userQuery; mem_Content := summary;
                      mem_CreatedAt := 0; mem_UpdatedAt := 0 |} ms).1) r
        end
  end.

(* [modules/agent/runtime.go:Runtime.handleContextWrite] *)
Definition handleContextWrite (f : faults) (now : time) (source : string) (e : SharedContextEntry) (r : Runtime) :
    Runtime * Result string :=
  if decide (source <> "orchestrate") then
    (r, Err ("agent.context.write: not authorized for source " +:+ quote source))
  else
    match contextStore r with
    | None => (r, Err "shared context store not configured")
    | Some cs =>
        if decide (n_Tenant e = "" \/ n_Channel e = "" \/ n_Key e = "")
        then (r, Err "agent.context.write: tenant, channel and key are required")
        else
          let e :=
            {| n_Channel := n_Channel e; n_Tenant := n_Tenant e; n_Key := RedactPII (mask (n_Key e));
               n_Content := RedactPII (mask (n_Content e)); n_Author := n_Author e; n_CreatedAt := n_CreatedAt e |} in
          let '(cs', err) := Write (f 0) (f 1) now e cs in
          (SetContextStore (Some cs') r, match err with Some e => Err e | None => Ok "ok" end)
    end.

(* [modules/agent/runtime.go:ContextReadRequest] *)
Record ContextReadRequest := { crr_Tenant : string; crr_Channel : string }.

(* [modules/agent/runtime.go:Runtime.handleContextRead] *)
Definition handleContextRead (f : faults) (req : ContextReadRequest) (r : Runtime) : Result (list SharedContextEntry) :=
  match contextStore r with
  | None => Err "shared context store not configured"
  | Some cs => Read (f 0) (crr_Tenant req) (crr_Channel req) cs
  end.
End Handlers.
