(* ===== verification/AgentGate.v ===== *)
(** * AgentGate: what a chat turn may do

    Properties of the turns of [AgentTurn] and the handler of [AgentRuntime] in every world:
    tools run only when the policy lets them, a slot that was acquired is released, the model
    is called a bounded number of times, every tool call is answered. *)
From S2P Require Import Prelude Regexp Redact AgentSession AgentStore AgentMemory Personality AgentTurn AgentTrace AgentRuntime.
From S2P Require Ipc Policy Quota.

(** ** Tools run behind the policy *)

(** What a check must have answered for the tool to run at once, given which decisions let it. *)
Definition answered_by (lets : Policy.Decision_ -> Prop) (r : reply Policy.CheckResponse) : Prop :=
  match r with
  | Replied cr => lets (Policy.resp_Decision cr)
  | OtherPayload => False
  | Failed e => e = Ipc.ErrNoHandler
  end.
(** The code looks for the words "deny" and "require_approval" only. *)
Definition not_held (d : Policy.Decision_) : Prop := d <> Policy.Deny /\ d <> Policy.RequireApproval.
Notation allowed := (answered_by not_held).
Definition needs_approval (r : reply Policy.CheckResponse) : Prop :=
  match r with Replied cr => Policy.resp_Decision cr = Policy.RequireApproval | _ => False end.

Definition submit_id (r : reply string) : string := match r with Replied id => id | _ => "" end.

(** An approval was asked for this very call and the queue said it is approved. *)
Definition approved (req : ChatRequest) (tool : string) (tr : list event) : Prop :=
  exists r, EvApprovalSubmit (rq_Tenant req) (rq_Agent req) (rq_User req) tool r ∈ tr /\
            EvApprovalGet (submit_id r) (Replied "approved") ∈ tr.

Definition is_policy (e : event) : Prop := match e with EvPolicyCheck _ _ => True | _ => False end.
Definition is_tool (e : event) : Prop := match e with EvTool _ _ _ _ => True | _ => False end.
Definition tool_is (n : string) (e : event) : Prop := match e with EvTool _ m _ _ => m = n | _ => True end.

(** The last policy check before was about this call and allowed it, or wanted an approval that
    was then given. *)
Definition permitted_by (lets : Policy.Decision_ -> Prop) (req : ChatRequest) (tool : string) (pre : list event) : Prop :=
  exists pre1 r pre2,
    pre = pre1 ++ EvPolicyCheck (check_request (rq_Tenant req) (rq_User req) (rq_Agent req) tool) r :: pre2 /\
    Forall (fun e => ~ is_policy e) pre2 /\
    (answered_by lets r \/ needs_approval r /\ approved req tool pre2).
Notation permitted := (permitted_by not_held).

Definition gated_by (lets : Policy.Decision_ -> Prop) (req : ChatRequest) (tr : list event) : Prop :=
  forall pre ctx name input r post, tr = pre ++ EvTool ctx name input r :: post -> permitted_by lets req name pre.
Notation gated := (gated_by not_held).

(** Every answer to a check is the one of a policy engine that was initialised, reloads included. *)
Definition engine_answers `{!SliceSorter Policy.by_priority} (tr : list event) : Prop :=
  forall q cr, EvPolicyCheck q (Replied cr) ∈ tr ->
    exists e, Policy.running e /\ Policy.handleCheck e (Policy.PCheckRequest q) = Ok (Policy.PCheckResponse cr).
Lemma gated_engine `{!SliceSorter Policy.by_priority} req tr : gated req tr -> engine_answers tr -> gated_by (eq Policy.Allow) req tr.
Proof.
  intros Hg He pre ctx name input r post E. destruct (Hg _ _ _ _ _ _ E) as (pre1 & ans & pre2 & -> & Hno & H).
  exists pre1, ans, pre2. split; [done|]. split; [done|]. destruct H as [H|H]; [left|by right].
  destruct ans as [cr| |e]; [|done..]. cbn in *. destruct H as [Hd Ha].
  destruct (He (check_request (rq_Tenant req) (rq_User req) (rq_Agent req) name) cr) as (e & Hr & Hc); [rewrite E; set_solver|].
  destruct (Policy.resp_Decision cr) as [| | |n] eqn:Ed; [done..|]. by apply (Policy.running_defined _ _ _ n Hr) in Hc.
Qed.

Lemma permitted_app req tool l pre : permitted req tool pre -> permitted req tool (l ++ pre).
Proof. intros (p1 & r & p2 & -> & H). exists (l ++ p1), r, p2. by rewrite app_assoc. Qed.

#[export] Instance gated_segment req : Segment (gated req).
Proof.
  split; [by intros [] ? ? ? ? ?|]. intros t1 t2 H1 H2 pre ctx name input r post E.
  apply app_eq_inv in E as [(k & -> & E)|(k & -> & ->)].
  - destruct k as [|e k]; simpl in *.
    + pose proof (H2 [] ctx name input r post (eq_sym E)) as Hp. by apply (permitted_app _ _ pre) in Hp; rewrite app_nil_r in Hp.
    + injection E as <- ->. by eapply H1.
  - apply permitted_app. by eapply H2.
Qed.

Lemma gated_no_tool req tr : Forall (fun e => ~ is_tool e) tr -> gated req tr.
Proof.
  intros H pre ctx name input r post ->. apply Forall_app in H as [_ H]. apply Forall_cons in H as [H _]. by destruct H.
Qed.

(** A check, then events up to the decision, then a run of the one tool. *)
Lemma gated_call req name r mid rest :
  Forall (fun e => ~ is_policy e /\ ~ is_tool e) mid -> Forall (fun e => ~ is_policy e /\ tool_is name e) rest ->
  allowed r \/ needs_approval r /\ approved req name mid ->
  gated req (EvPolicyCheck (check_request (rq_Tenant req) (rq_User req) (rq_Agent req) name) r :: mid ++ rest).
Proof.
  intros Hmid Hrest Hr [|e pre] ctx n input res post E; [done|]. injection E as <- E.
  apply app_eq_inv in E as [(k & -> & E)|(k & -> & ->)].
  - destruct k as [|e k]; simpl in *.
    + rewrite app_nil_r in *. rewrite <- E in Hrest. apply Forall_cons in Hrest as [[_ Hn] _]. simpl in Hn. subst n.
      exists [], r, pre. split_and!; [done| |done]. eapply Forall_impl; [apply Hmid|]. by intros ? [].
    + injection E as <- _. apply Forall_app in Hmid as [_ Hmid]. apply Forall_cons in Hmid as [[_ []] _]. done.
  - apply Forall_app in Hrest as [Hk Hrest]. apply Forall_cons in Hrest as [[_ Hn] _]. simpl in Hn. subst n.
    exists [], r, (mid ++ k). split_and!; [done| |].
    + apply Forall_app; split; [eapply Forall_impl; [apply Hmid|]|eapply Forall_impl; [apply Hk|]]; by intros ? [].
    + destruct Hr as [Hr|(Hr & r' & Hs & Hg)]; [by left|]. right. split; [done|]. exists r'. set_solver.
Qed.

Section Gate.
Context `{W : World}.

Definition harmless (e : event) : Prop := ~ is_policy e /\ ~ is_tool e.
Lemma background_harmless e : background_event e -> harmless e.
Proof. unfold harmless. destruct e; simpl; tauto. Qed.
Hint Resolve background_harmless : core.
Hint Extern 1 (background_event _) => exact I : core.

Lemma harmless_one e : background_event e -> Forall harmless [e].
Proof. intros H. apply Forall_singleton. by apply background_harmless. Qed.
Hint Resolve harmless_one : core.

Ltac harmless_tac := repeat (apply Forall_cons; split; [by split; intros []|]); done.

(** The status the wait ends with is the queue's, or "timeout". *)
Lemma poll_wp id n : forall t,
  wp (poll n id) (fun status tr _ => Forall harmless tr /\ (status = "approved" -> EvApprovalGet id (Replied "approved") ∈ tr)) t.
Proof.
  induction n as [|n IH]; intros t; simpl; [by apply wp_ret|].
  apply wp_bind, wp_get. simpl. destruct (w_expired (trace t)); [by apply wp_ret|].
  apply wp_bind, wp_emit. simpl. apply wp_bind, wp_ask. intros a. simpl.
  assert (Hrest : forall t' : Turn, wp (poll n id)
    (fun status tr _ => Forall harmless (EvSleep (2 * Second) :: EvApprovalGet id a :: tr) /\
       (status = "approved" -> EvApprovalGet id (Replied "approved") ∈ EvSleep (2 * Second) :: EvApprovalGet id a :: tr)) t').
  { intros t'. eapply wp_mono; [apply IH|]. intros s tr t2 [H1 H2].
    split; [harmless_tac|]. intros Hs. apply elem_of_cons. right. apply elem_of_cons. right. auto. }
  destruct a as [status| |e]; [|apply Hrest|apply Hrest].
  destruct (decide _); [|apply Hrest]. apply wp_ret. split; [harmless_tac|].
  intros ->. apply elem_of_cons. right. by left.
Qed.

(** Events a run of tool [n] may have. *)
Definition tool_run (n : string) (e : event) : Prop := ~ is_policy e /\ tool_is n e.
Lemma background_tool_run n e : background_event e -> Forall (tool_run n) [e].
Proof. intros H. apply Forall_singleton. unfold tool_run. destruct e; simpl in *; tauto. Qed.
Hint Resolve background_tool_run : core.

Lemma attempts_runs reg ctx name input n : forall k e, emits (Forall (tool_run name)) (attempts n k reg ctx name input e).
Proof.
  induction n as [|n IH]; intros k e; simpl; [by emits_step|].
  emits_step.
  - unfold Execute. destruct (tools reg !! name); [|by emits_step].
    emits_step. apply Forall_singleton. by split; [intros []|].
  - repeat emits_step; auto.
Qed.

Lemma run_tool_runs reg secrets ch req used tc : emits (Forall (tool_run (tc_Name tc))) (run_tool reg secrets ch req used tc).
Proof.
  unfold run_tool. emits_step; [apply emits_publish; auto; apply _|].
  emits_step; [emits_step; emits_step; auto|]. emits_step.
  - emits_step; [|emits_step]. emits_step; [apply attempts_runs|]. repeat emits_step.
  - emits_step; [apply emits_add; auto; apply _|]. emits_step; [apply emits_publish; auto; apply _|]. emits_step.
Qed.

Lemma add_harmless m : emits (Forall harmless) (add m).
Proof. apply emits_add; auto. apply _. Qed.
Lemma publish_harmless a b c d : emits (Forall harmless) (publishActivity a b c d).
Proof. apply emits_publish; auto. apply _. Qed.

Lemma call_tool_gated reg secrets ch req used tc : emits (gated req) (call_tool reg secrets ch req used tc).
Proof.
  intros t. unfold call_tool, checkToolPolicy. apply wp_bind, wp_bind, wp_ask. intros r.
  assert (Hrun : forall mid t', Forall harmless mid -> allowed r \/ needs_approval r /\ approved req (tc_Name tc) mid ->
    wp (run_tool reg secrets ch req used tc)
       (fun _ tr _ => gated req (EvPolicyCheck (check_request (rq_Tenant req) (rq_User req) (rq_Agent req) (tc_Name tc)) r :: mid ++ tr)) t').
  { intros mid t' Hm Hr. eapply wp_mono; [apply run_tool_runs|]. intros u tr t2 Htr. by apply gated_call. }
  assert (Hdeny : forall m t', wp (add m ;;; ret (used ++ [tc_Name tc +:+ "(denied)"]))
    (fun _ tr _ => gated req (EvPolicyCheck (check_request (rq_Tenant req) (rq_User req) (rq_Agent req) (tc_Name tc)) r :: tr)) t').
  { intros m t'. apply wp_bind. eapply wp_mono; [apply add_harmless|]. intros u tr t2 Htr. apply wp_ret.
    apply gated_no_tool. apply Forall_cons. split; [by intros []|]. rewrite app_nil_r. eapply Forall_impl; [apply Htr|]. by intros ? []. }
  destruct r as [cr| |e]; [|apply wp_ret; apply Hdeny|].
  - apply wp_ret. destruct (Policy.resp_Decision cr) as [| | |n] eqn:Ed.
    { apply Hdeny. } { apply (Hrun []); [done|left; cbn; by rewrite Ed]. }
    2:{ rewrite !decide_False by done. apply (Hrun []); [done|left; cbn; by rewrite Ed]. }
    simpl.
    apply wp_bind, wp_ask. intros sr. apply wp_bind. eapply wp_mono; [apply publish_harmless|]. intros u tr1 t1 H1.
    apply wp_bind. eapply wp_mono; [apply poll_wp|]. intros status tr2 t2 [H2 Hap]. simpl.
    set (sub := EvApprovalSubmit _ _ _ _ sr).
    assert (Hmid : Forall harmless (sub :: tr1 ++ tr2)).
    { apply Forall_cons. split; [by split; intros []|]. by apply Forall_app. }
    destruct (decide (status <> "approved")) as [Hs|Hs].
    + apply wp_bind. eapply wp_mono; [apply add_harmless|]. intros u3 tr3 t3 H3. apply wp_ret.
      apply gated_no_tool. rewrite app_nil_r. apply Forall_cons. split; [by intros []|].
      apply (Forall_impl harmless); [|by intros ? []]. apply Forall_cons. split; [by split; intros []|]. rewrite !Forall_app. auto.
    + eapply wp_mono; [apply (Hrun (sub :: tr1 ++ tr2)); [done|]|].
      * right. split; [done|]. exists sr. apply dec_stable in Hs. set_solver.
      * intros u4 tr4 t4 H4. by rewrite app_comm_cons, app_assoc in *.
  - destruct (decide (e = Ipc.ErrNoHandler)) as [->|]; apply wp_ret; [apply (Hrun []); [done|by left]|apply Hdeny].
Qed.

(** ** The parts of a turn *)

(** What the preparation, a call of the model and the end of a turn may do besides. *)
Definition prep_event (e : event) : Prop :=
  background_event e \/ match e with EvProfile _ _ _ | EvDistill _ _ | EvSkills _ _ => True | _ => False end.
Definition end_event (e : event) : Prop :=
  background_event e \/ match e with EvExtract _ _ | EvRecordActivity _ _ _ | EvTurnCompleted _ => True | _ => False end.
Definition tool_event (e : event) : Prop :=
  background_event e \/
  match e with EvPolicyCheck _ _ | EvApprovalSubmit _ _ _ _ _ | EvApprovalGet _ _ | EvTool _ _ _ _ => True | _ => False end.

Lemma one_event (P : event -> Prop) e : (forall e, background_event e -> P e) -> background_event e -> Forall P [e].
Proof. intros H He. by apply Forall_singleton, H. Qed.
Lemma prep_one e : background_event e -> Forall prep_event [e].
Proof. apply one_event. by left. Qed.
Lemma end_one e : background_event e -> Forall end_event [e].
Proof. apply one_event. by left. Qed.
Lemma tool_one e : background_event e -> Forall tool_event [e].
Proof. apply one_event. by left. Qed.
Hint Resolve prep_one end_one tool_one : core.
Hint Extern 2 (Forall _ [_]) => apply Forall_singleton; right; exact I : core.

Ltac part :=
  repeat first
    [ progress (unfold set_session)
    | apply emits_now; solve [auto]
    | apply emits_add; [typeclasses eauto|solve [auto]]
    | apply emits_publish; [typeclasses eauto|solve [auto]]
    | emits_step ]; auto.

Lemma build_prelude_prep `{!SliceSorter newest} files ms req : emits (Forall prep_event) (build_prelude files ms req).
Proof.
  unfold build_prelude, loadUserProfile. emits_step; [part|]. part.
  intros t. exists []. rewrite app_nil_r. by destruct (personas t).
Qed.
Lemma load_skills_prep cfg : emits (Forall prep_event) (load_skills cfg).
Proof. unfold load_skills. part. Qed.
Lemma auto_compact_prep cfg : emits (Forall prep_event) (auto_compact cfg).
Proof. unfold auto_compact. part. Qed.
Lemma finish_end st turn used calls tin tout resp : emits (Forall end_event) (finish st turn used calls tin tout resp).
Proof. unfold finish. part. Qed.

Lemma poll_tool id n : emits (Forall tool_event) (poll n id).
Proof. induction n as [|n IH]; simpl; part. Qed.
Lemma attempts_tool reg ctx name input n : forall k e, emits (Forall tool_event) (attempts n k reg ctx name input e).
Proof. induction n as [|n IH]; intros k e; simpl; unfold Execute; part. Qed.
Lemma run_tool_tool reg secrets ch req used tc : emits (Forall tool_event) (run_tool reg secrets ch req used tc).
Proof. unfold run_tool. emits_step; [part|]. emits_step; [part|]. emits_step; [|part].
  destruct reg; [|part]. emits_step; [apply attempts_tool|]. part. Qed.
Lemma call_tool_tool reg secrets ch req used tc : emits (Forall tool_event) (call_tool reg secrets ch req used tc).
Proof.
  unfold call_tool, checkToolPolicy, waitForApproval. emits_step; [part|].
  emits_step; [part|]. emits_step; [|apply run_tool_tool].
  emits_step; [part|]. emits_step; [part|]. emits_step; [apply poll_tool|]. emits_step; [part|apply run_tool_tool].
Qed.

(** A call of the model: one model event, and around it only bookkeeping. *)
Definition model_event (e : event) : Prop :=
  background_event e \/ match e with EvUsage _ | EvQuotaRecord _ _ => True | _ => False end.
Lemma model_one e : background_event e -> Forall model_event [e].
Proof. apply one_event. by left. Qed.
Hint Resolve model_one : core.

Lemma record_usage_model st m : emits (Forall model_event) (record_usage st m).
Proof. unfold record_usage, quotaRecord. part. Qed.

Lemma call_model_wp st turn t :
  wp (call_model st turn)
     (fun res tr _ => exists pre context r post,
        tr = pre ++ EvChat (Model (st_config st)) context (st_defs st) r :: post /\
        Forall model_event pre /\ Forall model_event post /\
        match r with Ok m => res = Ok m | Err e => res = Err ("model call failed: " +:+ e) end) t.
Proof.
  unfold call_model.
  assert (Hpre : emits (Forall model_event) (when (bool_decide (3 < MaxTurns (st_config st) /\ turn = MaxTurns (st_config st) - 2)%Z) (add wrap_up))) by part.
  apply wp_bind. eapply wp_mono; [apply Hpre|]. intros u tr1 t1 H1. apply wp_bind.
  eapply wp_mono; [apply (emits_now (Forall model_event)); auto|]. intros n tr2 t2 H2. simpl.
  apply wp_bind, wp_get, wp_bind, wp_ask. intros r. simpl.
  destruct r as [m|e].
  - apply wp_bind. eapply wp_mono; [apply record_usage_model|]. intros u3 tr3 t3 H3. apply wp_bind.
    eapply wp_mono; [apply (emits_add (Forall model_event)); auto; apply _|]. intros u4 tr4 t4 H4. apply wp_ret.
    eexists (tr1 ++ tr2), _, (Ok m), (tr3 ++ tr4). rewrite app_nil_r, <- app_assoc. simpl.
    split_and!; [done|by apply Forall_app_2..|done].
  - apply wp_ret. eexists (tr1 ++ tr2), _, (Err e), []. rewrite <- app_assoc.
    split_and!; [done|by apply Forall_app_2|done|done].
Qed.

(** The model's replies in a trace. *)
Definition chats (tr : list event) : list (Result Message) :=
  omap (fun e => match e with EvChat _ _ _ r => Some r | _ => None end) tr.

Lemma chats_app t1 t2 : chats (t1 ++ t2) = chats t1 ++ chats t2.
Proof. apply omap_app. Qed.
Lemma chats_cons m c d r tr : chats (EvChat m c d r :: tr) = r :: chats tr.
Proof. done. Qed.

Lemma chats_none (P : event -> Prop) tr :
  (forall m c d r, ~ P (EvChat m c d r)) -> Forall P tr -> chats tr = [].
Proof.
  intros H. induction 1 as [|e tr He Htr IH]; [done|]. unfold chats in *. simpl.
  destruct e; simpl; try done. by apply H in He.
Qed.

Lemma model_no_tool e : model_event e -> ~ is_tool e.
Proof. unfold model_event. destruct e; simpl; tauto. Qed.
Lemma end_no_tool e : end_event e -> ~ is_tool e.
Proof. unfold end_event. destruct e; simpl; tauto. Qed.
Lemma prep_no_tool e : prep_event e -> ~ is_tool e.
Proof. unfold prep_event. destruct e; simpl; tauto. Qed.

(** How a turn with [n] model calls at most ends, given the model's replies: each but the last
    asked for tools. *)
Definition loop_outcome (st : setting) (n : nat) (res : Result ChatResponse) (replies : list (Result Message)) : Prop :=
  exists asked : list Message, Forall (fun m => m_ToolCalls m <> []) asked /\
    (length asked = n /\ replies = Ok <$> asked /\
       res = Err ("max turns (" +:+ itoa (MaxTurns (st_config st)) +:+ ") exceeded") \/
     length asked < n /\
       ((exists e, replies = (Ok <$> asked) ++ [Err e] /\ res = Err ("model call failed: " +:+ e)) \/
        exists m used, replies = (Ok <$> asked) ++ [Ok m] /\ m_ToolCalls m = [] /\
          res = Ok {| rs_Agent := rq_Agent (st_req st); rs_Content := RedactPII (mask (m_Content m));
                      rs_ToolsUsed := used |})).

Lemma loop_outcome_cons st n res replies m :
  m_ToolCalls m <> [] -> loop_outcome st n res replies -> loop_outcome st (S n) res (Ok m :: replies).
Proof.
  intros Hm (asked & Ha & H). exists (m :: asked). split; [by constructor|]. simpl.
  destruct H as [(? & -> & ->)|(? & [(e & -> & ->)|(m' & used & -> & ? & ->)])].
  - left. by split_and!; [lia|..].
  - right. split; [lia|]. left. by exists e.
  - right. split; [lia|]. right. by exists m', used.
Qed.

Lemma finish_wp st turn used calls tin tout m t :
  wp (finish st turn used calls tin tout m)
     (fun res tr _ => Forall end_event tr /\
        res = Ok {| rs_Agent := rq_Agent (st_req st); rs_Content := RedactPII (mask (m_Content m)); rs_ToolsUsed := used |}) t.
Proof.
  destruct (finish_end st turn used calls tin tout m t) as (tr & E & H). exists tr. split; [done|]. split; [done|].
  unfold finish, when, publishActivity, now, bind, ask, emit, get, ret.
  by destruct (_ && _), (negb _).
Qed.

Lemma fold_tools_wp reg secrets ch req used tcs t :
  wp (fold_m (call_tool reg secrets ch req) used tcs) (fun _ tr _ => gated req tr /\ Forall tool_event tr) t.
Proof.
  destruct (emits_fold (gated req) (call_tool reg secrets ch req) tcs (fun a b _ => call_tool_gated _ _ _ _ _ _) used t)
    as (tr & E & H1).
  destruct (emits_fold (Forall tool_event) (call_tool reg secrets ch req) tcs (fun a b _ => call_tool_tool _ _ _ _ _ _) used t)
    as (tr' & E' & H2).
  exists tr. rewrite E in E'. apply app_inv_head in E' as <-. done.
Qed.

Lemma chat_loop_wp st n : forall turn used calls tin tout t,
  wp (chat_loop n st turn used calls tin tout)
     (fun res tr _ => gated (st_req st) tr /\ loop_outcome st n res (chats tr)) t.
Proof.
  induction n as [|n IH]; intros turn used calls tin tout t; simpl.
  { apply wp_ret. split; [apply segment_nil|]. exists []. split; [constructor|]. by left. }
  apply wp_bind. eapply wp_mono; [apply call_model_wp|]. intros res tr1 t1 (pre & ctx & r & post & -> & Hpre & Hpost & Hr).
  assert (Hc : chats (pre ++ EvChat (Model (st_config st)) ctx (st_defs st) r :: post) = [r]).
  { rewrite chats_app, chats_cons.
    by rewrite (chats_none model_event pre), (chats_none model_event post) by (done || by intros ? ? ? ? []). }
  assert (Hg : gated (st_req st) (pre ++ EvChat (Model (st_config st)) ctx (st_defs st) r :: post)).
  { apply gated_no_tool. apply Forall_app_2; [by apply (Forall_impl model_event); [|apply model_no_tool]|].
    apply Forall_cons. split; [by intros []|]. by apply (Forall_impl model_event); [|apply model_no_tool]. }
  generalize dependent (pre ++ EvChat (Model (st_config st)) ctx (st_defs st) r :: post). clear pre post ctx Hpre Hpost.
  intros tr1 Hc Hg. destruct r as [m|e]; subst res.
  2:{ apply wp_ret. rewrite app_nil_r. split; [done|]. rewrite Hc. exists []. split; [constructor|]. right. simpl.
      split; [lia|]. left. by exists e. }
  destruct (decide (m_ToolCalls m = [])) as [Hm|Hm].
  - eapply wp_mono; [apply finish_wp|]. intros res tr2 t2 [H2 ->]. split.
    + apply segment_app; [done|]. apply gated_no_tool. by apply (Forall_impl end_event); [|apply end_no_tool].
    + rewrite chats_app, Hc, (chats_none end_event tr2) by (done || by intros ? ? ? ? []).
      exists []. split; [constructor|]. right. split; [simpl; lia|]. right. by exists m, used.
  - apply wp_bind. eapply wp_mono; [apply fold_tools_wp|]. intros used' tr2 t2 [Hg2 H2].
    eapply wp_mono; [apply IH|]. intros res tr3 t3 [Hg3 H3]. split; [by repeat apply segment_app|].
    rewrite !chats_app, Hc, (chats_none tool_event tr2) by (done || by intros ? ? ? ? []). by apply loop_outcome_cons.
Qed.

(** ** The whole turn *)

Definition is_slot (e : event) : Prop := match e with EvSlotAcquire _ _ | EvSlotRelease _ => True | _ => False end.
Definition free (e : event) : Prop := ~ is_slot e.

Lemma model_free e : model_event e -> free e.
Proof. unfold model_event, free. destruct e; simpl; tauto. Qed.
Lemma end_free e : end_event e -> free e.
Proof. unfold end_event, free. destruct e; simpl; tauto. Qed.
Lemma tool_free e : tool_event e -> free e.
Proof. unfold tool_event, free. destruct e; simpl; tauto. Qed.
Lemma prep_free e : prep_event e -> free e.
Proof. unfold prep_event, free. destruct e; simpl; tauto. Qed.

Lemma call_model_free st turn : emits (Forall free) (call_model st turn).
Proof.
  intros t. eapply wp_mono; [apply call_model_wp|]. intros res tr1 t1 (pre & ctx & r & post & -> & Hpre & Hpost & _).
  apply Forall_app_2; [by apply (Forall_impl model_event); [|apply model_free]|].
  apply Forall_cons. split; [by intros []|]. by apply (Forall_impl model_event); [|apply model_free].
Qed.

Lemma chat_loop_free st n : forall turn used calls tin tout, emits (Forall free) (chat_loop n st turn used calls tin tout).
Proof.
  induction n as [|n IH]; intros turn used calls tin tout; simpl; [emits_step|].
  emits_step; [apply call_model_free|]. emits_step; [|emits_step]. emits_step.
  - eapply emits_weaken; [|apply finish_end]. intros tr Htr. by apply (Forall_impl end_event); [|apply end_free].
  - emits_step; [|apply IH]. apply emits_fold; [apply _|]. intros used' tc _.
    eapply emits_weaken; [|apply call_tool_tool]. intros tr Htr. by apply (Forall_impl tool_event); [|apply tool_free].
Qed.

(** Two facts about the same run. *)
Lemma wp_conj {A} (m : M A) (Q1 Q2 : A -> list event -> Turn -> Prop) t :
  wp m Q1 t -> wp m Q2 t -> wp m (fun a tr t' => Q1 a tr t' /\ Q2 a tr t') t.
Proof. intros (tr1 & E1 & H1) (tr2 & E2 & H2). exists tr1. rewrite E1 in E2. apply app_inv_head in E2 as <-. done. Qed.

(** How a turn that got its slot ends. *)
Definition turn_outcome (r : Runtime) (cfg : AgentConfig) (req : ChatRequest) (res : Result ChatResponse)
    (replies : list (Result Message)) : Prop :=
  (Model cfg ∉ rt_providers r /\ replies = [] /\
     res = Err ("model provider " +:+ quote (Model cfg) +:+ " not found")) \/
  (Model cfg ∈ rt_providers r /\
   exists st, st_config st = cfg /\ st_req st = req /\ loop_outcome st (Z.to_nat (MaxTurns cfg)) res replies).

Lemma prepare_prep `{!SliceSorter newest} r cfg req : emits (Forall prep_event) (prepare r cfg req).
Proof.
  unfold prepare. emits_step; [apply build_prelude_prep|]. emits_step; [apply load_skills_prep|].
  emits_step; [part|]. emits_step; [part|]. apply auto_compact_prep.
Qed.

Lemma chat_turn_wp `{!SliceSorter newest} r cfg sub ch req t :
  wp (chat_turn r cfg sub ch req)
     (fun res tr _ => gated req tr /\ Forall free tr /\ turn_outcome r cfg req res (chats tr)) t.
Proof.
  unfold chat_turn. apply wp_bind. eapply wp_mono; [apply (emits_now (Forall prep_event)); auto|]. intros start tr1 t1 H1.
  apply wp_bind. eapply wp_mono; [apply (emits_publish (Forall prep_event)); auto; apply _|]. intros u tr2 t2 H2.
  assert (Hp : forall tr, Forall prep_event tr -> gated req tr /\ Forall free tr /\ chats tr = []).
  { intros tr H. split_and!.
    - apply gated_no_tool. by apply (Forall_impl prep_event); [|apply prep_no_tool].
    - by apply (Forall_impl prep_event); [|apply prep_free].
    - apply (chats_none prep_event); [|done]. by intros ? ? ? ? []. }
  destruct (decide (Model cfg ∉ rt_providers r)) as [Hm|Hm].
  { apply wp_ret. rewrite app_nil_r. destruct (Hp (tr1 ++ tr2) ltac:(by apply Forall_app_2)) as (Hg & Hf & Hc).
    rewrite Hc. split_and!; [done..|]. by left. }
  apply wp_bind. eapply wp_mono; [apply prepare_prep|]. intros u3 tr3 t3 H3.
  eapply wp_mono; [apply wp_conj; [apply chat_loop_wp|apply chat_loop_free]|].
  intros res tr4 t4 [[Hg Ho] Hf].
  destruct (Hp (tr1 ++ tr2 ++ tr3) ltac:(by repeat apply Forall_app_2)) as (Hg' & Hf' & Hc).
  rewrite !app_assoc, <- (app_assoc tr1). split_and!; [by apply segment_app|by apply Forall_app_2|].
  rewrite chats_app, Hc. right. split; [by apply dec_stable|]. eexists. split_and!; [| |apply Ho]; done.
Qed.

(** What may come before a slot is asked for. *)
Definition guard_event (e : event) : Prop :=
  background_event e \/ match e with EvQuotaCheck _ _ _ _ => True | _ => False end.
Lemma guard_one e : background_event e -> Forall guard_event [e].
Proof. apply one_event. by left. Qed.
Hint Resolve guard_one : core.

Lemma guard_quiet tr : Forall guard_event tr -> Forall (fun e => ~ is_tool e) tr /\ Forall free tr /\ chats tr = [].
Proof.
  intros H. split_and!.
  - eapply Forall_impl; [apply H|]. intros e. unfold guard_event. destruct e; simpl; tauto.
  - eapply Forall_impl; [apply H|]. intros e. unfold guard_event, free. destruct e; simpl; tauto.
  - apply (chats_none guard_event); [|done]. by intros ? ? ? ? [].
Qed.

Lemma rate_limit_guard key limit : emits (Forall guard_event) (checkAgentRateLimit key limit).
Proof. unfold checkAgentRateLimit. part. Qed.

(** Neither a slot nor what a slot is for: a call of the model or a run of a tool. *)
Definition idle (e : event) : Prop :=
  match e with EvSlotAcquire _ _ | EvSlotRelease _ | EvChat _ _ _ _ | EvTool _ _ _ _ => False | _ => True end.
Lemma guard_idle tr : Forall guard_event tr -> Forall idle tr.
Proof. intros H. eapply Forall_impl; [apply H|]. intros e. unfold guard_event. destruct e; simpl; tauto. Qed.

Definition slot_granted (a : reply Quota.SlotResponse) : bool :=
  match a with Replied sr => Quota.s_Allowed sr | _ => true end.
(** What gives back the slot a reply stands for: a reply that is none stands for no slot. *)
Definition slot_back (a : reply Quota.SlotResponse) : list event :=
  match a with Replied sr => [EvSlotRelease (Quota.s_SlotID sr)] | _ => [] end.
(** Idle throughout; or idle until a slot is refused, which is the end; or idle until one is granted, which is held, with no
    other slot asked for or given back, until it is given back, which is the end. *)
Definition slot_bracket (req : ChatRequest) (tr : list event) : Prop :=
  Forall idle tr \/
  exists pre a, Forall idle pre /\
    (slot_granted a = false /\ tr = pre ++ [EvSlotAcquire (rq_Tenant req) a] \/
     slot_granted a = true /\ exists mid, Forall free mid /\ tr = pre ++ EvSlotAcquire (rq_Tenant req) a :: mid ++ slot_back a).

(** How a turn past the personality command ends. *)
Definition guarded_outcome (r : Runtime) (cfg : AgentConfig) (req : ChatRequest) (res : Result ChatResponse)
    (replies : list (Result Message)) : Prop :=
  (replies = [] /\ res = Err ("rate limit exceeded: " +:+ itoa (RateLimit cfg) +:+ " requests/minute for agent")) \/
  (replies = [] /\ exists reason,
     res = Ok {| rs_Agent := rq_Agent req; rs_Content := "quota exceeded: " +:+ reason; rs_ToolsUsed := [] |}) \/
  turn_outcome r cfg req res replies.

Definition refused (tr : list event) : Prop :=
  exists tenant sr, EvSlotAcquire tenant (Replied sr) ∈ tr /\ Quota.s_Allowed sr = false.

(** What is proved of a turn. *)
Definition turn_facts (r : Runtime) (cfg : AgentConfig) (req : ChatRequest) (res : Result ChatResponse) (tr : list event) : Prop :=
  gated req tr /\ slot_bracket req tr /\ (refused tr -> chats tr = [] /\ Forall (fun e => ~ is_tool e) tr) /\
  guarded_outcome r cfg req res (chats tr).

Lemma facts_quiet r cfg req res tr : Forall guard_event tr ->
  guarded_outcome r cfg req res [] -> turn_facts r cfg req res tr.
Proof.
  intros Htr Ho. destruct (guard_quiet tr Htr) as (Ht & Hf & Hc). unfold turn_facts. rewrite Hc.
  split_and!; [by apply gated_no_tool|left; by apply guard_idle|done|done].
Qed.

(** With the slot's reply [a]: the rest of the turn, and the release when a slot was granted. *)
Lemma facts_turn r cfg req res tr1 a tr2 : Forall guard_event tr1 ->
  gated req tr2 -> Forall free tr2 -> turn_outcome r cfg req res (chats tr2) ->
  match a with Replied sr => Quota.s_Allowed sr = true | _ => True end ->
  turn_facts r cfg req res
    (tr1 ++ EvSlotAcquire (rq_Tenant req) a :: tr2 ++
     match a with Replied sr => [EvSlotRelease (Quota.s_SlotID sr)] | _ => [] end).
Proof.
  intros Htr Hg Hf Ho Ha. destruct (guard_quiet tr1 Htr) as (Ht1 & Hf1 & Hc1).
  set (rel := match a with Replied sr => [EvSlotRelease (Quota.s_SlotID sr)] | _ => [] end).
  assert (Hrel : Forall (fun e => ~ is_tool e) rel /\ chats rel = []).
  { unfold rel. destruct a; split; try done; repeat constructor; by intros []. }
  split_and!.
  - apply segment_app; [by apply gated_no_tool|].
    apply (segment_app (P:=gated req) [_]); [apply gated_no_tool, Forall_singleton; by intros []|].
    apply segment_app; [done|]. by apply gated_no_tool, Hrel.
  - right. exists tr1, a. split; [by apply guard_idle|]. right. split; [by destruct a|]. by exists tr2.
  - intros (tenant & sr & Hin & Hd). exfalso. rewrite elem_of_app, elem_of_cons, elem_of_app in Hin.
    destruct Hin as [Hin|[Hin|[Hin|Hin]]].
    + rewrite Forall_forall in Hf1. by apply (Hf1 _ Hin).
    + injection Hin as -> <-. congruence.
    + rewrite Forall_forall in Hf. by apply (Hf _ Hin).
    + subst rel. destruct a; set_solver.
  - rewrite chats_app, Hc1. simpl. change (chats (EvSlotAcquire (rq_Tenant req) a :: tr2 ++ rel)) with (chats (tr2 ++ rel)).
    rewrite chats_app, (proj2 Hrel), app_nil_r. by right; right.
Qed.

Lemma rate_limit_error key limit t :
  wp (checkAgentRateLimit key limit)
     (fun res _ _ => forall e, res = Some e -> e = "rate limit exceeded: " +:+ itoa limit +:+ " requests/minute for agent") t.
Proof.
  destruct (rate_limit_guard key limit t) as (tr & E & _). exists tr. split; [done|].
  unfold checkAgentRateLimit. destruct (decide (limit <= 0)%Z); [done|].
  unfold bind, get, now, ask, ret, update. destruct (limiters t !! key); simpl;
    destruct (After _ _); simpl; destruct (decide _); simpl; by intros e [= <-].
Qed.

(** From the request for a slot on, after [pre]. *)
Lemma acquire_and_turn_wp `{!SliceSorter newest} r cfg sub ch req pre t : Forall guard_event pre ->
  wp (slot <- quotaAcquireSlot (rq_Tenant req);; (let '(release, ok, reason) := slot in
       if negb ok then ret (Ok {| rs_Agent := rq_Agent req; rs_Content := "quota exceeded: " +:+ reason; rs_ToolsUsed := [] |})
       else res <- chat_turn r cfg sub ch req;; release;;; ret res))
     (fun res tr _ => turn_facts r cfg req res (pre ++ tr)) t.
Proof.
  intros Hpre. apply wp_bind. unfold quotaAcquireSlot. apply wp_bind, wp_ask. intros a. simpl.
  destruct a as [sr| |e]; [destruct (Quota.s_Allowed sr) eqn:Ea|..]; apply wp_ret; simpl.
  2:{ apply wp_ret. destruct (guard_quiet pre Hpre) as (Ht & Hf & Hc).
      split_and!.
      - apply gated_no_tool, Forall_app_2; [done|]. repeat constructor; by intros [].
      - right. exists pre, (Replied sr). split; [by apply guard_idle|]. by left.
      - intros _. rewrite chats_app, Hc. split; [done|]. apply Forall_app_2; [done|]. repeat constructor; by intros [].
      - rewrite chats_app, Hc. right. left. split; [done|]. by eexists. }
  all: apply wp_bind; (eapply wp_mono; [apply chat_turn_wp|]); intros res tr2 t2 (Hg & Hf & Ho); apply wp_bind.
  - apply wp_emit, wp_ret. apply (facts_turn r cfg req res pre (Replied sr) tr2); done.
  - apply wp_ret, wp_ret. apply (facts_turn r cfg req res pre OtherPayload tr2); done.
  - apply wp_ret, wp_ret. apply (facts_turn r cfg req res pre (Failed e) tr2); done.
Qed.

Lemma guarded_turn_wp `{!SliceSorter newest} r key cfg sub ch req t :
  wp (guarded_turn r key cfg sub ch req) (fun res tr _ => turn_facts r cfg req res tr) t.
Proof.
  unfold guarded_turn. apply wp_bind.
  eapply wp_mono; [apply wp_conj; [apply rate_limit_guard|apply rate_limit_error]|]. intros limited tr1 t1 [H1 He].
  destruct limited as [e|].
  { apply wp_ret. rewrite app_nil_r. apply facts_quiet; [done|]. left. split; [done|]. by rewrite (He e). }
  apply wp_bind. unfold quotaCheck. apply wp_bind, wp_ask. intros qr. simpl.
  assert (Hgo : forall ok reason t2, wp (ret (ok, reason)) (fun (a : bool * string) tr2 => wp
    (if negb a.1 then ret (Ok {| rs_Agent := rq_Agent req; rs_Content := "quota exceeded: " +:+ a.2; rs_ToolsUsed := [] |})
     else slot <- quotaAcquireSlot (rq_Tenant req);; (let '(release, ok, reason) := slot in
       if negb ok then ret (Ok {| rs_Agent := rq_Agent req; rs_Content := "quota exceeded: " +:+ reason; rs_ToolsUsed := [] |})
       else res <- chat_turn r cfg sub ch req;; release;;; ret res))
    (fun res tr3 _ => turn_facts r cfg req res (tr1 ++ (EvQuotaCheck (rq_Tenant req) "rate" 1 qr :: tr2) ++ tr3))) t2).
  { intros ok reason t2. apply wp_ret. simpl. destruct ok; simpl.
    - set (pre := tr1 ++ [EvQuotaCheck (rq_Tenant req) "rate" 1 qr]).
      assert (Hpre : Forall guard_event pre) by (apply Forall_app_2; auto).
      eapply wp_mono; [apply (acquire_and_turn_wp r cfg sub ch req pre); done|]. intros res tr3 t3.
      unfold pre. by rewrite <- app_assoc.
    - apply wp_ret. apply facts_quiet; [apply Forall_app_2; auto|]. right. left. split; [done|]. by exists reason. }
  destruct qr as [cr| |e]; [destruct (Quota.Allowed cr)|..]; apply Hgo.
Qed.

Lemma personality_guard req name : emits (Forall guard_event) (personality_command req name).
Proof.
  unfold personality_command. emits_step; [part|]. intros t. exists []. rewrite app_nil_r.
  destruct (personas t); [|done]. destruct (decide _); [done|]. by destruct (Select _ _ _ _ _ _).
Qed.

(** The personality command in a message, when personalities are attached. *)
Definition command (req : ChatRequest) (r : Runtime) : option string :=
  if personalityStore r is None then None else ParsePersonalityCommand (rq_Message req).

(** What is proved of the handler, from its answer and its trace. *)
Definition chat_facts (req : ChatRequest) (r : Runtime) (res : Result ChatResponse) (tr : list event) : Prop :=
  match agents r !! agent_key (rq_Tenant req) (rq_Agent req) with
  | None => tr = [] /\ res = Err (not_found (rq_Tenant req) (rq_Agent req))
  | Some inst =>
      match command req r with
      | Some _ => Forall guard_event tr
      | None => turn_facts r (config inst) req res tr
      end
  end.

Lemma handleChat_facts `{!SliceSorter newest} source traceID req r :
  chat_facts req r (handleChat source traceID req r).2 (handleChat source traceID req r).1.2.
Proof.
  unfold chat_facts, handleChat. destruct (agents r !! _) as [inst|]; [|done].
  fold (command req r). set (t0 := Build_Turn _ _ _ _ _).
  destruct (command req r) as [name|].
  - destruct (personality_guard req name t0) as (tr & E & H). destruct (personality_command req name t0) as [res t].
    simpl in *. by rewrite E.
  - set (sub := bool_decide _). set (ch := if decide _ then _ else _). set (key := agent_key _ _).
    destruct (guarded_turn_wp r key (config inst) sub ch req t0) as (tr & E & H).
    destruct (guarded_turn r key (config inst) sub ch req t0) as [res t]. simpl in *. by rewrite E.
Qed.

(** C2 [safety]: no tool runs past the policy.  Whatever the model asks for and whatever the
    other modules answer, every run of a tool during a chat turn comes after a policy check for
    this tenant, user, agent and tool with no other check in between; and that check was answered
    with a decision that is neither "deny" nor "require_approval", or nobody handles policy checks,
    or it was answered with "require_approval", the approval was submitted for this call, and the
    status of that very approval came back as "approved".  A denial, any other error of the policy
    module, a reply of the wrong type, a pending, denied or expired approval or the timeout never
    lead to a run.  A decision that is none of the three constants does (a finding); when the checks
    are answered by an initialised policy engine, whatever was reloaded since, there is none, and
    the decision was "allow". *)
Theorem tool_gated `{!SliceSorter newest} `{!SliceSorter Policy.by_priority} source traceID req r :
  let tr := (handleChat source traceID req r).1.2 in
  gated_by not_held req tr /\ (engine_answers tr -> gated_by (eq Policy.Allow) req tr).
Proof.
  intros tr. assert (Hg : gated req tr); [|split; [done|by apply gated_engine]].
  pose proof (handleChat_facts source traceID req r) as H. unfold chat_facts in H. fold tr in H.
  destruct (agents r !! _) as [inst|]; [|destruct H as [-> _]; apply segment_nil].
  destruct (command req r); [|by apply H]. by apply gated_no_tool, guard_quiet.
Qed.

(** C6 [invariant]: a chat turn works inside a quota slot and gives it back.  Either the turn calls
    no model, runs no tool and has nothing to do with slots; or it does none of that until it asks for
    a slot of its tenant, and then, when the slot is refused, nothing more happens; and when it is
    granted (or nobody who answers slots properly is there, and it goes on without one), every call of
    the model and every run of a tool comes after, no other slot is asked for or given back meanwhile,
    and giving back that very slot is the last thing the turn does, on every outcome. *)
Theorem slot_released `{!SliceSorter newest} source traceID req r : slot_bracket req (handleChat source traceID req r).1.2.
Proof.
  pose proof (handleChat_facts source traceID req r) as H. unfold chat_facts in H.
  destruct (agents r !! _) as [inst|]; [|destruct H as [-> _]; by left].
  destruct (command req r); [|by apply H]. left. by apply guard_idle.
Qed.

(** C7 [functional]: how a chat request ends, on every branch.  An unknown agent is an error
    and nothing is done.  A personality command calls no model.  Otherwise the rate limit and
    the quotas may end it before any model call; an unregistered provider is an error; and a
    turn calls the model at most MaxTurns times: every reply but the last asked for tools, and
    it ends with the model's first error, or, when MaxTurns replies all asked for tools, with
    the error that says so, or with the first reply that asks for no tool, whose text is
    returned masked and redacted. *)
Theorem chat_outcome `{!SliceSorter newest} source traceID req r :
  let '(_, tr, res) := handleChat source traceID req r in
  match agents r !! agent_key (rq_Tenant req) (rq_Agent req) with
  | None => tr = [] /\ res = Err (not_found (rq_Tenant req) (rq_Agent req))
  | Some inst =>
      match command req r with
      | Some _ => chats tr = []
      | None => guarded_outcome r (config inst) req res (chats tr)
      end
  end.
Proof.
  pose proof (handleChat_facts source traceID req r) as H. unfold chat_facts in H.
  destruct (handleChat source traceID req r) as [[r' tr] res]. simpl in H.
  destruct (agents r !! _) as [inst|]; [|done]. destruct (command req r); [|apply H]. by apply guard_quiet.
Qed.

(** No access token the filters know of leaves in a reply: when a chat turn that
    called the model answers with a text, no AWS key id, Slack token, GitHub token, JWT or
    Cyntr key occurs in it, whatever the model wrote. *)
Lemma replies_hold_no_token `{!SliceSorter newest} source traceID req r :
  let '(_, tr, res) := handleChat source traceID req r in
  match res with
  | Ok reply => chats tr = [] \/ Forall (fun pat => free_of pat (rs_Content reply)) tokenPatterns
  | Err _ => True
  end.
Proof.
  pose proof (handleChat_facts source traceID req r) as H. unfold chat_facts in H.
  destruct (handleChat source traceID req r) as [[r' tr] res]. simpl in H. destruct res as [reply|]; [|done].
  destruct (agents r !! _) as [inst|]; [|by destruct H].
  destruct (command req r); [left; by apply guard_quiet|].
  destruct H as (_ & _ & _ & [[? _]|[[? _]|[(_ & ? & _)|(_ & st & _ & _ & asked & _ & Ho)]]]); [by left..|]. right.
  destruct Ho as [(_ & _ & ?)|(_ & [(e & _ & ?)|(m & used & _ & _ & [= ->])])]; [done..|]. simpl.
  apply Forall_forall. intros pat Hp. apply RedactPII_keeps_free; [done|]. by apply MaskSecrets_free.
Qed.
End Gate.

(** ** A turn behind the demonstration policy *)

#[local] Instance gate_codec : Codec := {|
  marshal_config := Name; unmarshal_config := fun s => ({|
     Name := s; Tenant := "acme"; Model := "m"; SystemPrompt := ""; Tools := []; MaxTurns := 3;
     MaxHistory := 0; SummarizeThreshold := 0; Secrets := ∅; RateLimit := 0; Skills := []; MCPServers := [];
     AutoMemory := false; Sandbox := {| sb_Mode := ""; sb_Backend := "" |} |}, None);
  marshal_calls := fun _ => "null"; unmarshal_calls := fun _ => [];
  marshal_results := fun _ => "null"; unmarshal_results := fun _ => [];
  fts_match := fun _ _ => false;
|}.
Definition gate_engine : Policy.Engine :=
  (@Policy.Init Policy.rule_sorter (Ok Policy.demo_cfg) (Ok None) {| Policy.ruleSet := None; Policy.rego := None |}).1.
Definition gate_call (id tool : string) : ToolCall := {| tc_ID := id; tc_Name := tool; tc_Input := ∅ |}.
(** The model asks for a mail and for a shell, then says it is done. *)
Definition gate_world : World := {|
  w_codec := gate_codec; w_now := fun tr => Z.of_nat (length tr); w_zone := 0; w_ToLower := fun s => s;
  w_order := fun m => map_to_list m; w_patterns := []; w_context_files := fun _ _ => "";
  w_fault := fun _ => None; w_fts := fun _ => true; w_seed := fun _ => [];
  w_quota_check := fun _ _ _ _ => Failed Ipc.ErrNoHandler; w_slot := fun _ _ => Failed Ipc.ErrNoHandler;
  w_profile := fun _ _ _ => Failed Ipc.ErrNoHandler; w_skills := fun _ _ => Failed Ipc.ErrNoHandler;
  w_chat := fun tr _ _ _ =>
    if existsb (fun e => match e with EvTool _ _ _ _ => true | _ => false end) tr
    then Ok (text_message RoleAssistant "done")
    else Ok {| m_Role := RoleAssistant; m_Content := ""; m_ToolCalls := [gate_call "1" "mail"; gate_call "2" "shell"];
               m_ToolResults := []; m_Attachments := []; m_InputTokens := 0; m_OutputTokens := 0 |};
  w_policy := fun _ q => match Policy.handleCheck gate_engine (Policy.PCheckRequest q) with
                         | Ok (Policy.PCheckResponse cr) => Replied cr
                         | Ok _ => OtherPayload
                         | Err e => Failed e
                         end;
  w_submit := fun _ _ _ _ _ => Failed Ipc.ErrNoHandler; w_status := fun _ _ => Failed Ipc.ErrNoHandler;
  w_expired := fun _ => false; w_tool := fun _ _ _ _ => Ok "sent";
|}.
#[local] Instance gate_sorter : SliceSorter newest := merge_sorter newest.
Definition gate_runtime : Runtime :=
  let def n := {| d_Name := n; d_Description := ""; d_Parameters := ∅ |} in
  SetToolRegistry (AgentSession.Register (def "mail") (AgentSession.Register (def "shell") NewToolRegistry))
    (RegisterProvider "m" (@handleCreate gate_world (fun _ => None) 0 (@unmarshal_config gate_codec "g").1 NewRuntime).1).
Definition gate_request : ChatRequest :=
  {| rq_Agent := "g"; rq_Tenant := "acme"; rq_User := "ann"; rq_Message := "hello"; rq_Channel := ""; rq_ChannelID := "" |}.
Definition gate_trace : list event := (@handleChat gate_world gate_sorter "web" "" gate_request gate_runtime).1.2.
Definition checks (tr : list event) : list (Policy.CheckRequest * reply Policy.CheckResponse) :=
  omap (fun e => match e with EvPolicyCheck q r => Some (q, r) | _ => None end) tr.
Definition tool_runs (tr : list event) : list string :=
  omap (fun e => match e with EvTool _ n _ _ => Some n | _ => None end) tr.
(** The mail is sent; the shell is not run. *)
Lemma tool_gated_witness :
  @engine_answers Policy.rule_sorter gate_trace /\ tool_runs gate_trace = ["mail"] /\ gated_by (eq Policy.Allow) gate_request gate_trace.
Proof.
  assert (He : @engine_answers Policy.rule_sorter gate_trace).
  { intros q cr H. exists gate_engine. split.
    - exists (Ok Policy.demo_cfg), (Ok None), {| Policy.ruleSet := None; Policy.rego := None |}, gate_engine, []. split; reflexivity.
    - assert (Hc : (q, Replied cr) ∈ checks gate_trace) by (apply list_elem_of_omap; exists (EvPolicyCheck q (Replied cr)); by split).
      assert (Hall : Forall (fun c => match c.2 with
        | Replied cr => Policy.handleCheck gate_engine (Policy.PCheckRequest c.1) = Ok (Policy.PCheckResponse cr) | _ => True end) (checks gate_trace))
        by (vm_compute; repeat constructor).
      rewrite Forall_forall in Hall. exact (Hall _ Hc). }
  split; [exact He|]. split; [vm_compute; reflexivity|].
  destruct (@tool_gated gate_world gate_sorter Policy.rule_sorter "web" "" gate_request gate_runtime) as [_ H]. exact (H He).
Defined.
