(* ===== verification/AgentAccess.v ===== *)
(** * AgentAccess: who may see and change what

    Tenancy and ownership in the handlers of [AgentRuntime]: sessions of other tenants, memories
    of other users, memories of other owners. *)
From S2P Require Import Prelude Calendar GoStr Utf8 Regexp Redact AgentSession AgentStore AgentMemory Personality AgentTurn AgentRuntime.
From S2P Require Ipc Policy Quota.

#[local] Arguments substr : simpl never.
#[local] Arguments has_prefix : simpl never.
#[local] Arguments session_key : simpl never.
#[local] Arguments session_prefix : simpl never.

(** ** Sessions of other tenants *)
Section Access.
Context `{W : World} `{!SliceSorter newest}.

(** C27 [safety]: when no tenant's name has an underscore, a tenant reads no other tenant's
    sessions, whatever the store holds: asked for the messages of a session of another tenant's
    agent the handler answers with an error; a search returns none of its messages; and the
    list of sessions of an agent has none of its sessions. *)
Theorem sessions_isolated f params r tenant' name :
  no_underscore (param "tenant" params) -> no_underscore tenant' -> param "tenant" params <> tenant' ->
  (param "sid" params = session_key tenant' name -> is_Ok (handleSessionMessages f params r) = false) /\
  (forall l, handleSearch f params r = Ok l -> session_key tenant' name ∉ sr_SessionID <$> l) /\
  (forall l, handleSessions f params r = Ok l -> session_key tenant' name ∉ l).
Proof.
  intros Ht Ht' Hne.
  assert (Hp : has_prefix (session_prefix (param "tenant" params)) (session_key tenant' name) = false).
  { apply not_true_iff_false. intros Hp. by apply Hne, (session_prefix_tenant _ _ name). }
  split_and!.
  - intros Hsid. unfold handleSessionMessages. rewrite Hsid, Hp. destruct (decide _); [done|]. by destruct (store r).
  - intros l. unfold handleSearch, SearchMessages. destruct (decide _); [done|]. destruct (store r) as [st|]; [|intros [= <-]; apply not_elem_of_nil].
    unfold query. destruct (f 0); [done|]. intros [= <-].
    rewrite <- list_fmap_compose. intros (row & Hs & Hin)%list_elem_of_fmap.
    apply elem_of_take in Hin as (i & Hin & _). apply list_elem_of_lookup_2, list_elem_of_In, in_rev, list_elem_of_In, list_elem_of_filter in Hin as [[_ Hsub] _].
    apply not_true_iff_false in Hp. apply Hp. rewrite <- Hsub, Hs. apply (substr_prefix _ (session_id row)).
  - intros l. unfold handleSessions. destruct (store r) as [st|]; [|intros [= <-]; apply not_elem_of_nil].
    destruct (ListSessions _ st); [|done]. intros [= <-] [Hin _]%list_elem_of_filter.
    apply not_true_iff_false in Hp. apply Hp. apply has_prefix_spec in Hin as [t E]. apply has_prefix_spec.
    exists (param "name" params +:+ t). etrans; [exact E|]. apply str_app_assoc.
Qed.

(** ** Memories of other users *)

Definition no_char (c : ascii) (s : string) : Prop := contains_byte c s = false.
Lemma no_char_cons c d s : no_char c (String d s) <-> d <> c /\ no_char c s.
Proof.
  unfold no_char, contains_byte. simpl. destruct (decide (d = c)) as [->|H]; [naive_solver|].
  destruct (cut c s) as [[??]|]; naive_solver.
Qed.
Lemma no_char_app c s t : no_char c s -> no_char c t -> no_char c (s +:+ t).
Proof.
  intros Hs Ht. induction s as [|d s IH]; [done|]. rewrite str_app_cons. apply no_char_cons in Hs as [? ?].
  apply no_char_cons. auto.
Qed.

Lemma find_byte_None c s : GoStr.find (String c "") s = None -> no_char c s.
Proof.
  induction s as [|d s IH]; [done|]. cbn [GoStr.find]. unfold has_prefix; fold has_prefix.
  destruct (bool_decide (c = d)) eqn:E; simpl; [done|]. intros H. apply no_char_cons.
  apply bool_decide_eq_false in E. split; [congruence|]. apply IH. by destruct (GoStr.find (String c "") s) as [[??]|].
Qed.
Lemma find_byte_Some c s a b : GoStr.find (String c "") s = Some (a, b) -> no_char c a.
Proof.
  revert a. induction s as [|d s IH]; intros a; cbn [GoStr.find]; unfold has_prefix; fold has_prefix; [done|].
  destruct (bool_decide (c = d)) eqn:E; simpl; [by intros [= <- _]|]. apply bool_decide_eq_false in E.
  intros ([a' b'] & Hf & [= <- <-])%bind_Some. apply no_char_cons. split; [congruence|]. by eapply IH.
Qed.
(** Replacing a byte by a text without it leaves none. *)
Lemma replace_byte_none c new s : no_char c new -> no_char c (ReplaceAll s (String c "") new).
Proof.
  intros Hn. unfold ReplaceAll. remember (String.length s) as n eqn:Hl. assert (Hle : String.length s <= n) by lia. clear Hl.
  revert s Hle. induction n as [|n IH]; intros s Hle; cbn [replace_loop].
  - by destruct s; [|simpl in Hle; lia].
  - destruct (GoStr.find (String c "") s) as [[a b]|] eqn:E; [|by apply find_byte_None].
    apply no_char_app; [by eapply find_byte_Some|]. apply no_char_app; [done|]. apply IH.
    apply find_spec in E. subst s. rewrite !str_length_app in Hle. simpl in Hle. lia.
Qed.

Lemma sanitized user : no_char ":" (sanitizeMemoryUser user).
Proof. by apply replace_byte_none. Qed.

(** Two names without colons, each followed by a colon. *)
Lemma colon_split u v s t : no_char ":" u -> no_char ":" v -> u +:+ ":" +:+ s = v +:+ ":" +:+ t -> u = v.
Proof.
  revert v. induction u as [|c u IH]; intros [|c' v] H H' E; [done|..].
  - injection E as <- _. by apply no_char_cons in H' as [? _].
  - injection E as -> _. by apply no_char_cons in H as [? _].
  - injection E as -> E. apply no_char_cons in H as [_ H], H' as [_ H']. f_equal. by eapply IH.
Qed.

(** Which memories a user's turn is given.  A memory that was extracted from a
    turn of user v, whatever the question, is shown to user u exactly when the two names agree
    once colons are replaced by underscores; so for names without colons the memories of one
    user are never given to another, and every user gets their own. *)
Lemma auto_memory_visibility u v question m :
  mem_Key m = autoMemoryKey v question ->
  visible_to u m = true <-> sanitizeMemoryUser u = sanitizeMemoryUser v.
Proof.
  intros Hk. unfold visible_to. rewrite Hk. unfold autoMemoryKey.
  assert (Hauto : has_prefix autoMemoryPrefix (autoMemoryPrefix +:+ sanitizeMemoryUser v +:+ ":" +:+ truncate question 50) = true)
    by (apply has_prefix_spec; eauto).
  rewrite Hauto. simpl. split.
  - intros [t E]%has_prefix_spec. unfold autoMemoryPrefix in E. rewrite !str_app_cons in E. injection E as E.
    change (sanitizeMemoryUser v +:+ ":" +:+ truncate question 50 = (sanitizeMemoryUser u +:+ ":") +:+ t) in E.
    rewrite str_app_assoc in E. symmetry. by apply (colon_split _ _ _ _ (sanitized v) (sanitized u) E).
  - intros ->. apply has_prefix_spec. exists (truncate question 50). unfold autoMemoryPrefix. by rewrite !str_app_assoc.
Qed.

(** A question of "ann" is not shown to "bob"; one of "a:b" is shown to "a_b". *)
Lemma auto_memory_visibility_witness :
  let m v := {| mem_ID := "mem_1"; mem_Agent := "g"; mem_Tenant := "t"; mem_Key := autoMemoryKey v "my salary?";
                mem_Content := "5000"; mem_CreatedAt := 0; mem_UpdatedAt := 0 |} in
  visible_to "bob" (m "ann") <> true /\ visible_to "a_b" (m "a:b") = true.
Proof.
  intros m. split.
  - intros H. apply (auto_memory_visibility "bob" "ann" "my salary?" (m "ann")) in H; [|reflexivity]. vm_compute in H. discriminate H.
  - apply (auto_memory_visibility "a_b" "a:b" "my salary?" (m "a:b")); [reflexivity|]. vm_compute. reflexivity.
Defined.

(** ** Memories of other owners *)

(** Every row is under its own id. *)
Definition keyed (ms : MemoryStore) : Prop := map_Forall (fun id m => mem_ID m = id) (memories_ ms).

Lemma SetMemoryStore_same r ms : memoryStore r = Some ms -> SetMemoryStore (Some ms) r = r.
Proof. destruct r. simpl. by intros ->. Qed.

(** A memory is deleted by its owner only.  Whatever id a caller presents, the
    handler either answers "deleted", and then the memory of that id belonged to the tenant and
    agent the caller was authenticated as and it alone is gone, or it answers with an error and
    nothing has changed. *)
Lemma memory_delete_owned f params r ms :
  memoryStore r = Some ms -> keyed ms ->
  let '(r', res) := handleMemoryDelete f params r in
  match res with
  | Ok _ => exists m, memories_ ms !! param "id" params = Some m /\
      mem_Tenant m = param "tenant" params /\ mem_Agent m = param "agent" params /\
      r' = SetMemoryStore (Some {| memories_ := delete (param "id" params) (memories_ ms) |}) r
  | Err _ => r' = r
  end.
Proof.
  intros Hms Hk. unfold handleMemoryDelete. rewrite Hms. destruct (decide _); [done|]. unfold Recall, query.
  destruct (f 0); [done|]. destruct (decide _) as [Hin|]; [|done].
  unfold Delete, exec. destruct (f 1); [by apply SetMemoryStore_same|].
  apply list_elem_of_fmap in Hin as (m & Hid & Hin). unfold select in Hin. rewrite sortSlice_perm in Hin.
  apply list_elem_of_filter in Hin as [[Ha Ht] Hin]. apply list_elem_of_fmap in Hin as ([id m'] & -> & Hin).
  apply elem_of_map_to_list in Hin. pose proof (Hk _ _ Hin) as Hid'. simpl in *. subst id.
  exists m'. by rewrite Hid.
Qed.

(** What saving a memory under a given id does.  A complete memory is stored
    with its text masked and redacted; when the id is new, as it was given; when a memory with
    that id exists, whoever owns it, its text is replaced and its owner, key and creation time
    stay.  So, unlike a deletion, a save does not check who owns the id: a tenant that names
    the id of another tenant's memory changes what that tenant's agent is told. *)
Lemma memory_save_spec f now stamp m r ms :
  memoryStore r = Some ms -> f 0 = None -> mem_ID m <> "" -> mem_Tenant m <> "" -> mem_Agent m <> "" ->
  mem_Content m <> "" -> mem_Key m <> "" ->
  let row :=
    match memories_ ms !! mem_ID m with
    | Some old =>
        {| mem_ID := mem_ID m; mem_Agent := mem_Agent old; mem_Tenant := mem_Tenant old; mem_Key := mem_Key old;
           mem_Content := RedactPII (mask (mem_Content m)); mem_CreatedAt := mem_CreatedAt old; mem_UpdatedAt := seconds now |}
    | None =>
        {| mem_ID := mem_ID m; mem_Agent := mem_Agent m; mem_Tenant := mem_Tenant m; mem_Key := mem_Key m;
           mem_Content := RedactPII (mask (mem_Content m)); mem_CreatedAt := seconds now; mem_UpdatedAt := seconds now |}
    end in
  handleMemorySave f now stamp m r =
    (SetMemoryStore (Some {| memories_ := <[mem_ID m := row]> (memories_ ms) |}) r, Ok "ok").
Proof.
  intros Hms Hf Hid Ht Ha Hc Hk row. unfold handleMemorySave. rewrite Hms, decide_False by tauto.
  cbn [mem_Key with_content]. rewrite decide_False by done. unfold Save, exec. cbn [mem_ID with_content].
  rewrite decide_False by done. rewrite Hf. subst row. by destruct (memories_ ms !! mem_ID m).
Qed.
End Access.

(** ** A world to run in *)

Definition demo_config (name : string) : AgentConfig :=
  {| Name := name; Tenant := "t"; Model := "m"; SystemPrompt := "You help."; Tools := []; MaxTurns := 3;
     MaxHistory := 0; SummarizeThreshold := 0; Secrets := ∅; RateLimit := 0; Skills := []; MCPServers := [];
     AutoMemory := true; Sandbox := {| sb_Mode := ""; sb_Backend := "" |} |}.

#[local] Instance demo_codec : Codec := {|
  marshal_config := Name; unmarshal_config := fun s => (demo_config s, None);
  marshal_calls := fun _ => "null"; unmarshal_calls := fun _ => [];
  marshal_results := fun _ => "null"; unmarshal_results := fun _ => [];
  fts_match := fun q s => Contains s q;
|}.

(** No other module is there; the model answers "ok". *)
#[local] Instance demo_world : World := {|
  w_codec := demo_codec; w_now := fun tr => Z.of_nat (length tr); w_zone := 0; w_ToLower := fun s => s;
  w_order := fun m => map_to_list m; w_patterns := []; w_context_files := fun _ _ => "";
  w_fault := fun _ => None; w_fts := fun _ => true; w_seed := fun _ => [];
  w_quota_check := fun _ _ _ _ => Failed Ipc.ErrNoHandler; w_slot := fun _ _ => Failed Ipc.ErrNoHandler;
  w_profile := fun _ _ _ => Failed Ipc.ErrNoHandler; w_skills := fun _ _ => Failed Ipc.ErrNoHandler;
  w_chat := fun _ _ _ _ => Ok (text_message RoleAssistant "ok"); w_policy := fun _ _ => Failed Ipc.ErrNoHandler;
  w_submit := fun _ _ _ _ _ => Failed Ipc.ErrNoHandler; w_status := fun _ _ => Failed Ipc.ErrNoHandler;
  w_expired := fun _ => false; w_tool := fun _ _ _ _ => Ok "";
|}.
#[local] Instance demo_sorter : SliceSorter newest := merge_sorter newest.

Definition demo_memory (id tenant user content : string) : Memory :=
  {| mem_ID := id; mem_Agent := "g"; mem_Tenant := tenant; mem_Key := autoMemoryKey user "salary?";
     mem_Content := content; mem_CreatedAt := 0; mem_UpdatedAt := 0 |}.
Definition demo_store : MemoryStore := {| memories_ := {[ "mem_1" := demo_memory "mem_1" "t" "ann" "ann earns 5000" ]} |}.
Definition demo_runtime : Runtime :=
  RegisterProvider "m" (SetMemoryStore (Some demo_store) (handleCreate (fun _ => None) 0 (demo_config "g") NewRuntime).1).
Definition demo_request (user : string) : ChatRequest :=
  {| rq_Agent := "g"; rq_Tenant := "t"; rq_User := user; rq_Message := "hello"; rq_Channel := ""; rq_ChannelID := "" |}.

(** The texts the model was given as system messages. *)
Definition system_texts (tr : list event) : list string :=
  tr ≫= fun e => match e with
                 | EvChat _ ctx _ _ => m_Content <$> filter (fun m => m_Role m = RoleSystem) ctx
                 | _ => []
                 end.

Lemma list_exist_bool {A} (p : A -> bool) l : existsb p l = true -> Exists (fun x => p x = true) l.
Proof. intros (x & Hin & Hp)%existsb_exists. apply Exists_exists. exists x. by rewrite list_elem_of_In. Qed.

(** The isolation of the users' memories has a hole: the block of memories a turn
    puts into the session stays there when the next turn has none of its own.  Ann chats, then
    Bob, for whom the store holds no visible memory; the system prompt of Bob's turn has what
    was learned from Ann. *)
Lemma prelude_outlives_its_user :
  let r := (handleChat "web" "" (demo_request "ann") demo_runtime).1.1 in
  let tr := (handleChat "web" "" (demo_request "bob") r).1.2 in
  filterUserScopedMemories (map_to_list (memories_ demo_store)).*2 "bob" = [] /\
  Exists (fun s => Contains s "ann earns 5000" = true) (system_texts tr).
Proof.
  split; [vm_compute; reflexivity|].
  apply list_exist_bool. vm_compute. reflexivity.
Qed.

(** A search of tenant "a" in a store with a session of tenant "b". *)
Definition demo_search_runtime : Runtime :=
  (handleCreate (fun _ => None) 0 (demo_config "g") (SetSessionStore (Some NewSessionStore) NewRuntime)).1.
Lemma sessions_isolated_witness :
  let params := {[ "tenant" := "a"; "sid" := session_key "t" "g"; "query" := "x" ]} : gmap string string in
  is_Ok (handleSessionMessages (fun _ => None) params demo_search_runtime) = false /\
  session_key "t" "g" ∉ sr_SessionID <$> match handleSearch (fun _ => None) params demo_search_runtime with Ok l => l | Err _ => [] end.
Proof.
  intros params.
  assert (H1 : no_underscore (param "tenant" params)) by reflexivity.
  assert (H2 : no_underscore "t") by reflexivity.
  assert (H3 : param "tenant" params <> "t") by discriminate.
  pose proof (sessions_isolated (fun _ => None) params demo_search_runtime "t" "g" H1 H2 H3) as (Hm & Hs & _).
  split; [apply Hm; reflexivity|].
  apply (Hs match handleSearch (fun _ => None) params demo_search_runtime with Ok l => l | Err _ => [] end). reflexivity.
Defined.

Lemma memory_delete_owned_witness :
  let params := {[ "id" := "mem_1"; "tenant" := "t"; "agent" := "g" ]} : gmap string string in
  keyed demo_store /\ (handleMemoryDelete (fun _ => None) params demo_runtime).2 = Ok "deleted" /\
  exists m, memories_ demo_store !! "mem_1" = Some m /\ mem_Tenant m = "t".
Proof.
  intros params.
  assert (Hk : keyed demo_store) by (apply map_Forall_singleton; reflexivity).
  split; [exact Hk|]. split; [vm_compute; reflexivity|].
  pose proof (memory_delete_owned (fun _ => None) params demo_runtime demo_store eq_refl Hk) as H.
  assert (E : (handleMemoryDelete (fun _ => None) params demo_runtime).2 = Ok "deleted") by (vm_compute; reflexivity).
  destruct (handleMemoryDelete (fun _ => None) params demo_runtime) as [r' res]. simpl in E. rewrite E in H.
  destruct H as (m & Hm & Ht & _). exists m. split; assumption.
Defined.

(** Tenant "evil" rewrites the memory of tenant "t". *)
Lemma memory_save_spec_witness :
  let m := {| mem_ID := "mem_1"; mem_Agent := "x"; mem_Tenant := "evil"; mem_Key := "k"; mem_Content := "lie";
              mem_CreatedAt := 0; mem_UpdatedAt := 0 |} in
  (fun ms => (fun o => (mem_Tenant o, mem_Content o)) <$> memories_ ms !! "mem_1") <$>
    memoryStore (handleMemorySave (fun _ => None) 5 0 m demo_runtime).1 = Some (Some ("t", "lie")).
Proof.
  intros m. rewrite (memory_save_spec (fun _ => None) 5 0 m demo_runtime demo_store); try discriminate; try reflexivity.
Defined.

(** ** The sandbox and the model's wishes *)

Definition demo_tool (name : string) : ToolDef := {| d_Name := name; d_Description := ""; d_Parameters := ∅ |}.
Definition sandboxed : AgentConfig :=
  {| Name := "g"; Tenant := "t"; Model := "m"; SystemPrompt := ""; Tools := ["*"]; MaxTurns := 3;
     MaxHistory := 0; SummarizeThreshold := 0; Secrets := ∅; RateLimit := 0; Skills := []; MCPServers := [];
     AutoMemory := false; Sandbox := {| sb_Mode := SandboxAlways; sb_Backend := "" |} |}.
(** The model asks for a shell first. *)
Definition shell_world : World := {|
  w_codec := demo_codec; w_now := fun tr => Z.of_nat (length tr); w_zone := 0; w_ToLower := fun s => s;
  w_order := fun m => map_to_list m; w_patterns := []; w_context_files := fun _ _ => "";
  w_fault := fun _ => None; w_fts := fun _ => true; w_seed := fun _ => [];
  w_quota_check := fun _ _ _ _ => Failed Ipc.ErrNoHandler; w_slot := fun _ _ => Failed Ipc.ErrNoHandler;
  w_profile := fun _ _ _ => Failed Ipc.ErrNoHandler; w_skills := fun _ _ => Failed Ipc.ErrNoHandler;
  w_chat := fun tr _ _ _ =>
    if existsb (fun e => match e with EvTool _ _ _ _ => true | _ => false end) tr
    then Ok (text_message RoleAssistant "done")
    else Ok {| m_Role := RoleAssistant; m_Content := "";
               m_ToolCalls := [{| tc_ID := "1"; tc_Name := "shell_exec"; tc_Input := ∅ |}];
               m_ToolResults := []; m_Attachments := []; m_InputTokens := 0; m_OutputTokens := 0 |};
  w_policy := fun _ _ => Failed Ipc.ErrNoHandler;
  w_submit := fun _ _ _ _ _ => Failed Ipc.ErrNoHandler; w_status := fun _ _ => Failed Ipc.ErrNoHandler;
  w_expired := fun _ => false; w_tool := fun _ _ _ _ => Ok "";
|}.
Definition shell_runtime : Runtime :=
  SetToolRegistry (AgentSession.Register (demo_tool "shell_exec") NewToolRegistry)
    (RegisterProvider "m" (@handleCreate shell_world (fun _ => None) 0 sandboxed NewRuntime).1).

(** The sandbox hides tools from the model and no more: a model that asks for a hidden tool by
    name gets it run. *)
Example sandbox_only_hides :
  let tr := (@handleChat shell_world demo_sorter "web" "" (demo_request "eve") shell_runtime).1.2 in
  forallb (fun e => match e with EvChat _ _ defs _ => bool_decide (defs = []) | _ => true end) tr = true /\
  existsb (fun e => match e with EvTool _ n _ _ => bool_decide (n = "shell_exec") | _ => false end) tr = true.
Proof. vm_compute. split; reflexivity. Qed.
