(* ===== verification/AgentTranscript.v ===== *)
(** * AgentTranscript: the messages of a turn

    Every tool call a model makes is answered, in order and at once, by one tool message with
    the call's id; and the history a session keeps is a window on the messages added. *)
From S2P Require Import Prelude Regexp Redact AgentSession AgentStore AgentMemory Personality AgentTurn AgentTrace AgentRuntime.
From S2P Require Ipc Policy Quota AgentGate.

(** ** The window *)

Definition add_all (ms : list Message) (s : Session) : Session := foldl (fun s m => AddMessage m s) s ms.

Lemma keep_last_snoc {A} n (l : list A) x : 0 < n -> keep_last n (keep_last n l ++ [x]) = keep_last n (l ++ [x]).
Proof.
  intros Hn. unfold keep_last. rewrite !length_app, length_drop. simpl.
  destruct (decide (length l <= n)).
  - replace (length l - n) with 0 by lia. rewrite drop_0. f_equal. lia.
  - rewrite !drop_app_le, drop_drop by (rewrite ?length_drop; lia). f_equal. f_equal. lia.
Qed.
Lemma keep_last_short {A} n (l : list A) : length l <= n -> keep_last n l = l.
Proof. intros H. unfold keep_last. replace (length l - n) with 0 by lia. apply drop_0. Qed.

Lemma AddMessage_config m s : s_config (AddMessage m s) = s_config s.
Proof. unfold AddMessage. by case_decide. Qed.

(** A session's history is exactly the window its configuration asks for: after
    any messages have been added to a new session, it holds the last MaxHistory of them, in
    order and unchanged, and all of them when MaxHistory is not positive. *)
Lemma history_window id cfg ms :
  history (add_all ms (NewSession id cfg)) =
    if decide (0 < MaxHistory cfg)%Z then keep_last (Z.to_nat (MaxHistory cfg)) ms else ms.
Proof.
  assert (Hcfg : s_config (add_all ms (NewSession id cfg)) = default_turns cfg).
  { induction ms as [|m ms IH] using rev_ind; [done|]. unfold add_all in *. rewrite foldl_app. simpl.
    by rewrite AddMessage_config. }
  assert (Hmax : MaxHistory (default_turns cfg) = MaxHistory cfg) by (unfold default_turns; by case_decide).
  revert Hcfg. induction ms as [|m ms IH] using rev_ind; intros Hcfg; [by case_decide|].
  unfold add_all in *. rewrite foldl_app in *. cbn [foldl] in *. set (s := foldl _ _ ms) in *.
  assert (Hs : s_config s = default_turns cfg) by (by rewrite AddMessage_config in Hcfg).
  specialize (IH Hs). unfold AddMessage. rewrite Hs, Hmax. destruct (decide (0 < MaxHistory cfg)%Z) as [Hp|Hp].
  - rewrite IH, <- (keep_last_snoc _ ms) by lia. destruct (decide _) as [Hl|Hl]; [done|]. simpl.
    symmetry. apply keep_last_short. lia.
  - destruct (decide _); [lia|]. simpl. by rewrite IH.
Qed.

(** ** Calls and their answers *)

(** The messages a turn adds. *)
Definition messages_of (tr : list event) : list Message :=
  omap (fun e => match e with EvMessage m => Some m | _ => None end) tr.
Lemma messages_of_app t1 t2 : messages_of (t1 ++ t2) = messages_of t1 ++ messages_of t2.
Proof. apply omap_app. Qed.

(** The answer to a call. *)
Definition answers (tc : ToolCall) (m : Message) : Prop :=
  exists content is_error, m = tool_message (tc_ID tc) content is_error.

(** A message that is no tool message. *)
Definition spoken (m : Message) : Prop := m_Role m <> RoleTool /\ m_ToolResults m = [].

(** The tool messages of a transcript are the answers, one for each call, and no others. *)
Inductive answered : list Message -> Prop :=
  | answered_nil : answered []
  | answered_plain m l : spoken m -> m_ToolCalls m = [] -> answered l -> answered (m :: l)
  | answered_calls m rs l : spoken m -> Forall2 answers (m_ToolCalls m) rs -> answered l -> answered (m :: rs ++ l).

Lemma answered_app l1 l2 : answered l1 -> answered l2 -> answered (l1 ++ l2).
Proof.
  induction 1 as [|m l Hs Hm Hl IH|m rs l Hs Hrs Hl IH]; intros H2; simpl; [done|by constructor; auto|].
  rewrite <- app_assoc. by constructor; auto.
Qed.

(** The model's replies are no tool messages: what every provider's parser makes of its service's answer. *)
Definition replies_spoken (tr : list event) : Prop :=
  Forall (fun e => match e with EvChat _ _ _ (Ok m) => spoken m | _ => True end) tr.
Definition answered_in (tr : list event) : Prop := replies_spoken tr -> answered (messages_of tr).
#[export] Instance answered_segment : Segment answered_in.
Proof.
  split; [constructor|]. intros t1 t2 H1 H2 [R1 R2]%Forall_app. rewrite messages_of_app. by apply answered_app; auto.
Qed.

Section Transcript.
Context `{W : World}.

Definition silent (e : event) : Prop := match e with EvMessage _ => False | _ => True end.
Lemma silent_messages tr : Forall silent tr -> messages_of tr = [].
Proof. unfold messages_of. induction 1 as [|e tr He _ IH]; [done|]. destruct e; simpl in *; by rewrite ?IH. Qed.

Ltac quiet :=
  repeat first
    [ progress (unfold set_session, now, publishActivity)
    | apply emits_emit, Forall_singleton; exact I
    | apply emits_ask; intros ?; apply Forall_singleton; exact I
    | emits_step ]; auto.

Lemma build_prelude_silent `{!SliceSorter newest} files ms req : emits (Forall silent) (build_prelude files ms req).
Proof.
  unfold build_prelude, loadUserProfile. emits_step; [quiet|]. quiet.
  intros t. exists []. rewrite app_nil_r. by destruct (personas t).
Qed.
Lemma load_skills_silent cfg : emits (Forall silent) (load_skills cfg).
Proof. unfold load_skills. quiet. Qed.
Lemma finish_silent st turn used calls tin tout resp : emits (Forall silent) (finish st turn used calls tin tout resp).
Proof. unfold finish. quiet. Qed.
Lemma record_usage_silent st m : emits (Forall silent) (record_usage st m).
Proof. unfold record_usage, quotaRecord. quiet. Qed.
Lemma rate_limit_silent key limit : emits (Forall silent) (checkAgentRateLimit key limit).
Proof. unfold checkAgentRateLimit. quiet. Qed.
Lemma poll_silent id n : emits (Forall silent) (poll n id).
Proof. induction n as [|n IH]; simpl; quiet. Qed.
Lemma attempts_silent reg ctx name input n : forall k e, emits (Forall silent) (attempts n k reg ctx name input e).
Proof. induction n as [|n IH]; intros k e; simpl; unfold Execute; quiet. Qed.
Lemma publish_silent a b c d : emits (Forall silent) (publishActivity a b c d).
Proof. quiet. Qed.

Lemma add_wp m t : wp (add m) (fun _ tr _ => messages_of tr = [m]) t.
Proof.
  unfold add. apply wp_bind, wp_emit, wp_update; [|done]. by case_match.
Qed.

(** A computation that adds no message, then one that does. *)
Lemma wp_silent {A B} (m : M A) (k : A -> M B) (Q : list Message -> Prop) t :
  emits (Forall silent) m -> (forall a t', wp (k a) (fun _ tr _ => Q (messages_of tr)) t') ->
  wp (bind m k) (fun _ tr _ => Q (messages_of tr)) t.
Proof.
  intros Hm Hk. apply wp_bind. eapply wp_mono; [apply Hm|]. intros a tr1 t1 H1. simpl.
  eapply wp_mono; [apply Hk|]. intros b tr2 t2 H2. by rewrite messages_of_app, (silent_messages tr1 H1).
Qed.
Lemma wp_add_silent {B} m (k : () -> M B) (Q : list Message -> Prop) t :
  Q [m] -> (forall a, emits (Forall silent) (k a)) -> wp (bind (add m) k) (fun _ tr _ => Q (messages_of tr)) t.
Proof.
  intros HQ Hk. apply wp_bind. eapply wp_mono; [apply add_wp|]. intros a tr1 t1 H1. simpl.
  eapply wp_mono; [apply Hk|]. intros b tr2 t2 H2. by rewrite messages_of_app, H1, (silent_messages tr2 H2).
Qed.

Lemma run_tool_answers reg secrets ch req used tc t :
  wp (run_tool reg secrets ch req used tc) (fun _ tr _ => exists m, messages_of tr = [m] /\ answers tc m) t.
Proof.
  unfold run_tool.
  apply (wp_silent _ _ (fun l => exists m, l = [m] /\ answers tc m)); [apply publish_silent|]. intros _ t1.
  apply (wp_silent _ _ (fun l => exists m, l = [m] /\ answers tc m)); [quiet|]. intros _ t2.
  apply (wp_silent _ _ (fun l => exists m, l = [m] /\ answers tc m)).
  { destruct reg; [|quiet]. emits_step; [apply attempts_silent|quiet]. }
  intros r t3. apply (wp_add_silent _ _ (fun l => exists m, l = [m] /\ answers tc m)).
  - eexists. split; [done|]. by eexists _, _.
  - intros _. quiet.
Qed.

Lemma call_tool_answers reg secrets ch req used tc t :
  wp (call_tool reg secrets ch req used tc) (fun _ tr _ => exists m, messages_of tr = [m] /\ answers tc m) t.
Proof.
  set (Q := fun l => exists m, l = [m] /\ answers tc m).
  assert (Hadd : forall c b u t, wp (add (tool_message (tc_ID tc) c b);;; ret u) (fun (_ : list string) tr _ => Q (messages_of tr)) t).
  { intros c b u t'. apply wp_add_silent; [|intros _; quiet]. eexists. split; [done|]. by eexists _, _. }
  unfold call_tool, checkToolPolicy, waitForApproval. apply (wp_silent _ _ Q); [quiet|]. intros d t1.
  destruct (decide _); [apply Hadd|]. destruct (decide _); [|apply run_tool_answers].
  apply (wp_silent _ _ Q); [quiet|]. intros r t2. apply (wp_silent _ _ Q); [apply publish_silent|]. intros _ t3.
  apply (wp_silent _ _ Q); [apply poll_silent|]. intros s t4. destruct (decide _); [apply Hadd|apply run_tool_answers].
Qed.

Lemma fold_tools_answers reg secrets ch req tcs : forall used t,
  wp (fold_m (call_tool reg secrets ch req) used tcs) (fun _ tr _ => Forall2 answers tcs (messages_of tr)) t.
Proof.
  induction tcs as [|tc tcs IH]; intros used t; simpl; [by apply wp_ret|].
  apply wp_bind. eapply wp_mono; [apply call_tool_answers|]. intros u tr1 t1 (m & Hm & Ha).
  eapply wp_mono; [apply IH|]. intros u2 tr2 t2 H2. rewrite messages_of_app, Hm. by constructor.
Qed.

Lemma answered_silent {A} (m : M A) : emits (Forall silent) m -> emits answered_in m.
Proof. apply emits_weaken. intros tr H _. rewrite (silent_messages tr H). constructor. Qed.
Lemma answered_add m : spoken m -> m_ToolCalls m = [] -> emits answered_in (add m).
Proof.
  intros Hs Hm t. eapply wp_mono; [apply add_wp|]. intros a tr t' H _. rewrite H. constructor; [done..|constructor].
Qed.

Lemma prepare_answered `{!SliceSorter newest} r cfg req : emits answered_in (prepare r cfg req).
Proof.
  unfold prepare, auto_compact.
  emits_step; [apply answered_silent, build_prelude_silent|]. emits_step; [apply answered_silent, load_skills_silent|].
  emits_step; [apply answered_silent; quiet|]. emits_step; [by apply answered_add; repeat split|].
  emits_step; [apply answered_silent; quiet|]. emits_step. emits_step; [by apply answered_add; repeat split|apply answered_silent; quiet].
Qed.

(** The reply is the last message a call of the model adds. *)
Lemma call_model_messages st turn t :
  wp (call_model st turn)
     (fun res tr _ => replies_spoken tr -> exists pre, answered pre /\
        messages_of tr = pre ++ match res with Ok m => [m] | Err _ => [] end /\ match res with Ok m => spoken m | Err _ => True end) t.
Proof.
  unfold call_model. apply wp_bind.
  assert (Hw : emits answered_in
    (when (bool_decide (3 < MaxTurns (st_config st) /\ turn = MaxTurns (st_config st) - 2)%Z) (add wrap_up))).
  { apply emits_when; [apply _|]. intros _. by apply answered_add; repeat split. }
  eapply wp_mono; [apply Hw|]. intros u tr1 t1 H1.
  apply wp_bind, wp_ask. intros n. simpl. apply wp_bind, wp_get, wp_bind, wp_ask. intros r.
  destruct r as [m|e].
  - apply wp_bind. eapply wp_mono; [apply record_usage_silent|]. intros u3 tr3 t3 H3. apply wp_bind.
    eapply wp_mono; [apply add_wp|]. intros u4 tr4 t4 H4. apply wp_ret. intros [R1 R2]%Forall_app.
    exists (messages_of tr1). split; [by apply H1|]. inversion R2 as [|? ? _ R3]; subst. inversion R3 as [|? ? Rm _]; subst. split; [|done].
    rewrite messages_of_app. f_equal. change (messages_of (tr3 ++ tr4 ++ []) = [m]).
    by rewrite !messages_of_app, (silent_messages tr3 H3), H4.
  - apply wp_ret. intros [R1 _]%Forall_app. exists (messages_of tr1). split; [by apply H1|]. rewrite messages_of_app. split; [|done]. f_equal.
Qed.

Lemma chat_loop_answered st n : forall turn used calls tin tout,
  emits answered_in (chat_loop n st turn used calls tin tout).
Proof.
  induction n as [|n IH]; intros turn used calls tin tout t; simpl; [apply wp_ret; constructor|].
  apply wp_bind. eapply wp_mono; [apply call_model_messages|]. intros [m|e] tr1 t1 Hcall.
  2:{ apply wp_ret. rewrite app_nil_r. intros R. destruct (Hcall R) as (pre & Hpre & -> & _). by rewrite app_nil_r. }
  destruct (decide (m_ToolCalls m = [])) as [Hm|Hm].
  - eapply wp_mono; [apply finish_silent|]. intros res tr2 t2 H2.
    intros [R _]%Forall_app. destruct (Hcall R) as (pre & Hpre & E & Hs).
    rewrite messages_of_app, E, (silent_messages tr2 H2), app_nil_r. apply answered_app; [done|]. constructor; [done..|constructor].
  - apply wp_bind. eapply wp_mono; [apply fold_tools_answers|]. intros used' tr2 t2 H2.
    eapply wp_mono; [apply IH|]. intros res tr3 t3 H3. intros [R [R2 R3]%Forall_app]%Forall_app.
    destruct (Hcall R) as (pre & Hpre & E & Hs). rewrite !messages_of_app, E, <- app_assoc.
    apply answered_app; [done|]. simpl. apply answered_calls; auto.
Qed.

Lemma guarded_turn_answered `{!SliceSorter newest} r key cfg sub ch req :
  emits answered_in (guarded_turn r key cfg sub ch req).
Proof.
  assert (Hturn : emits answered_in (chat_turn r cfg sub ch req)).
  { unfold chat_turn. emits_step; [apply answered_silent; quiet|]. emits_step; [apply answered_silent, publish_silent|].
    emits_step; [emits_step|]. emits_step; [apply prepare_answered|apply chat_loop_answered]. }
  unfold guarded_turn, quotaCheck. emits_step; [apply answered_silent, rate_limit_silent|].
  emits_step; [emits_step|]. emits_step; [apply answered_silent; quiet|]. emits_step; [emits_step|].
  intros t. unfold quotaAcquireSlot. apply wp_bind, wp_bind, wp_ask. intros reply_. simpl.
  assert (Hrest : forall (release : M ()) t', emits (Forall silent) release ->
    wp (res <- chat_turn r cfg sub ch req;; release;;; ret res) (fun _ tr _ => answered_in (EvSlotAcquire (rq_Tenant req) reply_ :: tr)) t').
  { intros release t' Hrel. apply wp_bind. eapply wp_mono; [apply Hturn|]. intros res tr1 t1 H1.
    apply wp_bind. eapply wp_mono; [apply Hrel|]. intros u tr2 t2 H2. apply wp_ret.
    intros R. apply Forall_cons in R as [_ [R _]%Forall_app].
    change (answered (messages_of (tr1 ++ tr2 ++ []))). rewrite !messages_of_app, (silent_messages tr2 H2), app_nil_r. by apply H1. }
  destruct reply_ as [sr| |e]; [destruct (Quota.s_Allowed sr)|..]; apply wp_ret; simpl;
    [apply Hrest; quiet|apply wp_ret; intros _; constructor|apply Hrest; quiet|apply Hrest; quiet].
Qed.

(** C8 [type]: the transcript of a chat turn is well formed: in the messages a turn adds to the
    session, every message that calls tools is followed at once by exactly one tool message for
    each call, in the order of the calls and with their ids, whether the tool ran, failed, was
    denied or waited for an approval in vain; nothing else calls tools, and there is no other tool
    message.  The model's replies must be no tool messages themselves, which holds of what every
    provider's parser returns. *)
Theorem calls_answered `{!SliceSorter newest} source traceID req r :
  let tr := (handleChat source traceID req r).1.2 in
  replies_spoken tr -> answered (messages_of tr).
Proof.
  cbv zeta. change (answered_in (handleChat source traceID req r).1.2).
  unfold handleChat. destruct (agents r !! _) as [inst|]; [|intros _; constructor].
  set (t0 := Build_Turn _ _ _ _ _). set (ch := if decide _ then _ else _). set (sub := bool_decide _).
  assert (Hrun : forall m : M (Result ChatResponse), emits answered_in m ->
    answered_in (trace (m t0).2)) by (intros m Hm; destruct (Hm t0) as (tr & E & H); by rewrite E).
  match goal with |- context [match ?c with Some name => personality_command req name | None => ?g end] =>
    set (run := match c with Some name => personality_command req name | None => g end) end.
  assert (Hemit : emits answered_in run).
  { unfold run. destruct (if personalityStore r is None then None else _).
    - apply answered_silent. unfold personality_command. emits_step; [quiet|]. intros t. exists []. rewrite app_nil_r.
      destruct (personas t); [|by split; [|constructor]]. destruct (decide (s = "")); [by split; [|constructor]|].
      destruct (Select _ _ _ _ _ _) as [? ?]. by split; [|constructor].
    - apply guarded_turn_answered. }
  apply Hrun in Hemit. destruct (run t0) as [res t]. exact Hemit.
Qed.
End Transcript.

(** The turn of [AgentGate] whose model calls two tools, one of them denied. *)
Lemma calls_answered_witness :
  replies_spoken AgentGate.gate_trace /\ length (messages_of AgentGate.gate_trace) = 5%nat /\ answered (messages_of AgentGate.gate_trace).
Proof.
  assert (H : replies_spoken AgentGate.gate_trace) by (vm_compute; repeat constructor; discriminate).
  split; [exact H|]. split; [vm_compute; reflexivity|].
  exact (@calls_answered AgentGate.gate_world AgentGate.gate_sorter "web" "" AgentGate.gate_request AgentGate.gate_runtime H).
Defined.
