(* ===== verification/NetGuard.v ===== *)
(** * NetGuard: the guard against server-side request forgery

    [src/kernel/netguard/netguard.go], with the parts of Go's [net] package it rests on: the
    classification of addresses, byte by byte as Go does it, and the redirects of the guarded
    client. *)
From S2P Require Import Prelude GoStr.
Local Open Scope Z_scope.

(** ** Addresses: Go's [net.IP], 4 or 16 bytes *)

Abbreviation IP := (list Z) (only parsing).

Definition To4 (ip : IP) : option IP :=
  if decide (length ip = 4%nat) then Some ip
  else if decide (length ip = 16%nat /\ take 12 ip = repeat 0 10 ++ [255; 255]) then Some (drop 12 ip)
  else None.

Definition at_ (ip : IP) (i : nat) : Z := nth i ip 0.

Definition IPv6loopback : IP := repeat 0 15 ++ [1].

Definition IsUnspecified (ip : IP) : bool :=
  match To4 ip with
  | Some ip4 => bool_decide (ip4 = [0; 0; 0; 0])
  | None => bool_decide (ip = repeat 0 16)
  end.
Definition IsLoopback (ip : IP) : bool :=
  match To4 ip with Some ip4 => at_ ip4 0 =? 127 | None => bool_decide (ip = IPv6loopback) end.
Definition IsPrivate (ip : IP) : bool :=
  match To4 ip with
  | Some ip4 =>
      (at_ ip4 0 =? 10) || ((at_ ip4 0 =? 172) && (Z.land (at_ ip4 1) 240 =? 16)) ||
      ((at_ ip4 0 =? 192) && (at_ ip4 1 =? 168))
  | None => bool_decide (length ip = 16%nat) && (Z.land (at_ ip 0) 254 =? 252)
  end.
Definition IsMulticast (ip : IP) : bool :=
  match To4 ip with
  | Some ip4 => Z.land (at_ ip4 0) 240 =? 224
  | None => bool_decide (length ip = 16%nat) && (at_ ip 0 =? 255)
  end.
Definition IsLinkLocalMulticast (ip : IP) : bool :=
  match To4 ip with
  | Some ip4 => (at_ ip4 0 =? 224) && (at_ ip4 1 =? 0) && (at_ ip4 2 =? 0)
  | None => bool_decide (length ip = 16%nat) && (at_ ip 0 =? 255) && (Z.land (at_ ip 1) 15 =? 2)
  end.
Definition IsLinkLocalUnicast (ip : IP) : bool :=
  match To4 ip with
  | Some ip4 => (at_ ip4 0 =? 169) && (at_ ip4 1 =? 254)
  | None => bool_decide (length ip = 16%nat) && (at_ ip 0 =? 254) && (Z.land (at_ ip 1) 192 =? 128)
  end.

(* [kernel/netguard/netguard.go:IsPublicIP] *)
Definition IsPublicIP (ip : IP) : bool :=
  if IsLoopback ip || IsLinkLocalUnicast ip || IsLinkLocalMulticast ip || IsMulticast ip || IsUnspecified ip ||
     IsPrivate ip
  then false else true.

(** ** URLs *)

(* [kernel/netguard/netguard.go:Error.Error] *)
Definition guard_error (msg : string) : error := "ssrf guard: " +:+ msg.

Section Guard.
(** [url.Parse], as scheme and host name; the resolver; [IP.String]; and whether
    CYNTR_SSRF_ALLOW_PRIVATE is set. *)
Context (parse : string -> option (string * string)) (LookupIP : string -> option (list IP)).
Context (ip_text : IP -> string) (AllowPrivate : bool).

Fixpoint first_private (ips : list IP) : option IP :=
  match ips with [] => None | ip :: ips => if IsPublicIP ip then first_private ips else Some ip end.

(* [kernel/netguard/netguard.go:ValidatePublicURL] *)
Definition ValidatePublicURL (rawURL : string) : option error :=
  match parse rawURL with
  | None => Some (guard_error "invalid URL")
  | Some (scheme, host) =>
      if decide (scheme <> "http" /\ scheme <> "https") then Some (guard_error "only http and https are allowed")
      else if decide (host = "") then Some (guard_error "missing host")
      else if AllowPrivate then None
      else
        match LookupIP host with
        | None => Some (guard_error "cannot resolve host")
        | Some ips =>
            match first_private ips with
            | Some ip => Some (guard_error ("host resolves to non-public address " +:+ ip_text ip))
            | None => None
            end
        end
  end.

End Guard.

(** What comes of a request for a URL: a redirect, another answer, or an error of the transport. *)
Inductive answer := Redirect (url : string) | Final (status : Z) (body : string) | Broken (e : error).

Section Client.
(** The resolver may answer each check of a GET, by its number, differently. *)
Context (parse : string -> option (string * string)) (LookupIP : nat -> string -> option (list IP)).
Context (ip_text : IP -> string) (AllowPrivate : bool).

(** The client's [CheckRedirect]: [via] counts the requests made. *)
(* [kernel/netguard/netguard.go:GuardedHTTPClient] *)
Definition CheckRedirect (via : nat) (url : string) : option error :=
  if decide (10 <= via)%nat then Some "stopped after 10 redirects"
  else ValidatePublicURL parse (LookupIP via) ip_text AllowPrivate url.

(** A GET of the client: the requests it makes and what comes of them.  [past]: the requests made so far, on
    which an answer may depend.  The fuel is the number of requests still possible. *)
Fixpoint fetch (fuel : nat) (past : list string) (serve : list string -> string -> answer) (url : string) :
    list string * Result (Z * string) :=
  match fuel with
  | O => ([], Err "out of fuel")
  | S fuel' =>
      match serve past url with
      | Final status body => ([url], Ok (status, body))
      | Broken e => ([url], Err e)
      | Redirect url' =>
          match CheckRedirect (S (length past)) url' with
          | Some e => ([url], Err e)
          | None => let '(l, r) := fetch fuel' (past ++ [url]) serve url' in (url :: l, r)
          end
      end
  end.
Definition Get (serve : list string -> string -> answer) (url : string) : list string * Result (Z * string) :=
  fetch 11 [] serve url.
End Client.

(** ** What the classification blocks *)

(** The number of an address, and membership in the block [base/len] of a width. *)
Definition number (ip : IP) : Z := foldl (fun n b => 256 * n + b) 0 ip.
Definition in_block (width len base n : Z) : Prop := n / 2 ^ (width - len) = base / 2 ^ (width - len).
#[export] Instance in_block_dec w l b n : Decision (in_block w l b n).
Proof. unfold in_block. apply _. Defined.

Definition ipv4 (a b c d : Z) : Z := number [a; b; c; d].
(** 127/8, 169.254/16, 224/4, 10/8, 172.16/12, 192.168/16 and the address 0. *)
Definition blocked_v4 : list (Z * Z) :=
  [(ipv4 127 0 0 0, 8); (ipv4 169 254 0 0, 16); (ipv4 224 0 0 0, 4); (ipv4 10 0 0 0, 8);
   (ipv4 172 16 0 0, 12); (ipv4 192 168 0 0, 16); (ipv4 0 0 0 0, 32)].

Definition byte (b : Z) : Prop := 0 <= b < 256.

(** Whether an IPv4 address is public depends on its first two bytes, unless it is 0. *)
Definition blocked2 (a b : Z) : bool :=
  (a =? 127) || ((a =? 169) && (b =? 254)) || (224 <=? a) && (a <? 240) || (a =? 10) ||
  ((a =? 172) && (16 <=? b) && (b <? 32)) || ((a =? 192) && (b =? 168)).

Lemma byte_pairs (p : Z -> Z -> bool) :
  forallb (fun a => forallb (p (Z.of_nat a)) (Z.of_nat <$> seq 0 256)) (seq 0 256) = true ->
  forall a b, byte a -> byte b -> p a b = true.
Proof.
  intros H a b Ha Hb. rewrite forallb_forall in H. unfold byte in *.
  assert (Hin : In (Z.to_nat a) (seq 0 256)) by (apply in_seq; lia).
  specialize (H _ Hin). rewrite forallb_forall in H. rewrite Z2Nat.id in H by lia. apply H.
  apply list_elem_of_In, list_elem_of_fmap. exists (Z.to_nat b). split; [lia|]. apply elem_of_seq. lia.
Qed.

Definition public2 (a b : Z) : bool :=
  negb ((a =? 127) || ((a =? 169) && (b =? 254)) || (Z.land a 240 =? 224) ||
        ((a =? 10) || ((a =? 172) && (Z.land b 240 =? 16)) || ((a =? 192) && (b =? 168)))).
Lemma public2_spec a b : byte a -> byte b -> public2 a b = negb (blocked2 a b).
Proof.
  intros Ha Hb. apply Bool.eqb_prop. revert a b Ha Hb.
  apply (byte_pairs (fun a b => Bool.eqb (public2 a b) (negb (blocked2 a b)))). vm_compute. reflexivity.
Qed.

Lemma blocked2_iff a b : blocked2 a b = true <->
  a = 127 \/ (a = 169 /\ b = 254) \/ 224 <= a < 240 \/ a = 10 \/ (a = 172 /\ 16 <= b < 32) \/ (a = 192 /\ b = 168).
Proof.
  unfold blocked2. rewrite !orb_true_iff, !andb_true_iff, !Z.eqb_eq, !Z.leb_le, !Z.ltb_lt. tauto.
Qed.

Lemma public_v4_bytes a b c d : byte a -> byte b ->
  IsPublicIP [a; b; c; d] = public2 a b && negb (bool_decide ([a; b; c; d] = [0; 0; 0; 0])).
Proof.
  intros Ha Hb. unfold IsPublicIP, IsLoopback, IsLinkLocalUnicast, IsLinkLocalMulticast, IsMulticast, IsUnspecified, IsPrivate.
  unfold To4. rewrite decide_True by done. unfold at_, public2. simpl nth.
  assert (Hm : (a =? 224) && (b =? 0) && (c =? 0) = true -> (Z.land a 240 =? 224) = true).
  { intros H. apply andb_true_iff in H as [H _]. apply andb_true_iff in H as [H _]. apply Z.eqb_eq in H. by subst. }
  destruct (a =? 127), ((a =? 169) && (b =? 254)), (Z.land a 240 =? 224), (a =? 10), ((a =? 172) && (Z.land b 240 =? 16)),
    ((a =? 192) && (b =? 168)), (bool_decide _), ((a =? 224) && (b =? 0) && (c =? 0)); try reflexivity; by specialize (Hm eq_refl).
Qed.

Lemma number_v4 a b c d : number [a; b; c; d] = ((a * 256 + b) * 256 + c) * 256 + d.
Proof. unfold number. simpl. lia. Qed.

Lemma Exists_blocked n : Exists (fun p => in_block 32 p.2 p.1 n) blocked_v4 <->
  n / 2 ^ 24 = 127 \/ n / 2 ^ 16 = 43518 \/ n / 2 ^ 28 = 14 \/ n / 2 ^ 24 = 10 \/ n / 2 ^ 20 = 2753 \/
  n / 2 ^ 16 = 49320 \/ n / 2 ^ 0 = 0.
Proof. unfold blocked_v4. rewrite !Exists_cons, Exists_nil. unfold in_block. simpl. tauto. Qed.

(** The byte tests of the guard are the address blocks they are meant to be:
    an IPv4 address, given by its four bytes, or the same address mapped into IPv6, is let
    through exactly when its number lies in none of 127/8, 169.254/16, 224/4, 10/8, 172.16/12,
    192.168/16 and is not 0.0.0.0.  Every other block, like 100.64/10 and 240/4, counts as
    public. *)
Lemma IsPublicIP_v4 a b c d : byte a -> byte b -> byte c -> byte d ->
  let public := ~ Exists (fun p => in_block 32 p.2 p.1 (number [a; b; c; d])) blocked_v4 in
  (IsPublicIP [a; b; c; d] = true <-> public) /\
  (IsPublicIP (repeat 0 10 ++ [255; 255; a; b; c; d]) = true <-> public).
Proof.
  intros Ha Hb Hc Hd public.
  assert (Hmap : IsPublicIP (repeat 0 10 ++ [255; 255; a; b; c; d]) = IsPublicIP [a; b; c; d]) by reflexivity.
  rewrite Hmap. assert (H4 : IsPublicIP [a; b; c; d] = true <-> public); [|by split].
  rewrite public_v4_bytes, public2_spec, andb_true_iff, !negb_true_iff, bool_decide_eq_false by done.
  unfold public. rewrite Exists_blocked, number_v4, <- not_true_iff_false, blocked2_iff. unfold byte in *.
  assert (E24 : ((((a * 256 + b) * 256 + c) * 256 + d) / 2 ^ 24) = a) by (symmetry; apply Z.div_unique with ((b * 256 + c) * 256 + d); lia).
  assert (E16 : ((((a * 256 + b) * 256 + c) * 256 + d) / 2 ^ 16) = a * 256 + b) by (symmetry; apply Z.div_unique with (c * 256 + d); lia).
  assert (E28 : ((((a * 256 + b) * 256 + c) * 256 + d) / 2 ^ 28) = a / 16).
  { change (2 ^ 28) with (2 ^ 24 * 16). rewrite <- Z.div_div by lia. by rewrite E24. }
  assert (E20 : ((((a * 256 + b) * 256 + c) * 256 + d) / 2 ^ 20) = (a * 256 + b) / 16).
  { change (2 ^ 20) with (2 ^ 16 * 16). rewrite <- Z.div_div by lia. by rewrite E16. }
  rewrite E24, E16, E28, E20, Z.div_1_r.
  assert (H28 : a / 16 = 14 <-> 224 <= a < 240) by (split; intros; [pose proof (Z.div_mod a 16 ltac:(lia)); pose proof (Z.mod_pos_bound a 16); lia|symmetry; apply Z.div_unique with (a - 224); lia]).
  assert (H20 : (a * 256 + b) / 16 = 2753 <-> a = 172 /\ 16 <= b < 32) by (split; intros; [pose proof (Z.div_mod (a * 256 + b) 16 ltac:(lia)); pose proof (Z.mod_pos_bound (a * 256 + b) 16); lia|symmetry; apply Z.div_unique with (b - 16); lia]).
  rewrite H28, H20.
  assert (Hz : [a; b; c; d] <> [0; 0; 0; 0] <-> ((a * 256 + b) * 256 + c) * 256 + d <> 0).
  { split; [intros H E; apply H; repeat f_equal; lia|]. intros H [= -> -> -> ->]. by apply H. }
  assert (H43 : a * 256 + b = 43518 <-> a = 169 /\ b = 254) by lia.
  assert (H49 : a * 256 + b = 49320 <-> a = 192 /\ b = 168) by lia.
  rewrite Hz, H43, H49. clear. tauto.
Qed.

Lemma IsPublicIP_v4_witness :
  (IsPublicIP [169; 254; 169; 254] = true <->
     ~ Exists (fun p => in_block 32 p.2 p.1 (number [169; 254; 169; 254])) blocked_v4) /\
  IsPublicIP [169; 254; 169; 254] = false /\ IsPublicIP [8; 8; 8; 8] = true /\
  (* shared address space and the reserved block count as public *)
  IsPublicIP [100; 64; 0; 1] = true /\ IsPublicIP [240; 0; 0; 1] = true.
Proof. repeat split; try (apply (IsPublicIP_v4 169 254 169 254); unfold byte; lia); vm_compute; reflexivity. Defined.

(** ** The redirects the client follows *)
Section Check.
Context (parse : string -> option (string * string)) (LookupIP : string -> option (list IP)).
Context (ip_text : IP -> string) (AllowPrivate : bool).
#[local] Abbreviation Validate := (ValidatePublicURL parse LookupIP ip_text AllowPrivate).

(** What passes the check: a web address all of whose addresses are public, the operator's
    exception apart. *)
Lemma ValidatePublicURL_spec url : Validate url = None <->
  exists scheme host, parse url = Some (scheme, host) /\ (scheme = "http" \/ scheme = "https") /\ host <> "" /\
    (AllowPrivate = true \/ exists ips, LookupIP host = Some ips /\ Forall (fun ip => IsPublicIP ip = true) ips).
Proof.
  assert (Hf : forall ips, first_private ips = None <-> Forall (fun ip => IsPublicIP ip = true) ips).
  { induction ips as [|ip ips IH]; simpl; [by split|]. rewrite Forall_cons, <- IH.
    destruct (IsPublicIP ip); split; [by intros|by intros [_ ?]|done|by intros [? _]]. }
  unfold ValidatePublicURL. destruct (parse url) as [[scheme host]|]; [|split; [done|by intros (?&?&?&_)]].
  destruct (decide (scheme <> "http" /\ scheme <> "https")) as [Hs|Hs].
  { split; [done|]. intros (s & h & [= <- <-] & Hor & _). naive_solver. }
  assert (Hs' : scheme = "http" \/ scheme = "https") by (destruct (decide (scheme = "http")); [by left|right; by destruct (decide (scheme = "https")); [|exfalso; apply Hs]]).
  destruct (decide (host = "")) as [->|Hh]; [split; [done|by intros (s & h & [= <- <-] & _ & ? & _)]|].
  destruct AllowPrivate; [split; [intros _; exists scheme, host; by auto|done]|].
  destruct (LookupIP host) as [ips|] eqn:Hips.
  - destruct (first_private ips) as [ip|] eqn:Hp.
    + split; [done|]. intros (s & h & [= <- <-] & _ & _ & [?|(ips' & Hl & Hall)]); [done|].
      rewrite Hips in Hl. injection Hl as <-. apply Hf in Hall. congruence.
    + split; [|done]. intros _. exists scheme, host. repeat split; [done..|]. right. exists ips. split; [done|]. by apply Hf.
  - split; [done|]. intros (s & h & [= <- <-] & _ & _ & [?|(ips' & Hl & _)]); [done|]. congruence.
Qed.

End Check.

Section Redirects.
Context (parse : string -> option (string * string)) (LookupIP : nat -> string -> option (list IP)).
Context (ip_text : IP -> string) (AllowPrivate : bool).
#[local] Abbreviation Validate n := (ValidatePublicURL parse (LookupIP n) ip_text AllowPrivate).
#[local] Abbreviation fetch := (fetch parse LookupIP ip_text AllowPrivate).

Lemma fetch_spec serve fuel : forall past url, (length past + fuel = 11)%nat -> (0 < fuel)%nat ->
  exists rest r, fetch fuel past serve url = (url :: rest, r) /\ (length rest + length past < 10 \/ rest = [])%nat /\
    (forall i u, rest !! i = Some u -> Validate (S (length past) + i)%nat u = None) /\
    exists before last, past ++ url :: rest = before ++ [last] /\
    match r with
    | Ok (status, body) => serve before last = Final status body
    | Err e => serve before last = Broken e \/ exists u, serve before last = Redirect u /\
        (e = "stopped after 10 redirects" /\ (length past + length rest >= 9)%nat \/
         Validate (S (length past) + length rest)%nat u = Some e)
    end.
Proof.
  induction fuel as [|fuel IH]; intros past url Hv Hf; [lia|]. simpl. destruct (serve past url) as [url'|status body|e] eqn:Hs.
  - unfold CheckRedirect. destruct (decide (10 <= S (length past))%nat) as [Hten|Hten].
    { eexists [], _. split; [done|]. split; [by right|]. split; [done|]. exists past, url. split; [done|]. right.
      exists url'. split; [done|]. left. simpl. split; [done|lia]. }
    destruct (Validate _ url') as [e|] eqn:He.
    { eexists [], _. split; [done|]. split; [by right|]. split; [done|]. exists past, url. split; [done|]. right.
      exists url'. split; [done|]. right. simpl. by rewrite Nat.add_0_r. }
    destruct (IH (past ++ [url]) url') as (rest & r & Heq & Hlen & Hall & before & last & Hb & Hr);
      [rewrite length_app; simpl; lia|lia|]. rewrite Heq. rewrite length_app in *. simpl in *.
    exists (url' :: rest), r. split; [done|]. split.
    { left. simpl. destruct Hlen as [?| ->]; simpl; lia. }
    split.
    { intros [|i] u Hi; simpl in Hi; [injection Hi as <-; by rewrite Nat.add_0_r|].
      specialize (Hall i u Hi). by replace (S (length past + S i)) with (S (length past + 1 + i)) by lia. }
    exists before, last. split; [by rewrite <- app_assoc in Hb|]. destruct r as [[st b]|e]; [done|].
    destruct Hr as [Hr|(u & Hu & Hc)]; [by left|]. right. exists u. split; [done|].
    destruct Hc as [[-> Hn]|Hn]; [left; split; [done|simpl; lia]|right].
    simpl. by replace (S (length past + S (length rest))) with (S (length past + 1 + length rest)) by lia.
  - eexists [], _. split; [done|]. split; [by right|]. split; [done|]. by exists past, url.
  - eexists [], _. split; [done|]. split; [by right|]. split; [done|]. exists past, url. split; [done|]. by left.
Qed.

(** C31 [safety]: redirects do not get round the guard.  Whatever servers answer, and whatever they answered
    before, a GET of the guarded client makes at most ten requests; the first is for the URL it was given, and
    every URL it is redirected to and requests is a web address all of whose addresses, as the resolver gave them
    to the check, are public (or the operator has allowed private ones).  The GET ends: with the answer to its
    last request or the transport's error, or with an error when that answer redirects to a URL that fails the
    check, or is the tenth redirect in a row. *)
Theorem guarded_redirects serve url :
  exists rest r, Get parse LookupIP ip_text AllowPrivate serve url = (url :: rest, r) /\ (length rest < 10)%nat /\
    (forall i u, rest !! i = Some u -> exists scheme host, parse u = Some (scheme, host) /\ (scheme = "http" \/ scheme = "https") /\
       host <> "" /\ (AllowPrivate = true \/
         exists ips, LookupIP (S i) host = Some ips /\ Forall (fun ip => IsPublicIP ip = true) ips)) /\
    exists before last, url :: rest = before ++ [last] /\
    match r with
    | Ok (status, body) => serve before last = Final status body
    | Err e => serve before last = Broken e \/ exists u, serve before last = Redirect u /\
        (e = "stopped after 10 redirects" /\ length rest = 9%nat \/ Validate (S (length rest)) u = Some e)
    end.
Proof.
  destruct (fetch_spec serve 11 [] url eq_refl ltac:(lia)) as (rest & r & Heq & Hlen & Hall & before & last & Hb & Hr).
  simpl in *. assert (Hlt : (length rest < 10)%nat) by (destruct Hlen as [?| ->]; simpl; lia).
  exists rest, r. split; [done|]. split; [done|]. split.
  { intros i u Hi. apply (ValidatePublicURL_spec parse (LookupIP (S i)) ip_text AllowPrivate u). by apply Hall. }
  exists before, last. split; [done|]. destruct r as [[st b]|e]; [done|]. destruct Hr as [Hr|(u & Hu & Hc)]; [by left|].
  right. exists u. split; [done|]. destruct Hc as [[-> Hn]|Hn]; [left; split; [done|lia]|by right].
Qed.
End Redirects.
