(* ===== verification/Federation.v ===== *)
(** * Federation: peers, residency, delegation between nodes

    [src/modules/federation] and the handlers of [src/web/api/federation.go]: the registry of
    peers and their health, the residency rules, federated audit queries, the versions of
    synchronisation messages, and delegation of a chat to another node, outbound and inbound.
    What other nodes, the bus and the codec answer are arguments. *)
From S2P Require Import Prelude GoStr NetGuard.
From S2P Require AgentSession AgentTurn Policy Ipc.
Local Open Scope go_scope.
Local Open Scope Z_scope.

#[local] Abbreviation reply := AgentTurn.reply.
#[local] Abbreviation Replied := AgentTurn.Replied.
#[local] Abbreviation OtherPayload := AgentTurn.OtherPayload.
#[local] Abbreviation Failed := AgentTurn.Failed.

#[local] Existing Instance Policy.Decision_eq_dec.

(** ** Data *)

(* [modules/federation/types.go:PeerStatus] *)
Inductive PeerStatus := PeerHealthy | PeerUnreachable | PeerSyncing.
(* [modules/federation/types.go:PeerStatus.String] *)
Definition PeerStatus_String (s : PeerStatus) : string :=
  match s with PeerHealthy => "healthy" | PeerUnreachable => "unreachable" | PeerSyncing => "syncing" end.

(* [modules/federation/types.go:Peer] *)
Record Peer := { p_Name : string; Endpoint : string; p_Secret : string; p_Status : PeerStatus; LastSeen : time }.

(* [modules/federation/types.go:SyncMessage] *)
Record SyncMessage := { sy_Type : string; sy_Version : Z; sy_PeerID : string; sy_Payload : string }.

(* [modules/federation/types.go:FederatedQueryRequest] *)
Record FederatedQueryRequest := {
  fq_Tenant : string; fq_ActionType : string; fq_Since : time; fq_Until : time; fq_Limit : Z;
}.
(* [modules/federation/types.go:AuditIndex] *)
Record AuditIndex := {
  ai_ID : string; ai_Timestamp : time; ai_Tenant : string; ai_Action : string; ai_User : string; ai_Decision : string;
}.
(* [modules/federation/types.go:FederatedQueryResponse] *)
Record FederatedQueryResponse := { fr_PeerID : string; fr_Entries : list AuditIndex; fr_Error : string }.

(* [modules/federation/delegate.go:DelegateRequest] *)
Record DelegateRequest := {
  d_Peer : string; d_Tenant : string; d_Agent : string; d_User : string; d_Message : string; d_Caller : string;
  d_Secret : string;
}.
(* [modules/federation/delegate.go:DelegateResponse] *)
Record DelegateResponse := {
  dr_PeerID : string; dr_Agent : string; dr_Content : string; dr_Error : string; dr_Decision : string;
}.

Definition with_secret (secret : string) (q : DelegateRequest) : DelegateRequest :=
  {| d_Peer := d_Peer q; d_Tenant := d_Tenant q; d_Agent := d_Agent q; d_User := d_User q; d_Message := d_Message q;
     d_Caller := d_Caller q; d_Secret := secret |}.
Definition with_caller (caller : string) (q : DelegateRequest) : DelegateRequest :=
  {| d_Peer := d_Peer q; d_Tenant := d_Tenant q; d_Agent := d_Agent q; d_User := d_User q; d_Message := d_Message q;
     d_Caller := caller; d_Secret := d_Secret q |}.
Definition with_status (s : PeerStatus) (p : Peer) : Peer :=
  {| p_Name := p_Name p; Endpoint := Endpoint p; p_Secret := p_Secret p; p_Status := s; LastSeen := LastSeen p |}.
Definition seen (now : time) (p : Peer) : Peer :=
  {| p_Name := p_Name p; Endpoint := Endpoint p; p_Secret := p_Secret p; p_Status := PeerHealthy; LastSeen := now |}.

(** ** The outside: name resolution, the codec, other nodes *)

(** A JSON answer of the API: [Respond] or [RespondError]. *)
Inductive http_answer (A : Type) := Respond (status : Z) (data : A) | RespondError (status : Z) (code message : string).
Arguments Respond {_} _ _.
Arguments RespondError {_} _ _ _.

(** What comes back from a request to a URL: it cannot be built, it fails, or a status and body. *)
Inductive wire := BuildError (e : error) | SendError (e : error) | Received (status : Z) (body : string).

Class Network := {
  (** [url.Parse], [net.LookupIP], [IP.String] and CYNTR_SSRF_ALLOW_PRIVATE. *)
  n_parse : string -> option (string * string);
  n_lookup : string -> option (list (list Z));
  n_ip_text : list Z -> string;
  n_private : bool;
  (** [json.Marshal] and [json.Unmarshal]. A field tagged [json:"-"] is not encoded. *)
  n_encode_delegate : string -> string -> string -> string -> string -> string -> Result string;
  n_encode_query : FederatedQueryRequest -> Result string;
  n_encode_sync : SyncMessage -> Result string;
  (** The envelope's data, and its error's message. *)
  n_decode_envelope : string -> option (option DelegateResponse * option string);
  n_decode_delegate : string -> option DelegateResponse;
  n_decode_query : string -> Result FederatedQueryResponse;
  (** What a POST (with the federation secret's header, a body) and a GET of a URL bring. *)
  n_post : string -> option string -> string -> wire;
  n_get : string -> option error;
}.

Section Model.
Context `{N : Network}.

Definition Validate (url : string) : option error := ValidatePublicURL n_parse n_lookup n_ip_text n_private url.

(** ** Peers *)

(* [modules/federation/peer.go:PeerManager] *)
Record PeerManager := { pm_localID : string; peers : gmap string Peer }.

(* [modules/federation/peer.go:NewPeerManager] *)
Definition NewPeerManager (localID : string) : PeerManager := {| pm_localID := localID; peers := ∅ |}.

Definition with_peers (m : gmap string Peer) (pm : PeerManager) : PeerManager :=
  {| pm_localID := pm_localID pm; peers := m |}.

(* [modules/federation/peer.go:PeerManager.Add] *)
Definition Add (p : Peer) (pm : PeerManager) : PeerManager := with_peers (<[p_Name p := p]> (peers pm)) pm.

(* [modules/federation/peer.go:PeerManager.Get] *)
Definition Get (name : string) (pm : PeerManager) : option Peer := peers pm !! name.

Definition peer_le (p q : Peer) : Prop := String.leb (p_Name p) (p_Name q) = true.
#[export] Instance peer_le_dec : RelDecision peer_le.
Proof. intros p q. unfold peer_le. apply _. Defined.

(* [modules/federation/peer.go:PeerManager.List] *)
Definition List (pm : PeerManager) : list Peer := merge_sort peer_le (map_to_list (peers pm)).*2.

(* [modules/federation/peer.go:PeerManager.Remove] *)
Definition Remove (name : string) (pm : PeerManager) : PeerManager := with_peers (delete name (peers pm)) pm.

(** The write of a health check: a peer removed meanwhile stays removed. *)
Definition set_peer (name : string) (f : Peer -> Peer) (pm : PeerManager) : PeerManager :=
  with_peers (alter f name (peers pm)) pm.

(** [pm] is the registry when the check reads it, [pm'] when it writes. *)
(* [modules/federation/peer.go:PeerManager.CheckHealth] *)
Definition CheckHealth (name : string) (now : time) (pm pm' : PeerManager) : PeerManager * option error :=
  match peers pm !! name with
  | None => (pm', Some ("peer " +:+ quote name +:+ " not found"))
  | Some p =>
      match Validate (Endpoint p) with
      | Some err => (set_peer name (with_status PeerUnreachable) pm',
                     Some ("peer " +:+ quote name +:+ " endpoint rejected: " +:+ err))
      | None =>
          match n_get (Endpoint p +:+ "/api/v1/federation/health") with
          | Some err => (set_peer name (with_status PeerUnreachable) pm',
                         Some ("peer " +:+ quote name +:+ " unreachable: " +:+ err))
          | None => (set_peer name (seen now) pm', None)
          end
      end
  end.

(** ** Residency rules *)

(* [modules/federation/residency.go:ResidencyPolicy] *)
Record ResidencyPolicy := { rules : gmap string string }.
(* [modules/federation/residency.go:NewResidencyPolicy] *)
Definition NewResidencyPolicy : ResidencyPolicy := {| rules := ∅ |}.
(* [modules/federation/residency.go:ResidencyPolicy.SetRule] *)
Definition SetRule (tenant node : string) (rp : ResidencyPolicy) : ResidencyPolicy :=
  {| rules := <[tenant := node]> (rules rp) |}.
(* [modules/federation/residency.go:ResidencyPolicy.RemoveRule] *)
Definition RemoveRule (tenant : string) (rp : ResidencyPolicy) : ResidencyPolicy :=
  {| rules := delete tenant (rules rp) |}.
(* [modules/federation/residency.go:ResidencyPolicy.Check] *)
Definition Residency_Check (tenant localNode : string) (rp : ResidencyPolicy) : option error :=
  match rules rp !! tenant with
  | None => None
  | Some requiredNode =>
      if decide (requiredNode <> localNode) then
        Some ("data residency violation: tenant " +:+ quote tenant +:+ " data must stay on node " +:+
              quote requiredNode +:+ " (current: " +:+ quote localNode +:+ ")")
      else None
  end.
(* [modules/federation/residency.go:ResidencyPolicy.GetRule] *)
Definition GetRule (tenant : string) (rp : ResidencyPolicy) : option string := rules rp !! tenant.
(* [modules/federation/residency.go:ResidencyPolicy.ListRules] *)
Definition ListRules (rp : ResidencyPolicy) : gmap string string := rules rp.

(** ** Federated audit queries *)

(* [modules/federation/query.go:maxQueryResponseBytes] *)
Definition maxQueryResponseBytes : nat := Z.to_nat (Z.shiftl 4 20).

(** What [io.LimitReader] lets through. *)
Definition limited (n : nat) (body : string) : string := String.substring 0 n body.

(** The URLs posted to, and the answer. *)
(* [modules/federation/query.go:FederatedQuery.queryPeer] *)
Definition queryPeer (peer : Peer) (req : FederatedQueryRequest) : list string * Result FederatedQueryResponse :=
  match Validate (Endpoint peer) with
  | Some _ => ([], Err ("query peer " +:+ p_Name peer +:+ ": endpoint rejected"))
  | None =>
      match n_encode_query req with
      | Err e => ([], Err ("marshal: " +:+ e))
      | Ok body =>
          let url := Endpoint peer +:+ "/federation/audit/query" in
          match n_post url None body with
          | BuildError err | SendError err => ([url], Err ("query peer " +:+ p_Name peer +:+ ": " +:+ err))
          | Received _ answer =>
              ([url], wrap_err ("decode response from " +:+ p_Name peer)
                        (n_decode_query (limited maxQueryResponseBytes answer)))
          end
      end
  end.

(** The response of a peer, and what is kept of it: entries of the tenant only. *)
Definition answer_of (req : FederatedQueryRequest) (p : Peer) : FederatedQueryResponse :=
  match (queryPeer p req).2 with
  | Err e => {| fr_PeerID := p_Name p; fr_Entries := []; fr_Error := e |}
  | Ok resp => resp
  end.
Definition scope (req : FederatedQueryRequest) (r : FederatedQueryResponse) : option FederatedQueryResponse :=
  if decide (fr_Error r <> "") then None
  else Some {| fr_PeerID := fr_PeerID r;
               fr_Entries := filter (fun e => ai_Tenant e = fq_Tenant req) (fr_Entries r);
               fr_Error := fr_Error r |}.

(** [arrival] is the order in which the goroutines of the peers get the lock. *)
(* [modules/federation/query.go:FederatedQuery.Query] *)
Definition Query (pm : PeerManager) (localID : string) (residency : option ResidencyPolicy)
    (arrival : list Peer -> list Peer) (req : FederatedQueryRequest) :
    list string * Result (list FederatedQueryResponse) :=
  if decide (fq_Tenant req = "") then ([], Err "federated query: tenant is required")
  else if (match residency with
           | Some rp => match GetRule (fq_Tenant req) rp with
                        | Some node => bool_decide (node <> localID) | None => false end
           | None => false end)
  then ([], Ok [])
  else (List pm ≫= (fun p => (queryPeer p req).1), Ok (omap (scope req) (answer_of req <$> arrival (List pm)))).

(** ** Synchronisation *)

(* [modules/federation/sync.go:PolicySync] *)
Record PolicySync := { lastVersion : gmap string Z }.
(* [modules/federation/sync.go:NewPolicySync] *)
Definition NewPolicySync : PolicySync := {| lastVersion := ∅ |}.
Definition sync_key (peerID syncType : string) : string := peerID +:+ ":" +:+ syncType.
(* [modules/federation/sync.go:PolicySync.AcceptSync] *)
Definition AcceptSync (msg : SyncMessage) (ps : PolicySync) : PolicySync * bool :=
  let key := sync_key (sy_PeerID msg) (sy_Type msg) in
  match lastVersion ps !! key with
  | Some lastVer => if decide (sy_Version msg <= lastVer) then (ps, false)
                    else ({| lastVersion := <[key := sy_Version msg]> (lastVersion ps) |}, true)
  | None => ({| lastVersion := <[key := sy_Version msg]> (lastVersion ps) |}, true)
  end.
(* [modules/federation/sync.go:PolicySync.LastVersion] *)
Definition LastVersion (peerID syncType : string) (ps : PolicySync) : Z :=
  default 0 (lastVersion ps !! sync_key peerID syncType).
(* [modules/federation/sync.go:PolicySync.sendToPeer] *)
Definition sendToPeer (peer : Peer) (msg : SyncMessage) : option error :=
  match Validate (Endpoint peer) with
  | Some _ => Some ("send to " +:+ p_Name peer +:+ ": endpoint rejected")
  | None =>
      match n_encode_sync msg with
      | Err e => Some ("marshal sync: " +:+ e)
      | Ok body =>
          match n_post (Endpoint peer +:+ "/federation/sync") None body with
          | BuildError err | SendError err => Some ("send to " +:+ p_Name peer +:+ ": " +:+ err)
          | Received status _ =>
              if decide (400 <= status) then Some ("peer " +:+ p_Name peer +:+ " returned " +:+ itoa status) else None
          end
      end
  end.
(* [modules/federation/sync.go:PolicySync.Broadcast] *)
Definition Broadcast (pm : PeerManager) (msg : SyncMessage) : option error :=
  head (omap (fun peer => sendToPeer peer msg) (List pm)).

(** ** Delegation *)

(* [modules/federation/delegate.go:maxDelegateResponseBytes] *)
Definition maxDelegateResponseBytes : nat := Z.to_nat (Z.shiftl 1 20).
(* [modules/federation/delegate.go:errDelegateUpstream] *)
Definition errDelegateUpstream : error := "federation: remote peer delegation failed".

(* [modules/federation/delegate.go:Transport] *)
Definition Transport : Type := Peer -> DelegateRequest -> Result DelegateResponse.

(** [json.Marshal] of a request: the secret is not encoded. *)
Definition marshal (q : DelegateRequest) : Result string :=
  n_encode_delegate (d_Peer q) (d_Tenant q) (d_Agent q) (d_User q) (d_Message q) (d_Caller q).

Definition secret_header (secret : string) : option string := if decide (secret <> "") then Some secret else None.

(** The two shapes an answer may have. *)
Definition read_answer (raw : string) : Result DelegateResponse :=
  match n_decode_envelope raw with
  | Some (Some data, err) =>
      if decide (default "" err <> "") then Err errDelegateUpstream else Ok data
  | _ => match n_decode_delegate raw with None => Err errDelegateUpstream | Some out => Ok out end
  end.

(* [modules/federation/delegate.go:HTTPTransport.Delegate] *)
Definition HTTP_Delegate : Transport := fun peer req =>
  match Validate (Endpoint peer) with
  | Some _ => Err errDelegateUpstream
  | None =>
      body <-? wrap_err "marshal" (marshal req) ;;
      match n_post (Endpoint peer +:+ "/api/v1/federation/inbound/delegate") (secret_header (p_Secret peer)) body with
      | BuildError e => Err ("build request: " +:+ e)
      | SendError _ => Err errDelegateUpstream
      | Received status answer =>
          if decide (400 <= status) then Err errDelegateUpstream
          else read_answer (limited maxDelegateResponseBytes answer)
      end
  end.

(** ** The module *)

(* [modules/federation/module.go:Module] *)
Record Module_ := {
  m_localID : string; m_peers : PeerManager; m_sync : PolicySync; m_residency : ResidencyPolicy;
  m_transport : Transport;
}.
(* [modules/federation/module.go:NewModule] *)
Definition NewModule (localID : string) : Module_ :=
  {| m_localID := localID; m_peers := NewPeerManager localID; m_sync := NewPolicySync;
     m_residency := NewResidencyPolicy; m_transport := HTTP_Delegate |}.
(* [modules/federation/module.go:Module.SetTransport] *)
Definition SetTransport (t : option Transport) (m : Module_) : Module_ :=
  match t with
  | None => m
  | Some t => {| m_localID := m_localID m; m_peers := m_peers m; m_sync := m_sync m; m_residency := m_residency m;
                 m_transport := t |}
  end.
Definition with_m_peers (pm : PeerManager) (m : Module_) : Module_ :=
  {| m_localID := m_localID m; m_peers := pm; m_sync := m_sync m; m_residency := m_residency m;
     m_transport := m_transport m |}.
Definition with_m_sync (ps : PolicySync) (m : Module_) : Module_ :=
  {| m_localID := m_localID m; m_peers := m_peers m; m_sync := ps; m_residency := m_residency m;
     m_transport := m_transport m |}.
Definition with_m_residency (rp : ResidencyPolicy) (m : Module_) : Module_ :=
  {| m_localID := m_localID m; m_peers := m_peers m; m_sync := m_sync m; m_residency := rp;
     m_transport := m_transport m |}.

(* [modules/federation/module.go:Module.AddPeer] *)
Definition AddPeer (p : Peer) (m : Module_) : Module_ * Peer := (with_m_peers (Add p (m_peers m)) m, p).

(* [modules/federation/module.go:Module.Health] *)
Definition Health (m : Module_) : bool * string :=
  (true, itoa (Z.of_nat (length (List (m_peers m)))) +:+ " peers, local=" +:+ m_localID m).

(** The payload of a message: one of the types the handlers take, or another, by its name. *)
Inductive payload := PPeer (p : Peer) | PString (s : string) | PSync (s : SyncMessage) | PQuery (q : FederatedQueryRequest)
  | PDelegate (q : DelegateRequest) | POther (type : string).
Definition go_type (p : payload) : string :=
  match p with
  | PPeer _ => "federation.Peer" | PString _ => "string" | PSync _ => "federation.SyncMessage"
  | PQuery _ => "federation.FederatedQueryRequest" | PDelegate _ => "federation.DelegateRequest" | POther t => t
  end.

(* [modules/federation/module.go:Module.handleJoin] *)
Definition handleJoin (p : payload) (m : Module_) : Module_ * Result string :=
  match p with
  | PPeer peer => (with_m_peers (Add peer (m_peers m)) m, Ok "ok")
  | _ => (m, Err ("expected Peer, got " +:+ go_type p))
  end.
(* [modules/federation/module.go:Module.handleRemove] *)
Definition handleRemove (p : payload) (m : Module_) : Module_ * Result string :=
  match p with
  | PString name => (with_m_peers (Remove name (m_peers m)) m, Ok "ok")
  | _ => (m, Err ("expected string, got " +:+ go_type p))
  end.
(* [modules/federation/module.go:Module.handlePeers] *)
Definition handlePeers (m : Module_) : list Peer := List (m_peers m).
(* [modules/federation/module.go:Module.handleSync] *)
Definition handleSync (p : payload) (m : Module_) : Module_ * Result bool :=
  match p with
  | PSync msg => let '(ps, accepted) := AcceptSync msg (m_sync m) in (with_m_sync ps m, Ok accepted)
  | _ => (m, Err ("expected SyncMessage, got " +:+ go_type p))
  end.
(* [modules/federation/module.go:Module.handleQuery] *)
Definition handleQuery (arrival : list Peer -> list Peer) (p : payload) (m : Module_) :
    list string * Result (list FederatedQueryResponse) :=
  match p with
  | PQuery req => Query (m_peers m) (m_localID m) (Some (m_residency m)) arrival req
  | _ => ([], Err ("expected FederatedQueryRequest, got " +:+ go_type p))
  end.

(* [modules/federation/module.go:Module.handleDelegate] *)
Definition handleDelegate (p : payload) (m : Module_) : Result DelegateResponse :=
  match p with
  | PDelegate req =>
      if decide (d_Peer req = "") then Err "delegate: peer is required"
      else
        match Get (d_Peer req) (m_peers m) with
        | None => Err ("peer " +:+ quote (d_Peer req) +:+ " not registered")
        | Some peer =>
            let req := if decide (d_Caller req = "") then with_caller (m_localID m) req else req in
            resp <-? m_transport m peer req ;;
            if decide (dr_Error resp <> "") then Err "federation: remote peer delegation failed" else Ok resp
        end
  | _ => Err ("expected DelegateRequest, got " +:+ go_type p)
  end.

Fixpoint find_secret (secret : string) (l : list Peer) : option string :=
  match l with
  | [] => None
  | p :: l => if decide (p_Secret p <> "" /\ secret = p_Secret p) then Some (p_Name p) else find_secret secret l
  end.
(* [modules/federation/module.go:Module.authenticatePeer] *)
Definition authenticatePeer (secret : string) (m : Module_) : option string :=
  if decide (secret = "") then None else find_secret secret (List (m_peers m)).

(** The requests an inbound delegation makes on the bus. *)
Inductive call := CallPolicy (q : Policy.CheckRequest) | CallChat (q : AgentSession.ChatRequest).

Definition denied (m : Module_) (agent err decision : string) : DelegateResponse :=
  {| dr_PeerID := m_localID m; dr_Agent := agent; dr_Content := ""; dr_Error := err; dr_Decision := decision |}.

Definition inbound_check (peer : string) (req : DelegateRequest) : Policy.CheckRequest :=
  {| Policy.req_Tenant := d_Tenant req; Policy.req_Action := "federation_inbound"; Policy.req_Tool := "delegate_agent";
     Policy.req_Agent := d_Agent req; Policy.req_User := "federation:" +:+ peer |}.
Definition inbound_chat (peer : string) (req : DelegateRequest) : AgentSession.ChatRequest :=
  {| AgentSession.rq_Agent := d_Agent req; AgentSession.rq_Tenant := d_Tenant req;
     AgentSession.rq_User := "federation:" +:+ peer; AgentSession.rq_Message := d_Message req;
     AgentSession.rq_Channel := ""; AgentSession.rq_ChannelID := "" |}.

(** The bus: the policy engine's and the agent runtime's replies, and the type's name when the
    runtime's payload is another. *)
Record local_bus := {
  b_policy : Policy.CheckRequest -> reply Policy.CheckResponse;
  b_chat : AgentSession.ChatRequest -> reply AgentSession.ChatResponse;
  b_chat_type : string;
}.

Definition inbound_dispatch (bus : local_bus) (req : DelegateRequest) (authPeer : string) (m : Module_) : DelegateResponse :=
  match b_chat bus (inbound_chat authPeer req) with
  | AgentTurn.Failed err => denied m (d_Agent req) err ""
  | AgentTurn.OtherPayload => denied m (d_Agent req) ("unexpected chat response type: " +:+ b_chat_type bus) ""
  | AgentTurn.Replied cr =>
      {| dr_PeerID := m_localID m; dr_Agent := AgentSession.rs_Agent cr; dr_Content := AgentSession.rs_Content cr;
         dr_Error := ""; dr_Decision := Policy.Decision_String Policy.Allow |}
  end.

(** The response, and the requests made on the bus to get it. *)
(* [modules/federation/module.go:Module.handleDelegateInbound] *)
Definition handleDelegateInbound (bus : local_bus) (p : payload) (m : Module_) : Result (list call * DelegateResponse) :=
  match p with
  | PDelegate req =>
      match authenticatePeer (d_Secret req) m with
      | None => Ok ([], denied m (d_Agent req) "federation_inbound denied: unauthenticated peer" "")
      | Some authPeer =>
          match Residency_Check (d_Tenant req) (m_localID m) (m_residency m) with
          | Some _ => Ok ([], denied m (d_Agent req) "federation_inbound denied: data residency restriction" "")
          | None =>
              let check := inbound_check authPeer req in
              let proceed := Ok ([CallPolicy check; CallChat (inbound_chat authPeer req)],
                                 inbound_dispatch bus req authPeer m) in
              let failed := Ok ([CallPolicy check], denied m (d_Agent req) "federation_inbound denied: policy check failed" "") in
              match b_policy bus check with
              | AgentTurn.Failed perr => if decide (perr = Ipc.ErrNoHandler) then proceed else failed
              | AgentTurn.Replied cr =>
                  if decide (Policy.resp_Decision cr <> Policy.Allow) then
                    Ok ([CallPolicy check],
                        denied m (d_Agent req) ("federation_inbound denied by policy: " +:+ Policy.resp_Reason cr)
                          (Policy.Decision_String (Policy.resp_Decision cr)))
                  else proceed
              | AgentTurn.OtherPayload => failed
              end
          end
      end
  | _ => Err ("expected DelegateRequest, got " +:+ go_type p)
  end.

(** ** The HTTP API *)

(** A body that is no JSON decodes to nothing; a decoded request or peer has no secret. *)
(* [web/api/federation.go:Server.handleFederationJoin] *)
Definition handleFederationJoin (body : option Peer) (m : Module_) : Module_ * http_answer string :=
  match body with
  | None => (m, RespondError 400 "INVALID_REQUEST" "invalid JSON")
  | Some peer =>
      let peer := {| p_Name := p_Name peer; Endpoint := Endpoint peer; p_Secret := ""; p_Status := p_Status peer;
                     LastSeen := LastSeen peer |} in
      match handleJoin (PPeer peer) m with
      | (m, Err e) => (m, RespondError 500 "JOIN_FAILED" e)
      | (m, Ok _) => (m, Respond 201 (p_Name peer))
      end
  end.
(* [web/api/federation.go:Server.handleFederationDelegate] *)
Definition handleFederationDelegate (body : option DelegateRequest) (m : Module_) : http_answer DelegateResponse :=
  match body with
  | None => RespondError 400 "INVALID_REQUEST" "invalid JSON"
  | Some req =>
      let req := with_secret "" req in
      if decide (d_Peer req = "" \/ d_Tenant req = "" \/ d_Agent req = "" \/ d_Message req = "") then
        RespondError 400 "INVALID_REQUEST" "peer, tenant, agent, and message are required"
      else
        match handleDelegate (PDelegate req) m with
        | Err e => RespondError 502 "DELEGATE_FAILED" e
        | Ok resp => Respond 200 resp
        end
  end.
(* [web/api/federation.go:Server.handleFederationDelegateInbound] *)
Definition handleFederationDelegateInbound (bus : local_bus) (header : option string) (body : option DelegateRequest)
    (m : Module_) : http_answer DelegateResponse :=
  match body with
  | None => RespondError 400 "INVALID_REQUEST" "invalid JSON"
  | Some req =>
      match handleDelegateInbound bus (PDelegate (with_secret (default "" header) req)) m with
      | Err e => RespondError 500 "INBOUND_FAILED" e
      | Ok (_, resp) => Respond 200 resp
      end
  end.
End Model.

(** ** The registry *)
Section Proofs.
Context `{N : Network}.

Definition registered (m : Module_) (p : Peer) : Prop := exists key, peers (m_peers m) !! key = Some p.

#[local] Instance peer_le_total : Total peer_le.
Proof. intros p q. unfold peer_le. destruct (String.leb_total (p_Name p) (p_Name q)); [by left|by right]. Qed.
#[local] Instance peer_le_trans : Transitive peer_le.
Proof. intros p q r. unfold peer_le. apply string_leb_trans. Qed.

Lemma List_elem pm p : p ∈ List pm <-> exists key, peers pm !! key = Some p.
Proof.
  unfold List. rewrite merge_sort_Permutation, list_elem_of_fmap. split.
  - intros ([key p'] & -> & H%elem_of_map_to_list). by exists key.
  - intros (key & H%elem_of_map_to_list). by exists (key, p).
Qed.
Lemma List_sorted pm : StronglySorted peer_le (List pm).
Proof. unfold List. apply (StronglySorted_merge_sort peer_le). Qed.

(** A peer is kept under its name, by every operation on the registry. *)
Definition well_named (pm : PeerManager) : Prop := map_Forall (fun key p => p_Name p = key) (peers pm).
Lemma registry_well_named pm pm' name p now :
  well_named (NewPeerManager (pm_localID pm)) /\
  (well_named pm -> well_named (Add p pm) /\ well_named (Remove name pm)) /\
  (well_named pm' -> well_named (CheckHealth name now pm pm').1).
Proof.
  unfold well_named. split; [apply map_Forall_empty|]. split.
  - intros H. split; [by apply map_Forall_insert_2|by apply map_Forall_delete].
  - intros H. assert (Hset : forall f, (forall q, p_Name (f q) = p_Name q) ->
      map_Forall (fun key p => p_Name p = key) (peers (set_peer name f pm'))).
    { intros f Hf key q. simpl. rewrite lookup_alter_Some. intros [(-> & q' & Hq & ->)|[_ Hq]]; [rewrite Hf|]; by apply H. }
    unfold CheckHealth. destruct (peers pm !! name) as [q|]; [|done].
    destruct (Validate _); [by apply Hset|]. destruct (n_get _); by apply Hset.
Qed.

(** ** Inbound delegations *)

(** The peer a secret identifies: registered with that secret, the first of them by name. *)
Definition identified (m : Module_) (secret : string) (name : string) : Prop :=
  secret <> "" /\ exists p, registered m p /\ p_Secret p = secret /\ p_Name p = name /\
    forall q, registered m q -> p_Secret q = secret -> String.leb name (p_Name q) = true.

Lemma find_secret_spec secret l name : StronglySorted peer_le l -> secret <> "" ->
  find_secret secret l = Some name <->
  exists p, p ∈ l /\ p_Secret p = secret /\ p_Name p = name /\
    forall q, q ∈ l -> p_Secret q = secret -> String.leb name (p_Name q) = true.
Proof.
  intros Hs Hne. induction Hs as [|p l Hs IH Hall]; simpl; [split; [done|by intros (? & ?%not_elem_of_nil & _)]|].
  rewrite Forall_forall in Hall. destruct (decide (p_Secret p <> "" /\ secret = p_Secret p)) as [[_ ->]|Hp].
  - assert (Hmin : forall q, q ∈ p :: l -> String.leb (p_Name p) (p_Name q) = true).
    { intros q [->|Hq]%elem_of_cons; [|by apply Hall]. by destruct (String.leb_total (p_Name p) (p_Name p)). }
    split.
    + intros [= <-]. exists p. repeat split; [by left|]. by auto.
    + intros (q & Hq & Hsec & <- & Hall'). f_equal. apply String.leb_antisym; [by apply Hmin|].
      apply Hall'; [by left|done].
  - assert (Hp' : p_Secret p <> secret) by (intros E; apply Hp; by rewrite E).
    rewrite IH. split; intros (q & Hq & Hsec & Hn & Hmin).
    + exists q. repeat split; [by right|done|done|]. intros q' [->|Hq']%elem_of_cons ?; [done|by apply Hmin].
    + apply elem_of_cons in Hq as [->|Hq]; [done|]. exists q. repeat split; [done..|]. intros q' Hq'. apply Hmin. by right.
Qed.

Lemma authenticatePeer_spec secret m name :
  authenticatePeer secret m = Some name <-> identified m secret name.
Proof.
  unfold authenticatePeer, identified. case_decide as Hs; [split; [done|by intros [? _]]|].
  rewrite find_secret_spec by (done || apply List_sorted). unfold registered. setoid_rewrite List_elem. naive_solver.
Qed.

(** The tenant is pinned to another node. *)
Definition pinned_elsewhere (m : Module_) (tenant : string) : Prop :=
  exists node, rules (m_residency m) !! tenant = Some node /\ node <> m_localID m.
Lemma Residency_Check_spec m tenant :
  Residency_Check tenant (m_localID m) (m_residency m) = None <-> ~ pinned_elsewhere m tenant.
Proof.
  unfold Residency_Check, pinned_elsewhere. destruct (rules _ !! tenant) as [node|]; [|naive_solver].
  case_decide as Hd; split; try done; naive_solver.
Qed.

(** The policy engine allows the check, or there is no policy engine. *)
Definition permits (bus : local_bus) (q : Policy.CheckRequest) : Prop :=
  (exists cr, b_policy bus q = Replied cr /\ Policy.resp_Decision cr = Policy.Allow) \/
  b_policy bus q = Failed Ipc.ErrNoHandler.
#[local] Instance permits_dec bus q : Decision (permits bus q).
Proof.
  unfold permits. destruct (b_policy bus q) as [cr| |e] eqn:E.
  - destruct (decide (Policy.resp_Decision cr = Policy.Allow)); [left; left; by exists cr|right; naive_solver].
  - right; naive_solver.
  - destruct (decide (e = Ipc.ErrNoHandler)) as [->|]; [left; by right|right; naive_solver].
Defined.

(** The one way through an inbound delegation. *)
Lemma inbound_through bus req m name :
  identified m (d_Secret req) name -> ~ pinned_elsewhere m (d_Tenant req) -> permits bus (inbound_check name req) ->
  handleDelegateInbound bus (PDelegate req) m =
    Ok ([CallPolicy (inbound_check name req); CallChat (inbound_chat name req)], inbound_dispatch bus req name m).
Proof.
  intros Ha%authenticatePeer_spec Hr%Residency_Check_spec Hp. unfold handleDelegateInbound. rewrite Ha, Hr.
  destruct Hp as [(cr & -> & Hcr)| ->]; [rewrite Hcr|]; done.
Qed.

(** Whether an inbound delegation goes through. *)
Definition goes_through (bus : local_bus) (req : DelegateRequest) (m : Module_) : Prop :=
  exists name, identified m (d_Secret req) name /\ ~ pinned_elsewhere m (d_Tenant req) /\ permits bus (inbound_check name req).

(** Every other inbound delegation is refused, without reaching an agent. *)
Lemma inbound_refused bus req m :
  ~ goes_through bus req m ->
  exists calls err decision, handleDelegateInbound bus (PDelegate req) m = Ok (calls, denied m (d_Agent req) err decision) /\
    (forall q, CallChat q ∉ calls) /\ err <> "" /\ decision <> "allow".
Proof.
  intros Hno. unfold handleDelegateInbound. destruct (authenticatePeer (d_Secret req) m) as [name|] eqn:Ha.
  2:{ eexists _, _, _. split; [reflexivity|]. split; [intros q; apply not_elem_of_nil|done]. }
  destruct (Residency_Check (d_Tenant req) (m_localID m) (m_residency m)) eqn:Hr.
  { eexists _, _, _. split; [reflexivity|]. split; [intros q; apply not_elem_of_nil|done]. }
  assert (Hp : ~ permits bus (inbound_check name req)).
  { intros Hp. apply Hno. exists name. by rewrite <- authenticatePeer_spec, <- Residency_Check_spec. }
  assert (Hnot : forall q, CallChat q ∉ [CallPolicy (inbound_check name req)]) by (intros q; by rewrite list_elem_of_singleton).
  unfold permits in Hp. destruct (b_policy bus _) as [cr| |perr].
  - rewrite decide_True by naive_solver. eexists _, _, _. split; [reflexivity|]. split; [done|]. split; [done|].
    destruct (Policy.resp_Decision cr) eqn:E; naive_solver.
  - eexists _, _, _. by split; [reflexivity|].
  - rewrite decide_False by naive_solver. eexists _, _, _. by split; [reflexivity|].
Qed.

Lemma identified_unique m secret name name' : identified m secret name -> identified m secret name' -> name = name'.
Proof. rewrite <- !authenticatePeer_spec. congruence. Qed.

Lemma inbound_decided bus req m : goes_through bus req m \/ ~ goes_through bus req m.
Proof.
  unfold goes_through. destruct (authenticatePeer (d_Secret req) m) as [name|] eqn:Ha.
  2:{ right. intros (name & Hi & _). apply authenticatePeer_spec in Hi. congruence. }
  apply authenticatePeer_spec in Ha. destruct (Residency_Check (d_Tenant req) (m_localID m) (m_residency m)) eqn:Hr.
  { right. intros (name' & _ & Hp & _). apply Residency_Check_spec in Hp. congruence. }
  apply Residency_Check_spec in Hr. destruct (decide (permits bus (inbound_check name req))) as [Hp|Hp].
  - left. by exists name.
  - right. intros (name' & Hi & _ & Hp'). by rewrite (identified_unique m _ name' name Hi Ha) in Hp'.
Qed.

(** An inbound delegation reaches an agent of this node only for a peer this node
    knows.  A chat is dispatched exactly when the secret that came with the request is non-empty
    and is that of a registered peer, the tenant is not pinned to another node, and the policy
    engine allows federation_inbound for that peer (or there is none: an approval does not do).
    The chat then runs as that peer, the first by name that has the secret: the identity and the
    caller the request claims make no difference to anything.  What is refused is answered with
    an error, no content and a decision other than allow. *)
Lemma delegate_inbound_gated bus req m :
  exists calls resp, handleDelegateInbound bus (PDelegate req) m = Ok (calls, resp) /\
    (forall q, CallChat q ∈ calls <->
       exists name, identified m (d_Secret req) name /\ ~ pinned_elsewhere m (d_Tenant req) /\
         permits bus (inbound_check name req) /\ q = inbound_chat name req) /\
    ((forall q, CallChat q ∉ calls) -> dr_Error resp <> "" /\ dr_Content resp = "" /\ dr_Decision resp <> "allow") /\
    (dr_Decision resp = "allow" -> exists name cr, identified m (d_Secret req) name /\
       b_chat bus (inbound_chat name req) = Replied cr /\ dr_Content resp = AgentSession.rs_Content cr) /\
    (forall req', d_Secret req' = d_Secret req -> d_Tenant req' = d_Tenant req -> d_Agent req' = d_Agent req ->
       d_Message req' = d_Message req ->
       handleDelegateInbound bus (PDelegate req') m = handleDelegateInbound bus (PDelegate req) m).
Proof.
  assert (Hsame : forall req', d_Secret req' = d_Secret req -> d_Tenant req' = d_Tenant req -> d_Agent req' = d_Agent req ->
       d_Message req' = d_Message req ->
       handleDelegateInbound bus (PDelegate req') m = handleDelegateInbound bus (PDelegate req) m).
  { intros req' H1 H2 H3 H4. unfold handleDelegateInbound, inbound_dispatch, inbound_check, inbound_chat.
    by rewrite H1, H2, H3, H4. }
  destruct (inbound_decided bus req m) as [(name & Hi & Hpin & Hp)|Hno].
  - rewrite (inbound_through bus req m name Hi Hpin Hp). eexists _, _. split; [reflexivity|].
    split; [|split; [|split; [|by intros; rewrite Hsame, (inbound_through bus req m name Hi Hpin Hp)]]].
    + intros q. rewrite !elem_of_cons, elem_of_nil. split.
      * intros [?|[[= ->]|[]]]; [done|]. by exists name.
      * intros (name' & Hi' & _ & _ & ->). right; left. by rewrite (identified_unique m _ name' name Hi' Hi).
    + intros Hno. exfalso. apply (Hno (inbound_chat name req)). by right; left.
    + unfold inbound_dispatch. destruct (b_chat _ _) as [cr| |] eqn:Hc; [|done|done]. intros _. by exists name, cr.
  - destruct (inbound_refused bus req m Hno) as (calls & err & decision & Heq & Hcalls & He & Hd).
    exists calls, (denied m (d_Agent req) err decision). split; [exact Heq|]. split; [|by split; [|split]].
    intros q. split; [by intros ?%Hcalls|]. intros (name' & Hi & Hpin & Hper & _). exfalso. apply Hno. by exists name'.
Qed.

(** ** Two nodes *)

(** The request as A sends it. *)
Definition stamped (A : Module_) (req : DelegateRequest) : DelegateRequest :=
  if decide (d_Caller req = "") then with_caller (m_localID A) req else req.

(** A's peer leads to B over HTTP: the request passes the guard and is encoded; B answers it with
    the secret of A's header, and the answer is decoded as it was encoded. *)
Record connected (A B : Module_) (bus : local_bus) (req : DelegateRequest) (peer : Peer) : Prop := {
  c_transport : m_transport A = HTTP_Delegate;
  c_peer : d_Peer req <> "" /\ Get (d_Peer req) (m_peers A) = Some peer;
  c_guard : Validate (Endpoint peer) = None;
  c_wire : exists body raw, marshal (stamped A req) = Ok body /\
    n_post (Endpoint peer +:+ "/api/v1/federation/inbound/delegate") (secret_header (p_Secret peer)) body = Received 200 raw /\
    forall resp,
      handleFederationDelegateInbound bus (secret_header (p_Secret peer)) (Some (stamped A req)) B = Respond 200 resp ->
      n_decode_envelope (limited maxDelegateResponseBytes raw) = Some (Some resp, None);
  (** No error of the runtime is empty. *)
  c_errors : forall q, b_chat bus q <> Failed "";
}.

Lemma secret_header_spec secret : default "" (secret_header secret) = secret.
Proof. unfold secret_header. case_decide; simpl; [done|]. by destruct (decide (secret = "")). Qed.

Lemma delegate_over_wire A B bus req peer calls resp : connected A B bus req peer ->
  handleDelegateInbound bus (PDelegate (with_secret (p_Secret peer) (stamped A req))) B = Ok (calls, resp) ->
  handleDelegate (PDelegate req) A = if decide (dr_Error resp <> "") then Err errDelegateUpstream else Ok resp.
Proof.
  intros [Ht [Hne Hget] Hg (body & raw & Hm & Hpost & Hdec) _] Hin.
  assert (Henv : n_decode_envelope (limited maxDelegateResponseBytes raw) = Some (Some resp, None)).
  { apply Hdec. unfold handleFederationDelegateInbound. by rewrite secret_header_spec, Hin. }
  unfold handleDelegate. rewrite decide_False, Hget, Ht by done. change (if decide (d_Caller req = "") then _ else _) with (stamped A req).
  unfold HTTP_Delegate. rewrite Hg, Hm. simpl rbind. rewrite Hpost. unfold read_answer. rewrite Henv. by simpl.
Qed.

(** A delegation between two nodes.  A asks for a chat on a tenant's agent at its
    peer B, over HTTP.  A gets B's agent's answer, marked allow, exactly when the secret A has for
    B is that of a peer registered at B, the tenant is not pinned away from B, B's policy allows
    that peer, and B's agent replies.  In every other case A gets one error, which says nothing of
    the reason. *)
Lemma delegation_between_nodes A B bus req peer : connected A B bus req peer ->
  let q := with_secret (p_Secret peer) (stamped A req) in
  let answered name cr := identified B (p_Secret peer) name /\ ~ pinned_elsewhere B (d_Tenant req) /\
    permits bus (inbound_check name q) /\ b_chat bus (inbound_chat name q) = Replied cr in
  (exists name cr, answered name cr /\ handleDelegate (PDelegate req) A =
     Ok {| dr_PeerID := m_localID B; dr_Agent := AgentSession.rs_Agent cr; dr_Content := AgentSession.rs_Content cr;
           dr_Error := ""; dr_Decision := "allow" |}) \/
  (~ (exists name cr, answered name cr)) /\ handleDelegate (PDelegate req) A = Err errDelegateUpstream.
Proof.
  intros Hc q answered. assert (Hten : d_Tenant q = d_Tenant req) by (unfold q, stamped; by case_decide).
  assert (Hgt : forall name cr, answered name cr -> goes_through bus q B).
  { intros name cr (Hi & Hpin & Hper & _). exists name. by rewrite Hten. }
  destruct (inbound_decided bus q B) as [(name & Hi & Hpin & Hper)|Hno].
  - pose proof (inbound_through bus q B name Hi Hpin Hper) as Hin.
    rewrite (delegate_over_wire A B bus req peer _ _ Hc Hin). rewrite Hten in Hpin.
    unfold inbound_dispatch. destruct (b_chat bus (inbound_chat name q)) as [cr| |err] eqn:Hchat.
    + left. exists name, cr. split; [done|]. by rewrite decide_False by (intros H; by apply H).
    + right. rewrite decide_True by done. split; [|done]. intros (name' & cr & Hi' & _ & _ & Hr).
      rewrite (identified_unique B _ name' name Hi' Hi) in Hr. congruence.
    + right. rewrite decide_True by (simpl; intros ->; by apply (c_errors _ _ _ _ _ Hc _ Hchat)).
      split; [|done]. intros (name' & cr & Hi' & _ & _ & Hr). rewrite (identified_unique B _ name' name Hi' Hi) in Hr. congruence.
  - right. destruct (inbound_refused bus q B Hno) as (calls & err & decision & Hin & _ & He & _).
    rewrite (delegate_over_wire A B bus req peer _ _ Hc Hin), decide_True by done.
    split; [|done]. intros (name & cr & Ha). by apply Hno, (Hgt name cr).
Qed.

(** ** Queries *)

Lemma query_posts req body l : n_encode_query req = Ok body ->
  (l ≫= (fun p => (queryPeer p req).1)) =
  (fun p => Endpoint p +:+ "/federation/audit/query") <$> filter (fun p => Validate (Endpoint p) = None) l.
Proof.
  intros Hb. induction l as [|p l IH]; [done|]. rewrite bind_cons, IH, filter_cons. unfold queryPeer.
  destruct (Validate (Endpoint p)); [by rewrite decide_False|]. rewrite decide_True, Hb by done. by destruct (n_post _ _ _).
Qed.

Lemma scope_spec req r r' : scope req r = Some r' ->
  fr_Error r = "" /\ forall e, e ∈ fr_Entries r' <-> ai_Tenant e = fq_Tenant req /\ e ∈ fr_Entries r.
Proof.
  unfold scope. case_decide as Hd; [done|]. intros [= <-]. split.
  - by destruct (decide (fr_Error r = "")).
  - intros e. simpl. by rewrite list_elem_of_filter.
Qed.

Lemma query_fans_out arrival req m : (forall l, arrival l ≡ₚ l) ->
  (forall body, n_encode_query req = Ok body ->
     (List (m_peers m) ≫= (fun p => (queryPeer p req).1)) =
     (fun p => Endpoint p +:+ "/federation/audit/query") <$>
       filter (fun p => Validate (Endpoint p) = None) (List (m_peers m))) /\
  exists rs, Ok (omap (scope req) (answer_of req <$> arrival (List (m_peers m)))) = Ok rs /\
    rs ≡ₚ omap (scope req) (answer_of req <$> List (m_peers m)) /\
    forall r e, r ∈ rs -> e ∈ fr_Entries r -> ai_Tenant e = fq_Tenant req /\
      exists p resp, registered m p /\ (queryPeer p req).2 = Ok resp /\ fr_Error resp = "" /\ e ∈ fr_Entries resp.
Proof.
  intros Harr. split; [intros body Hb; by apply (query_posts req body)|].
  eexists. split; [reflexivity|]. assert (Hp : omap (scope req) (answer_of req <$> arrival (List (m_peers m))) ≡ₚ
    omap (scope req) (answer_of req <$> List (m_peers m))) by (by rewrite Harr).
  split; [exact Hp|]. intros r e Hr He. rewrite Hp, list_elem_of_omap in Hr. destruct Hr as (resp & Hresp & Hsc).
  apply scope_spec in Hsc as [Herr Hents]. apply Hents in He as [Hten He]. split; [done|].
  apply list_elem_of_fmap in Hresp as (p & -> & Hp'%List_elem). unfold answer_of in *.
  destruct ((queryPeer p req).2) as [resp|err] eqn:Hq; [by exists p, resp|].
  simpl in He. by apply not_elem_of_nil in He.
Qed.

(** A federated audit query shows a tenant's entries and no other's, and asks nobody
    about a tenant pinned to another node.  It needs a tenant; when the tenant is pinned
    elsewhere, nothing is sent and the result is empty; otherwise the peers whose endpoint passes
    the guard are each asked once, and whatever they answer, and in whatever order, the result is
    what those that answered without error gave, reduced to the tenant's entries. *)
Lemma query_tenant_scoped arrival req m : (forall l, arrival l ≡ₚ l) ->
  let '(posts, res) := handleQuery arrival (PQuery req) m in
  (fq_Tenant req = "" -> posts = [] /\ res = Err "federated query: tenant is required") /\
  (fq_Tenant req <> "" -> pinned_elsewhere m (fq_Tenant req) -> posts = [] /\ res = Ok []) /\
  (fq_Tenant req <> "" -> ~ pinned_elsewhere m (fq_Tenant req) ->
     (forall body, n_encode_query req = Ok body ->
        posts = (fun p => Endpoint p +:+ "/federation/audit/query") <$>
                filter (fun p => Validate (Endpoint p) = None) (List (m_peers m))) /\
     exists rs, res = Ok rs /\ rs ≡ₚ omap (scope req) (answer_of req <$> List (m_peers m)) /\
       forall r e, r ∈ rs -> e ∈ fr_Entries r -> ai_Tenant e = fq_Tenant req /\
         exists p resp, registered m p /\ (queryPeer p req).2 = Ok resp /\ fr_Error resp = "" /\ e ∈ fr_Entries resp).
Proof.
  intros Harr. unfold handleQuery, Query, GetRule, pinned_elsewhere. case_decide as Ht; [naive_solver|].
  destruct (rules (m_residency m) !! fq_Tenant req) as [node|] eqn:Hn; [destruct (decide (node <> m_localID m)) as [Hd|Hd]|].
  - rewrite bool_decide_true by done. split; [done|]. split; [done|]. intros _ Hno. exfalso. apply Hno. by exists node.
  - rewrite bool_decide_false by done. split; [done|]. split; [naive_solver|]. intros _ _. by apply query_fans_out.
  - split; [done|]. split; [naive_solver|]. intros _ _. by apply query_fans_out.
Qed.

(** ** Versions *)

Fixpoint receive (l : list SyncMessage) (ps : PolicySync) : PolicySync * list bool :=
  match l with
  | [] => (ps, [])
  | msg :: l => let '(ps, ok) := AcceptSync msg ps in let '(ps, oks) := receive l ps in (ps, ok :: oks)
  end.
(** The versions accepted under a key. *)
Definition versions (key : string) (l : list SyncMessage) (oks : list bool) : list Z :=
  (fun p => sy_Version p.1) <$> filter (fun p => p.2 = true /\ sync_key (sy_PeerID p.1) (sy_Type p.1) = key) (zip l oks).

Lemma accept_version key msg ps ps' ok : AcceptSync msg ps = (ps', ok) ->
  (ok = true /\ sync_key (sy_PeerID msg) (sy_Type msg) = key /\ lastVersion ps' !! key = Some (sy_Version msg) /\
     (forall v, lastVersion ps !! key = Some v -> v < sy_Version msg)) \/
  ~ (ok = true /\ sync_key (sy_PeerID msg) (sy_Type msg) = key) /\ lastVersion ps' !! key = lastVersion ps !! key.
Proof.
  unfold AcceptSync. destruct (decide (sync_key (sy_PeerID msg) (sy_Type msg) = key)) as [<-|Hk].
  - destruct (lastVersion ps !! _) as [v|] eqn:Hv.
    + case_decide as Hle; intros [= <- <-]; [right; naive_solver|left]. simpl. rewrite lookup_insert_eq.
      split; [done|]. split; [done|]. split; [done|]. intros w [= <-]. lia.
    + intros [= <- <-]. left. simpl. by rewrite lookup_insert_eq.
  - intros H. right. split; [by intros [_ ?]|]. revert H.
    destruct (lastVersion ps !! _) as [v|]; [case_decide|]; intros [= <- <-]; simpl; by rewrite ?lookup_insert_ne.
Qed.

Lemma receive_versions key l : forall ps ps' oks, receive l ps = (ps', oks) ->
  let vs := versions key l oks in
  StronglySorted Z.lt vs /\
  (forall v, lastVersion ps !! key = Some v -> Forall (Z.lt v) vs) /\
  lastVersion ps' !! key = match last vs with Some v => Some v | None => lastVersion ps !! key end.
Proof.
  induction l as [|msg l IH]; intros ps ps' oks; simpl.
  { intros [= <- <-]. split; [constructor|]. split; [by constructor|done]. }
  destruct (AcceptSync msg ps) as [ps1 ok] eqn:Ha. destruct (receive l ps1) as [ps2 oks'] eqn:Hr. intros [= <- <-].
  destruct (IH _ _ _ Hr) as (Hs & Hlow & Hlast). unfold versions in *. simpl zip. rewrite filter_cons.
  destruct (accept_version key msg ps ps1 ok Ha) as [(-> & Hk & Hset & Hlt)|[Hno Hsame]].
  - rewrite decide_True by done. rewrite fmap_cons. cbn [fst]. specialize (Hlow _ Hset). split; [by constructor|]. split.
    + intros v Hv. constructor; [by apply Hlt|]. eapply Forall_impl; [exact Hlow|]. intros w Hw. specialize (Hlt v Hv). lia.
    + rewrite last_cons, Hlast, Hset. by destruct (last _).
  - rewrite decide_False by done. rewrite <- Hsame. done.
Qed.

(** Of the synchronisation messages of one peer and type, in whatever order they
    come, repeated or not, the versions accepted strictly increase, and the last version is that
    of the last message accepted: nothing is applied twice and nothing old is applied over
    something new. *)
Lemma sync_versions_increase localID peerID syncType l :
  let '(ps, oks) := receive l (m_sync (NewModule localID)) in
  let vs := versions (sync_key peerID syncType) l oks in
  StronglySorted Z.lt vs /\ LastVersion peerID syncType ps = default 0 (last vs).
Proof.
  destruct (receive l (m_sync (NewModule localID))) as [ps oks] eqn:Hr.
  destruct (receive_versions (sync_key peerID syncType) l _ _ _ Hr) as (Hs & _ & Hlast). split; [done|].
  unfold LastVersion. rewrite Hlast. by destruct (last _).
Qed.
End Proofs.

(** ** Concrete nodes *)

Definition demo_peer (name secret : string) : Peer :=
  {| p_Name := name; Endpoint := "https://" +:+ name; p_Secret := secret; p_Status := PeerHealthy; LastSeen := 0 |}.
Definition demo_reply : DelegateResponse :=
  {| dr_PeerID := "berlin"; dr_Agent := "g"; dr_Content := "hello"; dr_Error := ""; dr_Decision := "allow" |}.

(** Every host resolves to a public address, and every delegation is answered with "hello". *)
#[local] Instance demo_network : Network := {|
  n_parse := fun url => Some ("https", url); n_lookup := fun _ => Some [[8; 8; 8; 8]]; n_ip_text := fun _ => "8.8.8.8";
  n_private := false; n_encode_delegate := fun _ _ _ _ message _ => Ok message; n_encode_query := fun q => Ok (fq_Tenant q);
  n_encode_sync := fun m => Ok (sy_Payload m); n_decode_envelope := fun _ => Some (Some demo_reply, None);
  n_decode_delegate := fun _ => None;
  n_decode_query := fun s => Ok {| fr_PeerID := "berlin"; fr_Entries :=
    (fun t => {| ai_ID := "1"; ai_Timestamp := 0; ai_Tenant := t; ai_Action := "chat"; ai_User := "u"; ai_Decision := "allow" |})
      <$> ["t"; "other"]; fr_Error := "" |};
  n_post := fun _ _ _ => Received 200 "ok"; n_get := fun _ => None;
|}.

Definition paris : Module_ := (AddPeer (demo_peer "berlin" "s3cret") (NewModule "paris")).1.
Definition berlin : Module_ := (AddPeer (demo_peer "paris" "s3cret") (NewModule "berlin")).1.
Definition demo_bus : local_bus :=
  {| b_policy := fun _ => Replied {| Policy.resp_Decision := Policy.Allow; Policy.resp_Rule := "r"; Policy.resp_Reason := "" |};
     b_chat := fun _ => Replied {| AgentSession.rs_Agent := "g"; AgentSession.rs_Content := "hello"; AgentSession.rs_ToolsUsed := [] |};
     b_chat_type := "" |}.
Definition demo_delegation : DelegateRequest :=
  {| d_Peer := "berlin"; d_Tenant := "t"; d_Agent := "g"; d_User := "ann"; d_Message := "hi"; d_Caller := ""; d_Secret := "" |}.

Lemma delegation_between_nodes_witness :
  exists name cr, identified berlin "s3cret" name /\
    b_chat demo_bus (inbound_chat name (with_secret "s3cret" (stamped paris demo_delegation))) = Replied cr /\
    handleDelegate (PDelegate demo_delegation) paris =
      Ok {| dr_PeerID := "berlin"; dr_Agent := AgentSession.rs_Agent cr; dr_Content := AgentSession.rs_Content cr;
            dr_Error := ""; dr_Decision := "allow" |}.
Proof.
  assert (Hc : connected paris berlin demo_bus demo_delegation (demo_peer "berlin" "s3cret")).
  { split; [reflexivity|by split|reflexivity| |done]. exists "hi", "ok". split; [reflexivity|]. split; [reflexivity|].
    intros resp. vm_compute. intros [= <-]. reflexivity. }
  destruct (delegation_between_nodes paris berlin demo_bus demo_delegation (demo_peer "berlin" "s3cret") Hc)
    as [(name & cr & (Hi & _ & _ & Hr) & Hd)|[_ Hd]]; [by exists name, cr|].
  exfalso. vm_compute in Hd. discriminate Hd.
Defined.

Definition demo_query : FederatedQueryRequest :=
  {| fq_Tenant := "t"; fq_ActionType := ""; fq_Since := 0; fq_Until := 0; fq_Limit := 10 |}.
Lemma query_tenant_scoped_witness :
  exists posts rs, handleQuery (fun l => l) (PQuery demo_query) paris = (posts, Ok rs) /\
    length posts = 1%nat /\ length rs = 1%nat /\ forall r e, r ∈ rs -> e ∈ fr_Entries r -> ai_Tenant e = "t".
Proof.
  pose proof (query_tenant_scoped (fun l => l) demo_query paris ltac:(done)) as H.
  destruct (handleQuery (fun l => l) (PQuery demo_query) paris) as [posts res] eqn:E.
  assert (Hpin : ~ pinned_elsewhere paris (fq_Tenant demo_query)) by (intros (node & Hn & _); discriminate Hn).
  destruct H as (_ & _ & H). destruct (H ltac:(discriminate) Hpin) as (_ & rs & Hres & _ & Hsc). exists posts, rs.
  split; [by rewrite Hres|]. rewrite Hres in E. vm_compute in E. injection E as <- Hrs.
  split; [done|]. split; [by rewrite <- Hrs|]. intros r e Hr He. by destruct (Hsc r e Hr He).
Defined.

(** A peer that joins over the HTTP API has no secret, since the field is not decoded: no request
    is ever identified with it. *)
Lemma api_peers_unidentified localID bodies secret name :
  ~ identified (foldl (fun m body => (handleFederationJoin (Some body) m).1) (NewModule localID) bodies) secret name.
Proof.
  assert (Hall : forall bodies m, (forall p, registered m p -> p_Secret p = "") ->
    forall p, registered (foldl (fun m body => (handleFederationJoin (Some body) m).1) m bodies) p -> p_Secret p = "").
  { intros l. induction l as [|b l IH]; intros m Hm; [done|]. simpl. apply IH. intros p (key & Hp). simpl in Hp.
    apply lookup_insert_Some in Hp as [[_ <-]|[_ Hp]]; [done|]. apply Hm. by exists key. }
  intros [Hne (p & Hp & Hsec & _)]. apply Hne. rewrite <- Hsec. apply (Hall bodies (NewModule localID)); [|done].
  intros q (key & Hq). simpl in Hq. by rewrite lookup_empty in Hq.
Qed.

(** Versions are kept under the peer and the type joined with a colon: a peer "a" of type "b:c"
    and a peer "a:b" of type "c" share one version. *)
Example sync_keys_collide :
  let msg p t v := {| sy_Type := t; sy_Version := v; sy_PeerID := p; sy_Payload := "" |} in
  (receive [msg "a" "b:c" 5; msg "a:b" "c" 1] NewPolicySync).2 = [true; false].
Proof. vm_compute. reflexivity. Qed.
