(* ===== verification/Crew.v ===== *)
(** * Crew: several agents on one task

    [src/modules/crew]: crews, their runs in the three modes, and the handlers of the engine.
    What the agents answer is an argument, by the member's position; a parallel run writes its
    members' answers in any order. *)
From S2P Require Import Prelude GoStr.
From S2P Require AgentSession AgentMemory AgentTurn.
Local Open Scope Z_scope.

Abbreviation ChatRequest := AgentSession.ChatRequest (only parsing).
Abbreviation chat_reply := (AgentTurn.reply AgentSession.ChatResponse) (only parsing).

(** ** Data *)

(* [modules/crew/types.go:CrewMember] *)
Record CrewMember := { mb_Agent : string; mb_Tenant : string; mb_Role : string; mb_Goal : string }.
(* [modules/crew/types.go:Crew] *)
Record Crew := { c_ID : string; c_Name : string; c_Mode : string; Members : list CrewMember; c_Tenant : string }.
(* [modules/crew/types.go:CrewRun] *)
Record CrewRun := {
  r_ID : string; r_CrewID : string; r_Status : string; r_Input : string; Results : gmap string string;
  Output : string; r_StartedAt : time; r_CompletedAt : time; r_Error : string;
}.

Definition set_result (agent content : string) (r : CrewRun) : CrewRun :=
  {| r_ID := r_ID r; r_CrewID := r_CrewID r; r_Status := r_Status r; r_Input := r_Input r;
     Results := <[agent := content]> (Results r); Output := Output r; r_StartedAt := r_StartedAt r;
     r_CompletedAt := r_CompletedAt r; r_Error := r_Error r |}.
Definition set_output (out : string) (r : CrewRun) : CrewRun :=
  {| r_ID := r_ID r; r_CrewID := r_CrewID r; r_Status := r_Status r; r_Input := r_Input r; Results := Results r;
     Output := out; r_StartedAt := r_StartedAt r; r_CompletedAt := r_CompletedAt r; r_Error := r_Error r |}.
Definition fail_run (err : string) (r : CrewRun) : CrewRun :=
  {| r_ID := r_ID r; r_CrewID := r_CrewID r; r_Status := "failed"; r_Input := r_Input r; Results := Results r;
     Output := Output r; r_StartedAt := r_StartedAt r; r_CompletedAt := r_CompletedAt r; r_Error := err |}.
Definition finish_run (now : time) (r : CrewRun) : CrewRun :=
  {| r_ID := r_ID r; r_CrewID := r_CrewID r;
     r_Status := if decide (r_Error r = "") then "completed" else r_Status r; r_Input := r_Input r;
     Results := Results r; Output := Output r; r_StartedAt := r_StartedAt r; r_CompletedAt := now;
     r_Error := r_Error r |}.

(** ** Running a crew *)

Definition nl : string := AgentMemory.newline.
Definition crew_message (m : CrewMember) (heading input : string) : string :=
  "Your role: " +:+ mb_Role m +:+ nl +:+ "Your goal: " +:+ mb_Goal m +:+ nl +:+ nl +:+ heading +:+ ":" +:+ nl +:+ input.
Definition crew_chat (c : Crew) (m : CrewMember) (tenant message : string) : ChatRequest :=
  {| AgentSession.rq_Agent := mb_Agent m; AgentSession.rq_Tenant := tenant;
     AgentSession.rq_User := "crew:" +:+ c_Name c; AgentSession.rq_Message := message;
     AgentSession.rq_Channel := ""; AgentSession.rq_ChannelID := "" |}.
Definition section_of (m : CrewMember) (result : string) : string :=
  "## " +:+ mb_Agent m +:+ " (" +:+ mb_Role m +:+ ")" +:+ nl +:+ result.
Definition rule : string := nl +:+ nl +:+ "---" +:+ nl +:+ nl.

Section Run.
(** The reply to the request made for the i-th member. *)
Context (answer : nat -> ChatRequest -> chat_reply).

Definition pipeline_request (c : Crew) (m : CrewMember) (input : string) : ChatRequest :=
  crew_chat c m (if decide (mb_Tenant m = "") then c_Tenant c else mb_Tenant m) (crew_message m "Input" input).

(** The requests made, the run, and whether it got to its end. *)
Fixpoint pipeline_loop (c : Crew) (i : nat) (members : list CrewMember) (currentInput : string) (run : CrewRun) :
    list ChatRequest * CrewRun * bool :=
  match members with
  | [] => ([], run, true)
  | m :: members =>
      let q := pipeline_request c m currentInput in
      match answer i q with
      | AgentTurn.Failed err => ([q], fail_run ("agent " +:+ mb_Agent m +:+ " failed: " +:+ err) run, false)
      | AgentTurn.OtherPayload => ([q], fail_run ("unexpected response from " +:+ mb_Agent m) run, false)
      | AgentTurn.Replied resp =>
          let content := AgentSession.rs_Content resp in
          let '(qs, run, ok) := pipeline_loop c (S i) members content (set_result (mb_Agent m) content run) in
          (q :: qs, run, ok)
      end
  end.
(* [modules/crew/engine.go:Engine.executePipeline] *)
Definition executePipeline (c : Crew) (run : CrewRun) : list ChatRequest * CrewRun :=
  let '(qs, run, ok) := pipeline_loop c 0 (Members c) (r_Input run) run in
  (qs, match last (Members c) with
       | Some m => if ok then set_output (default "" (Results run !! mb_Agent m)) run else run
       | None => run
       end).

Definition task_request (c : Crew) (m : CrewMember) (input : string) : ChatRequest :=
  crew_chat c m (c_Tenant c) (crew_message m "Task" input).

(** What a member's goroutine writes. *)
Definition record_answer (m : CrewMember) (r : chat_reply) (run : CrewRun) : CrewRun :=
  match r with
  | AgentTurn.Failed err => set_result (mb_Agent m) ("ERROR: " +:+ err) run
  | AgentTurn.Replied resp => set_result (mb_Agent m) (AgentSession.rs_Content resp) run
  | AgentTurn.OtherPayload => run
  end.

(** [arrival] is the order in which the members' goroutines get the lock. *)
(* [modules/crew/engine.go:Engine.executeParallel] *)
Definition executeParallel (arrival : list (nat * CrewMember) -> list (nat * CrewMember)) (c : Crew) (run : CrewRun) :
    list ChatRequest * CrewRun :=
  let started := imap pair (Members c) in
  let run := foldl (fun run p => record_answer p.2 (answer p.1 (task_request c p.2 (r_Input run))) run) run (arrival started) in
  let outputs := omap (fun m => section_of m <$> Results run !! mb_Agent m) (Members c) in
  ((fun m => task_request c m (r_Input run)) <$> Members c, set_output (Join outputs rule) run).

Fixpoint sequential_loop (c : Crew) (i : nat) (members : list CrewMember) (run : CrewRun) :
    list ChatRequest * list string * CrewRun :=
  match members with
  | [] => ([], [], run)
  | m :: members =>
      let q := task_request c m (r_Input run) in
      let r := answer i q in
      let '(qs, outputs, run) := sequential_loop c (S i) members (record_answer m r run) in
      (q :: qs, match r with AgentTurn.Replied resp => section_of m (AgentSession.rs_Content resp) :: outputs | _ => outputs end, run)
  end.
(* [modules/crew/engine.go:Engine.executeSequential] *)
Definition executeSequential (c : Crew) (run : CrewRun) : list ChatRequest * CrewRun :=
  let '(qs, outputs, run) := sequential_loop c 0 (Members c) run in (qs, set_output (Join outputs rule) run).

(* [modules/crew/engine.go:Engine.executeCrew] *)
Definition executeCrew (arrival : list (nat * CrewMember) -> list (nat * CrewMember)) (now : time) (c : Crew) (run : CrewRun) :
    list ChatRequest * CrewRun :=
  let '(qs, run) :=
    if decide (c_Mode c = "pipeline") then executePipeline c run
    else if decide (c_Mode c = "parallel") then executeParallel arrival c run
    else if decide (c_Mode c = "sequential") then executeSequential c run
    else ([], fail_run ("unknown mode: " +:+ c_Mode c) run) in
  (qs, finish_run now run).
End Run.

(** ** The engine *)

(* [modules/crew/engine.go:Engine] *)
Record Engine := { e_crews : gmap string Crew; e_runs : gmap string CrewRun; e_counter : Z }.
(* [modules/crew/engine.go:New] *)
Definition New : Engine := {| e_crews := ∅; e_runs := ∅; e_counter := 0 |}.

(* [modules/crew/engine.go:Engine.Health] *)
Definition Health (e : Engine) : bool * string :=
  (true, itoa (Z.of_nat (size (e_crews e))) +:+ " crews, " +:+ itoa (Z.of_nat (size (e_runs e))) +:+ " runs").

(** The payload of a message: one of the types the handlers take, or another, by its name. *)
Inductive payload := PCrew (c : Crew) | PMap (m : gmap string string) | PString (s : string) | POther (type : string).
Definition go_type (p : payload) : string :=
  match p with PCrew _ => "crew.Crew" | PMap _ => "map[string]string" | PString _ => "string" | POther t => t end.

(** The crew as it is kept: the mode and the tenant filled in. *)
Definition fill_crew (c : Crew) : Crew :=
  let mode := if decide (c_Mode c = "") then "pipeline" else c_Mode c in
  let tenant := match Members c with
                | m :: _ => if decide (c_Tenant c = "" /\ mb_Tenant m <> "") then mb_Tenant m else c_Tenant c
                | [] => c_Tenant c
                end in
  {| c_ID := c_ID c; c_Name := c_Name c; c_Mode := mode; Members := Members c; c_Tenant := tenant |}.

(* [modules/crew/engine.go:Engine.handleCreate] *)
Definition handleCreate (p : payload) (e : Engine) : Engine * Result string :=
  match p with
  | PCrew c =>
      let c := fill_crew c in
      let counter := wrap64 (e_counter e + 1) in
      let id := if decide (c_ID c = "") then "crew_" +:+ itoa counter else c_ID c in
      let c := {| c_ID := id; c_Name := c_Name c; c_Mode := c_Mode c; Members := Members c; c_Tenant := c_Tenant c |} in
      ({| e_crews := <[id := c]> (e_crews e); e_runs := e_runs e; e_counter := counter |}, Ok id)
  | _ => (e, Err ("expected Crew, got " +:+ go_type p))
  end.

Definition param (m : gmap string string) (k : string) : string := default "" (m !! k).

(** The run's id, and the crew its goroutine executes. *)
(* [modules/crew/engine.go:Engine.handleRun] *)
Definition handleRun (now : time) (p : payload) (e : Engine) : Engine * Result (string * Crew) :=
  match p with
  | PMap params =>
      let crewID := param params "crew_id" in
      match e_crews e !! crewID with
      | None => (e, Err ("crew " +:+ quote crewID +:+ " not found"))
      | Some crew =>
          let counter := wrap64 (e_counter e + 1) in
          let run := {| r_ID := "crun_" +:+ itoa counter; r_CrewID := crewID; r_Status := "running";
                        r_Input := param params "input"; Results := ∅; Output := ""; r_StartedAt := now;
                        r_CompletedAt := 0; r_Error := "" |} in
          ({| e_crews := e_crews e; e_runs := <[r_ID run := run]> (e_runs e); e_counter := counter |},
           Ok (r_ID run, crew))
      end
  | _ => (e, Err ("expected map[string]string, got " +:+ go_type p))
  end.

(** The writes of a run's goroutine, taken together: runs do not share anything. *)
Definition run_goroutine (answer : nat -> ChatRequest -> chat_reply)
    (arrival : list (nat * CrewMember) -> list (nat * CrewMember)) (now : time) (id : string) (c : Crew) (e : Engine) : Engine :=
  {| e_crews := e_crews e; e_runs := alter (fun r => (executeCrew answer arrival now c r).2) id (e_runs e);
     e_counter := e_counter e |}.

(* [modules/crew/engine.go:Engine.handleStatus] *)
Definition handleStatus (p : payload) (e : Engine) : Result CrewRun :=
  match p with
  | PString runID =>
      match e_runs e !! runID with
      | None => Err ("run " +:+ quote runID +:+ " not found")
      | Some run => Ok run
      end
  | _ => Err ("expected string, got " +:+ go_type p)
  end.

(** Maps are visited in any order. *)
(* [modules/crew/engine.go:Engine.handleList] *)
Definition handleList (e : Engine) : list Crew := (map_to_list (e_crews e)).*2.
(* [modules/crew/engine.go:Engine.handleListRuns] *)
Definition handleListRuns (e : Engine) : list CrewRun := (map_to_list (e_runs e)).*2.

(** ** The pipeline *)
Section Pipeline.
Context (answer : nat -> ChatRequest -> chat_reply).

Definition failure_text (m : CrewMember) (r : chat_reply) : string :=
  match r with
  | AgentTurn.Failed err => "agent " +:+ mb_Agent m +:+ " failed: " +:+ err
  | _ => "unexpected response from " +:+ mb_Agent m
  end.

(** What a pipeline did: the replies it got, each from the member at that place to a request
    that carries the reply before it. *)
Definition chained (c : Crew) (i : nat) (members : list CrewMember) (input : string) (qs : list ChatRequest)
    (resps : list AgentSession.ChatResponse) : Prop :=
  qs = zip_with (pipeline_request c) members (input :: (AgentSession.rs_Content <$> resps)) /\
  (forall j resp, resps !! j = Some resp -> exists q, qs !! j = Some q /\ answer (i + j) q = AgentTurn.Replied resp).

Lemma pipeline_loop_spec c members : forall i input run qs run' ok,
  pipeline_loop answer c i members input run = (qs, run', ok) ->
  exists resps, chained c i members input qs resps /\ r_Input run' = r_Input run /\
    (if ok then length resps = length members /\ r_Error run' = r_Error run /\ Output run' = Output run /\
       forall m resp, last members = Some m -> last resps = Some resp ->
         Results run' !! mb_Agent m = Some (AgentSession.rs_Content resp)
     else exists m q, members !! length resps = Some m /\ qs !! length resps = Some q /\
       (forall resp, answer (i + length resps) q <> AgentTurn.Replied resp) /\ r_Status run' = "failed" /\
       r_Error run' = failure_text m (answer (i + length resps) q) /\ Output run' = Output run).
Proof.
  induction members as [|m members IH]; intros i input run qs run' ok; simpl.
  { intros [= <- <- <-]. exists []. repeat split; by intros. }
  destruct (answer i _) as [resp| |err] eqn:Ha.
  - destruct (pipeline_loop answer c (S i) members _ _) as [[qs1 run1] ok1] eqn:Hl. intros [= <- <- <-].
    destruct (IH _ _ _ _ _ _ Hl) as (resps & (Hqs & Hresps) & Hin & Hok). exists (resp :: resps).
    split; [split; [by rewrite Hqs|]|].
    { intros [|j] resp' Hj; [injection Hj as <-; eexists; split; [done|]; by rewrite Nat.add_0_r|].
      destruct (Hresps j resp' Hj) as (q & Hq & Hr). exists q. split; [done|]. by replace (i + S j)%nat with (S i + j)%nat by lia. }
    split; [done|]. destruct ok1.
    + destruct Hok as (Hlen & He & Ho & Hlast). simpl. split; [by rewrite Hlen|]. split; [done|]. split; [done|].
      intros m' resp'. destruct members as [|m2 members]; [|destruct resps as [|resp2 resps]; [done|]; by apply Hlast].
      destruct resps; [|done]. simpl in Hl. injection Hl as _ <-. intros [= <-] [= <-]. simpl. by rewrite lookup_insert_eq.
    + destruct Hok as (m' & q & Hm & Hq & Hrest). exists m', q.
      replace (i + length (resp :: resps))%nat with (S i + length resps)%nat by (simpl; lia).
      split; [exact Hm|]. split; [exact Hq|]. exact Hrest.
  - intros [= <- <- <-]. exists []. split; [split; [by destruct members|by intros]|]. split; [done|].
    exists m. eexists. rewrite Nat.add_0_r. split; [done|]. split; [done|]. by rewrite Ha.
  - intros [= <- <- <-]. exists []. split; [split; [by destruct members|by intros]|]. split; [done|].
    exists m. eexists. rewrite Nat.add_0_r. split; [done|]. split; [done|]. by rewrite Ha.
Qed.

Lemma failure_text_nonempty m r : failure_text m r <> "".
Proof. by destruct r. Qed.

(** A pipeline hands each agent's answer to the next.  The requests of a run are,
    for the members in order, each in the member's own tenant (or else the crew's), with the
    run's input first and then the content of the answer before; the run ends, and either every
    member answered, the run is completed and its output is the last answer's content, or the
    first member that did not answer stopped it: nobody after that member was asked, the run has
    failed and its error names the member. *)
Lemma pipeline_chains arrival now c run :
  c_Mode c = "pipeline" -> r_Error run = "" ->
  let '(qs, run') := executeCrew answer arrival now c run in
  r_CompletedAt run' = now /\
  exists resps, chained c 0 (Members c) (r_Input run) qs resps /\
    (length resps = length (Members c) /\ r_Status run' = "completed" /\ r_Error run' = "" /\
       Output run' = default (Output run) (AgentSession.rs_Content <$> last resps) \/
     exists m q, Members c !! length resps = Some m /\ last qs = Some q /\ length qs = S (length resps) /\
       (forall resp, answer (length resps) q <> AgentTurn.Replied resp) /\
       r_Status run' = "failed" /\ r_Error run' = failure_text m (answer (length resps) q) /\ Output run' = Output run).
Proof.
  intros Hm He. unfold executeCrew. rewrite decide_True by done. unfold executePipeline.
  destruct (pipeline_loop answer c 0 (Members c) (r_Input run) run) as [[qs run1] ok] eqn:Hl. simpl. split; [done|].
  destruct (pipeline_loop_spec _ _ _ _ _ _ _ _ Hl) as (resps & Hc & Hin & Hok). exists resps. split; [done|]. destruct ok.
  - destruct Hok as (Hlen & Herr & Hout & Hlast). left. split; [done|].
    destruct (last (Members c)) as [m|] eqn:Hm'.
    + simpl. rewrite Herr, He. split; [done|]. split; [done|]. destruct (last resps) as [resp|] eqn:Hr'.
      * by rewrite (Hlast m resp).
      * apply last_None in Hr' as ->. apply last_Some in Hm' as (l & Hl'). rewrite Hl', length_app in Hlen. simpl in Hlen. lia.
    + simpl. rewrite Herr, He. apply last_None in Hm' as Hm''. rewrite Hm'' in Hlen. by destruct resps.
  - destruct Hok as (m & q & Hmem & Hq & Hno & Hst & Herr & Hout). right. exists m, q. split; [done|].
    destruct Hc as [Hqs _].
    assert (Hlen : length qs = S (length resps)).
    { apply lookup_lt_Some in Hmem. rewrite Hqs, length_zip_with. simpl. rewrite length_fmap. lia. }
    split; [by rewrite last_lookup, Hlen|]. split; [done|].
    destruct (last (Members c)) as [m'|]; simpl; rewrite decide_False by (rewrite Herr; apply failure_text_nonempty); done.
Qed.
End Pipeline.

(** ** Parallel and sequential runs *)
Section Tasks.
Context (answer : nat -> ChatRequest -> chat_reply).

Definition with_results (m : gmap string string) (r : CrewRun) : CrewRun :=
  {| r_ID := r_ID r; r_CrewID := r_CrewID r; r_Status := r_Status r; r_Input := r_Input r; Results := m;
     Output := Output r; r_StartedAt := r_StartedAt r; r_CompletedAt := r_CompletedAt r; r_Error := r_Error r |}.

(** What an answer leaves in the results. *)
Definition content_of (r : chat_reply) : option string :=
  match r with
  | AgentTurn.Failed err => Some ("ERROR: " +:+ err)
  | AgentTurn.Replied resp => Some (AgentSession.rs_Content resp)
  | AgentTurn.OtherPayload => None
  end.
Definition reply_to (c : Crew) (input : string) (p : nat * CrewMember) : chat_reply := answer p.1 (task_request c p.2 input).
Definition result_of (c : Crew) (input : string) (p : nat * CrewMember) : option (string * string) :=
  pair (mb_Agent p.2) <$> content_of (reply_to c input p).
Definition results_of (c : Crew) (input : string) (l : list (nat * CrewMember)) : gmap string string :=
  list_to_map (omap (result_of c input) l).
Definition recorded (c : Crew) (run : CrewRun) (l : list (nat * CrewMember)) : CrewRun :=
  foldl (fun run p => record_answer p.2 (answer p.1 (task_request c p.2 (r_Input run))) run) run l.

Lemma record_answer_spec m r run : record_answer m r run =
  match content_of r with Some x => with_results (<[mb_Agent m := x]> (Results run)) run | None => run end.
Proof. by destruct r. Qed.

Lemma result_of_keys c input l : (omap (result_of c input) l).*1 ⊆ (fun p => mb_Agent p.2) <$> l.
Proof.
  intros a ((a' & x) & -> & ((i & m) & Hin & Hr)%list_elem_of_omap)%list_elem_of_fmap.
  apply list_elem_of_fmap. exists (i, m). split; [|done]. unfold result_of in Hr. by destruct (content_of _); simplify_eq/=.
Qed.
Lemma result_of_NoDup c input l : NoDup ((fun p => mb_Agent p.2) <$> l) -> NoDup (omap (result_of c input) l).*1.
Proof.
  induction l as [|p l IH]; simpl; intros Hnd; [constructor|]. apply NoDup_cons in Hnd as [Hni Hnd].
  unfold result_of at 1. destruct (content_of (reply_to c input p)) as [x|]; simpl; [|by apply IH].
  constructor; [|by apply IH]. intros Hin. apply Hni. by apply (result_of_keys c input).
Qed.

Lemma recorded_spec c l : forall run, NoDup ((fun p => mb_Agent p.2) <$> l) ->
  recorded c run l = with_results (results_of c (r_Input run) l ∪ Results run) run.
Proof.
  induction l as [|p l IH]; intros run Hnd; unfold recorded, results_of; simpl.
  { rewrite (left_id_L ∅ (∪)). by destruct run. }
  rewrite fmap_cons in Hnd. apply NoDup_cons in Hnd as [Hni Hnd]. rewrite record_answer_spec.
  unfold result_of at 1, reply_to. destruct (content_of _) as [x|]; simpl; [|by apply IH].
  fold (recorded c (with_results (<[mb_Agent p.2:=x]> (Results run)) run) l). rewrite IH by done. unfold with_results. simpl.
  f_equal. unfold results_of. rewrite <- insert_union_l, insert_union_r; [done|].
  apply not_elem_of_list_to_map_1. intros Hin. apply Hni. by apply (result_of_keys c (r_Input run)).
Qed.

Lemma results_of_Permutation c input l l' : NoDup ((fun p => mb_Agent p.2) <$> l) -> l ≡ₚ l' ->
  results_of c input l = results_of c input l'.
Proof.
  intros Hnd Hp. unfold results_of. apply list_to_map_proper; [by apply result_of_NoDup|]. by rewrite Hp.
Qed.

Lemma results_of_lookup c input l p : NoDup ((fun p => mb_Agent p.2) <$> l) -> p ∈ l ->
  results_of c input l !! mb_Agent p.2 = content_of (reply_to c input p).
Proof.
  intros Hnd Hp. unfold results_of. destruct (content_of (reply_to c input p)) as [x|] eqn:Hx.
  - apply elem_of_list_to_map; [by apply result_of_NoDup|]. apply list_elem_of_omap. exists p. split; [done|].
    unfold result_of. by rewrite Hx.
  - apply not_elem_of_list_to_map_1. intros ([a x] & Ha & (p' & Hp' & Hr)%list_elem_of_omap)%list_elem_of_fmap.
    simpl in Ha. assert (Hpp : p' = p); [|subst p'; unfold result_of in Hr; by rewrite Hx in Hr].
    unfold result_of in Hr. destruct (content_of (reply_to c input p')); [|done]. simpl in Hr. injection Hr as Ha' _.
    apply list_elem_of_lookup in Hp as (i & Hi), Hp' as (j & Hj).
    assert (i = j) as ->; [|congruence]. apply (NoDup_lookup _ i j (mb_Agent p.2) Hnd); rewrite list_lookup_fmap.
    + by rewrite Hi.
    + rewrite Hj. simpl. congruence.
Qed.

Definition positions (i : nat) (members : list CrewMember) : list (nat * CrewMember) := zip (seq i (length members)) members.
Lemma positions_imap members : imap pair members = positions 0 members.
Proof.
  assert (H : forall i, imap (fun j => pair (i + j)%nat) members = positions i members); [|apply (H 0%nat)].
  induction members as [|m members IH]; intros i; [done|]. unfold positions. simpl. rewrite Nat.add_0_r. f_equal.
  change (zip _ _) with (positions (S i) members). rewrite <- (IH (S i)). apply imap_ext. intros j x _. simpl. f_equal. lia.
Qed.
Lemma positions_members i members : (positions i members).*2 = members.
Proof. unfold positions. apply snd_zip. by rewrite length_seq. Qed.

(** The sections a sequential run writes: those of the members that replied. *)
Definition replied_section (c : Crew) (input : string) (p : nat * CrewMember) : option string :=
  match reply_to c input p with AgentTurn.Replied resp => Some (section_of p.2 (AgentSession.rs_Content resp)) | _ => None end.

Lemma record_answer_input m r run : r_Input (record_answer m r run) = r_Input run.
Proof. by destruct r. Qed.

Lemma sequential_loop_spec c members : forall i run,
  sequential_loop answer c i members run =
    ((fun m => task_request c m (r_Input run)) <$> members,
     omap (replied_section c (r_Input run)) (positions i members), recorded c run (positions i members)).
Proof.
  induction members as [|m members IH]; intros i run; [done|]. cbn [sequential_loop]. rewrite IH, record_answer_input.
  unfold positions. simpl. assert (Hsec : replied_section c (r_Input run) (i, m) = match answer i (task_request c m (r_Input run)) with
    AgentTurn.Replied resp => Some (section_of m (AgentSession.rs_Content resp)) | _ => None end) by done.
  rewrite Hsec. unfold recorded. simpl. by destruct (answer i _).
Qed.

Lemma omap_fmap_ext {A B C} (f : B -> option C) (g : A -> B) (h : A -> option C) (l : list A) :
  (forall x, x ∈ l -> f (g x) = h x) -> omap f (g <$> l) = omap h l.
Proof.
  induction l as [|x l IH]; intros H; [done|].
  assert (IH' : omap f (g <$> l) = omap h l) by (apply IH; intros y Hy; apply H; by right).
  rewrite fmap_cons. change (match f (g x) with Some y => y :: omap f (g <$> l) | None => omap f (g <$> l) end =
                             match h x with Some y => y :: omap h l | None => omap h l end).
  by rewrite H, IH' by left.
Qed.

(** Asking the members of a crew in parallel gives what asking them one after
    the other gives, in whatever order the answers arrive, when no agent is listed twice: the
    same requests are made and the same result is kept for every agent; and when no request
    fails, the runs are the same altogether, down to the output. *)
Lemma parallel_as_sequential arrival c run : (forall l, arrival l ≡ₚ l) -> NoDup (mb_Agent <$> Members c) ->
  Results run = ∅ ->
  let par := executeParallel answer arrival c run in
  let seq := executeSequential answer c run in
  par.1 = seq.1 /\ Results par.2 = Results seq.2 /\
  ((forall i m err, Members c !! i = Some m -> answer i (task_request c m (r_Input run)) <> AgentTurn.Failed err) -> par = seq).
Proof.
  intros Harr Hnd Hemp par seq. unfold par, seq, executeParallel, executeSequential. rewrite sequential_loop_spec, positions_imap.
  set (l := positions 0 (Members c)). fold (recorded c run (arrival l)).
  assert (Hl : NoDup ((fun p : nat * CrewMember => mb_Agent p.2) <$> l)).
  { assert (Heq : (fun p : nat * CrewMember => mb_Agent p.2) <$> l = mb_Agent <$> l.*2) by (by rewrite <- list_fmap_compose).
    rewrite Heq. unfold l. by rewrite positions_members. }
  assert (Hrec : recorded c run (arrival l) = recorded c run l).
  { rewrite !recorded_spec by (by rewrite ?Harr). by rewrite (results_of_Permutation c _ (arrival l) l) by (by rewrite ?Harr). }
  rewrite Hrec. assert (Hin : r_Input (recorded c run l) = r_Input run) by (by rewrite recorded_spec).
  rewrite Hin. split; [done|]. split; [done|]. intros Hok. cbn [fst snd]. f_equal. f_equal. f_equal.
  rewrite <- (positions_members 0 (Members c)) at 1. fold l. apply omap_fmap_ext. intros p Hp.
  rewrite recorded_spec by done. unfold with_results. cbn [Results]. rewrite Hemp, (right_id_L ∅ (∪)).
  rewrite results_of_lookup by done. unfold replied_section. destruct (reply_to c (r_Input run) p) as [resp| |err] eqn:Hr; [done|done|].
  exfalso. apply list_elem_of_lookup in Hp as (i & Hi). unfold l, positions in Hi. rewrite lookup_zip_with_Some in Hi.
  destruct Hi as (j & m & -> & Hj%lookup_seq & Hm). destruct Hj as [-> _]. by apply (Hok i m err).
Qed.
End Tasks.

(** ** A crew of two *)

Definition demo_member (agent tenant : string) : CrewMember :=
  {| mb_Agent := agent; mb_Tenant := tenant; mb_Role := "role"; mb_Goal := "goal" |}.
Definition demo_crew (mode : string) : Crew :=
  {| c_ID := "crew_1"; c_Name := "team"; c_Mode := mode; Members := [demo_member "a" "t1"; demo_member "b" "t2"];
     c_Tenant := "t1" |}.
Definition demo_run : CrewRun :=
  {| r_ID := "crun_1"; r_CrewID := "crew_1"; r_Status := "running"; r_Input := "task"; Results := ∅; Output := "";
     r_StartedAt := 0; r_CompletedAt := 0; r_Error := "" |}.
Definition demo_answer (i : nat) (q : ChatRequest) : chat_reply :=
  AgentTurn.Replied {| AgentSession.rs_Agent := AgentSession.rq_Agent q;
    AgentSession.rs_Content := AgentSession.rq_Agent q +:+ " done"; AgentSession.rs_ToolsUsed := [] |}.
(** The second member is not there. *)
Definition demo_outage (i : nat) (q : ChatRequest) : chat_reply :=
  if decide (i = 1%nat) then AgentTurn.Failed "agent not found" else demo_answer i q.

Lemma pipeline_chains_witness :
  let '(qs, run') := executeCrew demo_outage (fun l => l) 7 (demo_crew "pipeline") demo_run in
  r_CompletedAt run' = 7 /\ length qs = 2%nat /\ r_Status run' = "failed" /\
  r_Error run' = "agent b failed: agent not found".
Proof.
  pose proof (pipeline_chains demo_outage (fun l => l) 7 (demo_crew "pipeline") demo_run eq_refl eq_refl) as H.
  destruct (executeCrew _ _ _ _ _) as [qs run'] eqn:E. destruct H as [Hnow _]. vm_compute in E. injection E as <- <-.
  by repeat split.
Defined.

Lemma parallel_as_sequential_witness :
  executeParallel demo_answer (fun l => reverse l) (demo_crew "parallel") demo_run =
  executeSequential demo_answer (demo_crew "parallel") demo_run /\
  Output (executeParallel demo_answer (fun l => reverse l) (demo_crew "parallel") demo_run).2 =
    "## a (role)" +:+ nl +:+ "a done" +:+ nl +:+ nl +:+ "---" +:+ nl +:+ nl +:+ "## b (role)" +:+ nl +:+ "b done".
Proof.
  split; [|vm_compute; reflexivity].
  apply (parallel_as_sequential demo_answer (fun l => reverse l) (demo_crew "parallel") demo_run).
  - intros l. apply reverse_Permutation.
  - simpl. repeat constructor; set_solver.
  - reflexivity.
  - intros i m err _. discriminate.
Defined.

(** A member's own tenant counts in a pipeline only: in the other modes its agent is looked for in
    the crew's tenant. *)
Example member_tenant_ignored :
  let tenants mode := AgentSession.rq_Tenant <$> (executeCrew demo_answer (fun l => l) 7 (demo_crew mode) demo_run).1 in
  (tenants "pipeline", tenants "parallel", tenants "sequential") = (["t1"; "t2"], ["t1"; "t1"], ["t1"; "t1"]).
Proof. vm_compute. reflexivity. Qed.

(** A run whose members all failed is completed, in the modes other than the pipeline. *)
Example failures_complete :
  let run := (executeCrew (fun _ _ => AgentTurn.Failed "down") (fun l => l) 7 (demo_crew "sequential") demo_run).2 in
  (r_Status run, r_Error run, Output run) = ("completed", "", "").
Proof. vm_compute. reflexivity. Qed.
