(* ===== verification/Chunker.v ===== *)
(** * Chunker: splitting a message for Slack

    [src/modules/channel/slack/chunker.go]: the pieces a long message is sent in, and the proof
    that they put together the message again, rune by rune, and fit the length the splitting
    allows for. *)
From S2P Require Import Prelude GoStr Utf8.

(** ** The code *)

(** Whether [sep] is at index [i]. *)
Definition at_index (s sep : string) (i : nat) : bool := bool_decide (String.substring i (String.length sep) s = sep).
Fixpoint scan_back (s sep : string) (i : nat) : option nat :=
  if at_index s sep i then Some i else match i with O => None | S i' => scan_back s sep i' end.

(* [modules/channel/slack/chunker.go:lastIndexBefore] *)
Definition lastIndexBefore (s sep : string) (maxPos : nat) : option nat :=
  let sub := take_bytes maxPos s in
  if decide (String.length sub < String.length sep) then None
  else scan_back sub sep (String.length sub - String.length sep).

Fixpoint snap_back (s : string) (pos : nat) : nat :=
  match pos with
  | O => O
  | S pos' => match String.get pos s with
              | Some c => if RuneStart c then pos else snap_back s pos'
              | None => pos
              end
  end.
(* [modules/channel/slack/chunker.go:runeBoundaryAtOrBefore] *)
Definition runeBoundaryAtOrBefore (s : string) (pos : nat) : nat :=
  if decide (String.length s <= pos) then String.length s else snap_back s pos.

Definition newline : string := String "010" "".

(** The place to split at: after the last paragraph, line or word that ends within the budget. *)
(* [modules/channel/slack/chunker.go:chunkMessage@39-47] *)
Definition split_point (remaining : string) (budget : nat) : nat :=
  match lastIndexBefore remaining (newline +:+ newline) budget with
  | Some (S i) => S i + 2
  | _ =>
      match lastIndexBefore remaining newline budget with
      | Some (S i) => S i + 1
      | _ => match lastIndexBefore remaining " " budget with Some (S i) => S i + 1 | _ => budget end
      end
  end.
(* [modules/channel/slack/chunker.go:chunkMessage@49-57] *)
Definition cut_point (remaining : string) (budget : nat) : nat :=
  match runeBoundaryAtOrBefore remaining (split_point remaining budget) with
  | O => (DecodeRune remaining).2
  | cutAt => cutAt
  end.

(* [modules/channel/slack/chunker.go:chunkMessage@33-61] *)
Fixpoint chunk_loop (fuel : nat) (budget : nat) (remaining : string) : list string :=
  match fuel with
  | O => []
  | S fuel' =>
      if decide (remaining = "") then []
      else if decide (String.length remaining <= budget) then [remaining]
      else let cutAt := cut_point remaining budget in
           take_bytes cutAt remaining :: chunk_loop fuel' budget (drop_bytes cutAt remaining)
  end.

Definition nat_text (n : nat) : string := itoa (Z.of_nat n).
Definition chunk_prefix (n m : nat) : string := "[" +:+ nat_text n +:+ "/" +:+ nat_text m +:+ "] ".
(* [modules/channel/slack/chunker.go:chunkMessage@63-68] *)
Definition number_chunks (chunks : list string) : list string :=
  if decide (1 < length chunks) then imap (fun i chunk => chunk_prefix (i + 1) (length chunks) +:+ chunk) chunks
  else chunks.

Definition upper_bound (text : string) (maxLen : nat) : nat := String.length text / maxLen + 1.
Definition budget_of (text : string) (maxLen : nat) : nat :=
  let u := upper_bound text maxLen in
  let budget := maxLen - String.length (chunk_prefix u u) in
  if decide (budget < 1) then 1 else budget.

(** The division by a length of 0 panics ([None]), once the text is longer than that; a pass of
    the loop takes a byte at least, so the text's length is fuel enough. *)
(* [modules/channel/slack/chunker.go:chunkMessage] *)
Definition chunkMessage (text : string) (maxLen : nat) : option (list string) :=
  if decide (String.length text <= maxLen) then Some [text]
  else if decide (maxLen = 0) then None
  else Some (number_chunks (chunk_loop (String.length text) (budget_of text maxLen) text)).

(** ** The runes of a string, as [range] reads them *)

Fixpoint runes_loop (fuel : nat) (s : string) : list N :=
  match fuel with
  | O => []
  | S fuel' => if decide (s = "") then [] else (DecodeRune s).1 :: runes_loop fuel' (drop_bytes (DecodeRune s).2 s)
  end.
Definition Runes (s : string) : list N := runes_loop (String.length s) s.

Lemma DecodeRune_pos s : s <> "" -> 1 <= (DecodeRune s).2 <= String.length s.
Proof. intros H. by destruct (DecodeRune_size s H) as [? _]. Qed.

Lemma length_nonempty s : s <> "" <-> 0 < String.length s.
Proof. destruct s; simpl; split; intros; (done || lia). Qed.

Lemma runes_fuel f : forall s, String.length s <= f -> runes_loop f s = Runes s.
Proof.
  assert (H : forall f g s, String.length s <= f -> String.length s <= g -> runes_loop f s = runes_loop g s).
  { clear f. induction f as [|f IH]; intros g s Hf Hg.
    - assert (s = "") as -> by (destruct s; [done|simpl in Hf; lia]). by destruct g.
    - destruct g as [|g]; simpl; [assert (s = "") as -> by (destruct s; [done|simpl in Hg; lia]); done|].
      case_decide as Hs; [done|]. f_equal. pose proof (DecodeRune_pos s Hs). apply IH; rewrite length_drop_bytes; lia. }
  intros s Hs. by apply H.
Qed.

Lemma Runes_step s : s <> "" -> Runes s = (DecodeRune s).1 :: Runes (drop_bytes (DecodeRune s).2 s).
Proof.
  intros Hs. rewrite <- (runes_fuel (S (String.length s)) s) by lia. simpl. rewrite decide_False by done. f_equal.
  apply runes_fuel. rewrite length_drop_bytes. lia.
Qed.

(** Offsets of a string between two of its runes. *)
Inductive boundary : nat -> string -> Prop :=
  | boundary_0 s : boundary 0 s
  | boundary_S n s : s <> "" -> boundary n (drop_bytes (DecodeRune s).2 s) -> boundary ((DecodeRune s).2 + n) s.

Ltac rune_cases :=
  unfold DecodeRune in *; cbv zeta in *;
  repeat (match goal with
          | |- context [if ?b then _ else _] => destruct b eqn:?
          | H : context [if ?b then _ else _] |- _ => destruct b eqn:?
          end; simpl in *; try lia; try done).

(** What follows a rune does not change it. *)
Lemma DecodeRune_take s n : s <> "" -> (DecodeRune s).2 <= n -> DecodeRune (take_bytes n s) = DecodeRune s.
Proof.
  intros Hs Hn. pose proof (DecodeRune_pos s Hs) as Hp. destruct n as [|n]; [lia|]. clear Hp Hs.
  destruct s as [|a [|b [|c [|d s]]]]; destruct n as [|[|[|n]]]; try done; cbn [take_bytes]; rune_cases.
Qed.

(** The bytes of a rune after the first do not start one. *)
Lemma DecodeRune_inside s i : 1 <= i < (DecodeRune s).2 -> exists c, String.get i s = Some c /\ RuneStart c = false.
Proof.
  assert (Hsec : forall x b, in_range (second_lo x) (second_hi x) b = true -> RuneStart b = false).
  { intros x b Hb. pose proof (second_high x b Hb) as Hlo. unfold RuneStart, cont, in_range in *. apply negb_false_iff.
    rewrite andb_true_iff, !N.leb_le in *. split; [done|]. destruct Hb as [_ Hb]. revert Hb. unfold second_hi.
    repeat case_match; lia. }
  assert (Hcont : forall b, cont b = true -> RuneStart b = false) by (intros b Hb; unfold RuneStart; by rewrite Hb).
  intros Hi. destruct s as [|a [|b [|c [|d s]]]]; destruct i as [|[|[|[|i]]]]; try lia; rune_cases;
    try (simpl in Hi; lia);
    repeat match goal with
      | H : (_ || _) = false |- _ => apply orb_false_iff in H as [? ?]
      | H : negb _ = false |- _ => apply negb_false_iff in H
      end; eexists; (split; [reflexivity|]); eauto.
Qed.

(** ** Bytes *)
Lemma get_drop s : forall k n, String.get n (drop_bytes k s) = String.get (k + n) s.
Proof. induction s as [|c s IH]; intros k n; destruct k; try done; apply IH. Qed.
Lemma take_bytes_plus s : forall k n, take_bytes (k + n) s = take_bytes k s +:+ take_bytes n (drop_bytes k s).
Proof.
  induction s as [|c s IH]; intros k n; destruct k as [|k]; try (by destruct n).
  change (String c (take_bytes (k + n) s) = String c (take_bytes k s) +:+ take_bytes n (drop_bytes k s)).
  by rewrite str_app_cons, IH.
Qed.
Lemma drop_bytes_plus s : forall k n, drop_bytes (k + n) s = drop_bytes n (drop_bytes k s).
Proof. induction s as [|c s IH]; intros k n; destruct k as [|k]; try (by destruct n); apply IH. Qed.
Lemma drop_bytes_length_app s t : drop_bytes (String.length s) (s +:+ t) = t.
Proof. induction s as [|c s IH]; [done|]. apply IH. Qed.
Lemma take_bytes_0 s : take_bytes 0 s = "".
Proof. done. Qed.
Lemma take_bytes_nonempty n s : 0 < n -> s <> "" -> take_bytes n s <> "".
Proof. destruct n, s; (lia || done). Qed.

Lemma get_lt_Some s : forall n, n < String.length s -> exists c, String.get n s = Some c.
Proof.
  induction s as [|a s IH]; intros n Hn; simpl in Hn; [lia|]. destruct n as [|n]; [by exists a|]. apply IH. lia.
Qed.

(** ** Boundaries *)
Lemma boundary_le n s : boundary n s -> n <= String.length s.
Proof.
  induction 1 as [s|n s Hs _ IH]; [lia|]. pose proof (DecodeRune_pos s Hs). rewrite length_drop_bytes in IH. lia.
Qed.

Lemma boundary_first s : s <> "" -> boundary (DecodeRune s).2 s.
Proof. intros Hs. rewrite <- (Nat.add_0_r (DecodeRune s).2). constructor; [done|constructor]. Qed.

(** A string split at a boundary reads as its two parts. *)
Lemma Runes_boundary n s : boundary n s -> Runes s = Runes (take_bytes n s) ++ Runes (drop_bytes n s).
Proof.
  induction 1 as [s|n s Hs Hb IH]; [done|]. set (k := (DecodeRune s).2) in *. pose proof (DecodeRune_pos s Hs) as Hk.
  fold k in Hk. rewrite drop_bytes_plus, Runes_step by done. fold k. rewrite IH.
  assert (Htake : take_bytes (k + n) s <> "") by (apply take_bytes_nonempty; [lia|done]).
  rewrite (Runes_step _ Htake), DecodeRune_take by (fold k; done || lia). fold k. simpl. f_equal. f_equal.
  rewrite take_bytes_plus. rewrite <- (length_take_bytes k s) at 2 by lia. by rewrite drop_bytes_length_app.
Qed.

(** A byte that starts a rune is at a boundary, in any string. *)
Lemma start_boundary n s c : String.get n s = Some c -> RuneStart c = true -> boundary n s.
Proof.
  revert n c. remember (String.length s) as len eqn:Hlen. revert s Hlen.
  induction len as [len IH] using lt_wf_ind. intros s -> n c Hget Hc.
  destruct n as [|n]; [constructor|]. assert (Hs : s <> "") by (by destruct s).
  pose proof (DecodeRune_pos s Hs) as Hk. set (k := (DecodeRune s).2) in *.
  destruct (decide (S n < k)) as [Hlt|Hge].
  - destruct (DecodeRune_inside s (S n)) as (c' & Hc' & Hno); [fold k; lia|]. congruence.
  - replace (S n) with (k + (S n - k)) by lia. constructor; [done|]. fold k.
    apply (IH (String.length (drop_bytes k s))) with c; [rewrite length_drop_bytes; lia|done| |done].
    rewrite get_drop. by replace (k + (S n - k)) with (S n) by lia.
Qed.

(** ** The place of a cut *)
Lemma scan_back_spec s sep i r : scan_back s sep i = r ->
  match r with
  | Some j => j <= i /\ at_index s sep j = true /\ forall j', j < j' <= i -> at_index s sep j' = false
  | None => forall j', j' <= i -> at_index s sep j' = false
  end.
Proof.
  intros <-. induction i as [|i IH]; simpl; destruct (at_index s sep _) eqn:E.
  - split; [lia|]. split; [done|]. lia.
  - intros j' Hj. by assert (j' = 0) as -> by lia.
  - split; [lia|]. split; [done|]. lia.
  - destruct (scan_back s sep i) as [j|].
    + destruct IH as (Hle & Hat & Hno). split; [lia|]. split; [done|]. intros j' Hj.
      destruct (decide (j' = S i)) as [->|]; [done|]. apply Hno. lia.
    + intros j' Hj. destruct (decide (j' = S i)) as [->|]; [done|]. apply IH. lia.
Qed.

(** [lastIndexBefore] finds the last place where the separator lies within the first [maxPos]
    bytes. *)
Lemma lastIndexBefore_spec s sep maxPos : maxPos <= String.length s ->
  match lastIndexBefore s sep maxPos with
  | Some i => i + String.length sep <= maxPos /\ at_index (take_bytes maxPos s) sep i = true /\
      forall j, i < j -> j + String.length sep <= maxPos -> at_index (take_bytes maxPos s) sep j = false
  | None => forall j, j + String.length sep <= maxPos -> at_index (take_bytes maxPos s) sep j = false
  end.
Proof.
  intros Hm. unfold lastIndexBefore. rewrite length_take_bytes by done. case_decide as Hlt; [lia|].
  destruct (scan_back _ _ _) as [i|] eqn:Hs; apply scan_back_spec in Hs.
  - destruct Hs as (Hle & Hat & Hno). split; [lia|]. split; [done|]. intros j Hj Hj'. apply Hno. lia.
  - intros j Hj. apply Hs. lia.
Qed.

Lemma split_point_range s budget : 1 <= budget <= String.length s -> 1 <= split_point s budget <= budget.
Proof.
  intros Hb. unfold split_point.
  pose proof (lastIndexBefore_spec s (newline +:+ newline) budget ltac:(lia)) as H1.
  pose proof (lastIndexBefore_spec s newline budget ltac:(lia)) as H2.
  pose proof (lastIndexBefore_spec s " " budget ltac:(lia)) as H3.
  destruct (lastIndexBefore s (newline +:+ newline) budget) as [[|i]|]; [|simpl in H1; lia|];
    (destruct (lastIndexBefore s newline budget) as [[|j]|]; [|simpl in H2; lia|];
      destruct (lastIndexBefore s " " budget) as [[|k]|]; simpl in H3; lia).
Qed.

Lemma snap_back_spec s pos : pos < String.length s ->
  snap_back s pos <= pos /\
  (snap_back s pos = 0 \/ exists c, String.get (snap_back s pos) s = Some c /\ RuneStart c = true).
Proof.
  intros Hpos. induction pos as [|pos IH]; [split; [done|by left]|]. cbn [snap_back].
  destruct (String.get (S pos) s) as [c|] eqn:Hg.
  - destruct (RuneStart c) eqn:Hc; [split; [lia|right; by exists c]|]. destruct (IH ltac:(lia)) as [Hle Hr]. split; [lia|done].
  - exfalso. revert s Hpos Hg IH. intros s Hpos Hg _. by apply get_lt_Some in Hpos as (c & ?); congruence.
Qed.

(** A cut is at a boundary, past the start, and within the budget unless the first rune alone is
    longer. *)
Lemma cut_point_spec s budget : 1 <= budget < String.length s ->
  boundary (cut_point s budget) s /\ 1 <= cut_point s budget /\
  (cut_point s budget <= budget \/ cut_point s budget = (DecodeRune s).2).
Proof.
  intros Hb. assert (Hs : s <> "") by (apply length_nonempty; lia). unfold cut_point, runeBoundaryAtOrBefore.
  pose proof (split_point_range s budget ltac:(lia)) as Hsp. rewrite decide_False by lia.
  destruct (snap_back_spec s (split_point s budget) ltac:(lia)) as [Hle Hst].
  destruct (snap_back s (split_point s budget)) as [|pos].
  - split; [by apply boundary_first|]. split; [by apply DecodeRune_pos|by right].
  - destruct Hst as [?|(c & Hg & Hc)]; [done|]. split; [by apply (start_boundary _ _ c)|]. lia.
Qed.

(** ** Splitting a message *)
Definition concat_text (l : list string) : string := foldr String.app "" l.

(** A chunk before numbering: it fits the budget, or is a single rune. *)
Definition fits (budget : nat) (chunk : string) : Prop :=
  String.length chunk <= budget \/ String.length chunk = (DecodeRune chunk).2.

Lemma chunk_loop_spec fuel budget s : 1 <= budget -> String.length s <= fuel ->
  let raws := chunk_loop fuel budget s in
  concat_text raws = s /\ Forall (fun chunk => chunk <> "") raws /\ Runes s = concat (Runes <$> raws) /\ Forall (fits budget) raws.
Proof.
  intros Hb. revert s. induction fuel as [|fuel IH]; intros s Hf; simpl.
  { assert (s = "") as -> by (destruct s; [done|simpl in Hf; lia]). done. }
  case_decide as Hs; [by subst|]. case_decide as Hle.
  { simpl. rewrite str_app_nil_r, app_nil_r. repeat split; [by constructor|constructor; [by left|constructor]]. }
  destruct (cut_point_spec s budget ltac:(lia)) as (Hbd & Hpos & Hfit). set (cut := cut_point s budget) in *.
  assert (Hcut : cut <= String.length s) by (by apply boundary_le).
  destruct (IH (drop_bytes cut s)) as (Hcat & Hne & Hrun & Hfits); [rewrite length_drop_bytes; lia|].
  assert (Hnonempty : take_bytes cut s <> "") by (apply take_bytes_nonempty; [lia|done]).
  split; [simpl; by rewrite Hcat, take_drop_bytes|]. split; [by constructor|]. split.
  - rewrite fmap_cons. simpl. rewrite <- Hrun. by apply Runes_boundary.
  - constructor; [|done]. unfold fits. rewrite length_take_bytes by done.
    destruct Hfit as [?|Hone]; [by left|right]. rewrite DecodeRune_take; [done|done|by rewrite Hone].
Qed.

Lemma DecodeRune_max s : (DecodeRune s).2 <= 4.
Proof. destruct s as [|a [|b [|c [|d s]]]]; rune_cases; simpl; lia. Qed.

Lemma number_chunks_lookup raws i chunk : number_chunks raws !! i = Some chunk ->
  exists raw, raws !! i = Some raw /\
    (chunk = raw \/ chunk = chunk_prefix (i + 1) (length raws) +:+ raw).
Proof.
  unfold number_chunks. case_decide; [|intros Hi; exists chunk; by auto]. rewrite list_lookup_imap, fmap_Some.
  intros (raw & Hr & ->). exists raw. by auto.
Qed.

(** A message is sent whole, in order and with no rune cut in two.  Splitting
    ends, with chunks that, their numbers apart, put together are the text, and that read rune by
    rune give the text's runes; none of them is empty, unless the text is.  A text within the
    length is one chunk; of a longer one, each chunk fits the room left beside the number or is a
    single rune, and with room for a rune a chunk whose number is no longer than the one reckoned
    with does not exceed the length. *)
Lemma chunkMessage_splits text maxLen : 0 < maxLen ->
  exists raws, chunkMessage text maxLen = Some (number_chunks raws) /\
    concat_text raws = text /\ Runes text = concat (Runes <$> raws) /\
    (text <> "" -> Forall (fun chunk => chunk <> "") raws) /\
    (String.length text <= maxLen -> raws = [text]) /\
    (maxLen < String.length text ->
       let reserved := String.length (chunk_prefix (upper_bound text maxLen) (upper_bound text maxLen)) in
       Forall (fits (budget_of text maxLen)) raws /\
       (reserved + 4 <= maxLen -> forall i chunk, number_chunks raws !! i = Some chunk ->
          String.length (chunk_prefix (i + 1) (length raws)) <= reserved -> String.length chunk <= maxLen)).
Proof.
  intros Hm. unfold chunkMessage. case_decide as Hlen.
  - exists [text]. split; [done|]. split; [by simpl; rewrite str_app_nil_r|]. split; [by simpl; rewrite app_nil_r|].
    split; [by repeat constructor|]. split; [done|]. lia.
  - rewrite decide_False by lia. assert (Hb : 1 <= budget_of text maxLen) by (unfold budget_of; case_decide; lia).
    destruct (chunk_loop_spec (String.length text) (budget_of text maxLen) text Hb ltac:(lia)) as (Hcat & Hne & Hrun & Hfits).
    eexists. split; [reflexivity|]. split; [done|]. split; [done|]. split; [done|]. split; [lia|]. intros _. split; [done|].
    intros Hroom i chunk Hi Hpre. apply number_chunks_lookup in Hi as (raw & Hraw & Hchunk).
    rewrite Forall_lookup in Hfits. specialize (Hfits i raw Hraw). unfold fits in Hfits.
    pose proof (DecodeRune_max raw) as Hmax. revert Hfits. unfold budget_of. case_decide; intros Hfits;
      (destruct Hchunk as [->| ->]; [|rewrite str_length_app]; lia).
Qed.

Lemma chunkMessage_splits_witness :
  exists raws, chunkMessage "one two three four five six seven" 20 = Some (number_chunks raws) /\
    concat_text raws = "one two three four five six seven" /\
    number_chunks raws = ["[1/3] one two three "; "[2/3] four five six "; "[3/3] seven"].
Proof.
  destruct (chunkMessage_splits "one two three four five six seven" 20 ltac:(lia)) as (raws & Hc & Hcat & _).
  exists raws. split; [exact Hc|]. split; [exact Hcat|]. vm_compute in Hc. injection Hc as Hc. by symmetry.
Defined.

(** The number of chunks reckoned with is the text's length by the chunk's, but chunks end at
    separators, so there can be more of them, with longer numbers: of this text, split to 100
    bytes, the first chunk has 101. *)
Example chunk_too_long :
  let letters n := Nat.iter n (String "x") "" in
  let text := letters 94 +:+ Nat.iter 9 (String.app (letters 47 +:+ " ")) "" in
  (fun chunks => (length chunks, String.length (default "" (head chunks)))) <$> chunkMessage text 100 = Some (10, 101).
Proof. vm_compute. reflexivity. Qed.
