(* ===== verification/Pairing.v ===== *)
(** * Pairing: which senders of a messaging channel reach an agent

    [src/modules/channel/pairing.go]: the store of approved senders and pending codes, the gate
    with its policies, and the pairing codes.  SQL statements are modelled by their effect on the
    two tables; whether one fails is an argument, as are the clock and the random bytes. *)
From S2P Require Import Prelude GoStr.
Local Open Scope go_scope.
Local Open Scope Z_scope.

(** ** Messages *)

(* [modules/channel/types.go:InboundMessage] *)
Record InboundMessage := {
  in_Channel : string; in_ChannelID : string; in_UserID : string; in_Text : string; in_Tenant : string; in_Agent : string;
}.

(** ** Pairing codes *)

Definition alphabet : string := "ABCDEFGHJKMNPQRSTUVWXYZ23456789".
Definition codeLen : nat := 6.
(** Bytes from here on are rejected. *)
Definition limit : Z := 256 - 256 mod Z.of_nat (String.length alphabet).
Definition letter (b : Z) : string := String.substring (Z.to_nat (b mod Z.of_nat (String.length alphabet))) 1 alphabet.

(** [bytes] is what the reads of the random source give, a byte or an error; [None]: the loop
    goes on to read more than there is. *)
Fixpoint code_loop (bytes : list (Result Z)) (b : string) : option (Result string) :=
  if decide (codeLen <= String.length b)%nat then Some (Ok b)
  else
    match bytes with
    | [] => None
    | Err e :: _ => Some (Err ("pairing: read random: " +:+ e))
    | Ok one :: bytes => if decide (limit <= one) then code_loop bytes b else code_loop bytes (b +:+ letter one)
    end.
(* [modules/channel/pairing.go:pairingCode] *)
Definition pairingCode (bytes : list (Result Z)) : option (Result string) := code_loop bytes "".

(** ** The store *)

(** A sender: tenant, channel, user. *)
Definition sender : Type := string * string * string.
Record PendingRow := { pr_Code : string; pr_CreatedAt : Z }.
(* [modules/channel/pairing.go:PairingStore] *)
Record PairingStore := { paired_senders : gmap sender Z; pending_pairings : gmap sender PendingRow }.
(* [modules/channel/pairing.go:NewPairingStore] *)
Definition NewPairingStore : PairingStore := {| paired_senders := ∅; pending_pairings := ∅ |}.

(** A query that fails counts nothing. *)
(* [modules/channel/pairing.go:PairingStore.IsPaired] *)
Definition IsPaired (fault : option error) (tenant channel userID : string) (s : PairingStore) : bool :=
  match fault with
  | Some _ => false
  | None => bool_decide (is_Some (paired_senders s !! (tenant, channel, userID)))
  end.

(* [modules/channel/pairing.go:PairingStore.IssueCode] *)
Definition IssueCode (bytes : list (Result Z)) (fault : option error) (now : time) (tenant channel userID : string)
    (s : PairingStore) : option (PairingStore * Result string) :=
  match pairingCode bytes with
  | None => None
  | Some (Err e) => Some (s, Err ("pairing: issue code: " +:+ e))
  | Some (Ok code) =>
      match fault with
      | Some e => Some (s, Err ("pairing: issue code: " +:+ e))
      | None => Some ({| paired_senders := paired_senders s;
                         pending_pairings := <[(tenant, channel, userID) := {| pr_Code := code; pr_CreatedAt := Unix now |}]>
                                               (pending_pairings s) |}, Ok code)
      end
  end.

(** [insert]: the error of the insertion; [delete_]: whether the deletion works. *)
(* [modules/channel/pairing.go:PairingStore.approveLocked] *)
Definition approveLocked (insert : option error) (delete_ : bool) (now : time) (tenant channel userID : string)
    (s : PairingStore) : PairingStore * option error :=
  match insert with
  | Some e => (s, Some ("pairing: approve: " +:+ e))
  | None =>
      let key := (tenant, channel, userID) in
      ({| paired_senders := match paired_senders s !! key with
                            | Some _ => paired_senders s
                            | None => <[key := Unix now]> (paired_senders s)
                            end;
          pending_pairings := if delete_ then delete key (pending_pairings s) else pending_pairings s |}, None)
  end.

(** The users whose pending code this is. *)
Definition holders (tenant channel code : string) (s : PairingStore) : list string :=
  (fun p => p.1.2) <$> filter (fun p => p.1.1 = (tenant, channel) /\ pr_Code p.2 = code) (map_to_list (pending_pairings s)).

(** [pick] is the row SQLite gives first, of those that match. *)
(* [modules/channel/pairing.go:PairingStore.ApproveCode] *)
Definition ApproveCode (pick : list string -> option string) (fault insert : option error) (delete_ : bool) (now : time)
    (tenant channel code : string) (s : PairingStore) : PairingStore * Result string :=
  match fault with
  | Some e => (s, Err e)
  | None =>
      match pick (holders tenant channel (TrimSpace code) s) with
      | None => (s, Err ("pairing: no pending request for code " +:+ quote code))
      | Some userID =>
          match approveLocked insert delete_ now tenant channel userID s with
          | (s, Some e) => (s, Err e)
          | (s, None) => (s, Ok userID)
          end
      end
  end.

(* [modules/channel/pairing.go:PairingStore.ApproveUser] *)
Definition ApproveUser (insert : option error) (delete_ : bool) (now : time) (tenant channel userID : string)
    (s : PairingStore) : PairingStore * option error :=
  approveLocked insert delete_ now tenant channel userID s.

(* [modules/channel/pairing.go:PendingPair] *)
Record PendingPair := { pp_Tenant : string; pp_Channel : string; pp_UserID : string; pp_Code : string }.

Definition by_created (p q : sender * PendingRow) : Prop := pr_CreatedAt p.2 <= pr_CreatedAt q.2.
Definition pending_pair (p : sender * PendingRow) : PendingPair :=
  {| pp_Tenant := p.1.1.1; pp_Channel := p.1.1.2; pp_UserID := p.1.2; pp_Code := pr_Code p.2 |}.
(* [modules/channel/pairing.go:PairingStore.ListPending] *)
Definition ListPending `{!SliceSorter by_created} (fault : option error) (tenant : string) (s : PairingStore) :
    Result (list PendingPair) :=
  match fault with
  | Some e => Err e
  | None => Ok (pending_pair <$> sortSlice by_created (filter (fun p => p.1.1.1 = tenant) (map_to_list (pending_pairings s))))
  end.

(** ** The gate *)

(* [modules/channel/pairing.go:DMPairing@20-25] *)
Definition DMPairing : string := "pairing".
Definition DMOpen : string := "open".
Definition DMClosed : string := "closed".

(** The store of a gate is kept beside it; [has_store] says whether it has one. *)
(* [modules/channel/pairing.go:Gate] *)
Record Gate := {
  has_store : bool; defaultPolicy : string; policies : gmap string string; allowFrom : gmap string (list string);
}.
(* [modules/channel/pairing.go:NewGate] *)
Definition NewGate (store : bool) (policy : string) : Gate :=
  {| has_store := store; defaultPolicy := if decide (policy = "") then DMOpen else policy; policies := ∅; allowFrom := ∅ |}.
(* [modules/channel/pairing.go:Gate.SetPolicy] *)
Definition SetPolicy (channel policy : string) (allow : list string) (g : Gate) : Gate :=
  {| has_store := has_store g; defaultPolicy := defaultPolicy g; policies := <[channel := policy]> (policies g);
     allowFrom := <[channel := allow]> (allowFrom g) |}.
(* [modules/channel/pairing.go:Gate.policyFor] *)
Definition policyFor (channel : string) (g : Gate) : string :=
  match policies g !! channel with
  | Some p => if decide (p <> "") then p else defaultPolicy g
  | None => defaultPolicy g
  end.
Definition allow_list (channel : string) (g : Gate) : list string := default [] (allowFrom g !! channel).
(* [modules/channel/pairing.go:Gate.allowed] *)
Definition allowed (channel userID : string) (g : Gate) : bool :=
  existsb (fun u => bool_decide (u = "*" \/ u = userID)) (allow_list channel g).

(** What a check draws on: the faults of its two statements, the random bytes, the clock. *)
Record check_env := { ce_query : option error; ce_issue : option error; ce_bytes : list (Result Z); ce_now : time }.

(** [None]: the random source gave too few bytes so far. *)
(* [modules/channel/pairing.go:Gate.Check] *)
Definition Check_ (env : check_env) (g : Gate) (msg : InboundMessage) (s : PairingStore) :
    option (PairingStore * (bool * string)) :=
  let policy := policyFor (in_Channel msg) g in
  if decide (policy = DMClosed) then Some (s, (false, "This channel is not accepting messages."))
  else if decide (policy = DMOpen) then
    if decide (allow_list (in_Channel msg) g = [] \/ allowed (in_Channel msg) (in_UserID msg) g = true) then Some (s, (true, ""))
    else Some (s, (false, "You are not on the allowlist for this channel."))
  else if negb (has_store g) || allowed (in_Channel msg) (in_UserID msg) g
          || IsPaired (ce_query env) (in_Tenant msg) (in_Channel msg) (in_UserID msg) s
  then Some (s, (true, ""))
  else
    match IssueCode (ce_bytes env) (ce_issue env) (ce_now env) (in_Tenant msg) (in_Channel msg) (in_UserID msg) s with
    | None => None
    | Some (s, Err _) => Some (s, (false, "Unable to start pairing. Please try again later."))
    | Some (s, Ok code) =>
        Some (s, (false, "This assistant requires pairing. Your code is " +:+ code +:+
                         " " +:+ String "226" (String "128" (String "148" " ask an operator to approve it."))))
    end.

(** ** What passes the gate *)

Definition sender_of (msg : InboundMessage) : sender := (in_Tenant msg, in_Channel msg, in_UserID msg).

(** A check that issues a code. *)
Definition issues (env : check_env) (msg : InboundMessage) (s s' : PairingStore) : Prop :=
  exists code, pairingCode (ce_bytes env) = Some (Ok code) /\
    s' = {| paired_senders := paired_senders s;
            pending_pairings := <[sender_of msg := {| pr_Code := code; pr_CreatedAt := Unix (ce_now env) |}]> (pending_pairings s) |}.

Lemma Check_effect env g msg s s' pass reply : Check_ env g msg s = Some (s', (pass, reply)) ->
  s' = s \/ pass = false /\ issues env msg s s'.
Proof.
  unfold Check_, IssueCode, issues. intros H.
  repeat case_match; simplify_eq; eauto.
Qed.

Lemma Check_pass env g msg s s' reply : Check_ env g msg s = Some (s', (true, reply)) ->
  s' = s /\ reply = "" /\ policyFor (in_Channel msg) g <> DMClosed /\
  (policyFor (in_Channel msg) g = DMOpen \/ has_store g = false \/ allowed (in_Channel msg) (in_UserID msg) g = true \/
   IsPaired (ce_query env) (in_Tenant msg) (in_Channel msg) (in_UserID msg) s = true).
Proof.
  unfold Check_, IssueCode. intros H. destruct (decide (policyFor (in_Channel msg) g = DMClosed)); [by simplify_eq|].
  destruct (decide (policyFor (in_Channel msg) g = DMOpen)); [case_match; simplify_eq; by auto|].
  destruct (negb (has_store g) || _ || _) eqn:E; [|by repeat case_match; simplify_eq]. simplify_eq.
  rewrite !orb_true_iff, negb_true_iff in E. tauto.
Qed.

(** ** The history of a store *)

(** Messages checked, by whatever gate, and approvals by an operator. *)
Inductive op :=
  | OMessage (g : Gate) (env : check_env) (msg : InboundMessage)
  | OApproveCode (pick : list string -> option string) (fault insert : option error) (delete_ : bool) (now : time)
      (tenant channel code : string)
  | OApproveUser (insert : option error) (delete_ : bool) (now : time) (tenant channel userID : string).

Definition exec (s : PairingStore) (o : op) : PairingStore :=
  match o with
  | OMessage g env msg => match Check_ env g msg s with Some (s', _) => s' | None => s end
  | OApproveCode pick fault insert delete_ now t c code => (ApproveCode pick fault insert delete_ now t c code s).1
  | OApproveUser insert delete_ now t c u => (ApproveUser insert delete_ now t c u s).1
  end.
Definition history (ops : list op) : PairingStore := foldl exec NewPairingStore ops.

(** SQLite gives a row that matches. *)
Definition honest (o : op) : Prop :=
  match o with OApproveCode pick _ _ _ _ _ _ _ => forall l u, pick l = Some u -> u ∈ l | _ => True end.

(** An operation that approves a sender: by name, or by a code pending for it. *)
Definition approves (o : op) (s : PairingStore) (k : sender) : Prop :=
  match o with
  | OMessage _ _ _ => False
  | OApproveUser insert _ _ t c u => k = (t, c, u)
  | OApproveCode _ _ _ _ _ t c code =>
      exists u row, k = (t, c, u) /\ pending_pairings s !! k = Some row /\ pr_Code row = TrimSpace code
  end.

Lemma holders_pending t c code s u : u ∈ holders t c code s ->
  exists row, pending_pairings s !! (t, c, u) = Some row /\ pr_Code row = code.
Proof.
  unfold holders. intros ((((t' & c') & u') & row) & -> & [[Hk Hc] Hin%elem_of_map_to_list]%list_elem_of_filter)%list_elem_of_fmap.
  simpl in *. injection Hk as -> ->. by exists row.
Qed.

Lemma approveLocked_effect insert del now t c u s s' e : approveLocked insert del now t c u s = (s', e) ->
  (forall k, is_Some (paired_senders s' !! k) -> is_Some (paired_senders s !! k) \/ k = (t, c, u)) /\
  (forall k row, pending_pairings s' !! k = Some row -> pending_pairings s !! k = Some row).
Proof.
  unfold approveLocked. destruct insert; intros [= <- <-]; [by auto|]. simpl. split.
  - intros k. destruct (paired_senders s !! (t, c, u)); [by left|].
    destruct (decide (k = (t, c, u))) as [->|]; [by right|]. rewrite lookup_insert_ne by done. by left.
  - intros k row. destruct del; [|done]. by intros [_ H]%lookup_delete_Some.
Qed.

(** One operation: a sender newly approved was approved by it; a code newly pending was issued
    to its sender by it. *)
Lemma exec_paired o s k : honest o -> is_Some (paired_senders (exec s o) !! k) ->
  is_Some (paired_senders s !! k) \/ approves o s k.
Proof.
  destruct o as [g env msg|pick fault insert del now t c code|insert del now t c u]; simpl; intros Ho.
  - destruct (Check_ env g msg s) as [[s' [pass reply]]|] eqn:Hc; [|by left].
    destruct (Check_effect _ _ _ _ _ _ _ Hc) as [->|[_ (code & _ & ->)]]; by left.
  - unfold ApproveCode. destruct fault; [by left|]. destruct (pick _) as [u|] eqn:Hp; [|by left].
    destruct (approveLocked _ _ _ _ _ _ _) as [s' e] eqn:Ha. apply approveLocked_effect in Ha as [Hpaired _].
    assert (Hs : forall r : Result string, (match e with Some e => (s', Err e) | None => (s', Ok u) end).1 = s') by (by destruct e).
    rewrite (Hs (Ok "")). intros [?| ->]%Hpaired; [by left|right].
    destruct (holders_pending _ _ _ _ _ (Ho _ _ Hp)) as (row & Hrow & Hcode). by exists u, row.
  - unfold ApproveUser. destruct (approveLocked _ _ _ _ _ _ _) as [s' e] eqn:Ha. apply approveLocked_effect in Ha as [Hpaired _].
    intros [?| ->]%Hpaired; [by left|by right].
Qed.

Lemma exec_pending o s k row : pending_pairings (exec s o) !! k = Some row ->
  pending_pairings s !! k = Some row \/
  exists g env msg, o = OMessage g env msg /\ sender_of msg = k /\ pairingCode (ce_bytes env) = Some (Ok (pr_Code row)).
Proof.
  destruct o as [g env msg|pick fault insert del now t c code|insert del now t c u]; simpl.
  - destruct (Check_ env g msg s) as [[s' [pass reply]]|] eqn:Hc; [|by left].
    destruct (Check_effect _ _ _ _ _ _ _ Hc) as [->|[_ (code & Hcode & ->)]]; [by left|]. simpl.
    intros [[<- <-]|[_ Hk]]%lookup_insert_Some; [right|by left]. by exists g, env, msg.
  - unfold ApproveCode. destruct fault; [by left|]. destruct (pick _) as [u|]; [|by left].
    destruct (approveLocked _ _ _ _ _ _ _) as [s' e] eqn:Ha. apply approveLocked_effect in Ha as [_ Hpend].
    destruct e; simpl; intros H%Hpend; by left.
  - unfold ApproveUser. destruct (approveLocked _ _ _ _ _ _ _) as [s' e] eqn:Ha. apply approveLocked_effect in Ha as [_ Hpend].
    intros H%Hpend. by left.
Qed.

Lemma history_snoc ops o : history (ops ++ [o]) = exec (history ops) o.
Proof. unfold history. by rewrite foldl_app. Qed.

Lemma history_paired ops k : Forall honest ops -> is_Some (paired_senders (history ops) !! k) ->
  exists ops1 o ops2, ops = ops1 ++ o :: ops2 /\ approves o (history ops1) k.
Proof.
  induction ops as [|o ops IH] using rev_ind; intros Hh Hk; [by destruct Hk as [? Hk]|].
  apply Forall_app in Hh as [Hh Ho]. rewrite Forall_singleton in Ho. rewrite history_snoc in Hk.
  destruct (exec_paired o _ k Ho Hk) as [Hold|Happ]; [|by exists ops, o, []].
  destruct (IH Hh Hold) as (ops1 & o' & ops2 & -> & Happ). exists ops1, o', (ops2 ++ [o]). by rewrite <- app_assoc.
Qed.

Lemma history_pending ops k row : pending_pairings (history ops) !! k = Some row ->
  exists ops1 g env msg ops2, ops = ops1 ++ OMessage g env msg :: ops2 /\ sender_of msg = k /\
    pairingCode (ce_bytes env) = Some (Ok (pr_Code row)).
Proof.
  induction ops as [|o ops IH] using rev_ind; intros Hk; [done|].
  rewrite history_snoc in Hk. destruct (exec_pending o _ k row Hk) as [Hold|(g & env & msg & -> & Hs & Hc)].
  - destruct (IH Hold) as (ops1 & g & env & msg & ops2 & -> & Hrest). exists ops1, g, env, msg, (ops2 ++ [o]).
    by rewrite <- app_assoc.
  - by exists ops, g, env, msg, [].
Qed.

(** Under the pairing policy (any that is not "open" or "closed") a sender who is not
    on the channel's list reaches the agent only after an operator approved that very sender, on
    that channel and for that tenant: by name, or by a code that a check had issued to that
    sender and that was still pending for it.  Whatever the sender sends, and however often, does
    not do it; and "closed" lets nobody through. *)
Lemma pairing_needs_approval ops env g msg s' reply :
  Forall honest ops -> has_store g = true -> policyFor (in_Channel msg) g <> DMOpen ->
  Check_ env g msg (history ops) = Some (s', (true, reply)) ->
  policyFor (in_Channel msg) g <> DMClosed /\
  (allowed (in_Channel msg) (in_UserID msg) g = true \/
   exists ops1 o ops2, ops = ops1 ++ o :: ops2 /\
     ((exists insert del now, o = OApproveUser insert del now (in_Tenant msg) (in_Channel msg) (in_UserID msg)) \/
      (exists pick fault insert del now code g' env' msg' ops3 ops4,
         o = OApproveCode pick fault insert del now (in_Tenant msg) (in_Channel msg) code /\
         ops1 = ops3 ++ OMessage g' env' msg' :: ops4 /\ sender_of msg' = sender_of msg /\
         pairingCode (ce_bytes env') = Some (Ok (TrimSpace code))))).
Proof.
  intros Hh Hst Hopen Hc. apply Check_pass in Hc as (-> & -> & Hclosed & [?|[?|[?|Hp]]]); [done|congruence|by auto|].
  split; [done|]. right. unfold IsPaired in Hp. destruct (ce_query env); [done|]. apply bool_decide_eq_true in Hp.
  destruct (history_paired ops _ Hh Hp) as (ops1 & o & ops2 & -> & Happ). exists ops1, o, ops2. split; [done|].
  destruct o as [|pick fault insert del now t c code|insert del now t c u]; simpl in Happ; [done| |].
  - right. destruct Happ as (u & row & Hk & Hrow & Hcode). injection Hk as <- <- <-.
    destruct (history_pending _ _ _ Hrow) as (ops3 & g' & env' & msg' & ops4 & -> & Hs & Hpc).
    exists pick, fault, insert, del, now, code, g', env', msg', ops3, ops4. by rewrite <- Hcode.
  - left. injection Happ as <- <- <-. by exists insert, del, now.
Qed.

(** ** The codes *)

Definition accepted (b : Z) : Prop := b < limit.
#[local] Instance accepted_dec b : Decision (accepted b).
Proof. unfold accepted. apply _. Defined.
Definition letters (bs : list Z) : string := foldr (fun b text => letter b +:+ text) "" bs.

Lemma letter_length b : 0 <= b -> String.length (letter b) = 1%nat.
Proof.
  intros Hb. unfold letter. set (i := Z.to_nat (b mod _)).
  assert (Hi : (i < 31)%nat) by (unfold i; pose proof (Z.mod_pos_bound b 31 ltac:(lia)); simpl; lia).
  clearbody i. do 31 (destruct i as [|i]; [done|]). lia.
Qed.

Lemma code_loop_spec bs : forall b, Forall (fun x => 0 <= x < 256) bs -> (String.length b <= codeLen)%nat ->
  let missing := (codeLen - String.length b)%nat in
  code_loop (Ok <$> bs) b =
    if decide (missing <= length (filter accepted bs))%nat then Some (Ok (b +:+ letters (take missing (filter accepted bs))))
    else None.
Proof.
  induction bs as [|x bs IH]; intros b Hbs Hlen missing; assert (Hm : missing = (codeLen - String.length b)%nat) by done;
    clearbody missing; rewrite ?fmap_nil, ?fmap_cons; simpl code_loop.
  { destruct (decide (codeLen <= String.length b)%nat) as [Hd|Hd].
    - replace missing with 0%nat by lia. rewrite decide_True by lia. simpl. by rewrite str_app_nil_r.
    - rewrite decide_False by (rewrite filter_nil; simpl; lia). done. }
  apply Forall_cons in Hbs as [Hx Hbs].
  destruct (decide (codeLen <= String.length b)%nat) as [Hd|Hd].
  { replace missing with 0%nat by lia. rewrite decide_True by lia. simpl. by rewrite str_app_nil_r. }
  rewrite filter_cons. destruct (decide (limit <= x)) as [Hl|Hl].
  - rewrite (decide_False (P := accepted x)) by (unfold accepted; lia). rewrite Hm. by apply IH.
  - rewrite (decide_True (P := accepted x)) by (unfold accepted; lia). pose proof (letter_length x ltac:(lia)) as Hone.
    rewrite IH by (done || (rewrite str_length_app; lia)). rewrite str_length_app, Hone.
    replace missing with (S (codeLen - (String.length b + 1))) by lia. simpl.
    destruct (decide (codeLen - (String.length b + 1) <= length (filter accepted bs))%nat) as [Hle|Hle].
    + rewrite decide_True by lia. simpl. by rewrite str_app_assoc.
    + by rewrite decide_False by lia.
Qed.

Definition all_bytes : list Z := Z.of_nat <$> seq 0 256.
(** The bytes that are accepted and give a letter. *)
Definition giving (i : nat) : list Z :=
  filter (fun b => accepted b /\ letter b = String.substring i 1 alphabet) all_bytes.

(** A pairing code is drawn without bias.  From random bytes the code is made of
    the first six below 248, one letter each, and there is a code as soon as there are six of
    them; each of the 31 letters is given by exactly 8 of the 256 bytes, so uniform bytes give
    uniform codes. *)
Lemma pairingCode_uniform bs : Forall (fun b => 0 <= b < 256) bs ->
  pairingCode (Ok <$> bs) =
    (if decide (6 <= length (filter accepted bs))%nat then Some (Ok (letters (take 6 (filter accepted bs)))) else None) /\
  String.length alphabet = 31%nat /\ forall i, (i < 31)%nat -> length (giving i) = 8%nat.
Proof.
  intros Hbs. split; [apply (code_loop_spec bs "" Hbs); simpl; lia|]. split; [done|].
  assert (H : forallb (fun i => length (giving i) =? 8)%nat (seq 0 31) = true) by (vm_compute; reflexivity).
  intros i Hi. rewrite forallb_forall in H. apply Nat.eqb_eq, H, in_seq. lia.
Qed.

(** ** A sender *)
Lemma pairingCode_uniform_witness :
  pairingCode (Ok <$> [250; 0; 1; 31; 62; 255; 30; 247]) = Some (Ok "ABAA99").
Proof.
  assert (Hb : Forall (fun b => 0 <= b < 256) [250; 0; 1; 31; 62; 255; 30; 247]) by (repeat constructor; lia).
  rewrite (proj1 (pairingCode_uniform _ Hb)). vm_compute. reflexivity.
Defined.

Definition demo_gate : Gate := NewGate true DMPairing.
Definition demo_env : check_env :=
  {| ce_query := None; ce_issue := None; ce_bytes := Ok <$> [0; 1; 2; 3; 4; 5]; ce_now := 0 |}.
Definition demo_message : InboundMessage :=
  {| in_Channel := "slack"; in_ChannelID := "c"; in_UserID := "ann"; in_Text := "hi"; in_Tenant := "t"; in_Agent := "g" |}.
Definition demo_ops : list op :=
  [OMessage demo_gate demo_env demo_message; OApproveCode head None None true 0 "t" "slack" " ABCDEF "].

Lemma pairing_needs_approval_witness :
  Check_ demo_env demo_gate demo_message (history []) <> None /\
  (exists s', Check_ demo_env demo_gate demo_message (history demo_ops) = Some (s', (true, ""))) /\
  exists ops1 o ops2, demo_ops = ops1 ++ o :: ops2 /\ forall g env msg, o <> OMessage g env msg.
Proof.
  split; [vm_compute; discriminate|].
  assert (Hc : exists s', Check_ demo_env demo_gate demo_message (history demo_ops) = Some (s', (true, "")))
    by (eexists; vm_compute; reflexivity).
  split; [exact Hc|]. destruct Hc as (s' & Hc).
  assert (Hh : Forall honest demo_ops).
  { repeat constructor. simpl. intros [|x l] u; [discriminate|]. intros [= <-]. by left. }
  assert (Ho : policyFor (in_Channel demo_message) demo_gate <> DMOpen) by (vm_compute; discriminate).
  destruct (pairing_needs_approval demo_ops demo_env demo_gate demo_message s' "" Hh eq_refl Ho Hc)
    as (_ & [Hal|(ops1 & o & ops2 & Heq & Happ)]); [vm_compute in Hal; discriminate|].
  exists ops1, o, ops2. split; [exact Heq|].
  intros g env msg ->. destruct Happ as [(? & ? & ? & ?)|(? & ? & ? & ? & ? & ? & ? & ? & ? & ? & ? & ? & _)]; discriminate.
Defined.

(** Without a store the pairing policy lets everybody through. *)
Example pairing_without_store :
  Check_ demo_env (NewGate false DMPairing) demo_message NewPairingStore = Some (NewPairingStore, (true, "")).
Proof. reflexivity. Qed.
