(* ===== verification/Channel.v ===== *)
(** * Channel: between messaging channels and agents

    [src/modules/channel/manager.go]: the registry of channel adapters with their owners, inbound
    messages from the gate to the agent, outbound messages and progress events, and the pairing
    handlers.  What the bus and the adapters answer is an argument. *)
From S2P Require Import Prelude GoStr Regexp Redact Pairing.
From S2P Require AgentSession AgentTurn.
Local Open Scope Z_scope.

(** ** Data *)

(* [modules/channel/types.go:OutboundMessage] *)
Record OutboundMessage := { out_Channel : string; out_ChannelID : string; out_Text : string; ThreadTS : string }.

(** An adapter: its name, and the tenant that owns it when it declares one. *)
(* [modules/channel/types.go:ChannelAdapter] *)
Record ChannelAdapter := { ad_Name : string; ad_Tenant : option string }.

(** The gate with its store, when there is one. *)
(* [modules/channel/manager.go:Manager] *)
Record Manager := {
  adapters : gmap string ChannelAdapter; tenants : gmap string string; gate : option Gate; store : PairingStore;
}.
(* [modules/channel/manager.go:NewManager] *)
Definition NewManager : Manager := {| adapters := ∅; tenants := ∅; gate := None; store := NewPairingStore |}.
(* [modules/channel/manager.go:Manager.SetGate] *)
Definition SetGate (g : option Gate) (m : Manager) : Manager :=
  {| adapters := adapters m; tenants := tenants m; gate := g; store := store m |}.
Definition with_store (s : PairingStore) (m : Manager) : Manager :=
  {| adapters := adapters m; tenants := tenants m; gate := gate m; store := s |}.
(* [modules/channel/manager.go:Manager.AddAdapter] *)
Definition AddAdapter (a : ChannelAdapter) (m : Manager) : Manager :=
  {| adapters := <[ad_Name a := a]> (adapters m);
     tenants := match ad_Tenant a with Some t => <[ad_Name a := t]> (tenants m) | None => tenants m end;
     gate := gate m; store := store m |}.

Definition owner (name : string) (m : Manager) : string := default "" (tenants m !! name).
(* [modules/channel/manager.go:Manager.adapterForTenant] *)
Definition adapterForTenant (name caller : string) (m : Manager) : option ChannelAdapter :=
  match adapters m !! name with
  | None => None
  | Some a => if decide (owner name m <> "" /\ caller <> "" /\ owner name m <> caller) then None else Some a
  end.

(** ** Messages of the bus *)

(** The payload of a message: one of the types the handlers take, or another, by its name. *)
Inductive payload := PMap (m : gmap string string) | POut (o : OutboundMessage) | PProgress (e : AgentSession.ProgressEvent)
  | POther (type : string).
Definition go_type (p : payload) : string :=
  match p with
  | PMap _ => "map[string]string" | POut _ => "channel.OutboundMessage" | PProgress _ => "agent.ProgressEvent"
  | POther t => t
  end.
Definition arg (m : gmap string string) (k : string) : string := default "" (m !! k).

(* [modules/channel/manager.go:callerTenant] *)
Definition callerTenant (p : payload) : string := match p with PMap m => arg m "tenant" | _ => "" end.

(** ** Life cycle *)

Section LifeCycle.
(** The order in which the adapters are visited, and their errors. *)
Context (visit : gmap string ChannelAdapter -> list ChannelAdapter) (start stop : string -> option error).

(** The adapters started, and the error that stops the start. *)
Fixpoint start_all (l : list ChannelAdapter) : list string * option error :=
  match l with
  | [] => ([], None)
  | a :: l =>
      match start (ad_Name a) with
      | Some err => ([], Some ("start adapter " +:+ quote (ad_Name a) +:+ ": " +:+ err))
      | None => let '(names, err) := start_all l in (ad_Name a :: names, err)
      end
  end.
(* [modules/channel/manager.go:Manager.Start@111-123] *)
Definition Start (m : Manager) : list string * option error := start_all (visit (adapters m)).
(* [modules/channel/manager.go:Manager.Stop] *)
Definition Stop (m : Manager) : option error := head (omap (fun a => stop (ad_Name a)) (visit (adapters m))).
End LifeCycle.
(* [modules/channel/manager.go:Manager.Health] *)
Definition Health (m : Manager) : bool * string := (true, itoa (Z.of_nat (size (adapters m))) +:+ " channel adapters").

(** ** Inbound *)

(** The requests to the agent runtime. *)
Inductive request := RClear (tenant agent : string) | RChat (q : AgentSession.ChatRequest).

Definition chat_of (msg : InboundMessage) : AgentSession.ChatRequest :=
  {| AgentSession.rq_Agent := in_Agent msg; AgentSession.rq_Tenant := in_Tenant msg; AgentSession.rq_User := in_UserID msg;
     AgentSession.rq_Message := in_Text msg; AgentSession.rq_Channel := in_Channel msg;
     AgentSession.rq_ChannelID := in_ChannelID msg |}.

Section Inbound.
(** [strings.ToLower], the secret patterns loaded, the runtime's replies, and the type of a reply
    that is another. *)
Context (ToLower : string -> string) (patterns : list regexp).
Context (clear : string -> string -> option error) (chat : AgentSession.ChatRequest -> AgentTurn.reply AgentSession.ChatResponse).
Context (chat_type : string).

Definition clear_commands : list string := ["clear"; "reset"; "new conversation"; "/clear"; "/reset"].

Definition answer_inbound (msg : InboundMessage) : list request * Result string :=
  if decide (TrimSpace (ToLower (in_Text msg)) ∈ clear_commands) then
    ([RClear (in_Tenant msg) (in_Agent msg)],
     match clear (in_Tenant msg) (in_Agent msg) with
     | Some err => Ok ("Failed to clear session: " +:+ err)
     | None => Ok "Session cleared. Starting fresh conversation."
     end)
  else
    ([RChat (chat_of msg)],
     match chat (chat_of msg) with
     | AgentTurn.Failed err => Err ("route to agent: " +:+ err)
     | AgentTurn.OtherPayload => Err ("unexpected response type: " +:+ chat_type)
     | AgentTurn.Replied resp => Ok (MaskSecrets patterns (AgentSession.rs_Content resp))
     end).

(** The requests made and the reply to the sender; [None]: the random source of the gate gave too
    few bytes so far. *)
(* [modules/channel/manager.go:Manager.routeInbound] *)
Definition routeInbound (env : check_env) (msg : InboundMessage) (m : Manager) :
    option (Manager * (list request * Result string)) :=
  match gate m with
  | None => Some (m, answer_inbound msg)
  | Some g =>
      match Check_ env g msg (store m) with
      | None => None
      | Some (s, (true, _)) => Some (with_store s m, answer_inbound msg)
      | Some (s, (false, reply)) => Some (with_store s m, ([], Ok reply))
      end
  end.
End Inbound.

(** ** Pairing *)

Definition pairing_on (m : Manager) : bool := match gate m with Some g => has_store g | None => false end.

(* [modules/channel/manager.go:Manager.handlePairingApprove] *)
Definition handlePairingApprove (pick : list string -> option string) (fault insert : option error) (delete_ : bool)
    (now : time) (p : payload) (m : Manager) : Manager * Result string :=
  if pairing_on m then
    match p with
    | PMap args =>
        let '(s, r) := ApproveCode pick fault insert delete_ now (arg args "tenant") (arg args "channel") (arg args "code") (store m) in
        (with_store s m, r)
    | _ => (m, Err ("channel.pairing.approve: expected map[string]string, got " +:+ go_type p))
    end
  else (m, Err "pairing not configured").

(* [modules/channel/manager.go:Manager.handlePairingPending] *)
Definition handlePairingPending `{!SliceSorter by_created} (fault : option error) (p : payload) (m : Manager) :
    Result (list PendingPair) :=
  if pairing_on m then
    match p with
    | PMap args =>
        let tenant := arg args "tenant" in
        let caller := arg args "caller_tenant" in
        if decide (tenant = "" \/ caller = "" \/ caller <> tenant) then
          Err ("channel.pairing.pending: not authorized for tenant " +:+ quote tenant)
        else ListPending fault tenant (store m)
    | _ => Err ("channel.pairing.pending: expected map[string]string, got " +:+ go_type p)
    end
  else Err "pairing not configured".

(** ** Outbound *)

(** An adapter's [Send]: its error, by the adapter and the message. *)
Definition sender_fn : Type := string -> OutboundMessage -> option error.

(** What is handed to which adapter, and the reply. *)
(* [modules/channel/manager.go:Manager.handleSend] *)
Definition handleSend (send : sender_fn) (p : payload) (m : Manager) : list (string * OutboundMessage) * Result string :=
  match p with
  | POut out =>
      match adapterForTenant (out_Channel out) (callerTenant p) m with
      | None => ([], Err ("channel adapter " +:+ quote (out_Channel out) +:+ " not found for tenant"))
      | Some a =>
          ([(ad_Name a, out)],
           match send (ad_Name a) out with
           | Some err => Err ("send via " +:+ quote (out_Channel out) +:+ ": " +:+ err)
           | None => Ok "ok"
           end)
      end
  | _ => ([], Err ("expected OutboundMessage, got " +:+ go_type p))
  end.

(** The error of the send is only logged. *)
(* [modules/channel/manager.go:Manager.handleProgress] *)
Definition handleProgress (p : payload) (m : Manager) : list (string * OutboundMessage) :=
  match p with
  | PProgress evt =>
      if decide (AgentSession.pe_Channel evt = "" \/ AgentSession.pe_ChannelID evt = "") then []
      else match adapterForTenant (AgentSession.pe_Channel evt) (AgentSession.pe_Tenant evt) m with
           | None => []
           | Some a => [(ad_Name a, {| out_Channel := AgentSession.pe_Channel evt; out_ChannelID := AgentSession.pe_ChannelID evt;
                                       out_Text := AgentSession.pe_Message evt; ThreadTS := "" |})]
           end
  | _ => []
  end.

(* [modules/channel/manager.go:Manager.handleList] *)
Definition handleList (m : Manager) : list string := sort_strings (map_to_list (adapters m)).*1.
(* [modules/channel/manager.go:Manager.handleDetails] *)
Definition handleDetails (m : Manager) : list (string * string) := (fun p => (p.1, "active")) <$> map_to_list (adapters m).

(** ** What reaches the runtime *)

(** C28 [safety]: a message from a channel makes at most one request, and only when the manager
    has no gate or the gate lets the sender through.  If the text, in lower case and trimmed, is one of
    clear, reset, new conversation, /clear and /reset, that request is the clearing of the session of
    the message's tenant and agent, and the sender is told whether it worked; for every other text it is a
    chat of the message's agent and tenant, in the sender's name and with the sender's text, and the
    sender gets the agent's answer with its secrets masked or the failure.  A sender who is held back
    gets the gate's text, and no reply of an agent leaves with an access token in it. *)
Theorem inbound_gated ToLower patterns clear chat chat_type env msg m m' reqs r :
  routeInbound ToLower patterns clear chat chat_type env msg m = Some (m', (reqs, r)) ->
  let clearing := TrimSpace (ToLower (in_Text msg)) ∈ ["clear"; "reset"; "new conversation"; "/clear"; "/reset"] in
  (reqs <> [] -> m' = m /\ (gate m = None \/ exists g, gate m = Some g /\ Check_ env g msg (store m) = Some (store m, (true, "")))) /\
  (reqs = [] -> exists g s reply, gate m = Some g /\ Check_ env g msg (store m) = Some (s, (false, reply)) /\
     m' = with_store s m /\ r = Ok reply) /\
  (reqs <> [] -> clearing -> reqs = [RClear (in_Tenant msg) (in_Agent msg)] /\
     r = Ok match clear (in_Tenant msg) (in_Agent msg) with
            | Some err => "Failed to clear session: " +:+ err
            | None => "Session cleared. Starting fresh conversation."
            end) /\
  (reqs <> [] -> ~ clearing -> reqs = [RChat (chat_of msg)] /\
     AgentSession.rq_Tenant (chat_of msg) = in_Tenant msg /\ AgentSession.rq_Agent (chat_of msg) = in_Agent msg /\
     AgentSession.rq_User (chat_of msg) = in_UserID msg /\ AgentSession.rq_Message (chat_of msg) = in_Text msg /\
     match chat (chat_of msg) with
     | AgentTurn.Replied resp =>
         exists text, r = Ok text /\ text = MaskSecrets patterns (AgentSession.rs_Content resp) /\
           forall pat, pat ∈ tokenPatterns -> free_of pat text
     | AgentTurn.Failed err => r = Err ("route to agent: " +:+ err)
     | AgentTurn.OtherPayload => r = Err ("unexpected response type: " +:+ chat_type)
     end).
Proof.
  intros Hr clearing.
  assert (Hans : forall reqs r, answer_inbound ToLower patterns clear chat chat_type msg = (reqs, r) ->
    reqs <> [] /\
    (clearing -> reqs = [RClear (in_Tenant msg) (in_Agent msg)] /\
       r = Ok match clear (in_Tenant msg) (in_Agent msg) with
              | Some err => "Failed to clear session: " +:+ err
              | None => "Session cleared. Starting fresh conversation." end) /\
    (~ clearing -> reqs = [RChat (chat_of msg)] /\ match chat (chat_of msg) with
       | AgentTurn.Replied resp => r = Ok (MaskSecrets patterns (AgentSession.rs_Content resp))
       | AgentTurn.Failed err => r = Err ("route to agent: " +:+ err)
       | AgentTurn.OtherPayload => r = Err ("unexpected response type: " +:+ chat_type) end)).
  { clear Hr reqs r. intros reqs r. unfold answer_inbound, clear_commands. fold clearing. case_decide as Hd; intros [= <- <-].
    - split; [done|]. split; [|done]. intros _. split; [done|]. by destruct (clear _ _).
    - split; [done|]. split; [done|]. intros _. split; [done|]. by destruct (chat _). }
  assert (Hcases : (exists g s reply, gate m = Some g /\ Check_ env g msg (store m) = Some (s, (false, reply)) /\
      m' = with_store s m /\ r = Ok reply /\ reqs = []) \/
    (m' = m /\ (gate m = None \/ exists g, gate m = Some g /\ Check_ env g msg (store m) = Some (store m, (true, ""))) /\
     answer_inbound ToLower patterns clear chat chat_type msg = (reqs, r))).
  { revert Hr. unfold routeInbound. destruct (gate m) as [g|] eqn:Hg; [|intros [= <- Ha]; right; auto].
    destruct (Check_ env g msg (store m)) as [[s [[] reply]]|] eqn:Hc; [| |done].
    - destruct (Check_pass _ _ _ _ _ _ Hc) as (-> & -> & _). intros [= <- Ha]. right. split; [by destruct m|eauto].
    - intros [= <- <- <-]. left. by exists g, s, reply. }
  destruct Hcases as [(g & s & reply & Hg & Hc & -> & -> & ->)|(-> & Hg & Ha)].
  - split; [done|]. split; [intros _; by exists g, s, reply|done].
  - destruct (Hans _ _ Ha) as (Hne & H1 & H2). split; [auto|]. split; [done|]. split; [auto|].
    intros _ Hn. destruct (H2 Hn) as [-> Hchat]. split_and!; [done..|]. destruct (chat (chat_of msg)); [|done..].
    eexists. split; [exact Hchat|]. split; [done|]. intros pat. apply MaskSecrets_free.
Qed.

(** ** Tenants *)

Lemma adapterForTenant_spec name caller m a : adapterForTenant name caller m = Some a <->
  adapters m !! name = Some a /\ (owner name m = "" \/ caller = "" \/ owner name m = caller).
Proof.
  unfold adapterForTenant. destruct (adapters m !! name) as [a'|]; [|naive_solver]. case_decide as Hd.
  - split; [done|]. naive_solver.
  - split; [|by intros [? _]]. intros [= ->]. split; [done|].
    destruct (decide (owner name m = "")); [by left|]. destruct (decide (caller = "")); [by right; left|].
    right; right. by destruct (decide (owner name m = caller)); [|exfalso; apply Hd].
Qed.

Lemma pending_elem `{!SliceSorter by_created} tenant s p :
  p ∈ pending_pair <$> sortSlice by_created (filter (fun p => p.1.1.1 = tenant) (map_to_list (pending_pairings s))) <->
  pp_Tenant p = tenant /\
  exists row, pending_pairings s !! (pp_Tenant p, pp_Channel p, pp_UserID p) = Some row /\ pr_Code row = pp_Code p.
Proof.
  rewrite list_elem_of_fmap. setoid_rewrite sortSlice_perm. setoid_rewrite list_elem_of_filter. setoid_rewrite elem_of_map_to_list'.
  split.
  - intros ([[[t c] u] row] & -> & Ht & Hrow). simpl in *. split; [done|]. by exists row.
  - intros [<- (row & Hrow & Hcode)]. exists (pp_Tenant p, pp_Channel p, pp_UserID p, row). split; [|done].
    unfold pending_pair. simpl. rewrite Hcode. by destruct p.
Qed.

(** Tenants are kept apart at the channels in two of three ways.  A progress event
    goes to the adapter of its channel exactly when that adapter has no owner, the event no
    tenant, or they are the same tenant's.  Pending codes are listed only to a caller of the
    tenant asked about, and only that tenant's, all of them, the oldest first.  But a message sent
    through channel.send goes to any adapter there is, whoever owns it: the caller's tenant is
    looked for in a payload of another type than the one the handler takes. *)
Lemma channel_tenants `{!SliceSorter by_created} m :
  (forall evt a out, (a, out) ∈ handleProgress (PProgress evt) m <->
     AgentSession.pe_Channel evt <> "" /\ AgentSession.pe_ChannelID evt <> "" /\
     (exists ad, adapters m !! AgentSession.pe_Channel evt = Some ad /\ a = ad_Name ad) /\
     (owner (AgentSession.pe_Channel evt) m = "" \/ AgentSession.pe_Tenant evt = "" \/
      owner (AgentSession.pe_Channel evt) m = AgentSession.pe_Tenant evt) /\
     out = {| out_Channel := AgentSession.pe_Channel evt; out_ChannelID := AgentSession.pe_ChannelID evt;
              out_Text := AgentSession.pe_Message evt; ThreadTS := "" |}) /\
  (forall args l, handlePairingPending None (PMap args) m = Ok l ->
     arg args "caller_tenant" = arg args "tenant" /\ StronglySorted by_created
       (sortSlice by_created (filter (fun p => p.1.1.1 = arg args "tenant") (map_to_list (pending_pairings (store m))))) /\
     forall p, p ∈ l <-> pp_Tenant p = arg args "tenant" /\
       exists row, pending_pairings (store m) !! (pp_Tenant p, pp_Channel p, pp_UserID p) = Some row /\ pr_Code row = pp_Code p) /\
  (forall send out ad, adapters m !! out_Channel out = Some ad -> (handleSend send (POut out) m).1 = [(ad_Name ad, out)]).
Proof.
  split; [|split].
  - intros evt a out. simpl. case_decide as Hd; [split; [by intros ?%not_elem_of_nil|naive_solver]|].
    destruct (adapterForTenant _ _ m) as [ad|] eqn:Had.
    + apply adapterForTenant_spec in Had as [Hreg Hown]. rewrite list_elem_of_singleton. split.
      * intros [= -> ->]. repeat split; try done; try (intros E; apply Hd; by auto). by exists ad.
      * intros (_ & _ & (ad' & Hreg' & ->) & _ & ->). congruence.
    + split; [by intros ?%not_elem_of_nil|]. intros (_ & _ & (ad & Hreg & _) & Hown & _). exfalso.
      enough (adapterForTenant (AgentSession.pe_Channel evt) (AgentSession.pe_Tenant evt) m = Some ad) by congruence.
      by apply adapterForTenant_spec.
  - intros args l. unfold handlePairingPending. destruct (pairing_on m); [|done]. case_decide as Hd; [done|].
    simpl. intros [= <-]. split; [by destruct (decide (arg args "caller_tenant" = arg args "tenant")); [|exfalso; apply Hd; auto]|].
    split; [apply sortSlice_sorted|]. intros p. by apply pending_elem.
  - intros send out ad Had. unfold handleSend.
    assert (Hf : adapterForTenant (out_Channel out) (callerTenant (POut out)) m = Some ad)
      by (apply adapterForTenant_spec; split; [done|by right; left]).
    by rewrite Hf.
Qed.

(** ** A manager with two tenants' adapters *)
Definition demo_manager : Manager :=
  SetGate (Some demo_gate) (AddAdapter {| ad_Name := "slack"; ad_Tenant := Some "t" |}
    (AddAdapter {| ad_Name := "teams"; ad_Tenant := Some "other" |} NewManager)).

Lemma inbound_gated_witness :
  exists m' reply, routeInbound (fun s => s) [] (fun _ _ => None)
    (fun q => AgentTurn.Replied {| AgentSession.rs_Agent := "g"; AgentSession.rs_Content := "hello"; AgentSession.rs_ToolsUsed := [] |})
    "" demo_env demo_message demo_manager = Some (m', ([], Ok reply)) /\
    exists g s, gate demo_manager = Some g /\ Check_ demo_env g demo_message (store demo_manager) = Some (s, (false, reply)).
Proof.
  destruct (routeInbound (fun s => s) [] (fun _ _ => None)
    (fun q => AgentTurn.Replied {| AgentSession.rs_Agent := "g"; AgentSession.rs_Content := "hello"; AgentSession.rs_ToolsUsed := [] |})
    "" demo_env demo_message demo_manager) as [[m' [reqs r]]|] eqn:E; [|exfalso; vm_compute in E; discriminate].
  destruct (inbound_gated _ _ _ _ _ _ _ _ _ _ _ E) as (_ & Hheld & _).
  assert (Hr : reqs = []) by (vm_compute in E; by injection E as _ <- _). subst reqs.
  destruct (Hheld eq_refl) as (g & s & reply & Hg & Hc & _ & ->). exists m', reply. split; [reflexivity|]. by exists g, s.
Defined.

(** A tenant's message in another tenant's channel. *)
Example send_crosses_tenants :
  let out := {| out_Channel := "teams"; out_ChannelID := "general"; out_Text := "hi"; ThreadTS := "" |} in
  handleSend (fun _ _ => None) (POut out) demo_manager = ([("teams", out)], Ok "ok") /\
  adapterForTenant "teams" "t" demo_manager = None.
Proof. split; reflexivity. Qed.
