(* ===== verification/GoText.v ===== *)
(** * GoText: more of package strings

    Prefixes and suffixes, the last occurrence of a text, and what [strings.ReplaceAll] removes: a text
    that neither occurs in the replacement nor overlaps with it occurs nowhere in the result. *)
From S2P Require Import Prelude GoStr.
Local Open Scope go_scope.

Definition nl : string := String "010" "".
(** A text in double quotes. *)
Definition dq (s : string) : string := String dquote (s +:+ String dquote "").

(** ** Prefixes, suffixes and last occurrences *)

(** [strings.TrimRight] and [strings.TrimLeft] with a set of one-byte characters. *)
Fixpoint TrimRight (set : list ascii) (s : string) : string :=
  match s with
  | "" => ""
  | String c s' => match TrimRight set s' with "" => if decide (c ∈ set) then "" else String c "" | t => String c t end
  end.
Fixpoint TrimLeft (set : list ascii) (s : string) : string :=
  match s with "" => "" | String c s' => if decide (c ∈ set) then TrimLeft set s' else s end.

Definition TrimPrefix (s p : string) : string := if has_prefix p s then drop_bytes (String.length p) s else s.
Definition has_suffix (p s : string) : bool :=
  bool_decide (String.length p <= String.length s) && bool_decide (drop_bytes (String.length s - String.length p) s = p).
Definition TrimSuffix (s p : string) : string :=
  if has_suffix p s then take_bytes (String.length s - String.length p) s else s.
(** [strings.LastIndex], as the text before and after the last occurrence. *)
Fixpoint find_last (old s : string) : option (string * string) :=
  match s with
  | "" => if has_prefix old s then Some ("", drop_bytes (String.length old) s) else None
  | String c s' =>
      match find_last old s' with
      | Some (a, b) => Some (String c a, b)
      | None => if has_prefix old s then Some ("", drop_bytes (String.length old) s) else None
      end
  end.

(** ** Occurrences in lists *)

Section Occurrences.
Context {A : Type} `{EqDecision A}.

Definition occurs (x l : list A) (i : nat) : Prop := take (length x) (drop i l) = x.

(** No occurrence of [x] starts in [n], and none that ends in [n] starts before it. *)
Definition apart (x n : list A) : Prop :=
  length x <= length n /\
  Forall (fun o => let m := length x `min` (length n - o) in take m (drop o n) <> take m x) (seq 0 (length n)) /\
  Forall (fun o => take (length x - o) n <> drop o x) (seq 1 (length x - 1)).
#[export] Instance apart_dec x n : Decision (apart x n).
Proof. unfold apart. apply _. Defined.

Lemma occurs_starts_in x n c o : o < length n -> occurs x (n ++ c) o ->
  let m := length x `min` (length n - o) in take m (drop o n) = take m x.
Proof.
  intros Ho H m. transitivity (take m (take (length x) (drop o (n ++ c)))); [|by rewrite H].
  rewrite take_take. replace (m `min` length x) with m by lia.
  rewrite drop_app_le, take_app_le by (rewrite ?length_drop; lia). done.
Qed.

(** What occurs in neither of two texts does not occur in their concatenation with [n] between. *)
Lemma no_occurrence_across x a n c : apart x n -> (forall i, ~ occurs x a i) -> (forall i, ~ occurs x c i) ->
  forall i, ~ occurs x (a ++ n ++ c) i.
Proof.
  intros (Hlen & Hin & Hover) Ha Hc i Hi.
  assert (Hx : x <> []) by (intros ->; by apply (Ha 0)).
  destruct (decide (i + length x <= length a)) as [H1|H1].
  { apply (Ha i). unfold occurs in *.
    by rewrite drop_app_le, take_app_le in Hi by (rewrite ?length_drop; lia). }
  destruct (decide (length a <= i)) as [H2|H2].
  - unfold occurs in Hi. rewrite drop_app_ge in Hi by lia.
    destruct (decide (length n <= i - length a)) as [H3|H3].
    + rewrite drop_app_ge in Hi by lia. by apply (Hc (i - length a - length n)).
    + rewrite Forall_seq in Hin. apply (Hin (i - length a)); [lia|]. apply (occurs_starts_in _ _ c); [lia|done].
  - rewrite Forall_seq in Hover. apply (Hover (length a - i)); [lia|].
    assert (length x <= length (drop i (a ++ n ++ c))) by (rewrite length_drop, !length_app; lia).
    set (o := length a - i) in *. transitivity (drop o (take (length x) (drop i (a ++ n ++ c)))); [|by rewrite Hi].
    replace (length x) with (o + (length x - o)) at 2 by lia.
    rewrite <-take_drop_commute, drop_drop. replace (i + o) with (length a) by lia.
    rewrite drop_app_length, take_app_le by lia. done.
Qed.
End Occurrences.

(** ** Occurrences in strings *)

Abbreviation chars := String.list_ascii_of_string (only parsing).
Lemma chars_app s t : chars (s +:+ t) = chars s ++ chars t.
Proof. induction s as [|c s IH]; [done|]. rewrite str_app_cons. simpl. by rewrite IH. Qed.
Lemma chars_inj s t : chars s = chars t -> s = t.
Proof. intros H. by rewrite <-(String.string_of_list_ascii_of_string s), H, String.string_of_list_ascii_of_string. Qed.
Lemma chars_length s : length (chars s) = String.length s.
Proof. induction s as [|c s IH]; [done|]. simpl. by rewrite IH. Qed.

Lemma Contains_spec s x : Contains s x = true <-> exists a b, s = a +:+ x +:+ b.
Proof.
  unfold Contains. split.
  - destruct (find x s) as [[a b]|] eqn:E; [|done]. intros _. exists a, b. by apply find_spec.
  - intros (a & b & ->). pose proof (find_prefix x (x +:+ b) a) as H.
    assert (find x (x +:+ b) <> None) as Hx.
    { assert (Hp : has_prefix x (x +:+ b) = true) by (apply has_prefix_spec; eauto).
      destruct (x +:+ b); simpl in *; by rewrite Hp. }
    specialize (H Hx). by destruct (find x (a +:+ x +:+ b)).
Qed.
Lemma Contains_occurs s x : Contains s x = true <-> exists i, occurs (chars x) (chars s) i.
Proof.
  rewrite Contains_spec. split.
  - intros (a & b & ->). exists (length (chars a)). unfold occurs.
    by rewrite !chars_app, drop_app_length, take_app_length.
  - intros [i Hi]. unfold occurs in Hi.
    exists (String.string_of_list_ascii (take i (chars s))),
           (String.string_of_list_ascii (drop (length (chars x)) (drop i (chars s)))).
    apply chars_inj. rewrite !chars_app, !String.list_ascii_of_string_of_list_ascii.
    rewrite <-Hi at 1. by rewrite take_drop, take_drop.
Qed.
Lemma not_Contains s x : Contains s x = false <-> forall i, ~ occurs (chars x) (chars s) i.
Proof.
  rewrite <-not_true_iff_false, Contains_occurs. split; [intros H i Hi; by destruct H; exists i|by intros H [i Hi]; destruct (H i)].
Qed.

Definition apart_text (x n : string) : Prop := apart (chars x) (chars n).
#[export] Instance apart_text_dec x n : Decision (apart_text x n).
Proof. unfold apart_text. apply _. Defined.

Lemma Contains_across x a n c : apart_text x n -> Contains a x = false -> Contains c x = false ->
  Contains (a +:+ n +:+ c) x = false.
Proof. rewrite !not_Contains, !chars_app. apply no_occurrence_across. Qed.
Lemma Contains_left a b x : Contains (a +:+ b) x = false -> Contains a x = false.
Proof.
  rewrite <-!not_true_iff_false, !Contains_spec. intros H (p & q & ->). apply H. exists p, (q +:+ b).
  by rewrite !str_app_assoc.
Qed.
Lemma Contains_right a b x : Contains (a +:+ b) x = false -> Contains b x = false.
Proof.
  rewrite <-!not_true_iff_false, !Contains_spec. intros H (p & q & ->). apply H. exists (a +:+ p), q.
  by rewrite !str_app_assoc.
Qed.

(** The text before the first occurrence has none. *)
Lemma find_first old s a b : old <> "" -> find old s = Some (a, b) -> Contains a old = false.
Proof.
  intros Hold. revert a b. induction s as [|c s IH]; intros a b; simpl.
  - destruct old; [done|done].
  - destruct (has_prefix old (String c s)) eqn:E; [by intros [= <- <-]; unfold Contains; destruct old|].
    intros ([a' b'] & Hf & [= <- <-])%bind_Some. specialize (IH _ _ Hf).
    unfold Contains in *. simpl. destruct (has_prefix old (String c a')) eqn:E'.
    + apply find_spec in Hf. rewrite Hf, <-str_app_cons, (has_prefix_app _ _ _ E') in E. done.
    + by destruct (find old a') as [[? ?]|].
Qed.

(** Nothing that is apart from the replacement and absent from the text appears. *)
Lemma replace_introduces_none old new x fuel : forall s, apart_text x new -> Contains s x = false ->
  Contains (replace_loop fuel old new s) x = false.
Proof.
  induction fuel as [|fuel IH]; intros s Hap Hs; [done|]. simpl. destruct (find old s) as [[a b]|] eqn:E; [|done].
  apply find_spec in E as ->. apply Contains_across; [done|by eapply Contains_left|].
  apply IH; [done|]. by do 2 apply Contains_right in Hs.
Qed.
(** What is replaced is gone. *)
Lemma replace_removes old new fuel : forall s, old <> "" -> apart_text old new -> String.length s <= fuel ->
  Contains (replace_loop fuel old new s) old = false.
Proof.
  induction fuel as [|fuel IH]; intros s Hold Hap Hs; simpl.
  - destruct s; [|simpl in Hs; lia]. unfold Contains. by destruct old.
  - destruct (find old s) as [[a b]|] eqn:E; [|unfold Contains; by rewrite E].
    apply Contains_across; [done|by eapply find_first|].
    apply IH; [done|done|]. apply find_spec in E as ->. rewrite !str_length_app in Hs.
    destruct old; [done|simpl in *; lia].
Qed.
Lemma ReplaceAll_absent s old new : Contains s old = false -> ReplaceAll s old new = s.
Proof. unfold ReplaceAll, Contains. destruct (String.length s); [done|]. simpl. by destruct (find old s). Qed.
Lemma ReplaceAll_introduces_none s old new x : apart_text x new -> Contains s x = false ->
  Contains (ReplaceAll s old new) x = false.
Proof. apply replace_introduces_none. Qed.
Lemma ReplaceAll_removes s old new : old <> "" -> apart_text old new -> Contains (ReplaceAll s old new) old = false.
Proof. intros ? ?. by apply replace_removes. Qed.

(** ** Splitting what was joined *)

Section Splitting.
Context (c : ascii).
Definition lacks (s : string) : Prop := cut c s = None.
Lemma lacks_cons d s : lacks (String d s) <-> d <> c /\ lacks s.
Proof. unfold lacks. cbn [cut]. case_decide as Hd; [naive_solver|]. destruct (cut c s) as [[]|]; naive_solver. Qed.
Lemma split_lacking s : lacks s -> split c s = [s].
Proof. induction s as [|d s IH]; [done|]. intros [Hd Hs]%lacks_cons. cbn [split]. by rewrite decide_False, IH. Qed.
Lemma split_at a s : lacks a -> split c (a +:+ String c s) = a :: split c s.
Proof.
  induction a as [|d a IH]; intros Ha; [change (split c (String c s) = "" :: split c s); cbn [split]; by rewrite decide_True|].
  apply lacks_cons in Ha as [Hd Ha]. rewrite str_app_cons. cbn [split]. by rewrite decide_False, IH.
Qed.
Lemma split_parts_lack s p : p ∈ split c s -> lacks p.
Proof.
  revert p. induction s as [|d s IH]; intros p; cbn [split].
  - by intros ->%list_elem_of_singleton.
  - case_decide as Hd; [intros [->|Hp]%elem_of_cons; [done|by apply IH]|].
    destruct (split c s) as [|q qs] eqn:E.
    + intros ->%list_elem_of_singleton. by apply lacks_cons.
    + intros [->|Hp]%elem_of_cons; [|apply IH; by right]. apply lacks_cons. split; [done|]. apply IH. by left.
Qed.
Lemma split_Join l : l <> [] -> Forall lacks l -> split c (Join l (String c "")) = l.
Proof.
  induction l as [|s l IH]; intros Hne Hl; [done|]. apply Forall_cons in Hl as [Hs Hl].
  destruct l as [|t l]; [by apply split_lacking|].
  change (Join (s :: t :: l) (String c "")) with (s +:+ String c (Join (t :: l) (String c ""))).
  rewrite split_at by done. by rewrite IH.
Qed.
End Splitting.
#[export] Instance lacks_dec c s : Decision (lacks c s).
Proof. unfold lacks. apply _. Defined.
