(* ===== verification/Paths.v ===== *)
(** * Paths: Go's [path/filepath] on Unix

    Cleaning, joining and relating slash-separated paths, and what a cleaned rooted path looks like. *)
From S2P Require Import Prelude GoStr GoText.
Local Open Scope go_scope.

Definition IsAbs (p : string) : bool := has_prefix "/" p.

(** One segment more, on a stack of the segments so far. *)
Definition clean_step (rooted : bool) (stack : list string) (seg : string) : list string :=
  if decide (seg = "" \/ seg = ".") then stack
  else if decide (seg = "..") then
    match stack with
    | [] => if rooted then [] else [".."]
    | top :: rest => if decide (top = "..") then ".." :: stack else rest
    end
  else seg :: stack.
Definition clean_segs (p : string) : list string := reverse (foldl (clean_step (IsAbs p)) [] (split "/"%char p)).
Definition Clean (p : string) : string :=
  if IsAbs p then "/" +:+ Join (clean_segs p) "/"
  else if decide (clean_segs p = []) then "." else Join (clean_segs p) "/".
Definition Join2 (a b : string) : string := Clean (a +:+ "/" +:+ b).
(** The working directory may not be known. *)
Definition Abs (cwd : Result string) (p : string) : Result string :=
  if IsAbs p then Ok (Clean p) else (wd <-? cwd ;; Ok (Join2 wd p)).

(** [filepath.Rel] of two rooted paths. *)
Fixpoint rel_segs (base targ : list string) : list string :=
  match base, targ with
  | b :: base', t :: targ' => if decide (b = t) then rel_segs base' targ' else ((fun _ => "..") <$> base) ++ targ
  | _, _ => ((fun _ => "..") <$> base) ++ targ
  end.
Definition Rel (base targ : string) : string :=
  let l := rel_segs (clean_segs base) (clean_segs targ) in if decide (l = []) then "." else Join l "/".
(** [filepath.Base]: the last element, trailing slashes apart. *)
Definition Base (p : string) : string :=
  if decide (p = "") then "."
  else match last (filter (fun s => s <> "") (split "/"%char p)) with Some s => s | None => "/" end.
(** [filepath.Ext]: the suffix from the final dot of the last element. *)
Fixpoint Ext (p : string) : string :=
  match p with
  | "" => ""
  | String c p' => if decide (c = "."%char /\ contains_byte "/" p' = false /\ contains_byte "." p' = false) then p else Ext p'
  end.

(** ** Rooted paths *)

Abbreviation no_slash := (lacks "/"%char) (only parsing).

(** The segments a rooted path cleans to: no "..", nothing empty, no slash. *)
Definition plain_seg (s : string) : Prop := no_slash s /\ s <> "" /\ s <> "..".
Lemma clean_step_plain stack seg : no_slash seg -> Forall plain_seg stack -> Forall plain_seg (clean_step true stack seg).
Proof.
  intros Hseg Hs. unfold clean_step. case_decide as H1; [done|]. case_decide as H2.
  - destruct stack as [|top rest]; [done|]. apply Forall_cons in Hs as [(_ & _ & Htop) Hs]. by rewrite decide_False.
  - constructor; [|done]. split; [done|]. split; [|done]. intros ->. apply H1. by left.
Qed.
Lemma clean_segs_plain p : IsAbs p = true -> Forall plain_seg (clean_segs p).
Proof.
  intros Hp. unfold clean_segs. rewrite Hp. apply Forall_reverse.
  assert (H : forall l stack, Forall no_slash l -> Forall plain_seg stack -> Forall plain_seg (foldl (clean_step true) stack l)).
  { intros l. induction l as [|seg l IH]; intros stack Hl Hst; [done|]. apply Forall_cons in Hl as [? ?]. apply IH; [done|].
    by apply clean_step_plain. }
  apply H; [|done]. apply Forall_forall. intros q. apply (split_parts_lack "/"%char).
Qed.

(** A cleaned rooted path is its segments, none of them "..". *)
Lemma Clean_rooted p : IsAbs p = true -> IsAbs (Clean p) = true /\ ".." ∉ split "/"%char (Clean p).
Proof.
  intros Hp. pose proof (clean_segs_plain p Hp) as Hs. unfold Clean. rewrite Hp. split; [done|].
  change ("/" +:+ Join (clean_segs p) "/") with ("" +:+ String "/" (Join (clean_segs p) "/")). rewrite split_at by done.
  intros [?|Hin]%elem_of_cons; [done|]. destruct (clean_segs p) as [|s l] eqn:E.
  - by apply list_elem_of_singleton in Hin.
  - rewrite split_Join in Hin; [|done|eapply Forall_impl; [exact Hs|]; by intros x [? _]].
    rewrite Forall_forall in Hs. by destruct (Hs _ Hin) as (_ & _ & ?).
Qed.

Lemma IsAbs_app p q : IsAbs p = true -> IsAbs (p +:+ q) = true.
Proof. unfold IsAbs. rewrite !has_prefix_spec. intros [t ->]. exists (t +:+ q). by rewrite str_app_assoc. Qed.

Lemma Abs_rooted cwd p q : (forall wd, cwd = Ok wd -> IsAbs wd = true) -> Abs cwd p = Ok q ->
  IsAbs q = true /\ ".." ∉ split "/"%char q.
Proof.
  intros Hwd. unfold Abs. destruct (IsAbs p) eqn:Hp; [intros [= <-]; by apply Clean_rooted|].
  destruct cwd as [wd|e]; [|done]. simpl. intros [= <-]. apply Clean_rooted. apply IsAbs_app. by apply Hwd.
Qed.

(** Cleaning what is clean already. *)
Lemma clean_fold_plain rooted l stack : Forall (fun s => s <> "" /\ s <> "." /\ s <> "..") l ->
  foldl (clean_step rooted) stack l = reverse l ++ stack.
Proof.
  revert stack. induction l as [|s l IH]; intros stack; [done|]. intros [(H1 & H2 & H3) Hl]%Forall_cons. cbn [foldl].
  rewrite IH by done. unfold clean_step. rewrite decide_False by naive_solver. rewrite decide_False by done.
  by rewrite reverse_cons, <-app_assoc.
Qed.
