(* ===== verification/Skills.v ===== *)
(** * Skills: the registry of skills and the candidates proposed for it

    [src/modules/skill]: types.go, registry.go, candidates.go, runtime.go and the executors of
    executor.go.  Every skill object is reachable from one place of the registry at a time, so
    records stand for the pointers.  Loading a skill from disk, the JSON codec of capabilities
    and the error of the n-th database statement of a call are arguments. *)
From S2P Require Import Prelude GoStr GoText Paths.
Local Open Scope go_scope.
Local Open Scope Z_scope.

(** ** Types *)

(* [modules/skill/types.go:Capabilities] *)
Record Capabilities := { Network : list string; Filesystem : list string; Shell : bool; Tools : list string }.
(* [modules/skill/types.go:SigningInfo] *)
Record SigningInfo := { sg_Registry : string; Fingerprint : string }.
(* [modules/skill/types.go:SkillManifest] *)
Record SkillManifest := {
  mf_Name : string; Version : string; Author : string; License : string; mf_Capabilities : Capabilities;
  Signing : SigningInfo;
}.
(* [modules/skill/types.go:SkillManifest.Validate] *)
Definition Validate (m : SkillManifest) : option error :=
  if decide (mf_Name m = "") then Some "skill manifest: name is required"
  else if decide (Version m = "") then Some "skill manifest: version is required"
  else None.
(* [modules/skill/types.go:Capabilities.HasNetwork] *)
Definition HasNetwork (c : Capabilities) : bool := (0 <? length (Network c))%nat.
(* [modules/skill/types.go:Capabilities.HasFilesystem] *)
Definition HasFilesystem (c : Capabilities) : bool := (0 <? length (Filesystem c))%nat.
(* [modules/skill/types.go:Capabilities.IsSafe] *)
Definition IsSafe (c : Capabilities) : bool := negb (Shell c) && negb (HasNetwork c) && negb (HasFilesystem c).

(* [modules/skill/types.go:InstalledSkill] *)
Record InstalledSkill := {
  Manifest : SkillManifest; Instructions : string; Path : string; Signature : string; Disabled : bool;
  DisabledReason : string;
}.
Definition skill_name (s : InstalledSkill) : string := mf_Name (Manifest s).
Definition set_disabled (d : bool) (reason : string) (s : InstalledSkill) : InstalledSkill :=
  {| Manifest := Manifest s; Instructions := Instructions s; Path := Path s; Signature := Signature s; Disabled := d;
     DisabledReason := reason |}.

(** ** Registry *)

(* [modules/skill/registry.go:Registry] *)
Record Registry := { skills : gmap string InstalledSkill; versions : gmap string (list InstalledSkill) }.
(* [modules/skill/registry.go:maxVersionHistory] *)
Definition maxVersionHistory : nat := 10.
(* [modules/skill/registry.go:NewRegistry] *)
Definition NewRegistry : Registry := {| skills := ∅; versions := ∅ |}.

Definition history_of (name : string) (r : Registry) : list InstalledSkill := default [] (versions r !! name).
Definition keep_last (n : nat) (l : list InstalledSkill) : list InstalledSkill :=
  if decide (n < length l)%nat then drop (length l - n) l else l.

(* [modules/skill/registry.go:Registry.ReplaceWithBackup] *)
Definition ReplaceWithBackup (s : InstalledSkill) (r : Registry) : Registry * option error :=
  let name := skill_name s in
  if decide (name = "") then (r, Some "skill: ReplaceWithBackup requires a named skill")
  else
    ({| skills := <[name := s]> (skills r);
        versions := match skills r !! name with
                    | Some prev => <[name := keep_last maxVersionHistory (history_of name r ++ [prev])]> (versions r)
                    | None => versions r
                    end |}, None).

(* [modules/skill/registry.go:Registry.Rollback] *)
Definition Rollback (name : string) (r : Registry) : Registry * option error :=
  match last (history_of name r) with
  | None => (r, Some ("skill " +:+ quote name +:+ " has no prior version to roll back to"))
  | Some prev =>
      let hist := history_of name r in
      ({| skills := <[name := prev]> (skills r); versions := <[name := take (length hist - 1) hist]> (versions r) |}, None)
  end.

(* [modules/skill/registry.go:Registry.VersionCount] *)
Definition VersionCount (name : string) (r : Registry) : nat := length (history_of name r).

(* [modules/skill/registry.go:Registry.InstallDirect] *)
Definition InstallDirect (s : InstalledSkill) (r : Registry) : Registry * option error :=
  match skills r !! skill_name s with
  | Some _ => (r, Some ("skill " +:+ quote (skill_name s) +:+ " already installed"))
  | None => ({| skills := <[skill_name s := s]> (skills r); versions := versions r |}, None)
  end.
(** [LoadSkill dir] is an argument. *)
(* [modules/skill/registry.go:Registry.Install] *)
Definition Install (dir : string) (loaded : Result InstalledSkill) (r : Registry) : Registry * option error :=
  match loaded with
  | Err e => (r, Some ("install skill from " +:+ dir +:+ ": " +:+ e))
  | Ok s => InstallDirect s r
  end.
(* [modules/skill/registry.go:Registry.Get] *)
Definition Get (name : string) (r : Registry) : option InstalledSkill := skills r !! name.

(* [modules/skill/registry.go:Registry.List] *)
Definition List_ (r : Registry) : list string :=
  sort_strings (filter (fun kv => Disabled kv.2 = false) (map_to_list (skills r))).*1.
(* [modules/skill/registry.go:Registry.ListAll] *)
Definition ListAll (r : Registry) : list string := sort_strings (map_to_list (skills r)).*1.

(* [modules/skill/registry.go:Registry.Disable] *)
Definition Disable (name reason : string) (r : Registry) : Registry * option error :=
  match skills r !! name with
  | None => (r, Some ("skill " +:+ quote name +:+ " not found"))
  | Some s => if Disabled s then (r, Some ("skill " +:+ quote name +:+ " already disabled"))
              else ({| skills := <[name := set_disabled true reason s]> (skills r); versions := versions r |}, None)
  end.
(* [modules/skill/registry.go:Registry.Enable] *)
Definition Enable (name : string) (r : Registry) : Registry * option error :=
  match skills r !! name with
  | None => (r, Some ("skill " +:+ quote name +:+ " not found"))
  | Some s => ({| skills := <[name := set_disabled false "" s]> (skills r); versions := versions r |}, None)
  end.
(* [modules/skill/registry.go:Registry.IsDisabled] *)
Definition IsDisabled (name : string) (r : Registry) : bool :=
  match skills r !! name with None => false | Some s => Disabled s end.
(* [modules/skill/registry.go:Registry.Uninstall] *)
Definition Uninstall (name : string) (r : Registry) : Registry * option error :=
  match skills r !! name with
  | None => (r, Some ("skill " +:+ quote name +:+ " not found"))
  | Some _ => ({| skills := delete name (skills r); versions := versions r |}, None)
  end.
(* [modules/skill/registry.go:Registry.GetInstructions] *)
Definition GetInstructions (names : list string) (r : Registry) : gmap string string :=
  foldl (fun result name =>
    match skills r !! name with
    | Some s => if Disabled s then result else <[name := Instructions s]> result
    | None => result
    end) ∅ names.

(** ** Candidates *)

(* [modules/skill/candidates.go:CandidatePending@13-18] *)
Definition CandidatePending : string := "pending".
Definition CandidateApproved : string := "approved".
Definition CandidateRejected : string := "rejected".
(* [modules/skill/candidates.go:CandidateVersion] *)
Definition CandidateVersion : string := "0.1.0-candidate".

(* [modules/skill/candidates.go:Candidate] *)
Record Candidate := {
  cd_ID : Z; cd_Tenant : string; cd_Name : string; cd_Description : string; cd_Instructions : string;
  cd_Capabilities : Capabilities; SourceAgent : string; Status : string; Reason : string; CreatedAt : Z; UpdatedAt : Z;
}.
Definition no_capabilities : Capabilities := {| Network := []; Filesystem := []; Shell := false; Tools := [] |}.
(** The zero value. *)
Definition no_candidate : Candidate :=
  {| cd_ID := 0; cd_Tenant := ""; cd_Name := ""; cd_Description := ""; cd_Instructions := "";
     cd_Capabilities := no_capabilities; SourceAgent := ""; Status := ""; Reason := ""; CreatedAt := 0; UpdatedAt := 0 |}.

(* [modules/skill/candidates.go:ProposeRequest] *)
Record ProposeRequest := {
  pq_Tenant : string; pq_Name : string; pq_Description : string; pq_Instructions : string;
  pq_Capabilities : Capabilities; pq_SourceAgent : string;
}.
(* [modules/skill/candidates.go:ProposeResult] *)
Record ProposeResult := { ps_ID : Z; ps_Status : string; Activated : bool }.

(** [json.Marshal] and [json.Unmarshal] of capabilities. *)
Class CapabilityCodec := { marshal_caps : Capabilities -> Result string; unmarshal_caps : string -> Capabilities }.

(** A row; [nextid] is the counter of AUTOINCREMENT. *)
Record CandidateRow := {
  cr_id : Z; cr_tenant : string; cr_name : string; cr_description : string; cr_instructions : string;
  cr_capabilities : string; cr_source : string; cr_status : string; cr_reason : string; cr_created : Z; cr_updated : Z;
}.
(* [modules/skill/candidates.go:CandidateStore] *)
Record CandidateStore := { candidates_ : gmap Z CandidateRow; nextid : Z }.
(* [modules/skill/candidates.go:NewCandidateStore] *)
Definition NewCandidateStore : CandidateStore := {| candidates_ := ∅; nextid := 1 |}.

(* [modules/skill/candidates.go:Candidate.toInstalledSkill] *)
Definition toInstalledSkill (c : Candidate) : InstalledSkill :=
  {| Manifest := {| mf_Name := cd_Name c; Version := CandidateVersion; Author := "agent:" +:+ SourceAgent c;
                    License := ""; mf_Capabilities := cd_Capabilities c;
                    Signing := {| sg_Registry := ""; Fingerprint := "" |} |};
     Instructions := cd_Instructions c; Path := ""; Signature := ""; Disabled := false; DisabledReason := "" |}.

(* [modules/skill/candidates.go:validateProposal] *)
Definition validateProposal (req : ProposeRequest) : option error :=
  match Validate {| mf_Name := pq_Name req; Version := CandidateVersion; Author := ""; License := "";
                    mf_Capabilities := pq_Capabilities req; Signing := {| sg_Registry := ""; Fingerprint := "" |} |} with
  | Some e => Some e
  | None => if decide (pq_Instructions req = "") then Some "skill: proposal instructions are required" else None
  end.

Section Store.
Context `{C : CapabilityCodec}.

(* [modules/skill/candidates.go:CandidateStore.Propose] *)
Definition Propose (fault : option error) (now : time) (c : Candidate) (s : CandidateStore) : CandidateStore * Result Z :=
  match marshal_caps (cd_Capabilities c) with
  | Err e => (s, Err ("skill: marshal capabilities: " +:+ e))
  | Ok caps =>
      match fault with
      | Some e => (s, Err ("skill: propose: " +:+ e))
      | None =>
          let row := {| cr_id := nextid s; cr_tenant := cd_Tenant c; cr_name := cd_Name c; cr_description := cd_Description c;
                        cr_instructions := cd_Instructions c; cr_capabilities := caps; cr_source := SourceAgent c;
                        cr_status := CandidatePending; cr_reason := ""; cr_created := Unix now; cr_updated := Unix now |} in
          ({| candidates_ := <[nextid s := row]> (candidates_ s); nextid := nextid s + 1 |}, Ok (nextid s))
      end
  end.

(* [modules/skill/candidates.go:CandidateStore.scanOne] *)
Definition scanOne (r : CandidateRow) : Candidate :=
  {| cd_ID := cr_id r; cd_Tenant := cr_tenant r; cd_Name := cr_name r; cd_Description := cr_description r;
     cd_Instructions := cr_instructions r; cd_Capabilities := unmarshal_caps (cr_capabilities r); SourceAgent := cr_source r;
     Status := cr_status r; Reason := cr_reason r; CreatedAt := cr_created r; UpdatedAt := cr_updated r |}.

(* [modules/skill/candidates.go:CandidateStore.Get] *)
Definition Get_ (fault : option error) (id : Z) (s : CandidateStore) : Result Candidate :=
  match fault with
  | Some e => Err e
  | None => match candidates_ s !! id with None => Err "skill: candidate not found" | Some r => Ok (scanOne r) end
  end.

Definition id_le (p q : Z * CandidateRow) : Prop := p.1 <= q.1.
#[export] Instance id_le_dec : RelDecision id_le.
Proof. intros p q. unfold id_le. apply _. Defined.
Definition status_or_pending (status : string) : string := if decide (status = "") then CandidatePending else status.
(* [modules/skill/candidates.go:CandidateStore.List] *)
Definition List__ (fault : option error) (status : string) (s : CandidateStore) : Result (list Candidate) :=
  match fault with
  | Some e => Err ("skill: list candidates: " +:+ e)
  | None => Ok ((fun p => scanOne p.2) <$>
                merge_sort id_le (filter (fun p => cr_status p.2 = status_or_pending status) (map_to_list (candidates_ s))))
  end.
(* [modules/skill/candidates.go:CandidateStore.ListForTenant] *)
Definition ListForTenant (fault : option error) (status tenant : string) (s : CandidateStore) : Result (list Candidate) :=
  if decide (tenant = "") then List__ fault status s
  else
    match fault with
    | Some e => Err ("skill: list candidates: " +:+ e)
    | None => Ok ((fun p => scanOne p.2) <$>
                  merge_sort id_le (filter (fun p => cr_status p.2 = status_or_pending status /\ cr_tenant p.2 = tenant)
                                      (map_to_list (candidates_ s))))
    end.
(* [modules/skill/candidates.go:CandidateStore.TenantOwnsSkill] *)
Definition TenantOwnsSkill (fault : option error) (tenant name : string) (s : CandidateStore) : Result bool :=
  match fault with
  | Some e => Err ("skill: tenant ownership check: " +:+ e)
  | None => Ok (existsb (fun kv => bool_decide (cr_tenant kv.2 = tenant /\ cr_name kv.2 = name)) (map_to_list (candidates_ s)))
  end.
Definition set_status (status reason : string) (now : time) (r : CandidateRow) : CandidateRow :=
  {| cr_id := cr_id r; cr_tenant := cr_tenant r; cr_name := cr_name r; cr_description := cr_description r;
     cr_instructions := cr_instructions r; cr_capabilities := cr_capabilities r; cr_source := cr_source r;
     cr_status := status; cr_reason := reason; cr_created := cr_created r; cr_updated := Unix now |}.
(* [modules/skill/candidates.go:CandidateStore.SetStatus] *)
Definition SetStatus (fault : option error) (now : time) (id : Z) (status reason : string) (s : CandidateStore) :
    CandidateStore * option error :=
  match fault with
  | Some e => (s, Some ("skill: set candidate status: " +:+ e))
  | None =>
      match candidates_ s !! id with
      | None => (s, Some ("skill: candidate " +:+ itoa id +:+ " not found"))
      | Some r => ({| candidates_ := <[id := set_status status reason now r]> (candidates_ s); nextid := nextid s |}, None)
      end
  end.

(** ** Runtime *)

(** [r_autoActivateSafe], the base directory and the loaders are set before the module starts. *)
(* [modules/skill/runtime.go:Runtime] *)
Record Runtime := {
  registry : Registry; candidates : option CandidateStore; autoActivateSafe : bool; skillBaseDir : string;
}.
(* [modules/skill/runtime.go:NewRuntime] *)
Definition NewRuntime : Runtime :=
  {| registry := NewRegistry; candidates := None; autoActivateSafe := false; skillBaseDir := "" |}.
(* [modules/skill/runtime.go:Runtime.SetCandidateStore] *)
Definition SetCandidateStore (cs : option CandidateStore) (r : Runtime) : Runtime :=
  {| registry := registry r; candidates := cs; autoActivateSafe := autoActivateSafe r; skillBaseDir := skillBaseDir r |}.
(* [modules/skill/runtime.go:Runtime.SetAutoActivateSafe] *)
Definition SetAutoActivateSafe (v : bool) (r : Runtime) : Runtime :=
  {| registry := registry r; candidates := candidates r; autoActivateSafe := v; skillBaseDir := skillBaseDir r |}.
(* [modules/skill/runtime.go:Runtime.SetSkillBaseDir] *)
Definition SetSkillBaseDir (dir : string) (r : Runtime) : Runtime :=
  {| registry := registry r; candidates := candidates r; autoActivateSafe := autoActivateSafe r; skillBaseDir := dir |}.
Definition with_registry (g : Registry) (r : Runtime) : Runtime :=
  {| registry := g; candidates := candidates r; autoActivateSafe := autoActivateSafe r; skillBaseDir := skillBaseDir r |}.

(* [modules/skill/runtime.go:Runtime.Start@126-137] *)
Definition Start (catalog : list InstalledSkill) (r : Runtime) : Runtime :=
  with_registry (foldl (fun g s =>
    if decide (skill_name s = "_catalog-readme" \/ skill_name s = "openclaw-_catalog-readme") then g
    else (InstallDirect s g).1) (registry r) catalog) r.
(* [modules/skill/runtime.go:Runtime.Health] *)
Definition Health (r : Runtime) : bool * string :=
  (true, itoa (Z.of_nat (length (List_ (registry r)))) +:+ " skills installed").

(* [modules/skill/runtime.go:isTrustedSkill] *)
Definition isTrustedSkill (s : InstalledSkill) : bool :=
  if decide (Path s = "embedded://catalog") then true
  else if decide (Version (Manifest s) = CandidateVersion /\ has_prefix "agent:" (Author (Manifest s)) = true) then false
  else true.

(* [modules/skill/runtime.go:Runtime.activate] *)
Definition activate (c : Candidate) (allowOverwrite : bool) (g : Registry) : Registry * option error :=
  let s := toInstalledSkill c in
  match Get (skill_name s) g with
  | Some existing =>
      if decide (allowOverwrite = false /\ isTrustedSkill existing = true) then
        (g, Some ("skill " +:+ quote (skill_name s) +:+
                  " already exists as a trusted skill; refusing to overwrite without operator approval"))
      else ReplaceWithBackup s g
  | None => InstallDirect s g
  end.

(* [modules/skill/runtime.go:scopeToTenant] *)
Definition scopeToTenant (op callerTenant : string) (cand : Candidate) : option error :=
  if decide (callerTenant = "") then None
  else if decide (cd_Tenant cand <> callerTenant) then
    Some (op +:+ ": candidate " +:+ itoa (cd_ID cand) +:+ " belongs to another tenant")
  else None.

(** The payload of a message: one of the types the handlers take, or another, by its name. *)
Inductive payload := PString (s : string) | PStrings (l : list string) | PPropose (q : ProposeRequest)
  | PApprove (id : Z) (tenant : string) | PId (id : Z) | PReject (id : Z) (reason tenant : string)
  | PQuery (status tenant : string) | PRollback (name tenant : string) | POther (type : string).
Definition go_type (p : payload) : string :=
  match p with
  | PString _ => "string" | PStrings _ => "[]string" | PPropose _ => "skill.ProposeRequest"
  | PApprove _ _ => "skill.ApproveRequest" | PId _ => "int64" | PReject _ _ _ => "skill.RejectRequest"
  | PQuery _ _ => "skill.CandidatesQuery" | PRollback _ _ => "skill.RollbackRequest" | POther t => t
  end.

#[local] Abbreviation faults := (nat -> option error).

(** [now] is the clock at the insertion, [now'] at the change of status. *)
(* [modules/skill/runtime.go:Runtime.handlePropose] *)
Definition handlePropose (f : faults) (now now' : time) (p : payload) (r : Runtime) : Runtime * Result ProposeResult :=
  match candidates r with
  | None => (r, Err "skill.propose: candidate store not configured")
  | Some cs =>
      match p with
      | PPropose req =>
          match validateProposal req with
          | Some e => (r, Err e)
          | None =>
              match Propose (f 0%nat) now
                      {| cd_ID := 0; cd_Tenant := pq_Tenant req; cd_Name := pq_Name req; cd_Description := pq_Description req;
                         cd_Instructions := pq_Instructions req; cd_Capabilities := pq_Capabilities req;
                         SourceAgent := pq_SourceAgent req; Status := ""; Reason := ""; CreatedAt := 0; UpdatedAt := 0 |} cs with
              | (cs, Err e) => (SetCandidateStore (Some cs) r, Err e)
              | (cs, Ok id) =>
                  let pending := {| ps_ID := id; ps_Status := CandidatePending; Activated := false |} in
                  if autoActivateSafe r && IsSafe (pq_Capabilities req) then
                    let cand := match Get_ (f 1%nat) id cs with Ok c => c | Err _ => no_candidate end in
                    if (match Get (cd_Name cand) (registry r) with Some existing => isTrustedSkill existing | None => false end) then
                      (SetCandidateStore (Some (SetStatus (f 2%nat) now' id CandidatePending
                         "awaiting operator approval: name collides with an existing trusted skill" cs).1) r, Ok pending)
                    else
                      match activate cand false (registry r) with
                      | (g, None) =>
                          (SetCandidateStore (Some (SetStatus (f 2%nat) now' id CandidateApproved
                             "auto-activated (safe capabilities)" cs).1) (with_registry g r),
                           Ok {| ps_ID := id; ps_Status := CandidateApproved; Activated := true |})
                      | (g, Some _) => (SetCandidateStore (Some cs) (with_registry g r), Ok pending)
                      end
                  else (SetCandidateStore (Some cs) r, Ok pending)
              end
          end
      | _ => (r, Err ("skill.propose: expected ProposeRequest, got " +:+ go_type p))
      end
  end.

(* [modules/skill/runtime.go:Runtime.handleCandidates] *)
Definition handleCandidates (f : faults) (p : payload) (r : Runtime) : Result (list Candidate) :=
  match candidates r with
  | None => Err "skill.candidates: candidate store not configured"
  | Some cs =>
      let '(status, tenant) := match p with PQuery s t => (s, t) | PString s => (s, "") | _ => ("", "") end in
      ListForTenant (f 0%nat) status tenant cs
  end.

(* [modules/skill/runtime.go:Runtime.handleCandidateApprove] *)
Definition handleCandidateApprove (f : faults) (now : time) (p : payload) (r : Runtime) : Runtime * Result string :=
  match candidates r with
  | None => (r, Err "skill.candidate_approve: candidate store not configured")
  | Some cs =>
      match (match p with PApprove id t => Some (id, t) | PId id => Some (id, "") | _ => None end) with
      | None => (r, Err ("skill.candidate_approve: expected candidate id, got " +:+ go_type p))
      | Some (id, callerTenant) =>
          match Get_ (f 0%nat) id cs with
          | Err e => (r, Err e)
          | Ok cand =>
              match scopeToTenant "skill.candidate_approve" callerTenant cand with
              | Some e => (r, Err e)
              | None =>
                  if decide (Status cand <> CandidatePending) then
                    (r, Err ("skill.candidate_approve: candidate " +:+ itoa id +:+ " is " +:+ quote (Status cand) +:+ ", not pending"))
                  else
                    match activate cand true (registry r) with
                    | (g, Some e) => (with_registry g r, Err e)
                    | (g, None) =>
                        let '(cs, err) := SetStatus (f 1%nat) now id CandidateApproved "approved by operator" cs in
                        (SetCandidateStore (Some cs) (with_registry g r), match err with Some e => Err e | None => Ok "ok" end)
                    end
              end
          end
      end
  end.

(* [modules/skill/runtime.go:Runtime.handleCandidateReject] *)
Definition handleCandidateReject (f : faults) (now : time) (p : payload) (r : Runtime) : Runtime * Result string :=
  match candidates r with
  | None => (r, Err "skill.candidate_reject: candidate store not configured")
  | Some cs =>
      match p with
      | PReject id reason tenant =>
          match Get_ (f 0%nat) id cs with
          | Err e => (r, Err e)
          | Ok cand =>
              match scopeToTenant "skill.candidate_reject" tenant cand with
              | Some e => (r, Err e)
              | None =>
                  let '(cs, err) := SetStatus (f 1%nat) now id CandidateRejected reason cs in
                  (SetCandidateStore (Some cs) r, match err with Some e => Err e | None => Ok "ok" end)
              end
          end
      | _ => (r, Err ("skill.candidate_reject: expected RejectRequest, got " +:+ go_type p))
      end
  end.

(* [modules/skill/runtime.go:Runtime.handleRollback] *)
Definition handleRollback (f : faults) (p : payload) (r : Runtime) : Runtime * Result string :=
  let go name := let '(g, err) := Rollback name (registry r) in
                 (with_registry g r, match err with Some e => Err e | None => Ok "ok" end) in
  match (match p with PRollback n t => Some (n, t) | PString n => Some (n, "") | _ => None end) with
  | None => (r, Err ("skill.rollback: expected skill name, got " +:+ go_type p))
  | Some (name, callerTenant) =>
      if decide (callerTenant = "") then go name
      else
        match candidates r with
        | None => (r, Err "skill.rollback: candidate store not configured")
        | Some cs =>
            match TenantOwnsSkill (f 0%nat) callerTenant name cs with
            | Err e => (r, Err e)
            | Ok false => (r, Err ("skill.rollback: skill " +:+ quote name +:+ " does not belong to caller tenant"))
            | Ok true => go name
            end
        end
  end.

(* [modules/skill/runtime.go:Runtime.handleUninstall] *)
Definition handleUninstall (p : payload) (r : Runtime) : Runtime * Result string :=
  match p with
  | PString name => let '(g, err) := Uninstall name (registry r) in
                    (with_registry g r, match err with Some e => Err e | None => Ok "ok" end)
  | _ => (r, Err ("expected string name, got " +:+ go_type p))
  end.
(* [modules/skill/runtime.go:Runtime.handleList] *)
Definition handleList (r : Runtime) : list string := List_ (registry r).
(* [modules/skill/runtime.go:Runtime.handleGet] *)
Definition handleGet (p : payload) (r : Runtime) : Result InstalledSkill :=
  match p with
  | PString name => match Get name (registry r) with
                    | None => Err ("skill " +:+ quote name +:+ " not found")
                    | Some s => Ok s
                    end
  | _ => Err ("expected string name, got " +:+ go_type p)
  end.
(* [modules/skill/runtime.go:Runtime.handleInstructions] *)
Definition handleInstructions (p : payload) (r : Runtime) : Result (gmap string string) :=
  match p with
  | PStrings names => Ok (GetInstructions names (registry r))
  | _ => Err ("expected []string, got " +:+ go_type p)
  end.
End Store.

(** ** Confinement *)

(* [modules/skill/runtime.go:Runtime.confinePath] *)
Definition confinePath (cwd : Result string) (p : string) (r : Runtime) : Result string :=
  if decide (p = "") then Err "empty path"
  else
    let clean := Clean p in
    if decide (".." ∈ split "/"%char clean) then
      Err ("path traversal (" +:+ quote ".." +:+ ") is not allowed: " +:+ quote p)
    else if decide (skillBaseDir r = "") then Ok clean
    else
      absBase <-? Abs cwd (skillBaseDir r) ;;
      let candidate := if IsAbs clean then clean else Join2 absBase clean in
      absPath <-? Abs cwd candidate ;;
      if decide (absPath <> absBase /\ has_prefix (absBase +:+ "/") absPath = false) then
        Err ("path " +:+ quote p +:+ " escapes skill base directory")
      else Ok absPath.

(* [modules/skill/runtime.go:Runtime.handleInstall] *)
Definition handleInstall (cwd : Result string) (LoadSkill : string -> Result InstalledSkill) (p : payload) (r : Runtime) :
    Runtime * Result string :=
  match p with
  | PString dir =>
      match confinePath cwd dir r with
      | Err e => (r, Err ("skill.install: " +:+ e))
      | Ok dir => let '(g, err) := Install dir (LoadSkill dir) (registry r) in
                  (with_registry g r, match err with Some e => Err e | None => Ok "ok" end)
      end
  | _ => (r, Err ("expected string path, got " +:+ go_type p))
  end.
(* [modules/skill/runtime.go:Runtime.handleImportOpenClaw] *)
Definition handleImportOpenClaw (cwd : Result string) (openClawLoader : option (string -> Result InstalledSkill)) (p : payload)
    (r : Runtime) : Runtime * Result string :=
  match openClawLoader with
  | None => (r, Err "OpenClaw loader not configured")
  | Some load =>
      match p with
      | PString path =>
          match confinePath cwd path r with
          | Err e => (r, Err ("skill.import_openclaw: " +:+ e))
          | Ok path =>
              match load path with
              | Err e => (r, Err e)
              | Ok imported =>
                  let '(g, err) := InstallDirect imported (registry r) in
                  (with_registry g r, match err with Some e => Err e | None => Ok (skill_name imported) end)
              end
          end
      | _ => (r, Err ("expected string path, got " +:+ go_type p))
      end
  end.

(** ** Executors *)

(* [modules/skill/executor.go:ExecutionResult] *)
Record ExecutionResult := { x_Output : string; ExitCode : Z; x_Error : option error }.
(** A run of [sh] on a script: its output streams and its end. *)
Inductive script_end := Exited (code : Z) (e : error) | Broken (e : error) | Succeeded.
(* [modules/skill/executor.go:ScriptExecutor.Execute] *)
Definition Script_Execute (run : string -> string -> string * string * script_end) (s : option InstalledSkill) (input : string) :
    Result ExecutionResult :=
  match s with
  | None => Err "nil skill"
  | Some s =>
      let '(out, err, e) := run (Path s +:+ "/handlers/run.sh") input in
      let out' := if decide (err <> "") then out +:+ String "010" "" +:+ err else out in
      Ok match e with
         | Succeeded => {| x_Output := out; ExitCode := 0; x_Error := None |}
         | Exited code e => {| x_Output := out'; ExitCode := code; x_Error := Some e |}
         | Broken e => {| x_Output := out'; ExitCode := -1; x_Error := Some e |}
         end
  end.
(* [modules/skill/executor.go:SandboxedExecutor.Execute] *)
Definition Sandboxed_Execute (inner : option InstalledSkill -> string -> Result ExecutionResult) (s : option InstalledSkill)
    (input : string) : Result ExecutionResult :=
  match s with
  | None => Err "nil skill"
  | Some s =>
      if negb (Shell (mf_Capabilities (Manifest s))) then
        Err ("skill " +:+ quote (skill_name s) +:+ " denied: shell handler requires the 'shell' capability, which is not declared")
      else inner (Some s) input
  end.

(** ** The registry *)

(** What an agent can see of the registry: the skills that are not disabled, and only those. *)
Lemma visible_skills r name names :
  (name ∈ List_ r <-> exists s, skills r !! name = Some s /\ Disabled s = false) /\
  (GetInstructions names r !! name =
     match skills r !! name with
     | Some s => if decide (name ∈ names /\ Disabled s = false) then Some (Instructions s) else None
     | None => None
     end).
Proof.
  split.
  - unfold List_, sort_strings. rewrite merge_sort_Permutation, list_elem_of_fmap. split.
    + intros ([k s] & -> & [Hd Hs%elem_of_map_to_list]%list_elem_of_filter). by exists s.
    + intros (s & Hs & Hd). exists (name, s). split; [done|]. apply list_elem_of_filter. by rewrite elem_of_map_to_list.
  - unfold GetInstructions. induction names as [|n names IH] using rev_ind.
    { destruct (skills r !! name); [rewrite decide_False by (intros [[]%elem_of_nil _])|]; apply lookup_empty. }
    rewrite foldl_app. simpl. set (m := foldl _ ∅ names) in *. destruct (decide (n = name)) as [->|Hne].
    + destruct (skills r !! name) as [s|] eqn:Hs; [|exact IH]. destruct (Disabled s) eqn:Hd.
      * rewrite IH. rewrite !decide_False by naive_solver. done.
      * rewrite lookup_insert_eq, decide_True; [done|]. split; [|done]. apply elem_of_app. right. by apply list_elem_of_singleton.
    + assert (Hm : (match skills r !! n with Some s => if Disabled s then m else <[n:=Instructions s]> m | None => m end) !! name = m !! name).
      { destruct (skills r !! n) as [s|]; [|done]. destruct (Disabled s); [done|]. by rewrite lookup_insert_ne. }
      rewrite Hm, IH. destruct (skills r !! name) as [s|]; [|done].
      apply decide_ext. rewrite elem_of_app, list_elem_of_singleton. naive_solver.
Qed.

(** An improvement can be taken back.  Replacing an installed skill and rolling
    back restores the skill as it was, disabled or not, and leaves every other skill alone; the
    earlier versions are those there were, less the oldest when there were ten already. *)
Lemma rollback_restores s prev r : skill_name s <> "" -> skills r !! skill_name s = Some prev ->
  exists r1 r2, ReplaceWithBackup s r = (r1, None) /\ Get (skill_name s) r1 = Some s /\
    Rollback (skill_name s) r1 = (r2, None) /\ skills r2 = skills r /\
    (forall name, name <> skill_name s -> versions r2 !! name = versions r !! name) /\
    history_of (skill_name s) r2 =
      if decide (VersionCount (skill_name s) r < 10)%nat then history_of (skill_name s) r
      else drop (VersionCount (skill_name s) r - 9) (history_of (skill_name s) r).
Proof.
  intros Hn Hp. unfold ReplaceWithBackup. rewrite decide_False, Hp by done. eexists _, _. split; [reflexivity|].
  split; [unfold Get; simpl; by rewrite lookup_insert_eq|]. set (h := history_of (skill_name s) r).
  set (l := keep_last maxVersionHistory (h ++ [prev])).
  assert (Hl : l = (if decide (length h < 10)%nat then h else drop (length h - 9) h) ++ [prev]).
  { unfold l, keep_last, maxVersionHistory. rewrite length_app. simpl. destruct (decide (length h < 10)%nat) as [Hlt|Hge].
    - by rewrite decide_False by lia.
    - rewrite decide_True by lia. rewrite drop_app_le by lia. f_equal. f_equal. lia. }
  clearbody l. unfold Rollback, history_of at 1 2. simpl. rewrite lookup_insert_eq. simpl. rewrite Hl, last_snoc. split; [reflexivity|].
  simpl. split; [by rewrite insert_insert_eq, insert_id|]. split; [intros name Hne; by rewrite !lookup_insert_ne by done|].
  unfold history_of. simpl. rewrite !lookup_insert_eq. simpl. rewrite length_app. simpl. rewrite Nat.add_sub, take_app_length. done.
Qed.

(** ** What gets into the registry *)
Section Activation.
Context `{C : CapabilityCodec}.

(** The operations that change the registry or the candidates: the handlers, the curator's
    switches, and the installations from disk or catalog. *)
Inductive op :=
  | OPropose (f : nat -> option error) (now now' : time) (p : payload)
  | OApprove (f : nat -> option error) (now : time) (p : payload)
  | OReject (f : nat -> option error) (now : time) (p : payload)
  | ORollback (f : nat -> option error) (p : payload)
  | OUninstall (p : payload)
  | OInstall (s : InstalledSkill)
  | ODisable (name reason : string)
  | OEnable (name : string).

Definition exec (r : Runtime) (o : op) : Runtime :=
  match o with
  | OPropose f now now' p => (handlePropose f now now' p r).1
  | OApprove f now p => (handleCandidateApprove f now p r).1
  | OReject f now p => (handleCandidateReject f now p r).1
  | ORollback f p => (handleRollback f p r).1
  | OUninstall p => (handleUninstall p r).1
  | OInstall s => with_registry (InstallDirect s (registry r)).1 r
  | ODisable name reason => with_registry (Disable name reason (registry r)).1 r
  | OEnable name => with_registry (Enable name (registry r)).1 r
  end.
Definition run (ops : list op) (r : Runtime) : Runtime := foldl exec r ops.

(** A skill of the registry, installed or kept for rollback. *)
Definition in_registry (s : InstalledSkill) (g : Registry) : Prop :=
  (exists name, skills g !! name = Some s) \/ (exists name, s ∈ history_of name g).
(** The same skill, disabled or not. *)
Definition same_skill (s s' : InstalledSkill) : Prop := set_disabled false "" s = set_disabled false "" s'.

Definition caps_of (s : InstalledSkill) : Capabilities := mf_Capabilities (Manifest s).

(** An operator's approval that installs the skill: its candidate is pending, and of the caller's
    tenant when the caller has one. *)
Definition approved_by (o : op) (r : Runtime) (s : InstalledSkill) : Prop :=
  exists f now p id tenant cs row, o = OApprove f now p /\ (p = PApprove id tenant \/ p = PId id /\ tenant = "") /\
    candidates r = Some cs /\ candidates_ cs !! id = Some row /\ cr_status row = CandidatePending /\
    (tenant = "" \/ tenant = cr_tenant row) /\ same_skill s (toInstalledSkill (scanOne row)).
Definition introduced (o : op) (r : Runtime) (s : InstalledSkill) : Prop :=
  (exists s0, o = OInstall s0 /\ same_skill s s0) \/ approved_by o r s \/
  (exists f now now' p, o = OPropose f now now' p /\ autoActivateSafe r = true /\ IsSafe (caps_of s) = true).

Lemma in_insert s name s0 g versions' : in_registry s {| skills := <[name := s0]> (skills g); versions := versions' |} ->
  (forall n, s ∈ default [] (versions' !! n) -> in_registry s g) -> in_registry s g \/ s = s0.
Proof.
  intros [(n & Hs)|(n & Hs)] Hv; simpl in Hs.
  - apply lookup_insert_Some in Hs as [[_ <-]|[_ Hs]]; [by right|]. left. left. by exists n.
  - left. by apply (Hv n).
Qed.

Lemma InstallDirect_in s s0 g : in_registry s (InstallDirect s0 g).1 -> in_registry s g \/ s = s0.
Proof.
  unfold InstallDirect. destruct (skills g !! _); [by left|]. intros H. apply (in_insert _ _ _ _ _ H).
  intros n Hn. right. by exists n.
Qed.

Lemma keep_last_subset n l : keep_last n l ⊆ l.
Proof. unfold keep_last. case_decide; [|done]. intros x Hx. rewrite <- (take_drop (length l - n) l). set_solver. Qed.

Lemma ReplaceWithBackup_in s s0 g : in_registry s (ReplaceWithBackup s0 g).1 -> in_registry s g \/ s = s0.
Proof.
  unfold ReplaceWithBackup. case_decide; [by left|]. intros H0. apply (in_insert _ _ _ _ _ H0).
  intros n Hn. destruct (skills g !! skill_name s0) as [prev|] eqn:Hp; [|right; by exists n].
  destruct (decide (n = skill_name s0)) as [->|Hne].
  - rewrite lookup_insert_eq in Hn. simpl in Hn. apply keep_last_subset in Hn. apply elem_of_app in Hn as [Hn| ->%list_elem_of_singleton].
    + right. by exists (skill_name s0).
    + left. by exists (skill_name s0).
  - rewrite lookup_insert_ne in Hn by done. right. by exists n.
Qed.

Lemma Rollback_in s name g : in_registry s (Rollback name g).1 -> in_registry s g.
Proof.
  unfold Rollback. destruct (last (history_of name g)) as [prev|] eqn:Hl; [|done]. intros H.
  assert (Hprev : in_registry prev g).
  { right. exists name. apply last_Some in Hl as (l & ->). apply elem_of_app. right. by apply list_elem_of_singleton. }
  destruct (in_insert _ _ _ _ _ H) as [?| ->]; [|done|done]. intros n Hn. right. exists n. unfold history_of.
  destruct (decide (n = name)) as [->|Hne]; [|by rewrite lookup_insert_ne in Hn].
  rewrite lookup_insert_eq in Hn. simpl in Hn. by apply elem_of_take in Hn as (i & Hi%list_elem_of_lookup_2 & _).
Qed.

Lemma set_disabled_in s name d reason s0 g : skills g !! name = Some s0 ->
  in_registry s {| skills := <[name := set_disabled d reason s0]> (skills g); versions := versions g |} ->
  exists s', in_registry s' g /\ same_skill s s'.
Proof.
  intros Hs0 H. destruct (in_insert _ _ _ _ _ H) as [?| ->]; [intros n Hn; right; by exists n|by exists s|].
  exists s0. split; [left; by exists name|done].
Qed.

Lemma activate_in s c allow g : in_registry s (activate c allow g).1 ->
  in_registry s g \/ s = toInstalledSkill c.
Proof.
  unfold activate. destruct (Get _ g); [case_decide; [by left|apply ReplaceWithBackup_in]|apply InstallDirect_in].
Qed.

(** The codec keeps what makes capabilities safe. *)
Definition codec_ok : Prop := forall c text, marshal_caps c = Ok text -> IsSafe (unmarshal_caps text) = IsSafe c.

Lemma propose_in f now now' p r s : codec_ok -> in_registry s (registry (handlePropose f now now' p r).1) ->
  in_registry s (registry r) \/ introduced (OPropose f now now' p) r s.
Proof.
  intros Hok. unfold handlePropose. destruct (candidates r) as [cs|]; [|by left]. destruct p as [| |req| | | | | |]; try by left.
  destruct (validateProposal req); [by left|]. unfold Propose. destruct (marshal_caps _) as [text|e] eqn:Hm; [|by left].
  destruct (f 0%nat); [by left|]. destruct (autoActivateSafe r && IsSafe (pq_Capabilities req)) eqn:Hauto; [|by left].
  apply andb_true_iff in Hauto as [Hauto Hsafe]. set (cs' := {| candidates_ := _; nextid := _ |}).
  set (cand := match Get_ (f 1%nat) _ cs' with Ok c => c | Err _ => no_candidate end).
  assert (Hcand : IsSafe (cd_Capabilities cand) = true).
  { unfold cand, Get_. destruct (f 1%nat); [done|]. unfold cs'. simpl. rewrite lookup_insert_eq. simpl. by rewrite (Hok _ _ Hm). }
  clearbody cand. destruct (match Get (cd_Name cand) (registry r) with Some e => isTrustedSkill e | None => false end); [by left|].
  intros Hin. assert (Hin' : in_registry s (activate cand false (registry r)).1) by (by destruct (activate cand false (registry r)) as [g [e|]]).
  apply activate_in in Hin' as [?| ->]; [by left|]. right. right. right. by exists f, now, now', (PPropose req).
Qed.

Lemma approve_in f now p r s : in_registry s (registry (handleCandidateApprove f now p r).1) ->
  in_registry s (registry r) \/ introduced (OApprove f now p) r s.
Proof.
  unfold handleCandidateApprove. destruct (candidates r) as [cs|] eqn:Hcs; [|by left].
  destruct (match p with PApprove id t => Some (id, t) | PId id => Some (id, "") | _ => None end) as [[id tenant]|] eqn:Hp; [|by left].
  unfold Get_. destruct (f 0%nat); [by left|]. destruct (candidates_ cs !! id) as [row|] eqn:Hrow; [|by left].
  unfold scopeToTenant. case_decide as Ht; [|case_decide as Ht'; [by left|]].
  all: case_decide as Hst; [by left|]; intros Hin.
  all: assert (Hin' : in_registry s (activate (scanOne row) true (registry r)).1)
    by (destruct (activate (scanOne row) true (registry r)) as [g [e|]]; [done|]; by destruct (SetStatus _ _ _ _ _ _)).
  all: apply activate_in in Hin' as [?| ->]; [by left|]; right; right; left; exists f, now, p, id, tenant, cs, row.
  all: split; [done|]; split; [destruct p; simplify_eq; by auto|]; split; [done|]; split; [done|].
  all: split; [exact Hst|split; [|done]].
  - by left.
  - by right.
Qed.

Lemma exec_in o r s : codec_ok -> in_registry s (registry (exec r o)) ->
  (exists s', in_registry s' (registry r) /\ same_skill s s') \/ introduced o r s.
Proof.
  assert (Hkeep : in_registry s (registry r) -> exists s', in_registry s' (registry r) /\ same_skill s s') by (intros; by exists s).
  intros Hok. destruct o as [f now now' p|f now p|f now p|f p|p|s0|name reason|name]; simpl.
  - intros [?|?]%propose_in; by auto.
  - intros [?|?]%approve_in; by auto.
  - intros H. left. apply Hkeep. revert H. unfold handleCandidateReject. repeat case_match; done.
  - intros H. left. apply Hkeep. revert H. unfold handleRollback.
    assert (Hroll : forall name, in_registry s (registry (let '(g, err) := Rollback name (registry r) in
      (with_registry g r, match err with Some e => Err e | None => Ok "ok" end)).1) -> in_registry s (registry r)).
    { intros name H. apply (Rollback_in s name). by destruct (Rollback name (registry r)). }
    destruct p; try done; (case_decide; [apply Hroll|]); destruct (candidates r); try done;
      destruct (TenantOwnsSkill _ _ _ _) as [[]|]; try done; apply Hroll.
  - intros H. left. apply Hkeep. revert H. unfold handleUninstall, Uninstall. destruct p; try done.
    destruct (skills (registry r) !! s0); [|done].
    intros [(n & Hn)|(n & Hn)]; [left|right; by exists n]. simpl in Hn. apply lookup_delete_Some in Hn as [_ Hn]. by exists n.
  - intros [?| ->]%InstallDirect_in; [by left; apply Hkeep|]. right. left. by exists s0.
  - intros H. left. revert H. unfold Disable. destruct (skills (registry r) !! name) as [s0|] eqn:Hs; [|apply Hkeep].
    destruct (Disabled s0); [apply Hkeep|]. by apply set_disabled_in.
  - intros H. left. revert H. unfold Enable. destruct (skills (registry r) !! name) as [s0|] eqn:Hs; [|apply Hkeep].
    by apply set_disabled_in.
Qed.

Lemma exec_auto o r : autoActivateSafe (exec r o) = autoActivateSafe r.
Proof.
  destruct o; simpl; unfold handlePropose, handleCandidateApprove, handleCandidateReject, handleRollback, handleUninstall;
    repeat case_match; simplify_eq; done.
Qed.
Lemma run_auto ops r : autoActivateSafe (run ops r) = autoActivateSafe r.
Proof.
  induction ops as [|o ops IH] using rev_ind; [done|]. unfold run in *. rewrite foldl_app. simpl. by rewrite exec_auto.
Qed.

(** C19 [safety]: a skill that may use the shell, the network or the file system never gets in by
    itself.  Whatever is proposed, approved, rejected, rolled back, pruned, and in whatever
    order, every such skill of the registry, live or kept for rollback, was either installed from
    disk or the catalog, or an operator approved the candidate it comes from, which was pending
    then and of the operator's own tenant where the operator has one.  Skills without those
    capabilities are activated without approval only where that is configured. *)
Theorem activation_gated ops r0 s : codec_ok -> registry r0 = NewRegistry ->
  in_registry s (registry (run ops r0)) ->
  exists ops1 o ops2, ops = ops1 ++ o :: ops2 /\
    ((exists s0, o = OInstall s0 /\ same_skill s s0) \/ approved_by o (run ops1 r0) s \/
     IsSafe (caps_of s) = true /\ autoActivateSafe r0 = true).
Proof.
  intros Hok Hnew. revert s. induction ops as [|o ops IH] using rev_ind; intros s Hin.
  { simpl in Hin. rewrite Hnew in Hin. destruct Hin as [(n & Hn)|(n & Hn)]; [done|by apply not_elem_of_nil in Hn]. }
  unfold run in Hin. rewrite foldl_app in Hin. simpl in Hin. fold (run ops r0) in Hin.
  destruct (exec_in o _ s Hok Hin) as [(s' & Hs' & Hsame)|Hintro].
  - destruct (IH s' Hs') as (ops1 & o' & ops2 & -> & Hcase). exists ops1, o', (ops2 ++ [o]). split; [by rewrite <- app_assoc|].
    assert (Hcaps : caps_of s = caps_of s') by (unfold caps_of; change (Manifest s) with (Manifest (set_disabled false "" s)); by rewrite Hsame).
    destruct Hcase as [(s0 & Ho & Hs0)|[Happ|[Hsafe Hauto]]].
    + left. exists s0. split; [done|]. unfold same_skill in *. congruence.
    + right; left. destruct Happ as (f & now & p & id & tenant & cs & row & Ho & Hp & Hcs & Hrow & Hst & Ht & Hs0).
      exists f, now, p, id, tenant, cs, row. repeat split; try done. unfold same_skill in *. congruence.
    + right; right. by rewrite Hcaps.
  - exists ops, o, []. split; [done|]. destruct Hintro as [?|[?|(f & now & now' & p & _ & Hauto & Hsafe)]]; [by left|by right; left|].
    right; right. split; [done|]. by rewrite run_auto in Hauto.
Qed.
End Activation.

(** ** Confinement of paths *)

(** A skill is only loaded from inside the base directory.  Where one is configured,
    a path that is let through is absolute, is the base directory or a path below it, segment by
    segment, and has no ".." in it, so it names a place inside the directory, symbolic links apart;
    without one, what is let through has no ".." either. *)
Lemma confined_path cwd p r q : (forall wd, cwd = Ok wd -> IsAbs wd = true) -> confinePath cwd p r = Ok q ->
  ".." ∉ split "/"%char q /\
  (skillBaseDir r <> "" -> exists base, Abs cwd (skillBaseDir r) = Ok base /\ IsAbs q = true /\
     (q = base \/ exists rest, q = base +:+ "/" +:+ rest)).
Proof.
  intros Hwd. unfold confinePath. case_decide as Hp; [done|]. case_decide as Hdots; [done|].
  case_decide as Hbase; [intros [= <-]; split; [done|done]|].
  destruct (Abs cwd (skillBaseDir r)) as [base|e] eqn:Hb; [|done]. cbn [rbind].
  destruct (Abs cwd (if IsAbs (Clean p) then _ else _)) as [path|e] eqn:Hpath; [|done]. cbn [rbind]. case_decide as Hin; [done|]. intros [= <-].
  destruct (Abs_rooted _ _ _ Hwd Hpath) as [Habs Hno]. split; [done|]. intros _. exists base. split; [done|]. split; [done|].
  destruct (decide (path = base)) as [->|Hne]; [by left|right].
  destruct (has_prefix (base +:+ "/") path) eqn:Hpre; [|by exfalso; apply Hin].
  apply has_prefix_spec in Hpre as [t ->]. exists t. by rewrite str_app_assoc.
Qed.

(** ** Concrete skills *)
#[local] Instance demo_codec : CapabilityCodec := {|
  marshal_caps c := Ok (if IsSafe c then "safe" else "shell");
  unmarshal_caps text := if decide (text = "safe") then no_capabilities
                         else {| Network := []; Filesystem := []; Shell := true; Tools := [] |};
|}.
Definition no_faults : nat -> option error := fun _ => None.
Definition demo_runtime : Runtime := SetAutoActivateSafe true (SetCandidateStore (Some NewCandidateStore) NewRuntime).
Definition demo_proposal (tenant : string) (shell : bool) (text : string) : ProposeRequest :=
  {| pq_Tenant := tenant; pq_Name := "deploy"; pq_Description := ""; pq_Instructions := text;
     pq_Capabilities := {| Network := []; Filesystem := []; Shell := shell; Tools := [] |}; pq_SourceAgent := "bot" |}.
(** Tenant a proposes a skill with shell access, and an operator approves it. *)
Definition demo_ops : list op :=
  [OPropose no_faults 0 0 (PPropose (demo_proposal "a" true "run the deployment")); OApprove no_faults 0 (PApprove 1 "a")].

Lemma activation_gated_witness :
  exists s, Get "deploy" (registry (run demo_ops demo_runtime)) = Some s /\ Shell (caps_of s) = true /\
    exists ops1 o ops2, demo_ops = ops1 ++ o :: ops2 /\ approved_by o (run ops1 demo_runtime) s.
Proof.
  assert (Hok : codec_ok) by (intros c text; simpl; intros [= <-]; by destruct (IsSafe c)).
  destruct (Get "deploy" (registry (run demo_ops demo_runtime))) as [s|] eqn:Hs; [|exfalso; vm_compute in Hs; discriminate].
  assert (Hsh : Shell (caps_of s) = true) by (vm_compute in Hs; injection Hs as <-; reflexivity).
  exists s. split; [reflexivity|]. split; [exact Hsh|].
  destruct (activation_gated demo_ops demo_runtime s Hok eq_refl) as (ops1 & o & ops2 & Heq & Hcase).
  { left. exists "deploy". exact Hs. }
  exists ops1, o, ops2. split; [exact Heq|]. destruct Hcase as [(s0 & Ho & _)|[?|[Hsafe _]]]; [|done|].
  - exfalso. assert (Hin : OInstall s0 ∈ demo_ops) by (rewrite Heq, <- Ho; apply elem_of_app; right; by left).
    unfold demo_ops in Hin. rewrite !elem_of_cons, elem_of_nil in Hin. naive_solver.
  - exfalso. unfold IsSafe in Hsafe. by rewrite Hsh in Hsafe.
Defined.

Lemma rollback_restores_witness :
  let g := registry (run demo_ops demo_runtime) in
  exists prev s, skills g !! "deploy" = Some prev /\ skill_name s = "deploy" /\
    exists r1 r2, ReplaceWithBackup s g = (r1, None) /\ Rollback "deploy" r1 = (r2, None) /\ skills r2 = skills g.
Proof.
  intros g. destruct (skills g !! "deploy") as [prev|] eqn:Hp; [|exfalso; vm_compute in Hp; discriminate].
  exists prev, (toInstalledSkill (scanOne {| cr_id := 2; cr_tenant := "a"; cr_name := "deploy"; cr_description := "";
    cr_instructions := "better"; cr_capabilities := "safe"; cr_source := "bot"; cr_status := CandidatePending; cr_reason := "";
    cr_created := 0; cr_updated := 0 |})).
  split; [reflexivity|]. split; [reflexivity|].
  destruct (rollback_restores (toInstalledSkill (scanOne {| cr_id := 2; cr_tenant := "a"; cr_name := "deploy"; cr_description := "";
    cr_instructions := "better"; cr_capabilities := "safe"; cr_source := "bot"; cr_status := CandidatePending; cr_reason := "";
    cr_created := 0; cr_updated := 0 |})) prev g) as (r1 & r2 & H1 & _ & H2 & H3 & _); [discriminate|exact Hp|].
  exists r1, r2. split; [exact H1|]. split; [exact H2|exact H3].
Defined.

Lemma confined_path_witness :
  confinePath (Ok "/srv") "team/lint" (SetSkillBaseDir "skills" NewRuntime) = Ok "/srv/skills/team/lint" /\
  ".." ∉ split "/"%char "/srv/skills/team/lint" /\
  is_Ok (confinePath (Ok "/srv") "../secrets" (SetSkillBaseDir "skills" NewRuntime)) = false.
Proof.
  assert (Hq : confinePath (Ok "/srv") "team/lint" (SetSkillBaseDir "skills" NewRuntime) = Ok "/srv/skills/team/lint")
    by (vm_compute; reflexivity).
  assert (Hwd : forall wd, (Ok "/srv" : Result string) = Ok wd -> IsAbs wd = true) by (intros wd [= <-]; reflexivity).
  split; [exact Hq|]. split; [apply (confined_path (Ok "/srv") "team/lint" _ _ Hwd Hq)|vm_compute; reflexivity].
Defined.

(** What an operator approved does not count as trusted, since it carries the mark of the candidates:
    a proposal of another tenant, activated by itself, replaces it. *)
Example approved_skill_overwritten :
  let r := run (demo_ops ++ [OPropose no_faults 0 0 (PPropose (demo_proposal "b" false "do something else"))]) demo_runtime in
  Instructions <$> Get "deploy" (registry r) = Some "do something else".
Proof. vm_compute. reflexivity. Qed.

(** Uninstalling keeps the versions, so a rollback brings the skill back. *)
Example rollback_after_uninstall :
  let r := run (demo_ops ++ [OPropose no_faults 0 0 (PPropose (demo_proposal "b" false "other")); OUninstall (PString "deploy")]) demo_runtime in
  Get "deploy" (registry r) = None /\
  Instructions <$> Get "deploy" (registry (exec r (ORollback no_faults (PRollback "deploy" "b")))) = Some "run the deployment".
Proof. split; vm_compute; reflexivity. Qed.

(** When the new candidate cannot be read back, the skill activated is an empty one without a name. *)
Example failed_read_activates_nothing :
  let f n := if decide (n = 1%nat) then Some "disk I/O error" else None in
  let r := (handlePropose f 0 0 (PPropose (demo_proposal "a" false "text")) demo_runtime).1 in
  Instructions <$> Get "" (registry r) = Some "" /\ Get "deploy" (registry r) = None.
Proof. split; vm_compute; reflexivity. Qed.
