(* ===== verification/Float64.v ===== *)
(** * Float64: Go's [float64]

    IEEE 754 binary64 arithmetic with the operations of the Standard Library's [SpecFloat]:
    conversion from integers, division, comparison, and the fact the classifications rest on:
    a quotient of small integers compares with a constant as the fractions do. *)
From S2P Require Import Prelude.
From Stdlib Require Import SpecFloat.
Local Open Scope Z_scope.

Abbreviation float64 := spec_float (only parsing).
(** [float64(n)], rounded to the nearest, ties to even. *)
Definition of_int (n : Z) : float64 := binary_normalize 53 1024 n 0 false.
Definition fadd (x y : float64) : float64 := SFadd 53 1024 x y.
Definition fmul (x y : float64) : float64 := SFmul 53 1024 x y.
Definition fdiv (x y : float64) : float64 := SFdiv 53 1024 x y.
Definition flt (x y : float64) : bool := SFltb x y.
Definition fle (x y : float64) : bool := SFleb x y.
Definition fzero : float64 := S754_zero false.
(** A constant [n/d] of the source: the float nearest to it. *)
Definition const (n d : Z) : float64 := fdiv (of_int n) (of_int d).

(** Quotients of numbers up to a bound compare exactly with a fraction. *)
Definition quotients_exact (bound : nat) (n d : Z) : bool :=
  forallb (fun b => forallb (fun a =>
    Bool.eqb (flt (const n d) (const (Z.of_nat a) (Z.of_nat b))) (n * Z.of_nat b <? d * Z.of_nat a) &&
    Bool.eqb (fle (const n d) (const (Z.of_nat a) (Z.of_nat b))) (n * Z.of_nat b <=? d * Z.of_nat a) &&
    Bool.eqb (flt (const (Z.of_nat a) (Z.of_nat b)) (const n d)) (d * Z.of_nat a <? n * Z.of_nat b)) (seq 0 (S b)))
  (seq 1 bound).
Lemma quotients_exact_spec bound n d a b : quotients_exact bound n d = true -> (a <= b)%nat -> (1 <= b <= bound)%nat ->
  flt (const n d) (const (Z.of_nat a) (Z.of_nat b)) = (n * Z.of_nat b <? d * Z.of_nat a) /\
  fle (const n d) (const (Z.of_nat a) (Z.of_nat b)) = (n * Z.of_nat b <=? d * Z.of_nat a) /\
  flt (const (Z.of_nat a) (Z.of_nat b)) (const n d) = (d * Z.of_nat a <? n * Z.of_nat b).
Proof.
  intros H Ha Hb. unfold quotients_exact in H. rewrite forallb_forall in H.
  specialize (H b ltac:(apply in_seq; lia)). rewrite forallb_forall in H.
  specialize (H a ltac:(apply in_seq; lia)). apply andb_true_iff in H as [H12 H3].
  apply andb_true_iff in H12 as [H1 H2]. by apply Bool.eqb_prop in H1, H2, H3.
Qed.
