(* ===== verification/Curator.v ===== *)
(** * Curator: how skills fare, and which to prune

    [src/modules/curator]: the invocations table of store.go, the scores and health of scores.go
    and the pruning of prune.go.  Timestamps are kept as RFC 3339 text, which SQLite orders
    them by; reading one back, whether a statement fails, and the formatting of floats are
    arguments.  The registry that is told to disable a skill is an interface. *)
From S2P Require Import Prelude Calendar GoStr Float64.
From S2P Require Skills.
Local Open Scope go_scope.
Local Open Scope Z_scope.

(** ** Types *)

(* [modules/curator/types.go:Invocation] *)
Record Invocation := {
  SkillName : string; Tenant : string; Agent : string; Success : bool; i_Error : string; DurationMs : Z;
  Timestamp : time; LLMJudgeScore : option float64;
}.
(* [modules/curator/types.go:HealthHealthy@27-32] *)
Inductive Health := HealthHealthy | HealthShaky | HealthFailing | HealthInsufficientData.
#[export] Instance Health_eq_dec : EqDecision Health.
Proof. solve_decision. Defined.
(* [modules/curator/types.go:SkillScore] *)
Record SkillScore := {
  s_SkillName : string; Invocations : Z; SuccessRate : float64; AvgDurationMs : float64; Last7dCount : Z;
  Last7dRate : float64; Prior7dCount : Z; Prior7dRate : float64; s_Health : Health; LastInvokedAt : time;
  FirstSeenFailing : time;
}.
(* [modules/curator/types.go:PruneSuggestion] *)
Record PruneSuggestion := {
  ps_SkillName : string; ps_FirstSeenFailing : time; FailingForDays : float64; ps_SuccessRate : float64; ps_Invocations : Z;
}.
(* [modules/curator/types.go:PruneReportEntry] *)
Record PruneReportEntry := { pe_Skill : string; pe_Disabled : bool; pe_Reason : string; Samples : list string }.
(* [modules/curator/types.go:PruneReport] *)
Record PruneReport := { RanAt : time; Entries : list PruneReportEntry }.
(* [modules/curator/types.go:SkillDisabledEvent] *)
Record SkillDisabledEvent := { ev_Skill : string; ev_Reason : string; ev_Samples : list string; ev_At : time }.

(** ** Store *)

Record Row := {
  row_id : Z; row_skill : string; row_tenant : string; row_agent : string; row_success : bool; row_error : string;
  row_duration : Z; row_timestamp : string; row_judge : option float64;
}.
(* [modules/curator/store.go:Store] *)
Record Store := { invocations : list Row; next_id : Z }.
(* [modules/curator/store.go:NewStore] *)
Definition NewStore : Store := {| invocations := []; next_id := 1 |}.

(* [modules/curator/store.go:Store.RecordID] *)
Definition RecordID (fault : option error) (now : time) (inv : Invocation) (s : Store) : Store * Result Z :=
  let ts := if IsZero (Timestamp inv) then now else Timestamp inv in
  match fault with
  | Some e => (s, Err ("insert invocation: " +:+ e))
  | None =>
      ({| invocations := invocations s ++
            [{| row_id := next_id s; row_skill := SkillName inv; row_tenant := Tenant inv; row_agent := Agent inv;
                row_success := Success inv; row_error := i_Error inv; row_duration := DurationMs inv;
                row_timestamp := RFC3339Nano ts; row_judge := LLMJudgeScore inv |}];
          next_id := next_id s + 1 |}, Ok (next_id s))
  end.
(* [modules/curator/store.go:Store.Record] *)
Definition Record_ (fault : option error) (now : time) (inv : Invocation) (s : Store) : Store * option error :=
  match RecordID fault now inv s with (s, Err e) => (s, Some e) | (s, Ok _) => (s, None) end.

Definition set_judge (score : float64) (r : Row) : Row :=
  {| row_id := row_id r; row_skill := row_skill r; row_tenant := row_tenant r; row_agent := row_agent r;
     row_success := row_success r; row_error := row_error r; row_duration := row_duration r;
     row_timestamp := row_timestamp r; row_judge := Some score |}.
(* [modules/curator/store.go:Store.SetJudgeScore] *)
Definition SetJudgeScore (fault : option error) (id : Z) (score : float64) (s : Store) : Store * option error :=
  match fault with
  | Some e => (s, Some ("update judge score: " +:+ e))
  | None =>
      if decide (id ∈ row_id <$> invocations s) then
        ({| invocations := (fun r => if decide (row_id r = id) then set_judge score r else r) <$> invocations s;
            next_id := next_id s |}, None)
      else (s, Some ("invocation id " +:+ itoa id +:+ " not found"))
  end.

(** No tenant, or the empty one, is no restriction. *)
(* [modules/curator/store.go:tenantClause] *)
Definition tenantClause (tenant : option string) (r : Row) : Prop :=
  match tenant with None => True | Some t => t = "" \/ row_tenant r = t end.
#[export] Instance tenantClause_dec t r : Decision (tenantClause t r).
Proof. destruct t; simpl; apply _. Defined.

(* [modules/curator/store.go:Store.CountInvocations] *)
Definition CountInvocations (fault : option error) (skillName : string) (tenant : option string) (s : Store) : Result Z :=
  match fault with
  | Some e => Err ("count invocations: " +:+ e)
  | None => Ok (Z.of_nat (length (filter (fun r => row_skill r = skillName /\ tenantClause tenant r) (invocations s))))
  end.
(* [modules/curator/store.go:Store.CountJudged] *)
Definition CountJudged (fault : option error) (skillName : string) (tenant : option string) (s : Store) : Result Z :=
  match fault with
  | Some e => Err ("count judged: " +:+ e)
  | None => Ok (Z.of_nat (length (filter (fun r => row_skill r = skillName /\ is_Some (row_judge r) /\ tenantClause tenant r)
                                    (invocations s))))
  end.

(** ORDER BY timestamp DESC, on the text. *)
Definition newest_text (a b : Row) : Prop := string_le (row_timestamp b) (row_timestamp a).

Section Queries.
Context `{!SliceSorter newest_text}.
(** [time.Parse(time.RFC3339Nano, _)]. *)
Context (parse_nano : string -> option time).

Definition take_limit {A} (limit : Z) (l : list A) : list A := if decide (0 < limit) then take (Z.to_nat limit) l else l.

(* [modules/curator/store.go:Store.RecentFailureSamples] *)
Definition RecentFailureSamples (fault : option error) (skillName : string) (limit : Z) (tenant : option string) (s : Store) :
    Result (list string) :=
  let limit := if decide (limit <= 0) then 5 else limit in
  match fault with
  | Some e => Err ("recent failures: " +:+ e)
  | None =>
      Ok (row_error <$> take_limit limit (sortSlice newest_text
            (filter (fun r => row_skill r = skillName /\ row_success r = false /\ row_error r <> "" /\ tenantClause tenant r)
               (invocations s))))
  end.

(* [modules/curator/store.go:Store.ListSkillNames] *)
Definition ListSkillNames (fault : option error) (tenant : option string) (s : Store) : Result (list string) :=
  match fault with
  | Some e => Err ("list skills: " +:+ e)
  | None => Ok (sort_strings (remove_dups (row_skill <$> filter (tenantClause tenant) (invocations s))))
  end.

Definition read_row (r : Row) : Invocation :=
  {| SkillName := row_skill r; Tenant := row_tenant r; Agent := row_agent r; Success := row_success r;
     i_Error := row_error r; DurationMs := row_duration r; Timestamp := default 0 (parse_nano (row_timestamp r));
     LLMJudgeScore := row_judge r |}.
(* [modules/curator/store.go:Store.LoadInvocations] *)
Definition LoadInvocations (fault : option error) (skillName : string) (limit : Z) (tenant : option string) (s : Store) :
    Result (list Invocation) :=
  match fault with
  | Some e => Err ("load invocations: " +:+ e)
  | None => Ok (read_row <$> take_limit limit (sortSlice newest_text
                  (filter (fun r => row_skill r = skillName /\ tenantClause tenant r) (invocations s))))
  end.
End Queries.

(** ** Health *)

(* [modules/curator/scores.go:healthWindow] *)
Definition healthWindow : nat := 20.
(* [modules/curator/scores.go:pruneFailingFor] *)
Definition pruneFailingFor : duration := 7 * 24 * Hour.

Definition successes (l : list Invocation) : nat := length (filter (fun inv => Success inv = true) l).

(* [modules/curator/scores.go:ClassifyHealth] *)
Definition ClassifyHealth (l : list Invocation) : Health :=
  if decide (length l < 5)%nat then HealthInsufficientData
  else
    let window := take healthWindow l in
    let rate := const (Z.of_nat (successes window)) (Z.of_nat (length window)) in
    if flt (const 4 5) rate then HealthHealthy
    else if fle (const 1 2) rate then HealthShaky
    else HealthFailing.

(* [modules/curator/scores.go:pct] *)
Definition pct (num denom : Z) : float64 :=
  if decide (denom = 0) then fzero else fmul (const num denom) (of_int 100).

(** The window, newest first, of the first [i+1] of the invocations, given oldest first. *)
Definition window_at (chrono : list Invocation) (i : nat) : list Invocation :=
  reverse (drop (S i - healthWindow) (take (S i) chrono)).
Fixpoint first_failing (chrono : list Invocation) (i : nat) (todo : nat) : option time :=
  match todo with
  | O => None
  | S todo => if decide (ClassifyHealth (window_at chrono i) = HealthFailing)
              then Timestamp <$> chrono !! (S i - healthWindow)%nat
              else first_failing chrono (S i) todo
  end.
(* [modules/curator/scores.go:firstSeenFailing] *)
Definition firstSeenFailing (l : list Invocation) : time :=
  if decide (ClassifyHealth l <> HealthFailing) then 0
  else
    let chrono := reverse l in
    match first_failing chrono 0 (length chrono) with
    | Some t => t
    | None => default 0 (Timestamp <$> last l)
    end.

Definition in_last (now : time) (inv : Invocation) : bool := After (Timestamp inv) (now - 7 * 24 * Hour).
Definition in_prior (now : time) (inv : Invocation) : bool :=
  negb (in_last now inv) && After (Timestamp inv) (now - 14 * 24 * Hour).
Definition count (p : Invocation -> bool) (l : list Invocation) : Z := Z.of_nat (length (filter (fun inv => p inv = true) l)).

(* [modules/curator/scores.go:ComputeScore] *)
Definition ComputeScore (skillName : string) (l : list Invocation) (now : time) : SkillScore :=
  let n := Z.of_nat (length l) in
  if decide (l = []) then
    {| s_SkillName := skillName; Invocations := n; SuccessRate := fzero; AvgDurationMs := fzero; Last7dCount := 0;
       Last7dRate := fzero; Prior7dCount := 0; Prior7dRate := fzero; s_Health := ClassifyHealth l; LastInvokedAt := 0;
       FirstSeenFailing := 0 |}
  else
    let last7 := in_last now in
    let prior7 := in_prior now in
    let total := foldl (fun t inv => wrap64 (t + DurationMs inv)) 0 l in
    {| s_SkillName := skillName; Invocations := n; SuccessRate := pct (count Success l) n;
       AvgDurationMs := fdiv (of_int total) (of_int n);
       Last7dCount := count last7 l; Last7dRate := pct (count (fun inv => last7 inv && Success inv) l) (count last7 l);
       Prior7dCount := count prior7 l; Prior7dRate := pct (count (fun inv => prior7 inv && Success inv) l) (count prior7 l);
       s_Health := ClassifyHealth l; LastInvokedAt := default 0 (Timestamp <$> head l);
       FirstSeenFailing := firstSeenFailing l |}.

(** [d.Hours()] *)
Definition Hours (d : duration) : float64 := fadd (of_int (Z.quot d Hour)) (fdiv (of_int (Z.rem d Hour)) (of_int 3600000000000)).

(** ** Pruning *)

Definition score_le (a b : SkillScore) : Prop := string_le (s_SkillName a) (s_SkillName b).
(** What the environment makes of the queries a pass runs, in the order of the skills. *)
Record Faults := { f_list : option error; f_load : string -> option error; f_samples : string -> option error }.
Definition no_faults : Faults := {| f_list := None; f_load := fun _ => None; f_samples := fun _ => None |}.

Section Prune.
Context `{!SliceSorter newest_text, !SliceSorter score_le}.
Context (parse_nano : string -> option time).

Fixpoint load_scores (f : Faults) (s : Store) (now : time) (names : list string) : Result (list SkillScore) :=
  match names with
  | [] => Ok []
  | name :: names =>
      match LoadInvocations parse_nano (f_load f name) name 0 None s with
      | Err e => Err e
      | Ok invs => match load_scores f s now names with
                   | Err e => Err e
                   | Ok scores => Ok (ComputeScore name invs now :: scores)
                   end
      end
  end.
(* [modules/curator/scores.go:ComputeAllScores] *)
Definition ComputeAllScores (f : Faults) (s : Store) (now : time) : Result (list SkillScore) :=
  match ListSkillNames (f_list f) None s with
  | Err e => Err e
  | Ok names => match load_scores f s now names with
                | Err e => Err e
                | Ok scores => Ok (sortSlice score_le scores)
                end
  end.

(** The guards of the loop: failing, and since before the cutoff. *)
Definition prunable (now : time) (sc : SkillScore) : Prop :=
  s_Health sc = HealthFailing /\ ~ (IsZero (FirstSeenFailing sc) || negb (Before (FirstSeenFailing sc) (now - pruneFailingFor)) = true).
#[export] Instance prunable_dec now sc : Decision (prunable now sc).
Proof. unfold prunable. apply _. Defined.
Definition suggestion (now : time) (sc : SkillScore) : PruneSuggestion :=
  {| ps_SkillName := s_SkillName sc; ps_FirstSeenFailing := FirstSeenFailing sc;
     FailingForDays := fdiv (Hours (Sub now (FirstSeenFailing sc))) (of_int 24);
     ps_SuccessRate := SuccessRate sc; ps_Invocations := Invocations sc |}.
(* [modules/curator/scores.go:ComputePruneSuggestions] *)
Definition ComputePruneSuggestions (f : Faults) (s : Store) (now : time) : Result (list PruneSuggestion) :=
  match ComputeAllScores f s now with
  | Err e => Err e
  | Ok scores => Ok (suggestion now <$> filter (prunable now) scores)
  end.
End Prune.

(* [modules/curator/prune.go:isAlreadyDisabled] *)
Definition isAlreadyDisabled (e : option error) : bool :=
  match e with None => false | Some e => Contains e "already disabled" end.

(** What the curator relies on of the registry that disables skills: only an enabled skill can
    be disabled, it no longer is then, no other is affected, and an installed skill that is not
    enabled is refused with the phrase that is looked for. *)
(* [modules/curator/prune.go:PruneSkillDisabler] *)
Class PruneSkillDisabler (R : Type) := {
  disable : string -> string -> R -> R * option error;
  enabled : string -> R -> Prop;
  installed : string -> R -> Prop;
  disable_ok : forall name reason r, enabled name r ->
    (disable name reason r).2 = None /\ installed name (disable name reason r).1 /\ ~ enabled name (disable name reason r).1;
  disable_err : forall name reason r, ~ enabled name r ->
    (disable name reason r).1 = r /\ (disable name reason r).2 <> None /\
    (installed name r -> isAlreadyDisabled (disable name reason r).2 = true);
  enabled_installed : forall name r, enabled name r -> installed name r;
  enabled_dec : forall name r, Decision (enabled name r);
  disable_other : forall name other reason r, other <> name ->
    (enabled other (disable name reason r).1 <-> enabled other r) /\
    (installed other (disable name reason r).1 <-> installed other r);
}.
#[export] Existing Instance enabled_dec.

(** A module: its registry, when one was set, its store, when it was initialised, and whether it
    has a bus to publish on. *)
(* [modules/curator/module.go:Module] *)
Record Module_ (R : Type) := {
  store : option Store; disabler : option R; bus : bool;
}.
Arguments store {R}. Arguments disabler {R}. Arguments bus {R}.
(* [modules/curator/prune.go:Module.SetSkillDisabler] *)
Definition SetSkillDisabler {R} (d : R) (m : Module_ R) : Module_ R :=
  {| store := store m; disabler := Some d; bus := bus m |}.
(* [modules/curator/module.go:New] *)
Definition New {R} : Module_ R := {| store := None; disabler := None; bus := false |}.
(* [modules/curator/module.go:Module.Init] *)
Definition Init {R} (opened : Result Store) (m : Module_ R) : Module_ R * option error :=
  match opened with
  | Err e => ({| store := store m; disabler := disabler m; bus := true |}, Some ("curator init: " +:+ e))
  | Ok s => ({| store := Some s; disabler := disabler m; bus := true |}, None)
  end.

Section Pass.
Context {R : Type} `{!PruneSkillDisabler R, !SliceSorter newest_text, !SliceSorter score_le}.
Context (parse_nano : string -> option time).
(** The reason's text ([fmt.Sprintf] with the percent and one-digit verbs). *)
Context (format_reason : float64 -> float64 -> Z -> string).

(* [modules/curator/prune.go:Module.PruneFailingSkills@72-125] *)
Definition prune_one (f : Faults) (s : Store) (now : time) (on_bus : bool) (d : option R) (sg : PruneSuggestion) :
    option R * PruneReportEntry * list SkillDisabledEvent :=
  let samples := match RecentFailureSamples (f_samples f (ps_SkillName sg)) (ps_SkillName sg) 5 None s with
                 | Ok l => l | Err _ => [] end in
  let reason := format_reason (FailingForDays sg) (ps_SuccessRate sg) (ps_Invocations sg) in
  let entry b why := {| pe_Skill := ps_SkillName sg; pe_Disabled := b; pe_Reason := why; Samples := samples |} in
  match d with
  | None => (None, entry false reason, [])
  | Some r =>
      match disable (ps_SkillName sg) reason r with
      | (r, Some e) =>
          (Some r, entry false (if isAlreadyDisabled (Some e) then "already disabled" else "disable failed: " +:+ e), [])
      | (r, None) =>
          (Some r, entry true reason,
           if on_bus then [{| ev_Skill := ps_SkillName sg; ev_Reason := reason; ev_Samples := samples; ev_At := now |}] else [])
      end
  end.
Fixpoint prune_all (f : Faults) (s : Store) (now : time) (on_bus : bool) (d : option R) (l : list PruneSuggestion) :
    option R * list PruneReportEntry * list SkillDisabledEvent :=
  match l with
  | [] => (d, [], [])
  | sg :: l =>
      match prune_one f s now on_bus d sg with
      | (d, entry, evs) =>
          match prune_all f s now on_bus d l with (d, entries, evs') => (d, entry :: entries, evs ++ evs') end
      end
  end.
(* [modules/curator/prune.go:Module.PruneFailingSkills] *)
Definition PruneFailingSkills (f : Faults) (now : time) (m : Module_ R) :
    Module_ R * Result PruneReport * list SkillDisabledEvent :=
  match store m with
  | None => (m, Err "curator: prune called before init", [])
  | Some s =>
      match ComputePruneSuggestions parse_nano f s now with
      | Err e => (m, Err e, [])
      | Ok suggestions =>
          match prune_all f s now (bus m) (disabler m) suggestions with
          | (d, entries, evs) =>
              ({| store := store m; disabler := d; bus := bus m |}, Ok {| RanAt := now; Entries := entries |}, evs)
          end
      end
  end.
End Pass.

(** [d <= 0] and a text that does not parse leave the default; [parsed] is [time.ParseDuration]. *)
(* [modules/curator/prune.go:pruneCadenceFromEnv] *)
Definition pruneCadenceFromEnv (v : string) (parsed : string -> Result duration) : duration :=
  if decide (v = "") then 24 * Hour
  else match parsed v with Err _ => 24 * Hour | Ok d => if decide (d <= 0) then 24 * Hour else d end.

(** ** The health of a skill, in integers *)

Lemma successes_le l : (successes l <= length l)%nat.
Proof. apply length_filter. Qed.

Lemma shares_exact a b : (a <= b)%nat -> (1 <= b <= 20)%nat ->
  flt (const 4 5) (const (Z.of_nat a) (Z.of_nat b)) = (4 * Z.of_nat b <? 5 * Z.of_nat a) /\
  fle (const 1 2) (const (Z.of_nat a) (Z.of_nat b)) = (1 * Z.of_nat b <=? 2 * Z.of_nat a).
Proof.
  intros Ha Hb. split.
  - apply (quotients_exact_spec 20 4 5 a b); [by vm_compute|done|done].
  - apply (quotients_exact_spec 20 1 2 a b); [by vm_compute|done|done].
Qed.

Lemma window_length (l : list Invocation) : (5 <= length l -> 1 <= length (take healthWindow l) <= 20)%nat.
Proof. intros H. rewrite length_take. unfold healthWindow. lia. Qed.

(** A skill's health is what the comments of the classification say, as exact
    fractions: with fewer than five invocations there is not enough data; otherwise, of the
    twenty most recent ones (or of all, when there are fewer), more than four in five successful
    is healthy, at least one in two is shaky and anything less is failing.  The float64 division
    and comparisons the code makes never decide otherwise. *)
Lemma health_exact l :
  let w := take healthWindow l in
  ClassifyHealth l =
    if decide (length l < 5)%nat then HealthInsufficientData
    else if decide (4 * length w < 5 * successes w)%nat then HealthHealthy
    else if decide (length w <= 2 * successes w)%nat then HealthShaky
    else HealthFailing.
Proof.
  intros w. unfold ClassifyHealth. destruct (decide (length l < 5)%nat) as [|Hl]; [done|].
  fold w. destruct (shares_exact (successes w) (length w)) as [-> ->].
  { apply successes_le. }
  { apply window_length. lia. }
  repeat case_decide; destruct (Z.ltb_spec (4 * Z.of_nat (length w)) (5 * Z.of_nat (successes w)));
    try destruct (Z.leb_spec (1 * Z.of_nat (length w)) (2 * Z.of_nat (successes w))); try done; lia.
Qed.

Definition failing (l : list Invocation) : Prop :=
  (5 <= length l /\ 2 * successes (take healthWindow l) < length (take healthWindow l))%nat.
Lemma failing_health l : ClassifyHealth l = HealthFailing <-> failing l.
Proof.
  unfold ClassifyHealth, failing. destruct (decide (length l < 5)%nat) as [|Hl]; [split; [done|lia]|].
  pose proof (window_length l ltac:(lia)). set (w := take healthWindow l) in *.
  destruct (shares_exact (successes w) (length w)) as [-> ->]; [apply successes_le|done|].
  destruct (Z.ltb_spec (4 * Z.of_nat (length w)) (5 * Z.of_nat (successes w)));
    try destruct (Z.leb_spec (1 * Z.of_nat (length w)) (2 * Z.of_nat (successes w))); split; try done; lia.
Qed.
#[export] Instance failing_dec l : Decision (failing l).
Proof. unfold failing. apply _. Defined.

(** ** Since when a skill fails

    [since l t]: [l] (newest first) has a suffix, the history up to some point, that was failing,
    no shorter one was, and [t] is when the oldest invocation of its window was made. *)
Definition since (l : list Invocation) (t : time) : Prop :=
  exists n inv, failing (drop n l) /\ (forall m, (n < m)%nat -> ~ failing (drop m l)) /\
    last (take healthWindow (drop n l)) = Some inv /\ t = Timestamp inv.

Lemma window_at_suffix l i : (i < length l)%nat ->
  window_at (reverse l) i = take healthWindow (drop (length l - S i) l).
Proof.
  intros Hi. unfold window_at. rewrite take_reverse, drop_reverse, reverse_involutive, length_drop.
  unfold healthWindow. destruct (decide (S i <= 20)%nat).
  - rewrite !take_ge; rewrite ?length_drop; lia || done.
  - f_equal. lia.
Qed.
Lemma take_failing l : ClassifyHealth (take healthWindow l) = HealthFailing <-> failing l.
Proof.
  rewrite failing_health. unfold failing. rewrite take_take, Nat.min_id, length_take. unfold healthWindow.
  split; intros [? ?]; split; lia.
Qed.
Lemma oldest_in_window (l : list Invocation) i : (i < length l)%nat ->
  reverse l !! (S i - healthWindow)%nat = last (take healthWindow (drop (length l - S i) l)).
Proof.
  intros Hi. rewrite last_lookup, length_take, length_drop, lookup_take_lt by (unfold healthWindow; lia).
  rewrite lookup_drop, reverse_lookup by (unfold healthWindow; lia). f_equal. unfold healthWindow. lia.
Qed.

Lemma first_failing_spec (l : list Invocation) todo : forall i, (i + todo = length l)%nat ->
  match first_failing (reverse l) i todo with
  | None => forall k, (i <= k < length l)%nat -> ~ failing (drop (length l - S k) l)
  | Some t => exists k inv, (i <= k < length l)%nat /\ failing (drop (length l - S k) l) /\
      (forall j, (i <= j < k)%nat -> ~ failing (drop (length l - S j) l)) /\
      last (take healthWindow (drop (length l - S k) l)) = Some inv /\ t = Timestamp inv
  end.
Proof.
  induction todo as [|todo IH]; intros i Hi; cbn [first_failing]; [intros; lia|].
  rewrite window_at_suffix by lia. case_decide as Hw; rewrite take_failing in Hw.
  - rewrite oldest_in_window by lia.
    destruct (last (take healthWindow (drop (length l - S i) l))) as [inv|] eqn:Hl; cbn [fmap option_fmap option_map].
    + exists i, inv. split_and!; [lia|lia|done| |done|done]. intros; lia.
    + apply last_None in Hl. destruct Hw as [_ Hw]. rewrite Hl in Hw. simpl in Hw. lia.
  - specialize (IH (S i) ltac:(lia)). destruct (first_failing _ (S i) todo) as [t|].
    + destruct IH as (k & inv & ? & ? & Hmin & ? & ?). exists k, inv. split_and!; try done; try lia.
      intros j ?. destruct (decide (j = i)) as [->|]; [done|]. apply Hmin. lia.
    + intros k ?. destruct (decide (k = i)) as [->|]; [done|]. apply IH. lia.
Qed.

(** A failing skill has failed since some point, and the search finds it. *)
Lemma firstSeenFailing_spec l : failing l -> since l (firstSeenFailing l).
Proof.
  intros Hf. unfold firstSeenFailing. rewrite decide_False by (rewrite failing_health; auto).
  rewrite length_reverse. pose proof (first_failing_spec l (length l) 0 eq_refl) as H.
  destruct (first_failing _ _ _) as [t|].
  - destruct H as (k & inv & ? & ? & Hmin & ? & ?). exists (length l - S k)%nat, inv. split_and!; try done.
    intros m Hm Hfm. destruct (decide (m < length l)%nat).
    + apply (Hmin (length l - S m)%nat); [lia|]. by replace (length l - S (length l - S m))%nat with m by lia.
    + rewrite drop_ge in Hfm by lia. destruct Hfm as [Hfm _]. simpl in Hfm. lia.
  - exfalso. destruct Hf as [Hlen Hf]. apply (H (length l - 1)%nat); [lia|].
    by replace (length l - S (length l - 1))%nat with 0%nat by lia.
Qed.
Lemma since_unique l t t' : since l t -> since l t' -> t = t'.
Proof.
  intros (n & inv & Hf & Hmin & Hl & ->) (n' & inv' & Hf' & Hmin' & Hl' & ->).
  assert (n = n') as <- by (destruct (lt_eq_lt_dec n n') as [[|]|]; [by destruct (Hmin n')|done|by destruct (Hmin' n)]).
  congruence.
Qed.

(** ** Which skills are suggested for pruning *)

Section PruneFacts.
Context `{!SliceSorter newest_text, !SliceSorter score_le}.
Context (parse_nano : string -> option time).

(** A skill's invocations, newest first, as the curator reads them. *)
Definition history (s : Store) (name : string) : list Invocation :=
  match LoadInvocations parse_nano None name 0 None s with Ok l => l | Err _ => [] end.

Lemma load_scores_ok s now names :
  load_scores parse_nano no_faults s now names = Ok ((fun name => ComputeScore name (history s name) now) <$> names).
Proof. induction names as [|name names IH]; [done|]. cbn [load_scores]. rewrite IH. done. Qed.

Lemma list_names_spec s : exists names, ListSkillNames None None s = Ok names /\ NoDup names /\
  forall name, name ∈ names <-> name ∈ row_skill <$> invocations s.
Proof.
  eexists. split; [done|]. unfold sort_strings. split.
  - rewrite merge_sort_Permutation. apply NoDup_remove_dups.
  - intros name. rewrite merge_sort_Permutation, elem_of_remove_dups, !list_elem_of_fmap.
    split; intros (r & ? & Hr); exists r; (split; [done|]); [by apply list_elem_of_filter in Hr as [_ Hr]|].
    by apply list_elem_of_filter.
Qed.

Lemma ComputeScore_name name l now : s_SkillName (ComputeScore name l now) = name.
Proof. unfold ComputeScore. by case_decide. Qed.
Lemma failing_nonempty l : failing l -> l <> [].
Proof. intros [H _] ->. simpl in H. lia. Qed.
Lemma prunable_spec name l now :
  prunable now (ComputeScore name l now) <->
  failing l /\ exists t, since l t /\ t <> 0 /\ t < now - pruneFailingFor /\ firstSeenFailing l = t.
Proof.
  unfold prunable. unfold ComputeScore. case_decide as Hl.
  - subst l. simpl. split; [by intros [[=] _]|]. by intros [[H _] _]; simpl in H; lia.
  - cbn [s_Health FirstSeenFailing]. rewrite failing_health. unfold IsZero, Before.
    split.
    + intros [Hf Hg]. split; [done|]. exists (firstSeenFailing l).
      pose proof (firstSeenFailing_spec l Hf). destruct (Z.eqb_spec (firstSeenFailing l) 0); [done|].
      destruct (Z.ltb_spec (firstSeenFailing l) (now - pruneFailingFor)); [done|]. by destruct Hg.
    + intros [Hf (t & _ & Hz & Hlt & ->)]. split; [done|].
      destruct (Z.eqb_spec t 0); [done|]. destruct (Z.ltb_spec t (now - pruneFailingFor)); [done|lia].
Qed.
Lemma suggestion_fields name l now : failing l ->
  suggestion now (ComputeScore name l now) =
    {| ps_SkillName := name; ps_FirstSeenFailing := firstSeenFailing l;
       FailingForDays := fdiv (Hours (Sub now (firstSeenFailing l))) (of_int 24);
       ps_SuccessRate := pct (count Success l) (Z.of_nat (length l)); ps_Invocations := Z.of_nat (length l) |}.
Proof. intros Hf. unfold suggestion, ComputeScore. rewrite decide_False by (by apply failing_nonempty). done. Qed.

(** What is suggested for pruning.  When no query fails, the suggestions name each
    skill once, and [p] is one of them exactly when some recorded skill's history is failing now
    (in exact fractions, fewer than half of the twenty newest succeeded), the earliest point of
    that history at which it was failing has a window that begins more than seven days ago, and
    [p] carries that time, the history's success rate and its length.  The search for that
    earliest point never falls through to its fallback. *)
Lemma suggestions_spec s now :
  exists out, ComputePruneSuggestions parse_nano no_faults s now = Ok out /\ NoDup (ps_SkillName <$> out) /\
  forall p, p ∈ out <-> exists name t, name ∈ row_skill <$> invocations s /\ failing (history s name) /\
    since (history s name) t /\ t <> 0 /\ t < now - pruneFailingFor /\
    p = {| ps_SkillName := name; ps_FirstSeenFailing := t; FailingForDays := fdiv (Hours (Sub now t)) (of_int 24);
           ps_SuccessRate := pct (count Success (history s name)) (Z.of_nat (length (history s name)));
           ps_Invocations := Z.of_nat (length (history s name)) |}.
Proof.
  unfold ComputePruneSuggestions, ComputeAllScores. destruct (list_names_spec s) as (names & Hn & Hnd & Hin).
  cbn [f_list no_faults]. rewrite Hn, load_scores_ok. set (scores := sortSlice _ _).
  assert (Hp : scores ≡ₚ (fun name => ComputeScore name (history s name) now) <$> names) by apply sortSlice_perm.
  eexists. split; [done|]. unfold sort_strings. split.
  - rewrite <-list_fmap_compose. apply (sublist_NoDup _ (s_SkillName <$> scores)).
    + rewrite Hp, <-list_fmap_compose. rewrite (list_fmap_ext _ id); [by rewrite list_fmap_id|].
      intros. simpl. apply ComputeScore_name.
    + change (ps_SkillName ∘ suggestion now) with s_SkillName. apply fmap_sublist, sublist_filter.
  - intros p. rewrite list_elem_of_fmap. split.
    + intros (sc & -> & Hsc). rewrite list_elem_of_filter, Hp, list_elem_of_fmap in Hsc.
      destruct Hsc as (Hpr & name & -> & Hname). apply prunable_spec in Hpr as [Hf (t & Hs & Hz & Hlt & Ht)].
      exists name, t. rewrite <-Hin. split_and!; try done. rewrite suggestion_fields by done. by rewrite Ht.
    + intros (name & t & Hname & Hf & Hs & Hz & Hlt & ->).
      assert (firstSeenFailing (history s name) = t) as Ht by (eapply since_unique; [by apply firstSeenFailing_spec|done]).
      exists (ComputeScore name (history s name) now). rewrite suggestion_fields, Ht by done. split; [done|].
      rewrite list_elem_of_filter, prunable_spec, Hp, list_elem_of_fmap. split; [eauto 10|].
      exists name. by rewrite Hin.
Qed.
End PruneFacts.

(** ** Running the pruning again *)

Section PassFacts.
Context {R : Type} `{!PruneSkillDisabler R, !SliceSorter newest_text, !SliceSorter score_le}.
Context (parse_nano : string -> option time) (format_reason : float64 -> float64 -> Z -> string).

Definition off (name : string) (r : R) : Prop := installed name r /\ ~ enabled name r.

(** What one suggestion does: it disables an enabled skill and publishes that, or neither. *)
Lemma prune_one_spec f s now b r sg r' e evs :
  prune_one format_reason f s now b (Some r) sg = (r', e, evs) -> exists r1, r' = Some r1 /\ pe_Skill e = ps_SkillName sg /\
  (forall name, off name r -> off name r1) /\
  (pe_Disabled e = true -> off (ps_SkillName sg) r1) /\
  (off (ps_SkillName sg) r -> pe_Disabled e = false /\ pe_Reason e = "already disabled") /\
  ev_Skill <$> evs = (if b && pe_Disabled e then [ps_SkillName sg] else []).
Proof.
  unfold prune_one. set (reason := format_reason _ _ _). destruct (decide (enabled (ps_SkillName sg) r)) as [He|He].
  - pose proof (disable_ok (ps_SkillName sg) reason r He) as (Hok & Hin & Hoff).
    destruct (disable (ps_SkillName sg) reason r) as [r1 [err|]] eqn:Hd; [done|]. intros [= <- <- <-]. simpl in *.
    exists r1. split_and!; [done|done| |by split|by intros [_ ?]|by destruct b].
    intros name [Hi Hn]. destruct (decide (name = ps_SkillName sg)) as [->|Hne]; [by split|].
    pose proof (disable_other (ps_SkillName sg) name reason r Hne) as [H1 H2]. rewrite Hd in H1, H2. simpl in *.
    split; [by apply H2|by rewrite H1].
  - pose proof (disable_err (ps_SkillName sg) reason r He) as (Hr & Hne & Hal).
    destruct (disable (ps_SkillName sg) reason r) as [r1 [err|]] eqn:Hd; [|done]. intros [= <- <- <-]. cbn [fst snd] in Hr, Hne, Hal; subst r1.
    exists r. split_and!; [done|done|done|done| |by rewrite andb_false_r].
    intros [Hi _]. split; [done|]. cbn [pe_Reason]. specialize (Hal Hi). unfold isAlreadyDisabled in Hal. by rewrite Hal.
Qed.

Lemma prune_all_spec f s now b l : forall r r' es evs, prune_all format_reason f s now b (Some r) l = (r', es, evs) ->
  exists r1, r' = Some r1 /\ (forall name, off name r -> off name r1) /\
  (forall e, e ∈ es -> pe_Disabled e = true -> off (pe_Skill e) r1) /\
  (forall e, e ∈ es -> off (pe_Skill e) r -> pe_Disabled e = false /\ pe_Reason e = "already disabled") /\
  ev_Skill <$> evs = (if b then pe_Skill <$> filter (fun e => pe_Disabled e = true) es else []).
Proof.
  induction l as [|sg l IH]; cbn [prune_all]; intros r r' es evs.
  - intros [= <- <- <-]. exists r. split_and!; [done|done|by intros ? ?%not_elem_of_nil|by intros ? ?%not_elem_of_nil|by destruct b].
  - destruct (prune_one format_reason f s now b (Some r) sg) as [[d e] evs1] eqn:H1.
    apply prune_one_spec in H1 as (r1 & -> & He & Hoff1 & Hdis1 & Hal1 & Hev1).
    destruct (prune_all format_reason f s now b (Some r1) l) as [[d2 es2] evs2] eqn:H2.
    apply IH in H2 as (r2 & -> & Hoff2 & Hdis2 & Hal2 & Hev2). intros [= <- <- <-].
    exists r2. split_and!; [done|auto| | |].
    + intros e0 [->|Hin]%elem_of_cons Hd; [rewrite He; auto|auto].
    + intros e0 [->|Hin]%elem_of_cons Ho; [rewrite He in Ho; auto|auto].
    + rewrite fmap_app, Hev1, Hev2. destruct b; [|done]. simpl. rewrite filter_cons.
      destruct (pe_Disabled e); [rewrite decide_True by done; by rewrite fmap_cons, He|by rewrite decide_False].
Qed.

(** Pruning again does not prune twice.  A pass disables skills in the registry and
    publishes one event for each it disabled, in the report's order, when the module has a bus.
    In any later pass, at any time and over any invocations, as long as nobody changed the
    registry in between, every entry for a skill an earlier pass disabled says that it was not
    disabled and why, already disabled, and no event for it is published. *)
Lemma prune_idempotent f f' now now' s s' b b' r m1 m2 rep rep' evs evs' :
  PruneFailingSkills parse_nano format_reason f now {| store := s; disabler := Some r; bus := b |} = (m1, Ok rep, evs) ->
  PruneFailingSkills parse_nano format_reason f' now' {| store := s'; disabler := disabler m1; bus := b' |} = (m2, Ok rep', evs') ->
  ev_Skill <$> evs = (if b then pe_Skill <$> filter (fun e => pe_Disabled e = true) (Entries rep) else []) /\
  forall e, e ∈ Entries rep -> pe_Disabled e = true ->
    (forall e', e' ∈ Entries rep' -> pe_Skill e' = pe_Skill e -> pe_Disabled e' = false /\ pe_Reason e' = "already disabled") /\
    pe_Skill e ∉ ev_Skill <$> evs'.
Proof.
  unfold PruneFailingSkills. cbn [store bus]. destruct s as [s|]; [|done]. cbn [disabler].
  destruct (ComputePruneSuggestions parse_nano f s now) as [l|]; [|done].
  destruct (prune_all format_reason f s now b (Some r) l) as [[d es] evs0] eqn:H1.
  apply prune_all_spec in H1 as (r1 & -> & _ & Hdis & _ & Hev). intros [= <- <- <-].
  destruct s' as [s'|]; [|done]. cbn [disabler Entries].
  destruct (ComputePruneSuggestions parse_nano f' s' now') as [l'|]; [|done].
  destruct (prune_all format_reason f' s' now' b' (Some r1) l') as [[d' es'] evs1] eqn:H2.
  apply prune_all_spec in H2 as (r2 & -> & _ & _ & Hal & Hev'). intros [= <- <- <-].
  split; [done|]. intros e He Hd. specialize (Hdis e He Hd). cbn [Entries]. split.
  - intros e' He' Heq. apply Hal; [done|]. by rewrite Heq.
  - rewrite Hev'. destruct b'; [|apply not_elem_of_nil]. intros (e' & Heq & [Hd' He']%list_elem_of_filter)%list_elem_of_fmap.
    rewrite Heq in Hdis. destruct (Hal e' He' Hdis) as [? _]. congruence.
Qed.
End PassFacts.

(** ** The skill registry as the disabler *)

Lemma already_disabled_text name : isAlreadyDisabled (Some ("skill " +:+ quote name +:+ " already disabled")) = true.
Proof.
  unfold isAlreadyDisabled, Contains.
  pose proof (find_prefix "already disabled" " already disabled" ("skill " +:+ quote name) ltac:(done)) as H.
  rewrite str_app_assoc in H. by destruct (find _ _).
Qed.

#[export, refine] Instance registry_disabler : PruneSkillDisabler Skills.Registry := {|
  disable := Skills.Disable;
  enabled := fun name r => exists s, Skills.skills r !! name = Some s /\ Skills.Disabled s = false;
  installed := fun name r => is_Some (Skills.skills r !! name);
|}.
Proof.
  - intros name reason r (s & Hs & Hd). unfold Skills.Disable. rewrite Hs, Hd. simpl.
    rewrite lookup_insert_eq. split_and!; [done|eauto|]. by intros (? & [= <-] & ?).
  - intros name reason r Hn. unfold Skills.Disable. destruct (Skills.skills r !! name) as [s|] eqn:Hs.
    + destruct (Skills.Disabled s) eqn:Hd; [|by destruct Hn; eauto].
      split_and!; [done|done|]. intros _. apply already_disabled_text.
    + split_and!; [done|done|by intros [? ?]].
  - intros name r (s & ? & _). eauto.
  - intros name r. destruct (Skills.skills r !! name) as [s|]; [|right; by intros (? & ? & _)].
    destruct (Skills.Disabled s) eqn:Hd; [right; intros (? & [= <-] & ?); congruence|left; eauto].
  - intros name other reason r Hne. unfold Skills.Disable. destruct (Skills.skills r !! name) as [s|]; [|done].
    destruct (Skills.Disabled s); [done|]. simpl. by rewrite lookup_insert_ne by done.
Defined.

(** ** Examples *)

#[local] Instance newest_text_dec : RelDecision newest_text.
Proof. intros a b. unfold newest_text. apply _. Defined.
#[local] Instance newest_text_total : Total newest_text.
Proof. intros a b. unfold newest_text. destruct (string_le_total (row_timestamp a) (row_timestamp b)); auto. Qed.
#[local] Instance newest_text_trans : Transitive newest_text.
Proof. intros a b c H1 H2. unfold newest_text in *. by transitivity (row_timestamp b). Qed.
#[local] Instance demo_sorter : SliceSorter newest_text := merge_sorter newest_text.
#[local] Instance score_le_dec : RelDecision score_le.
Proof. intros a b. unfold score_le. apply _. Defined.
#[local] Instance score_le_total : Total score_le.
Proof. intros a b. unfold score_le. destruct (string_le_total (s_SkillName a) (s_SkillName b)); auto. Qed.
#[local] Instance score_le_trans : Transitive score_le.
Proof. intros a b c H1 H2. unfold score_le in *. by transitivity (s_SkillName b). Qed.
#[local] Instance demo_score_sorter : SliceSorter score_le := merge_sorter score_le.

Definition demo_run (ok : bool) (t : time) : Invocation :=
  {| SkillName := "fetch"; Tenant := "acme"; Agent := "ann"; Success := ok; i_Error := if ok then "" else "timeout";
     DurationMs := 10; Timestamp := t; LLMJudgeScore := None |}.
(** Five failures, recorded on the first of June 2024 and read back as such. *)
Definition june : time := 63852796800 * Second.
Definition demo_store : Store :=
  Nat.iter 5 (fun s => (Record_ None june (demo_run false 0) s).1) NewStore.
Definition demo_parse (text : string) : option time := if decide (text = RFC3339Nano june) then Some june else None.
Definition demo_reason (_ _ : float64) (_ : Z) : string := "failing".
Definition demo_registry : Skills.Registry :=
  (Skills.InstallDirect {|
     Skills.Manifest := {| Skills.mf_Name := "fetch"; Skills.Version := "1"; Skills.Author := ""; Skills.License := "";
       Skills.mf_Capabilities := {| Skills.Shell := false; Skills.Network := []; Skills.Filesystem := []; Skills.Tools := [] |};
       Skills.Signing := {| Skills.sg_Registry := ""; Skills.Fingerprint := "" |} |};
     Skills.Instructions := "Fetch."; Skills.Path := ""; Skills.Signature := ""; Skills.Disabled := false;
     Skills.DisabledReason := "" |} Skills.NewRegistry).1.
Definition demo_module : Module_ Skills.Registry :=
  {| store := Some demo_store; disabler := Some demo_registry; bus := true |}.
Definition demo_now : time := june + 8 * Day.
Definition demo_pass (now : time) (m : Module_ Skills.Registry) :=
  PruneFailingSkills demo_parse demo_reason no_faults now m.

(** A week and a day later the skill is disabled, and a second pass says that it already is. *)
Example prune_twice :
  let '(m1, rep1, evs1) := demo_pass demo_now demo_module in
  let '(m2, rep2, evs2) := demo_pass (demo_now + Day) m1 in
  (match rep1 with Ok r => pe_Disabled <$> Entries r | Err _ => [] end, ev_Skill <$> evs1) = ([true], ["fetch"]) /\
  (match rep2 with Ok r => pe_Reason <$> Entries r | Err _ => [] end, evs2) = (["already disabled"], []).
Proof. by vm_compute. Qed.

Definition demo_first := demo_pass demo_now demo_module.
Definition demo_second := demo_pass (demo_now + Day) demo_first.1.1.
Lemma prune_idempotent_witness :
  exists m1 m2 rep rep' evs evs', demo_first = (m1, Ok rep, evs) /\ demo_second = (m2, Ok rep', evs') /\
    length (Entries rep) = 1%nat /\ forall e, e ∈ Entries rep -> pe_Skill e ∉ ev_Skill <$> evs'.
Proof.
  do 6 eexists. assert (H1 : demo_first = (_, Ok _, _)) by (vm_compute; reflexivity).
  assert (H2 : demo_second = (_, Ok _, _)) by (vm_compute; reflexivity).
  split; [exact H1|]. split; [exact H2|]. split; [reflexivity|].
  intros e He. eapply (prune_idempotent demo_parse demo_reason no_faults no_faults demo_now (demo_now + Day)
    (Some demo_store) (Some demo_store) true true demo_registry); [exact H1|exact H2|exact He|].
  revert He. cbn [Entries]. intros He. apply list_elem_of_singleton in He as ->. reflexivity.
Defined.

(** A skill that failed long ago, recovered for a hundred runs and failed again today is pruned at
    once: the search finds the first failing window there ever was. *)
Example recovery_is_forgotten :
  let l := (demo_run false <$> [30 * Day; 30 * Day; 30 * Day; 30 * Day; 30 * Day; 30 * Day;
                                30 * Day; 30 * Day; 30 * Day; 30 * Day; 30 * Day]) ++
           (demo_run true <$> replicate 100 (15 * Day)) ++ (demo_run false <$> replicate 5 (1 * Day)) in
  ClassifyHealth l = HealthFailing /\ ClassifyHealth (drop 11 l) = HealthHealthy /\ firstSeenFailing l = 1 * Day /\
  prunable (30 * Day) (ComputeScore "fetch" l (30 * Day)).
Proof. split_and!; [by vm_compute..|]. apply (bool_decide_unpack _). by vm_compute. Qed.

(** The text of a whole second sorts after that of the half second following it. *)
Example text_order : string_le (RFC3339Nano (june + 500 * Millisecond)) (RFC3339Nano june).
Proof. by vm_compute. Qed.
