(* ===== verification/Node.v ===== *)
(** * Node: companion nodes and their protocol

    [src/modules/node]: the frames and the capability negotiation of protocol.go, the pairing codes
    and grants, the connection handler and the module of pairing.go, with the operator's endpoint
    of web/api/node.go.  A connection is the list of what its reads give; when they are used up
    the read deadline ends it.  The random bytes, the clock, and whether a statement or a write
    fails are arguments. *)
From S2P Require Import Prelude GoStr GoText.
From S2P Require Import Pairing.
From S2P Require AuditLog.
Local Open Scope go_scope.
Local Open Scope Z_scope.

(** ** Protocol *)

(* [modules/node/protocol.go:MsgPair@36-40] *)
Definition MsgPair : string := "pair".
Definition MsgHello : string := "hello".
Definition MsgVoice : string := "voice".
Definition MsgCanvas : string := "canvas".
Definition MsgPing : string := "ping".
(* [modules/node/protocol.go:MsgWelcome@43-46] *)
Definition MsgWelcome : string := "welcome".
Definition MsgError : string := "error".
Definition MsgAck : string := "ack".
Definition MsgPong : string := "pong".
(* [modules/node/protocol.go:CapVoice@51-54] *)
Definition CapVoice : string := "voice".
Definition CapCanvas : string := "canvas".
Definition CapCamera : string := "camera".
Definition CapScreen : string := "screen".
(* [modules/node/protocol.go:allCapabilities] *)
Definition allCapabilities : list string := [CapVoice; CapCanvas; CapCamera; CapScreen].
(* [modules/node/protocol.go:validCapability] *)
Definition validCapability (c : string) : bool := bool_decide (c ∈ allCapabilities).

(** The canvas payload is its JSON text. *)
(* [modules/node/protocol.go:Frame] *)
Record Frame := {
  f_Type : string; f_Code : string; f_Node : string; f_Capabilities : list string; f_Tenant : string; f_Session : string;
  f_Transcript : string; f_Audio : string; f_Canvas : string; f_ErrorCode : string; f_Message : string; f_Ref : string;
}.
Definition frame (type : string) : Frame :=
  {| f_Type := type; f_Code := ""; f_Node := ""; f_Capabilities := []; f_Tenant := ""; f_Session := "";
     f_Transcript := ""; f_Audio := ""; f_Canvas := ""; f_ErrorCode := ""; f_Message := ""; f_Ref := "" |}.
(* [modules/node/protocol.go:ErrBadPairing@97-100] *)
Definition ErrBadPairing : string := "BAD_PAIRING".
Definition ErrNotPaired : string := "NOT_PAIRED".
Definition ErrNotNegotiated : string := "NOT_NEGOTIATED".
Definition ErrProtocol : string := "PROTOCOL".

(* [modules/node/protocol.go:negotiateCapabilities] *)
Definition negotiateCapabilities (offered allowed : list string) : list string :=
  let allowedSet : gset string := list_to_set allowed in
  let offeredSet : gset string := list_to_set (filter (fun c => validCapability c = true) offered) in
  filter (fun c => c ∈ offeredSet /\ c ∈ allowedSet) allCapabilities.
(* [modules/node/protocol.go:errFrame] *)
Definition errFrame (code msg : string) : Frame :=
  {| f_Type := MsgError; f_Code := ""; f_Node := ""; f_Capabilities := []; f_Tenant := ""; f_Session := "";
     f_Transcript := ""; f_Audio := ""; f_Canvas := ""; f_ErrorCode := code; f_Message := msg; f_Ref := "" |}.
(* [modules/node/protocol.go:validatePairFrame] *)
Definition validatePairFrame (f : Frame) : option error :=
  if decide (f_Type f <> MsgPair) then Some ("expected " +:+ quote MsgPair +:+ " frame, got " +:+ quote (f_Type f))
  else if decide (f_Code f = "") then Some "pairing code is required"
  else None.

(** ** The pairing store *)

Record PendingNode := { pn_tenant : string; pn_node : string; pn_capabilities : string; pn_created : Z }.
Record PairedNode := { nd_capabilities : string; nd_created : Z }.
(** The tables: codes to what they grant, and (tenant, node) to what was granted. *)
(* [modules/node/pairing.go:PairingStore] *)
Record NodeStore := { node_pending : gmap string PendingNode; node_pairings : gmap (string * string) PairedNode }.
(* [modules/node/pairing.go:NewPairingStore] *)
Definition NewNodeStore : NodeStore := {| node_pending := ∅; node_pairings := ∅ |}.

(** Six bytes; those the source did not give are zero. *)
(* [modules/node/pairing.go:pairingCode] *)
Definition node_code (bytes : list Z) : string :=
  foldl (fun b c => b +:+ letter c) "" (take 6 (bytes ++ replicate 6 0)).

(** [unique] is the error of an insertion that breaks the primary key. *)
(* [modules/node/pairing.go:PairingStore.IssueCode] *)
Definition IssueCode (bytes : list Z) (fault : option error) (unique : error) (now : time) (tenant node : string)
    (allowedCaps : list string) (s : NodeStore) : NodeStore * Result string :=
  if decide (tenant = "" \/ node = "") then (s, Err "node/pairing: tenant and node are required")
  else
    let allowedCaps := if decide (allowedCaps = []) then allCapabilities else allowedCaps in
    let code := node_code bytes in
    match (match fault with Some e => Some e | None => if decide (is_Some (node_pending s !! code)) then Some unique else None end) with
    | Some e => (s, Err ("node/pairing: issue code: " +:+ e))
    | None =>
        ({| node_pending := <[code := {| pn_tenant := tenant; pn_node := node; pn_capabilities := Join allowedCaps ",";
                                         pn_created := Unix now |}]> (node_pending s);
            node_pairings := node_pairings s |}, Ok code)
    end.

(* [modules/node/pairing.go:Pairing] *)
Record Pairing := { p_Tenant : string; p_Node : string; p_AllowedCaps : list string }.
(* [modules/node/pairing.go:splitCaps] *)
Definition splitCaps (s : string) : list string :=
  if decide (s = "") then [] else filter (fun p => p <> "") (TrimSpace <$> split "," s).

(** What the environment makes of the three statements; the deletion's error is dropped. *)
Record RedeemFaults := { rf_query : option error; rf_insert : option error; rf_delete : bool }.
(* [modules/node/pairing.go:PairingStore.Redeem] *)
Definition Redeem (f : RedeemFaults) (now : time) (code : string) (s : NodeStore) : NodeStore * Result Pairing :=
  let code := TrimSpace code in
  if decide (code = "") then (s, Err "node/pairing: empty code")
  else
    match rf_query f with
    | Some e => (s, Err e)
    | None =>
        match node_pending s !! code with
        | None => (s, Err "node/pairing: invalid code")
        | Some row =>
            match rf_insert f with
            | Some e => (s, Err ("node/pairing: persist: " +:+ e))
            | None =>
                ({| node_pending := if rf_delete f then delete code (node_pending s) else node_pending s;
                    node_pairings := <[(pn_tenant row, pn_node row) :=
                                        {| nd_capabilities := pn_capabilities row; nd_created := Unix now |}]> (node_pairings s) |},
                 Ok {| p_Tenant := pn_tenant row; p_Node := pn_node row; p_AllowedCaps := splitCaps (pn_capabilities row) |})
            end
        end
    end.
(* [modules/node/pairing.go:PairingStore.AllowedCaps] *)
Definition AllowedCaps (fault : option error) (tenant node : string) (s : NodeStore) : list string * bool :=
  match fault, node_pairings s !! (tenant, node) with
  | None, Some row => (splitCaps (nd_capabilities row), true)
  | _, _ => ([], false)
  end.

(** ** The server *)

(* [modules/node/pairing.go:Session] *)
Record Session := { s_Tenant : string; s_Node : string; s_ID : string; s_Capabilities : list string }.
(* [modules/node/pairing.go:Session.hasCap] *)
Definition hasCap (c : string) (s : Session) : bool := bool_decide (c ∈ s_Capabilities s).
(** [has_audit]: an emitter was given. *)
(* [modules/node/pairing.go:Server] *)
Record Server := { nodes : NodeStore; has_audit : bool; sessions : gmap string Session }.
(* [modules/node/pairing.go:NewServer] *)
Definition NewServer (s : NodeStore) (emitter : bool) : Server := {| nodes := s; has_audit := emitter; sessions := ∅ |}.
Definition with_nodes (n : NodeStore) (s : Server) : Server := {| nodes := n; has_audit := has_audit s; sessions := sessions s |}.
(* [modules/node/pairing.go:Server.Sessions] *)
Definition Sessions (s : Server) : list Session := (map_to_list (sessions s)).*2.
(* [modules/node/pairing.go:Server.addSession] *)
Definition addSession (sess : Session) (s : Server) : Server :=
  {| nodes := nodes s; has_audit := has_audit s; sessions := <[s_ID sess := sess]> (sessions s) |}.
(* [modules/node/pairing.go:Server.removeSession] *)
Definition removeSession (id : string) (s : Server) : Server :=
  {| nodes := nodes s; has_audit := has_audit s; sessions := delete id (sessions s) |}.

Definition audit_entry (tenant node type status : string) (detail : gmap string string) : AuditLog.Entry :=
  AuditLog.zero_entry tenant {| AuditLog.User := node; AuditLog.Agent := ""; AuditLog.Role := "" |}
    {| AuditLog.a_Type := type; AuditLog.Module_ := "node"; AuditLog.Detail := detail |} AuditLog.zero_policy
    {| AuditLog.Status := status; AuditLog.DurationMs := 0 |}.
(* [modules/node/pairing.go:Server.emitAuth] *)
Definition emitAuth (s : Server) (tenant node eventType result : string) : list AuditLog.Entry :=
  if has_audit s then [audit_entry tenant node eventType result {[ "node" := node ]}] else [].
(* [modules/node/pairing.go:Server.emitNegotiation] *)
Definition emitNegotiation (s : Server) (sess : Session) : list AuditLog.Entry :=
  if has_audit s then
    [audit_entry (s_Tenant sess) (s_Node sess) "node_capabilities" "negotiated"
       (<["node" := s_Node sess]> (<["session" := s_ID sess]> {[ "capabilities" := Join (s_Capabilities sess) "," ]}))]
  else [].

Definition ack (ref : string) (sess : Session) : Frame :=
  {| f_Type := MsgAck; f_Code := ""; f_Node := ""; f_Capabilities := []; f_Tenant := s_Tenant sess; f_Session := s_ID sess;
     f_Transcript := ""; f_Audio := ""; f_Canvas := ""; f_ErrorCode := ""; f_Message := ""; f_Ref := ref |}.
(** The frame written, and whether the connection goes on. *)
(* [modules/node/pairing.go:Server.dispatch] *)
Definition dispatch (sess : Session) (f : Frame) : list Frame * bool :=
  if decide (f_Type f = MsgPing) then ([frame MsgPong], true)
  else if decide (f_Type f = MsgVoice) then
    if hasCap CapVoice sess then ([ack MsgVoice sess], true)
    else ([errFrame ErrNotNegotiated "voice capability not negotiated"], true)
  else if decide (f_Type f = MsgCanvas) then
    if hasCap CapCanvas sess then ([ack MsgCanvas sess], true)
    else ([errFrame ErrNotNegotiated "canvas capability not negotiated"], true)
  else if decide (f_Type f = MsgPair \/ f_Type f = MsgHello) then ([errFrame ErrProtocol "already paired"], true)
  else ([errFrame ErrProtocol ("unknown frame type: " +:+ f_Type f)], true).

(* [modules/node/pairing.go:Server.handle@343-352] *)
Fixpoint message_loop (sess : Session) (reads : list (Result Frame)) : list Frame :=
  match reads with
  | Ok f :: reads =>
      let '(out, go_on) := dispatch sess f in
      if go_on then out ++ message_loop sess reads else out
  | _ => []
  end.

Definition welcome (sess : Session) : Frame :=
  {| f_Type := MsgWelcome; f_Code := ""; f_Node := ""; f_Capabilities := s_Capabilities sess; f_Tenant := s_Tenant sess;
     f_Session := s_ID sess; f_Transcript := ""; f_Audio := ""; f_Canvas := ""; f_ErrorCode := ""; f_Message := ""; f_Ref := "" |}.

(** What a connection comes to: the session it established, the frames it was written, the
    audit entries, and the server while the session is live. *)
Record Outcome := {
  o_session : option Session; o_frames : list Frame; o_audit : list AuditLog.Entry; o_live : Server;
}.
(** [bytes] makes the session's id; [welcomed]: the welcome frame could be written. *)
(* [modules/node/pairing.go:Server.handle@281-353] *)
Definition connection (f : RedeemFaults) (now : time) (bytes : list Z) (welcomed : bool) (reads : list (Result Frame)) (s : Server) :
    Outcome :=
  let refuse frames audit s := {| o_session := None; o_frames := frames; o_audit := audit; o_live := s |} in
  match reads with
  | Ok first :: reads =>
      match validatePairFrame first with
      | Some e => refuse [errFrame ErrProtocol e] [] s
      | None =>
          match Redeem f now (f_Code first) (nodes s) with
          | (n, Err _) => refuse [errFrame ErrBadPairing "pairing failed"] (emitAuth s "" (f_Node first) "node_pair" "rejected") (with_nodes n s)
          | (n, Ok pairing) =>
              let s := with_nodes n s in
              let audit := emitAuth s (p_Tenant pairing) (p_Node pairing) "node_pair" "success" in
              let offer :=
                if decide (f_Capabilities first = []) then
                  match reads with
                  | Ok hello :: reads =>
                      if decide (f_Type hello <> MsgHello) then inl [errFrame ErrProtocol "expected hello frame after pairing"]
                      else inr (f_Capabilities hello, reads)
                  | _ => inl []
                  end
                else inr (f_Capabilities first, reads) in
              match offer with
              | inl frames => refuse frames audit s
              | inr (offered, reads) =>
                  let sess := {| s_Tenant := p_Tenant pairing; s_Node := p_Node pairing; s_ID := "ns_" +:+ node_code bytes;
                                 s_Capabilities := negotiateCapabilities offered (p_AllowedCaps pairing) |} in
                  let s := addSession sess s in
                  if welcomed then
                    {| o_session := Some sess; o_frames := welcome sess :: message_loop sess reads;
                       o_audit := audit ++ emitNegotiation s sess; o_live := s |}
                  else {| o_session := Some sess; o_frames := []; o_audit := audit; o_live := s |}
              end
          end
      end
  | _ => refuse [] [] s
  end.
(** The server once the connection is closed. *)
(* [modules/node/pairing.go:Server.handle@327-328] *)
Definition handle (f : RedeemFaults) (now : time) (bytes : list Z) (welcomed : bool) (reads : list (Result Frame)) (s : Server) :
    Server * Outcome :=
  let o := connection f now bytes welcomed reads s in
  (match o_session o with Some sess => removeSession (s_ID sess) (o_live o) | None => o_live o end, o).

(** ** The module and the operator's endpoint *)

(* [modules/node/pairing.go:IssueRequest] *)
Record IssueRequest := { q_Tenant : string; q_Node : string; q_Capabilities : list string }.
(* [modules/node/pairing.go:IssueResponse] *)
Record IssueResponse := { r_Code : string; r_Error : string }.
Definition zero_request : IssueRequest := {| q_Tenant := ""; q_Node := ""; q_Capabilities := [] |}.
(* [modules/node/pairing.go:Module] *)
Record NodeModule := { dbPath : string; server : option Server }.
(* [modules/node/pairing.go:NewModule] *)
Definition NewModule (path : string) : NodeModule :=
  {| dbPath := if decide (path = "") then "node_pairings.db" else path; server := None |}.
(* [modules/node/pairing.go:Module.Init@436-443] *)
Definition Init (opened : Result NodeStore) (m : NodeModule) : NodeModule * option error :=
  match opened with
  | Err e => (m, Some e)
  | Ok store => ({| dbPath := dbPath m; server := Some (NewServer store true) |}, None)
  end.
(** A payload of another type is the zero request. *)
(* [modules/node/pairing.go:Module.Init@446-453] *)
Definition handlePairIssue (bytes : list Z) (fault : option error) (unique : error) (now : time) (payload : option IssueRequest)
    (s : Server) : Server * IssueResponse :=
  let req := default zero_request payload in
  match IssueCode bytes fault unique now (q_Tenant req) (q_Node req) (q_Capabilities req) (nodes s) with
  | (n, Err e) => (with_nodes n s, {| r_Code := ""; r_Error := e |})
  | (n, Ok code) => (with_nodes n s, {| r_Code := code; r_Error := "" |})
  end.
(* [modules/node/pairing.go:Module.Health] *)
Definition Health (m : NodeModule) : bool * string :=
  match server m with None => (false, "node module not initialized") | Some _ => (true, "ok") end.

(** The answer of the endpoint: an error's status and code, or the code with what it is for. *)
Inductive http_answer := HttpError (status : Z) (code msg : string) | HttpOk (code node tenant : string) (caps : list string).
(** [principal] is the tenant of the caller, when it is authenticated; [bus] the reply of the request, [None] for
    another payload. *)
(* [web/api/node.go:Server.handleNodePairIssue@35-41] *)
Definition issue_tenant (principal : option string) (body : string) : string :=
  let tenant := match principal with Some t => if decide (t = "") then body else t | None => body end in
  if decide (tenant = "") then "default" else tenant.
(* [web/api/node.go:Server.handleNodePairIssue] *)
Definition handleNodePairIssue (body : Result IssueRequest) (principal : option string)
    (bus : IssueRequest -> Server -> Server * Result (option IssueResponse)) (s : Server) : Server * http_answer :=
  match body with
  | Err _ => (s, HttpError 400 "BAD_REQUEST" "invalid JSON body")
  | Ok b =>
      if decide (q_Node b = "") then (s, HttpError 400 "MISSING_NODE" "node is required")
      else
        let tenant := issue_tenant principal (q_Tenant b) in
        match bus {| q_Tenant := tenant; q_Node := q_Node b; q_Capabilities := q_Capabilities b |} s with
        | (s, Err e) => (s, HttpError 500 "NODE_PAIR_ERROR" e)
        | (s, Ok None) => (s, HttpError 500 "NODE_PAIR_ERROR" "unexpected response from node module")
        | (s, Ok (Some out)) =>
            if decide (r_Error out <> "") then (s, HttpError 400 "NODE_PAIR_ERROR" (r_Error out))
            else (s, HttpOk (r_Code out) (q_Node b) tenant (q_Capabilities b))
        end
  end.

(** ** Capabilities *)

Lemma negotiate_spec offered allowed c :
  c ∈ negotiateCapabilities offered allowed <-> c ∈ allCapabilities /\ c ∈ offered /\ c ∈ allowed.
Proof.
  unfold negotiateCapabilities. rewrite list_elem_of_filter, !elem_of_list_to_set, list_elem_of_filter.
  unfold validCapability. rewrite bool_decide_eq_true. tauto.
Qed.
Lemma negotiate_order offered allowed : sublist (negotiateCapabilities offered allowed) allCapabilities.
Proof. apply sublist_filter. Qed.

Definition granted (caps : list string) : list string := if decide (caps = []) then allCapabilities else caps.
Lemma known_caps_survive l : Forall (fun c => c ∈ allCapabilities) l -> l <> [] -> splitCaps (Join l ",") = l.
Proof.
  intros Hl Hne. assert (Hlack : Forall (lacks ",") l).
  { eapply Forall_impl; [exact Hl|]. intros c Hc. unfold allCapabilities in Hc.
    repeat (apply elem_of_cons in Hc as [->|Hc]; [reflexivity|]). by apply not_elem_of_nil in Hc. }
  unfold splitCaps. rewrite decide_False.
  - rewrite (split_Join ","%char) by done. clear Hne Hlack. induction Hl as [|c l Hc Hl IH]; [done|].
    rewrite fmap_cons. assert (TrimSpace c = c /\ c <> "") as [-> Hc0].
    { unfold allCapabilities in Hc. repeat (apply elem_of_cons in Hc as [->|Hc]; [done|]). by apply not_elem_of_nil in Hc. }
    rewrite filter_cons, decide_True by done. by rewrite IH.
  - destruct l as [|c l]; [done|]. apply Forall_cons in Hl as [Hc _]. destruct l as [|d l]; simpl.
    + intros ->. unfold allCapabilities in Hc. repeat (apply elem_of_cons in Hc as [Hc|Hc]; [done|]). by apply not_elem_of_nil in Hc.
    + intros H. apply (f_equal String.length) in H. rewrite !str_length_app in H. simpl in H. lia.
Qed.
Lemma granted_survive caps : Forall (fun c => c ∈ allCapabilities) caps -> splitCaps (Join (granted caps) ",") = granted caps.
Proof.
  intros H. unfold granted. case_decide as Hn; [by vm_compute|]. by apply known_caps_survive.
Qed.

(** What the comma-joined column of a grant is read back as: each capability asked for is taken apart at
    its commas and trimmed, and empty pieces are dropped. *)
Definition read_back (caps : list string) : list string :=
  filter (fun c => c <> "") (a ← caps; TrimSpace <$> split "," a).
Lemma split_Join_all l : l <> [] -> split "," (Join l ",") = (a ← l; split "," a).
Proof.
  induction l as [|a l IH]; [done|]. intros _. destruct l as [|b l]; [cbn; by rewrite app_nil_r|].
  change (Join (a :: b :: l) ",") with (a +:+ String "," (Join (b :: l) ",")). rewrite split_app_sep, IH by done. done.
Qed.
Lemma splitCaps_read_back l : l <> [] -> splitCaps (Join l ",") = read_back l.
Proof.
  intros Hl. assert (Heq : filter (fun p => p <> "") (TrimSpace <$> split "," (Join l ",")) = read_back l).
  { rewrite split_Join_all by done. unfold read_back. f_equal. clear Hl.
    induction l as [|a l IH]; [done|]. rewrite !bind_cons, fmap_app. by f_equal. }
  unfold splitCaps. case_decide as He; [|done]. rewrite <- Heq, He. by vm_compute.
Qed.

(** ** What a code is good for *)

Inductive node_op :=
  | NIssue (bytes : list Z) (fault : option error) (unique : error) (now : time) (tenant node : string) (caps : list string)
  | NRedeem (f : RedeemFaults) (now : time) (code : string).
Definition exec (o : node_op) (s : NodeStore) : NodeStore :=
  match o with
  | NIssue bytes fault unique now tenant node caps => (IssueCode bytes fault unique now tenant node caps s).1
  | NRedeem f now code => (Redeem f now code s).1
  end.
Definition run (ops : list node_op) : NodeStore := foldl (fun s o => exec o s) NewNodeStore ops.
(** The deletion of a redeemed code works. *)
Definition deletes (o : node_op) : Prop := match o with NRedeem f _ _ => rf_delete f = true | _ => True end.
(** A successful redemption of a code. *)
Definition redeems (o : node_op) (code : string) (s : NodeStore) : Prop :=
  match o with NRedeem f now c => TrimSpace c = code /\ exists p, (Redeem f now c s).2 = Ok p | _ => False end.
(** [row] is what an operator asked for when [code] was last given out, and it was not redeemed since. *)
Definition issued (ops : list node_op) (code : string) (row : PendingNode) : Prop :=
  exists ops1 bytes fault unique now caps ops2,
    let o := NIssue bytes fault unique now (pn_tenant row) (pn_node row) caps in
    ops = ops1 ++ o :: ops2 /\
    (IssueCode bytes fault unique now (pn_tenant row) (pn_node row) caps (run ops1)).2 = Ok code /\
    pn_capabilities row = Join (granted caps) "," /\
    forall mid o' rest, ops2 = mid ++ o' :: rest -> ~ redeems o' code (run (ops1 ++ o :: mid)).

Lemma run_snoc ops o : run (ops ++ [o]) = exec o (run ops).
Proof. unfold run. by rewrite foldl_app. Qed.
Lemma issued_snoc ops o code row : issued ops code row -> ~ redeems o code (run ops) -> issued (ops ++ [o]) code row.
Proof.
  intros (ops1 & bytes & fault & unique & now & caps & ops2 & -> & Hok & Hc & Hno) Hr.
  exists ops1, bytes, fault, unique, now, caps, (ops2 ++ [o]). split_and!; [by rewrite <-app_assoc|done|done|].
  intros mid o' rest Heq. destruct rest as [|r rest _] using rev_ind.
  - apply app_inj_tail in Heq as [<- <-]. done.
  - rewrite app_comm_cons, app_assoc in Heq. apply app_inj_tail in Heq as [-> _]. by eapply Hno.
Qed.

Lemma pending_issued ops : Forall deletes ops -> forall code row, node_pending (run ops) !! code = Some row -> issued ops code row.
Proof.
  induction ops as [|o ops IH] using rev_ind; intros Hd code row Hrow; [done|].
  apply Forall_app in Hd as [Hd Ho]. rewrite Forall_singleton in Ho. specialize (IH Hd code row). rewrite run_snoc in Hrow.
  destruct o as [bytes fault unique now tenant node caps|f now c]; cbn [exec] in Hrow.
  - assert (Hkeep : node_pending (run ops) !! code = Some row -> issued (ops ++ [NIssue bytes fault unique now tenant node caps]) code row).
    { intros H. apply issued_snoc; [by apply IH|]. by intros []. }
    destruct (IssueCode bytes fault unique now tenant node caps (run ops)) as [s' res] eqn:Hi. pose proof Hi as Hi0.
    unfold IssueCode in Hi. destruct (decide (tenant = "" \/ node = "")); [injection Hi as <- <-; by apply Hkeep|].
    destruct fault as [e|]; [injection Hi as <- <-; by apply Hkeep|].
    destruct (decide (is_Some (node_pending (run ops) !! node_code bytes))); injection Hi as <- <-; [by apply Hkeep|].
    cbn [fst node_pending] in Hrow. apply lookup_insert_Some in Hrow as [[<- <-]|[_ Hrow]]; [|by apply Hkeep].
    exists ops, bytes, None, unique, now, caps, []. cbn [pn_tenant pn_node pn_capabilities]. rewrite Hi0.
    split_and!; [done|done|done|]. intros [|] ? ?; discriminate.
  - unfold Redeem in Hrow. simpl in Ho. destruct (decide (TrimSpace c = "")) as [Hempty|Hne].
    { apply issued_snoc; [by apply IH|]. intros [_ [p Hp]]. unfold Redeem in Hp. by rewrite decide_True in Hp. }
    assert (Hkeep : (forall p, (Redeem f now c (run ops)).2 <> Ok p) -> node_pending (run ops) !! code = Some row ->
      issued (ops ++ [NRedeem f now c]) code row).
    { intros Hnone H. apply issued_snoc; [by apply IH|]. by intros [_ [p Hp]]; apply (Hnone p). }
    unfold Redeem in Hkeep. rewrite decide_False in Hkeep by done.
    destruct (rf_query f); [by apply Hkeep|]. destruct (node_pending (run ops) !! TrimSpace c) as [r|] eqn:Hr; [|by apply Hkeep].
    destruct (rf_insert f); [by apply Hkeep|]. cbn [fst node_pending] in Hrow. rewrite Ho in Hrow.
    apply lookup_delete_Some in Hrow as [Hcode Hrow]. apply issued_snoc; [by apply IH|]. by intros [? _].
Qed.

Lemma redeem_row f now code s s' p : Redeem f now code s = (s', Ok p) -> exists row, node_pending s !! TrimSpace code = Some row /\
  p = {| p_Tenant := pn_tenant row; p_Node := pn_node row; p_AllowedCaps := splitCaps (pn_capabilities row) |}.
Proof.
  unfold Redeem. case_decide; [done|]. destruct (rf_query f); [done|].
  destruct (node_pending s !! TrimSpace code) as [row|]; [|done]. destruct (rf_insert f); [done|]. intros [= _ <-]. eauto.
Qed.

(** C20 [safety]: a pairing code is worth exactly what an operator issued it for, once.  After any
    sequence of issued codes and redemptions, with any failures except those of deleting a
    redeemed code, a code that is redeemed was given out before for that very tenant and node,
    nobody redeemed it since, and the capabilities the node may use are the ones it was issued for
    as the store reads them back: each one taken apart at its commas and trimmed.  These are the ones
    asked for when all of them are known, and all capabilities when none were asked for; a name that is
    not known can hold a known one, as in x,camera, and then grants it. *)
Theorem code_single_use ops f now code s' p : Forall deletes ops -> Redeem f now code (run ops) = (s', Ok p) ->
  exists ops1 bytes fault unique now' caps ops2,
    let o := NIssue bytes fault unique now' (p_Tenant p) (p_Node p) caps in
    ops = ops1 ++ o :: ops2 /\
    (IssueCode bytes fault unique now' (p_Tenant p) (p_Node p) caps (run ops1)).2 = Ok (TrimSpace code) /\
    (forall mid o' rest, ops2 = mid ++ o' :: rest -> ~ redeems o' (TrimSpace code) (run (ops1 ++ o :: mid))) /\
    p_AllowedCaps p = read_back (granted caps) /\
    (Forall (fun c => c ∈ allCapabilities) caps -> p_AllowedCaps p = granted caps).
Proof.
  intros Hd Hr. apply redeem_row in Hr as (row & Hrow & ->).
  destruct (pending_issued ops Hd _ _ Hrow) as (ops1 & bytes & fault & unique & now' & caps & ops2 & Heq & Hok & Hcaps & Hno).
  exists ops1, bytes, fault, unique, now', caps, ops2. cbn [p_Tenant p_Node p_AllowedCaps]. rewrite Hcaps.
  split_and!; [done|done|done| |by apply granted_survive].
  apply splitCaps_read_back. unfold granted. by case_decide.
Qed.

(** ** What a connection can do *)

(** A frame written to a paired node: a pong, an error, or an acknowledgement of a capability the
    session has, with the session's own tenant and id. *)
Definition reply_for (sess : Session) (fr : Frame) : Prop :=
  fr = frame MsgPong \/ (f_Type fr = MsgError /\ f_Tenant fr = "" /\ f_Session fr = "") \/
  exists cap, cap ∈ s_Capabilities sess /\ fr = ack cap sess.
Lemma dispatch_reply sess f : exists fr, dispatch sess f = ([fr], true) /\ reply_for sess fr.
Proof.
  unfold dispatch, hasCap, reply_for. repeat case_decide; repeat case_bool_decide; eexists; (split; [reflexivity|]);
    try (by left); try (right; left; done); right; right; eexists; (split; [|reflexivity]); done.
Qed.
Lemma message_loop_replies sess reads : Forall (reply_for sess) (message_loop sess reads) /\
  (length (message_loop sess reads) <= length reads)%nat.
Proof.
  induction reads as [|[f|e] reads [IH1 IH2]]; cbn [message_loop]; [split; [constructor|done]| |split; [constructor|simpl; lia]].
  destruct (dispatch_reply sess f) as (fr & -> & Hfr). split; [by constructor|]. simpl. simpl in IH2. lia.
Qed.

(** C21 [safety]: the protocol fails closed.  A connection gets a session only when its first frame is a
    pair frame whose code is redeemed; the session's tenant and node are then those of the code,
    whatever the frames claim, and its capabilities are known ones that were both offered and
    granted.  Without a session nothing but errors without a tenant is written, at most one of
    them; with one, the welcome comes first and then at most one reply per frame read, and a reply
    that carries a tenant is the acknowledgement of a capability the session has. *)
Theorem node_fail_closed f now bytes welcomed reads s :
  let o := connection f now bytes welcomed reads s in
  match o_session o with
  | None => (length (o_frames o) <= 1)%nat /\ Forall (fun fr => f_Type fr = MsgError /\ f_Tenant fr = "") (o_frames o) /\
      sessions (o_live o) = sessions s
  | Some sess =>
      exists first rest offered n p, reads = Ok first :: rest /\ f_Type first = MsgPair /\
        Redeem f now (f_Code first) (nodes s) = (n, Ok p) /\ nodes (o_live o) = n /\
        s_Tenant sess = p_Tenant p /\ s_Node sess = p_Node p /\
        (forall c, c ∈ s_Capabilities sess <-> c ∈ allCapabilities /\ c ∈ offered /\ c ∈ p_AllowedCaps p) /\
        (offered = f_Capabilities first \/ exists hello rest', rest = Ok hello :: rest' /\ offered = f_Capabilities hello) /\
        (o_frames o = [] \/ exists replies, o_frames o = welcome sess :: replies /\
          Forall (reply_for sess) replies /\ (length replies <= length rest)%nat)
  end.
Proof.
  unfold connection. destruct reads as [|[first|e] rest]; [by repeat split; simpl; try lia; constructor| |by repeat split; simpl; try lia; constructor].
  unfold validatePairFrame. case_decide as Ht; [by repeat split; simpl; try lia; repeat constructor|].
  case_decide as Hc; [by repeat split; simpl; try lia; repeat constructor|].
  destruct (Redeem f now (f_Code first) (nodes s)) as [n [p|e]] eqn:Hr; [|by repeat split; simpl; try lia; repeat constructor].
  set (sess := fun offered => {| s_Tenant := p_Tenant p; s_Node := p_Node p; s_ID := "ns_" +:+ node_code bytes;
                                 s_Capabilities := negotiateCapabilities offered (p_AllowedCaps p) |}).
  case_decide as Hoff.
  - destruct rest as [|[hello|e] rest]; [by repeat split; simpl; try lia; constructor| |by repeat split; simpl; try lia; constructor].
    case_decide as Hh; [by repeat split; simpl; try lia; repeat constructor|].
    destruct (message_loop_replies (sess (f_Capabilities hello)) rest) as [H1 H2].
    destruct welcomed; cbn [o_session o_frames o_live]; exists first, (Ok hello :: rest), (f_Capabilities hello), n, p;
      (split_and!; [done|done|done|done|done|done|apply negotiate_spec|by right; eauto|]); [|by left].
    right. exists (message_loop (sess (f_Capabilities hello)) rest). split_and!; [done|done|simpl; simpl in H2; lia].
  - destruct (message_loop_replies (sess (f_Capabilities first)) rest) as [H1 H2].
    destruct welcomed; cbn [o_session o_frames o_live]; exists first, rest, (f_Capabilities first), n, p;
      (split_and!; [done|done|done|done|done|done|apply negotiate_spec|by left|]); [|by left].
    right. exists (message_loop (sess (f_Capabilities first)) rest). split_and!; [done|done|done].
Qed.

(** ** Examples *)

Definition all_work : RedeemFaults := {| rf_query := None; rf_insert := None; rf_delete := true |}.
Definition demo_bytes : list Z := [0; 1; 2; 3; 4; 5].
Definition demo_issue : list node_op := [NIssue demo_bytes None "" 0 "acme" "phone" [CapCanvas; CapVoice]].
Definition pair_frame (code : string) : Frame :=
  {| f_Type := MsgPair; f_Code := code; f_Node := "tablet"; f_Capabilities := [CapScreen; CapVoice]; f_Tenant := "other";
     f_Session := "ns_X"; f_Transcript := ""; f_Audio := ""; f_Canvas := ""; f_ErrorCode := ""; f_Message := ""; f_Ref := "" |}.

Lemma code_single_use_witness : exists s' p, Redeem all_work 0 " ABCDEF " (run demo_issue) = (s', Ok p) /\
  p_AllowedCaps p = [CapCanvas; CapVoice] /\
  exists ops1 bytes fault unique now' caps ops2,
    demo_issue = ops1 ++ NIssue bytes fault unique now' (p_Tenant p) (p_Node p) caps :: ops2.
Proof.
  do 2 eexists. split; [vm_compute; reflexivity|]. split; [reflexivity|].
  destruct (code_single_use demo_issue all_work 0 " ABCDEF " _ _ ltac:(repeat constructor) ltac:(vm_compute; reflexivity))
    as (ops1 & bytes & fault & unique & now' & caps & ops2 & Heq & _).
  exists ops1, bytes, fault, unique, now', caps, ops2. exact Heq.
Defined.

(** The tenant is the code's, not the frame's; only voice was both offered and granted; a canvas
    frame is refused and the connection goes on. *)
Example phone_session :
  let s := NewServer (run demo_issue) true in
  let o := connection all_work 0 demo_bytes true [Ok (pair_frame "ABCDEF"); Ok (frame MsgVoice); Ok (frame MsgCanvas); Ok (frame MsgPing)] s in
  (s_Tenant <$> o_session o) = Some "acme" /\ (s_Capabilities <$> o_session o) = Some [CapVoice] /\
  (f_Type <$> o_frames o) = [MsgWelcome; MsgAck; MsgError; MsgPong] /\
  node_pending (nodes (o_live o)) = ∅.
Proof. split_and!; by vm_compute. Qed.

(** A deletion that fails leaves the code usable: a second node pairs with it. *)
Example undeleted_code :
  let f := {| rf_query := None; rf_insert := None; rf_delete := false |} in
  let n := (Redeem f 0 "ABCDEF" (run demo_issue)).1 in
  exists p, (Redeem f 0 "ABCDEF" n).2 = Ok p.
Proof. eexists. by vm_compute. Qed.

(** An operator who asks for a name that is not known grants the camera with it. *)
Example comma_grants : let ops := [NIssue demo_bytes None "" 0 "acme" "phone" ["x,camera"; " voice"]] in
  exists p, (Redeem all_work 0 "ABCDEF" (run ops)).2 = Ok p /\ p_AllowedCaps p = ["x"; CapCamera; CapVoice].
Proof. eexists. split; by vm_compute. Qed.
