(* ===== verification/Sla.v ===== *)
(** * Sla: service level rules and their violations

    [src/modules/sla]: the monitor with its rules, the records it keeps per agent, the check that
    prunes them and reports violations, and the handlers.  The clock is an argument.  Against a
    monitor that never forgets a record, pruning loses nothing as long as the rules of an agent
    have one window; with two windows it does. *)
From S2P Require Import Prelude Float64.
Local Open Scope go_scope.
Local Open Scope Z_scope.

(** ** Data *)

(* [modules/sla/types.go:Rule] *)
Record Rule := {
  r_ID : string; r_Agent : string; r_Tenant : string; MaxResponseMs : Z; MaxErrorRate : float64; WindowMinutes : Z;
  NotifyChannels : list string; Enabled : bool;
}.
(* [modules/sla/types.go:Violation] *)
Record Violation := {
  v_ID : string; RuleID : string; v_Agent : string; v_Tenant : string; v_Type : string; Value : float64;
  Threshold : float64; v_Timestamp : time; Resolved : bool; ResolvedAt : time;
}.
(* [modules/sla/types.go:latencyRecord] *)
Record latencyRecord := { DurationMs : Z; Timestamp : time }.

(** Everything but the rules, the counter and the violations is per key. *)
Definition records A := gmap string (list A).
(* [modules/sla/module.go:Monitor] *)
Record Monitor := {
  rules : list Rule; violations : list Violation; latencies : gmap string (list latencyRecord); errors : gmap string (list time);
  counter : Z;
}.
(* [modules/sla/module.go:New] *)
Definition New : Monitor := {| rules := []; violations := []; latencies := ∅; errors := ∅; counter := 0 |}.
Definition get {A} (key : string) (m : gmap string (list A)) : list A := default [] (m !! key).

(** ** Operations *)

(* [modules/sla/module.go:Monitor.Health] *)
Definition Health (m : Monitor) : bool * string :=
  (true, itoa (Z.of_nat (length (filter (fun r => Enabled r = true) (rules m)))) +:+ " rules, " +:+
         itoa (Z.of_nat (length (violations m))) +:+ " violations").

Definition set_window (r : Rule) : Rule :=
  {| r_ID := r_ID r; r_Agent := r_Agent r; r_Tenant := r_Tenant r; MaxResponseMs := MaxResponseMs r;
     MaxErrorRate := MaxErrorRate r; WindowMinutes := if WindowMinutes r =? 0 then 5 else WindowMinutes r;
     NotifyChannels := NotifyChannels r; Enabled := Enabled r |}.
Definition set_id (id : string) (r : Rule) : Rule :=
  {| r_ID := id; r_Agent := r_Agent r; r_Tenant := r_Tenant r; MaxResponseMs := MaxResponseMs r;
     MaxErrorRate := MaxErrorRate r; WindowMinutes := WindowMinutes r; NotifyChannels := NotifyChannels r; Enabled := Enabled r |}.
(* [modules/sla/module.go:Monitor.AddRule] *)
Definition AddRule (rule : Rule) (m : Monitor) : Monitor :=
  let rule := set_window rule in
  let fresh := decide (r_ID rule = "") in
  let c := if fresh then wrap64 (counter m + 1) else counter m in
  {| rules := rules m ++ [if fresh then set_id ("sla_" +:+ itoa c) rule else rule]; violations := violations m;
     latencies := latencies m; errors := errors m; counter := c |}.

Definition key_of (tenant agent : string) : string := tenant +:+ "/" +:+ agent.
(* [modules/sla/module.go:Monitor.RecordResponse] *)
Definition RecordResponse (now : time) (agentName tenant : string) (durationMs : Z) (m : Monitor) : Monitor :=
  let key := key_of tenant agentName in
  {| rules := rules m; violations := violations m;
     latencies := <[key := get key (latencies m) ++ [{| DurationMs := durationMs; Timestamp := now |}]]> (latencies m);
     errors := errors m; counter := counter m |}.
(* [modules/sla/module.go:Monitor.RecordError] *)
Definition RecordError (now : time) (agentName tenant : string) (m : Monitor) : Monitor :=
  let key := key_of tenant agentName in
  {| rules := rules m; violations := violations m; latencies := latencies m;
     errors := <[key := get key (errors m) ++ [now]]> (errors m); counter := counter m |}.

Definition window_of (r : Rule) : duration := wrap64 (WindowMinutes r * Minute).
Definition rule_key (r : Rule) : string := key_of (r_Tenant r) (r_Agent r).
Definition recent_latencies (now : time) (window : duration) (l : list latencyRecord) : list latencyRecord :=
  filter (fun x => Sub now (Timestamp x) <= window) l.
Definition recent_times (now : time) (window : duration) (l : list time) : list time :=
  filter (fun t => Sub now t <= window) l.

Definition violation (c : Z) (r : Rule) (type : string) (value threshold : float64) (now : time) : Violation :=
  {| v_ID := "vio_" +:+ itoa c; RuleID := r_ID r; v_Agent := r_Agent r; v_Tenant := r_Tenant r; v_Type := type;
     Value := value; Threshold := threshold; v_Timestamp := now; Resolved := false; ResolvedAt := 0 |}.
(** The violation of the latency limit by the recent records, when there is one, and the counter. *)
(* [modules/sla/module.go:Monitor.Check@135-152] *)
Definition check_latency (now : time) (r : Rule) (recent : list latencyRecord) (c : Z) : Z * list Violation :=
  if decide (0 < MaxResponseMs r /\ recent <> []) then
    let totalMs := foldl (fun t x => wrap64 (t + DurationMs x)) 0 recent in
    let avgMs := Z.quot totalMs (Z.of_nat (length recent)) in
    if decide (MaxResponseMs r < avgMs) then
      let c := wrap64 (c + 1) in (c, [violation c r "latency" (of_int avgMs) (of_int (MaxResponseMs r)) now])
    else (c, [])
  else (c, []).
Definition error_rate (errs total : Z) : float64 := fmul (const errs total) (of_int 100).
(* [modules/sla/module.go:Monitor.Check@165-182] *)
Definition check_errors (now : time) (r : Rule) (calls errs : nat) (c : Z) : Z * list Violation :=
  let totalCalls := Z.of_nat calls + Z.of_nat errs in
  if decide (0 < totalCalls) then
    let errorRate := error_rate (Z.of_nat errs) totalCalls in
    if flt (MaxErrorRate r) errorRate then
      let c := wrap64 (c + 1) in (c, [violation c r "error_rate" errorRate (MaxErrorRate r) now])
    else (c, [])
  else (c, []).
(* [modules/sla/module.go:Monitor.Check@115-183] *)
Definition check_rule (now : time) (r : Rule) (m : Monitor) : Monitor * list Violation :=
  if negb (Enabled r) then (m, [])
  else
    let window := window_of r in
    let key := rule_key r in
    let recent := recent_latencies now window (get key (latencies m)) in
    let '(c, v1) := check_latency now r recent (counter m) in
    let lat := <[key := recent]> (latencies m) in
    if flt fzero (MaxErrorRate r) then
      let recentErrors := recent_times now window (get key (errors m)) in
      let '(c, v2) := check_errors now r (length recent) (length recentErrors) c in
      ({| rules := rules m; violations := violations m; latencies := lat;
          errors := <[key := recentErrors]> (errors m); counter := c |}, v1 ++ v2)
    else ({| rules := rules m; violations := violations m; latencies := lat; errors := errors m; counter := c |}, v1).
Fixpoint check_rules (now : time) (l : list Rule) (m : Monitor) : Monitor * list Violation :=
  match l with
  | [] => (m, [])
  | r :: l => let '(m, v1) := check_rule now r m in let '(m, v2) := check_rules now l m in (m, v1 ++ v2)
  end.
(* [modules/sla/module.go:Monitor.Check] *)
Definition Check (now : time) (m : Monitor) : Monitor * list Violation :=
  let '(m, v) := check_rules now (rules m) m in
  ({| rules := rules m; violations := violations m ++ v; latencies := latencies m; errors := errors m; counter := counter m |}, v).
(* [modules/sla/module.go:Monitor.Violations] *)
Definition Violations (m : Monitor) : list Violation := violations m.

(** ** Handlers *)

(** A payload: a string, a map with an optional tenant, a rule, or another value, by its type. *)
Inductive payload := PString (s : string) | PMap (tenant : option string) | PRule (r : Rule) | POther (type : string).
Definition go_type (p : payload) : string :=
  match p with PString _ => "string" | PMap _ => "map[string]string" | PRule _ => "sla.Rule" | POther t => t end.
(* [modules/sla/module.go:callerTenant] *)
Definition callerTenant (p : payload) : string :=
  match p with PString s => s | PMap t => default "" t | _ => "" end.
(* [modules/sla/module.go:Monitor.handleAddRule] *)
Definition handleAddRule (p : payload) (m : Monitor) : Monitor * Result string :=
  match p with PRule r => (AddRule r m, Ok "ok") | _ => (m, Err ("expected Rule, got " +:+ go_type p)) end.
(* [modules/sla/module.go:Monitor.handleListRules] *)
Definition handleListRules (p : payload) (m : Monitor) : list Rule :=
  let tenant := callerTenant p in
  if decide (tenant = "") then [] else filter (fun r => r_Tenant r = tenant) (rules m).
(** The first rule of that id is removed. *)
Fixpoint remove_rule (id : string) (l : list Rule) : option (list Rule) :=
  match l with
  | [] => None
  | r :: l => if decide (r_ID r = id) then Some l else (cons r) <$> remove_rule id l
  end.
(* [modules/sla/module.go:Monitor.handleRemoveRule] *)
Definition handleRemoveRule (p : payload) (m : Monitor) : Monitor * Result string :=
  let ruleID := match p with PString s => s | _ => "" end in
  match remove_rule ruleID (rules m) with
  | Some l => ({| rules := l; violations := violations m; latencies := latencies m; errors := errors m; counter := counter m |}, Ok "removed")
  | None => (m, Err ("rule " +:+ quote ruleID +:+ " not found"))
  end.
(* [modules/sla/module.go:Monitor.handleListViolations] *)
Definition handleListViolations (p : payload) (m : Monitor) : list Violation :=
  let tenant := callerTenant p in
  if decide (tenant = "") then [] else filter (fun v => v_Tenant v = tenant) (violations m).

(** ** A monitor that never forgets

    The same monitor, except that a check leaves every record where it is. *)
Definition ledger_rule (now : time) (r : Rule) (m : Monitor) : Monitor * list Violation :=
  if negb (Enabled r) then (m, [])
  else
    let recent := recent_latencies now (window_of r) (get (rule_key r) (latencies m)) in
    let recentErrors := recent_times now (window_of r) (get (rule_key r) (errors m)) in
    let '(c, v1) := check_latency now r recent (counter m) in
    let '(c, v2) := if flt fzero (MaxErrorRate r) then check_errors now r (length recent) (length recentErrors) c else (c, []) in
    ({| rules := rules m; violations := violations m; latencies := latencies m; errors := errors m; counter := c |}, v1 ++ v2).
Fixpoint ledger_rules (now : time) (l : list Rule) (m : Monitor) : Monitor * list Violation :=
  match l with
  | [] => (m, [])
  | r :: l => let '(m, v1) := ledger_rule now r m in let '(m, v2) := ledger_rules now l m in (m, v1 ++ v2)
  end.
Definition ledger_check (now : time) (m : Monitor) : Monitor * list Violation :=
  let '(m, v) := ledger_rules now (rules m) m in
  ({| rules := rules m; violations := violations m ++ v; latencies := latencies m; errors := errors m; counter := counter m |}, v).

Inductive op := OAdd (r : Rule) | ORemove (p : payload) | OResponse (now : time) (agent tenant : string) (ms : Z)
  | OError (now : time) (agent tenant : string) | OCheck (now : time).
Definition exec (check : time -> Monitor -> Monitor * list Violation) (o : op) (m : Monitor) : Monitor * list Violation :=
  match o with
  | OAdd r => (AddRule r m, [])
  | ORemove p => ((handleRemoveRule p m).1, [])
  | OResponse now agent tenant ms => (RecordResponse now agent tenant ms m, [])
  | OError now agent tenant => (RecordError now agent tenant m, [])
  | OCheck now => check now m
  end.
(** What the checks of a history report, in order. *)
Fixpoint reports (check : time -> Monitor -> Monitor * list Violation) (ops : list op) (m : Monitor) : list (list Violation) :=
  match ops with
  | [] => []
  | o :: ops => let '(m, v) := exec check o m in v :: reports check ops m
  end.
Definition op_time (o : op) : option time :=
  match o with OResponse now _ _ _ | OError now _ _ | OCheck now => Some now | _ => None end.
(** The clock does not run backwards. *)
Fixpoint in_order (t : time) (ops : list op) : Prop :=
  match ops with
  | [] => True
  | o :: ops => match op_time o with Some t' => t <= t' /\ in_order t' ops | None => in_order t ops end
  end.

Section Pruning.
(** The one window of the rules of each key. *)
Context (W : string -> duration).
Definition one_window (o : op) : Prop := match o with OAdd r => window_of (set_window r) = W (rule_key r) | _ => True end.

Definition agree {A} (f : time -> duration -> list A -> list A) (t : time) (m m' : gmap string (list A)) : Prop :=
  forall key now, t <= now -> f now (W key) (get key m) = f now (W key) (get key m').
Definition forgets (t : time) (m a : Monitor) : Prop :=
  rules m = rules a /\ violations m = violations a /\ counter m = counter a /\
  agree recent_latencies t (latencies m) (latencies a) /\ agree recent_times t (errors m) (errors a) /\
  Forall (fun r => window_of r = W (rule_key r)) (rules m).

Lemma get_insert {A} key key' (l : list A) m : get key' (<[key := l]> m) = if decide (key' = key) then l else get key' m.
Proof.
  unfold get. case_decide as H; [subst; by rewrite lookup_insert_eq|]. by rewrite lookup_insert_ne.
Qed.
Lemma Sub_mono t now now' : now <= now' -> Sub now t <= Sub now' t.
Proof. unfold Sub. lia. Qed.
(** Filtering for an earlier time first changes nothing. *)
Lemma filter_within {A} (f : A -> time) w now now' (l : list A) : now <= now' ->
  filter (fun x => Sub now' (f x) <= w) (filter (fun x => Sub now (f x) <= w) l) = filter (fun x => Sub now' (f x) <= w) l.
Proof.
  intros H. rewrite list_filter_filter. apply list_filter_iff. intros x. pose proof (Sub_mono (f x) now now' H). lia.
Qed.

Lemma agree_later {A} f t t' (m m' : gmap string (list A)) : agree f t m m' -> t <= t' -> agree f t' m m'.
Proof. intros H Ht key now Hn. apply H. lia. Qed.
Lemma agree_append {A} (f : time -> duration -> list A -> list A) t m m' key x :
  (forall now w l l', f now w (l ++ l') = f now w l ++ f now w l') -> agree f t m m' ->
  agree f t (<[key := get key m ++ [x]]> m) (<[key := get key m' ++ [x]]> m').
Proof.
  intros Happ H key' now Hn. rewrite !get_insert. case_decide as Hk; [subst|by apply H]. rewrite !Happ. by rewrite H.
Qed.
Lemma agree_prune {A} (f : time -> duration -> list A -> list A) t m m' key :
  (forall now now' w l, now <= now' -> f now' w (f now w l) = f now' w l) -> agree f t m m' ->
  agree f t (<[key := f t (W key) (get key m)]> m) m'.
Proof.
  intros Hf H key' now Hn. rewrite get_insert. case_decide as Hk; [subst; rewrite Hf by done|]; by apply H.
Qed.
Lemma latencies_within now now' w l : now <= now' -> recent_latencies now' w (recent_latencies now w l) = recent_latencies now' w l.
Proof. apply (filter_within Timestamp). Qed.
Lemma times_within now now' w l : now <= now' -> recent_times now' w (recent_times now w l) = recent_times now' w l.
Proof. apply (filter_within id). Qed.

(** One rule is checked alike, and the records stay in agreement. *)
Lemma check_rule_alike t r m a m' v : window_of r = W (rule_key r) -> forgets t m a -> check_rule t r m = (m', v) ->
  exists a', ledger_rule t r a = (a', v) /\ forgets t m' a' /\ rules m' = rules m.
Proof.
  intros Hw (Hr & Hv & Hc & Hl & He & Hrs). unfold check_rule, ledger_rule.
  destruct (negb (Enabled r)); [intros [= <- <-]; exists a; by split_and!|]. rewrite Hw.
  rewrite <-(Hl (rule_key r) t), <-(He (rule_key r) t), <-Hc by done.
  destruct (check_latency t r _ (counter m)) as [c v1].
  pose proof (agree_prune recent_latencies t _ _ (rule_key r) latencies_within Hl) as Hl'.
  destruct (flt fzero (MaxErrorRate r)).
  - pose proof (agree_prune recent_times t _ _ (rule_key r) times_within He) as He'.
    destruct (check_errors _ _ _ _ _) as [c' v2]. intros [= <- <-]. eexists. split; [done|]. by split_and!.
  - intros [= <- <-]. eexists. rewrite app_nil_r. split; [done|]. by split_and!.
Qed.
Lemma check_rules_alike t l : Forall (fun r => window_of r = W (rule_key r)) l -> forall m a m' v,
  forgets t m a -> check_rules t l m = (m', v) ->
  exists a', ledger_rules t l a = (a', v) /\ forgets t m' a' /\ rules m' = rules m.
Proof.
  induction 1 as [|r l Hr _ IH]; intros m a m' v Hf; cbn [check_rules ledger_rules].
  - intros [= <- <-]. by exists a.
  - destruct (check_rule t r m) as [m1 v1] eqn:H1. destruct (check_rules t l m1) as [m2 v2] eqn:H2. intros [= <- <-].
    destruct (check_rule_alike t r m a m1 v1 Hr Hf H1) as (a1 & -> & Hf1 & Hr1).
    destruct (IH m1 a1 m2 v2 Hf1 H2) as (a2 & -> & Hf2 & Hr2). exists a2. split_and!; [done|done|congruence].
Qed.
Lemma forgets_later t t' m a : t <= t' -> forgets t m a -> forgets t' m a.
Proof. intros Ht (? & ? & ? & Hl & He & ?). split_and!; try done; by eapply agree_later. Qed.
Lemma remove_rule_elem id l l' : remove_rule id l = Some l' -> forall r, r ∈ l' -> r ∈ l.
Proof.
  revert l'. induction l as [|r l IH]; intros l'; [done|]. cbn [remove_rule]. case_decide.
  - intros [= <-] r' ?. by right.
  - intros (l1 & Hl1 & ->)%fmap_Some r' [->|Hin]%elem_of_cons; [by left|right; by eapply IH].
Qed.

Lemma exec_alike t o m a m' v : one_window o -> match op_time o with Some t' => t' = t | None => True end -> forgets t m a ->
  exec Check o m = (m', v) -> exists a', exec ledger_check o a = (a', v) /\ forgets t m' a'.
Proof.
  intros Ho Ht Hf. destruct o as [r|p|now agent tenant ms|now agent tenant|now]; simpl in Ht; cbn [exec].
  - intros [= <- <-]. destruct Hf as (Hr & Hv & Hc & Hl & He & Hrs). eexists. split; [done|].
    unfold AddRule. rewrite <-Hr, <-Hv, <-Hc. split_and!; try done. simpl. apply Forall_app. split; [done|].
    apply Forall_singleton. simpl in Ho. by case_decide.
  - intros [= <- <-]. destruct Hf as (Hr & Hv & Hc & Hl & He & Hrs). eexists. split; [done|].
    unfold handleRemoveRule. rewrite <-Hr. destruct (remove_rule _ (rules m)) as [l|] eqn:E; [|by split_and!].
    simpl. rewrite <-Hv, <-Hc. split_and!; try done. simpl. pose proof (remove_rule_elem _ _ _ E) as Hsub.
    rewrite Forall_forall in Hrs |- *. intros r Hr'. by apply Hrs, Hsub.
  - subst now. intros [= <- <-]. destruct Hf as (Hr & Hv & Hc & Hl & He & Hrs). eexists. split; [done|].
    split_and!; try done. simpl. apply agree_append; [|done]. intros. apply filter_app.
  - subst now. intros [= <- <-]. destruct Hf as (Hr & Hv & Hc & Hl & He & Hrs). eexists. split; [done|].
    split_and!; try done. simpl. apply agree_append; [|done]. intros. apply filter_app.
  - subst now. unfold Check, ledger_check. destruct (check_rules t (rules m) m) as [m1 v1] eqn:H1. intros [= <- <-].
    pose proof Hf as (Hr & _ & _ & _ & _ & Hrs).
    destruct (check_rules_alike t (rules m) Hrs m a m1 v1 Hf H1) as (a1 & Ha & (H2 & Hv & ? & ? & ? & ?) & _).
    rewrite <-Hr, Ha. eexists. split; [done|]. split_and!; try done. simpl. by rewrite Hv.
Qed.

(** C34 [equivalence]: pruning loses nothing.  A monitor whose checks drop the records outside the window
    reports, check by check, exactly what a monitor that keeps every record ever made reports, for
    any history of rules added and removed, responses, errors and checks in which the clock does
    not run backwards and all rules of an agent have one window. *)
Theorem pruning_loses_nothing ops t : in_order t ops -> Forall one_window ops ->
  reports Check ops New = reports ledger_check ops New.
Proof.
  assert (H : forall m a, forgets t m a -> in_order t ops -> Forall one_window ops ->
    reports Check ops m = reports ledger_check ops a).
  { revert t. induction ops as [|o ops IH]; intros t m a Hf Hord Hw; [done|]. apply Forall_cons in Hw as [Ho Hw].
    cbn [reports in_order] in *. set (t' := default t (op_time o)).
    assert (Hle : t <= t' /\ in_order t' ops) by (unfold t'; destruct (op_time o); simpl; [done|split; [lia|done]]).
    destruct Hle as [Hle Hord']. destruct (exec Check o m) as [m' v] eqn:He.
    destruct (exec_alike t' o m a m' v Ho) as (a' & -> & Hf'); [|by eapply forgets_later|done|].
    - unfold t'. by destruct (op_time o).
    - f_equal. by eapply IH. }
  apply H. split_and!; try done.
Qed.
End Pruning.

(** ** Examples *)

Definition demo_rule (id : string) (minutes : Z) : Rule :=
  {| r_ID := id; r_Agent := "ann"; r_Tenant := "acme"; MaxResponseMs := 100; MaxErrorRate := fzero; WindowMinutes := minutes;
     NotifyChannels := []; Enabled := true |}.
(** A slow response, seen by a check eight minutes later and by one after an hour. *)
Definition demo_history (ops : list op) : list op :=
  ops ++ [OResponse 0 "ann" "acme" 500; OCheck (8 * Minute); OCheck (60 * Minute)].
Lemma pruning_loses_nothing_witness :
  reports Check (demo_history [OAdd (demo_rule "a" 10)]) New = reports ledger_check (demo_history [OAdd (demo_rule "a" 10)]) New /\
  (length <$> reports Check (demo_history [OAdd (demo_rule "a" 10)]) New) = [0; 0; 1; 0]%nat.
Proof.
  split; [|reflexivity]. apply (pruning_loses_nothing (fun _ => 10 * Minute) _ 0).
  - repeat split; unfold Minute; lia.
  - repeat constructor.
Defined.

(** With two windows the order of the rules decides: a rule of five minutes in front drops the record
    the rule of ten minutes needed. *)
Example windows_interfere :
  let long_first := demo_history [OAdd (demo_rule "long" 10); OAdd (demo_rule "short" 5)] in
  let short_first := demo_history [OAdd (demo_rule "short" 5); OAdd (demo_rule "long" 10)] in
  (length <$> reports Check long_first New) = [0; 0; 0; 1; 0]%nat /\
  (length <$> reports Check short_first New) = [0; 0; 0; 0; 0]%nat /\
  (length <$> reports ledger_check short_first New) = [0; 0; 0; 1; 0]%nat.
Proof. split_and!; reflexivity. Qed.
