(* ===== verification/Config.v ===== *)
(** * Config: the configuration, its store and its migrations

    [src/kernel/config]: schema.go, store.go, migrate.go.  The YAML codec and the file system are
    arguments; a listener is known by its name, and a reload says which are called and with what. *)
From S2P Require Import Prelude GoStr.
Local Open Scope go_scope.

(* [kernel/config/schema.go:ShellExecPolicyConfig] *)
Record ShellExecPolicyConfig := { sh_Tenant : string; Backend : string; Image : string; sh_Timeout : duration }.
(* [kernel/config/schema.go:ListenConfig] *)
Record ListenConfig := { Address : string; WebUI : string }.
(* [kernel/config/schema.go:CgroupConfig] *)
Record CgroupConfig := { MemoryLimit : string; CPUShares : Z }.
(* [kernel/config/schema.go:TenantConfig] *)
Record TenantConfig := { Isolation : string; Cgroup : CgroupConfig; Policy : string }.
(* [kernel/config/schema.go:AuthConfig] *)
Record AuthConfig := { Provider : string; Issuer : string; ClientID : string }.
(* [kernel/config/schema.go:AuditConfig] *)
Record AuditConfig := { StoragePath : string; Retention : string }.
(* [kernel/config/schema.go:PeerConfig] *)
Record PeerConfig := { p_Name : string; Endpoint : string; Fingerprint : string }.
(* [kernel/config/schema.go:FederationConfig] *)
Record FederationConfig := { f_Enabled : bool; Peers : list PeerConfig }.
(* [kernel/config/schema.go:CyntrConfig] *)
Record CyntrConfig := {
  Version : string; Listen : ListenConfig; Tenants : gmap string TenantConfig; Auth : AuthConfig; Audit : AuditConfig;
  Federation : FederationConfig; ShellExecPolicies : list ShellExecPolicyConfig; Packs : gmap string bool;
}.
Definition with_audit (version : string) (a : AuditConfig) (c : CyntrConfig) : CyntrConfig :=
  {| Version := version; Listen := Listen c; Tenants := Tenants c; Auth := Auth c; Audit := a; Federation := Federation c;
     ShellExecPolicies := ShellExecPolicies c; Packs := Packs c |}.

#[local] Instance ShellExecPolicyConfig_eq_dec : EqDecision ShellExecPolicyConfig := ltac:(solve_decision).
#[local] Instance ListenConfig_eq_dec : EqDecision ListenConfig := ltac:(solve_decision).
#[local] Instance CgroupConfig_eq_dec : EqDecision CgroupConfig := ltac:(solve_decision).
#[local] Instance TenantConfig_eq_dec : EqDecision TenantConfig := ltac:(solve_decision).
#[local] Instance AuthConfig_eq_dec : EqDecision AuthConfig := ltac:(solve_decision).
#[local] Instance AuditConfig_eq_dec : EqDecision AuditConfig := ltac:(solve_decision).
#[local] Instance PeerConfig_eq_dec : EqDecision PeerConfig := ltac:(solve_decision).
#[local] Instance FederationConfig_eq_dec : EqDecision FederationConfig := ltac:(solve_decision).
#[local] Instance CyntrConfig_eq_dec : EqDecision CyntrConfig := ltac:(solve_decision).

(* [kernel/config/store.go:DefaultConfig] *)
Definition DefaultConfig : CyntrConfig :=
  {| Version := "1"; Listen := {| Address := "127.0.0.1:8080"; WebUI := ":7700" |}; Tenants := ∅;
     Auth := {| Provider := ""; Issuer := ""; ClientID := "" |}; Audit := {| StoragePath := ""; Retention := "" |};
     Federation := {| f_Enabled := false; Peers := [] |}; ShellExecPolicies := []; Packs := ∅ |}.

(** ** Migrations *)

(* [kernel/config/migrate.go:Migration] *)
Record Migration := { FromVersion : string; ToVersion : string; migrate : CyntrConfig -> Result CyntrConfig }.
(* [kernel/config/migrate.go:Migrator.registerMigrations@30-44] *)
Definition migrate_1_2 : Migration :=
  {| FromVersion := "1"; ToVersion := "2";
     migrate := fun c => Ok (with_audit "2"
       {| StoragePath := if decide (StoragePath (Audit c) = "") then "~/.cyntr/audit" else StoragePath (Audit c);
          Retention := if decide (Retention (Audit c) = "") then "365d" else Retention (Audit c) |} c) |}.
(* [kernel/config/migrate.go:NewMigrator] *)
Definition NewMigrator : list Migration := [migrate_1_2].
(* [kernel/config/migrate.go:Migrator.NeedsMigration] *)
Definition NeedsMigration (c : CyntrConfig) (target : string) : bool := bool_decide (Version c <> target).
(** The configuration is changed in place: a failure leaves what the steps before it made of it. *)
(* [kernel/config/migrate.go:Migrator.Migrate] *)
Fixpoint Migrate (ms : list Migration) (target : string) (c : CyntrConfig) : CyntrConfig * option error :=
  match ms with
  | [] => (c, if decide (Version c <> target) then
                Some ("no migration path from version " +:+ quote (Version c) +:+ " to " +:+ quote target) else None)
  | mig :: ms =>
      if decide (Version c = FromVersion mig) then
        match migrate mig c with
        | Err e => (c, Some ("migration " +:+ FromVersion mig +:+ "->" +:+ ToVersion mig +:+ ": " +:+ e))
        | Ok c => if decide (Version c = target) then (c, None) else Migrate ms target c
        end
      else if decide (Version c = target) then (c, None) else Migrate ms target c
  end.

(** ** The store and the file *)

(** A disk is a map from paths to texts. *)
Notation disk := (gmap string string).
(* [kernel/config/store.go:Store] *)
Record Store := { path : string; config : CyntrConfig; listeners : list string }.

Section Codec.
Context (Unmarshal : string -> Result CyntrConfig) (Marshal : CyntrConfig -> Result string).

Definition read (prefix : string) (d : disk) (file : string) : Result string :=
  match d !! file with Some text => Ok text | None => Err (prefix +:+ "open " +:+ file +:+ ": no such file or directory") end.
Definition parse (prefix text : string) : Result CyntrConfig :=
  match Unmarshal text with Ok c => Ok c | Err e => Err (prefix +:+ e) end.
(* [kernel/config/store.go:Load] *)
Definition Load (d : disk) (file : string) : Result Store :=
  text <-? read ("read config " +:+ file +:+ ": ") d file ;;
  c <-? parse ("parse config " +:+ file +:+ ": ") text ;;
  Ok {| path := file; config := c; listeners := [] |}.
(* [kernel/config/store.go:Store.Get] *)
Definition Get (s : Store) : CyntrConfig := config s.
(* [kernel/config/store.go:Store.OnChange] *)
Definition OnChange (fn : string) (s : Store) : Store :=
  {| path := path s; config := config s; listeners := listeners s ++ [fn] |}.
(* [kernel/config/store.go:Store.Reload] *)
Definition Reload (d : disk) (s : Store) : Store * Result (list (string * CyntrConfig)) :=
  match (text <-? read "read config: " d (path s) ;; parse "parse config: " text) with
  | Err e => (s, Err e)
  | Ok c => ({| path := path s; config := c; listeners := listeners s |}, Ok ((fun fn => (fn, c)) <$> listeners s))
  end.
(** [fault]: the error of writing the file, when it fails. *)
(* [kernel/config/migrate.go:Migrator.MigrateFile] *)
Definition MigrateFile (fault : option error) (ms : list Migration) (file target : string) (d : disk) : disk * option error :=
  match (text <-? read "read: " d file ;; parse "parse: " text) with
  | Err e => (d, Some e)
  | Ok c =>
      if negb (NeedsMigration c target) then (d, None)
      else
        match Migrate ms target c with
        | (_, Some e) => (d, Some e)
        | (c, None) =>
            match Marshal c with
            | Err e => (d, Some ("marshal: " +:+ e))
            | Ok output => match fault with Some e => (d, Some e) | None => (<[file := output]> d, None) end
            end
        end
  end.

(** ** What a migration keeps *)

(** Everything but the version and the audit section. *)
Definition same_service (c c' : CyntrConfig) : Prop :=
  Listen c' = Listen c /\ Tenants c' = Tenants c /\ Auth c' = Auth c /\ Federation c' = Federation c /\
  ShellExecPolicies c' = ShellExecPolicies c /\ Packs c' = Packs c /\
  (StoragePath (Audit c) <> "" -> StoragePath (Audit c') = StoragePath (Audit c)) /\
  (Retention (Audit c) <> "" -> Retention (Audit c') = Retention (Audit c)).
#[local] Instance same_service_refl : Reflexive same_service.
Proof. by intros c. Qed.

Lemma Migrate_registered target c c' : Migrate NewMigrator target c = (c', None) ->
  Version c' = target /\ same_service c c'.
Proof.
  simpl. destruct (decide (Version c = "1")) as [Hv|Hv]; simpl; repeat case_decide; try (intros [=<-]); try done; simpl in *; try done.
  all: split; [done|]; split_and!; try done; simpl; intros; by rewrite decide_False.
Qed.

Context (codec : forall c text, Marshal c = Ok text -> Unmarshal text = Ok c).
Context (file target : string).

(** A migration that reports success leaves a file that parses to a configuration of
    the target version with the tenants, listeners, peers, policies, packs and any audit setting it
    had; migrating again changes nothing, and a migration that reports an error has left the disk as
    it was. *)
Lemma migrate_file_safe fault d d' e : MigrateFile fault NewMigrator file target d = (d', e) ->
  match e with
  | Some _ => d' = d
  | None => exists c c' text, d' !! file = Some text /\ Unmarshal text = Ok c' /\ Version c' = target /\
      (exists old, d !! file = Some old /\ Unmarshal old = Ok c) /\ same_service c c' /\
      (forall other, other <> file -> d' !! other = d !! other) /\
      forall fault', MigrateFile fault' NewMigrator file target d' = (d', None)
  end.
Proof.
  unfold MigrateFile at 1, read, parse. destruct (d !! file) as [old|] eqn:Hold; cbn [rbind]; [|by intros [= <- <-]].
  destruct (Unmarshal old) as [c|e0] eqn:Hp; cbn [rbind]; [|by intros [= <- <-]].
  unfold NeedsMigration. case_bool_decide as Hv; cbn [negb].
  - destruct (Migrate NewMigrator target c) as [c' o] eqn:Hm. destruct o as [e1|]; [by intros [= <- <-]|].
    destruct (Marshal c') as [text|e1] eqn:Ht; [|by intros [= <- <-]]. destruct fault; [by intros [= <- <-]|].
    intros [= <- <-]. apply Migrate_registered in Hm as [Hv' Hs]. apply codec in Ht.
    exists c, c', text. rewrite lookup_insert_eq. split_and!; eauto.
    + intros. by rewrite lookup_insert_ne.
    + intros. unfold MigrateFile, read, parse. rewrite lookup_insert_eq. simpl. rewrite Ht. simpl.
      unfold NeedsMigration. by rewrite bool_decide_eq_false_2 by naive_solver.
  - intros [= <- <-]. exists c, c, old. split_and!; try done; [by eexists|].
    intros. unfold MigrateFile, read, parse. rewrite Hold. simpl. rewrite Hp. simpl.
    unfold NeedsMigration. rewrite bool_decide_eq_false_2; [done|naive_solver].
Qed.
End Codec.

(** A codec that knows the default configuration before and after its migration. *)
Definition demo_Unmarshal (text : string) : Result CyntrConfig :=
  if decide (text = "v1") then Ok DefaultConfig
  else if decide (text = "v2") then Ok (Migrate NewMigrator "2" DefaultConfig).1 else Err "yaml".
Definition demo_Marshal (c : CyntrConfig) : Result string :=
  if decide (c = (Migrate NewMigrator "2" DefaultConfig).1) then Ok "v2" else Err "yaml".
Lemma migrate_file_safe_witness :
  let d := {["cyntr.yaml" := "v1"; "other" := "x"]} : disk in
  (exists d', MigrateFile demo_Unmarshal demo_Marshal None NewMigrator "cyntr.yaml" "2" d = (d', None) /\ d' !! "cyntr.yaml" = Some "v2" /\
    exists c c' text, d' !! "cyntr.yaml" = Some text /\ demo_Unmarshal text = Ok c' /\ Version c' = "2" /\
      (exists old, d !! "cyntr.yaml" = Some old /\ demo_Unmarshal old = Ok c) /\ same_service c c' /\
      (forall other, other <> "cyntr.yaml" -> d' !! other = d !! other) /\
      forall fault', MigrateFile demo_Unmarshal demo_Marshal fault' NewMigrator "cyntr.yaml" "2" d' = (d', None)).
Proof.
  intros d. eexists. split; [reflexivity|]. split; [reflexivity|].
  refine (migrate_file_safe demo_Unmarshal demo_Marshal _ "cyntr.yaml" "2" None d _ None _); [|reflexivity].
  intros c text. unfold demo_Marshal. case_decide as Hc; [|done]. intros [= <-]. by rewrite Hc.
Defined.

(** A version without a migration is refused and the file stays as it is. *)
Example unknown_version :
  MigrateFile demo_Unmarshal demo_Marshal None NewMigrator "cyntr.yaml" "3" {["cyntr.yaml" := "v1"]} =
  ({["cyntr.yaml" := "v1"]}, Some ("no migration path from version " +:+ quote "2" +:+ " to " +:+ quote "3")).
Proof. reflexivity. Qed.
