(* ===== verification/Tenants.v ===== *)
(** * Tenants: the tenant registry, supervised processes and container sandboxes

    [src/tenant]: tenant.go, process.go, docker.go.  What the operating system does with a command is
    an argument; a supervised process is known by the identifiers the supervisor keeps. *)
From S2P Require Import Prelude GoStr GoText.
From S2P Require Config.
Local Open Scope go_scope.

(** ** The registry *)

(* [tenant/tenant.go:IsolationMode] *)
Inductive IsolationMode := IsolationNamespace | IsolationProcess | IsolationOther (z : Z).
(* [tenant/tenant.go:IsolationMode.String] *)
Definition IsolationString (m : IsolationMode) : string :=
  match m with IsolationNamespace => "namespace" | IsolationProcess => "process" | IsolationOther z => "unknown(" +:+ itoa z +:+ ")" end.
(* [tenant/tenant.go:parseIsolation] *)
Definition parseIsolation (s : string) : Result IsolationMode :=
  if decide (s = "namespace" \/ s = "") then Ok IsolationNamespace
  else if decide (s = "process") then Ok IsolationProcess else Err ("invalid isolation mode " +:+ quote s).
(* [tenant/tenant.go:Tenant] *)
Record Tenant := { Name : string; Isolation : IsolationMode; Policy : string }.
Notation Manager := (gmap string Tenant).

(** A map's entries are visited in any order, [l] being one. *)
Fixpoint add_tenants (l : list (string * Config.TenantConfig)) (m : Manager) : Result Manager :=
  match l with
  | [] => Ok m
  | (name, tc) :: l =>
      match parseIsolation (Config.Isolation tc) with
      | Err e => Err ("tenant " +:+ quote name +:+ ": " +:+ e)
      | Ok mode => add_tenants l (<[name := {| Name := name; Isolation := mode; Policy := Config.Policy tc |}]> m)
      end
  end.
(* [tenant/tenant.go:NewManager] *)
Definition NewManager (l : list (string * Config.TenantConfig)) : Result Manager := add_tenants l ∅.
(* [tenant/tenant.go:Manager.Get] *)
Definition Get (name : string) (m : Manager) : option Tenant := m !! name.
(* [tenant/tenant.go:Manager.List] *)
Definition List_ (m : Manager) : list string := sort_strings (map_to_list m).*1.
(* [tenant/tenant.go:Manager.Create] *)
Definition Create (name : string) (isolation : IsolationMode) (policy : string) (m : Manager) : Manager * option error :=
  match m !! name with
  | Some _ => (m, Some ("tenant " +:+ quote name +:+ " already exists"))
  | None => (<[name := {| Name := name; Isolation := isolation; Policy := policy |}]> m, None)
  end.
(* [tenant/tenant.go:Manager.Delete] *)
Definition Delete (name : string) (m : Manager) : Manager * option error :=
  match m !! name with
  | None => (m, Some ("tenant " +:+ quote name +:+ " not found"))
  | Some _ => (delete name m, None)
  end.

(** *** The registry of a configuration *)

Definition tenant_of (name : string) (tc : Config.TenantConfig) : option Tenant :=
  match parseIsolation (Config.Isolation tc) with
  | Ok mode => Some {| Name := name; Isolation := mode; Policy := Config.Policy tc |} | Err _ => None end.
Lemma add_tenants_spec l m : NoDup l.*1 ->
  match add_tenants l m with
  | Ok m' => forall name, m' !! name = match list_to_map (M := gmap string _) l !! name with
                                       | Some tc => tenant_of name tc | None => m !! name end
  | Err _ => exists name tc, (name, tc) ∈ l /\ tenant_of name tc = None
  end.
Proof.
  revert m. induction l as [|[name tc] l IH]; intros m; simpl; [done|]. intros [Hn Hl]%NoDup_cons.
  destruct (parseIsolation _) as [mode|e] eqn:Hp; [|exists name, tc; unfold tenant_of; rewrite Hp; split; [left|done]].
  specialize (IH (<[name := {| Name := name; Isolation := mode; Policy := Config.Policy tc |}]> m) Hl).
  destruct (add_tenants l _) as [m'|e].
  - intros k. rewrite IH. destruct (decide (k = name)) as [->|Hk].
    + rewrite not_elem_of_list_to_map_1 by done. rewrite !lookup_insert_eq. unfold tenant_of. by rewrite Hp.
    + rewrite !lookup_insert_ne by done. done.
  - destruct IH as (k & t & Hin & Ht). exists k, t. split; [by right|done].
Qed.
(** Whatever the order, the registry of a configuration is refused exactly when some isolation mode is
    invalid, and otherwise holds every tenant with the mode its configuration names. *)
Lemma NewManager_spec (cfg : gmap string Config.TenantConfig) l : l ≡ₚ map_to_list cfg ->
  match NewManager l with
  | Ok m => forall name, Get name m = cfg !! name ≫= tenant_of name
  | Err _ => exists name tc, cfg !! name = Some tc /\ tenant_of name tc = None
  end.
Proof.
  intros Hl. pose proof (NoDup_fst_map_to_list cfg) as Hn. rewrite <-Hl in Hn.
  pose proof (add_tenants_spec l ∅ Hn) as H. unfold NewManager. destruct (add_tenants l ∅) as [m|e].
  - intros name. unfold Get. rewrite H, (list_to_map_proper l (map_to_list cfg) Hn Hl), list_to_map_to_list.
    by destruct (cfg !! name).
  - destruct H as (name & tc & Hin & Ht). exists name, tc. split; [|done]. apply elem_of_map_to_list. by rewrite <-Hl.
Qed.

(** ** Supervised processes *)

(* [tenant/process.go:ProcessState] *)
Inductive ProcessState := ProcessRunning | ProcessStopped | ProcessFailed | ProcessOther (z : Z).
#[export] Instance ProcessState_eq_dec : EqDecision ProcessState := ltac:(solve_decision).
(* [tenant/process.go:ProcessState.String] *)
Definition ProcessString (s : ProcessState) : string :=
  match s with
  | ProcessRunning => "running" | ProcessStopped => "stopped" | ProcessFailed => "failed"
  | ProcessOther z => "unknown(" +:+ itoa z +:+ ")"
  end.
(* [tenant/process.go:SupervisedProcess] *)
Record SupervisedProcess := { ID : string; p_Tenant : string; State : ProcessState; PID : Z }.
Notation ProcessSupervisor := (gmap string SupervisedProcess).
Definition with_state (s : ProcessState) (p : SupervisedProcess) : SupervisedProcess :=
  {| ID := ID p; p_Tenant := p_Tenant p; State := s; PID := PID p |}.

(** [started]: the process id, or why the command does not start. *)
(* [tenant/process.go:ProcessSupervisor.Spawn] *)
Definition Spawn (id tenant : string) (started : Result Z) (ps : ProcessSupervisor) : ProcessSupervisor * Result SupervisedProcess :=
  match ps !! id with
  | Some _ => (ps, Err ("process " +:+ quote id +:+ " already exists"))
  | None =>
      match started with
      | Err e => (ps, Err ("spawn process: " +:+ e))
      | Ok pid => let p := {| ID := id; p_Tenant := tenant; State := ProcessRunning; PID := pid |} in (<[id := p]> ps, Ok p)
      end
  end.
(** The goroutine that waits for a command. *)
(* [tenant/process.go:ProcessSupervisor.Spawn@80-87] *)
Definition exited (id : string) (ps : ProcessSupervisor) : ProcessSupervisor := alter (with_state ProcessStopped) id ps.
(* [tenant/process.go:ProcessSupervisor.Stop] *)
Definition Stop (id : string) (ps : ProcessSupervisor) : ProcessSupervisor * option error :=
  match ps !! id with
  | None => (ps, Some ("process " +:+ quote id +:+ " not found"))
  | Some p => (<[id := with_state ProcessStopped p]> ps, None)
  end.
(* [tenant/process.go:ProcessSupervisor.List] *)
Definition ListProcesses (tenant : string) (ps : ProcessSupervisor) : list SupervisedProcess :=
  filter (fun p => p_Tenant p = tenant) (map_to_list ps).*2.
(* [tenant/process.go:ProcessSupervisor.ListAll] *)
Definition ListAll (ps : ProcessSupervisor) : list SupervisedProcess := (map_to_list ps).*2.
(* [tenant/process.go:ProcessSupervisor.StopAll] *)
Definition StopAll (ps : ProcessSupervisor) : ProcessSupervisor :=
  foldl (fun ps id => (Stop id ps).1) ps (map_to_list ps).*1.
(* [tenant/process.go:ProcessSupervisor.HealthCheck] *)
Definition HealthCheck (id : string) (ps : ProcessSupervisor) : ProcessState * option error :=
  match ps !! id with
  | None => (ProcessFailed, Some ("process " +:+ quote id +:+ " not found"))
  | Some p => (State p, None)
  end.

(** What can happen to a supervisor. *)
Inductive event := ESpawn (id tenant : string) (started : Result Z) | EExit (id : string) | EStop (id : string) | EStopAll.
Definition happen (e : event) (ps : ProcessSupervisor) : ProcessSupervisor :=
  match e with
  | ESpawn id tenant started => (Spawn id tenant started ps).1 | EExit id => exited id ps
  | EStop id => (Stop id ps).1 | EStopAll => StopAll ps
  end.
(** Later entries: every process is still there, of the same tenant, and a stopped one is still stopped. *)
Definition later (ps ps' : ProcessSupervisor) : Prop := forall id p, ps !! id = Some p ->
  exists p', ps' !! id = Some p' /\ p_Tenant p' = p_Tenant p /\ PID p' = PID p /\ (State p = ProcessStopped -> State p' = ProcessStopped).
#[export] Instance later_preorder : PreOrder later.
Proof.
  split; [intros ps id p; by exists p|]. intros a b c Hab Hbc id p Hp. destruct (Hab id p Hp) as (q & Hq & ? & ? & ?).
  destruct (Hbc id q Hq) as (r & ? & ? & ? & ?). exists r. split_and!; try done; [congruence|congruence|tauto].
Qed.
Lemma Stop_later id ps : later ps (Stop id ps).1.
Proof.
  intros k p Hp. unfold Stop. destruct (ps !! id) as [q|] eqn:Hq; simpl; [|by exists p].
  destruct (decide (id = k)) as [->|]; [|exists p; by rewrite lookup_insert_ne].
  rewrite lookup_insert_eq. exists (with_state ProcessStopped q). split; [done|]. naive_solver.
Qed.
Lemma happen_later e ps : later ps (happen e ps).
Proof.
  destruct e as [id tenant started|id|id|]; simpl; [| |apply Stop_later|].
  - intros k p Hp. unfold Spawn. destruct (ps !! id) as [q|] eqn:Hq; simpl; [by exists p|].
    destruct started; simpl; exists p; [|done]. rewrite lookup_insert_ne by naive_solver. done.
  - intros k p Hp. unfold exited. destruct (decide (id = k)) as [->|]; [|exists p; by rewrite lookup_alter_ne].
    rewrite lookup_alter_eq, Hp. by eexists.
  - unfold StopAll. generalize (map_to_list ps).*1 as ids. intros ids. revert ps.
    induction ids as [|i ids IH]; intros ps; simpl; [done|]. etrans; [apply Stop_later|apply IH].
Qed.
(** An identifier is spawned at most once in a supervisor's life: its process keeps its tenant, and once
    stopped it is never running again. *)
Lemma processes_keep es ps : later ps (foldl (fun ps e => happen e ps) ps es).
Proof. revert ps. induction es as [|e es IH]; intros ps; simpl; [done|]. etrans; [apply happen_later|apply IH]. Qed.

(** ** Container sandboxes *)

(* [tenant/docker.go:DockerSandbox] *)
Record DockerSandbox := { image : string; timeout : duration }.
(* [tenant/docker.go:NewDockerSandbox] *)
Definition NewDockerSandbox (img : string) (t : duration) : DockerSandbox :=
  {| image := if decide (img = "") then "alpine:latest" else img; timeout := if decide (t = 0)%Z then (30 * Second)%Z else t |}.
(** The arguments of docker; [now] is the clock in nanoseconds. *)
(* [tenant/docker.go:DockerSandbox.RunCommand@43-53] *)
Definition run_args (ds : DockerSandbox) (now : Z) (tenant command : string) : list string :=
  ["run"; "--rm"; "--name"; "cyntr-" +:+ tenant +:+ "-" +:+ itoa now; "--network"; "none"; "--memory"; "256m"; "--cpus"; "0.5";
   "--read-only"; "--tmpfs"; "/tmp:rw,size=64m"; image ds; "sh"; "-c"; command].
(* [tenant/docker.go:DockerSandbox.RunCommandWithNetwork@71-80] *)
Definition network_args (ds : DockerSandbox) (now : Z) (tenant command : string) : list string :=
  ["run"; "--rm"; "--name"; "cyntr-" +:+ tenant +:+ "-" +:+ itoa now; "--memory"; "256m"; "--cpus"; "0.5"; "--read-only";
   "--tmpfs"; "/tmp:rw,size=64m"; image ds; "sh"; "-c"; command].
(** The containers [Cleanup] removes, from what docker lists. *)
(* [tenant/docker.go:DockerSandbox.Cleanup@100-111] *)
Definition removed (out : string) : list string :=
  let ids := TrimSpace out in
  if decide (ids = "") then [] else filter (fun id => id <> "") (TrimSpace <$> split "010" ids).
