(* ===== verification/Mcp.v ===== *)
(** * Mcp: the Model Context Protocol client, tool adapter and server

    [src/modules/mcp]: types.go, jsonrpc.go, transport.go, client.go, adapter.go, server.go.  JSON
    values are a type of the model; their text, HTTP, processes and the tools themselves are arguments.
    A connection is the requests sent so far, and what answers them a function of those. *)
From S2P Require Import Prelude GoStr GoText.
From S2P Require AgentSession.
Local Open Scope go_scope.
Local Open Scope Z_scope.

(** ** JSON values and messages *)

(** A decoded [any]: an object's fields in the order of the text, the last of a name counting. *)
Inductive json := JNull | JBool (b : bool) | JNum (text : string) | JStr (s : string) | JArr (l : list json)
  | JObj (l : list (string * json)).
Fixpoint field (k : string) (l : list (string * json)) : option json :=
  match l with
  | [] => None
  | (k', v) :: l => match field k l with Some w => Some w | None => if decide (k' = k) then Some v else None end
  end.

(* [modules/mcp/types.go:JSONRPCRequest] *)
Record JSONRPCRequest := { Method : string; Params : option json; rq_ID : Z }.
(* [modules/mcp/types.go:JSONRPCError] *)
Record JSONRPCError := { Code : Z; e_Message : string }.
(* [modules/mcp/types.go:JSONRPCResponse] *)
Record JSONRPCResponse := { Result_ : option json; Error_ : option JSONRPCError; rs_ID : Z }.
(* [modules/mcp/types.go:MCPToolDef] *)
Record MCPToolDef := { t_Name : string; t_Description : string; InputSchema : list (string * json) }.
(* [modules/mcp/types.go:ContentBlock] *)
Record ContentBlock := { b_Type : string; Text : string }.
(* [modules/mcp/types.go:ToolCallResult] *)
Record ToolCallResult := { Content : list ContentBlock; IsError : bool }.
(* [modules/mcp/types.go:ServerConfig] *)
Record ServerConfig := {
  s_Name : string; Command : string; Args : list string; URL : string; Transport_ : string; Env : gmap string string; Scope : string;
}.

(** ** The codec *)

(** The counter behind the request ids, an atomic 64-bit integer. *)
(* [modules/mcp/jsonrpc.go:Codec] *)
Record Codec := { nextID : Z }.
(* [modules/mcp/jsonrpc.go:NewCodec] *)
Definition NewCodec : Codec := {| nextID := 0 |}.
(* [modules/mcp/jsonrpc.go:Codec.EncodeRequest] *)
Definition EncodeRequest (method : string) (params : option json) (c : Codec) : Codec * JSONRPCRequest :=
  let id := wrap64 (nextID c + 1) in ({| nextID := id |}, {| Method := method; Params := params; rq_ID := id |}).
(* [modules/mcp/jsonrpc.go:Codec.EncodeResponse] *)
Definition EncodeResponse (id : Z) (result : json) : JSONRPCResponse := {| Result_ := Some result; Error_ := None; rs_ID := id |}.
(* [modules/mcp/jsonrpc.go:Codec.EncodeError] *)
Definition EncodeError (id code : Z) (message : string) : JSONRPCResponse :=
  {| Result_ := None; Error_ := Some {| Code := code; e_Message := message |}; rs_ID := id |}.

(** ** Replies over standard output *)

(** What a line of a server's output is: no JSON, a message without an id, or one with that id text. *)
Inductive line := Noise | Notification | Identified (id : string) (text : string).
(** The reply to the request with id [wantID], and the lines left for the next one. *)
(* [modules/mcp/transport.go:StdioTransport.Send@89-122] *)
Fixpoint read_reply (scan_error : option error) (wantID : string) (out : list line) : Result string * list line :=
  match out with
  | [] => (Err (match scan_error with Some e => "read stdout: " +:+ e | None => "MCP server process closed stdout" end), [])
  | Noise :: out | Notification :: out => read_reply scan_error wantID out
  | Identified id text :: out => if decide (id = wantID) then (Ok text, out) else read_reply scan_error wantID out
  end.
(** A notification is written and nothing is read.  [written]: why writing failed, if it did. *)
(* [modules/mcp/transport.go:StdioTransport.Send] *)
Definition stdio_Send (written scan_error : option error) (id : option string) (method : string) (out : list line)
    : Result (option string) * list line :=
  match written with
  | Some e => (Err ("write to stdin: " +:+ e), out)
  | None =>
      match id with
      | None => (Ok None, out)
      | Some wantID =>
          if has_prefix "notifications/" method then (Ok None, out)
          else match read_reply scan_error wantID out with (Ok t, out) => (Ok (Some t), out) | (Err e, out) => (Err e, out) end
      end
  end.
(** A reply is the first line with the request's id: what came before it is lost, what came after it kept. *)
Lemma read_reply_spec e want out text rest : read_reply e want out = (Ok text, rest) <->
  exists skipped, out = skipped ++ Identified want text :: rest /\
    Forall (fun l => match l with Identified id _ => id <> want | _ => True end) skipped.
Proof.
  induction out as [|l out IH]; simpl.
  - split; [done|]. intros ([|] & ? & _); discriminate.
  - assert (Hcons : (match l with Identified id _ => id <> want | _ => True end) ->
      (exists skipped, out = skipped ++ Identified want text :: rest /\
        Forall (fun l => match l with Identified id _ => id <> want | _ => True end) skipped) <->
      exists skipped, l :: out = skipped ++ Identified want text :: rest /\
        Forall (fun l => match l with Identified id _ => id <> want | _ => True end) skipped).
    { intros Hl. split.
      - intros (sk & -> & Hf). exists (l :: sk). by rewrite Forall_cons.
      - intros ([|k sk] & Heq & Hf); simpl in Heq; injection Heq as -> ->; [done|]. apply Forall_cons in Hf as [_ Hf]. by exists sk. }
    destruct l as [| |id t]; [by rewrite IH, Hcons..|]. case_decide as Hid; [|by rewrite IH, Hcons]. subst id. split.
    + intros [= -> ->]. by exists [].
    + intros ([|k sk] & Heq & Hf); simplify_eq/=; [done|]. by apply Forall_cons in Hf as [? _].
Qed.

(** ** The client *)

(** What answers a request after those before it: the connection may fail, the answer be no JSON-RPC. *)
Inductive reply := SendFailed (e : error) | Undecodable (e : error) | Answered (r : JSONRPCResponse).
Notation peer := (list JSONRPCRequest -> JSONRPCRequest -> reply).
(* [modules/mcp/client.go:Client] *)
Record Client := {
  c_config : ServerConfig; codec : Codec; sent : list JSONRPCRequest; c_tools : list MCPToolDef; initialized : bool; closed : bool;
}.
(* [modules/mcp/client.go:NewClient] *)
Definition NewClient (cfg : ServerConfig) : Client :=
  {| c_config := cfg; codec := NewCodec; sent := []; c_tools := []; initialized := false; closed := false |}.
Definition with_initialized (ts : list MCPToolDef) (c : Client) : Client :=
  {| c_config := c_config c; codec := codec c; sent := sent c; c_tools := ts; initialized := true; closed := closed c |}.
(** One request; the transport adds to the requests sent. *)
Definition transmit (p : peer) (method : string) (params : option json) (c : Client) : Client * reply :=
  let '(cd, rq) := EncodeRequest method params (codec c) in
  ({| c_config := c_config c; codec := cd; sent := sent c ++ [rq]; c_tools := c_tools c; initialized := initialized c;
      closed := closed c |}, p (sent c) rq).

Section Client.
(** JSON decoding of a [tools/list] and of a [tools/call] result. *)
Context (decode_tools : option json -> Result (list MCPToolDef)) (decode_call : option json -> Result ToolCallResult).

(* [modules/mcp/jsonrpc.go:Codec.DecodeResponse] *)
Definition DecodeResponse (r : reply) : Result JSONRPCResponse :=
  match r with
  | SendFailed e => Err e | Undecodable e => Err ("decode JSON-RPC response: " +:+ e) | Answered resp => Ok resp
  end.
(* [modules/mcp/client.go:Client.DiscoverTools] *)
Definition DiscoverTools (p : peer) (c : Client) : Client * Result (list MCPToolDef) :=
  let '(c, r) := transmit p "tools/list" (Some (JObj [])) c in
  (c, resp <-? DecodeResponse r ;;
      match Error_ resp with
      | Some e => Err ("tools/list error: " +:+ e_Message e)
      | None => match decode_tools (Result_ resp) with Err e => Err ("parse tools: " +:+ e) | Ok ts => Ok ts end
      end).
Definition init_params : json :=
  JObj [("protocolVersion", JStr "2024-11-05"); ("capabilities", JObj []);
        ("clientInfo", JObj [("name", JStr "cyntr"); ("version", JStr "0.9.0")])].
(** [started]: why the process of a stdio server did not start, if it did not. *)
(* [modules/mcp/client.go:Client.Connect] *)
Definition Connect (started : option error) (p : peer) (c : Client) : Client * option error :=
  let transport := Transport_ (c_config c) in
  if decide (transport <> "stdio" /\ transport <> "http") then (c, Some ("unsupported transport: " +:+ transport))
  else
    match (if decide (transport = "stdio") then started else None) with
    | Some e => (c, Some ("create transport: " +:+ e))
    | None =>
        let '(c, r) := transmit p "initialize" (Some init_params) c in
        match r with
        | SendFailed e => (c, Some ("initialize: " +:+ e))
        | Undecodable e => (c, Some ("decode initialize response: decode JSON-RPC response: " +:+ e))
        | Answered resp =>
            match Error_ resp with
            | Some e => (c, Some ("initialize error: " +:+ e_Message e))
            | None =>
                let c := if decide (transport = "stdio") then (transmit p "notifications/initialized" None c).1 else c in
                let '(c, ts) := DiscoverTools p (with_initialized (c_tools c) c) in
                (with_initialized (match ts with Ok ts => ts | Err _ => c_tools c end) c, None)
            end
        end
    end.
(* [modules/mcp/client.go:Client.CallTool] *)
Definition CallTool (p : peer) (name : string) (arguments : list (string * json)) (c : Client) : Client * Result ToolCallResult :=
  let '(c, r) := transmit p "tools/call" (Some (JObj [("name", JStr name); ("arguments", JObj arguments)])) c in
  (c, resp <-? DecodeResponse r ;;
      match Error_ resp with
      | Some e => Err ("tools/call error: " +:+ e_Message e)
      | None => match decode_call (Result_ resp) with Err e => Err ("parse tools/call result: " +:+ e) | Ok x => Ok x end
      end).
(* [modules/mcp/client.go:Client.Tools] *)
Definition Tools (c : Client) : list MCPToolDef := c_tools c.
(* [modules/mcp/client.go:Client.IsConnected] *)
Definition IsConnected (c : Client) : bool := initialized c.

(** ** The adapter *)

(** ["%v"] of a value that is no string and not nil. *)
Context (sprint : json -> string).
Definition verb (j : option json) : string :=
  match j with Some (JStr s) => s | Some JNull | None => "<nil>" | Some j => sprint j end.
Definition tool_param (required : list string) (name : string) (p : list (string * json)) : AgentSession.ToolParam :=
  let type := verb (field "type" p) in let desc := verb (field "description" p) in
  {| AgentSession.p_Type := if decide (type = "<nil>") then "string" else type;
     AgentSession.p_Description := if decide (desc = "<nil>") then "" else desc;
     AgentSession.p_Required := bool_decide (name ∈ required) |}.
(* [modules/mcp/adapter.go:convertInputSchema@80-80] *)
Definition properties_of (schema : list (string * json)) : list (string * json) :=
  match field "properties" schema with Some (JObj l) => l | _ => [] end.
(* [modules/mcp/adapter.go:convertInputSchema@81-87] *)
Definition required_of (schema : list (string * json)) : list string :=
  match field "required" schema with
  | Some (JArr l) => omap (fun j => match j with JStr s => Some s | _ => None end) l | _ => []
  end.
(* [modules/mcp/adapter.go:convertInputSchema] *)
Definition convertInputSchema (schema : list (string * json)) : gmap string AgentSession.ToolParam :=
  let props := properties_of schema in
  let required := required_of schema in
  foldl (fun m kv => match kv.2 with JObj p => <[kv.1 := tool_param required kv.1 p]> m | _ => delete kv.1 m end) ∅ props.
(* [modules/mcp/adapter.go:MCPToolAdapter.Name] *)
Definition adapter_name (serverName tool : string) : string := "mcp_" +:+ serverName +:+ "_" +:+ tool.
(* [modules/mcp/adapter.go:MCPToolAdapter.Description] *)
Definition adapter_description (serverName : string) (def : MCPToolDef) : string :=
  let desc := if decide (t_Description def = "") then "MCP tool from " +:+ serverName +:+ " server" else t_Description def in
  "[MCP:" +:+ serverName +:+ "] " +:+ desc.
(** What the registry shows of a remote tool. *)
(* [modules/mcp/adapter.go:NewMCPToolAdapter] *)
Definition NewMCPToolAdapter (serverName : string) (def : MCPToolDef) : AgentSession.ToolDef :=
  {| AgentSession.d_Name := adapter_name serverName (t_Name def);
     AgentSession.d_Description := adapter_description serverName def;
     AgentSession.d_Parameters := convertInputSchema (InputSchema def) |}.
Definition text_limit : Z := 65536.
(** The text and the error: both when the tool reported one. *)
(* [modules/mcp/adapter.go:MCPToolAdapter.Execute] *)
Definition adapter_Execute (p : peer) (serverName : string) (def : MCPToolDef) (input : gmap string string) (c : Client)
    : Client * (string * option error) :=
  let '(c, r) := CallTool p (t_Name def) ((fun kv => (kv.1, JStr kv.2)) <$> map_to_list input) c in
  (c, match r with
      | Err e => ("", Some ("MCP tool " +:+ adapter_name serverName (t_Name def) +:+ ": " +:+ e))
      | Ok result =>
          let output := Join (Text <$> filter (fun b => b_Type b = "text") (Content result)) "" in
          let text := if decide (text_limit < Z.of_nat (String.length output)) then
                        take_bytes (Z.to_nat text_limit) output +:+ nl +:+ "... (truncated)" else output in
          (text, if IsError result then Some ("MCP tool error: " +:+ text) else None)
      end).
End Client.

(** ** The server *)

(** The registry and the token and tenant of the environment. *)
(* [modules/mcp/server.go:Server] *)
Record Server := { toolReg : AgentSession.ToolRegistry; authToken : string; authTenant : string }.
(* [modules/mcp/server.go:authError] *)
Definition authError : Z := -32001.
(** The comparison is constant-time. *)
(* [modules/mcp/server.go:Server.checkToken] *)
Definition checkToken (presented : string) (s : Server) : bool :=
  if decide (authToken s = "") then false else bool_decide (presented = authToken s).

(** The schema of a tool's parameters. *)
(* [modules/mcp/server.go:Server.handleRequest@132-145] *)
Definition input_schema (params : gmap string AgentSession.ToolParam) : list (string * json) :=
  let required := omap (fun kp => if AgentSession.p_Required kp.2 then Some (JStr kp.1) else None) (map_to_list params) in
  [("type", JStr "object");
   ("properties", JObj ((fun kp => (kp.1, JObj [("type", JStr (AgentSession.p_Type kp.2));
                                                  ("description", JStr (AgentSession.p_Description kp.2))])) <$> map_to_list params));
   ("required", if decide (required = []) then JNull else JArr required)].
(* [modules/mcp/server.go:Server.handleRequest@123-147] *)
Definition exported (s : Server) : list MCPToolDef :=
  omap (fun name => match AgentSession.Get name (toolReg s) with
                    | None => None
                    | Some t => Some {| t_Name := name; t_Description := AgentSession.d_Description t;
                                        InputSchema := input_schema (AgentSession.d_Parameters t) |}
                    end) (AgentSession.List_ (toolReg s)).

Section Server.
(** The parameters of a call as decoded, printing of other values, what tools do, and results as JSON. *)
Context (decode_params : option json -> string * list (string * json)) (sprint : json -> string).
Context (run : AgentSession.ToolCtx -> string -> gmap string string -> Result string).
Context (tools_json : list MCPToolDef -> json) (call_json : ToolCallResult -> json).

(** A tool that ran, with what it was told of its caller. *)
Notation execution := (AgentSession.ToolCtx * string * gmap string string)%type.
(* [modules/agent/tools.go:ToolRegistry.Execute] *)
Definition Execute (ctx : AgentSession.ToolCtx) (name : string) (input : gmap string string) (r : AgentSession.ToolRegistry)
    : Result string * list execution :=
  match AgentSession.Get name r with
  | None => (Err ("tool " +:+ quote name +:+ " not found"), [])
  | Some _ => (run ctx name input, [(ctx, name, input)])
  end.
Definition init_result : json :=
  JObj [("protocolVersion", JStr "2024-11-05"); ("capabilities", JObj []);
        ("serverInfo", JObj [("name", JStr "cyntr"); ("version", JStr "0.9.0")])].
Definition text_result (text : string) (isError : bool) : ToolCallResult :=
  {| Content := [{| b_Type := "text"; Text := text |}]; IsError := isError |}.
(* [modules/mcp/server.go:Server.handleRequest] *)
Definition handleRequest (ctx : AgentSession.ToolCtx) (req : JSONRPCRequest) (authed : bool) (s : Server)
    : option JSONRPCResponse * list execution :=
  let id := rq_ID req in
  if decide ((Method req = "tools/list" \/ Method req = "tools/call") /\ authed = false) then
    (Some (EncodeError id authError "unauthorized"), [])
  else if decide (Method req = "initialize") then (Some (EncodeResponse id init_result), [])
  else if decide (Method req = "notifications/initialized") then (None, [])
  else if decide (Method req = "tools/list") then (Some (EncodeResponse id (tools_json (exported s))), [])
  else if decide (Method req = "tools/call") then
    let '(name, arguments) := decode_params (Params req) in
    let input := foldl (fun m kv => <[kv.1 := verb sprint (Some kv.2)]> m) ∅ arguments in
    let ctx := if decide (authTenant s <> "") then AgentSession.WithToolCaller (authTenant s) "mcp" "mcp" ctx else ctx in
    match Execute ctx name input (toolReg s) with
    | (Err e, ran) => (Some (EncodeResponse id (call_json (text_result e true))), ran)
    | (Ok text, ran) => (Some (EncodeResponse id (call_json (text_result text false))), ran)
    end
  else (Some (EncodeError id (-32601) ("method not found: " +:+ Method req)), []).
(** One request over HTTP: the Authorization header and the body, as read and decoded. *)
(* [modules/mcp/server.go:Server.ServeHTTP] *)
Definition ServeHTTP (authorization : string) (body : Result (Result JSONRPCRequest)) (s : Server)
    : (Z * option JSONRPCResponse) * list execution :=
  match body with
  | Err _ => ((400, None), [])
  | Ok (Err _) => ((200, Some (EncodeError 0 (-32700) "parse error")), [])
  | Ok (Ok req) =>
      let authed := checkToken (TrimPrefix authorization "Bearer ") s in
      let '(resp, ran) := handleRequest AgentSession.background req authed s in ((200, resp), ran)
  end.
(** A session on standard input: a line is a request or no JSON-RPC. *)
(* [modules/mcp/server.go:Server.ServeStdio] *)
Fixpoint ServeStdio (lines : list (option JSONRPCRequest)) (s : Server) : list JSONRPCResponse * list execution :=
  match lines with
  | [] => ([], [])
  | l :: lines =>
      let '(resp, ran) := match l with
                          | None => (Some (EncodeError 0 (-32700) "parse error"), [])
                          | Some req => handleRequest AgentSession.background req (bool_decide (authToken s <> "")) s
                          end in
      let '(out, ran') := ServeStdio lines s in (option_list resp ++ out, ran ++ ran')
  end.

(** ** What the server gives away *)

Lemma handleRequest_unauthorized ctx req s : (handleRequest ctx req false s).2 = [] /\
  forall r, (handleRequest ctx req false s).1 = Some r ->
    r = EncodeResponse (rq_ID req) init_result \/ exists code m, r = EncodeError (rq_ID req) code m.
Proof. unfold handleRequest. repeat case_decide; try tauto; simpl; split; try done; intros r [= <-]; eauto. Qed.
Lemma handleRequest_ran ctx req authed s c name input : (c, name, input) ∈ (handleRequest ctx req authed s).2 ->
  authed = true /\ is_Some (AgentSession.Get name (toolReg s)) /\
  (authTenant s <> "" -> AgentSession.x_Tenant c = Some (authTenant s)).
Proof.
  destruct authed; [|rewrite (proj1 (handleRequest_unauthorized ctx req s)); by intros ?%elem_of_nil].
  unfold handleRequest. repeat case_decide; simpl; try by intros ?%elem_of_nil.
  all: destruct (decode_params _) as [nm args]; unfold Execute; destruct (AgentSession.Get nm (toolReg s)) eqn:Hg; simpl;
    [|by intros ?%elem_of_nil].
  all: destruct (run _ _ _); simpl; intros Hin%list_elem_of_singleton; simplify_eq/=; split_and!; eauto; try done.
Qed.

(** The registry is closed to whoever does not present the configured token: without it, and when
    none is configured, no tool runs and nothing but the handshake or an error is answered; with it a
    tool runs as the configured tenant. *)
Lemma server_fail_closed auth body s c name input :
  (c, name, input) ∈ (ServeHTTP auth body s).2 ->
  authToken s <> "" /\ TrimPrefix auth "Bearer " = authToken s /\ is_Some (AgentSession.Get name (toolReg s)) /\
  (authTenant s <> "" -> AgentSession.x_Tenant c = Some (authTenant s)).
Proof.
  unfold ServeHTTP. destruct body as [[req|e]|e]; simpl; try by intros ?%elem_of_nil.
  destruct (handleRequest _ _ _ _) as [resp ran] eqn:Hh; simpl. intros Hin.
  pose proof (handleRequest_ran AgentSession.background req (checkToken (TrimPrefix auth "Bearer ") s) s c name input) as H.
  rewrite Hh in H. destruct (H Hin) as (Ha & Hg & Ht). unfold checkToken in Ha. case_decide; [done|].
  apply bool_decide_eq_true in Ha. done.
Qed.
Lemma stdio_fail_closed lines s : authToken s = "" -> (ServeStdio lines s).2 = [].
Proof.
  intros Ht. induction lines as [|l lines IH]; simpl; [done|].
  assert (Hran : (match l with None => (Some (EncodeError 0 (-32700) "parse error"), [])
                 | Some req => handleRequest AgentSession.background req (bool_decide (authToken s <> "")) s end).2 = []).
  { destruct l as [req|]; [|done]. rewrite bool_decide_eq_false_2 by naive_solver. apply handleRequest_unauthorized. }
  destruct (match l with None => _ | Some _ => _ end) as [resp ran]. simpl in Hran. subst ran.
  destruct (ServeStdio lines s). by simpl in *.
Qed.
End Server.

(** ** A tool across two nodes *)

Definition describable (p : AgentSession.ToolParam) : Prop :=
  AgentSession.p_Type p <> "<nil>" /\ AgentSession.p_Description p <> "<nil>".
Lemma tool_param_exported sprint required name p : describable p ->
  tool_param sprint required name [("type", JStr (AgentSession.p_Type p)); ("description", JStr (AgentSession.p_Description p))] =
  {| AgentSession.p_Type := AgentSession.p_Type p; AgentSession.p_Description := AgentSession.p_Description p;
     AgentSession.p_Required := bool_decide (name ∈ required) |}.
Proof.
  intros [Ht Hd]. unfold tool_param.
  change (field "type" _) with (Some (JStr (AgentSession.p_Type p))).
  change (field "description" _) with (Some (JStr (AgentSession.p_Description p))). cbn [verb].
  by rewrite (decide_False (P := AgentSession.p_Type p = _)), (decide_False (P := AgentSession.p_Description p = _)).
Qed.
Lemma fold_insert_lookup {A} (f : string -> A -> A) (l : list (string * A)) (m : gmap string A) k : NoDup l.*1 ->
  foldl (fun m kv => <[kv.1 := f kv.1 kv.2]> m) m l !! k =
  match list_to_map (M := gmap string A) l !! k with Some v => Some (f k v) | None => m !! k end.
Proof.
  revert m. induction l as [|[k' v] l IH]; intros m; [done|]. cbn [fmap list_fmap foldl fst snd list_to_map].
  intros [Hn Hl]%NoDup_cons. rewrite IH by done. cbn. destruct (decide (k = k')) as [->|Hk].
  - by rewrite not_elem_of_list_to_map_1, !lookup_insert_eq by done.
  - by rewrite !lookup_insert_ne.
Qed.

Lemma required_exported params k p : params !! k = Some p ->
  k ∈ required_of (input_schema params) <-> AgentSession.p_Required p = true.
Proof.
  intros Hk. unfold required_of, input_schema.
  set (req := omap (fun kp : string * AgentSession.ToolParam => if AgentSession.p_Required kp.2 then Some (JStr kp.1) else None) (map_to_list params)).
  change (field "required" _) with (Some (if decide (req = []) then JNull else JArr req)).
  assert (Hin : k ∈ omap (fun j => match j with JStr s => Some s | _ => None end) req <-> AgentSession.p_Required p = true).
  { unfold req. rewrite list_elem_of_omap. setoid_rewrite list_elem_of_omap. split.
    - intros (j & ([k' p'] & Hin & Hj) & Hs). cbn in Hj. apply elem_of_map_to_list in Hin.
      destruct (AgentSession.p_Required p') eqn:Hr; [|done]. by simplify_eq.
    - intros Hr. exists (JStr k). split; [|done]. exists (k, p). cbn. rewrite Hr. split; [by apply elem_of_map_to_list|done]. }
  case_decide as Hnil; [|done]. by rewrite Hnil in Hin.
Qed.

(** The parameters of a tool survive the trip through the protocol: what a client makes
    of the schema the server writes for a tool is the tool's own parameter list, names, types,
    descriptions and which are required. *)
Lemma schema_roundtrip sprint (params : gmap string AgentSession.ToolParam) :
  map_Forall (fun _ p => describable p) params -> convertInputSchema sprint (input_schema params) = params.
Proof.
  intros Hd. unfold convertInputSchema. set (required := required_of _).
  assert (Hreq : forall k p, params !! k = Some p -> bool_decide (k ∈ required) = AgentSession.p_Required p).
  { intros k p Hk. subst required. rewrite (bool_decide_ext _ _ (required_exported params k p Hk)). by destruct (AgentSession.p_Required p). }
  change (properties_of _) with ((fun kp : string * AgentSession.ToolParam => (kp.1, JObj [("type", JStr (AgentSession.p_Type kp.2));
    ("description", JStr (AgentSession.p_Description kp.2))])) <$> map_to_list params).
  cbv zeta. rewrite foldl_fmap. cbn [fst snd].
  assert (Hf : forall (l : list (string * AgentSession.ToolParam)) (m : gmap string AgentSession.ToolParam), (forall kp, kp ∈ l -> params !! kp.1 = Some kp.2) ->
    foldl (fun m kp => <[kp.1 := tool_param sprint required kp.1 [("type", JStr (AgentSession.p_Type kp.2));
      ("description", JStr (AgentSession.p_Description kp.2))]]> m) m l =
    foldl (fun m kp => <[kp.1 := kp.2]> m) m l).
  { induction l as [|[k p] l IH]; intros m Hl; [done|]. cbn [foldl fst snd].
    pose proof (Hl (k, p) (list_elem_of_here _ _)) as Hk. cbn in Hk. rewrite tool_param_exported by (by apply (Hd k)).
    rewrite (Hreq k p Hk). destruct p. cbn. apply IH. intros kp Hkp. apply Hl. by right. }
  rewrite Hf by (intros [k p]; apply elem_of_map_to_list). apply map_eq. intros k.
  rewrite (fold_insert_lookup (fun _ v => v) (map_to_list params) ∅ k) by apply NoDup_fst_map_to_list.
  rewrite list_to_map_to_list, lookup_empty. by destruct (params !! k).
Qed.
Definition demo_params : gmap string AgentSession.ToolParam :=
  {["q" := {| AgentSession.p_Type := "string"; AgentSession.p_Description := "query"; AgentSession.p_Required := true |};
    "n" := {| AgentSession.p_Type := "integer"; AgentSession.p_Description := ""; AgentSession.p_Required := false |}]}.
Lemma schema_roundtrip_witness : convertInputSchema (fun _ => "") (input_schema demo_params) = demo_params.
Proof.
  apply schema_roundtrip. apply map_Forall_to_list. repeat (apply Forall_cons_2); [..|apply Forall_nil_2]; by vm_compute.
Defined.
