(* ===== verification/McpManager.v ===== *)
(** * McpManager: the servers a node is connected to

    [src/modules/mcp]: manager.go, catalog.go.  The connected clients by tenant and name, and the tools
    they put in the runtime's registry.  What a server answers is given per attempt to connect. *)
From S2P Require Import Prelude GoStr GoText.
From S2P Require AgentSession NetGuard.
From S2P Require Import Mcp.
Local Open Scope go_scope.
Local Open Scope Z_scope.

Definition nul : ascii := "000".
(* [modules/mcp/manager.go:Manager] *)
Record Manager := { clients : gmap string Client; registry : AgentSession.ToolRegistry; configs : list ServerConfig }.
(* [modules/mcp/manager.go:NewManager] *)
Definition NewManager (reg : AgentSession.ToolRegistry) : Manager := {| clients := ∅; registry := reg; configs := [] |}.
(* [modules/mcp/manager.go:Manager.SetConfigs] *)
Definition SetConfigs (l : list ServerConfig) (m : Manager) : Manager :=
  {| clients := clients m; registry := registry m; configs := l |}.
(* [modules/mcp/manager.go:clientKey] *)
Definition clientKey (tenant name : string) : string := tenant +:+ String nul name.
(* [modules/mcp/manager.go:tenantOf] *)
Definition tenantOf (cfg : ServerConfig) : string := if decide (Scope cfg <> "") then Scope cfg else "system".
(* [modules/mcp/manager.go:allowedStdioCommands] *)
Definition allowedStdioCommands : list string := ["npx"].

(** What follows the last slash or backslash. *)
Fixpoint base_name (s : string) : string :=
  match s with
  | "" => ""
  | String c s' => if contains_byte "/" s || contains_byte "\" s then base_name s' else s
  end.
Definition close (c : Client) : Client :=
  {| c_config := c_config c; codec := codec c; sent := sent c; c_tools := c_tools c; initialized := initialized c; closed := true |}.
(** The tools of a server, as the registry names them. *)
Definition unregister_all (name : string) (ts : list MCPToolDef) (r : AgentSession.ToolRegistry) : AgentSession.ToolRegistry :=
  foldl (fun r t => AgentSession.Unregister ("mcp_" +:+ name +:+ "_" +:+ t_Name t) r) r ts.

Section Manager.
Context (decode_tools : option json -> Result (list MCPToolDef)) (sprint : json -> string).
(** URL parsing, the resolver, the text of an address, and the operator's exception. *)
Context (parse : string -> option (string * string)) (LookupIP : string -> option (list NetGuard.IP)).
Context (ip_text : NetGuard.IP -> string) (AllowPrivate : bool).

Definition register_all (name : string) (ts : list MCPToolDef) (r : AgentSession.ToolRegistry) : AgentSession.ToolRegistry :=
  foldl (fun r t => AgentSession.Register (NewMCPToolAdapter sprint name t) r) r ts.
(** A configuration that may be connected to at all. *)
(* [modules/mcp/manager.go:Manager.connectServer@111-127] *)
Definition admitted (cfg : ServerConfig) : option error :=
  if decide ((Transport_ cfg = "" \/ Transport_ cfg = "stdio") /\ base_name (Command cfg) ∉ allowedStdioCommands) then
    Some ("mcp: command " +:+ quote (Command cfg) +:+ " is not allowed for stdio servers (allowed: npx)")
  else if decide (Transport_ cfg = "http" \/ Transport_ cfg = "sse") then
    match NetGuard.ValidatePublicURL parse LookupIP ip_text AllowPrivate (URL cfg) with
    | Some e => Some ("mcp: http server URL rejected: " +:+ e) | None => None
    end
  else None.
(* [modules/mcp/manager.go:Manager.connectServer] *)
Definition connectServer (started : option error) (p : peer) (cfg : ServerConfig) (m : Manager) : Manager * option error :=
  match admitted cfg with
  | Some e => (m, Some e)
  | None =>
      match Connect decode_tools started p (NewClient cfg) with
      | (_, Some e) => (m, Some e)
      | (client, None) =>
          let key := clientKey (tenantOf cfg) (s_Name cfg) in
          let reg := match clients m !! key with
                     | Some prev => unregister_all (s_Name cfg) (Tools prev) (registry m) | None => registry m end in
          ({| clients := <[key := client]> (clients m); registry := register_all (s_Name cfg) (Tools client) reg; configs := configs m |},
           None)
      end
  end.
(** Every configured server is tried; a failure is logged. *)
(* [modules/mcp/manager.go:Manager.Start@65-71] *)
Fixpoint Start (l : list (ServerConfig * option error * peer)) (m : Manager) : Manager :=
  match l with [] => m | (cfg, started, p) :: l => Start l (connectServer started p cfg m).1 end.
(* [modules/mcp/manager.go:Manager.Stop] *)
Definition Stop (m : Manager) : Manager := {| clients := close <$> clients m; registry := registry m; configs := configs m |}.
(* [modules/mcp/manager.go:Manager.Health] *)
Definition Health (m : Manager) : string :=
  let connected := filter (fun c => IsConnected c = true) (map_to_list (clients m)).*2 in
  itoa (Z.of_nat (length connected)) +:+ " MCP servers, " +:+
  itoa (foldr (fun c n => Z.of_nat (length (Tools c)) + n) 0 connected) +:+ " tools".

(** ** Handlers *)

(** A payload: a configuration, a map of values or of strings, a string, or another value by its type. *)
Inductive payload := PConfig (c : ServerConfig) | PAny (l : list (string * json)) | PMap (m : gmap string string) | PString (s : string)
  | POther (type : string).
Definition go_type (p : payload) : string :=
  match p with
  | PConfig _ => "mcp.ServerConfig" | PAny _ => "map[string]interface {}" | PMap _ => "map[string]string" | PString _ => "string"
  | POther t => t
  end.
Definition text_field (k : string) (l : list (string * json)) : option string :=
  match field k l with Some (JStr s) => Some s | _ => None end.
(* [modules/mcp/manager.go:Manager.handleAddServer@167-184] *)
Definition config_of (l : list (string * json)) : ServerConfig :=
  {| s_Name := verb sprint (field "name" l); Command := verb sprint (field "command" l);
     Args := match field "args" l with Some (JArr a) => (fun v => verb sprint (Some v)) <$> a | _ => [] end;
     URL := verb sprint (field "url" l); Transport_ := verb sprint (field "transport" l); Env := ∅;
     Scope := match text_field "tenant" l with Some t => t | None => default "" (text_field "scope" l) end |}.
(* [modules/mcp/manager.go:Manager.handleAddServer] *)
Definition handleAddServer (started : option error) (p : peer) (pl : payload) (m : Manager) : Manager * Result string :=
  let connect cfg := match connectServer started p cfg m with (m, Some e) => (m, Err e) | (m, None) => (m, Ok "connected") end in
  match pl with
  | PConfig cfg => connect cfg
  | PAny l => connect (config_of l)
  | _ => (m, Err ("expected ServerConfig, got " +:+ go_type pl))
  end.
(* [modules/mcp/manager.go:serverRef] *)
Definition serverRef (pl : payload) : Result (string * string) :=
  let finish tenant name := if decide (name = "") then Err "missing server name"
                            else Ok (if decide (tenant = "") then "system" else tenant, name) in
  match pl with
  | PAny l => finish (match text_field "tenant" l with Some t => t | None => default "" (text_field "scope" l) end)
                     (default "" (text_field "name" l))
  | PMap m => finish (if decide (default "" (m !! "tenant") <> "") then default "" (m !! "tenant") else default "" (m !! "scope"))
                     (default "" (m !! "name"))
  | PString s => finish "" s
  | _ => Err ("expected server reference, got " +:+ go_type pl)
  end.
(* [modules/mcp/manager.go:Manager.handleRemoveServer] *)
Definition handleRemoveServer (pl : payload) (m : Manager) : Manager * Result string :=
  match serverRef pl with
  | Err e => (m, Err e)
  | Ok (tenant, name) =>
      let key := clientKey tenant name in
      match clients m !! key with
      | None => (m, Err ("MCP server " +:+ quote name +:+ " not found"))
      | Some client =>
          ({| clients := delete key (clients m); registry := unregister_all name (Tools client) (registry m); configs := configs m |},
           Ok "disconnected")
      end
  end.
(* [modules/mcp/manager.go:Manager.handleListServers@260-280] *)
Definition list_tenant (pl : payload) : string :=
  match pl with
  | PAny l => match text_field "tenant" l with
              | Some t => if decide (t <> "") then t else
                  match text_field "scope" l with Some t => if decide (t <> "") then t else "system" | None => "system" end
              | None => match text_field "scope" l with Some t => if decide (t <> "") then t else "system" | None => "system" end
              end
  | PMap m => if decide (default "" (m !! "tenant") <> "") then default "" (m !! "tenant")
              else if decide (default "" (m !! "scope") <> "") then default "" (m !! "scope") else "system"
  | PString s => if decide (s <> "") then s else "system"
  | _ => "system"
  end.
(* [modules/mcp/types.go:ServerStatus] *)
Record ServerStatus := { st_Name : string; st_Transport : string; Status : string; ToolCount : Z; st_Tools : list string }.
(* [modules/mcp/manager.go:Manager.handleListServers@289-304] *)
Definition status_of (name : string) (c : Client) : ServerStatus :=
  {| st_Name := name; st_Transport := Transport_ (c_config c); Status := if IsConnected c then "connected" else "disconnected";
     ToolCount := Z.of_nat (length (Tools c)); st_Tools := t_Name <$> Tools c |}.
(* [modules/mcp/manager.go:Manager.handleListServers] *)
Definition handleListServers (pl : payload) (m : Manager) : list ServerStatus :=
  let prefix := list_tenant pl +:+ String nul "" in
  omap (fun kc => if has_prefix prefix kc.1 then Some (status_of (drop_bytes (String.length prefix) kc.1) kc.2) else None)
       (map_to_list (clients m)).
(* [modules/mcp/manager.go:Manager.handleServerTools] *)
Definition handleServerTools (pl : payload) (m : Manager) : Result (list MCPToolDef) :=
  match serverRef pl with
  | Err e => Err e
  | Ok (tenant, name) =>
      match clients m !! clientKey tenant name with
      | None => Err ("MCP server " +:+ quote name +:+ " not found") | Some c => Ok (Tools c)
      end
  end.
End Manager.

(** ** The marketplace *)

(* [modules/mcp/catalog.go:MCPCatalogEntry] *)
Record MCPCatalogEntry := {
  e_Name : string; e_Description : string; e_Command : string; e_Args : list string; e_URL : string; e_Transport : string;
  e_Env : gmap string string; e_Source : string; Homepage : string;
}.
Definition npx_entry (name description : string) (args : list string) (env : gmap string string) (homepage : string) : MCPCatalogEntry :=
  {| e_Name := name; e_Description := description; e_Command := "npx"; e_Args := "-y" :: args; e_URL := ""; e_Transport := "stdio";
     e_Env := env; e_Source := "builtin"; Homepage := homepage |}.
(* [modules/mcp/catalog.go:BuiltinMCPCatalog] *)
Definition BuiltinMCPCatalog : list MCPCatalogEntry :=
  [npx_entry "filesystem" "Read, write, and search files on the local filesystem" ["@modelcontextprotocol/server-filesystem"; "/tmp"]
     ∅ "https://github.com/modelcontextprotocol/servers";
   npx_entry "github" "Interact with GitHub repositories, issues, and pull requests" ["@modelcontextprotocol/server-github"]
     {["GITHUB_PERSONAL_ACCESS_TOKEN" := ""]} "";
   npx_entry "postgres" "Query PostgreSQL databases with read-only access" ["@modelcontextprotocol/server-postgres"]
     {["DATABASE_URL" := ""]} "";
   npx_entry "slack" "Send and read Slack messages, manage channels" ["@modelcontextprotocol/server-slack"] {["SLACK_BOT_TOKEN" := ""]} "";
   npx_entry "brave-search" "Web search via Brave Search API" ["@modelcontextprotocol/server-brave-search"] {["BRAVE_API_KEY" := ""]} "";
   npx_entry "memory" "Persistent memory using a knowledge graph" ["@modelcontextprotocol/server-memory"] ∅ "";
   npx_entry "sqlite" "Query and analyze SQLite databases" ["@modelcontextprotocol/server-sqlite"] ∅ "";
   npx_entry "puppeteer" "Browser automation with Puppeteer" ["@modelcontextprotocol/server-puppeteer"] ∅ ""].
(* [modules/mcp/catalog.go:SearchBuiltinMCPCatalog] *)
Definition SearchBuiltinMCPCatalog (ToLower : string -> string) (query : string) : list MCPCatalogEntry :=
  if decide (query = "") then BuiltinMCPCatalog
  else let query := ToLower query in
       filter (fun e => Contains (ToLower (e_Name e)) query = true \/ Contains (ToLower (e_Description e)) query = true) BuiltinMCPCatalog.
(* [modules/mcp/manager.go:Manager.handleMarketplaceSearch] *)
Definition handleMarketplaceSearch (ToLower : string -> string) (pl : payload) : list MCPCatalogEntry :=
  SearchBuiltinMCPCatalog ToLower (match pl with PString s => s | _ => "" end).
(** What the marketplace offers may be connected to. *)
Lemma catalog_admitted : Forall (fun e => base_name (e_Command e) ∈ allowedStdioCommands /\ e_Transport e = "stdio") BuiltinMCPCatalog.
Proof. repeat constructor; by left. Qed.

(** ** Whose servers an operation reaches *)

Lemma clientKey_inj t n t' n' : lacks nul t -> lacks nul t' -> clientKey t n = clientKey t' n' -> t = t' /\ n = n'.
Proof.
  unfold clientKey. intros Ht Ht' Heq. pose proof (f_equal (split nul) Heq) as Hs. rewrite !split_at in Hs by done.
  injection Hs as -> _. split; [done|]. apply (inj (String.append t')) in Heq. by injection Heq.
Qed.
Lemma has_key_prefix t k : has_prefix (t +:+ String nul "") k = true <-> exists n, k = clientKey t n.
Proof.
  rewrite has_prefix_spec. unfold clientKey. split.
  - intros [n ->]. exists n. by rewrite str_app_assoc.
  - intros [n ->]. exists n. by rewrite str_app_assoc.
Qed.
Lemma drop_key_prefix t n : drop_bytes (String.length (t +:+ String nul "")) (clientKey t n) = n.
Proof. unfold clientKey. induction t as [|c t IH]; [done|]. cbn. apply IH. Qed.
(** A listing shows exactly the servers of the tenant it is for. *)
Lemma handleListServers_spec pl m s : s ∈ handleListServers pl m <->
  exists name c, clients m !! clientKey (list_tenant pl) name = Some c /\ s = status_of name c.
Proof.
  unfold handleListServers. rewrite list_elem_of_omap. split.
  - intros ([k c] & Hin%elem_of_map_to_list & Hs). cbn [fst snd] in Hs.
    destruct (has_prefix _ k) eqn:Hp; [|done]. apply has_key_prefix in Hp as [n ->]. rewrite drop_key_prefix in Hs.
    simplify_eq. by exists n, c.
  - intros (n & c & Hc & ->). exists (clientKey (list_tenant pl) n, c). split; [by apply elem_of_map_to_list|]. cbn [fst snd].
    by rewrite (proj2 (has_key_prefix _ _)), drop_key_prefix by eauto.
Qed.

Section Isolation.
Context (decode_tools : option json -> Result (list MCPToolDef)) (sprint : json -> string).
Context (parse : string -> option (string * string)) (LookupIP : string -> option (list NetGuard.IP)).
Context (ip_text : NetGuard.IP -> string) (AllowPrivate : bool).
#[local] Abbreviation connectServer := (connectServer decode_tools sprint parse LookupIP ip_text AllowPrivate).
#[local] Abbreviation admitted := (admitted parse LookupIP ip_text AllowPrivate).
#[local] Abbreviation handleAddServer := (handleAddServer decode_tools sprint parse LookupIP ip_text AllowPrivate).

Inductive op := OAdd (started : option error) (p : peer) (pl : payload) | ORemove (pl : payload).
Definition exec (o : op) (m : Manager) : Manager :=
  match o with OAdd started p pl => (handleAddServer started p pl m).1 | ORemove pl => (handleRemoveServer pl m).1 end.
(** The tenant an operation names, when it names a server at all. *)
Definition addressee (o : op) : option string :=
  match o with
  | OAdd _ _ (PConfig c) => Some (tenantOf c) | OAdd _ _ (PAny l) => Some (tenantOf (config_of sprint l)) | OAdd _ _ _ => None
  | ORemove pl => match serverRef pl with Ok (t, _) => Some t | Err _ => None end
  end.

Lemma connectServer_clients started p cfg m k : k <> clientKey (tenantOf cfg) (s_Name cfg) ->
  clients (connectServer started p cfg m).1 !! k = clients m !! k.
Proof.
  intros Hk. unfold connectServer. destruct (admitted cfg); [done|].
  destruct (Connect _ _ _ _) as [c [e|]]; [done|]. cbn. by rewrite lookup_insert_ne.
Qed.
Lemma handleAddServer_exec started p pl m : (handleAddServer started p pl m).1 =
  match pl with PConfig c => (connectServer started p c m).1 | PAny l => (connectServer started p (config_of sprint l) m).1 | _ => m end.
Proof. unfold handleAddServer. destruct pl; try done; by destruct (connectServer _ _ _ _) as [? []]. Qed.
Lemma exec_clients o m t n : lacks nul t -> (forall t', addressee o = Some t' -> lacks nul t' /\ t' <> t) ->
  clients (exec o m) !! clientKey t n = clients m !! clientKey t n.
Proof.
  intros Ht Ha. assert (Hk : forall t' n', addressee o = Some t' -> clientKey t n <> clientKey t' n').
  { intros t' n' Hat Heq. destruct (Ha t' Hat) as [Hl Hne]. by apply clientKey_inj in Heq as [-> _]. }
  destruct o as [started p pl|pl]; cbn [exec].
  - rewrite handleAddServer_exec. destruct pl; try done; apply connectServer_clients, Hk; done.
  - unfold handleRemoveServer. cbn [addressee] in Hk. destruct (serverRef pl) as [[t' n']|]; [|done].
    destruct (clients m !! clientKey t' n') eqn:Hc; [|done]. cbn. rewrite lookup_delete_ne; [done|]. intros Heq. by apply (Hk t' n').
Qed.
(** Every connected server was let in: a process named npx, or an address the guard accepts. *)
Definition all_admitted (m : Manager) : Prop := map_Forall (fun _ c => admitted (c_config c) = None) (clients m).
Lemma transmit_config p method params c : c_config (transmit p method params c).1 = c_config c.
Proof. by unfold transmit, EncodeRequest. Qed.
Lemma Connect_config started p c : c_config (Connect decode_tools started p c).1 = c_config c.
Proof.
  unfold Connect. case_decide; [done|]. destruct (if decide _ then started else None); [done|].
  destruct (transmit p "initialize" _ c) as [c1 r] eqn:Ht. pose proof (transmit_config p "initialize" (Some init_params) c) as H1.
  rewrite Ht in H1. cbn [fst] in H1. destruct r as [| |resp]; try done. destruct (Error_ resp); [done|].
  unfold DiscoverTools. set (c2 := if decide _ then _ else c1).
  assert (H2 : c_config c2 = c_config c) by (subst c2; case_decide; by rewrite ?transmit_config).
  destruct (transmit p "tools/list" _ _) as [c3 r3] eqn:Ht3. pose proof (transmit_config p "tools/list" (Some (JObj [])) (with_initialized (c_tools c2) c2)) as H3.
  rewrite Ht3 in H3. cbn in *. congruence.
Qed.
Lemma connectServer_admitted started p cfg m : all_admitted m -> all_admitted (connectServer started p cfg m).1.
Proof.
  intros Hm. unfold connectServer. destruct (admitted cfg) eqn:Ha; [done|].
  pose proof (Connect_config started p (NewClient cfg)) as Hc. destruct (Connect _ _ _ _) as [c [e|]]; [done|]. cbn in *.
  apply map_Forall_insert_2; [|done]. by rewrite Hc.
Qed.
Lemma exec_admitted o m : all_admitted m -> all_admitted (exec o m).
Proof.
  intros Hm. destruct o as [started p pl|pl]; cbn [exec].
  - rewrite handleAddServer_exec. destruct pl; try done; by apply connectServer_admitted.
  - unfold handleRemoveServer. destruct (serverRef pl) as [[]|]; [|done].
    destruct (clients m !! _); [|done]. by apply map_Forall_delete.
Qed.

(** Whatever other tenants add and remove, a tenant's servers stay as they are and its
    listing shows them and nothing else, as long as no tenant's name holds a NUL; and at any time every
    connected server is a process whose command is called npx or an address the guard let through. *)
Lemma servers_isolated ops m t : lacks nul t -> t <> "" -> all_admitted m ->
  (forall o t', o ∈ ops -> addressee o = Some t' -> lacks nul t' /\ t' <> t) ->
  let m' := foldl (fun m o => exec o m) m ops in
  all_admitted m' /\ (forall n, clients m' !! clientKey t n = clients m !! clientKey t n) /\
  (forall s, s ∈ handleListServers (PString t) m' <->
     exists name c, clients m !! clientKey t name = Some c /\ s = status_of name c).
Proof.
  intros Ht Hne Ha Hops. cbv zeta. set (m' := foldl _ m ops).
  assert (Hcl : all_admitted m' /\ forall n, clients m' !! clientKey t n = clients m !! clientKey t n).
  { subst m'. revert m Ha. induction ops as [|o ops IH]; intros m Ha; [done|]. cbn [foldl].
    destruct (IH (fun o' t' Hin => Hops o' t' (list_elem_of_further _ _ _ Hin)) (exec o m) (exec_admitted o m Ha)) as [Ha' Hl].
    split; [done|]. intros n. rewrite Hl. apply exec_clients; [done|]. intros t'. apply Hops. by left. }
  destruct Hcl as [Ha' Hl]. split_and!; [done|done|]. intros s. rewrite handleListServers_spec.
  cbn [list_tenant]. rewrite decide_True by done. by setoid_rewrite Hl.
Qed.
End Isolation.

(** ** Examples *)

Definition demo_config (tenant : string) : ServerConfig :=
  {| s_Name := "github"; Command := "npx"; Args := []; URL := ""; Transport_ := "stdio"; Env := ∅; Scope := tenant |}.
(** A server with one tool, search. *)
Definition demo_tools (_ : option json) : Result (list MCPToolDef) := Ok [{| t_Name := "search"; t_Description := ""; InputSchema := [] |}].
Definition demo_peer : peer := fun _ rq => Answered (EncodeResponse (rq_ID rq) JNull).
Definition demo_add (tenant : string) : op := OAdd None demo_peer (PConfig (demo_config tenant)).
Definition demo_remove (tenant : string) : op := ORemove (PMap {["tenant" := tenant; "name" := "github"]}).
Definition demo_exec : op -> Manager -> Manager :=
  exec demo_tools (fun _ => "") (fun _ => None) (fun _ => None) (fun _ => "") false.
Definition demo_manager : Manager := demo_exec (demo_add "acme") (NewManager AgentSession.NewToolRegistry).
Lemma servers_isolated_witness :
  let m' := foldl (fun m o => demo_exec o m) demo_manager [demo_add "evil"; demo_remove "evil"] in
  clients m' !! clientKey "acme" "github" = clients demo_manager !! clientKey "acme" "github" /\
  is_Some (clients demo_manager !! clientKey "acme" "github") /\ length (handleListServers (PString "acme") m') = 1%nat.
Proof.
  cbv zeta. split; [|split; [by eexists|reflexivity]].
  apply (servers_isolated demo_tools (fun _ => "") (fun _ => None) (fun _ => None) (fun _ => "") false _ demo_manager "acme").
  - reflexivity.
  - done.
  - apply (connectServer_admitted _ _ _ _ _ _ None demo_peer (demo_config "acme") (NewManager AgentSession.NewToolRegistry)). done.
  - intros o t' Hin Ht'. apply elem_of_cons in Hin as [->|Hin%list_elem_of_singleton]; [|subst o]; vm_compute in Ht'; injection Ht' as <-; done.
Defined.

(** The servers are kept apart, their tools are not: two tenants with a server of one name share the
    registry's entry, and removing the one takes the other's tool away. *)
Example tools_shared_across_tenants :
  let both := demo_exec (demo_add "evil") demo_manager in
  AgentSession.List_ (registry both) = ["mcp_github_search"] /\
  AgentSession.List_ (registry (demo_exec (demo_remove "evil") both)) = [] /\
  is_Some (clients (demo_exec (demo_remove "evil") both) !! clientKey "acme" "github").
Proof. split_and!; [reflexivity|reflexivity|by eexists]. Qed.
(** The allowlist looks at the last path component only. *)
Example any_npx_is_admitted :
  let evil := {| s_Name := "x"; Command := "/tmp/uploads/npx"; Args := ["-y"; "anything"]; URL := ""; Transport_ := "stdio"; Env := ∅; Scope := "" |} in
  admitted (fun _ => None) (fun _ => None) (fun _ => "") false evil = None.
Proof. reflexivity. Qed.
(** A transport the guard checks but no client speaks. *)
Example sse_unsupported started p cfg : Transport_ cfg = "sse" ->
  (Connect demo_tools started p (NewClient cfg)).2 = Some "unsupported transport: sse".
Proof. intros H. unfold Connect. cbn. rewrite H. reflexivity. Qed.
