(* ===== verification/Eval.v ===== *)
(** * Eval: evaluation runs of agents

    [src/modules/eval]: types.go and runner.go.  A run sends its cases to the agents one after the
    other and scores the answers; what the agents answer, regular expressions, lower-casing and the
    formatting of a score are arguments. *)
From S2P Require Import Prelude GoStr GoText Float64.
From S2P Require AgentSession.
Local Open Scope go_scope.
Local Open Scope Z_scope.

(* [modules/eval/types.go:EvalCase] *)
Record EvalCase := {
  e_ID : string; e_Name : string; e_Agent : string; e_Tenant : string; Input : string; ExpectedOutput : string;
  ExpectedTools : list string; MatchMode : string;
}.
(* [modules/eval/types.go:EvalResult] *)
Record EvalResult := {
  CaseID : string; CaseName : string; Passed : bool; Score : float64; ActualOutput : string; ToolsUsed : list string;
  MatchDetails : string; Duration : duration;
}.
(* [modules/eval/types.go:EvalRun] *)
Record EvalRun := {
  r_ID : string; Status : string; Cases : list EvalCase; Results : list EvalResult; TotalScore : float64; PassRate : float64;
  StartedAt : time; CompletedAt : time;
}.
(* [modules/eval/runner.go:Runner] *)
Record Runner := { runs : gmap string EvalRun; counter : Z }.
(* [modules/eval/runner.go:New] *)
Definition New : Runner := {| runs := ∅; counter := 0 |}.

Definition fone : float64 := of_int 1.
Definition half : float64 := const 1 2.
Definition add_result (x : EvalResult) (r : EvalRun) : EvalRun :=
  {| r_ID := r_ID r; Status := Status r; Cases := Cases r; Results := Results r ++ [x]; TotalScore := TotalScore r;
     PassRate := PassRate r; StartedAt := StartedAt r; CompletedAt := CompletedAt r |}.

Section Scoring.
Context (ToLower : string -> string) (MatchString : string -> string -> Result bool) (fmt2 : float64 -> string).

Definition indicator (b : bool) : float64 := if b then fone else fzero.
(* [modules/eval/runner.go:scoreOutputErr] *)
Definition scoreOutputErr (c : EvalCase) (output : string) : Result float64 :=
  if decide (ExpectedOutput c = "") then Ok fone
  else
    let mode := if decide (MatchMode c = "") then "contains" else MatchMode c in
    if decide (mode = "exact") then Ok (indicator (bool_decide (TrimSpace output = TrimSpace (ExpectedOutput c))))
    else if decide (mode = "contains") then Ok (indicator (Contains (ToLower output) (ToLower (ExpectedOutput c))))
    else if decide (mode = "regex") then
      match MatchString (ExpectedOutput c) output with
      | Err e => Err ("invalid expected_output regex " +:+ quote (ExpectedOutput c) +:+ ": " +:+ e)
      | Ok matched => Ok (indicator matched)
      end
    else Ok fzero.
(* [modules/eval/runner.go:scoreOutput] *)
Definition scoreOutput (c : EvalCase) (output : string) : float64 :=
  match scoreOutputErr c output with Ok s => s | Err _ => fzero end.
Definition tools_matched (c : EvalCase) (toolsUsed : list string) : nat := length (filter (fun t => t ∈ toolsUsed) (ExpectedTools c)).
(* [modules/eval/runner.go:scoreTools] *)
Definition scoreTools (c : EvalCase) (toolsUsed : list string) : float64 :=
  if decide (length (ExpectedTools c) = 0)%nat then fone
  else const (Z.of_nat (tools_matched c toolsUsed)) (Z.of_nat (length (ExpectedTools c))).

(** What an agent answers: a reply, something that is none, or an error. *)
Inductive answer := Replied (r : AgentSession.ChatResponse) | Odd | Failed (e : error).
(* [modules/eval/runner.go:Runner.executeRun@93-130] *)
Definition score_case (c : EvalCase) (a : answer) (took : duration) : EvalResult :=
  let result passed score output tools details :=
    {| CaseID := e_ID c; CaseName := e_Name c; Passed := passed; Score := score; ActualOutput := output; ToolsUsed := tools;
       MatchDetails := details; Duration := took |} in
  match a with
  | Failed e => result false fzero "" [] ("Error: " +:+ e)
  | Odd => result false fzero "" [] ""
  | Replied resp =>
      let content := AgentSession.rs_Content resp in let tools := AgentSession.rs_ToolsUsed resp in
      let toolScore := scoreTools c tools in
      match scoreOutputErr c content with
      | Err e => result false fzero content tools ("scoring error: " +:+ e)
      | Ok outputScore =>
          let score := if decide (0 < length (ExpectedTools c))%nat then fdiv (fadd outputScore toolScore) (of_int 2) else outputScore in
          result (fle half score) score content tools ("output_score=" +:+ fmt2 outputScore +:+ " tool_score=" +:+ fmt2 toolScore)
      end
  end.

(** ** Runs *)

(** The request of a case, and a world that answers it, given the results so far. *)
(* [modules/eval/runner.go:Runner.executeRun@83-90] *)
Definition case_request (run : string) (c : EvalCase) : AgentSession.ChatRequest :=
  {| AgentSession.rq_Agent := e_Agent c; AgentSession.rq_Tenant := e_Tenant c; AgentSession.rq_User := "eval:" +:+ run;
     AgentSession.rq_Message := Input c; AgentSession.rq_Channel := ""; AgentSession.rq_ChannelID := "" |}.
Context (world : list EvalResult -> AgentSession.ChatRequest -> answer * duration).
Fixpoint run_cases (id : string) (cs : list EvalCase) (done : list EvalResult) : list EvalResult :=
  match cs with
  | [] => done
  | c :: cs => let '(a, took) := world done (case_request id c) in run_cases id cs (done ++ [score_case c a took])
  end.
Definition total_score (rs : list EvalResult) : float64 := foldl (fun s r => fadd s (Score r)) fzero rs.
Definition passed_count (rs : list EvalResult) : Z := Z.of_nat (length (filter (fun r => Passed r = true) rs)).
(* [modules/eval/runner.go:Runner.executeRun] *)
Definition executeRun (now : time) (r : EvalRun) : EvalRun :=
  let rs := run_cases (r_ID r) (Cases r) (Results r) in
  let n := of_int (Z.of_nat (length (Cases r))) in
  {| r_ID := r_ID r; Status := "completed"; Cases := Cases r; Results := rs;
     TotalScore := if decide (0 < length (Cases r))%nat then fdiv (total_score rs) n else TotalScore r;
     PassRate := if decide (0 < length (Cases r))%nat then fmul (fdiv (of_int (passed_count rs)) n) (of_int 100) else PassRate r;
     StartedAt := StartedAt r; CompletedAt := now |}.

(** A payload of cases, a string, or another value by its type. *)
Inductive payload := PCases (l : list EvalCase) | PString (s : string) | POther (type : string).
Definition go_type (p : payload) : string :=
  match p with PCases _ => "[]eval.EvalCase" | PString _ => "string" | POther t => t end.
(** The run is registered and answered with; its cases are run behind. *)
(* [modules/eval/runner.go:Runner.handleRun] *)
Definition handleRun (now : time) (p : payload) (r : Runner) : Runner * Result string :=
  match p with
  | PCases cases =>
      let c := wrap64 (counter r + 1) in let id := "eval_" +:+ itoa c in
      ({| runs := <[id := {| r_ID := id; Status := "running"; Cases := cases; Results := []; TotalScore := fzero; PassRate := fzero;
                             StartedAt := now; CompletedAt := 0 |}]> (runs r); counter := c |}, Ok id)
  | _ => (r, Err ("expected []EvalCase, got " +:+ go_type p))
  end.
(** The goroutine behind a run has finished. *)
Definition finish (now : time) (id : string) (r : Runner) : Runner :=
  {| runs := alter (executeRun now) id (runs r); counter := counter r |}.
(* [modules/eval/runner.go:Runner.handleStatus] *)
Definition handleStatus (p : payload) (r : Runner) : Result EvalRun :=
  let runID := match p with PString s => s | _ => "" end in
  match runs r !! runID with None => Err ("eval run " +:+ quote runID +:+ " not found") | Some run => Ok run end.
(* [modules/eval/runner.go:Runner.handleList] *)
Definition handleList (r : Runner) : list EvalRun := (map_to_list (runs r)).*2.
(* [modules/eval/runner.go:Runner.Health] *)
Definition Health (r : Runner) : string := itoa (Z.of_nat (size (runs r))) +:+ " eval runs".

(** ** What a run reports *)

Lemma run_cases_spec id cs done : exists rs, run_cases id cs done = done ++ rs /\
  CaseID <$> rs = e_ID <$> cs /\ CaseName <$> rs = e_Name <$> cs.
Proof.
  revert done. induction cs as [|c cs IH]; intros done; cbn [run_cases].
  - exists []. by rewrite app_nil_r.
  - destruct (world done (case_request id c)) as [a took]. destruct (IH (done ++ [score_case c a took])) as (rs & -> & Hi & Hn).
    exists (score_case c a took :: rs). rewrite <-app_assoc. split; [done|]. cbn. rewrite Hi, Hn.
    split; f_equal; unfold score_case; destruct a as [resp| |e]; try done; by destruct (scoreOutputErr _ _).
Qed.
(** A run reports one result per case, in order, under the case's id and name. *)
Lemma executeRun_results now r : Results r = [] ->
  Status (executeRun now r) = "completed" /\ length (Results (executeRun now r)) = length (Cases r) /\
  CaseID <$> Results (executeRun now r) = e_ID <$> Cases r.
Proof.
  intros Hr. unfold executeRun. cbn [Status Results]. rewrite Hr.
  destruct (run_cases_spec (r_ID r) (Cases r) []) as (rs & -> & Hi & _). cbn [app]. split_and!; [done| |done].
  apply (f_equal length) in Hi. by rewrite !length_fmap in Hi.
Qed.

(** The score of a case whose output fits or not, by how many expected tools were used. *)
Definition case_score (fits : bool) (matched expected : nat) : float64 :=
  if decide (0 < expected)%nat then
    fdiv (fadd (indicator fits) (const (Z.of_nat matched) (Z.of_nat expected))) (of_int 2)
  else indicator fits.
Definition threshold_exact (bound : nat) : bool :=
  forallb (fun n => forallb (fun m =>
    Bool.eqb (fle half (case_score true m n)) true && Bool.eqb (fle half (case_score false m n)) ((0 <? n)%nat && (m =? n)%nat)) (seq 0 (S n)))
  (seq 0 (S bound)).
Lemma threshold_small : threshold_exact 12 = true.
Proof. by vm_compute. Qed.
Lemma case_score_passes fits m n : (m <= n <= 12)%nat ->
  fle half (case_score fits m n) = fits || ((0 <? n)%nat && (m =? n)%nat).
Proof.
  intros Hmn. pose proof threshold_small as H. unfold threshold_exact in H. rewrite forallb_forall in H.
  specialize (H n ltac:(apply in_seq; lia)). rewrite forallb_forall in H. specialize (H m ltac:(apply in_seq; lia)).
  apply andb_true_iff in H as [H1 H2]. apply Bool.eqb_prop in H1, H2. by destruct fits.
Qed.
Lemma scoreOutputErr_indicator c output s : scoreOutputErr c output = Ok s -> exists fits, s = indicator fits.
Proof.
  unfold scoreOutputErr. repeat case_decide; try (destruct (MatchString _ _); [|done]); intros [= <-].
  all: first [by exists true|by exists false|eexists; reflexivity].
Qed.

(** When a case passes.  With at most 12 expected tools, an answered case passes exactly
    when its output fits the expectation or it expects tools and every one of them was used; it does
    not pass when the scoring failed, the agent failed, or its answer was no reply. *)
Lemma case_passes c a took : (length (ExpectedTools c) <= 12)%nat ->
  Passed (score_case c a took) = match a with
    | Replied resp => match scoreOutputErr c (AgentSession.rs_Content resp) with
                      | Err _ => false
                      | Ok s => flt fzero s || (bool_decide (ExpectedTools c <> []) &&
                                  forallb (fun t => bool_decide (t ∈ AgentSession.rs_ToolsUsed resp)) (ExpectedTools c))
                      end
    | _ => false
    end.
Proof.
  intros Hn. destruct a as [resp| |e]; [|done..]. unfold score_case.
  destruct (scoreOutputErr c (AgentSession.rs_Content resp)) as [s|e] eqn:Hs; [|done]. cbn [Passed].
  destruct (scoreOutputErr_indicator c _ s Hs) as [fits ->].
  set (n := length (ExpectedTools c)) in *. set (m := tools_matched c (AgentSession.rs_ToolsUsed resp)).
  assert (Hm : (m <= n)%nat) by apply length_filter.
  assert (Hall : (m =? n)%nat = forallb (fun t => bool_decide (t ∈ AgentSession.rs_ToolsUsed resp)) (ExpectedTools c)).
  { subst m n. unfold tools_matched. clear. induction (ExpectedTools c) as [|t l IH]; [done|]. cbn [forallb length].
    rewrite filter_cons. case_decide as Ht; [rewrite bool_decide_eq_true_2 by done|rewrite bool_decide_eq_false_2 by done]; [exact IH|].
    apply Nat.eqb_neq. pose proof (length_filter (fun t => t ∈ AgentSession.rs_ToolsUsed resp) l). lia. }
  assert (Hscore : (if decide (0 < n)%nat then fdiv (fadd (indicator fits) (scoreTools c (AgentSession.rs_ToolsUsed resp))) (of_int 2)
    else indicator fits) = case_score fits m n).
  { unfold case_score, scoreTools. case_decide; [|done]. fold n. by rewrite decide_False by lia. }
  rewrite Hscore, case_score_passes by lia. rewrite <-Hall. f_equal; [by destruct fits|]. f_equal.
  subst n. by destruct (ExpectedTools c).
Qed.
End Scoring.

(** ** Examples *)

Definition demo_case (output : string) (tools : list string) : EvalCase :=
  {| e_ID := "c1"; e_Name := "weather"; e_Agent := "ann"; e_Tenant := "acme"; Input := "Will it rain?"; ExpectedOutput := output;
     ExpectedTools := tools; MatchMode := "" |}.
Definition demo_reply (content : string) (tools : list string) : answer :=
  Replied {| AgentSession.rs_Agent := "ann"; AgentSession.rs_Content := content; AgentSession.rs_ToolsUsed := tools |}.
Definition demo_score : EvalCase -> answer -> duration -> EvalResult :=
  score_case (fun s => s) (fun _ _ => Err "regexp") (fun _ => "").
(** The output that must appear does not, and the case passes for the tool that was used. *)
Lemma case_passes_witness :
  (length (ExpectedTools (demo_case "sunny" ["forecast"])) <= 12)%nat /\
  Passed (demo_score (demo_case "sunny" ["forecast"]) (demo_reply "rain" ["forecast"]) 5) = true.
Proof.
  split; [cbn; lia|]. unfold demo_score.
  rewrite (case_passes (fun s => s) (fun _ _ => Err "regexp") (fun _ => "") (demo_case "sunny" ["forecast"])) by (cbn; lia). reflexivity.
Defined.
