(* ===== verification/Trajectory.v ===== *)
(** * Trajectory: recorded turns, their store and their compact form

    [src/modules/eval]: trajectory_types.go, trajectory.go, trajectory_store.go, compress.go.  Redaction
    is the runtime's ([Redact]); the content hash, random identifiers and the JSON codec are arguments. *)
From S2P Require Import Prelude GoStr GoText Calendar.
From S2P Require AgentSession Redact Regexp.
Local Open Scope go_scope.
Local Open Scope Z_scope.

(* [modules/eval/trajectory_types.go:TrajectorySchemaRaw@8-8] *)
Definition TrajectorySchemaRaw : string := "cyntr.trajectory/v1".
(* [modules/eval/trajectory_types.go:TrajectorySchemaCompact@9-9] *)
Definition TrajectorySchemaCompact : string := "cyntr.trajectory.compact/v1".
(* [modules/eval/trajectory_types.go:TrajectoryStep] *)
Record TrajectoryStep := { Index : Z; Tool : string; Input : string; Observation : string }.
(* [modules/eval/trajectory_types.go:Trajectory] *)
Record Trajectory := {
  t_ID : string; Schema : string; t_Tenant : string; t_User : string; t_Agent : string; t_Session : string; t_Model : string;
  Suite : string; RunID : string; Prompt : string; Steps : list TrajectoryStep; t_Output : string; t_Outcome : string;
  t_ToolCalls : Z; t_Turns : Z; t_Subagent : bool; CreatedAt : time;
}.
(* [modules/eval/trajectory_types.go:newTrajectoryStep] *)
Definition newTrajectoryStep (i : Z) (tool : string) : TrajectoryStep :=
  {| Index := i; Tool := tool; Input := ""; Observation := "" |}.
(* [modules/eval/trajectory.go:trajectoryFromTurn] *)
Definition trajectoryFromTurn (now : time) (rec : AgentSession.TurnRecord) : Trajectory :=
  {| t_ID := ""; Schema := TrajectorySchemaRaw; t_Tenant := AgentSession.t_Tenant rec; t_User := AgentSession.t_User rec;
     t_Agent := AgentSession.t_Agent rec; t_Session := AgentSession.t_Session rec; t_Model := AgentSession.t_Model rec;
     Suite := ""; RunID := ""; Prompt := AgentSession.t_UserMessage rec;
     Steps := imap (fun i tool => newTrajectoryStep (Z.of_nat i) tool) (AgentSession.t_ToolsUsed rec);
     t_Output := AgentSession.t_Response rec; t_Outcome := AgentSession.t_Outcome rec; t_ToolCalls := AgentSession.t_ToolCalls rec;
     t_Turns := AgentSession.t_Turns rec; t_Subagent := AgentSession.t_Subagent rec; CreatedAt := now |}.

Section Trajectories.
(** The operator's own secret patterns. *)
Context (custom : list Regexp.regexp).

Definition scrub (s : string) : string := Redact.RedactPII (Redact.MaskSecrets custom s).
(* [modules/eval/trajectory_store.go:sanitizeTrajectory] *)
Definition sanitizeTrajectory (t : Trajectory) : Trajectory :=
  {| t_ID := t_ID t; Schema := Schema t; t_Tenant := t_Tenant t; t_User := t_User t; t_Agent := t_Agent t; t_Session := t_Session t;
     t_Model := t_Model t; Suite := Suite t; RunID := RunID t; Prompt := scrub (Prompt t);
     Steps := (fun s => {| Index := Index s; Tool := Tool s; Input := scrub (Input s); Observation := scrub (Observation s) |}) <$> Steps t;
     t_Output := scrub (t_Output t); t_Outcome := t_Outcome t; t_ToolCalls := t_ToolCalls t; t_Turns := t_Turns t;
     t_Subagent := t_Subagent t; CreatedAt := CreatedAt t |}.

(** ** The store *)

(** A row: the trajectory and the text its time is sorted by.  The steps are kept as they are decoded. *)
Record Row := { r_trajectory : Trajectory; created_at : string }.
Definition with_defaults (id : string) (now : time) (t : Trajectory) : Trajectory :=
  {| t_ID := if decide (t_ID t = "") then id else t_ID t;
     Schema := if decide (Schema t = "") then TrajectorySchemaRaw else Schema t; t_Tenant := t_Tenant t; t_User := t_User t;
     t_Agent := t_Agent t; t_Session := t_Session t; t_Model := t_Model t; Suite := Suite t; RunID := RunID t; Prompt := Prompt t;
     Steps := Steps t; t_Output := t_Output t; t_Outcome := t_Outcome t; t_ToolCalls := t_ToolCalls t; t_Turns := t_Turns t;
     t_Subagent := t_Subagent t; CreatedAt := if IsZero (CreatedAt t) then now else CreatedAt t |}.
(** [id] is the fresh random identifier, [fault] the error of the statement when it fails; identifiers
    are unique. *)
(* [modules/eval/trajectory_store.go:TrajectoryStore.Insert] *)
Definition Insert (id : string) (now : time) (fault : option error) (t : Trajectory) (db : list Row) : list Row * option error :=
  if decide (t_Tenant t = "" \/ t_Agent t = "") then (db, Some "trajectory: tenant and agent are required")
  else
    let t := sanitizeTrajectory (with_defaults id now t) in
    match fault with
    | Some e => (db, Some ("trajectory: insert: " +:+ e))
    | None =>
        if decide (t_ID t ∈ (fun r => t_ID (r_trajectory r)) <$> db) then
          (db, Some "trajectory: insert: constraint failed: UNIQUE constraint failed: trajectories.id")
        else (db ++ [{| r_trajectory := t; created_at := RFC3339Nano (CreatedAt t) |}], None)
    end.
(** Descending by the text of the time; rows of one text come in the order of the index on it. *)
Definition newest_first (a b : Row) : Prop := string_le (created_at b) (created_at a).
#[export] Instance newest_first_dec a b : Decision (newest_first a b).
Proof. unfold newest_first. apply _. Defined.
(* [modules/eval/trajectory_store.go:TrajectoryStore.List] *)
Definition List_ (fault : option error) (tenant agentFilter runID : string) (limit : Z) (db : list Row) : Result (list Trajectory) :=
  if decide (tenant = "") then Err "trajectory: tenant is required"
  else
    let limit := if decide (limit <= 0) then 100 else limit in
    match fault with
    | Some e => Err ("trajectory: list: " +:+ e)
    | None =>
        Ok (r_trajectory <$> take (Z.to_nat limit) (merge_sort newest_first
          (filter (fun r => t_Tenant (r_trajectory r) = tenant /\ (agentFilter = "" \/ t_Agent (r_trajectory r) = agentFilter) /\
                            (runID = "" \/ RunID (r_trajectory r) = runID)) db)))
    end.
(* [modules/eval/trajectory_store.go:TrajectoryStore.Count] *)
Definition Count (tenant runID : string) (db : list Row) : Z :=
  Z.of_nat (length (filter (fun r => t_Tenant (r_trajectory r) = tenant /\ (runID = "" \/ RunID (r_trajectory r) = runID)) db)).

(** ** The module *)

(** The opted-in keys and the store. *)
(* [modules/eval/trajectory.go:TrajectoryModule] *)
Record Module_ := { recording : gset string; store : list Row }.
(* [modules/eval/trajectory.go:recordingKey] *)
Definition recordingKey (tenant agentName : string) : string :=
  tenant +:+ "/" +:+ (if decide (agentName = "") then "*" else agentName).
(* [modules/eval/trajectory.go:TrajectoryModule.SetRecording] *)
Definition SetRecording (tenant agentName : string) (on : bool) (m : Module_) : Module_ :=
  if decide (tenant = "") then m
  else let key := recordingKey tenant agentName in
       {| recording := if on then recording m ∪ {[key]} else recording m ∖ {[key]}; store := store m |}.
(* [modules/eval/trajectory.go:TrajectoryModule.isRecording] *)
Definition isRecording (tenant agentName : string) (m : Module_) : bool :=
  bool_decide (recordingKey tenant "*" ∈ recording m) || bool_decide (recordingKey tenant agentName ∈ recording m).
Definition with_store (l : list Row) (m : Module_) : Module_ := {| recording := recording m; store := l |}.
(** A failed insertion is logged. *)
(* [modules/eval/trajectory.go:TrajectoryModule.handleTurnCompleted] *)
Definition handleTurnCompleted (id : string) (now : time) (fault : option error) (rec : option AgentSession.TurnRecord) (m : Module_) : Module_ :=
  match rec with
  | None => m
  | Some rec =>
      if negb (isRecording (AgentSession.t_Tenant rec) (AgentSession.t_Agent rec) m) then m
      else with_store (Insert id now fault (trajectoryFromTurn now rec) (store m)).1 m
  end.
(** The identifier answered with is the request's: one that was made up is not in it. *)
(* [modules/eval/trajectory.go:TrajectoryModule.handleRecord] *)
Definition handleRecord (id : string) (now : time) (fault : option error) (t : Trajectory) (force : bool) (m : Module_)
    : Module_ * Result (gmap string string) :=
  if decide (t_Tenant t = "" \/ t_Agent t = "") then (m, Err "trajectory.record: tenant and agent are required")
  else if negb force && negb (isRecording (t_Tenant t) (t_Agent t) m) then (m, Ok {["status" := "skipped"]})
  else
    match Insert id now fault t (store m) with
    | (_, Some e) => (m, Err e)
    | (db, None) => (with_store db m, Ok {["status" := "ok"; "id" := t_ID t]})
    end.
(** [encode] writes a trajectory as one line. *)
Context (encode : Trajectory -> Result string).
(* [modules/eval/trajectory.go:WriteJSONL] *)
Fixpoint WriteJSONL (l : list Trajectory) : Result string :=
  match l with
  | [] => Ok ""
  | t :: l => match encode t with
              | Err e => Err ("trajectory: jsonl encode: " +:+ e)
              | Ok line => match WriteJSONL l with Ok rest => Ok (line +:+ nl +:+ rest) | Err e => Err e end
              end
  end.
(* [modules/eval/trajectory.go:TrajectoryModule.handleExport] *)
Definition handleExport (fault : option error) (tenant agent runID : string) (limit : Z) (m : Module_) : Result string :=
  if decide (tenant = "") then Err "trajectory.export: tenant is required"
  else match List_ fault tenant agent runID limit (store m) with Err e => Err e | Ok l => WriteJSONL l end.
(* [modules/eval/trajectory.go:TrajectoryModule.handleSetRecording] *)
Definition handleSetRecording (tenant agent : string) (on : bool) (m : Module_) : Module_ * option error :=
  if decide (tenant = "") then (m, Some "trajectory.set_recording: tenant is required") else (SetRecording tenant agent on m, None).

(** ** The compact form *)

(* [modules/eval/compress.go:CompactStep] *)
Record CompactStep := { c_Index : Z; c_Tool : string; InRef : string; OutRef : string }.
(* [modules/eval/compress.go:CompactTrajectory] *)
Record CompactTrajectory := {
  c_ID : string; c_Schema : string; c_Tenant : string; c_Agent : string; c_Session : string; c_Model : string; c_Suite : string;
  c_RunID : string; c_Prompt : string; c_Steps : list CompactStep; c_Output : string; c_Outcome : string; c_ToolCalls : Z;
  c_Turns : Z; Blobs : gmap string string;
}.
(* [modules/eval/compress.go:normalizeWhitespace] *)
Definition normalizeWhitespace (s : string) : string := Join (Fields s) " ".
Definition tidy (s : string) : string := normalizeWhitespace (scrub s).
(** The hash in hexadecimal. *)
Context (blobHash : string -> string).
(* [modules/eval/compress.go:Compress@80-88] *)
Definition intern (blobs : gmap string string) (s : string) : gmap string string * string :=
  let s := tidy s in if decide (s = "") then (blobs, "") else (<[blobHash s := s]> blobs, blobHash s).
Fixpoint compress_steps (blobs : gmap string string) (l : list TrajectoryStep) : gmap string string * list CompactStep :=
  match l with
  | [] => (blobs, [])
  | st :: l =>
      let '(blobs, i) := intern blobs (Input st) in
      let '(blobs, o) := intern blobs (Observation st) in
      let '(blobs, l) := compress_steps blobs l in
      (blobs, {| c_Index := Index st; c_Tool := Tool st; InRef := i; OutRef := o |} :: l)
  end.
(* [modules/eval/compress.go:Compress] *)
Definition Compress (t : Trajectory) : CompactTrajectory :=
  let '(blobs, steps) := compress_steps ∅ (Steps t) in
  {| c_ID := t_ID t; c_Schema := TrajectorySchemaCompact; c_Tenant := t_Tenant t; c_Agent := t_Agent t; c_Session := t_Session t;
     c_Model := t_Model t; c_Suite := Suite t; c_RunID := RunID t; c_Prompt := tidy (Prompt t); c_Steps := steps;
     c_Output := tidy (t_Output t); c_Outcome := t_Outcome t; c_ToolCalls := t_ToolCalls t; c_Turns := t_Turns t; Blobs := blobs |}.
(* [modules/eval/compress.go:Expand] *)
Definition Expand (ct : CompactTrajectory) : Trajectory :=
  {| t_ID := c_ID ct; Schema := TrajectorySchemaRaw; t_Tenant := c_Tenant ct; t_User := ""; t_Agent := c_Agent ct;
     t_Session := c_Session ct; t_Model := c_Model ct; Suite := c_Suite ct; RunID := c_RunID ct; Prompt := c_Prompt ct;
     Steps := (fun cs => {| Index := c_Index cs; Tool := c_Tool cs; Input := default "" (Blobs ct !! InRef cs);
                            Observation := default "" (Blobs ct !! OutRef cs) |}) <$> c_Steps ct;
     t_Output := c_Output ct; t_Outcome := c_Outcome ct; t_ToolCalls := c_ToolCalls ct; t_Turns := c_Turns ct;
     t_Subagent := false; CreatedAt := 0 |}.
(** Lines of trajectories in, lines of compact ones out; [line] decodes, [write] encodes. *)
(* [modules/eval/compress.go:CompressStream] *)
Fixpoint CompressStream (decode : string -> Result Trajectory) (write : CompactTrajectory -> Result string) (scan_error : option error)
    (lines : list string) (n : Z) : list string * (Z * option error) :=
  match lines with
  | [] => ([], (n, (fun e => "compress: read: " +:+ e) <$> scan_error))
  | l :: lines =>
      let line := TrimSpace l in
      if decide (line = "") then CompressStream decode write scan_error lines n
      else
        match decode line with
        | Err e => ([], (n, Some ("compress: line " +:+ itoa (n + 1) +:+ ": " +:+ e)))
        | Ok t =>
            match write (Compress t) with
            | Err e => ([], (n, Some ("compress: encode line " +:+ itoa (n + 1) +:+ ": " +:+ e)))
            | Ok out => let '(outs, r) := CompressStream decode write scan_error lines (n + 1) in (out :: outs, r)
            end
        end
  end.

(** *** What the compact form keeps *)

Definition contents (l : list TrajectoryStep) : list string := l ≫= fun st => [tidy (Input st); tidy (Observation st)].
Definition tidy_step (st : TrajectoryStep) : TrajectoryStep :=
  {| Index := Index st; Tool := Tool st; Input := tidy (Input st); Observation := tidy (Observation st) |}.
Definition resolve (blobs : gmap string string) (cs : CompactStep) : TrajectoryStep :=
  {| Index := c_Index cs; Tool := c_Tool cs; Input := default "" (blobs !! InRef cs); Observation := default "" (blobs !! OutRef cs) |}.
(** The trajectory with its texts redacted and their white space normal, and without the fields the
    compact form leaves out. *)
Definition tidied (t : Trajectory) : Trajectory :=
  {| t_ID := t_ID t; Schema := TrajectorySchemaRaw; t_Tenant := t_Tenant t; t_User := ""; t_Agent := t_Agent t; t_Session := t_Session t;
     t_Model := t_Model t; Suite := Suite t; RunID := RunID t; Prompt := tidy (Prompt t); Steps := tidy_step <$> Steps t;
     t_Output := tidy (t_Output t); t_Outcome := t_Outcome t; t_ToolCalls := t_ToolCalls t; t_Turns := t_Turns t;
     t_Subagent := false; CreatedAt := 0 |}.

Section Blobs.
Context (texts : list string).
Context (collision_free : forall s s', s ∈ texts -> s' ∈ texts -> blobHash s = blobHash s' -> s = s').
Context (hash_nonempty : forall s, blobHash s <> "").
(** Every blob is under its hash. *)
Definition addressed (b : gmap string string) : Prop := map_Forall (fun h s => h = blobHash s /\ s ∈ texts) b.
Lemma addressed_empty b : addressed b -> b !! "" = None.
Proof. intros Hb. destruct (b !! "") as [s|] eqn:Hs; [|done]. by destruct (Hb _ _ Hs) as [?%eq_sym%hash_nonempty _]. Qed.
Lemma intern_spec b s b' h : tidy s ∈ texts -> addressed b -> intern b s = (b', h) ->
  addressed b' /\ b ⊆ b' /\ default "" (b' !! h) = tidy s.
Proof.
  intros Hin Hb. unfold intern. case_decide as He; intros [= <- <-].
  - split_and!; [done|done|]. by rewrite addressed_empty.
  - split_and!; [by apply map_Forall_insert_2| |by rewrite lookup_insert_eq].
    destruct (b !! blobHash (tidy s)) as [s'|] eqn:Hs; [|by apply insert_subseteq].
    destruct (Hb _ _ Hs) as [Hh Hs']. rewrite insert_id; [done|]. by rewrite Hs, (collision_free (tidy s) s').
Qed.
Lemma resolve_weaken b b' h s : addressed b' -> b ⊆ b' -> default "" (b !! h) = s -> (h = "" \/ is_Some (b !! h)) -> default "" (b' !! h) = s.
Proof.
  intros Hb' Hsub Hd [->|[x Hx]].
  - pose proof (addressed_empty b' Hb') as He. by rewrite He, <-Hd, (lookup_weaken_None _ _ _ He Hsub).
  - rewrite Hx in Hd. by rewrite (lookup_weaken _ _ _ _ Hx Hsub).
Qed.
Lemma intern_ref b s b' h : intern b s = (b', h) -> h = "" \/ is_Some (b' !! h).
Proof. unfold intern. case_decide; intros [= <- <-]; [by left|right]. rewrite lookup_insert_eq. by eexists. Qed.
Lemma compress_steps_spec l b b' cs : (forall s, s ∈ contents l -> s ∈ texts) -> addressed b -> compress_steps b l = (b', cs) ->
  addressed b' /\ b ⊆ b' /\ resolve b' <$> cs = tidy_step <$> l.
Proof.
  revert b cs. induction l as [|st l IH]; intros b cs Hl Hb; cbn [compress_steps]; [by intros [= <- <-]|].
  assert (Hst : tidy (Input st) ∈ texts /\ tidy (Observation st) ∈ texts /\ forall s, s ∈ contents l -> s ∈ texts).
  { split_and!; [apply Hl; by left|apply Hl; right; by left|]. intros s Hs. apply Hl. right. by right. }
  destruct Hst as (Hi & Ho & Hl'). destruct (intern b (Input st)) as [b1 i] eqn:H1.
  destruct (intern b1 (Observation st)) as [b2 o] eqn:H2. destruct (compress_steps b2 l) as [b3 cs3] eqn:H3. intros [= <- <-].
  destruct (intern_spec b _ b1 i Hi Hb H1) as (Hb1 & Hs1 & Hd1). destruct (intern_spec b1 _ b2 o Ho Hb1 H2) as (Hb2 & Hs2 & Hd2).
  destruct (IH b2 cs3 Hl' Hb2 H3) as (Hb3 & Hs3 & Hr3). split_and!; [done|by do 2 etrans|].
  cbn [fmap list_fmap]. f_equal; [|exact Hr3]. unfold resolve, tidy_step. cbn. f_equal.
  - apply (resolve_weaken b1); [done|by etrans|done|by eapply intern_ref].
  - apply (resolve_weaken b2); [done|done|done|by eapply intern_ref].
Qed.
End Blobs.

(** C36 [roundtrip]: compression keeps the decision sequence and loses nothing but what redaction and
    white space take: expanding what a trajectory was compressed to gives back its steps in order, with
    their tools and their tidied inputs and observations, its tidied prompt and output, and every other
    field of the compact form, whenever the content hash tells the trajectory's texts apart. *)
Theorem expand_compress t :
  (forall s s', s ∈ contents (Steps t) -> s' ∈ contents (Steps t) -> blobHash s = blobHash s' -> s = s') ->
  (forall s, blobHash s <> "") -> Expand (Compress t) = tidied t.
Proof.
  intros Hinj Hne. unfold Compress. destruct (compress_steps ∅ (Steps t)) as [blobs cs] eqn:Hc.
  assert (He : addressed (contents (Steps t)) ∅) by apply map_Forall_empty.
  destruct (compress_steps_spec _ Hinj Hne (Steps t) ∅ blobs cs (fun _ H => H) He Hc) as (_ & _ & Hr).
  unfold Expand, tidied. cbn. f_equal. exact Hr.
Qed.
(** Whatever the hash, the tools and their order are kept. *)
Lemma compress_decisions t : (fun cs => (c_Index cs, c_Tool cs)) <$> c_Steps (Compress t) = (fun st => (Index st, Tool st)) <$> Steps t.
Proof.
  unfold Compress. destruct (compress_steps ∅ (Steps t)) as [blobs cs] eqn:Hc. cbn [c_Steps].
  revert Hc. generalize (∅ : gmap string string) as b. revert cs. induction (Steps t) as [|st l IH]; intros cs b; cbn [compress_steps].
  - by intros [= <- <-].
  - destruct (intern b _) as [b1 i], (intern b1 _) as [b2 o], (compress_steps b2 l) as [b3 cs3] eqn:H3. intros [= <- <-].
    cbn. f_equal. by eapply IH.
Qed.
End Trajectories.

(** ** Recording is opt-in *)
Section OptIn.
Context (custom : list Regexp.regexp).
#[local] Abbreviation Insert := (Insert custom).

Inductive op := OTurn (id : string) (now : time) (fault : option error) (rec : option AgentSession.TurnRecord)
  | ORecord (id : string) (now : time) (fault : option error) (t : Trajectory) (force : bool) | OSet (tenant agent : string) (on : bool).
Definition exec (o : op) (m : Module_) : Module_ :=
  match o with
  | OTurn id now fault rec => handleTurnCompleted custom id now fault rec m
  | ORecord id now fault t force => (handleRecord custom id now fault t force m).1
  | OSet tenant agent on => (handleSetRecording tenant agent on m).1
  end.
(** An operation that asks for a tenant's turns to be kept. *)
Definition asks_for (tenant : string) (o : op) : Prop :=
  match o with OTurn _ _ _ _ => False | ORecord _ _ _ t force => force = true /\ t_Tenant t = tenant | OSet t _ on => on = true /\ t = tenant end.
Definition set_tenants_plain (o : op) : Prop := match o with OSet t _ true => lacks "/" t | _ => True end.
(** No key of the tenant, no row of the tenant. *)
Definition unrecorded (tenant : string) (m : Module_) : Prop :=
  (forall k, k ∈ recording m -> exists t a, k = recordingKey t a /\ lacks "/" t /\ t <> tenant) /\
  Forall (fun r => t_Tenant (r_trajectory r) <> tenant) (store m).
Lemma recordingKey_tenant t a t' a' : lacks "/" t -> lacks "/" t' -> recordingKey t a = recordingKey t' a' -> t = t'.
Proof.
  unfold recordingKey. intros Ht Ht' Heq. apply (f_equal (split "/")) in Heq.
  change ("/" +:+ ?x) with (String "/" x) in Heq. rewrite !split_at in Heq by done. by injection Heq.
Qed.
Lemma unrecorded_off tenant a m : lacks "/" tenant -> unrecorded tenant m -> isRecording tenant a m = false.
Proof.
  intros Ht [Hk _]. assert (Hno : forall x, recordingKey tenant x ∉ recording m).
  { intros x (t & y & Heq & Hl & Hne)%Hk. by apply recordingKey_tenant in Heq as ->. }
  unfold isRecording. by rewrite !bool_decide_eq_false_2.
Qed.
Lemma Insert_tenant id now fault t db db' e tenant : Insert id now fault t db = (db', e) -> t_Tenant t <> tenant ->
  Forall (fun r => t_Tenant (r_trajectory r) <> tenant) db -> Forall (fun r => t_Tenant (r_trajectory r) <> tenant) db'.
Proof.
  intros Hi Hne Hdb. unfold Insert in Hi. case_decide; [by simplify_eq|]. destruct fault; [by simplify_eq|].
  case_decide; simplify_eq; [done|]. apply Forall_app. split; [done|]. by apply Forall_singleton.
Qed.
Lemma exec_unrecorded tenant o m : lacks "/" tenant -> set_tenants_plain o -> ~ asks_for tenant o -> unrecorded tenant m ->
  unrecorded tenant (exec o m).
Proof.
  intros Ht Hp Ha Hm. pose proof Hm as [Hk Hs]. destruct o as [id now fault rec|id now fault t force|t a on]; cbn [exec].
  - unfold handleTurnCompleted. destruct rec as [rec|]; [|done]. destruct (isRecording _ _ m) eqn:Hr; cbn [negb]; [|done].
    destruct (Insert _ _ _ _ _) as [db e] eqn:Hi. split; [done|]. cbn. eapply Insert_tenant; [exact Hi| |done].
    cbn. intros Heq. rewrite Heq, unrecorded_off in Hr; done.
  - unfold handleRecord. case_decide; [done|]. destruct (negb force && negb (isRecording _ _ m)) eqn:Hr; [done|].
    destruct (Insert _ _ _ _ _) as [db [e|]] eqn:Hi; [done|]. split; [done|]. cbn. eapply Insert_tenant; [exact Hi| |done].
    intros Heq. rewrite Heq, unrecorded_off in Hr by done. destruct force; [|done]. by apply Ha.
  - unfold handleSetRecording, SetRecording. case_decide; [done|]. cbn [fst]. split; [|done].
    cbn [recording]. intros k. destruct on; [|intros [Hin _]%elem_of_difference; by apply Hk].
    intros [Hin| ->%elem_of_singleton]%elem_of_union; [by apply Hk|]. exists t, a. split_and!; [done|done|]. intros ->. by apply Ha.
Qed.

(** Recording is off until a tenant asks for it: while nobody opts the tenant in and nothing
    is recorded for it by force, no history of turns, records and settings of other tenants leaves a row of
    the tenant in the store, as long as no tenant's name holds a slash. *)
Lemma recording_opt_in tenant ops m : lacks "/" tenant -> Forall set_tenants_plain ops -> Forall (fun o => ~ asks_for tenant o) ops ->
  unrecorded tenant m ->
  let m' := foldl (fun m o => exec o m) m ops in
  (forall a, isRecording tenant a m' = false) /\ Count tenant "" (store m') = 0 /\
  forall agent run limit l, List_ None tenant agent run limit (store m') = Ok l -> l = [].
Proof.
  intros Ht Hp Ha Hm. cbv zeta. set (m' := foldl _ m ops). assert (Hm' : unrecorded tenant m').
  { subst m'. revert m Hm. induction ops as [|o ops IH]; intros m Hm; [done|]. apply Forall_cons in Hp as [? ?], Ha as [? ?].
    cbn [foldl]. apply IH; [done|done|]. by apply exec_unrecorded. }
  assert (Hf : forall P `{!forall r, Decision (P r)}, filter (fun r => t_Tenant (r_trajectory r) = tenant /\ P r) (store m') = []).
  { intros P HP. destruct Hm' as [_ Hs]. induction Hs as [|r l Hr Hs IH]; [done|]. rewrite filter_cons_False; [done|tauto]. }
  split_and!.
  - intros a. by apply unrecorded_off.
  - unfold Count. by rewrite Hf.
  - intros agent run limit l. unfold List_. case_decide; [done|]. intros [= <-]. rewrite Hf. change (merge_sort newest_first []) with (@nil Row). by destruct (Z.to_nat _).
Qed.
End OptIn.

(** ** Examples *)

Definition demo_trajectory (id tenant agent : string) (steps : list TrajectoryStep) (t : time) : Trajectory :=
  {| t_ID := id; Schema := ""; t_Tenant := tenant; t_User := "u"; t_Agent := agent; t_Session := ""; t_Model := ""; Suite := "";
     RunID := ""; Prompt := "hi"; Steps := steps; t_Output := "done"; t_Outcome := "ok"; t_ToolCalls := 1; t_Turns := 1;
     t_Subagent := false; CreatedAt := t |}.
Definition demo_steps : list TrajectoryStep :=
  [{| Index := 0; Tool := "http"; Input := "get  x"; Observation := "" |}; {| Index := 1; Tool := "shell"; Input := "get x"; Observation := "ok" |}].
(** A hash for the example: the text, marked. *)
Definition demo_hash (s : string) : string := "#" +:+ s.
Lemma expand_compress_witness :
  let t := demo_trajectory "t1" "acme" "ann" demo_steps 0 in
  Expand (Compress [] demo_hash t) = tidied [] t /\ size (Blobs (Compress [] demo_hash t)) = 2%nat.
Proof.
  cbv zeta. split; [|by vm_compute]. apply expand_compress; [|done].
  intros s s' _ _ Heq. unfold demo_hash in Heq. by injection Heq.
Defined.
Definition demo_turn (tenant : string) : AgentSession.TurnRecord :=
  {| AgentSession.t_Tenant := tenant; AgentSession.t_User := "u"; AgentSession.t_Session := "s"; AgentSession.t_Agent := "ann";
     AgentSession.t_Model := ""; AgentSession.t_UserMessage := "hi"; AgentSession.t_Response := "yo"; AgentSession.t_ToolsUsed := [];
     AgentSession.t_ToolCalls := 0; AgentSession.t_Turns := 1; AgentSession.t_InputTokens := 0; AgentSession.t_OutputTokens := 0;
     AgentSession.t_TotalTokens := 0; AgentSession.t_Outcome := "ok"; AgentSession.t_DurationMS := 0; AgentSession.t_StartedAt := 0;
     AgentSession.t_Subagent := false |}.
Definition empty_module : Module_ := {| recording := ∅; store := [] |}.
Definition demo_ops : list op :=
  [OTurn "a" 1 None (Some (demo_turn "acme")); OSet "evil" "" true; OTurn "b" 2 None (Some (demo_turn "evil")); OTurn "c" 3 None (Some (demo_turn "acme"))].
Lemma recording_opt_in_witness :
  let m' := foldl (fun m o => exec [] o m) empty_module demo_ops in Count "acme" "" (store m') = 0 /\ Count "evil" "" (store m') = 1.
Proof.
  cbv zeta. split; [|by vm_compute]. apply (recording_opt_in [] "acme" demo_ops empty_module).
  - reflexivity.
  - repeat constructor.
  - repeat constructor; cbn; naive_solver.
  - split; [cbn; set_solver|constructor].
Defined.
(** A slash lets one tenant's setting reach another's agent. *)
Example slash_crosses_tenants : isRecording "a" "b/c" (exec [] (OSet "a/b" "c" true) empty_module) = true.
Proof. by vm_compute. Qed.
(** Rows are sorted by the text of their time, in which a fraction sorts before no fraction: the row of
    half a second later is listed as the older one. *)
Example newest_is_listed_last :
  let day := (24 * 3600 * Second)%Z in
  let db := foldl (fun db t => (Insert [] "" 0 None t db).1) []
    [demo_trajectory "old" "acme" "ann" [] day; demo_trajectory "new" "acme" "ann" [] (day + 500 * Millisecond)%Z] in
  match List_ None "acme" "" "" 1 db with Ok l => t_ID <$> l | Err _ => [] end = ["old"].
Proof. by vm_compute. Qed.
(** A generated identifier is not what a record request is answered with. *)
Example generated_id_lost :
  (handleRecord [] "traj_1" 0 None (demo_trajectory "" "acme" "ann" [] 1) true empty_module).2 = Ok {["status" := "ok"; "id" := ""]}.
Proof. by vm_compute. Qed.
