(* ===== verification/Api.v ===== *)
(** * Api: the HTTP API's requests, its authentication and its handlers' effects

    [src/web/api]: middleware.go and response.go, and the language the handlers are written in: a
    handler is what it asks of the message bus and of the stores, one question after another,
    until it responds.  The route a request matched and its path values are [net/http]'s; hashing,
    JSON and the clock are arguments. *)
From S2P Require Import Prelude GoStr GoText.
From S2P Require Auth AgentSession AgentStore Policy Quota Scheduler AuditLog Sla Federation Crew Workflow CuratorLlm Node Eval Mcp Tenants AgentMemory.
Local Open Scope go_scope.
Local Open Scope Z_scope.

(** ** Requests and responses *)

(** [Segments] are the path's, each unescaped.  Header, query and path values that are absent are empty. *)
Record Request := {
  Method : string; Segments : list string; Header : gmap string string; Query : gmap string string; PathValues : gmap string string;
  Body : string; RemoteAddr : string;
}.
Definition Path (r : Request) : string := "/" +:+ Join (Segments r) "/".
Definition with_path_values (m : gmap string string) (r : Request) : Request :=
  {| Method := Method r; Segments := Segments r; Header := Header r; Query := Query r; PathValues := m; Body := Body r; RemoteAddr := RemoteAddr r |}.
Definition header (name : string) (r : Request) : string := default "" (Header r !! name).
Definition query (name : string) (r : Request) : string := default "" (Query r !! name).
Definition path_value (name : string) (r : Request) : string := default "" (PathValues r !! name).

(** What travels on the bus and in responses: the payload types the handlers use, and any other
    value by its text. *)
Inductive value :=
  | VNil | VString (s : string) | VStrings (l : list string) | VInt (z : Z) | VMap (m : gmap string string)
  | VConfig (c : AgentSession.AgentConfig) | VChatRequest (q : AgentSession.ChatRequest) | VChatResponse (r : AgentSession.ChatResponse)
  | VCheck (q : Policy.CheckRequest) | VFilter (f : AuditLog.QueryFilter) | VQuota (c : Quota.QuotaConfig) | VUsage (u : Quota.Usage)
  | VJob (j : Scheduler.Job) | VRule (r : Sla.Rule) | VReject (id : Z) (reason : string)
  | VUser (u : AgentStore.User) | VUsers (l : list AgentStore.User) | VTenant (t : Tenants.Tenant)
  | VPeer (p : Federation.Peer) | VDelegate (q : Federation.DelegateRequest) | VDelegateResponse (r : Federation.DelegateResponse)
  | VCrew (c : Crew.Crew) | VWorkflow (w : Workflow.Workflow) | VInvocation (i : CuratorLlm.InvocationContext) | VScores (skill : string)
  | VIssue (q : Node.IssueRequest) | VIssueResponse (r : Node.IssueResponse) | VCases (l : list Eval.EvalCase)
  | VServer (c : Mcp.ServerConfig) | VSkill (version author path : string) | VAudio (format data : string) | VRecords (l : list AgentMemory.UsageRecord) | VEntries (l : list (string * bool)) | VEmpty | VFields (l : list (string * value)) | VList (l : list value)
  | VText (type : string) (text : string).

(* [web/api/response.go:APIError] *)
Record APIError := { e_Code : string; e_Message : string }.
(* [web/api/response.go:Envelope] *)
Record Envelope := { Data : value; Error_ : option APIError }.
(** What the client sees: an envelope, a body of another type with its headers, or a connection the
    server gave up because the handler panicked. *)
Inductive Response := Json (status : Z) (payload : Envelope) | Raw (status : Z) (headers : list (string * string)) (body : string) | Crashed.
(** The request id and the time of the metadata are left out. *)
(* [web/api/response.go:Respond] *)
Definition Respond (status : Z) (data : value) : Response := Json status {| Data := data; Error_ := None |}.
(* [web/api/response.go:RespondError] *)
Definition RespondError (status : Z) (code message : string) : Response :=
  Json status {| Data := VNil; Error_ := Some {| e_Code := code; e_Message := message |} |}.
Definition fields (l : list (string * string)) : value := VFields ((fun kv => (kv.1, VString kv.2)) <$> l).

(** [fresh] is the clock in hexadecimal nanoseconds. *)
(* [web/api/response.go:traceID] *)
Definition traceID (fresh : string) (r : Request) : string :=
  let id := header "X-Request-ID" r in if decide (id = "") then fresh else id.

(** ** Handlers *)

Record Message := { Source : string; Target : string; Topic : string; MPayload : value; TraceID : string }.
(** A request on the bus, and the operations of the stores the handlers use directly. *)
Inductive effect :=
  | Bus (m : Message)
  | CreateUser (u : AgentStore.User) (keyHash : string) | ListUsers (tenant : string) | GetUser (id : string)
  | DeleteUser (id : string) | UserByKeyHash (hash : string)
  | UsageQuery (tenant agent : string) (since until : time) | UsageSummary (tenant : string)
  | TenantGet (name : string) | TenantCreate (name : string) (mode : Tenants.IsolationMode) (policy : string) | TenantDelete (name : string)
  | KnowledgeList | KnowledgeIngest (id title content tags : string) | KnowledgeExecute (input : gmap string string) | KnowledgeDelete (id : string)
  | ReadFile (path : string) | WriteFile (path data : string) | RemoveFile (path : string) | MakeDir (path : string) | ReadDir (path : string) | Stat (path : string)
  | Notify (title message severity source : string)
  | SearchGitHub (query : string) | Download (name url dir : string)
  | Transcribe (audio ext key language : string) | Synthesize (text key voice model format : string).
(** The error a bus without a handler gives is told from the others. *)
Inductive answer := Answered (v : value) | NoHandler | Failed (e : error).
Definition failure (a : answer) : option error :=
  match a with Answered _ => None | NoHandler => Some "ipc: no handler" | Failed e => Some e end.
Inductive handler := Done (r : Response) | Ask (e : effect) (k : answer -> handler).

(** One request of a handler, with the response to its failure. *)
Definition call (e : effect) (fail : error -> Response) (k : value -> handler) : handler :=
  Ask e (fun a => match a with Answered v => k v | NoHandler => Done (fail "ipc: no handler") | Failed err => Done (fail err) end).
Definition request (target topic : string) (payload : value) : effect :=
  Bus {| Source := "api"; Target := target; Topic := topic; MPayload := payload; TraceID := "" |}.

(** A run in a world that answers: what was asked so far decides. *)
Definition world := list effect -> effect -> answer.
Fixpoint run (w : world) (asked : list effect) (h : handler) : list effect * Response :=
  match h with Done r => (asked, r) | Ask e k => run w (asked ++ [e]) (k (w asked e)) end.

(** A loop of requests, the answers in order. *)
Fixpoint ask_all (es : list effect) (k : list answer -> handler) : handler :=
  match es with [] => k [] | e :: es => Ask e (fun a => ask_all es (fun l => k (a :: l))) end.

(** Everything a handler can ask, in any world, satisfies [P]. *)
Fixpoint asks_only (P : effect -> Prop) (h : handler) : Prop :=
  match h with Done _ => True | Ask e k => P e /\ forall a, asks_only P (k a) end.
Lemma asks_only_run P w h : asks_only P h -> forall asked, Forall P asked -> Forall P (run w asked h).1.
Proof.
  induction h as [r|e k IH]; intros Hh asked Ha; [done|]. destruct Hh as [He Hk]. simpl.
  apply IH; [apply Hk|]. apply Forall_app. split; [done|]. by apply Forall_singleton.
Qed.
Lemma asks_only_weaken (P Q : effect -> Prop) h : (forall e, P e -> Q e) -> asks_only P h -> asks_only Q h.
Proof. intros HPQ. induction h as [r|e k IH]; [done|]. intros [He Hk]. split; [auto|]. intros a. auto. Qed.
Lemma asks_only_call P e fail k : P e -> (forall v, asks_only P (k v)) -> asks_only P (call e fail k).
Proof. intros He Hk. split; [done|]. by intros []. Qed.

(** ** Authentication *)

(* [web/api/middleware.go:AuthConfig] *)
Record AuthConfig := {
  Enabled : bool; APIKeys : gmap string string; KeyScopes : option (gmap string (list string));
  KeyTenants : option (gmap string string); JWTSecret : string;
}.
(* [web/api/middleware.go:routeScopes] *)
Definition routeScopes (method : string) : string :=
  if decide (method = "GET") then Auth.ScopeRead
  else if decide (method = "POST") then Auth.ScopeAgent
  else if decide (method = "PUT") then Auth.ScopeAgent
  else if decide (method = "DELETE") then Auth.ScopeAdmin
  else "".
(* [web/api/middleware.go:hasScope] *)
Definition hasScope (scopes : list string) (required : string) : bool :=
  if existsb (fun s => String.eqb s Auth.ScopeAdmin || String.eqb s required) scopes then true
  else bool_decide (scopes = []).
(* [web/api/middleware.go:jwtScopes] *)
Definition jwtScopes (p : Auth.Principal) : list string :=
  let scopes := filter (fun role => role ∈ [Auth.ScopeAdmin; Auth.ScopeAgent; Auth.ScopeRead]) (Auth.Roles p) in
  if decide (scopes = []) then [Auth.ScopeRead] else scopes.

(** What the middleware puts in a request's context. *)
Record Caller := { c_auth : option string; c_principal : option Auth.Principal; c_tenant : option string }.
Definition nobody : Caller := {| c_auth := None; c_principal := None; c_tenant := None |}.
(* [web/api/middleware.go:authPrincipal] *)
Definition authPrincipal (c : Caller) : option Auth.Principal := c_principal c.
(* [web/api/middleware.go:callerTenant] *)
Definition callerTenant (c : Caller) : option string :=
  match c_tenant c with Some t => if decide (t = "") then None else Some t | None => None end.
(** The response of a refusal. *)
(* [web/api/middleware.go:enforceTenant] *)
Definition enforceTenant (c : Caller) (tid : string) : option Response :=
  match callerTenant c with
  | None => None
  | Some caller => if decide (caller <> tid) then Some (RespondError 403 "FORBIDDEN" "API key is not authorized for this tenant") else None
  end.

Section Wrap.
(** HMAC-SHA-256 and the claims' JSON, for tokens. *)
Context (hmac : string -> string -> string) (Unmarshal : string -> Result Auth.jwtClaims).

(* [web/api/middleware.go:AuthMiddleware] *)
Record AuthMiddleware := { config : AuthConfig; sm : option Auth.SessionManager }.
(* [web/api/middleware.go:NewAuthMiddleware] *)
Definition NewAuthMiddleware (cfg : AuthConfig) : AuthMiddleware :=
  {| config := cfg; sm := if decide (JWTSecret cfg = "") then None else Some (Auth.NewSessionManager (JWTSecret cfg)) |}.

(* [web/api/middleware.go:AuthMiddleware.Wrap@58-62] *)
Definition exempt (path : string) : bool :=
  bool_decide (path ∈ ["/api/v1/system/health"; "/api/v1/system/version"; "/api/v1/auth/oidc/login"; "/api/v1/auth/oidc/callback"; "/health"]).
(* [web/api/middleware.go:AuthMiddleware.Wrap@75-86] *)
Definition credential (r : Request) : string :=
  let token := TrimPrefix (header "Authorization" r) "Bearer " in
  if decide (token = "") then header "X-API-Key" r else token.
(** The caller the next handler sees, or the response instead of it. *)
(* [web/api/middleware.go:AuthMiddleware.Wrap] *)
Definition Wrap (now : time) (am : AuthMiddleware) (r : Request) : Caller + Response :=
  let cfg := config am in
  if exempt (Path r) then inl nobody
  else if negb (Enabled cfg) then inl nobody
  else
    let token := credential r in
    if decide (token = "") then inr (RespondError 401 "UNAUTHORIZED" "Authorization header required")
    else
      let requiredScope := routeScopes (Method r) in
      match APIKeys cfg !! token with
      | Some _ =>
          let scopes := match KeyScopes cfg with Some m => default [] (m !! token) | None => [] end in
          if decide (requiredScope <> "" /\ hasScope scopes requiredScope = false) then
            inr (RespondError 403 "FORBIDDEN" "insufficient scope")
          else inl {| c_auth := Some "apikey"; c_principal := None;
                      c_tenant := match KeyTenants cfg with Some m => Some (default "" (m !! token)) | None => None end |}
      | None =>
          match sm am with
          | Some m =>
              match Auth.ValidateToken hmac Unmarshal now token m with
              | Err _ => inr (RespondError 401 "UNAUTHORIZED" "Invalid credentials")
              | Ok p =>
                  if decide (requiredScope <> "" /\ hasScope (jwtScopes p) requiredScope = false) then
                    inr (RespondError 403 "FORBIDDEN" "insufficient scope")
                  else inl {| c_auth := Some "jwt"; c_principal := Some p; c_tenant := Some (Auth.Tenant p) |}
              end
          | None => inr (RespondError 401 "UNAUTHORIZED" "Invalid credentials")
          end
      end.

(** A request through the middleware to the handler of its route. *)
Definition serve (now : time) (am : AuthMiddleware) (next : Caller -> Request -> handler) (r : Request) : handler :=
  match Wrap now am r with inl c => next c r | inr resp => Done resp end.
End Wrap.
