(* ===== verification/ApiAgents.v ===== *)
(** * ApiAgents: the API's agents, users, quotas, webhooks and voice

    [src/web/api]: agents.go, users.go, usermodel.go, quota.go, webhooks.go, voice.go.  A handler takes
    the caller the middleware found and the request.  Decoding of bodies, random keys, digests, hexadecimal,
    the clock, and the form of a stream's events are arguments. *)
From S2P Require Import Prelude GoStr GoText Utf8.
From S2P Require AgentSession AgentStore Quota.
From S2P Require Import Api.
Local Open Scope go_scope.
Local Open Scope Z_scope.

(** [json.Decoder.Decode] into a value: what it holds afterwards, and the error. *)
Class Decodes (A : Type) := decode : string -> A * option error.
Definition with_body {A} `{Decodes A} (r : Request) (message : string) (k : A -> handler) : handler :=
  match decode (Body r) with (a, None) => k a | (_, Some _) => Done (RespondError 400 "INVALID_REQUEST" message) end.
Definition guarded (c : Caller) (tid : string) (k : handler) : handler :=
  match enforceTenant c tid with Some resp => Done resp | None => k end.
Definition reply (v : value) : handler := Done (Respond 200 v).
Definition map_of (l : list (string * string)) : value := VMap (list_to_map l).

Record ChatBody := { b_message : string; b_user : string }.
Record UserBody := { b_name : string; b_email : string; b_role : string }.
Record ProfileBody := { b_profile_md : option string; b_preferences_md : option string }.
Record WebhookBody := { w_message : string; w_text : string; w_content : string }.
(** The parts of the server that may be missing. *)
Record Parts := { has_sessions : bool; has_usage : bool; has_knowledge : bool; has_tenants : bool; has_notifier : bool; has_kernel : bool }.

(* [web/api/agents.go:apiUser] *)
Definition apiUser (u : string) : string := if decide (u = "") then "anonymous" else u.

Section Agents.
Context `{!Decodes AgentSession.AgentConfig} `{!Decodes ChatBody}.
(** The clock, in hexadecimal. *)
Context (fresh : string).

(* [web/api/agents.go:Server.handleAgentList] *)
Definition handleAgentList (c : Caller) (r : Request) : handler :=
  let tid := path_value "tid" r in
  guarded c tid (call (request "agent_runtime" "agent.list" (VString tid)) (fun _ => Respond 200 VEmpty) reply).
Definition with_tenant (tid : string) (cfg : AgentSession.AgentConfig) : AgentSession.AgentConfig :=
  {| AgentSession.Name := AgentSession.Name cfg; AgentSession.Tenant := tid; AgentSession.Model := AgentSession.Model cfg;
     AgentSession.SystemPrompt := AgentSession.SystemPrompt cfg; AgentSession.Tools := AgentSession.Tools cfg;
     AgentSession.MaxTurns := AgentSession.MaxTurns cfg; AgentSession.MaxHistory := AgentSession.MaxHistory cfg;
     AgentSession.SummarizeThreshold := AgentSession.SummarizeThreshold cfg; AgentSession.Secrets := AgentSession.Secrets cfg;
     AgentSession.RateLimit := AgentSession.RateLimit cfg; AgentSession.Skills := AgentSession.Skills cfg;
     AgentSession.MCPServers := AgentSession.MCPServers cfg; AgentSession.AutoMemory := AgentSession.AutoMemory cfg;
     AgentSession.Sandbox := AgentSession.Sandbox cfg |}.
(* [web/api/agents.go:Server.handleAgentCreate] *)
Definition handleAgentCreate (c : Caller) (r : Request) : handler :=
  let tid := path_value "tid" r in
  guarded c tid (with_body r "invalid JSON body" (fun cfg : AgentSession.AgentConfig =>
    let cfg := with_tenant tid cfg in
    call (request "agent_runtime" "agent.create" (VConfig cfg)) (RespondError 500 "CREATE_FAILED")
      (fun _ => Done (Respond 201 (map_of [("status", "created"); ("agent", AgentSession.Name cfg); ("tenant", tid)]))))).
Definition chat_request (agent tenant user message : string) : value :=
  VChatRequest {| AgentSession.rq_Agent := agent; AgentSession.rq_Tenant := tenant; AgentSession.rq_User := user;
                  AgentSession.rq_Message := message; AgentSession.rq_Channel := ""; AgentSession.rq_ChannelID := "" |}.
Definition chat_fields (resp : AgentSession.ChatResponse) : value :=
  VFields [("agent", VString (AgentSession.rs_Agent resp)); ("content", VString (AgentSession.rs_Content resp));
           ("tools_used", VStrings (AgentSession.rs_ToolsUsed resp))].
Definition unexpected : handler := Done (RespondError 500 "INTERNAL" "unexpected response type").
(* [web/api/agents.go:Server.handleAgentChat] *)
Definition handleAgentChat (c : Caller) (r : Request) : handler :=
  let tid := path_value "tid" r in
  guarded c tid (with_body r "invalid JSON body" (fun b : ChatBody =>
    call (Bus {| Source := "api"; Target := "agent_runtime"; Topic := "agent.chat";
                 MPayload := chat_request (path_value "name" r) tid (apiUser (b_user b)) (b_message b); TraceID := traceID fresh r |})
      (RespondError 500 "CHAT_FAILED")
      (fun v => match v with VChatResponse resp => reply (chat_fields resp) | _ => unexpected end))).
(** The requests about one agent: a map of its tenant and name, with what else the topic needs. *)
Definition about_agent (r : Request) (topic : string) (more : list (string * string)) : effect :=
  request "agent_runtime" topic (map_of ([("tenant", path_value "tid" r); ("name", path_value "name" r)] ++ more)).
(* [web/api/agents.go:Server.handleAgentGet] *)
Definition handleAgentGet (c : Caller) (r : Request) : handler :=
  guarded c (path_value "tid" r) (call (about_agent r "agent.get" []) (RespondError 404 "NOT_FOUND") reply).
Definition agent_status (r : Request) (status : string) : value :=
  map_of [("status", status); ("agent", path_value "name" r); ("tenant", path_value "tid" r)].
(* [web/api/agents.go:Server.handleAgentDelete] *)
Definition handleAgentDelete (c : Caller) (r : Request) : handler :=
  guarded c (path_value "tid" r) (call (about_agent r "agent.delete" []) (RespondError 500 "DELETE_FAILED")
    (fun _ => reply (agent_status r "deleted"))).
(* [web/api/agents.go:Server.handleAgentSessions] *)
Definition handleAgentSessions (c : Caller) (r : Request) : handler :=
  guarded c (path_value "tid" r) (call (about_agent r "agent.sessions" []) (RespondError 500 "SESSION_ERROR") reply).
(* [web/api/agents.go:Server.handleSessionMessages] *)
Definition handleSessionMessages (c : Caller) (r : Request) : handler :=
  guarded c (path_value "tid" r) (call (about_agent r "agent.session.messages" [("sid", path_value "sid" r)])
    (RespondError 500 "MESSAGE_ERROR") reply).
(** The session's id in the path is not sent. *)
(* [web/api/agents.go:Server.handleSessionClear] *)
Definition handleSessionClear (c : Caller) (r : Request) : handler :=
  guarded c (path_value "tid" r) (call (about_agent r "agent.session.clear" []) (RespondError 500 "CLEAR_FAILED")
    (fun _ => reply (agent_status r "cleared"))).
(* [web/api/agents.go:Server.handleAgentMemories] *)
Definition handleAgentMemories (c : Caller) (r : Request) : handler :=
  guarded c (path_value "tid" r) (call (about_agent r "agent.memories" []) (RespondError 500 "MEMORY_ERROR") reply).
(** The bare id is sent, whoever the caller is. *)
(* [web/api/agents.go:Server.handleMemoryDelete] *)
Definition handleMemoryDelete (c : Caller) (r : Request) : handler :=
  call (request "agent_runtime" "agent.memory.delete" (VString (path_value "mid" r))) (RespondError 500 "DELETE_FAILED")
    (fun _ => reply (map_of [("status", "deleted"); ("id", path_value "mid" r)])).
(** The body's name, tenant and sandbox do not count. *)
(* [web/api/agents.go:Server.handleAgentUpdate@284-298] *)
Definition updated_config (name tid : string) (b : AgentSession.AgentConfig) : AgentSession.AgentConfig :=
  {| AgentSession.Name := name; AgentSession.Tenant := tid; AgentSession.Model := AgentSession.Model b;
     AgentSession.SystemPrompt := AgentSession.SystemPrompt b; AgentSession.Tools := AgentSession.Tools b;
     AgentSession.MaxTurns := AgentSession.MaxTurns b; AgentSession.MaxHistory := AgentSession.MaxHistory b;
     AgentSession.SummarizeThreshold := AgentSession.SummarizeThreshold b; AgentSession.Secrets := AgentSession.Secrets b;
     AgentSession.RateLimit := AgentSession.RateLimit b; AgentSession.Skills := AgentSession.Skills b;
     AgentSession.MCPServers := AgentSession.MCPServers b; AgentSession.AutoMemory := AgentSession.AutoMemory b;
     AgentSession.Sandbox := {| AgentSession.sb_Mode := ""; AgentSession.sb_Backend := ""|} |}.
(* [web/api/agents.go:Server.handleAgentUpdate] *)
Definition handleAgentUpdate (c : Caller) (r : Request) : handler :=
  guarded c (path_value "tid" r) (with_body r "invalid JSON body" (fun b : AgentSession.AgentConfig =>
    call (request "agent_runtime" "agent.update" (VConfig (updated_config (path_value "name" r) (path_value "tid" r) b)))
      (RespondError 500 "UPDATE_FAILED") (fun _ => reply (agent_status r "updated")))).
(** A JWT's tenant, when it has one, before the one asked for. *)
Definition principal_tenant (c : Caller) (asked : string) : string :=
  match authPrincipal c with Some p => if decide (Auth.Tenant p <> "") then Auth.Tenant p else asked | None => asked end.
Definition missing_tenant : Response := RespondError 400 "MISSING_TENANT" "tenant is required (query param or authenticated identity)".
(* [web/api/agents.go:Server.handleAgentSearch] *)
Definition handleAgentSearch (c : Caller) (r : Request) : handler :=
  if decide (query "q" r = "") then Done (RespondError 400 "MISSING_QUERY" "q parameter is required")
  else
    let tenant := principal_tenant c (query "tenant" r) in
    if decide (tenant = "") then Done missing_tenant
    else call (request "agent_runtime" "agent.search" (map_of [("tenant", tenant); ("query", query "q" r)])) (RespondError 500 "SEARCH_ERROR") reply.
(* [web/api/agents.go:Server.handleAgentVersions] *)
Definition handleAgentVersions (c : Caller) (r : Request) : handler :=
  guarded c (path_value "tid" r) (call (about_agent r "agent.versions" []) (fun _ => Respond 200 VEmpty) reply).
(* [web/api/agents.go:Server.handleAgentRollback] *)
Definition handleAgentRollback (c : Caller) (r : Request) : handler :=
  guarded c (path_value "tid" r) (call (about_agent r "agent.rollback" [("version", path_value "version" r)]) (RespondError 500 "ROLLBACK_FAILED")
    (fun v => match v with
              | VString msg => reply (map_of [("status", "rolled_back"); ("message", msg)])
              | _ => unexpected
              end)).
End Agents.

(** ** Streaming *)

(** What [range] gives of a string: each rune with the text [string(r)], three bytes for an invalid one. *)
Definition replacement : string := String "239" (String "191" (String "189" "")).
Definition rune_text (s : string) : string := let d := DecodeRune s in if decide (d.1 = RuneError) then replacement else take_bytes d.2 s.
Fixpoint range_loop (fuel : nat) (s : string) : list (N * string) :=
  match fuel with
  | O => []
  | S fuel => if decide (s = "") then [] else ((DecodeRune s).1, rune_text s) :: range_loop fuel (drop_bytes (DecodeRune s).2 s)
  end.
Definition range_string (s : string) : list (N * string) := range_loop (String.length s) s.
(* [web/api/agents.go:splitIntoStreamChunks@493-509] *)
Fixpoint stream_chunks (l : list (N * string)) (current : string) : list string :=
  match l with
  | [] => if decide (current = "") then [] else [current]
  | (r, t) :: l =>
      let current := current +:+ t in
      let '(out, current) := if decide (20 <= String.length current /\ r ∈ [46; 33; 63; 10]%N)%nat then ([current], "") else ([], current) in
      let '(out, current) := if decide (200 <= String.length current)%nat then (out ++ [current], "") else (out, current) in
      out ++ stream_chunks l current
  end.
(* [web/api/agents.go:splitIntoStreamChunks] *)
Definition splitIntoStreamChunks (text : string) : list string :=
  if decide (String.length text <= 100)%nat then [text] else stream_chunks (range_string text) "".

(** The events of a stream: progress seen while waiting, then the reply in chunks and its tools, or the
    error.  [marshal] is JSON. *)
Section Stream.
Context (marshal : value -> string) (fresh : string).
Definition sse (event data : string) : string := "event: " +:+ event +:+ nl +:+ "data: " +:+ data +:+ nl +:+ nl.
(* [web/api/agents.go:Server.handleAgentChatStream@411-412] *)
Definition progress_of (agentName tid : string) (e : AgentSession.ActivityEvent) : bool :=
  bool_decide (AgentSession.ae_Agent e = agentName /\ AgentSession.ae_Tenant e = tid).
Definition progress_event (e : AgentSession.ActivityEvent) : string :=
  sse "message" (marshal (VFields [("type", VString "progress"); ("event", VString (AgentSession.ae_Type e)); ("detail", VString (AgentSession.ae_Detail e))])).
(* [web/api/agents.go:Server.handleAgentChatStream@459-477] *)
Definition reply_events (resp : AgentSession.ChatResponse) : list string :=
  ((fun chunk => sse "message" (marshal (VFields [("type", VString "text"); ("content", VString chunk)])))
     <$> splitIntoStreamChunks (AgentSession.rs_Content resp)) ++
  (if decide (AgentSession.rs_ToolsUsed resp = []) then []
   else [sse "message" (marshal (VFields [("type", VString "tools_used"); ("tools_used", VStrings (AgentSession.rs_ToolsUsed resp))]))]) ++
  [sse "done" "{}"].
Definition no_reply : AgentSession.ChatResponse := {| AgentSession.rs_Agent := ""; AgentSession.rs_Content := ""; AgentSession.rs_ToolsUsed := [] |}.
(** [seen] are the activity events delivered before the result, at most the channel's 32 at a time. *)
(* [web/api/agents.go:Server.handleAgentChatStream] *)
Definition handleAgentChatStream (flushes : bool) (seen : list AgentSession.ActivityEvent) (c : Caller) (r : Request) : handler :=
  let tid := path_value "tid" r in let agentName := path_value "name" r in
  guarded c tid
    (let message := query "message" r in let user := apiUser (query "user" r) in
     if decide (message = "") then Done (RespondError 400 "INVALID_REQUEST" "message query parameter required")
     else if negb flushes then Done (RespondError 500 "STREAMING_NOT_SUPPORTED" "server does not support streaming")
     else
       let headers := [("Content-Type", "text/event-stream"); ("Cache-Control", "no-cache"); ("Connection", "keep-alive")] in
       let start := sse "message" ("{" +:+ dq "type" +:+ ":" +:+ dq "thinking" +:+ "," +:+ dq "content" +:+ ":" +:+ dq "" +:+ "}") in
       let progress := progress_event <$> filter (fun e => progress_of agentName tid e = true) seen in
       let finish events := Raw 200 headers (Join (start :: progress ++ events) "") in
       call (Bus {| Source := "api"; Target := "agent_runtime"; Topic := "agent.chat";
                    MPayload := chat_request agentName tid user message; TraceID := traceID fresh r |})
         (fun e => finish [sse "error" e])
         (fun v => Done (finish (reply_events (match v with VChatResponse resp => resp | _ => no_reply end))))).
End Stream.

(** ** Users *)

Section Users.
Context `{!Decodes UserBody} `{!Decodes ProfileBody}.
(** SHA-256 in hexadecimal, a random key in hexadecimal, the clock in nanoseconds and as RFC 3339 text. *)
Context (digest : string -> string) (random : string) (nanos : Z) (stamp : string) (parts : Parts).

(* [web/api/users.go:Server.handleUserCreate] *)
Definition handleUserCreate (c : Caller) (r : Request) : handler :=
  with_body r "invalid JSON" (fun b : UserBody =>
    if decide (b_name b = "") then Done (RespondError 400 "MISSING_NAME" "name is required")
    else
      let apiKey := "cyntr_" +:+ random in
      let user := {| AgentStore.u_ID := "usr_" +:+ itoa nanos; AgentStore.u_Tenant := path_value "tid" r; AgentStore.u_Name := b_name b;
                     AgentStore.u_Email := b_email b; AgentStore.u_Role := if decide (b_role b = "") then "user" else b_role b;
                     AgentStore.u_CreatedAt := stamp |} in
      if negb (has_sessions parts) then Done (RespondError 500 "NOT_CONFIGURED" "session store not configured")
      else call (CreateUser user (digest apiKey)) (RespondError 500 "CREATE_FAILED")
             (fun _ => Done (Respond 201 (VFields [("user", VUser user); ("api_key", VString apiKey);
                                                   ("message", VString "Save this API key — it cannot be retrieved again")])))).
(* [web/api/users.go:Server.handleUserList] *)
Definition handleUserList (c : Caller) (r : Request) : handler :=
  if negb (has_sessions parts) then reply VEmpty
  else call (ListUsers (path_value "tid" r)) (RespondError 500 "LIST_FAILED") reply.
(* [web/api/users.go:Server.handleUserDelete] *)
Definition handleUserDelete (c : Caller) (r : Request) : handler :=
  let tid := path_value "tid" r in let uid := path_value "uid" r in
  if negb (has_sessions parts) then Done (RespondError 500 "NOT_CONFIGURED" "session store not configured")
  else call (GetUser uid) (fun _ => RespondError 404 "NOT_FOUND" "user not found")
    (fun v =>
       let tenant := match v with VUser u => AgentStore.u_Tenant u | _ => "" end in
       if decide (tenant <> tid) then Done (RespondError 403 "FORBIDDEN" "user does not belong to this tenant")
       else call (DeleteUser uid) (RespondError 500 "DELETE_FAILED") (fun _ => reply (map_of [("status", "deleted"); ("id", uid)]))).
(* [web/api/users.go:Server.handleAuthMe] *)
Definition handleAuthMe (c : Caller) (r : Request) : handler :=
  let auth := header "Authorization" r in
  let token := if decide (7 < String.length auth)%nat then TrimPrefix auth "Bearer " else auth in
  if decide (token = "") then Done (RespondError 401 "UNAUTHORIZED" "no API key provided")
  else if negb (has_sessions parts) then reply (map_of [("user", "admin"); ("role", "admin")])
  else call (UserByKeyHash (digest token)) (fun _ => RespondError 401 "UNAUTHORIZED" "invalid credentials") reply.

(** A bus without the module is told from its failures. *)
Definition call_module (e : effect) (missing : Response) (fail : error -> Response) (k : value -> handler) : handler :=
  Ask e (fun a => match a with Answered v => k v | NoHandler => Done missing | Failed err => Done (fail err) end).
Definition no_usermodel : Response := RespondError 503 "UNAVAILABLE" "usermodel module not registered".
Definition about_user (r : Request) (topic : string) (more : list (string * string)) : effect :=
  request "usermodel" topic (map_of ([("tenant", path_value "tid" r); ("user", path_value "uid" r)] ++ more)).
Definition with_user (r : Request) (k : handler) : handler :=
  if decide (path_value "tid" r = "" \/ path_value "uid" r = "") then Done (RespondError 400 "INVALID_REQUEST" "tenant and user are required") else k.
(* [web/api/usermodel.go:Server.handleUserProfileDistill] *)
Definition handleUserProfileDistill (c : Caller) (r : Request) : handler :=
  with_user r (call_module (about_user r "usermodel.distill" []) no_usermodel (RespondError 500 "DISTILL_FAILED") reply).
(* [web/api/usermodel.go:Server.handleUserProfileGet] *)
Definition handleUserProfileGet (c : Caller) (r : Request) : handler :=
  with_user r (call_module (about_user r "usermodel.get" []) no_usermodel (RespondError 500 "GET_FAILED") reply).
(** One section is written when it is there; then the next step. *)
Definition put_section (r : Request) (topic : string) (md : option string) (k : handler) : handler :=
  match md with
  | None => k
  | Some md => call_module (about_user r topic [("md", md)]) no_usermodel (RespondError 500 "UPDATE_FAILED") (fun _ => k)
  end.
(* [web/api/usermodel.go:Server.handleUserProfilePut] *)
Definition handleUserProfilePut (c : Caller) (r : Request) : handler :=
  with_user r (with_body r "invalid JSON" (fun b : ProfileBody =>
    if decide (b_profile_md b = None /\ b_preferences_md b = None) then
      Done (RespondError 400 "INVALID_REQUEST" "at least one of profile_md or preferences_md is required")
    else
      put_section r "usermodel.upsert_profile" (b_profile_md b)
        (put_section r "usermodel.upsert_preferences" (b_preferences_md b)
           (call (about_user r "usermodel.get" []) (fun _ => Respond 200 (map_of [("status", "updated")])) reply)))).
End Users.

(** ** Quotas *)

Definition zero_usage : Quota.Usage := {| Quota.u_Tenant := ""; Quota.TokensToday := 0; Quota.SessionsToday := 0; Quota.ActiveAgents := 0; Quota.RateBucketTokens := 0; Quota.WindowResetAt := 0 |}.
Definition quotaResponse (cfg : Quota.QuotaConfig) (u : Quota.Usage) : value := VFields [("config", VQuota cfg); ("usage", VUsage u)].
(* [web/api/quota.go:Server.handleQuotaGet] *)
Definition handleQuotaGet (c : Caller) (r : Request) : handler :=
  let tenant := path_value "tid" r in
  if decide (tenant = "") then Done (RespondError 400 "INVALID_REQUEST" "tenant id required")
  else call_module (request "quota" "quota.config.get" (VString tenant)) (Respond 200 (quotaResponse (Quota.unlimited tenant) zero_usage))
    (RespondError 500 "QUOTA_ERROR")
    (fun v =>
       let cfg := match v with VQuota cfg => cfg | _ => Quota.unlimited "" end in
       Ask (request "quota" "quota.usage" (VString tenant))
         (fun a => reply (quotaResponse cfg (match a with Answered (VUsage u) => u | _ => zero_usage end)))).
Definition with_quota_tenant (tenant : string) (cfg : Quota.QuotaConfig) : Quota.QuotaConfig :=
  {| Quota.Tenant := tenant; Quota.TokensPerDay := Quota.TokensPerDay cfg; Quota.RequestsPerMinute := Quota.RequestsPerMinute cfg;
     Quota.MaxConcurrentAgents := Quota.MaxConcurrentAgents cfg; Quota.MaxSessionsPerDay := Quota.MaxSessionsPerDay cfg |}.
(* [web/api/quota.go:Server.handleQuotaSet] *)
Definition handleQuotaSet `{!Decodes Quota.QuotaConfig} (c : Caller) (r : Request) : handler :=
  let tenant := path_value "tid" r in
  if decide (tenant = "") then Done (RespondError 400 "INVALID_REQUEST" "tenant id required")
  else with_body r "invalid JSON" (fun cfg : Quota.QuotaConfig =>
    let cfg := with_quota_tenant tenant cfg in
    call_module (request "quota" "quota.config.set" (VQuota cfg)) (RespondError 503 "QUOTA_DISABLED" "quota module is not enabled")
      (RespondError 500 "QUOTA_ERROR") (fun _ => reply (VQuota cfg))).

(** ** Webhooks *)

Section Webhooks.
Context `{!Decodes WebhookBody}.
(** The secret of the environment, HMAC-SHA-256, hexadecimal decoding, and the body as a map, for echo. *)
Context (secret : string) (hmac : string -> string -> string) (hex_decode : string -> option string) (payload_of : string -> value).

(* [web/api/webhooks.go:maxWebhookBody] *)
Definition maxWebhookBody : Z := 1048576.
(* [web/api/webhooks.go:verifyWebhookSignature] *)
Definition verifyWebhookSignature (body : string) (r : Request) : option Response :=
  if decide (secret = "") then Some (RespondError 503 "WEBHOOKS_DISABLED" "webhooks are disabled: set CYNTR_WEBHOOK_SECRET to enable")
  else
    let sig := header "X-Cyntr-Signature" r in
    if decide (sig = "") then Some (RespondError 401 "UNAUTHORIZED" "missing X-Cyntr-Signature")
    else match hex_decode sig with
         | None => Some (RespondError 401 "UNAUTHORIZED" "invalid signature encoding")
         | Some provided => if decide (provided <> hmac secret body) then Some (RespondError 401 "UNAUTHORIZED" "invalid webhook signature") else None
         end.
(** What is read of the body; [fault] is the error of reading. *)
Definition read_limited (fault : option error) (r : Request) (k : string -> handler) : handler :=
  match fault with Some e => Done (RespondError 400 "READ_ERROR" e) | None => k (take_bytes (Z.to_nat maxWebhookBody) (Body r)) end.
Definition from_webhook (target topic : string) (payload : value) : effect :=
  Bus {| Source := "webhook"; Target := target; Topic := topic; MPayload := payload; TraceID := "" |}.
(* [web/api/webhooks.go:Server.handleWebhookTrigger] *)
Definition handleWebhookTrigger (fault : option error) (c : Caller) (r : Request) : handler :=
  let wfID := path_value "workflow_id" r in
  read_limited fault r (fun body =>
    match verifyWebhookSignature body r with
    | Some resp => Done resp
    | None =>
        call (from_webhook "workflow" "workflow.run" (map_of [("workflow_id", wfID)])) (RespondError 500 "TRIGGER_FAILED")
          (fun v => reply (VFields [("status", VString "triggered"); ("workflow_id", VString wfID); ("run_id", v); ("payload", payload_of body)]))
    end).
(** The first of the body's fields that says anything, else the body. *)
(* [web/api/webhooks.go:Server.handleWebhookAgent@116-132] *)
Definition webhook_message (body : string) : string :=
  let p := (decode body).1 in
  if decide (w_message p <> "") then w_message p else if decide (w_text p <> "") then w_text p
  else if decide (w_content p <> "") then w_content p else body.
(* [web/api/webhooks.go:Server.handleWebhookAgent] *)
Definition handleWebhookAgent (fault : option error) (c : Caller) (r : Request) : handler :=
  let tenant := path_value "tenant" r in
  read_limited fault r (fun body =>
    match verifyWebhookSignature body r with
    | Some resp => Done resp
    | None =>
        guarded c tenant
          (call (from_webhook "agent_runtime" "agent.chat" (chat_request (path_value "agent" r) tenant ("webhook:" +:+ RemoteAddr r) (webhook_message body)))
             (RespondError 500 "CHAT_FAILED")
             (fun v => match v with VChatResponse resp => reply (chat_fields resp) | _ => unexpected end))
    end).
End Webhooks.

(** ** Voice *)

(* [web/api/voice.go:extFromContentType] *)
Definition extFromContentType (ct : string) : string :=
  if Contains ct "wav" then ".wav" else if Contains ct "webm" then ".webm"
  else if Contains ct "m4a" || Contains ct "mp4" then ".m4a" else if Contains ct "ogg" || Contains ct "opus" then ".ogg" else ".mp3".
(* [web/api/voice.go:audioMIME] *)
Definition audioMIME (format : string) : string :=
  if decide (format = "wav") then "audio/wav" else if decide (format = "opus" \/ format = "ogg") then "audio/ogg"
  else if decide (format = "aac") then "audio/aac" else if decide (format = "flac") then "audio/flac" else "audio/mpeg".
Definition cr : string := String "013" "".
(* [web/api/voice.go:sanitizeHeader] *)
Definition sanitizeHeader (s : string) : string :=
  let s := ReplaceAll (ReplaceAll s cr " ") nl " " in
  if decide (2048 < String.length s)%nat then take_bytes 2048 s else s.
(** A part of a form: its content and the extension of its file name. *)
(* [web/api/voice.go:readVoiceUpload] *)
Definition readVoiceUpload (form : Result (string * string)) (raw : Result string) (r : Request) : Result (string * string) :=
  let ct := header "Content-Type" r in
  if has_prefix "multipart/form-data" ct then
    match form with Err e => Err e | Ok (data, ext) => Ok (data, if decide (ext = "") then ".mp3" else ext) end
  else match raw with Err e => Err e | Ok data => Ok (data, extFromContentType ct) end.
(** [buffered]: whether the audio could be written to a temporary file. *)
(* [web/api/voice.go:Server.handleAgentVoice] *)
Definition handleAgentVoice (fresh : string) (form : Result (string * string)) (raw : Result string) (buffered : bool) (c : Caller) (r : Request) : handler :=
  let tid := path_value "tid" r in let agentName := path_value "name" r in
  if decide (tid = "" \/ agentName = "") then Done (RespondError 400 "INVALID_REQUEST" "tenant and agent are required")
  else match readVoiceUpload form raw r with
  | Err e => Done (RespondError 400 "READ_ERROR" e)
  | Ok (audio, ext) =>
      if decide (audio = "") then Done (RespondError 400 "INVALID_REQUEST" "empty audio upload")
      else if negb buffered then Done (RespondError 500 "INTERNAL" "could not buffer audio")
      else call (Transcribe audio ext (header "X-STT-Key" r) (header "X-STT-Language" r)) (fun _ => RespondError 502 "STT_FAILED" "transcription failed")
        (fun v =>
           let transcript := TrimSpace (match v with VString s => s | _ => "" end) in
           if decide (transcript = "") then Done (RespondError 422 "STT_EMPTY" "no speech detected in audio")
           else call (Bus {| Source := "api"; Target := "agent_runtime"; Topic := "agent.chat";
                             MPayload := chat_request agentName tid (apiUser (header "X-User" r)) transcript; TraceID := traceID fresh r |})
             (RespondError 500 "CHAT_FAILED")
             (fun v =>
                match v with
                | VChatResponse resp =>
                    let text := TrimSpace (AgentSession.rs_Content resp) in
                    if decide (text = "") then Done (RespondError 502 "EMPTY_REPLY" "agent produced no text to synthesize")
                    else
                      let format := if decide (header "X-TTS-Format" r = "") then "mp3" else header "X-TTS-Format" r in
                      call (Synthesize text (header "X-TTS-Key" r) (header "X-TTS-Voice" r) (header "X-TTS-Model" r) format)
                        (fun _ => RespondError 502 "TTS_FAILED" "speech synthesis failed")
                        (fun v =>
                           let '(format, out) := match v with VAudio f o => (f, o) | _ => (format, "") end in
                           Done (Raw 200 [("Content-Type", audioMIME format); ("X-Transcript", sanitizeHeader transcript);
                                          ("X-Reply-Text", sanitizeHeader text); ("X-Agent", AgentSession.rs_Agent resp)] out))
                | _ => unexpected
                end))
  end.
