(* ===== verification/ApiModules.v ===== *)
(** * ApiModules: the API's other endpoints

    [src/web/api]: approvals.go, audit.go, auth.go, branding.go, channels.go, crews.go, curator.go, eval.go,
    federation.go, knowledge.go, mcp.go, node.go, notifications.go, observability.go, policies.go,
    schedules.go, skill_candidates.go, skills.go, sla.go, system.go, tenants.go, toolbuilder.go, usage.go,
    workflows.go.  Decoding of bodies and times, the environment, the clock, YAML and the built-in skill
    catalogue are arguments. *)
From S2P Require Import Prelude GoStr GoText Paths Calendar Float64.
From S2P Require Auth Policy Quota Scheduler AuditLog Sla Federation Crew Workflow CuratorLlm Node Eval Mcp Tenants AgentMemory.
From S2P Require Import Api ApiAgents.
From Stdlib Require Import SpecFloat.
Local Open Scope go_scope.
Local Open Scope Z_scope.

(** The many handlers that pass one request on: what they send, the response to a failure, and to success. *)
Definition proxy (target topic : string) (payload : value) (fail : error -> Response) : handler :=
  call (request target topic payload) fail reply.
Definition empty_list (_ : error) : Response := Respond 200 VEmpty.
Definition done_map (status : Z) (l : list (string * string)) : handler := Done (Respond status (map_of l)).
(** A type assertion to string that panics when it fails. *)
Definition as_string (v : value) (k : string -> handler) : handler := match v with VString s => k s | _ => Done Crashed end.

(** ** Approvals, policies, audit, usage *)

Record DecideBody := { b_decided_by : string }.
Section Governance.
Context `{!Decodes DecideBody} `{!Decodes Policy.CheckRequest}.
(* [web/api/approvals.go:Server.handleApprovalList] *)
Definition handleApprovalList (c : Caller) (r : Request) : handler := proxy "policy" "approval.list" VNil empty_list.
(** A body that does not decode counts as the empty one. *)
Definition decide_approval (topic code status : string) (r : Request) : handler :=
  let id := path_value "id" r in let by_ := b_decided_by (decode (Body r)).1 in
  call (request "policy" topic (map_of [("id", id); ("decided_by", by_)])) (RespondError 400 code)
    (fun _ => reply (map_of [("id", id); ("status", status); ("decided_by", by_)])).
(* [web/api/approvals.go:Server.handleApprovalApprove] *)
Definition handleApprovalApprove (c : Caller) (r : Request) : handler := decide_approval "approval.approve" "APPROVE_FAILED" "approved" r.
(* [web/api/approvals.go:Server.handleApprovalDeny] *)
Definition handleApprovalDeny (c : Caller) (r : Request) : handler := decide_approval "approval.deny" "DENY_FAILED" "denied" r.
(* [web/api/policies.go:Server.handlePolicyRulesList] *)
Definition handlePolicyRulesList (c : Caller) (r : Request) : handler := proxy "policy" "policy.list" VNil (RespondError 500 "POLICY_ERROR").
(* [web/api/policies.go:Server.handlePolicyTest] *)
Definition handlePolicyTest (c : Caller) (r : Request) : handler :=
  with_body r "invalid JSON" (fun q : Policy.CheckRequest => proxy "policy" "policy.check" (VCheck q) (RespondError 500 "POLICY_ERROR")).

(** [time.Parse] of RFC 3339; the current time. *)
Context (ParseTime : string -> option time) (now : time) (parts : Parts).
Definition time_param (name : string) (r : Request) : time :=
  if decide (query name r = "") then 0 else default 0 (ParseTime (query name r)).
(* [web/api/audit.go:Server.handleAuditQuery] *)
Definition handleAuditQuery (c : Caller) (r : Request) : handler :=
  let tenant := principal_tenant c (query "tenant" r) in
  if decide (tenant = "") then Done missing_tenant
  else
    let filter := {| AuditLog.f_Tenant := tenant; AuditLog.f_ActionType := query "action" r; AuditLog.f_User := query "user" r;
                     AuditLog.f_Agent := query "agent" r; AuditLog.f_Since := time_param "since" r; AuditLog.f_Until := time_param "until" r;
                     AuditLog.f_Limit := if decide (query "limit" r = "") then 0 else default 0 (Atoi (query "limit" r)) |} in
    proxy "audit" "audit.query" (VFilter filter) (RespondError 500 "AUDIT_ERROR").
(* [web/api/usage.go:Server.handleUsageQuery] *)
Definition handleUsageQuery (c : Caller) (r : Request) : handler :=
  if negb (has_usage parts) then reply VEmpty
  else call (UsageQuery (query "tenant" r) (query "agent" r) (time_param "since" r) (time_param "until" r)) (RespondError 500 "USAGE_ERROR") reply.
(* [web/api/usage.go:Server.handleUsageSummary] *)
Definition handleUsageSummary (c : Caller) (r : Request) : handler :=
  if negb (has_usage parts) then reply VEmpty else call (UsageSummary (query "tenant" r)) (RespondError 500 "USAGE_ERROR") reply.

(** *** Latencies *)

(** [math.Ceil] of a float, as the integer it is converted to. *)
Definition ceil_int (x : float64) : Z :=
  match x with
  | S754_finite s m e =>
      let n := if s then Zneg m else Zpos m in
      if decide (0 <= e) then n * 2 ^ e else - ((- n) / 2 ^ (- e))
  | _ => 0
  end.
(* [web/api/observability.go:percentile] *)
Definition percentile (sorted : list Z) (n : nat) (p : Z) : Z :=
  if decide (n = 0)%nat then 0
  else if decide (n = 1)%nat then default 0 (sorted !! 0%nat)
  else
    let idx := ceil_int (fmul (fdiv (of_int p) (of_int 100)) (of_int (Z.of_nat n))) - 1 in
    let idx := if decide (idx < 0) then 0 else idx in
    let idx := if decide (Z.of_nat n <= idx) then Z.of_nat n - 1 else idx in
    default 0 (sorted !! Z.to_nat idx).
(* [web/api/observability.go:LatencyPercentiles] *)
Record LatencyPercentiles := { l_Agent : string; P50Ms : Z; P95Ms : Z; P99Ms : Z; SampleCount : Z }.
(* [web/api/observability.go:Server.handleObservabilityLatency@43-63] *)
Definition latencies_of (records : list AgentMemory.UsageRecord) : list LatencyPercentiles :=
  let agents := sort_strings (remove_dups (AgentMemory.ur_Agent <$> records)) in
  (fun a =>
     let durations := merge_sort Z.le (AgentMemory.ur_DurationMs <$> filter (fun x => AgentMemory.ur_Agent x = a) records) in
     let n := length durations in
     {| l_Agent := a; P50Ms := percentile durations n 50; P95Ms := percentile durations n 95; P99Ms := percentile durations n 99;
        SampleCount := Z.of_nat n |}) <$> agents.
(* [web/api/observability.go:TokenHourBucket] *)
Record TokenHourBucket := { Hour_ : string; InputTokens : Z; OutputTokens : Z; TotalTokens : Z }.
(* [web/api/observability.go:Server.handleObservabilityTokens@105-136] *)
Definition tokens_of (records : list AgentMemory.UsageRecord) : list TokenHourBucket :=
  let hour x := RFC3339 (AgentMemory.ur_Timestamp x - AgentMemory.ur_Timestamp x mod (60 * Minute)) in
  (fun h =>
     let l := filter (fun x => hour x = h) records in
     let i := foldl (fun n x => wrap64 (n + AgentMemory.ur_InputTokens x)) 0 l in
     let o := foldl (fun n x => wrap64 (n + AgentMemory.ur_OutputTokens x)) 0 l in
     {| Hour_ := h; InputTokens := i; OutputTokens := o; TotalTokens := wrap64 (i + o) |}) <$> sort_strings (remove_dups (hour <$> records)).
Definition last_day (r : Request) : effect := UsageQuery (query "tenant" r) "" (now - 24 * 60 * Minute) now.
Definition records_of (v : value) : list AgentMemory.UsageRecord := match v with VRecords l => l | _ => [] end.
(* [web/api/observability.go:Server.handleObservabilityLatency] *)
Definition handleObservabilityLatency (c : Caller) (r : Request) : handler :=
  if negb (has_usage parts) then reply VEmpty
  else call (last_day r) (RespondError 500 "OBSERVABILITY_ERROR")
    (fun v => reply (VList ((fun l => VFields [("agent", VString (l_Agent l)); ("p50_ms", VInt (P50Ms l)); ("p95_ms", VInt (P95Ms l));
                                              ("p99_ms", VInt (P99Ms l)); ("sample_count", VInt (SampleCount l))]) <$> latencies_of (records_of v)))).
(* [web/api/observability.go:Server.handleObservabilityTokens] *)
Definition handleObservabilityTokens (c : Caller) (r : Request) : handler :=
  if negb (has_usage parts) then reply VEmpty
  else call (last_day r) (RespondError 500 "OBSERVABILITY_ERROR")
    (fun v => reply (VList ((fun b => VFields [("hour", VString (Hour_ b)); ("input_tokens", VInt (InputTokens b));
                                              ("output_tokens", VInt (OutputTokens b)); ("total_tokens", VInt (TotalTokens b))])
                              <$> tokens_of (records_of v)))).
(* [web/api/observability.go:Server.handleObservabilityTools] *)
Definition handleObservabilityTools (c : Caller) (r : Request) : handler :=
  if negb (has_usage parts) then reply VEmpty else call (UsageSummary (query "tenant" r)) (RespondError 500 "OBSERVABILITY_ERROR") reply.
End Governance.

(** ** Service levels, schedules, workflows, crews, evaluations *)

Record ScheduleBody := { s_tenant : string; s_agent : string; s_interval : string; s_message : string; s_channel : string; s_channel_id : string }.
Record EvalBody := { ev_agent : string; ev_tenant : string; ev_cases : list Eval.EvalCase }.
Record InputBody := { i_input : string }.
Section Work.
Context `{!Decodes Sla.Rule} `{!Decodes ScheduleBody} `{!Decodes Workflow.Workflow} `{!Decodes Crew.Crew} `{!Decodes InputBody} `{!Decodes EvalBody}.
Context (ParseDuration : string -> Result duration).

(* [web/api/sla.go:Server.handleSLAAddRule] *)
Definition handleSLAAddRule (c : Caller) (r : Request) : handler :=
  with_body r "invalid JSON" (fun rule : Sla.Rule =>
    call (request "sla" "sla.add_rule" (VRule rule)) (RespondError 500 "ADD_FAILED")
      (fun _ => done_map 201 [("status", "created"); ("id", Sla.r_ID rule)])).
(* [web/api/sla.go:Server.handleSLAListRules] *)
Definition handleSLAListRules (c : Caller) (r : Request) : handler := proxy "sla" "sla.list_rules" VNil empty_list.
(* [web/api/sla.go:Server.handleSLARemoveRule] *)
Definition handleSLARemoveRule (c : Caller) (r : Request) : handler :=
  let id := path_value "id" r in
  call (request "sla" "sla.remove_rule" (VString id)) (RespondError 404 "NOT_FOUND") (fun _ => done_map 200 [("status", "removed"); ("id", id)]).
(* [web/api/sla.go:Server.handleSLAViolations] *)
Definition handleSLAViolations (c : Caller) (r : Request) : handler := proxy "sla" "sla.violations" VNil empty_list.

(* [web/api/schedules.go:Server.handleScheduleAdd@36-41] *)
Definition schedule_job (b : ScheduleBody) (interval : duration) : Scheduler.Job :=
  {| Scheduler.ID := "job_" +:+ s_tenant b +:+ "_" +:+ s_agent b; Scheduler.Name := s_agent b +:+ " schedule"; Scheduler.Tenant := s_tenant b;
     Scheduler.Agent := s_agent b; Scheduler.Message := s_message b; Scheduler.Interval := interval; Scheduler.CronExpr := "";
     Scheduler.LastRun := 0; Scheduler.NextRun := 0; Scheduler.Enabled := false; Scheduler.DestChannel := s_channel b;
     Scheduler.DestChannelID := s_channel_id b; Scheduler.Condition := None; Scheduler.DependsOn := []; Scheduler.ReportMode := false;
     Scheduler.ReportTitle := "" |}.
(* [web/api/schedules.go:Server.handleScheduleAdd] *)
Definition handleScheduleAdd (c : Caller) (r : Request) : handler :=
  with_body r "invalid JSON" (fun b : ScheduleBody =>
    match ParseDuration (s_interval b) with
    | Err e => Done (RespondError 400 "INVALID_INTERVAL" ("invalid interval: " +:+ e))
    | Ok d =>
        let job := schedule_job b d in
        call (request "scheduler" "scheduler.add" (VJob job)) (RespondError 500 "SCHEDULE_FAILED")
          (fun v => as_string v (fun s => done_map 201 [("status", "scheduled"); ("id", Scheduler.ID job); ("result", s)]))
    end).
(* [web/api/schedules.go:Server.handleScheduleList] *)
Definition handleScheduleList (c : Caller) (r : Request) : handler := proxy "scheduler" "scheduler.list" VNil (RespondError 500 "LIST_FAILED").
(* [web/api/schedules.go:Server.handleScheduleRemove] *)
Definition handleScheduleRemove (c : Caller) (r : Request) : handler :=
  let id := path_value "id" r in
  call (request "scheduler" "scheduler.remove" (VString id)) (RespondError 500 "REMOVE_FAILED") (fun _ => done_map 200 [("status", "removed"); ("id", id)]).

(* [web/api/workflows.go:Server.handleWorkflowRegister] *)
Definition handleWorkflowRegister (c : Caller) (r : Request) : handler :=
  with_body r "invalid JSON" (fun wf : Workflow.Workflow =>
    call (request "workflow" "workflow.register" (VWorkflow wf)) (RespondError 500 "REGISTER_FAILED")
      (fun v => as_string v (fun s => done_map 201 [("workflow_id", s)]))).
(* [web/api/workflows.go:Server.handleWorkflowList] *)
Definition handleWorkflowList (c : Caller) (r : Request) : handler := proxy "workflow" "workflow.list" VNil (RespondError 500 "LIST_FAILED").
(* [web/api/workflows.go:Server.handleWorkflowRun] *)
Definition handleWorkflowRun (c : Caller) (r : Request) : handler :=
  call (request "workflow" "workflow.run" (map_of [("workflow_id", path_value "id" r)])) (RespondError 500 "RUN_FAILED")
    (fun v => as_string v (fun s => done_map 201 [("run_id", s)])).
(* [web/api/workflows.go:Server.handleWorkflowGet] *)
Definition handleWorkflowGet (c : Caller) (r : Request) : handler :=
  proxy "workflow" "workflow.get" (VString (path_value "id" r)) (RespondError 404 "NOT_FOUND").
(* [web/api/workflows.go:Server.handleWorkflowListRuns] *)
Definition handleWorkflowListRuns (c : Caller) (r : Request) : handler := proxy "workflow" "workflow.list_runs" VNil empty_list.
(* [web/api/workflows.go:Server.handleWorkflowRunStatus] *)
Definition handleWorkflowRunStatus (c : Caller) (r : Request) : handler :=
  proxy "workflow" "workflow.status" (VString (path_value "id" r)) (RespondError 500 "STATUS_FAILED").

(* [web/api/crews.go:Server.handleCrewCreate] *)
Definition handleCrewCreate (c : Caller) (r : Request) : handler :=
  with_body r "invalid JSON" (fun cr : Crew.Crew =>
    if decide (Crew.c_Name cr = "" \/ length (Crew.Members cr) = 0%nat) then Done (RespondError 400 "MISSING_FIELDS" "name and members are required")
    else call (request "crew" "crew.create" (VCrew cr)) (RespondError 500 "CREATE_FAILED") (fun v => Done (Respond 201 v))).
(* [web/api/crews.go:Server.handleCrewList] *)
Definition handleCrewList (c : Caller) (r : Request) : handler := proxy "crew" "crew.list" VNil empty_list.
(* [web/api/crews.go:Server.handleCrewRun] *)
Definition handleCrewRun (c : Caller) (r : Request) : handler :=
  proxy "crew" "crew.run" (map_of [("crew_id", path_value "id" r); ("input", i_input (decode (Body r)).1)]) (RespondError 500 "RUN_FAILED").
(* [web/api/crews.go:Server.handleCrewRunStatus] *)
Definition handleCrewRunStatus (c : Caller) (r : Request) : handler :=
  proxy "crew" "crew.status" (VString (path_value "run_id" r)) (RespondError 404 "NOT_FOUND").
(* [web/api/crews.go:Server.handleCrewListRuns] *)
Definition handleCrewListRuns (c : Caller) (r : Request) : handler := proxy "crew" "crew.list_runs" VNil empty_list.

(** The agent and tenant of the run stand in where a case names none. *)
(* [web/api/eval.go:Server.handleEvalRun@28-35] *)
Definition fill_case (agent tenant : string) (e : Eval.EvalCase) : Eval.EvalCase :=
  {| Eval.e_ID := Eval.e_ID e; Eval.e_Name := Eval.e_Name e; Eval.e_Agent := if decide (Eval.e_Agent e = "") then agent else Eval.e_Agent e;
     Eval.e_Tenant := if decide (Eval.e_Tenant e = "") then tenant else Eval.e_Tenant e; Eval.Input := Eval.Input e;
     Eval.ExpectedOutput := Eval.ExpectedOutput e; Eval.ExpectedTools := Eval.ExpectedTools e; Eval.MatchMode := Eval.MatchMode e |}.
(* [web/api/eval.go:Server.handleEvalRun] *)
Definition handleEvalRun (c : Caller) (r : Request) : handler :=
  with_body r "invalid JSON" (fun b : EvalBody =>
    if decide (length (ev_cases b) = 0)%nat then Done (RespondError 400 "MISSING_CASES" "at least one eval case required")
    else proxy "eval" "eval.run" (VCases (fill_case (ev_agent b) (ev_tenant b) <$> ev_cases b)) (RespondError 500 "EVAL_FAILED")).
(* [web/api/eval.go:Server.handleEvalStatus] *)
Definition handleEvalStatus (c : Caller) (r : Request) : handler := proxy "eval" "eval.status" (VString (path_value "id" r)) (RespondError 404 "NOT_FOUND").
(* [web/api/eval.go:Server.handleEvalList] *)
Definition handleEvalList (c : Caller) (r : Request) : handler := proxy "eval" "eval.list" VNil empty_list.
End Work.

(** ** MCP servers, the knowledge base, tools *)

Record IngestBody := { k_title : string; k_content : string; k_tags : string; k_source_url : string; k_file_path : string }.
Section Tools.
Context `{!Decodes Mcp.ServerConfig} `{!Decodes IngestBody}.
(* [web/api/mcp.go:Server.handleMCPServerList] *)
Definition handleMCPServerList (c : Caller) (r : Request) : handler := proxy "mcp" "mcp.server.list" VNil empty_list.
(* [web/api/mcp.go:Server.handleMCPServerAdd] *)
Definition handleMCPServerAdd (c : Caller) (r : Request) : handler :=
  with_body r "invalid JSON" (fun cfg : Mcp.ServerConfig =>
    if decide (Mcp.s_Name cfg = "" \/ Mcp.Transport_ cfg = "") then Done (RespondError 400 "MISSING_FIELDS" "name and transport are required")
    else call (request "mcp" "mcp.server.add" (VServer cfg)) (RespondError 500 "CONNECT_FAILED")
           (fun _ => done_map 201 [("status", "connected"); ("name", Mcp.s_Name cfg)])).
(* [web/api/mcp.go:Server.handleMCPServerRemove] *)
Definition handleMCPServerRemove (c : Caller) (r : Request) : handler :=
  let name := path_value "name" r in
  call (request "mcp" "mcp.server.remove" (VString name)) (RespondError 500 "REMOVE_FAILED") (fun _ => done_map 200 [("status", "disconnected"); ("name", name)]).
(* [web/api/mcp.go:Server.handleMCPServerTools] *)
Definition handleMCPServerTools (c : Caller) (r : Request) : handler :=
  proxy "mcp" "mcp.server.tools" (VString (path_value "name" r)) (RespondError 404 "NOT_FOUND").
(* [web/api/mcp.go:Server.handleMCPMarketplaceSearch] *)
Definition handleMCPMarketplaceSearch (c : Caller) (r : Request) : handler := proxy "mcp" "mcp.marketplace.search" (VString (query "q" r)) empty_list.
(* [web/api/mcp.go:Server.handleMCPMarketplaceInstall] *)
Definition handleMCPMarketplaceInstall (c : Caller) (r : Request) : handler :=
  with_body r "invalid JSON" (fun cfg : Mcp.ServerConfig =>
    call (request "mcp" "mcp.server.add" (VServer cfg)) (RespondError 500 "INSTALL_FAILED")
      (fun _ => done_map 201 [("status", "installed"); ("name", Mcp.s_Name cfg)])).

(** The environment's base directory, the working directory, the clock. *)
Context (base : string) (cwd : Result string) (nanos : Z) (parts : Parts).
(* [web/api/knowledge.go:resolveKnowledgePath] *)
Definition resolveKnowledgePath (filePath : string) : Result string :=
  if decide (base = "") then Err "server-side file ingest is disabled: set CYNTR_KNOWLEDGE_BASE_DIR to enable"
  else match Abs cwd base with
       | Err _ => Err "invalid knowledge base directory"
       | Ok absBase =>
           let candidate := Join2 absBase (Clean ("/" +:+ filePath)) in
           let rel := Rel absBase candidate in
           if decide (rel = ".." \/ has_prefix "../" rel = true) then Err "file_path escapes the allowed base directory" else Ok candidate
       end.
(* [web/api/knowledge.go:Server.handleKnowledgeList] *)
Definition handleKnowledgeList (c : Caller) (r : Request) : handler :=
  if negb (has_knowledge parts) then reply VEmpty else call KnowledgeList (RespondError 500 "KNOWLEDGE_ERROR") reply.
Definition no_knowledge : handler := Done (RespondError 500 "NOT_CONFIGURED" "knowledge base not configured").
Definition ingest (title content tags : string) : handler :=
  let id := "kb_" +:+ itoa nanos in
  call (KnowledgeIngest id title content tags) (RespondError 500 "INGEST_FAILED") (fun _ => done_map 201 [("status", "ingested"); ("id", id)]).
(* [web/api/knowledge.go:Server.handleKnowledgeIngest] *)
Definition handleKnowledgeIngest (c : Caller) (r : Request) : handler :=
  if negb (has_knowledge parts) then no_knowledge
  else with_body r "invalid JSON" (fun b : IngestBody =>
    if decide (k_content b = "" /\ k_file_path b <> "") then
      match resolveKnowledgePath (k_file_path b) with
      | Err e => Done (RespondError 403 "FORBIDDEN" e)
      | Ok resolved =>
          call (ReadFile resolved) (RespondError 400 "FILE_ERROR")
            (fun v => let data := match v with VString s => s | _ => "" end in
                      ingest (if decide (k_title b = "") then Base resolved else k_title b) data (k_tags b))
      end
    else ingest (k_title b) (k_content b) (k_tags b)).
(* [web/api/knowledge.go:Server.handleKnowledgeSearch] *)
Definition handleKnowledgeSearch (c : Caller) (r : Request) : handler :=
  if negb (has_knowledge parts) then reply VEmpty
  else if decide (query "q" r = "") then Done (RespondError 400 "MISSING_QUERY" "q parameter required")
  else
    let mode := if decide (query "mode" r = "") then "hybrid" else query "mode" r in
    call (KnowledgeExecute (list_to_map [("action", "search"); ("query", query "q" r); ("mode", mode)])) (RespondError 500 "SEARCH_FAILED")
      (fun v => reply (VFields [("query", VString (query "q" r)); ("mode", VString mode); ("results", v)])).
(* [web/api/knowledge.go:Server.handleKnowledgeDelete] *)
Definition handleKnowledgeDelete (c : Caller) (r : Request) : handler :=
  if negb (has_knowledge parts) then no_knowledge
  else let id := path_value "id" r in
       call (KnowledgeDelete id) (RespondError 500 "DELETE_FAILED") (fun _ => done_map 200 [("status", "deleted"); ("id", id)]).
End Tools.

(** *** The tool builder *)

(* [web/api/toolbuilder.go:toolDef] *)
Record toolDef := { td_Name : string; td_Description : string; td_Command : string; td_Timeout : string; td_Parameters : gmap string AgentSession.ToolParam }.
(** The bytes a tool's name may have: a rune beyond them has a byte beyond them. *)
(* [web/api/toolbuilder.go:safeToolFilename@46-52] *)
Definition name_byte (a : ascii) : bool :=
  let n := N_of_ascii a in
  ((97 <=? n) && (n <=? 122) || (65 <=? n) && (n <=? 90) || (48 <=? n) && (n <=? 57) || (n =? 45) || (n =? 95) || (n =? 46))%N.
(* [web/api/toolbuilder.go:safeToolFilename] *)
Definition safeToolFilename (name : string) : option string :=
  let name := TrimSpace name in
  if decide (name = "") then None
  else if contains_byte "/" name || contains_byte "\" name || Contains name ".." then None
  else if negb (forallb name_byte (chars name)) then None
  else if decide (Base name <> name) then None
  else Some (Join2 "tools" (name +:+ ".yaml")).
Section Builder.
Context `{!Decodes toolDef} (Marshal : toolDef -> Result string) (Unmarshal : string -> Result value).
(** The directory's entries with whether they are directories, or why they cannot be read; [missing]
    when it does not exist. *)
Context (missing : error -> bool).
Fixpoint read_tools (names : list string) (tools : list value) : handler :=
  match names with
  | [] => reply (VList tools)
  | n :: names =>
      call (ReadFile ("tools/" +:+ n)) (fun e => RespondError 500 "TOOL_READ_ERROR" ("read " +:+ n +:+ ": " +:+ e))
        (fun v => match Unmarshal (match v with VString s => s | _ => "" end) with
                  | Err e => Done (RespondError 500 "TOOL_PARSE_ERROR" ("parse " +:+ n +:+ ": " +:+ e))
                  | Ok def => read_tools names (tools ++ [def])
                  end)
  end.
(* [web/api/toolbuilder.go:Server.handleToolList] *)
Definition handleToolList (c : Caller) (r : Request) : handler :=
  call (ReadDir "tools") (fun e => if missing e then Respond 200 VEmpty else RespondError 500 "TOOL_READ_ERROR" e)
    (fun v => let files := match v with VEntries l => fst <$> filter (fun e => e.2 = false) l | _ => [] end in
              read_tools (filter (fun n => Ext n = ".yaml" \/ Ext n = ".yml") files) []).
(* [web/api/toolbuilder.go:Server.handleToolCreate] *)
Definition handleToolCreate (c : Caller) (r : Request) : handler :=
  with_body r "invalid JSON" (fun d : toolDef =>
    match safeToolFilename (td_Name d) with
    | None => Done (RespondError 400 "VALIDATION_ERROR" "name is required and must contain only letters, digits, '-', '_', '.'")
    | Some path =>
        call (MakeDir "tools") (fun e => RespondError 500 "FS_ERROR" ("create tools directory: " +:+ e))
          (fun _ => match Marshal d with
                    | Err e => Done (RespondError 500 "MARSHAL_ERROR" e)
                    | Ok data => call (WriteFile path data) (RespondError 500 "WRITE_ERROR")
                                   (fun _ => done_map 201 [("status", "created"); ("name", td_Name d)])
                    end)
    end).
(* [web/api/toolbuilder.go:Server.handleToolDelete] *)
Definition handleToolDelete (c : Caller) (r : Request) : handler :=
  let name := path_value "name" r in
  match safeToolFilename name with
  | None => Done (RespondError 400 "VALIDATION_ERROR" "tool name is required and must contain only letters, digits, '-', '_', '.'")
  | Some path =>
      call (RemoveFile path)
        (fun e => if missing e then RespondError 404 "NOT_FOUND" ("tool " +:+ quote name +:+ " not found") else RespondError 500 "DELETE_ERROR" e)
        (fun _ => done_map 200 [("status", "deleted"); ("name", name)])
  end.
End Builder.

(** ** Skills and the curator *)

(* [modules/skill/marketplace.go:MarketplaceEntry] *)
Record MarketplaceEntry := {
  m_Name : string; m_Version : string; m_Author : string; m_Description : string; m_DownloadURL : string; Downloads : Z; m_Source : string;
}.
Definition with_source (source : string) (e : MarketplaceEntry) : MarketplaceEntry :=
  {| m_Name := m_Name e; m_Version := m_Version e; m_Author := m_Author e; m_Description := m_Description e;
     m_DownloadURL := m_DownloadURL e; Downloads := Downloads e; m_Source := source |}.
Record PathBody := { p_path : string }.
Record ReasonBody := { r_reason : string }.
Record InstallBody := { in_name : string; in_url : string }.
Section Skills.
Context `{!Decodes PathBody} `{!Decodes ReasonBody} `{!Decodes InstallBody} `{!Decodes CuratorLlm.InvocationContext}.
(** The built-in catalogue and its search, the check of a public URL, the home directory. *)
Context (BuiltinCatalog : list MarketplaceEntry) (SearchBuiltinCatalog : string -> list MarketplaceEntry).
Context (ValidatePublicURL : string -> option error) (home : string).

Definition ask_skills (topic : string) (payload : value) : effect := request "skill_runtime" topic payload.
(** What a listing says of one skill, from the answer to the request for it. *)
(* [web/api/skills.go:Server.handleSkillList@45-63] *)
Definition skill_info (name : string) (a : answer) : value :=
  let '(version, author, source) :=
    match a with Answered (VSkill v au path) => (v, au, if decide (path = "embedded://catalog") then "builtin" else "local") | _ => ("", "", "local") end in
  VFields [("name", VString name); ("version", VString version); ("description", VString ""); ("author", VString author); ("source", VString source)].
(* [web/api/skills.go:Server.handleSkillList] *)
Definition handleSkillList (c : Caller) (r : Request) : handler :=
  call (ask_skills "skill.list" VNil) (RespondError 500 "SKILL_ERROR")
    (fun v => match v with
              | VStrings names => ask_all ((fun n => ask_skills "skill.get" (VString n)) <$> names)
                                    (fun answers => reply (VList (zip_with skill_info names answers)))
              | v => reply v
              end).
(* [web/api/skills.go:Server.handleSkillInstall] *)
Definition handleSkillInstall (c : Caller) (r : Request) : handler :=
  with_body r "invalid JSON" (fun b : PathBody =>
    call (ask_skills "skill.install" (VString (p_path b))) (RespondError 500 "INSTALL_FAILED") (fun _ => done_map 201 [("status", "installed")])).
(* [web/api/skills.go:Server.handleSkillUninstall] *)
Definition handleSkillUninstall (c : Caller) (r : Request) : handler :=
  let name := path_value "name" r in
  call (ask_skills "skill.uninstall" (VString name)) (RespondError 500 "UNINSTALL_FAILED") (fun _ => done_map 200 [("status", "uninstalled"); ("name", name)]).
(** Built-in entries first, then GitHub's of other names. *)
(* [web/api/skills.go:Server.handleSkillMarketplaceSearch@127-142] *)
Definition merge_entries (builtin github : list MarketplaceEntry) : list MarketplaceEntry :=
  let first := (fun e => if decide (m_Source e = "") then with_source "builtin" e else e) <$> builtin in
  foldl (fun merged e => if decide (m_Name e ∈ m_Name <$> merged) then merged else merged ++ [with_source "github" e]) first github.
Definition entries_value (l : list MarketplaceEntry) : value :=
  VList ((fun e => VFields [("name", VString (m_Name e)); ("version", VString (m_Version e)); ("author", VString (m_Author e));
                            ("description", VString (m_Description e)); ("download_url", VString (m_DownloadURL e));
                            ("downloads", VInt (Downloads e)); ("source", VString (m_Source e))]) <$> l).
(** [found]: what the search on GitHub gives, nothing when it fails. *)
(* [web/api/skills.go:Server.handleSkillMarketplaceSearch] *)
Definition handleSkillMarketplaceSearch (found : value -> list MarketplaceEntry) (c : Caller) (r : Request) : handler :=
  let q := query "q" r in
  Ask (SearchGitHub q) (fun a => reply (entries_value (merge_entries (SearchBuiltinCatalog q) (match a with Answered v => found v | _ => [] end)))).
(** The first place a local skill is at. *)
Fixpoint find_skill (paths : list string) (none : handler) (k : string -> handler) : handler :=
  match paths with
  | [] => none
  | p :: paths => Ask (Stat p) (fun a => match a with Answered _ => k p | _ => find_skill paths none k end)
  end.
(* [web/api/skills.go:Server.handleSkillMarketplaceInstall] *)
Definition handleSkillMarketplaceInstall (c : Caller) (r : Request) : handler :=
  with_body r "invalid JSON" (fun b : InstallBody =>
    if decide (in_url b = "") then Done (RespondError 400 "MISSING_URL" "download_url is required")
    else if has_prefix "openclaw:" (in_url b) then
      let skillName := TrimPrefix (in_url b) "openclaw:" in
      find_skill ["/private/tmp/openclaw-skills/" +:+ skillName +:+ "/SKILL.md"; home +:+ "/.openclaw/skills/" +:+ skillName +:+ "/SKILL.md"]
        (Done (RespondError 404 "NOT_FOUND" ("OpenClaw skill '" +:+ skillName +:+ "' not found locally")))
        (fun path => call (ask_skills "skill.import_openclaw" (VString path)) (RespondError 500 "IMPORT_FAILED")
           (fun v => done_map 201 [("status", "installed"); ("name", match v with VString n => n | _ => "" end); ("source", "openclaw")]))
    else if existsb (fun e => bool_decide (m_Name e = in_name b) && negb (has_prefix "openclaw:" (m_DownloadURL e))) BuiltinCatalog then
      done_map 200 [("status", "already_available"); ("name", in_name b);
                    ("message", "This is a built-in skill — already embedded and available to all agents.")]
    else match ValidatePublicURL (in_url b) with
         | Some e => Done (RespondError 400 "INVALID_URL" e)
         | None =>
             call (Download (in_name b) (in_url b) "skills") (RespondError 500 "DOWNLOAD_FAILED")
               (fun v => let dir := match v with VString d => d | _ => "" end in
                         call (ask_skills "skill.install" (VString dir)) (RespondError 500 "INSTALL_FAILED")
                           (fun _ => done_map 201 [("status", "installed"); ("name", in_name b); ("source", dir)]))
         end).
(* [web/api/skills.go:Server.handleSkillImportOpenClaw] *)
Definition handleSkillImportOpenClaw (c : Caller) (r : Request) : handler :=
  with_body r "invalid JSON" (fun b : PathBody =>
    call (ask_skills "skill.import_openclaw" (VString (p_path b))) (RespondError 500 "IMPORT_FAILED")
      (fun v => as_string v (fun s => done_map 201 [("status", "imported"); ("name", s)]))).

(* [web/api/skill_candidates.go:Server.handleSkillCandidates] *)
Definition handleSkillCandidates (c : Caller) (r : Request) : handler :=
  proxy "skill_runtime" "skill.candidates" (VString (query "status" r)) (RespondError 500 "SKILL_ERROR").
(** [strconv.ParseInt] of the id, in 64 bits. *)
Definition with_id (r : Request) (k : Z -> handler) : handler :=
  match Atoi (path_value "id" r) with None => Done (RespondError 400 "INVALID_REQUEST" "invalid candidate id") | Some id => k id end.
Definition candidate_status (status : string) (id : Z) : handler := reply (VFields [("status", VString status); ("id", VInt id)]).
(* [web/api/skill_candidates.go:Server.handleSkillCandidateApprove] *)
Definition handleSkillCandidateApprove (c : Caller) (r : Request) : handler :=
  with_id r (fun id => call (ask_skills "skill.candidate_approve" (VInt id)) (RespondError 500 "APPROVE_FAILED") (fun _ => candidate_status "approved" id)).
(* [web/api/skill_candidates.go:Server.handleSkillCandidateReject] *)
Definition handleSkillCandidateReject (c : Caller) (r : Request) : handler :=
  with_id r (fun id => call (ask_skills "skill.candidate_reject" (VReject id (r_reason (decode (Body r)).1))) (RespondError 500 "REJECT_FAILED")
    (fun _ => candidate_status "rejected" id)).

(** The caller may change skills: nothing was authenticated, or a JWT has the admin scope. *)
(* [web/api/curator.go:requireCuratorAdmin] *)
Definition requireCuratorAdmin (c : Caller) : option Response :=
  match c_auth c with
  | None => None
  | Some _ =>
      match authPrincipal c with
      | Some p => if hasScope (jwtScopes p) Auth.ScopeAdmin then None
                  else Some (RespondError 403 "FORBIDDEN" "curator admin operations require the admin scope")
      | None => Some (RespondError 403 "FORBIDDEN" "curator admin operations require an admin-scoped identity")
      end
  end.
Definition as_admin (c : Caller) (k : handler) : handler := match requireCuratorAdmin c with Some resp => Done resp | None => k end.
(* [web/api/curator.go:Server.handleCuratorScores] *)
Definition handleCuratorScores (c : Caller) (r : Request) : handler :=
  proxy "curator" "curator.scores" (if decide (query "skill_name" r = "") then VNil else VScores (query "skill_name" r)) (RespondError 503 "CURATOR_UNAVAILABLE").
(* [web/api/curator.go:Server.handleCuratorJudge] *)
Definition handleCuratorJudge (c : Caller) (r : Request) : handler :=
  as_admin c (match decode (Body r) with
              | (_, Some e) => Done (RespondError 400 "BAD_REQUEST" e)
              | (inv, None) =>
                  if decide (CuratorLlm.ic_SkillName inv = "") then Done (RespondError 400 "BAD_REQUEST" "skill_name is required")
                  else proxy "curator" "curator.judge" (VInvocation inv) (RespondError 503 "CURATOR_JUDGE_UNAVAILABLE")
              end).
(* [web/api/curator.go:Server.handleCuratorPrune] *)
Definition handleCuratorPrune (c : Caller) (r : Request) : handler :=
  as_admin c (proxy "curator" "curator.prune.run" VNil (RespondError 503 "CURATOR_PRUNE_UNAVAILABLE")).
(* [web/api/curator.go:Server.handleCuratorConsolidate] *)
Definition handleCuratorConsolidate (c : Caller) (r : Request) : handler :=
  proxy "curator" "curator.consolidate.run" VNil (RespondError 503 "CURATOR_CONSOLIDATE_UNAVAILABLE").
End Skills.

(** ** Federation, nodes, tenants, the system *)

Record TenantBody := { tb_name : string; tb_isolation : string; tb_policy : string }.
Record NotifyBody := { n_title : string; n_message : string; n_severity : string }.
Section System.
Context `{!Decodes Federation.Peer} `{!Decodes Federation.DelegateRequest} `{!Decodes Node.IssueRequest} `{!Decodes TenantBody} `{!Decodes NotifyBody}.
Context (parts : Parts).

(* [web/api/federation.go:Server.handleFederationRemove] *)
Definition handleFederationRemove (c : Caller) (r : Request) : handler :=
  let name := path_value "name" r in
  call (request "federation" "federation.remove" (VString name)) (RespondError 500 "REMOVE_FAILED") (fun _ => done_map 200 [("status", "removed"); ("name", name)]).
(* [web/api/federation.go:Server.handleFederationPeers] *)
Definition handleFederationPeers (c : Caller) (r : Request) : handler := proxy "federation" "federation.peers" VNil (RespondError 500 "FEDERATION_ERROR").
Definition handleFederationJoin (c : Caller) (r : Request) : handler :=
  with_body r "invalid JSON" (fun p : Federation.Peer =>
    call (request "federation" "federation.join" (VPeer p)) (RespondError 500 "JOIN_FAILED")
      (fun _ => done_map 201 [("status", "joined"); ("peer", Federation.p_Name p)])).
Definition delegate (topic : string) (fail : error -> Response) (q : Federation.DelegateRequest) : handler :=
  call (request "federation" topic (VDelegate q)) fail
    (fun v => match v with VDelegateResponse resp => reply (VDelegateResponse resp) | _ => unexpected end).
Definition handleFederationDelegate (c : Caller) (r : Request) : handler :=
  with_body r "invalid JSON" (fun q : Federation.DelegateRequest =>
    if decide (Federation.d_Peer q = "" \/ Federation.d_Tenant q = "" \/ Federation.d_Agent q = "" \/ Federation.d_Message q = "") then
      Done (RespondError 400 "INVALID_REQUEST" "peer, tenant, agent, and message are required")
    else delegate "federation.delegate" (RespondError 502 "DELEGATE_FAILED") q).
Definition handleFederationDelegateInbound (c : Caller) (r : Request) : handler :=
  with_body r "invalid JSON" (fun q : Federation.DelegateRequest =>
    delegate "federation.delegate.inbound" (RespondError 500 "INBOUND_FAILED") (Federation.with_secret (header "X-Federation-Secret" r) q)).
(* [web/api/federation.go:Server.handleFederationHealth] *)
Definition handleFederationHealth (c : Caller) (r : Request) : handler := done_map 200 [("status", "ok")].
(* [web/api/channels.go:Server.handleChannelList] *)
Definition handleChannelList (c : Caller) (r : Request) : handler := proxy "channel" "channel.details" VNil empty_list.
Definition handleNodePairIssue (c : Caller) (r : Request) : handler :=
  match decode (Body r) with
  | (_, Some _) => Done (RespondError 400 "BAD_REQUEST" "invalid JSON body")
  | (b, None) =>
      if decide (Node.q_Node b = "") then Done (RespondError 400 "MISSING_NODE" "node is required")
      else
        let tenant := Node.issue_tenant (Auth.Tenant <$> authPrincipal c) (Node.q_Tenant b) in
        call (request "node" "node.pair.issue" (VIssue {| Node.q_Tenant := tenant; Node.q_Node := Node.q_Node b; Node.q_Capabilities := Node.q_Capabilities b |}))
          (RespondError 500 "NODE_PAIR_ERROR")
          (fun v => match v with
                    | VIssueResponse out =>
                        if decide (Node.r_Error out <> "") then Done (RespondError 400 "NODE_PAIR_ERROR" (Node.r_Error out))
                        else reply (VFields [("code", VString (Node.r_Code out)); ("node", VString (Node.q_Node b)); ("tenant", VString tenant);
                                             ("capabilities", VStrings (Node.q_Capabilities b))])
                    | _ => Done (RespondError 500 "NODE_PAIR_ERROR" "unexpected response from node module")
                    end)
  end.

(** The tenants of the configuration, in any order. *)
(* [web/api/tenants.go:Server.handleTenantList] *)
Definition handleTenantList (tenants : list (string * string * string)) (c : Caller) (r : Request) : handler :=
  if negb (has_kernel parts) then reply (VStrings [])
  else reply (VList ((fun t => map_of [("name", t.1.1); ("isolation", t.1.2); ("policy", t.2)]) <$> tenants)).
Definition no_tenants : handler := Done (RespondError 500 "NOT_CONFIGURED" "tenant manager not configured").
(* [web/api/tenants.go:Server.handleTenantGet] *)
Definition handleTenantGet (c : Caller) (r : Request) : handler :=
  if negb (has_tenants parts) then no_tenants
  else call (TenantGet (path_value "tid" r)) (fun _ => RespondError 404 "NOT_FOUND" "tenant not found")
    (fun v => match v with
              | VTenant t => reply (map_of [("name", Tenants.Name t); ("isolation", Tenants.IsolationString (Tenants.Isolation t)); ("policy", Tenants.Policy t)])
              | _ => Done (RespondError 404 "NOT_FOUND" "tenant not found")
              end).
(* [web/api/tenants.go:Server.handleTenantCreate] *)
Definition handleTenantCreate (c : Caller) (r : Request) : handler :=
  if negb (has_tenants parts) then no_tenants
  else with_body r "invalid JSON body" (fun b : TenantBody =>
    let mode := if decide (tb_isolation b = "process") then Tenants.IsolationProcess else Tenants.IsolationNamespace in
    call (TenantCreate (tb_name b) mode (tb_policy b)) (RespondError 409 "CREATE_FAILED")
      (fun _ => done_map 201 [("status", "created"); ("name", tb_name b)])).
(* [web/api/tenants.go:Server.handleTenantDelete] *)
Definition handleTenantDelete (c : Caller) (r : Request) : handler :=
  if negb (has_tenants parts) then no_tenants
  else let tid := path_value "tid" r in
       call (TenantDelete tid) (RespondError 404 "DELETE_FAILED") (fun _ => done_map 200 [("status", "deleted"); ("name", tid)]).

(* [web/api/notifications.go:Server.handleNotificationChannels] *)
Definition handleNotificationChannels (names : list string) (c : Caller) (r : Request) : handler :=
  if negb (has_notifier parts) then reply (VStrings []) else reply (VStrings names).
(* [web/api/notifications.go:Server.handleNotificationTest] *)
Definition handleNotificationTest (c : Caller) (r : Request) : handler :=
  if negb (has_notifier parts) then Done (RespondError 500 "NOT_CONFIGURED" "notifier not initialized")
  else with_body r "invalid JSON" (fun b : NotifyBody =>
    call (Notify (n_title b) (n_message b) (n_severity b) "api-test") (RespondError 500 "SEND_FAILED") (fun _ => done_map 200 [("status", "sent")])).
(* [web/api/system.go:Server.handleSystemHealth] *)
Definition handleSystemHealth (report : value) (c : Caller) (r : Request) : handler :=
  if negb (has_kernel parts) then done_map 200 [("status", "ok")] else reply report.
(* [web/api/system.go:Server.handleSystemVersion] *)
Definition handleSystemVersion (version : string) (c : Caller) (r : Request) : handler := done_map 200 [("version", version)].
(* [web/api/branding.go:getEnvOrDefault] *)
Definition getEnvOrDefault (env : string -> string) (key defaultVal : string) : string := if decide (env key = "") then defaultVal else env key.
(* [web/api/branding.go:Server.handleBranding] *)
Definition handleBranding (env : string -> string) (c : Caller) (r : Request) : handler :=
  done_map 200 [("name", getEnvOrDefault env "CYNTR_BRAND_NAME" "Cyntr"); ("tagline", getEnvOrDefault env "CYNTR_BRAND_TAGLINE" "Agent OS");
                ("accent", getEnvOrDefault env "CYNTR_BRAND_ACCENT" "#6366f1"); ("logo", getEnvOrDefault env "CYNTR_BRAND_LOGO" "")].
(* [web/api/auth.go:Server.handleOIDCLogin] *)
Definition handleOIDCLogin (c : Caller) (r : Request) : handler :=
  done_map 200 [("message", "OIDC login endpoint. Configure OIDC provider to enable."); ("status", "not_configured")].
(* [web/api/auth.go:Server.handleOIDCCallback] *)
Definition handleOIDCCallback (c : Caller) (r : Request) : handler :=
  if decide (query "code" r = "") then Done (RespondError 400 "MISSING_CODE" "authorization code required")
  else done_map 200 [("message", "OIDC callback received"); ("code", query "code" r); ("state", query "state" r); ("status", "not_configured")].

(** The process's counters. *)
(* [web/api/metrics.go:MetricsCollector] *)
Record MetricsCollector := { requestCount : Z; errorCount : Z; totalLatency : Z }.
(* [web/api/metrics.go:MetricsCollector.RecordRequest] *)
Definition RecordRequest (millis : Z) (isError : bool) (m : MetricsCollector) : MetricsCollector :=
  {| requestCount := wrap64 (requestCount m + 1); errorCount := if isError then wrap64 (errorCount m + 1) else errorCount m;
     totalLatency := wrap64 (totalLatency m + millis) |}.
(* [web/api/metrics.go:Server.handleMetrics] *)
Definition handleMetrics (m : MetricsCollector) (uptime : Z) (c : Caller) (r : Request) : handler :=
  let avg := if decide (0 < requestCount m) then Z.quot (totalLatency m) (requestCount m) else 0 in
  reply (VFields [("requests_total", VInt (requestCount m)); ("errors_total", VInt (errorCount m)); ("avg_latency_ms", VInt avg); ("uptime_seconds", VInt uptime)]).
(** [exposition]: the installed handler's answer. *)
(* [web/api/server.go:Server.handleMetricsProm] *)
Definition handleMetricsProm (exposition : option Response) (c : Caller) (r : Request) : handler :=
  match exposition with
  | None => Done (RespondError 404 "OBSERVABILITY_DISABLED" "Prometheus exposition requires OTEL_EXPORTER_OTLP_ENDPOINT to be set")
  | Some resp => Done resp
  end.
End System.
