(* ===== verification/ApiRoutes.v ===== *)
(** * ApiRoutes: the routes of the HTTP API

    [src/web/api]: server.go.  The table of routes, the multiplexer of [net/http] that picks among them
    (a literal segment before a wildcard, HEAD where only GET is there), and the handler of each.  Paths
    that [net/http] redirects because they are not clean are left out. *)
From S2P Require Import Prelude GoStr GoText.
From S2P Require Auth AgentSession Policy Quota Sla Federation Crew Workflow CuratorLlm Node Mcp AgentMemory.
From S2P Require Import Api ApiAgents ApiModules.
Local Open Scope go_scope.

(** The endpoints, by their handlers. *)
Inductive endpoint :=
  | ESystemHealth | ESystemVersion | ENodePairIssue | ETenantList | ETenantGet | ETenantCreate | ETenantDelete | EAgentList
  | EAgentCreate | EAgentChat | EAgentChatStream | EAgentVoice | EAgentGet | EAgentDelete | EAgentUpdate | EAgentSessions
  | ESessionMessages | ESessionClear | EAgentMemories | EMemoryDelete | EAgentVersions | EAgentRollback | EUserCreate | EUserList
  | EUserDelete | EAuthMe | EUserProfileGet | EUserProfilePut | EUserProfileDistill | EAgentSearch | EPolicyTest
  | EPolicyRulesList | ESkillList | ESkillInstall | ESkillCandidates | ESkillCandidateApprove | ESkillCandidateReject
  | ESkillImportOpenClaw | ESkillMarketplaceSearch | ESkillMarketplaceInstall | ESkillUninstall | EAuditQuery | EChannelList
  | EFederationPeers | EFederationJoin | EFederationRemove | EFederationDelegate | EFederationDelegateInbound | EFederationHealth
  | EApprovalList | EApprovalApprove | EApprovalDeny | EOIDCLogin | EOIDCCallback | EWorkflowRegister | EWorkflowList
  | EWorkflowGet | EWorkflowRun | EWorkflowListRuns | EWorkflowRunStatus | EScheduleAdd | EScheduleList | EScheduleRemove
  | EKnowledgeList | EKnowledgeSearch | EKnowledgeIngest | EKnowledgeDelete | EWebhookTrigger | EWebhookAgent | EBranding
  | EMetrics | EMetricsProm | EMCPServerList | EMCPServerAdd | EMCPServerRemove | EMCPServerTools | EMCPMarketplaceSearch
  | EMCPMarketplaceInstall | ECrewCreate | ECrewList | ECrewRun | ECrewRunStatus | ECrewListRuns | EEvalRun | EEvalStatus
  | EEvalList | ECuratorScores | ECuratorJudge | ECuratorPrune | ECuratorConsolidate | EUsageQuery | EUsageSummary | EQuotaGet
  | EQuotaSet | ESLAAddRule | ESLAListRules | ESLARemoveRule | ESLAViolations | ENotificationChannels | ENotificationTest
  | EObservabilityLatency | EObservabilityTokens | EObservabilityTools | EToolList | EToolCreate | EToolDelete.

(* [web/api/server.go:Server.registerRoutes] *)
Definition registerRoutes : list (string * string * endpoint) := [
  ("GET", "/api/v1/system/health", ESystemHealth); ("GET", "/api/v1/system/version", ESystemVersion);
  ("POST", "/api/v1/node/pair", ENodePairIssue); ("GET", "/api/v1/tenants", ETenantList);
  ("GET", "/api/v1/tenants/{tid}", ETenantGet); ("POST", "/api/v1/tenants", ETenantCreate);
  ("DELETE", "/api/v1/tenants/{tid}", ETenantDelete); ("GET", "/api/v1/tenants/{tid}/agents", EAgentList);
  ("POST", "/api/v1/tenants/{tid}/agents", EAgentCreate); ("POST", "/api/v1/tenants/{tid}/agents/{name}/chat", EAgentChat);
  ("GET", "/api/v1/tenants/{tid}/agents/{name}/stream", EAgentChatStream);
  ("POST", "/api/v1/tenants/{tid}/agents/{name}/voice", EAgentVoice); ("GET", "/api/v1/tenants/{tid}/agents/{name}", EAgentGet);
  ("DELETE", "/api/v1/tenants/{tid}/agents/{name}", EAgentDelete); ("PUT", "/api/v1/tenants/{tid}/agents/{name}", EAgentUpdate);
  ("GET", "/api/v1/tenants/{tid}/agents/{name}/sessions", EAgentSessions);
  ("GET", "/api/v1/tenants/{tid}/agents/{name}/sessions/{sid}/messages", ESessionMessages);
  ("DELETE", "/api/v1/tenants/{tid}/agents/{name}/sessions/{sid}", ESessionClear);
  ("GET", "/api/v1/tenants/{tid}/agents/{name}/memories", EAgentMemories);
  ("DELETE", "/api/v1/tenants/{tid}/agents/{name}/memories/{mid}", EMemoryDelete);
  ("GET", "/api/v1/tenants/{tid}/agents/{name}/versions", EAgentVersions);
  ("POST", "/api/v1/tenants/{tid}/agents/{name}/rollback/{version}", EAgentRollback);
  ("POST", "/api/v1/tenants/{tid}/users", EUserCreate); ("GET", "/api/v1/tenants/{tid}/users", EUserList);
  ("DELETE", "/api/v1/tenants/{tid}/users/{uid}", EUserDelete); ("GET", "/api/v1/auth/me", EAuthMe);
  ("GET", "/api/v1/tenants/{tid}/users/{uid}/profile", EUserProfileGet);
  ("PUT", "/api/v1/tenants/{tid}/users/{uid}/profile", EUserProfilePut);
  ("POST", "/api/v1/tenants/{tid}/users/{uid}/profile/distill", EUserProfileDistill); ("GET", "/api/v1/search", EAgentSearch);
  ("POST", "/api/v1/policies/test", EPolicyTest); ("GET", "/api/v1/policies/rules", EPolicyRulesList);
  ("GET", "/api/v1/skills", ESkillList); ("POST", "/api/v1/skills", ESkillInstall);
  ("GET", "/api/v1/skills/candidates", ESkillCandidates);
  ("POST", "/api/v1/skills/candidates/{id}/approve", ESkillCandidateApprove);
  ("POST", "/api/v1/skills/candidates/{id}/reject", ESkillCandidateReject);
  ("POST", "/api/v1/skills/import/openclaw", ESkillImportOpenClaw);
  ("GET", "/api/v1/skills/marketplace/search", ESkillMarketplaceSearch);
  ("GET", "/api/v1/skills/marketplace", ESkillMarketplaceSearch);
  ("POST", "/api/v1/skills/marketplace/install", ESkillMarketplaceInstall); ("DELETE", "/api/v1/skills/{name}", ESkillUninstall);
  ("GET", "/api/v1/audit", EAuditQuery); ("GET", "/api/v1/channels", EChannelList);
  ("GET", "/api/v1/federation/peers", EFederationPeers); ("POST", "/api/v1/federation/peers", EFederationJoin);
  ("DELETE", "/api/v1/federation/peers/{name}", EFederationRemove); ("POST", "/api/v1/federation/delegate", EFederationDelegate);
  ("POST", "/api/v1/federation/inbound/delegate", EFederationDelegateInbound);
  ("GET", "/api/v1/federation/health", EFederationHealth); ("GET", "/api/v1/approvals", EApprovalList);
  ("POST", "/api/v1/approvals/{id}/approve", EApprovalApprove); ("POST", "/api/v1/approvals/{id}/deny", EApprovalDeny);
  ("GET", "/api/v1/auth/oidc/login", EOIDCLogin); ("GET", "/api/v1/auth/oidc/callback", EOIDCCallback);
  ("POST", "/api/v1/workflows", EWorkflowRegister); ("GET", "/api/v1/workflows", EWorkflowList);
  ("GET", "/api/v1/workflows/{id}", EWorkflowGet); ("POST", "/api/v1/workflows/{id}/run", EWorkflowRun);
  ("GET", "/api/v1/workflows/runs", EWorkflowListRuns); ("GET", "/api/v1/workflows/runs/{id}", EWorkflowRunStatus);
  ("POST", "/api/v1/schedules", EScheduleAdd); ("GET", "/api/v1/schedules", EScheduleList);
  ("POST", "/api/v1/schedules/{id}/remove", EScheduleRemove); ("GET", "/api/v1/knowledge", EKnowledgeList);
  ("GET", "/api/v1/knowledge/search", EKnowledgeSearch); ("POST", "/api/v1/knowledge", EKnowledgeIngest);
  ("DELETE", "/api/v1/knowledge/{id}", EKnowledgeDelete); ("POST", "/api/v1/webhooks/trigger/{workflow_id}", EWebhookTrigger);
  ("POST", "/api/v1/webhooks/agent/{tenant}/{agent}", EWebhookAgent); ("GET", "/api/v1/branding", EBranding);
  ("GET", "/api/v1/metrics", EMetrics); ("GET", "/api/v1/metrics/prom", EMetricsProm);
  ("GET", "/api/v1/mcp/servers", EMCPServerList); ("POST", "/api/v1/mcp/servers", EMCPServerAdd);
  ("DELETE", "/api/v1/mcp/servers/{name}", EMCPServerRemove); ("GET", "/api/v1/mcp/servers/{name}/tools", EMCPServerTools);
  ("GET", "/api/v1/mcp/marketplace", EMCPMarketplaceSearch); ("POST", "/api/v1/mcp/marketplace/install", EMCPMarketplaceInstall);
  ("POST", "/api/v1/crews", ECrewCreate); ("GET", "/api/v1/crews", ECrewList); ("POST", "/api/v1/crews/{id}/run", ECrewRun);
  ("GET", "/api/v1/crews/runs/{run_id}", ECrewRunStatus); ("GET", "/api/v1/crews/runs", ECrewListRuns);
  ("POST", "/api/v1/eval/run", EEvalRun); ("GET", "/api/v1/eval/runs/{id}", EEvalStatus);
  ("GET", "/api/v1/eval/runs", EEvalList); ("GET", "/api/v1/curator/scores", ECuratorScores);
  ("POST", "/api/v1/curator/judge", ECuratorJudge); ("POST", "/api/v1/curator/prune", ECuratorPrune);
  ("GET", "/api/v1/curator/consolidate", ECuratorConsolidate); ("GET", "/api/v1/usage", EUsageQuery);
  ("GET", "/api/v1/usage/summary", EUsageSummary); ("GET", "/api/v1/tenants/{tid}/quota", EQuotaGet);
  ("PUT", "/api/v1/tenants/{tid}/quota", EQuotaSet); ("POST", "/api/v1/sla/rules", ESLAAddRule);
  ("GET", "/api/v1/sla/rules", ESLAListRules); ("DELETE", "/api/v1/sla/rules/{id}", ESLARemoveRule);
  ("GET", "/api/v1/sla/violations", ESLAViolations); ("GET", "/api/v1/notifications/channels", ENotificationChannels);
  ("POST", "/api/v1/notifications/test", ENotificationTest); ("GET", "/api/v1/observability/latency", EObservabilityLatency);
  ("GET", "/api/v1/observability/tokens", EObservabilityTokens); ("GET", "/api/v1/observability/tools", EObservabilityTools);
  ("GET", "/api/v1/tools", EToolList); ("POST", "/api/v1/tools", EToolCreate); ("DELETE", "/api/v1/tools/{name}", EToolDelete)].

#[export] Instance endpoint_eq_dec : EqDecision endpoint := ltac:(solve_decision).

(** ** Patterns *)

Inductive seg := Lit (s : string) | Wild (name : string).
#[export] Instance seg_eq_dec : EqDecision seg := ltac:(solve_decision).
Definition strip_braces (s : string) : string := TrimSuffix (TrimPrefix s "{") "}".
Definition parse_seg (s : string) : seg := if has_prefix "{" s then Wild (strip_braces s) else Lit s.
(** What is between the slashes of a pattern, the first of which it starts with. *)
Definition parse_pattern (p : string) : list seg := parse_seg <$> drop 1 (split "/"%char p).
Fixpoint match_segs (pat : list seg) (path : list string) : option (list (string * string)) :=
  match pat, path with
  | [], [] => Some []
  | Lit s :: pat, x :: path => if decide (s = x) then match_segs pat path else None
  | Wild n :: pat, x :: path => if decide (x = "") then None else cons (n, x) <$> match_segs pat path
  | _, _ => None
  end.
(** The more specific of two patterns that match one path: the first to have a literal. *)
Fixpoint more_specific (p q : list seg) : bool :=
  match p, q with
  | Lit _ :: _, Wild _ :: _ => true
  | Wild _ :: _, Lit _ :: _ => false
  | _ :: p, _ :: q => more_specific p q
  | _, _ => false
  end.
Record chosen := { ch_pattern : list seg; ch_endpoint : endpoint; ch_values : list (string * string) }.
Definition matching (method : string) (path : list string) (routes : list (string * string * endpoint)) : list chosen :=
  omap (fun rt => if decide (rt.1.1 = method) then
                    let pat := parse_pattern rt.1.2 in
                    (fun vs => {| ch_pattern := pat; ch_endpoint := rt.2; ch_values := vs |}) <$> match_segs pat path
                  else None) routes.
Definition prefer (b : option chosen) (x : chosen) : option chosen :=
  match b with None => Some x | Some y => if more_specific (ch_pattern x) (ch_pattern y) then Some x else Some y end.
Definition best (l : list chosen) : option chosen := foldl prefer None l.
Definition select (method : string) (path : list string) : option chosen :=
  match best (matching method path registerRoutes) with
  | Some x => Some x
  | None => if decide (method = "HEAD") then best (matching "GET" path registerRoutes) else None
  end.

(** ** Dispatch *)

(** What the environment gives the handlers. *)
Record Env := {
  v_fresh : string; v_marshal : value -> string; v_flushes : bool; v_seen : list AgentSession.ActivityEvent;
  v_form : Result (string * string); v_raw : Result string; v_buffered : bool; v_digest : string -> string; v_random : string;
  v_nanos : Z; v_stamp : string; v_parts : Parts; v_report : value; v_version : string; v_tenants : list (string * string * string);
  v_ParseTime : string -> option time; v_now : time; v_ParseDuration : string -> Result duration; v_base : string; v_cwd : Result string;
  v_secret : string; v_hmac : string -> string -> string; v_hex_decode : string -> option string; v_payload_of : string -> value;
  v_fault : option error; v_env : string -> string; v_metrics : MetricsCollector; v_uptime : Z; v_exposition : option Response;
  v_BuiltinCatalog : list MarketplaceEntry; v_SearchBuiltin : string -> list MarketplaceEntry; v_found : value -> list MarketplaceEntry;
  v_ValidatePublicURL : string -> option error; v_channels : list string; v_Marshal : toolDef -> Result string;
  v_Unmarshal : string -> Result value; v_missing : error -> bool;
}.
(** JSON decoding of every body the API takes. *)
Class Codec := {
  d_config :: Decodes AgentSession.AgentConfig; d_chat :: Decodes ChatBody; d_user :: Decodes UserBody; d_profile :: Decodes ProfileBody;
  d_webhook :: Decodes WebhookBody; d_quota :: Decodes Quota.QuotaConfig; d_decide :: Decodes DecideBody; d_check :: Decodes Policy.CheckRequest;
  d_rule :: Decodes Sla.Rule; d_schedule :: Decodes ScheduleBody; d_workflow :: Decodes Workflow.Workflow; d_crew :: Decodes Crew.Crew;
  d_input :: Decodes InputBody; d_eval :: Decodes EvalBody; d_server :: Decodes Mcp.ServerConfig; d_ingest :: Decodes IngestBody;
  d_tool :: Decodes toolDef; d_path :: Decodes PathBody; d_reason :: Decodes ReasonBody; d_install :: Decodes InstallBody;
  d_invocation :: Decodes CuratorLlm.InvocationContext; d_peer :: Decodes Federation.Peer; d_delegate :: Decodes Federation.DelegateRequest;
  d_issue :: Decodes Node.IssueRequest; d_tenant :: Decodes TenantBody; d_notify :: Decodes NotifyBody;
}.

Section Server.
Context `{!Codec} (E : Env).
Definition handle (e : endpoint) : Caller -> Request -> handler :=
  match e with
  | ESystemHealth => handleSystemHealth (v_parts E) (v_report E)
  | ESystemVersion => handleSystemVersion (v_version E)
  | ENodePairIssue => handleNodePairIssue
  | ETenantList => handleTenantList (v_parts E) (v_tenants E)
  | ETenantGet => handleTenantGet (v_parts E)
  | ETenantCreate => handleTenantCreate (v_parts E)
  | ETenantDelete => handleTenantDelete (v_parts E)
  | EAgentList => handleAgentList
  | EAgentCreate => handleAgentCreate
  | EAgentChat => handleAgentChat (v_fresh E)
  | EAgentChatStream => handleAgentChatStream (v_marshal E) (v_fresh E) (v_flushes E) (v_seen E)
  | EAgentVoice => handleAgentVoice (v_fresh E) (v_form E) (v_raw E) (v_buffered E)
  | EAgentGet => handleAgentGet
  | EAgentDelete => handleAgentDelete
  | EAgentUpdate => handleAgentUpdate
  | EAgentSessions => handleAgentSessions
  | ESessionMessages => handleSessionMessages
  | ESessionClear => handleSessionClear
  | EAgentMemories => handleAgentMemories
  | EMemoryDelete => handleMemoryDelete
  | EAgentVersions => handleAgentVersions
  | EAgentRollback => handleAgentRollback
  | EUserCreate => handleUserCreate (v_digest E) (v_random E) (v_nanos E) (v_stamp E) (v_parts E)
  | EUserList => handleUserList (v_parts E)
  | EUserDelete => handleUserDelete (v_parts E)
  | EAuthMe => handleAuthMe (v_digest E) (v_parts E)
  | EUserProfileGet => handleUserProfileGet
  | EUserProfilePut => handleUserProfilePut
  | EUserProfileDistill => handleUserProfileDistill
  | EAgentSearch => handleAgentSearch
  | EPolicyTest => handlePolicyTest
  | EPolicyRulesList => handlePolicyRulesList
  | ESkillList => handleSkillList
  | ESkillInstall => handleSkillInstall
  | ESkillCandidates => handleSkillCandidates
  | ESkillCandidateApprove => handleSkillCandidateApprove
  | ESkillCandidateReject => handleSkillCandidateReject
  | ESkillImportOpenClaw => handleSkillImportOpenClaw
  | ESkillMarketplaceSearch => handleSkillMarketplaceSearch (v_SearchBuiltin E) (v_found E)
  | ESkillMarketplaceInstall => handleSkillMarketplaceInstall (v_BuiltinCatalog E) (v_ValidatePublicURL E) (v_env E "HOME")
  | ESkillUninstall => handleSkillUninstall
  | EAuditQuery => handleAuditQuery (v_ParseTime E)
  | EChannelList => handleChannelList
  | EFederationPeers => handleFederationPeers
  | EFederationJoin => handleFederationJoin
  | EFederationRemove => handleFederationRemove
  | EFederationDelegate => handleFederationDelegate
  | EFederationDelegateInbound => handleFederationDelegateInbound
  | EFederationHealth => handleFederationHealth
  | EApprovalList => handleApprovalList
  | EApprovalApprove => handleApprovalApprove
  | EApprovalDeny => handleApprovalDeny
  | EOIDCLogin => handleOIDCLogin
  | EOIDCCallback => handleOIDCCallback
  | EWorkflowRegister => handleWorkflowRegister
  | EWorkflowList => handleWorkflowList
  | EWorkflowGet => handleWorkflowGet
  | EWorkflowRun => handleWorkflowRun
  | EWorkflowListRuns => handleWorkflowListRuns
  | EWorkflowRunStatus => handleWorkflowRunStatus
  | EScheduleAdd => handleScheduleAdd (v_ParseDuration E)
  | EScheduleList => handleScheduleList
  | EScheduleRemove => handleScheduleRemove
  | EKnowledgeList => handleKnowledgeList (v_parts E)
  | EKnowledgeSearch => handleKnowledgeSearch (v_parts E)
  | EKnowledgeIngest => handleKnowledgeIngest (v_base E) (v_cwd E) (v_nanos E) (v_parts E)
  | EKnowledgeDelete => handleKnowledgeDelete (v_parts E)
  | EWebhookTrigger => handleWebhookTrigger (v_secret E) (v_hmac E) (v_hex_decode E) (v_payload_of E) (v_fault E)
  | EWebhookAgent => handleWebhookAgent (v_secret E) (v_hmac E) (v_hex_decode E) (v_fault E)
  | EBranding => handleBranding (v_env E)
  | EMetrics => handleMetrics (v_metrics E) (v_uptime E)
  | EMetricsProm => handleMetricsProm (v_exposition E)
  | EMCPServerList => handleMCPServerList
  | EMCPServerAdd => handleMCPServerAdd
  | EMCPServerRemove => handleMCPServerRemove
  | EMCPServerTools => handleMCPServerTools
  | EMCPMarketplaceSearch => handleMCPMarketplaceSearch
  | EMCPMarketplaceInstall => handleMCPMarketplaceInstall
  | ECrewCreate => handleCrewCreate
  | ECrewList => handleCrewList
  | ECrewRun => handleCrewRun
  | ECrewRunStatus => handleCrewRunStatus
  | ECrewListRuns => handleCrewListRuns
  | EEvalRun => handleEvalRun
  | EEvalStatus => handleEvalStatus
  | EEvalList => handleEvalList
  | ECuratorScores => handleCuratorScores
  | ECuratorJudge => handleCuratorJudge
  | ECuratorPrune => handleCuratorPrune
  | ECuratorConsolidate => handleCuratorConsolidate
  | EUsageQuery => handleUsageQuery (v_ParseTime E) (v_parts E)
  | EUsageSummary => handleUsageSummary (v_parts E)
  | EQuotaGet => handleQuotaGet
  | EQuotaSet => handleQuotaSet
  | ESLAAddRule => handleSLAAddRule
  | ESLAListRules => handleSLAListRules
  | ESLARemoveRule => handleSLARemoveRule
  | ESLAViolations => handleSLAViolations
  | ENotificationChannels => handleNotificationChannels (v_parts E) (v_channels E)
  | ENotificationTest => handleNotificationTest (v_parts E)
  | EObservabilityLatency => handleObservabilityLatency (v_now E) (v_parts E)
  | EObservabilityTokens => handleObservabilityTokens (v_now E) (v_parts E)
  | EObservabilityTools => handleObservabilityTools (v_parts E)
  | EToolList => handleToolList (v_Unmarshal E) (v_missing E)
  | EToolCreate => handleToolCreate (v_Marshal E)
  | EToolDelete => handleToolDelete (v_missing E)
  end.
(** [http.NotFound], and the answer when other methods have the path. *)
Definition not_found (path : list string) : Response :=
  if existsb (fun rt => if match_segs (parse_pattern rt.1.2) path is Some _ then true else false) registerRoutes
  then Raw 405 [] ("Method Not Allowed" +:+ nl) else Raw 404 [] ("404 page not found" +:+ nl).
(* [web/api/server.go:Server.ServeHTTP] *)
Definition ServeHTTP (c : Caller) (r : Request) : handler :=
  match select (Method r) (Segments r) with
  | None => Done (not_found (Segments r))
  | Some ch => handle (ch_endpoint ch) c (with_path_values (list_to_map (ch_values ch)) r)
  end.
End Server.
