(* ===== verification/ApiAccess.v ===== *)
(** * ApiAccess: who reaches what through the HTTP API

    The middleware, the multiplexer and the handlers together: what an authenticated request has shown,
    what a tenant-bound caller's requests about agents can ask, which routes there are, and the paths and
    chunks of text the handlers compute. *)
From S2P Require Import Prelude GoStr GoText Paths Utf8.
From S2P Require Auth AgentSession.
From S2P Require Import Api ApiAgents ApiModules ApiRoutes.
Local Open Scope go_scope.
Local Open Scope Z_scope.

(** ** Authentication *)

(** What a caller has shown: a configured key of the needed scope, or a valid token of the needed scope. *)
Definition scope_granted (scopes : list string) (method : string) : Prop := routeScopes method = "" \/ hasScope scopes (routeScopes method) = true.
Definition key_scopes (cfg : AuthConfig) (token : string) : list string := match KeyScopes cfg with Some m => default [] (m !! token) | None => [] end.

Section Gate.
Context (hmac : string -> string -> string) (Unmarshal : string -> Result Auth.jwtClaims).
Inductive authenticated (now : time) (am : AuthMiddleware) (r : Request) : Caller -> Prop :=
  | by_key c label : APIKeys (config am) !! credential r = Some label -> scope_granted (key_scopes (config am) (credential r)) (Method r) ->
      c_principal c = None -> c_auth c = Some "apikey" ->
      c_tenant c = (match KeyTenants (config am) with Some m => Some (default "" (m !! credential r)) | None => None end) ->
      authenticated now am r c
  | by_token c m p : sm am = Some m -> Auth.ValidateToken hmac Unmarshal now (credential r) m = Ok p -> scope_granted (jwtScopes p) (Method r) ->
      c_principal c = Some p -> c_auth c = Some "jwt" -> c_tenant c = Some (Auth.Tenant p) -> authenticated now am r c.

Lemma refused_scope scopes method : ~ (routeScopes method <> "" /\ hasScope scopes (routeScopes method) = false) <-> scope_granted scopes method.
Proof. unfold scope_granted. destruct (decide (routeScopes method = "")), (hasScope scopes (routeScopes method)); naive_solver. Qed.
Lemma Wrap_passes now am r c : Enabled (config am) = true -> exempt (Path r) = false ->
  Wrap hmac Unmarshal now am r = inl c -> credential r <> "" /\ authenticated now am r c.
Proof.
  intros He Hx. unfold Wrap. rewrite Hx, He. cbn [negb]. case_decide as Ht; [done|].
  destruct (APIKeys (config am) !! credential r) as [label|] eqn:Hk.
  - case_decide as Hs; [done|]. intros [= <-]. split; [done|]. apply refused_scope in Hs. by eapply by_key.
  - destruct (sm am) as [m|] eqn:Hm; [|done]. destruct (Auth.ValidateToken _ _ _ _ _) as [p|e] eqn:Hv; [|done].
    case_decide as Hs; [done|]. intros [= <-]. split; [done|]. apply refused_scope in Hs. by eapply by_token.
Qed.
Definition refusal (resp : Response) : Prop := exists status code message, resp = RespondError status code message /\ (status = 401 \/ status = 403).
Lemma Wrap_refuses now am r resp : Wrap hmac Unmarshal now am r = inr resp -> refusal resp.
Proof.
  unfold Wrap, refusal. destruct (exempt _); [done|]. destruct (negb _); [done|]. repeat case_decide; repeat case_match; try done.
  all: intros [= <-]; eauto 6.
Qed.

(** C16 [safety]: authentication gates the API.  Outside the five exempt paths, when authentication is
    on, a request either is refused with 401 or 403 and asks nothing of the rest of the system, or its
    handler sees a caller who has shown a configured API key or a valid token, of a scope that covers the
    method, with the tenant the key or the token is bound to. *)
Theorem api_auth_gate now am next r : Enabled (config am) = true -> exempt (Path r) = false ->
  (exists resp, serve hmac Unmarshal now am next r = Done resp /\ refusal resp) \/
  (exists c, serve hmac Unmarshal now am next r = next c r /\ credential r <> "" /\ authenticated now am r c).
Proof.
  intros He Hx. unfold serve. destruct (Wrap _ _ _ _ _) as [c|resp] eqn:Hw.
  - right. exists c. split; [done|]. by eapply Wrap_passes.
  - left. exists resp. split; [done|]. by eapply Wrap_refuses.
Qed.
End Gate.

(** ** Tenants *)

(** The tenant a request on the bus is about. *)
Definition concerns (t : string) (e : effect) : Prop :=
  match e with
  | Bus m => match MPayload m with
             | VString s => s = t | VMap f => f !! "tenant" = Some t | VConfig cfg => AgentSession.Tenant cfg = t
             | VChatRequest q => AgentSession.rq_Tenant q = t | _ => False
             end
  | _ => False
  end.
Definition bound (c : Caller) (t : string) : Prop := callerTenant c = Some t.
(** A handler keeps to the caller's tenant: what the path names is it, or nothing is asked. *)
Definition confined (tid : string) (h : handler) (t : string) : Prop := asks_only (fun e => concerns t e /\ tid = t) h.

Lemma guarded_confined c tid t k : bound c t -> (tid = t -> asks_only (fun e => concerns t e /\ tid = t) k) -> confined tid (guarded c tid k) t.
Proof.
  intros Hb Hk. unfold guarded, enforceTenant. rewrite Hb. case_decide as Hne; [done|]. apply Hk. by destruct (decide (t = tid)).
Qed.
Lemma call_confined t tid e fail k : concerns t e -> tid = t -> (forall v, confined tid (k v) t) -> confined tid (call e fail k) t.
Proof. intros He Ht Hk. apply asks_only_call; [done|exact Hk]. Qed.
Lemma Done_confined tid resp t : confined tid (Done resp) t.
Proof. done. Qed.
Lemma with_body_confined {A} `{Decodes A} tid r m k t : (forall a, confined tid (k a) t) -> confined tid (with_body (A := A) r m k) t.
Proof. intros Hk. unfold with_body. destruct (decode (Body r)) as [a [e|]]; [done|apply Hk]. Qed.
Lemma about_agent_concerns r topic more : concerns (path_value "tid" r) (about_agent r topic more).
Proof. unfold about_agent, request, concerns, map_of. cbn. by rewrite lookup_insert_eq. Qed.
#[export] Hint Resolve guarded_confined call_confined Done_confined with_body_confined : api.

(** The endpoints under a tenant's agents that check the tenant: all but the voice endpoint and the
    deletion of a memory. *)
Definition guarded_endpoints : list endpoint :=
  [EAgentList; EAgentCreate; EAgentChat; EAgentChatStream; EAgentGet; EAgentDelete; EAgentUpdate; EAgentSessions; ESessionMessages;
   ESessionClear; EAgentMemories; EAgentVersions; EAgentRollback].
Section Confined.
Context `{!Codec} (E : Env).
Lemma handle_confined e c r t : e ∈ guarded_endpoints -> bound c t -> confined (path_value "tid" r) (handle E e c r) t.
Proof.
  intros He Hb. unfold guarded_endpoints in He. repeat (apply elem_of_cons in He as [->|He]); [..|by apply elem_of_nil in He].
  all: cbn [handle]; apply guarded_confined; [done|]; intros Ht; subst t; cbv zeta.
  all: try (apply with_body_confined; intros b).
  all: try (case_decide; [done|]; destruct (v_flushes E); cbn [negb]; [|done]).
  all: apply call_confined; [first [apply about_agent_concerns|done]|done|]; intros v; try done; by destruct v.
Qed.

End Confined.

(** ** Which routes a path can take *)

(** A pattern that a path beginning with these segments, unknown ones left open, may match. *)
Fixpoint under (known : list (option string)) (pat : list seg) : bool :=
  match known, pat with
  | [], _ => true
  | Some s :: known, Lit x :: pat => String.eqb x s && under known pat
  | _ :: known, _ :: pat => under known pat
  | _, [] => false
  end.
Fixpoint begins (known : list (option string)) (path : list string) : Prop :=
  match known, path with
  | [], _ => True
  | Some s :: known, x :: path => x = s /\ begins known path
  | None :: known, _ :: path => begins known path
  | _, [] => False
  end.
Lemma match_under known pat path vs : begins known path -> match_segs pat path = Some vs -> under known pat = true.
Proof.
  revert pat path vs. induction known as [|k known IH]; intros pat path vs Hb Hm; [done|].
  destruct path as [|x path]; [by destruct k|]. destruct pat as [|[l|n] pat]; [done|..]; cbn [match_segs] in Hm.
  - case_decide; [|done]. subst x. destruct k as [k|]; cbn in *; [|by eapply IH]. destruct Hb as [-> Hb].
    rewrite String.eqb_refl. by eapply IH.
  - case_decide; [done|]. apply fmap_Some in Hm as (vs' & Hm & ->). destruct k as [k|]; cbn in *; [destruct Hb as [_ Hb]|]; by eapply IH.
Qed.
Definition rows_under (known : list (option string)) : list (string * string * endpoint) :=
  filter (fun rt => under known (parse_pattern rt.1.2) = true) registerRoutes.
Lemma best_in l x : best l = Some x -> x ∈ l.
Proof.
  unfold best. assert (H : forall b, foldl prefer b l = Some x -> b = Some x \/ x ∈ l).
  { induction l as [|y l IH]; intros b; cbn [foldl]; [by left|]. intros [Hp|Hin]%IH; [|by right; right].
    unfold prefer in Hp. destruct b as [z|]; [destruct (more_specific _ _)|]; simplify_eq; [by right; left|by left|by right; left]. }
  intros Hf. by destruct (H None Hf).
Qed.
Lemma matching_row known routes method path ch : begins known path -> ch ∈ matching method path routes ->
  exists row, row ∈ filter (fun rt => under known (parse_pattern rt.1.2) = true) routes /\ ch_endpoint ch = row.2 /\
    match_segs (parse_pattern row.1.2) path = Some (ch_values ch).
Proof.
  intros Hb Hin. unfold matching in Hin. apply list_elem_of_omap in Hin as (row & Hrow & Hr). case_decide; [|done].
  apply fmap_Some in Hr as (vs & Hvs & ->). exists row. split; [|done]. apply list_elem_of_filter. split; [|done]. by eapply match_under.
Qed.
Lemma select_matching method path ch : select method path = Some ch -> exists m, ch ∈ matching m path registerRoutes.
Proof.
  unfold select. generalize registerRoutes. intros routes Hs. destruct (best (matching method path routes)) as [x|] eqn:Hx.
  - injection Hs as ->. exists method. by apply best_in.
  - destruct (decide _); [|done]. exists "GET". by apply best_in.
Qed.
Lemma select_row known method path ch : begins known path -> select method path = Some ch ->
  exists row, row ∈ rows_under known /\ ch_endpoint ch = row.2 /\ match_segs (parse_pattern row.1.2) path = Some (ch_values ch).
Proof. intros Hb [m Hm]%select_matching. exact (matching_row known registerRoutes m path ch Hb Hm). Qed.
Definition agents_prefix : list (option string) := [Some "api"; Some "v1"; Some "tenants"; None; Some "agents"].
Lemma agent_rows : Forall (fun row => row.2 ∈ guarded_endpoints ++ [EAgentVoice; EMemoryDelete] /\
  exists rest, parse_pattern row.1.2 = [Lit "api"; Lit "v1"; Lit "tenants"; Wild "tid"; Lit "agents"] ++ rest) (rows_under agents_prefix).
Proof.
  assert (H : forallb (fun row => existsb (fun e => bool_decide (row.2 = e)) (guarded_endpoints ++ [EAgentVoice; EMemoryDelete]) &&
    bool_decide (take 5 (parse_pattern row.1.2) = [Lit "api"; Lit "v1"; Lit "tenants"; Wild "tid"; Lit "agents"])) (rows_under agents_prefix) = true)
    by (vm_compute; reflexivity).
  apply Forall_forall. intros row Hrow. rewrite forallb_forall in H. specialize (H row ltac:(by apply list_elem_of_In)).
  apply andb_true_iff in H as [H1 H2]. apply bool_decide_eq_true in H2. apply existsb_exists in H1 as (e & He & ->%bool_decide_eq_true).
  split; [by apply list_elem_of_In|]. exists (drop 5 (parse_pattern row.1.2)). by rewrite <-H2, take_drop.
Qed.

(** The endpoint a path under a tenant's agents gets, and the tenant its handler is told. *)
Lemma select_agents method tid rest ch : select method (["api"; "v1"; "tenants"; tid; "agents"] ++ rest) = Some ch ->
  ch_endpoint ch ∈ guarded_endpoints ++ [EAgentVoice; EMemoryDelete] /\
  forall r, path_value "tid" (with_path_values (list_to_map (ch_values ch)) r) = tid.
Proof.
  intros Hs. eapply (select_row agents_prefix) in Hs as (row & Hrow & He & Hm); [|by vm_compute].
  pose proof agent_rows as Hall. rewrite Forall_forall in Hall. destruct (Hall row Hrow) as [Hin (pat & Hp)]. rewrite He.
  split; [done|]. intros r. rewrite Hp in Hm. cbn [app match_segs] in Hm. repeat (case_decide; try done).
  apply fmap_Some in Hm as (vs & _ & ->). unfold path_value, with_path_values, PathValues. cbn [list_to_map foldr uncurry].
  by rewrite lookup_insert_eq.
Qed.
Lemma agents_not_exempt r tid rest : Segments r = ["api"; "v1"; "tenants"; tid; "agents"] ++ rest -> exempt (Path r) = false.
Proof.
  intros Hs. unfold exempt. apply bool_decide_eq_false. unfold Path. rewrite Hs. cbn [app Join]. intros Hin.
  repeat (apply elem_of_cons in Hin as [Hin|Hin]; [by simplify_eq/=|]). by apply elem_of_nil in Hin.
Qed.

Section Tenants.
Context `{!Codec} (E : Env) (hmac : string -> string -> string) (Unmarshal : string -> Result Auth.jwtClaims).
(** The tenant a request's key or token is bound to. *)
Definition credential_tenant (now : time) (am : AuthMiddleware) (r : Request) : option string :=
  match APIKeys (config am) !! credential r with
  | Some _ => m ← KeyTenants (config am); m !! credential r
  | None => m ← sm am; match Auth.ValidateToken hmac Unmarshal now (credential r) m with Ok p => Some (Auth.Tenant p) | Err _ => None end
  end.
Lemma Wrap_bound now am r c t : Enabled (config am) = true -> exempt (Path r) = false -> credential_tenant now am r = Some t -> t <> "" ->
  Wrap hmac Unmarshal now am r = inl c -> bound c t.
Proof.
  unfold credential_tenant, Wrap, bound, callerTenant. intros -> -> Ht Hne. cbn [negb]. case_decide; [done|].
  destruct (APIKeys (config am) !! credential r) as [label|].
  - case_decide; [done|]. intros [= <-]. cbn. destruct (KeyTenants (config am)) as [m|]; cbn in Ht; [|done]. rewrite Ht. cbn.
    by rewrite decide_False.
  - destruct (sm am) as [m|]; [|done]. cbn in Ht. destruct (Auth.ValidateToken _ _ _ _ _) as [p|]; [|done]. simplify_eq.
    case_decide; [done|]. intros [= <-]. cbn. by rewrite decide_False.
Qed.

(** C15 [safety]: a caller bound to a tenant stays in it.  Whatever a request under a tenant's agents asks
    of the rest of the system, when its key or its token is bound to a tenant, is about that tenant, and is
    asked only when that is the tenant the path names: for the whole server, its middleware, multiplexer
    and handlers, in any world, and every endpoint there but the voice endpoint and the deletion of a
    memory. *)
Theorem api_tenant_confined now am r tid rest t : Enabled (config am) = true -> credential_tenant now am r = Some t -> t <> "" ->
  Segments r = ["api"; "v1"; "tenants"; tid; "agents"] ++ rest ->
  (forall ch, select (Method r) (Segments r) = Some ch -> ch_endpoint ch <> EAgentVoice /\ ch_endpoint ch <> EMemoryDelete) ->
  asks_only (fun e => concerns t e /\ tid = t) (serve hmac Unmarshal now am (ServeHTTP E) r).
Proof.
  intros He Ht Hne Hs Hx. unfold serve. destruct (Wrap _ _ _ _ _) as [c|resp] eqn:Hw; [|done].
  pose proof (Wrap_bound now am r c t He (agents_not_exempt r tid rest Hs) Ht Hne Hw) as Hb. unfold ServeHTTP.
  destruct (select _ _) as [ch|] eqn:Hsel; [|done]. destruct (Hx ch eq_refl) as [Hv Hd]. rewrite Hs in Hsel.
  destruct (select_agents _ _ _ _ Hsel) as [Hin Htid]. rewrite <-(Htid r). apply handle_confined; [|done].
  apply elem_of_app in Hin as [?|Hin]; [done|]. repeat (apply elem_of_cons in Hin as [?|Hin]; [done|]). by apply elem_of_nil in Hin.
Qed.
End Tenants.

(** ** Registration *)

(** Two patterns some path matches both of, neither of which has only paths the other has too: what
    makes [http.ServeMux] panic when the second is registered. *)
Fixpoint overlap (p q : list seg) : bool :=
  match p, q with
  | [], [] => true
  | Lit a :: p, Lit b :: q => String.eqb a b && overlap p q
  | _ :: p, _ :: q => overlap p q
  | _, _ => false
  end.
Fixpoint within (p q : list seg) : bool :=
  match p, q with
  | [], [] => true
  | Lit a :: p, Lit b :: q => String.eqb a b && within p q
  | Wild _ :: p, Lit _ :: q => false
  | _ :: p, Wild _ :: q => within p q
  | _, _ => false
  end.
Definition conflict (p q : list seg) : bool := overlap p q && negb (xorb (within p q) (within q p)).
Lemma match_overlap p q path vs ws : match_segs p path = Some vs -> match_segs q path = Some ws -> overlap p q = true.
Proof.
  revert q path vs ws. induction p as [|a p IH]; intros q path vs ws Hp Hq.
  { destruct path; [by destruct q as [|[]]|done]. }
  destruct path as [|x path]; [by destruct a|]. destruct q as [|b q]; [done|].
  assert (H : forall a p ws, match_segs (a :: p) (x :: path) = Some ws -> (a = Lit x \/ exists n, a = Wild n) /\ exists ws', match_segs p path = Some ws').
  { clear. intros [l|n] p ws; cbn [match_segs]; case_decide; try done; [subst x; eauto|]. intros (ws' & Hm & _)%fmap_Some; eauto. }
  destruct (H a p vs Hp) as [Ha [vs' Hp']], (H b q ws Hq) as [Hb [ws' Hq']]. clear H. specialize (IH q path vs' ws' Hp' Hq').
  destruct Ha as [->|[? ->]], Hb as [->|[? ->]]; cbn [overlap]; try done. by rewrite String.eqb_refl.
Qed.
Lemma specific_within p q : overlap p q = true -> within p q = true -> more_specific q p = false.
Proof.
  revert q. induction p as [|[a|a] p IH]; intros [|[b|b] q]; cbn [overlap within more_specific]; try done.
  - intros [_ Ho]%andb_true_iff [_ Hw]%andb_true_iff. by apply IH.
  - intros Ho Hw. by apply IH.
Qed.
Definition parsed : list (string * list seg) := (fun rt => (rt.1.1, parse_pattern rt.1.2)) <$> registerRoutes.
Fixpoint pairwise {A} (f : A -> A -> bool) (l : list A) : bool := match l with [] => true | x :: l => forallb (f x) l && pairwise f l end.
(** Every route registers: no two patterns of one method conflict. *)
Lemma routes_register : pairwise (fun a b => negb (String.eqb a.1 b.1 && conflict a.2 b.2)) parsed = true.
Proof. vm_compute. reflexivity. Qed.

(** ** A streamed reply *)

(** The chunks of a reply are its text, cut after sentences or at about 200 bytes; none is empty. *)
Definition flat (l : list string) : string := foldr String.append "" l.
Lemma flat_app l k : flat (l ++ k) = flat l +:+ flat k.
Proof. induction l as [|x l IH]; [done|]. change (x +:+ flat (l ++ k) = (x +:+ flat l) +:+ flat k). by rewrite IH, str_app_assoc. Qed.
Lemma stream_chunks_flat l : forall current, flat (stream_chunks l current) = current +:+ flat l.*2.
Proof.
  induction l as [|[r t] l IH]; intros current; cbn [stream_chunks].
  { case_decide as Hc; [by subst|done]. }
  change (flat (((r, t) :: l).*2)) with (t +:+ flat l.*2). rewrite <-str_app_assoc. set (cur := current +:+ t).
  repeat (case_decide; cbn beta iota); rewrite flat_app, IH; cbn [flat foldr app].
  all: by rewrite ?str_app_nil_r, ?str_app_assoc.
Qed.
Lemma stream_chunks_nonempty l : forall current, Forall (fun c => c <> "") (stream_chunks l current).
Proof.
  induction l as [|[r t] l IH]; intros current; cbn [stream_chunks]; [case_decide; repeat constructor; done|].
  repeat (case_decide; cbn beta iota); try (exfalso; cbn in *; lia); apply Forall_app; (split; [|apply IH]); repeat constructor; intros Hz; rewrite Hz in *; cbn in *; lia.
Qed.

(** ** Concrete requests *)

Ltac inhabit := repeat first [assumption | exact (∅ : gmap string string) | exact (∅ : gmap string Z) | exact (None : option _) | constructor | intros ?].
#[local] Instance no_codec : Codec.
Proof. constructor; refine (fun _ => (_, Some "invalid")); inhabit. Defined.
Definition a_world : Env.
Proof. inhabit. Defined.
Definition no_hmac (key data : string) : string := "".
Definition no_claims (s : string) : Result Auth.jwtClaims := Err "invalid".
Definition keyed : AuthMiddleware :=
  NewAuthMiddleware {| Enabled := true; APIKeys := {["k1" := "reader"]}; KeyScopes := Some {["k1" := [Auth.ScopeRead]]};
                       KeyTenants := Some {["k1" := "acme"]}; JWTSecret := "" |}.
Definition get (path : list string) : Request :=
  {| Method := "GET"; Segments := path; Header := {["X-API-Key" := "k1"]}; Query := {["message" := "hi"]}; PathValues := ∅; Body := ""; RemoteAddr := "" |}.
Lemma api_auth_gate_witness : (exists resp, serve no_hmac no_claims 0 keyed (ServeHTTP a_world) (get ["api"; "v1"; "tools"]) = Done resp /\ refusal resp) \/
  (exists c, serve no_hmac no_claims 0 keyed (ServeHTTP a_world) (get ["api"; "v1"; "tools"]) = ServeHTTP a_world c (get ["api"; "v1"; "tools"]) /\
     credential (get ["api"; "v1"; "tools"]) <> "" /\ authenticated no_hmac no_claims 0 keyed (get ["api"; "v1"; "tools"]) c).
Proof. apply (api_auth_gate no_hmac no_claims 0 keyed (ServeHTTP a_world) (get ["api"; "v1"; "tools"])); vm_compute; reflexivity. Defined.
Lemma api_tenant_confined_witness :
  asks_only (fun e => concerns "acme" e /\ "globex" = "acme")
    (serve no_hmac no_claims 0 keyed (ServeHTTP a_world) (get ["api"; "v1"; "tenants"; "globex"; "agents"; "bot"])).
Proof.
  apply (api_tenant_confined a_world no_hmac no_claims 0 keyed (get ["api"; "v1"; "tenants"; "globex"; "agents"; "bot"]) "globex" ["bot"] "acme").
  - reflexivity.
  - vm_compute. reflexivity.
  - done.
  - reflexivity.
  - intros ch. vm_compute. by intros [= <-].
Defined.
(** Another tenant's agent: refused, and nothing asked.  One's own: asked. *)
Example other_tenant_refused : run (fun _ _ => Answered VNil) [] (serve no_hmac no_claims 0 keyed (ServeHTTP a_world) (get ["api"; "v1"; "tenants"; "globex"; "agents"; "bot"]))
  = ([], RespondError 403 "FORBIDDEN" "API key is not authorized for this tenant").
Proof. vm_compute. reflexivity. Qed.
Example own_tenant_asked : length (run (fun _ _ => Answered VNil) [] (serve no_hmac no_claims 0 keyed (ServeHTTP a_world) (get ["api"; "v1"; "tenants"; "acme"; "agents"; "bot"]))).1 = 1%nat.
Proof. vm_compute. reflexivity. Qed.
(** The deletion of a memory does not look at the tenant: any caller with the admin scope. *)
Definition admin_of_acme : Caller := {| c_auth := Some "apikey"; c_principal := None; c_tenant := Some "acme" |}.
Example memory_of_another_tenant : (run (fun _ _ => Answered VNil) []
    (ServeHTTP a_world admin_of_acme {| Method := "DELETE"; Segments := ["api"; "v1"; "tenants"; "globex"; "agents"; "bot"; "memories"; "mem_1"];
       Header := ∅; Query := ∅; PathValues := ∅; Body := ""; RemoteAddr := "" |})).1
  = [request "agent_runtime" "agent.memory.delete" (VString "mem_1")].
Proof. vm_compute. reflexivity. Qed.
(** A key with the read scope alone has the agent chat. *)
Example reader_chats : MPayload <$> omap (fun e => match e with Bus m => Some m | _ => None end) (run (fun _ _ => Answered VNil) []
    (serve no_hmac no_claims 0 keyed (ServeHTTP a_world) (get ["api"; "v1"; "tenants"; "acme"; "agents"; "bot"; "stream"]))).1
  = [chat_request "bot" "acme" "anonymous" "hi"].
Proof. vm_compute. reflexivity. Qed.
(** HEAD is served by the GET handler and needs no scope. *)
Example head_needs_no_scope : routeScopes "HEAD" = "" /\ (ch_endpoint <$> select "HEAD" ["api"; "v1"; "audit"]) = Some EAuditQuery.
Proof. split; vm_compute; reflexivity. Qed.
