(* ===== verification/UserModel.v ===== *)
(** * UserModel: what is kept about users

    [src/modules/usermodel]: types.go, store.go, facts.go and module.go.  The four tables with the effect
    of every statement, and the handlers.  The clock and the error of a statement, when it fails, are
    arguments; [Get] of a user without a row is told from its failures. *)
From S2P Require Import Prelude GoStr Utf8 Float64.
Local Open Scope go_scope.
Local Open Scope Z_scope.

(** ** Data *)

(* [modules/usermodel/types.go:UserProfile] *)
Record UserProfile := { p_Tenant : string; p_User : string; ProfileMD : string; PreferencesMD : string; p_UpdatedAt : time }.
(* [modules/usermodel/types.go:MaxSectionBytes] *)
Definition MaxSectionBytes : nat := 4 * 1024.
(* [modules/usermodel/types.go:ActivitySummary] *)
Record ActivitySummary := { Summary : string; a_CreatedAt : time }.
(* [modules/usermodel/types.go:TenantUser] *)
Record TenantUser := { tu_Tenant : string; tu_User : string; RecentSessions : Z }.
(* [modules/usermodel/types.go:DistillResult] *)
Record DistillResult := {
  d_Tenant : string; d_User : string; SessionsProcessed : Z; OldSize : Z; NewSize : Z; LLMTokens : Z;
  Skipped : bool; SkipReason : string; d_Error : string;
}.
(* [modules/usermodel/facts.go:Fact] *)
Record Fact := {
  f_ID : Z; f_Tenant : string; f_User : string; Text : string; Confidence : float64; SourceSession : string;
  f_Status : string; f_UpdatedAt : time;
}.
(* [modules/usermodel/facts.go:FactActive] *)
Definition FactActive : string := "active".
(* [modules/usermodel/facts.go:FactRetired] *)
Definition FactRetired : string := "retired".
Definition ErrProfileTooLarge : error := "usermodel: section exceeds 4KB limit".

(** The tables: profiles by tenant and user, the opted-in tenants, the activity in the order of its
    identifiers, and the facts by theirs, with the next one.  Times are Unix seconds. *)
Record profile_row := { profile_md : string; preferences_md : string; updated_at : Z; last_distilled_at : Z }.
Record activity_row := { ac_tenant : string; ac_user : string; ac_summary : string; ac_created_at : Z }.
Record fact_row := {
  fr_tenant : string; fr_user : string; fr_fact : string; fr_confidence : float64; fr_source : string; fr_status : string;
  fr_created_at : Z; fr_updated_at : Z;
}.
(* [modules/usermodel/store.go:NewStore@40-48] *)
Record Store := {
  user_profiles : gmap (string * string) profile_row; tenant_distill_config : gmap string Z; user_activity : list activity_row;
  user_facts : gmap Z fact_row; next_fact : Z;
}.
(* [modules/usermodel/store.go:NewStore] *)
Definition NewStore : Store :=
  {| user_profiles := ∅; tenant_distill_config := ∅; user_activity := []; user_facts := ∅; next_fact := 1 |}.
Definition with_profiles (m : gmap (string * string) profile_row) (s : Store) : Store :=
  {| user_profiles := m; tenant_distill_config := tenant_distill_config s; user_activity := user_activity s;
     user_facts := user_facts s; next_fact := next_fact s |}.
Definition with_facts (m : gmap Z fact_row) (s : Store) : Store :=
  {| user_profiles := user_profiles s; tenant_distill_config := tenant_distill_config s; user_activity := user_activity s;
     user_facts := m; next_fact := next_fact s |}.
Definition from_unix (t : Z) : time := (t + unixToInternal) * Second.

(** ** Profiles *)

Inductive got := Found (p : UserProfile) | NotFound | GetFailed (e : error).
(* [modules/usermodel/store.go:Store.Get] *)
Definition Get (fault : option error) (tenant user : string) (s : Store) : got :=
  match fault with
  | Some e => GetFailed e
  | None =>
      match user_profiles s !! (tenant, user) with
      | None => NotFound
      | Some r => Found {| p_Tenant := tenant; p_User := user; ProfileMD := profile_md r; PreferencesMD := preferences_md r;
                           p_UpdatedAt := from_unix (updated_at r) |}
      end
  end.
(** The errors of reading the row and of writing it. *)
(* [modules/usermodel/store.go:Store.upsert] *)
Definition upsert (now : time) (reading writing : option error) (tenant user : string) (profile prefs : option string) (s : Store)
    : Store * option error :=
  match reading with
  | Some e => (s, Some e)
  | None =>
      let row := user_profiles s !! (tenant, user) in
      let existingProfile := default "" (profile_md <$> row) in
      let existingPrefs := default "" (preferences_md <$> row) in
      match writing with
      | Some e => (s, Some e)
      | None => (with_profiles (<[(tenant, user) := {| profile_md := default existingProfile profile;
                   preferences_md := default existingPrefs prefs; updated_at := Unix now;
                   last_distilled_at := default 0 (last_distilled_at <$> row) |}]> (user_profiles s)) s, None)
      end
  end.
(* [modules/usermodel/store.go:Store.UpsertProfile] *)
Definition UpsertProfile (now : time) (reading writing : option error) (tenant user md : string) (s : Store) : Store * option error :=
  if decide (MaxSectionBytes < String.length md)%nat then (s, Some ErrProfileTooLarge)
  else upsert now reading writing tenant user (Some md) None s.
(* [modules/usermodel/store.go:Store.UpsertPreferences] *)
Definition UpsertPreferences (now : time) (reading writing : option error) (tenant user md : string) (s : Store) : Store * option error :=
  if decide (MaxSectionBytes < String.length md)%nat then (s, Some ErrProfileTooLarge)
  else upsert now reading writing tenant user None (Some md) s.
(* [modules/usermodel/store.go:Store.MarkDistilled] *)
Definition MarkDistilled (now : time) (fault : option error) (tenant user : string) (s : Store) : Store * option error :=
  match fault with
  | Some e => (s, Some e)
  | None =>
      let row := default {| profile_md := ""; preferences_md := ""; updated_at := Unix now; last_distilled_at := 0 |}
                   (user_profiles s !! (tenant, user)) in
      (with_profiles (<[(tenant, user) := {| profile_md := profile_md row; preferences_md := preferences_md row;
          updated_at := updated_at row; last_distilled_at := Unix now |}]> (user_profiles s)) s, None)
  end.
(* [modules/usermodel/store.go:Store.LastDistilledAt] *)
Definition LastDistilledAt (fault : option error) (tenant user : string) (s : Store) : Result Z :=
  match fault with Some e => Err e | None => Ok (default 0 (last_distilled_at <$> user_profiles s !! (tenant, user))) end.
(* [modules/usermodel/store.go:Store.Delete] *)
Definition Delete (fault : option error) (tenant user : string) (s : Store) : Store * option error :=
  match fault with Some e => (s, Some e) | None => (with_profiles (delete (tenant, user) (user_profiles s)) s, None) end.
(* [modules/usermodel/store.go:Store.SetTenantDistillEnabled] *)
Definition SetTenantDistillEnabled (fault : option error) (tenant : string) (enabled : bool) (s : Store) : Store * option error :=
  match fault with
  | Some e => (s, Some e)
  | None => ({| user_profiles := user_profiles s; tenant_distill_config := <[tenant := if enabled then 1 else 0]> (tenant_distill_config s);
                user_activity := user_activity s; user_facts := user_facts s; next_fact := next_fact s |}, None)
  end.
(* [modules/usermodel/store.go:Store.TenantDistillEnabled] *)
Definition TenantDistillEnabled (fault : option error) (tenant : string) (s : Store) : Result bool :=
  match fault with Some e => Err e | None => Ok (bool_decide (tenant_distill_config s !! tenant = Some 1)) end.

(** ** Activity *)

(** A text that is too long is cut in bytes. *)
Definition capped (s : string) : string :=
  if decide (MaxSectionBytes < String.length s)%nat then take_bytes MaxSectionBytes s else s.
(* [modules/usermodel/store.go:Store.RecordActivity] *)
Definition RecordActivity (now : time) (fault : option error) (tenant user summary : string) (s : Store) : Store * option error :=
  if decide (tenant = "" \/ user = "") then (s, None)
  else match fault with
  | Some e => (s, Some e)
  | None =>
      ({| user_profiles := user_profiles s; tenant_distill_config := tenant_distill_config s;
          user_activity := user_activity s ++ [{| ac_tenant := tenant; ac_user := user; ac_summary := capped summary; ac_created_at := Unix now |}];
          user_facts := user_facts s; next_fact := next_fact s |}, None)
  end.
Definition activity_of (tenant user : string) (s : Store) : list activity_row :=
  filter (fun r => ac_tenant r = tenant /\ ac_user r = user) (user_activity s).
(* [modules/usermodel/store.go:Store.RecentActivity] *)
Definition RecentActivity (fault : option error) (tenant user : string) (n : Z) (s : Store) : Result (list ActivitySummary) :=
  let n := if decide (n <= 0) then 10 else n in
  match fault with
  | Some e => Err e
  | None => Ok ((fun r => {| Summary := ac_summary r; a_CreatedAt := from_unix (ac_created_at r) |})
                  <$> take (Z.to_nat n) (reverse (activity_of tenant user s)))
  end.
(* [modules/usermodel/store.go:Store.ActivityCountSince] *)
Definition ActivityCountSince (fault : option error) (tenant user : string) (sinceUnix : Z) (s : Store) : Result Z :=
  match fault with
  | Some e => Err e
  | None => Ok (Z.of_nat (length (filter (fun r => sinceUnix <= ac_created_at r) (activity_of tenant user s))))
  end.
Definition pair_le (x y : string * string) : Prop := if decide (x.1 = y.1) then string_le x.2 y.2 else string_le x.1 y.1.
#[export] Instance pair_le_dec : RelDecision pair_le.
Proof. intros x y. unfold pair_le. destruct (decide _); apply _. Defined.
(* [modules/usermodel/store.go:Store.ListActiveUsers] *)
Definition ListActiveUsers (fault : option error) (sinceUnix minSessions : Z) (s : Store) : Result (list TenantUser) :=
  let minSessions := if decide (minSessions <= 0) then 1 else minSessions in
  match fault with
  | Some e => Err e
  | None =>
      let recent := filter (fun r => sinceUnix <= ac_created_at r) (user_activity s) in
      let groups := merge_sort pair_le (remove_dups ((fun r => (ac_tenant r, ac_user r)) <$> recent)) in
      let count p := Z.of_nat (length (filter (fun r => (ac_tenant r, ac_user r) = p) recent)) in
      Ok ((fun p => {| tu_Tenant := p.1; tu_User := p.2; RecentSessions := count p |}) <$> filter (fun p => minSessions <= count p) groups)
  end.

(** ** Facts *)

(* [modules/usermodel/facts.go:clampConfidence] *)
Definition clampConfidence (c : float64) : float64 := if flt c fzero then fzero else if flt (of_int 1) c then of_int 1 else c.
(* [modules/usermodel/facts.go:Store.AddFact] *)
Definition AddFact (now : time) (fault : option error) (tenant user text : string) (confidence : float64) (sourceSession : string) (s : Store)
    : Store * Result Z :=
  if decide (tenant = "" \/ user = "" \/ text = "") then (s, Err "usermodel: AddFact requires tenant, user, and text")
  else match fault with
  | Some e => (s, Err ("usermodel: AddFact: " +:+ e))
  | None =>
      ({| user_profiles := user_profiles s; tenant_distill_config := tenant_distill_config s; user_activity := user_activity s;
          user_facts := <[next_fact s := {| fr_tenant := tenant; fr_user := user; fr_fact := capped text;
            fr_confidence := clampConfidence confidence; fr_source := sourceSession; fr_status := FactActive;
            fr_created_at := Unix now; fr_updated_at := Unix now |}]> (user_facts s);
          next_fact := next_fact s + 1 |}, Ok (next_fact s))
  end.
Definition mine (tenant user : string) (r : fact_row) : Prop := fr_tenant r = tenant /\ fr_user r = user /\ fr_status r = FactActive.
#[export] Instance mine_dec tenant user r : Decision (mine tenant user r).
Proof. unfold mine. apply _. Defined.
(** One row's change, scoped to the user and to active facts; the error when there is none. *)
Definition change (what : string) (fault : option error) (tenant user : string) (id : Z) (f : fact_row -> fact_row) (s : Store)
    : Store * option error :=
  match fault with
  | Some e => (s, Some ("usermodel: " +:+ what +:+ ": " +:+ e))
  | None =>
      let missing := Some ("usermodel: " +:+ what +:+ ": no active fact " +:+ itoa id +:+ " for " +:+ tenant +:+ "/" +:+ user) in
      match user_facts s !! id with
      | Some r => if decide (mine tenant user r) then (with_facts (<[id := f r]> (user_facts s)) s, None) else (s, missing)
      | None => (s, missing)
      end
  end.
(* [modules/usermodel/facts.go:Store.ReviseFact] *)
Definition ReviseFact (now : time) (fault : option error) (tenant user : string) (id : Z) (text : string) (confidence : float64) (s : Store)
    : Store * option error :=
  change "ReviseFact" fault tenant user id (fun r =>
    {| fr_tenant := fr_tenant r; fr_user := fr_user r; fr_fact := if decide (text = "") then fr_fact r else capped text;
       fr_confidence := clampConfidence confidence; fr_source := fr_source r; fr_status := fr_status r;
       fr_created_at := fr_created_at r; fr_updated_at := Unix now |}) s.
Definition retired_at (now : time) (r : fact_row) : fact_row :=
  {| fr_tenant := fr_tenant r; fr_user := fr_user r; fr_fact := fr_fact r; fr_confidence := fr_confidence r; fr_source := fr_source r;
     fr_status := FactRetired; fr_created_at := fr_created_at r; fr_updated_at := Unix now |}.
(* [modules/usermodel/facts.go:Store.RetireFact] *)
Definition RetireFact (now : time) (fault : option error) (tenant user : string) (id : Z) (s : Store) : Store * option error :=
  change "RetireFact" fault tenant user id (retired_at now) s.
(** [ORDER BY confidence DESC, id ASC]. *)
Definition stronger (x y : Z * fact_row) : Prop :=
  flt (fr_confidence y.2) (fr_confidence x.2) = true \/ flt (fr_confidence x.2) (fr_confidence y.2) = false /\ x.1 <= y.1.
#[export] Instance stronger_dec : RelDecision stronger.
Proof. intros x y. unfold stronger. apply _. Defined.
Definition active_rows (tenant user : string) (s : Store) : list (Z * fact_row) :=
  merge_sort stronger (filter (fun x => mine tenant user x.2) (map_to_list (user_facts s))).
(* [modules/usermodel/facts.go:Store.ActiveFacts] *)
Definition ActiveFacts (fault : option error) (tenant user : string) (s : Store) : Result (list Fact) :=
  match fault with
  | Some e => Err ("usermodel: ActiveFacts: " +:+ e)
  | None => Ok ((fun x : Z * fact_row => {| f_ID := x.1; f_Tenant := fr_tenant x.2; f_User := fr_user x.2; Text := fr_fact x.2;
                  Confidence := fr_confidence x.2; SourceSession := fr_source x.2; f_Status := fr_status x.2;
                  f_UpdatedAt := from_unix (fr_updated_at x.2) |}) <$> active_rows tenant user s)
  end.
(* [modules/usermodel/facts.go:Store.CountActiveFacts] *)
Definition CountActiveFacts (fault : option error) (tenant user : string) (s : Store) : Result Z :=
  match fault with Some e => Err e | None => Ok (Z.of_nat (length (active_rows tenant user s))) end.
(* [modules/usermodel/facts.go:Store.RetireLowestConfidence] *)
Definition RetireLowestConfidence (now : time) (fault : option error) (tenant user : string) (keep : Z) (s : Store) : Store * Result Z :=
  let keep := if decide (keep < 0) then 0 else keep in
  match fault with
  | Some e => (s, Err ("usermodel: RetireLowestConfidence: " +:+ e))
  | None =>
      let weakest := (drop (Z.to_nat keep) (active_rows tenant user s)).*1 in
      (with_facts (map_imap (fun id r => Some (if decide (id ∈ weakest) then retired_at now r else r)) (user_facts s)) s,
       Ok (Z.of_nat (length weakest)))
  end.

(** ** Handlers *)

(** The payload types the handlers tell apart; of a map of any values, those that are strings count. *)
Inductive payload := PMap (m : gmap string string) | PAny (m : gmap string (option string)) | POther (type : string).
(* [modules/usermodel/module.go:payloadMap] *)
Definition payloadMap (p : payload) : Result (gmap string string) :=
  match p with
  | PMap m => Ok m
  | PAny m => Ok (omap id m)
  | POther t => Err ("usermodel: expected map[string]string payload, got " +:+ t)
  end.
Inductive reply := RProfile (p : UserProfile) | RFacts (l : list Fact) | RText (s : string) | RDistill (r : DistillResult) | RNone.
Definition arg (name : string) (m : gmap string string) : string := default "" (m !! name).
(** What the handlers of one user's data start with. *)
Definition for_user {A} (topic : string) (p : payload) (k : string -> string -> gmap string string -> Result A) : Result A :=
  args <-? payloadMap p ;;
  if decide (arg "tenant" args = "" \/ arg "user" args = "") then Err (topic +:+ ": tenant and user are required")
  else k (arg "tenant" args) (arg "user" args) args.
(* [modules/usermodel/module.go:Module.Health] *)
Definition Health (store : option Store) : bool * string :=
  match store with None => (false, "store not configured") | Some _ => (true, "ok") end.
(* [modules/usermodel/module.go:Module.handleGet] *)
Definition handleGet (fault : option error) (p : payload) (s : Store) : Result reply :=
  for_user "usermodel.get" p (fun tenant user _ =>
    match Get fault tenant user s with
    | Found p => Ok (RProfile p)
    | NotFound => Ok (RProfile {| p_Tenant := tenant; p_User := user; ProfileMD := ""; PreferencesMD := ""; p_UpdatedAt := 0 |})
    | GetFailed e => Err e
    end).
(* [modules/usermodel/module.go:Module.handleGetFacts] *)
Definition handleGetFacts (fault : option error) (p : payload) (s : Store) : Result reply :=
  for_user "usermodel.get_facts" p (fun tenant user _ => facts <-? ActiveFacts fault tenant user s ;; Ok (RFacts facts)).
Definition upserting (topic : string) (op : string -> string -> string -> Store -> Store * option error) (p : payload) (s : Store)
    : Store * Result reply :=
  match for_user topic p (fun tenant user args => Ok (tenant, user, arg "md" args)) with
  | Err e => (s, Err e)
  | Ok (tenant, user, md) => let '(s, e) := op tenant user md s in (s, match e with Some e => Err e | None => Ok (RText "ok") end)
  end.
(* [modules/usermodel/module.go:Module.handleUpsertProfile] *)
Definition handleUpsertProfile (now : time) (reading writing : option error) : payload -> Store -> Store * Result reply :=
  upserting "usermodel.upsert_profile" (UpsertProfile now reading writing).
(* [modules/usermodel/module.go:Module.handleUpsertPreferences] *)
Definition handleUpsertPreferences (now : time) (reading writing : option error) : payload -> Store -> Store * Result reply :=
  upserting "usermodel.upsert_preferences" (UpsertPreferences now reading writing).
(** Errors are swallowed. *)
(* [modules/usermodel/module.go:Module.handleRecordActivity] *)
Definition handleRecordActivity (now : time) (fault : option error) (p : payload) (s : Store) : Store :=
  match payloadMap p with
  | Err _ => s
  | Ok args => (RecordActivity now fault (arg "tenant" args) (arg "user" args) (arg "summary" args) s).1
  end.

(** ** Facts belong to their user *)

Definition ordered (s : Store) : Prop := forall id, next_fact s <= id -> user_facts s !! id = None.
Definition same_origin (r r' : fact_row) : Prop :=
  fr_tenant r' = fr_tenant r /\ fr_user r' = fr_user r /\ fr_source r' = fr_source r /\ fr_created_at r' = fr_created_at r.
(** One user's facts may be added, and the active ones changed; nothing disappears, and the rest of
    the store stays as it is. *)
Definition touches (tenant user : string) (s s' : Store) : Prop :=
  user_profiles s' = user_profiles s /\ tenant_distill_config s' = tenant_distill_config s /\ user_activity s' = user_activity s /\
  forall id, (forall r, user_facts s !! id = Some r -> exists r', user_facts s' !! id = Some r' /\ (r' = r \/ mine tenant user r /\ same_origin r r')) /\
             (forall r', user_facts s !! id = None -> user_facts s' !! id = Some r' -> fr_tenant r' = tenant /\ fr_user r' = user).
Lemma touches_refl tenant user s : touches tenant user s s.
Proof. split_and!; [done..|]. intros id. split; [eauto|]. by intros r' ->. Qed.
Lemma touches_trans tenant user s1 s2 s3 : touches tenant user s1 s2 -> touches tenant user s2 s3 -> touches tenant user s1 s3.
Proof.
  intros (P1 & C1 & A1 & F1) (P2 & C2 & A2 & F2). split_and!; [congruence..|]. intros id. destruct (F1 id) as [K1 N1], (F2 id) as [K2 N2]. split.
  - intros r Hr. destruct (K1 r Hr) as (r2 & H2 & O2). destruct (K2 r2 H2) as (r3 & H3 & O3). exists r3. split; [done|].
    destruct O2 as [->|[M2 (?&?&?&?)]], O3 as [->|[M3 (?&?&?&?)]]; [by left|by right|right; split; [done|by split_and!]|].
    right. split; [done|]. split_and!; congruence.
  - intros r3 H1 H3. destruct (user_facts s2 !! id) as [r2|] eqn:H2; [|by apply N2].
    destruct (N1 r2 H1 eq_refl) as [<- <-]. destruct (K2 r2 eq_refl) as (r3' & H3' & [->|[_ (?&?&?&?)]]); by simplify_eq.
Qed.
Lemma AddFact_touches now fault tenant user text c src s : ordered s ->
  touches tenant user s (AddFact now fault tenant user text c src s).1 /\ ordered (AddFact now fault tenant user text c src s).1.
Proof.
  intros Ho. unfold AddFact. case_decide; [split; [apply touches_refl|done]|]. destruct fault; [split; [apply touches_refl|done]|]. split.
  - split_and!; [done..|]. intros id. simpl. destruct (decide (id = next_fact s)) as [->|Hne].
    + rewrite lookup_insert_eq. rewrite Ho by lia. split; [done|]. by intros r' _ [= <-].
    + rewrite lookup_insert_ne by done. split; [eauto|]. by intros r' ->.
  - intros id Hid. simpl in *. rewrite lookup_insert_ne by lia. apply Ho. lia.
Qed.
Lemma change_touches what fault tenant user id f s : (forall r, same_origin r (f r)) -> ordered s ->
  touches tenant user s (change what fault tenant user id f s).1 /\ ordered (change what fault tenant user id f s).1.
Proof.
  intros Hf Ho. unfold change. destruct fault; [split; [apply touches_refl|done]|].
  destruct (user_facts s !! id) as [r|] eqn:Hr; [|split; [apply touches_refl|done]]. case_decide; [|split; [apply touches_refl|done]]. split.
  - split_and!; [done..|]. intros i. simpl. destruct (decide (i = id)) as [->|Hne].
    + rewrite lookup_insert_eq, Hr. split; [|done]. intros r' [= <-]. eauto.
    + rewrite lookup_insert_ne by done. split; [eauto|]. by intros r' ->.
  - intros i Hi. simpl in *. destruct (decide (i = id)) as [->|]; [by rewrite Ho in Hr|]. rewrite lookup_insert_ne by done. by apply Ho.
Qed.
Lemma ReviseFact_touches now fault tenant user id text c s : ordered s ->
  touches tenant user s (ReviseFact now fault tenant user id text c s).1 /\ ordered (ReviseFact now fault tenant user id text c s).1.
Proof. apply change_touches. intros r. by split_and!. Qed.
Lemma RetireFact_touches now fault tenant user id s : ordered s ->
  touches tenant user s (RetireFact now fault tenant user id s).1 /\ ordered (RetireFact now fault tenant user id s).1.
Proof. apply change_touches. intros r. by split_and!. Qed.
Lemma elem_of_active tenant user s x : x ∈ active_rows tenant user s <-> user_facts s !! x.1 = Some x.2 /\ mine tenant user x.2.
Proof.
  unfold active_rows. rewrite (merge_sort_Permutation _ _). rewrite list_elem_of_filter. destruct x as [i r]. rewrite elem_of_map_to_list. naive_solver.
Qed.
Lemma drop_elem {A} n (l : list A) x : x ∈ drop n l -> x ∈ l.
Proof. intros Hx. rewrite <-(take_drop n l). apply elem_of_app. by right. Qed.
Lemma RetireLowestConfidence_touches now fault tenant user keep s : ordered s ->
  touches tenant user s (RetireLowestConfidence now fault tenant user keep s).1 /\ ordered (RetireLowestConfidence now fault tenant user keep s).1.
Proof.
  intros Ho. unfold RetireLowestConfidence. destruct fault; [split; [apply touches_refl|done]|]. split.
  - split_and!; [done..|]. intros id. simpl. rewrite map_lookup_imap. destruct (user_facts s !! id) as [r|] eqn:Hr; simpl; [|done].
    split; [|done]. intros r' [= <-]. eexists. split; [done|]. case_decide as Hin; [right|by left]. split; [|by split_and!].
    apply list_elem_of_fmap in Hin as ([i r'] & -> & Hin). apply drop_elem, elem_of_active in Hin as [Hk Hm]. cbn in *. by simplify_eq.
  - intros id Hid. simpl in *. rewrite map_lookup_imap, Ho by done. done.
Qed.
(** Afterwards no more than [keep] facts are active. *)
Lemma RetireLowestConfidence_caps now tenant user keep s : 0 <= keep ->
  Z.of_nat (length (active_rows tenant user (RetireLowestConfidence now None tenant user keep s).1)) <= keep.
Proof.
  intros Hk. unfold RetireLowestConfidence. rewrite decide_False by lia. cbn [fst]. set (sorted := active_rows tenant user s).
  set (weakest := (drop (Z.to_nat keep) sorted).*1). set (s' := with_facts _ s).
  assert (Hsub : forall x, x ∈ active_rows tenant user s' -> x ∈ take (Z.to_nat keep) sorted).
  { intros [i r] [Hr Hm]%elem_of_active. cbn in Hr. rewrite map_lookup_imap in Hr. destruct (user_facts s !! i) as [r0|] eqn:H0; [|done].
    cbn in Hr. injection Hr as Hr. case_decide as Hin; [subst r; by destruct Hm as (_ & _ & ?)|subst r0].
    assert (Hs : (i, r) ∈ sorted) by (by apply elem_of_active). rewrite <-(take_drop (Z.to_nat keep) sorted) in Hs.
    apply elem_of_app in Hs as [?|Hd]; [done|]. destruct Hin. apply list_elem_of_fmap. by exists (i, r). }
  assert (Hnd : NoDup (active_rows tenant user s')).
  { unfold active_rows. rewrite (merge_sort_Permutation _ _). apply NoDup_filter, NoDup_map_to_list. }
  pose proof (submseteq_length _ _ (NoDup_submseteq _ _ Hnd Hsub)) as Hlen. pose proof (length_take_le sorted (Z.to_nat keep)).
  rewrite length_take in Hlen. lia.
Qed.

(** ** Sizes *)

(** The operations of the store, with what the environment decides. *)
Inductive op :=
  | OProfile (now : time) (reading writing : option error) (tenant user md : string)
  | OPreferences (now : time) (reading writing : option error) (tenant user md : string)
  | OMark (now : time) (fault : option error) (tenant user : string) | ODelete (fault : option error) (tenant user : string)
  | OOptIn (fault : option error) (tenant : string) (enabled : bool)
  | OActivity (now : time) (fault : option error) (tenant user summary : string)
  | OAdd (now : time) (fault : option error) (tenant user text : string) (c : float64) (source : string)
  | ORevise (now : time) (fault : option error) (tenant user : string) (id : Z) (text : string) (c : float64)
  | ORetire (now : time) (fault : option error) (tenant user : string) (id : Z)
  | OCap (now : time) (fault : option error) (tenant user : string) (keep : Z).
Definition exec (o : op) (s : Store) : Store :=
  match o with
  | OProfile now re wr t u md => (UpsertProfile now re wr t u md s).1
  | OPreferences now re wr t u md => (UpsertPreferences now re wr t u md s).1
  | OMark now f t u => (MarkDistilled now f t u s).1
  | ODelete f t u => (Delete f t u s).1
  | OOptIn f t b => (SetTenantDistillEnabled f t b s).1
  | OActivity now f t u x => (RecordActivity now f t u x s).1
  | OAdd now f t u x c src => (AddFact now f t u x c src s).1
  | ORevise now f t u id x c => (ReviseFact now f t u id x c s).1
  | ORetire now f t u id => (RetireFact now f t u id s).1
  | OCap now f t u k => (RetireLowestConfidence now f t u k s).1
  end.
Definition fits (x : string) : Prop := (String.length x <= MaxSectionBytes)%nat.
Definition in_bounds (c : float64) : Prop := flt c fzero = false /\ flt (of_int 1) c = false.
Record sized (s : Store) : Prop := {
  sized_profiles : map_Forall (fun _ r => fits (profile_md r) /\ fits (preferences_md r)) (user_profiles s);
  sized_activity : Forall (fun r => fits (ac_summary r)) (user_activity s);
  sized_facts : map_Forall (fun _ r => fits (fr_fact r) /\ in_bounds (fr_confidence r)) (user_facts s);
  sized_ids : ordered s;
}.
Lemma capped_fits x : fits (capped x).
Proof. unfold fits, capped. case_decide; [|lia]. rewrite length_take_bytes; lia. Qed.
Lemma clamp_in_bounds c : in_bounds (clampConfidence c).
Proof.
  unfold clampConfidence, in_bounds. destruct (flt c fzero) eqn:H0; [by vm_compute|]. destruct (flt (of_int 1) c) eqn:H1; [by vm_compute|done].
Qed.
#[local] Hint Resolve capped_fits clamp_in_bounds : core.
Lemma fits_empty : fits "".
Proof. unfold fits, MaxSectionBytes. simpl. lia. Qed.
#[local] Hint Resolve fits_empty : core.
Lemma row_fits (s : Store) k : sized s -> fits (default "" (profile_md <$> user_profiles s !! k)) /\ fits (default "" (preferences_md <$> user_profiles s !! k)).
Proof. intros Hs. destruct (user_profiles s !! k) as [r|] eqn:Hr; [exact (sized_profiles s Hs _ _ Hr)|done]. Qed.
Lemma upsert_sized now re wr t u profile prefs s : sized s -> from_option fits True profile -> from_option fits True prefs ->
  sized (upsert now re wr t u profile prefs s).1.
Proof.
  intros Hs Hp Hq. unfold upsert. destruct re, wr; try done. destruct (row_fits s (t, u) Hs) as [H1 H2].
  destruct Hs as [A B C D]. split; [|exact B|exact C|exact D]. simpl. apply map_Forall_insert_2; [|done]. split; [by destruct profile|by destruct prefs].
Qed.
Lemma facts_sized m s : sized s -> map_Forall (fun _ r => fits (fr_fact r) /\ in_bounds (fr_confidence r)) m -> ordered (with_facts m s) -> sized (with_facts m s).
Proof. intros [A B C D] Hm Ho. by split. Qed.
Lemma change_sized what fault t u id f s : sized s -> (forall r, same_origin r (f r)) ->
  (forall r, fits (fr_fact r) /\ in_bounds (fr_confidence r) -> fits (fr_fact (f r)) /\ in_bounds (fr_confidence (f r))) -> sized (change what fault t u id f s).1.
Proof.
  intros Hs Ho Hf. pose proof (proj2 (change_touches what fault t u id f s Ho (sized_ids s Hs))) as Hor. revert Hor. unfold change.
  destruct fault; [done|]. destruct (user_facts s !! id) as [r|] eqn:Hr; [|done]. case_decide; [|done]. intros Hor. apply facts_sized; [done| |done].
  apply map_Forall_insert_2; [apply Hf; exact (sized_facts s Hs _ _ Hr)|exact (sized_facts s Hs)].
Qed.
Lemma exec_sized o s : sized s -> sized (exec o s).
Proof.
  intros Hs. destruct o; cbn [exec].
  - unfold UpsertProfile. case_decide; [done|]. apply upsert_sized; [done| |done]. unfold fits; simpl; lia.
  - unfold UpsertPreferences. case_decide; [done|]. apply upsert_sized; [done|done|]. unfold fits; simpl; lia.
  - unfold MarkDistilled. destruct fault; [done|]. destruct Hs as [A B C D]. split; [|done..]. simpl. apply map_Forall_insert_2; [|done].
    destruct (user_profiles s !! (tenant, user)) as [r|] eqn:Hr; [exact (A _ _ Hr)|done].
  - unfold Delete. destruct fault; [done|]. destruct Hs as [A B C D]. split; [|done..]. by apply map_Forall_delete.
  - unfold SetTenantDistillEnabled. destruct fault; [done|]. by destruct Hs.
  - unfold RecordActivity. case_decide; [done|]. destruct fault; [done|]. destruct Hs as [A B C D]. split; [done| |done..].
    apply Forall_app. split; [done|]. apply Forall_singleton. apply capped_fits.
  - pose proof (proj2 (AddFact_touches now fault tenant user text c source s (sized_ids s Hs))) as Ho. revert Ho. unfold AddFact.
    case_decide; [done|]. destruct fault; [done|]. intros Ho. destruct Hs as [A B C D]. split; [done|done| |done]. simpl.
    apply map_Forall_insert_2; [split; [apply capped_fits|apply clamp_in_bounds]|done].
  - apply change_sized; [done|intros r; split_and!; done|]. intros r [Hf Hb]. cbn. split; [by case_decide|done].
  - apply change_sized; [done|intros r; split_and!; done|done].
  - pose proof (proj2 (RetireLowestConfidence_touches now fault tenant user keep s (sized_ids s Hs))) as Ho. revert Ho.
    unfold RetireLowestConfidence. destruct fault; [done|]. intros Ho. apply facts_sized; [done| |done].
    intros id r'. rewrite map_lookup_imap. destruct (user_facts s !! id) as [r|] eqn:Hr; [|done]. cbn. intros [= <-].
    pose proof (sized_facts s Hs _ _ Hr) as Hx. repeat case_decide; exact Hx.
Qed.
Lemma NewStore_sized : sized NewStore.
Proof. split; [apply map_Forall_empty|constructor|apply map_Forall_empty|by intros id]. Qed.
Lemma run_sized ops : forall s, sized s -> sized (foldl (fun s o => exec o s) s ops).
Proof. induction ops as [|o ops IH]; intros s Hs; [done|]. cbn [foldl]. by apply IH, exec_sized. Qed.

(** Whatever is done to the store, by whichever statements fail, each section of a profile,
    each activity summary and each fact holds at most 4 KB, no confidence is below 0 or above 1, and the
    identifiers handed out are fresh. *)
Lemma store_sized ops : sized (foldl (fun s o => exec o s) NewStore ops).
Proof. apply run_sized, NewStore_sized. Qed.
