(* ===== verification/Gateway.v ===== *)
(** * Gateway: the proxy in front of model services

    [src/modules/proxy]: gateway.go, handler.go, types.go and parsers.  A request passes the rate limiter, shows
    its identity and its intent, and is forwarded when the policy engine allows it.  JSON, the keyed hash,
    the answers of the bus, and the parsing of the upstream's URL are arguments; what the reverse proxy of
    [net/http/httputil] makes of a request is written out. *)
From S2P Require Import Prelude GoStr Utf8 Policy.
From S2P Require RateLimit.
Local Open Scope go_scope.
Local Open Scope Z_scope.

(** ** Requests and intents *)

(** [HBody] is [None] for a nil body, and else the bytes that can still be read; [HFault] is the error the
    reading then ends with, if it does not end at the end of the body.  The names of [HHeaders] are in
    canonical form; [HRemote] is the address of the client, [HLength] the length announced (-1: unknown). *)
Record HttpRequest := {
  HMethod : string; HScheme : string; HURLHost : string; HPath : string; HQuery : string; HHost : string;
  HRemote : option string; HHeaders : gmap string (list string); HLength : Z;
  HBody : option string; HFault : option error;
}.
Definition upper (c : ascii) : ascii :=
  if ((97 <=? nat_of_ascii c) && (nat_of_ascii c <=? 122))%nat then ascii_of_nat (nat_of_ascii c - 32) else c.
Definition lower (c : ascii) : ascii :=
  if ((65 <=? nat_of_ascii c) && (nat_of_ascii c <=? 90))%nat then ascii_of_nat (nat_of_ascii c + 32) else c.
Fixpoint map_bytes (f : ascii -> ascii) (s : string) : string :=
  match s with "" => "" | String c s => String (f c) (map_bytes f s) end.
(** A letter, a digit or one of the signs a header's name may hold. *)
Definition token_byte (c : ascii) : bool :=
  let n := nat_of_ascii c in
  ((48 <=? n) && (n <=? 57) || (65 <=? n) && (n <=? 90) || (97 <=? n) && (n <=? 122))%nat ||
  contains_byte c "!#$%&'*+-.^_`|~".
Fixpoint canonical (first : bool) (s : string) : string :=
  match s with "" => "" | String c s => String (if first then upper c else lower c) (canonical (bool_decide (c = "-"%char)) s) end.
(** [textproto.CanonicalMIMEHeaderKey]. *)
Definition CanonicalHeaderKey (k : string) : string :=
  if forallb token_byte (String.list_ascii_of_string k) then canonical true k else k.
(** [r.Header.Get]. *)
Definition HHeader (r : HttpRequest) (k : string) : string :=
  match HHeaders r !! CanonicalHeaderKey k with Some (v :: _) => v | _ => "" end.
(** A parsed address: its path has no escapes that need keeping apart. *)
Record URL := { u_Scheme : string; u_Host : string; u_Path : string; u_RawQuery : string }.
(* [modules/proxy/types.go:Intent] *)
Record Intent := { i_Action : string; Provider : string; Model : string; i_Tool : string }.
(* [modules/proxy/types.go:ExternalAgent] *)
Record ExternalAgent := { ea_Name : string; ea_Tenant : string; ea_Type : string; Endpoint : string }.
(* [modules/proxy/types.go:ExternalAgent.Key] *)
Definition Key (ea : ExternalAgent) : string := ea_Tenant ea +:+ "/" +:+ ea_Name ea.

Section Proxy.
(** Hex of HMAC-SHA-256 of a text under a secret; what the two parsers' JSON says: the model and the
    names of the tools. *)
Context (hmac : string -> string -> string) (decode_anthropic decode_openai : string -> option (string * list string)).

(* [modules/proxy/parsers/anthropic.go:maxIntentBodyBytes] *)
Definition maxIntentBodyBytes : nat := Z.to_nat (2 ^ 20).
Definition with_payload (provider : string) (decoded : option (string * list string)) : Intent :=
  {| i_Action := "model_call"; Provider := provider; Model := match decoded with Some (m, _) => m | None => "" end;
     i_Tool := match decoded with Some (_, t :: _) => t | _ => "" end |}.
(* [modules/proxy/parsers/anthropic.go:AnthropicParser.Matches] *)
Definition Anthropic_Matches (r : HttpRequest) : bool :=
  bool_decide (HMethod r = "POST") && has_prefix "/v1/messages" (HPath r) && bool_decide (HHeader r "X-API-Key" <> "").
(** What is left to read of a body after a parser read some of it. *)
Definition with_body (b : option string) (r : HttpRequest) : HttpRequest :=
  {| HMethod := HMethod r; HScheme := HScheme r; HURLHost := HURLHost r; HPath := HPath r; HQuery := HQuery r;
     HHost := HHost r; HRemote := HRemote r; HHeaders := HHeaders r; HLength := HLength r;
     HBody := b; HFault := HFault r |}.
(** At most the limit is read, and a prefix that was read is stitched in front of the rest; when reading
    fails before the limit, what was read is gone. *)
(* [modules/proxy/parsers/anthropic.go:AnthropicParser.Parse] *)
Definition Anthropic_Parse (r : HttpRequest) : Intent * HttpRequest :=
  match HBody r with
  | None => (with_payload "anthropic" None, r)
  | Some body =>
      if decide (HFault r <> None /\ (String.length body < maxIntentBodyBytes)%nat) then
        (with_payload "anthropic" None, with_body (Some "") r)
      else
        let prefix := take_bytes maxIntentBodyBytes body in
        (with_payload "anthropic" (decode_anthropic prefix), with_body (Some (prefix +:+ drop_bytes maxIntentBodyBytes body)) r)
  end.
(* [modules/proxy/parsers/openai.go:OpenAIParser.Matches] *)
Definition OpenAI_Matches (r : HttpRequest) : bool := bool_decide (HMethod r = "POST") && has_prefix "/v1/chat/completions" (HPath r).
(* [modules/proxy/parsers/openai.go:OpenAIParser.Parse] *)
Definition OpenAI_Parse (r : HttpRequest) : Intent * HttpRequest :=
  match HBody r, HFault r with
  | None, _ => (with_payload "openai" None, r)
  | Some body, None => (with_payload "openai" (decode_openai body), with_body (Some body) r)
  | Some _, Some _ => (with_payload "openai" None, with_body (Some "") r)
  end.
(** Neither parser fails. *)
(* [modules/proxy/handler.go:Handler.extractIntent] *)
Definition extractIntent (r : HttpRequest) : Intent * HttpRequest :=
  if Anthropic_Matches r then Anthropic_Parse r
  else if OpenAI_Matches r then OpenAI_Parse r
  else ({| i_Action := "unknown"; Provider := ""; Model := ""; i_Tool := "" |}, r).

(** [h_proxy]: the upstream the reverse proxy was built for, [None] when its address did not parse. *)
(* [modules/proxy/handler.go:Handler] *)
Record Handler := { h_proxy : option URL; h_identitySecret : string }.
(* [modules/proxy/handler.go:NewHandler] *)
Definition NewHandler (Parse : string -> option URL) (upstreamURL : string) : Handler :=
  {| h_proxy := Parse upstreamURL; h_identitySecret := "" |}.
(* [modules/proxy/handler.go:Handler.SetIdentitySecret] *)
Definition SetIdentitySecret (secret : string) (h : Handler) : Handler := {| h_proxy := h_proxy h; h_identitySecret := secret |}.
(* [modules/proxy/handler.go:Handler.authenticatedIdentity] *)
Definition authenticatedIdentity (h : Handler) (r : HttpRequest) : string * string :=
  if decide (h_identitySecret h = "") then (HHeader r "X-Cyntr-Tenant", HHeader r "X-Cyntr-User")
  else
    let identity := HHeader r "X-Cyntr-Identity" in
    let sig := HHeader r "X-Cyntr-Identity-Sig" in
    if decide (identity = "" \/ sig = "") then ("", "")
    else if decide (sig <> hmac (h_identitySecret h) identity) then ("", "")
    else match cut ":" identity with Some (a, b) => (a, b) | None => (identity, "") end.

(** ** The reverse proxy *)

Definition blank_byte (c : ascii) : bool := bool_decide (c = " "%char \/ c = "009"%char \/ c = "010"%char \/ c = "013"%char).
Fixpoint drop_blank (l : list ascii) : list ascii :=
  match l with c :: l' => if blank_byte c then drop_blank l' else l | [] => [] end.
(** [textproto.TrimString]. *)
Definition TrimString (s : string) : string :=
  String.string_of_list_ascii (rev (drop_blank (rev (drop_blank (String.list_ascii_of_string s))))).
(** The comma-separated elements of a header. *)
Definition tokens (vs : list string) : list string := v ← vs; TrimString <$> split "," v.
Definition has_token (vs : list string) (t : string) : bool :=
  bool_decide (map_bytes lower t ∈ map_bytes lower <$> tokens vs).
Definition hopHeaders : list string :=
  ["Connection"; "Proxy-Connection"; "Keep-Alive"; "Proxy-Authenticate"; "Proxy-Authorization"; "Te"; "Trailer";
   "Transfer-Encoding"; "Upgrade"].
(** The names a request's Connection header lists, and the hop-by-hop names. *)
Definition removed (h : gmap string (list string)) : list string :=
  (CanonicalHeaderKey <$> filter (fun t => t <> "") (tokens (default [] (h !! "Connection")))) ++ hopHeaders.
Definition removeHopByHopHeaders (h : gmap string (list string)) : gmap string (list string) :=
  foldr delete h (removed h).
Definition upgradeType (h : gmap string (list string)) : string :=
  if has_token (default [] (h !! "Connection")) "Upgrade"
  then match h !! "Upgrade" with Some (v :: _) => v | _ => "" end else "".
(** The headers the upstream is sent. *)
Definition outgoing (remote : option string) (h : gmap string (list string)) : gmap string (list string) :=
  let up := upgradeType h in
  let out := removeHopByHopHeaders h in
  let out := if has_token (default [] (h !! "Te")) "trailers" then <["Te" := ["trailers"]]> out else out in
  let out := if decide (up <> "") then <["Connection" := ["Upgrade"]]> (<["Upgrade" := [up]]> out) else out in
  let out := match remote with
             | Some ip => <["X-Forwarded-For" := [match out !! "X-Forwarded-For" with
                                                  | Some (v :: vs) => Join (v :: vs) ", " +:+ ", " +:+ ip
                                                  | _ => ip end]]> out
             | None => out
             end in
  match out !! "User-Agent" with Some _ => out | None => <["User-Agent" := [""]]> out end.


Definition check_of (h : Handler) (r : HttpRequest) : CheckRequest :=
  let '(tenant, user) := authenticatedIdentity h r in
  let intent := (extractIntent r).1 in
  {| req_Tenant := tenant; req_Action := i_Action intent; req_Tool := i_Tool intent; req_Agent := ""; req_User := user |}.

(** ** The module *)

(* [modules/proxy/gateway.go:Gateway] *)
Record Gateway := { listenAddr : string; upstreamURL : string; identitySecret : string; listening : option string; agents : gmap string ExternalAgent }.
(* [modules/proxy/gateway.go:NewGateway] *)
Definition NewGateway (addr : string) : Gateway :=
  {| listenAddr := addr; upstreamURL := ""; identitySecret := ""; listening := None; agents := ∅ |}.
(* [modules/proxy/gateway.go:Gateway.SetUpstreamURL] *)
Definition SetUpstreamURL (url : string) (g : Gateway) : Gateway :=
  {| listenAddr := listenAddr g; upstreamURL := url; identitySecret := identitySecret g; listening := listening g; agents := agents g |}.
(* [modules/proxy/gateway.go:Gateway.SetIdentitySecret] *)
Definition Gateway_SetIdentitySecret (secret : string) (g : Gateway) : Gateway :=
  {| listenAddr := listenAddr g; upstreamURL := upstreamURL g; identitySecret := secret; listening := listening g; agents := agents g |}.
(* [modules/proxy/gateway.go:Gateway.Addr] *)
Definition Addr (g : Gateway) : string := default "" (listening g).
(* [modules/proxy/gateway.go:Gateway.Health] *)
Definition Health (g : Gateway) : bool * string :=
  match listening g with None => (false, "not listening") | Some a => (true, "listening on " +:+ a) end.
(** The handler and the rate limiter a start makes, and the gateway that listens, or the error. *)
(* [modules/proxy/gateway.go:Gateway.Start] *)
Definition Start (now : time) (Parse : string -> option URL) (listen : Result string) (g : Gateway)
    : Result (Gateway * Handler * RateLimit.RateLimiter) :=
  let handler := SetIdentitySecret (identitySecret g) (NewHandler Parse (upstreamURL g)) in
  let limiter := RateLimit.SetIdentitySecret (identitySecret g) (RateLimit.NewRateLimiter now 100 (1 * Minute)) in
  match listen with
  | Err e => Err ("listen: " +:+ e)
  | Ok addr => Ok ({| listenAddr := listenAddr g; upstreamURL := upstreamURL g; identitySecret := identitySecret g;
                      listening := Some addr; agents := agents g |}, handler, limiter)
  end.

(** What the registry's handlers are sent. *)
Inductive gw_payload := GAgent (a : ExternalAgent) | GString (s : string) | GOther (type : string).
Definition gw_type (p : gw_payload) : string :=
  match p with GAgent _ => "proxy.ExternalAgent" | GString _ => "string" | GOther t => t end.
(* [modules/proxy/gateway.go:Gateway.handleRegister] *)
Definition handleRegister (p : gw_payload) (g : Gateway) : Gateway * Result string :=
  match p with
  | GAgent agent =>
      if decide (TrimSpace (ea_Tenant agent) = "") then (g, Err "external agent registration requires a non-empty tenant")
      else if decide (TrimSpace (ea_Name agent) = "") then (g, Err "external agent registration requires a non-empty name")
      else ({| listenAddr := listenAddr g; upstreamURL := upstreamURL g; identitySecret := identitySecret g; listening := listening g;
               agents := <[Key agent := agent]> (agents g) |}, Ok "ok")
  | _ => (g, Err ("expected ExternalAgent, got " +:+ gw_type p))
  end.
Definition by_key (x y : ExternalAgent) : Prop := string_le (Key x) (Key y).
(* [modules/proxy/gateway.go:Gateway.handleList] *)
Definition handleList {sorter : SliceSorter by_key} (p : gw_payload) (g : Gateway) : Result (list ExternalAgent) :=
  match p with
  | GString tenantFilter =>
      if decide (TrimSpace tenantFilter = "") then Err "proxy.list requires a non-empty tenant"
      else Ok (sortSlice by_key (filter (fun a => ea_Tenant a = tenantFilter) (map_to_list (agents g)).*2))
  | _ => Err ("expected tenant string, got " +:+ gw_type p)
  end.

(** ** What reaches the upstream *)










End Proxy.

(** A list names agents of one tenant only, in the order of their keys. *)
Lemma list_scoped {sorter : SliceSorter by_key} tenant g l : handleList (GString tenant) g = Ok l ->
  (forall a, a ∈ l <-> ea_Tenant a = tenant /\ exists k, agents g !! k = Some a) /\ StronglySorted by_key l.
Proof.
  unfold handleList. case_decide; [done|]. intros [= <-]. split; [|apply sortSlice_sorted]. intros a.
  rewrite (sortSlice_perm _), list_elem_of_filter, list_elem_of_fmap. split.
  - intros [Ht ([k b] & -> & Hb%elem_of_map_to_list)]. eauto.
  - intros [Ht [k Hk]]. split; [done|]. exists (k, a). split; [done|]. by apply elem_of_map_to_list.
Qed.
(** Only the first tool of a request is checked, and none of a body whose prefix does not parse. *)
Lemma first_tool_only da dop r m t ts b : Anthropic_Matches r = true -> HBody r = Some b -> HFault r = None ->
  da (take_bytes maxIntentBodyBytes b) = Some (m, t :: ts) -> i_Tool (extractIntent da dop r).1 = t.
Proof.
  intros Hm Hb Hf Hd. unfold extractIntent, Anthropic_Parse. rewrite Hm, Hb, Hf, decide_False by tauto.
  cbn [fst]. by rewrite Hd.
Qed.
Lemma long_body_hides_tools da dop r b : Anthropic_Matches r = true -> HBody r = Some b -> HFault r = None ->
  da (take_bytes maxIntentBodyBytes b) = None -> i_Tool (extractIntent da dop r).1 = "" /\ i_Action (extractIntent da dop r).1 = "model_call".
Proof.
  intros Hm Hb Hf Hd. unfold extractIntent, Anthropic_Parse. rewrite Hm, Hb, Hf, decide_False by tauto.
  cbn [fst]. by rewrite Hd.
Qed.

(** ** Concrete requests *)

Definition demo_hmac (key data : string) : string := key +:+ "|" +:+ data.
Definition no_json (s : string) : option (string * list string) := None.
Definition demo_url : URL := {| u_Scheme := "https"; u_Host := "api.example.com"; u_Path := ""; u_RawQuery := "" |}.
Definition demo_handler : Handler := SetIdentitySecret "s" (NewHandler (fun _ => Some demo_url) "https://api.example.com").
Definition signed : HttpRequest :=
  {| HMethod := "POST"; HScheme := ""; HURLHost := ""; HPath := "/v1/chat/completions"; HQuery := ""; HHost := "gateway";
     HRemote := Some "10.0.0.9"; HLength := 2; HBody := Some "{}"; HFault := None;
     HHeaders := <["X-Cyntr-Identity" := ["acme:ana"]]> (<["X-Cyntr-Identity-Sig" := ["s|acme:ana"]]>
       (<["X-Cyntr-Tenant" := ["globex"]]> {["Connection" := ["close, X-Trace"]]})) |}.
(** The tenant header of a signed request is forwarded as it came. *)
Example raw_header_forwarded : outgoing None (HHeaders signed) !! "X-Cyntr-Tenant" = Some ["globex"] /\
  (check_of demo_hmac no_json no_json demo_handler signed).(req_Tenant) = "acme".
Proof. vm_compute. done. Qed.
(** Keys join tenant and name with a slash: one tenant's registration takes the place of another's. *)
Example keys_collide : let reg t n g := (handleRegister (GAgent {| ea_Name := n; ea_Tenant := t; ea_Type := ""; Endpoint := "" |}) g).1 in
  size (agents (reg "a" "b/c" (reg "a/b" "c" (NewGateway "")))) = 1%nat.
Proof. vm_compute. reflexivity. Qed.
