(* ===== verification/Recall.v ===== *)
(** * Recall: searching past conversations, and what the learning loop keeps of them

    [src/modules/recall] and [src/modules/learn].  The message table with its index and the summaries by the
    effect of each statement, the module's handlers with the job queue of Jobs, and the learning
    loop's gate, prompt and proposals.  The full-text engine's matches and scores, the classes of Unicode,
    JSON, the model, the clock and the error of a statement are arguments. *)
From S2P Require Import Prelude Calendar GoStr GoText Utf8.
From S2P Require Regexp Redact Jobs AgentSession AgentMemory Skills.
Local Open Scope go_scope.
Local Open Scope Z_scope.

(** ** Data *)

(** A score is a number of the engine's, kept as an integer in the same order; 0 where none is read. *)
(* [modules/recall/types.go:Snippet] *)
Record Snippet := { sn_Session : string; sn_Role : string; sn_Text : string; Score : Z; sn_CreatedAt : time }.
(* [modules/recall/types.go:SearchRequest] *)
Record SearchRequest := { sq_Tenant : string; sq_User : string; sq_Query : string; sq_Limit : Z }.
(* [modules/recall/types.go:IndexedMessage] *)
Record IndexedMessage := {
  MsgID : string; im_Tenant : string; im_User : string; im_Session : string; im_Role : string; im_Text : string; im_CreatedAt : time;
}.
(** The rows in the order of their identifiers, each with its entry in the index; identifiers are
    positions from 1.  Summaries by tenant, user and session: text, messages covered, time. *)
(* [modules/recall/store.go:NewStore@35-61] *)
Record Store := { recall_messages : list IndexedMessage; session_summaries : gmap (string * string * string) (string * Z * time) }.
(* [modules/recall/store.go:NewStore] *)
Definition NewStore : Store := {| recall_messages := []; session_summaries := ∅ |}.

Section Recall.
(** [unicode.IsLetter] or [unicode.IsDigit]; the full-text engine: the score of the row at a position
    for a query when it matches, smaller is better; [time.Parse] of a stored time. *)
Context (word_rune : N -> bool) (bm25 : list string -> string -> nat -> option Z) (custom : list Regexp.regexp).

(** ** The store *)

(** The step of the transaction that fails, with its error: it undoes the others. *)
(* [modules/recall/store.go:Store.Index] *)
Definition Index (now : time) (fault : option (string * error)) (m : IndexedMessage) (s : Store) : Store * option error :=
  if decide (im_Tenant m = "" \/ im_User m = "" \/ im_Session m = "") then (s, Some "recall: tenant, user and session are required")
  else if decide (TrimSpace (im_Text m) = "") then (s, None)
  else match fault with
  | Some (what, e) => (s, Some ("recall: " +:+ what +:+ ": " +:+ e))
  | None =>
      let m := {| MsgID := MsgID m; im_Tenant := im_Tenant m; im_User := im_User m; im_Session := im_Session m; im_Role := im_Role m;
                  im_Text := im_Text m; im_CreatedAt := if IsZero (im_CreatedAt m) then now else im_CreatedAt m |} in
      ({| recall_messages := recall_messages s ++ [m]; session_summaries := session_summaries s |}, None)
  end.
(** [strings.FieldsFunc]: the runs of the runes of words. *)
Fixpoint tokens_loop (fuel : nat) (word s : string) : list string :=
  match fuel with
  | O => if decide (word = "") then [] else [word]
  | S fuel =>
      if decide (s = "") then (if decide (word = "") then [] else [word])
      else
        let d := DecodeRune s in
        if word_rune d.1 then tokens_loop fuel (word +:+ take_bytes d.2 s) (drop_bytes d.2 s)
        else (if decide (word = "") then [] else [word]) ++ tokens_loop fuel "" (drop_bytes d.2 s)
  end.
Definition tokens (q : string) : list string := tokens_loop (String.length q) "" q.
(* [modules/recall/store.go:ftsQuery] *)
Definition ftsQuery (q : string) : string := if decide (tokens q = []) then "" else Join (dq <$> tokens q) " OR ".
Definition by_score (x y : Snippet) : Prop := Score x <= Score y.
Definition snippet (score : Z) (m : IndexedMessage) : Snippet :=
  {| sn_Session := im_Session m; sn_Role := im_Role m; sn_Text := im_Text m; Score := score; sn_CreatedAt := im_CreatedAt m |}.
(** Matches of the engine, joined back to their rows, of which the tenant's and user's count. *)
Definition matches (match_ tenant user : string) (s : Store) : list Snippet :=
  omap (fun im : nat * IndexedMessage =>
          score ← bm25 (im_Text <$> recall_messages s) match_ im.1;
          if decide (im_Tenant im.2 = tenant /\ im_User im.2 = user) then Some (snippet score im.2) else None)
    (imap pair (recall_messages s)).
(* [modules/recall/store.go:Store.Search] *)
Definition Search {sorter : SliceSorter by_score} (fault : option error) (tenant user query : string) (limit : Z) (s : Store) : Result (list Snippet) :=
  if decide (tenant = "" \/ user = "") then Err "recall: tenant and user are required"
  else
    let match_ := ftsQuery query in
    if decide (match_ = "") then Ok []
    else
      let limit := if decide (limit <= 0) then 5 else limit in
      match fault with
      | Some e => Err ("recall: search: " +:+ e)
      | None => Ok (take (Z.to_nat limit) (sortSlice by_score (matches match_ tenant user s)))
      end.
Definition of_session (tenant user session : string) (s : Store) : list IndexedMessage :=
  filter (fun m => im_Tenant m = tenant /\ im_User m = user /\ im_Session m = session) (recall_messages s).
(* [modules/recall/store.go:Store.SessionMessages] *)
Definition SessionMessages (counting reading : option error) (tenant user session : string) (limit : Z) (s : Store) : Result (list Snippet * Z) :=
  let limit := if decide (limit <= 0) then 50 else limit in
  match counting with
  | Some e => Err ("recall: count: " +:+ e)
  | None =>
      match reading with
      | Some e => Err ("recall: session messages: " +:+ e)
      | None =>
          let rows := of_session tenant user session s in
          Ok (snippet 0 <$> reverse (take (Z.to_nat limit) (reverse rows)), Z.of_nat (length rows))
      end
  end.
(* [modules/recall/store.go:Store.MessageCount] *)
Definition MessageCount (fault : option error) (tenant user session : string) (s : Store) : Result Z :=
  match fault with Some e => Err e | None => Ok (Z.of_nat (length (of_session tenant user session s))) end.
(* [modules/recall/store.go:Store.UpsertSummary] *)
Definition UpsertSummary (now : time) (fault : option error) (tenant user session summary : string) (messageCount : Z) (s : Store)
    : Store * option error :=
  match fault with
  | Some e => (s, Some ("recall: upsert summary: " +:+ e))
  | None => ({| recall_messages := recall_messages s;
                session_summaries := <[(tenant, user, session) := (summary, messageCount, now)]> (session_summaries s) |}, None)
  end.
(* [modules/recall/store.go:Store.Summary] *)
Definition Summary (fault : option error) (tenant user session : string) (s : Store) : Result (string * Z) :=
  match fault with
  | Some e => Err ("recall: get summary: " +:+ e)
  | None => Ok (match session_summaries s !! (tenant, user, session) with Some (t, n, _) => (t, n) | None => ("", 0) end)
  end.

(** ** Summaries *)

(* [modules/recall/summarizer.go:Summarizer.SummarizeSession@40-50] *)
Definition render (l : list Snippet) : string :=
  Join ((fun m => (if decide (sn_Role m = "") then "message" else sn_Role m) +:+ ": " +:+ sn_Text m +:+ nl) <$> l) "".
(* [modules/recall/summarizer.go:Summarizer] *)
Record Summarizer := { fn : option (string -> Result string); maxMessages : Z }.
(* [modules/recall/summarizer.go:NewSummarizer] *)
Definition NewSummarizer (f : option (string -> Result string)) (maxMessages : Z) : Summarizer :=
  {| fn := f; maxMessages := if decide (maxMessages <= 0) then 50 else maxMessages |}.
(* [modules/recall/summarizer.go:Summarizer.SummarizeSession] *)
Definition SummarizeSession (now : time) (counting reading writing : option error) (z : Summarizer) (tenant user session : string) (s : Store)
    : Store * option error :=
  match fn z with
  | None => (s, None)
  | Some f =>
      match SessionMessages counting reading tenant user session (maxMessages z) s with
      | Err e => (s, Some e)
      | Ok (msgs, total) =>
          if decide (msgs = []) then (s, None)
          else match f (render msgs) with
               | Err e => (s, Some ("recall: summarize: " +:+ e))
               | Ok summary => UpsertSummary now writing tenant user session (TrimSpace summary) total s
               end
      end
  end.

(** ** The module *)

(** [queue] and [summarizer] may be missing; [every] is the debounce. *)
(* [modules/recall/module.go:Module] *)
Record Module_ := { store : Store; queue : option Jobs.Queue; summarizer : option Summarizer; summarizeEvery : Z }.
(* [modules/recall/module.go:New] *)
Definition New (s : Store) (q : option Jobs.Queue) (z : option Summarizer) (every : Z) : Module_ :=
  {| store := s; queue := q; summarizer := z; summarizeEvery := if decide (0 < every) then every else 6 |}.
Definition with_store (s : Store) (m : Module_) : Module_ :=
  {| store := s; queue := queue m; summarizer := summarizer m; summarizeEvery := summarizeEvery m |}.
(* [modules/recall/module.go:sanitize] *)
Definition sanitize (s : string) : string := Redact.RedactPII (Redact.MaskSecrets custom s).
(* [modules/recall/module.go:Module.handleSearch] *)
Definition handleSearch {sorter : SliceSorter by_score} (fault : option error) (p : SearchRequest + string) (m : Module_) : Result (list Snippet) :=
  match p with
  | inr type => Err ("recall.search: expected SearchRequest, got " +:+ type)
  | inl req => Search fault (sq_Tenant req) (sq_User req) (sq_Query req) (sq_Limit req) (store m)
  end.
(* [modules/recall/types.go:JobKindSummarize] *)
Definition JobKindSummarize : string := "recall.summarize".
(** [encode] is the JSON of a job. *)
Context (encode : string * string * string -> string).
(* [modules/recall/module.go:Module.maybeEnqueueSummary] *)
Definition maybeEnqueueSummary (fresh : string) (now : time) (counting summing : option error) (tenant user session : string) (m : Module_) : Module_ :=
  match queue m, summarizer m with
  | Some q, Some _ =>
      match MessageCount counting tenant user session (store m), Summary summing tenant user session (store m) with
      | Ok total, Ok (_, summarized) =>
          if decide (total - summarized < summarizeEvery m) then m
          else match Jobs.Enqueue fresh now tenant JobKindSummarize (encode (tenant, user, session)) 0 q with
               | Ok (_, q) => {| store := store m; queue := Some q; summarizer := summarizer m; summarizeEvery := summarizeEvery m |}
               | Err _ => m
               end
      | _, _ => m
      end
  | _, _ => m
  end.
(** What a turn meets: an identifier for a job, the clock, and the errors of its statements. *)
Record TurnEnv := { te_fresh : string; te_now : time; te_user : option (string * error); te_response : option (string * error); te_counting : option error; te_summing : option error }.
Definition message (role suffix text : string) (at_ : time) (rec : AgentSession.TurnRecord) : IndexedMessage :=
  {| MsgID := AgentSession.t_Session rec +:+ suffix; im_Tenant := AgentSession.t_Tenant rec; im_User := AgentSession.t_User rec;
     im_Session := AgentSession.t_Session rec; im_Role := role; im_Text := text; im_CreatedAt := at_ |}.
(* [modules/recall/module.go:Module.handleTurnCompleted] *)
Definition handleTurnCompleted (E : TurnEnv) (rec : option AgentSession.TurnRecord) (m : Module_) : Module_ :=
  match rec with
  | None => m
  | Some rec =>
      if decide (AgentSession.t_Tenant rec = "" \/ AgentSession.t_User rec = "" \/ AgentSession.t_Session rec = "") then m
      else if AgentSession.t_Subagent rec then m
      else
        let user := sanitize (AgentSession.t_UserMessage rec) in
        let resp := sanitize (AgentSession.t_Response rec) in
        let s := store m in
        let s := if decide (user = "") then s else (Index (te_now E) (te_user E) (message "user" ":u" user (AgentSession.t_StartedAt rec) rec) s).1 in
        let s := if decide (resp = "") then s else (Index (te_now E) (te_response E) (message "assistant" ":a" resp (te_now E) rec) s).1 in
        maybeEnqueueSummary (te_fresh E) (te_now E) (te_counting E) (te_summing E)
          (AgentSession.t_Tenant rec) (AgentSession.t_User rec) (AgentSession.t_Session rec) (with_store s m)
  end.
(** [decode] is the JSON of a job's payload. *)
(* [modules/recall/module.go:Module.handleSummarizeJob] *)
Definition handleSummarizeJob (decode : string -> Result (string * string * string)) (now : time) (counting reading writing : option error)
    (job : Jobs.Job) (m : Module_) : Module_ * option error :=
  match decode (Jobs.Payload job) with
  | Err e => (m, Some ("recall: bad summarize payload: " +:+ e))
  | Ok (tenant, user, session) =>
      match summarizer m with
      | None => (m, None)
      | Some z => let '(s, e) := SummarizeSession now counting reading writing z tenant user session (store m) in (with_store s m, e)
      end
  end.
End Recall.

(** ** The learning loop *)

(* [modules/learn/types.go:DefaultMinToolCalls] *)
Definition DefaultMinToolCalls : Z := 3.
(* [modules/learn/types.go:JobKindReflect] *)
Definition JobKindReflect : string := "learn.reflect".
(* [modules/learn/heuristics.go:shouldReflect] *)
Definition shouldReflect (rec : AgentSession.TurnRecord) (minToolCalls : Z) : bool :=
  if decide (AgentSession.t_Tenant rec = "" \/ AgentSession.t_Agent rec = "") then false
  else if AgentSession.t_Subagent rec then false
  else bool_decide ((if decide (minToolCalls <= 0) then DefaultMinToolCalls else minToolCalls) <= AgentSession.t_ToolCalls rec).
(* [modules/learn/reflector.go:reflectPrompt] *)
Definition reflectPrompt (transcript : string) : string :=
  "You just completed a task for a user. Review what happened and extract durable, reusable knowledge." +:+ nl +:+ nl +:+ "Task transcript:" +:+
  nl +:+ "---" +:+ nl +:+ transcript +:+ nl +:+ "---" +:+ nl +:+ nl +:+ "Return ONLY a JSON object of this shape:" +:+ nl +:+ "{" +:+ nl +:+ "  " +:+
  dq "memory" +:+ ": " +:+ dq "<one or two sentences worth remembering for next time; empty if nothing>" +:+ "," +:+ nl +:+ "  " +:+ dq "skill" +:+
  ": {" +:+ dq "name" +:+ ":" +:+ dq "<kebab-case-name>" +:+ "," +:+ dq "description" +:+ ":" +:+ dq "<one line>" +:+ "," +:+ dq "instructions" +:+
  ":" +:+ dq "<SKILL.md body: when to use it and the steps>" +:+ "}" +:+ nl +:+ "}" +:+ nl +:+ "Rules:" +:+ nl +:+ "- " +:+ dq "memory" +:+
  " should be a concrete fact or lesson learned, not a summary of the chat." +:+ nl +:+ "- Only include " +:+ dq "skill" +:+
  " when a genuinely reusable, multi-step procedure emerged. Omit it otherwise." +:+ nl +:+
  "- No secrets (passwords, tokens, full card numbers)." +:+ nl +:+ "- If nothing is worth keeping, return {" +:+ dq "memory" +:+ ":" +:+ dq "" +:+
  "}.".
(* [modules/learn/reflector.go:skillProposal] *)
Record skillProposal := { sp_Name : string; sp_Description : string; sp_Instructions : string }.
(* [modules/learn/reflector.go:reflection] *)
Record reflection := { rf_Memory : string; rf_Skill : option skillProposal }.
(* [modules/learn/reflector.go:buildTranscript] *)
Definition buildTranscript (rec : AgentSession.TurnRecord) : string :=
  "User: " +:+ AgentSession.t_UserMessage rec +:+ nl +:+
  (if decide (AgentSession.t_ToolsUsed rec = []) then "" else "Tools used: " +:+ Join (AgentSession.t_ToolsUsed rec) ", " +:+ nl) +:+
  "Assistant: " +:+ AgentSession.t_Response rec +:+ nl.
Definition fence : string := "```".
Section Learn.
(** JSON: of a turn, and of the model's answer. *)
Context (Marshal : AgentSession.TurnRecord -> Result string) (Unmarshal : string -> Result AgentSession.TurnRecord) (decode : string -> Result reflection).
(* [modules/learn/reflector.go:parseReflection] *)
Definition parseReflection (content : string) : Result reflection :=
  let s := TrimSpace content in
  let s := if has_prefix fence s then
             let s := match cut "010"%char s with Some (_, b) => b | None => s end in
             match find_last fence s with Some (a, _) => a | None => s end
           else s in
  match find "{" s, find_last "}" s with
  | Some (before, _), Some (upto, _) =>
      let start := String.length before in let end_ := String.length upto in
      if decide (end_ < start)%nat then Ok {| rf_Memory := ""; rf_Skill := None |}
      else decode (take_bytes (end_ + 1 - start) (drop_bytes start s))
  | _, _ => Ok {| rf_Memory := ""; rf_Skill := None |}
  end.
(* [modules/learn/module.go:Module] *)
Record Learner := { enabled : bool; l_queue : option Jobs.Queue; reflect : option (string -> Result string); minToolCalls : Z }.
(* [modules/learn/module.go:New] *)
Definition NewLearner (enabled : bool) (q : option Jobs.Queue) (f : option (string -> Result string)) (n : Z) : Learner :=
  {| enabled := enabled; l_queue := q; reflect := f; minToolCalls := if decide (0 < n) then n else DefaultMinToolCalls |}.
(** Only an active module subscribes to turns and handles jobs. *)
(* [modules/learn/module.go:Module.active] *)
Definition active (l : Learner) : bool :=
  enabled l && match l_queue l with Some _ => true | None => false end && match reflect l with Some _ => true | None => false end.
(* [modules/learn/module.go:Module.handleTurnCompleted] *)
Definition learn_turn (fresh : string) (now : time) (rec : option AgentSession.TurnRecord) (l : Learner) : Learner :=
  match rec, l_queue l with
  | Some rec, Some q =>
      if negb (shouldReflect rec (minToolCalls l)) then l
      else match Marshal rec with
           | Err _ => l
           | Ok payload =>
               match Jobs.Enqueue fresh now (AgentSession.t_Tenant rec) JobKindReflect payload 0 q with
               | Ok (_, q) => {| enabled := enabled l; l_queue := Some q; reflect := reflect l; minToolCalls := minToolCalls l |}
               | Err _ => l
               end
           end
  | _, _ => l
  end.
(** What a reflection asks of the bus; failures there are logged. *)
Inductive lesson := SaveMemory (m : AgentMemory.Memory) | Propose (r : Skills.ProposeRequest).
(* [modules/learn/module.go:Module.handleReflectJob] *)
Definition handleReflectJob (job : Jobs.Job) (l : Learner) : Result (list lesson) :=
  match Unmarshal (Jobs.Payload job), reflect l with
  | Err e, _ => Err ("learn: bad reflect payload: " +:+ e)
  | Ok rec, Some f =>
      match f (reflectPrompt (buildTranscript rec)) with
      | Err e => Err ("learn: reflect: " +:+ e)
      | Ok content =>
          match parseReflection content with
          | Err e => Err ("learn: parse reflection: " +:+ e)
          | Ok r =>
              let mem := TrimSpace (rf_Memory r) in
              Ok ((if decide (mem = "") then [] else
                     [SaveMemory {| AgentMemory.mem_ID := ""; AgentMemory.mem_Agent := AgentSession.t_Agent rec; AgentMemory.mem_Tenant := AgentSession.t_Tenant rec;
                                    AgentMemory.mem_Key := "learned"; AgentMemory.mem_Content := mem; AgentMemory.mem_CreatedAt := 0; AgentMemory.mem_UpdatedAt := 0 |}]) ++
                  (match rf_Skill r with
                   | Some sk => if decide (TrimSpace (sp_Name sk) = "" \/ TrimSpace (sp_Instructions sk) = "") then [] else
                       [Propose {| Skills.pq_Tenant := AgentSession.t_Tenant rec; Skills.pq_Name := sp_Name sk; Skills.pq_Description := sp_Description sk;
                                   Skills.pq_Instructions := sp_Instructions sk; Skills.pq_Capabilities := Skills.no_capabilities; Skills.pq_SourceAgent := AgentSession.t_Agent rec |}]
                   | None => []
                   end))
          end
      end
  | Ok _, None => Err "nil reflect function"
  end.
End Learn.

(** ** Scopes *)

Section Scopes.
Context (word_rune : N -> bool) (bm25 : list string -> string -> nat -> option Z) (custom : list Regexp.regexp).
Context (encode : string * string * string -> string).
(** A query is words in quotes joined by OR: nothing of the user's text is syntax. *)
Definition wordy (s : string) : Prop := Forall (fun c => c <> dquote) (String.list_ascii_of_string s).
Lemma wordy_app s t : wordy s -> wordy t -> wordy (s +:+ t).
Proof.
  unfold wordy. intros Hs Ht. induction s as [|c s IH]; [done|]. rewrite str_app_cons. cbn [String.list_ascii_of_string] in *.
  inversion_clear Hs. constructor; [done|by apply IH].
Qed.
Lemma high_wordy s : high_bytes s -> wordy s.
Proof.
  unfold wordy. induction s as [|c s IH]; intros H; [constructor|]. destruct H as [Hc Hs]. constructor; [|by apply IH]. by intros ->.
Qed.
Lemma rune_wordy s : s <> "" -> word_rune 34 = false -> word_rune (DecodeRune s).1 = true -> wordy (take_bytes (DecodeRune s).2 s).
Proof.
  intros Hs Hq Hw. destruct (DecodeRune_size s Hs) as [_ [(c & s' & -> & Hc & Hd)|Hh]]; [|by apply high_wordy].
  rewrite Hd in Hw |- *. cbn [fst] in Hw. constructor; [|by destruct s'; constructor]. intros ->. change (N_of_ascii dquote) with 34%N in Hw. congruence.
Qed.
Lemma tokens_wordy fuel : word_rune 34 = false -> forall word s, wordy word -> Forall wordy (tokens_loop word_rune fuel word s).
Proof.
  intros Hq. induction fuel as [|fuel IH]; intros word s Hw; cbn [tokens_loop]; [case_decide; [constructor|by apply Forall_singleton]|].
  case_decide; [case_decide; [constructor|by apply Forall_singleton]|]. destruct (word_rune (DecodeRune s).1) eqn:Hr.
  - apply IH, wordy_app; [done|by apply rune_wordy].
  - apply Forall_app. split; [case_decide; [constructor|by apply Forall_singleton]|]. apply IH. constructor.
Qed.
(** The query is the user's words, none of which has a quote, in quotes and joined by OR. *)
Lemma ftsQuery_safe q : word_rune 34 = false -> exists l, Forall wordy l /\ ftsQuery word_rune q = Join (dq <$> l) " OR ".
Proof.
  intros Hq. exists (tokens word_rune q). split; [by apply tokens_wordy; [|constructor]|]. unfold ftsQuery. case_decide as Hn; [by rewrite Hn|done].
Qed.

Definition turns_from (turns : list (TurnEnv * AgentSession.TurnRecord)) (m : Module_) : Module_ :=
  foldl (fun m t => handleTurnCompleted custom encode t.1 (Some t.2) m) m turns.
(** A message of a turn of the list, as it is stored. *)
Definition of_turn (turns : list (TurnEnv * AgentSession.TurnRecord)) (im : IndexedMessage) : Prop :=
  exists E rec, (E, rec) ∈ turns /\ AgentSession.t_Tenant rec = im_Tenant im /\ AgentSession.t_User rec = im_User im /\
    AgentSession.t_Subagent rec = false /\
    (im_Text im = sanitize custom (AgentSession.t_UserMessage rec) \/ im_Text im = sanitize custom (AgentSession.t_Response rec)).
Lemma Index_from turns now fault im s : of_turn turns im -> Forall (of_turn turns) (recall_messages s) ->
  Forall (of_turn turns) (recall_messages (Index now fault im s).1).
Proof.
  intros Hi Hs. unfold Index. case_decide; [done|]. case_decide; [done|]. destruct fault as [[? ?]|]; [done|]. cbn.
  apply Forall_app. split; [done|]. by apply Forall_singleton.
Qed.
Lemma maybeEnqueueSummary_store fresh now c1 c2 t u se m : store (maybeEnqueueSummary encode fresh now c1 c2 t u se m) = store m.
Proof. unfold maybeEnqueueSummary. repeat (case_match; try done). Qed.
Lemma turn_from turns E rec m : (E, rec) ∈ turns -> Forall (of_turn turns) (recall_messages (store m)) ->
  Forall (of_turn turns) (recall_messages (store (handleTurnCompleted custom encode E (Some rec) m))).
Proof.
  intros Hin Hm. unfold handleTurnCompleted. case_decide; [done|]. destruct (AgentSession.t_Subagent rec) eqn:Hsub; [done|].
  rewrite maybeEnqueueSummary_store. cbn [with_store store].
  assert (Hmsg : forall role suffix text at_, text = sanitize custom (AgentSession.t_UserMessage rec) \/ text = sanitize custom (AgentSession.t_Response rec) ->
    of_turn turns (message role suffix text at_ rec)) by (intros role suffix text at_ Ht; exists E, rec; by split_and!).
  repeat case_decide; repeat apply Index_from; auto.
Qed.
Lemma turns_messages turns m : Forall (of_turn turns) (recall_messages (store m)) -> forall l, (forall t, t ∈ l -> t ∈ turns) ->
  Forall (of_turn turns) (recall_messages (store (turns_from l m))).
Proof.
  intros Hm l. revert m Hm. induction l as [|[E rec] l IH]; intros m Hm Hl; [done|]. apply IH; [|intros t Ht; apply Hl; by right].
  apply turn_from; [apply Hl; by left|done].
Qed.

Lemma take_elem {A} n (l : list A) x : x ∈ take n l -> x ∈ l.
Proof. intros Hx. rewrite <-(take_drop n l). apply elem_of_app. by left. Qed.

(** Recall is private.  Whatever turns were indexed, by whichever statements failed, a search
    finds at most as many messages as asked for, each from a turn of the tenant and user who ask, never
    from a subagent's, and stored only after masking and redaction: no access token is in it.  This holds
    whatever the full-text engine matches. *)
Lemma recall_private {sorter : SliceSorter by_score} turns q z every fault tenant user query limit l :
  Search word_rune bm25 fault tenant user query limit (store (turns_from turns (New NewStore q z every))) = Ok l ->
  (0 < limit -> Z.of_nat (length l) <= limit) /\
  forall sn, sn ∈ l -> (exists E rec, (E, rec) ∈ turns /\ AgentSession.t_Tenant rec = tenant /\ AgentSession.t_User rec = user /\
      AgentSession.t_Subagent rec = false /\
      (sn_Text sn = sanitize custom (AgentSession.t_UserMessage rec) \/ sn_Text sn = sanitize custom (AgentSession.t_Response rec))) /\
    forall r, r ∈ Redact.tokenPatterns -> Regexp.free_of r (sn_Text sn).
Proof.
  pose proof (turns_messages turns (New NewStore q z every) ltac:(constructor) turns ltac:(done)) as Hall.
  generalize dependent (store (turns_from turns (New NewStore q z every))). intros s Hall. unfold Search.
  case_decide; [done|]. case_decide; [intros [= <-]; split; [cbn; lia|by intros sn ?%elem_of_nil]|]. destruct fault as [e|]; [done|]. intros [= <-]. split.
  { intros Hl. rewrite decide_False by lia. rewrite length_take. lia. }
  intros sn Hsn%take_elem.
  assert (Hm : sn ∈ matches bm25 (ftsQuery word_rune query) tenant user s).
  { by rewrite <-(sortSlice_perm (matches bm25 (ftsQuery word_rune query) tenant user s)). }
  unfold matches in Hm. apply list_elem_of_omap in Hm as ([i im] & Him & Hf). cbn in Hf. destruct (bm25 _ _ _); [|done]. cbn in Hf.
  case_decide as Hsc; [|done]. injection Hf as <-. apply elem_of_lookup_imap in Him as (j & im' & [= -> ->] & Hj).
  rewrite Forall_forall in Hall. destruct (Hall im' ltac:(by eapply list_elem_of_lookup_2)) as (E & rec & Hin & Ht & Hu & Hs & Htext).
  split; [exists E, rec; cbn; destruct Hsc as [<- <-]; by split_and!|]. intros r Hr. cbn.
  destruct Htext as [->| ->]; by apply Redact.no_token_survives.
Qed.
End Scopes.

(** ** What the learning loop may do *)

(** A reflection comes from the model over an active module, and whatever the model says, it is saved or
    proposed in the turn's tenant, under the turn's agent; a proposed skill asks for no capabilities. *)
Lemma lessons_scoped Unmarshal decode job l lessons rec : Unmarshal (Jobs.Payload job) = Ok rec -> handleReflectJob Unmarshal decode job l = Ok lessons ->
  reflect l <> None /\ Forall (fun x => match x with
    | SaveMemory m => AgentMemory.mem_Tenant m = AgentSession.t_Tenant rec /\ AgentMemory.mem_Agent m = AgentSession.t_Agent rec
    | Propose r => Skills.pq_Tenant r = AgentSession.t_Tenant rec /\ Skills.pq_SourceAgent r = AgentSession.t_Agent rec /\
                   Skills.IsSafe (Skills.pq_Capabilities r) = true end) lessons.
Proof.
  unfold handleReflectJob. intros ->. destruct (reflect l) as [f|]; [|done]. destruct (f _) as [content|]; [|done].
  destruct (parseReflection decode content) as [r|]; [|done]. intros [= <-]. split; [done|]. apply Forall_app. split.
  - case_decide; [constructor|by apply Forall_singleton].
  - destruct (rf_Skill r); [|constructor]. case_decide; [constructor|by apply Forall_singleton].
Qed.
(** A turn is queued for reflection only when it is complex enough and not a subagent's. *)
Lemma learn_turn_gated Marshal fresh now rec l : learn_turn Marshal fresh now (Some rec) l <> l ->
  shouldReflect rec (minToolCalls l) = true.
Proof. unfold learn_turn. destruct (l_queue l); [|done]. by destruct (shouldReflect rec (minToolCalls l)). Qed.

(** ** Concrete turns *)

#[local] Instance by_score_dec : RelDecision by_score.
Proof. intros x y. unfold by_score. apply _. Defined.
#[local] Instance by_score_total : Total by_score.
Proof. intros x y. unfold by_score. lia. Qed.
#[local] Instance by_score_trans : Transitive by_score.
Proof. intros x y z. unfold by_score. lia. Qed.
Definition score_sorter : SliceSorter by_score := merge_sorter by_score.
Definition ascii_word (n : N) : bool := Redact.is_alnum n.
(** An engine that finds everything, so that only the scope selects. *)
Definition finds_all (texts : list string) (query : string) (i : nat) : option Z := Some (- Z.of_nat i).
Definition demo_turn (tenant user text reply : string) : TurnEnv * AgentSession.TurnRecord :=
  ({| te_fresh := "job_1"; te_now := 1000; te_user := None; te_response := None; te_counting := None; te_summing := None |},
   {| AgentSession.t_Tenant := tenant; AgentSession.t_User := user; AgentSession.t_Session := "s1"; AgentSession.t_Agent := "bot"; AgentSession.t_Model := "m";
      AgentSession.t_UserMessage := text; AgentSession.t_Response := reply; AgentSession.t_ToolsUsed := []; AgentSession.t_ToolCalls := 0; AgentSession.t_Turns := 1;
      AgentSession.t_InputTokens := 0; AgentSession.t_OutputTokens := 0; AgentSession.t_TotalTokens := 0; AgentSession.t_Outcome := "ok";
      AgentSession.t_DurationMS := 0; AgentSession.t_StartedAt := 900; AgentSession.t_Subagent := false |}).
Definition demo_turns : list (TurnEnv * AgentSession.TurnRecord) :=
  [demo_turn "acme" "ana" "deploy with cyntr_0123456789abcdef0123456789abcdef" "done"; demo_turn "globex" "ana" "hello" "hi"].
Definition demo_module : Module_ := turns_from [] (fun p => p.2) demo_turns (New NewStore None None 6).
Example demo_search : (fun sn => sn_Text sn) <$> match @Search ascii_word finds_all score_sorter None "acme" "ana" "deploy?" 5 (store demo_module) with Ok l => l | Err _ => [] end
  = ["done"; "deploy with ***REDACTED***"].
Proof. vm_compute. reflexivity. Qed.
Lemma recall_private_witness : exists l, @Search ascii_word finds_all score_sorter None "acme" "ana" "deploy?" 1 (store demo_module) = Ok l /\ Z.of_nat (length l) <= 1.
Proof.
  eexists. split; [reflexivity|].
  refine (proj1 (@recall_private ascii_word finds_all [] (fun p => p.2) score_sorter demo_turns None None 6 None "acme" "ana" "deploy?" 1 _ eq_refl) _). done.
Defined.
Example demo_query : ftsQuery ascii_word ("x) OR tenant:" +:+ dq "y") = dq "x" +:+ " OR " +:+ dq "OR" +:+ " OR " +:+ dq "tenant" +:+ " OR " +:+ dq "y".
Proof. vm_compute. reflexivity. Qed.
