(* ===== verification/ToolFiles.v ===== *)
(** * The file tools: reading, writing and searching files under a root

    [src/modules/agent/tools/file.go] on the cleaned paths of Paths.  The environment, and what each call to
    the file system answers, are arguments; a tool returns the paths it touched with its answer. *)
From S2P Require Import Prelude GoStr GoText Paths.
Local Open Scope go_scope.
Local Open Scope Z_scope.

(** One call to the file system. *)
Inductive FileOp := FStat (p : string) | FRead (p : string) | FMkdirAll (p : string) | FWrite (p content : string) | FGlob (pattern : string).
Notation Input := (gmap string string).
Definition field (k : string) (input : Input) : string := default "" (input !! k).
(** [filepath.Dir] *)
Definition Dir (p : string) : string := Clean (match find_last "/" p with Some (a, _) => a +:+ "/" | None => "" end).

Section FileTools.
(** The variable CYNTR_FILE_TOOL_ROOT, the working directory, and the answers of the file system: a size,
    a content, the error of making directories and of writing, the matches of a pattern. *)
Context (env_root : string) (cwd : Result string).
Context (Stat : string -> Result Z) (ReadFile : string -> Result string) (MkdirAll WriteFile : string -> option error) (Glob : string -> Result (list string)).

(* [modules/agent/tools/file.go:fileToolRoot] *)
Definition fileToolRoot : string := if decide (env_root <> "") then env_root else match cwd with Ok wd => wd | Err _ => "." end.
Definition escapes (rel : string) : bool := bool_decide (rel = "..") || has_prefix "../" rel.
(* [modules/agent/tools/file.go:confinePath] *)
Definition confinePath (path : string) : Result string :=
  if decide (path = "") then Err "path is required"
  else
    absRoot <-? wrap_err "resolve root" (Abs cwd fileToolRoot) ;;
    let abs := Clean path in
    let abs := if IsAbs abs then abs else Clean (Join2 absRoot path) in
    if escapes (Rel absRoot abs) then Err ("path " +:+ quote path +:+ " is outside the permitted root") else Ok abs.
(* [modules/agent/tools/file.go:FileReadTool.Execute] *)
Definition FileRead (input : Input) : list FileOp * Result string :=
  match confinePath (field "path" input) with
  | Err e => ([], Err e)
  | Ok path =>
      match Stat path with
      | Err e => ([FStat path], Err ("file not found: " +:+ e))
      | Ok size =>
          if decide (2 ^ 20 < size) then ([FStat path], Err ("file too large (" +:+ itoa size +:+ " bytes, max 1MB)"))
          else ([FStat path; FRead path], wrap_err "read file" (ReadFile path))
      end
  end.
(* [modules/agent/tools/file.go:FileWriteTool.Execute] *)
Definition FileWrite (input : Input) : list FileOp * Result string :=
  match confinePath (field "path" input) with
  | Err e => ([], Err e)
  | Ok path =>
      let content := field "content" input in
      match MkdirAll (Dir path) with
      | Some e => ([FMkdirAll (Dir path)], Err ("create directory: " +:+ e))
      | None =>
          ([FMkdirAll (Dir path); FWrite path content],
           match WriteFile path with
           | Some e => Err ("write file: " +:+ e)
           | None => Ok ("written " +:+ itoa (Z.of_nat (String.length content)) +:+ " bytes to " +:+ path)
           end)
      end
  end.
(* [modules/agent/tools/file.go:FileSearchTool.Execute] *)
Definition FileSearch (input : Input) : list FileOp * Result string :=
  let pattern := field "pattern" input in
  if decide (field "directory" input = "" \/ pattern = "") then ([], Err "directory and pattern required")
  else match confinePath (field "directory" input) with
  | Err e => ([], Err e)
  | Ok dir =>
      ([FGlob (Join2 dir pattern)],
       matches <-? wrap_err "glob" (Glob (Join2 dir pattern)) ;;
       Ok (if decide (matches = []) then "no matches found"
           else foldr (fun m acc => m +:+ nl +:+ acc) "" (take 100 matches)))
  end.

(** ** Confinement *)

(** A rooted path whose cleaned segments extend those of the root. *)
Definition inside (root p : string) : Prop := IsAbs p = true /\ exists l, clean_segs p = clean_segs root ++ l.

Lemma rel_segs_prefix base : forall targ, ~ (exists l, targ = base ++ l) -> exists l, rel_segs base targ = ".." :: l.
Proof.
  induction base as [|b base IH]; intros targ H; [destruct H; by exists targ|]. destruct targ as [|t targ]; cbn [rel_segs].
  - by eexists.
  - case_decide as E; [subst t|by eexists]. apply IH. intros [l ->]. apply H. by exists l.
Qed.
Lemma Join_up l : escapes (Join (".." :: l) "/") = true.
Proof. by destruct l. Qed.
Lemma Rel_inside base targ : IsAbs targ = true -> escapes (Rel base targ) = false -> inside base targ.
Proof.
  intros Ht H. split; [done|]. unfold Rel in H.
  destruct (decide (firstn (length (clean_segs base)) (clean_segs targ) = clean_segs base)) as [E|E].
  - exists (skipn (length (clean_segs base)) (clean_segs targ)). rewrite <-E at 1. symmetry. apply take_drop.
  - destruct (rel_segs_prefix (clean_segs base) (clean_segs targ)) as [l El].
    + intros [l El]. apply E. rewrite El. apply take_app_length.
    + rewrite El, decide_False, Join_up in H by done. done.
Qed.
Lemma Clean_IsAbs p : IsAbs p = true -> IsAbs (Clean p) = true.
Proof. intros Hp. unfold Clean. by rewrite Hp. Qed.

Lemma confinePath_inside path p : (forall wd, cwd = Ok wd -> IsAbs wd = true) -> confinePath path = Ok p ->
  exists root, Abs cwd fileToolRoot = Ok root /\ IsAbs root = true /\ inside root p.
Proof.
  intros Hwd H. unfold confinePath in H. case_decide; [done|].
  apply rbind_Ok in H as (root & Hroot & H). apply wrap_err_Ok in Hroot. destruct (Abs_rooted _ _ _ Hwd Hroot) as [Habs _].
  exists root. split; [done|]. split; [done|]. destruct (escapes _) eqn:E in H; [done|]. injection H as <-.
  apply Rel_inside; [|done]. destruct (IsAbs (Clean path)) eqn:Ea; [done|].
  apply Clean_IsAbs. unfold Join2. apply Clean_IsAbs. by apply IsAbs_app.
Qed.

(** What reading or writing may touch: paths inside the root, and the directory of one to make it. *)
Definition confined_op (root : string) (op : FileOp) : Prop :=
  match op with
  | FStat p | FRead p | FWrite p _ => inside root p
  | FMkdirAll d => exists p, d = Dir p /\ inside root p
  | FGlob _ => False
  end.

(** C22 [safety]: whatever path the model asks for, reading and writing touch only rooted paths whose cleaned
    segments extend those of the configured root, besides making the directory of such a path; and what reading
    returns is the content of a file of at most one mebibyte. *)
Theorem file_tools_confined input (Hwd : forall wd, cwd = Ok wd -> IsAbs wd = true) :
  (forall op, op ∈ (FileRead input).1 ++ (FileWrite input).1 ->
     exists root, Abs cwd fileToolRoot = Ok root /\ IsAbs root = true /\ confined_op root op) /\
  (forall text, (FileRead input).2 = Ok text ->
     exists p size, confinePath (field "path" input) = Ok p /\ Stat p = Ok size /\ size <= 2 ^ 20 /\ ReadFile p = Ok text).
Proof.
  unfold FileRead, FileWrite. destruct (confinePath (field "path" input)) as [p|e] eqn:E; [|split; [by intros op ?%elem_of_nil|done]].
  destruct (confinePath_inside _ _ Hwd E) as (root & Hroot & Habs & Hin). split.
  - intros op Hop. exists root. split; [done|]. split; [done|]. apply elem_of_app in Hop.
    assert (op = FStat p \/ op = FRead p \/ op = FMkdirAll (Dir p) \/ op = FWrite p (field "content" input)) as Hc.
    { destruct Hop as [Hop|Hop]; [destruct (Stat p); [case_decide|]|destruct (MkdirAll (Dir p))]; cbn [fst] in Hop; set_solver. }
    destruct Hc as [-> | [-> | [-> | -> ] ] ]; cbn; eauto.
  - intros text H. destruct (Stat p) as [size|] eqn:Es; [|done]. case_decide as Hsz; [done|]. apply wrap_err_Ok in H.
    exists p, size. split; [done|]. split; [done|]. split; [lia|done].
Qed.

(** What a search lists is under the pattern joined after the directory, not confined itself. *)
Lemma search_touches input op : op ∈ (FileSearch input).1 ->
  exists dir, confinePath (field "directory" input) = Ok dir /\ op = FGlob (Join2 dir (field "pattern" input)).
Proof.
  unfold FileSearch. case_decide; [by intros ?%elem_of_nil|]. destruct (confinePath _) as [dir|]; [|by intros ?%elem_of_nil].
  intros ->%list_elem_of_singleton. by exists dir.
Qed.
End FileTools.

(** ** On a small disk *)

Definition demo_stat (p : string) : Result Z := if decide (p = "/srv/work/notes.txt") then Ok 5 else Err "no such file".
Definition demo_file (p : string) : Result string := if decide (p = "/srv/work/notes.txt") then Ok "hello" else Err "no such file".
Definition path_input (p : string) : Input := {["path" := p]}.

Example read_inside : FileRead "work" (Ok "/srv") demo_stat demo_file (path_input "a/../notes.txt") =
  ([FStat "/srv/work/notes.txt"; FRead "/srv/work/notes.txt"], Ok "hello").
Proof. vm_compute. reflexivity. Qed.
Example read_outside : FileRead "/srv/work" (Ok "/") demo_stat demo_file (path_input "/srv/workshop/x") =
  ([], Err ("path " +:+ dq "/srv/workshop/x" +:+ " is outside the permitted root")).
Proof. vm_compute. reflexivity. Qed.
(** A pattern with dots leaves the root. *)
Example search_escapes : FileSearch "/srv/work" (Ok "/") (fun p => Ok [p]) (<["directory" := "."]> {["pattern" := "../../etc/*"]}) =
  ([FGlob "/etc/*"], Ok ("/etc/*" +:+ nl)).
Proof. vm_compute. reflexivity. Qed.

Lemma file_tools_confined_witness : confinePath "/srv/work" (Ok "/") "notes.txt" = Ok "/srv/work/notes.txt" /\
  (forall op, op ∈ (FileRead "/srv/work" (Ok "/") demo_stat demo_file (path_input "notes.txt")).1 ++
                   (FileWrite "/srv/work" (Ok "/") (fun _ => None) (fun _ => None) (path_input "notes.txt")).1 ->
     exists root, Abs (Ok "/") (fileToolRoot "/srv/work" (Ok "/")) = Ok root /\ IsAbs root = true /\ confined_op root op).
Proof.
  split; [vm_compute; reflexivity|].
  apply (file_tools_confined "/srv/work" (Ok "/") demo_stat demo_file (fun _ => None) (fun _ => None) (fun _ => Ok []) (path_input "notes.txt")).
  by intros wd [= <-].
Defined.
