(* ===== verification/ToolPlan.v ===== *)
(** * Plans of tool calls, and scripts that call tools

    [src/modules/agent/tools]: tool_plan.go, which runs several tool calls in one turn with each call's
    parameters filled in from the earlier outputs, and rpc_bridge.go, through which a script calls tools.
    Every call either makes is checked against the policy first.  JSON, the order in which a map is visited,
    the policy module's and the tools' answers are arguments. *)
From S2P Require Import Prelude GoStr GoText AgentSession.
From S2P Require Ipc Policy AgentTurn.
Import AgentTurn (reply, Replied, OtherPayload, Failed, check_request).
Local Open Scope go_scope.
Local Open Scope Z_scope.

(** ** Data *)

Notation Strings := (gmap string string).
(* [modules/agent/tools/tool_plan.go:planStep] *)
Record planStep := { st_ID : string; st_Tool : string; Params : Strings }.
(* [modules/agent/tools/tool_plan.go:planResult] *)
Record planResult := { Steps : Strings; Final : string }.
(** Checks of the policy and calls of tools, in order. *)
Inductive event :=
  | EvCheck (q : Policy.CheckRequest) (r : reply Policy.CheckResponse)
  | EvCall (tool : string) (params : Strings) (r : Result string).
Notation trace := (list event).

(** ** References *)

(** A text in pieces: its bytes, and its references with their scope and their key. *)
Inductive piece := Lit (c : ascii) | Ref (scope key : string).
Definition close_brace : ascii := "}"%char.
(** A reference at the front, with the text after it. *)
Definition ref_in (scope s : string) : option (string * string * string) :=
  if has_prefix ("${" +:+ scope +:+ ".") s
  then match cut close_brace (drop_bytes (String.length scope + 3) s) with
       | Some (k, rest) => if decide (k = "") then None else Some (scope, k, rest)
       | None => None
       end
  else None.
(* [modules/agent/tools/tool_plan.go:refPattern] *)
Definition refPattern (s : string) : option (string * string * string) :=
  match ref_in "steps" s with Some r => Some r | None => ref_in "vars" s end.
Fixpoint pieces_loop (fuel : nat) (s : string) : list piece :=
  match fuel with
  | O => []
  | S fuel =>
      match refPattern s with
      | Some (scope, k, rest) => Ref scope k :: pieces_loop fuel rest
      | None => match s with "" => [] | String c s' => Lit c :: pieces_loop fuel s' end
      end
  end.
Definition pieces (s : string) : list piece := pieces_loop (String.length s) s.
Definition source (p : piece) : string := match p with Lit c => String c "" | Ref scope k => "${" +:+ scope +:+ "." +:+ k +:+ "}" end.
Definition unresolved (scope k : string) : error :=
  if decide (scope = "steps")
  then "unknown step reference " +:+ quote k +:+ " (only resolved earlier steps can be referenced)"
  else "unknown vars reference " +:+ quote k.
Definition lookup_ref (steps vars : Strings) (scope k : string) : option string :=
  if decide (scope = "steps") then steps !! k else vars !! k.
Definition render (steps vars : Strings) (p : piece) : string :=
  match p with Lit c => String c "" | Ref scope k => default (source p) (lookup_ref steps vars scope k) end.
Definition failure (steps vars : Strings) (p : piece) : option error :=
  match p with
  | Lit _ => None
  | Ref scope k => if lookup_ref steps vars scope k is None then Some (unresolved scope k) else None
  end.
(** The last unresolved reference is the error. *)
(* [modules/agent/tools/tool_plan.go:substituteRefs] *)
Definition substituteRefs (s : string) (steps vars : Strings) : Result string :=
  match last (omap (failure steps vars) (pieces s)) with
  | Some e => Err e
  | None => Ok (foldr (fun p acc => render steps vars p +:+ acc) "" (pieces s))
  end.

Section Plan.
(** [json.Unmarshal] of a plan and of the variables, [json.Encoder.Encode] of a result, the order of a
    map's keys; the policy module, when there is a bus; the tools registered and what they answer. *)
Context (decode_plan : string -> Result (list planStep)) (decode_vars : string -> Result Strings) (Encode : planResult -> Result string).
Context (order : Strings -> list (string * string)).
Context (bus : option (trace -> Policy.CheckRequest -> reply Policy.CheckResponse)).
Context (registry : ToolRegistry) (answer : trace -> string -> Strings -> Result string).

(* [modules/agent/tools/tool_plan.go:NewToolPlanTool@33-40] *)
Definition maxSteps : nat := 20.
(* [modules/agent/tools/tool_plan.go:ToolPlanTool.checkPolicy] *)
Definition checkPolicy (tenant agentName user toolName : string) (tr : trace) : trace * string :=
  match bus with
  | None => (tr, "")
  | Some policy =>
      let q := check_request tenant user agentName toolName in
      let r := policy tr q in
      (tr ++ [EvCheck q r],
       match r with
       | Replied cr => Policy.Decision_String (Policy.resp_Decision cr)
       | OtherPayload => "deny"
       | Failed e => if decide (e = Ipc.ErrNoHandler) then "" else "deny"
       end)
  end.
Definition registry_Execute (name : string) (params : Strings) (tr : trace) : trace * Result string :=
  match tools registry !! name with
  | None => (tr, Err ("tool " +:+ quote name +:+ " not found"))
  | Some _ => (tr ++ [EvCall name params (answer tr name params)], answer tr name params)
  end.
Fixpoint trim_newlines (fuel : nat) (s : string) : string :=
  match fuel with O => s | S f => if has_suffix nl s then trim_newlines f (TrimSuffix s nl) else s end.
(* [modules/agent/tools/tool_plan.go:marshalResult] *)
Definition marshalResult (r : planResult) : string :=
  match Encode r with Ok text => trim_newlines (String.length text) text | Err e => "{" +:+ dq "error" +:+ ":" +:+ quote e +:+ "}" end.
(* [modules/agent/tools/tool_plan.go:formatPartial] *)
Definition formatPartial (steps : Strings) (final : string) : string := marshalResult {| Steps := steps; Final := final |}.

(** The parameters filled in, in the map's order; the first that fails stops. *)
Fixpoint resolve (id : string) (stepOutputs vars : Strings) (params : list (string * string)) (resolved : Strings) : Result Strings :=
  match params with
  | [] => Ok resolved
  | (k, v) :: params =>
      match substituteRefs v stepOutputs vars with
      | Err e => Err ("step " +:+ quote id +:+ " param " +:+ quote k +:+ ": " +:+ e)
      | Ok sub => resolve id stepOutputs vars params (<[k := sub]> resolved)
      end
  end.
Notation Answer := (string * option error)%type (only parsing).
(** The steps from the [i]th on, under the outputs so far; the identifiers seen are those with an output. *)
(* [modules/agent/tools/tool_plan.go:ToolPlanTool.Execute@118-176] *)
Fixpoint run_steps (tenant agentName user : string) (vars : Strings) (i : Z) (steps : list planStep)
    (stepOutputs : Strings) (lastOutput : string) (tr : trace) : trace * Answer :=
  match steps with
  | [] => (tr, (marshalResult {| Steps := stepOutputs; Final := lastOutput |}, None))
  | step :: steps =>
      let id := st_ID step in
      let tool := st_Tool step in
      let partial tr e := (tr, (formatPartial stepOutputs lastOutput, Some e)) in
      if decide (id = "") then (tr, ("", Some ("step " +:+ itoa i +:+ " missing id")))
      else if stepOutputs !! id is Some _ then (tr, ("", Some ("duplicate step id " +:+ quote id)))
      else if decide (tool = "") then (tr, ("", Some ("step " +:+ quote id +:+ " missing tool")))
      else if decide (tool = "tool_plan") then (tr, ("", Some ("step " +:+ quote id +:+ ": tool_plan cannot recursively call itself")))
      else match resolve id stepOutputs vars (order (Params step)) ∅ with
      | Err e => partial tr e
      | Ok resolved =>
          let '(tr, decision) := checkPolicy tenant agentName user tool tr in
          let name := "step " +:+ quote id +:+ " (" +:+ tool +:+ ")" in
          if decide (decision = "deny") then partial tr (name +:+ ": policy denied")
          else if decide (decision = "require_approval")
          then partial tr (name +:+ ": tool requires approval " +:+ "— call it directly instead of via tool_plan")
          else
            let '(tr, out) := registry_Execute tool resolved tr in
            match out with
            | Err e => partial tr (name +:+ " failed: " +:+ e)
            | Ok out => run_steps tenant agentName user vars (i + 1) steps (<[id := out]> stepOutputs) out tr
            end
      end
  end.
(* [modules/agent/tools/tool_plan.go:ToolPlanTool.Execute] *)
Definition Execute (ctx : ToolCtx) (input : Strings) : trace * Answer :=
  let planJSON := TrimSpace (default "" (input !! "plan")) in
  if decide (planJSON = "") then ([], ("", Some "plan is required"))
  else match decode_plan planJSON with
  | Err e => ([], ("", Some ("invalid plan JSON: " +:+ e)))
  | Ok steps =>
      if decide (steps = []) then ([], ("", Some "plan has no steps"))
      else if decide (maxSteps < length steps)%nat
      then ([], ("", Some ("plan has " +:+ itoa (Z.of_nat (length steps)) +:+ " steps; max " +:+ itoa (Z.of_nat maxSteps) +:+ " allowed")))
      else
        let varsJSON := TrimSpace (default "" (input !! "vars")) in
        match (if decide (varsJSON = "") then Ok ∅ else decode_vars varsJSON) with
        | Err e => ([], ("", Some ("invalid vars JSON: " +:+ e)))
        | Ok vars => let '(tenant, agentName, user) := ToolCaller ctx in run_steps tenant agentName user vars 0 steps ∅ "" []
        end
  end.

(** ** What a plan calls *)

(** The first piece of a nonempty text, and what is left. *)
Lemma ref_in_source scope s k rest sc : ref_in scope s = Some (sc, k, rest) ->
  sc = scope /\ s = source (Ref scope k) +:+ rest /\ k <> "".
Proof.
  unfold ref_in. destruct (has_prefix _ s) eqn:Hp; [|done]. apply has_prefix_spec in Hp as [t ->].
  replace (String.length scope + 3)%nat with (String.length ("${" +:+ scope +:+ ".")) by (rewrite !str_length_app; cbn; lia).
  rewrite drop_bytes_app. destruct (cut close_brace t) as [[a b]|] eqn:E; [|done]. apply cut_spec in E. case_decide; [done|].
  intros [= <- <- <-]. split; [done|]. split; [|done]. rewrite E. unfold source. by rewrite !str_app_assoc.
Qed.
Lemma refPattern_source s scope k rest : refPattern s = Some (scope, k, rest) ->
  (scope = "steps" \/ scope = "vars") /\ s = source (Ref scope k) +:+ rest.
Proof.
  unfold refPattern. destruct (ref_in "steps" s) as [[[sc k'] r']|] eqn:E.
  - intros [= -> -> ->]. apply ref_in_source in E as (-> & Hs & _). split; [by left|done].
  - intros Hv. apply ref_in_source in Hv as (-> & Hs & _). split; [by right|done].
Qed.
(** Cutting a text in pieces loses nothing. *)
Lemma pieces_loop_source fuel : forall s, (String.length s <= fuel)%nat ->
  foldr (fun p acc => source p +:+ acc) "" (pieces_loop fuel s) = s.
Proof.
  induction fuel as [|fuel IH]; intros s Hs; [by destruct s; [|cbn in Hs; lia]|]. cbn [pieces_loop].
  destruct (refPattern s) as [[[scope k] rest]|] eqn:E.
  - apply refPattern_source in E as [_ Eq]. cbn [foldr]. rewrite IH, Eq; [done|]. rewrite Eq in Hs.
    unfold source in Hs. rewrite !str_length_app in Hs. cbn in Hs. lia.
  - destruct s as [|c s]; [done|]. cbn [foldr source]. cbn in Hs. by rewrite IH by lia.
Qed.
Lemma pieces_source s : foldr (fun p acc => source p +:+ acc) "" (pieces s) = s.
Proof. apply pieces_loop_source. lia. Qed.

(** A substitution that succeeds resolved every reference of the text; what it put in is not read again. *)
Lemma substituted s steps vars t : substituteRefs s steps vars = Ok t ->
  t = foldr (fun p acc => render steps vars p +:+ acc) "" (pieces s) /\
  forall scope k, Ref scope k ∈ pieces s -> exists v, lookup_ref steps vars scope k = Some v.
Proof.
  unfold substituteRefs. destruct (last _) eqn:El; [done|]. intros [= <-]. split; [done|]. intros scope k Hin.
  destruct (lookup_ref steps vars scope k) as [v|] eqn:E; [by exists v|]. apply last_None in El.
  assert (unresolved scope k ∈ omap (failure steps vars) (pieces s)) as Hf.
  { apply list_elem_of_omap. exists (Ref scope k). split; [done|]. cbn. by rewrite E. }
  rewrite El in Hf. by apply elem_of_nil in Hf.
Qed.

(** What lets a call of a plan go on, given which decisions let it; the code looks for two words only. *)
Definition answered_by (lets : Policy.Decision_ -> Prop) (r : reply Policy.CheckResponse) : Prop :=
  match r with
  | Replied cr => lets (Policy.resp_Decision cr)
  | OtherPayload => False
  | Failed e => e = Ipc.ErrNoHandler
  end.
Definition not_held (d : Policy.Decision_) : Prop := d <> Policy.Deny /\ d <> Policy.RequireApproval.
Notation passes := (answered_by not_held).
(** The module's own answer at that point, which lets the call go on. *)
Definition vetted (q : Policy.CheckRequest) (tr : trace) (r : reply Policy.CheckResponse) : Prop :=
  passes r /\ forall policy, bus = Some policy -> r = policy tr q.
Lemma checkPolicy_passes tenant agentName user tool tr tr' d : checkPolicy tenant agentName user tool tr = (tr', d) ->
  d <> "deny" -> d <> "require_approval" ->
  tr' = tr /\ bus = None \/ exists r, tr' = tr ++ [EvCheck (check_request tenant user agentName tool) r] /\ vetted (check_request tenant user agentName tool) tr r.
Proof.
  unfold checkPolicy, vetted. destruct bus as [policy|]; intros [= <- <-] Hd Ha; [|by left]. right. eexists. split; [done|]. split; [|by intros p [= ->]].
  destruct (policy tr _) as [cr| |e]; cbn; [unfold not_held; destruct (Policy.resp_Decision cr); done|done|]. by case_decide.
Qed.

(** A trace in which every call follows its own check. *)
Inductive gated (tenant agentName user : string) : trace -> Prop :=
  | gated_nil : gated tenant agentName user []
  | gated_refused tr q r : gated tenant agentName user tr -> gated tenant agentName user (tr ++ [EvCheck q r])
  | gated_call tr tool params out : gated tenant agentName user tr -> tool <> "tool_plan" ->
      (bus = None \/ exists tr0 r, tr = tr0 ++ [EvCheck (check_request tenant user agentName tool) r] /\ vetted (check_request tenant user agentName tool) tr0 r) ->
      gated tenant agentName user (tr ++ [EvCall tool params out]).
Lemma gated_every tenant agentName user tr : gated tenant agentName user tr ->
  forall pre tool params out post, tr = pre ++ [EvCall tool params out] ++ post -> tool <> "tool_plan" /\
    (bus = None \/ exists pre0 r, pre = pre0 ++ [EvCheck (check_request tenant user agentName tool) r] /\ vetted (check_request tenant user agentName tool) pre0 r).
Proof.
  induction 1 as [|tr q r _ IH|tr tool' params' out' _ IH Hne Hc]; intros pre tool params out post E; [by destruct pre|..];
    destruct post as [|e post _] using rev_ind; rewrite ?app_nil_r in E.
  - by apply app_inj_tail in E as [_ ?].
  - rewrite !app_assoc in E. apply app_inj_tail in E as [E _]. eapply IH. by rewrite E, <-app_assoc.
  - apply app_inj_tail in E as [-> [= -> -> ->]]. done.
  - rewrite !app_assoc in E. apply app_inj_tail in E as [E _]. eapply IH. by rewrite E, <-app_assoc.
Qed.

Definition calls (tr : trace) : list string := omap (fun e => match e with EvCall tool _ _ => Some tool | _ => None end) tr.
Lemma calls_app tr1 tr2 : calls (tr1 ++ tr2) = calls tr1 ++ calls tr2.
Proof. unfold calls. apply omap_app. Qed.
Lemma run_steps_gated tenant agentName user vars steps : forall i outputs last tr tr' a,
  gated tenant agentName user tr -> run_steps tenant agentName user vars i steps outputs last tr = (tr', a) ->
  gated tenant agentName user tr' /\ exists n, calls tr' = calls tr ++ take n (st_Tool <$> steps) /\ (a.2 = None -> (length steps <= n)%nat).
Proof.
  induction steps as [|step steps IH]; intros i outputs last tr tr' a Hg; cbn [run_steps].
  { intros [= <- <-]. split; [done|]. exists 0%nat. cbn. by rewrite app_nil_r. }
  assert (forall tr0 x e, calls tr0 = calls tr -> gated tenant agentName user tr0 -> (tr0, (x, Some e)) = (tr', a) ->
    gated tenant agentName user tr' /\ exists n, calls tr' = calls tr ++ take n (st_Tool <$> step :: steps) /\
      (a.2 = None -> (length (step :: steps) <= n)%nat)) as Hstop.
  { intros tr0 x e Hc Hg0 [= <- <-]. split; [done|]. exists 0%nat. cbn. by rewrite app_nil_r. }
  case_decide; [eauto|]. destruct (outputs !! st_ID step); [eauto|]. case_decide; [eauto|]. case_decide as Hrec; [eauto|].
  destruct (resolve _ _ _ _ _) as [resolved|]; [|eauto].
  destruct (checkPolicy tenant agentName user (st_Tool step) tr) as [tr1 d] eqn:Ec.
  assert (calls tr1 = calls tr /\ gated tenant agentName user tr1) as [Hc1 Hg1].
  { unfold checkPolicy in Ec. destruct bus; injection Ec as <- _; [|done]. rewrite calls_app. cbn. rewrite app_nil_r. split; [done|]. by constructor. }
  case_decide as Hd; [eauto|]. case_decide as Ha; [eauto|].
  pose proof (checkPolicy_passes _ _ _ _ _ _ _ Ec Hd Ha) as Hpass. unfold registry_Execute.
  destruct (tools registry !! st_Tool step); [|eauto]. set (out := answer tr1 (st_Tool step) resolved).
  assert (gated tenant agentName user (tr1 ++ [EvCall (st_Tool step) resolved out])) as Hg2.
  { constructor; [done|done|]. destruct Hpass as [ [_ ?]|(r & -> & Hr)]; [by left|right; eauto]. }
  assert (calls (tr1 ++ [EvCall (st_Tool step) resolved out]) = calls tr ++ [st_Tool step]) as Hc2 by (by rewrite calls_app, Hc1).
  destruct out as [o|e] eqn:Eo; intros Hrun.
  - destruct (IH _ _ _ _ _ _ Hg2 Hrun) as (Hg' & n & Hn & Hlen). split; [done|]. exists (S n). cbn. rewrite Hn, Hc2, <-app_assoc.
    split; [done|]. intros Hok. specialize (Hlen Hok). lia.
  - injection Hrun as <- <-. split; [done|]. exists 1%nat. cbn. by rewrite Hc2.
Qed.

Lemma Execute_run ctx input tr a : Execute ctx input = (tr, a) -> forall tenant agentName user, ToolCaller ctx = (tenant, agentName, user) ->
  (tr = [] /\ a.2 <> None) \/ exists steps vars, decode_plan (TrimSpace (default "" (input !! "plan"))) = Ok steps /\
    (length steps <= maxSteps)%nat /\ run_steps tenant agentName user vars 0 steps ∅ "" [] = (tr, a).
Proof.
  unfold Execute. intros H tenant agentName user E. rewrite E in H. case_decide; [injection H as <- <-; by left|].
  destruct (decode_plan _) as [steps|]; [|injection H as <- <-; by left].
  case_decide; [injection H as <- <-; by left|]. case_decide; [injection H as <- <-; by left|].
  destruct (if decide _ then _ else _) as [vars|]; [|injection H as <- <-; by left].
  right. exists steps, vars. split; [done|]. split; [lia|done].
Qed.

End Plan.

(** ** Scripts *)

(** What a call from a script did: the policy's decision, the tool, the audit record. *)
Inductive rpc_event :=
  | RpcCheck (tenant user agentName tool decision : string)
  | RpcCall (tool : string) (args : Strings) (r : Result string)
  | RpcAudit (tenant user agentName tool decision : string).
Inductive rpc_answer := RpcUnauthorized | RpcError (e : string) | RpcResult (out : string).
(* [modules/agent/tools/rpc_bridge.go:ToolRPCBridge@20-34] *)
Record ToolRPCBridge := { token : string; b_tenant : string; b_agentName : string; b_user : string; denied : gset string; audited : bool }.
(** The token is random; what it falls back to is fixed. *)
(* [modules/agent/tools/rpc_bridge.go:randToken] *)
Definition randToken (random : option string) : string := match random with Some hex => hex | None => "cyntr-rpc" end.
(* [modules/agent/tools/rpc_bridge.go:newBridge] *)
Definition newBridge (random : option string) (tenant agentName user : string) (audited : bool) : ToolRPCBridge :=
  {| token := "Bearer " +:+ randToken random; b_tenant := tenant; b_agentName := agentName; b_user := user;
     denied := {["code_interpreter"; "orchestrate_agents"; "delegate_agent"]}; audited := audited |}.

Section Bridge.
(** The decoded request, when it is one: the tool's name, with the arguments as [fmt.Sprint] shows them;
    the policy's check and the tools. *)
Context (decode_rpc : string -> option (string * Strings)).
Context (policyCheck : option (string -> string -> string -> string -> string)) (exec : string -> Strings -> Result string).

(* [modules/agent/tools/rpc_bridge.go:ToolRPCBridge.handler] *)
Definition handler (b : ToolRPCBridge) (authorization body : string) : list rpc_event * rpc_answer :=
  if decide (authorization <> token b) then ([], RpcUnauthorized)
  else
    match decode_rpc body with
    | None => ([], RpcError "invalid request")
    | Some (name, args) =>
        if decide (name = "") then ([], RpcError "invalid request")
        else if decide (name ∈ denied b) then ([], RpcError ("tool not callable from a script: " +:+ name))
        else
          let asked := match policyCheck with
            | Some check => let d := check (b_tenant b) (b_user b) (b_agentName b) name in
                            ([RpcCheck (b_tenant b) (b_user b) (b_agentName b) name d], d)
            | None => ([], "allow")
            end in
          let decision := asked.2 in
          let audit := if audited b then [RpcAudit (b_tenant b) (b_user b) (b_agentName b) name decision] else [] in
          if decide (decision <> "allow") then (asked.1 ++ audit, RpcError ("policy " +:+ decision +:+ " tool: " +:+ name))
          else
            (asked.1 ++ [RpcCall name args (exec name args)] ++ audit,
             match exec name args with Ok out => RpcResult out | Err e => RpcError e end)
    end.

(** A script reaches a tool with the bridge's token only, as the bridge's caller, when the tool is none of those
    that fan out and the check, when there is one, said "allow"; and its call is audited. *)
Lemma script_gated b authorization body tr a tool args r : handler b authorization body = (tr, a) -> RpcCall tool args r ∈ tr ->
  authorization = token b /\ tool ∉ denied b /\ r = exec tool args /\
  (forall check, policyCheck = Some check -> check (b_tenant b) (b_user b) (b_agentName b) tool = "allow") /\
  (audited b = true -> RpcAudit (b_tenant b) (b_user b) (b_agentName b) tool "allow" ∈ tr).
Proof.
  unfold handler. case_decide as Ht; [by intros [= <- <-] ?%elem_of_nil|].
  destruct (decode_rpc body) as [[name args']|]; [|by intros [= <- <-] ?%elem_of_nil].
  case_decide; [by intros [= <- <-] ?%elem_of_nil|]. case_decide as Hd; [by intros [= <- <-] ?%elem_of_nil|].
  destruct policyCheck as [check|]; cbn [fst snd]; case_decide as Hdec; intros [= <- <-] Hin; try done;
    try (destruct (audited b); set_solver).
  assert (tool = name /\ args = args' /\ r = exec name args') as (-> & -> & ->) by (destruct (audited b); set_solver).
  repeat split; try done; [by intros ? [= <-]|]. intros ->. rewrite Hdec. set_solver.
Qed.
End Bridge.

(** The check the node gives the bridge. *)
(* [cmd/cyntr/main.go:main@268-284] *)
Definition code_rpc_check (policy : Policy.CheckRequest -> reply Policy.CheckResponse) (tenant user agentName tool : string) : string :=
  match policy (check_request tenant user agentName tool) with
  | Failed e => if decide (e = Ipc.ErrNoHandler) then "allow" else "deny"
  | OtherPayload => "deny"
  | Replied cr => Policy.Decision_String (Policy.resp_Decision cr)
  end.
Lemma code_rpc_check_allow policy tenant user agentName tool : code_rpc_check policy tenant user agentName tool = "allow" ->
  answered_by (eq Policy.Allow) (policy (check_request tenant user agentName tool)).
Proof.
  unfold code_rpc_check. destruct (policy _) as [cr| |e]; cbn; [|done|by case_decide].
  destruct (Policy.resp_Decision cr) as [| | |n]; done.
Qed.

(** The answers of an initialised policy engine, reloads included. *)
Definition engine_policy `{!SliceSorter Policy.by_priority} (policy : trace -> Policy.CheckRequest -> reply Policy.CheckResponse) : Prop :=
  forall tr q cr, policy tr q = Replied cr ->
    exists e, Policy.running e /\ Policy.handleCheck e (Policy.PCheckRequest q) = Ok (Policy.PCheckResponse cr).

Lemma passes_engine `{!SliceSorter Policy.by_priority} policy tr tenant user agentName tool r : engine_policy policy ->
  r = policy tr (check_request tenant user agentName tool) -> answered_by not_held r -> answered_by (eq Policy.Allow) r.
Proof.
  intros He -> H. destruct (policy tr _) as [cr| |e] eqn:E; [|done..]. destruct (He _ _ _ E) as (e & Hr & Hc). destruct H as [Hd Ha]. cbn.
  destruct (Policy.resp_Decision cr) as [| | |n] eqn:Ed; [done..|]. by apply (Policy.running_defined _ _ _ n Hr) in Hc.
Qed.

(** C3 [safety]: no tool runs through a plan unless the policy module was asked about the caller and that very
    tool just before and held it back neither by "deny" nor by "require_approval" (or there is no bus, or no policy
    module registered): not a recursive plan, never under an identity the model chose, at most twenty calls, in the
    order of the plan and all of them when the plan succeeds.  A decision that is none of the three constants lets
    the call pass (a finding); an initialised policy engine gives none, and then it said "allow".  The same goes for
    a script's calls through the bridge: they need its token, a tool that is not on the bridge's list, and, when the
    bridge has a check, the word "allow" from it; with the check the node gives it, that is the decision Allow, or no
    policy module registered.  Without a check the bridge asks nobody. *)
Theorem subcalls_gated `{!SliceSorter Policy.by_priority} {decode_plan decode_vars Encode order bus registry answer ctx input tr a tenant agentName user}
    (Hcaller : ToolCaller ctx = (tenant, agentName, user))
    (Hrun : Execute decode_plan decode_vars Encode order bus registry answer ctx input = (tr, a)) :
  (forall pre tool params out post, tr = pre ++ [EvCall tool params out] ++ post -> tool <> "tool_plan" /\
     (bus = None \/ exists pre0 r, pre = pre0 ++ [EvCheck (check_request tenant user agentName tool) r] /\ answered_by not_held r /\
        forall policy, bus = Some policy -> r = policy pre0 (check_request tenant user agentName tool) /\
          (engine_policy policy -> answered_by (eq Policy.Allow) r))) /\
  (length (calls tr) <= 20)%nat /\
  (a.2 = None -> exists steps, decode_plan (TrimSpace (default "" (input !! "plan"))) = Ok steps /\ calls tr = st_Tool <$> steps) /\
  (forall decode_rpc policyCheck exec b authorization body tool args r,
     RpcCall tool args r ∈ (handler decode_rpc policyCheck exec b authorization body).1 ->
     authorization = token b /\ tool ∉ denied b /\ r = exec tool args /\
     (forall check, policyCheck = Some check -> check (b_tenant b) (b_user b) (b_agentName b) tool = "allow") /\
     (forall policy, policyCheck = Some (code_rpc_check policy) ->
        answered_by (eq Policy.Allow) (policy (check_request (b_tenant b) (b_user b) (b_agentName b) tool)))).
Proof.
  assert (gated bus tenant agentName user tr /\ (length (calls tr) <= 20)%nat /\
    (a.2 = None -> exists steps, decode_plan (TrimSpace (default "" (input !! "plan"))) = Ok steps /\ calls tr = st_Tool <$> steps))
    as (Hg & Hlen & Hall).
  { destruct (Execute_run _ _ _ _ _ _ _ _ _ _ _ Hrun _ _ _ Hcaller) as [ [-> Ha]|(steps & vars & Hd & Hmax & Hsteps)].
    - split; [constructor|]. split; [cbn; lia|done].
    - destruct (run_steps_gated _ _ _ _ _ _ _ _ _ _ _ _ _ _ _ _ (gated_nil bus tenant agentName user) Hsteps) as (Hg & n & Hn & Hlen).
      change (calls tr = take n (st_Tool <$> steps)) in Hn. split; [done|]. rewrite Hn. split.
      + rewrite length_take, length_fmap. unfold maxSteps in Hmax. lia.
      + intros Hok. exists steps. split; [done|]. apply take_ge. rewrite length_fmap. by apply Hlen. }
  split; [|split; [done|]; split; [done|]].
  - intros pre tool params out post E. destruct (gated_every _ _ _ _ _ Hg _ _ _ _ _ E) as [Hne [?|(pre0 & r & -> & Hp & Hr)]]; (split; [done|]).
    { by left. } right. exists pre0, r. split; [done|]. split; [done|]. intros policy Hb. specialize (Hr policy Hb). split; [done|].
    intros He. by apply (passes_engine policy pre0 tenant user agentName tool).
  - intros decode_rpc check exec b authorization body tool args r Hin. destruct (handler _ _ _ b authorization body) as [tr' a'] eqn:Hh.
    destruct (script_gated _ _ _ _ _ _ _ _ _ _ _ Hh Hin) as (? & ? & ? & Hallow & _). repeat (split; [done|]).
    intros policy Hc. apply code_rpc_check_allow. by apply Hallow.
Qed.

(** ** A plan of two steps *)

Definition demo_steps : list planStep :=
  [{| st_ID := "fetch"; st_Tool := "http_request"; Params := {["url" := "${vars.base}/u"]} |};
   {| st_ID := "show"; st_Tool := "echo"; Params := {["text" := "<${steps.fetch}> $ {steps.x}"]} |}].
Definition demo_registry : ToolRegistry :=
  Register {| d_Name := "echo"; d_Description := ""; d_Parameters := ∅ |}
    (Register {| d_Name := "http_request"; d_Description := ""; d_Parameters := ∅ |} NewToolRegistry).
Definition demo_allow (_ : trace) (q : Policy.CheckRequest) : reply Policy.CheckResponse :=
  Replied {| Policy.resp_Decision := Policy.Allow; Policy.resp_Rule := "r"; Policy.resp_Reason := "" |}.
(** The page names a reference, which is not read again. *)
Definition demo_answer (_ : trace) (tool : string) (params : Strings) : Result string :=
  if decide (tool = "echo") then Ok (default "" (params !! "text"))
  else if decide (params !! "url" = Some "http://h/u") then Ok "${steps.fetch}" else Err "404".
Definition demo_ctx : ToolCtx := WithToolCaller "acme" "helper" "ann" background.
Definition demo_run := Execute (fun _ => Ok demo_steps) (fun _ => Ok {["base" := "http://h"]}) (fun r => Ok (Final r +:+ nl))
  (fun m => map_to_list m) (Some demo_allow) demo_registry demo_answer demo_ctx (<["plan" := "p"]> {["vars" := "v"]}).
Example demo_runs : demo_run.2 = ("<${steps.fetch}> $ {steps.x}", None) /\ calls demo_run.1 = ["http_request"; "echo"].
Proof. vm_compute. done. Qed.
Lemma subcalls_gated_witness : ToolCaller demo_ctx = ("acme", "helper", "ann") /\
  (length (calls demo_run.1) <= 20)%nat /\ (demo_run.2.2 = None -> exists steps, Ok demo_steps = Ok steps /\ calls demo_run.1 = st_Tool <$> steps).
Proof.
  split; [reflexivity|].
  destruct (@subcalls_gated Policy.rule_sorter _ _ _ _ _ _ _ demo_ctx _ _ _ "acme" "helper" "ann" eq_refl (surjective_pairing demo_run))
    as (_ & H1 & H2 & _). by split.
Defined.
