(* ===== verification/ToolAgents.v ===== *)
(** * The tools that speak to other modules

    [src/modules/agent/tools]: orchestrate.go, delegate.go, context_read.go, recall_search.go,
    user_model_read.go, user_model_write.go, canvas.go, send_message.go, skill_router.go and gateway.go.  A tool
    runs under the caller of its context and returns the messages it put on the bus with its answer; the
    replies, JSON, random bytes and the clock are arguments.  The name of a Go type is left out of messages. *)
From S2P Require Import Prelude Calendar GoStr GoText Float64 AgentSession AgentMemory.
From S2P Require Ipc AgentTurn Channel Recall UserModel Curator.
Import AgentTurn (reply, Replied, OtherPayload, Failed).
Local Open Scope go_scope.
Local Open Scope Z_scope.

(** ** Data *)

Notation Strings := (gmap string string).
Definition field (k : string) (input : Strings) : string := default "" (input !! k).

(* [modules/agent/tools/canvas.go:CanvasNode] *)
Record CanvasNode := {
  cn_Type : string; cn_Text : string; Columns : list string; Rows : list (list string); URL : string; Alt : string; Label : string; Action : string;
}.
(* [modules/agent/tools/canvas.go:CanvasDoc] *)
Record CanvasDoc := { cd_Tenant : string; cd_Session : string; Title : string; Nodes : list CanvasNode; cd_UpdatedAt : time }.
(** What a tool puts on the bus. *)
Inductive bus_msg :=
  | BChat (traceID agent tenant user message : string)
  | BContextWrite (traceID : string) (e : SharedContextEntry)
  | BContextRead (tenant channel : string)
  | BRecallSearch (q : Recall.SearchRequest)
  | BProfileGet (tenant user : string)
  | BFactsGet (tenant user : string)
  | BUpsert (section tenant user md : string)
  | BCanvas (doc : CanvasDoc)
  | BSend (m : Channel.OutboundMessage)
  | BSkillList
  | BSkillInstructions (names : list string)
  | BOutcome (inv : Curator.Invocation).
Notation Outcome := (list bus_msg * Result string)%type (only parsing).
Definition refuse (e : error) : Outcome := ([], Err e).

(** ** Handing work to other agents *)

(* [modules/agent/tools/orchestrate.go:orchestrateTask] *)
Record orchestrateTask := { t_Tenant : string; t_Agent : string; t_Message : string }.
(* [modules/agent/tools/orchestrate.go:orchestrateResult] *)
Record orchestrateResult := { r_Agent : string; r_Content : string; r_Error : string }.
(** A value of the shared context: a JSON string, or the text of another value. *)
Inductive json_note := JString (s : string) | JRaw (text : string).

(* [modules/agent/tools/orchestrate.go:genTraceID] *)
Definition genTraceID (random : option string) (stamp seq : Z) : string :=
  match random with Some hex => "orch-" +:+ hex | None => "orch-fb-" +:+ itoa stamp +:+ "-" +:+ itoa seq end.
(* [modules/agent/tools/orchestrate.go:NewOrchestrateTool] *)
Definition maxFanout : nat := 10.

Section Orchestrate.
(** [json.Unmarshal] of the tasks and of the shared context, in the order its keys are visited. *)
Context (decode_tasks : string -> Result (list orchestrateTask)) (decode_notes : string -> Result (list (string * json_note))).

Definition note_text (v : json_note) : string := match v with JString s => s | JRaw text => text end.
(* [modules/agent/tools/orchestrate.go:parseSharedContext] *)
Definition parseSharedContext (raw : string) : Result (list (string * string)) :=
  if decide (TrimSpace raw = "") then Ok []
  else match decode_notes (TrimSpace raw) with
       | Err e => Err ("invalid shared_context JSON (want an object, e.g. {" +:+ dq "plan" +:+ ":" +:+ dq "..." +:+ "}): " +:+ e)
       | Ok obj => Ok (omap (fun kv => if decide (kv.1 = "") then None else Some (kv.1, note_text kv.2)) obj)
       end.
(** Errors of the writes are ignored. *)
(* [modules/agent/tools/orchestrate.go:OrchestrateTool.writeSharedContext] *)
Definition writeSharedContext (tenant author channel : string) (notes : list (string * string)) : list bus_msg :=
  (fun kv => BContextWrite channel {| n_Channel := channel; n_Tenant := tenant; n_Key := kv.1; n_Content := kv.2; n_Author := author; n_CreatedAt := 0 |})
    <$> notes.
Definition child_result (agent : string) (r : reply string) : orchestrateResult :=
  match r with
  | Replied content => {| r_Agent := agent; r_Content := content; r_Error := "" |}
  | OtherPayload => {| r_Agent := agent; r_Content := ""; r_Error := "unexpected response type" |}
  | Failed e => {| r_Agent := agent; r_Content := ""; r_Error := e |}
  end.
Definition show_result (r : orchestrateResult) : string :=
  "## Agent: " +:+ r_Agent r +:+ nl +:+
  (if decide (r_Error r <> "") then "Error: " +:+ r_Error r +:+ nl else r_Content r) +:+ nl +:+ nl +:+ "---" +:+ nl +:+ nl.
(** The children run at once; each answers its own task, and the results stay in the order of the tasks. *)
(* [modules/agent/tools/orchestrate.go:OrchestrateTool.Execute] *)
Definition Orchestrate (has_bus : bool) (traceID : string) (answer : nat -> reply string) (ctx : ToolCtx) (input : Strings) : Outcome :=
  let '(tenant, agentName, user) := ToolCaller ctx in
  if decide (field "tasks" input = "") then refuse "tasks is required"
  else if negb has_bus then refuse "orchestrate: bus not configured"
  else if decide (tenant = "") then refuse "orchestrate: no tenant in tool context"
  else match decode_tasks (field "tasks" input) with
  | Err e => refuse ("invalid tasks JSON: " +:+ e)
  | Ok tasks =>
      if decide (tasks = []) then ([], Ok "No tasks provided.")
      else if decide (maxFanout < length tasks)%nat then refuse ("maximum " +:+ itoa (Z.of_nat maxFanout) +:+ " parallel tasks allowed")
      else match parseSharedContext (field "shared_context" input) with
      | Err e => refuse e
      | Ok notes =>
          (writeSharedContext tenant agentName traceID notes ++ ((fun tk => BChat traceID (t_Agent tk) tenant user (t_Message tk)) <$> tasks),
           Ok (foldr (fun r acc => show_result r +:+ acc) "" (imap (fun i tk => child_result (t_Agent tk) (answer i)) tasks)))
      end
  end.
End Orchestrate.

(* [modules/agent/tools/delegate.go:DelegateTool.Execute] *)
Definition Delegate (answer : reply string) (ctx : ToolCtx) (input : Strings) : Outcome :=
  let agentName := field "agent" input in
  let message := field "message" input in
  let '(tenant, _, user) := ToolCaller ctx in
  if decide (agentName = "" \/ message = "") then refuse "agent and message are required"
  else if decide (tenant = "") then refuse "delegate: no tenant in tool context"
  else
    let user := if decide (user = "") then "delegate" else user in
    ([BChat "" agentName tenant user message],
     match answer with
     | Replied content => Ok ("Response from " +:+ agentName +:+ ":" +:+ nl +:+ nl +:+ content)
     | OtherPayload => Err "unexpected response type"
     | Failed e => Err ("delegation failed: " +:+ e)
     end).

(* [modules/agent/tools/context_read.go:ContextReadTool.Execute] *)
Definition ContextRead (has_bus : bool) (answer : reply (list SharedContextEntry)) (ctx : ToolCtx) : Outcome :=
  let '(tenant, _, _) := ToolCaller ctx in
  let channel := ctx_Channel ctx in
  if negb has_bus then refuse "context_read: bus not configured"
  else if decide (tenant = "" \/ channel = "") then ([], Ok (FormatSharedContext []))
  else
    ([BContextRead tenant channel],
     match answer with
     | Replied entries => Ok (FormatSharedContext entries)
     | OtherPayload => Err "context_read: unexpected response type"
     | Failed e => Err ("context_read: " +:+ e)
     end).

(** ** The user's own past *)

Definition show_snippet (i : nat) (s : Recall.Snippet) : string :=
  let when := if IsZero (Recall.sn_CreatedAt s) then "" else " (" +:+ DateOnly (Recall.sn_CreatedAt s) +:+ ")" in
  let role := if decide (Recall.sn_Role s = "") then "message" else Recall.sn_Role s in
  itoa (Z.of_nat i + 1) +:+ ". [" +:+ role +:+ when +:+ "] " +:+ Recall.sn_Text s +:+ nl.
(* [modules/agent/tools/recall_search.go:formatSnippets] *)
Definition formatSnippets (query : string) (snippets : list Recall.Snippet) : string :=
  if decide (snippets = []) then "No past conversations found matching " +:+ quote query +:+ "."
  else "Found " +:+ itoa (Z.of_nat (length snippets)) +:+ " past message(s) matching " +:+ quote query +:+ ":" +:+ nl +:+ nl +:+
       foldr (fun s acc => s +:+ acc) "" (imap show_snippet snippets).
(** A limit that is not a positive number is the default of 5; [strconv.Atoi] refuses what overflows. *)
Definition limit_of (v : string) : Z :=
  match Atoi (TrimSpace v) with Some n => if decide (0 < n <= maxInt64) then n else 5 | None => 5 end.
(* [modules/agent/tools/recall_search.go:RecallSearchTool.Execute] *)
Definition RecallSearch (has_bus : bool) (answer : reply (list Recall.Snippet)) (ctx : ToolCtx) (input : Strings) : Outcome :=
  let query := TrimSpace (field "query" input) in
  let '(tenant, _, user) := ToolCaller ctx in
  if decide (query = "") then refuse "recall_search: query is required"
  else if decide (tenant = "" \/ user = "") then refuse "recall_search: no tenant/user in tool context"
  else if negb has_bus then refuse "recall_search: bus not configured"
  else
    ([BRecallSearch {| Recall.sq_Tenant := tenant; Recall.sq_User := user; Recall.sq_Query := query; Recall.sq_Limit := limit_of (field "limit" input) |}],
     match answer with
     | Replied snippets => Ok (formatSnippets query snippets)
     | OtherPayload => Err "recall_search: unexpected payload"
     | Failed e => if decide (e = Ipc.ErrNoHandler) then Ok "(recall module not registered)" else Err ("recall_search: " +:+ e)
     end).

(** ** The user's profile *)

(** [%.0f]: the nearest integer, ties to even, of the exact value. *)
Definition show_rounded (f : float64) : string :=
  match f with
  | SpecFloat.S754_zero s => if s then "-0" else "0"
  | SpecFloat.S754_infinity s => if s then "-Inf" else "+Inf"
  | SpecFloat.S754_nan => "NaN"
  | SpecFloat.S754_finite s m e =>
      let n := if decide (0 <= e) then Z.pos m * 2 ^ e
               else let q := Z.pos m / 2 ^ (- e) in
                    let r := Z.pos m mod 2 ^ (- e) in
                    if decide (2 ^ (- e) < 2 * r \/ 2 ^ (- e) = 2 * r /\ Z.odd q = true) then q + 1 else q in
      (if s then "-" else "") +:+ itoa n
  end.
(* [modules/agent/tools/user_model_read.go:formatFacts] *)
Definition formatFacts (facts : list UserModel.Fact) : string :=
  if decide (length facts = 0%nat) then ""
  else nl +:+ "# Known facts" +:+ nl +:+ nl +:+
       foldr (fun f acc => "- (" +:+ show_rounded (fmul (UserModel.Confidence f) (of_int 100)) +:+ "%) " +:+ UserModel.Text f +:+ nl +:+ acc) "" facts.
Definition section_text (md empty : string) : string :=
  if decide (TrimSpace md = "") then empty else md +:+ (if has_suffix nl md then "" else nl).
(* [modules/agent/tools/user_model_read.go:formatProfile] *)
Definition formatProfile (p : UserModel.UserProfile) : string :=
  "# User profile" +:+ nl +:+ nl +:+ section_text (UserModel.ProfileMD p) ("(empty — no profile written yet)" +:+ nl) +:+
  nl +:+ "# User preferences" +:+ nl +:+ nl +:+ section_text (UserModel.PreferencesMD p) ("(empty — no preferences written yet)" +:+ nl).
(* [modules/agent/tools/user_model_read.go:UserModelReadTool.Execute] *)
Definition UserModelRead (has_bus : bool) (answer : reply UserModel.UserProfile) (facts : reply (list UserModel.Fact)) (ctx : ToolCtx) : Outcome :=
  let '(tenant, _, user) := ToolCaller ctx in
  if decide (tenant = "" \/ user = "") then refuse "user_model_read: no tenant/user in tool context"
  else if negb has_bus then refuse "user_model_read: bus not configured"
  else match answer with
  | Failed e =>
      ([BProfileGet tenant user],
       if decide (e = Ipc.ErrNoHandler) then Ok "(no user model module registered)" else Err ("user_model_read: " +:+ e))
  | OtherPayload => ([BProfileGet tenant user], Err "user_model_read: unexpected payload")
  | Replied p =>
      ([BProfileGet tenant user; BFactsGet tenant user],
       Ok (formatProfile p +:+ match facts with Replied l => formatFacts l | _ => "" end))
  end.
(* [modules/agent/tools/user_model_write.go:UserModelWriteTool.Execute] *)
Definition UserModelWrite (has_bus : bool) (answer : reply ()) (ctx : ToolCtx) (input : Strings) : Outcome :=
  let '(tenant, _, user) := ToolCaller ctx in
  let section := field "section" input in
  let content := field "content" input in
  if decide (tenant = "" \/ user = "") then refuse "user_model_write: no tenant/user in tool context"
  else if negb has_bus then refuse "user_model_write: bus not configured"
  else if decide (content = "") then refuse "user_model_write: content is required"
  else if decide (UserModel.MaxSectionBytes < String.length content)%nat
  then refuse ("user_model_write: content exceeds " +:+ itoa (Z.of_nat UserModel.MaxSectionBytes) +:+ " bytes")
  else if decide (section <> "profile" /\ section <> "preferences")
  then refuse ("user_model_write: section must be " +:+ dq "profile" +:+ " or " +:+ dq "preferences" +:+ ", got " +:+ quote section)
  else
    ([BUpsert section tenant user content],
     match answer with
     | Failed e => Err (if decide (e = Ipc.ErrNoHandler) then "user_model_write: usermodel module not registered" else "user_model_write: " +:+ e)
     | _ => Ok ("ok: updated " +:+ section +:+ " section for " +:+ tenant +:+ "/" +:+ user)
     end).

(** ** The canvas *)

(** What is wrong with the node at an index. *)
Definition node_error (i : nat) (n : CanvasNode) : option error :=
  let at_node s := "canvas: node " +:+ itoa (Z.of_nat i) +:+ s in
  if decide (cn_Type n = "text" \/ cn_Type n = "markdown")
  then (if decide (cn_Text n = "") then Some (at_node (" (" +:+ cn_Type n +:+ ") requires non-empty text")) else None)
  else if decide (cn_Type n = "table")
  then (if decide (Columns n = []) then Some (at_node " (table) requires columns")
        else head (omap (fun x => x) (imap (fun r (row : list string) =>
               if decide (length row <> length (Columns n))
               then Some (at_node (" (table) row " +:+ itoa (Z.of_nat r) +:+ " has " +:+ itoa (Z.of_nat (length row)) +:+
                                   " cells, want " +:+ itoa (Z.of_nat (length (Columns n)))))
               else None) (Rows n))))
  else if decide (cn_Type n = "image") then (if decide (URL n = "") then Some (at_node " (image) requires url") else None)
  else if decide (cn_Type n = "button") then (if decide (Label n = "") then Some (at_node " (button) requires label") else None)
  else Some (at_node (" has unknown type " +:+ quote (cn_Type n))).
(* [modules/agent/tools/canvas.go:validateDoc] *)
Definition validateDoc (d : CanvasDoc) : option error :=
  if decide (cd_Session d = "") then Some "canvas: session is required"
  else if decide (length (Nodes d) = 0%nat) then Some "canvas: document must contain at least one node"
  else head (omap (fun x => x) (imap node_error (Nodes d))).
(* [modules/agent/tools/canvas.go:CanvasStore] *)
Record CanvasStore := { docs : gmap string CanvasDoc }.
(* [modules/agent/tools/canvas.go:NewCanvasStore] *)
Definition NewCanvasStore : CanvasStore := {| docs := ∅ |}.
(* [modules/agent/tools/canvas.go:canvasKey] *)
Definition canvasKey (tenant session : string) : string := tenant +:+ String "000" session.
(* [modules/agent/tools/canvas.go:CanvasStore.Put] *)
Definition Put (d : CanvasDoc) (s : CanvasStore) : CanvasStore := {| docs := <[canvasKey (cd_Tenant d) (cd_Session d) := d]> (docs s) |}.
(* [modules/agent/tools/canvas.go:CanvasStore.Get] *)
Definition Canvas_Get (tenant session : string) (s : CanvasStore) : option CanvasDoc := docs s !! canvasKey tenant session.
(** [decode] is the strict decoder: title and nodes of a document; [published] the error of the broadcast. *)
(* [modules/agent/tools/canvas.go:CanvasRenderTool.Execute] *)
Definition CanvasRender (decode : string -> Result CanvasDoc) (has_bus : bool) (published : option error) (now : time) (ctx : ToolCtx) (input : Strings)
    (s : CanvasStore) : CanvasStore * Outcome :=
  let '(tenant, _, _) := ToolCaller ctx in
  let session := field "session" input in
  if decide (tenant = "") then (s, refuse "canvas: no tenant in execution context (fail closed)")
  else if decide (session = "") then (s, refuse "canvas: session is required")
  else if decide (field "document" input = "") then (s, refuse "canvas: document is required")
  else match decode (field "document" input) with
  | Err e => (s, refuse ("canvas: invalid document JSON: " +:+ e))
  | Ok doc =>
      let doc := {| cd_Tenant := tenant; cd_Session := session; Title := Title doc; Nodes := Nodes doc; cd_UpdatedAt := now |} in
      match validateDoc doc with
      | Some e => (s, refuse e)
      | None =>
          let rendered := Ok ("Canvas rendered for session " +:+ session +:+ " (" +:+ itoa (Z.of_nat (length (Nodes doc))) +:+ " node(s))") in
          (Put doc s,
           if has_bus then ([BCanvas doc], match published with Some e => Err ("canvas: broadcast: " +:+ e) | None => rendered end)
           else ([], rendered))
      end
  end.

(** ** Channels and skills *)

(* [modules/agent/tools/send_message.go:SendMessageTool.Execute] *)
Definition SendMessage (answer : reply ()) (input : Strings) : Outcome :=
  let ch := field "channel" input in
  let chID := field "channel_id" input in
  let text := field "text" input in
  if decide (ch = "" \/ chID = "" \/ text = "") then refuse "channel, channel_id, and text are required"
  else
    ([BSend {| Channel.out_Channel := ch; Channel.out_ChannelID := chID; Channel.out_Text := text; Channel.ThreadTS := "" |}],
     match answer with Failed e => Err ("send message: " +:+ e) | _ => Ok ("Message sent to " +:+ ch +:+ " channel " +:+ chID) end).

(* [modules/agent/tools/skill_router.go:SkillRouterTool.loadSkill] *)
Definition loadSkill (answer : reply Strings) (skillName : string) : Outcome :=
  ([BSkillInstructions [skillName]],
   match answer with
   | Failed e => Err ("load skill: " +:+ e)
   | OtherPayload => Err "unexpected response type"
   | Replied instructions =>
       match instructions !! skillName with
       | Some instr => Ok ("# Skill: " +:+ skillName +:+ nl +:+ nl +:+ instr)
       | None => Err ("skill " +:+ quote skillName +:+ " not found")
       end
   end).
(* [modules/agent/tools/skill_router.go:SkillRouterTool.recordOutcome] *)
Definition recordOutcome (has_bus : bool) (now : time) (skillName : string) (input : Strings) (out : Result string) (dur : duration) : list bus_msg :=
  if has_bus
  then [BOutcome {| Curator.SkillName := skillName; Curator.Tenant := field "tenant" input; Curator.Agent := field "agent" input;
                    Curator.Success := is_Ok out; Curator.i_Error := match out with Ok _ => "" | Err e => e end;
                    Curator.DurationMs := AgentTurn.Milliseconds dur; Curator.Timestamp := now; Curator.LLMJudgeScore := None |}]
  else [].
(* [modules/agent/tools/skill_router.go:SkillRouterTool.Execute] *)
Definition SkillRouter (names : reply (list string)) (instructions : reply Strings) (now : time) (dur : duration) (input : Strings) : Outcome :=
  let action := field "action" input in
  if decide (action = "list") then
    ([BSkillList],
     match names with
     | Failed e => Err ("list skills: " +:+ e)
     | Replied (n :: l) => Ok ("Available skills:" +:+ nl +:+ "- " +:+ Join (n :: l) (nl +:+ "- "))
     | _ => Ok "No skills installed."
     end)
  else if decide (action = "load") then
    let skillName := field "skill_name" input in
    if decide (skillName = "") then refuse ("skill_name is required for 'load' action")
    else
      let '(sent, out) := loadSkill instructions skillName in
      (sent ++ recordOutcome true now skillName input out dur, out)
  else refuse ("unknown action " +:+ quote action +:+ ": use 'list' or 'load'").

(** ** The tool gateway *)

(* [modules/agent/tools/gateway.go:ToolGateway] *)
Record ToolGateway := { BaseURL : string; g_Key : string; caps : gset string }.
Fixpoint trim_slashes (fuel : nat) (s : string) : string :=
  match fuel with O => s | S f => if has_suffix "/" s then trim_slashes f (TrimSuffix s "/") else s end.
(* [modules/agent/tools/gateway.go:ToolGatewayFromEnv] *)
Definition ToolGatewayFromEnv (url key capabilities : string) : option ToolGateway :=
  let base := TrimSpace url in
  let key := TrimSpace key in
  let raw := TrimSpace capabilities in
  if decide (base = "" \/ key = "") then None
  else
    Some {| BaseURL := trim_slashes (String.length base) base; g_Key := key;
            caps := if decide (raw = "") then {["search"; "image"; "tts"; "browser"]}
                    else list_to_set (filter (fun c => c <> "") (TrimSpace <$> split ","%char raw)) |}.
(* [modules/agent/tools/gateway.go:ToolGateway.Has] *)
Definition Has (g : option ToolGateway) (capability : string) : bool :=
  match g with None => false | Some g => bool_decide (capability ∈ caps g) end.
(* [modules/agent/tools/gateway.go:ToolGateway.Endpoint] *)
Definition Endpoint (g : option ToolGateway) (capability vendorURL vendorKey : string) : string * string * bool :=
  if decide (vendorKey <> "") then (vendorURL, vendorKey, false)
  else match g with
       | Some gw => if Has g capability then (BaseURL gw, g_Key gw, true) else (vendorURL, vendorKey, false)
       | None => (vendorURL, vendorKey, false)
       end.

(** ** Whose messages they are *)

(** The tenant and the user a message speaks for, when it does for any. *)
Definition speaks_for (m : bus_msg) : option (string * option string) :=
  match m with
  | BChat _ _ t u _ | BProfileGet t u | BFactsGet t u | BUpsert _ t u _ => Some (t, Some u)
  | BContextWrite _ e => Some (n_Tenant e, None)
  | BContextRead t _ => Some (t, None)
  | BRecallSearch q => Some (Recall.sq_Tenant q, Some (Recall.sq_User q))
  | BCanvas d => Some (cd_Tenant d, None)
  | BSend _ | BSkillList | BSkillInstructions _ | BOutcome _ => None
  end.
(** What the tools that speak for their caller may send, on any input and any replies. *)
Inductive sends (ctx : ToolCtx) : list bus_msg -> Prop :=
  | sends_orchestrate dt dn has_bus traceID answer input : sends ctx (Orchestrate dt dn has_bus traceID answer ctx input).1
  | sends_delegate answer input : sends ctx (Delegate answer ctx input).1
  | sends_context has_bus answer : sends ctx (ContextRead has_bus answer ctx).1
  | sends_recall has_bus answer input : sends ctx (RecallSearch has_bus answer ctx input).1
  | sends_profile has_bus answer facts : sends ctx (UserModelRead has_bus answer facts ctx).1
  | sends_upsert has_bus answer input : sends ctx (UserModelWrite has_bus answer ctx input).1
  | sends_canvas decode has_bus published now input s : sends ctx (CanvasRender decode has_bus published now ctx input s).2.1.

Definition for_caller (tenant user : string) (m : bus_msg) : Prop :=
  match speaks_for m with Some (t, u) => t = tenant /\ t <> "" /\ (forall v, u = Some v -> v = user) | None => False end.
Ltac for_caller_solve :=
  repeat first [progress case_decide | match goal with |- context[match ?x with _ => _ end] => destruct x eqn:? end];
  cbn [fst snd refuse];
  repeat match goal with
  | |- Forall _ [] => constructor
  | |- Forall _ (_ :: _) => constructor
  end; try (split; [done|]; split; [naive_solver|]; by intros ? [=]).

Lemma Orchestrate_for_caller dt dn has_bus traceID answer ctx input tenant agentName user : ToolCaller ctx = (tenant, agentName, user) ->
  Forall (for_caller tenant user) (Orchestrate dt dn has_bus traceID answer ctx input).1.
Proof.
  intros Hc. unfold Orchestrate. rewrite Hc. case_decide; [constructor|]. destruct has_bus; [|constructor]. cbn [negb].
  case_decide; [constructor|]. destruct (dt _) as [tasks|]; [|constructor]. case_decide; [constructor|]. case_decide; [constructor|].
  destruct (parseSharedContext _ _) as [notes|]; [|constructor]. cbn [fst]. apply Forall_app. split; apply Forall_fmap, Forall_true.
  - intros kv. cbn. split; [done|]. split; [done|]. by intros ? [=].
  - intros tk. cbn. split; [done|]. split; [done|]. by intros ? [= <-].
Qed.
Lemma Delegate_for_caller answer ctx input tenant agentName user : ToolCaller ctx = (tenant, agentName, user) ->
  Forall (for_caller tenant (if decide (user = "") then "delegate" else user)) (Delegate answer ctx input).1.
Proof. intros Hc. unfold Delegate. rewrite Hc. for_caller_solve. Qed.
Lemma CanvasRender_for_caller decode has_bus published now ctx input s tenant agentName user : ToolCaller ctx = (tenant, agentName, user) ->
  Forall (for_caller tenant user) (CanvasRender decode has_bus published now ctx input s).2.1.
Proof.
  intros Hc. unfold CanvasRender. rewrite Hc. case_decide; [constructor|]. case_decide; [constructor|]. case_decide; [constructor|].
  destruct (decode _); [|constructor]. cbv zeta. destruct (validateDoc _); [constructor|]. destruct has_bus; [|constructor].
  constructor; [|constructor]. cbn. split; [done|]. split; [done|]. by intros ? [=].
Qed.
(** Fan-out is bounded: at most ten children, each a task of the model's list. *)
Definition children (sent : list bus_msg) : list string := omap (fun m => match m with BChat _ a _ _ _ => Some a | _ => None end) sent.
Lemma orchestrate_children dt dn has_bus traceID answer ctx input :
  (length (children (Orchestrate dt dn has_bus traceID answer ctx input).1) <= maxFanout)%nat.
Proof.
  unfold Orchestrate. destruct (ToolCaller ctx) as [[tenant agentName] user]. case_decide; [cbn; lia|]. destruct has_bus; [|cbn; lia]. cbn [negb].
  case_decide; [cbn; lia|]. destruct (dt _) as [tasks|]; [|cbn; lia]. case_decide; [cbn; lia|]. case_decide as Hlen; [cbn; lia|].
  destruct (parseSharedContext _ _) as [notes|]; [|cbn; lia]. cbn [fst]. unfold children. rewrite omap_app, length_app.
  assert (forall l, omap (fun m => match m with BChat _ a _ _ _ => Some a | _ => None end) (writeSharedContext tenant agentName traceID l) = []) as ->
    by (intros l; induction l as [|kv l IH]; [done|]; cbn; apply IH).
  enough (forall l : list orchestrateTask, length (omap (fun m => match m with BChat _ a _ _ _ => Some a | _ => None end)
    ((fun tk => BChat traceID (t_Agent tk) tenant user (t_Message tk)) <$> l)) = length l) as -> by (cbn; lia).
  intros l. induction l as [|tk l IH]; [done|]. cbn. f_equal. apply IH.
Qed.

(** Two tenants without the separating byte never share a key. *)
Definition nul : ascii := "000"%char.
Lemma canvasKey_inj t s t' s' : lacks nul t -> lacks nul t' -> canvasKey t s = canvasKey t' s' -> t = t' /\ s = s'.
Proof.
  unfold canvasKey. revert t'. induction t as [|c t IH]; intros [|c' t'] Ht Ht' E; cbn in E.
  - by injection E.
  - injection E as <- E. by apply lacks_cons in Ht' as [? _].
  - injection E as -> E. by apply lacks_cons in Ht as [? _].
  - injection E as -> E. apply lacks_cons in Ht as [_ Ht]. apply lacks_cons in Ht' as [_ Ht']. destruct (IH _ Ht Ht' E) as [-> ->]. done.
Qed.
Lemma canvas_others decode has_bus published now ctx input s tenant agentName user other session :
  ToolCaller ctx = (tenant, agentName, user) -> other <> tenant -> lacks nul other -> lacks nul tenant ->
  Canvas_Get other session (CanvasRender decode has_bus published now ctx input s).1 = Canvas_Get other session s.
Proof.
  intros Hc Hne Ho Ht. unfold CanvasRender. rewrite Hc. case_decide; [done|]. case_decide; [done|]. case_decide; [done|].
  destruct (decode _); [|done]. cbv zeta. destruct (validateDoc _); [done|]. cbn [fst]. unfold Canvas_Get, Put. cbn [docs cd_Tenant cd_Session].
  apply lookup_insert_ne. intros E. apply canvasKey_inj in E as [? _]; [congruence|done|done].
Qed.

(** C18 [safety]: whatever the model passes and whatever the other modules answer, each tool that hands work to
    agents, searches the past, reads or writes the user's profile, reads the shared notes or draws the canvas
    sends messages for the tenant and the user of the turn that called it alone, none at all without a tenant,
    and never to more than ten agents.  The one exception is delegate_agent in a turn that has no user: it
    speaks for a user named delegate.  A drawing leaves every other tenant's canvas as it was, provided that
    neither tenant's name holds the NUL byte that separates tenant and session in a canvas's key. *)
Theorem tools_speak_for_caller {ctx tenant agentName user} (Hc : ToolCaller ctx = (tenant, agentName, user)) {sent} (Hs : sends ctx sent) :
  (Forall (for_caller tenant user) sent \/
   user = "" /\ (exists answer input, sent = (Delegate answer ctx input).1) /\ Forall (for_caller tenant "delegate") sent) /\
  (tenant = "" -> sent = []) /\ (length (children sent) <= maxFanout)%nat /\
  (forall decode has_bus published now input s other session, other <> tenant -> lacks nul other -> lacks nul tenant ->
     Canvas_Get other session (CanvasRender decode has_bus published now ctx input s).1 = Canvas_Get other session s).
Proof.
  assert (Forall (for_caller tenant user) sent \/
    user = "" /\ (exists answer input, sent = (Delegate answer ctx input).1) /\ Forall (for_caller tenant "delegate") sent) as Hf.
  { destruct Hs as [|answer input| | | | |]; [left; by eapply Orchestrate_for_caller|..|left; by eapply CanvasRender_for_caller].
    { pose proof (Delegate_for_caller answer ctx input _ _ _ Hc) as H. case_decide; [right; eauto|by left]. }
    all: left; unfold ContextRead, RecallSearch, UserModelRead, UserModelWrite; rewrite Hc; for_caller_solve. }
  split; [done|]. split; [|split; [|by intros; eapply canvas_others]].
  - intros ->. destruct sent as [|m sent]; [done|].
    assert (for_caller "" user m \/ for_caller "" "delegate" m) as Hm
      by (destruct Hf as [[? _]%Forall_cons|(_ & _ & [? _]%Forall_cons)]; tauto).
    unfold for_caller in Hm. destruct (speaks_for m) as [[t u]|]; [|by destruct Hm]. destruct Hm as [(-> & ? & _)|(-> & ? & _)]; done.
  - destruct Hs; [apply orchestrate_children|..]; [unfold Delegate|unfold ContextRead|unfold RecallSearch|unfold UserModelRead|unfold UserModelWrite|unfold CanvasRender];
      rewrite Hc; repeat first [progress case_decide | match goal with |- context[match ?x with _ => _ end] => destruct x end]; unfold maxFanout; cbn; lia.
Qed.

(** The gateway's key goes to the gateway only, a vendor's to the vendor. *)
Lemma Endpoint_keys g capability vendorURL vendorKey url key via : Endpoint g capability vendorURL vendorKey = (url, key, via) ->
  if via then exists gw, g = Some gw /\ vendorKey = "" /\ capability ∈ caps gw /\ url = BaseURL gw /\ key = g_Key gw
  else url = vendorURL /\ key = vendorKey.
Proof.
  unfold Endpoint. case_decide; [by intros [= <- <- <-]|]. destruct g as [gw|]; [|by intros [= <- <- <-]].
  destruct (Has (Some gw) capability) eqn:E; intros [= <- <- <-]; [|done]. exists gw. apply bool_decide_eq_true in E.
  repeat split; try done.
Qed.

(** The curator's record of a skill names the tenant the model says. *)
Example outcome_forged : (SkillRouter OtherPayload (Replied {["s" := "do it"]}) 7 0
    (<["action" := "load"]> (<["skill_name" := "s"]> {["tenant" := "other"]}))).1 =
  [BSkillInstructions ["s"];
   BOutcome {| Curator.SkillName := "s"; Curator.Tenant := "other"; Curator.Agent := ""; Curator.Success := true; Curator.i_Error := "";
               Curator.DurationMs := 0; Curator.Timestamp := 7; Curator.LLMJudgeScore := None |}].
Proof. vm_compute. reflexivity. Qed.

Definition demo_ctx : ToolCtx := WithToolCaller "acme" "lead" "ann" background.
Definition demo_tasks (_ : string) : Result (list orchestrateTask) :=
  Ok [{| t_Tenant := "other"; t_Agent := "a"; t_Message := "m" |}; {| t_Tenant := ""; t_Agent := "b"; t_Message := "n" |}].
Definition demo_fan := Orchestrate demo_tasks (fun _ => Ok []) true "orch-1" (fun i => if decide (i = 0%nat) then Replied "done" else Failed "boom")
  demo_ctx {["tasks" := "[]"]}.
Example demo_fans : demo_fan = ([BChat "orch-1" "a" "acme" "ann" "m"; BChat "orch-1" "b" "acme" "ann" "n"],
  Ok ("## Agent: a" +:+ nl +:+ "done" +:+ nl +:+ nl +:+ "---" +:+ nl +:+ nl +:+
      "## Agent: b" +:+ nl +:+ "Error: boom" +:+ nl +:+ nl +:+ nl +:+ "---" +:+ nl +:+ nl)).
Proof. vm_compute. reflexivity. Qed.
Lemma tools_speak_for_caller_witness : length demo_fan.1 = 2%nat /\
  (Forall (for_caller "acme" "ann") demo_fan.1 \/ "ann" = "").
Proof.
  split; [vm_compute; reflexivity|].
  destruct (tools_speak_for_caller (ctx := demo_ctx) (tenant := "acme") (agentName := "lead") (user := "ann") eq_refl (sent := demo_fan.1)) as [H _].
  - apply sends_orchestrate.
  - destruct H as [H|[H _]]; [left; exact H|right; exact H].
Defined.
(** An anonymous turn delegates as the user delegate. *)
Example anonymous_delegates : (Delegate (Replied "") (WithToolCaller "acme" "lead" "" background)
    (<["agent" := "a"]> {["message" := "m"]})).1 = [BChat "" "a" "acme" "delegate" "m"].
Proof. vm_compute. reflexivity. Qed.
(** A tenant whose name holds the separator shares a canvas with another. *)
Example canvas_keys_collide : canvasKey "a" (String nul "b") = canvasKey (String "a" (String nul "")) "b".
Proof. reflexivity. Qed.
