(* ===== verification/ToolShell.v ===== *)
(** * Tools that run commands

    [src/modules/agent/tools]: shell.go and platform.go with the backends of shell_backend*.go, kubectl.go and
    code.go.  A tool runs at most one command; which program, with which arguments, is what is modelled.  What
    a command prints, whether docker is there, the remote services and the clock are arguments. *)
From S2P Require Import Prelude GoStr GoText AgentSession.
From S2P Require Tenants ToolPlan.
Local Open Scope go_scope.
Local Open Scope Z_scope.

Notation Strings := (gmap string string).
Definition field (k : string) (input : Strings) : string := default "" (input !! k).
(** A program with its arguments; what it printed on its two streams and how it failed. *)
Record Command := { prog : string; args : list string }.
Record Output := { stdout : string; stderr : string; run_error : option error }.
(** A tool's answer: text that goes with its error. *)
Notation Answer := (string * option error)%type (only parsing).

(** ** Output *)

(* [modules/agent/tools/shell_backend.go:maxShellOutputBytes] *)
Definition maxShellOutputBytes : nat := Z.to_nat 65536.
(* [modules/agent/tools/shell_backend.go:mergeOutput] *)
Definition mergeOutput (stdout stderr : string) : string :=
  if decide (stderr = "") then stdout else (if decide (stdout = "") then "" else stdout +:+ nl) +:+ stderr.
(* [modules/agent/tools/shell_backend.go:truncateOutput] *)
Definition truncateOutput (output : string) : string :=
  if decide (maxShellOutputBytes < String.length output)%nat
  then take_bytes maxShellOutputBytes output +:+ nl +:+ "... (truncated)" else output.
Definition finish (out : Output) : Answer :=
  (truncateOutput (mergeOutput (stdout out) (stderr out)),
   match run_error out with Some e => Some ("command failed: " +:+ e) | None => None end).
(* [modules/agent/tools/platform.go:shellInvocation] *)
Definition shellInvocation (goos command : string) : Command :=
  if decide (goos = "windows")
  then {| prog := "powershell"; args := ["-NoProfile"; "-NonInteractive"; "-Command"; command] |}
  else {| prog := "bash"; args := ["-c"; command] |}.

(** ** Backends *)

(* [modules/agent/tools/shell_backend.go:ShellExecPolicy] *)
Record ShellExecPolicy := { x_tenant : string; x_backend : string; x_image : string; x_timeout : duration }.
(* [modules/agent/tools/shell_backend.go:ShellBackend] *)
Inductive ShellBackend := InProcessBackend | DockerBackend (sb : option Tenants.DockerSandbox).
(** The backend of each tenant that has a policy; a sandbox is a value, shared when two policies agree. *)
Fixpoint assign (policies : list ShellExecPolicy) (m : gmap string ShellBackend) : Result (gmap string ShellBackend) :=
  match policies with
  | [] => Ok m
  | p :: policies =>
      if decide (x_backend p = "docker")
      then assign policies (<[x_tenant p := DockerBackend (Some (Tenants.NewDockerSandbox (x_image p) (x_timeout p)))]> m)
      else if decide (x_backend p = "" \/ x_backend p = "inprocess") then assign policies (<[x_tenant p := InProcessBackend]> m)
      else Err ("shell_exec_policies: unknown backend " +:+ quote (x_backend p) +:+ " for tenant " +:+ quote (x_tenant p))
  end.
(* [modules/agent/tools/shell_backend.go:NewDockerBackendSelector] *)
Definition NewDockerBackendSelector (dockerAvailable : bool) (policies : list ShellExecPolicy) : Result (string -> ShellBackend) :=
  if existsb (fun p => bool_decide (x_backend p = "docker")) policies && negb dockerAvailable then Ok (fun _ => InProcessBackend)
  else m <-? assign policies ∅ ;; Ok (fun tenant => default InProcessBackend (m !! tenant)).

Section Shell.
(** What a command does when it is run, and the operating system. *)
Context (exec : Command -> Output) (goos : string).

(** [ran] is the command that was run. *)
Record Run := { ran : option Command; answer : Answer }.
Definition refuse (e : error) : Run := {| ran := None; answer := ("", Some e) |}.
Definition run (c : Command) : Run := {| ran := Some c; answer := finish (exec c) |}.
(* [modules/agent/tools/shell_backend.go:InProcessBackend.Run@31-52] *)
Definition InProcess_Run (command : string) : Run := run (shellInvocation goos command).
(* [modules/agent/tools/shell_backend.go:DockerBackend.Run] *)
Definition Docker_Run (sb : option Tenants.DockerSandbox) (nanos : Z) (tenant command : string) : Run :=
  match sb with
  | None => refuse "docker backend not initialized"
  | Some ds => run {| prog := "docker"; args := Tenants.run_args ds nanos tenant command |}
  end.
(* [modules/agent/tools/shell_backend_singularity.go:singularityArgs] *)
Definition singularityArgs (image command : string) : list string := ["exec"; image; "bash"; "-c"; command].
(** [found] is whether the binary is on the host. *)
(* [modules/agent/tools/shell_backend_singularity.go:SingularityBackend.Run] *)
Definition Singularity_Run (image binary : string) (found : option error) (command : string) : Run :=
  if decide (image = "") then refuse "singularity backend: no image configured"
  else
    let bin := if decide (binary = "") then "singularity" else binary in
    match found with
    | Some e => refuse ("singularity backend: " +:+ quote bin +:+ " not found on host: " +:+ e)
    | None => run {| prog := bin; args := singularityArgs image command |}
    end.
(* [modules/agent/tools/shell.go:ShellTool.selectBackend] *)
Definition selectBackend (selector : option (string -> ShellBackend)) (tenant : string) : ShellBackend :=
  match selector with Some f => f tenant | None => InProcessBackend end.
(* [modules/agent/tools/shell.go:ShellTool.Execute] *)
Definition Shell_Execute (selector : option (string -> ShellBackend)) (nanos : Z) (ctx : ToolCtx) (input : Strings) : Run :=
  let command := field "command" input in
  if decide (command = "") then refuse "command is required"
  else
    let '(tenant, _, _) := ToolCaller ctx in
    match selectBackend selector tenant with
    | InProcessBackend => InProcess_Run command
    | DockerBackend sb => Docker_Run sb nanos tenant command
    end.

(** ** kubectl *)

Context (ToLower : string -> string).
(* [modules/agent/tools/kubectl.go:readOnlyCommands] *)
Definition readOnlyCommands : list string := ["get"; "describe"; "logs"; "top"; "version"; "cluster-info"; "api-resources"; "explain"; "auth"].
Definition flag_refused (flag : string) : bool :=
  let lower := ToLower flag in Contains lower "delete" || Contains lower "edit" || Contains lower "apply" || Contains lower "create".
Definition optional (s : string) : list string := if decide (s = "") then [] else [s].
(* [modules/agent/tools/kubectl.go:KubectlTool.Execute] *)
Definition Kubectl_Execute (input : Strings) : Run :=
  let command := field "command" input in
  let ns := if decide (field "namespace" input = "") then "default" else field "namespace" input in
  let flags := Fields (field "flags" input) in
  if decide (command = "") then refuse "command is required"
  else if decide (command ∉ readOnlyCommands) then
    refuse ("command " +:+ quote command +:+
            " not allowed — only read-only commands: get, describe, logs, top, version, cluster-info, api-resources, explain")
  else match List.find flag_refused flags with
  | Some flag => refuse ("flag " +:+ quote flag +:+ " not allowed in read-only mode")
  | None =>
      let c := {| prog := "kubectl";
                  args := [command] ++ optional (field "resource" input) ++ optional (field "name" input) ++
                          (if decide (command = "version" \/ command = "cluster-info" \/ command = "api-resources") then [] else ["-n"; ns]) ++ flags |} in
      let out := exec c in
      {| ran := Some c;
         answer := (truncateOutput (mergeOutput (stdout out) (stderr out)), match run_error out with Some e => Some ("kubectl: " +:+ e) | None => None end) |}
  end.

(** ** The code interpreter *)

(** The two shims' text; the temporary directory; the bridge's address when it serves. *)
Inductive shim := pythonRPCShim | jsRPCShim.
Context (shim_text : shim -> string) (MkdirTemp : Result string) (serve : Result string).
Definition is_python (lang : string) : bool := bool_decide (lang = "python" \/ lang = "python3").
Definition is_js (lang : string) : bool := bool_decide (lang = "javascript" \/ lang = "js" \/ lang = "node").
(* [modules/agent/tools/rpc_bridge.go:rpcShimFor] *)
Definition rpcShimFor (lang : string) : option shim :=
  if is_python lang then Some pythonRPCShim else if is_js lang then Some jsRPCShim else None.
Record Script := { s_run : Run; s_file : option (string * string); s_env : list string }.
Definition no_script (e : error) : Script := {| s_run := refuse e; s_file := None; s_env := [] |}.
(** The code with the shim in front and what its environment says, when the bridge serves this caller. *)
Definition with_bridge (bridge : option ToolPlan.ToolRPCBridge) (lang code : string) : string * list string :=
  match bridge, rpcShimFor lang, serve with
  | Some b, Some s, Ok url => (shim_text s +:+ nl +:+ code, ["CYNTR_RPC_URL=" +:+ url; "CYNTR_RPC_TOKEN=" +:+ ToolPlan.token b])
  | _, _, _ => (code, [])
  end.
(** [rpc] is whether the tool was given the bridge's wiring, and whether it audits. *)
(* [modules/agent/tools/code.go:CodeInterpreterTool.Execute] *)
Definition Code_Execute (rpc : option bool) (random : option string) (ctx : ToolCtx) (input : Strings) : Script :=
  let lang := field "language" input in
  let code := field "code" input in
  if decide (lang = "" \/ code = "") then no_script "language and code are required"
  else
    let '(tenant, agentName, user) := ToolCaller ctx in
    let bridge := match rpc with
      | Some audited => if decide (tenant = "") then None else Some (ToolPlan.newBridge random tenant agentName user audited)
      | None => None
      end in
    let '(code, env) := with_bridge bridge lang code in
    match MkdirTemp with
    | Err e => no_script ("create temp dir: " +:+ e)
    | Ok dir =>
        let script c file :=
          let out := exec c in
          let merged := if decide (stderr out = "") then stdout out
                        else (if decide (stdout out = "") then "" else stdout out +:+ nl) +:+ "stderr: " +:+ stderr out in
          {| s_run := {| ran := Some c;
               answer := (if decide (maxShellOutputBytes < String.length merged)%nat
                          then take_bytes maxShellOutputBytes merged +:+ nl +:+ "...(truncated)" else merged,
                          match run_error out with Some e => Some ("execution error: " +:+ e) | None => None end) |};
             s_file := Some (file, code); s_env := env |} in
        if is_python lang then script {| prog := "python3"; args := [dir +:+ "/script.py"] |} (dir +:+ "/script.py")
        else if is_js lang then script {| prog := "node"; args := [dir +:+ "/script.js"] |} (dir +:+ "/script.js")
        else no_script ("unsupported language: " +:+ lang +:+ " (supported: python, javascript)")
    end.
End Shell.

(** ** Serverless backends *)

Section Serverless.
(** Calls of one backend by several turns at once: each looks the tenant's handle up, and when it has none that
    is fresh, asks for one, which is stored when it comes. *)
(* [modules/agent/tools/shell_backend_serverless.go:cachedHandle] *)
Record cachedHandle := { handle : string; lastUsed : time }.
(* [modules/agent/tools/shell_backend_serverless.go:ServerlessBackend] *)
Record ServerlessBackend := { ttl : duration; cache : gmap string cachedHandle }.
(* [modules/agent/tools/shell_backend_serverless.go:NewServerlessBackend] *)
Definition NewServerlessBackend (t : duration) : ServerlessBackend := {| ttl := if decide (t <= 0) then 10 * Minute else t; cache := ∅ |}.
(* [modules/agent/tools/shell_backend_serverless.go:ServerlessBackend.touch] *)
Definition touch (key : string) (now : time) (b : ServerlessBackend) : ServerlessBackend :=
  match cache b !! key with
  | Some c => {| ttl := ttl b; cache := <[key := {| handle := handle c; lastUsed := now |}]> (cache b) |}
  | None => b
  end.
(** The first half of acquiring: the warm handle, or none. *)
(* [modules/agent/tools/shell_backend_serverless.go:ServerlessBackend.acquire@79-89] *)
Definition acquire_warm (key : string) (now : time) (b : ServerlessBackend) : ServerlessBackend * option string :=
  match cache b !! key with
  | Some c => if decide (Sub now (lastUsed c) <= ttl b) then (touch key now b, Some (handle c)) else (b, None)
  | None => (b, None)
  end.
(** The second: the handle provisioned meanwhile is kept. *)
(* [modules/agent/tools/shell_backend_serverless.go:ServerlessBackend.acquire@91-99] *)
Definition acquire_cold (key h : string) (now : time) (b : ServerlessBackend) : ServerlessBackend :=
  {| ttl := ttl b; cache := <[key := {| handle := h; lastUsed := now |}]> (cache b) |}.
(** Byte by byte; [string] of a byte above 127 is a rune of two bytes. *)
Definition string_of_byte (c : ascii) : string :=
  let n := N_of_ascii c in
  if decide (n < 128)%N then String c "" else String (ascii_of_N (192 + n / 64)) (String (ascii_of_N (128 + n mod 64)) "").
Fixpoint replace_handle (fuel : nat) (tmpl h : string) : string :=
  match fuel, tmpl with
  | S fuel, String c rest =>
      if has_prefix "{handle}" tmpl then h +:+ replace_handle fuel (drop_bytes 8 tmpl) h
      else string_of_byte c +:+ replace_handle fuel rest h
  | _, _ => ""
  end.
(* [modules/agent/tools/shell_backend_serverless.go:replaceHandle] *)
Definition replaceHandle (tmpl h : string) : string := replace_handle (String.length tmpl) tmpl h.
(** What the client's calls answer: a handle, and the output of a command with its error. *)
Context (Provision : string -> Result string) (Exec : string -> string -> string * option error) (Provider : string).
(** One call with nothing else under way. *)
(* [modules/agent/tools/shell_backend_serverless.go:ServerlessBackend.Run] *)
Definition Serverless_Run (now later : time) (tenant command : string) (b : ServerlessBackend) : ServerlessBackend * (string * option error) :=
  let exec_on (b : ServerlessBackend) h :=
    let '(out, e) := Exec h command in
    (b, (truncateOutput out, match e with Some e => Some ("command failed: " +:+ e) | None => None end)) in
  match acquire_warm tenant now b with
  | (b, Some h) => exec_on b h
  | (b, None) =>
      match Provision tenant with
      | Err e => (b, ("", Some (Provider +:+ " backend: provision: " +:+ e)))
      | Ok h => exec_on (acquire_cold tenant h later b) h
      end
  end.

(** The backend, the provisionings under way and done, and the commands run, each under a handle. *)
Record Pool := { backend : ServerlessBackend; waiting : list string; provisioned : list (string * string); runs : list (string * string) }.
Inductive pool_step : Pool -> Pool -> Prop :=
  | step_warm p key now b h : acquire_warm key now (backend p) = (b, Some h) ->
      pool_step p {| backend := b; waiting := waiting p; provisioned := provisioned p; runs := runs p ++ [(key, h)] |}
  | step_ask p key now b : acquire_warm key now (backend p) = (b, None) ->
      pool_step p {| backend := b; waiting := waiting p ++ [key]; provisioned := provisioned p; runs := runs p |}
  | step_fail p key l1 l2 : waiting p = l1 ++ key :: l2 ->
      pool_step p {| backend := backend p; waiting := l1 ++ l2; provisioned := provisioned p; runs := runs p |}
  | step_cold p key h now l1 l2 : waiting p = l1 ++ key :: l2 ->
      pool_step p {| backend := acquire_cold key h now (backend p); waiting := l1 ++ l2;
                     provisioned := provisioned p ++ [(key, h)]; runs := runs p ++ [(key, h)] |}.
Definition empty_pool (t : duration) : Pool := {| backend := NewServerlessBackend t; waiting := []; provisioned := []; runs := [] |}.
End Serverless.

(** ** Where a tenant's commands run *)

Lemma assign_last policies : forall m m' p l1 l2, policies = l1 ++ p :: l2 -> (forall q, q ∈ l2 -> x_tenant q <> x_tenant p) ->
  x_backend p = "docker" -> assign policies m = Ok m' ->
  m' !! x_tenant p = Some (DockerBackend (Some (Tenants.NewDockerSandbox (x_image p) (x_timeout p)))).
Proof.
  assert (forall l t m m', (forall q, q ∈ l -> x_tenant q <> t) -> assign l m = Ok m' -> m' !! t = m !! t) as Hkeep.
  { intros l t. induction l as [|q l IH]; intros m m' Hl; cbn [assign]; [by intros [= <-]|].
    assert (x_tenant q <> t) as Hq by (apply Hl; by left). assert (forall q, q ∈ l -> x_tenant q <> t) as Hl' by (intros r Hr; apply Hl; by right).
    case_decide; [intros Ha; rewrite (IH _ _ Hl' Ha); by rewrite lookup_insert_ne|].
    case_decide; [intros Ha; rewrite (IH _ _ Hl' Ha); by rewrite lookup_insert_ne|done]. }
  induction policies as [|q policies IH]; intros m m' p l1 l2 E Hl2 Hd; [by destruct l1|]. destruct l1 as [|q' l1].
  - injection E as -> ->. cbn [assign]. rewrite decide_True by done. intros Ha. rewrite (Hkeep _ _ _ _ Hl2 Ha). by rewrite lookup_insert_eq.
  - injection E as -> ->. cbn [assign]. case_decide; [by eauto|]. case_decide; [by eauto|done].
Qed.

(** Where docker is there, the commands of a tenant whose last shell policy names docker run in a
    container of that policy's image and nowhere else: the one program started is docker, with no network, the
    memory and CPU limits, a read-only file system and the tenant's name in the container's, the command its last
    argument; and a command never runs that is empty. *)
Lemma docker_tenants_contained {exec goos policies sel nanos ctx input p l1 l2}
    (Hsel : NewDockerBackendSelector true policies = Ok sel) (Hp : policies = l1 ++ p :: l2)
    (Hlast : forall q, q ∈ l2 -> x_tenant q <> x_tenant p) (Hd : x_backend p = "docker") (Ht : (ToolCaller ctx).1.1 = x_tenant p) c :
  ran (Shell_Execute exec goos (Some sel) nanos ctx input) = Some c ->
  field "command" input <> "" /\ prog c = "docker" /\
  args c = ["run"; "--rm"; "--name"; "cyntr-" +:+ x_tenant p +:+ "-" +:+ itoa nanos; "--network"; "none"; "--memory"; "256m"; "--cpus"; "0.5";
            "--read-only"; "--tmpfs"; "/tmp:rw,size=64m"; (if decide (x_image p = "") then "alpine:latest" else x_image p);
            "sh"; "-c"; field "command" input].
Proof.
  unfold NewDockerBackendSelector in Hsel. rewrite andb_false_r in Hsel. apply rbind_Ok in Hsel as (m & Hm & [= <-]).
  pose proof (assign_last _ _ _ _ _ _ Hp Hlast Hd Hm) as Hlook. unfold Shell_Execute. case_decide as Hc; [done|].
  destruct (ToolCaller ctx) as [[tenant agentName] user] eqn:E. cbn in Ht. subst tenant. cbn [selectBackend]. rewrite Hlook. cbn.
  by intros [= <-].
Qed.

(** Without docker every tenant's commands run on the host, policy or not. *)
Example docker_fallback : ran (Shell_Execute (fun _ => {| stdout := ""; stderr := ""; run_error := None |}) "linux"
    (match NewDockerBackendSelector false [{| x_tenant := "acme"; x_backend := "docker"; x_image := ""; x_timeout := 0 |}] with Ok f => Some f | Err _ => None end)
    7 (WithToolCaller "acme" "a" "u" background) {["command" := "id"]}) = Some {| prog := "bash"; args := ["-c"; "id"] |}.
Proof. vm_compute. reflexivity. Qed.

(** ** What kubectl may be asked *)

Lemma kubectl_read_only exec ToLower input c : ran (Kubectl_Execute exec ToLower input) = Some c ->
  prog c = "kubectl" /\ exists command rest, args c = command :: rest /\ command ∈ readOnlyCommands /\
    forall flag, flag ∈ Fields (field "flags" input) -> flag_refused ToLower flag = false.
Proof.
  unfold Kubectl_Execute. case_decide; [done|]. case_decide as Hr; [done|]. destruct (List.find _ _) eqn:Ef; [done|]. intros [= <-].
  split; [done|]. exists (field "command" input). eexists. split; [done|]. split; [done|]. intros flag Hin.
  apply (find_none _ _ Ef). by apply list_elem_of_In.
Qed.
(** [auth reconcile] writes, and is let through. *)
Example kubectl_writes : (ran (Kubectl_Execute (fun _ => {| stdout := ""; stderr := ""; run_error := None |}) (fun s => s)
    (<["command" := "auth"]> (<["resource" := "reconcile"]> {["flags" := "-f http://h/rbac.yaml"]})))) =
  Some {| prog := "kubectl"; args := ["auth"; "reconcile"; "-n"; "default"; "-f"; "http://h/rbac.yaml"] |}.
Proof. vm_compute. reflexivity. Qed.

(** A script gets the bridge's token only under a tenant, and the code it runs is the model's after the shim. *)
Lemma script_env exec shim_text tmp serve rpc random ctx input : s_env (Code_Execute exec shim_text tmp serve rpc random ctx input) <> [] ->
  (ToolCaller ctx).1.1 <> "" /\ exists audited url, rpc = Some audited /\ serve = Ok url /\
    s_env (Code_Execute exec shim_text tmp serve rpc random ctx input) =
      ["CYNTR_RPC_URL=" +:+ url; "CYNTR_RPC_TOKEN=Bearer " +:+ ToolPlan.randToken random].
Proof.
  unfold Code_Execute. case_decide; [done|]. destruct (ToolCaller ctx) as [[tenant agentName] user]. cbn [fst].
  unfold with_bridge. intros Hne.
  assert (exists audited url, rpc = Some audited /\ tenant <> "" /\ serve = Ok url /\ rpcShimFor (field "language" input) <> None) as
    (audited & url & -> & Ht & -> & Hs).
  { destruct rpc as [audited|]; [case_decide; [|destruct (rpcShimFor _); [destruct serve as [url|]; [by exists audited, url|]|]]|];
      exfalso; apply Hne; destruct tmp; cbn [s_env no_script]; try done; by repeat case_match. }
  split; [done|]. exists audited, url. split; [done|]. split; [done|]. rewrite decide_False in Hne |- * by done.
  destruct (rpcShimFor _); [|done]. destruct tmp as [dir|]; [|done]. by destruct (is_python _); [|destruct (is_js _)].
Qed.

(** ** Handles *)

(** Every handle kept or used under a tenant was provisioned for that tenant. *)
Definition pool_ok (p : Pool) : Prop :=
  (forall key c, cache (backend p) !! key = Some c -> (key, handle c) ∈ provisioned p) /\ (forall r, r ∈ runs p -> r ∈ provisioned p).
Lemma acquire_warm_cache key now b b' o : acquire_warm key now b = (b', o) ->
  (forall k c, cache b' !! k = Some c -> exists c0, cache b !! k = Some c0 /\ handle c = handle c0) /\
  (forall h, o = Some h -> exists c0, cache b !! key = Some c0 /\ h = handle c0 /\ Sub now (lastUsed c0) <= ttl b).
Proof.
  unfold acquire_warm. destruct (cache b !! key) as [c0|] eqn:E; [case_decide as Ht|]; intros [= <- <-].
  - split; [|intros h [= <-]; by exists c0]. intros k c. unfold touch. rewrite E. cbn. destruct (decide (k = key)) as [->|Hne].
    + rewrite lookup_insert_eq. intros [= <-]. by exists c0.
    + rewrite lookup_insert_ne by done. by exists c.
  - split; [by intros k c ?; exists c|done].
  - split; [by intros k c ?; exists c|done].
Qed.
Lemma pool_step_ok p p' : pool_ok p -> pool_step p p' -> pool_ok p'.
Proof.
  intros [Hc Hr] Hs. destruct Hs as [p key now b h Hw|p key now b Hw|p key l1 l2 Hw|p key h now l1 l2 Hw]; unfold pool_ok; cbn [backend provisioned runs].
  - apply acquire_warm_cache in Hw as [Hkeep Hh]. split.
    + intros k c Hk. destruct (Hkeep _ _ Hk) as (c0 & Hk0 & ->). by apply Hc.
    + intros r [Hin|Hin]%elem_of_app; [by apply Hr|]. apply list_elem_of_singleton in Hin as ->.
      destruct (Hh _ eq_refl) as (c0 & Hk0 & -> & _). by apply Hc.
  - apply acquire_warm_cache in Hw as [Hkeep _]. split; [|done]. intros k c Hk. destruct (Hkeep _ _ Hk) as (c0 & Hk0 & ->). by apply Hc.
  - done.
  - split.
    + intros k c. cbn [acquire_cold cache]. destruct (decide (k = key)) as [->|Hne].
      * rewrite lookup_insert_eq. intros [= <-]. apply elem_of_app. right. by left.
      * rewrite lookup_insert_ne by done. intros Hk. apply elem_of_app. left. by apply Hc.
    + intros r [Hin|Hin]%elem_of_app; apply elem_of_app; [left; by apply Hr|by right].
Qed.
(** However the calls of several tenants interleave, a tenant's commands run only under handles provisioned for it. *)
Lemma handles_never_shared t p key h : rtc pool_step (empty_pool t) p -> (key, h) ∈ runs p -> (key, h) ∈ provisioned p.
Proof.
  intros Hp. assert (pool_ok p) as [_ H].
  { apply (rtc_invariant pool_step pool_ok (empty_pool t)); [|intros ? ? ? ?; by eapply pool_step_ok|done]. split; [done|by intros r ?%elem_of_nil]. }
  apply H.
Qed.

Definition demo_policies : list ShellExecPolicy :=
  [{| x_tenant := "acme"; x_backend := "inprocess"; x_image := ""; x_timeout := 0 |};
   {| x_tenant := "acme"; x_backend := "docker"; x_image := "debian"; x_timeout := 0 |};
   {| x_tenant := "other"; x_backend := ""; x_image := ""; x_timeout := 0 |}].
Definition demo_sel : string -> ShellBackend := match NewDockerBackendSelector true demo_policies with Ok f => f | Err _ => fun _ => InProcessBackend end.
Definition demo_exec (_ : Command) : Output := {| stdout := "out"; stderr := "err"; run_error := None |}.
Definition demo_shell := Shell_Execute demo_exec "linux" (Some demo_sel) 7 (WithToolCaller "acme" "a" "u" background) {["command" := "id"]}.
Example demo_contained : answer demo_shell = ("out" +:+ nl +:+ "err", None).
Proof. vm_compute. reflexivity. Qed.
Lemma docker_tenants_contained_witness : exists c, ran demo_shell = Some c /\ prog c = "docker".
Proof.
  eexists. split; [reflexivity|].
  refine (proj1 (proj2 (docker_tenants_contained (exec := demo_exec) (goos := "linux") (policies := demo_policies) (sel := demo_sel) (nanos := 7)
    (ctx := WithToolCaller "acme" "a" "u" background) (input := {["command" := "id"]})
    (p := {| x_tenant := "acme"; x_backend := "docker"; x_image := "debian"; x_timeout := 0 |})
    (l1 := [{| x_tenant := "acme"; x_backend := "inprocess"; x_image := ""; x_timeout := 0 |}])
    (l2 := [{| x_tenant := "other"; x_backend := ""; x_image := ""; x_timeout := 0 |}]) eq_refl eq_refl _ eq_refl eq_refl _ eq_refl))).
  intros q ->%list_elem_of_singleton. discriminate.
Defined.
