(* ===== verification/ToolQuery.v ===== *)
(** * Tools that query data: JSON, CSV and databases

    [src/modules/agent/tools]: json_query.go, csv_query.go and database.go.  Decoding and showing JSON, reading
    CSV, folding case, showing floats, the resolver and the databases themselves are arguments. *)
From S2P Require Import Prelude GoStr GoText Utf8 Float64 NetGuard.
From Stdlib Require Import SpecFloat.
Local Open Scope go_scope.
Local Open Scope Z_scope.

Notation Strings := (gmap string string).
Definition field (k : string) (input : Strings) : string := default "" (input !! k).

(** ** Paths into JSON *)

(** A decoded value; of two fields with one name the last counts. *)
Inductive any := ANull | ABool (b : bool) | ANum (f : float64) | AStr (s : string) | AArr (l : list any) | AObj (l : list (string * any)).
Fixpoint member (k : string) (l : list (string * any)) : option any :=
  match l with
  | [] => None
  | (k', v) :: l => match member k l with Some w => Some w | None => if decide (k' = k) then Some v else None end
  end.
Definition type_name (v : any) : string :=
  match v with
  | ANull => "<nil>" | ABool _ => "bool" | ANum _ => "float64" | AStr _ => "string" | AArr _ => "[]interface {}" | AObj _ => "map[string]interface {}"
  end.
(** What ranging over a string and putting its runes together again makes of it. *)
Fixpoint runes_loop (fuel : nat) (s : string) : string :=
  match fuel with
  | O => ""
  | S fuel =>
      if decide (s = "") then ""
      else
        let d := DecodeRune s in
        (if decide (d = (RuneError, 1%nat)) then String "239" (String "191" (String "189" "")) else take_bytes d.2 s) +:+ runes_loop fuel (drop_bytes d.2 s)
  end.
Definition runes (s : string) : string := runes_loop (String.length s) s.
(* [modules/agent/tools/json_query.go:splitPath] *)
Definition splitPath (path : string) : list string := filter (fun p => p <> "") (split "."%char (runes path)).
Definition index_in (key part : string) (index : Z) (current : any) : Result any :=
  match current with
  | AArr arr =>
      if decide (index < 0 \/ Z.of_nat (length arr) <= index)
      then Err ("index " +:+ itoa index +:+ " out of range (length " +:+ itoa (Z.of_nat (length arr)) +:+ ")")
      else Ok (nth (Z.to_nat index) arr ANull)
  | v => Err ("expected array at " +:+ quote part +:+ ", got " +:+ type_name v)
  end.
(** [strconv.Atoi] refuses what does not fit. *)
Definition atoi (s : string) : option Z := match Atoi s with Some n => if decide (in_int64 n) then Some n else None | None => None end.
(** One part that is not a length; the value is a step further, or an error. *)
Definition query_part (part : string) (current : any) : Result any :=
  match cut "["%char part with
  | Some (key, rest) =>
      match atoi (TrimSuffix rest "]") with
      | None => Err ("invalid array index: " +:+ part)
      | Some index =>
          if decide (key = "") then index_in key part index current
          else match current with
               | AObj m => index_in key part index (default ANull (member key m))
               | v => Err ("expected object at " +:+ quote key +:+ ", got " +:+ type_name v)
               end
      end
  | None =>
      match current with
      | AObj m => match member part m with Some v => Ok v | None => Err ("key " +:+ quote part +:+ " not found") end
      | v => Err ("expected object at " +:+ quote part +:+ ", got " +:+ type_name v)
      end
  end.
Definition length_of (current : any) : Result any :=
  let n k := Ok (ANum (of_int (Z.of_nat k))) in
  match current with
  | AArr l => n (length l)
  | AObj m => n (length (remove_dups m.*1))
  | AStr s => n (String.length s)
  | v => Err ("cannot get length of " +:+ type_name v)
  end.
Fixpoint query_parts (parts : list string) (current : any) : Result any :=
  match parts with
  | [] => Ok current
  | part :: parts =>
      if decide (part = "length" \/ part = "len") then length_of current
      else v <-? query_part part current ;; query_parts parts v
  end.
(* [modules/agent/tools/json_query.go:queryPath] *)
Definition queryPath (data : any) (path : string) : Result any := query_parts (splitPath path) data.
(** [int64(f)], the least integer when it does not fit. *)
Definition to_int64 (f : float64) : Z :=
  match f with
  | S754_zero _ => 0
  | S754_finite s m e =>
      let n := if decide (0 <= e) then Z.pos m * 2 ^ e else Z.pos m / 2 ^ (- e) in
      let n := if s then - n else n in
      if decide (in_int64 n) then n else minInt64
  | _ => minInt64
  end.
Section JSON.
(** [json.Unmarshal], [json.MarshalIndent] and [strconv.FormatFloat] in the shortest form. *)
Context (decode : string -> Result any) (indent : any -> string) (FormatFloat : float64 -> string).
Definition show (v : any) : string :=
  match v with
  | AStr s => s
  | ANum f => if SFeqb f (of_int (to_int64 f)) then itoa (to_int64 f) else FormatFloat f
  | ABool b => if b then "true" else "false"
  | ANull => "null"
  | v => indent v
  end.
(* [modules/agent/tools/json_query.go:JSONQueryTool.Execute] *)
Definition JSONQuery (input : Strings) : Result string :=
  if decide (field "json_data" input = "") then Err "json_data is required"
  else
    data <-? wrap_err "invalid JSON" (decode (field "json_data" input)) ;;
    if decide (field "path" input = "") then Ok (indent data)
    else (v <-? queryPath data (field "path" input) ;; Ok (show v)).
End JSON.

(** ** CSV *)

Section CSV.
(** [csv.Reader.ReadAll], case folding, [strconv.ParseFloat], [%.2f]. *)
Context (ReadAll : string -> Result (list (list string))) (EqualFold : string -> string -> bool) (ToLower : string -> string).
Context (ParseFloat : string -> option float64) (fmt2 : float64 -> string).

(* [modules/agent/tools/csv_query.go:findColumn] *)
Definition findColumn (headers : list string) (name : string) : option nat :=
  fst <$> list_find (fun h => EqualFold (TrimSpace h) (TrimSpace name) = true) headers.
Definition table_row (cells : list string) : string := "| " +:+ Join cells " | " +:+ " |" +:+ nl.
Definition table_head (headers : list string) : string :=
  table_row headers +:+ "|" +:+ foldr (fun _ acc => " --- |" +:+ acc) "" headers +:+ nl.
(* [modules/agent/tools/csv_query.go:formatCSVResult] *)
Definition formatCSVResult (headers : list string) (rows : list (list string)) : string :=
  if decide (rows = []) then "No matching rows."
  else table_head headers +:+ foldr (fun r acc => table_row r +:+ acc) "" rows +:+ nl +:+ itoa (Z.of_nat (length rows)) +:+ " rows".
Definition cell (i : nat) (row : list string) : string := default "" (row !! i).
(** The order rows are sorted in by a column, up or down. *)
Definition row_order (desc : bool) (i : nat) (x y : list string) : Prop :=
  if desc then string_le (cell i y) (cell i x) else string_le (cell i x) (cell i y).
(** The order of [sort.Float64s]: what is not a number first. *)
Definition float_order (x y : float64) : Prop := x = S754_nan \/ fle x y = true.
Definition fsum (l : list float64) : float64 := foldl fadd fzero l.
Definition stats {sorter : SliceSorter float_order} (col : string) (l : list float64) : string :=
  let values := sortSlice float_order l in
  let n := of_int (Z.of_nat (length values)) in
  let mean := fdiv (fsum values) n in
  let square v := let d := SFsub 53 1024 v mean in fmul d d in
  let stddev := SFsqrt 53 1024 (fdiv (fsum (square <$> values)) n) in
  "Column: " +:+ col +:+ nl +:+ "Count: " +:+ itoa (Z.of_nat (length values)) +:+ nl +:+ "Min: " +:+ fmt2 (nth 0 values fzero) +:+ nl +:+
  "Max: " +:+ fmt2 (nth (length values - 1) values fzero) +:+ nl +:+ "Mean: " +:+ fmt2 mean +:+ nl +:+ "StdDev: " +:+ fmt2 stddev +:+ nl +:+
  "Median: " +:+ fmt2 (nth (length values / 2) values fzero).
(* [modules/agent/tools/csv_query.go:CSVQueryTool.Execute] *)
Definition CSVQuery {floats : SliceSorter float_order} {sorter : forall desc i, SliceSorter (row_order desc i)} (input : Strings) : Result string :=
  let action := field "action" input in
  let col := field "column" input in
  if decide (field "csv_data" input = "" \/ action = "") then Err "csv_data and action are required"
  else
    records <-? wrap_err "parse CSV" (ReadAll (field "csv_data" input)) ;;
    match records with
    | [] => Err "empty CSV"
    | headers :: rows =>
        let column suffix (k : nat -> Result string) :=
          match findColumn headers col with Some i => k i | None => Err ("column " +:+ quote col +:+ " not found" +:+ suffix) end in
        if decide (action = "headers") then Ok ("Columns: " +:+ Join headers ", " +:+ nl +:+ "Rows: " +:+ itoa (Z.of_nat (length rows)))
        else if decide (action = "count") then Ok (itoa (Z.of_nat (length rows)) +:+ " rows")
        else if decide (action = "stats") then
          column (" (available: " +:+ Join headers ", " +:+ ")") (fun i =>
            let values := omap (fun row : list string => row !! i ≫= fun c => ParseFloat (TrimSpace c)) rows in
            Ok (if decide (length values = 0%nat) then "Column " +:+ quote col +:+ ": no numeric values found" else stats col values))
        else if decide (action = "filter") then
          column "" (fun i => Ok (formatCSVResult headers (filter (fun row : list string =>
            (match row !! i with Some c => Contains (ToLower c) (ToLower (field "value" input)) | None => false end) = true) rows)))
        else if decide (action = "sort") then
          column "" (fun i => Ok (formatCSVResult headers (sortSlice (row_order (bool_decide (field "value" input = "desc")) i) rows)))
        else if decide (action = "select") then column "" (fun i => Ok (Join (omap (fun row : list string => row !! i) rows) nl))
        else Err ("unknown action " +:+ quote action +:+ ": use headers, count, stats, filter, sort, select")
    end.
End CSV.

(** ** Databases *)

(* [modules/agent/tools/database.go:dbMaxRows] *)
Definition dbMaxRows : nat := 100.
(* [modules/agent/tools/database.go:dbMaxOutputSize] *)
Definition dbMaxOutputSize : nat := Z.to_nat (64 * 1024).
(** [strings.Trim] with a set of bytes. *)
Fixpoint trim_front (set s : string) : string :=
  match s with "" => "" | String c s' => if contains_byte c set then trim_front set s' else s end.
Fixpoint trim_back (set s : string) : string :=
  match s with
  | "" => ""
  | String c s' => let t := trim_back set s' in if decide (t = "" /\ contains_byte c set = true) then "" else String c t
  end.
Definition Trim (s set : string) : string := trim_back set (trim_front set s).
(** The words a query may not contain, in capitals. *)
Definition forbidden : list string := ["INSERT "; "UPDATE "; "DELETE "; "DROP "; "ALTER "; "CREATE "; "TRUNCATE "; "EXEC "].
Definition nonblank (p : string) : Prop := TrimSpace p <> "".
#[export] Instance nonblank_dec p : Decision (nonblank p).
Proof. unfold nonblank. apply _. Defined.
Definition semicolon : ascii := ";"%char.
(** Whether a query is refused for holding several statements. *)
(* [modules/agent/tools/database.go:DatabaseTool.Execute@157-170] *)
Definition several_statements (query : string) : bool :=
  match cut semicolon query with
  | None => false
  | Some (before, _) =>
      if decide (TrimSpace (TrimSuffix (TrimSpace query) ";") = TrimSpace before) then false
      else bool_decide (1 < length (filter nonblank (split semicolon (TrimSpace query))))%nat
  end.

Section Database.
(** CYNTR_SSRF_ALLOW_PRIVATE; [url.Parse], as the host part; [net.ParseIP], [net.LookupIP], [IP.String]; capitals;
    what the database answers: connecting, beginning, the columns with the rows, each a list of cells, [None] for NULL. *)
Context (AllowPrivate : bool) (url_host : string -> option string) (ParseIP : string -> option IP) (LookupIP : string -> option (list IP)).
Context (ip_text : IP -> string) (ToUpper : string -> string).
Context (connect begin_tx : string -> string -> option error)
  (query_rows : string -> string -> string -> Result (list string * list (Result (list (option string))))).

Definition strip_port (h : string) : string :=
  match find_last ":" h with Some (a, b) => if Contains b "]" then h else a | None => h end.
(* [modules/agent/tools/database.go:postgresHosts] *)
Definition postgresHosts (dsn : string) : list string :=
  let trimmed := TrimSpace dsn in
  if has_prefix "postgres://" trimmed || has_prefix "postgresql://" trimmed then
    match url_host trimmed with
    | None => []
    | Some host =>
        let hostPart := match find_last "@" host with Some (_, b) => b | None => host end in
        (fun hp => Trim (strip_port hp) "[]") <$> split ","%char hostPart
    end
  else
    match List.find (fun f => match cut "="%char f with Some (k, _) => bool_decide (k = "host") | None => false end) (Fields trimmed) with
    | Some f => match cut "="%char f with Some (_, v) => split ","%char (Trim v ("'" +:+ String dquote "")) | None => [] end
    | None => []
    end.
(** What is wrong with one host. *)
Definition host_error (host : string) : option error :=
  let host := TrimSpace host in
  if decide (host = "") then Some "ssrf guard: postgres DSN must specify an explicit host"
  else if has_prefix "/" host then Some "ssrf guard: unix-socket postgres connections are not allowed"
  else
    let check ips := match first_private ips with
      | Some ip => Some ("ssrf guard: postgres host resolves to non-public address " +:+ ip_text ip)
      | None => None
      end in
    match ParseIP host with
    | Some ip => check [ip]
    | None => match LookupIP host with Some ips => check ips | None => Some ("ssrf guard: cannot resolve postgres host " +:+ quote host) end
    end.
(* [modules/agent/tools/database.go:validatePostgresHost] *)
Definition validatePostgresHost (dsn : string) : option error :=
  if AllowPrivate then None
  else
    let hosts := postgresHosts dsn in
    if decide (hosts = []) then Some "ssrf guard: postgres DSN must specify an explicit host" else head (omap host_error hosts).
(** The table's rows, under the limits on rows and on the bytes written. *)
Fixpoint table_rows (count : nat) (written : string) (rows : list (Result (list (option string)))) : Result (nat * string) :=
  match rows with
  | [] => Ok (count, written)
  | row :: rows =>
      if decide (dbMaxRows <= count)%nat
      then Ok (count, written +:+ nl +:+ "[Truncated: showing " +:+ itoa (Z.of_nat dbMaxRows) +:+ " of more rows]")
      else match row with
      | Err e => Err ("scan row: " +:+ e)
      | Ok values =>
          let written := written +:+ table_row (default "NULL" <$> values) in
          if decide (dbMaxOutputSize < String.length written)%nat then Ok (S count, written +:+ nl +:+ "[Output truncated at 64KB]")
          else table_rows (S count) written rows
      end
  end.
(** The queries that reached the database, and the answer. *)
(* [modules/agent/tools/database.go:DatabaseTool.Execute] *)
Definition Database_Execute (input : Strings) : list string * Result string :=
  let driver := field "driver" input in
  let dsn := field "dsn" input in
  let query := field "query" input in
  let normalized := TrimSpace (ToUpper query) in
  if decide (driver = "" \/ dsn = "" \/ query = "") then ([], Err "driver, dsn, and query are required")
  else if decide (driver <> "sqlite" /\ driver <> "postgres") then ([], Err ("unsupported driver " +:+ quote driver +:+ ": use sqlite or postgres"))
  else match (if decide (driver = "postgres") then validatePostgresHost dsn else None) with
  | Some e => ([], Err e)
  | None =>
      if negb (has_prefix "SELECT" normalized) && negb (has_prefix "WITH" normalized) then ([], Err "only SELECT queries are allowed")
      else match List.find (Contains normalized) forbidden with
      | Some kw => ([], Err ("query contains forbidden keyword: " +:+ TrimSpace kw))
      | None =>
          if several_statements query then ([], Err "multiple statements are not allowed")
          else match connect driver dsn, begin_tx driver dsn with
          | Some e, _ => ([], Err ("connect: " +:+ e))
          | None, Some e => ([], Err ("begin transaction: " +:+ e))
          | None, None =>
              ([query],
               match query_rows driver dsn query with
               | Err e => Err ("query: " +:+ e)
               | Ok (cols, rows) =>
                   r <-? table_rows 0 (table_head cols) rows ;; Ok (if decide (r.1 = 0%nat) then "Query returned no rows." else r.2)
               end)
          end
      end
  end.
End Database.

(** ** At most one statement *)

Fixpoint count_byte (c : ascii) (s : string) : nat := match s with "" => 0 | String d s => (if decide (d = c) then 1 else 0) + count_byte c s end.
Lemma count_byte_app c s t : count_byte c (s +:+ t) = (count_byte c s + count_byte c t)%nat.
Proof. induction s as [|d s IH]; [done|]. rewrite str_app_cons. cbn [count_byte]. rewrite IH. lia. Qed.
Lemma count_lacks c s : count_byte c s = 0%nat <-> lacks c s.
Proof.
  induction s as [|d s IH]; [done|]. rewrite lacks_cons, <-IH. cbn [count_byte]. case_decide; split; [lia|naive_solver|naive_solver lia|intros [_ ?]; lia].
Qed.
(** White space is no semicolon. *)
Lemma space_prefix_none s : count_byte semicolon (take_bytes (space_prefix s) s) = 0%nat.
Proof.
  assert (N_of_ascii semicolon = 59%N) as E59 by reflexivity.
  assert (forall c, c = semicolon -> N_of_ascii c = 59%N) as Hc by (by intros c ->).
  destruct s as [|a s]; [done|]. cbn [space_prefix]. case_decide as Ha; [cbn; rewrite decide_False; [done|]; intros E; specialize (Hc _ E); lia|].
  destruct s as [|b s]; [done|]. case_decide as Hb; [cbn; rewrite !decide_False; [done|..]; intros E; specialize (Hc _ E); lia|].
  destruct s as [|c s]; [done|]. case_decide as Hd; [cbn; rewrite !decide_False; [done|..]; intros E; specialize (Hc _ E); lia|]. done.
Qed.
Lemma count_trim_left fuel : forall s, count_byte semicolon (trim_left fuel s) = count_byte semicolon s.
Proof.
  induction fuel as [|fuel IH]; intros s; [done|]. cbn [trim_left]. destruct (space_prefix s) as [|n] eqn:E; [done|]. rewrite IH.
  rewrite <-(take_drop_bytes (S n) s) at 2. rewrite count_byte_app. pose proof (space_prefix_none s) as H. rewrite E in H. rewrite H. done.
Qed.
Lemma take_whole n s : (String.length s <= n)%nat -> take_bytes n s = s.
Proof. revert n. induction s as [|c s IH]; intros [|n] H; cbn in H; try done; try lia. rewrite take_bytes_S. by rewrite IH by lia. Qed.
Lemma space_suffix_none s : count_byte semicolon (drop_bytes (String.length s - space_suffix s) s) = 0%nat.
Proof.
  assert (forall n, bool_decide (n <= String.length s)%nat && bool_decide (space_prefix (drop_bytes (String.length s - n) s) = n) = true ->
    count_byte semicolon (drop_bytes (String.length s - n) s) = 0%nat) as H.
  { intros n [Hn Hp]%andb_true_iff. apply bool_decide_eq_true in Hn, Hp. pose proof (space_prefix_none (drop_bytes (String.length s - n) s)) as H0.
    rewrite Hp, take_whole in H0; [done|]. rewrite length_drop_bytes. lia. }
  unfold space_suffix. destruct (_ && _) eqn:E1; [by apply H|]. destruct (bool_decide (2 <= _)%nat && _) eqn:E2; [by apply H|].
  destruct (bool_decide (3 <= _)%nat && _) eqn:E3; [by apply H|]. rewrite Nat.sub_0_r.
  replace (drop_bytes _ s) with ""; [done|]. symmetry. rewrite <-(str_app_nil_r s) at 2. apply drop_bytes_app.
Qed.
Lemma count_trim_right fuel : forall s, count_byte semicolon (trim_right fuel s) = count_byte semicolon s.
Proof.
  induction fuel as [|fuel IH]; intros s; [done|]. cbn [trim_right]. destruct (space_suffix s) as [|n] eqn:E; [done|]. rewrite IH.
  pose proof (space_suffix_none s) as H. rewrite E in H. pose proof (f_equal (count_byte semicolon) (take_drop_bytes (String.length s - S n) s)) as Hs.
  rewrite count_byte_app, H in Hs. lia.
Qed.
Lemma count_TrimSpace s : count_byte semicolon (TrimSpace s) = count_byte semicolon s.
Proof. unfold TrimSpace. cbv zeta. by rewrite count_trim_right, count_trim_left. Qed.

Lemma TrimSuffix_or s p : TrimSuffix s p = s \/ s = TrimSuffix s p +:+ p.
Proof.
  unfold TrimSuffix. destruct (has_suffix p s) eqn:E; [right|by left]. unfold has_suffix in E.
  apply andb_true_iff in E as [Hl E]. apply bool_decide_eq_true in Hl, E. rewrite <-E at 2. symmetry. apply take_drop_bytes.
Qed.
Lemma cut_before c s a b : cut c s = Some (a, b) -> lacks c a.
Proof.
  revert a b. induction s as [|d s IH]; intros a b; [done|]. cbn [cut]. case_decide; [by intros [= <- <-]|].
  destruct (cut c s) as [[a' b']|]; [|done]. intros [= <- <-]. apply lacks_cons. split; [done|by eapply IH].
Qed.
Lemma lacks_nil c : lacks c "".
Proof. done. Qed.
(** What is not refused holds one statement, with or without the semicolon that ends it. *)
Lemma one_statement query : several_statements query = false -> (length (filter nonblank (split semicolon (TrimSpace query))) <= 1)%nat.
Proof.
  assert (forall l : list string, (length (filter nonblank l) <= length l)%nat) as Hlen by (intros l; apply length_filter).
  unfold several_statements. destruct (cut semicolon query) as [[before after]|] eqn:Ec.
  - case_decide as Heq; [|intros H; apply bool_decide_eq_false in H; lia]. intros _.
    assert (count_byte semicolon (TrimSuffix (TrimSpace query) ";") = 0%nat) as H0.
    { rewrite <-count_TrimSpace, Heq, count_TrimSpace. apply count_lacks. by eapply cut_before. }
    apply count_lacks in H0. destruct (TrimSuffix_or (TrimSpace query) ";") as [E|E].
    + rewrite <-E, split_lacking by done. apply (Hlen [_]).
    + rewrite E. change ";" with (String semicolon ""). rewrite split_at by done. rewrite split_lacking by done.
      rewrite filter_cons. case_decide; cbn; rewrite ?filter_cons, ?filter_nil; case_decide as Hb; cbn; try lia; by destruct Hb.
  - intros _. assert (lacks semicolon (TrimSpace query)) as Hl by (apply count_lacks; rewrite count_TrimSpace; by apply count_lacks).
    rewrite split_lacking by done. apply (Hlen [_]).
Qed.

(** ** What reaches a database *)

(** A host the guard lets through: named, no socket, and every address it is or resolves to public. *)
Definition host_public (ParseIP : string -> option IP) (LookupIP : string -> option (list IP)) (host : string) : Prop :=
  TrimSpace host <> "" /\ has_prefix "/" (TrimSpace host) = false /\
  match ParseIP (TrimSpace host) with
  | Some ip => IsPublicIP ip = true
  | None => exists ips, LookupIP (TrimSpace host) = Some ips /\ Forall (fun ip => IsPublicIP ip = true) ips
  end.
Lemma first_private_none ips : first_private ips = None -> Forall (fun ip => IsPublicIP ip = true) ips.
Proof. induction ips as [|ip ips IH]; [constructor|]. cbn. destruct (IsPublicIP ip) eqn:E; [|done]. intros H. constructor; [done|by apply IH]. Qed.
Lemma host_error_none ParseIP LookupIP ip_text host : host_error ParseIP LookupIP ip_text host = None -> host_public ParseIP LookupIP host.
Proof.
  unfold host_error, host_public. case_decide; [done|]. destruct (has_prefix "/" _); [done|]. intros Hn. split; [done|]. split; [done|].
  destruct (ParseIP _) as [ip|].
  - cbn in Hn. by destruct (IsPublicIP ip).
  - destruct (LookupIP _) as [ips|]; [|done]. destruct (first_private ips) eqn:E; [done|]. exists ips. split; [done|]. by apply first_private_none.
Qed.
Lemma head_omap_none {A B} (f : A -> option B) (l : list A) x : head (omap f l) = None -> x ∈ l -> f x = None.
Proof.
  intros H Hx. destruct (omap f l) as [|y l'] eqn:E; [|done]. destruct (f x) as [y|] eqn:Ey; [|done].
  assert (y ∈ omap f l) as Hy by (apply list_elem_of_omap; by exists x). rewrite E in Hy. by apply elem_of_nil in Hy.
Qed.
Lemma table_rows_bound rows : forall count written n text, (count <= dbMaxRows)%nat -> table_rows count written rows = Ok (n, text) -> (n <= dbMaxRows)%nat.
Proof.
  induction rows as [|row rows IH]; intros count written n text Hc; cbn [table_rows]; [by intros [= <- _]|].
  case_decide; [by intros [= <- _]|]. destruct row as [values|]; [|done]. case_decide; [intros [= <- _]; lia|]. apply IH. lia.
Qed.

(** C23 [safety]: a query the model writes reaches a database only as one statement that begins with SELECT or WITH and
    in which, in any case, none of the eight writing words is followed by a blank; a PostgreSQL server only when, unless
    private addresses are allowed, the hosts the guard reads from its name (those of an address, or of the first host=
    of a keyword string) are at least one, none empty or a local socket, each a public address or a name all of
    whose addresses are public.  A writing word before a line break passes ([newline_passes]), and so does a second
    host= ([second_host]). *)
Theorem database_guarded {AllowPrivate url_host ParseIP LookupIP ip_text ToUpper connect begin_tx query_rows input q}
    (Hq : q ∈ (Database_Execute AllowPrivate url_host ParseIP LookupIP ip_text ToUpper connect begin_tx query_rows input).1) :
  q = field "query" input /\
  (has_prefix "SELECT" (TrimSpace (ToUpper q)) = true \/ has_prefix "WITH" (TrimSpace (ToUpper q)) = true) /\
  (forall kw, kw ∈ ["INSERT "; "UPDATE "; "DELETE "; "DROP "; "ALTER "; "CREATE "; "TRUNCATE "; "EXEC "] ->
     Contains (TrimSpace (ToUpper q)) kw = false) /\
  (length (filter nonblank (split semicolon (TrimSpace q))) <= 1)%nat /\
  (field "driver" input = "sqlite" \/
   field "driver" input = "postgres" /\
     (AllowPrivate = false -> postgresHosts url_host (field "dsn" input) <> [] /\
        forall host, host ∈ postgresHosts url_host (field "dsn" input) -> host_public ParseIP LookupIP host)).
Proof.
  revert Hq. unfold Database_Execute. case_decide; [by intros ?%elem_of_nil|]. case_decide as Hdrv; [by intros ?%elem_of_nil|].
  destruct (if decide (field "driver" input = "postgres") then _ else _) as [e|] eqn:Ev; [by intros ?%elem_of_nil|].
  destruct (negb _ && negb _) eqn:Esel; [by intros ?%elem_of_nil|]. destruct (List.find _ _) as [kw|] eqn:Ekw; [by intros ?%elem_of_nil|].
  destruct (several_statements _) eqn:Em; [by intros ?%elem_of_nil|].
  destruct (connect (field "driver" input) _); [by intros ?%elem_of_nil|]. destruct (begin_tx (field "driver" input) _); [by intros ?%elem_of_nil|]. intros ->%list_elem_of_singleton.
  split; [done|]. split; [|split; [|split]].
  - apply andb_false_iff in Esel as [Esel|Esel]; apply negb_false_iff in Esel; [by left|by right].
  - intros kw Hkw. apply (find_none _ _ Ekw). by apply list_elem_of_In.
  - by apply one_statement.
  - destruct (decide (field "driver" input = "postgres")) as [Hpg|Hpg].
    + right. split; [done|]. intros ->. unfold validatePostgresHost in Ev. case_decide as Hne; [done|]. split; [done|].
      intros host Hin. eapply host_error_none. eapply head_omap_none; [exact Ev|done].
    + left. destruct (decide (field "driver" input = "sqlite")); [done|]. by destruct Hdrv.
Qed.

(** At most a hundred rows are shown. *)
Lemma table_limited cols rows n text : table_rows 0 (table_head cols) rows = Ok (n, text) -> (n <= 100)%nat.
Proof. intros H. apply (table_rows_bound _ _ _ _ _ (Nat.le_0_l _) H). Qed.

(** Only the first "host=" of a DSN is looked at. *)
Example second_host : postgresHosts (fun _ => None) "host=db.example.com host=127.0.0.1 dbname=x" = ["db.example.com"].
Proof. vm_compute. reflexivity. Qed.
(** Only a writing word with a blank after it is looked for: one before a line break is not seen. *)
Example newline_passes : let q := "WITH X AS (DELETE" +:+ nl +:+ "FROM T RETURNING *) SELECT * FROM X" in
  (Database_Execute false (fun _ => None) (fun _ => None) (fun _ => None) (fun _ => "") (fun s => s)
   (fun _ _ => None) (fun _ _ => None) (fun _ _ _ => Ok (["n"], [])) (<["driver" := "sqlite"]> (<["dsn" := "f.db"]> {["query" := q]}))).1 = [q].
Proof. vm_compute. reflexivity. Qed.
(** A column whose name ends in a writing word is refused. *)
Example last_update_refused : (Database_Execute false (fun _ => None) (fun _ => None) (fun _ => None) (fun _ => "") (fun s => s)
   (fun _ _ => None) (fun _ _ => None) (fun _ _ _ => Ok (["n"], [])) (<["driver" := "sqlite"]> (<["dsn" := "f.db"]> {["query" := "SELECT LAST_UPDATE FROM T"]}))) =
  ([], Err "query contains forbidden keyword: UPDATE").
Proof. vm_compute. reflexivity. Qed.
Example query_path : queryPath (AObj [("items", AArr [AObj [("id", AStr "a")]; AObj [("id", AStr "b")]])]) "items[1].id" = Ok (AStr "b").
Proof. vm_compute. reflexivity. Qed.

Definition demo_input : Strings := <["driver" := "postgres"]> (<["dsn" := "host='db.example.com' user=u"]> {["query" := "SELECT 1;"]}).
Definition demo_lookup (h : string) : option (list IP) := if decide (h = "db.example.com") then Some [[93; 184; 216; 34]] else None.
Definition demo_query := Database_Execute false (fun _ => None) (fun _ => None) demo_lookup (fun _ => "ip") (fun s => s)
   (fun _ _ => None) (fun _ _ => None) (fun _ _ _ => Ok (["n"], [Ok [Some "1"]; Ok [None]])) demo_input.
Example demo_answers : demo_query = (["SELECT 1;"], Ok ("| n |" +:+ nl +:+ "| --- |" +:+ nl +:+ "| 1 |" +:+ nl +:+ "| NULL |" +:+ nl)).
Proof. vm_compute. reflexivity. Qed.
Lemma database_guarded_witness : "SELECT 1;" ∈ demo_query.1 /\
  forall host, host ∈ postgresHosts (fun _ => None) (field "dsn" demo_input) -> host_public (fun _ => None) demo_lookup host.
Proof.
  assert ("SELECT 1;" ∈ demo_query.1) as Hin by (rewrite demo_answers; by left). split; [done|].
  destruct (database_guarded Hin) as (_ & _ & _ & _ & [Hd|[_ H]]); [vm_compute in Hd; discriminate|]. exact (proj2 (H eq_refl)).
Defined.
