(* ===== verification/ToolKnowledge.v ===== *)
(** * The knowledge base

    [src/modules/agent/tools]: knowledge.go and embeddings.go.  The documents' table by the effect of each
    statement, the chunks of a document, keyword and semantic search.  The full-text engine's matches and their
    rank, case folding, the logarithm, showing floats, the clock, and the error of a statement are arguments. *)
From S2P Require Import Prelude Calendar GoStr GoText Float64 AgentSession.
From Stdlib Require Import SpecFloat.
Local Open Scope go_scope.
Local Open Scope Z_scope.

Notation Strings := (gmap string string).
Definition field (k : string) (input : Strings) : string := default "" (input !! k).

(** ** Embeddings *)

Section Embeddings.
(** Case folding; [math.Log]. *)
Context (ToLower : string -> string) (Log : float64 -> float64).

Definition word_char (c : ascii) : bool :=
  let n := N_of_ascii c in bool_decide ((97 <= n <= 122)%N) || bool_decide ((48 <= n <= 57)%N).
(** The word being read, backwards is not needed: it grows at its end. *)
Fixpoint tokens_of (word s : string) : list string :=
  let keep := if decide (2 < String.length word)%nat then [word] else [] in
  match s with
  | "" => keep
  | String c s => if word_char c then tokens_of (word +:+ String c "") s else keep ++ tokens_of "" s
  end.
(* [modules/agent/tools/embeddings.go:tokenize] *)
Definition tokenize (text : string) : list string := tokens_of "" (ToLower text).
(** A word's index and its weight. *)
(* [modules/agent/tools/embeddings.go:SimpleEmbedding] *)
Record SimpleEmbedding := { vocabulary : gmap string nat; idf : gmap string float64 }.
(* [modules/agent/tools/embeddings.go:NewSimpleEmbedding] *)
Definition NewSimpleEmbedding : SimpleEmbedding := {| vocabulary := ∅; idf := ∅ |}.
(** The number of documents each word is in. *)
Definition doc_freq (documents : list string) : gmap string nat :=
  foldr (fun doc m => foldr (fun w (m : gmap string nat) => <[w := S (default 0%nat (m !! w))]> m) m (remove_dups (tokenize doc))) ∅ documents.
(** [visit] is the order in which the words are visited; words of an earlier vocabulary stay. *)
(* [modules/agent/tools/embeddings.go:SimpleEmbedding.BuildVocabulary] *)
Definition BuildVocabulary (visit : gmap string nat -> list (string * nat)) (documents : list string) (e : SimpleEmbedding) : SimpleEmbedding :=
  let docCount := of_int (Z.of_nat (length documents)) in
  let words := imap pair (visit (doc_freq documents)) in
  {| vocabulary := foldl (fun m w => <[w.2.1 := w.1]> m) (vocabulary e) words;
     idf := foldl (fun m w => <[w.2.1 := Log (fdiv docCount (of_int (Z.of_nat w.2.2 + 1)))]> m) (idf e) words |}.
Definition count_in (w : string) (l : list string) : nat := length (filter (eq w) l).
(** [None] for a nil vector.  An index past the vocabulary's size is a panic, shown as [Err]. *)
(* [modules/agent/tools/embeddings.go:SimpleEmbedding.Embed] *)
Definition Embed (e : SimpleEmbedding) (text : string) : Result (option (list float64)) :=
  let n := size (vocabulary e) in
  if decide (n = 0%nat) then Ok None
  else
    let tokens := tokenize text in
    let vec := replicate n fzero in
    if decide (tokens = []) then Ok (Some vec)
    else
      let tokenCount := of_int (Z.of_nat (length tokens)) in
      let known := omap (fun w => (fun i => (w, i)) <$> vocabulary e !! w) (remove_dups tokens) in
      if existsb (fun wi => bool_decide (n <= wi.2)%nat) known then Err "runtime error: index out of range"
      else
        Ok (Some (foldl (fun v wi => <[wi.2 := fmul (fdiv (of_int (Z.of_nat (count_in wi.1 tokens))) tokenCount) (default fzero (idf e !! wi.1))]> v) vec known)).
Definition dot (a b : list float64) : float64 := foldl (fun acc xy => fadd acc (fmul xy.1 xy.2)) fzero (zip a b).
(* [modules/agent/tools/embeddings.go:CosineSimilarity] *)
Definition CosineSimilarity (a b : list float64) : float64 :=
  if decide (length a <> length b \/ length a = 0%nat) then fzero
  else
    let normA := dot a a in
    let normB := dot b b in
    if SFeqb normA fzero || SFeqb normB fzero then fzero
    else fdiv (dot a b) (fmul (SFsqrt 53 1024 normA) (SFsqrt 53 1024 normB)).
End Embeddings.

(** ** Chunks *)

Definition blank_line : string := nl +:+ nl.
Fixpoint split_on (fuel : nat) (sep s : string) : list string :=
  match fuel with
  | O => [s]
  | S fuel => match find sep s with Some (a, b) => a :: split_on fuel sep b | None => [s] end
  end.
(** The paragraphs one by one: the chunks so far, backwards, and the one being written. *)
Definition chunk_step (chunkSize overlap : nat) (st : list string * string) (para : string) : list string * string :=
  let '(chunks, current) := st in
  let '(chunks, current) :=
    if decide (chunkSize < String.length current + String.length para /\ 0 < String.length current)%nat
    then (current :: chunks,
          if decide (0 < overlap /\ overlap < String.length current)%nat
          then drop_bytes (String.length current - overlap) current +:+ blank_line else "")
    else (chunks, current) in
  (chunks, current +:+ para +:+ blank_line).
(* [modules/agent/tools/knowledge.go:ChunkDocument] *)
Definition ChunkDocument (content : string) (chunkSize overlap : nat) : list string :=
  if decide (String.length content <= chunkSize)%nat then [content]
  else
    let '(chunks, current) := foldl (chunk_step chunkSize overlap) ([], "") (split_on (String.length content) blank_line content) in
    reverse chunks ++ (if decide (0 < String.length current)%nat then [TrimSpace current] else []).

(** ** The table *)

Record Row := { k_tenant : string; k_id : string; k_title : string; k_content : string; k_tags : string }.
Record Meta := { m_title : string; m_source : string; m_tags : string; m_created : string }.
(** A row of the index each time one is put in: nothing is unique there, so none is replaced. *)
(* [modules/agent/tools/knowledge.go:NewKnowledgeTool@26-55] *)
Record Knowledge := { rows : list Row; meta : gmap string Meta; embedder : SimpleEmbedding }.
(** [LIKE], where a percent sign stands for any text and an underscore for any byte; case counts for nothing. *)
Definition fold_byte (c : ascii) : ascii := let n := N_of_ascii c in if decide ((65 <= n <= 90)%N) then ascii_of_N (n + 32) else c.
Fixpoint like (pat s : string) : bool :=
  match pat with
  | "" => bool_decide (s = "")
  | String p pat' =>
      if decide (p = "%"%char) then
        (fix any s := like pat' s || match s with "" => false | String _ s' => any s' end) s
      else match s with
           | "" => false
           | String c s' => (bool_decide (p = "_"%char) || bool_decide (fold_byte p = fold_byte c)) && like pat' s'
           end
  end.

Section Tool.
Context (ToLower : string -> string) (Log : float64 -> float64) (visit : gmap string nat -> list (string * nat)).
(** The full-text engine: the rank of the row at a position, when it matches; [%.0f]. *)
Context (rank : list Row -> string -> nat -> option Z) (fmt0 : float64 -> string).

Definition chunk_rows (tenant id title tags : string) (chunks : list string) : list Row :=
  imap (fun i c => {| k_tenant := tenant; k_id := id +:+ "_chunk_" +:+ itoa (Z.of_nat i); k_title := title; k_content := c; k_tags := tags |}) chunks.
(** [failed] is the first chunk whose statement fails, with the error; the rows before it stay. *)
(* [modules/agent/tools/knowledge.go:KnowledgeTool.IngestForTenant] *)
Definition IngestForTenant (failed : option (nat * error)) (now : time) (tenant id title content tags : string) (k : Knowledge) : Knowledge * option error :=
  let all := chunk_rows tenant id title tags (ChunkDocument content 500 100) in
  match failed with
  | Some (n, e) =>
      if decide (n < length all)%nat then ({| rows := rows k ++ take n all; meta := meta k; embedder := embedder k |}, Some e)
      else ({| rows := rows k ++ all; meta := <[id := {| m_title := title; m_source := ""; m_tags := tags; m_created := RFC3339 now |}]> (meta k); embedder := embedder k |}, None)
  | None =>
      ({| rows := rows k ++ all; meta := <[id := {| m_title := title; m_source := ""; m_tags := tags; m_created := RFC3339 now |}]> (meta k); embedder := embedder k |}, None)
  end.
(* [modules/agent/tools/knowledge.go:KnowledgeTool.Ingest] *)
Definition Ingest (failed : option (nat * error)) (now : time) (id title content tags : string) (k : Knowledge) : Knowledge * option error :=
  IngestForTenant failed now "" id title content tags k.
(** Every tenant's documents. *)
(* [modules/agent/tools/knowledge.go:KnowledgeTool.rebuildEmbeddings] *)
Definition rebuildEmbeddings (fault : option error) (k : Knowledge) : Knowledge :=
  match fault with
  | Some _ => k
  | None => if decide (length (rows k) = 0%nat) then k
            else {| rows := rows k; meta := meta k; embedder := BuildVocabulary ToLower Log visit (k_content <$> rows k) (embedder k) |}
  end.
(* [modules/agent/tools/knowledge.go:KnowledgeTool.Delete] *)
Definition Delete (id : string) (k : Knowledge) : Knowledge :=
  {| rows := filter (fun r => ~ (k_id r = id \/ like (id +:+ "_chunk_%") (k_id r) = true)) (rows k); meta := delete id (meta k); embedder := embedder k |}.

Definition clip (content : string) : string := if decide (500 < String.length content)%nat then take_bytes 500 content +:+ "..." else content.
Definition by_rank (x y : Z * Row) : Prop := x.1 <= y.1.
Definition by_similarity (x y : float64 * Row) : Prop := y.1 = S754_nan \/ fle y.1 x.1 = true.
Definition tagged (fold : string -> string) (filterTags tags : string) : bool :=
  bool_decide (filterTags = "") || existsb (fun tag => Contains (fold tags) (TrimSpace (fold tag))) (split ","%char filterTags).
(** The five best rows of the tenant that match, of which those with a tag asked for. *)
Definition keyword_rows {sorter : SliceSorter by_rank} (tenant query filterTags : string) (k : Knowledge) : list Row :=
  filter (fun r => tagged (fun s => s) filterTags (k_tags r) = true)
    (take 5 (sortSlice by_rank (omap (fun ir : nat * Row => n ← rank (rows k) query ir.1; if decide (k_tenant ir.2 = tenant) then Some (n, ir.2) else None)
                                  (imap pair (rows k))))).*2.
Definition score_rows (tenant filterTags : string) (queryVec : list float64) (k : Knowledge) : Result (list (float64 * Row)) :=
  foldr (fun r acc =>
    acc <-? acc ;;
    if decide (k_tenant r <> tenant \/ tagged ToLower filterTags (k_tags r) = false) then Ok acc
    else
      v <-? Embed ToLower (embedder k) (k_content r) ;;
      let sim := CosineSimilarity queryVec (default [] v) in
      Ok (if flt (const 1 100) sim then (sim, r) :: acc else acc)) (Ok []) (rows k).
Definition rule : string := blank_line +:+ "---" +:+ blank_line.
(* [modules/agent/tools/knowledge.go:KnowledgeTool.semanticSearch] *)
Definition semanticSearch {sorter : SliceSorter by_similarity} (fault : option error) (tenant query filterTags : string) (k : Knowledge) : Result string :=
  qv <-? Embed ToLower (embedder k) query ;;
  match qv with
  | None => Ok "Semantic search not available (no documents indexed)."
  | Some queryVec =>
      match fault with
      | Some e => Err e
      | None =>
          results <-? score_rows tenant filterTags queryVec k ;;
          if decide (length results = 0%nat) then Ok ("No semantically similar documents found for: " +:+ query)
          else Ok (Join ((fun sr : float64 * Row => "**" +:+ k_title sr.2 +:+ "** (relevance: " +:+ fmt0 (fmul sr.1 (of_int 100)) +:+ "%)" +:+ nl +:+
                                   clip (k_content sr.2) +:+ nl +:+ "Tags: " +:+ k_tags sr.2) <$> take 5 (sortSlice by_similarity results)) rule)
      end
  end.
(* [modules/agent/tools/knowledge.go:KnowledgeTool.Execute] *)
Definition Knowledge_Execute {s1 : SliceSorter by_rank} {s2 : SliceSorter by_similarity} (fault : option error) (ctx : ToolCtx) (input : Strings)
    (k : Knowledge) : Result string :=
  let query := field "query" input in
  let filterTags := field "tags" input in
  let '(tenant, _, _) := ToolCaller ctx in
  if decide (query = "") then Err "query is required"
  else if decide (field "mode" input = "semantic" /\ size (vocabulary (embedder k)) <> 0%nat) then semanticSearch fault tenant query filterTags k
  else match fault with
  | Some e => Err ("search: " +:+ e)
  | None =>
      let results := (fun r => "**" +:+ k_title r +:+ "**" +:+ nl +:+ clip (k_content r) +:+ nl +:+ "Tags: " +:+ k_tags r) <$>
                       keyword_rows tenant query filterTags k in
      Ok (if decide (results = []) then "No documents found matching: " +:+ query else Join results rule)
  end.
(** [visited] says whether the search is asked with the runbooks' tag: the input is changed in place. *)
(* [modules/agent/tools/knowledge.go:RunbookTool.Execute] *)
Definition Runbook_Execute {s1 : SliceSorter by_rank} {s2 : SliceSorter by_similarity} (fault : option error) (ctx : ToolCtx) (input : Strings)
    (k : Knowledge) : Result string := Knowledge_Execute fault ctx (<["tags" := "runbook"]> input) k.
(** The documents' identifiers and titles, in the order of the titles: every tenant's. *)
Definition by_title (x y : string * Meta) : Prop := string_le (m_title x.2) (m_title y.2).
(* [modules/agent/tools/knowledge.go:KnowledgeTool.List@322-345] *)
Definition Knowledge_List {sorter : SliceSorter by_title} (k : Knowledge) : list (string * Meta) := sortSlice by_title (map_to_list (meta k)).
End Tool.

(** ** What a search returns *)

Lemma keyword_scoped rank {sorter : SliceSorter by_rank} tenant query filterTags k r : r ∈ keyword_rows rank tenant query filterTags k ->
  r ∈ rows k /\ k_tenant r = tenant.
Proof.
  unfold keyword_rows. intros [_ Hr]%list_elem_of_filter. apply list_elem_of_fmap in Hr as ([n r'] & -> & Hr). cbn [snd].
  apply elem_of_take in Hr as (j & Hr%list_elem_of_lookup_2 & _). rewrite sortSlice_perm in Hr. apply list_elem_of_omap in Hr as ([i r0] & Hin & Hr).
  cbn [fst snd] in Hr. destruct (rank (rows k) query i) as [z|]; [|done]. cbn in Hr. case_decide; [|done]. injection Hr as <- <-. split; [|done].
  apply elem_of_lookup_imap in Hin as (j' & x & [= -> ->] & Hj). by apply list_elem_of_lookup_2 in Hj.
Qed.
Lemma score_scoped ToLower tenant filterTags queryVec k : forall results s r, score_rows ToLower tenant filterTags queryVec k = Ok results ->
  (s, r) ∈ results -> r ∈ rows k /\ k_tenant r = tenant.
Proof.
  unfold score_rows. set (e := embedder k). generalize (rows k) as l. induction l as [|r0 l IH]; intros results s r.
  - by intros [= <-] ?%elem_of_nil.
  - cbn [foldr]. intros (acc & Hacc & H)%rbind_Ok Hin. case_decide as Hskip.
    + injection H as <-. destruct (IH _ _ _ Hacc Hin). split; [by right|done].
    + apply rbind_Ok in H as (v & _ & H). destruct (decide (k_tenant r0 = tenant)) as [Ht|]; [|exfalso; apply Hskip; by left]. destruct (flt _ _); injection H as <-.
      * apply elem_of_cons in Hin as [[= -> ->]|Hin]; [split; [by left|done]|]. destruct (IH _ _ _ Hacc Hin). split; [by right|done].
      * destruct (IH _ _ _ Hacc Hin). split; [by right|done].
Qed.

(** ** Vectors stay in range

    A vocabulary built again keeps the words of the earlier ones, and every index is below its size. *)
Definition vocabulary_ok (e : SimpleEmbedding) : Prop := forall w i, vocabulary e !! w = Some i -> (i < size (vocabulary e))%nat.
Lemma size_insert_le {V} (m : gmap string V) k v : (size m <= size (<[k := v]> m))%nat.
Proof. rewrite map_size_insert. destruct (m !! k); cbn; lia. Qed.
(** Putting words in with their positions from [n] on. *)
Definition number_words (m : gmap string nat) (l : list (nat * (string * nat))) : gmap string nat := foldl (fun m w => <[w.2.1 := w.1]> m) m l.
Lemma number_words_lookup l : forall m w i, number_words m l !! w = Some i -> m !! w = Some i \/ exists x, x ∈ l /\ x.1 = i.
Proof.
  induction l as [|[j [w' f]] l IH]; intros m w i; cbn; [by left|]. intros H. destruct (IH _ _ _ H) as [Hm|(x & Hx & ?)].
  - destruct (decide (w' = w)) as [->|Hne].
    + rewrite lookup_insert_eq in Hm. injection Hm as <-. right. exists (j, (w, f)). split; [by left|done].
    + rewrite lookup_insert_ne in Hm by done. by left.
  - right. exists x. split; [by right|done].
Qed.
Lemma number_words_size l : forall m, (size m <= size (number_words m l))%nat.
Proof. induction l as [|[j [w f]] l IH]; intros m; cbn; [done|]. etransitivity; [|apply IH]. apply size_insert_le. Qed.
Lemma number_words_dom l : forall m w, w ∈ (fun x => x.2.1) <$> l -> is_Some (number_words m l !! w).
Proof.
  assert (forall l m w, is_Some (m !! w) -> is_Some (number_words m l !! w)) as Hkeep.
  { intros l'. induction l' as [|[j [w' f]] l' IH]; intros m w Hm; cbn; [done|]. apply IH. rewrite lookup_insert_is_Some. destruct (decide (w' = w)); [by left|by right]. }
  induction l as [|[j [w' f]] l IH]; intros m w; cbn; [by intros ?%elem_of_nil|]. intros [->|Hw]%elem_of_cons; [|by apply IH].
  apply Hkeep. by rewrite lookup_insert_eq.
Qed.
Lemma number_words_many l m : NoDup ((fun x => x.2.1) <$> l) -> (length l <= size (number_words m l))%nat.
Proof.
  intros Hnd. rewrite <-(length_fmap (fun x => x.2.1) l). rewrite <-size_dom. rewrite <-(size_list_to_set (C := gset string) _ Hnd).
  apply subseteq_size. intros w Hw%elem_of_list_to_set. apply elem_of_dom. by apply number_words_dom.
Qed.
Lemma BuildVocabulary_ok ToLower Log visit documents e : (forall m, visit m ≡ₚ map_to_list m) -> vocabulary_ok e ->
  vocabulary_ok (BuildVocabulary ToLower Log visit documents e).
Proof.
  intros Hvisit He w i. unfold BuildVocabulary. cbn [vocabulary]. fold (number_words (vocabulary e) (imap pair (visit (doc_freq ToLower documents)))).
  set (l := imap pair _). intros H. destruct (number_words_lookup _ _ _ _ H) as [Hm|(x & Hx & <-)].
  - eapply Nat.lt_le_trans; [by eapply He|]. apply number_words_size.
  - apply elem_of_lookup_imap in Hx as (j & y & -> & Hj). cbn [fst]. apply lookup_lt_Some in Hj.
    eapply Nat.lt_le_trans; [exact Hj|]. rewrite <-(length_imap pair (visit _)). apply number_words_many.
    replace ((fun x => x.2.1) <$> l) with ((visit (doc_freq ToLower documents)).*1).
    + rewrite Hvisit. apply NoDup_fst_map_to_list.
    + unfold l. generalize (visit (doc_freq ToLower documents)) as v. intros v. apply list_eq. intros j'. rewrite !list_lookup_fmap, list_lookup_imap. by destruct (v !! j').
Qed.
(** Embedding any text under such a vocabulary gives a vector of its size, or none for an empty one. *)
Lemma Embed_total ToLower e text : vocabulary_ok e -> exists v, Embed ToLower e text = Ok v /\
  match v with Some vec => length vec = size (vocabulary e) | None => vocabulary e = ∅ end.
Proof.
  intros He. unfold Embed. cbv zeta. case_decide as H0; [exists None; split; [done|by apply map_size_empty_iff]|].
  case_decide; [eexists; split; [done|apply length_replicate]|]. destruct (existsb _ _) eqn:Ex.
  - apply existsb_exists in Ex as ([w i] & Hin & Hle). apply bool_decide_eq_true in Hle. cbn in Hle. apply list_elem_of_In, list_elem_of_omap in Hin as (w' & _ & Hw).
    destruct (vocabulary e !! w') as [i'|] eqn:Ev; [|done]. injection Hw as -> ->. specialize (He _ _ Ev). lia.
  - eexists. split; [done|]. generalize (replicate (size (vocabulary e)) fzero) (length_replicate (size (vocabulary e)) fzero).
    clear Ex. match goal with |- context[foldl _ _ ?l] => generalize l end. intros l. induction l as [|wi l IH]; intros vec Hvec; [done|].
    cbn [foldl]. apply IH. by rewrite length_insert.
Qed.

(** ** On a small base *)

Definition demo_base : Knowledge := {| rows := []; meta := ∅; embedder := NewSimpleEmbedding |}.
Definition demo_row (tenant id content : string) : Row := {| k_tenant := tenant; k_id := id; k_title := id; k_content := content; k_tags := "" |}.
(** Storing a document again keeps the chunks of the first time. *)
Example stored_twice : length (rows (IngestForTenant None 0 "acme" "doc" "t" "new" "" (IngestForTenant None 0 "acme" "doc" "t" "old" "" demo_base).1).1) = 2%nat.
Proof. vm_compute. reflexivity. Qed.
(** Deleting one tenant's document deletes another's of the same identifier, and of some others. *)
Example delete_reaches : rows (Delete "a" {| rows := [demo_row "acme" "a_chunk_0" "x"; demo_row "other" "a_chunk_0" "y"; demo_row "other" "AxCHUNKy" "z"]; meta := ∅;
                                             embedder := NewSimpleEmbedding |}) = [].
Proof. vm_compute. reflexivity. Qed.
Example chunked : ChunkDocument ("aaaa" +:+ blank_line +:+ "bbbb" +:+ blank_line +:+ "cc") 8 2 =
  ["aaaa" +:+ blank_line; blank_line +:+ blank_line +:+ "bbbb" +:+ blank_line; "cc"].
Proof. vm_compute. reflexivity. Qed.
