(* ===== verification/Adapters.v ===== *)
(** * Adapters: channels whose messages arrive as requests

    [src/modules/channel]: webhook, line, sms, whatsapp, telegram, mattermost, discord, teams, signal, matrix and
    email.  Each checks a request, hands its messages to the agents under the tenant it was configured with, and
    posts the answer back.  HTTP, JSON, hashes and signatures, the clock and what the agents answer are arguments. *)
From S2P Require Import Prelude GoStr GoText Utf8 Channel Pairing.
From S2P Require Mcp.
Import Mcp (json, JStr, JArr, JObj, JNum).
Local Open Scope go_scope.
Local Open Scope Z_scope.

(** ** Requests, posts and what a handler does *)

(** [PostForm] has the first value of each name; [FormValue] looks in the query too; [FullURL] is scheme, host and
    path; [Body] may fail to be read. *)
Record Request := {
  Method : string; Header : string -> string; Body : Result string;
  PostForm : option (gmap string string); FormValue : string -> string; Query : string -> string;
  Host : string; RequestURI : string; over_TLS : bool;
}.
(** A post to a service: where, under which credential, and what. *)
Record Post := { p_URL : string; p_Auth : string; p_Payload : json }.
(** The status, the text said back, the messages given to agents and the posts that followed. *)
Record Outcome := { status : Z; said : string; turns : list InboundMessage; posts : list Post }.
Definition reject (code : Z) (text : string) : Outcome := {| status := code; said := text; turns := []; posts := [] |}.
Definition ack : Outcome := reject 200 "".
(** The bytes [io.LimitReader] lets through. *)
Definition maxInboundBody : nat := Z.to_nat (2 ^ 20).
Definition limited (b : Result string) : Result string := match b with Ok s => Ok (take_bytes maxInboundBody s) | Err e => Err e end.
Definition secret_equal (a b : string) : bool := bool_decide (a = b).

Section Adapters.
(** What the agents answer; the answer of a service to a post: a status with a text, or no answer. *)
Context (handler : InboundMessage -> Result string) (service : Post -> Result (Z * string)).
(** HMAC-SHA-256 and HMAC-SHA-1 of a text under a key; hexadecimal and base64. *)
Context (hmac256 hmac1 : string -> string -> string) (hex : string -> string) (unhex : string -> option string) (b64 : string -> string).

Definition message (channel channelID user text tenant agent : string) : InboundMessage :=
  {| in_Channel := channel; in_ChannelID := channelID; in_UserID := user; in_Text := text; in_Tenant := tenant; in_Agent := agent |}.
Definition out (channel channelID text thread : string) : OutboundMessage :=
  {| out_Channel := channel; out_ChannelID := channelID; out_Text := text; ThreadTS := thread |}.
(** Posting, with the errors most services have in common. *)
Definition post (what : string) (api : string) (p : Post) : option error :=
  match service p with
  | Err e => Some (what +:+ e)
  | Ok (code, text) => if decide (400 <= code) then Some (api +:+ itoa code +:+ ": " +:+ text) else None
  end.

(** ** Webhook *)

(* [modules/channel/webhook/adapter.go:Adapter] *)
Record Webhook := { wh_outboundURL : string; wh_signingSecret : string }.
(* [modules/channel/webhook/adapter.go:webhookPayload] *)
Record webhookPayload := { wp_Tenant : string; wp_Agent : string; wp_UserID : string; wp_ChannelID : string; wp_Text : string }.
(* [modules/channel/webhook/adapter.go:Adapter.Send] *)
Definition webhook_Send (a : Webhook) (m : OutboundMessage) : list Post * option error :=
  if decide (wh_outboundURL a = "") then ([], Some "no outbound URL configured")
  else
    let p := {| p_URL := wh_outboundURL a; p_Auth := ""; p_Payload := JObj [("channel_id", JStr (out_ChannelID m)); ("text", JStr (out_Text m))] |} in
    ([p], match service p with
          | Err e => Some ("send webhook: " +:+ e)
          | Ok (code, _) => if decide (400 <= code) then Some ("outbound webhook returned " +:+ itoa code) else None
          end).
(* [modules/channel/webhook/adapter.go:Adapter.verifySignature] *)
Definition webhook_verify (a : Webhook) (r : Request) (body : string) : bool :=
  if decide (wh_signingSecret a = "") then false
  else secret_equal (Header r "X-Webhook-Signature") (hex (hmac256 (wh_signingSecret a) body)).
(* [modules/channel/webhook/adapter.go:Adapter.handleWebhook] *)
Definition webhook_handle (decode : string -> option webhookPayload) (a : Webhook) (r : Request) : Outcome :=
  if decide (Method r <> "POST") then reject 405 "method not allowed"
  else match limited (Body r) with
  | Err _ => reject 400 "read error"
  | Ok body =>
      if negb (webhook_verify a r body) then reject 401 "unauthorized"
      else match decode body with
      | None => reject 400 "invalid JSON"
      | Some p =>
          let m := message "webhook" (wp_ChannelID p) (wp_UserID p) (wp_Text p) (wp_Tenant p) (wp_Agent p) in
          match handler m with
          | Err e => {| status := 500; said := e; turns := [m]; posts := [] |}
          | Ok response => {| status := 200; said := response; turns := [m]; posts := [] |}
          end
      end
  end.

(** ** LINE *)

(** Every other adapter has the tenant and the agent it speaks for. *)
(* [modules/channel/line/adapter.go:Adapter] *)
Record Line := { li_accessToken : string; li_channelSecret : string; li_tenant : string; li_agent : string; li_apiURL : string }.
(** An event: its type, the reply token, its source's user, group and room, its message's type and text. *)
(* [modules/channel/line/adapter.go:Adapter.handleWebhook@124-139] *)
Record line_event := {
  le_Type : string; le_ReplyToken : string; le_UserID : string; le_GroupID : string; le_RoomID : string; le_MessageType : string; le_Text : string;
}.
(* [modules/channel/line/adapter.go:Adapter.verifySignature] *)
Definition line_verify (a : Line) (r : Request) (body : string) : bool :=
  let sig := Header r "X-Line-Signature" in
  if decide (li_channelSecret a = "" \/ sig = "") then false else secret_equal sig (b64 (hmac256 (li_channelSecret a) body)).
(* [modules/channel/line/adapter.go:Adapter.Send] *)
Definition line_Send (a : Line) (m : OutboundMessage) : list Post * option error :=
  let messages := JArr [JObj [("type", JStr "text"); ("text", JStr (out_Text m))]] in
  let p := if decide (ThreadTS m <> "")
    then {| p_URL := li_apiURL a +:+ "/message/reply"; p_Auth := "Bearer " +:+ li_accessToken a;
            p_Payload := JObj [("replyToken", JStr (ThreadTS m)); ("messages", messages)] |}
    else {| p_URL := li_apiURL a +:+ "/message/push"; p_Auth := "Bearer " +:+ li_accessToken a;
            p_Payload := JObj [("to", JStr (out_ChannelID m)); ("messages", messages)] |} in
  ([p], post "line send: " "line API error " p).
Definition line_channel (ev : line_event) : string :=
  if decide (le_GroupID ev <> "") then le_GroupID ev else if decide (le_RoomID ev <> "") then le_RoomID ev else le_UserID ev.
Definition line_turn (a : Line) (ev : line_event) : list InboundMessage * list Post :=
  if decide (le_Type ev <> "message" \/ le_MessageType ev <> "text") then ([], [])
  else
    let m := message "line" (line_channel ev) (le_UserID ev) (le_Text ev) (li_tenant a) (li_agent a) in
    ([m], match handler m with
          | Err _ => []
          | Ok response => if decide (response = "") then [] else (line_Send a (out "line" (line_channel ev) response (le_ReplyToken ev))).1
          end).
(* [modules/channel/line/adapter.go:Adapter.handleWebhook] *)
Definition line_handle (decode : string -> option (list line_event)) (a : Line) (r : Request) : Outcome :=
  if decide (Method r <> "POST") then reject 405 "method not allowed"
  else match limited (Body r) with
  | Err _ => reject 500 "read error"
  | Ok body =>
      if negb (line_verify a r body) then reject 401 "unauthorized"
      else match decode body with
      | None => reject 400 "invalid JSON"
      | Some events =>
          {| status := 200; said := ""; turns := concat ((fun ev => (line_turn a ev).1) <$> events); posts := concat ((fun ev => (line_turn a ev).2) <$> events) |}
      end
  end.

(** ** SMS *)

(* [modules/channel/sms/adapter.go:Adapter] *)
Record Sms := {
  sm_accountSID : string; sm_authToken : string; sm_fromNumber : string; sm_tenant : string; sm_agent : string; sm_apiBase : string; sm_publicURL : string;
}.
(** The form goes out as fields. *)
(* [modules/channel/sms/adapter.go:Adapter.Send] *)
Definition sms_Send (a : Sms) (m : OutboundMessage) : list Post * option error :=
  if decide (sm_accountSID a = "" \/ sm_authToken a = "") then ([], Some "sms: missing Twilio credentials")
  else
    let p := {| p_URL := sm_apiBase a +:+ "/2010-04-01/Accounts/" +:+ sm_accountSID a +:+ "/Messages.json";
                p_Auth := "Basic " +:+ b64 (sm_accountSID a +:+ ":" +:+ sm_authToken a);
                p_Payload := JObj [("From", JStr (sm_fromNumber a)); ("To", JStr (out_ChannelID m)); ("Body", JStr (out_Text m))] |} in
    ([p], post "sms send: " "twilio API error " p).
(** What Twilio signs: the URL, then each field's name and value in the order of the names. *)
Definition sms_signed (a : Sms) (r : Request) (form : gmap string string) : string :=
  let url := if decide (sm_publicURL a = "")
    then (if negb (over_TLS r) && bool_decide (Header r "X-Forwarded-Proto" <> "https") then "http" else "https") +:+ "://" +:+ Host r +:+ RequestURI r
    else sm_publicURL a in
  foldl (fun s k => s +:+ k +:+ default "" (form !! k)) url (sort_strings (map_to_list form).*1).
(* [modules/channel/sms/adapter.go:Adapter.validateTwilioSignature] *)
Definition sms_verify (a : Sms) (r : Request) (form : gmap string string) : bool :=
  let provided := Header r "X-Twilio-Signature" in
  if decide (sm_authToken a = "" \/ provided = "") then false else secret_equal provided (b64 (hmac1 (sm_authToken a) (sms_signed a r form))).
(* [modules/channel/sms/adapter.go:twimlEscape] *)
Definition twimlEscape (s : string) : string := ReplaceAll (ReplaceAll (ReplaceAll s "&" "&amp;") "<" "&lt;") ">" "&gt;".
Definition xml_head : string := "<?xml version=" +:+ dq "1.0" +:+ " encoding=" +:+ dq "UTF-8" +:+ "?>".
(* [modules/channel/sms/adapter.go:Adapter.HandleInbound] *)
Definition sms_handle (a : Sms) (r : Request) : Outcome :=
  if decide (Method r <> "POST") then reject 405 "method not allowed"
  else match PostForm r with
  | None => reject 400 "invalid form"
  | Some form =>
      if negb (sms_verify a r form) then reject 401 "unauthorized"
      else if decide (FormValue r "Body" = "") then ack
      else
        let from := FormValue r "From" in
        let m := message "sms" from from (FormValue r "Body") (sm_tenant a) (sm_agent a) in
        match handler m with
        | Err _ => {| status := 200; said := ""; turns := [m]; posts := [] |}
        | Ok response =>
            {| status := 200; turns := [m]; posts := [];
               said := xml_head +:+ (if decide (response = "") then "<Response/>" else "<Response><Message>" +:+ twimlEscape response +:+ "</Message></Response>") |}
        end
  end.

(** ** WhatsApp *)

(* [modules/channel/whatsapp/adapter.go:Adapter] *)
Record Whatsapp := {
  wa_accessToken : string; wa_phoneNumID : string; wa_verifyToken : string; wa_appSecret : string; wa_tenant : string; wa_agent : string; wa_apiURL : string;
}.
(** The messages of all entries and changes, in order: sender, type and text. *)
(* [modules/channel/whatsapp/adapter.go:Adapter.handleWebhook@172-186] *)
Record whatsapp_message := { wm_From : string; wm_Type : string; wm_Body : string }.
(* [modules/channel/whatsapp/adapter.go:Adapter.Send] *)
Definition whatsapp_Send (a : Whatsapp) (m : OutboundMessage) : list Post * option error :=
  let p := {| p_URL := wa_apiURL a +:+ "/" +:+ wa_phoneNumID a +:+ "/messages"; p_Auth := "Bearer " +:+ wa_accessToken a;
              p_Payload := JObj [("messaging_product", JStr "whatsapp"); ("to", JStr (out_ChannelID m)); ("type", JStr "text");
                                 ("text", JObj [("body", JStr (out_Text m))])] |} in
  ([p], post "whatsapp send: " "whatsapp error " p).
(* [modules/channel/whatsapp/adapter.go:Adapter.verifySignature] *)
Definition whatsapp_verify (a : Whatsapp) (r : Request) (body : string) : bool :=
  let header := Header r "X-Hub-Signature-256" in
  if decide (wa_appSecret a = "") then false
  else if negb (has_prefix "sha256=" header) || bool_decide (String.length header <= 7)%nat then false
  else match unhex (drop_bytes 7 header) with Some provided => secret_equal provided (hmac256 (wa_appSecret a) body) | None => false end.
(** [free] says whether a handler's place is free for the message at an index. *)
Definition whatsapp_turn (free : nat -> bool) (a : Whatsapp) (i : nat) (m : whatsapp_message) : list InboundMessage * list Post :=
  if decide (wm_Type m <> "text") then ([], [])
  else if free i then
    let msg := message "whatsapp" (wm_From m) (wm_From m) (wm_Body m) (wa_tenant a) (wa_agent a) in
    ([msg], match handler msg with Err _ => [] | Ok response => (whatsapp_Send a (out "whatsapp" (wm_From m) response "")).1 end)
  else ([], []).
(* [modules/channel/whatsapp/adapter.go:Adapter.handleWebhook] *)
Definition whatsapp_handle (decode : string -> option (list whatsapp_message)) (free : nat -> bool) (a : Whatsapp) (r : Request) : Outcome :=
  if decide (Method r = "GET")
  then (if decide (Query r "hub.mode" = "subscribe" /\ Query r "hub.verify_token" = wa_verifyToken a) then reject 200 (Query r "hub.challenge") else reject 403 "")
  else if decide (Method r <> "POST") then reject 405 "method not allowed"
  else match limited (Body r) with
  | Err _ => reject 500 "read error"
  | Ok body =>
      if negb (whatsapp_verify a r body) then reject 401 "unauthorized"
      else match decode body with
      | None => ack
      | Some messages =>
          let done := imap (whatsapp_turn free a) messages in
          {| status := 200; said := ""; turns := concat done.*1; posts := concat done.*2 |}
      end
  end.

(** ** Telegram *)

(* [modules/channel/telegram/adapter.go:Adapter] *)
Record Telegram := { tg_botToken : string; tg_secretToken : string; tg_tenant : string; tg_agent : string; tg_apiURL : string }.
(** Chat, sender and text of an update. *)
(* [modules/channel/telegram/adapter.go:Adapter.handleUpdate@113-124] *)
Record telegram_update := { tu_Chat : Z; tu_From : Z; tu_Text : string }.
(* [modules/channel/telegram/adapter.go:Adapter.Send] *)
Definition telegram_Send (a : Telegram) (m : OutboundMessage) : list Post * option error :=
  let p := {| p_URL := tg_apiURL a +:+ "/bot" +:+ tg_botToken a +:+ "/sendMessage"; p_Auth := "";
              p_Payload := JObj [("chat_id", JStr (out_ChannelID m)); ("text", JStr (out_Text m))] |} in
  ([p], post "" "telegram error " p).
(** What could be read of the body counts. *)
(* [modules/channel/telegram/adapter.go:Adapter.handleUpdate] *)
Definition telegram_handle (decode : string -> option telegram_update) (a : Telegram) (r : Request) : Outcome :=
  if decide (Method r <> "POST") then reject 405 "method not allowed"
  else if decide (tg_secretToken a = "" \/ secret_equal (Header r "X-Telegram-Bot-Api-Secret-Token") (tg_secretToken a) = false)
  then reject 401 "unauthorized"
  else match decode (match limited (Body r) with Ok body => body | Err _ => "" end) with
  | None => ack
  | Some u =>
      if decide (tu_Text u = "") then ack
      else
        let m := message "telegram" (itoa (tu_Chat u)) (itoa (tu_From u)) (tu_Text u) (tg_tenant a) (tg_agent a) in
        {| status := 200; said := ""; turns := [m];
           posts := match handler m with Err _ => [] | Ok response => (telegram_Send a (out "telegram" (itoa (tu_Chat u)) response "")).1 end |}
  end.

(** ** Mattermost *)

(* [modules/channel/mattermost/adapter.go:Adapter] *)
Record Mattermost := { mm_webhookURL : string; mm_commandToken : string; mm_tenant : string; mm_agent : string }.
(* [modules/channel/mattermost/adapter.go:Adapter.Send] *)
Definition mattermost_Send (a : Mattermost) (m : OutboundMessage) : list Post * option error :=
  if decide (mm_webhookURL a = "") then ([], Some "mattermost: no webhook URL configured")
  else
    let p := {| p_URL := mm_webhookURL a; p_Auth := "";
                p_Payload := JObj ([("text", JStr (out_Text m))] ++ if decide (out_ChannelID m = "") then [] else [("channel", JStr (out_ChannelID m))]) |} in
    ([p], post "mattermost send: " "mattermost API error " p).
(* [modules/channel/mattermost/adapter.go:Adapter.HandleInbound] *)
Definition mattermost_handle (a : Mattermost) (r : Request) : Outcome :=
  if decide (Method r <> "POST") then reject 405 "method not allowed"
  else if PostForm r is None then reject 400 "invalid form"
  else if decide (mm_commandToken a = "" \/ secret_equal (FormValue r "token") (mm_commandToken a) = false) then reject 401 "unauthorized"
  else if decide (FormValue r "text" = "") then ack
  else
    let m := message "mattermost" (FormValue r "channel_name") (FormValue r "user_name") (FormValue r "text") (mm_tenant a) (mm_agent a) in
    match handler m with
    | Err e => {| status := 500; said := e; turns := [m]; posts := [] |}
    | Ok response => {| status := 200; said := response; turns := [m]; posts := [] |}
    end.

(** ** Discord *)

(** Ed25519: whether a signature of a text verifies under a key of 32 bytes. *)
Context (ed25519_Verify : string -> string -> string -> bool).
(* [modules/channel/discord/adapter.go:Adapter] *)
Record Discord := { dc_botToken : string; dc_publicKey : string; dc_tenant : string; dc_agent : string; dc_apiURL : string }.
(* [modules/channel/discord/adapter.go:Adapter.SetPublicKey] *)
Definition discord_SetPublicKey (hexKey : string) (a : Discord) : Result Discord :=
  match unhex hexKey with
  | Some raw =>
      if decide (String.length raw = 32%nat)
      then Ok {| dc_botToken := dc_botToken a; dc_publicKey := raw; dc_tenant := dc_tenant a; dc_agent := dc_agent a; dc_apiURL := dc_apiURL a |}
      else Err "discord: invalid public key"
  | None => Err "discord: invalid public key"
  end.
(* [modules/channel/discord/adapter.go:Adapter.verifyInteraction] *)
Definition discord_verify (a : Discord) (r : Request) (body : string) : bool :=
  if decide (String.length (dc_publicKey a) <> 32%nat) then false
  else match unhex (Header r "X-Signature-Ed25519") with
  | None => false
  | Some sig =>
      if decide (String.length sig <> 64%nat) then false
      else
        let ts := Header r "X-Signature-Timestamp" in
        if decide (ts = "") then false else ed25519_Verify (dc_publicKey a) (ts +:+ body) sig
  end.
(** Kind, command, channel and user of an interaction. *)
(* [modules/channel/discord/adapter.go:Adapter.handleInteraction@136-152] *)
Record discord_interaction := { di_Type : Z; di_Name : string; di_ChannelID : string; di_UserID : string }.
(* [modules/channel/discord/adapter.go:Adapter.Send] *)
Definition discord_Send (a : Discord) (m : OutboundMessage) : list Post * option error :=
  let p := {| p_URL := dc_apiURL a +:+ "/channels/" +:+ out_ChannelID m +:+ "/messages"; p_Auth := "Bot " +:+ dc_botToken a;
              p_Payload := JObj [("content", JStr (out_Text m))] |} in
  ([p], post "" "discord error " p).
(* [modules/channel/discord/adapter.go:Adapter.handleInteraction] *)
Definition discord_handle (decode : string -> option discord_interaction) (a : Discord) (r : Request) : Outcome :=
  if decide (Method r <> "POST") then reject 405 "method not allowed"
  else
    let body := match limited (Body r) with Ok body => body | Err _ => "" end in
    if negb (discord_verify a r body) then reject 401 "invalid request signature"
    else match decode body with
    | None => reject 400 "bad json"
    | Some i =>
        if decide (di_Type i = 1) then reject 200 "{type: 1}"
        else if decide (di_Type i <> 2) then ack
        else
          let m := message "discord" (di_ChannelID i) (di_UserID i) (di_Name i) (dc_tenant a) (dc_agent a) in
          {| status := 200; said := ""; turns := [m];
             posts := match handler m with Err _ => [] | Ok response => (discord_Send a (out "discord" (di_ChannelID i) response "")).1 end |}
    end.

(** ** Teams *)

(* [modules/channel/teams/adapter.go:Adapter] *)
Record Teams := { te_tenant : string; te_agent : string; te_serviceURL : string }.
(* [modules/channel/teams/adapter.go:teamsActivity] *)
Record teamsActivity := { ta_Type : string; ta_Text : string; ta_From : string; ta_Conversation : string }.
Definition teams_post (a : Teams) (text : string) : Post :=
  {| p_URL := te_serviceURL a; p_Auth := ""; p_Payload := JObj [("type", JStr "message"); ("text", JStr text)] |}.
(* [modules/channel/teams/adapter.go:Adapter.Send] *)
Definition teams_Send (a : Teams) (m : OutboundMessage) : list Post * option error :=
  if decide (te_serviceURL a = "") then ([], Some "no service URL configured")
  else ([teams_post a (out_Text m)], match service (teams_post a (out_Text m)) with Err e => Some ("teams send: " +:+ e) | Ok _ => None end).
(* [modules/channel/teams/adapter.go:Adapter.handleActivity] *)
Definition teams_handle (decode : string -> option teamsActivity) (a : Teams) (r : Request) : Outcome :=
  if decide (Method r <> "POST") then reject 405 "method not allowed"
  else if decide (Header r "Authorization" = "") then reject 401 "unauthorized"
  else match limited (Body r) with
  | Err _ => reject 500 "read error"
  | Ok body =>
      match decode body with
      | None => reject 400 "invalid JSON"
      | Some act =>
          if decide (ta_Type act <> "message") then ack
          else
            let m := message "teams" (ta_Conversation act) (ta_From act) (ta_Text act) (te_tenant a) (te_agent a) in
            {| status := 200; said := ""; turns := [m];
               posts := match handler m with
                        | Err _ => []
                        | Ok response => if decide (te_serviceURL a = "") then [] else [teams_post a response]
                        end |}
      end
  end.

(** ** Signal and Matrix, whose bridges are trusted *)

(* [modules/channel/signal/adapter.go:Adapter] *)
Record Signal := { sg_cliURL : string; sg_tenant : string; sg_agent : string }.
(* [modules/channel/signal/adapter.go:signalEnvelope] *)
Record signalEnvelope := { se_Source : string; se_SourceNumber : string; se_Message : string }.
(* [modules/channel/signal/adapter.go:Adapter.Send] *)
Definition signal_Send (a : Signal) (m : OutboundMessage) : list Post * option error :=
  if decide (sg_cliURL a = "") then ([], Some "signal: no signal-cli URL configured")
  else
    let p := {| p_URL := sg_cliURL a; p_Auth := "";
                p_Payload := JObj [("jsonrpc", JStr "2.0"); ("method", JStr "send");
                                   ("params", JObj [("recipient", JStr (out_ChannelID m)); ("message", JStr (out_Text m))]); ("id", JNum "1")] |} in
    ([p], post "signal send: " "signal-cli error " p).
(* [modules/channel/signal/adapter.go:Adapter.HandleInbound] *)
Definition signal_handle (decode : string -> option signalEnvelope) (a : Signal) (r : Request) : Outcome :=
  if decide (Method r <> "POST") then reject 405 "method not allowed"
  else match Body r with
  | Err _ => reject 500 "read error"
  | Ok body =>
      match decode body with
      | None => reject 400 "invalid JSON"
      | Some env =>
          if decide (se_Message env = "") then ack
          else
            let source := if decide (se_SourceNumber env = "") then se_Source env else se_SourceNumber env in
            let m := message "signal" source source (se_Message env) (sg_tenant a) (sg_agent a) in
            {| status := 200; said := ""; turns := [m];
               posts := match handler m with
                        | Err _ => []
                        | Ok response => if decide (response = "") then [] else (signal_Send a (out "signal" source response "")).1
                        end |}
      end
  end.

(** [url.PathEscape]; the clock in nanoseconds and the counter of transactions. *)
Context (PathEscape : string -> string) (nanos : Z).
(* [modules/channel/matrix/adapter.go:Adapter] *)
Record Matrix := { mx_homeserverURL : string; mx_accessToken : string; mx_tenant : string; mx_agent : string; mx_counter : Z }.
(* [modules/channel/matrix/adapter.go:matrixEvent] *)
Record matrixEvent := { me_Type : string; me_Sender : string; me_RoomID : string; me_Body : string }.
(** Runes between '!' and '~' are single bytes; any other byte starts a rune that is refused. *)
Definition room_byte (c : ascii) : bool :=
  let n := N_of_ascii c in bool_decide ((33 <= n <= 126)%N) && bool_decide (c <> "/"%char) && bool_decide (c <> backslash).
(* [modules/channel/matrix/adapter.go:validRoomID] *)
Definition validRoomID (id : string) : bool :=
  bool_decide (2 <= String.length id <= 255)%nat && has_prefix "!" id && contains_byte ":" id && forallb room_byte (String.list_ascii_of_string id).
(** The counter is a 64-bit one. *)
(* [modules/channel/matrix/adapter.go:Adapter.Send] *)
Definition matrix_Send (a : Matrix) (m : OutboundMessage) : Matrix * (list Post * option error) :=
  if decide (mx_homeserverURL a = "" \/ mx_accessToken a = "") then (a, ([], Some "matrix: missing homeserver URL or access token"))
  else if decide (out_ChannelID m = "") then (a, ([], Some "matrix: missing room ID"))
  else if negb (validRoomID (out_ChannelID m)) then (a, ([], Some "matrix: invalid room ID"))
  else
    let n := (mx_counter a + 1) mod 2 ^ 64 in
    let p := {| p_URL := mx_homeserverURL a +:+ "/_matrix/client/v3/rooms/" +:+ PathEscape (out_ChannelID m) +:+ "/send/m.room.message/" +:+
                         PathEscape (itoa nanos +:+ "-" +:+ itoa n);
                p_Auth := "Bearer " +:+ mx_accessToken a; p_Payload := JObj [("msgtype", JStr "m.text"); ("body", JStr (out_Text m))] |} in
    ({| mx_homeserverURL := mx_homeserverURL a; mx_accessToken := mx_accessToken a; mx_tenant := mx_tenant a; mx_agent := mx_agent a; mx_counter := n |},
     ([p], post "matrix send: " "matrix API error " p)).
(* [modules/channel/matrix/adapter.go:Adapter.HandleInbound] *)
Definition matrix_handle (decode : string -> option matrixEvent) (a : Matrix) (r : Request) : Matrix * Outcome :=
  if decide (Method r <> "POST") then (a, reject 405 "method not allowed")
  else match Body r with
  | Err _ => (a, reject 500 "read error")
  | Ok body =>
      match decode body with
      | None => (a, reject 400 "invalid JSON")
      | Some ev =>
          if decide (me_Type ev <> "m.room.message" \/ me_Body ev = "") then (a, ack)
          else
            let m := message "matrix" (me_RoomID ev) (me_Sender ev) (me_Body ev) (mx_tenant a) (mx_agent a) in
            let '(a, ps) := match handler m with
              | Err _ => (a, [])
              | Ok response =>
                  if decide (response = "") then (a, [])
                  else let '(a, (ps, _)) := matrix_Send a (out "matrix" (me_RoomID ev) response "") in (a, ps)
              end in
            (a, {| status := 200; said := ""; turns := [m]; posts := ps |})
      end
  end.

(** ** Email *)

(** A mail to a server: its address, the sender, the recipient and the text. *)
Record Mail := { ml_addr : string; ml_from : string; ml_to : string; ml_text : string }.
(* [modules/channel/email/adapter.go:Adapter] *)
Record Email := { em_smtpHost : string; em_smtpPort : string; em_fromAddr : string; em_authToken : string; em_tenant : string; em_agent : string }.
(* [modules/channel/email/adapter.go:inboundEmail] *)
Record inboundEmail := { ie_From : string; ie_Body : string }.
Definition crlf : string := String "013" nl.
(* [modules/channel/email/adapter.go:Adapter.Send] *)
Definition email_Send (a : Email) (m : OutboundMessage) : Mail :=
  let to := out_ChannelID m in
  {| ml_addr := em_smtpHost a +:+ ":" +:+ em_smtpPort a; ml_from := em_fromAddr a; ml_to := to;
     ml_text := "From: " +:+ em_fromAddr a +:+ crlf +:+ "To: " +:+ to +:+ crlf +:+ "Subject: Cyntr Agent Response" +:+ crlf +:+ crlf +:+ out_Text m |}.
(* [modules/channel/email/adapter.go:Adapter.authenticate] *)
Definition email_authenticate (a : Email) (r : Request) : bool :=
  if decide (em_authToken a = "") then false
  else
    let presented := if decide (Header r "X-Auth-Token" = "")
      then (let h := Header r "Authorization" in if has_prefix "Bearer " h then drop_bytes 7 h else "")
      else Header r "X-Auth-Token" in
    secret_equal presented (em_authToken a).
(** A body over the limit cannot be read. *)
(* [modules/channel/email/adapter.go:Adapter.handleInbound] *)
Definition email_handle (decode : string -> option inboundEmail) (a : Email) (r : Request) : Outcome * list Mail :=
  if decide (Method r <> "POST") then (reject 405 "method not allowed", [])
  else if negb (email_authenticate a r) then (reject 401 "unauthorized", [])
  else match Body r with
  | Err _ => (reject 500 "read error", [])
  | Ok body =>
      if decide (maxInboundBody < String.length body)%nat then (reject 500 "read error", [])
      else match decode body with
      | None => (reject 400 "invalid JSON", [])
      | Some mail =>
          let m := message "email" (ie_From mail) (ie_From mail) (ie_Body mail) (em_tenant a) (em_agent a) in
          match handler m with
          | Err _ => ({| status := 200; said := ""; turns := [m]; posts := [] |}, [])
          | Ok response => ({| status := 200; said := "{status: ok}"; turns := [m]; posts := [] |}, [email_Send a (out "email" (ie_From mail) response "")])
          end
      end
  end.

(** ** Who is heard *)

Lemma secret_equal_true a b : secret_equal a b = true <-> a = b.
Proof. unfold secret_equal. apply bool_decide_eq_true. Qed.
Ltac no_turn := let H := fresh in intros H; cbn in H; by apply elem_of_nil in H.
Lemma webhook_heard decode a r m : m ∈ turns (webhook_handle decode a r) ->
  exists body, limited (Body r) = Ok body /\ wh_signingSecret a <> "" /\ Header r "X-Webhook-Signature" = hex (hmac256 (wh_signingSecret a) body) /\
    exists p, decode body = Some p /\ in_Tenant m = wp_Tenant p /\ in_Agent m = wp_Agent p.
Proof.
  unfold webhook_handle. case_decide; [no_turn|]. destruct (limited (Body r)) as [body|]; [|no_turn]. destruct (webhook_verify a r body) eqn:Ev; [|no_turn].
  unfold webhook_verify in Ev. case_decide; [done|]. apply secret_equal_true in Ev. destruct (decode body) as [p|] eqn:Ed; [|no_turn].
  intros Hm. assert (m = message "webhook" (wp_ChannelID p) (wp_UserID p) (wp_Text p) (wp_Tenant p) (wp_Agent p)) as ->
    by (destruct (handler _); by apply list_elem_of_singleton in Hm).
  exists body. split; [done|]. split; [done|]. split; [done|]. by exists p.
Qed.
Lemma line_heard decode a r m : m ∈ turns (line_handle decode a r) ->
  exists body, limited (Body r) = Ok body /\ li_channelSecret a <> "" /\ Header r "X-Line-Signature" = b64 (hmac256 (li_channelSecret a) body) /\
    in_Tenant m = li_tenant a /\ in_Agent m = li_agent a.
Proof.
  unfold line_handle. case_decide; [no_turn|]. destruct (limited (Body r)) as [body|]; [|no_turn]. destruct (line_verify a r body) eqn:Ev; [|no_turn].
  unfold line_verify in Ev. cbv zeta in Ev. case_decide as Hs; [done|]. apply secret_equal_true in Ev. destruct (decode body) as [events|]; [|no_turn].
  cbn [turns negb]. intros (l & Hl & Hm)%list_elem_of_In%in_concat. apply list_elem_of_In, list_elem_of_fmap in Hl as (ev & -> & _).
  unfold line_turn in Hm. apply list_elem_of_In in Hm. case_decide; [by apply elem_of_nil in Hm|]. apply list_elem_of_singleton in Hm as ->.
  exists body. repeat split; try done. naive_solver.
Qed.
Lemma sms_heard a r m : m ∈ turns (sms_handle a r) ->
  exists form, PostForm r = Some form /\ sm_authToken a <> "" /\ Header r "X-Twilio-Signature" = b64 (hmac1 (sm_authToken a) (sms_signed a r form)) /\
    in_Tenant m = sm_tenant a /\ in_Agent m = sm_agent a.
Proof.
  unfold sms_handle. case_decide; [no_turn|]. destruct (PostForm r) as [form|]; [|no_turn]. destruct (sms_verify a r form) eqn:Ev; [|no_turn].
  unfold sms_verify in Ev. cbv zeta in Ev. case_decide as Hs; [done|]. apply secret_equal_true in Ev. cbn [negb]. case_decide; [no_turn|].
  cbv zeta. intros Hm. exists form. assert (m = message "sms" (FormValue r "From") (FormValue r "From") (FormValue r "Body") (sm_tenant a) (sm_agent a)) as ->
    by (destruct (handler _); by apply list_elem_of_singleton in Hm). repeat split; try done. naive_solver.
Qed.
Lemma whatsapp_heard decode free a r m : m ∈ turns (whatsapp_handle decode free a r) ->
  exists body, limited (Body r) = Ok body /\ wa_appSecret a <> "" /\ has_prefix "sha256=" (Header r "X-Hub-Signature-256") = true /\
    unhex (drop_bytes 7 (Header r "X-Hub-Signature-256")) = Some (hmac256 (wa_appSecret a) body) /\ in_Tenant m = wa_tenant a /\ in_Agent m = wa_agent a.
Proof.
  unfold whatsapp_handle. case_decide; [case_decide; no_turn|]. case_decide; [no_turn|]. destruct (limited (Body r)) as [body|]; [|no_turn].
  destruct (whatsapp_verify a r body) eqn:Ev; [|no_turn]. unfold whatsapp_verify in Ev. cbv zeta in Ev. case_decide; [done|].
  destruct (negb _ || _) eqn:Ep in Ev; [done|]. apply orb_false_iff in Ep as [Ep _]. apply negb_false_iff in Ep.
  destruct (unhex _) as [provided|] eqn:Eu; [|done]. apply secret_equal_true in Ev. destruct (decode body) as [messages|]; [|no_turn].
  cbn [turns negb]. cbv zeta. intros (l & Hl & Hm)%list_elem_of_In%in_concat. apply list_elem_of_In, list_elem_of_fmap in Hl as (t & -> & Ht).
  apply elem_of_lookup_imap in Ht as (i & msg & -> & _). unfold whatsapp_turn in Hm. apply list_elem_of_In in Hm. case_decide; [by apply elem_of_nil in Hm|].
  destruct (free i); [|by apply elem_of_nil in Hm]. apply list_elem_of_singleton in Hm as ->. exists body. by subst provided.
Qed.
Lemma telegram_heard decode a r m : m ∈ turns (telegram_handle decode a r) ->
  tg_secretToken a <> "" /\ Header r "X-Telegram-Bot-Api-Secret-Token" = tg_secretToken a /\ in_Tenant m = tg_tenant a /\ in_Agent m = tg_agent a.
Proof.
  unfold telegram_handle. case_decide; [no_turn|]. case_decide as Hs; [no_turn|]. destruct (decode _) as [u|]; [|no_turn]. case_decide; [no_turn|].
  cbn [turns]. intros ->%list_elem_of_singleton. destruct (secret_equal _ _) eqn:E; [apply secret_equal_true in E|]; naive_solver.
Qed.
Lemma mattermost_heard a r m : m ∈ turns (mattermost_handle a r) ->
  mm_commandToken a <> "" /\ FormValue r "token" = mm_commandToken a /\ in_Tenant m = mm_tenant a /\ in_Agent m = mm_agent a.
Proof.
  unfold mattermost_handle. case_decide; [no_turn|]. destruct (PostForm r); [|no_turn]. case_decide as Hs; [no_turn|]. case_decide; [no_turn|].
  cbv zeta. intros Hm. assert (m = message "mattermost" (FormValue r "channel_name") (FormValue r "user_name") (FormValue r "text") (mm_tenant a) (mm_agent a)) as ->
    by (destruct (handler _); by apply list_elem_of_singleton in Hm).
  destruct (secret_equal _ _) eqn:E; [apply secret_equal_true in E|]; naive_solver.
Qed.
Lemma discord_heard decode a r m : m ∈ turns (discord_handle decode a r) ->
  String.length (dc_publicKey a) = 32%nat /\ exists body sig, unhex (Header r "X-Signature-Ed25519") = Some sig /\
    ed25519_Verify (dc_publicKey a) (Header r "X-Signature-Timestamp" +:+ body) sig = true /\ (forall b, limited (Body r) = Ok b -> body = b) /\
    in_Tenant m = dc_tenant a /\ in_Agent m = dc_agent a.
Proof.
  unfold discord_handle. case_decide; [no_turn|]. cbv zeta. set (body := match limited (Body r) with Ok body => body | Err _ => "" end).
  destruct (discord_verify a r body) eqn:Ev; [|no_turn]. unfold discord_verify in Ev. case_decide as Hk; [done|]. intros Hin; split; [done|]; revert Hin.
  destruct (unhex _) as [sig|] eqn:Eu; [|done]. case_decide; [done|]. cbv zeta in Ev. case_decide; [done|]. cbn [negb].
  destruct (decode body) as [i|]; [|no_turn]. case_decide; [no_turn|]. case_decide; [no_turn|]. cbn [turns]. intros ->%list_elem_of_singleton.
  exists body, sig. repeat split; try done. intros b Hb. unfold body. by rewrite Hb.
Qed.
Lemma email_heard decode a r m : m ∈ turns (email_handle decode a r).1 ->
  em_authToken a <> "" /\ (Header r "X-Auth-Token" = em_authToken a \/ Header r "Authorization" = "Bearer " +:+ em_authToken a) /\
  in_Tenant m = em_tenant a /\ in_Agent m = em_agent a.
Proof.
  unfold email_handle. case_decide; [no_turn|]. destruct (email_authenticate a r) eqn:Ea; [|no_turn]. cbn [negb]. destruct (Body r) as [body|]; [|no_turn].
  case_decide; [no_turn|]. destruct (decode body) as [mail|]; [|no_turn]. cbv zeta. intros Hm.
  assert (m = message "email" (ie_From mail) (ie_From mail) (ie_Body mail) (em_tenant a) (em_agent a)) as ->
    by (destruct (handler _); by apply list_elem_of_singleton in Hm).
  unfold email_authenticate in Ea. case_decide; [done|]. cbv zeta in Ea. apply secret_equal_true in Ea. split; [done|]. split; [|done].
  case_decide; [|by left]. right. destruct (has_prefix "Bearer " _) eqn:Ep in Ea; [|by rewrite <-Ea in *].
  apply has_prefix_spec in Ep as [t Et]. rewrite Et in Ea |- *. by rewrite <-Ea, (drop_bytes_app "Bearer ").
Qed.

(** C29 [safety]: eight of the adapters that listen for requests let a message through to an agent only when they have a
    secret configured and the request proves knowledge of it: an HMAC of the body it carries (webhook, LINE, WhatsApp),
    of the URL and the form (SMS), an Ed25519 signature of timestamp and body (Discord), or the token itself
    (Telegram, Mattermost, email); and the tenant and the agent it is for are the adapter's own, on the webhook those
    the signed body names.  A secret is configured when it is not empty, for Discord when it is a key of 32 bytes;
    for Discord a body that cannot be read counts as empty. *)
Theorem inbound_authentic :
  (forall decode a r m, m ∈ turns (webhook_handle decode a r) -> wh_signingSecret a <> "" /\
     exists body, limited (Body r) = Ok body /\ Header r "X-Webhook-Signature" = hex (hmac256 (wh_signingSecret a) body) /\
       exists p, decode body = Some p /\ in_Tenant m = wp_Tenant p /\ in_Agent m = wp_Agent p) /\
  (forall decode a r m, m ∈ turns (line_handle decode a r) -> li_channelSecret a <> "" /\ in_Tenant m = li_tenant a /\ in_Agent m = li_agent a /\
     exists body, limited (Body r) = Ok body /\ Header r "X-Line-Signature" = b64 (hmac256 (li_channelSecret a) body)) /\
  (forall a r m, m ∈ turns (sms_handle a r) -> sm_authToken a <> "" /\ in_Tenant m = sm_tenant a /\ in_Agent m = sm_agent a /\
     exists form, PostForm r = Some form /\ Header r "X-Twilio-Signature" = b64 (hmac1 (sm_authToken a) (sms_signed a r form))) /\
  (forall decode free a r m, m ∈ turns (whatsapp_handle decode free a r) -> wa_appSecret a <> "" /\ in_Tenant m = wa_tenant a /\ in_Agent m = wa_agent a /\
     exists body, limited (Body r) = Ok body /\ unhex (drop_bytes 7 (Header r "X-Hub-Signature-256")) = Some (hmac256 (wa_appSecret a) body)) /\
  (forall decode a r m, m ∈ turns (telegram_handle decode a r) -> tg_secretToken a <> "" /\ in_Tenant m = tg_tenant a /\ in_Agent m = tg_agent a /\
     Header r "X-Telegram-Bot-Api-Secret-Token" = tg_secretToken a) /\
  (forall a r m, m ∈ turns (mattermost_handle a r) -> mm_commandToken a <> "" /\ in_Tenant m = mm_tenant a /\ in_Agent m = mm_agent a /\ FormValue r "token" = mm_commandToken a) /\
  (forall decode a r m, m ∈ turns (discord_handle decode a r) -> String.length (dc_publicKey a) = 32%nat /\ in_Tenant m = dc_tenant a /\ in_Agent m = dc_agent a /\
     exists body sig, unhex (Header r "X-Signature-Ed25519") = Some sig /\ (forall b, limited (Body r) = Ok b -> body = b) /\
       ed25519_Verify (dc_publicKey a) (Header r "X-Signature-Timestamp" +:+ body) sig = true) /\
  (forall decode a r m, m ∈ turns (email_handle decode a r).1 -> em_authToken a <> "" /\ in_Tenant m = em_tenant a /\ in_Agent m = em_agent a /\
     (Header r "X-Auth-Token" = em_authToken a \/ Header r "Authorization" = "Bearer " +:+ em_authToken a)).
Proof.
  split; [intros ? ? ? ? ?%webhook_heard; naive_solver|]. split; [intros ? ? ? ? ?%line_heard; naive_solver|].
  split; [intros ? ? ? ?%sms_heard; naive_solver|]. split; [intros ? ? ? ? ? ?%whatsapp_heard; naive_solver|].
  split; [intros ? ? ? ? ?%telegram_heard; naive_solver|]. split; [intros ? ? ? ?%mattermost_heard; naive_solver|].
  split; [intros ? ? ? ? (? & body & sig & ? & ? & ? & ? & ?)%discord_heard; eauto 10|intros ? ? ? ? ?%email_heard; naive_solver].
Qed.

(** Teams takes any credential, Signal and Matrix none: whoever reaches their port speaks for whom they name. *)
Lemma teams_any_credential decode a r body act : Method r = "POST" -> Header r "Authorization" <> "" -> Body r = Ok body ->
  decode (take_bytes maxInboundBody body) = Some act -> ta_Type act = "message" ->
  turns (teams_handle decode a r) = [message "teams" (ta_Conversation act) (ta_From act) (ta_Text act) (te_tenant a) (te_agent a)].
Proof.
  intros Hm Hh Hb Hd Ht. unfold teams_handle. rewrite Hm, Hb. rewrite decide_False by (intros E; by apply E). rewrite decide_False by done.
  cbn [limited]. rewrite Hd. rewrite decide_False; [done|]. intros E. by apply E.
Qed.
Lemma signal_unauthenticated decode a r body env : Method r = "POST" -> Body r = Ok body -> decode body = Some env -> se_Message env <> "" ->
  exists m, turns (signal_handle decode a r) = [m] /\ in_Tenant m = sg_tenant a.
Proof.
  intros Hm Hb Hd Ht. unfold signal_handle. rewrite Hm, Hb, Hd. rewrite decide_False by (intros E; by apply E). rewrite decide_False by done.
  by eexists.
Qed.
End Adapters.

(** ** A LINE event *)

Definition demo_hmac (key text : string) : string := key +:+ "|" +:+ text.
Definition demo_line : Line := {| li_accessToken := "t"; li_channelSecret := "s"; li_tenant := "acme"; li_agent := "helper"; li_apiURL := "https://api" |}.
Definition demo_event : line_event :=
  {| le_Type := "message"; le_ReplyToken := "r"; le_UserID := "U1"; le_GroupID := "G1"; le_RoomID := ""; le_MessageType := "text"; le_Text := "hi" |}.
Definition demo_request (signature : string) : Request :=
  {| Method := "POST"; Header := fun h => if decide (h = "X-Line-Signature") then signature else ""; Body := Ok "events"; PostForm := None;
     FormValue := fun _ => ""; Query := fun _ => ""; Host := ""; RequestURI := ""; over_TLS := false |}.
Definition demo_heard (signature : string) : Outcome :=
  line_handle (fun _ => Ok "hello") (fun _ => Ok (200, "")) demo_hmac (fun s => s) (fun _ => Some [demo_event]) demo_line (demo_request signature).
Definition demo_message : InboundMessage := message "line" "G1" "U1" "hi" "acme" "helper".
Example line_answers : turns (demo_heard "s|events") = [demo_message] /\
  posts (demo_heard "s|events") = [{| p_URL := "https://api/message/reply"; p_Auth := "Bearer t";
    p_Payload := JObj [("replyToken", JStr "r"); ("messages", JArr [JObj [("type", JStr "text"); ("text", JStr "hello")]])] |}] /\
  demo_heard "x" = reject 401 "unauthorized".
Proof. vm_compute. done. Qed.
Lemma inbound_authentic_witness : demo_message ∈ turns (demo_heard "s|events") /\ in_Tenant demo_message = "acme" /\ in_Agent demo_message = "helper".
Proof.
  assert (demo_message ∈ turns (demo_heard "s|events")) as Hin by (rewrite (proj1 line_answers); by left). split; [done|].
  destruct (proj1 (proj2 (inbound_authentic (fun _ => Ok "hello") (fun _ => Ok (200, "")) demo_hmac demo_hmac (fun s => s) Some (fun s => s)
    (fun _ _ _ => true) (fun s => s))) (fun _ => Some [demo_event]) demo_line (demo_request "s|events") demo_message Hin)
    as (_ & Ht & Ha & _).
  split; [exact Ht|exact Ha].
Defined.
