(* ===== verification/Slack.v ===== *)
(** * Slack: the adapter for Slack

    [src/modules/channel/slack]: adapter.go and blocks.go; its chunker is Chunker's.  Events and slash commands
    arrive as signed requests; an event is answered once, however often it is delivered.  HTTP, JSON, the keyed
    hash, the clock, the order in which a map is visited and what the agents answer are arguments. *)
From S2P Require Import Prelude GoStr GoText Channel Pairing.
From S2P Require Chunker Adapters.
Import Adapters (Request, Method, Header, Body, FormValue, limited, secret_equal, message, out).
Local Open Scope go_scope.
Local Open Scope Z_scope.

(** ** Events seen *)

(** When each key is forgotten, in seconds. *)
(* [modules/channel/slack/adapter.go:dedupeCache] *)
Record dedupeCache := { entries : gmap string Z; ttl : duration; maxSize : nat }.
(* [modules/channel/slack/adapter.go:newDedupeCache] *)
Definition newDedupeCache (ttl : duration) (maxSize : nat) : dedupeCache := {| entries := ∅; ttl := ttl; maxSize := maxSize |}.
Definition with_entries (m : gmap string Z) (c : dedupeCache) : dedupeCache := {| entries := m; ttl := ttl c; maxSize := maxSize c |}.
(** A map's keys in the order some range visits them. *)
Class Visit := { visit : gmap string Z -> list string; visit_spec : forall m, visit m ≡ₚ (map_to_list m).*1 }.
Section Dedupe.
Context `{Visit}.
(** Some keys go until there is room for one more. *)
Fixpoint evict (fuel : nat) (limit : nat) (m : gmap string Z) : gmap string Z :=
  match fuel with
  | O => m
  | S fuel => if decide (limit <= size m)%nat then evict fuel limit (match visit m with k :: _ => delete k m | [] => m end) else m
  end.
Definition live (now : Z) (m : gmap string Z) : gmap string Z := filter (fun ke => ~ ke.2 <= now) m.
(* [modules/channel/slack/adapter.go:dedupeCache.seenBefore] *)
Definition seenBefore (now : Z) (key : string) (c : dedupeCache) : dedupeCache * bool :=
  let m := live now (entries c) in
  if decide (m !! key <> None) then (with_entries m c, true)
  else
    let m := evict (S (size m)) (maxSize c) m in
    (with_entries (<[key := now + ttl c / Second]> m) c, false).
End Dedupe.

(** ** Blocks *)

Definition fence : string := "```".
Definition fenced (text : string) : string := fence +:+ nl +:+ text +:+ fence.
(** The sections' texts so far, the text being gathered and whether it is code. *)
Definition block_step (st : list string * string * bool) (line : string) : list string * string * bool :=
  let '(blocks, current, inCode) := st in
  if has_prefix fence line then
    if inCode then (blocks ++ [fenced current], "", false)
    else (if decide (current = "") then blocks else blocks ++ [current], "", true)
  else (blocks, current +:+ line +:+ nl, inCode).
(* [modules/channel/slack/blocks.go:FormatAsBlocks] *)
Definition FormatAsBlocks (text : string) : list string :=
  if decide (text = "") then []
  else
    let '(blocks, current, inCode) := foldl block_step ([], "", false) (split "010"%char text) in
    if decide (current = "") then blocks else blocks ++ [if (inCode : bool) then fenced current else current].

(** ** The adapter *)

(** [routes] is nil until one is set. *)
(* [modules/channel/slack/adapter.go:Adapter] *)
Record Slack := {
  botToken : string; signingSecret : string; tenant : string; agent : string; slackAPI : string; useThreads : bool;
  routes : option (gmap string string); seen : dedupeCache;
}.
(* [modules/channel/slack/adapter.go:New] *)
Definition New (botToken tenant agent : string) : Slack :=
  {| botToken := botToken; signingSecret := ""; tenant := tenant; agent := agent; slackAPI := "https://slack.com/api"; useThreads := false;
     routes := None; seen := newDedupeCache (10 * Minute) (Z.to_nat 10000) |}.
(* [modules/channel/slack/adapter.go:Adapter.SetRoutes] *)
Definition SetRoutes (r : option (gmap string string)) (a : Slack) : Slack :=
  {| botToken := botToken a; signingSecret := signingSecret a; tenant := tenant a; agent := agent a; slackAPI := slackAPI a; useThreads := useThreads a;
     routes := r; seen := seen a |}.
Definition with_seen (c : dedupeCache) (a : Slack) : Slack :=
  {| botToken := botToken a; signingSecret := signingSecret a; tenant := tenant a; agent := agent a; slackAPI := slackAPI a; useThreads := useThreads a;
     routes := routes a; seen := c |}.
(* [modules/channel/slack/adapter.go:Adapter.SetSigningSecret] *)
Definition SetSigningSecret (secret : string) (a : Slack) : Slack :=
  {| botToken := botToken a; signingSecret := secret; tenant := tenant a; agent := agent a; slackAPI := slackAPI a; useThreads := useThreads a;
     routes := routes a; seen := seen a |}.
(* [modules/channel/slack/adapter.go:Adapter.routeFor] *)
Definition routeFor (channelID : string) (a : Slack) : option string := routes a ≫= fun m => m !! channelID.

(** What goes to Slack: a message with its blocks and its thread, a reaction put or taken away. *)
Inductive call :=
  | PostMessage (channel text thread : string) (blocks : list string)
  | AddReaction (channel timestamp emoji : string)
  | RemoveReaction (channel timestamp emoji : string).

Section Adapter.
Context `{Visit}.
(** What the agents answer; Slack's answer to the message at an index: a status, or no answer; HMAC-SHA-256, in hexadecimal. *)
Context (handler : InboundMessage -> Result string) (service : nat -> Result Z) (hmac256_hex : string -> string -> string).

(* [modules/channel/slack/adapter.go:Adapter.verifySlackSignature] *)
Definition verifySlackSignature (now : Z) (a : Slack) (r : Request) (body : string) : bool :=
  if decide (signingSecret a = "") then false
  else
    let ts := Header r "X-Slack-Request-Timestamp" in
    match Atoi ts with
    | None => false
    | Some n =>
        if negb (bool_decide (in_int64 n)) then false
        else
          let d := wrap64 (now - n) in
          if decide (300 < d \/ d < -300) then false
          else secret_equal (Header r "X-Slack-Signature") ("v0=" +:+ hmac256_hex (signingSecret a) ("v0:" +:+ ts +:+ ":" +:+ body))
    end.
(** The chunks up to the first that is not taken. *)
Fixpoint send_chunks (i : nat) (m : OutboundMessage) (chunks : list string) : list call * option error :=
  match chunks with
  | [] => ([], None)
  | chunk :: chunks =>
      let c := PostMessage (out_ChannelID m) chunk (ThreadTS m) (FormatAsBlocks chunk) in
      match service i with
      | Err e => ([c], Some ("slack send: " +:+ e))
      | Ok code => if decide (code <> 200) then ([c], Some ("slack API error " +:+ itoa code))
                   else let '(cs, e) := send_chunks (S i) m chunks in (c :: cs, e)
      end
  end.
(* [modules/channel/slack/adapter.go:Adapter.Send] *)
Definition Send (m : OutboundMessage) : list call * option error := send_chunks 0 m (default [] (Chunker.chunkMessage (out_Text m) (Z.to_nat 3900))).
(* [modules/channel/slack/adapter.go:Adapter.addReaction] *)
Definition addReaction (channel timestamp emoji : string) : list call := if decide (timestamp = "") then [] else [AddReaction channel timestamp emoji].
(* [modules/channel/slack/adapter.go:Adapter.removeReaction] *)
Definition removeReaction (channel timestamp emoji : string) : list call := if decide (timestamp = "") then [] else [RemoveReaction channel timestamp emoji].

(** An envelope, with its event: names and types of the files only. *)
(* [modules/channel/slack/adapter.go:Adapter.handleEvents@291-317] *)
Record Envelope := {
  v_Type : string; v_Challenge : string; v_EventID : string; e_Type : string; e_Subtype : string; e_User : string; e_Text : string; e_Channel : string;
  e_BotID : string; e_ClientMsgID : string; e_TS : string; e_Reaction : string; e_Files : list (string * string);
}.
(** The status and the text said back; the message given to an agent, with what was sent to Slack around it. *)
Record Outcome := { status : Z; said : string; turn : option InboundMessage; calls : list call }.
Definition reject (code : Z) (text : string) : Outcome := {| status := code; said := text; turn := None; calls := [] |}.
Definition ack : Outcome := reject 200 "".
Definition dedupe_key (ev : Envelope) : string :=
  if decide (e_ClientMsgID ev <> "") then e_ClientMsgID ev
  else if decide (v_EventID ev <> "") then v_EventID ev
  else e_User ev +:+ ":" +:+ e_Channel ev +:+ ":" +:+ e_Text ev.
Definition event_text (ev : Envelope) : string :=
  foldl (fun s (f : string * string) => s +:+ nl +:+ "[Attached file: " +:+ f.1 +:+ " (" +:+ f.2 +:+ ")]") (e_Text ev) (e_Files ev).
(** The turn of an event, in its own goroutine. *)
(* [modules/channel/slack/adapter.go:Adapter.handleEvents@387-447] *)
Definition run_event (a : Slack) (ev : Envelope) : InboundMessage * list call :=
  let m := message "slack" (e_Channel ev) (e_User ev) (event_text ev) (tenant a) (default (agent a) (routeFor (e_Channel ev) a)) in
  let thread := if useThreads a then e_TS ev else "" in
  let reply text := (Send (out "slack" (e_Channel ev) text thread)).1 in
  (m, addReaction (e_Channel ev) (e_TS ev) "hourglass_flowing_sand" ++ removeReaction (e_Channel ev) (e_TS ev) "hourglass_flowing_sand" ++
      match handler m with
      | Err _ => reply "Sorry, I encountered an error processing your request."
      | Ok response => reply response
      end).
(** A reaction to a message is logged only. *)
(* [modules/channel/slack/adapter.go:Adapter.handleEvents] *)
Definition handleEvents (decode : string -> option Envelope) (now : Z) (a : Slack) (r : Request) : Slack * Outcome :=
  if decide (Method r <> "POST") then (a, reject 405 "method not allowed")
  else match limited (Body r) with
  | Err _ => (a, reject 500 "read error")
  | Ok body =>
      if negb (verifySlackSignature now a r body) then (a, reject 401 "unauthorized")
      else match decode body with
      | None => (a, reject 400 "invalid JSON")
      | Some ev =>
          if decide (v_Type ev = "url_verification") then (a, reject 200 (v_Challenge ev))
          else if decide (v_Type ev = "event_callback" /\ e_Type ev = "reaction_added") then (a, ack)
          else if decide (v_Type ev <> "event_callback" \/ e_Type ev <> "message") then (a, ack)
          else if decide (e_BotID ev <> "" \/ e_User ev = "" \/ e_Subtype ev <> "") then (a, ack)
          else if decide (Header r "X-Slack-Retry-Num" <> "") then (a, ack)
          else
            let '(c, dup) := seenBefore now (dedupe_key ev) (seen a) in
            let a := with_seen c a in
            if (dup : bool) then (a, ack)
            else let '(m, cs) := run_event a ev in (a, {| status := 200; said := ""; turn := Some m; calls := cs |})
      end
  end.
(* [modules/channel/slack/adapter.go:Adapter.handleSlashCommands] *)
Definition handleSlashCommands (now : Z) (a : Slack) (r : Request) : Slack * Outcome :=
  if decide (Method r <> "POST") then (a, reject 405 "method not allowed")
  else match limited (Body r) with
  | Err _ => (a, reject 500 "read error")
  | Ok body =>
      if negb (verifySlackSignature now a r body) then (a, reject 401 "unauthorized")
      else
        let text := TrimSpace (FormValue r "text") in
        if decide (text = "status") then (a, reject 200 "Cyntr is running. Use the dashboard for full status.")
        else if has_prefix "switch " text then
          let agentName := TrimPrefix text "switch " in
          (SetRoutes (Some (<[FormValue r "channel_id" := agentName]> (default ∅ (routes a)))) a, reject 200 ("Switched this channel to agent: " +:+ agentName))
        else if decide (text = "clear" \/ text = "reset") then (a, reject 200 "Session cleared. Starting fresh conversation.")
        else (a, reject 200 "Available commands: status, switch <agent>, clear")
  end.
End Adapter.

(** ** The cache *)

Section CacheLemmas.
Context `{Visit}.
Lemma live_lookup now m k e : live now m !! k = Some e <-> m !! k = Some e /\ now < e.
Proof. unfold live. rewrite map_lookup_filter_Some. cbn. split; intros [? ?]; (split; [done|lia]). Qed.
Lemma live_size now m : (size (live now m) <= size m)%nat.
Proof. apply map_subseteq_size, map_filter_subseteq. Qed.
Lemma evict_room fuel limit m : (size m < limit)%nat -> evict fuel limit m = m.
Proof. intros Hm. destruct fuel; [done|]. cbn [evict]. by rewrite decide_False by lia. Qed.
Lemma evict_bound fuel limit : forall m, (size m <= fuel)%nat -> (0 < limit)%nat -> (size (evict fuel limit m) < limit)%nat.
Proof.
  induction fuel as [|fuel IH]; intros m Hm Hl; cbn [evict]; [lia|]. case_decide; [|lia]. apply IH; [|done].
  destruct (visit m) as [|k l] eqn:E.
  - pose proof (visit_spec m) as Hp. rewrite E in Hp. apply Permutation_nil_l in Hp. symmetry in Hp. apply fmap_nil_inv, map_to_list_empty_iff in Hp. subst m. rewrite map_size_empty in *. lia.
  - assert (k ∈ (map_to_list m).*1) as Hk by (rewrite <-visit_spec, E; by left).
    apply list_elem_of_fmap in Hk as ([k' e] & -> & Hin%elem_of_map_to_list). cbn [fst]. rewrite map_size_delete_Some by eauto. lia.
Qed.

(** The cache never holds more than its limit. *)
Lemma seenBefore_bound now key c : (0 < maxSize c)%nat -> (size (entries c) <= maxSize c)%nat ->
  (size (entries (seenBefore now key c).1) <= maxSize c)%nat.
Proof.
  intros Hl Hs. unfold seenBefore. cbv zeta. case_decide as Hk; cbn [fst entries with_entries].
  - pose proof (live_size now (entries c)). lia.
  - assert (size (evict (S (size (live now (entries c)))) (maxSize c) (live now (entries c))) < maxSize c)%nat as He by (apply evict_bound; [lia|done]).
    revert He. generalize (evict (S (size (live now (entries c)))) (maxSize c) (live now (entries c))) as m. intros m He.
    rewrite map_size_insert. destruct (m !! key); cbn; lia.
Qed.
(** With room in the cache, a key that is there stays until it expires, and a call adds one entry at most. *)
Lemma seenBefore_keeps now key c k e : entries c !! k = Some e -> now < e -> (size (entries c) < maxSize c)%nat ->
  entries (seenBefore now key c).1 !! k = Some e /\ (size (entries (seenBefore now key c).1) <= S (size (entries c)))%nat /\
  maxSize (seenBefore now key c).1 = maxSize c.
Proof.
  intros Hk He Hs. unfold seenBefore. cbv zeta. pose proof (live_size now (entries c)) as Hlive. assert (live now (entries c) !! k = Some e) as Hlk by by apply live_lookup.
  case_decide as Hd; cbn [fst entries with_entries maxSize]; [split; [done|]; split; [lia|done]|].
  rewrite evict_room by lia. rewrite lookup_insert_ne; [|intros ->; by rewrite Hlk in Hd]. split; [done|]. split; [|done].
  rewrite map_size_insert. destruct (_ !! key); cbn; lia.
Qed.
Lemma seenBefore_new now key c c' : seenBefore now key c = (c', false) -> (size (entries c) < maxSize c)%nat ->
  entries c' !! key = Some (now + ttl c / Second) /\ (size (entries c') <= S (size (entries c)))%nat /\ maxSize c' = maxSize c.
Proof.
  unfold seenBefore. cbv zeta. case_decide; [done|]. intros [= <-] Hs. cbn [entries with_entries maxSize]. pose proof (live_size now (entries c)).
  rewrite decide_False by lia. rewrite lookup_insert_eq. split; [done|]. split; [|done]. rewrite map_size_insert. destruct (live now (entries c) !! key); cbn; lia.
Qed.
Lemma seenBefore_again now key c e : entries c !! key = Some e -> now < e -> (seenBefore now key c).2 = true.
Proof. intros Hk He. unfold seenBefore. cbv zeta. rewrite decide_True; [done|]. assert (live now (entries c) !! key = Some e) as -> by by apply live_lookup. done. Qed.
End CacheLemmas.

(** ** Each event once *)

Section Once.
Context `{Visit} (handler : InboundMessage -> Result string) (service : nat -> Result Z) (hmac256_hex : string -> string -> string).
Context (decode : string -> option Envelope).
Notation handle := (handleEvents handler service hmac256_hex decode).

(** The adapter after deliveries, each with the second it comes in. *)
Definition deliver (l : list (Z * Request)) (a : Slack) : Slack := foldl (fun a tr => (handle tr.1 a tr.2).1) a l.
(** Either the event is not for the cache, which stays, or it is looked up in it. *)
Lemma handle_cases now a r : (seen (handle now a r).1 = seen a /\ turn (handle now a r).2 = None) \/
  exists body ev, limited (Body r) = Ok body /\ verifySlackSignature hmac256_hex now a r body = true /\ decode body = Some ev /\
    (handle now a r).1 = with_seen (seenBefore now (dedupe_key ev) (seen a)).1 a /\
    turn (handle now a r).2 = (if (seenBefore now (dedupe_key ev) (seen a)).2 then None
                               else Some (run_event handler service (with_seen (seenBefore now (dedupe_key ev) (seen a)).1 a) ev).1).
Proof.
  unfold handleEvents. case_decide; [by left|]. destruct (limited (Body r)) as [body|] eqn:Eb; [|by left].
  destruct (verifySlackSignature _ _ _ _ _) eqn:Ev; [|by left]. cbn [negb]. destruct (decode body) as [ev|] eqn:Ed; [|by left].
  repeat (case_decide; [by left|]). right. exists body, ev. destruct (seenBefore now (dedupe_key ev) (seen a)) as [c dup]. cbn [fst snd]. by destruct dup.
Qed.
Lemma deliver_keeps l : forall a k e, entries (seen a) !! k = Some e -> (forall tr, tr ∈ l -> tr.1 < e) ->
  (size (entries (seen a)) + length l < maxSize (seen a))%nat ->
  entries (seen (deliver l a)) !! k = Some e.
Proof.
  induction l as [|tr l IH]; intros a k e Hk Ht Hs; [done|]. change (deliver (tr :: l) a) with (deliver l (handle tr.1 a tr.2).1).
  assert (tr.1 < e) as Htr by (apply Ht; by left). assert (forall x, x ∈ l -> x.1 < e) as Hl by (intros x Hx; apply Ht; by right). cbn [length] in Hs.
  destruct (handle_cases tr.1 a tr.2) as [[Hc _]|(body & ev & _ & _ & _ & -> & _)].
  - apply IH; [by rewrite Hc|done|rewrite Hc; lia].
  - destruct (seenBefore_keeps tr.1 (dedupe_key ev) (seen a) k e Hk Htr ltac:(lia)) as (Hk' & Hs' & Hm).
    apply IH; [done|done|]. cbn [seen with_seen]. rewrite Hm. lia.
Qed.

(** C30 [safety]: once an event has been given to an agent, no delivery of it within the next ten minutes is given to one
    again, whatever arrives in between, as long as the cache of ten thousand keys has room for what came; and an event
    is given to an agent only when its request is signed with the app's secret over the body and a timestamp within
    five minutes of the clock, for the adapter's own tenant. *)
Theorem events_once {now a r m} (Hroom : (size (entries (seen a)) < maxSize (seen a))%nat) (Hturn : turn (handle now a r).2 = Some m) :
  (signingSecret a <> "" /\ in_Tenant m = tenant a /\
   exists body n, limited (Body r) = Ok body /\ Atoi (Header r "X-Slack-Request-Timestamp") = Some n /\ -300 <= wrap64 (now - n) <= 300 /\
     Header r "X-Slack-Signature" = "v0=" +:+ hmac256_hex (signingSecret a) ("v0:" +:+ Header r "X-Slack-Request-Timestamp" +:+ ":" +:+ body)) /\
  forall l t r' body body' ev ev', limited (Body r) = Ok body -> decode body = Some ev -> limited (Body r') = Ok body' -> decode body' = Some ev' ->
    dedupe_key ev' = dedupe_key ev -> (forall tr, tr ∈ l -> tr.1 < now + ttl (seen a) / Second) -> t < now + ttl (seen a) / Second ->
    (size (entries (seen a)) + 1 + length l < maxSize (seen a))%nat ->
    turn (handle t (deliver l (handle now a r).1) r').2 = None.
Proof.
  destruct (handle_cases now a r) as [[_ Hn]|(body & ev & Hb & Hv & Hd & Ha & Ht)]; [by rewrite Hn in Hturn|].
  rewrite Ht in Hturn. destruct (seenBefore now (dedupe_key ev) (seen a)) as [c dup] eqn:Es. cbn [fst snd] in *. destruct dup; [done|]. injection Hturn as <-. split.
  - unfold verifySlackSignature in Hv. case_decide; [done|]. cbv zeta in Hv. destruct (Atoi _) as [n|] eqn:En; [|done].
    destruct (negb _); [done|]. case_decide; [done|]. apply Adapters.secret_equal_true in Hv. split; [done|]. split; [done|].
    exists body, n. split; [done|]. split; [done|]. split; [lia|done].
  - intros l t r' body1 body' ev1 ev' Hb1 Hd1 Hb' Hd' Hkey Hl Hlt Hsize. rewrite Hb in Hb1. injection Hb1 as <-. rewrite Hd in Hd1. injection Hd1 as <-.
    destruct (seenBefore_new _ _ _ _ Es Hroom) as (Hk & Hs & Hm). rewrite Ha.
    assert (entries (seen (deliver l (with_seen c a))) !! dedupe_key ev = Some (now + ttl (seen a) / Second)) as Hin
      by (apply deliver_keeps; cbn [seen with_seen]; [done|done|rewrite Hm; lia]).
    destruct (handle_cases t (deliver l (with_seen c a)) r') as [[_ Hn]|(b2 & ev2 & Hb2 & _ & Hd2 & _ & Ht2)]; [done|].
    rewrite Hb' in Hb2. injection Hb2 as <-. rewrite Hd' in Hd2. injection Hd2 as <-. rewrite Ht2, Hkey. by rewrite (seenBefore_again _ _ _ _ Hin Hlt).
Qed.
End Once.

(** ** One event *)

#[local] Instance demo_visit : Visit := {| visit := fun m => (map_to_list m).*1; visit_spec := fun m => reflexivity _ |}.
Definition demo_hash (key text : string) : string := key +:+ "|" +:+ text.
Definition demo_slack : Slack := SetSigningSecret "s" (New "xoxb" "acme" "helper").
Definition demo_envelope : Envelope :=
  {| v_Type := "event_callback"; v_Challenge := ""; v_EventID := "E1"; e_Type := "message"; e_Subtype := ""; e_User := "U1"; e_Text := "hi"; e_Channel := "C1";
     e_BotID := ""; e_ClientMsgID := ""; e_TS := "1.5"; e_Reaction := ""; e_Files := [("a.txt", "text/plain")] |}.
Definition demo_request : Request :=
  {| Adapters.Method := "POST"; Adapters.Body := Ok "event"; Adapters.PostForm := None; Adapters.FormValue := fun _ => ""; Adapters.Query := fun _ => "";
     Adapters.Header := fun h => if decide (h = "X-Slack-Request-Timestamp") then "1000" else if decide (h = "X-Slack-Signature") then "v0=s|v0:1000:event" else "";
     Adapters.Host := ""; Adapters.RequestURI := ""; Adapters.over_TLS := false |}.
Definition demo_handle := handleEvents (fun _ => Ok "hello") (fun _ => Ok 200) demo_hash (fun _ => Some demo_envelope).
Definition demo_message : InboundMessage := message "slack" "C1" "U1" ("hi" +:+ nl +:+ "[Attached file: a.txt (text/plain)]") "acme" "helper".
Example event_answered : turn (demo_handle 1010 demo_slack demo_request).2 = Some demo_message /\
  calls (demo_handle 1010 demo_slack demo_request).2 =
    [AddReaction "C1" "1.5" "hourglass_flowing_sand"; RemoveReaction "C1" "1.5" "hourglass_flowing_sand"; PostMessage "C1" "hello" "" ["hello" +:+ nl]].
Proof. vm_compute. done. Qed.
(** A block of code on one line is shown as nothing. *)
Example inline_fence_lost : FormatAsBlocks (fence +:+ "ls" +:+ fence) = [].
Proof. vm_compute. reflexivity. Qed.
Lemma events_once_witness : turn (demo_handle 1010 demo_slack demo_request).2 = Some demo_message /\
  turn (demo_handle 1200 (demo_handle 1010 demo_slack demo_request).1 demo_request).2 = None.
Proof.
  assert (turn (demo_handle 1010 demo_slack demo_request).2 = Some demo_message) as Ht by (exact (proj1 event_answered)). split; [exact Ht|].
  apply (proj2 (events_once (fun _ => Ok "hello") (fun _ => Ok 200) demo_hash (fun _ => Some demo_envelope) (a := demo_slack) (r := demo_request)
    ltac:(vm_compute; lia) Ht) [] 1200 demo_request "event" "event" demo_envelope demo_envelope).
  - reflexivity.
  - reflexivity.
  - reflexivity.
  - reflexivity.
  - reflexivity.
  - intros tr Htr. exfalso. inversion Htr.
  - vm_compute. reflexivity.
  - vm_compute. lia.
Defined.
