(* ===== verification/Nostr.v ===== *)
(** * Nostr: the adapter for Nostr, and its signatures

    [src/modules/channel/nostr/adapter.go].  Events of the relays become messages, answers are published as signed
    events; the BIP-340 signatures are computed step by step on the scalars and points of the secp256k1 library,
    an interface here with the laws of a cyclic group.  SHA-256, random bytes, JSON, the clock, the websockets and
    what the agents answer are arguments. *)
From S2P Require Import Prelude GoStr GoText Channel Pairing.
From S2P Require Adapters.
Import Adapters (message, out).
Local Open Scope go_scope.
Local Open Scope Z_scope.

(** ** Bytes *)

Notation bytes := (list Z).
Definition is_bytes (l : bytes) : Prop := Forall (fun b => 0 <= b < 256) l.
(** Big-endian, on [n] bytes. *)
Fixpoint be (n : nat) (z : Z) : bytes := match n with O => [] | S n => be n (z / 256) ++ [z mod 256] end.
#[global] Arguments be : simpl never.
Definition of_be (l : bytes) : Z := foldl (fun acc b => acc * 256 + b) 0 l.
Definition hexval (c : ascii) : option Z :=
  let n := N_of_ascii c in
  if decide ((48 <= n <= 57)%N) then Some (Z.of_N n - 48)
  else if decide ((97 <= n <= 102)%N) then Some (Z.of_N n - 87)
  else if decide ((65 <= n <= 70)%N) then Some (Z.of_N n - 55) else None.
(** [hex.EncodeToString] and [hex.DecodeString]. *)
Fixpoint hex_encode (l : bytes) : string :=
  match l with [] => "" | b :: l => String (hexdigit (Z.to_N (b / 16))) (String (hexdigit (Z.to_N (b mod 16))) (hex_encode l)) end.
Fixpoint hex_decode (s : string) : option bytes :=
  match s with
  | "" => Some []
  | String _ "" => None
  | String a (String b s) => x ← hexval a; y ← hexval b; l ← hex_decode s; Some (x * 16 + y :: l)
  end.

(** ** The library of the curve *)

(** Points in affine coordinates; scalars are the integers below [order], coordinates those below [field]. *)
Class Secp := {
  point : Type;
  order : Z;
  field : Z;
  (** [ScalarBaseMultNonConst], [ScalarMultNonConst], [AddNonConst]. *)
  base : Z -> point;
  mult : Z -> point -> point;
  add : point -> point -> point;
  X : point -> Z;
  Y : point -> Z;
  (** [DecompressY] with an even ordinate. *)
  lift_even : Z -> option point;
}.
(** What the library documents: the multiples of the base point are a cyclic group; a point and its inverse share
    their abscissa, and one of the two ordinates is odd; coordinates and scalars fit in 32 bytes. *)
Class SecpLaws `{Secp} := {
  order_bound : 1 < order < 2 ^ 256;
  field_bound : 1 < field < 2 ^ 256;
  X_range : forall d, 0 < d < order -> 0 <= X (base d) < field;
  mult_base : forall a b, 0 <= a < order -> 0 <= b < order -> mult a (base b) = base ((a * b) mod order);
  add_base : forall a b, 0 <= a < order -> 0 <= b < order -> add (base a) (base b) = base ((a + b) mod order);
  X_neg : forall d, 0 < d < order -> X (base (order - d)) = X (base d);
  Y_neg : forall d, 0 < d < order -> Z.odd (Y (base (order - d))) = negb (Z.odd (Y (base d)));
  lift_base : forall d, 0 < d < order -> Z.odd (Y (base d)) = false -> lift_even (X (base d)) = Some (base d);
}.

(** ** Events and the adapter *)

(* [modules/channel/nostr/adapter.go:kindTextNote@52-55] *)
Definition kindTextNote : Z := 1.
Definition kindDM : Z := 4.
(* [modules/channel/nostr/adapter.go:Event] *)
Record Event := { ID : string; PubKey : string; CreatedAt : Z; Kind : Z; Tags : list (list string); Content : string; Sig : string }.
(** [priv] is the signing key's scalar; [conns] are the relays connected. *)
(* [modules/channel/nostr/adapter.go:Adapter] *)
Record Adapter := { relays : list string; tenant : string; agent : string; priv : option Z; pubHex : string; conns : gset string; closed : bool }.

Section Nostr.
Context `{Secp} (sha256 : bytes -> bytes) (utf8 : string -> bytes).
(** [json.Marshal] of tags and of a text; what the agents answer. *)
Context (marshal_tags : list (list string) -> string) (marshal_text : string -> string) (handler : InboundMessage -> Result string).

Definition new_adapter (rs : list string) (tenant agent : string) (priv : option Z) (pub : string) : Adapter :=
  {| relays := filter (fun r => r <> "") (TrimSpace <$> rs); tenant := if decide (tenant = "") then "default" else tenant;
     agent := if decide (agent = "") then "assistant" else agent; priv := priv; pubHex := pub; conns := ∅; closed := false |}.
(** The cause is left out of the message of a key refused. *)
(* [modules/channel/nostr/adapter.go:New] *)
Definition New (rs : list string) (privKeyHex tenant agent : string) : Result Adapter :=
  let a := new_adapter rs tenant agent in
  let key := TrimSpace privKeyHex in
  if decide (key = "") then Ok (a None "")
  else match hex_decode key with
  | Some kb =>
      if decide (length kb = 32%nat) then let d := of_be kb mod order in Ok (a (Some d) (hex_encode (be 32 (X (base d)))))
      else Err "nostr: invalid private key hex (want 32-byte hex)"
  | None => Err "nostr: invalid private key hex (want 32-byte hex)"
  end.

(** ** Signatures *)

(* [modules/channel/nostr/adapter.go:taggedHash] *)
Definition taggedHash (tag : string) (msgs : list bytes) : bytes := let th := sha256 (utf8 tag) in sha256 (th ++ th ++ concat msgs).
Definition xor_bytes (a b : bytes) : bytes := zip_with Z.lxor a b.
(** A scalar made even: the one of the pair whose point has an even ordinate. *)
Definition even_scalar (d : Z) : Z := if Z.odd (Y (base d)) then (order - d) mod order else d.
(** [aux] are the random bytes, or the error of reading them. *)
(* [modules/channel/nostr/adapter.go:signEventHash] *)
Definition signEventHash (aux : Result bytes) (key : Z) (msg : bytes) : Result bytes :=
  if decide (length msg <> 32%nat) then Err ("message must be 32 bytes, got " +:+ itoa (Z.of_nat (length msg)))
  else if decide (key = 0) then Err "invalid (zero) private key"
  else
    let d := even_scalar key in
    let pBytes := be 32 (X (base key)) in
    aux <-? wrap_err "read aux rand" aux ;;
    let t := xor_bytes (be 32 d) (taggedHash "BIP0340/aux" [aux]) in
    let k0 := of_be (taggedHash "BIP0340/nonce" [t; pBytes; msg]) mod order in
    if decide (k0 = 0) then Err "derived zero nonce"
    else
      let k := even_scalar k0 in
      let rBytes := be 32 (X (base k0)) in
      let e := of_be (taggedHash "BIP0340/challenge" [rBytes; pBytes; msg]) mod order in
      Ok (rBytes ++ be 32 (((e * d) mod order + k) mod order)).
(* [modules/channel/nostr/adapter.go:verifyEventSig] *)
Definition verifyEventSig (pubXHex : string) (msg sig : bytes) : bool :=
  if decide (length sig <> 64%nat \/ length msg <> 32%nat) then false
  else match hex_decode pubXHex with
  | None => false
  | Some pxBytes =>
      if decide (length pxBytes <> 32%nat \/ field <= of_be pxBytes) then false
      else match lift_even (of_be pxBytes) with
      | None => false
      | Some P =>
          let rx := of_be (take 32 sig) in
          let s := of_be (drop 32 sig) in
          if decide (field <= rx \/ order <= s) then false
          else
            let e := of_be (taggedHash "BIP0340/challenge" [take 32 sig; pxBytes; msg]) mod order in
            let R := add (base s) (mult ((order - e) mod order) P) in
            if Z.odd (Y R) then false else bool_decide (X R = rx)
      end
  end.

(** ** Publishing *)

(* [modules/channel/nostr/adapter.go:eventID] *)
Definition eventID (ev : Event) : bytes :=
  sha256 (utf8 ("[0," +:+ quote (PubKey ev) +:+ "," +:+ itoa (CreatedAt ev) +:+ "," +:+ itoa (Kind ev) +:+ "," +:+
                marshal_tags (Tags ev) +:+ "," +:+ marshal_text (Content ev) +:+ "]")).
(* [modules/channel/nostr/adapter.go:Adapter.BuildEvent] *)
Definition BuildEvent (aux : Result bytes) (now : Z) (a : Adapter) (kind : Z) (content : string) (tags : list (list string)) : Result Event :=
  let ev id sig := {| ID := id; PubKey := pubHex a; CreatedAt := now; Kind := kind; Tags := tags; Content := content; Sig := sig |} in
  let id := eventID (ev "" "") in
  match priv a with
  | None => Ok (ev (hex_encode id) "")
  | Some key => sig <-? wrap_err "nostr sign" (signEventHash aux key id) ;; Ok (ev (hex_encode id) (hex_encode sig))
  end.
(** What goes to the relays, in the order they are visited: an event, and whether each took it. *)
Record Published := { p_event : option Event; p_relays : list string }.
Definition unpublished (e : error) : Published * option error := ({| p_event := None; p_relays := [] |}, Some e).
Context (visit : gset string -> list string) (write : string -> option error).
(* [modules/channel/nostr/adapter.go:Adapter.Send] *)
Definition Send (aux : Result bytes) (now : Z) (a : Adapter) (m : OutboundMessage) : Published * option error :=
  if decide (TrimSpace (out_Text m) = "") then unpublished "nostr: empty message"
  else if priv a is None then unpublished "nostr: no signing key configured; cannot publish"
  else match BuildEvent aux now a kindTextNote (out_Text m) [] with
  | Err e => unpublished ("nostr build event: " +:+ e)
  | Ok ev =>
      if closed a then unpublished "nostr: adapter stopped"
      else
        let cs := visit (conns a) in
        if decide (cs = []) then unpublished "nostr: no connected relays"
        else
          ({| p_event := Some ev; p_relays := cs |},
           if decide (filter (fun c => write c = None) cs = [])
           then Some ("nostr publish failed on all relays: " +:+ default "" (last (omap write cs))) else None)
  end.

(** ** Receiving *)

(** A frame: its first element when a string, how many elements, and the event in the third when it is one. *)
Record Frame := { f_type : option string; f_len : nat; f_event : option Event }.
(* [modules/channel/nostr/adapter.go:Adapter.dispatch] *)
Definition dispatch (aux : Result bytes) (now : Z) (a : Adapter) (ev : Event) : InboundMessage * option (Published * option error) :=
  let m := message "nostr" (PubKey ev) (PubKey ev) (Content ev) (tenant a) (agent a) in
  (m, match handler m with
      | Err _ => None
      | Ok response => if decide (TrimSpace response = "") then None else Some (Send aux now a (out "nostr" "" response ""))
      end).
(* [modules/channel/nostr/adapter.go:Adapter.handleFrame] *)
Definition handleFrame (decode : string -> option Frame) (aux : Result bytes) (now : Z) (a : Adapter) (data : string) :
    option (InboundMessage * option (Published * option error)) :=
  match decode data with
  | None => None
  | Some f =>
      if decide (f_type f <> Some "EVENT" \/ (f_len f < 3)%nat) then None
      else match f_event f with
      | None => None
      | Some ev =>
          if decide (Kind ev <> kindTextNote /\ Kind ev <> kindDM) then None
          else if decide (pubHex a <> "" /\ PubKey ev = pubHex a) then None
          else Some (dispatch aux now a ev)
      end
  end.

(** ** Relays *)

(* [modules/channel/nostr/adapter.go:Adapter.relayLoop@231-234] *)
Definition baseBackoff : duration := 500 * Millisecond.
Definition maxBackoff : duration := 30 * Second.
Definition with_conns (c : gset string) (stop : bool) (a : Adapter) : Adapter :=
  {| relays := relays a; tenant := tenant a; agent := agent a; priv := priv a; pubHex := pubHex a; conns := c; closed := stop |}.
(** One relay's loop: waiting [wait] before the next dial, or connected, or over. *)
Inductive loop := Dialling (wait : duration) | Reading | Over.
(** The adapter, and the loop of each relay started. *)
Record Net := { adapter : Adapter; loops : gmap string loop }.
Definition set_loop (r : string) (l : loop) (a : Adapter) (n : Net) : Net := {| adapter := a; loops := <[r := l]> (loops n) |}.
(** What happens: a relay cannot be dialled, it is, after the adapter was stopped or before, its connection ends,
    its loop notices the end, and the adapter stops. *)
(* [modules/channel/nostr/adapter.go:Adapter.relayLoop] *)
Inductive net_step : Net -> Net -> Prop :=
  | dial_fails n r w : loops n !! r = Some (Dialling w) -> net_step n (set_loop r (Dialling (Z.min (w * 2) maxBackoff)) (adapter n) n)
  | dial_works n r w : loops n !! r = Some (Dialling w) -> closed (adapter n) = false ->
      net_step n (set_loop r Reading (with_conns ({[r]} ∪ conns (adapter n)) false (adapter n)) n)
  | dial_late n r w : loops n !! r = Some (Dialling w) -> closed (adapter n) = true -> net_step n (set_loop r Over (adapter n) n)
  | conn_ends n r : loops n !! r = Some Reading ->
      net_step n (set_loop r (Dialling baseBackoff) (with_conns (conns (adapter n) ∖ {[r]}) (closed (adapter n)) (adapter n)) n)
  | loop_ends n r w : loops n !! r = Some (Dialling w) -> net_step n (set_loop r Over (adapter n) n)
  | stops n : net_step n {| adapter := with_conns ∅ true (adapter n); loops := loops n |}.
(** [Start] runs a loop for each relay. *)
(* [modules/channel/nostr/adapter.go:Adapter.Start] *)
Definition Start (a : Adapter) : Result Net :=
  if closed a then Err "nostr: adapter already stopped"
  else if decide (relays a = []) then Err "nostr: no relays configured"
  else Ok {| adapter := a; loops := list_to_map ((fun r => (r, Dialling baseBackoff)) <$> relays a) |}.
End Nostr.

(** ** Bytes and numbers *)

Lemma be_length n : forall z, length (be n z) = n.
Proof. induction n as [|n IH]; intros z; [done|]. unfold be; fold be. rewrite length_app, IH. cbn. lia. Qed.
Lemma be_bytes n : forall z, is_bytes (be n z).
Proof. induction n as [|n IH]; intros z; [constructor|]. unfold be; fold be. apply Forall_app. split; [apply IH|]. constructor; [|constructor]. apply Z.mod_pos_bound. lia. Qed.
Lemma of_be_app l b : of_be (l ++ [b]) = of_be l * 256 + b.
Proof. unfold of_be. by rewrite foldl_app. Qed.
(** Numbers survive their bytes, as long as they fit. *)
Lemma of_be_be n : forall z, 0 <= z < 256 ^ Z.of_nat n -> of_be (be n z) = z.
Proof.
  induction n as [|n IH]; intros z Hz; [change (0 = z); change (0 <= z < 1) in Hz; lia|]. unfold be; fold be. rewrite of_be_app, IH.
  - pose proof (Z.div_mod z 256). lia.
  - rewrite Nat2Z.inj_succ, Z.pow_succ_r in Hz by lia. split; [apply Z.div_pos; lia|]. apply Z.div_lt_upper_bound; lia.
Qed.
Lemma of_be_32 z : 0 <= z < 2 ^ 256 -> of_be (be 32 z) = z.
Proof. intros Hz. apply of_be_be. by replace (256 ^ Z.of_nat 32) with (2 ^ 256) by reflexivity. Qed.
Lemma hexval_digit d : 0 <= d < 16 -> hexval (hexdigit (Z.to_N d)) = Some d.
Proof.
  intros Hd. assert (d ∈ (Z.of_nat <$> seq 0 16)) as Hin by (apply list_elem_of_fmap; exists (Z.to_nat d); split; [lia|apply elem_of_seq; lia]).
  revert d Hin Hd. assert (Forall (fun d => hexval (hexdigit (Z.to_N d)) = Some d) (Z.of_nat <$> seq 0 16)) as Hall by (repeat constructor).
  rewrite Forall_forall in Hall. intros d Hin _. by apply Hall.
Qed.
Lemma hex_decode_encode l : is_bytes l -> hex_decode (hex_encode l) = Some l.
Proof.
  induction 1 as [|b l Hb _ IH]; [done|]. cbn [hex_encode hex_decode].
  rewrite !hexval_digit by (split; [apply Z.div_pos || apply Z.mod_pos_bound; lia|first [apply Z.div_lt_upper_bound; lia|apply Z.mod_pos_bound; lia]]).
  cbn. rewrite IH. cbn. do 2 f_equal. pose proof (Z.div_mod b 16). lia.
Qed.

(** ** Signing and verifying *)

Section Signatures.
Context `{HS : Secp} `{!SecpLaws} (sha256 : bytes -> bytes) (utf8 : string -> bytes).

(** The even scalar's point: the same abscissa, an even ordinate. *)
Lemma even_scalar_spec d : 0 < d < order -> 0 < even_scalar d < order /\ X (base (even_scalar d)) = X (base d) /\ Z.odd (Y (base (even_scalar d))) = false.
Proof.
  intros Hd. unfold even_scalar. destruct (Z.odd (Y (base d))) eqn:Eo; [|done]. rewrite Z.mod_small by lia. split; [lia|].
  split; [by apply X_neg|]. rewrite Y_neg by done. by rewrite Eo.
Qed.
(** What a signature is: the nonce's abscissa, then the response to the challenge. *)
Lemma sign_shape aux key msg sig : 0 <= key < order -> signEventHash sha256 utf8 aux key msg = Ok sig ->
  length msg = 32%nat /\ 0 < key /\ exists k, 0 < k < order /\ Z.odd (Y (base k)) = false /\
    let e := of_be (taggedHash sha256 utf8 "BIP0340/challenge" [be 32 (X (base k)); be 32 (X (base key)); msg]) mod order in
    sig = be 32 (X (base k)) ++ be 32 (((e * even_scalar key) mod order + k) mod order).
Proof.
  intros Hkey. unfold signEventHash. case_decide as Hl; [done|]. case_decide as H0; [done|]. cbv zeta.
  intros (ax & _ & Hs)%rbind_Ok. case_decide as Hk; [done|]. injection Hs as <-.
  set (k0 := of_be _ mod order) in *. pose proof order_bound. assert (0 < k0 < order) as Hk0 by (pose proof (Z.mod_pos_bound (of_be (taggedHash sha256 utf8 "BIP0340/nonce"
    [xor_bytes (be 32 (even_scalar key)) (taggedHash sha256 utf8 "BIP0340/aux" [ax]); be 32 (X (base key)); msg])) order); subst k0; lia).
  destruct (even_scalar_spec k0 Hk0) as (Hr & HX & HY). split; [lia|]. split; [lia|]. exists (even_scalar k0). split; [done|]. split; [done|]. by rewrite HX.
Qed.
(** Under the challenge, the response's point less the key's is the nonce's. *)
Lemma response_point d k e : 0 < d < order -> 0 < k < order -> 0 <= e < order ->
  add (base (((e * d) mod order + k) mod order)) (mult ((order - e) mod order) (base d)) = base k.
Proof.
  intros Hd Hk He. pose proof order_bound. pose proof (Z.mod_pos_bound ((e * d) mod order + k) order). pose proof (Z.mod_pos_bound (order - e) order).
  rewrite mult_base by lia. pose proof (Z.mod_pos_bound ((order - e) mod order * d) order). rewrite add_base by lia. f_equal.
  rewrite Z.mul_mod_idemp_l by lia. rewrite <-Z.add_mod by lia. rewrite <-Z.add_assoc, Z.add_mod_idemp_l by lia.
  replace (e * d + (k + (order - e) * d)) with (k + d * order) by lia. rewrite Z.mod_add by lia. apply Z.mod_small. lia.
Qed.

(** The signature of a message under a key verifies under the key's abscissa. *)
Lemma sign_verifies aux key msg sig : 0 <= key < order -> signEventHash sha256 utf8 aux key msg = Ok sig ->
  verifyEventSig sha256 utf8 (hex_encode (be 32 (X (base key)))) msg sig = true.
Proof.
  intros Hkey Hs. destruct (sign_shape _ _ _ _ Hkey Hs) as (Hl & Hpos & k & Hk & HYk & Hsig). cbv zeta in Hsig.
  set (e := of_be _ mod order) in Hsig. pose proof order_bound. pose proof field_bound. 
  assert (0 <= X (base key) < field) as HX by (apply X_range; lia). assert (0 <= X (base k) < field) as HXk by (apply X_range; lia).
  assert (0 <= e < order) as He by (apply Z.mod_pos_bound; lia). set (s := ((e * even_scalar key) mod order + k) mod order) in Hsig.
  assert (0 <= s < order) as Hsr by (apply Z.mod_pos_bound; lia).
  assert (take 32 sig = be 32 (X (base k))) as Ht by (rewrite Hsig; apply take_app_length'; by rewrite be_length).
  assert (drop 32 sig = be 32 s) as Hdp by (rewrite Hsig; apply drop_app_length'; by rewrite be_length).
  unfold verifyEventSig. rewrite decide_False by (rewrite Hsig, length_app, !be_length; lia). rewrite hex_decode_encode by apply be_bytes.
  rewrite of_be_32 by lia. rewrite decide_False by (rewrite be_length; lia). rewrite Ht, Hdp. cbv zeta. rewrite !of_be_32 by lia.
  destruct (even_scalar_spec key ltac:(lia)) as (Hd & HXd & HYd). rewrite <-HXd at 1. rewrite lift_base by done. rewrite decide_False by lia.
  fold e. unfold s. rewrite response_point by lia. rewrite HYk. by apply bool_decide_eq_true.
Qed.
End Signatures.

(** The key of an adapter that has one is a scalar, and its public half the key's abscissa. *)
Definition keyed `{Secp} (a : Adapter) : Prop := forall d, priv a = Some d -> 0 <= d < order /\ pubHex a = hex_encode (be 32 (X (base d))).
Lemma New_keyed `{HS : Secp} `{!SecpLaws} rs key t ag a : New rs key t ag = Ok a -> keyed a.
Proof.
  unfold New, keyed. cbv zeta. case_decide.
  - intros Hn d. assert (a = new_adapter rs t ag None "") as -> by congruence. done.
  - destruct (hex_decode _) as [kb|]; [|done]. case_decide; [|done]. intros Hn d Hp.
    assert (a = new_adapter rs t ag (Some (of_be kb mod order)) (hex_encode (be 32 (X (base (of_be kb mod order)))))) as -> by congruence.
    cbn [priv new_adapter] in Hp. assert (d = of_be kb mod order) as -> by congruence. split; [|done]. apply Z.mod_pos_bound. pose proof order_bound. lia.
Qed.
Lemma New_signs `{HS : Secp} rs key t ag a : New rs key t ag = Ok a -> TrimSpace key <> "" -> exists d, priv a = Some d.
Proof.
  unfold New. cbv zeta. intros Hn Hk. rewrite decide_False in Hn by done. destruct (hex_decode _) as [kb|]; [|done]. case_decide; [|done].
  exists (of_be kb mod order). assert (a = new_adapter rs t ag (Some (of_be kb mod order)) (hex_encode (be 32 (X (base (of_be kb mod order)))))) as -> by congruence. done.
Qed.

(** C37 [roundtrip]: with any key New accepts, over any group with the laws of the curve's and any hash of 32 bytes: the
    event BuildEvent signs verifies: its signature decodes from the hexadecimal it is published in and verifies as BIP-340
    under the public key and the event id it is published with. *)
Theorem event_signature_verifies `{HS : Secp} `{!SecpLaws} {sha256 utf8 marshal_tags marshal_text} {rs privKeyHex t ag a aux now kind content tags ev}
    (Hash : forall l, length (sha256 l) = 32%nat /\ is_bytes (sha256 l)) (Hnew : New rs privKeyHex t ag = Ok a) (Hkey : TrimSpace privKeyHex <> "")
    (Hev : BuildEvent sha256 utf8 marshal_tags marshal_text aux now a kind content tags = Ok ev) :
  exists id sig, hex_decode (ID ev) = Some id /\ hex_decode (Sig ev) = Some sig /\ id = eventID sha256 utf8 marshal_tags marshal_text ev /\
    verifyEventSig sha256 utf8 (PubKey ev) id sig = true.
Proof.
  pose proof (New_keyed _ _ _ _ _ Hnew) as Hk. destruct (New_signs _ _ _ _ _ Hnew Hkey) as [d Hd].
  destruct (Hk _ Hd) as [Hr Hpub]. unfold BuildEvent in Hev. rewrite Hd in Hev. cbv zeta in Hev. apply rbind_Ok in Hev as (sig & Hs & He). apply wrap_err_Ok in Hs.
  set (id := eventID _ _ _ _ _) in *. assert (ev = {| ID := hex_encode id; PubKey := pubHex a; CreatedAt := now; Kind := kind; Tags := tags; Content := content;
    Sig := hex_encode sig |}) as -> by congruence.
  cbn [ID Sig PubKey]. exists id, sig. rewrite hex_decode_encode by (apply Hash). split; [done|].
  assert (is_bytes sig) as Hb.
  { destruct (sign_shape _ _ _ _ _ _ Hr Hs) as (_ & _ & k & _ & _ & ->). apply Forall_app. split; apply be_bytes. }
  rewrite hex_decode_encode by done. split; [done|]. split; [done|]. rewrite Hpub. by eapply sign_verifies.
Qed.

(** ** Relays come and go *)

(** Waits stay between half a second and half a minute, and a stopped adapter has no connection. *)
Definition net_ok (n : Net) : Prop :=
  (forall r w, loops n !! r = Some (Dialling w) -> baseBackoff <= w <= maxBackoff) /\ (closed (adapter n) = true -> conns (adapter n) = ∅).
Lemma Start_ok a n : Start a = Ok n -> net_ok n.
Proof.
  unfold Start. destruct (closed a) eqn:Ec; [done|]. case_decide; [done|]. intros E. assert (n = {| adapter := a;
    loops := list_to_map ((fun r => (r, Dialling baseBackoff)) <$> relays a) |}) as -> by congruence. split; [|cbn [adapter]; by rewrite Ec].
  intros r w Hr%elem_of_list_to_map_2. apply list_elem_of_fmap in Hr as (r' & Hr & _).
  assert (w = baseBackoff) as -> by congruence. unfold baseBackoff, maxBackoff, Millisecond, Second. lia.
Qed.
Lemma net_step_ok n n' : net_ok n -> net_step n n' -> net_ok n'.
Proof.
  assert (forall n r l a, net_ok n -> (forall w, l = Dialling w -> baseBackoff <= w <= maxBackoff) -> (closed a = true -> conns a = ∅) ->
    net_ok (set_loop r l a n)) as Hset.
  { intros n0 r l a [Hw _] Hl Ha. split; [|done]. intros r' w. cbn [loops set_loop]. destruct (decide (r' = r)) as [->|Hne].
    - rewrite lookup_insert_eq. intros [= ->]. by apply Hl.
    - rewrite lookup_insert_ne by done. apply Hw. }
  assert (0 < baseBackoff /\ baseBackoff <= maxBackoff) as [Hpos Hle] by (unfold baseBackoff, maxBackoff, Millisecond, Second; lia).
  intros Hok Hs. destruct Hs as [n r w Hr|n r w Hr Hc|n r w Hr Hc|n r Hr|n r w Hr|n]; try apply Hset; try done; cbn [with_conns closed conns];
    try (by intros ? [=]); try (by destruct Hok).
  - intros w' [= <-]. destruct Hok as [Hw _]. specialize (Hw _ _ Hr). lia.
  - intros w' [= <-]. lia.
  - intros Hc. destruct Hok as [_ Hn]. rewrite (Hn Hc). set_solver.
Qed.
(** Whatever the relays do, a stopped adapter publishes nothing. *)
Lemma stopped_silent `{Secp} sha256 utf8 mt mx visit write aux now n m : net_ok n -> closed (adapter n) = true ->
  p_relays (Send sha256 utf8 mt mx visit write aux now (adapter n) m).1 = [] /\ (Send sha256 utf8 mt mx visit write aux now (adapter n) m).2 <> None.
Proof. intros _ Hc. unfold Send. case_decide; [done|]. destruct (priv _); [|done]. destruct (BuildEvent _ _ _ _ _ _ _ _ _); [|done]. by rewrite Hc. Qed.

(** ** A toy group *)

(** The integers modulo 7, a number and its negation sharing the smaller as abscissa, each its own ordinate. *)
#[local] Instance toy : Secp := {|
  point := Z; order := 7; field := 5; base := fun d => d mod 7; mult := fun a P => (a * P) mod 7; add := fun P Q => (P + Q) mod 7;
  X := fun P => Z.min P (7 - P); Y := fun P => P; lift_even := fun x => Some (if Z.odd x then 7 - x else x);
|}.
Lemma small_cases d : 0 < d < 7 -> d = 1 \/ d = 2 \/ d = 3 \/ d = 4 \/ d = 5 \/ d = 6.
Proof. lia. Qed.
#[local] Instance toy_laws : SecpLaws.
Proof.
  split.
  - cbn. lia.
  - cbn. lia.
  - intros d Hd. apply small_cases in Hd. by destruct Hd as [-> | [-> | [-> | [-> | [-> | -> ] ] ] ] ].
  - intros a b _ _. cbn. by rewrite Z.mul_mod_idemp_r, Z.mod_mod.
  - intros a b _ _. cbn. by rewrite <-Z.add_mod, Z.mod_mod.
  - intros d Hd. apply small_cases in Hd. by destruct Hd as [-> | [-> | [-> | [-> | [-> | -> ] ] ] ] ].
  - intros d Hd. apply small_cases in Hd. by destruct Hd as [-> | [-> | [-> | [-> | [-> | -> ] ] ] ] ].
  - intros d Hd. apply small_cases in Hd. by destruct Hd as [-> | [-> | [-> | [-> | [-> | -> ] ] ] ] ].
Qed.
Definition toy_hash (l : bytes) : bytes := replicate 31 0 ++ [(1 + foldr Z.add 0 l) mod 256].
Lemma toy_hash_ok l : length (toy_hash l) = 32%nat /\ is_bytes (toy_hash l).
Proof.
  split; [done|]. apply Forall_app. split; [apply Forall_replicate; lia|]. constructor; [|constructor]. apply Z.mod_pos_bound. lia.
Qed.
Definition toy_utf8 (s : string) : bytes := (fun c => Z.of_N (N_of_ascii c)) <$> String.list_ascii_of_string s.
Definition toy_key : string := hex_encode (replicate 31 0 ++ [10]).
Definition toy_adapter : Adapter := match New ["ws://a"] toy_key "acme" "" with Ok a => a | Err _ => new_adapter [] "" "" None "" end.
Definition toy_event (content : string) : Result Event :=
  BuildEvent toy_hash toy_utf8 (fun _ => "[]") quote (Ok (replicate 32 9)) 1000 toy_adapter kindTextNote content [].
Example toy_signed : match toy_event "hi" with Ok ev => PubKey ev = hex_encode (replicate 31 0 ++ [3]) /\ CreatedAt ev = 1000 /\ Content ev = "hi" | Err _ => False end.
Proof. vm_compute. done. Qed.
(** Anyone's note is answered, by a note to everyone that names no one, a private message too; nothing checks a signature. *)
Example dm_answered_publicly : match handleFrame toy_hash toy_utf8 (fun _ => "[]") quote (fun _ => Ok "secret") (fun s => elements s) (fun _ => None)
    (fun _ => Some {| f_type := Some "EVENT"; f_len := 3; f_event := Some {| ID := ""; PubKey := "alice"; CreatedAt := 0; Kind := kindDM; Tags := []; Content := "x"; Sig := "" |} |})
    (Ok (replicate 32 9)) 1000 (with_conns {["ws://a"]} false toy_adapter) "frame" with
  | Some (m, Some ({| p_event := Some ev; p_relays := rs |}, None)) =>
      in_UserID m = "alice" /\ Kind ev = kindTextNote /\ Tags ev = [] /\ Content ev = "secret" /\ rs = ["ws://a"]
  | _ => False
  end.
Proof. vm_compute. done. Qed.
Lemma event_signature_verifies_witness : exists ev id sig, toy_event "hi" = Ok ev /\ hex_decode (ID ev) = Some id /\ hex_decode (Sig ev) = Some sig /\
  verifyEventSig toy_hash toy_utf8 (PubKey ev) id sig = true.
Proof.
  destruct (toy_event "hi") as [ev|e] eqn:Eev; [|exfalso; vm_compute in Eev; discriminate].
  destruct (event_signature_verifies (sha256 := toy_hash) (utf8 := toy_utf8) (marshal_tags := fun _ => "[]") (marshal_text := quote) (rs := ["ws://a"])
    (privKeyHex := toy_key) (t := "acme") (ag := "") (a := toy_adapter) (aux := Ok (replicate 32 9)) (now := 1000) (kind := kindTextNote) (content := "hi")
    (tags := []) (ev := ev) toy_hash_ok) as (id & sig & H1 & H2 & _ & H3).
  - vm_compute. reflexivity.
  - vm_compute. discriminate.
  - exact Eev.
  - exists ev, id, sig. split; [reflexivity|]. split; [exact H1|]. split; [exact H2|exact H3].
Defined.
