(* ===== verification/ChatLinks.v ===== *)
(** * ChatLinks: Google Chat, and IRC

    [src/modules/channel/googlechat] checks a bearer token signed by Google and answers each message once;
    [src/modules/channel/irc] speaks the protocol's lines on a connection.  Signatures, certificates, JSON, the
    network, the clock and what the agents answer are arguments. *)
From S2P Require Import Prelude GoStr GoText Channel Pairing.
From S2P Require Mcp Adapters.
Import Adapters (Request, Method, Header, Body, message, out, maxInboundBody).
Local Open Scope go_scope.
Local Open Scope Z_scope.

(** ** Google Chat *)

Section GoogleChat.
Context {PublicKey : Type}.
(** What the agents answer and the service: a status with a text, or no answer; unpadded base64 for URLs; RSA over
    SHA-256; the header and the claims of a token. *)
Context (handler : InboundMessage -> Result string) (service : string -> string -> Result (Z * string)).
Context (base64url : string -> Result string) (verify_rs256 : PublicKey -> string -> string -> option error).
(** Algorithm and key of a header; issuer, audience and expiry of claims. *)
Context (decode_header : string -> Result (string * string)) (decode_claims : string -> Result (string * string * Z)).
(** The certificates fetched: the keys by their names, of those that parse. *)
Context (fetch_certs : string -> Result (gmap string PublicKey)).

(* [modules/channel/googlechat/adapter.go:Adapter] *)
Record GoogleChat := {
  webhookURL : string; gc_tenant : string; gc_agent : string; audience : string; certURL : string; seen : gset string;
  certCache : option (gmap string PublicKey); certExp : time;
}.
(* [modules/channel/googlechat/adapter.go:googleChatIssuer] *)
Definition googleChatIssuer : string := "chat@system.gserviceaccount.com".
(* [modules/channel/googlechat/adapter.go:googleChatCertURL] *)
Definition googleChatCertURL : string := "https://www.googleapis.com/service_accounts/v1/metadata/x509/chat@system.gserviceaccount.com".
(* [modules/channel/googlechat/adapter.go:New] *)
Definition New (webhookURL tenant agent : string) : GoogleChat :=
  {| webhookURL := webhookURL; gc_tenant := tenant; gc_agent := agent; audience := ""; certURL := googleChatCertURL; seen := ∅; certCache := None; certExp := 0 |}.
Definition with_certs (keys : gmap string PublicKey) (exp : time) (a : GoogleChat) : GoogleChat :=
  {| webhookURL := webhookURL a; gc_tenant := gc_tenant a; gc_agent := gc_agent a; audience := audience a; certURL := certURL a; seen := seen a;
     certCache := Some keys; certExp := exp |}.
Definition with_seen (s : gset string) (a : GoogleChat) : GoogleChat :=
  {| webhookURL := webhookURL a; gc_tenant := gc_tenant a; gc_agent := gc_agent a; audience := audience a; certURL := certURL a; seen := s;
     certCache := certCache a; certExp := certExp a |}.
(* [modules/channel/googlechat/adapter.go:Adapter.Send] *)
Definition gc_Send (a : GoogleChat) (m : OutboundMessage) : option error :=
  match service (webhookURL a) (out_Text m) with
  | Err e => Some ("googlechat send: " +:+ e)
  | Ok (code, text) => if decide (code <> 200) then Some ("googlechat API error " +:+ itoa code +:+ ": " +:+ text) else None
  end.
(** Kept for an hour. *)
(* [modules/channel/googlechat/adapter.go:Adapter.googleCerts] *)
Definition googleCerts (now : time) (a : GoogleChat) : GoogleChat * Result (gmap string PublicKey) :=
  match certCache a with
  | Some keys =>
      if Before now (certExp a) then (a, Ok keys)
      else match fetch_certs (if decide (certURL a = "") then googleChatCertURL else certURL a) with
           | Err e => (a, Err e)
           | Ok keys => if decide (keys = ∅) then (a, Err "no usable certs") else (with_certs keys (now + Hour) a, Ok keys)
           end
  | None =>
      match fetch_certs (if decide (certURL a = "") then googleChatCertURL else certURL a) with
      | Err e => (a, Err e)
      | Ok keys => if decide (keys = ∅) then (a, Err "no usable certs") else (with_certs keys (now + Hour) a, Ok keys)
      end
  end.
(** The claims, once the signature is good. *)
Definition check_claims (now : time) (a : GoogleChat) (payload : string) : Result () :=
  claimsJSON <-? wrap_err "decode claims" (base64url payload) ;;
  claims <-? wrap_err "parse claims" (decode_claims claimsJSON) ;;
  let '(iss, aud, exp) := claims in
  if decide (iss <> googleChatIssuer) then Err ("unexpected issuer " +:+ quote iss)
  else if decide (aud <> audience a) then Err "audience mismatch"
  else if decide (exp = 0 \/ exp < Unix now) then Err "token expired" else Ok ().
(* [modules/channel/googlechat/adapter.go:Adapter.verifyBearer] *)
Definition verifyBearer (now : time) (a : GoogleChat) (r : Request) : GoogleChat * Result () :=
  let authz := Header r "Authorization" in
  if decide (audience a = "") then (a, Err "no audience configured")
  else if negb (has_prefix "Bearer " authz) || bool_decide (String.length authz <= 7)%nat then (a, Err "missing bearer token")
  else match split "."%char (drop_bytes 7 authz) with
  | [h; p; s] =>
      match (hdrJSON <-? wrap_err "decode header" (base64url h) ;; wrap_err "parse header" (decode_header hdrJSON)) with
      | Err e => (a, Err e)
      | Ok (alg, kid) =>
          if decide (alg <> "RS256") then (a, Err ("unexpected alg " +:+ quote alg))
          else
            let '(a, certs) := googleCerts now a in
            (a, keys <-? wrap_err "load certs" certs ;;
                match keys !! kid with
                | None => Err "unknown key id"
                | Some pub =>
                    sig <-? wrap_err "decode signature" (base64url s) ;;
                    match verify_rs256 pub (h +:+ "." +:+ p) sig with
                    | Some e => Err ("signature: " +:+ e)
                    | None => check_claims now a p
                    end
                end)
      end
  | _ => (a, Err "malformed jwt")
  end.
(* [modules/channel/googlechat/adapter.go:Adapter.handleEvents@276-292] *)
Record gc_event := { ge_Type : string; ge_EventID : string; ge_Name : string; ge_Sender : string; ge_SenderType : string; ge_Text : string; ge_Space : string }.
Record gc_outcome := { gc_status : Z; gc_turn : option InboundMessage; gc_sent : option OutboundMessage }.
Definition gc_reject (code : Z) : gc_outcome := {| gc_status := code; gc_turn := None; gc_sent := None |}.
Definition gc_key (ev : gc_event) : string :=
  if decide (ge_Name ev <> "") then ge_Name ev
  else if decide (ge_EventID ev <> "") then ge_EventID ev else ge_Sender ev +:+ ":" +:+ ge_Space ev +:+ ":" +:+ ge_Text ev.
(** A body over the limit cannot be read; what was seen is never forgotten. *)
(* [modules/channel/googlechat/adapter.go:Adapter.handleEvents] *)
Definition gc_handle (decode : string -> option gc_event) (now : time) (a : GoogleChat) (r : Request) : GoogleChat * gc_outcome :=
  if decide (Method r <> "POST") then (a, gc_reject 405)
  else
    let '(a, checked) := verifyBearer now a r in
    match checked, Body r with
    | Err _, _ => (a, gc_reject 401)
    | Ok _, Err _ => (a, gc_reject 500)
    | Ok _, Ok body =>
        if decide (maxInboundBody < String.length body)%nat then (a, gc_reject 500)
        else match decode body with
        | None => (a, gc_reject 400)
        | Some ev =>
            if decide (ge_Type ev <> "MESSAGE" \/ ge_SenderType ev = "BOT") then (a, gc_reject 200)
            else if decide (gc_key ev ∈ seen a) then (a, gc_reject 200)
            else
              let m := message "googlechat" (ge_Space ev) (ge_Sender ev) (ge_Text ev) (gc_tenant a) (gc_agent a) in
              (with_seen ({[gc_key ev]} ∪ seen a) a,
               {| gc_status := 200; gc_turn := Some m;
                  gc_sent := match handler m with Ok response => Some (out "googlechat" (ge_Space ev) response "") | Err _ => None end |})
        end
    end.

(** A message is heard only under a token whose signature verifies with one of the keys fetched, from the issuer, for
    the audience configured and not expired; and once. *)
Lemma googlechat_heard decode now a r a' o m : gc_handle decode now a r = (a', o) -> gc_turn o = Some m ->
  audience a <> "" /\ in_Tenant m = gc_tenant a /\
  (exists h p s kid keys pub sig claims exp, Header r "Authorization" = "Bearer " +:+ drop_bytes 7 (Header r "Authorization") /\
     split "."%char (drop_bytes 7 (Header r "Authorization")) = [h; p; s] /\ (googleCerts now a).2 = Ok keys /\ keys !! kid = Some pub /\
     base64url s = Ok sig /\ verify_rs256 pub (h +:+ "." +:+ p) sig = None /\ base64url p = Ok claims /\
     decode_claims claims = Ok (googleChatIssuer, audience a, exp) /\ Unix now <= exp) /\
  exists ev, gc_key ev ∉ seen a /\ gc_key ev ∈ seen a'.
Proof.
  unfold gc_handle. case_decide; [by intros [= <- <-]|]. destruct (verifyBearer now a r) as [a1 checked] eqn:Ev.
  destruct checked as [[]|]; [|by intros [= <- <-]]. destruct (Body r) as [body|]; [|by intros [= <- <-]]. case_decide; [by intros [= <- <-]|].
  destruct (decode body) as [ev|]; [|by intros [= <- <-]]. case_decide; [by intros [= <- <-]|]. case_decide as Hseen; [by intros [= <- <-]|].
  intros [= <- <-]. cbn [gc_turn]. intros [= <-].
  unfold verifyBearer in Ev. cbv zeta in Ev. case_decide; [done|]. destruct (negb _ || _) eqn:Ep in Ev; [done|]. apply orb_false_iff in Ep as [Ep _].
  apply negb_false_iff, has_prefix_spec in Ep as [tok Etok]. destruct (split _ _) as [|h [|p [|s [|? ?]]]] eqn:Es in Ev; try done.
  destruct (rbind _ _) as [[alg kid]|] in Ev; [|done]. case_decide; [done|]. destruct (googleCerts now a) as [a2 certs] eqn:Ec.
  assert (seen a2 = seen a /\ audience a2 = audience a /\ gc_tenant a2 = gc_tenant a) as (Hs2 & Ha2 & Ht2).
  { unfold googleCerts in Ec. repeat case_match; injection Ec as <- _; done. }
  injection Ev as <- Ev. apply rbind_Ok in Ev as (keys & Hk & Ev). apply wrap_err_Ok in Hk. subst certs. destruct (keys !! kid) as [pub|] eqn:Ekid; [|done].
  apply rbind_Ok in Ev as (sig & Hsig & Ev). apply wrap_err_Ok in Hsig. destruct (verify_rs256 _ _ _) eqn:Er; [done|].
  unfold check_claims in Ev. apply rbind_Ok in Ev as (cj & Hcj & Ev). apply wrap_err_Ok in Hcj. apply rbind_Ok in Ev as ([[iss aud] exp] & Hcl & Ev). apply wrap_err_Ok in Hcl.
  destruct (decide (iss <> googleChatIssuer)) as [|Hiss]; [done|]. destruct (decide (aud <> audience a2)) as [|Haud]; [done|].
  destruct (decide (exp = 0 \/ exp < Unix now)) as [|Hexp]; [done|]. apply dec_stable in Hiss, Haud. subst iss aud.
  split; [done|]. split; [done|]. split.
  - exists h, p, s, kid, keys, pub, sig, cj, exp. rewrite Ha2 in Hcl. rewrite Etok at 1. rewrite Etok at 1. rewrite (drop_bytes_app "Bearer ").
    do 8 (split; [done|]). lia.
  - exists ev. rewrite <-Hs2. cbn [seen with_seen]. set_solver.
Qed.
End GoogleChat.

(** ** IRC *)

Definition crlf : string := String "013" (String "010" "").

Section IRC.
(** What the agents answer; dialling the server; whether writing a line fails. *)
Context (handler : InboundMessage -> Result string) (dial : string -> option error) (conn_write : string -> option error).

(** [conn] is whether a connection was set, [written] the lines written to it. *)
(* [modules/channel/irc/adapter.go:Adapter] *)
Record Irc := { server : string; nick : string; channels : list string; ir_tenant : string; ir_agent : string; conn : bool; closed : bool; written : list string }.
Definition channel_name (c : string) : option string :=
  let c := TrimSpace c in
  if decide (c = "") then None else Some (if has_prefix "#" c || has_prefix "&" c then c else "#" +:+ c).
(* [modules/channel/irc/adapter.go:New] *)
Definition irc_New (server nick : string) (channels : list string) (tenant agent : string) : Irc :=
  {| server := server; nick := if decide (nick = "") then "cyntr" else nick; channels := omap channel_name channels;
     ir_tenant := tenant; ir_agent := agent; conn := false; closed := false; written := [] |}.
Definition with_link (c d : bool) (w : list string) (a : Irc) : Irc :=
  {| server := server a; nick := nick a; channels := channels a; ir_tenant := ir_tenant a; ir_agent := ir_agent a; conn := c; closed := d; written := w |}.
(* [modules/channel/irc/adapter.go:Adapter.writeLine] *)
Definition writeLine (line : string) (a : Irc) : Irc * option error :=
  if negb (conn a) then (a, Some "irc: no connection")
  else match conn_write (line +:+ crlf) with
       | Some e => (a, Some e)
       | None => (with_link (conn a) (closed a) (written a ++ [line +:+ crlf]) a, None)
       end.
(** Lines in order, up to the first that fails. *)
Fixpoint write_lines (ls : list (string * string)) (a : Irc) : Irc * option error :=
  match ls with
  | [] => (a, None)
  | (what, l) :: ls => match writeLine l a with (a, Some e) => (a, Some (what +:+ ": " +:+ e)) | (a, None) => write_lines ls a end
  end.
Definition registration (a : Irc) : list (string * string) :=
  ("irc register nick", "NICK " +:+ nick a) :: ("irc register user", "USER " +:+ nick a +:+ " 0 * :" +:+ nick a)
  :: ((fun ch => ("irc join " +:+ quote ch, "JOIN " +:+ ch)) <$> channels a).
(* [modules/channel/irc/adapter.go:Adapter.Start] *)
Definition irc_Start (a : Irc) : Irc * option error :=
  match dial (server a) with
  | Some e => (a, Some ("irc dial " +:+ quote (server a) +:+ ": " +:+ e))
  | None =>
      if closed a then (a, Some "irc: adapter already stopped")
      else write_lines (registration a) (with_link true (closed a) (written a) a)
  end.
(* [modules/channel/irc/adapter.go:Adapter.Stop] *)
Definition irc_Stop (a : Irc) : Irc := with_link (conn a) true (written a) a.
Definition privmsg (target line : string) : string := "PRIVMSG " +:+ target +:+ " :" +:+ line.
(* [modules/channel/irc/adapter.go:Adapter.Send] *)
Definition irc_Send (m : OutboundMessage) (a : Irc) : Irc * option error :=
  if decide (out_ChannelID m = "") then (a, Some "irc: missing channel ID (target)")
  else if negb (conn a) || closed a then (a, Some "irc: not connected")
  else write_lines ((fun l => ("irc send", privmsg (out_ChannelID m) l)) <$> filter (fun l => l <> "") (split "010"%char (out_Text m))) a.
(** Prefix, command and parameters of a line. *)
(* [modules/channel/irc/adapter.go:parseMessage] *)
Definition parseMessage (line : string) : string * string * list string :=
  match (match line with
         | String ":" l => match cut " "%char l with Some (p, r) => inl (p, TrimLeft [" "%char] r) | None => inr l end
         | _ => inl ("", line)
         end) with
  | inr prefix => (prefix, "", [])
  | inl (prefix, line) =>
      let '(line, trailing) := match find " :" line with Some (a, b) => (a, [b]) | None => (line, []) end in
      match Fields line with
      | [] => (prefix, "", trailing)
      | command :: params => (prefix, command, params ++ trailing)
      end
  end.
(* [modules/channel/irc/adapter.go:nickFromPrefix] *)
Definition nickFromPrefix (prefix : string) : string := match cut "!"%char prefix with Some (n, _) => n | None => prefix end.
Definition ping_token (line : string) : string :=
  match cut ":"%char line with Some (_, t) => t | None => match Fields line with _ :: t :: _ => t | _ => "" end end.
(** The message a line is heard as. *)
Definition heard (a : Irc) (line : string) : option InboundMessage :=
  match parseMessage line with
  | (prefix, "PRIVMSG", target :: text :: _) =>
      let sender := nickFromPrefix prefix in
      if decide (sender = nick a) then None
      else Some (message "irc" (if has_prefix "#" target || has_prefix "&" target then target else sender) sender text (ir_tenant a) (ir_agent a))
  | _ => None
  end.
(** The answer is sent once the handler is done. *)
(* [modules/channel/irc/adapter.go:Adapter.handleLine] *)
Definition handleLine (line : string) (a : Irc) : Irc * option InboundMessage :=
  if decide (line = "") then (a, None)
  else if has_prefix "PING" line then ((writeLine ("PONG :" +:+ ping_token line) a).1, None)
  else match heard a line with
  | None => (a, None)
  | Some m =>
      (match handler m with
       | Err _ => a
       | Ok response => if decide (response = "") then a else (irc_Send (out "irc" (in_ChannelID m) response "") a).1
       end, Some m)
  end.
(** Until the context is done. *)
(* [modules/channel/irc/adapter.go:Adapter.readLoop] *)
Fixpoint readLoop (lines : list string) (a : Irc) : Irc * list InboundMessage :=
  match lines with
  | [] => (a, [])
  | l :: lines =>
      let '(a, m) := handleLine (TrimRight ["013"%char; "010"%char] l) a in
      let '(a, ms) := readLoop lines a in (a, (match m with Some m => [m] | None => [] end) ++ ms)
  end.

(** A text of visible ASCII characters: a nick, a user, a channel. *)
Definition visible (s : string) : Prop := Forall (fun c => 33 <= N_of_ascii c <= 126)%N (chars s).
Lemma visible_cons c s : visible (String c s) <-> (33 <= N_of_ascii c <= 126)%N /\ visible s.
Proof. unfold visible. change (chars (String c s)) with (c :: chars s). by rewrite Forall_cons. Qed.
Lemma visible_not_space c : (33 <= N_of_ascii c)%N -> c <> " "%char.
Proof. intros H ->. by vm_compute in H. Qed.
Lemma space_prefix_visible c s : (33 <= N_of_ascii c <= 126)%N -> space_prefix (String c s) = O.
Proof. intros H. unfold space_prefix. repeat (case_decide; [lia|]; try case_match; try done). Qed.
Lemma fields_word w : visible w -> forall acc n s, fields_loop (String.length w + n)%nat acc (w +:+ s) = fields_loop n (acc +:+ w) s.
Proof.
  induction w as [|c w IH]; intros Hv acc n s.
  - by rewrite str_app_nil_r.
  - apply visible_cons in Hv as [Hc Hv]. change (String c w +:+ s) with (String c (w +:+ s)). cbn [String.length Nat.add fields_loop].
    rewrite space_prefix_visible by done. rewrite IH by done. by rewrite str_app_assoc.
Qed.
Lemma cut_visible w s : visible w -> cut " "%char (w +:+ String " " s) = Some (w, s).
Proof.
  induction w as [|c w IH]; intros Hv; [done|]. apply visible_cons in Hv as [Hc Hv]. change (String c w +:+ ?x) with (String c (w +:+ x)). cbn [cut].
  rewrite decide_False by (apply visible_not_space; lia). by rewrite IH.
Qed.
Lemma find_visible w s : visible w -> find " :" (w +:+ String " " (String ":" s)) = Some (w, s).
Proof.
  induction w as [|c w IH]; intros Hv; [done|]. apply visible_cons in Hv as [Hc Hv]. change (String c w +:+ ?x) with (String c (w +:+ x)). cbn [find].
  change (has_prefix " :" (String c ?x)) with (bool_decide (" "%char = c) && has_prefix ":" x).
  rewrite bool_decide_eq_false_2 by (intros <-; destruct Hc as [Hc _]; by vm_compute in Hc). cbn [andb]. by rewrite IH.
Qed.
Lemma visible_app s t : visible s -> visible t -> visible (s +:+ t).
Proof. unfold visible. rewrite chars_app. by apply Forall_app_2. Qed.
Lemma cut_bang n u : cut "!"%char n = None -> cut "!"%char (n +:+ String "!" u) = Some (n, u).
Proof.
  induction n as [|c n IH]; [done|]. change (String c n +:+ ?x) with (String c (n +:+ x)). cbn [cut]. case_decide; [done|].
  destruct (cut "!"%char n) as [[? ?]|]; [done|]. intros _. by rewrite IH.
Qed.
Lemma fields_space n acc s : acc <> "" -> fields_loop (S n) acc (String " " s) = acc :: fields_loop n "" s.
Proof. intros H. cbn [fields_loop]. change (space_prefix (String " " ?x)) with 1%nat. cbv iota. by rewrite decide_False. Qed.
Lemma fields_last w : visible w -> w <> "" -> fields_loop (String.length w) "" w = [w].
Proof.
  intros Hv Hne. pose proof (fields_word w Hv "" 0%nat "") as Hw. rewrite str_app_nil_r, Nat.add_0_r in Hw. rewrite Hw.
  change ("" +:+ ?x) with x. cbn [fields_loop]. by rewrite decide_False.
Qed.
Lemma Fields_two w1 w2 : visible w1 -> w1 <> "" -> visible w2 -> w2 <> "" -> Fields (w1 +:+ String " " w2) = [w1; w2].
Proof.
  intros H1 N1 H2 N2. unfold Fields. rewrite str_length_app, fields_word by done. change ("" +:+ ?x) with x.
  change (String.length (String " " w2)) with (S (String.length w2)). by rewrite fields_space, fields_last.
Qed.
Lemma find_privmsg target text : visible target -> target <> "" -> has_prefix ":" target = false ->
  find " :" (privmsg target text) = Some ("PRIVMSG " +:+ target, text).
Proof.
  intros Ht Hne Hc. destruct target as [|c w]; [done|]. unfold privmsg. cbn [has_prefix] in Hc. rewrite andb_true_r in Hc.
  assert (Hf : find " :" (String " " (String c w +:+ " :" +:+ text)) = Some (String " " (String c w), text)).
  { cbn [find]. change (has_prefix " :" (String " " (String c w +:+ ?x))) with (bool_decide (":"%char = c) && true). rewrite Hc. cbn [andb].
    change (" :" +:+ text) with (String " " (String ":" text)). by rewrite (find_visible (String c w)). }
  change ("PRIVMSG " +:+ ?x) with ("PRIVMSG" +:+ String " " x).
  change ("PRIVMSG" +:+ String " " (String c w)) with ("PRIVMSG" +:+ String " " (String c w)).
  revert Hf. generalize (String " " (String c w +:+ " :" +:+ text)) as rest. intros rest Hf.
  change ("PRIVMSG" +:+ rest) with (String "P" (String "R" (String "I" (String "V" (String "M" (String "S" (String "G" rest))))))).
  cbn [find has_prefix]. rewrite Hf. done.
Qed.
(** What one adapter sends to a target, the server prefixes with who sent it, and another adapter hears with that
    sender and, whatever it contains, that text. *)
Lemma sent_is_heard a n u target text :
  visible n -> cut "!"%char n = None -> visible u -> visible target -> target <> "" -> has_prefix ":" target = false -> n <> nick a ->
  heard a (":" +:+ n +:+ "!" +:+ u +:+ " " +:+ privmsg target text) =
    Some (message "irc" (if has_prefix "#" target || has_prefix "&" target then target else n) n text (ir_tenant a) (ir_agent a)).
Proof.
  intros Hn Hb Hu Ht Hne Hc Hnick. unfold heard, parseMessage.
  change (":" +:+ ?x) with (String ":" x). cbv iota.
  replace (n +:+ "!" +:+ u +:+ " " +:+ privmsg target text) with ((n +:+ "!" +:+ u) +:+ String " " (privmsg target text)) by (rewrite !str_app_assoc; done).
  rewrite cut_visible by (apply visible_app; [done|]; apply visible_app; [|done]; apply visible_cons; split; [by vm_compute|constructor]).
  change (TrimLeft [" "%char] (privmsg target text)) with (privmsg target text). rewrite find_privmsg by done.
  destruct target as [|c w]; [done|]. change ("PRIVMSG " +:+ String c w) with ("PRIVMSG" +:+ String " " (String c w)).
  rewrite (Fields_two "PRIVMSG") by (done || (repeat (apply visible_cons; split; [by vm_compute|]); constructor)). cbn [app].
  unfold nickFromPrefix. change ("!" +:+ u) with (String "!" u). rewrite cut_bang by done. by rewrite decide_False.
Qed.
End IRC.

(** A keepalive is answered with its token. *)
Example ping_answered :
  (handleLine (fun _ => Ok "hi") (fun _ => None) "PING :irc.example" (with_link true false [] (irc_New "h:1" "" ["ops"] "t" "a"))).1.(written)
    = ["PONG :irc.example" +:+ crlf].
Proof. vm_compute. reflexivity. Qed.
(** A target with a line break writes a second command. *)
Example target_injects :
  (irc_Send (fun _ => None) (out "irc" ("x" +:+ crlf +:+ "QUIT") "bye" "") (with_link true false [] (irc_New "h:1" "" [] "t" "a"))).1.(written)
    = ["PRIVMSG x" +:+ crlf +:+ "QUIT :bye" +:+ crlf].
Proof. vm_compute. reflexivity. Qed.
