(* ===== verification/Providers.v ===== *)
(** * Providers: the language models behind the agents

    [src/modules/agent/providers]: the requests built for Anthropic, OpenAI and what is compatible with it, Azure,
    OpenRouter, Ollama and Gemini, what is made of their answers, Anthropic's event stream and the mock; and
    [src/modules/agent/failover.go]; and, in Module OAuthTokens, the tokens of subscriptions (oauth.go).  HTTP, JSON and the printing of values are arguments.  A nil map of inputs
    and an empty one are the same here. *)
From S2P Require Import Prelude GoStr GoText AgentSession AgentTranscript.
From S2P Require Mcp.
Import Mcp (json, JNull, JBool, JStr, JArr, JObj, field).
Local Open Scope go_scope.
Local Open Scope Z_scope.

(** ** Failover *)

Section Failover.
Context (ToLower : string -> string).

(** A provider by its name and what it answers a request, or the error and whether that is a deadline exceeded. *)
(* [modules/agent/provider.go:ModelProvider] *)
Record ModelProvider := { pv_Name : string; pv_Chat : list Message -> list ToolDef -> Message + (error * bool) }.
(* [modules/agent/failover.go:FailoverProvider] *)
Record FailoverProvider := { fo_name : string; chain : list ModelProvider }.
(* [modules/agent/failover.go:NewFailoverProvider] *)
Definition NewFailoverProvider (name : string) (chain : list ModelProvider) : FailoverProvider := {| fo_name := name; chain := chain |}.
Definition permanent_marks : list string := ["400"; "bad request"; "invalid request"].
Definition transient_marks : list string :=
  ["429"; "rate limit"; "rate-limit"; "too many requests"; "500"; "502"; "503"; "504"; "server error"; "overloaded";
   "timeout"; "deadline"; "connection refused"; "eof"; "no such host"; "temporarily"; "401"; "403"; "unauthorized"; "forbidden"].
(* [modules/agent/failover.go:isTransientProviderError] *)
Definition isTransientProviderError (err : error * bool) : bool :=
  let '(e, deadline) := err in
  if deadline then true
  else
    let s := ToLower e in
    if existsb (Contains s) permanent_marks then false else existsb (Contains s) transient_marks.
(** [fmt] prints a list of errors between brackets. *)
Definition show_errors (errs : list string) : string := "[" +:+ Join errs " " +:+ "]".
(** The result, and the attempts in order: who was asked, and the error. *)
Fixpoint try_chain (n : nat) (ps : list ModelProvider) (errs : list string) (msgs : list Message) (tools : list ToolDef)
    : Result Message * list (string * option error) :=
  match ps with
  | [] => (Err ("failover: all " +:+ itoa (Z.of_nat n) +:+ " providers failed: " +:+ show_errors errs), [])
  | p :: ps =>
      match pv_Chat p msgs tools with
      | inl m => (Ok m, [(pv_Name p, None)])
      | inr err =>
          if negb (isTransientProviderError err) then (Err ("failover: non-retryable error: " +:+ err.1), [(pv_Name p, Some err.1)])
          else let '(r, tried) := try_chain n ps (errs ++ [pv_Name p +:+ ": " +:+ err.1]) msgs tools in (r, (pv_Name p, Some err.1) :: tried)
      end
  end.
(* [modules/agent/failover.go:FailoverProvider.Chat] *)
Definition failover_Chat (f : FailoverProvider) (msgs : list Message) (tools : list ToolDef) : Result Message * list (string * option error) :=
  match chain f with [] => (Err "failover: empty provider chain", []) | _ => try_chain (length (chain f)) (chain f) [] msgs tools end.

(** A provider that fails in a way the next may not. *)
Definition passed_over msgs tools (p : ModelProvider) : Prop := exists err, pv_Chat p msgs tools = inr err /\ isTransientProviderError err = true.
Lemma try_chain_spec n msgs tools ps : forall errs,
  let '(r, tried) := try_chain n ps errs msgs tools in
  exists skipped rest, ps = skipped ++ rest /\ Forall (passed_over msgs tools) skipped /\
    match rest with
    | [] => tried.*1 = pv_Name <$> skipped /\ is_Ok r = false
    | p :: _ => tried.*1 = pv_Name <$> (skipped ++ [p]) /\
        match pv_Chat p msgs tools with
        | inl m => r = Ok m
        | inr err => isTransientProviderError err = false /\ r = Err ("failover: non-retryable error: " +:+ err.1)
        end
    end.
Proof.
  induction ps as [|p ps IH]; intros errs; cbn [try_chain]; [by exists [], []|].
  destruct (pv_Chat p msgs tools) as [m|err] eqn:Ep.
  - exists [], (p :: ps). rewrite Ep. by repeat split.
  - destruct (isTransientProviderError err) eqn:Et; cbn [negb].
    + specialize (IH (errs ++ [pv_Name p +:+ ": " +:+ err.1])). destruct (try_chain _ ps _ _ _) as [r tried].
      destruct IH as (sk & rest & -> & Hsk & Hr). exists (p :: sk), rest. split; [done|]. split; [constructor; [by exists err|done]|].
      destruct rest as [|q rest]; destruct Hr as [Ht Hr]; cbn; by rewrite Ht.
    + exists [], (p :: ps). rewrite Ep. by repeat split.
Qed.
(** The chain is tried in order: whoever is asked comes after providers that all failed in a way worth retrying; the
    answer is that of the first that does not fail so, or no provider is left. *)
Lemma failover_in_order f msgs tools :
  let '(r, tried) := failover_Chat f msgs tools in
  exists skipped rest, chain f = skipped ++ rest /\ Forall (passed_over msgs tools) skipped /\
    match rest with
    | [] => tried.*1 = pv_Name <$> skipped /\ is_Ok r = false
    | p :: _ => tried.*1 = pv_Name <$> (skipped ++ [p]) /\
        match pv_Chat p msgs tools with
        | inl m => r = Ok m
        | inr err => isTransientProviderError err = false /\ r = Err ("failover: non-retryable error: " +:+ err.1)
        end
    end.
Proof.
  unfold failover_Chat. destruct (chain f) as [|p ps] eqn:Ec; [by exists [], []|]. apply try_chain_spec.
Qed.
End Failover.

(** A rate limit that mentions a number with 400 in it counts as permanent, so nobody else is asked. *)
Example rate_limit_not_retried : isTransientProviderError id ("openai error 429: limit 40000 tokens per minute", false) = false.
Proof. reflexivity. Qed.

(** ** What a request carries *)

(** A POST: where, its headers but the content type, and what is marshalled. *)
Record HTTPCall (B : Type) := { hc_URL : string; hc_Headers : list (string * string); hc_Body : B }.
Arguments hc_URL {_}. Arguments hc_Headers {_}. Arguments hc_Body {_}.
(** The errors every provider wraps in its own words: of the URL, of the call, of a status other than 200, of decoding. *)
Record Words := { w_new : string; w_call : string; w_status : Z -> string -> string; w_decode : string }.
Definition exchange {B R} (bad_url : string -> option error) (post : HTTPCall B -> Result (Z * string)) (decode : string -> Result R) (w : Words)
    (c : HTTPCall B) : Result R :=
  match bad_url (hc_URL c) with
  | Some e => Err (w_new w +:+ e)
  | None =>
      match post c with
      | Err e => Err (w_call w +:+ e)
      | Ok (code, body) => if decide (code <> 200) then Err (w_status w code body) else wrap_err (w_decode w) (decode body)
      end
  end.
Definition base_URL (default baseURL : string) : string := TrimRight ["/"%char] (if decide (baseURL = "") then default else baseURL).

Section Wire.
(** The order a map is visited in; a map of strings as JSON, and an object read; the printing of a value. *)
Context (order : gmap string ToolParam -> list (string * ToolParam)).
Context (Marshal : gmap string string -> string) (Unmarshal : string -> option (gmap string json)) (sprint : json -> string).

(* [modules/agent/providers/openai.go:OpenAI.buildRequest@152-162] *)
Definition parameters (t : ToolDef) : list (string * json) :=
  let required := omap (fun kp => if p_Required kp.2 then Some (JStr kp.1) else None) (order (d_Parameters t)) in
  [("type", JStr "object");
   ("properties", JObj ((fun kp => (kp.1, JObj [("type", JStr (p_Type kp.2)); ("description", JStr (p_Description kp.2))])) <$> map_to_list (d_Parameters t)))]
  ++ (if decide (required = []) then [] else [("required", JArr required)]).
(** The inputs of a call the model made, from the JSON object it wrote. *)
(* [modules/agent/providers/openai.go:OpenAI.parseResponse@195-203] *)
Definition call_of (id name args : string) : ToolCall :=
  {| tc_ID := id; tc_Name := name; tc_Input := match Unmarshal args with Some m => sprint <$> m | None => ∅ end |}.
Definition assistant (content : string) (calls : list ToolCall) (input output : Z) : Message :=
  {| m_Role := RoleAssistant; m_Content := content; m_ToolCalls := calls; m_ToolResults := []; m_Attachments := []; m_InputTokens := input; m_OutputTokens := output |}.

(** ** OpenAI and what speaks its protocol *)

(* [modules/agent/providers/openai.go:openaiToolCall] *)
Record openaiToolCall := { oc_ID : string; oc_Type : string; oc_Name : string; oc_Arguments : string }.
(* [modules/agent/providers/openai.go:openaiMsg] *)
Record openaiMsg := { om_Role : string; om_Content : string; om_ToolCalls : list openaiToolCall; om_ToolCallID : string }.
(* [modules/agent/providers/openai.go:openaiTool] *)
Record openaiTool := { ot_Type : string; ot_Name : string; ot_Description : string; ot_Parameters : list (string * json) }.
(* [modules/agent/providers/openai.go:openaiRequest] *)
Record openaiRequest := { or_Model : string; or_Messages : list openaiMsg; or_Tools : list openaiTool; or_ToolChoice : string }.
(** The content and the calls of each choice; prompt and completion tokens. *)
(* [modules/agent/providers/openai.go:openaiResponse] *)
Record openaiResponse := { Choices : list (string * list openaiToolCall); Usage : option (Z * Z) }.
Definition plain (role content : string) : openaiMsg := {| om_Role := role; om_Content := content; om_ToolCalls := []; om_ToolCallID := "" |}.
Definition openai_call (tc : ToolCall) : openaiToolCall :=
  {| oc_ID := tc_ID tc; oc_Type := "function"; oc_Name := tc_Name tc; oc_Arguments := Marshal (tc_Input tc) |}.
Definition openai_result (tr : ToolResult) : openaiMsg :=
  {| om_Role := "tool"; om_Content := tr_Content tr; om_ToolCalls := []; om_ToolCallID := tr_CallID tr |}.
Definition openai_tool (t : ToolDef) : openaiTool :=
  {| ot_Type := "function"; ot_Name := d_Name t; ot_Description := d_Description t; ot_Parameters := parameters t |}.
(* [modules/agent/providers/openai.go:OpenAI.buildRequest@123-149] *)
Definition openai_message (m : Message) : list openaiMsg :=
  match m_Role m with
  | RoleSystem => [plain "system" (m_Content m)]
  | RoleUser => [plain "user" (m_Content m)]
  | RoleAssistant => [{| om_Role := "assistant"; om_Content := m_Content m; om_ToolCalls := openai_call <$> m_ToolCalls m; om_ToolCallID := "" |}]
  | RoleTool => openai_result <$> m_ToolResults m
  | RoleOther _ => []
  end.
(* [modules/agent/providers/openai.go:OpenAI.buildRequest] *)
Definition openai_buildRequest (model : string) (messages : list Message) (tools : list ToolDef) : openaiRequest :=
  {| or_Model := model; or_Messages := messages ≫= openai_message; or_Tools := openai_tool <$> tools; or_ToolChoice := "" |}.
Definition openai_calls (l : list openaiToolCall) : list ToolCall := (fun tc => call_of (oc_ID tc) (oc_Name tc) (oc_Arguments tc)) <$> l.
(* [modules/agent/providers/openai.go:OpenAI.parseResponse] *)
Definition openai_parseResponse (r : openaiResponse) : Message :=
  match Choices r with
  | [] => assistant "" [] 0 0
  | (content, calls) :: _ =>
      let '(i, o) := default (0, 0) (Usage r) in assistant content (openai_calls calls) i o
  end.

(** An Azure request leaves the content of a message with calls out. *)
(* [modules/agent/providers/azure_openai.go:AzureOpenAI.buildRequest@88-122] *)
Definition azure_message (m : Message) : list openaiMsg :=
  match m_Role m with
  | RoleAssistant =>
      if decide (m_ToolCalls m <> [])
      then [{| om_Role := "assistant"; om_Content := ""; om_ToolCalls := openai_call <$> m_ToolCalls m; om_ToolCallID := "" |}]
      else [plain "assistant" (m_Content m)]
  | _ => openai_message m
  end.
(* [modules/agent/providers/azure_openai.go:AzureOpenAI.buildRequest] *)
Definition azure_buildRequest (deployment : string) (messages : list Message) (tools : list ToolDef) : openaiRequest :=
  {| or_Model := deployment; or_Messages := messages ≫= azure_message; or_Tools := openai_tool <$> tools;
     or_ToolChoice := if decide (tools <> []) then "auto" else "" |}.
(* [modules/agent/providers/azure_openai.go:AzureOpenAI.parseResponse] *)
Definition azure_parseResponse (r : openaiResponse) : Message :=
  let '(i, o) := default (0, 0) (Usage r) in
  match Choices r with [] => assistant "" [] i o | (content, calls) :: _ => assistant content (openai_calls calls) i o end.
(** The same code again. *)
(* [modules/agent/providers/openrouter.go:OpenRouter.buildRequest] *)
Definition openrouter_buildRequest (model : string) (messages : list Message) (tools : list ToolDef) : openaiRequest :=
  {| or_Model := model; or_Messages := messages ≫= openai_message; or_Tools := openai_tool <$> tools; or_ToolChoice := "" |}.
(** Without the tokens. *)
(* [modules/agent/providers/openrouter.go:OpenRouter.parseResponse] *)
Definition openrouter_parseResponse (r : openaiResponse) : Message :=
  match Choices r with [] => assistant "" [] 0 0 | (content, calls) :: _ => assistant content (openai_calls calls) 0 0 end.

(** What a client is configured with; on Azure [cl_model] is the deployment. *)
(* [modules/agent/providers/openai.go:OpenAI] *)
Record Client := { apiKey : string; cl_model : string; baseURL : string }.
(* [modules/agent/providers/openai.go:NewOpenAI] *)
Definition NewOpenAI (key model url : string) : Client := {| apiKey := key; cl_model := model; baseURL := base_URL "https://api.openai.com" url |}.
(* [modules/agent/providers/openrouter.go:NewOpenRouter] *)
Definition NewOpenRouter (key model url : string) : Client := {| apiKey := key; cl_model := model; baseURL := base_URL "https://openrouter.ai/api" url |}.
(** The name a compatible endpoint goes by. *)
(* [modules/agent/providers/openai_compatible.go:NewOpenAICompatible] *)
Definition NewOpenAICompatible (name key model url : string) : string * Client :=
  (TrimSpace (if decide (name = "") then "openai-compatible" else name), NewOpenAI key model url).
(* [modules/agent/providers/azure_openai.go:AzureOpenAI] *)
Record Azure := { az_client : Client; apiVersion : string }.
(* [modules/agent/providers/azure_openai.go:NewAzureOpenAI] *)
Definition NewAzureOpenAI (key endpoint deployment version : string) : Azure :=
  {| az_client := {| apiKey := key; cl_model := deployment; baseURL := TrimRight ["/"%char] endpoint |};
     apiVersion := if decide (version = "") then "2024-08-01-preview" else version |}.
(* [modules/agent/providers/azure_openai.go:AzureOpenAI.chatURL] *)
Definition azure_chatURL (a : Azure) : string :=
  baseURL (az_client a) +:+ "/openai/deployments/" +:+ cl_model (az_client a) +:+ "/chat/completions?api-version=" +:+ apiVersion a.

Section OpenAIChat.
Context (bad_url : string -> option error) (post : HTTPCall openaiRequest -> Result (Z * string)) (decode : string -> Result openaiResponse).
Definition in_words (call status : string) : Words :=
  {| w_new := ""; w_call := call +:+ ": "; w_status := fun code b => status +:+ " error " +:+ itoa code +:+ ": " +:+ b; w_decode := "decode: " |}.
(* [modules/agent/providers/openai.go:OpenAI.Chat] *)
Definition openai_Chat (c : Client) (messages : list Message) (tools : list ToolDef) : Result Message :=
  r <-? exchange bad_url post decode (in_words "OpenAI API" "OpenAI")
    {| hc_URL := baseURL c +:+ "/v1/chat/completions"; hc_Headers := [("Authorization", "Bearer " +:+ apiKey c)];
       hc_Body := openai_buildRequest (cl_model c) messages tools |} ;;
  Ok (openai_parseResponse r).
(* [modules/agent/providers/openrouter.go:OpenRouter.Chat] *)
Definition openrouter_Chat (c : Client) (messages : list Message) (tools : list ToolDef) : Result Message :=
  r <-? exchange bad_url post decode (in_words "OpenRouter API" "OpenRouter")
    {| hc_URL := baseURL c +:+ "/v1/chat/completions";
       hc_Headers := [("Authorization", "Bearer " +:+ apiKey c); ("HTTP-Referer", "https://cyntr.dev"); ("X-Title", "Cyntr")];
       hc_Body := openrouter_buildRequest (cl_model c) messages tools |} ;;
  Ok (openrouter_parseResponse r).
(* [modules/agent/providers/azure_openai.go:AzureOpenAI.Chat] *)
Definition azure_Chat (a : Azure) (messages : list Message) (tools : list ToolDef) : Result Message :=
  r <-? exchange bad_url post decode (in_words "Azure OpenAI API" "Azure OpenAI")
    {| hc_URL := azure_chatURL a; hc_Headers := [("api-key", apiKey (az_client a))]; hc_Body := azure_buildRequest (cl_model (az_client a)) messages tools |} ;;
  Ok (azure_parseResponse r).
End OpenAIChat.

(** ** Ollama *)

(** A call has no id; its arguments are an object. *)
(* [modules/agent/providers/ollama.go:ollamaFnCall] *)
Record ollamaFnCall := { ol_Name : string; ol_Arguments : gmap string json }.
(* [modules/agent/providers/ollama.go:ollamaMsg] *)
Record ollamaMsg := { ol_Role : string; ol_Content : string; ol_ToolCalls : list ollamaFnCall }.
(* [modules/agent/providers/ollama.go:ollamaRequest] *)
Record ollamaRequest := { ol_Model : string; ol_Messages : list ollamaMsg; ol_Stream : bool; ol_Tools : list openaiTool }.
(** Content and calls of the message, and the two counts of tokens. *)
(* [modules/agent/providers/ollama.go:ollamaResponse] *)
Record ollamaResponse := { ol_answer : string; ol_calls : list ollamaFnCall; PromptEvalCount : Z; EvalCount : Z }.
(* [modules/agent/providers/ollama.go:NewOllama] *)
Definition NewOllama (model url : string) : Client := {| apiKey := ""; cl_model := model; baseURL := base_URL "http://localhost:11434" url |}.
Definition ollama_plain (role content : string) : ollamaMsg := {| ol_Role := role; ol_Content := content; ol_ToolCalls := [] |}.
(* [modules/agent/providers/ollama.go:Ollama.buildRequest@70-98] *)
Definition ollama_message (m : Message) : list ollamaMsg :=
  match m_Role m with
  | RoleSystem => [ollama_plain "system" (m_Content m)]
  | RoleUser => [ollama_plain "user" (m_Content m)]
  | RoleAssistant =>
      if decide (m_ToolCalls m <> [])
      then [{| ol_Role := "assistant"; ol_Content := "";
               ol_ToolCalls := (fun tc => {| ol_Name := tc_Name tc; ol_Arguments := JStr <$> tc_Input tc |}) <$> m_ToolCalls m |}]
      else [ollama_plain "assistant" (m_Content m)]
  | RoleTool => (fun tr => ollama_plain "tool" (tr_Content tr)) <$> m_ToolResults m
  | RoleOther _ => []
  end.
(* [modules/agent/providers/ollama.go:Ollama.buildRequest] *)
Definition ollama_buildRequest (model : string) (messages : list Message) (tools : list ToolDef) : ollamaRequest :=
  {| ol_Model := model; ol_Messages := messages ≫= ollama_message; ol_Stream := false; ol_Tools := openai_tool <$> tools |}.
(** The ids are the names with the position. *)
(* [modules/agent/providers/ollama.go:Ollama.parseResponse] *)
Definition ollama_parseResponse (r : ollamaResponse) : Message :=
  assistant (ol_answer r)
    (imap (fun i f => {| tc_ID := "call_" +:+ ol_Name f +:+ "_" +:+ itoa (Z.of_nat i); tc_Name := ol_Name f; tc_Input := sprint <$> ol_Arguments f |}) (ol_calls r))
    (Z.max 0 (PromptEvalCount r)) (Z.max 0 (EvalCount r)).
(* [modules/agent/providers/ollama.go:Ollama.Chat] *)
Definition ollama_Chat (bad_url : string -> option error) (post : HTTPCall ollamaRequest -> Result (Z * string)) (decode : string -> Result ollamaResponse)
    (c : Client) (messages : list Message) (tools : list ToolDef) : Result Message :=
  r <-? exchange bad_url post decode (in_words "Ollama API" "Ollama")
    {| hc_URL := baseURL c +:+ "/api/chat"; hc_Headers := []; hc_Body := ollama_buildRequest (cl_model c) messages tools |} ;;
  Ok (ollama_parseResponse r).

(** ** Gemini *)

(** Neither system messages nor tools are sent, and of a tool's message only its content, which is empty. *)
(* [modules/agent/providers/gemini.go:Gemini.Chat@46-60] *)
Definition gemini_contents (messages : list Message) : list (string * string) :=
  omap (fun m => match m_Role m with
                 | RoleSystem => None
                 | RoleAssistant => Some ("model", m_Content m)
                 | _ => Some ("user", m_Content m)
                 end) messages.
(* [modules/agent/providers/gemini.go:NewGemini] *)
Definition NewGemini (key model url : string) : Client :=
  {| apiKey := key; cl_model := if decide (model = "") then "gemini-pro" else model; baseURL := base_URL "https://generativelanguage.googleapis.com" url |}.
(** [decode] gives the parts of each candidate; what cannot be decoded is an empty answer. *)
(* [modules/agent/providers/gemini.go:Gemini.Chat] *)
Definition gemini_Chat (bad_url : string -> option error) (post : HTTPCall (list (string * string)) -> Result (Z * string))
    (decode : string -> list (list string)) (c : Client) (messages : list Message) (tools : list ToolDef) : Result Message :=
  r <-? exchange bad_url post (fun b => Ok (decode b))
    {| w_new := "create request: "; w_call := "Gemini API: "; w_status := fun code b => "Gemini error " +:+ itoa code +:+ ": " +:+ b; w_decode := "" |}
    {| hc_URL := baseURL c +:+ "/v1beta/models/" +:+ cl_model c +:+ ":generateContent"; hc_Headers := [("x-goog-api-key", apiKey c)];
       hc_Body := gemini_contents messages |} ;;
  Ok (assistant (match r with [] => "" | parts :: _ => String.concat "" parts end) [] 0 0).

(** ** Anthropic *)

(** A text, or a list of blocks. *)
Inductive Content := CText (s : string) | CBlocks (l : list json).
(* [modules/agent/providers/anthropic.go:anthropicMsg] *)
Record anthropicMsg := { am_Role : string; am_Content : Content }.
(* [modules/agent/providers/anthropic.go:anthropicTool] *)
Record anthropicTool := { an_Name : string; an_Description : string; InputSchema : list (string * json) }.
(* [modules/agent/providers/anthropic.go:anthropicRequest] *)
Record anthropicRequest := {
  ar_Model : string; ar_Messages : list anthropicMsg; ar_System : string; ar_MaxTokens : Z; ar_Stream : bool; ar_Tools : list anthropicTool;
}.
(* [modules/agent/providers/anthropic.go:NewAnthropic] *)
Definition NewAnthropic (key model url : string) : Client := {| apiKey := key; cl_model := model; baseURL := base_URL "https://api.anthropic.com" url |}.
(* [modules/agent/providers/anthropic.go:Anthropic.Name] *)
Definition anthropic_Name (c : Client) : string :=
  if decide (cl_model c ∈ ["claude-haiku-4-5-20251001"; "claude-haiku-4-5"]) then "claude-haiku"
  else if decide (cl_model c ∈ ["claude-sonnet-4-6"; "claude-sonnet-4-20250514"]) then "claude-sonnet"
  else if decide (cl_model c ∈ ["claude-opus-4-6"; "claude-opus-4-20250514"]) then "claude-opus"
  else "claude".
Definition text_block (s : string) : json := JObj [("type", JStr "text"); ("text", JStr s)].
(** The media type and the data of an inline image. *)
(* [modules/agent/providers/anthropic.go:Anthropic.buildRequest@176-201] *)
Definition inline_image (att : Attachment) : string * string :=
  match cut ","%char (at_URL att) with
  | None => (at_MimeType att, at_URL att)
  | Some (before, data) =>
      let meta := drop_bytes 5 before in
      let meta := match cut ";"%char meta with Some (m, _) => m | None => meta end in
      (if decide (meta <> "") then meta else at_MimeType att, data)
  end.
Definition image_block (att : Attachment) : json :=
  JObj [("type", JStr "image");
        ("source", if has_prefix "data:" (at_URL att)
                   then JObj [("type", JStr "base64"); ("media_type", JStr (inline_image att).1); ("data", JStr (inline_image att).2)]
                   else JObj [("type", JStr "url"); ("url", JStr (at_URL att))])].
Definition use_block (tc : ToolCall) : json :=
  JObj [("type", JStr "tool_use"); ("id", JStr (tc_ID tc)); ("name", JStr (tc_Name tc));
        ("input", JObj ((fun kv => (kv.1, JStr kv.2)) <$> map_to_list (tc_Input tc)))].
Definition result_block (tr : ToolResult) : json :=
  JObj [("type", JStr "tool_result"); ("tool_use_id", JStr (tr_CallID tr)); ("content", JStr (tr_Content tr)); ("is_error", JBool (tr_IsError tr))].
Definition text_blocks (s : string) : list json := if decide (s <> "") then [text_block s] else [].
(* [modules/agent/providers/anthropic.go:Anthropic.buildRequest@168-242] *)
Definition anthropic_message (m : Message) : list anthropicMsg :=
  match m_Role m with
  | RoleUser =>
      [{| am_Role := "user";
          am_Content := if decide (m_Attachments m <> [])
            then CBlocks ((image_block <$> filter (fun a => at_Type a = "image") (m_Attachments m)) ++ text_blocks (m_Content m))
            else CText (m_Content m) |}]
  | RoleAssistant =>
      [{| am_Role := "assistant";
          am_Content := if decide (m_ToolCalls m <> []) then CBlocks (text_blocks (m_Content m) ++ (use_block <$> m_ToolCalls m)) else CText (m_Content m) |}]
  | RoleTool => (fun tr => {| am_Role := "user"; am_Content := CBlocks [result_block tr] |}) <$> m_ToolResults m
  | RoleSystem | RoleOther _ => []
  end.
(** The loop over the messages: a system message replaces the one before. *)
Definition anthropic_step (st : list anthropicMsg * string) (m : Message) : list anthropicMsg * string :=
  (st.1 ++ anthropic_message m, if decide (m_Role m = RoleSystem) then m_Content m else st.2).
(* [modules/agent/providers/anthropic.go:Anthropic.buildRequest] *)
Definition anthropic_buildRequest (model : string) (messages : list Message) (tools : list ToolDef) (stream : bool) : anthropicRequest :=
  let '(msgs, system) := foldl anthropic_step ([], "") messages in
  {| ar_Model := model; ar_Messages := msgs; ar_System := system; ar_MaxTokens := 4096; ar_Stream := stream;
     ar_Tools := (fun t => {| an_Name := d_Name t; an_Description := d_Description t; InputSchema := parameters t |}) <$> tools |}.
(** [b_Input] is left as it was written. *)
(* [modules/agent/providers/anthropic.go:contentBlock] *)
Record contentBlock := { b_Type : string; b_Text : string; b_ID : string; b_Name : string; b_Input : string }.
(* [modules/agent/providers/anthropic.go:anthropicResponse] *)
Record anthropicResponse := { rs_Blocks : list contentBlock; rs_Usage : option (Z * Z) }.
(* [modules/agent/providers/anthropic.go:Anthropic.parseResponse] *)
Definition anthropic_parseResponse (r : anthropicResponse) : Message :=
  let '(i, o) := default (0, 0) (rs_Usage r) in
  assistant (String.concat "" (omap (fun b => if decide (b_Type b = "text") then Some (b_Text b) else None) (rs_Blocks r)))
    (omap (fun b => if decide (b_Type b = "tool_use") then Some (call_of (b_ID b) (b_Name b) (b_Input b)) else None) (rs_Blocks r)) i o.
Section AnthropicChat.
Context (bad_url : string -> option error) (post : HTTPCall anthropicRequest -> Result (Z * string)).
(* [modules/agent/providers/anthropic.go:Anthropic.setHeaders] *)
Definition anthropic_headers (c : Client) : list (string * string) := [("X-API-Key", apiKey c); ("Anthropic-Version", "2023-06-01")].
Definition anthropic_words : Words :=
  {| w_new := "create request: "; w_call := "API call: "; w_status := fun code b => "API error (status " +:+ itoa code +:+ "): " +:+ b; w_decode := "decode response: " |}.
Definition anthropic_call (c : Client) (messages : list Message) (tools : list ToolDef) (stream : bool) : HTTPCall anthropicRequest :=
  {| hc_URL := baseURL c +:+ "/v1/messages"; hc_Headers := anthropic_headers c; hc_Body := anthropic_buildRequest (cl_model c) messages tools stream |}.
(* [modules/agent/providers/anthropic.go:Anthropic.Chat] *)
Definition anthropic_Chat (decode : string -> Result anthropicResponse) (c : Client) (messages : list Message) (tools : list ToolDef) : Result Message :=
  r <-? exchange bad_url post decode anthropic_words (anthropic_call c messages tools false) ;;
  Ok (anthropic_parseResponse r).
End AnthropicChat.
End Wire.

(** ** The event stream *)

Section Stream.
(** A JSON object read. *)
Context (Unmarshal : string -> option (list (string * json))).

(* [modules/agent/provider.go:StreamChunk] *)
Inductive StreamChunk := ChText (s : string) | ChToolStart (id name : string) | ChToolInput (json : string) | ChDone | ChError (e : error).
(* [modules/agent/providers/anthropic.go:strVal] *)
Definition strVal (m : list (string * json)) (key : string) : string := match field key m with Some (JStr s) => s | _ => "" end.
(* [modules/agent/providers/anthropic.go:Anthropic.processSSEEvent] *)
Definition processSSEEvent (data : string) : list StreamChunk :=
  match Unmarshal data with
  | None => []
  | Some data =>
      let eventType := strVal data "type" in
      if decide (eventType = "content_block_start") then
        match field "content_block" data with
        | Some (JObj block) => if decide (strVal block "type" = "tool_use") then [ChToolStart (strVal block "id") (strVal block "name")] else []
        | _ => []
        end
      else if decide (eventType = "content_block_delta") then
        match field "delta" data with
        | Some (JObj delta) =>
            if decide (strVal delta "type" = "text_delta") then [ChText (strVal delta "text")]
            else if decide (strVal delta "type" = "input_json_delta") then [ChToolInput (strVal delta "partial_json")]
            else []
        | _ => []
        end
      else if decide (eventType = "message_stop") then [ChDone] else []
  end.
(** The lines a scanner gives, without their ends, and the error it stops with; [cancelled] is the error of a context
    that is done, if it is, when a line is taken up; [data] is that of the event being read. *)
(* [modules/agent/providers/anthropic.go:Anthropic.parseSSEStream] *)
Fixpoint parseSSEStream (lines : list (string * option error)) (err : option error) (data : string) : list StreamChunk :=
  match lines with
  | [] => match err with Some e => [ChError ("read SSE stream: " +:+ e)] | None => [] end
  | (line, cancelled) :: lines =>
      match cancelled with
      | Some e => [ChError e]
      | None =>
          if decide (line = "") then (if decide (data <> "") then processSSEEvent data else []) ++ parseSSEStream lines err ""
          else if has_prefix "event: " line then parseSSEStream lines err data
          else if has_prefix "data: " line then parseSSEStream lines err (TrimPrefix line "data: ")
          else parseSSEStream lines err data
      end
  end.
(** The error of the call, or the chunks in order. *)
(* [modules/agent/providers/anthropic.go:Anthropic.ChatStream] *)
Definition ChatStream (order : gmap string ToolParam -> list (string * ToolParam)) (bad_url : string -> option error)
    (post : HTTPCall anthropicRequest -> Result (Z * string)) (scan : string -> list (string * option error) * option error)
    (c : Client) (messages : list Message) (tools : list ToolDef) : Result (list StreamChunk) :=
  body <-? exchange bad_url post Ok anthropic_words (anthropic_call order c messages tools true) ;;
  let '(lines, err) := scan body in Ok (parseSSEStream lines err "").
End Stream.

(** ** The mock, and a provider for the distiller *)

(* [modules/agent/providers/mock.go:Mock] *)
Record Mock := { mk_response : string; mk_call : option ToolCall; callCount : Z }.
(* [modules/agent/providers/mock.go:NewMock] *)
Definition NewMock (response : string) : Mock := {| mk_response := response; mk_call := None; callCount := 0 |}.
(* [modules/agent/providers/mock.go:NewMockWithToolCall] *)
Definition NewMockWithToolCall (tool : string) (input : gmap string string) : Mock :=
  {| mk_response := "Tool result processed."; mk_call := Some {| tc_ID := "call_mock_001"; tc_Name := tool; tc_Input := input |}; callCount := 0 |}.
(* [modules/agent/providers/mock.go:Mock.Chat] *)
Definition mock_Chat (m : Mock) : Mock * Message :=
  let n := wrap64 (callCount m + 1) in
  ({| mk_response := mk_response m; mk_call := mk_call m; callCount := n |},
   match mk_call m with
   | Some tc => if decide (n = 1) then assistant "" [tc] 0 0 else assistant (mk_response m) [] 0 0
   | None => assistant (mk_response m) [] 0 0
   end).
(** A distiller's messages are roles and texts; what comes back is the answer with its tokens. *)
(* [modules/agent/usermodel_distill.go:DistillProviderAdapter.DistillChat] *)
Definition DistillChat (provider : option ModelProvider) (msgs : list (string * string)) : Result (string * Z * Z) :=
  match provider with
  | None => Err "distill adapter: no provider"
  | Some p =>
      match pv_Chat p ((fun m => text_message (if decide (m.1 = "system") then RoleSystem
                                               else if decide (m.1 = "assistant") then RoleAssistant else RoleUser) m.2) <$> msgs) [] with
      | inr (e, _) => Err e
      | inl r => Ok (m_Content r, m_InputTokens r, m_OutputTokens r)
      end
  end.

(** ** Calls and their answers on the wire *)

(** Every message that calls tools is followed at once by one reply for each call, in order. *)
Section Served.
Context {W : Type} (calls : W -> list string) (replies : string -> W -> Prop).
Inductive served : list W -> Prop :=
  | served_nil : served []
  | served_plain w l : calls w = [] -> served l -> served (w :: l)
  | served_calls w rs l : Forall2 replies (calls w) rs -> served l -> served (w :: rs ++ l).
Lemma served_silent l l' : Forall (fun w => calls w = []) l -> served l' -> served (l ++ l').
Proof. induction 1; intros H'; [done|]. apply served_plain; auto. Qed.
(** A conversion that writes a message as one with the same calls, or as ones without any, and a tool's message as a reply. *)
Lemma conversion_serves (conv : Message -> list W) msgs :
  (forall m, Forall (fun w => calls w = []) (conv m) \/ exists w, conv m = [w] /\ calls w = tc_ID <$> m_ToolCalls m) ->
  (forall id content e, exists w, conv (tool_message id content e) = [w] /\ calls w = [] /\ replies id w) ->
  answered msgs -> served (msgs ≫= conv).
Proof.
  intros Hm Ht. induction 1 as [|m l _ Hc _ IH|m rs l _ Hrs _ IH]; [constructor| |].
  - cbn [mbind list_bind]. destruct (Hm m) as [Hs|(w & -> & Hw)]; [by apply served_silent|]. apply served_plain; [by rewrite Hw, Hc|done].
  - cbn [mbind list_bind]. rewrite bind_app. assert (Hr : exists ws, rs ≫= conv = ws /\ Forall2 replies (tc_ID <$> m_ToolCalls m) ws /\ Forall (fun w => calls w = []) ws).
    { clear IH. induction Hrs as [|tc r tcs rs (content & e & ->) _ (ws & Ew & Hf & Hs)]; [by exists []; repeat split; constructor|].
      destruct (Ht (tc_ID tc) content e) as (w & Ew' & Hw & Hr). exists (w :: ws). cbn [mbind list_bind fmap list_fmap]. rewrite Ew', Ew. repeat split; by constructor. }
    destruct Hr as (ws & -> & Hf & Hs). destruct (Hm m) as [Hp|(w & -> & Hw)]; [by apply served_silent; [|apply served_silent]|].
    cbn. apply served_calls; [by rewrite Hw|done].
Qed.
End Served.

Definition openai_ids (m : openaiMsg) : list string := oc_ID <$> om_ToolCalls m.
Definition openai_replies (id : string) (m : openaiMsg) : Prop := om_Role m = "tool" /\ om_ToolCallID m = id.
Definition used_id (j : json) : option string :=
  match j with
  | JObj l => match field "type" l, field "id" l with Some (JStr "tool_use"), Some (JStr id) => Some id | _, _ => None end
  | _ => None
  end.
Definition anthropic_ids (m : anthropicMsg) : list string := match am_Content m with CText _ => [] | CBlocks l => omap used_id l end.
Definition anthropic_replies (id : string) (m : anthropicMsg) : Prop :=
  am_Role m = "user" /\ exists tr, am_Content m = CBlocks [result_block tr] /\ tr_CallID tr = id.

Lemma omap_all_none {A B} (f : A -> option B) l : Forall (fun x => f x = None) l -> omap f l = [].
Proof. induction 1 as [|x l Hx _ IH]; cbn; [done|by rewrite Hx]. Qed.
Lemma text_blocks_ids s : omap used_id (text_blocks s) = [].
Proof. unfold text_blocks. by case_decide. Qed.
Lemma use_blocks_ids (l : list ToolCall) : omap used_id (use_block <$> l) = tc_ID <$> l.
Proof. induction l as [|tc l IH]; [done|]. cbn [fmap list_fmap omap list_omap]. by rewrite IH. Qed.
Lemma openai_ids_of Marshal (l : list ToolCall) : oc_ID <$> (openai_call Marshal <$> l) = tc_ID <$> l.
Proof. rewrite <-list_fmap_compose. done. Qed.
Lemma anthropic_messages msgs : forall st, (foldl anthropic_step st msgs).1 = st.1 ++ (msgs ≫= anthropic_message).
Proof.
  induction msgs as [|m msgs IH]; intros st; cbn [foldl mbind list_bind]; [by rewrite app_nil_r|]. rewrite IH. cbn. by rewrite <-app_assoc.
Qed.

(** Of all system messages only the last reaches the model. *)
Lemma anthropic_last_system order model msgs tools stream :
  ar_System (anthropic_buildRequest order model msgs tools stream) = default "" (m_Content <$> last (filter (fun m => m_Role m = RoleSystem) msgs)).
Proof.
  unfold anthropic_buildRequest. destruct (foldl _ _ _) as [ms sys] eqn:E. cbn [ar_System]. change sys with ((ms, sys).2). rewrite <-E. clear E ms sys.
  induction msgs as [|m msgs IH] using rev_ind; [done|]. rewrite foldl_app, filter_app. cbn [foldl anthropic_step snd].
  rewrite filter_cons, filter_nil. destruct (decide (m_Role m = RoleSystem)); [by rewrite last_snoc|]. by rewrite app_nil_r.
Qed.

(** ** What a request says *)

(** A text under a role, an image inline or by its address, a call, or the answer to one. *)
Inductive item :=
  | Text (role text : string) | Picture (media data : string) | Linked (url : string)
  | Call (tc : ToolCall) | Answer (id content : string) (is_error : bool).
Definition picture (att : Attachment) : item :=
  if has_prefix "data:" (at_URL att) then Picture (inline_image att).1 (inline_image att).2 else Linked (at_URL att).
(** All a message says. *)
Definition says (m : Message) : list item :=
  match m_Role m with
  | RoleSystem => [Text "system" (m_Content m)]
  | RoleUser => (picture <$> filter (fun a => at_Type a = "image") (m_Attachments m)) ++ [Text "user" (m_Content m)]
  | RoleAssistant => Text "assistant" (m_Content m) :: (Call <$> m_ToolCalls m)
  | RoleTool => (fun tr => Answer (tr_CallID tr) (tr_Content tr) (tr_IsError tr)) <$> m_ToolResults m
  | RoleOther _ => []
  end.
(** Empty texts say nothing. *)
Definition telling (i : item) : bool := match i with Text _ "" => false | _ => true end.
Definition told (l : list item) : list item := filter (fun i => telling i = true) l.

(** What OpenAI's protocol has a place for: no images, and no mark on a failed answer. *)
Definition openai_keeps (i : item) : option item :=
  match i with Picture _ _ | Linked _ => None | Answer id content _ => Some (Answer id content false) | _ => Some i end.
(** Anthropic's messages have no system role. *)
Definition anthropic_keeps (i : item) : option item :=
  match i with Text "system" _ => None | _ => Some i end.
(** Azure's client drops the text of a message that calls tools. *)
Definition azure_says (m : Message) : list item :=
  match m_Role m with
  | RoleAssistant => if decide (m_ToolCalls m <> []) then Call <$> m_ToolCalls m else says m
  | _ => says m
  end.

(** A message of a request read back. *)
Definition openai_read (Unmarshal : string -> option (gmap string json)) (sprint : json -> string) (w : openaiMsg) : list item :=
  if decide (om_Role w = "tool") then [Answer (om_ToolCallID w) (om_Content w) false]
  else Text (om_Role w) (om_Content w) :: (Call <$> openai_calls Unmarshal sprint (om_ToolCalls w)).
Definition object_strings (l : list (string * json)) : gmap string string :=
  list_to_map ((fun kv => (kv.1, match kv.2 with JStr v => v | _ => "" end)) <$> l).
Definition inner (key : string) (l : list (string * json)) : list (string * json) :=
  match field key l with Some (JObj l) => l | _ => [] end.
Definition block_item (role : string) (j : json) : list item :=
  match j with
  | JObj l =>
      let type := strVal l "type" in
      if decide (type = "text") then [Text role (strVal l "text")]
      else if decide (type = "image") then
        let src := inner "source" l in
        if decide (strVal src "type" = "base64") then [Picture (strVal src "media_type") (strVal src "data")] else [Linked (strVal src "url")]
      else if decide (type = "tool_use") then
        [Call {| tc_ID := strVal l "id"; tc_Name := strVal l "name"; tc_Input := object_strings (inner "input" l) |}]
      else if decide (type = "tool_result") then
        [Answer (strVal l "tool_use_id") (strVal l "content") (match field "is_error" l with Some (JBool b) => b | _ => false end)]
      else []
  | _ => []
  end.
Definition anthropic_read (w : anthropicMsg) : list item :=
  match am_Content w with CText t => [Text (am_Role w) t] | CBlocks l => l ≫= block_item (am_Role w) end.

Lemma told_app l l' : told (l ++ l') = told l ++ told l'.
Proof. apply filter_app. Qed.
(** A conversion whose every message reads back as what its source says reads back as what they all say. *)
Lemma conversion_tells {W} (conv : Message -> list W) (read : W -> list item) (spec : Message -> list item) msgs :
  Forall (fun m => told (conv m ≫= read) = told (spec m)) msgs -> told ((msgs ≫= conv) ≫= read) = told (msgs ≫= spec).
Proof.
  induction 1 as [|m msgs Hm _ IH]; [done|]. cbn [mbind list_bind]. change (list_bind _ _ conv msgs) with (msgs ≫= conv).
  rewrite bind_app, !told_app, Hm. by f_equal.
Qed.
Lemma omap_bind {A B C} (f : A -> list B) (g : B -> option C) (l : list A) : omap g (l ≫= f) = l ≫= fun x => omap g (f x).
Proof. induction l as [|x l IH]; [done|]. cbn [mbind list_bind]. by rewrite omap_app, <-IH. Qed.
Lemma omap_fmap_some {A B C} (f : A -> B) (g : B -> option C) (h : A -> C) (l : list A) : (forall x, g (f x) = Some (h x)) -> omap g (f <$> l) = h <$> l.
Proof. intros H. induction l as [|x l IH]; [done|]. cbn. by rewrite H, <-IH. Qed.
Lemma bind_fmap_single {A B C} (f : A -> B) (g : B -> list C) (h : A -> C) (l : list A) : (forall x, g (f x) = [h x]) -> (f <$> l) ≫= g = h <$> l.
Proof. intros H. induction l as [|x l IH]; [done|]. cbn. by rewrite H, <-IH. Qed.
Lemma no_pictures l : omap openai_keeps (picture <$> l) = [].
Proof. apply omap_all_none, Forall_fmap, Forall_true. intros a. unfold compose, picture. by destruct (has_prefix _ _). Qed.

Section Conveyed.
(** [valid]: the inputs whose keys and values survive as JSON. *)
Context {order : gmap string ToolParam -> list (string * ToolParam)} {Marshal : gmap string string -> string}
  {Unmarshal : string -> option (gmap string json)} {sprint : json -> string} {valid : gmap string string -> Prop}.
Hypothesis Hjson : forall m, valid m -> Unmarshal (Marshal m) = Some (JStr <$> m).
Hypothesis Hprint : forall s, sprint (JStr s) = s.
Definition valid_message (m : Message) : Prop := Forall (fun tc => valid (tc_Input tc)) (m_ToolCalls m).

Lemma calls_back (calls : list ToolCall) : Forall (fun tc => valid (tc_Input tc)) calls ->
  openai_calls Unmarshal sprint (openai_call Marshal <$> calls) = calls.
Proof.
  intros Hv. unfold openai_calls. rewrite <-list_fmap_compose. induction Hv as [|[i n inp] calls Hi _ IH]; [done|].
  cbn [fmap list_fmap]. f_equal; [|done]. unfold call_of, compose. cbn in *. rewrite Hjson by done. f_equal.
  rewrite <-map_fmap_compose. rewrite <-(map_fmap_id inp) at 2. apply map_fmap_ext. intros. apply Hprint.
Qed.
Lemma calls_kept (calls : list ToolCall) : omap openai_keeps (Call <$> calls) = Call <$> calls.
Proof. by apply omap_fmap_some. Qed.

Lemma bind_one {A B} (f : A -> list B) x : [x] ≫= f = f x.
Proof. cbn. apply app_nil_r. Qed.
Lemma read_assistant content calls :
  openai_read Unmarshal sprint {| om_Role := "assistant"; om_Content := content; om_ToolCalls := calls; om_ToolCallID := "" |} =
  Text "assistant" content :: (Call <$> openai_calls Unmarshal sprint calls).
Proof. reflexivity. Qed.
Lemma openai_tells m : valid_message m ->
  openai_message Marshal m ≫= openai_read Unmarshal sprint = omap openai_keeps (says m).
Proof.
  intros Hv. unfold openai_message, says. destruct (m_Role m); try reflexivity.
  - by rewrite omap_app, no_pictures.
  - rewrite bind_one, read_assistant, calls_back by done. cbn. f_equal. symmetry. apply calls_kept.
  - erewrite (bind_fmap_single openai_result), omap_fmap_some; [reflexivity|intros; reflexivity|intros; reflexivity].
Qed.
Lemma azure_tells m : valid_message m ->
  told (azure_message Marshal m ≫= openai_read Unmarshal sprint) = told (omap openai_keeps (azure_says m)).
Proof.
  intros Hv. pose proof (openai_tells m Hv) as Ho. unfold azure_message, azure_says. unfold openai_message in *.
  destruct (m_Role m) eqn:Hrole; try (by rewrite Ho). case_decide as Hc.
  - by rewrite bind_one, read_assistant, calls_back, calls_kept.
  - assert (m_ToolCalls m = []) as Hn by (by destruct (m_ToolCalls m)). rewrite <- Ho. by rewrite Hn.
Qed.

Lemma inputs_back (m : gmap string string) : object_strings ((fun kv => (kv.1, JStr kv.2)) <$> map_to_list m) = m.
Proof.
  unfold object_strings. rewrite <-list_fmap_compose. rewrite (list_fmap_ext _ id (map_to_list m)).
  - by rewrite list_fmap_id, list_to_map_to_list.
  - by intros i [k v] _.
Qed.
Lemma use_item role tc : block_item role (use_block tc) = [Call tc].
Proof.
  destruct tc as [i n inp]. change (block_item role (use_block {| tc_ID := i; tc_Name := n; tc_Input := inp |})) with
    [Call {| tc_ID := i; tc_Name := n; tc_Input := object_strings ((fun kv => (kv.1, JStr kv.2)) <$> map_to_list inp) |}].
  by rewrite inputs_back.
Qed.
Lemma image_item role att : block_item role (image_block att) = [picture att].
Proof. unfold image_block, picture. by destruct (has_prefix "data:" (at_URL att)). Qed.
Lemma text_items role t : told (text_blocks t ≫= block_item role) = told [Text role t].
Proof. unfold text_blocks. case_decide as H; [done|by rewrite H]. Qed.
Lemma anthropic_calls_kept (calls : list ToolCall) : omap anthropic_keeps (Call <$> calls) = Call <$> calls.
Proof. by apply omap_fmap_some. Qed.
Lemma anthropic_tells m : told (anthropic_message m ≫= anthropic_read) = told (omap anthropic_keeps (says m)).
Proof.
  unfold anthropic_message, says. destruct (m_Role m); try reflexivity.
  - rewrite omap_app. assert (Hp : omap anthropic_keeps (picture <$> filter (fun a => at_Type a = "image") (m_Attachments m)) =
      picture <$> filter (fun a => at_Type a = "image") (m_Attachments m)).
    { apply omap_fmap_some. intros a. unfold picture. by destruct (has_prefix _ _). }
    rewrite Hp, bind_one. unfold anthropic_read. cbn [am_Content am_Role]. case_decide as Ha.
    + rewrite bind_app, !told_app, text_items. erewrite bind_fmap_single; [reflexivity|]. intros. apply image_item.
    + assert (m_Attachments m = []) as -> by (by destruct (m_Attachments m)). done.
  - change (omap anthropic_keeps (?i :: ?l)) with (i :: omap anthropic_keeps l). rewrite bind_one, anthropic_calls_kept.
    unfold anthropic_read. cbn [am_Content am_Role]. case_decide as Hc.
    + rewrite bind_app, told_app, text_items. rewrite (bind_fmap_single _ _ Call) by (intros; apply use_item). by rewrite <-told_app.
    + assert (m_ToolCalls m = []) as -> by (by destruct (m_ToolCalls m)). done.
  - rewrite (bind_fmap_single _ _ (fun tr => Answer (tr_CallID tr) (tr_Content tr) (tr_IsError tr))) by (intros; reflexivity).
    erewrite omap_fmap_some; [reflexivity|intros; reflexivity].
Qed.

Lemma openai_served msgs : answered msgs -> served openai_ids openai_replies (msgs ≫= openai_message Marshal).
Proof.
  apply conversion_serves.
  - intros m. unfold openai_message. destruct (m_Role m); try (left; by repeat constructor).
    + right. eexists. split; [done|]. unfold openai_ids. cbn [om_ToolCalls]. apply openai_ids_of.
    + left. apply Forall_fmap, Forall_true. done.
  - intros id content e. by eexists.
Qed.
Lemma azure_served msgs : answered msgs -> served openai_ids openai_replies (msgs ≫= azure_message Marshal).
Proof.
  apply conversion_serves.
  - intros m. unfold azure_message, openai_message. destruct (m_Role m); try (left; by repeat constructor).
    + case_decide; [|left; by repeat constructor]. right. eexists. split; [done|]. unfold openai_ids. cbn [om_ToolCalls]. apply openai_ids_of.
    + left. apply Forall_fmap, Forall_true. done.
  - intros id content e. by eexists.
Qed.
Lemma anthropic_served msgs : answered msgs -> served anthropic_ids anthropic_replies (msgs ≫= anthropic_message).
Proof.
  apply conversion_serves.
  - intros m. unfold anthropic_message. destruct (m_Role m); try (left; by repeat constructor).
    + left. constructor; [|done]. unfold anthropic_ids. cbn [am_Content]. case_decide; [|done]. rewrite omap_app, text_blocks_ids, app_nil_r.
      apply omap_all_none, Forall_fmap, Forall_true. intros a. cbn. done.
    + case_decide as Hd; [|left; by repeat constructor]. right. eexists. split; [done|]. unfold anthropic_ids. cbn [am_Content].
      by rewrite omap_app, text_blocks_ids, use_blocks_ids.
    + left. apply Forall_fmap, Forall_true. done.
  - intros id content e. eexists. split; [done|]. split; [done|]. split; [done|]. by eexists.
Qed.
Lemma anthropic_request_messages model msgs tools stream :
  ar_Messages (anthropic_buildRequest order model msgs tools stream) = msgs ≫= anthropic_message.
Proof.
  unfold anthropic_buildRequest. destruct (foldl _ _ _) as [ms sys] eqn:E. cbn [ar_Messages]. change ms with ((ms, sys).1).
  by rewrite <-E, anthropic_messages.
Qed.

(** C35 [roundtrip]: a transcript reaches the model whole.  Reading back the request built for it gives, in
    order, everything its messages say: the texts of the system, the user and the assistant (empty ones apart),
    every call with its id, name and inputs, and every answer with the id of its call and its content.  For
    OpenAI and OpenRouter that is all but images and the mark on a failed answer, which their requests have no
    place for; Azure's client also drops the text of a message that calls tools; Anthropic's messages have
    images and marks too, and of the system's texts only the last, in a field of its own.  When the transcript's
    calls are answered (AgentTranscript), every message of these requests that calls tools is followed at once
    by one reply for each call, in their order and with their ids.  The inputs of calls are those that survive
    JSON, as valid UTF-8 does; attachments that are no images reach none of the models. *)
Theorem transcript_conveyed model msgs tools stream : Forall valid_message msgs ->
  told (or_Messages (openai_buildRequest order Marshal model msgs tools) ≫= openai_read Unmarshal sprint) = told (omap openai_keeps (msgs ≫= says)) /\
  told (or_Messages (openrouter_buildRequest order Marshal model msgs tools) ≫= openai_read Unmarshal sprint) = told (omap openai_keeps (msgs ≫= says)) /\
  told (or_Messages (azure_buildRequest order Marshal model msgs tools) ≫= openai_read Unmarshal sprint) = told (omap openai_keeps (msgs ≫= azure_says)) /\
  told (ar_Messages (anthropic_buildRequest order model msgs tools stream) ≫= anthropic_read) = told (omap anthropic_keeps (msgs ≫= says)) /\
  ar_System (anthropic_buildRequest order model msgs tools stream) = default "" (m_Content <$> last (filter (fun m => m_Role m = RoleSystem) msgs)) /\
  (answered msgs ->
    served openai_ids openai_replies (or_Messages (openai_buildRequest order Marshal model msgs tools)) /\
    served openai_ids openai_replies (or_Messages (openrouter_buildRequest order Marshal model msgs tools)) /\
    served openai_ids openai_replies (or_Messages (azure_buildRequest order Marshal model msgs tools)) /\
    served anthropic_ids anthropic_replies (ar_Messages (anthropic_buildRequest order model msgs tools stream))).
Proof.
  intros Hv. rewrite anthropic_request_messages.
  assert (Ho : told ((msgs ≫= openai_message Marshal) ≫= openai_read Unmarshal sprint) = told (omap openai_keeps (msgs ≫= says))).
  { rewrite omap_bind. apply conversion_tells. eapply Forall_impl; [exact Hv|]. intros m Hm. by rewrite openai_tells. }
  split; [exact Ho|]. split; [exact Ho|]. split; [|split; [|split; [apply anthropic_last_system|]]].
  - rewrite omap_bind. apply conversion_tells. eapply Forall_impl; [exact Hv|]. intros m Hm. by apply azure_tells.
  - rewrite omap_bind. apply conversion_tells, Forall_true. apply anthropic_tells.
  - intros Ha. split; [by apply openai_served|]. split; [by apply openai_served|]. split; [by apply azure_served|by apply anthropic_served].
Qed.
End Conveyed.

(** What is made of a service's answer is always the assistant's, never a tool's: the replies of these providers
    are what AgentTranscript asks of a model's. *)
Lemma parsed_spoken Unmarshal sprint r r' r'' m :
  spoken (openai_parseResponse Unmarshal sprint r) /\ spoken (openrouter_parseResponse Unmarshal sprint r) /\
  spoken (azure_parseResponse Unmarshal sprint r) /\ spoken (ollama_parseResponse sprint r') /\
  spoken (anthropic_parseResponse Unmarshal sprint r'') /\ spoken (mock_Chat m).2.
Proof.
  unfold openai_parseResponse, openrouter_parseResponse, azure_parseResponse, anthropic_parseResponse, mock_Chat.
  repeat (case_match; subst); by repeat split.
Qed.

(** ** The stream, event by event *)

(** The lines of an event of a type with some data. *)
Definition event_lines (ev : string * string) : list (string * option error) :=
  [("event: " +:+ ev.1, None); ("data: " +:+ ev.2, None); ("", None)].
(** What the reader passes on is what each event says, in order, whatever bytes the data has and however long the
    answer is; data whose event is not ended by an empty line is dropped. *)
Lemma stream_in_order Unmarshal evs err data : Forall (fun ev => ev.2 <> "") evs ->
  parseSSEStream Unmarshal ((evs ≫= event_lines) ++ [("data: " +:+ data, None)]) err "" =
    (evs ≫= fun ev => processSSEEvent Unmarshal ev.2) ++ match err with Some e => [ChError ("read SSE stream: " +:+ e)] | None => [] end.
Proof.
  induction 1 as [|[ty d] evs Hd _ IH]; [done|]. cbn [mbind list_bind event_lines app fst snd parseSSEStream].
  rewrite (decide_False (P := "event: " +:+ ty = "")) by done. change (has_prefix "event: " ("event: " +:+ ty)) with true. cbv iota.
  rewrite (decide_False (P := "data: " +:+ d = "")) by done. change (has_prefix "event: " ("data: " +:+ d)) with false.
  change (has_prefix "data: " ("data: " +:+ d)) with true. cbv iota. change (TrimPrefix ("data: " +:+ d) "data: ") with d.
  rewrite (decide_True (P := "" = "")) by done. rewrite decide_True by done. by rewrite IH, app_assoc.
Qed.

(** ** What gets lost *)

Definition demo_config : AgentConfig :=
  {| Name := "helper"; Tenant := "acme"; Model := "claude"; SystemPrompt := "Never reveal salaries."; Tools := []; MaxTurns := 10; MaxHistory := 2;
     SummarizeThreshold := 4; Secrets := ∅; RateLimit := 0; Skills := []; MCPServers := []; AutoMemory := false; Sandbox := {| sb_Mode := ""; sb_Backend := "" |} |}.
Definition demo_session (window : Z) : Session :=
  {| s_id := "s"; s_config := demo_config; history := []; s_stored := false; memories := ""; skillInstructions := ""; lastUser := "ann" |}.
Definition demo_call : Message := assistant "" [{| tc_ID := "c1"; tc_Name := "shell_exec"; tc_Input := {["command" := "ls"]} |}] 0 0.
Definition in_order (m : gmap string ToolParam) : list (string * ToolParam) := map_to_list m.
(** Once a conversation was compacted the agent's own system prompt no longer reaches Anthropic's models. *)
Example prompt_lost :
  match CompactHistory 2 (demo_session 0) with
  | Some _ => (ar_System (anthropic_buildRequest in_order "claude" (AssembleContext 0 (demo_session 0)) [] false),
               (fun s => ar_System (anthropic_buildRequest in_order "claude" (AssembleContext 0 s) [] false)) <$>
                 CompactHistory 2 (with_history [text_message RoleUser "a"; text_message RoleUser "b"; text_message RoleUser "c"] (demo_session 0)))
      = ("Never reveal salaries.", Some "[Earlier conversation: 1 messages compacted]")
  | None => False
  end.
Proof. vm_compute. reflexivity. Qed.
(** A window of two messages opens with a result whose call is gone. *)
Example orphaned_result :
  (openai_message (fun _ => "") <$> history (add_all [demo_call; tool_message "c1" "files" false; text_message RoleUser "thanks"] (demo_session 2)))
    = [[{| om_Role := "tool"; om_Content := "files"; om_ToolCalls := []; om_ToolCallID := "c1" |}]; [plain "user" "thanks"]].
Proof. vm_compute. reflexivity. Qed.

(** ** Witness *)

(** A codec of maps of strings: the digits of the number that encodes one. *)
Fixpoint pos_text (p : positive) : string := match p with xH => "" | xO p => String "0" (pos_text p) | xI p => String "1" (pos_text p) end.
Fixpoint text_pos (s : string) : positive := match s with "" => xH | String c s => if decide (c = "0"%char) then xO (text_pos s) else xI (text_pos s) end.
Lemma text_pos_text p : text_pos (pos_text p) = p.
Proof. induction p as [p IH|p IH|]; cbn; by rewrite ?IH. Qed.
Definition demo_Marshal (m : gmap string string) : string := pos_text (encode m).
Definition demo_Unmarshal (s : string) : option (gmap string json) :=
  match (decode (text_pos s) : option (gmap string string)) with Some m => Some (JStr <$> m) | None => None end.
Definition demo_print (j : json) : string := match j with JStr s => s | _ => "" end.
Lemma demo_codec m : demo_Unmarshal (demo_Marshal m) = Some (JStr <$> m).
Proof. unfold demo_Unmarshal, demo_Marshal. by rewrite text_pos_text, decode_encode. Qed.
Lemma transcript_conveyed_witness :
  let msgs := [text_message RoleSystem "Be brief."; text_message RoleUser "list"; demo_call; tool_message "c1" "denied" true; text_message RoleAssistant "done"] in
  told (ar_Messages (anthropic_buildRequest in_order "claude" msgs [] false) ≫= anthropic_read) =
    [Text "user" "list"; Call {| tc_ID := "c1"; tc_Name := "shell_exec"; tc_Input := {["command" := "ls"]} |}; Answer "c1" "denied" true;
     Text "assistant" "done"] /\
  told (or_Messages (openai_buildRequest in_order demo_Marshal "gpt" msgs []) ≫= openai_read demo_Unmarshal demo_print) =
    [Text "system" "Be brief."; Text "user" "list"; Call {| tc_ID := "c1"; tc_Name := "shell_exec"; tc_Input := {["command" := "ls"]} |};
     Answer "c1" "denied" false; Text "assistant" "done"] /\
  served openai_ids openai_replies (or_Messages (openai_buildRequest in_order demo_Marshal "gpt" msgs [])).
Proof.
  intros msgs. assert (Ha : answered msgs).
  { apply answered_plain; [done|done|]. apply answered_plain; [done|done|].
    apply (answered_calls demo_call [tool_message "c1" "denied" true]).
    - done.
    - constructor; [|constructor]. by exists "denied", true.
    - apply answered_plain; [done|done|constructor]. }
  assert (Hv : Forall (valid_message (valid := fun _ => True)) msgs) by (repeat constructor).
  pose proof (transcript_conveyed (order := in_order) (valid := fun _ => True) (fun m _ => demo_codec m)
    (fun s => eq_refl (demo_print (JStr s))) "gpt" msgs [] false Hv) as (Ho & _ & _ & _ & _ & Hs).
  pose proof (transcript_conveyed (order := in_order) (valid := fun _ => True) (fun m _ => demo_codec m)
    (fun s => eq_refl (demo_print (JStr s))) "claude" msgs [] false Hv) as (_ & _ & _ & Han & _).
  split; [rewrite Han; reflexivity|]. split; [rewrite Ho; reflexivity|]. apply Hs. exact Ha.
Defined.

(** * OAuthTokens: model providers by subscription

    [src/modules/agent/providers/oauth.go]: tokens exchanged, refreshed and stored per tenant and provider.  The store
    is an interface; the one in memory implements it.  The token endpoint and the clock are arguments. *)
Module OAuthTokens.
Local Open Scope go_scope.
Local Open Scope Z_scope.

(* [modules/agent/providers/oauth.go:OAuthToken] *)
Record OAuthToken := { AccessToken_ : string; RefreshToken : string; ExpiresAt : time }.
(* [modules/agent/providers/oauth.go:OAuthToken.Expired] *)
Definition Expired (now : time) (t : OAuthToken) : bool := if IsZero (ExpiresAt t) then false else negb (Before (now + 30 * Second) (ExpiresAt t)).

(** A store keeps each tenant's token for each provider, when their names hold no NUL. *)
(* [modules/agent/providers/oauth.go:TokenStore] *)
Class TokenStore (S : Type) := {
  Load : string -> string -> S -> option OAuthToken;
  Save : string -> string -> OAuthToken -> S -> S;
  Delete : string -> string -> S -> S;
}.
Definition nul : ascii := "000"%char.
Class TokenStoreLaws (S : Type) `{TokenStore S} := {
  load_saved t p tok s : Load t p (Save t p tok s) = Some tok;
  load_deleted t p s : Load t p (Delete t p s) = None;
  load_other t p t' p' tok s : lacks nul t -> lacks nul t' -> (t, p) <> (t', p') ->
    Load t' p' (Save t p tok s) = Load t' p' s /\ Load t' p' (Delete t p s) = Load t' p' s;
}.

(** ** In memory *)

(* [modules/agent/providers/oauth.go:MemoryTokenStore] *)
Record MemoryTokenStore := { m : gmap string OAuthToken }.
(* [modules/agent/providers/oauth.go:NewMemoryTokenStore] *)
Definition NewMemoryTokenStore : MemoryTokenStore := {| m := ∅ |}.
(* [modules/agent/providers/oauth.go:tokKey] *)
Definition tokKey (tenant provider : string) : string := tenant +:+ String nul provider.
(* [modules/agent/providers/oauth.go:MemoryTokenStore.Load] *)
Definition mem_Load (tenant provider : string) (s : MemoryTokenStore) : option OAuthToken := m s !! tokKey tenant provider.
(* [modules/agent/providers/oauth.go:MemoryTokenStore.Save] *)
Definition mem_Save (tenant provider : string) (tok : OAuthToken) (s : MemoryTokenStore) : MemoryTokenStore := {| m := <[tokKey tenant provider := tok]> (m s) |}.
(* [modules/agent/providers/oauth.go:MemoryTokenStore.Delete] *)
Definition mem_Delete (tenant provider : string) (s : MemoryTokenStore) : MemoryTokenStore := {| m := delete (tokKey tenant provider) (m s) |}.
#[export] Instance memory_store : TokenStore MemoryTokenStore := {| Load := mem_Load; Save := mem_Save; Delete := mem_Delete |}.

Lemma tokKey_inj t p t' p' : lacks nul t -> lacks nul t' -> tokKey t p = tokKey t' p' -> (t, p) = (t', p').
Proof.
  unfold tokKey. revert t'. induction t as [|c t IH]; intros t' Ht Ht' E; destruct t' as [|c' t'].
  - by injection E as ->.
  - injection E as E _. apply lacks_cons in Ht' as [Hc _]. by destruct Hc.
  - injection E as E _. apply lacks_cons in Ht as [Hc _]. by destruct Hc.
  - rewrite !str_app_cons in E. injection E as -> E. apply lacks_cons in Ht as [_ Ht], Ht' as [_ Ht'].
    by injection (IH t' Ht Ht' E) as -> ->.
Qed.
#[export] Instance memory_laws : TokenStoreLaws MemoryTokenStore.
Proof.
  split.
  - intros. apply lookup_insert_eq.
  - intros. apply lookup_delete_eq.
  - intros t p t' p' tok s Ht Ht' Hne. assert (tokKey t p <> tokKey t' p') as Hk by (by intros ?%tokKey_inj).
    split; [by apply lookup_insert_ne|by apply lookup_delete_ne].
Qed.

(** ** The manager *)

Section OAuth.
Context {S : Type} `{TokenStore S}.
(* [modules/agent/providers/oauth.go:OAuthConfig] *)
Record OAuthConfig := { Provider : string; TokenURL : string; ClientID : string; ClientSecret : string }.
(** What the endpoint answers: access and refresh token, seconds, error and its description. *)
(* [modules/agent/providers/oauth.go:OAuthManager.tokenRequest@157-163] *)
Record TokenBody := { tb_Access : string; tb_Refresh : string; tb_ExpiresIn : Z; tb_Error : string; tb_Desc : string }.
(** The status with the body read or the error of reading it. *)
Context (endpoint : string -> list (string * string) -> Result (Z * Result TokenBody)).

(* [modules/agent/providers/oauth.go:OAuthManager.tokenRequest@141-144] *)
Definition token_form (cfg : OAuthConfig) (form : list (string * string)) : list (string * string) :=
  form ++ [("client_id", ClientID cfg)] ++ (if decide (ClientSecret cfg <> "") then [("client_secret", ClientSecret cfg)] else []).
(* [modules/agent/providers/oauth.go:OAuthManager.tokenRequest] *)
Definition tokenRequest (now : time) (cfg : OAuthConfig) (form : list (string * string)) : Result OAuthToken :=
  match endpoint (TokenURL cfg) (token_form cfg form) with
  | Err e => Err ("oauth: token request: " +:+ e)
  | Ok (code, Err e) => Err ("oauth: decode token response (status " +:+ itoa code +:+ "): " +:+ e)
  | Ok (code, Ok body) =>
      if decide (300 <= code \/ tb_Error body <> "")
      then Err ("oauth: token endpoint error: " +:+ tb_Error body +:+ " " +:+ tb_Desc body +:+ " (status " +:+ itoa code +:+ ")")
      else if decide (tb_Access body = "") then Err "oauth: token endpoint returned no access_token"
      else Ok {| AccessToken_ := tb_Access body; RefreshToken := tb_Refresh body;
                 ExpiresAt := if decide (0 < tb_ExpiresIn body) then now + wrap64 (tb_ExpiresIn body * Second) else 0 |}
  end.
(* [modules/agent/providers/oauth.go:OAuthManager.Exchange] *)
Definition Exchange (now : time) (cfg : OAuthConfig) (tenant code redirectURI : string) (s : S) : S * option error :=
  match tokenRequest now cfg [("grant_type", "authorization_code"); ("code", code); ("redirect_uri", redirectURI)] with
  | Err e => (s, Some e)
  | Ok tok => (Save tenant (Provider cfg) tok s, None)
  end.
Definition refresh_form (refresh : string) : list (string * string) := [("grant_type", "refresh_token"); ("refresh_token", refresh)].
Definition keep_refresh (old new : OAuthToken) : OAuthToken :=
  if decide (RefreshToken new = "") then {| AccessToken_ := AccessToken_ new; RefreshToken := RefreshToken old; ExpiresAt := ExpiresAt new |} else new.
(** [now'] is the clock when the endpoint has answered. *)
(* [modules/agent/providers/oauth.go:OAuthManager.AccessToken] *)
Definition AccessToken (now now' : time) (cfg : OAuthConfig) (tenant : string) (s : S) : S * Result string :=
  match Load tenant (Provider cfg) s with
  | None => (s, Err ("oauth: " +:+ Provider cfg +:+ " not connected for tenant " +:+ quote tenant))
  | Some tok =>
      if negb (Expired now tok) then (s, Ok (AccessToken_ tok))
      else if decide (RefreshToken tok = "")
      then (s, Err ("oauth: " +:+ Provider cfg +:+ " token for tenant " +:+ quote tenant +:+ " expired and has no refresh token"))
      else match tokenRequest now' cfg (refresh_form (RefreshToken tok)) with
           | Err e => (s, Err e)
           | Ok refreshed => let tok' := keep_refresh tok refreshed in (Save tenant (Provider cfg) tok' s, Ok (AccessToken_ tok'))
           end
  end.
(* [modules/agent/providers/oauth.go:OAuthManager.Revoke] *)
Definition Revoke (cfg : OAuthConfig) (tenant : string) (s : S) : S := Delete tenant (Provider cfg) s.

(** A token handed out is the tenant's own: the one stored, not about to expire, or one the endpoint gave for the
    tenant's refresh token, which is then stored and can be refreshed again; other tenants' tokens stay as they are. *)
Lemma token_own `{!TokenStoreLaws S} now now' cfg tenant s s' r : AccessToken now now' cfg tenant s = (s', r) ->
  (forall t, r = Ok t -> exists tok, Load tenant (Provider cfg) s = Some tok /\
     (Expired now tok = false /\ t = AccessToken_ tok /\ s' = s \/
      exists new, Expired now tok = true /\ RefreshToken tok <> "" /\ tokenRequest now' cfg (refresh_form (RefreshToken tok)) = Ok new /\
        t = AccessToken_ new /\ t <> "" /\ exists kept, Load tenant (Provider cfg) s' = Some kept /\ AccessToken_ kept = t /\ RefreshToken kept <> "")) /\
  (forall other p, lacks nul tenant -> lacks nul other -> (tenant, Provider cfg) <> (other, p) -> Load other p s' = Load other p s).
Proof.
  intros Hr. assert (Hnew : forall form tok, tokenRequest now' cfg form = Ok tok -> AccessToken_ tok <> "").
  { intros form tok. unfold tokenRequest. repeat case_match; try done; by intros [= <-]. }
  unfold AccessToken in Hr. destruct (Load tenant (Provider cfg) s) as [tok|] eqn:El; [|by injection Hr as <- <-].
  destruct (Expired now tok) eqn:Ee; cbn [negb] in Hr.
  2: { injection Hr as <- <-. split; [|done]. intros t [= <-]. exists tok. split; [done|]. by left. }
  case_decide as Href; [by injection Hr as <- <-|]. destruct (tokenRequest _ _ _) as [new|e] eqn:Et; [|by injection Hr as <- <-].
  injection Hr as <- <-. pose proof (Hnew _ _ Et) as Hne. assert (Hk : AccessToken_ (keep_refresh tok new) = AccessToken_ new /\ RefreshToken (keep_refresh tok new) <> "").
  { unfold keep_refresh. by case_decide. }
  destruct Hk as [Hk1 Hk2]. rewrite Hk1. split.
  - intros t [= <-]. exists tok. split; [done|]. right. exists new. repeat (split; [done|]). exists (keep_refresh tok new). split; [apply load_saved|done].
  - intros other p Ht Ho Hd. by apply load_other.
Qed.
(** After a tenant disconnects there is no token for it until it connects again. *)
Lemma revoked `{!TokenStoreLaws S} now now' cfg tenant s : is_Ok (AccessToken now now' cfg tenant (Revoke cfg tenant s)).2 = false.
Proof. unfold AccessToken, Revoke. by rewrite load_deleted. Qed.
End OAuth.
End OAuthTokens.
