(* ===== verification/Notify.v ===== *)
(** * Notify: notifications, and the log

    [src/modules/notify]: the notifier and its channels: the log, a Slack webhook, PagerDuty, Datadog and a webhook of
    one's own with retries; and [src/kernel/log]: levels and loggers derived for modules.  HTTP, JSON, the
    clock and the order goroutines finish in are arguments. *)
From S2P Require Import Prelude GoStr GoText.
From S2P Require Mcp.
Import Mcp (json, JNum, JStr, JArr, JObj).
Local Open Scope go_scope.
Local Open Scope Z_scope.

(** ** The log *)

(* [kernel/log/logger.go:Level] *)
Inductive Level := DEBUG | INFO | WARN | ERROR | LevelOther (n : Z).
(* [kernel/log/logger.go:Level.String] *)
Definition Level_String (l : Level) : string :=
  match l with DEBUG => "DEBUG" | INFO => "INFO" | WARN => "WARN" | ERROR => "ERROR" | LevelOther _ => "UNKNOWN" end.
Definition rank (l : Level) : Z := match l with DEBUG => 0 | INFO => 1 | WARN => 2 | ERROR => 3 | LevelOther n => n end.
(* [kernel/log/logger.go:Entry] *)
Record LogEntry := { le_Time : string; le_Level : string; le_Module : string; le_Message : string; le_Fields : list (string * json) }.
(** The output is the same for a logger and those derived from it. *)
(* [kernel/log/logger.go:Logger] *)
Record Logger := { level : Level; module : string }.
(* [kernel/log/logger.go:New] *)
Definition New (l : Level) (m : string) : Logger := {| level := l; module := m |}.
(* [kernel/log/logger.go:defaultLogger] *)
Definition defaultLogger : Logger := New INFO "".
(* [kernel/log/logger.go:Logger.SetLevel] *)
Definition SetLevel (l : Level) (lg : Logger) : Logger := {| level := l; module := module lg |}.
(* [kernel/log/logger.go:Logger.WithModule] *)
Definition WithModule (m : string) (lg : Logger) : Logger := {| level := level lg; module := m |}.
(** What is written; of the maps of fields only the first counts. *)
(* [kernel/log/logger.go:Logger.log] *)
Definition log (stamp : string) (l : Level) (msg : string) (fields : list (list (string * json))) (lg : Logger) : list LogEntry :=
  if decide (rank l < rank (level lg)) then []
  else [{| le_Time := stamp; le_Level := Level_String l; le_Module := module lg; le_Message := msg; le_Fields := default [] (head fields) |}].

(** The level of the default logger reaches no logger derived from it before: the modules derive theirs when the program
    is loaded. *)
Lemma level_not_inherited stamp l msg fields m :
  let child := WithModule m defaultLogger in
  let parent := SetLevel l defaultLogger in
  (rank l <= rank DEBUG -> log stamp DEBUG msg fields parent <> []) /\ log stamp DEBUG msg fields child = [].
Proof. cbn. split; [|done]. intros H. unfold log. cbn in *. by rewrite decide_False by lia. Qed.
(** Exactly what is at least as severe as the logger's level is written. *)
Lemma log_filters stamp l msg fields lg : log stamp l msg fields lg <> [] <-> rank (level lg) <= rank l.
Proof. unfold log. case_decide; split; try done; lia. Qed.

(** ** Notifications *)

(* [modules/notify/notifier.go:Notification] *)
Record Notification := {
  n_Type : string; Title : string; Message : string; Tenant : string; Severity : string; Agent : string; Source : string; Fields : gmap string string;
}.
(* [modules/notify/notifier.go:NotifyApproval] *)
Definition NotifyApproval : string := "approval_needed".
(* [modules/notify/notifier.go:NotifyDenied] *)
Definition NotifyDenied : string := "policy_denied".
(* [modules/notify/notifier.go:NotifyError] *)
Definition NotifyError : string := "error".
Record Post := { po_URL : string; po_Headers : list (string * string); po_Body : json }.

Section Channels.
(** The status of a post, by its attempt, or its error; the error of a URL; the order a map is visited in; the clock
    as a text. *)
Context (service : nat -> Post -> Result Z) (bad_url : string -> option error) (visit : gmap string string -> list (string * string)) (stamp : string).

(** What was posted, and the error. *)
Notation sent := (list Post * option error)%type.
(* [modules/notify/notifier.go:SlackWebhookChannel.Send@60-77] *)
Definition slack_text (n : Notification) : string :=
  let emoji := if decide (n_Type n = NotifyApproval) then "🔔" else if decide (n_Type n = NotifyDenied) then "🚫" else if decide (n_Type n = NotifyError) then "❌" else "ℹ️" in
  let text := emoji +:+ " *" +:+ Title n +:+ "*" +:+ nl +:+ Message n in
  let text := if decide (Tenant n <> "") then text +:+ nl +:+ "Tenant: " +:+ Tenant n else text in
  foldl (fun text kv => text +:+ nl +:+ kv.1 +:+ ": " +:+ kv.2) text (visit (Fields n)).
(** A URL that cannot be parsed gives no request, and setting its header panics: [None]. *)
(* [modules/notify/notifier.go:SlackWebhookChannel.Send] *)
Definition slack_Send (url : string) (n : Notification) : option sent :=
  match bad_url url with
  | Some _ => None
  | None =>
      let p := {| po_URL := url; po_Headers := []; po_Body := JObj [("text", JStr (slack_text n))] |} in
      Some ([p], match service 0 p with
                 | Err e => Some e
                 | Ok code => if decide (400 <= code) then Some ("slack webhook " +:+ itoa code) else None
                 end)
  end.
(* [modules/notify/pagerduty.go:mapSeverity] *)
Definition mapSeverity (s : string) : string := if decide (s ∈ ["critical"; "warning"; "error"]) then s else "info".
(* [modules/notify/pagerduty.go:isResolveAction] *)
Definition isResolveAction (s : string) : bool := bool_decide (s = "info" \/ s = "resolved").
(* [modules/notify/pagerduty.go:PagerDutyChannel] *)
Record PagerDuty := { pd_endpoint : string; routingKey : string }.
(* [modules/notify/pagerduty.go:NewPagerDutyChannel] *)
Definition NewPagerDuty (endpoint key : string) : PagerDuty :=
  {| pd_endpoint := if decide (endpoint = "") then "https://events.pagerduty.com/v2/enqueue" else endpoint; routingKey := key |}.
Definition omitted (k v : string) : list (string * json) := if decide (v = "") then [] else [(k, JStr v)].
(* [modules/notify/pagerduty.go:PagerDutyChannel.Send@75-75] *)
Definition dedup_key (n : Notification) : string := "cyntr-" +:+ Tenant n +:+ "-" +:+ Agent n +:+ "-" +:+ Source n.
(* [modules/notify/pagerduty.go:PagerDutyChannel.Send@77-103] *)
Definition pagerduty_event (p : PagerDuty) (n : Notification) : json :=
  JObj [("routing_key", JStr (routingKey p)); ("event_action", JStr (if isResolveAction (Severity n) then "resolve" else "trigger"));
        ("dedup_key", JStr (dedup_key n));
        ("payload", JObj ([("summary", JStr (if decide (Message n <> "") then Title n +:+ ": " +:+ Message n else Title n));
                           ("severity", JStr (mapSeverity (Severity n))); ("source", JStr (Source n))]
                          ++ omitted "component" (Agent n) ++ omitted "group" (Tenant n)
                          ++ (if decide (Fields n = ∅) then [] else [("custom_details", JObj ((fun kv => (kv.1, JStr kv.2)) <$> map_to_list (Fields n)))])))].
(* [modules/notify/pagerduty.go:PagerDutyChannel.Send] *)
Definition pagerduty_Send (p : PagerDuty) (n : Notification) : sent :=
  match bad_url (pd_endpoint p) with
  | Some e => ([], Some ("pagerduty request: " +:+ e))
  | None =>
      let q := {| po_URL := pd_endpoint p; po_Headers := []; po_Body := pagerduty_event p n |} in
      ([q], match service 0 q with
            | Err e => Some ("pagerduty send: " +:+ e)
            | Ok code => if decide (400 <= code) then Some ("pagerduty response: " +:+ itoa code) else None
            end)
  end.
(* [modules/notify/datadog.go:DatadogChannel] *)
Record Datadog := { dd_endpoint : string; dd_apiKey : string }.
(* [modules/notify/datadog.go:NewDatadogChannel] *)
Definition NewDatadog (endpoint key : string) : Datadog :=
  {| dd_endpoint := if decide (endpoint = "") then "https://api.datadoghq.com" else endpoint; dd_apiKey := key |}.
(* [modules/notify/datadog.go:severityToAlertType] *)
Definition severityToAlertType (s : string) : string :=
  if decide (s = "critical" \/ s = "error") then "error" else if decide (s = "warning") then "warning" else "info".
(* [modules/notify/datadog.go:DatadogChannel.post] *)
Definition datadog_post (d : Datadog) (path : string) (payload : json) : sent :=
  match bad_url (dd_endpoint d +:+ path) with
  | Some e => ([], Some ("datadog request: " +:+ e))
  | None =>
      let q := {| po_URL := dd_endpoint d +:+ path; po_Headers := [("DD-API-KEY", dd_apiKey d)]; po_Body := payload |} in
      ([q], match service 0 q with
            | Err e => Some ("datadog post: " +:+ e)
            | Ok code => if decide (400 <= code) then Some ("datadog " +:+ path +:+ " responded " +:+ itoa code) else None
            end)
  end.
Definition tag (k v : string) : list json := if decide (v <> "") then [JStr (k +:+ ":" +:+ v)] else [].
(* [modules/notify/datadog.go:DatadogChannel.Send] *)
Definition datadog_Send (d : Datadog) (n : Notification) : sent :=
  datadog_post d "/api/v1/events"
    (JObj [("title", JStr (Title n)); ("text", JStr (Message n)); ("alert_type", JStr (severityToAlertType (Severity n)));
           ("source_type_name", JStr "cyntr"); ("tags", JArr (tag "agent" (Agent n) ++ tag "tenant" (Tenant n) ++ tag "source" (Source n)))]).
(** The value and the time as JSON numbers. *)
(* [modules/notify/datadog.go:DatadogChannel.SendMetric] *)
Definition datadog_SendMetric (d : Datadog) (metric value now : string) (tags : gmap string string) : sent :=
  datadog_post d "/api/v1/series"
    (JObj [("series", JArr [JObj [("metric", JStr metric); ("type", JStr "gauge"); ("points", JArr [JArr [JNum now; JNum value]]);
                                  ("tags", JArr ((fun kv => JStr (kv.1 +:+ ":" +:+ kv.2)) <$> visit tags))]])]).
(* [modules/notify/generic_webhook.go:GenericWebhookChannel] *)
Record Generic := { g_name : string; g_url : string; g_headers : list (string * string); MaxRetries : Z; RetryDelayMs : Z }.
(* [modules/notify/generic_webhook.go:NewGenericWebhookChannel] *)
Definition NewGeneric (name url : string) (headers : list (string * string)) : Generic :=
  {| g_name := name; g_url := url; g_headers := headers; MaxRetries := 1; RetryDelayMs := 1000 |}.
(** The keys of a map are marshalled in order. *)
(* [modules/notify/generic_webhook.go:GenericWebhookChannel.Send@49-57] *)
Definition generic_post (g : Generic) (n : Notification) : Post :=
  {| po_URL := g_url g; po_Headers := g_headers g;
     po_Body := JObj [("agent", JStr (Agent n)); ("message", JStr (Message n)); ("severity", JStr (Severity n)); ("source", JStr (Source n));
                      ("tenant", JStr (Tenant n)); ("timestamp", JStr stamp); ("title", JStr (Title n))] |}.
(* [modules/notify/generic_webhook.go:GenericWebhookChannel.doRequest] *)
Definition doRequest (i : nat) (p : Post) : sent :=
  match bad_url (po_URL p) with
  | Some e => ([], Some e)
  | None => ([p], match service i p with Err e => Some e | Ok code => if decide (400 <= code) then Some ("HTTP " +:+ itoa code) else None end)
  end.
(** [n] attempts are left, [i] were made; [cancelled] is the error of a context that ends the wait before an attempt. *)
Fixpoint attempt (cancelled : nat -> option error) (n i : nat) (attempts : Z) (p : Post) (lastErr : option error) : sent :=
  match n with
  | O => ([], Some ("generic_webhook: " +:+ itoa attempts +:+ " attempts exhausted: " +:+ default "%!w(<nil>)" lastErr))
  | S n =>
      match (if decide (i = 0)%nat then None else cancelled i) with
      | Some e => ([], Some e)
      | None =>
          match doRequest i p with
          | (ps, None) => (ps, None)
          | (ps, Some e) => let '(qs, r) := attempt cancelled n (S i) attempts p (Some e) in (ps ++ qs, r)
          end
      end
  end.
(* [modules/notify/generic_webhook.go:GenericWebhookChannel.Send] *)
Definition generic_Send (cancelled : nat -> option error) (g : Generic) (n : Notification) : sent :=
  let attempts := wrap64 (1 + MaxRetries g) in attempt cancelled (Z.to_nat attempts) 0 attempts (generic_post g n) None.

Lemma attempt_spec cancelled p attempts n : forall i lastErr ps r, attempt cancelled n i attempts p lastErr = (ps, r) ->
  (length ps <= n)%nat /\ Forall (eq p) ps /\
  (r = None -> exists k code, length ps = S k /\ bad_url (po_URL p) = None /\ service (i + k) p = Ok code /\ code < 400 /\
     forall j, (j < k)%nat -> forall c, service (i + j) p = Ok c -> 400 <= c).
Proof.
  induction n as [|n IH]; intros i lastErr ps r; cbn [attempt]; [by intros [= <- <-]|].
  destruct (if decide _ then None else _) as [e|]; [intros [= <- <-]; split; [cbn; lia|done]|].
  unfold doRequest. destruct (bad_url (po_URL p)) as [e|] eqn:Eu.
  - destruct (attempt _ n (S i) _ _ _) as [qs r'] eqn:Ea. intros [= <- <-]. apply IH in Ea as (Hl & Hf & Hr). cbn. split; [lia|]. split; [done|].
    intros Hn. destruct (Hr Hn) as (k & code & _ & Hu & _). congruence.
  - destruct (service i p) as [code|e] eqn:Es; [case_decide as Hc|].
    2: { intros [= <- <-]. split; [cbn; lia|]. split; [by repeat constructor|]. intros _. exists 0%nat, code. rewrite Nat.add_0_r.
         split; [done|]. split; [done|]. split; [done|]. split; [lia|]. lia. }
    all: destruct (attempt _ n (S i) _ _ _) as [qs r'] eqn:Ea; intros [= <- <-]; apply IH in Ea as (Hl & Hf & Hr); cbn; split; [lia|];
      split; [by constructor|]; intros Hn; destruct (Hr Hn) as (k & code' & Hk & Hu & Hs & Hlt & Hb); exists (S k), code';
      split; [lia|]; split; [done|]; replace (i + S k)%nat with (S i + k)%nat by lia; split; [done|]; split; [done|]; intros [|j] Hj c Hcj;
      [rewrite Nat.add_0_r in Hcj; congruence || (rewrite Es in Hcj; injection Hcj as <-; done)|apply (Hb j); [lia|by replace (S i + j)%nat with (i + S j)%nat by lia]].
Qed.
(** The webhook is tried at most one time more than the retries allowed, always with the same post, and no further once
    it answered with a status below 400; it fails otherwise. *)
Lemma generic_retries cancelled g n ps r : generic_Send cancelled g n = (ps, r) ->
  (Z.of_nat (length ps) <= Z.max 0 (wrap64 (1 + MaxRetries g))) /\ Forall (eq (generic_post g n)) ps /\
  (r = None -> exists k code, length ps = S k /\ service k (generic_post g n) = Ok code /\ code < 400 /\
     forall j, (j < k)%nat -> forall c, service j (generic_post g n) = Ok c -> 400 <= c).
Proof.
  intros H. unfold generic_Send in H. apply attempt_spec in H as (Hl & Hf & Hr). split; [lia|]. split; [done|].
  intros Hn. destruct (Hr Hn) as (k & code & Hk & _ & Hs & Hlt & Hb). exists k, code. auto.
Qed.
End Channels.

(** ** The notifier *)

(** A channel by its name and what sending does. *)
(* [modules/notify/notifier.go:Channel] *)
Record Channel := { ch_Name : string; ch_Send : Notification -> option error }.
(* [modules/notify/notifier.go:LogChannel] *)
Definition LogChannel : Channel := {| ch_Name := "log"; ch_Send := fun _ => None |}.
(* [modules/notify/notifier.go:Notifier] *)
Record Notifier := { channels : list Channel }.
(* [modules/notify/notifier.go:NewNotifier] *)
Definition NewNotifier : Notifier := {| channels := [LogChannel] |}.
(* [modules/notify/notifier.go:Notifier.AddChannel] *)
Definition AddChannel (c : Channel) (n : Notifier) : Notifier := {| channels := channels n ++ [c] |}.
(* [modules/notify/notifier.go:Notifier.ChannelCount] *)
Definition ChannelCount (n : Notifier) : nat := length (channels n).
(* [modules/notify/notifier.go:Notifier.ChannelNames] *)
Definition ChannelNames (n : Notifier) : list string := ch_Name <$> channels n.
(** One goroutine per channel: [finish] is the order they are done in.  What was sent, by channel, and the first error. *)
(* [modules/notify/notifier.go:Notifier.Send] *)
Definition Send (finish : list Channel -> list Channel) (notif : Notification) (n : Notifier) : list (string * option error) * option error :=
  let done := (fun c => (ch_Name c, ch_Send c notif)) <$> finish (channels n) in
  (done, head (omap snd done)).

(** Every channel is sent the notification once, whichever others fail; an error is returned exactly when one failed,
    and is one of theirs. *)
Lemma all_notified finish notif n (Hf : forall l, finish l ≡ₚ l) :
  (Send finish notif n).1 ≡ₚ (fun c => (ch_Name c, ch_Send c notif)) <$> channels n /\
  match (Send finish notif n).2 with
  | None => forall c, c ∈ channels n -> ch_Send c notif = None
  | Some e => exists c, c ∈ channels n /\ ch_Send c notif = Some e
  end.
Proof.
  unfold Send. cbn [fst snd]. split; [by rewrite Hf|]. set (f := fun c : Channel => _).
  destruct (head (omap snd (f <$> finish (channels n)))) as [e|] eqn:E.
  - apply head_Some_elem_of in E. apply list_elem_of_omap in E as ([nm r] & Hin & Hr). apply list_elem_of_fmap in Hin as (c & [= -> ->] & Hc).
    exists c. split; [by rewrite <-(Hf (channels n))|done].
  - intros c Hc. rewrite <-(Hf (channels n)) in Hc. destruct (ch_Send c notif) as [e|] eqn:Ec; [|done]. exfalso.
    assert (e ∈ omap snd (f <$> finish (channels n))) as H.
    { apply list_elem_of_omap. exists (ch_Name c, Some e). split; [|done]. apply list_elem_of_fmap. exists c. split; [|done]. subst f. cbn. by rewrite Ec. }
    destruct (omap snd _) as [|x l]; [by apply not_elem_of_nil in H|done].
Qed.
(** Different sources share an incident when a name has a hyphen; a piece of information resolves the incident of its source. *)
Definition demo_notification (tenant agent severity : string) : Notification :=
  {| n_Type := "info"; Title := "t"; Message := ""; Tenant := tenant; Severity := severity; Agent := agent; Source := "sla"; Fields := ∅ |}.
Example incidents_collide : dedup_key (demo_notification "a-b" "c" "error") = dedup_key (demo_notification "a" "b-c" "info").
Proof. reflexivity. Qed.
Example info_resolves : isResolveAction "info" = true.
Proof. reflexivity. Qed.
