(* ===== verification/SkillFiles.v ===== *)
(** * SkillFiles: skills from disk, from the marketplace and from other formats

    [src/modules/skill]: loader.go, marketplace.go, watcher.go, catalog.go and compat/openclaw.go.  The file system,
    YAML, JSON and HTTP are arguments. *)
From S2P Require Import Prelude GoStr GoText Paths Skills.
Local Open Scope go_scope.
Local Open Scope Z_scope.

(** ** Loading *)

Section Loading.
Context (ReadFile : string -> Result string) (unmarshal_manifest : string -> Result SkillManifest).
Definition file_text (p : string) : string := match ReadFile p with Ok text => text | Err _ => "" end.
(* [modules/skill/loader.go:LoadSkill] *)
Definition LoadSkill (dir : string) : Result InstalledSkill :=
  data <-? wrap_err "read manifest" (ReadFile (Join2 dir "skill.yaml")) ;;
  manifest <-? wrap_err "parse manifest" (unmarshal_manifest data) ;;
  match Validate manifest with
  | Some e => Err e
  | None => Ok {| Manifest := manifest; Instructions := file_text (Join2 dir "skill.md"); Path := dir; Signature := file_text (Join2 dir "SIGNATURE");
                  Disabled := false; DisabledReason := "" |}
  end.
Lemma loaded_valid dir s : LoadSkill dir = Ok s -> Validate (Manifest s) = None /\ Path s = dir /\ Disabled s = false.
Proof.
  unfold LoadSkill. intros (data & _ & H)%rbind_Ok. apply rbind_Ok in H as (mf & _ & H). destruct (Validate mf) eqn:E; [done|].
  by injection H as <-.
Qed.
End Loading.

(** ** Formats with front matter *)

Record Frontmatter := {
  fm_Name : string; fm_Description : string; fm_Version : string; fm_Author : string; fm_Capabilities : Capabilities; fm_Tools : list string;
}.
Section Formats.
Context (unmarshal : string -> Result Frontmatter).
Definition dashes : string := "---".

(** What is between the first two delimiters and after the second, wherever on a line they stand. *)
(* [modules/skill/catalog.go:parseCatalogSkill@58-65] *)
Definition catalog_parts (content : string) : option (string * string) :=
  '(_, rest) ← find dashes content; '(front, body) ← find dashes rest; Some (TrimSpace front, TrimSpace body).
(* [modules/skill/catalog.go:parseCatalogSkill] *)
Definition parseCatalogSkill (content : string) : Result InstalledSkill :=
  match catalog_parts content with
  | None => Err "missing YAML frontmatter (expected ---)"
  | Some (front, body) =>
      meta <-? wrap_err "parse frontmatter" (unmarshal front) ;;
      if decide (fm_Name meta = "") then Err "skill name is required"
      else
        let caps := fm_Capabilities meta in
        Ok {| Manifest := {| mf_Name := fm_Name meta; Version := if decide (fm_Version meta = "") then "1.0.0" else fm_Version meta; Author := fm_Author meta;
                             License := ""; Signing := {| sg_Registry := ""; Fingerprint := "" |};
                             mf_Capabilities := {| Network := Network caps; Filesystem := Filesystem caps; Shell := Shell caps; Tools := Tools caps ++ fm_Tools meta |} |};
              Instructions := body; Path := "embedded://catalog"; Signature := ""; Disabled := false; DisabledReason := "" |}
  end.
(** The entries of the catalogue's directory, with whether each is a directory. *)
(* [modules/skill/catalog.go:LoadEmbeddedCatalog] *)
Definition LoadEmbeddedCatalog (entries : Result (list (string * bool))) (ReadFile : string -> Result string) : list InstalledSkill :=
  match entries with
  | Err _ => []
  | Ok entries =>
      omap (fun e => let '(name, is_dir) := e in
        if is_dir || negb (has_suffix ".md" name) then None
        else match (data <-? ReadFile ("catalog/" +:+ name) ;; parseCatalogSkill data) with Ok s => Some s | Err _ => None end) entries
  end.

(* [modules/skill/compat/openclaw.go:splitFrontmatter] *)
Definition splitFrontmatter (content : string) : Result (string * string) :=
  let content := TrimSpace content in
  if negb (has_prefix dashes content) then Err "missing frontmatter delimiter"
  else match find (nl +:+ dashes) (drop_bytes 3 content) with
       | None => Err "unclosed frontmatter"
       | Some (front, body) => Ok (TrimSpace front, TrimSpace body)
       end.
(* [modules/skill/compat/openclaw.go:ParseOpenClawSkill] *)
Definition ParseOpenClawSkill (content sourcePath : string) : Result InstalledSkill :=
  parts <-? wrap_err "parse OpenClaw skill" (splitFrontmatter content) ;;
  fm <-? wrap_err "parse frontmatter" (unmarshal parts.1) ;;
  if decide (fm_Name fm = "") then Err "OpenClaw skill missing name"
  else Ok {| Manifest := {| mf_Name := "openclaw-" +:+ fm_Name fm; Version := if decide (fm_Version fm = "") then "0.0.0" else fm_Version fm;
                            Author := fm_Author fm; License := "unknown"; Signing := {| sg_Registry := ""; Fingerprint := "" |};
                            mf_Capabilities := {| Network := []; Filesystem := ["/tmp/**"]; Shell := false; Tools := fm_Tools fm |} |};
             Instructions := TrimSpace parts.2; Path := sourcePath; Signature := ""; Disabled := false; DisabledReason := "" |}.
(* [modules/skill/compat/openclaw.go:LoadOpenClawSkillFromFile] *)
Definition LoadOpenClawSkillFromFile (ReadFile : string -> Result string) (path : string) : Result InstalledSkill :=
  content <-? wrap_err "read SKILL.md" (ReadFile path) ;; ParseOpenClawSkill content path.

(** An imported skill is restricted whatever its file says: no shell, no network, files below /tmp; it is unsigned, and
    its name cannot be that of a skill not imported, unless that one has the prefix too. *)
Lemma openclaw_restricted content path s : ParseOpenClawSkill content path = Ok s ->
  let caps := mf_Capabilities (Manifest s) in
  Shell caps = false /\ Network caps = [] /\ Filesystem caps = ["/tmp/**"] /\ Signature s = "" /\ has_prefix "openclaw-" (skill_name s) = true /\ IsSafe caps = false.
Proof.
  unfold ParseOpenClawSkill. intros (parts & _ & H)%rbind_Ok. apply rbind_Ok in H as (fm & _ & H). case_decide; [done|]. by injection H as <-.
Qed.
(** A catalogue skill has what it declares and the tools it lists, nothing else. *)
Lemma catalog_least_privilege content s : parseCatalogSkill content = Ok s ->
  exists front body meta, catalog_parts content = Some (front, body) /\ unmarshal front = Ok meta /\
    let caps := mf_Capabilities (Manifest s) in
    Shell caps = Shell (fm_Capabilities meta) /\ Network caps = Network (fm_Capabilities meta) /\ Filesystem caps = Filesystem (fm_Capabilities meta) /\
    forall t, t ∈ Tools caps <-> t ∈ Tools (fm_Capabilities meta) \/ t ∈ fm_Tools meta.
Proof.
  unfold parseCatalogSkill. destruct (catalog_parts content) as [[front body]|]; [|done]. intros (meta & Hm & H)%rbind_Ok. apply wrap_err_Ok in Hm.
  case_decide; [done|]. injection H as <-. exists front, body, meta. repeat (split; [done|]). intros t. apply elem_of_app.
Qed.
End Formats.
(** A dash line inside a description ends a catalogue skill's front matter, not an imported one's. *)
Example dashes_in_text :
  catalog_parts ("---" +:+ nl +:+ "description: a --- b" +:+ nl +:+ "---" +:+ nl +:+ "body") = Some ("description: a", "b" +:+ nl +:+ "---" +:+ nl +:+ "body") /\
  splitFrontmatter ("---" +:+ nl +:+ "description: a --- b" +:+ nl +:+ "---" +:+ nl +:+ "body") = Ok ("description: a --- b", "body").
Proof. split; vm_compute; reflexivity. Qed.
(** The tools of an imported skill are its own choice. *)
Example openclaw_tools :
  (fun s => Tools (mf_Capabilities (Manifest s))) <$> match ParseOpenClawSkill (fun _ => Ok {| fm_Name := "x"; fm_Description := ""; fm_Version := ""; fm_Author := "";
     fm_Capabilities := no_capabilities; fm_Tools := ["shell_exec"] |}) ("---" +:+ nl +:+ "name: x" +:+ nl +:+ "---") "p" with Ok s => Some s | Err _ => None end = Some ["shell_exec"].
Proof. vm_compute. reflexivity. Qed.

(** ** Paths that stay below a directory *)

Definition solid (s : string) : Prop := s <> "" /\ s <> "." /\ s <> "..".
Lemma clean_step_solid stack seg : Forall solid stack -> Forall solid (clean_step true stack seg).
Proof.
  intros Hs. unfold clean_step. case_decide as H1; [done|]. case_decide as H2.
  - destruct stack as [|top rest]; [done|]. apply Forall_cons in Hs as [(_ & _ & Htop) Hs]. by rewrite decide_False.
  - constructor; [|done]. split; [naive_solver|]. split; [naive_solver|done].
Qed.
Lemma clean_segs_solid p : IsAbs p = true -> Forall solid (clean_segs p).
Proof.
  intros Hp. unfold clean_segs. rewrite Hp. apply Forall_reverse.
  assert (H : forall l stack, Forall solid stack -> Forall solid (foldl (clean_step true) stack l)).
  { intros l. induction l as [|seg l IH]; intros stack Hst; [done|]. by apply IH, clean_step_solid. }
  by apply H.
Qed.
Lemma fold_segs_path rooted stack l : Forall solid l -> Forall (lacks "/"%char) l ->
  foldl (clean_step rooted) stack (split "/"%char (Join l "/")) = reverse l ++ stack.
Proof.
  intros Hs Hl. destruct l as [|s l]; [done|].
  rewrite split_Join by done. by apply clean_fold_plain.
Qed.
(** Joining a cleaned rooted path below another appends its segments. *)
Lemma join_segs base name : IsAbs base = true -> IsAbs name = true -> clean_segs (Join2 base (Clean name)) = clean_segs base ++ clean_segs name.
Proof.
  intros Hb Hn. set (l := clean_segs name). assert (Hs : Forall solid l) by (by apply clean_segs_solid).
  assert (Hl : Forall (lacks "/"%char) l) by (eapply Forall_impl; [by apply clean_segs_plain|]; by intros x [? _]).
  assert (Hseg : forall p, IsAbs p = true -> clean_segs (Clean p) = clean_segs p).
  { intros p Hp. unfold clean_segs at 1. unfold Clean. rewrite Hp. change (IsAbs ("/" +:+ ?x)) with true.
    change ("/" +:+ Join (clean_segs p) "/") with ("" +:+ String "/" (Join (clean_segs p) "/")). rewrite split_app_sep, foldl_app.
    change (foldl (clean_step true) [] (split "/"%char "")) with (@nil string). rewrite fold_segs_path, app_nil_r, reverse_involutive;
      [done|by apply clean_segs_solid|]. eapply Forall_impl; [by apply clean_segs_plain|]. by intros x [? _]. }
  unfold Join2. rewrite Hseg by (by apply IsAbs_app). unfold clean_segs at 1. rewrite (IsAbs_app base) by done.
  change (base +:+ "/" +:+ Clean name) with (base +:+ String "/" (Clean name)). rewrite split_app_sep, foldl_app. unfold Clean. rewrite Hn.
  change ("/" +:+ Join (clean_segs name) "/") with ("" +:+ String "/" (Join l "/")). rewrite split_app_sep, foldl_app.
  change (foldl (clean_step true) ?s (split "/"%char "")) with (clean_step true s ""). unfold clean_step at 2. rewrite decide_True by auto.
  rewrite fold_segs_path by done. rewrite reverse_app, reverse_involutive. f_equal. unfold clean_segs. by rewrite Hb.
Qed.

(** ** The marketplace *)


(* [modules/skill/marketplace.go:MarketplaceEntry] *)
Record MarketplaceEntry := {
  me_Name : string; me_Version : string; me_Author : string; me_Description : string; DownloadURL : string; Downloads : Z; Source : string;
}.
(* [modules/skill/marketplace.go:safeJoin] *)
Definition safeJoin (cwd : Result string) (base name : string) : Result string :=
  if decide (name = "") then Err "empty name"
  else
    let cleaned := Clean ("/" +:+ name) in
    let joined := Join2 base cleaned in
    absBase <-? Abs cwd base ;;
    absJoined <-? Abs cwd joined ;;
    if decide (absJoined <> absBase /\ has_prefix (absBase +:+ "/") absJoined = false) then Err "path escapes base directory" else Ok joined.

Lemma Clean_path p : IsAbs p = true -> Clean p = "/" +:+ Join (clean_segs p) "/".
Proof. intros Hp. unfold Clean. by rewrite Hp. Qed.
Lemma Clean_segs_clean p : IsAbs p = true -> clean_segs (Clean p) = clean_segs p.
Proof.
  intros Hp. unfold clean_segs at 1. rewrite Clean_path by done. change (IsAbs ("/" +:+ ?x)) with true.
  change ("/" +:+ Join (clean_segs p) "/") with ("" +:+ String "/" (Join (clean_segs p) "/")). rewrite split_app_sep, foldl_app.
  change (foldl (clean_step true) [] (split "/"%char "")) with (@nil string). rewrite fold_segs_path, app_nil_r, reverse_involutive;
    [done|by apply clean_segs_solid|]. eapply Forall_impl; [by apply clean_segs_plain|]. by intros x [? _].
Qed.
Lemma join_name p n : IsAbs p = true -> lacks "/"%char n -> solid n -> clean_segs (Join2 p n) = clean_segs p ++ [n].
Proof.
  intros Hp Hl (H1 & H2 & H3). unfold Join2. rewrite Clean_segs_clean by (by apply IsAbs_app). unfold clean_segs at 1. rewrite (IsAbs_app p) by done.
  change (p +:+ "/" +:+ n) with (p +:+ String "/" n). rewrite split_app_sep, foldl_app, (split_lacking "/"%char n) by done. cbn [foldl].
  unfold clean_step at 1. rewrite decide_False by naive_solver. rewrite decide_False by done. rewrite reverse_cons. unfold clean_segs. by rewrite Hp.
Qed.
Lemma Join_append l1 l2 : l1 <> [] -> l2 <> [] -> Join (l1 ++ l2) "/" = Join l1 "/" +:+ "/" +:+ Join l2 "/".
Proof.
  intros H1 H2. induction l1 as [|a l1 IH]; [done|]. destruct l1 as [|b l1].
  - cbn. by destruct l2.
  - change (Join ((a :: b :: l1) ++ l2) "/") with (a +:+ "/" +:+ Join ((b :: l1) ++ l2) "/"). rewrite IH by done.
    change (Join (a :: b :: l1) "/") with (a +:+ "/" +:+ Join (b :: l1) "/"). by rewrite !str_app_assoc.
Qed.
(** Below a directory other than the root, no name is refused but the empty one: whatever it is, the path has the
    directory's segments and then the name's own, where ".." does not reach above the directory. *)
Lemma safeJoin_below cwd base name : IsAbs base = true -> clean_segs base <> [] -> name <> "" ->
  exists p, safeJoin cwd base name = Ok p /\ IsAbs p = true /\ clean_segs p = clean_segs base ++ clean_segs ("/" +:+ name).
Proof.
  intros Hb Hne Hn. unfold safeJoin. rewrite decide_False by done. cbv zeta. set (joined := Join2 base (Clean ("/" +:+ name))).
  assert (Hj : IsAbs joined = true) by (apply Clean_rooted; by apply IsAbs_app).
  assert (Hs : clean_segs joined = clean_segs base ++ clean_segs ("/" +:+ name)) by (by apply join_segs).
  unfold Abs. rewrite Hb, Hj. cbn [rbind]. exists joined. split; [|done]. rewrite decide_False; [done|]. intros [H1 H2].
  rewrite (Clean_path base) in H1, H2 by done. rewrite (Clean_path joined), Hs in H1, H2 by done. destruct (clean_segs ("/" +:+ name)) as [|s l] eqn:E.
  - by rewrite app_nil_r in H1.
  - rewrite Join_append in H2 by done. assert (has_prefix (("/" +:+ Join (clean_segs base) "/") +:+ "/") ("/" +:+ Join (clean_segs base) "/" +:+ "/" +:+ Join (s :: l) "/") = true); [|congruence].
    apply has_prefix_spec. exists (Join (s :: l) "/"). by rewrite !str_app_assoc.
Qed.

Section Marketplace.
(** The guard of URLs; a GET of the guarded client: the status and the body read, or the error; the body of a large answer
    is cut; errors of the file system. *)
Context (ValidatePublicURL : string -> option error) (fetch : string -> Result (Z * Result string)).
Context (cwd : Result string) (mkdir : string -> option error) (write : string -> string -> option error).
Context (QueryEscape PathEscape : string -> string) (decode_entries : string -> Result (list MarketplaceEntry)) (decode_entry : string -> Result MarketplaceEntry).

(** A URL asked for, a directory made, a file written. *)
Inductive effect := GET (url : string) | Mkdir (dir : string) | Write (path data : string).
(* [modules/skill/marketplace.go:NewMarketplace] *)
Definition NewMarketplace (baseURL : string) : string := if decide (baseURL = "") then "https://registry.cyntr.dev" else baseURL.
(** An empty answer decodes to no entries. *)
(* [modules/skill/marketplace.go:Marketplace.Search] *)
Definition Search (baseURL query : string) : Result (list MarketplaceEntry) :=
  match fetch (baseURL +:+ "/api/v1/skills/search?q=" +:+ QueryEscape query) with
  | Err e => Err ("marketplace search: " +:+ e)
  | Ok (code, body) =>
      if decide (code <> 200) then (match body with Err e => Err ("read response: " +:+ e) | Ok text => Err ("marketplace error " +:+ itoa code +:+ ": " +:+ text) end)
      else match body with
           | Err e => Err ("decode search response: " +:+ e)
           | Ok text => if decide (text = "") then Ok [] else wrap_err "decode search response" (decode_entries text)
           end
  end.
(* [modules/skill/marketplace.go:Marketplace.Get] *)
Definition Market_Get (baseURL name : string) : Result MarketplaceEntry :=
  match fetch (baseURL +:+ "/api/v1/skills/" +:+ PathEscape name) with
  | Err e => Err e
  | Ok (code, body) =>
      if decide (code <> 200) then Err ("skill " +:+ quote name +:+ " not found")
      else wrap_err "decode skill response" (text <-? body ;; decode_entry text)
  end.
(** What was done, and the directory. *)
(* [modules/skill/marketplace.go:Marketplace.Download] *)
Definition Download (entry : MarketplaceEntry) (destDir : string) : list effect * Result string :=
  let url := DownloadURL entry in
  if decide (url = "") then ([], Err ("no download URL for " +:+ me_Name entry))
  else match ValidatePublicURL url with
  | Some e => ([], Err ("reject download URL for " +:+ me_Name entry +:+ ": " +:+ e))
  | None =>
      match safeJoin cwd destDir (me_Name entry) with
      | Err e => ([], Err ("invalid skill name " +:+ quote (me_Name entry) +:+ ": " +:+ e))
      | Ok skillDir =>
          match fetch url with
          | Err e => ([GET url], Err e)
          | Ok (_, body) =>
              match mkdir skillDir with
              | Some e => ([GET url; Mkdir skillDir], Err ("create skill dir: " +:+ e))
              | None =>
                  match body with
                  | Err e => ([GET url; Mkdir skillDir], Err ("read response: " +:+ e))
                  | Ok data =>
                      let data := take_bytes (Z.to_nat (2 ^ 20)) data in
                      let path := Join2 skillDir "skill.yaml" in
                      ([GET url; Mkdir skillDir; Write path data],
                       match write path data with Some e => Err ("write manifest: " +:+ e) | None => Ok skillDir end)
                  end
              end
          end
      end
  end.
(* [modules/skill/marketplace.go:Marketplace.List] *)
Definition Market_List (baseURL : string) : Result (list MarketplaceEntry) := Search baseURL "".

Definition below (base p : string) : Prop := IsAbs p = true /\ exists l, clean_segs p = clean_segs base ++ l.
(** A download asks for a public URL only, and touches nothing outside the directory it is given, whatever
    the registry calls the skill; what it writes is one manifest of at most a mebibyte. *)
Lemma download_confined entry destDir ef (Hb : IsAbs destDir = true) (Hd : clean_segs destDir <> [])
    (He : ef ∈ (Download entry destDir).1) :
  match ef with
  | GET url => url = DownloadURL entry /\ ValidatePublicURL url = None
  | Mkdir dir => below destDir dir
  | Write path data => below destDir path /\ last (clean_segs path) = Some "skill.yaml" /\ Z.of_nat (String.length data) <= 2 ^ 20
  end.
Proof.
  unfold Download in He. case_decide; [by apply elem_of_nil in He|]. destruct (ValidatePublicURL _) eqn:Ev; [by apply elem_of_nil in He|].
  destruct (decide (me_Name entry = "")) as [En|En].
  { unfold safeJoin in He. rewrite decide_True in He by done. by apply elem_of_nil in He. }
  destruct (safeJoin_below cwd destDir (me_Name entry) Hb Hd En) as (p & Ep & Hp & Hs). rewrite Ep in He.
  assert (Hbelow : below destDir p) by (split; [done|by eexists]).
  assert (Hw : forall d, below destDir (Join2 p "skill.yaml") /\ last (clean_segs (Join2 p "skill.yaml")) = Some "skill.yaml" /\
                    Z.of_nat (String.length (take_bytes (Z.to_nat (2 ^ 20)) d)) <= 2 ^ 20).
  { intros d. assert (Hj : clean_segs (Join2 p "skill.yaml") = clean_segs p ++ ["skill.yaml"]) by (by apply join_name).
    split; [|split].
    - split; [apply Clean_rooted; by apply IsAbs_app|]. rewrite Hj, Hs. eexists. by rewrite <-app_assoc.
    - by rewrite Hj, last_snoc.
    - pose proof (take_bytes_le (Z.to_nat (2 ^ 20)) d). lia. }
  destruct (fetch _) as [[code body]|]; [|by apply list_elem_of_singleton in He as ->].
  destruct (mkdir p); [|destruct body as [data|]]; repeat (apply elem_of_cons in He as [->|He]); try done; try (by apply elem_of_nil in He).
Qed.
End Marketplace.

(** The guard lets nothing through that is not public. *)
Definition demo_guard (url : string) : option error := if has_prefix "https://" url then None else Some "ssrf guard".
Definition demo_entry (name : string) : MarketplaceEntry :=
  {| me_Name := name; me_Version := "1"; me_Author := ""; me_Description := ""; DownloadURL := "https://r/x"; Downloads := 0; Source := "" |}.
Definition demo_download (name : string) : list effect * Result string :=
  Download demo_guard (fun _ => Ok (404, Ok "not found")) (Ok "/srv") (fun _ => None) (fun _ _ => None) (demo_entry name) "/srv/skills".
(** A name that climbs is not refused but kept below; and the page of an error is installed as the manifest. *)
Example climbing_name : demo_download "../../etc/x" =
  ([GET "https://r/x"; Mkdir "/srv/skills/etc/x"; Write "/srv/skills/etc/x/skill.yaml" "not found"], Ok "/srv/skills/etc/x").
Proof. vm_compute. reflexivity. Qed.
Lemma download_confined_witness :
  Write "/srv/skills/etc/x/skill.yaml" "not found" ∈ (demo_download "../../etc/x").1 /\
  below "/srv/skills" "/srv/skills/etc/x/skill.yaml".
Proof.
  assert (He : Write "/srv/skills/etc/x/skill.yaml" "not found" ∈ (demo_download "../../etc/x").1).
  { rewrite climbing_name. right. right. left. }
  assert (Hd : clean_segs "/srv/skills" <> []) by (vm_compute; discriminate).
  split; [exact He|].
  exact (proj1 (download_confined demo_guard (fun _ => Ok (404, Ok "not found")) (Ok "/srv") (fun _ => None) (fun _ _ => None) (demo_entry "../../etc/x") "/srv/skills"
    (Write "/srv/skills/etc/x/skill.yaml" "not found") eq_refl Hd He)).
Defined.

(** ** The watcher *)

Section Watcher.
(** Modification time of a file, when it can be read; loading of a skill. *)
Context (ModTime : string -> option time) (load : string -> Result InstalledSkill).
(* [modules/skill/watcher.go:Watcher] *)
Record Watcher := { w_dir : string; w_registry : Registry; interval : duration; lastMod : gmap string time; changed : list string }.
(* [modules/skill/watcher.go:NewWatcher] *)
Definition NewWatcher (dir : string) (registry : Registry) (interval : duration) : Watcher :=
  {| w_dir := dir; w_registry := registry; interval := if decide (interval = 0) then 5 * Second else interval; lastMod := ∅; changed := [] |}.
(** [changed] are the calls of the callback. *)
(* [modules/skill/watcher.go:Watcher.installOrUpdate] *)
Definition installOrUpdate (dir : string) (w : Watcher) : Watcher :=
  match load dir with
  | Err _ => w
  | Ok s => {| w_dir := w_dir w; w_registry := (InstallDirect s (Uninstall (skill_name s) (w_registry w)).1).1; interval := interval w;
               lastMod := lastMod w; changed := changed w ++ [skill_name s] |}
  end.
Definition seen_at (dir : string) (t : time) (w : Watcher) : Watcher :=
  {| w_dir := w_dir w; w_registry := w_registry w; interval := interval w; lastMod := <[dir := t]> (lastMod w); changed := changed w |}.
(** An entry of the directory: its name, and whether it is a directory. *)
Definition scan_entry (w : Watcher) (e : string * bool) : Watcher :=
  if negb e.2 then w
  else
    let dir := Join2 (w_dir w) e.1 in
    match ModTime (Join2 dir "skill.yaml") with
    | None => w
    | Some t =>
        match lastMod w !! dir with
        | None => installOrUpdate dir (seen_at dir t w)
        | Some last => if After t last then installOrUpdate dir (seen_at dir t w) else w
        end
    end.
(* [modules/skill/watcher.go:Watcher.scan] *)
Definition scan (entries : Result (list (string * bool))) (w : Watcher) : Watcher :=
  match entries with Err _ => w | Ok l => foldl scan_entry w l end.
(* [modules/skill/watcher.go:Watcher.WatchedCount] *)
Definition WatchedCount (w : Watcher) : nat := size (lastMod w).

(** What is loaded takes the place of whatever had its name, disabled or not, and nothing else changes. *)
Lemma watched_replaced dir w s : load dir = Ok s ->
  skills (w_registry (installOrUpdate dir w)) = <[skill_name s := s]> (skills (w_registry w)).
Proof.
  intros E. unfold installOrUpdate. rewrite E. cbn [w_registry]. unfold Uninstall. destruct (skills (w_registry w) !! skill_name s) as [old|] eqn:Eo; cbn [fst].
  - unfold InstallDirect. cbn [skills]. rewrite lookup_delete_eq. cbn [fst skills]. by rewrite insert_delete_eq.
  - unfold InstallDirect. by rewrite Eo.
Qed.
(** A scan at which nothing is new or younger changes nothing. *)
Lemma scan_settled entries w : (forall name t, (name, true) ∈ entries -> ModTime (Join2 (Join2 (w_dir w) name) "skill.yaml") = Some t ->
    exists last, lastMod w !! Join2 (w_dir w) name = Some last /\ t <= last) -> scan (Ok entries) w = w.
Proof.
  unfold scan. induction entries as [|[name is_dir] entries IH]; intros H; [done|]. cbn [foldl].
  assert (scan_entry w (name, is_dir) = w) as ->.
  { unfold scan_entry. cbn [snd fst]. destruct is_dir; [|done]. cbn [negb]. destruct (ModTime _) as [t|] eqn:Et; [|done].
    destruct (H name t) as (last & -> & Hl); [by left|done|]. unfold After. by rewrite (proj2 (Z.ltb_ge _ _)). }
  apply IH. intros n t Hn. apply H. by right.
Qed.
End Watcher.
