(* ===== verification/ToolWeb.v ===== *)
(** * ToolWeb: tools that fetch pages, and tools written in YAML

    [src/modules/agent/tools]: ssrfguard.go, http.go, web_reader.go, yaml_tool.go, yaml_loader.go and
    shell_backend_ssh.go.  Servers, name resolution, templates, YAML, SSH, the extraction of articles and the clock are
    arguments. *)
From S2P Require Import Prelude GoStr GoText NetGuard ToolShell.
From S2P Require AgentSession Paths.
Local Open Scope go_scope.
Local Open Scope Z_scope.

(** ** The guard of the tools *)

Section Guard.
(** As in NetGuard: the URL parser, the resolver, the text of an address, the switch. *)
Context (parse : string -> option (string * string)) (LookupIP : string -> option (list IP)).
Context (ip_text : IP -> string) (ssrfAllowPrivate : bool).

(* [modules/agent/tools/ssrfguard.go:isPublicIP] *)
Definition isPublicIP (ip : IP) : bool :=
  if IsLoopback ip || IsLinkLocalUnicast ip || IsLinkLocalMulticast ip || IsMulticast ip || IsUnspecified ip || IsPrivate ip then false else true.
(* [modules/agent/tools/ssrfguard.go:ssrfError.Error] *)
Definition ssrfError (msg : string) : error := "ssrf guard: " +:+ msg.
Fixpoint non_public (ips : list IP) : option error :=
  match ips with
  | [] => None
  | ip :: ips => if negb (isPublicIP ip) then Some (ssrfError ("host resolves to non-public address " +:+ ip_text ip)) else non_public ips
  end.
(* [modules/agent/tools/ssrfguard.go:ValidatePublicURL] *)
Definition tool_ValidatePublicURL (rawURL : string) : option error :=
  match parse rawURL with
  | None => Some (ssrfError "invalid URL")
  | Some (scheme, host) =>
      if decide (scheme <> "http" /\ scheme <> "https") then Some (ssrfError "only http and https are allowed")
      else if decide (host = "") then Some (ssrfError "missing host")
      else if ssrfAllowPrivate then None
      else match LookupIP host with None => Some (ssrfError "cannot resolve host") | Some ips => non_public ips end
  end.
(** A response, or the error of the transport; redirects apart. *)
Record Response := { StatusCode : Z; StatusText : string; RespBody : Result string }.
Inductive reaction := Redirects (url : string) | Responds (r : Response) | Fails (e : error).
(** A client's requests and what comes of them, under a check of redirects. *)
Fixpoint follow (check : nat -> string -> option error) (fuel via : nat) (serve : string -> reaction) (url : string) : list string * Result Response :=
  match fuel with
  | O => ([], Err "out of fuel")
  | S fuel' =>
      match serve url with
      | Responds r => ([url], Ok r)
      | Fails e => ([url], Err e)
      | Redirects url' =>
          match check (S via) url' with
          | Some e => ([url], Err e)
          | None => let '(l, r) := follow check fuel' (S via) serve url' in (url :: l, r)
          end
      end
  end.
(* [modules/agent/tools/ssrfguard.go:guardedHTTPClient] *)
Definition guarded_redirect (via : nat) (url : string) : option error :=
  if decide (10 <= via)%nat then Some "stopped after 10 redirects" else tool_ValidatePublicURL url.

(** The tools' guard is the kernel's. *)
Lemma guards_agree url : tool_ValidatePublicURL url = ValidatePublicURL parse LookupIP ip_text ssrfAllowPrivate url.
Proof.
  unfold tool_ValidatePublicURL, ValidatePublicURL. destruct (parse url) as [[scheme host]|]; [|done]. repeat case_decide; try done.
  destruct ssrfAllowPrivate; [done|]. destruct (LookupIP host) as [ips|]; [|done].
  induction ips as [|ip ips IH]; [done|]. cbn [non_public first_private]. change (isPublicIP ip) with (IsPublicIP ip). by destruct (IsPublicIP ip).
Qed.

(** ** The HTTP tool *)

(** The servers, the error of a request that cannot be built. *)
Context (serve : string -> reaction) (bad_request : string -> string -> option error).
(** The URLs asked for, with the answer. *)
(* [modules/agent/tools/http.go:HTTPTool.Execute] *)
Definition HTTP_Execute (input : Strings) : list string * Result string :=
  let url := field "url" input in
  if decide (url = "") then ([], Err "url is required")
  else match tool_ValidatePublicURL url with
  | Some e => ([], Err e)
  | None =>
      let method := if decide (field "method" input = "") then "GET" else field "method" input in
      match bad_request method url with
      | Some e => ([], Err ("create request: " +:+ e))
      | None =>
          let '(asked, r) := follow guarded_redirect 11 0 serve url in
          (asked, match r with
                  | Err e => Err ("request failed: " +:+ e)
                  | Ok resp =>
                      body <-? wrap_err "read body" (RespBody resp) ;;
                      Ok ("Status: " +:+ itoa (StatusCode resp) +:+ nl +:+ nl +:+ take_bytes (Z.to_nat 65536) body)
                  end)
      end
  end.
Lemma follow_checked check fuel : forall via url, Forall (fun u => u = url \/ exists n, check n u = None) (follow check fuel via serve url).1 /\
  (length (follow check fuel via serve url).1 <= fuel)%nat.
Proof.
  induction fuel as [|fuel IH]; intros via url; cbn [follow]; [done|].
  destruct (serve url) as [url'|r|e]; [|split; [by repeat constructor; left|cbn; lia]..]. destruct (check (S via) url') as [e|] eqn:E; [split; [by repeat constructor; left|cbn; lia]|].
  specialize (IH (S via) url'). destruct (follow _ _ _ _ _) as [l r]. cbn [fst] in *. destruct IH as [IH Hl]. split; [|cbn; lia].
  constructor; [by left|]. eapply Forall_impl; [exact IH|]. intros u [-> |?]; right; eauto.
Qed.
(** Whatever the servers answer, the tool asks at most eleven times, only URLs the guard lets through. *)
Lemma http_guarded input : Forall (fun u => tool_ValidatePublicURL u = None) (HTTP_Execute input).1 /\ (length (HTTP_Execute input).1 <= 11)%nat.
Proof.
  unfold HTTP_Execute. case_decide; [by cbn; split; [|lia]|]. destruct (tool_ValidatePublicURL (field "url" input)) eqn:Ev; [by cbn; split; [|lia]|].
  destruct (bad_request _ _); [by cbn; split; [|lia]|].
  destruct (follow_checked guarded_redirect 11 0 (field "url" input)) as [Hf Hl]. destruct (follow _ _ _ _ _) as [asked r]. cbn [fst] in *. split; [|done].
  eapply Forall_impl; [exact Hf|]. intros u [-> |[n Hn]]; [done|]. unfold guarded_redirect in Hn. by case_decide.
Qed.

(** ** The reader of pages *)

(** An article; its time is the zero time when there is none. *)
Record Article := { Title : string; Byline : string; SiteName : string; ar_Content : string; TextContent : string; PublishedTime : time }.
(** What Firecrawl says of a URL, when it answers with success and more than a hundred bytes; readability; markdown of
    HTML; the long form of a date; the number a text starts with; the text without HTML tags. *)
Context (firecrawl : string -> string -> option Article) (readable : string -> string -> Result Article) (to_markdown : string -> Result string).
Context (long_date : time -> string) (Sscanf : string -> option Z) (strip_tags : string -> string).

(* [modules/agent/tools/web_reader.go:WebReaderTool] *)
Record WebReaderTool := { domains : gmap string time }.
(* [modules/agent/tools/web_reader.go:NewWebReaderTool@50-59] *)
Definition reader_redirect (via : nat) (url : string) : option error := if decide (10 <= via)%nat then Some "too many redirects" else None.
(** When the request goes out, after the wait. *)
(* [modules/agent/tools/web_reader.go:WebReaderTool.Execute@95-105] *)
Definition throttle (now : time) (domain : string) (t : WebReaderTool) : time * WebReaderTool :=
  let sent := match domains t !! domain with
              | Some last => if decide (Sub now last < 500 * Millisecond) then now + (500 * Millisecond - Sub now last) else now
              | None => now
              end in
  (sent, {| domains := <[domain := sent]> (domains t) |}).
(** A negative length panics on the slice bounds: [None]. *)
Definition shorten (input : Strings) (text : string) : option string :=
  let maxLen := if decide (field "max_length" input <> "") then default 32768 (Sscanf (field "max_length" input)) else 32768 in
  if decide (maxLen < Z.of_nat (String.length text)) then
    if decide (maxLen < 0) then None else Some (take_bytes (Z.to_nat maxLen) text +:+ nl +:+ nl +:+ "...(truncated)")
  else Some text.
(* [modules/agent/tools/web_reader.go:WebReaderTool.fallbackExtract] *)
Definition fallbackExtract (rawURL : string) (input : Strings) : list string * option (Result string) :=
  match bad_request "GET" rawURL with
  | Some e => ([], Some (Err ("fallback fetch failed: " +:+ e)))
  | None =>
      let '(asked, r) := follow reader_redirect 11 0 serve rawURL in
      (asked, match r with
              | Err e => Some (Err ("fallback fetch failed: " +:+ e))
              | Ok resp =>
                  match RespBody resp with
                  | Err e => Some (Err ("read body: " +:+ e))
                  | Ok body =>
                      match shorten input (TrimSpace (strip_tags (take_bytes (Z.to_nat (2 ^ 20)) body))) with
                      | None => None
                      | Some text => Some (Ok ("Note: Could not extract article content. Showing raw page text." +:+ nl +:+ nl +:+ text))
                      end
                  end
              end)
  end.
(* [modules/agent/tools/web_reader.go:WebReaderTool.Execute@175-186] *)
Definition status_error (r : Response) : error :=
  let code := StatusCode r in
  if decide (code = 403) then "access denied (HTTP 403) — site may block automated access"
  else if decide (code = 429) then "rate limited by target site (HTTP 429) — try again later"
  else if decide (code = 402 \/ code = 451) then "content behind paywall or restricted (HTTP " +:+ itoa code +:+ ")"
  else if decide (500 <= code) then "server error (HTTP " +:+ itoa code +:+ ")"
  else "HTTP " +:+ itoa code +:+ ": " +:+ StatusText r.
(* [modules/agent/tools/web_reader.go:WebReaderTool.Execute@201-247] *)
Definition render_article (rawURL : string) (input : Strings) (a : Article) : option string :=
  let markdown := match to_markdown (ar_Content a) with Ok m => m | Err _ => TextContent a end in
  let markdown := if decide (field "include_images" input = "false")
    then Join (filter (fun l => Contains l "![" = false) (split "010"%char markdown)) nl else markdown in
  let meta := (if decide (SiteName a <> "") then ["**Source:** " +:+ SiteName a] else [])
    ++ (if decide (Byline a <> "") then ["**Author:** " +:+ Byline a] else [])
    ++ (if IsZero (PublishedTime a) then [] else ["**Date:** " +:+ long_date (PublishedTime a)]) in
  shorten input ("# " +:+ Title a +:+ nl +:+ nl
    +:+ (if decide (meta = []) then "" else Join meta " | " +:+ nl +:+ nl +:+ "---" +:+ nl +:+ nl)
    +:+ markdown +:+ nl +:+ nl +:+ "---" +:+ nl +:+ "*Source URL: " +:+ rawURL +:+ "*").
Definition finish_article (rawURL : string) (input : Strings) (a : Article) : list string * option (Result string) :=
  if decide (TrimSpace (TextContent a) = "") then fallbackExtract rawURL input else ([], Ok <$> render_article rawURL input a).
(** The pages asked for directly, and the answer; [env] is FIRECRAWL_URL. *)
(* [modules/agent/tools/web_reader.go:WebReaderTool.Execute] *)
Definition Reader_Execute (env : string) (now : time) (input : Strings) (t : WebReaderTool) : WebReaderTool * (list string * option (Result string)) :=
  let rawURL := field "url" input in
  if decide (rawURL = "") then (t, ([], Some (Err "url is required")))
  else match parse rawURL with
  | None => (t, ([], Some (Err "invalid URL: ")))
  | Some (scheme, host) =>
      if decide (scheme <> "http" /\ scheme <> "https") then (t, ([], Some (Err "URL must be http or https")))
      else
        let '(_, t) := throttle now host t in
        (t, match firecrawl (if decide (env = "") then "http://localhost:3002" else env) rawURL with
            | Some a => finish_article rawURL input a
            | None =>
                match bad_request "GET" rawURL with
                | Some e => ([], Some (Err ("create request: " +:+ e)))
                | None =>
                    let '(asked, r) := follow reader_redirect 11 0 serve rawURL in
                    match r with
                    | Err e => (asked, Some (Err ("fetch failed: " +:+ e)))
                    | Ok resp =>
                        if decide (StatusCode resp <> 200) then (asked, Some (Err (status_error resp)))
                        else
                          let '(more, a) := match (body <-? RespBody resp ;; readable (take_bytes (Z.to_nat (2 * 2 ^ 20)) body) rawURL) with
                                            | Err _ => fallbackExtract rawURL input
                                            | Ok a => finish_article rawURL input a
                                            end in
                          (asked ++ more, a)
                    end
                end
            end)
  end.
(** Two requests to a domain, one after the other, go out half a second apart. *)
Lemma reader_spacing now now' domain t : minInt64 <= now' - (throttle now domain t).1 <= maxInt64 ->
  let t' := (throttle now domain t).2 in
  (throttle now domain t).1 + 500 * Millisecond <= (throttle now' domain t').1.
Proof.
  intros Hr t'. unfold t', throttle at 2. cbn [snd domains]. set (sent := (throttle now domain t).1) in *.
  change (domains (throttle now domain t).2) with (<[domain := sent]> (domains t)). rewrite lookup_insert_eq. cbn [fst].
  unfold Sub. rewrite Z.max_r, Z.min_r by lia. case_decide; lia.
Qed.
End Guard.

(** The reader fetches an address of the inner network that the HTTP tool refuses. *)
Definition demo_parse (url : string) : option (string * string) :=
  if has_prefix "http://" url then Some ("http", fst (default (drop_bytes 7 url, "") (cut "/"%char (drop_bytes 7 url)))) else None.
Definition demo_lookup (host : string) : option (list IP) := Some [[169; 254; 169; 254]].
Definition demo_serve (url : string) : reaction := Responds {| StatusCode := 200; StatusText := "OK"; RespBody := Ok "role credentials" |}.
Definition demo_article (text url : string) : Result Article :=
  Ok {| Title := ""; Byline := ""; SiteName := ""; ar_Content := text; TextContent := text; PublishedTime := 0 |}.
Example metadata_read :
  let input := {["url" := "http://169.254.169.254/latest"]} : Strings in
  (HTTP_Execute demo_parse demo_lookup (fun _ => "169.254.169.254") false demo_serve (fun _ _ => None) input).1 = [] /\
  (Reader_Execute demo_parse demo_serve (fun _ _ => None) (fun _ _ => None) demo_article Ok (fun _ => "") (fun _ => None) id "" 0 input {| domains := ∅ |}).2.1
    = ["http://169.254.169.254/latest"].
Proof. split; vm_compute; reflexivity. Qed.
(** A negative length to cut to is a panic. *)
Example negative_length : shorten (fun _ => Some (-5)) {["max_length" := "-5"]} "text" = None.
Proof. reflexivity. Qed.

(** ** Tools written in YAML *)

Section Yaml.
Context {Template : Type} (parse_template : string -> Result Template) (render : Template -> Strings -> Result string).
Context (ParseDuration : string -> Result duration) (exec : Command -> Output).
(* [modules/agent/tools/yaml_tool.go:YAMLToolDef] *)
Record YAMLToolDef := { y_Name : string; y_Description : string; y_Parameters : gmap string AgentSession.ToolParam; y_Command : string; y_Timeout : string }.
(* [modules/agent/tools/yaml_tool.go:YAMLTool] *)
Record YAMLTool := { def : YAMLToolDef; y_timeout : duration }.
(* [modules/agent/tools/yaml_tool.go:NewYAMLTool] *)
Definition NewYAMLTool (d : YAMLToolDef) : Result YAMLTool :=
  if decide (y_Name d = "") then Err "YAML tool: name is required"
  else if decide (y_Command d = "") then Err ("YAML tool " +:+ quote (y_Name d) +:+ ": command is required")
  else if decide (y_Timeout d = "") then Ok {| def := d; y_timeout := 30 * Second |}
  else match ParseDuration (y_Timeout d) with
       | Err e => Err ("YAML tool " +:+ quote (y_Name d) +:+ ": invalid timeout: " +:+ e)
       | Ok t => Ok {| def := d; y_timeout := t |}
       end.
(** What ran, and the answer. *)
(* [modules/agent/tools/yaml_tool.go:YAMLTool.Execute] *)
Definition Yaml_Execute (t : YAMLTool) (input : Strings) : Run :=
  match wrap_err "parse command template" (parse_template (y_Command (def t))) with
  | Err e => refuse e
  | Ok tmpl =>
      match wrap_err "render command" (render tmpl input) with
      | Err e => refuse e
      | Ok command => run exec {| prog := "bash"; args := ["-c"; command] |}
      end
  end.
(** The directory's entries, with whether each is a directory; one bad file fails the whole directory. *)
Fixpoint load_tools (ReadFile : string -> Result string) (unmarshal : string -> Result YAMLToolDef) (dir : string) (entries : list (string * bool)) : Result (list YAMLTool) :=
  match entries with
  | [] => Ok []
  | (name, is_dir) :: entries =>
      if is_dir || negb (bool_decide (Paths.Ext name ∈ [".yaml"; ".yml"])) then load_tools ReadFile unmarshal dir entries
      else
        let path := Paths.Join2 dir name in
        data <-? wrap_err ("read " +:+ path) (ReadFile path) ;;
        d <-? wrap_err ("parse " +:+ path) (unmarshal data) ;;
        tool <-? wrap_err ("load " +:+ path) (NewYAMLTool d) ;;
        rest <-? load_tools ReadFile unmarshal dir entries ;;
        Ok (tool :: rest)
  end.
(** [None]: there is no such directory. *)
(* [modules/agent/tools/yaml_loader.go:LoadToolsFromDir] *)
Definition LoadToolsFromDir (ReadFile : string -> Result string) (unmarshal : string -> Result YAMLToolDef) (dir : string)
    (entries : Result (option (list (string * bool)))) : Result (list YAMLTool) :=
  match entries with
  | Err e => Err ("read tools dir: " +:+ e)
  | Ok None => Ok []
  | Ok (Some l) => load_tools ReadFile unmarshal dir l
  end.
(** Every tool loaded can be called by a name and runs something. *)
Lemma loaded_tools ReadFile unmarshal dir entries l : LoadToolsFromDir ReadFile unmarshal dir entries = Ok l ->
  Forall (fun t => y_Name (def t) <> "" /\ y_Command (def t) <> "") l.
Proof.
  unfold LoadToolsFromDir. destruct entries as [[entries|]|]; [|by intros [= <-]|done]. revert l.
  induction entries as [|[name is_dir] entries IH]; intros l; cbn [load_tools]; [by intros [= <-]|].
  destruct (is_dir || _); [apply IH|]. cbv zeta. intros (data & _ & H)%rbind_Ok. apply rbind_Ok in H as (d & _ & H). apply rbind_Ok in H as (tool & Ht & H).
  apply rbind_Ok in H as (rest & Hr & H). injection H as <-. constructor; [|by apply IH]. apply wrap_err_Ok in Ht. revert Ht. unfold NewYAMLTool.
  repeat case_decide; try done; [by intros [= <-]|]. destruct (ParseDuration _); [by intros [= <-]|done].
Qed.
End Yaml.
(** The value of a parameter is pasted into the command as it is. *)
Example parameter_injects :
  ran (Yaml_Execute (fun c => Ok c) (fun c input => Ok (ReplaceAll c "{{.host}}" (field "host" input))) (fun _ => {| stdout := ""; stderr := ""; run_error := None |})
    {| def := {| y_Name := "ping"; y_Description := ""; y_Parameters := ∅; y_Command := "ping {{.host}}"; y_Timeout := "" |}; y_timeout := 30 * Second |}
    {["host" := "x; cat /etc/passwd"]}) = Some {| prog := "bash"; args := ["-c"; "ping x; cat /etc/passwd"] |}.
Proof. vm_compute. reflexivity. Qed.

(** ** SSH *)


Section SSH.
Context {Signer HostKey : Type} (ParsePrivateKey : string -> Result Signer).
(** Dialling under a check of the host's key, opening a session, and what a command prints and how it fails, or the error
    of the context when its time is up first. *)
Context (Dial : string -> string -> Signer -> option HostKey -> option error) (NewSession : string -> option error).
Context (CombinedOutput : string -> string -> (string * option error) + error).
(** [hostKey] [None] accepts any key. *)
(* [modules/agent/tools/shell_backend_ssh.go:SSHBackend] *)
Record SSHBackend := { sh_Addr : string; sh_User : string; Auth : Signer; hostKey : option HostKey; DialTimeout : duration }.
(* [modules/agent/tools/shell_backend_ssh.go:NewSSHBackendFromKey] *)
Definition NewSSHBackendFromKey (addr user pem : string) (hostKey : option HostKey) : Result SSHBackend :=
  signer <-? wrap_err "ssh backend: parse key" (ParsePrivateKey pem) ;;
  Ok {| sh_Addr := addr; sh_User := user; Auth := signer; hostKey := hostKey; DialTimeout := 10 * Second |}.
(* [modules/agent/tools/shell_backend_ssh.go:SSHBackend.Run] *)
Definition SSH_Run (b : option SSHBackend) (command : string) : Answer :=
  match b with
  | None => ("", Some "ssh backend not configured")
  | Some b =>
      if decide (sh_Addr b = "") then ("", Some "ssh backend not configured")
      else match Dial (sh_Addr b) (sh_User b) (Auth b) (hostKey b) with
      | Some e => ("", Some ("ssh backend: dial " +:+ sh_Addr b +:+ ": " +:+ e))
      | None =>
          match NewSession (sh_Addr b) with
          | Some e => ("", Some ("ssh backend: new session: " +:+ e))
          | None =>
              match CombinedOutput (sh_Addr b) command with
              | inr e => ("", Some ("ssh backend: command timed out: " +:+ e))
              | inl (out, err) => (truncateOutput out, match err with Some e => Some ("command failed: " +:+ e) | None => None end)
              end
          end
      end
  end.
(** Output is bounded on every branch. *)
Lemma ssh_output_bounded b command : (String.length (SSH_Run b command).1 <= maxShellOutputBytes + String.length (nl +:+ "... (truncated)"))%nat.
Proof.
  assert (H0 : (String.length "" <= maxShellOutputBytes + String.length (nl +:+ "... (truncated)"))%nat) by (cbn [String.length]; lia).
  unfold SSH_Run. destruct b as [b|]; [|done]. case_decide; [done|]. destruct (Dial _ _ _ _); [done|]. destruct (NewSession _); [done|].
  destruct (CombinedOutput _ _) as [[out err]|]; [|done]. cbn [fst]. unfold truncateOutput. case_decide; [|lia].
  rewrite str_length_app. assert (String.length (take_bytes maxShellOutputBytes out) <= maxShellOutputBytes)%nat; [|lia].
  apply take_bytes_le.
Qed.
End SSH.
