(* ===== verification/Tui.v ===== *)
(** * Tui: the terminal client

    [src/cmd/cyntr/tui]: the multi-line input, completion of slash commands, the model's transitions, and the reading
    of a server's event stream.  A turn is numbered, and what a turn that was interrupted still sends is dropped by its
    number.  The model is a Go value that holds a [strings.Builder], which panics when it is written to at another
    address than before: every update is given the address its copy of the model lies at.  Styles, the viewport, JSON
    and the network are arguments. *)
From S2P Require Import Prelude GoStr GoText Utf8.
From S2P Require ApiAgents ApiAccess AgentSession Api.
Import ApiAgents (range_string, replacement, sse, splitIntoStreamChunks, reply_events).
Import Api (value, VFields, VString, VStrings).
Local Open Scope go_scope.
Local Open Scope Z_scope.

(** ** The input *)

(** [string(r)] of a rune. *)
Definition EncodeRune (r : N) : string :=
  let byte n := String (ascii_of_N n) in
  (if r <? 128 then byte r ""
   else if r <? 2048 then byte (192 + r / 64) (byte (128 + r mod 64) "")
   else if (1114111 <? r) || ((55296 <=? r) && (r <=? 57343)) then replacement
   else if r <? 65536 then byte (224 + r / 4096) (byte (128 + r / 64 mod 64) (byte (128 + r mod 64) ""))
   else byte (240 + r / 262144) (byte (128 + r / 4096 mod 64) (byte (128 + r / 64 mod 64) (byte (128 + r mod 64) ""))))%N.
Definition text_of (rs : list N) : string := Join (EncodeRune <$> rs) "".
(* [cmd/cyntr/tui/input.go:textInput] *)
Record textInput := { ti_value : list N; cursor : nat; ti_width : Z; ti_height : Z; placeholder : string; prompt : string }.
(* [cmd/cyntr/tui/input.go:newTextInput] *)
Definition newTextInput : textInput :=
  {| ti_value := []; cursor := 0; ti_width := 80; ti_height := 3;
     placeholder := "Type a message (Enter to send, Shift+Enter for newline). /help for commands."; prompt := "┃ " |}.
Definition edit (v : list N) (c : nat) (t : textInput) : textInput :=
  {| ti_value := v; cursor := c; ti_width := ti_width t; ti_height := ti_height t; placeholder := placeholder t; prompt := prompt t |}.
(* [cmd/cyntr/tui/input.go:textInput.Value] *)
Definition Value (t : textInput) : string := text_of (ti_value t).
(* [cmd/cyntr/tui/input.go:textInput.Reset] *)
Definition Reset (t : textInput) : textInput := edit [] 0 t.
(* [cmd/cyntr/tui/input.go:textInput.SetWidth] *)
Definition SetWidth (w : Z) (t : textInput) : textInput :=
  {| ti_value := ti_value t; cursor := cursor t; ti_width := if decide (0 < w) then w else ti_width t; ti_height := ti_height t;
     placeholder := placeholder t; prompt := prompt t |}.
(* [cmd/cyntr/tui/input.go:textInput.SetHeight] *)
Definition SetHeight (h : Z) (t : textInput) : textInput :=
  {| ti_value := ti_value t; cursor := cursor t; ti_width := ti_width t; ti_height := if decide (0 < h) then h else ti_height t;
     placeholder := placeholder t; prompt := prompt t |}.
(** Slicing at the cursor does not panic while the cursor is in the text: [cursor_ok]. *)
(* [cmd/cyntr/tui/input.go:textInput.InsertRune] *)
Definition InsertRune (r : N) (t : textInput) : textInput :=
  edit (take (cursor t) (ti_value t) ++ r :: drop (cursor t) (ti_value t)) (S (cursor t)) t.
(* [cmd/cyntr/tui/input.go:textInput.InsertString] *)
Definition InsertString (s : string) (t : textInput) : textInput := foldl (fun t r => InsertRune r t) t (range_string s).*1.
(* [cmd/cyntr/tui/input.go:textInput.Backspace] *)
Definition Backspace (t : textInput) : textInput :=
  match cursor t with O => t | S c => edit (take c (ti_value t) ++ drop (S c) (ti_value t)) c t end.
(* [cmd/cyntr/tui/input.go:textInput.Delete] *)
Definition Delete (t : textInput) : textInput :=
  if decide (length (ti_value t) <= cursor t)%nat then t else edit (take (cursor t) (ti_value t) ++ drop (S (cursor t)) (ti_value t)) (cursor t) t.
(* [cmd/cyntr/tui/input.go:textInput.Left] *)
Definition Left (t : textInput) : textInput := edit (ti_value t) (pred (cursor t)) t.
(* [cmd/cyntr/tui/input.go:textInput.Right] *)
Definition Right (t : textInput) : textInput := if decide (cursor t < length (ti_value t))%nat then edit (ti_value t) (S (cursor t)) t else t.
(* [cmd/cyntr/tui/input.go:textInput.Home] *)
Definition Home (t : textInput) : textInput := edit (ti_value t) 0 t.
(* [cmd/cyntr/tui/input.go:textInput.End] *)
Definition End_ (t : textInput) : textInput := edit (ti_value t) (length (ti_value t)) t.

(** ** Commands and their completion *)

(* [cmd/cyntr/tui/autocomplete.go:CommandKind] *)
Inductive CommandKind := KindBuiltin | KindSkill | KindTool.
#[export] Instance CommandKind_eq_dec : EqDecision CommandKind.
Proof. solve_decision. Defined.
(* [cmd/cyntr/tui/autocomplete.go:Command] *)
Record Command := { Name : string; Description : string; Kind : CommandKind }.
(* [cmd/cyntr/tui/autocomplete.go:builtinCommands] *)
Definition builtinCommands : list Command :=
  [ {| Name := "/help"; Description := "Show available commands"; Kind := KindBuiltin |};
    {| Name := "/clear"; Description := "Clear the conversation history"; Kind := KindBuiltin |};
    {| Name := "/quit"; Description := "Exit the TUI"; Kind := KindBuiltin |};
    {| Name := "/skills"; Description := "List available skills"; Kind := KindBuiltin |};
    {| Name := "/tools"; Description := "List available tools"; Kind := KindBuiltin |} ].
(** [sort.SliceStable] by name: of equal names, the earlier stays first. *)
Fixpoint insert_command (c : Command) (l : list Command) : list Command :=
  match l with [] => [c] | d :: l => if decide (string_le (Name c) (Name d)) then c :: d :: l else d :: insert_command c l end.
Definition by_name (l : list Command) : list Command := foldr insert_command [] l.
(* [cmd/cyntr/tui/autocomplete.go:Autocomplete] *)
Definition Autocomplete (ToLower : string -> string) (commands : list Command) (prefix : string) : list Command :=
  let prefix := TrimSpace prefix in
  if negb (bool_decide (prefix = "")) && negb (has_prefix "/" prefix) then []
  else let lp := ToLower prefix in
       by_name (filter (fun c => lp = "" \/ lp = "/" \/ has_prefix lp (ToLower (Name c)) = true) commands).

(** ** The client *)

(* [cmd/cyntr/tui/client.go:StreamEvent] *)
Record StreamEvent := { Type_ : string; Content : string; Event : string; Detail : string }.
Definition done_event : StreamEvent := {| Type_ := "done"; Content := ""; Event := ""; Detail := "" |}.
Definition maxToken : nat := Z.to_nat (1024 * 1024).
Definition drop_cr (line : string) : string := TrimSuffix line (String "013" "").
(** [bufio.Scanner] over a body that ends with an error, or not: its lines up to one that does not fit in the buffer.  The
    text after the last newline is a line when there is any. *)
Fixpoint scan_lines (ps : list string) (err : option error) : list string * option error :=
  match ps with
  | [] => ([], err)
  | p :: ps =>
      if decide (maxToken <= String.length p)%nat then ([], Some "bufio.Scanner: token too long")
      else match ps with
           | [] => (if decide (p = "") then [] else [drop_cr p], err)
           | _ => let '(ls, e) := scan_lines ps err in (drop_cr p :: ls, e)
           end
  end.
Definition Scan (body : string * option error) : list string * option error := scan_lines (split "010" body.1) body.2.

Section Client.
Context (decode : string -> Result StreamEvent).
(** The events handed on, and the error. *)
Fixpoint parse_lines (lines : list string) (err : option error) : list StreamEvent * option error :=
  match lines with
  | [] => match err with Some e => ([], Some e) | None => ([done_event], None) end
  | line :: lines =>
      if has_prefix "data: " line then
        let '(evs, e) := parse_lines lines err in
        (match decode (drop_bytes 6 line) with
         | Ok ev => if decide (Type_ ev <> "") then [ev] else []
         | Err _ => []
         end ++ evs, e)
      else if decide (line = "event: done" \/ line = "data: [DONE]") then ([done_event], None)
      else parse_lines lines err
  end.
(* [cmd/cyntr/tui/client.go:parseSSE] *)
Definition parseSSE (body : string * option error) : list StreamEvent * option error := let '(lines, err) := Scan body in parse_lines lines err.

(* [cmd/cyntr/tui/client.go:Client] *)
Record Client := { BaseURL : string; APIKey : string }.
(* [cmd/cyntr/tui/client.go:NewClient] *)
Definition NewClient (getenv : string -> string) : Client :=
  let base := getenv "CYNTR_API_URL" in
  {| BaseURL := TrimRight ["/"%char] (if decide (base = "") then "http://localhost:7700" else base); APIKey := getenv "CYNTR_API_KEY" |}.
(* [cmd/cyntr/tui/client.go:envelope] *)
Record envelope (D : Type) := { env_Data : D; env_Error : option (string * string) }.
#[global] Arguments env_Data {D}. #[global] Arguments env_Error {D}.
(* [cmd/cyntr/tui/client.go:firstNonEmpty] *)
Fixpoint firstNonEmpty (vals : list string) : string :=
  match vals with [] => "" | v :: vals => if decide (TrimSpace v <> "") then v else firstNonEmpty vals end.
(** What a GET with headers answers: a status and a body, with the error its reading ends with. *)
Context (GET : string -> list (string * string) -> Result (Z * (string * option error))).
Definition authorization (c : Client) : list (string * string) := if decide (APIKey c <> "") then [("Authorization", "Bearer " +:+ APIKey c)] else [].
Definition http_error (status : Z) (body : string) : error := "HTTP " +:+ itoa status +:+ ": " +:+ TrimSpace body.
(* [cmd/cyntr/tui/client.go:Client.getEnvelope] *)
Definition getEnvelope {D} (unmarshal : string -> Result (envelope D)) (c : Client) (path : string) : Result D :=
  resp <-? GET (BaseURL c +:+ path) (authorization c) ;;
  let '(status, (body, rerr)) := resp in
  match rerr with
  | Some e => Err e
  | None => match unmarshal body with
            | Err e => Err (if decide (status <> 200) then http_error status body else e)
            | Ok env => match env_Error env with Some (code, message) => Err (code +:+ ": " +:+ message) | None => Ok (env_Data env) end
            end
  end.
(** Names with descriptions, as JSON; the raw data of an envelope. *)
Context {Raw : Type} (open_envelope : string -> Result (envelope Raw)) (named : Raw -> Result (list (string * string))).
Definition fetch_kind (c : Client) (path prefix word : string) (k : CommandKind) : list Command :=
  match (data <-? getEnvelope open_envelope c path ;; named data) with
  | Err _ => []
  | Ok l => omap (fun nd => if decide (nd.1 = "") then None
                            else Some {| Name := prefix +:+ nd.1; Description := firstNonEmpty [nd.2; word]; Kind := k |}) l
  end.
(* [cmd/cyntr/tui/client.go:Client.FetchCommands] *)
Definition FetchCommands (c : Client) : list Command :=
  builtinCommands ++ fetch_kind c "/api/v1/skills" "/skill:" "skill" KindSkill ++ fetch_kind c "/api/v1/tools" "/tool:" "tool" KindTool.
(** [url.PathEscape] and [url.QueryEscape]. *)
Context (PathEscape QueryEscape : string -> string).
Definition stream_url (c : Client) (tenant agent message : string) : string :=
  BaseURL c +:+ "/api/v1/tenants/" +:+ PathEscape tenant +:+ "/agents/" +:+ PathEscape agent +:+ "/stream?" +:+
    (if decide (APIKey c <> "") then "key=" +:+ QueryEscape (APIKey c) +:+ "&" else "") +:+ "message=" +:+ QueryEscape message.
(* [cmd/cyntr/tui/client.go:Client.Stream] *)
Definition Stream (c : Client) (tenant agent message : string) : list StreamEvent * option error :=
  match GET (stream_url c tenant agent message) (authorization c) with
  | Err e => ([], Some e)
  | Ok (status, body) => if decide (status <> 200) then ([], Some (http_error status body.1)) else parseSSE body
  end.
End Client.

(** ** The model *)

(** [strings.Builder]: the address it was first written at since it was reset, and its text. *)
Record Builder := { b_addr : option Z; b_text : string }.
Definition no_builder : Builder := {| b_addr := None; b_text := "" |}.
(** [None] is a panic. *)
Definition WriteString (here : Z) (s : string) (b : Builder) : option Builder :=
  match b_addr b with
  | Some a => if decide (a = here) then Some {| b_addr := Some a; b_text := b_text b +:+ s |} else None
  | None => Some {| b_addr := Some here; b_text := b_text b +:+ s |}
  end.
(* [cmd/cyntr/tui/model.go:turnState] *)
Inductive turnState := stateIdle | stateStreaming.
#[export] Instance turnState_eq_dec : EqDecision turnState.
Proof. solve_decision. Defined.
(** A key: its name and the runes it types. *)
Record KeyMsg := { k_String : string; k_Runes : list N }.
(* [cmd/cyntr/tui/model.go:streamMsg@22-25] *)
(* [cmd/cyntr/tui/model.go:streamErrMsg@28-31] *)
Inductive Msg (O : Type) :=
| WindowSizeMsg (w h : Z) | CommandsMsg (commands : list Command) | StreamMsg (seq : Z) (event : StreamEvent) | StreamErrMsg (seq : Z) (err : error)
| AKey (k : KeyMsg) | OtherMsg (o : O).
#[global] Arguments WindowSizeMsg {O}. #[global] Arguments CommandsMsg {O}. #[global] Arguments StreamMsg {O}. #[global] Arguments StreamErrMsg {O}.
#[global] Arguments AKey {O}. #[global] Arguments OtherMsg {O}.

(** The viewport, and what it scrolls by; styles. *)
Class Viewport := {
  V : Type; VCmd : Type; Other : Type; vp_New : Z -> Z -> V; vp_Size : Z -> Z -> V -> V; SetContent : string -> V -> V; GotoBottom : V -> V;
  vp_Update : Msg Other -> V -> V * VCmd; vp_View : V -> string;
}.
Class Styles := { youStyle : string -> string; agentStyle : string -> string; errStyle : string -> string; hintStyle : string -> string;
                  statusStyle : string -> string; suggestStyle : string -> string; inputBoxStyle : Z -> string -> string; cursorStyle : string -> string }.

Section Model.
Context `{Viewport} `{Styles} (ToLower : string -> string).

(** [wired] and [fetches] are whether the two functions are there; a cancel function is the number of the turn it cancels. *)
(* [cmd/cyntr/tui/model.go:Model] *)
Record Model := {
  m_tenant : string; m_agent : string; input : textInput; viewport : V; ready : bool; width : Z; height : Z; transcript : list string; streaming : Builder;
  state : turnState; seq : Z; cancel : option Z; commands : list Command; suggestions : list Command; status : string; m_err : option error;
  wired : bool; fetches : bool;
}.
(** What an update asks for. *)
Inductive Cmd := NoCmd | Quit | RunStream (seq : Z) (message : string) | RunFetch | ViewportCmd (c : VCmd).
Definition status_line (m : Model) (what : string) : string := m_tenant m +:+ "/" +:+ m_agent m +:+ " — " +:+ what.
(* [cmd/cyntr/tui/model.go:NewModel] *)
Definition NewModel (tenant agent : string) (wired fetches : bool) : Model :=
  {| m_tenant := tenant; m_agent := agent; input := newTextInput; viewport := vp_New 80 20; ready := false; width := 0; height := 0; transcript := [];
     streaming := no_builder; state := stateIdle; seq := 0; cancel := None; commands := []; suggestions := []; status := tenant +:+ "/" +:+ agent +:+ " — ready";
     m_err := None; wired := wired; fetches := fetches |}.
(* [cmd/cyntr/tui/model.go:Model.Init] *)
Definition Init (m : Model) : Cmd := if fetches m then RunFetch else NoCmd.
Definition with_view (v : V) (ready : bool) (w h : Z) (i : textInput) (m : Model) : Model :=
  {| m_tenant := m_tenant m; m_agent := m_agent m; input := i; viewport := v; ready := ready; width := w; height := h; transcript := transcript m;
     streaming := streaming m; state := state m; seq := seq m; cancel := cancel m; commands := commands m; suggestions := suggestions m; status := status m;
     m_err := m_err m; wired := wired m; fetches := fetches m |}.
Definition with_viewport (v : V) (m : Model) : Model := with_view v (ready m) (width m) (height m) (input m) m.
Definition with_input (i : textInput) (sugg : list Command) (m : Model) : Model :=
  {| m_tenant := m_tenant m; m_agent := m_agent m; input := i; viewport := viewport m; ready := ready m; width := width m; height := height m;
     transcript := transcript m; streaming := streaming m; state := state m; seq := seq m; cancel := cancel m; commands := commands m; suggestions := sugg;
     status := status m; m_err := m_err m; wired := wired m; fetches := fetches m |}.
Definition with_commands (cs : list Command) (m : Model) : Model :=
  {| m_tenant := m_tenant m; m_agent := m_agent m; input := input m; viewport := viewport m; ready := ready m; width := width m; height := height m;
     transcript := transcript m; streaming := streaming m; state := state m; seq := seq m; cancel := cancel m; commands := cs;
     suggestions := Autocomplete ToLower cs (Value (input m)); status := status m; m_err := m_err m; wired := wired m; fetches := fetches m |}.
Definition with_turn (tr : list string) (b : Builder) (s : turnState) (n : Z) (c : option Z) (st : string) (e : option error) (m : Model) : Model :=
  {| m_tenant := m_tenant m; m_agent := m_agent m; input := input m; viewport := viewport m; ready := ready m; width := width m; height := height m;
     transcript := tr; streaming := b; state := s; seq := n; cancel := c; commands := commands m; suggestions := suggestions m; status := st; m_err := e;
     wired := wired m; fetches := fetches m |}.
Definition say (line : string) (m : Model) : Model := with_turn (transcript m ++ [line]) (streaming m) (state m) (seq m) (cancel m) (status m) (m_err m) m.
Definition with_status (st : string) (m : Model) : Model := with_turn (transcript m) (streaming m) (state m) (seq m) (cancel m) st (m_err m) m.
Definition with_err (e : error) (m : Model) : Model := with_turn (transcript m) (streaming m) (state m) (seq m) (cancel m) (status m) (Some e) m.
Definition with_stream (b : Builder) (m : Model) : Model := with_turn (transcript m) b (state m) (seq m) (cancel m) (status m) (m_err m) m.

(* [cmd/cyntr/tui/model.go:Model.refreshViewport] *)
Definition refreshViewport (m : Model) : Model :=
  let lines := transcript m ++ (if decide (state m = stateStreaming /\ b_text (streaming m) <> "") then [agentStyle "agent: " +:+ b_text (streaming m)] else []) in
  with_viewport (GotoBottom (SetContent (Join lines nl) (viewport m))) m.
(* [cmd/cyntr/tui/model.go:Model.layout] *)
Definition layout (m : Model) : Model :=
  with_view (vp_Size (width m) (Z.max 1 (height m - 6)) (viewport m)) (ready m) (width m) (height m) (SetHeight 3 (SetWidth (width m) (input m))) m.
(** Both give the turn they cancel. *)
(* [cmd/cyntr/tui/model.go:Model.finishTurn] *)
Definition finishTurn (m : Model) : Model * list Z :=
  (with_turn (transcript m) no_builder stateIdle (seq m) None (status_line m "ready") (m_err m) m, option_list (cancel m)).
(* [cmd/cyntr/tui/model.go:Model.interrupt] *)
Definition interrupt (m : Model) : Model * list Z :=
  let partial := b_text (streaming m) in
  let tr := transcript m ++ (if decide (TrimSpace partial <> "") then [agentStyle "agent: " +:+ partial +:+ hintStyle " …"] else []) in
  (with_turn tr no_builder stateIdle (seq m + 1) None (status_line m "ready") (m_err m) m, option_list (cancel m)).
(** A model, a command and the turns cancelled; [None] is a panic. *)
Notation Out := (option (Model * Cmd * list Z)).
Definition stay (m : Model) : Out := Some (m, NoCmd, []).
(* [cmd/cyntr/tui/model.go:Model.applyStreamEvent] *)
Definition applyStreamEvent (here : Z) (ev : StreamEvent) (m : Model) : Out :=
  if decide (Type_ ev = "thinking") then stay (refreshViewport (with_status (status_line m "thinking…") m))
  else if decide (Type_ ev = "progress") then
    stay (refreshViewport (with_status (status_line m (if decide (Detail ev <> "") then Event ev +:+ ": " +:+ Detail ev else Event ev)) m))
  else if decide (Type_ ev = "text") then b ← WriteString here (Content ev) (streaming m); stay (refreshViewport (with_stream b m))
  else if decide (Type_ ev = "error") then
    let '(m, cs) := finishTurn m in
    let errText := if decide (Content ev = "") then Detail ev else Content ev in
    Some (refreshViewport (say (errStyle ("error: " +:+ errText)) (with_err errText m)), NoCmd, cs)
  else if decide (Type_ ev = "done") then
    let final := b_text (streaming m) in
    let '(m, cs) := finishTurn (if decide (TrimSpace final <> "") then say (agentStyle "agent: " +:+ final) m else m) in
    Some (refreshViewport m, NoCmd, cs)
  else stay (refreshViewport m).
(* [cmd/cyntr/tui/model.go:listKind] *)
Definition listKind (cmds : list Command) (kind : CommandKind) (label : string) : string :=
  let names := (fun c => TrimPrefix (TrimPrefix (Name c) "/skill:") "/tool:") <$> filter (fun c => Kind c = kind) cmds in
  if decide (names = []) then "no " +:+ label +:+ " available" else label +:+ ": " +:+ Join names ", ".
(** [%-18s]. *)
Fixpoint spaces (n : nat) : string := match n with O => "" | S n => String " " (spaces n) end.
Definition pad18 (s : string) : string := s +:+ spaces (18 - length (range_string s)).
Definition clear_input (m : Model) : Model := with_input (Reset (input m)) [] m.
(** [None] when the command is none of these. *)
(* [cmd/cyntr/tui/model.go:Model.handleLocalCommand] *)
Definition handleLocalCommand (text : string) (m : Model) : option (Model * Cmd) :=
  let word := default "" (head (Fields text)) in
  if decide (word ∈ ["/quit"; "/exit"; "/q"]) then Some (m, Quit)
  else if decide (word ∈ ["/clear"; "/reset"]) then
    let m := clear_input (with_turn [] (streaming m) (state m) (seq m) (cancel m) (status m) (m_err m) m) in
    Some (refreshViewport (with_status (status_line m "cleared") m), NoCmd)
  else if decide (word = "/help") then
    let text := hintStyle "commands:" +:+ nl +:+ Join ((fun c => "  " +:+ pad18 (Name c) +:+ " " +:+ Description c +:+ nl) <$> commands m) "" in
    Some (refreshViewport (say (TrimRight ["010"%char] text) (clear_input m)), NoCmd)
  else if decide (word = "/skills") then Some (refreshViewport (say (hintStyle (listKind (commands m) KindSkill "skills")) (clear_input m)), NoCmd)
  else if decide (word = "/tools") then Some (refreshViewport (say (hintStyle (listKind (commands m) KindTool "tools")) (clear_input m)), NoCmd)
  else None.
(* [cmd/cyntr/tui/model.go:Model.submit] *)
Definition submit (m : Model) : Model * Cmd :=
  let text := TrimSpace (Value (input m)) in
  if decide (state m = stateStreaming) then (m, NoCmd)
  else if decide (text = "") then (m, NoCmd)
  else match (if has_prefix "/" text then handleLocalCommand text m else None) with
  | Some r => r
  | None =>
      let m := clear_input m in
      let m := with_turn (transcript m ++ [youStyle "you: " +:+ text]) no_builder (state m) (seq m) (cancel m) (status m) None m in
      if wired m then
        let n := seq m + 1 in
        (refreshViewport (with_turn (transcript m) (streaming m) stateStreaming n (Some n) (status_line m "streaming…") (m_err m) m), RunStream n text)
      else (refreshViewport m, NoCmd)
  end.
Definition typed (f : textInput -> textInput) (m : Model) : Model := let i := f (input m) in with_input i (Autocomplete ToLower (commands m) (Value i)) m.
Definition moved (f : textInput -> textInput) (m : Model) : Model := with_input (f (input m)) (suggestions m) m.
(* [cmd/cyntr/tui/model.go:Model.handleKey] *)
Definition handleKey (k : KeyMsg) (m : Model) : Model * Cmd * list Z :=
  let key := k_String k in
  let quiet m : Model * Cmd * list Z := (m, NoCmd, []) in
  if decide (key = "ctrl+c") then
    if decide (state m = stateStreaming) then
      let '(m, cs) := interrupt m in (refreshViewport (say (hintStyle "[interrupted — type a new message]") m), NoCmd, cs)
    else (m, Quit, [])
  else if decide (key = "ctrl+d") then (m, Quit, [])
  else if decide (key = "enter") then (submit m, [])
  else if decide (key ∈ ["shift+enter"; "alt+enter"]) then quiet (moved (InsertRune 10) m)
  else if decide (key = "backspace") then quiet (typed Backspace m)
  else if decide (key = "delete") then quiet (typed Delete m)
  else if decide (key = "left") then quiet (moved Left m)
  else if decide (key = "right") then quiet (moved Right m)
  else if decide (key ∈ ["home"; "ctrl+a"]) then quiet (moved Home m)
  else if decide (key ∈ ["end"; "ctrl+e"]) then quiet (moved End_ m)
  else if decide (key = "tab") then
    match suggestions m with [] => quiet m | c :: _ => quiet (typed (fun i => InsertString (Name c +:+ " ") (Reset i)) m) end
  else if decide (key ∈ ["pgup"; "pgdown"; "ctrl+u"; "ctrl+b"; "ctrl+f"; "up"; "down"]) then
    let '(v, c) := vp_Update (AKey k) (viewport m) in (with_viewport v m, ViewportCmd c, [])
  else if decide (key = "space") then quiet (typed (InsertRune 32) m)
  else match k_Runes k with [] => quiet m | rs => quiet (typed (fun i => foldl (fun t r => InsertRune r t) i rs) m) end.
(* [cmd/cyntr/tui/model.go:Model.Update] *)
Definition Update (here : Z) (msg : Msg Other) (m : Model) : Out :=
  match msg with
  | WindowSizeMsg w h =>
      let m := layout (with_view (viewport m) (ready m) w h (input m) m) in
      stay (refreshViewport (with_view (viewport m) true (width m) (height m) (input m) m))
  | CommandsMsg cs => stay (with_commands cs m)
  | StreamMsg n ev => if decide (n <> seq m \/ state m <> stateStreaming) then stay m else applyStreamEvent here ev m
  | StreamErrMsg n e =>
      if decide (n <> seq m) then stay m
      else let '(m, cs) := finishTurn m in Some (refreshViewport (say (errStyle ("error: " +:+ e)) (with_err e m)), NoCmd, cs)
  | AKey k => Some (handleKey k m)
  | OtherMsg _ => let '(v, c) := vp_Update msg (viewport m) in Some (with_viewport v m, ViewportCmd c, [])
  end.

(** ** Its view *)

(* [cmd/cyntr/tui/model.go:Model.renderSuggestions] *)
Definition renderSuggestions (m : Model) : string :=
  let shown := suggestStyle ∘ Name <$> take 6 (suggestions m) in
  let more := if decide (6 < length (suggestions m))%nat then [hintStyle ("…+" +:+ itoa (Z.of_nat (length (suggestions m)) - 6) +:+ " more")] else [] in
  Join (shown ++ more) "  ".
(* [cmd/cyntr/tui/input.go:textInput.View] *)
Definition input_View (t : textInput) : string :=
  let shown := imap (fun i r => if decide (i = cursor t) then cursorStyle (EncodeRune r) else EncodeRune r) (ti_value t) in
  inputBoxStyle (ti_width t - 2)
    (if decide (Value t = "") then prompt t +:+ hintStyle (placeholder t)
     else prompt t +:+ Join shown "" +:+ (if decide (length (ti_value t) <= cursor t)%nat then cursorStyle " " else "")).
(* [cmd/cyntr/tui/model.go:Model.View] *)
Definition View (m : Model) : string :=
  if ready m then
    vp_View (viewport m) +:+ nl +:+ (if decide (suggestions m = []) then "" else renderSuggestions m +:+ nl) +:+ input_View (input m) +:+ nl +:+ statusStyle (status m)
  else "loading…".
End Model.

(** What a turn sends: its events, and its error when it was not cancelled. *)
(* [cmd/cyntr/tui/run.go:Run@45-56] *)
Definition turn_messages {O} (cancelled : bool) (n : Z) (r : list StreamEvent * option error) : list (Msg O) :=
  (StreamMsg n <$> r.1) ++ match r.2 with Some e => if cancelled then [] else [StreamErrMsg n e] | None => [] end.

(** ** What holds *)

Section Turns.
Context `{Viewport} `{Styles} (ToLower : string -> string).
Notation Update := (Update ToLower).
Definition cmds_of (c : Cmd) : list Cmd := match c with NoCmd => [] | _ => [c] end.
(** Messages handled one after the other, each with the address of the copy it is handled on. *)
Fixpoint run (msgs : list (Z * Msg Other)) (m : Model) : option (Model * list Cmd * list Z) :=
  match msgs with
  | [] => Some (m, [], [])
  | (here, msg) :: msgs =>
      '(m, c, cs) ← Update here msg m;
      '(m, k, cs') ← run msgs m;
      Some (m, cmds_of c ++ k, cs ++ cs')
  end.
(** A message of a turn up to the given one. *)
Definition from_turn (n : Z) (msg : Msg Other) : bool := match msg with StreamMsg k _ | StreamErrMsg k _ => bool_decide (k <= n) | _ => false end.
Definition cursor_ok (t : textInput) : Prop := (cursor t <= length (ti_value t))%nat.
(** A turn that runs can be cancelled, and nothing is left of one that does not. *)
Record turn_ok (m : Model) : Prop := {
  ok_streaming : state m = stateStreaming -> cancel m = Some (seq m);
  ok_idle : state m = stateIdle -> cancel m = None /\ b_text (streaming m) = "";
  ok_cursor : cursor_ok (input m);
}.

Lemma InsertRune_ok r t : cursor_ok t -> cursor_ok (InsertRune r t).
Proof. unfold cursor_ok, InsertRune. cbn. rewrite length_app, length_take. cbn [length]. rewrite length_drop. lia. Qed.
Lemma InsertRunes_ok rs : forall t, cursor_ok t -> cursor_ok (foldl (fun t r => InsertRune r t) t rs).
Proof. induction rs as [|r rs IH]; intros t Ht; [done|]. by apply IH, InsertRune_ok. Qed.
Lemma edits_ok t : cursor_ok t ->
  cursor_ok (Reset t) /\ cursor_ok (Backspace t) /\ cursor_ok (Delete t) /\ cursor_ok (Left t) /\ cursor_ok (Right t) /\ cursor_ok (Home t) /\ cursor_ok (End_ t).
Proof.
  unfold cursor_ok, Reset, Backspace, Delete, Left, Right, Home, End_. intros Ht. cbn. split_and!; try lia.
  - destruct (cursor t) eqn:E; cbn; [lia|]. rewrite length_app, length_take, length_drop. lia.
  - case_decide; cbn; [done|]. rewrite length_app, length_take, length_drop. lia.
  - case_decide; cbn; lia.
Qed.

Ltac unlet := cbv beta iota zeta delta [stay refreshViewport say with_err with_status with_stream with_turn with_viewport with_view with_input with_commands
  clear_input typed moved finishTurn interrupt layout state seq cancel streaming input transcript wired b_text no_builder SetHeight SetWidth] in *.
(** The parts of the model a keystroke leaves alone. *)
Definition same_turn (m m' : Model) : Prop := state m' = state m /\ seq m' = seq m /\ cancel m' = cancel m /\ streaming m' = streaming m.
Lemma handleLocalCommand_turn text m m' c : handleLocalCommand text m = Some (m', c) -> same_turn m m' /\ (input m' = input m \/ input m' = Reset (input m)).
Proof. unfold handleLocalCommand, same_turn. repeat case_decide; intros [= <- <-]; cbn; auto 6. Qed.
Lemma submit_ok m : turn_ok m -> turn_ok (submit m).1 /\ seq m <= seq (submit m).1.
Proof.
  intros Hm. unfold submit. cbv zeta. case_decide as Hs; [split; [done|cbn; lia]|]. case_decide; [split; [done|cbn; lia]|].
  assert (Hi : state m = stateIdle) by (destruct (state m); done). destruct (ok_idle _ Hm Hi) as [Hc Hb]. destruct (edits_ok _ (ok_cursor _ Hm)) as [Hr _].
  destruct (if has_prefix _ _ then _ else _) as [[m' c]|] eqn:El.
  - destruct (has_prefix _ _); [|done]. apply handleLocalCommand_turn in El as [(E1 & E2 & E3 & E4) Hin]. cbn [fst]. split; [|lia].
    constructor; rewrite ?E1, ?E2, ?E3, ?E4; [congruence|done|]. destruct Hin as [->| ->]; [apply Hm|done].
  - cbn [wired with_turn clear_input with_input]. destruct (wired m); (split; [constructor; cbn; try done; try congruence; auto|simpl; lia]).
Qed.
Lemma handleKey_ok k m : turn_ok m -> turn_ok (handleKey ToLower k m).1.1 /\ seq m <= seq (handleKey ToLower k m).1.1.
Proof.
  intros Hm. destruct (edits_ok _ (ok_cursor _ Hm)) as (E1 & E2 & E3 & E4 & E5 & E6 & E7).
  assert (Hstep : forall i s, cursor_ok i -> turn_ok (with_input i s m) /\ seq m <= seq (with_input i s m)) by (intros i s Hi; split; [constructor; cbn; [apply Hm..|done]|cbn; lia]).
  unfold handleKey. cbv zeta. case_decide; [case_decide|]; [split; [by constructor; cbn; [done|auto|apply Hm]|cbn; lia]|split; [done|cbn; lia]|].
  case_decide; [split; [done|cbn; lia]|]. case_decide; [destruct (submit_ok m Hm) as [? ?]; by destruct (submit m)|].
  case_decide; [by apply Hstep, InsertRune_ok, Hm|]. repeat (case_decide; [by apply Hstep|]).
  case_decide; [destruct (suggestions m); [split; [done|cbn; lia]|by apply Hstep, InsertRunes_ok]|].
  case_decide; [destruct (vp_Update _ _); split; [constructor; apply Hm|cbn; lia]|].
  case_decide; [apply Hstep, InsertRune_ok, Hm|]. destruct (k_Runes k); [split; [done|cbn; lia]|by apply Hstep, InsertRunes_ok, Hm].
Qed.
Lemma applyStreamEvent_ok here ev m m' c cs : turn_ok m -> state m = stateStreaming -> applyStreamEvent here ev m = Some (m', c, cs) -> turn_ok m' /\ seq m <= seq m'.
Proof.
  intros Hm Hs. assert (Hc := ok_streaming _ Hm Hs). assert (Hi := ok_cursor _ Hm).
  unfold applyStreamEvent. repeat (case_decide; [|idtac]); try destruct (WriteString _ _ _) as [b|]; cbn [mbind option_bind]; try done.
  all: intros [= <- <- <-]; (split; [|cbn; try case_decide; cbn; lia]); constructor; cbn; try case_decide; cbn; try done; try congruence; auto.
Qed.
Lemma Update_ok here msg m m' c cs : turn_ok m -> Update here msg m = Some (m', c, cs) -> turn_ok m' /\ seq m <= seq m'.
Proof.
  intros Hm. destruct msg as [w h|cmds|n ev|n e|k|o]; cbn [Tui.Update].
  - intros [= <- <- <-]. split; [|cbn; lia]. constructor; cbn; [apply Hm..|]. apply Hm.
  - intros [= <- <- <-]. split; [|cbn; lia]. constructor; cbn; apply Hm.
  - case_decide as Hd; [intros [= <- <- <-]; split; [done|lia]|]. apply applyStreamEvent_ok; [done|]. destruct (state m); [exfalso; apply Hd; by right|done].
  - case_decide; [intros [= <- <- <-]; split; [done|lia]|]. intros [= <- <- <-]. split; [|cbn; lia]. constructor; cbn; [done|auto|apply Hm].
  - intros [= E]. assert (Hk := handleKey_ok k m Hm). rewrite E in Hk. exact Hk.
  - destruct (vp_Update _ _). intros [= <- <- <-]. split; [constructor; apply Hm|cbn; lia].
Qed.
Lemma turns_ok msgs : forall m m' c cs, turn_ok m -> run msgs m = Some (m', c, cs) -> turn_ok m' /\ seq m <= seq m'.
Proof.
  induction msgs as [|[here msg] msgs IH]; intros m m' c cs Hm; cbn [run]; [intros [= <- <- <-]; split; [done|lia]|].
  destruct (Update here msg m) as [[[m1 c1] cs1]|] eqn:E; cbn [mbind option_bind]; [|done]. apply Update_ok in E as [H1 Hs]; [|done].
  destruct (run msgs m1) as [[[m2 c2] cs2]|] eqn:E2; cbn [mbind option_bind]; [|done]. intros [= <- <- <-]. apply IH in E2 as [? ?]; [|done]. split; [done|lia].
Qed.
Lemma NewModel_ok tenant agent w f : turn_ok (NewModel tenant agent w f).
Proof. constructor; cbn; [done|auto|unfold cursor_ok; cbn; lia]. Qed.
(** What comes from turns before the model's is dropped. *)
Lemma run_stale n msgs : forall m, turn_ok m -> n < seq m -> run msgs m = run (filter (fun hm => from_turn n hm.2 = false) msgs) m.
Proof.
  induction msgs as [|[here msg] msgs IH]; intros m Hm Hn; [done|]. rewrite filter_cons. cbn [snd]. case_decide as Hf.
  - cbn [run]. destruct (Update here msg m) as [[[m1 c1] cs1]|] eqn:E; [|done]. apply Update_ok in E as [H1 Hs]; [|done]. cbn [mbind option_bind]. rewrite IH; [done..|lia].
  - cbn [run]. assert (E : Update here msg m = Some (m, NoCmd, [])).
    { destruct msg as [| |k ev|k e| |]; try (cbn in Hf; done); cbn in Hf; apply not_false_is_true, bool_decide_eq_true in Hf; cbn [Tui.Update];
        rewrite decide_True; (done || (try left; lia)). }
    rewrite E. cbn [mbind option_bind]. rewrite (IH m) by (done || lia). destruct (run _ m) as [[[? ?] ?]|]; reflexivity.
Qed.

Definition ctrl_c : KeyMsg := {| k_String := "ctrl+c"; k_Runes := [] |}.
(** Ctrl-C during a turn cancels exactly that turn and leaves the model idle, and whatever the turn, or an earlier one, still
    sends - text, progress, an error, its end - is as if it had never been sent: any further sequence of messages, with new
    turns in it, leads to the model, the commands and the cancellations that it leads to without them. *)
Lemma redirect_silent tenant agent w f before m0 c0 cs0 here :
  run before (NewModel tenant agent w f) = Some (m0, c0, cs0) -> state m0 = stateStreaming ->
  exists m, Update here (AKey ctrl_c) m0 = Some (m, NoCmd, [seq m0]) /\ state m = stateIdle /\
    forall after, run after m = run (filter (fun hm => from_turn (seq m0) hm.2 = false) after) m.
Proof.
  intros Hr Hs. apply turns_ok in Hr as [Hm _]; [|apply NewModel_ok]. assert (Hc := ok_streaming _ Hm Hs).
  eexists. cbn [Tui.Update]. unfold handleKey. cbn [k_String ctrl_c]. cbv zeta. rewrite decide_True by done. rewrite decide_True by done.
  unfold interrupt. rewrite Hc. split; [reflexivity|]. split; [reflexivity|]. intros after. apply run_stale; [|cbn; lia].
  constructor; cbn; [done|auto|apply Hm].
Qed.

(** *** An answer on the screen *)

Definition quiet_type (ev : StreamEvent) : Prop := Type_ ev ∈ ["thinking"; "progress"; "text"; "tools_used"].
Definition text_part (ev : StreamEvent) : string := if decide (Type_ ev = "text") then Content ev else "".
Definition shows (here n : Z) (evs : list StreamEvent) : list (Z * Msg Other) := (fun ev => (here, StreamMsg n ev)) <$> evs.
(** A turn that runs, with what it has said so far. *)
Record in_turn (here n : Z) (tr : list string) (said : string) (c : option Z) (m : Model) : Prop := {
  it_state : state m = stateStreaming; it_seq : seq m = n; it_transcript : transcript m = tr; it_said : b_text (streaming m) = said;
  it_addr : b_addr (streaming m) = None \/ b_addr (streaming m) = Some here; it_cancel : cancel m = c;
}.
Lemma Update_in_turn here n tr said c ev m : in_turn here n tr said c m -> Update here (StreamMsg n ev) m = applyStreamEvent here ev m.
Proof. intros [H1 H2 _ _ _ _]. cbn [Tui.Update]. apply decide_False. intros [?|?]; congruence. Qed.
Lemma quiet_step here n tr said c ev m : quiet_type ev -> in_turn here n tr said c m ->
  exists m', Update here (StreamMsg n ev) m = Some (m', NoCmd, []) /\ in_turn here n tr (said +:+ text_part ev) c m'.
Proof.
  intros Hq Hm. rewrite (Update_in_turn _ _ _ _ _ _ _ Hm). destruct Hm as [H1 H2 H3 H4 H5 H6]. unfold applyStreamEvent, text_part. destruct (decide (Type_ ev = "text")) as [Ht|Ht].
  - rewrite !decide_False by congruence. unfold WriteString.
    destruct H5 as [E|E]; rewrite E; [|rewrite decide_True by done]; cbn [mbind option_bind]; eexists; (split; [reflexivity|]); constructor; cbn; auto; by rewrite H4.
  - rewrite str_app_nil_r. unfold quiet_type in Hq. repeat case_decide; try congruence.
    all: try (eexists; split; [reflexivity|]; constructor; cbn; by auto).
    all: exfalso; rewrite !elem_of_cons in Hq; destruct Hq as [?|[?|[?|[?|Hq]]]]; [congruence..|by apply elem_of_nil in Hq].
Qed.
Lemma quiet_run here n tr c evs : forall said m, Forall quiet_type evs -> in_turn here n tr said c m ->
  exists m', run (shows here n evs) m = Some (m', [], []) /\ in_turn here n tr (said +:+ ApiAccess.flat (text_part <$> evs)) c m'.
Proof.
  induction evs as [|ev evs IH]; intros said m Hq Hm; [exists m; cbn; rewrite str_app_nil_r; auto|].
  apply Forall_cons in Hq as [Hev Hq]. destruct (quiet_step _ _ _ _ _ ev _ Hev Hm) as (m1 & E1 & H1).
  destruct (IH _ _ Hq H1) as (m2 & E2 & H2). exists m2. change (shows here n (ev :: evs)) with ((here, StreamMsg n ev) :: shows here n evs).
  cbn [run]. rewrite E1. cbn [mbind option_bind]. rewrite E2. cbn [mbind option_bind]. split; [done|].
  cbn [fmap list_fmap ApiAccess.flat foldr]. by rewrite str_app_assoc in H2.
Qed.
Lemma run_app l k : forall m, run (l ++ k) m = ('(m, c, cs) ← run l m; '(m, c', cs') ← run k m; Some (m, c ++ c', cs ++ cs')).
Proof.
  induction l as [|[here msg] l IH]; intros m; cbn [run app].
  - cbn [mbind option_bind]. by destruct (run k m) as [[[? ?] ?]|].
  - destruct (Update here msg m) as [[[m1 c1] cs1]|]; cbn [mbind option_bind]; [|done]. rewrite IH.
    destruct (run l m1) as [[[m2 c2] cs2]|]; cbn [mbind option_bind]; [|done]. destruct (run k m2) as [[[m3 c3] cs3]|]; cbn [mbind option_bind]; [|done].
    by rewrite !app_assoc.
Qed.
(** A turn that says things and ends leaves what it said in the transcript. *)
Lemma turn_shown here n tr c evs m : Forall quiet_type evs -> in_turn here n tr "" c m ->
  exists m', run (shows here n (evs ++ [done_event])) m = Some (m', [], option_list c) /\ state m' = stateIdle /\
    let said := ApiAccess.flat (text_part <$> evs) in
    transcript m' = tr ++ (if decide (TrimSpace said <> "") then [agentStyle "agent: " +:+ said] else []).
Proof.
  intros Hq Hm. destruct (quiet_run _ _ _ _ _ _ _ Hq Hm) as (m1 & E1 & H1). unfold shows. rewrite fmap_app, run_app. fold (shows here n evs).
  rewrite E1. cbn [mbind option_bind]. change (_ <$> [done_event]) with [(here, StreamMsg n done_event : Msg Other)]. cbn [run]. rewrite (Update_in_turn _ _ _ _ _ _ _ H1). destruct H1 as [H1 H2 H3 H4 H5 H6].
  unfold applyStreamEvent. cbn [Type_ done_event]. rewrite !(decide_False (P := "done" = _)) by done. rewrite decide_True by done. cbv zeta. rewrite H4.
  change ("" +:+ ?x) with x. set (said := ApiAccess.flat _). set (m2 := if decide _ then _ else m1).
  assert (cancel m2 = c /\ transcript m2 = tr ++ (if decide (TrimSpace said <> "") then [agentStyle "agent: " +:+ said] else [])) as [E2 E3].
  { unfold m2. case_decide; cbn; rewrite H3; auto using app_nil_r. }
  unfold finishTurn. rewrite E2. eexists. cbn [mbind option_bind]. split; [by rewrite !app_nil_r|]. split; [done|]. cbn. by rewrite E3.
Qed.
End Turns.

(** ** What the server streams, read back *)

Section Wire.
Context (decode : string -> Result StreamEvent).
Definition events_of (data : string) : list StreamEvent := match decode data with Ok ev => if decide (Type_ ev <> "") then [ev] else [] | Err _ => [] end.
(** A text that fits in a line. *)
Definition fits (data : string) : Prop := lacks "010" data /\ lacks "013" data /\ (String.length data + 7 < maxToken)%nat.
Lemma drop_cr_lacking s : lacks "013" s -> drop_cr s = s.
Proof.
  intros Hs. unfold drop_cr, TrimSuffix. destruct (has_suffix (String "013" "") s) eqn:E; [|done]. exfalso. unfold has_suffix in E.
  apply andb_true_iff in E as [Hle E]. apply bool_decide_eq_true in E.
  assert (Hd : forall n t, lacks "013" t -> lacks "013" (drop_bytes n t)).
  { intros n. induction n as [|n IH]; intros [|d t] Ht; try done. apply lacks_cons in Ht as [_ Ht]. by apply IH. }
  apply (Hd (String.length s - 1)%nat) in Hs. cbn [String.length] in E. rewrite E in Hs. by apply lacks_cons in Hs as [? _].
Qed.
Lemma lacks_app c s t : lacks c s -> lacks c t -> lacks c (s +:+ t).
Proof. induction s as [|d s IH]; intros Hs Ht; [done|]. apply lacks_cons in Hs as [Hd Hs]. rewrite str_app_cons. apply lacks_cons. auto. Qed.
Lemma scan_line p ps err : ps <> [] -> (String.length p < maxToken)%nat -> lacks "013" p ->
  scan_lines (p :: ps) err = (p :: (scan_lines ps err).1, (scan_lines ps err).2).
Proof.
  intros Hps Hp Hr. cbn [scan_lines]. rewrite decide_False by lia. destruct ps as [|q ps]; [done|]. rewrite drop_cr_lacking by done.
  by destruct (scan_lines (q :: ps) err).
Qed.
Lemma split_sse event data rest : lacks "010" event -> lacks "010" data ->
  split "010" (sse event data +:+ rest) = ("event: " +:+ event) :: ("data: " +:+ data) :: "" :: split "010" rest.
Proof.
  intros He Hd. unfold sse. change nl with (String "010" "").
  assert (E : ("event: " +:+ event +:+ String "010" "" +:+ "data: " +:+ data +:+ String "010" "" +:+ String "010" "") +:+ rest
            = ("event: " +:+ event) +:+ String "010" (("data: " +:+ data) +:+ String "010" ("" +:+ String "010" rest))) by (rewrite !str_app_assoc; reflexivity).
  rewrite E, split_at by (by apply lacks_app). rewrite split_at by (by apply lacks_app). by rewrite split_at.
Qed.
Lemma split_ne c s : split c s <> [].
Proof. destruct s as [|d s]; [done|]. cbn [split]. case_decide; [done|]. by destruct (split c s). Qed.
Lemma scan_sse event data rest err : fits event -> fits data ->
  Scan (sse event data +:+ rest, err) = (("event: " +:+ event) :: ("data: " +:+ data) :: "" :: (Scan (rest, err)).1, (Scan (rest, err)).2).
Proof.
  intros (E1 & E2 & E3) (D1 & D2 & D3). unfold Scan. cbn [fst snd]. rewrite split_sse by done. assert (Hn := split_ne "010" rest).
  rewrite scan_line; [|done|rewrite str_length_app; cbn [String.length]; lia|by apply lacks_app]. cbn [fst snd].
  rewrite scan_line; [|done|rewrite str_length_app; cbn [String.length]; lia|by apply lacks_app]. cbn [fst snd].
  rewrite scan_line; [done|done|cbn [String.length]; lia|done].
Qed.
(** A message's events, then those of what follows; the end of a stream. *)
Lemma parse_message data rest err : fits data ->
  parseSSE decode (sse "message" data +:+ rest, err) = (events_of data ++ (parseSSE decode (rest, err)).1, (parseSSE decode (rest, err)).2).
Proof.
  intros Hd. unfold parseSSE. rewrite scan_sse; [|by repeat split; unfold maxToken; cbn [String.length]; lia|done]. destruct (Scan (rest, err)) as [ls e]. cbn [fst snd].
  cbn [parse_lines]. rewrite (decide_False (P := "event: message" = _ \/ _)) by (by intros [?|?]).
  change (has_prefix "data: " ("event: " +:+ "message")) with false. cbn iota.
  assert (has_prefix "data: " ("data: " +:+ data) = true) as -> by done. change (drop_bytes 6 ("data: " +:+ data)) with data. cbn iota.
  rewrite (decide_False (P := "" = _ \/ _)) by (by intros [?|?]). change (has_prefix "data: " "") with false. cbn iota.
  unfold events_of. by destruct (parse_lines decode ls e).
Qed.
Lemma parse_done rest err : parseSSE decode (sse "done" "{}" +:+ rest, err) = ([done_event], None).
Proof.
  unfold parseSSE. rewrite scan_sse; [|by repeat split; unfold maxToken; cbn [String.length]; lia..]. cbn [parse_lines].
  change (has_prefix "data: " ("event: " +:+ "done")) with false. cbn iota. by rewrite decide_True by (by left).
Qed.
Lemma parse_messages datas rest err : Forall fits datas ->
  parseSSE decode (ApiAccess.flat (sse "message" <$> datas) +:+ rest, err) =
    ((datas ≫= events_of) ++ (parseSSE decode (rest, err)).1, (parseSSE decode (rest, err)).2).
Proof.
  induction datas as [|d datas IH]; intros Hf; [apply surjective_pairing|]. apply Forall_cons in Hf as [Hd Hf].
  change (ApiAccess.flat (sse "message" <$> d :: datas)) with (sse "message" d +:+ ApiAccess.flat (sse "message" <$> datas)).
  rewrite str_app_assoc. etransitivity; [apply parse_message, Hd|]. rewrite IH by done. cbn [fst snd mbind list_bind]. by rewrite app_assoc.
Qed.
(** The text of an error is not an event: what is read is that the stream is done. *)
Lemma error_unseen e : fits e -> (forall ev, decode e = Ok ev -> Type_ ev = "") -> parseSSE decode (sse "error" e, None) = ([done_event], None).
Proof.
  intros He Hd. unfold parseSSE. rewrite <-(str_app_nil_r (sse "error" e)), scan_sse; [|by repeat split; unfold maxToken; cbn [String.length]; lia|done].
  change (Scan ("", None)) with (@nil string, @None error). cbn [fst snd parse_lines]. change (has_prefix "data: " ("event: " +:+ "error")) with false. cbn iota.
  rewrite (decide_False (P := "event: error" = _ \/ _)) by (by intros [?|?]). assert (has_prefix "data: " ("data: " +:+ e) = true) as -> by done.
  change (drop_bytes 6 ("data: " +:+ e)) with e. change (has_prefix "data: " "") with false. cbn iota. rewrite (decide_False (P := "" = _ \/ _)) by (by intros [?|?]).
  destruct (decode e) as [ev|]; [|done]. by rewrite decide_False by (rewrite (Hd ev); auto).
Qed.
End Wire.

(** ** An answer, from the server's stream to the screen *)

Section Answer.
Context `{Viewport} `{Styles} (ToLower : string -> string).
(** JSON at both ends: what it writes is one line, and the texts it carries unchanged, the [valid] ones, come back. *)
Context (marshal : value -> string) (decode : string -> Result StreamEvent) (valid : string -> Prop).
Definition thinking_data : string := "{" +:+ dq "type" +:+ ":" +:+ dq "thinking" +:+ "," +:+ dq "content" +:+ ":" +:+ dq "" +:+ "}".
Definition text_data (chunk : string) : string := marshal (VFields [("type", VString "text"); ("content", VString chunk)]).
Definition tools_data (tools : list string) : string := marshal (VFields [("type", VString "tools_used"); ("tools_used", VStrings tools)]).
Definition progress_data (e : AgentSession.ActivityEvent) : string :=
  marshal (VFields [("type", VString "progress"); ("event", VString (AgentSession.ae_Type e)); ("detail", VString (AgentSession.ae_Detail e))]).
Definition typed_as (t : string) (r : Result StreamEvent) : Prop := exists ev, r = Ok ev /\ Type_ ev = t.
Record json_carries : Prop := {
  jc_line : forall v, lacks "010" (marshal v) /\ lacks "013" (marshal v);
  jc_text : forall chunk, valid chunk -> decode (text_data chunk) = Ok {| Type_ := "text"; Content := chunk; Event := ""; Detail := "" |};
  jc_progress : forall e, typed_as "progress" (decode (progress_data e));
  jc_tools : forall tools, typed_as "tools_used" (decode (tools_data tools));
  jc_thinking : typed_as "thinking" (decode thinking_data);
}.
Definition reply_datas (resp : AgentSession.ChatResponse) : list string :=
  (text_data <$> splitIntoStreamChunks (AgentSession.rs_Content resp)) ++
  (if decide (AgentSession.rs_ToolsUsed resp = []) then [] else [tools_data (AgentSession.rs_ToolsUsed resp)]).
Lemma reply_events_datas resp : reply_events marshal resp = (sse "message" <$> reply_datas resp) ++ [sse "done" "{}"].
Proof. unfold reply_events, reply_datas. rewrite fmap_app, <-app_assoc, <-list_fmap_compose. f_equal. by case_decide. Qed.
(** The body [handleAgentChatStream] writes. *)
Definition stream_body (progress : list AgentSession.ActivityEvent) (resp : AgentSession.ChatResponse) : string :=
  Join (sse "message" thinking_data :: (ApiAgents.progress_event marshal <$> progress) ++ reply_events marshal resp) "".
Lemma Join_flat l : Join l "" = ApiAccess.flat l.
Proof. induction l as [|x [|y l] IH]; [done|cbn; by rewrite str_app_nil_r|]. change (x +:+ "" +:+ Join (y :: l) "" = x +:+ ApiAccess.flat (y :: l)). by rewrite IH. Qed.
Lemma typed_events t d : t <> "" -> typed_as t (decode d) -> exists ev, events_of decode d = [ev] /\ Type_ ev = t.
Proof. intros Ht (ev & E & Et). exists ev. unfold events_of. rewrite E, decide_True by congruence. done. Qed.
Lemma silent_events datas t : t ∈ ["thinking"; "progress"; "tools_used"] -> Forall (fun d => typed_as t (decode d)) datas ->
  Forall quiet_type (datas ≫= events_of decode) /\ ApiAccess.flat (text_part <$> (datas ≫= events_of decode)) = "".
Proof.
  intros Ht Hd. assert (t <> "" /\ t <> "text") as [Hne Hnt] by (rewrite !elem_of_cons, elem_of_nil in Ht; naive_solver).
  induction Hd as [|d datas Hx _ [IH1 IH2]]; [done|]. destruct (typed_events _ _ Hne Hx) as (ev & E & Et).
  rewrite bind_cons, fmap_app, ApiAccess.flat_app, IH2, E. split.
  - constructor; [|done]. unfold quiet_type. rewrite Et. set_solver.
  - cbn [fmap list_fmap ApiAccess.flat foldr]. unfold text_part. by rewrite decide_False by congruence.
Qed.
Lemma text_events chunks : json_carries -> Forall valid chunks ->
  Forall quiet_type ((text_data <$> chunks) ≫= events_of decode) /\
  ApiAccess.flat (text_part <$> ((text_data <$> chunks) ≫= events_of decode)) = ApiAccess.flat chunks.
Proof.
  intros J Hv. induction Hv as [|c chunks Hc _ [IH1 IH2]]; [done|]. rewrite fmap_cons, bind_cons, fmap_app, ApiAccess.flat_app, IH2.
  unfold events_of at 1 3. rewrite (jc_text J c Hc). cbn [Type_]. rewrite decide_True by done. split.
  - constructor; [|done]. unfold quiet_type. cbn. set_solver.
  - cbn [fmap list_fmap ApiAccess.flat foldr]. unfold text_part. cbn [Type_ Content]. rewrite decide_True by done. by rewrite str_app_nil_r.
Qed.
Lemma stream_events progress resp : json_carries -> Forall valid (splitIntoStreamChunks (AgentSession.rs_Content resp)) ->
  Forall fits ((progress_data <$> progress) ++ reply_datas resp) ->
  exists evs, parseSSE decode (stream_body progress resp, None) = (evs ++ [done_event], None) /\ Forall quiet_type evs /\
    ApiAccess.flat (text_part <$> evs) = ApiAccess.flat (splitIntoStreamChunks (AgentSession.rs_Content resp)).
Proof.
  intros J Hv Hf. set (datas := thinking_data :: (progress_data <$> progress) ++ reply_datas resp).
  assert (stream_body progress resp = ApiAccess.flat (sse "message" <$> datas) +:+ sse "done" "{}" +:+ "") as ->.
  { unfold stream_body, datas. rewrite Join_flat, reply_events_datas, fmap_cons, fmap_app, <-list_fmap_compose, str_app_nil_r, app_assoc, app_comm_cons, ApiAccess.flat_app.
    by f_equal. }
  exists (datas ≫= events_of decode). split.
  { rewrite parse_messages, parse_done; [done|]. constructor; [|done]. split; [done|split; [done|change (String.length thinking_data) with 32%nat; unfold maxToken; lia]]. }
  destruct (silent_events [thinking_data] "thinking") as [T1 T2]; [set_solver|by repeat constructor; apply J|].
  destruct (silent_events (progress_data <$> progress) "progress") as [P1 P2]; [set_solver|apply Forall_fmap, Forall_forall; intros; apply J|].
  destruct (text_events _ J Hv) as [X1 X2].
  destruct (silent_events (if decide (AgentSession.rs_ToolsUsed resp = []) then [] else [tools_data (AgentSession.rs_ToolsUsed resp)]) "tools_used") as [U1 U2];
    [set_solver|case_decide; repeat constructor; apply J|].
  unfold datas, reply_datas. rewrite bind_cons, !bind_app, !fmap_app, !ApiAccess.flat_app, P2, X2, U2. rewrite bind_cons, app_nil_r in T1, T2. split; [by rewrite !Forall_app|].
  rewrite T2. apply str_app_nil_r.
Qed.
(** An answer the server streams is shown: from the moment a message is submitted and the turn starts, handling what
    is read from the body [handleAgentChatStream] writes - the note that it thinks, the activity it saw, the answer's chunks, its
    tools and its end - leaves the model idle, the turn's context released, and one more line in the transcript, the whole
    answer, when it is not blank. *)
Lemma answer_shown here progress resp m m1 n text :
  json_carries -> Forall valid (splitIntoStreamChunks (AgentSession.rs_Content resp)) -> Forall fits ((progress_data <$> progress) ++ reply_datas resp) ->
  state m = stateIdle -> submit m = (m1, RunStream n text) ->
  exists m2, run ToLower (shows here n (parseSSE decode (stream_body progress resp, None)).1) m1 = Some (m2, [], [n]) /\ state m2 = stateIdle /\
    let answer := ApiAccess.flat (splitIntoStreamChunks (AgentSession.rs_Content resp)) in
    transcript m2 = transcript m ++ [youStyle "you: " +:+ text] ++ (if decide (TrimSpace answer <> "") then [agentStyle "agent: " +:+ answer] else []).
Proof.
  intros J Hv Hf Hi Hs. destruct (stream_events _ _ J Hv Hf) as (evs & -> & Hq & Ht). cbn [fst].
  assert (Hm : in_turn here n (transcript m ++ [youStyle "you: " +:+ text]) "" (Some n) m1).
  { revert Hs. unfold submit. cbv zeta. rewrite decide_False by congruence. case_decide; [done|].
    destruct (if has_prefix _ _ then _ else _) as [[m' c]|] eqn:El.
    - destruct (has_prefix _ _); [|done]. intros [= -> ->]. exfalso. revert El. unfold handleLocalCommand. by repeat case_decide.
    - cbn [wired with_turn clear_input with_input]. destruct (wired m); [|done]. intros [= <- <- <-]. constructor; cbn; auto. }
  destruct (turn_shown ToLower _ _ _ _ _ _ Hq Hm) as (m2 & E & Hi2 & Htr). exists m2. cbv zeta in *. rewrite Ht in Htr. rewrite E, Htr, <-app_assoc. done.
Qed.
End Answer.

(** ** Concrete turns *)

#[local] Instance demo_viewport : Viewport :=
  {| V := string; VCmd := unit; Other := Empty_set; vp_New _ _ := ""; vp_Size _ _ v := v; SetContent s _ := s; GotoBottom v := v; vp_Update _ v := (v, tt); vp_View v := v |}.
#[local] Instance demo_styles : Styles :=
  {| youStyle s := s; agentStyle s := s; errStyle s := s; hintStyle s := s; statusStyle s := s; suggestStyle s := s; inputBoxStyle _ s := s; cursorStyle s := s |}.
Definition demo_lower (s : string) : string := s.
Definition demo_model : Model := NewModel "acme" "bot" true false.
Definition key_h : KeyMsg := {| k_String := "h"; k_Runes := [104%N] |}.
Definition key_enter : KeyMsg := {| k_String := "enter"; k_Runes := [] |}.
Definition demo_asked : list (Z * Msg Other) := [(0, AKey key_h); (0, AKey key_enter)].
Definition demo_streaming : Model := match run demo_lower demo_asked demo_model with Some (m, _, _) => m | None => demo_model end.
Lemma redirect_silent_witness :
  run demo_lower demo_asked demo_model = Some (demo_streaming, [RunStream 1 "h"], []) /\ state demo_streaming = stateStreaming /\
  exists m, Update demo_lower 0 (AKey ctrl_c) demo_streaming = Some (m, NoCmd, [seq demo_streaming]) /\ state m = stateIdle /\
    forall after, run demo_lower after m = run demo_lower (filter (fun hm => from_turn (seq demo_streaming) hm.2 = false) after) m.
Proof.
  assert (Hr : run demo_lower demo_asked demo_model = Some (demo_streaming, [RunStream 1 "h"], [])) by (vm_compute; reflexivity).
  assert (Hs : state demo_streaming = stateStreaming) by (vm_compute; reflexivity).
  split; [exact Hr|]. split; [exact Hs|]. exact (redirect_silent demo_lower _ _ _ _ _ _ _ _ 0 Hr Hs).
Defined.
(** JSON of the kinds of message there are, which carries texts of one line. *)
Definition one_line (s : string) : string := if decide (lacks "010" s /\ lacks "013" s) then s else "".
Definition demo_marshal (v : value) : string :=
  one_line (match v with
            | VFields [(_, VString t); (_, VString c)] => "T" +:+ c
            | VFields [(_, VString _); (_, VStrings _)] => "U"
            | VFields [_; _; _] => "P"
            | _ => ""
            end).
Definition demo_event (t c : string) : StreamEvent := {| Type_ := t; Content := c; Event := ""; Detail := "" |}.
Definition demo_decode (s : string) : Result StreamEvent :=
  match s with
  | String "T" c => Ok (demo_event "text" c)
  | String "U" _ => Ok (demo_event "tools_used" "")
  | String "P" _ => Ok (demo_event "progress" "")
  | String "{" _ => Ok (demo_event "thinking" "")
  | _ => Err "invalid character"
  end.
Definition demo_valid (s : string) : Prop := lacks "010" s /\ lacks "013" s.
Lemma demo_carries : json_carries demo_marshal demo_decode demo_valid.
Proof.
  constructor.
  - intros v. unfold demo_marshal, one_line. case_decide; [done|split; done].
  - intros c [H1 H2]. unfold text_data, demo_marshal, one_line. rewrite decide_True; [done|]. split; apply lacks_cons; split; done.
  - intros e. by eexists.
  - intros tools. by eexists.
  - by eexists.
Qed.
Definition demo_reply : AgentSession.ChatResponse := {| AgentSession.rs_Agent := "bot"; AgentSession.rs_Content := "Hello."; AgentSession.rs_ToolsUsed := [] |}.
Definition demo_ready : Model := with_input (InsertString "hi" newTextInput) [] demo_model.
Lemma answer_shown_witness :
  exists m2, run demo_lower (shows 0 1 (parseSSE demo_decode (stream_body demo_marshal [] demo_reply, None)).1) (submit demo_ready).1 = Some (m2, [], [1]) /\
    state m2 = stateIdle /\
    let answer := ApiAccess.flat (splitIntoStreamChunks (AgentSession.rs_Content demo_reply)) in
    transcript m2 = transcript demo_ready ++ [youStyle "you: " +:+ "hi"] ++ (if decide (TrimSpace answer <> "") then [agentStyle "agent: " +:+ answer] else []).
Proof.
  apply (answer_shown demo_lower demo_marshal demo_decode demo_valid 0 [] demo_reply demo_ready (submit demo_ready).1 1 "hi" demo_carries).
  - repeat constructor.
  - change (Forall fits ["THello."]). constructor; [|done]. split; [done|split; [done|unfold maxToken; cbn [String.length]; lia]].
  - reflexivity.
  - vm_compute. reflexivity.
Defined.
(** The second chunk of an answer panics when the model's copy does not lie where the first was written at. *)
Example chunks_panic :
  run demo_lower [(0, StreamMsg 1 (demo_event "text" "Hello. ")); (8, StreamMsg 1 (demo_event "text" "Bye."))] demo_streaming = None.
Proof. vm_compute. reflexivity. Qed.
(** Runes that come together are one key, and a word that is a key's name is that key: nothing is typed. *)
Example word_taken_as_key :
  option_map (fun r => Value (input r.1.1)) (run demo_lower [(0, AKey {| k_String := "end"; k_Runes := [101; 110; 100]%N |})] demo_model) = Some "".
Proof. vm_compute. reflexivity. Qed.
(** The reason a chat was refused does not reach the screen. *)
Example refusal_unseen : parseSSE demo_decode (sse "error" "agent bot not found", None) = ([done_event], None).
Proof. apply error_unseen; [|done]. split; [done|split; [done|unfold maxToken; cbn [String.length]; lia]]. Qed.
