(* ===== verification/Batch.v ===== *)
(** * Batch: many runs of an agent over the job queue

    [src/cmd/cyntr/trajectory]: each sample of a batch is a job of [Jobs]; passes of [RunOnce] lease and run them until
    none of the tenant's is left, and the trajectories are collected by index.  What a run answers, clocks, identifiers and
    the JSON codec are arguments; the handlers of one pass end in any order. *)
From S2P Require Import Prelude GoStr GoText.
From S2P Require Jobs Trajectory Regexp.
Import Jobs (Job, Queue, Config, Kind, Tenant, Payload, State, ID, table, lease, finish, handler_result, HNil, HError, HPanic, Enqueue, Register, CountByState).
Import Trajectory (t_Tenant, t_User, t_Agent, t_Session, t_Model, t_ID, t_Output, t_Outcome, t_ToolCalls, t_Turns, t_Subagent, Schema, Suite, RunID, Prompt, Steps).
Local Open Scope go_scope.
Local Open Scope Z_scope.

(* [cmd/cyntr/trajectory/runner.go:JobKindTrajectoryRun@25-25] *)
Definition JobKindTrajectoryRun : string := "trajectory.run".
(* [cmd/cyntr/trajectory/runner.go:Sample] *)
Record Sample := { sm_Tenant : string; sm_Agent : string; sm_User : string; sm_Suite : string; sm_RunID : string; sm_Index : Z; sm_Prompt : string }.
Definition with_index (i : Z) (s : Sample) : Sample :=
  {| sm_Tenant := sm_Tenant s; sm_Agent := sm_Agent s; sm_User := sm_User s; sm_Suite := sm_Suite s; sm_RunID := sm_RunID s; sm_Index := i; sm_Prompt := sm_Prompt s |}.
Definition with_run (run : string) (s : Sample) : Sample :=
  {| sm_Tenant := sm_Tenant s; sm_Agent := sm_Agent s; sm_User := sm_User s; sm_Suite := sm_Suite s; sm_RunID := run; sm_Index := sm_Index s; sm_Prompt := sm_Prompt s |}.
(** The linkage is the sample's, whatever the run says. *)
(* [cmd/cyntr/trajectory/runner.go:Runner.handleJob@149-157] *)
Definition label (s : Sample) (t : Trajectory.Trajectory) : Trajectory.Trajectory :=
  {| t_ID := t_ID t; Schema := Schema t; t_Tenant := sm_Tenant s; t_User := if decide (t_User t = "") then sm_User s else t_User t; t_Agent := sm_Agent s;
     t_Session := t_Session t; t_Model := t_Model t; Suite := sm_Suite s; RunID := sm_RunID s; Prompt := Prompt t; Steps := Steps t; t_Output := t_Output t;
     t_Outcome := t_Outcome t; t_ToolCalls := t_ToolCalls t; t_Turns := t_Turns t; t_Subagent := t_Subagent t; Trajectory.CreatedAt := Trajectory.CreatedAt t |}.
(** The runner, with its queue. *)
(* [cmd/cyntr/trajectory/runner.go:Runner] *)
Record Runner := { queue : Queue; store : option (list Trajectory.Row); results : gmap Z Trajectory.Trajectory }.
(* [cmd/cyntr/trajectory/runner.go:NewRunner] *)
Definition NewRunner (q : Queue) (s : option (list Trajectory.Row)) : Runner := {| queue := q; store := s; results := ∅ |}.
Definition with_queue (q : Queue) (r : Runner) : Runner := {| queue := q; store := store r; results := results r |}.

(** What one pass meets: its clock, whether a claim and the record of an end succeed, how a run ends - [None] is a panic -, the
    identifier, time and error of an insertion, the order in which its handlers end, the errors of counting, and whether the
    deadline is over after it. *)
Record Pass := {
  p_now : time; p_query : bool; p_claim : string -> bool; p_end : string -> bool * time; p_run : Sample -> option (Result Trajectory.Trajectory);
  p_insert : Sample -> string * time * option error; p_order : list Job -> list Job; p_count : option error; p_running : option error; p_late : bool;
}.

Section Batch.
Context (cfg : Config) `{!SliceSorter Jobs.run_after_le} (custom : list Regexp.regexp).
Context (marshal : Sample -> string) (unmarshal : string -> Result Sample).

(* [cmd/cyntr/trajectory/runner.go:Runner.handleJob] *)
Definition handleJob (p : Pass) (job : Job) (r : Runner) : Runner * handler_result :=
  match unmarshal (Payload job) with
  | Err e => (r, HError ("trajectory run: bad payload: " +:+ e))
  | Ok s =>
      match p_run p s with
      | None => (r, HPanic "run")
      | Some (Err e) => (r, HError e)
      | Some (Ok t) =>
          let traj := label s t in
          let collect st := {| queue := queue r; store := st; results := <[sm_Index s := traj]> (results r) |} in
          match store r with
          | None => (collect None, HNil)
          | Some db =>
              let '(id, now, fault) := p_insert p s in
              match Trajectory.Insert custom id now fault traj db with
              | (db, Some e) => ({| queue := queue r; store := Some db; results := results r |}, HError ("trajectory run: persist: " +:+ e))
              | (db, None) => (collect (Some db), HNil)
              end
          end
      end
  end.
(* [kernel/jobs/queue.go:Queue.RunOnce@300-306] *)
Definition run_job (p : Pass) (r : Runner) (job : Job) : Runner :=
  let '(r, res) := handleJob p job r in
  let '(ok, now) := p_end p (ID job) in with_queue (finish cfg ok now job res (queue r)) r.
(* [kernel/jobs/queue.go:Queue.RunOnce] *)
Definition RunOnce (p : Pass) (r : Runner) : Runner :=
  let '(claimed, q) := lease cfg (p_query p) (p_claim p) (p_now p) (queue r) in
  foldl (run_job p) (with_queue q r) (p_order p claimed).
(** A job per index, with a fresh identifier and the time. *)
(* [cmd/cyntr/trajectory/runner.go:Runner.Run@92-105] *)
Fixpoint enqueue_all (base : Sample) (draws : list (string * time)) (i : Z) (q : Queue) : Result Queue :=
  match draws with
  | [] => Ok q
  | (fresh, now) :: draws =>
      match Enqueue fresh now (sm_Tenant base) JobKindTrajectoryRun (marshal (with_index i base)) 0 q with
      | Err e => Err ("trajectory run: enqueue: " +:+ e)
      | Ok (_, q) => enqueue_all base draws (i + 1) q
      end
  end.
(** Passes until no job of the tenant is left; [None] when there is work after the last of the given passes. *)
(* [cmd/cyntr/trajectory/runner.go:Runner.Run@107-122] *)
Fixpoint drive (tenant : string) (passes : list Pass) (r : Runner) : Runner * option (option error) :=
  match passes with
  | [] => (r, None)
  | p :: passes =>
      let r := RunOnce p r in
      match p_count p with
      | Some e => (r, Some (Some ("trajectory run: count: " +:+ e)))
      | None =>
          let pending := CountByState tenant Jobs.StatePending (queue r) in
          let running := match p_running p with Some _ => 0 | None => CountByState tenant Jobs.StateRunning (queue r) end in
          if decide (pending = 0 /\ running = 0) then (r, Some None)
          else if p_late p then (r, Some (Some ("trajectory run: timed out with " +:+ itoa pending +:+ " pending")))
          else drive tenant passes r
      end
  end.
(** The indices in order. *)
Definition indices (n : Z) : list Z := Z.of_nat <$> seq 0 (Z.to_nat n).
(* [cmd/cyntr/trajectory/runner.go:Runner.Run@125-142] *)
Definition collect (n : Z) (m : gmap Z Trajectory.Trajectory) : list Trajectory.Trajectory * option error :=
  let out := omap (fun i => m !! i) (indices n) in
  let missing := n - Z.of_nat (length out) in
  (out, if decide (0 < missing) then Some ("trajectory run: " +:+ itoa missing +:+ "/" +:+ itoa n +:+ " samples failed after retries") else None).
(** [stamp] is the clock for a batch without a name; [draws] has an element per sample. *)
(* [cmd/cyntr/trajectory/runner.go:Runner.Run] *)
Definition Run (stamp : string) (base : Sample) (n : Z) (draws : list (string * time)) (passes : list Pass) (r : Runner)
    : Runner * option (list Trajectory.Trajectory * option error) :=
  if decide (n <= 0) then (r, Some ([], Some "trajectory run: n must be > 0"))
  else if decide (sm_Tenant base = "" \/ sm_Agent base = "") then (r, Some ([], Some "trajectory run: tenant and agent are required"))
  else
    let base := if decide (sm_RunID base = "") then with_run ("trajrun_" +:+ stamp) base else base in
    let r := {| queue := Register JobKindTrajectoryRun (queue r); store := store r; results := ∅ |} in
    match enqueue_all base draws 0 (queue r) with
    | Err e => (r, Some ([], Some e))
    | Ok q =>
        match drive (sm_Tenant base) passes (with_queue q r) with
        | (r, None) => (r, None)
        | (r, Some (Some e)) => (r, Some ([], Some e))
        | (r, Some None) => (r, Some (collect n (results r)))
        end
    end.
(** ** What is collected *)

(** A row's identity, which no operation on jobs changes. *)
Definition ident (j : Job) : string * string * string * string := (ID j, Tenant j, Kind j, Payload j).
Definition same_rows (q q' : Queue) : Prop := forall id, ident <$> table q' !! id = ident <$> table q !! id.
Lemma same_claim ok now id q q' b : Jobs.claim ok now id q = (q', b) -> same_rows q q' /\ Jobs.handlers q' = Jobs.handlers q.
Proof.
  unfold Jobs.claim. destruct (table q !! id) as [j|] eqn:E; [|by intros [= <- <-]]. case_decide; intros [= <- <-]; [|done]. split; [|done].
  intros id'. cbn. destruct (decide (id' = id)) as [->|Hne]; [by rewrite lookup_insert_eq, E|by rewrite lookup_insert_ne].
Qed.
Lemma same_trans q1 q2 q3 : same_rows q1 q2 -> same_rows q2 q3 -> same_rows q1 q3.
Proof. intros H1 H2 id. by rewrite H2. Qed.
Lemma release_table t q : table (Jobs.release t q) = table q /\ Jobs.handlers (Jobs.release t q) = Jobs.handlers q.
Proof. unfold Jobs.release. by repeat case_decide. Qed.
Lemma same_lease_loop ok now kinds cands : forall slots q,
  let '(js, q') := Jobs.lease_loop cfg ok now kinds cands slots q in
  same_rows q q' /\ Jobs.handlers q' = Jobs.handlers q /\ Forall (fun j => Kind j ∈ kinds /\ exists c, c ∈ cands /\ ident j = ident c) js.
Proof.
  induction cands as [|c cands IH]; intros slots q; cbn [Jobs.lease_loop]; [done|].
  assert (Hmore : forall js, Forall (fun j => Kind j ∈ kinds /\ exists c, c ∈ cands /\ ident j = ident c) js ->
                             Forall (fun j => Kind j ∈ kinds /\ exists c', c' ∈ c :: cands /\ ident j = ident c') js).
  { intros js Hjs. eapply Forall_impl; [exact Hjs|]. intros j (Hk & d & Hd & E). split; [done|]. exists d. split; [by right|done]. }
  case_decide; [done|]. case_decide as Hk.
  { specialize (IH slots q). destruct (Jobs.lease_loop _ _ _ _ _ _ _). naive_solver. }
  destruct (Jobs.reserve cfg (Tenant c) q) as [q1|] eqn:Er; [|specialize (IH slots q); destruct (Jobs.lease_loop _ _ _ _ _ _ _); naive_solver].
  assert (table q1 = table q /\ Jobs.handlers q1 = Jobs.handlers q) as [Et Eh] by (revert Er; unfold Jobs.reserve; case_decide; [done|]; by intros [= <-]).
  destruct (Jobs.claim _ _ _ q1) as [q2 b] eqn:Ec. apply same_claim in Ec as [Hs Hh]. assert (same_rows q q2) as Hs2 by (intros id; by rewrite Hs, Et). destruct b.
  - specialize (IH (slots - 1)%Z q2). destruct (Jobs.lease_loop _ _ _ _ _ _ _) as [js q3]. destruct IH as (H1 & H2 & H3).
    split; [by eapply same_trans|]. split; [congruence|]. constructor; [|auto]. split; [done|]. exists c. split; [by left|done].
  - specialize (IH slots (Jobs.release (Tenant c) q2)). destruct (release_table (Tenant c) q2) as [Et2 Eh2]. destruct (Jobs.lease_loop _ _ _ _ _ _ _) as [js q3].
    destruct IH as (H1 & H2 & H3). split; [intros id; by rewrite H1, Et2, Hs2|]. split; [congruence|auto].
Qed.
(** What a pass leases are rows of kinds with a handler. *)
Lemma same_lease qok ok now q js q' : lease cfg qok ok now q = (js, q') ->
  same_rows q q' /\ Jobs.handlers q' = Jobs.handlers q /\ Forall (fun j => Kind j ∈ Jobs.handlers q /\ exists id c, table q !! id = Some c /\ ident j = ident c) js.
Proof.
  unfold lease. unfold Jobs.lease_begin. case_decide; [by intros [= <- <-]|]. cbv zeta. case_decide; [by intros [= <- <-]|]. intros E.
  pose proof (same_lease_loop ok now (Jobs.handlers q) (Jobs.lease_query cfg qok now q) (Jobs.globalCap cfg - Jobs.used q)%Z q) as H'. rewrite E in H'.
  destruct H' as (H1 & H2 & H3). split; [done|]. split; [done|]. eapply Forall_impl; [exact H3|]. intros j (Hk & c & Hc & Ei). split; [done|].
  unfold Jobs.lease_query in Hc. destruct qok; [|by apply elem_of_nil in Hc]. apply elem_of_take in Hc as (i & Hc%list_elem_of_lookup_2 & _). rewrite sortSlice_perm in Hc.
  apply list_elem_of_filter in Hc as [_ Hc]. apply list_elem_of_fmap in Hc as ([id c'] & -> & Hc). apply elem_of_map_to_list in Hc. eauto.
Qed.
Lemma same_finish ok now job res q : same_rows q (finish cfg ok now job res q) /\ Jobs.handlers (finish cfg ok now job res q) = Jobs.handlers q.
Proof.
  unfold finish. destruct (release_table (Tenant job) q) as [Et Eh]. destruct ok; [|split; [intros id; by rewrite Et|done]]. split; [|done].
  intros id. cbn. rewrite Et. destruct (decide (id = ID job)) as [->|Hne]; [|by rewrite lookup_alter_ne].
  rewrite lookup_alter_eq. destruct (table q !! ID job) as [row|]; [|done]. cbn. f_equal. unfold ident, Jobs.outcome. destruct (Jobs.safeInvoke _ _ _); [case_decide|]; done.
Qed.

Section One.
(** A batch: its sample with its name, its size, the passes that drive it. *)
Context (base : Sample) (n : Z) (all : list Pass).
Definition ours (tenant payload : string) : Prop := tenant = sm_Tenant base /\ exists i, 0 <= i < n /\ payload = marshal (with_index i base).
Definition rows_ours (q : Queue) : Prop := forall id j, table q !! id = Some j -> Kind j = JobKindTrajectoryRun -> ours (Tenant j) (Payload j).
Definition came_from (i : Z) (t : Trajectory.Trajectory) : Prop :=
  0 <= i < n /\ exists p t0, p ∈ all /\ p_run p (with_index i base) = Some (Ok t0) /\ t = label (with_index i base) t0.
Record batch_ok (r : Runner) : Prop := {
  bo_handlers : Jobs.handlers (queue r) = {[JobKindTrajectoryRun]};
  bo_rows : rows_ours (queue r);
  bo_results : map_Forall came_from (results r);
}.
Context (Hjson : forall i, unmarshal (marshal (with_index i base)) = Ok (with_index i base)).

Lemma rows_ours_same q q' : same_rows q q' -> rows_ours q -> rows_ours q'.
Proof.
  intros Hs Hr id j Hj Hk. specialize (Hs id). rewrite Hj in Hs. destruct (table q !! id) as [j'|] eqn:E; [|done]. cbn in Hs. injection Hs as E1 E2 E3 E4.
  rewrite E2, E4. apply (Hr id); [done|congruence].
Qed.
Lemma run_job_ok p r job : p ∈ all -> Kind job = JobKindTrajectoryRun -> ours (Tenant job) (Payload job) -> batch_ok r -> batch_ok (run_job p r job).
Proof.
  intros Hp Hk [_ (i & Hi & Epl)] [H1 H2 H3]. unfold run_job, handleJob. rewrite Epl, Hjson.
  assert (Hadd : forall t0, p_run p (with_index i base) = Some (Ok t0) -> map_Forall came_from (<[i := label (with_index i base) t0]> (results r))).
  { intros t0 Ht0. apply map_Forall_insert_2; [|done]. split; [done|]. eauto. }
  assert (Hfin : forall ok now res s m, map_Forall came_from m -> batch_ok {| queue := finish cfg ok now job res (queue r); store := s; results := m |}).
  { intros ok now res s m Hm. destruct (same_finish ok now job res (queue r)) as [Hs Hh]. constructor; cbn; [congruence|by eapply rows_ours_same|done]. }
  destruct (p_end p (ID job)) as [ok now]. unfold with_queue. destruct (p_run p (with_index i base)) as [[t0|e]|] eqn:Er; [|by apply Hfin..].
  destruct (store r) as [db|]; [|by apply Hfin, Hadd].
  destruct (p_insert p (with_index i base)) as [[id ins_now] fault]. destruct (Trajectory.Insert _ _ _ _ _ _) as [db' [e|]]; [by apply Hfin|by apply Hfin, Hadd].
Qed.
Lemma run_jobs_ok p js : p ∈ all -> Forall (fun j => Kind j = JobKindTrajectoryRun /\ ours (Tenant j) (Payload j)) js ->
  forall r, batch_ok r -> batch_ok (foldl (run_job p) r js).
Proof.
  intros Hp Hjs. induction Hjs as [|j js [Hk Hj] _ IH]; intros r Hr; [done|]. cbn [foldl]. apply IH. by apply run_job_ok.
Qed.
Lemma RunOnce_ok p r : p ∈ all -> (forall l, p_order p l ≡ₚ l) -> batch_ok r -> batch_ok (RunOnce p r).
Proof.
  intros Hp Ho Hr. unfold RunOnce. destruct (lease _ _ _ _ _) as [js q] eqn:E. apply same_lease in E as (Hs & Hh & Hj). destruct Hr as [H1 H2 H3].
  apply run_jobs_ok; [done| |constructor; cbn; [congruence|by eapply rows_ours_same|done]].
  rewrite Ho. eapply Forall_impl; [exact Hj|]. intros j (Hk & id & c & Hc & Ei). rewrite H1 in Hk. apply elem_of_singleton in Hk. split; [done|].
  injection Ei as E1 E2 E3 E4. rewrite E2, E4. apply (H2 id); congruence.
Qed.
Lemma drive_ok tenant passes : Forall (fun p => p ∈ all /\ forall l, p_order p l ≡ₚ l) passes ->
  forall r r' res, batch_ok r -> drive tenant passes r = (r', res) -> batch_ok r'.
Proof.
  induction 1 as [|p passes [Hp Ho] _ IH]; intros r r' res Hr; cbn [drive]; [by intros [= <- <-]|]. assert (H1 := RunOnce_ok p r Hp Ho Hr).
  destruct (p_count p); [by intros [= <- <-]|]. cbv zeta. case_decide; [by intros [= <- <-]|]. destruct (p_late p); [by intros [= <- <-]|]. by apply IH.
Qed.
Lemma enqueue_all_ok draws : forall i q q', 0 <= i -> i + Z.of_nat (length draws) <= n -> enqueue_all base draws i q = Ok q' -> rows_ours q ->
  rows_ours q' /\ Jobs.handlers q' = Jobs.handlers q.
Proof.
  induction draws as [|[fresh now] draws IH]; intros i q q' Hi Hn; cbn [enqueue_all length]; [by intros [= <-]|]. cbn [length] in Hn.
  destruct (Enqueue _ _ _ _ _ _ q) as [[id q1]|] eqn:E; [|done]. intros Hq Hr. revert E. unfold Enqueue. case_decide; [done|].
  destruct (table q !! fresh); [done|]. intros [= <- <-]. apply IH in Hq as [H1 H2]; [done|lia|lia|].
  intros id' j. cbn. rewrite lookup_insert_Some. intros [[<- <-]|[_ Hj]] Hk; [|by apply (Hr id')]. cbn. split; [done|]. exists i. split; [lia|done].
Qed.
(** Counting over the indices. *)
Lemma collect_spec m out err : map_Forall came_from m -> collect n m = (out, err) ->
  Forall (fun t => exists i, came_from i t) out /\
  (err = None -> 0 < n -> Z.of_nat (length out) = n /\ forall i, 0 <= i < n -> exists t, out !! Z.to_nat i = Some t /\ came_from i t).
Proof.
  intros Hm. unfold collect. intros [= <- <-]. split.
  { apply Forall_forall. intros t (i & _ & Hi)%list_elem_of_omap. exists i. by apply Hm. }
  assert (Hgen : forall l, (length (omap (fun i => m !! i) l) <= length l)%nat /\
    (length (omap (fun i => m !! i) l) = length l -> forall k i, l !! k = Some i -> exists t, omap (fun i => m !! i) l !! k = Some t /\ m !! i = Some t)).
  { unfold omap. induction l as [|i l [IH1 IH2]]; [done|]. cbn [list_omap]. destruct (m !! i) as [t|] eqn:E; cbn [length]; (split; [lia|]).
    - intros Hl k i' Hk. destruct k as [|k]; [injection Hk as <-; by exists t|]. apply IH2; [lia|done].
    - lia. }
  case_decide as Hd; [done|]. intros _ Hn. destruct (Hgen (indices n)) as [Hle Heq].
  assert (length (indices n) = Z.to_nat n) as Hlen by (unfold indices; by rewrite length_fmap, length_seq).
  split; [lia|]. intros i Hi. destruct (Heq ltac:(lia) (Z.to_nat i) i) as (t & Ht & Hmi).
  { unfold indices. rewrite list_lookup_fmap, lookup_seq_lt by lia. cbn. f_equal. lia. }
  exists t. split; [done|]. by apply Hm.
Qed.
End One.
Definition named (stamp : string) (base : Sample) : Sample := if decide (sm_RunID base = "") then with_run ("trajrun_" +:+ stamp) base else base.
(** A batch collects what its own samples gave: driven over a queue that holds no run of another batch, in whatever order
    the handlers of a pass end and whatever is retried, every trajectory it returns is an answer of one of its samples under
    the tenant, the agent, the suite and the run of that sample, whatever the answer says of itself; and when it returns
    without an error there is one for every index, in order. *)
Lemma batch_faithful stamp base n draws passes r r' out err :
  (forall s, unmarshal (marshal s) = Ok s) -> Jobs.handlers (queue r) ⊆ {[JobKindTrajectoryRun]} ->
  (forall id j, table (queue r) !! id = Some j -> Kind j <> JobKindTrajectoryRun) ->
  Forall (fun p => forall l, p_order p l ≡ₚ l) passes -> Z.of_nat (length draws) = n ->
  Run stamp base n draws passes r = (r', Some (out, err)) ->
  let base' := named stamp base in
  Forall (fun t => (t_Tenant t = sm_Tenant base /\ t_Agent t = sm_Agent base /\ Suite t = sm_Suite base /\ RunID t = sm_RunID base') /\
                   exists i p t0, 0 <= i < n /\ p ∈ passes /\ p_run p (with_index i base') = Some (Ok t0) /\ t = label (with_index i base') t0) out /\
  (err = None -> Z.of_nat (length out) = n /\
     forall i, 0 <= i < n -> exists p t0, p ∈ passes /\ p_run p (with_index i base') = Some (Ok t0) /\ out !! Z.to_nat i = Some (label (with_index i base') t0)).
Proof.
  intros Hjson Hh Hk Ho Hd. unfold Run. case_decide; [by intros [= <- <- <-]|]. case_decide; [by intros [= <- <- <-]|]. fold (named stamp base). cbv zeta. set (base' := named stamp base).
  destruct (enqueue_all _ _ _ _) as [q|e] eqn:Eq; [|by intros [= <- <- <-]].
  destruct (drive _ _ _) as [r2 [[e|]|]] eqn:Edr; [by intros [= <- <- <-]| |done].
  intros E0. assert (r2 = r' /\ collect n (results r2) = (out, err)) as [<- E] by (split; congruence). clear E0.
  assert (Hok : batch_ok base' n passes r2).
  { apply (enqueue_all_ok base' n) in Eq as [Hr Hh2]; [|lia|lia|by intros id j Hj Hk'; exfalso; eapply Hk].
    eapply (drive_ok base' n passes (fun i => Hjson _)); [|..|exact Edr]; [rewrite Forall_forall in Ho |- *; auto|]. constructor; cbn; [|done|apply map_Forall_empty].
    rewrite Hh2. cbn. set_solver. }
  apply (collect_spec base' n passes) in E as [H1 H2]; [|apply Hok].
  assert (Hb : sm_Tenant base' = sm_Tenant base /\ sm_Agent base' = sm_Agent base /\ sm_Suite base' = sm_Suite base) by (unfold base', named; by case_decide).
  destruct Hb as (B1 & B2 & B3). split.
  - eapply Forall_impl; [exact H1|]. intros t (i & Hi & p & t0 & Hp & Hrun & ->). cbn. rewrite B1, B2, B3. split; [done|]. exists i, p, t0. auto.
  - intros He. destruct (H2 He) as [Hl Hall]; [lia|]. split; [done|]. intros i Hi. destruct (Hall i Hi) as (t & Ht & _ & p & t0 & Hp & Hrun & ->). exists p, t0. auto.
Qed.
End Batch.

(** ** The command *)

Section Cli.
Context (cfg : Config) `{!SliceSorter Jobs.run_after_le} (custom : list Regexp.regexp).
Context (marshal : Sample -> string) (unmarshal : string -> Result Sample).
Context (encode : Trajectory.Trajectory -> Result string).
(* [cmd/cyntr/trajectory/runner.go:ExportJSONL] *)
Definition ExportJSONL (l : list Trajectory.Trajectory) : Result string := Trajectory.WriteJSONL encode l.

(** ** The runs of a sample over HTTP *)

(** What the server answers of a chat. *)
Record ChatData := { cd_Content : string; cd_ToolsUsed : list string }.
Context (POST : string -> list (string * string) -> string * string -> Result (Z * string)) (decode_chat : string -> Result ChatData).
(* [cmd/cyntr/trajectory/cli.go:httpIsolatedRun] *)
Definition httpIsolatedRun (serverURL apiKey : string) (now : time) (s : Sample) : Result Trajectory.Trajectory :=
  let endpoint := TrimRight ["/"%char] serverURL +:+ "/api/v1/tenants/" +:+ sm_Tenant s +:+ "/agents/" +:+ sm_Agent s +:+ "/chat" in
  let headers := ("Content-Type", "application/json") :: (if decide (apiKey <> "") then [("Authorization", "Bearer " +:+ apiKey)] else []) in
  resp <-? wrap_err "chat request" (POST endpoint headers (sm_Prompt s, sm_User s)) ;;
  let '(status, raw) := resp in
  if decide (status <> 200) then Err ("chat HTTP " +:+ itoa status +:+ ": " +:+ raw)
  else match decode_chat raw with
  | Err e => Err ("parse chat response: " +:+ e +:+ " (body: " +:+ raw +:+ ")")
  | Ok d =>
      Ok {| t_ID := ""; Schema := Trajectory.TrajectorySchemaRaw; t_Tenant := sm_Tenant s; t_User := sm_User s; t_Agent := sm_Agent s; t_Session := ""; t_Model := "";
            Suite := sm_Suite s; RunID := sm_RunID s; Prompt := sm_Prompt s;
            Steps := imap (fun i tool => {| Trajectory.Index := Z.of_nat i; Trajectory.Tool := tool; Trajectory.Input := ""; Trajectory.Observation := "" |}) (cd_ToolsUsed d);
            t_Output := cd_Content d; t_Outcome := "ok"; t_ToolCalls := Z.of_nat (length (cd_ToolsUsed d)); t_Turns := 1; t_Subagent := false;
            Trajectory.CreatedAt := now |}
  end.
(** The flags of [cyntr trajectory run], and what it prints, writes and exits with.  [open] is the error of opening the queue, the
    file's text is written, or fails with an error. *)
Record Flags := { f_Tenant : string; f_Agent : string; f_User : string; f_Suite : string; f_Prompt : string; f_N : Z; f_Output : string }.
Inductive Sink := ToStdout (text : string) | ToFile (path text : string) | Nothing.
(* [cmd/cyntr/trajectory/cli.go:runBatch] *)
Definition runBatch (f : Flags) (open : Result Queue) (stamp : string) (draws : list (string * time)) (passes : list Pass) (write : string -> option error)
    : option (Sink * Z) :=
  if decide (f_Tenant f = "" \/ f_Agent f = "" \/ f_Prompt f = "") then Some (Nothing, 2)
  else match open with
  | Err _ => Some (Nothing, 1)
  | Ok q =>
      let base := {| sm_Tenant := f_Tenant f; sm_Agent := f_Agent f; sm_User := f_User f; sm_Suite := f_Suite f; sm_RunID := ""; sm_Index := 0; sm_Prompt := f_Prompt f |} in
      '(trajs, err) ← (Run cfg custom marshal unmarshal stamp base (f_N f) draws passes (NewRunner q None)).2;
      Some (match ExportJSONL trajs with
            | Err _ => (Nothing, 1)
            | Ok text =>
                let code := match err with Some _ => 1 | None => 0 end in
                if decide (f_Output f = "") then (ToStdout text, code)
                else match write (f_Output f) with Some _ => (Nothing, 1) | None => (ToFile (f_Output f) text, code) end
            end)
  end.
End Cli.

(** ** Concrete batches *)

Fixpoint bits (p : positive) : string := match p with xH => "" | xO p => String "0" (bits p) | xI p => String "1" (bits p) end.
Fixpoint unbits (s : string) : positive := match s with "" => xH | String c s => if decide (c = "0"%char) then xO (unbits s) else xI (unbits s) end.
Lemma unbits_bits p : unbits (bits p) = p.
Proof. induction p as [p IH|p IH|]; cbn; by rewrite ?IH. Qed.
Definition fields_of (s : Sample) : string * string * string * string * string * Z * string :=
  (sm_Tenant s, sm_Agent s, sm_User s, sm_Suite s, sm_RunID s, sm_Index s, sm_Prompt s).
Definition of_fields (f : string * string * string * string * string * Z * string) : Sample :=
  let '(t, a, u, su, r, i, p) := f in
  {| sm_Tenant := t; sm_Agent := a; sm_User := u; sm_Suite := su; sm_RunID := r; sm_Index := i; sm_Prompt := p |}.
Definition demo_marshal (s : Sample) : string := bits (encode (fields_of s)).
Definition demo_unmarshal (s : string) : Result Sample := match decode (unbits s) with Some f => Ok (of_fields f) | None => Err "invalid character" end.
Lemma demo_json s : demo_unmarshal (demo_marshal s) = Ok s.
Proof. unfold demo_unmarshal, demo_marshal. rewrite unbits_bits, decode_encode. by destruct s. Qed.
#[local] Instance demo_sorter : SliceSorter Jobs.run_after_le := Jobs.demo_sorter.
Definition demo_base (tenant : string) : Sample :=
  {| sm_Tenant := tenant; sm_Agent := "bot"; sm_User := "u"; sm_Suite := "s"; sm_RunID := ""; sm_Index := 0; sm_Prompt := "go" |}.
Definition demo_answer (s : Sample) : Trajectory.Trajectory :=
  {| t_ID := ""; Schema := Trajectory.TrajectorySchemaRaw; t_Tenant := "other"; t_User := ""; t_Agent := ""; t_Session := ""; t_Model := ""; Suite := ""; RunID := "";
     Prompt := sm_Prompt s; Steps := []; t_Output := itoa (sm_Index s); t_Outcome := "ok"; t_ToolCalls := 0; t_Turns := 1; t_Subagent := false; Trajectory.CreatedAt := 0 |}.
Definition demo_pass : Pass :=
  {| p_now := Jobs.demo_now + 3600 * Second; p_query := true; p_claim := fun _ => true; p_end := fun _ => (true, Jobs.demo_now); p_run := fun s => Some (Ok (demo_answer s));
     p_insert := fun _ => ("", 0, None); p_order := fun l => l; p_count := None; p_running := None; p_late := false |}.
Definition demo_draws : list (string * time) := [("a", Jobs.demo_now); ("b", Jobs.demo_now)].
Definition demo_batch (stored : gmap string Job) : Runner * option (list Trajectory.Trajectory * option error) :=
  Run Jobs.default_config [] demo_marshal demo_unmarshal "t" (demo_base "acme") 2 demo_draws [demo_pass] (NewRunner (Jobs.NewQueue stored) None).
Definition demo_out : list Trajectory.Trajectory := match (demo_batch ∅).2 with Some (out, _) => out | None => [] end.
Lemma batch_faithful_witness :
  Forall (fun t => t_Tenant t = "acme") demo_out /\ Z.of_nat (length demo_out) = 2 /\
  exists t, demo_out !! 1%nat = Some t /\ t_Output t = "1".
Proof.
  assert (E : demo_batch ∅ = ((demo_batch ∅).1, Some (demo_out, None))) by (vm_compute; reflexivity).
  destruct (batch_faithful Jobs.default_config [] demo_marshal demo_unmarshal "t" (demo_base "acme") 2 demo_draws [demo_pass] (NewRunner (Jobs.NewQueue ∅) None)
              (demo_batch ∅).1 demo_out None) as [H1 H2].
  - exact demo_json.
  - by apply empty_subseteq.
  - intros id j. cbn. rewrite fmap_empty, lookup_empty. done.
  - by repeat constructor.
  - reflexivity.
  - exact E.
  - destruct (H2 eq_refl) as [Hl Hall]. split; [eapply Forall_impl; [exact H1|]; by intros t [[? _] _]|]. split; [exact Hl|].
    destruct (Hall 1 ltac:(lia)) as (p & t0 & Hp & Hr & Ht). apply list_elem_of_singleton in Hp. subst p. injection Hr as <-. eexists. split; [exact Ht|reflexivity].
Defined.
(** The queue is shared by the batches of every tenant, and results are kept by their index alone: a run another batch left behind takes
    the place of one of this batch, and is exported with it, under the other tenant. *)
Definition left_behind : gmap string Job :=
  {["x" := {| Jobs.ID := "x"; Jobs.Tenant := "beta"; Jobs.Kind := JobKindTrajectoryRun; Jobs.Payload := demo_marshal (demo_base "beta"); Jobs.RunAfter := Jobs.demo_now + Minute;
              Jobs.Attempts := 0; Jobs.State := Jobs.StatePending; Jobs.LastError := ""; Jobs.CreatedAt := Jobs.demo_now; Jobs.UpdatedAt := Jobs.demo_now |}]}.
Example foreign_run_collected :
  option_map (fun r => (t_Tenant <$> r.1, r.2)) (demo_batch left_behind).2 = Some (["beta"; "acme"], None).
Proof. vm_compute. reflexivity. Qed.
