(* ===== verification/Live.v ===== *)
(** * Live: what is pushed to connected clients, and what the web server mounts

    [src/web/api/canvas_ws.go]: sockets that watch a canvas; [src/web/events.go]: the stream of activity; the handlers
    [src/cmd/cyntr/main.go] mounts for them.  Each is a state and its steps; sockets never fail, for a failed write is not
    looked at.  Tokens are checked by [Auth]; documents are [ToolAgents]'s. *)
From S2P Require Import Prelude GoStr GoText.
From S2P Require Auth ToolAgents.
Import Auth (Principal).
Import ToolAgents (CanvasDoc, CanvasStore, NewCanvasStore, cd_Tenant, cd_Session, canvasKey, Put, Canvas_Get, docs).
Local Open Scope go_scope.
Local Open Scope Z_scope.

(** ** The canvas *)

Section Canvas.
(** HMAC-SHA-256 and the JSON of claims. *)
Context (hmac : string -> string -> string) (Unmarshal : string -> Result Auth.jwtClaims).

(** A client is its tenant and session. *)
(* [web/api/canvas_ws.go:CanvasWS] *)
Record CanvasWS := { store : CanvasStore; sm : option Auth.SessionManager; apiKeys : option (gmap string Principal); enabled : bool; clients : gmap nat (string * string) }.
(* [web/api/canvas_ws.go:NewCanvasWS] *)
Definition NewCanvasWS (s : option CanvasStore) (m : option Auth.SessionManager) (enabled : bool) : CanvasWS :=
  {| store := default NewCanvasStore s; sm := m; apiKeys := None; enabled := enabled; clients := ∅ |}.
(* [web/api/canvas_ws.go:CanvasWS.SetAPIKeys] *)
Definition SetAPIKeys (keys : gmap string Principal) (c : CanvasWS) : CanvasWS :=
  {| store := store c; sm := sm c; apiKeys := Some keys; enabled := enabled c; clients := clients c |}.
Definition with_clients (m : gmap nat (string * string)) (c : CanvasWS) : CanvasWS :=
  {| store := store c; sm := sm c; apiKeys := apiKeys c; enabled := enabled c; clients := m |}.
Definition with_store (s : CanvasStore) (c : CanvasWS) : CanvasWS :=
  {| store := s; sm := sm c; apiKeys := apiKeys c; enabled := enabled c; clients := clients c |}.
(** What is sent, to whom. *)
(* [web/api/canvas_ws.go:CanvasWS.onBusUpdate] *)
Definition onBusUpdate (doc : CanvasDoc) (c : CanvasWS) : list (nat * CanvasDoc) :=
  (fun cl => (cl.1, doc)) <$> filter (fun cl => cl.2 = (cd_Tenant doc, cd_Session doc)) (map_to_list (clients c)).
(* [web/api/canvas_ws.go:bearerToken] *)
Definition bearerToken (h : string) : string :=
  if decide (h = "") then "" else if decide (7 < String.length h)%nat then TrimPrefix h "Bearer " else h.
Definition of_tenant (t : string) : Principal :=
  {| Auth.Type_ := 0; Auth.ID := ""; Auth.Tenant := t; Auth.Roles := []; Auth.Permissions := []; Auth.Scopes := [] |}.
(** A request: its path's values, its key, its header and the time it comes at. *)
Record Dial := { tid : string; sid : string; key : string; header : string; at_ : time }.
(* [web/api/canvas_ws.go:CanvasWS.authenticate] *)
Definition authenticate (d : Dial) (c : CanvasWS) : option Principal :=
  if negb (enabled c) then Some (of_tenant (tid d))
  else
    let token := if decide (key d = "") then bearerToken (header d) else key d in
    if decide (token = "") then None
    else match apiKeys c ≫= lookup token with
         | Some p => Some p
         | None => match sm c with
                   | Some m => match Auth.ValidateToken hmac Unmarshal (at_ d) token m with Ok p => Some p | Err _ => None end
                   | None => None
                   end
         end.
Inductive Answer := Refused (status : Z) (code message : string) | NotUpgraded | Joined (replay : option CanvasDoc).
(** Until its socket closes, the client is there. *)
(* [web/api/canvas_ws.go:CanvasWS.Handle] *)
Definition Handle (id : nat) (upgrades : bool) (d : Dial) (c : CanvasWS) : CanvasWS * Answer :=
  if decide (tid d = "" \/ sid d = "") then (c, Refused 400 "INVALID_REQUEST" "tenant and session are required")
  else match authenticate d c with
  | None => (c, Refused 401 "UNAUTHORIZED" "valid credential required")
  | Some p =>
      if decide (enabled c = true /\ Auth.Tenant p <> "" /\ Auth.Tenant p <> tid d) then (c, Refused 403 "FORBIDDEN" "cross-tenant access denied")
      else if negb upgrades then (c, NotUpgraded)
      else (with_clients (<[id := (tid d, sid d)]> (clients c)) c, Joined (Canvas_Get (tid d) (sid d) (store c)))
  end.
(* [web/api/canvas_ws.go:CanvasWS.Handle@168-173] *)
Definition Gone (id : nat) (c : CanvasWS) : CanvasWS := with_clients (delete id (clients c)) c.

(** What happens to the endpoint: a dial, the end of a socket, a document the tool keeps, one that arrives on the bus. *)
Inductive act := ADial (id : nat) (upgrades : bool) (d : Dial) | AGone (id : nat) | APut (doc : CanvasDoc) | ABus (doc : CanvasDoc).
Definition step (c : CanvasWS) (a : act) : CanvasWS * list (nat * CanvasDoc) :=
  match a with
  | ADial id upgrades d => let '(c, r) := Handle id upgrades d c in (c, match r with Joined (Some doc) => [(id, doc)] | _ => [] end)
  | AGone id => (Gone id c, [])
  | APut doc => (with_store (Put doc (store c)) c, [])
  | ABus doc => (c, onBusUpdate doc c)
  end.
Fixpoint run (acts : list act) (c : CanvasWS) : CanvasWS * list (nat * CanvasDoc) :=
  match acts with
  | [] => (c, [])
  | a :: acts => let '(c, sent) := step c a in let '(c, sent') := run acts c in (c, sent ++ sent')
  end.

Definition plain (t : string) : Prop := lacks "000"%char t.
Definition plain_act (a : act) : Prop := match a with ADial _ _ d => plain (tid d) | APut doc => plain (cd_Tenant doc) | _ => True end.
Lemma plain_key_inj t t' s s' : plain t -> plain t' -> canvasKey t s = canvasKey t' s' -> t = t' /\ s = s'.
Proof.
  unfold canvasKey, plain. revert t'. induction t as [|a t IH]; intros [|b t'] Ht Ht' E; [by injection E| | |].
  - rewrite str_app_cons in E. injection E as <- _. by apply lacks_cons in Ht' as [? _].
  - rewrite str_app_cons in E. injection E as -> _. by apply lacks_cons in Ht as [? _].
  - rewrite !str_app_cons in E. injection E as -> E. apply lacks_cons in Ht as [_ Ht], Ht' as [_ Ht']. destruct (IH _ Ht Ht' E) as [-> ->]. done.
Qed.
(** Who may watch: a client some dial let in. *)
Definition admitted (c : CanvasWS) (acts : list act) (id : nat) (t s : string) : Prop :=
  exists upgrades d p, ADial id upgrades d ∈ acts /\ tid d = t /\ sid d = s /\ authenticate d c = Some p /\ (Auth.Tenant p = t \/ Auth.Tenant p = "").
Record watch_ok (c0 c : CanvasWS) (acts : list act) : Prop := {
  wo_clients : forall id t s, clients c !! id = Some (t, s) -> admitted c0 acts id t s;
  wo_docs : forall k d, docs (store c) !! k = Some d -> plain (cd_Tenant d) /\ k = canvasKey (cd_Tenant d) (cd_Session d);
  wo_same : sm c = sm c0 /\ apiKeys c = apiKeys c0 /\ enabled c = enabled c0;
}.
Lemma authenticate_same d c c' : sm c = sm c' -> apiKeys c = apiKeys c' -> enabled c = enabled c' -> authenticate d c = authenticate d c'.
Proof. unfold authenticate. by intros -> -> ->. Qed.
Lemma step_ok c0 acts c a c' sent : enabled c0 = true -> a ∈ acts -> plain_act a -> watch_ok c0 c acts -> step c a = (c', sent) ->
  watch_ok c0 c' acts /\ Forall (fun x => admitted c0 acts x.1 (cd_Tenant x.2) (cd_Session x.2)) sent.
Proof.
  intros He Ha Hp [H1 H2 (S1 & S2 & S3)]. destruct a as [id up d|id|doc|doc]; cbn [step].
  - destruct (Handle id up d c) as [c1 r] eqn:Eh. intros [= <- <-]. revert Eh. unfold Handle. case_decide; [by intros [= <- <-]|].
    rewrite (authenticate_same d c c0) by done. destruct (authenticate d c0) as [p|] eqn:Ep; [|by intros [= <- <-]].
    case_decide as Hf; [by intros [= <- <-]|]. destruct up; cbn [negb]; [|by intros [= <- <-]]. intros [= <- <-].
    assert (Had : admitted c0 acts id (tid d) (sid d)).
    { exists true, d, p. repeat (split; [done|]). destruct (decide (Auth.Tenant p = "")) as [|Hne]; [by right|]. left.
      destruct (decide (Auth.Tenant p = tid d)) as [|Hx]; [done|]. exfalso. apply Hf. rewrite S3. auto. }
    split.
    + constructor; [|done|done]. intros id' t s. cbn. rewrite lookup_insert_Some. intros [[<- [= <- <-]]|[_ Hl]]; [done|by apply H1].
    + unfold Canvas_Get. destruct (docs (store c) !! _) as [doc|] eqn:Eg; [|done]. apply H2 in Eg as [Hpd Hk]. apply plain_key_inj in Hk as [E1 E2]; [|done..].
      constructor; [cbn; by rewrite <-E1, <-E2|done].
  - intros [= <- <-]. split; [|done]. constructor; [|done|done]. intros id' t s. cbn. rewrite lookup_delete_Some. intros [_ Hl]. by apply H1.
  - intros [= <- <-]. split; [|done]. constructor; [done| |done]. intros k d. cbn. rewrite lookup_insert_Some. intros [[<- <-]|[_ Hl]]; [done|by apply H2].
  - intros [= <- <-]. split; [done|]. unfold onBusUpdate. apply Forall_fmap, Forall_forall. intros [id [t s]] Hin. apply list_elem_of_filter in Hin as [E Hin]. cbn in *.
    apply elem_of_map_to_list in Hin. injection E as -> ->. by apply H1.
Qed.
Lemma run_ok c0 all : enabled c0 = true -> forall acts c c' sent, Forall (fun a => a ∈ all /\ plain_act a) acts -> watch_ok c0 c all -> run acts c = (c', sent) ->
  Forall (fun x => admitted c0 all x.1 (cd_Tenant x.2) (cd_Session x.2)) sent.
Proof.
  intros He. induction acts as [|a acts IH]; intros c c' sent Hacts Hc; cbn [run]; [by intros [= <- <-]|].
  apply Forall_cons in Hacts as [[Ha Hp] Hacts]. destruct (step c a) as [c1 s1] eqn:E1. destruct (run acts c1) as [c2 s2] eqn:E2. intros [= <- <-].
  destruct (step_ok c0 all c a c1 s1 He Ha Hp Hc E1) as [Hc1 Hs1]. apply Forall_app. split; [done|]. by eapply IH.
Qed.
(** Whatever happens to an endpoint that authenticates, every document it sends to a socket, replayed or live, is one of the
    tenant and the session in the path the socket was opened with, and was opened by someone whose credential is for that tenant,
    or for none in particular. *)
Lemma canvas_confined m keys acts c' sent :
  Forall plain_act acts -> run acts (SetAPIKeys keys (NewCanvasWS None m true)) = (c', sent) ->
  forall id doc, (id, doc) ∈ sent -> exists upgrades d p, ADial id upgrades d ∈ acts /\ tid d = cd_Tenant doc /\ sid d = cd_Session doc /\
    authenticate d (SetAPIKeys keys (NewCanvasWS None m true)) = Some p /\ (Auth.Tenant p = cd_Tenant doc \/ Auth.Tenant p = "").
Proof.
  intros Hp Hr id doc Hin. set (c0 := SetAPIKeys keys (NewCanvasWS None m true)) in *.
  assert (Hall : Forall (fun a => a ∈ acts /\ plain_act a) acts) by (rewrite Forall_forall in Hp |- *; auto).
  assert (Hc0 : watch_ok c0 c0 acts) by (by constructor).
  pose proof (run_ok c0 acts eq_refl acts c0 c' sent Hall Hc0 Hr) as H. rewrite Forall_forall in H. exact (H _ Hin).
Qed.
End Canvas.

(** ** The stream of activity *)

(** A client is a channel of 64 events. *)
(* [web/events.go:EventBroker] *)
Record EventBroker := { queues : gmap nat (list string) }.
(* [web/events.go:NewEventBroker] *)
Definition NewEventBroker : EventBroker := {| queues := ∅ |}.
(* [web/events.go:EventBroker.Subscribe] *)
Definition Subscribe (id : nat) (b : EventBroker) : EventBroker := {| queues := <[id := []]> (queues b) |}.
(* [web/events.go:EventBroker.Unsubscribe] *)
Definition Unsubscribe (id : nat) (b : EventBroker) : EventBroker := {| queues := delete id (queues b) |}.
Definition capacity : nat := 64.
Definition offer (event : string) (q : list string) : list string := if decide (length q < capacity)%nat then q ++ [event] else q.
(** [data] is the JSON, or the error of encoding it. *)
(* [web/events.go:EventBroker.Broadcast] *)
Definition Broadcast (eventType : string) (data : Result string) (b : EventBroker) : EventBroker :=
  match data with
  | Err _ => b
  | Ok json => {| queues := offer ("event: " +:+ eventType +:+ nl +:+ "data: " +:+ json +:+ nl +:+ nl) <$> queues b |}
  end.
(* [web/events.go:EventBroker.ClientCount] *)
Definition ClientCount (b : EventBroker) : nat := size (queues b).
(** A turn of a client's loop: the event it takes and writes. *)
(* [web/events.go:EventBroker.ServeHTTP@83-94] *)
Definition take_event (id : nat) (b : EventBroker) : EventBroker * option string :=
  match queues b !! id with
  | Some (e :: q) => ({| queues := <[id := q]> (queues b) |}, Some e)
  | _ => (b, None)
  end.
(** The headers and the first event of a stream, which anyone gets; [None] when the connection cannot be streamed to. *)
(* [web/events.go:EventBroker.ServeHTTP] *)
Definition ServeHTTP (flushes : bool) (id : nat) (b : EventBroker) : EventBroker * option (list (string * string) * string) :=
  if flushes then
    (Subscribe id b, Some ([("Content-Type", "text/event-stream"); ("Cache-Control", "no-cache"); ("Connection", "keep-alive"); ("Access-Control-Allow-Origin", "*")],
                           "event: connected" +:+ nl +:+ "data: {" +:+ dq "status" +:+ ":" +:+ dq "ok" +:+ "}" +:+ nl +:+ nl))
  else (b, None).

(** What happens to the broker while a client is there. *)
Inductive tick := TBroadcast (eventType : string) (data : Result string) | TTake (id : nat) | TJoin (id : nat) | TLeave (id : nat).
Definition tick_step (b : EventBroker) (t : tick) : EventBroker * list (nat * string) :=
  match t with
  | TBroadcast ty data => (Broadcast ty data b, [])
  | TTake id => let '(b, e) := take_event id b in (b, (fun e => (id, e)) <$> option_list e)
  | TJoin id => (Subscribe id b, [])
  | TLeave id => (Unsubscribe id b, [])
  end.
Fixpoint tick_run (ts : list tick) (b : EventBroker) : EventBroker * list (nat * string) :=
  match ts with [] => (b, []) | t :: ts => let '(b, w) := tick_step b t in let '(b, w') := tick_run ts b in (b, w ++ w') end.
Definition event_of (t : tick) : option string :=
  match t with TBroadcast ty (Ok json) => Some ("event: " +:+ ty +:+ nl +:+ "data: " +:+ json +:+ nl +:+ nl) | _ => None end.
Definition stays (id : nat) (t : tick) : Prop := t <> TJoin id /\ t <> TLeave id.
Definition written (id : nat) (w : list (nat * string)) : list string := (filter (fun x => x.1 = id) w).*2.
Lemma tick_queue id q b t b' w : stays id t -> queues b !! id = Some q -> tick_step b t = (b', w) ->
  exists q', queues b' !! id = Some q' /\
    match event_of t with
    | Some e => written id w = [] /\ q' = offer e q
    | None => written id w ++ q' = q
    end.
Proof.
  intros [Hj Hl] Hq. destruct t as [ty data|id'|id'|id']; cbn [tick_step event_of].
  - destruct data as [json|e]; intros [= <- <-]; [|by exists q]. cbn. rewrite lookup_fmap, Hq. eexists. split; [reflexivity|done].
  - unfold take_event. destruct (decide (id' = id)) as [->|Hne].
    + rewrite Hq. destruct q as [|e q]; intros [= <- <-]; [by exists []|]. exists q. cbn. rewrite lookup_insert_eq. split; [done|]. change (written id [(id, e)] ++ q = e :: q). unfold written. rewrite filter_cons. cbn [fst]. by rewrite decide_True.
    + destruct (queues b !! id') as [[|s q']|]; intros [= <- <-]; (exists q; split; [cbn; rewrite ?lookup_insert_ne by done; done|]); try done.
      change (written id [(id', s)] ++ q = q). unfold written. rewrite filter_cons. cbn [fst]. by rewrite decide_False.
  - intros [= <- <-]. exists q. cbn. rewrite lookup_insert_ne; [done|congruence].
  - intros [= <- <-]. exists q. cbn. rewrite lookup_delete_ne; [done|congruence].
Qed.
Lemma written_app id w w' : written id (w ++ w') = written id w ++ written id w'.
Proof. unfold written. by rewrite filter_app, fmap_app. Qed.
(** A client that is there gets a part of what is broadcast, in order; all of it, as long as its channel never fills. *)
Lemma events_in_order id ts : Forall (stays id) ts -> forall b q b' w, queues b !! id = Some q -> tick_run ts b = (b', w) ->
  exists q', queues b' !! id = Some q' /\ sublist (written id w ++ q') (q ++ omap event_of ts) /\
    ((length q + length (omap event_of ts) <= capacity)%nat -> written id w ++ q' = q ++ omap event_of ts).
Proof.
  induction 1 as [|t ts Ht _ IH]; intros b q b' w Hq; cbn [tick_run].
  { intros [= <- <-]. exists q. cbn. rewrite app_nil_r. split; [done|]. split; [reflexivity|done]. }
  destruct (tick_step b t) as [b1 w1] eqn:E1. destruct (tick_run ts b1) as [b2 w2] eqn:E2. intros [= <- <-].
  destruct (tick_queue _ _ _ _ _ _ Ht Hq E1) as (q1 & Hq1 & Hw). destruct (IH _ _ _ _ Hq1 E2) as (q2 & Hq2 & Hs & Hf). exists q2. split; [done|].
  rewrite written_app, <-app_assoc. unfold omap in *. cbn [list_omap]. destruct (event_of t) as [e|].
  - destruct Hw as [-> ->]. cbn [app length]. unfold offer in *. case_decide as Hd.
    + rewrite <-app_assoc in Hs, Hf. rewrite length_app in Hf. cbn [length app] in Hf, Hs. split; [done|]. intros Hl. apply Hf. lia.
    + split; [|intros Hl; lia]. etransitivity; [exact Hs|]. apply sublist_app; [done|]. by apply sublist_cons.
  - rewrite <-Hw, <-app_assoc. split; [by apply sublist_app|]. intros Hl. f_equal. apply Hf. rewrite length_app in Hl. lia.
Qed.

(** ** What the web server mounts *)

Inductive Mount := MCanvas | MNode | MApi (behind_auth : bool) | MEvents | MDashboard.
Definition is_canvas (path : list string) : Prop :=
  match path with [a; b; c; _; d; _; e] => [a; b; c; d; e] = ["api"; "v1"; "tenants"; "canvas"; "ws"] | _ => False end.
#[export] Instance is_canvas_dec path : Decision (is_canvas path).
Proof. unfold is_canvas. repeat (case_match; try apply _). Defined.
(** The most specific pattern for a cleaned path's segments; a pattern for GET takes HEAD too. *)
(* [cmd/cyntr/main.go:runStart@1239-1271] *)
Definition mounted (getenv : string -> string) (method : string) (path : list string) : Mount :=
  if decide (is_canvas path /\ (method = "GET" \/ method = "HEAD")) then MCanvas
  else if decide (path = ["api"; "v1"; "node"; "ws"]) then MNode
  else if decide (head path = Some "api") then MApi (bool_decide (getenv "CYNTR_API_KEY" <> ""))
  else if decide (path = ["events"]) then MEvents
  else MDashboard.
(* [cmd/cyntr/main.go:runStart@1256-1264] *)
Definition canvas_endpoint (getenv : string -> string) (s : CanvasStore) : CanvasWS :=
  let sm := if decide (getenv "CYNTR_JWT_SECRET" <> "") then Some (Auth.NewSessionManager (getenv "CYNTR_JWT_SECRET")) else None in
  let c := NewCanvasWS (Some s) sm (bool_decide (getenv "CYNTR_JWT_SECRET" <> "" \/ getenv "CYNTR_API_KEY" <> "")) in
  if decide (getenv "CYNTR_API_KEY" <> "") then SetAPIKeys {[getenv "CYNTR_API_KEY" := of_tenant (getenv "CYNTR_API_KEY_TENANT")]} c else c.
(** The activity an agent publishes, as the event every stream gets. *)
(* [cmd/cyntr/main.go:runStart@1197-1202] *)
Definition on_activity (json : option (Result string)) (b : EventBroker) : EventBroker :=
  match json with Some data => Broadcast "activity" data b | None => b end.
(* [cmd/cyntr/main.go:packEnabled] *)
Definition packEnabled (packs : gmap string bool) (is_true : string -> bool) (getenv : string -> string) (name envVar : string) : bool :=
  default false (packs !! name) || (let v := getenv envVar in bool_decide (v = "1") || is_true v).
(* [cmd/cyntr/main.go:dataPath] *)
Definition dataPath (Join2 : string -> string -> string) (getenv : string -> string) (name : string) : string :=
  let dir := getenv "CYNTR_DATA_DIR" in if decide (dir = "") then name else Join2 dir name.

(** With a key, all of the interface but the two sockets, which check for themselves, is behind the check; without one, nothing is,
    whatever the secret of the tokens is. *)
Lemma api_mounted getenv method rest :
  mounted getenv method ("api" :: rest) <> MEvents /\ mounted getenv method ("api" :: rest) <> MDashboard /\
  (getenv "CYNTR_API_KEY" <> "" -> mounted getenv method ("api" :: rest) <> MApi false) /\
  (getenv "CYNTR_API_KEY" = "" -> forall path, mounted getenv method path <> MApi true).
Proof.
  assert (Hk : forall path b, mounted getenv method path = MApi b -> b = bool_decide (getenv "CYNTR_API_KEY" <> "")).
  { intros path b. unfold mounted. repeat case_decide; congruence. }
  split_and!; [unfold mounted; repeat case_decide; try done; naive_solver..| |].
  - intros Hne E. apply Hk in E. symmetry in E. by apply bool_decide_eq_false in E.
  - intros He path E. apply Hk in E. symmetry in E. apply bool_decide_eq_true in E. done.
Qed.

(** ** Concrete clients *)

Definition no_hmac (key data : string) : string := "".
Definition no_claims (s : string) : Result Auth.jwtClaims := Err "invalid".
Definition demo_doc (t s : string) : CanvasDoc := {| cd_Tenant := t; cd_Session := s; ToolAgents.Title := ""; ToolAgents.Nodes := []; ToolAgents.cd_UpdatedAt := 0 |}.
Definition demo_dial (t s k : string) : Dial := {| tid := t; sid := s; key := k; header := ""; at_ := 0 |}.
Definition demo_keys : gmap string Principal := {["ka" := of_tenant "acme"; "kb" := of_tenant "beta"]}.
Definition demo_acts : list act :=
  [APut (demo_doc "acme" "s1"); ADial 0 true (demo_dial "acme" "s1" "ka"); ADial 1 true (demo_dial "acme" "s1" "kb"); ABus (demo_doc "acme" "s1"); ABus (demo_doc "beta" "s1")].
Lemma canvas_confined_witness :
  (run no_hmac no_claims demo_acts (SetAPIKeys demo_keys (NewCanvasWS None None true))).2 = [(0%nat, demo_doc "acme" "s1"); (0%nat, demo_doc "acme" "s1")] /\
  exists upgrades d p, ADial 0 upgrades d ∈ demo_acts /\ tid d = "acme" /\ sid d = "s1" /\
    authenticate no_hmac no_claims d (SetAPIKeys demo_keys (NewCanvasWS None None true)) = Some p /\ (Auth.Tenant p = "acme" \/ Auth.Tenant p = "").
Proof.
  assert (E : (run no_hmac no_claims demo_acts (SetAPIKeys demo_keys (NewCanvasWS None None true))).2 = [(0%nat, demo_doc "acme" "s1"); (0%nat, demo_doc "acme" "s1")])
    by (vm_compute; reflexivity).
  split; [exact E|]. apply (canvas_confined no_hmac no_claims None demo_keys demo_acts
    (run no_hmac no_claims demo_acts (SetAPIKeys demo_keys (NewCanvasWS None None true))).1 _ ltac:(repeat constructor) (surjective_pairing _) 0%nat (demo_doc "acme" "s1")).
  rewrite E. by left.
Defined.
(** The key of a default installation is for no tenant: it watches any canvas. *)
Definition demo_env (v : string) : string := if decide (v = "CYNTR_API_KEY") then "k" else "".
Example default_key_watches_any :
  (Handle no_hmac no_claims 0 true (demo_dial "acme" "s1" "k") (canvas_endpoint demo_env NewCanvasStore)).2 = Joined None.
Proof. vm_compute. reflexivity. Qed.
(** Anyone who asks for the events gets the activity of every tenant. *)
Example activity_for_anyone :
  mounted demo_env "GET" ["events"] = MEvents /\
  (take_event 7 (on_activity (Some (Ok "tenant acme: tool shell")) (ServeHTTP true 7 NewEventBroker).1)).2
    = Some ("event: activity" +:+ nl +:+ "data: tenant acme: tool shell" +:+ nl +:+ nl).
Proof. vm_compute. split; reflexivity. Qed.
