(* ===== verification/ToolReach.v ===== *)
(** * ToolReach: tools that reach pages, clouds and documents

    [src/modules/agent/tools]: browser.go, advanced_browser.go, chromium.go, aws.go, aws_cost.go, pdf.go, websearch.go and
    send_notification.go.  Servers, the browser, commands, files, inflation, JSON and the clock are arguments. *)
From S2P Require Import Prelude GoStr GoText Calendar.
From S2P Require AgentSession Base64.
Local Open Scope go_scope.
Local Open Scope Z_scope.

Notation Strings := (gmap string string).
Definition field (k : string) (input : Strings) : string := default "" (input !! k).
(** [s[:n]] with something after it, when there is more. *)
Definition cap (n : nat) (more s : string) : string := if decide (n < String.length s)%nat then take_bytes n s +:+ more else s.

(** ** The text of a page *)

Definition white (c : ascii) : bool := existsb (Ascii.eqb c) ["009"; "010"; "012"; "013"; " "]%char.
Definition lower (c : ascii) : ascii := let n := N_of_ascii c in if ((65 <=? n) && (n <=? 90))%N then ascii_of_N (n + 32) else c.
(** A text that starts with a pattern up to case, and what follows it; a long s folds to an s, and the Kelvin sign to a k. *)
Fixpoint fold_prefix (p s : string) : option string :=
  match p with
  | "" => Some s
  | String a p' =>
      match s with
      | "" => None
      | String b s' =>
          if decide (lower b = a) then fold_prefix p' s'
          else match s with
               | String "197" (String "191" s'') => if decide (a = "s"%char) then fold_prefix p' s'' else None
               | String "226" (String "132" (String "170" s'')) => if decide (a = "k"%char) then fold_prefix p' s'' else None
               | _ => None
               end
      end
  end.
(** The text after the first match of a pattern. *)
Fixpoint after_fold (p s : string) : option string :=
  match fold_prefix p s with
  | Some rest => Some rest
  | None => match s with "" => None | String _ s => after_fold p s end
  end.
(** Everything from an opening to the next closing is taken out. *)
Fixpoint drop_blocks (fuel : nat) (opening closing s : string) : string :=
  match fuel with
  | O => s
  | S fuel =>
      match s with
      | "" => ""
      | String c s' =>
          match (rest ← fold_prefix opening s; after_fold closing rest) with
          | Some rest => drop_blocks fuel opening closing rest
          | None => String c (drop_blocks fuel opening closing s')
          end
      end
  end.
(** A space for everything from a "<" to the next ">". *)
Fixpoint drop_tags (fuel : nat) (s : string) : string :=
  match fuel with
  | O => s
  | S fuel =>
      match s with
      | "" => ""
      | String "<" s' => match cut ">" s' with Some (_, rest) => String " " (drop_tags fuel rest) | None => s end
      | String c s' => String c (drop_tags fuel s')
      end
  end.
(** One space for every run of white space; [gap] is whether one was just written. *)
Fixpoint collapse (gap : bool) (s : string) : string :=
  match s with
  | "" => ""
  | String c s => if white c then (if gap then collapse true s else String " " (collapse true s)) else String c (collapse false s)
  end.
Definition entities : list (string * string) :=
  [("&amp;", "&"); ("&lt;", "<"); ("&gt;", ">"); ("&quot;", String dquote ""); ("&#39;", "'"); ("&nbsp;", " ")].
(* [modules/agent/tools/browser.go:extractText] *)
Definition extractText (html : string) : string :=
  let html := drop_blocks (String.length html) "<script" "</script>" html in
  let html := drop_blocks (String.length html) "<style" "</style>" html in
  let text := drop_tags (String.length html) html in
  let text := foldl (fun t e => ReplaceAll t e.1 e.2) text entities in
  TrimSpace (collapse false text).

(** ** Fetching pages *)

Section Pages.
(** A request, its body for a form: the error of making it, of sending it, or a status and a body with the error of reading it. *)
Context (bad_request : string -> option error) (send : string -> option string -> Result (Z * (string * option error))).
(* [modules/agent/tools/browser.go:BrowserTool.Name] *)
Definition Browser_Name : string := "browse_web".
(* [modules/agent/tools/browser.go:BrowserTool.Execute] *)
Definition Browser_Execute (input : Strings) : Result string :=
  let url := field "url" input in
  if decide (url = "") then Err "url is required"
  else match bad_request url with
  | Some e => Err ("create request: " +:+ e)
  | None =>
      resp <-? wrap_err "fetch" (send url None) ;;
      let '(status, (body, rerr)) := resp in
      match rerr with
      | Some e => Err ("read: " +:+ e)
      | None => Ok ("URL: " +:+ url +:+ nl +:+ "Status: " +:+ itoa status +:+ nl +:+ nl +:+
                    cap (Z.to_nat 32768) (nl +:+ "... (truncated)") (extractText (take_bytes (Z.to_nat (2 ^ 20)) body)))
      end
  end.
(* [modules/agent/tools/advanced_browser.go:AdvancedBrowserTool.Name] *)
Definition AdvancedBrowser_Name : string := "advanced_browser".
Definition fetch (url : string) (form : option string) : Result (Z * string) :=
  match bad_request url with
  | Some e => Err ("create request: " +:+ e)
  | None => resp <-? send url form ;; Ok (resp.1, take_bytes (Z.to_nat (2 ^ 20)) resp.2.1)
  end.
(* [modules/agent/tools/advanced_browser.go:AdvancedBrowserTool.fetchPage] *)
Definition fetchPage (url : string) : Result string :=
  resp <-? fetch url None ;;
  Ok ("URL: " +:+ url +:+ nl +:+ "Status: " +:+ itoa resp.1 +:+ nl +:+ nl +:+ cap (Z.to_nat 32768) (nl +:+ "...(truncated)") (extractText resp.2)).
(* [modules/agent/tools/advanced_browser.go:AdvancedBrowserTool.submitForm] *)
Definition submitForm (url data : string) : Result string :=
  resp <-? fetch url (Some data) ;;
  Ok ("Form submitted to " +:+ url +:+ nl +:+ "Status: " +:+ itoa resp.1 +:+ nl +:+ nl +:+ take_bytes (Z.to_nat 16384) (extractText resp.2)).
(** [matches] are the first submatches of the pattern a selector stands for, at most 50. *)
Context (matches : string -> string -> Result (list string)).
Fixpoint list_elements (i : Z) (ms : list string) : string :=
  match ms with
  | [] => ""
  | m :: ms =>
      if decide (20 <= i) then "...(more results truncated)" +:+ nl
      else (let text := extractText m in if decide (text = "") then "" else itoa (i + 1) +:+ ". " +:+ TrimSpace text +:+ nl) +:+ list_elements (i + 1) ms
  end.
(* [modules/agent/tools/advanced_browser.go:AdvancedBrowserTool.extractElements] *)
Definition extractElements (url selector : string) : Result string :=
  if decide (selector = "") then Err "selector is required for extract action"
  else
    resp <-? fetch url None ;;
    ms <-? wrap_err "invalid selector pattern" (matches selector resp.2) ;;
    Ok (if decide (ms = []) then "No elements found matching: " +:+ selector
        else "Found " +:+ itoa (Z.of_nat (length ms)) +:+ " elements matching '" +:+ selector +:+ "':" +:+ nl +:+ nl +:+ list_elements 0 ms).
(** The first 100 links of a page with what they enclose, and a reference resolved against the page when both parse. *)
Context (anchors : string -> list (string * string)) (resolve : string -> string -> option string).
Definition link_line (url : string) (a : string * string) : string :=
  let text := TrimSpace (extractText a.2) in
  let href := if has_prefix "http" a.1 then a.1 else default a.1 (resolve url a.1) in
  "- [" +:+ (if decide (text = "") then "(no text)" else text) +:+ "](" +:+ href +:+ ")" +:+ nl.
(* [modules/agent/tools/advanced_browser.go:AdvancedBrowserTool.extractLinks] *)
Definition extractLinks (url : string) : Result string :=
  resp <-? fetch url None ;;
  let ms := anchors resp.2 in
  Ok (if decide (ms = []) then "No links found on page."
      else "Found " +:+ itoa (Z.of_nat (length ms)) +:+ " links:" +:+ nl +:+ nl +:+
           foldr (fun a t => link_line url a +:+ t) "" (take 50 ms)).
(* [modules/agent/tools/advanced_browser.go:AdvancedBrowserTool.Execute] *)
Definition AdvancedBrowser_Execute (input : Strings) : Result string :=
  let action := field "action" input in
  let url := field "url" input in
  if decide (url = "") then Err "url is required"
  else if decide (action = "get") then fetchPage url
  else if decide (action = "extract") then extractElements url (field "selector" input)
  else if decide (action = "links") then extractLinks url
  else if decide (action = "form_submit") then submitForm url (field "data" input)
  else Err ("unknown action: " +:+ action +:+ " (supported: get, extract, links, form_submit)").
End Pages.

(** ** A headless browser *)

Inductive Cmd :=
  | Navigate (url : string) | Title | Click (sel : string) | Clear (sel : string) | SendKeys (sel value : string)
  | CaptureScreenshot | Text (sel : string) | Evaluate (js : string) | WaitVisible (sel : string).

Section Browser.
(** A new browser that runs commands and is then ended: the last one's value, as text. *)
Context (chromedp : list Cmd -> Result string) (CHROMIUM_ALLOWED_URLS : string).
Definition allowed (url : string) : bool :=
  existsb (fun prefix => negb (bool_decide (TrimSpace prefix = "")) && has_prefix (TrimSpace prefix) url) (split "," CHROMIUM_ALLOWED_URLS).
(** What the action runs, the name its failure has, and the answer to the model. *)
Definition browse (action : string) (input : Strings) : Result string :=
  let sel := field "selector" input in
  let value := field "value" input in
  let url := field "url" input in
  let needs (what : string) := Err (what +:+ " required for " +:+ action +:+ " action") in
  if decide (action = "navigate") then title <-? wrap_err action (chromedp [Navigate url; Title]) ;; Ok ("Navigated to: " +:+ url +:+ nl +:+ "Title: " +:+ title)
  else if decide (action = "click") then
    if decide (sel = "") then needs "selector is"
    else _ <-? wrap_err action (chromedp [Click sel]) ;; Ok ("Clicked: " +:+ sel)
  else if decide (action = "fill") then
    if decide (sel = "" \/ value = "") then needs "selector and value are"
    else _ <-? wrap_err action (chromedp [Clear sel; SendKeys sel value]) ;; Ok ("Filled " +:+ sel +:+ " with value")
  else if decide (action = "screenshot") then
    buf <-? wrap_err action (chromedp [CaptureScreenshot]) ;;
    Ok ("Screenshot captured (" +:+ itoa (Z.of_nat (String.length buf)) +:+ " bytes)" +:+ nl +:+ "Base64: " +:+ take_bytes 200 (Base64.EncodeToString buf))
  else if decide (action = "extract_text") then
    text <-? wrap_err action (chromedp [Text (if decide (sel = "") then "body" else sel)]) ;;
    Ok (cap (Z.to_nat 65536) (nl +:+ "[Truncated at 64KB]") text)
  else if decide (action = "execute_js") then
    if decide (value = "") then needs "value (JS code) is" else wrap_err action (chromedp [Evaluate value])
  else if decide (action = "wait_for") then
    if decide (sel = "") then needs "selector is"
    else _ <-? wrap_err action (chromedp [WaitVisible sel]) ;; Ok ("Element visible: " +:+ sel)
  else Err ("unknown action " +:+ quote action +:+ ": use navigate, click, fill, screenshot, extract_text, execute_js, wait_for").
(* [modules/agent/tools/chromium.go:ChromiumTool.Execute] *)
Definition Chromium_Execute (input : Strings) : Result string :=
  let action := field "action" input in
  let url := field "url" input in
  if decide (action = "") then Err "action is required"
  else if decide (action = "navigate" /\ url = "") then Err "url is required for navigate action"
  else if bool_decide (action = "navigate") && negb (bool_decide (CHROMIUM_ALLOWED_URLS = "")) && negb (allowed url) then
    Err ("URL " +:+ quote url +:+ " not in allowlist (CHROMIUM_ALLOWED_URLS)")
  else browse action input.
End Browser.

(** ** Cloud accounts *)

Fixpoint all_bytes (ok : ascii -> bool) (s : string) : bool :=
  match s with "" => true | String c s => ok c && all_bytes ok s end.
Definition between (lo hi c : ascii) : bool := ((N_of_ascii lo <=? N_of_ascii c) && (N_of_ascii c <=? N_of_ascii hi))%N.
Definition numeral : ascii -> bool := between "0" "9".
Definition letter (c : ascii) : bool := between "a" "z" c || between "A" "Z" c.
Definition role_byte (c : ascii) : bool := letter c || numeral c || existsb (Ascii.eqb c) ["+"; "="; ","; "."; "@"; "_"; "/"; "-"]%char.
Definition region_byte (c : ascii) : bool := between "a" "z" c || numeral c || Ascii.eqb c "-".
Definition sized (lo hi : nat) (s : string) : bool := (lo <=? String.length s)%nat && (String.length s <=? hi)%nat.
(* [modules/agent/tools/aws.go:awsAccountRe@16-16] *)
Definition awsAccountRe (s : string) : bool := sized 12 12 s && all_bytes numeral s.
(* [modules/agent/tools/aws.go:awsRoleRe@17-17] *)
Definition awsRoleRe (s : string) : bool := sized 1 128 s && all_bytes role_byte s.
(* [modules/agent/tools/aws.go:awsRegionRe@18-18] *)
Definition awsRegionRe (s : string) : bool := sized 1 32 s && all_bytes region_byte s.

(** A program with its arguments and what is added to the environment; its output, its error output and how it failed. *)
Record Proc := { argv : list string; environ : list string }.
Notation Ran := (string * string * option error)%type.
Record Credentials := { AccessKeyId : string; SecretAccessKey : string; SessionToken : string }.

Section Cloud.
Context (exec : Proc -> Ran) (parse : string -> Result Credentials).
Definition assume_role (account role : string) : Proc :=
  {| argv := ["aws"; "sts"; "assume-role"; "--role-arn"; "arn:aws:iam::" +:+ account +:+ ":role/" +:+ role;
              "--role-session-name"; "cyntr-session"; "--output"; "json"]; environ := [] |}.
Definition in_account (command region : string) (c : Credentials) : Proc :=
  {| argv := ["bash"; "-c"; command];
     environ := ["AWS_ACCESS_KEY_ID=" +:+ AccessKeyId c; "AWS_SECRET_ACCESS_KEY=" +:+ SecretAccessKey c;
                 "AWS_SESSION_TOKEN=" +:+ SessionToken c; "AWS_DEFAULT_REGION=" +:+ region] |}.
Definition or_else (s d : string) : string := if decide (s = "") then d else s.
(** The programs started, with the answer and the error. *)
(* [modules/agent/tools/aws.go:AWSTool.Execute] *)
Definition AWS_Execute (input : Strings) : list Proc * (string * option error) :=
  let accountID := field "account_id" input in
  let command := field "command" input in
  let roleName := or_else (field "role_name" input) "ReadOnlyAccess" in
  let region := or_else (field "region" input) "us-east-1" in
  let refuse e := ([], ("", Some e)) in
  if decide (accountID = "" \/ command = "") then refuse "account_id and command are required"
  else if negb (awsAccountRe accountID) then refuse "invalid account_id (want 12 digits)"
  else if negb (awsRoleRe roleName) then refuse "invalid role_name"
  else if negb (awsRegionRe region) then refuse "invalid region"
  else
    let sts := assume_role accountID roleName in
    match exec sts with
    | (_, stderr, Some e) => ([sts], ("", Some ("assume role failed: " +:+ e +:+ " " +:+ stderr)))
    | (stdout, _, None) =>
        match parse stdout with
        | Err e => ([sts], ("", Some ("parse credentials: " +:+ e)))
        | Ok creds =>
            let sh := in_account command region creds in
            ([sts; sh],
             match exec sh with
             | (out, err, Some e) => (out +:+ err, Some ("command failed: " +:+ e))
             | (out, err, None) => (cap (Z.to_nat 65536) (nl +:+ "... (truncated)") (if decide (err = "") then out else out +:+ nl +:+ err), None)
             end)
        end
    end.

(** [t.AddDate(0, n, 0)] on the day: the month moves, and a day beyond its end runs into the next. *)
Definition add_months (n : Z) (c : civil) : civil :=
  let m := c_month c - 1 + n in
  civil_of_days (days_of_civil {| c_year := c_year c + m / 12; c_month := m mod 12 + 1; c_day := 1 |} + c_day c - 1).
Definition date_text (c : civil) : string := zpad 4 (c_year c) +:+ "-" +:+ zpad 2 (c_month c) +:+ "-" +:+ zpad 2 (c_day c).
Definition first_of (c : civil) : civil := {| c_year := c_year c; c_month := c_month c; c_day := 1 |}.
Definition days_before (n : Z) (c : civil) : civil := civil_of_days (days_of_civil c - n).
(** First and last day asked for; [today] is the local date. *)
Definition cost_period (period : string) (today : civil) : civil * civil :=
  if decide (period = "last_30_days") then (days_before 30 today, today)
  else if decide (period = "this_month") then (first_of today, today)
  else if decide (period = "last_month") then (first_of (add_months (-1) today), first_of today)
  else (days_before 7 today, today).
Definition dimensions : list string := ["SERVICE"; "REGION"; "LINKED_ACCOUNT"; "INSTANCE_TYPE"; "USAGE_TYPE"].
(* [modules/agent/tools/aws_cost.go:CostExplorerTool.Execute] *)
Definition CostExplorer_Execute (today : civil) (input : Strings) : list Proc * (string * option error) :=
  let groupBy := or_else (field "group_by" input) "SERVICE" in
  let '(start, stop) := cost_period (or_else (field "period" input) "last_7_days") today in
  if decide (groupBy ∉ dimensions) then ([], ("", Some "invalid group_by (allowed: SERVICE, REGION, LINKED_ACCOUNT, INSTANCE_TYPE, USAGE_TYPE)"))
  else
    let ce := {| argv := ["aws"; "ce"; "get-cost-and-usage"; "--time-period"; "Start=" +:+ date_text start +:+ ",End=" +:+ date_text stop;
                          "--granularity"; "MONTHLY"; "--metrics"; "UnblendedCost"; "--group-by"; "Type=DIMENSION,Key=" +:+ groupBy;
                          "--output"; "json"]; environ := [] |} in
    ([ce], match exec ce with
           | (out, err, Some e) => (out +:+ err, Some ("cost explorer: " +:+ e))
           | (out, _, None) => (cap (Z.to_nat 65536) (nl +:+ "... (truncated)") out, None)
           end).
End Cloud.

(** ** The text of a PDF *)

Section Pdf.
(** A file's size and its bytes, and what raw deflate makes of a stream, at most 128 KB. *)
Context (Stat : string -> Result Z) (ReadFile : string -> Result string) (inflate : string -> option string).
(** A line break after a word, and what follows. *)
Definition line_end (s : string) : option string :=
  match s with
  | String "010" s => Some s
  | String "013" (String "010" s) => Some s
  | _ => None
  end.
(** The shortest text before a line break and [endstream], and what follows. *)
Fixpoint until_end (s : string) : option (string * string) :=
  match (rest ← line_end s; if has_prefix "endstream" rest then Some (drop_bytes 9 rest) else None) with
  | Some rest => Some ("", rest)
  | None => match s with "" => None | String c s => r ← until_end s; Some (String c r.1, r.2) end
  end.
Fixpoint streams (fuel : nat) (s : string) : list string :=
  match fuel with
  | O => []
  | S fuel =>
      match s with
      | "" => []
      | String _ s' =>
          match (if has_prefix "stream" s then rest ← line_end (drop_bytes 6 s); until_end rest else None) with
          | Some (raw, rest) => raw :: streams fuel rest
          | None => streams fuel s'
          end
      end
  end.
Fixpoint skip_white (s : string) : string :=
  match s with String c s' => if white c then skip_white s' else s | "" => "" end.
(** What stands between two brackets that an operator follows. *)
Fixpoint shown (fuel : nat) (left right : ascii) (op s : string) : list string :=
  match fuel with
  | O => []
  | S fuel =>
      match s with
      | "" => []
      | String c s' =>
          match (if decide (c = left) then cut right s' else None) with
          | Some (inner, after) =>
              if has_prefix op (skip_white after) then inner :: shown fuel left right op (drop_bytes (String.length op) (skip_white after))
              else shown fuel left right op s'
          | None => shown fuel left right op s'
          end
      end
  end.
Definition esc (s : string) : string := String backslash s.
(* [modules/agent/tools/pdf.go:unescapePDFString] *)
Definition unescapePDFString (s : string) : string :=
  foldl (fun s e => ReplaceAll s e.1 e.2) s
    [(esc "n", nl); (esc "r", String "013" ""); (esc "t", String "009" ""); (esc "(", "("); (esc ")", ")"); (esc (esc ""), esc "")].
(* [modules/agent/tools/pdf.go:extractTextOperators] *)
Definition extractTextOperators (s : string) : string :=
  let n := String.length s in
  Join (unescapePDFString <$> shown n "(" ")" "Tj" s) "" +:+
  Join (a ← shown n "[" "]" "TJ" s; unescapePDFString <$> shown (String.length a) "(" ")" "" a) "" +:+
  Join ((fun m => unescapePDFString m +:+ nl) <$> shown n "(" ")" "'" s) "".
(* [modules/agent/tools/pdf.go:extractPDFText] *)
Definition extractPDFText (data : string) : string :=
  TrimSpace (foldr (fun raw t =>
    let text := extractTextOperators (default raw (inflate raw)) in
    (if decide (text = "") then "" else text +:+ nl) +:+ t) "" (streams (String.length data) data)).
(* [modules/agent/tools/pdf.go:PDFReaderTool.Execute] *)
Definition PDF_Execute (input : Strings) : Result string :=
  let filePath := field "file_path" input in
  if decide (filePath = "") then Err "file_path is required"
  else
    size <-? wrap_err "open file" (Stat filePath) ;;
    if decide (50 * 1024 * 1024 < size) then Err ("file too large: " +:+ itoa size +:+ " bytes (max 52428800)")
    else
      data <-? wrap_err "read file" (ReadFile filePath) ;;
      if negb (has_prefix "%PDF-" data) then Err "not a valid PDF file"
      else if Contains data "/Encrypt" then Err "encrypted PDF: cannot extract text"
      else
        let text := extractPDFText data in
        if decide (text = "") then Err "no extractable text found (PDF may be image-only)"
        else Ok (cap (Z.to_nat 65536) (nl +:+ nl +:+ "[Output truncated at 64KB]") text).
End Pdf.

(** ** What holds *)

(** With an allowlist, a page is only navigated to when one of its entries starts the address. *)
Lemma navigation_listed chromedp urls input out : Chromium_Execute chromedp urls input = Ok out -> urls <> "" ->
  field "action" input = "navigate" -> exists p, p ∈ split "," urls /\ TrimSpace p <> "" /\ has_prefix (TrimSpace p) (field "url" input) = true.
Proof.
  unfold Chromium_Execute. intros H Hu Ha. rewrite Ha in H. do 2 (case_decide; [done|]).
  destruct (allowed urls _) eqn:E; [|by rewrite bool_decide_eq_true_2, bool_decide_eq_false_2 in H].
  unfold allowed in E. apply existsb_exists in E as [p [Hp [E1 E2]%andb_true_iff]].
  apply negb_true_iff, bool_decide_eq_false in E1. exists p. split; [|done]. by apply list_elem_of_In.
Qed.

(** Whatever the model asks for, the programs started in a cloud account are the one that takes the role, its account and its role
    of the allowed bytes only, and the command as given, the credentials beside it and not in it. *)
Lemma aws_programs exec parse input p : p ∈ (AWS_Execute exec parse input).1 ->
  (exists account role, p = assume_role account role /\ awsAccountRe account = true /\ awsRoleRe role = true) \/
  (exists region creds, p = in_account (field "command" input) region creds /\ awsRegionRe region = true).
Proof.
  unfold AWS_Execute. case_decide; [by intros ?%not_elem_of_nil|].
  destruct (awsAccountRe _) eqn:Ea; [|by intros ?%not_elem_of_nil]. destruct (awsRoleRe _) eqn:Er; [|by intros ?%not_elem_of_nil].
  destruct (awsRegionRe _) eqn:Eg; [|by intros ?%not_elem_of_nil]. cbn [negb].
  destruct (exec _) as [[out err] [e|]]; [intros ->%list_elem_of_singleton; left; eauto|].
  destruct (parse out) as [creds|e]; [|intros ->%list_elem_of_singleton; left; eauto].
  intros [->|[->|[]%not_elem_of_nil]%elem_of_cons]%elem_of_cons; [left|right]; eauto.
Qed.

(** ** At concrete inputs *)

Definition blank (cmds : list Cmd) : Result string :=
  match cmds with
  | [Navigate url; Title] => Ok "Example"
  | [Click sel] => Err "context deadline exceeded"
  | [Evaluate js] => Ok js
  | _ => Ok ""
  end.
Definition asked (l : list (string * string)) : Strings := list_to_map l.
(** An entry of the allowlist starts the address of another site too. *)
Example prefix_is_no_host :
  Chromium_Execute blank "https://example.com" (asked [("action", "navigate"); ("url", "https://example.com.evil.net/")]) =
    Ok ("Navigated to: https://example.com.evil.net/" +:+ nl +:+ "Title: Example") /\
  Chromium_Execute blank "https://example.com" (asked [("action", "navigate"); ("url", "https://example.org/")]) =
    Err ("URL " +:+ dq "https://example.org/" +:+ " not in allowlist (CHROMIUM_ALLOWED_URLS)").
Proof. split; vm_compute; reflexivity. Qed.
(** Only navigation is held to the allowlist; a script can leave for any page. *)
Example script_not_listed :
  Chromium_Execute blank "https://example.com" (asked [("action", "execute_js"); ("value", "location='http://10.0.0.1/'")]) = Ok "location='http://10.0.0.1/'".
Proof. vm_compute. reflexivity. Qed.
(** A sandboxed agent keeps the browser: the list of what it loses has the name without its last two letters. *)
Example sandbox_misses : AgentSession.SafeToolset [AdvancedBrowser_Name; Browser_Name; "web_reader"] "" = ["advanced_browser"; "web_reader"].
Proof. vm_compute. reflexivity. Qed.
(** On the last day of March the last month runs from March 1 to March 1. *)
Example last_month_empty :
  let '(start, stop) := cost_period "last_month" {| c_year := 2026; c_month := 3; c_day := 31 |} in (date_text start, date_text stop) = ("2026-03-01", "2026-03-01").
Proof. vm_compute. reflexivity. Qed.
(** An escaped backslash before an n becomes a line break. *)
Example unescape_order : unescapePDFString (esc (esc "name")) = esc (nl +:+ "ame").
Proof. vm_compute. reflexivity. Qed.
(** What is shown one string at a time comes before what is shown in arrays. *)
Example operators_grouped : extractTextOperators "[(Hello )] TJ (world) Tj" = "worldHello ".
Proof. vm_compute. reflexivity. Qed.
Example page_text : extractText "<html><SCRIPT>let x = 1</Script><p>a &amp;lt; b</p>
 c</html>" = "a < b c".
Proof. vm_compute. reflexivity. Qed.
