(* ===== verification/ToolVendors.v ===== *)
(** * ToolVendors: tools that call a service's API

    [src/modules/agent/tools]: github.go, jira.go, websearch.go, imagegen.go, tts.go, transcribe.go and send_notification.go.
    The services, what a decoder makes of their answers and the file system are arguments. *)
From S2P Require Import Prelude GoStr GoText.
From S2P Require Mcp ToolAgents ToolFiles.
Local Open Scope go_scope.
Local Open Scope Z_scope.

Notation json := Mcp.json.
Notation JStr := Mcp.JStr.
Notation JObj := Mcp.JObj.
Notation Strings := (gmap string string).
Definition field (k : string) (input : Strings) : string := default "" (input !! k).
Definition or_else (s d : string) : string := if decide (s = "") then d else s.
Definition lines_of {A} (line : A -> string) (l : list A) : string := foldr (fun a t => line a +:+ t) "" l.

Inductive Authorization := Anonymous | Bearer (key : string) | Basic (user password : string).
Inductive Body := NoBody | Json (j : json) | Form (fields : list (string * string)).
Record Request := { r_method : string; r_url : string; r_auth : Authorization; r_body : Body }.

(** Why an address makes no request, and what the service answers: a status and its body. *)
Class Services := { bad_request : string -> option error; send : Request -> Result (Z * string) }.
Definition ask `{Services} (what : string -> string) (r : Request) : Result (Z * string) :=
  match bad_request (r_url r) with
  | Some e => Err e
  | None => match send r with Ok resp => Ok resp | Err e => Err (what e) end
  end.
(** The first megabyte of an answer whose status is no error. *)
Definition answered (api : string) (resp : Z * string) : Result string :=
  let data := take_bytes (Z.to_nat (2 ^ 20)) resp.2 in
  if decide (400 <= resp.1) then Err (api +:+ " API " +:+ itoa resp.1 +:+ ": " +:+ data) else Ok data.

(** ** GitHub *)

Module GitHub.
(* [modules/agent/tools/github.go:GitHubTool.listPRs@102-109] *)
Record PR := { Number : Z; Title : string; Login : string; State : string }.
(* [modules/agent/tools/github.go:GitHubTool.getPR@131-142] *)
Record FullPR := { pr : PR; Text : string; Additions : Z; Deletions : Z }.
(* [modules/agent/tools/github.go:GitHubTool.createIssue@157-160] *)
Record Issue := { i_Number : Z; HTMLURL : string }.

Section Operations.
Context `{Services} (apiURL : string) (prs : string -> list PR) (a_pr : string -> FullPR) (an_issue : string -> Issue).
(* [modules/agent/tools/github.go:GitHubTool.doRequest] *)
Definition github_doRequest (method url token : string) (body : Body) : Result string :=
  resp <-? ask (fun e => "github API: " +:+ e) {| r_method := method; r_url := url; r_auth := Bearer token; r_body := body |} ;;
  answered "github" resp.
Definition endpoint (repo rest : string) : string := apiURL +:+ "/repos/" +:+ repo +:+ rest.
(* [modules/agent/tools/github.go:GitHubTool.listPRs] *)
Definition listPRs (repo token : string) : Result string :=
  data <-? github_doRequest "GET" (endpoint repo "/pulls?state=open&per_page=10") token NoBody ;;
  Ok ("Open PRs for " +:+ repo +:+ ":" +:+ nl +:+ nl +:+
      lines_of (fun p => "#" +:+ itoa (Number p) +:+ " — " +:+ Title p +:+ " (by @" +:+ Login p +:+ ")" +:+ nl) (prs data) +:+
      (if decide (length (prs data) = 0%nat) then "No open PRs." else "")).
(* [modules/agent/tools/github.go:GitHubTool.getPR] *)
Definition getPR (repo token number : string) : Result string :=
  if decide (number = "") then Err "number required for get_pr"
  else
    data <-? github_doRequest "GET" (endpoint repo ("/pulls/" +:+ number)) token NoBody ;;
    let p := a_pr data in
    Ok ("PR #" +:+ itoa (Number (pr p)) +:+ ": " +:+ Title (pr p) +:+ nl +:+ "Author: @" +:+ Login (pr p) +:+ nl +:+
        "State: " +:+ State (pr p) +:+ nl +:+ "+" +:+ itoa (Additions p) +:+ "/-" +:+ itoa (Deletions p) +:+ " lines" +:+ nl +:+ nl +:+ Text p).
(* [modules/agent/tools/github.go:GitHubTool.createIssue] *)
Definition github_createIssue (repo token title body : string) : Result string :=
  if decide (title = "") then Err "title required for create_issue"
  else
    data <-? github_doRequest "POST" (endpoint repo "/issues") token (Json (JObj [("title", JStr title); ("body", JStr body)])) ;;
    Ok ("Created issue #" +:+ itoa (i_Number (an_issue data)) +:+ ": " +:+ HTMLURL (an_issue data)).
(* [modules/agent/tools/github.go:GitHubTool.addComment] *)
Definition github_addComment (repo token number body : string) : Result string :=
  if decide (number = "" \/ body = "") then Err "number and body required for add_comment"
  else
    _ <-? github_doRequest "POST" (endpoint repo ("/issues/" +:+ number +:+ "/comments")) token (Json (JObj [("body", JStr body)])) ;;
    Ok ("Comment added to #" +:+ number).
(* [modules/agent/tools/github.go:GitHubTool.Execute] *)
Definition github_Execute (input : Strings) : Result string :=
  let action := field "action" input in
  let repo := field "repo" input in
  let token := field "token" input in
  if decide (action = "" \/ repo = "" \/ token = "") then Err "action, repo, and token are required"
  else if decide (action = "list_prs") then listPRs repo token
  else if decide (action = "get_pr") then getPR repo token (field "number" input)
  else if decide (action = "create_issue") then github_createIssue repo token (field "title" input) (field "body" input)
  else if decide (action = "add_comment") then github_addComment repo token (field "number" input) (field "body" input)
  else Err ("unknown action: " +:+ action +:+ " (supported: list_prs, get_pr, create_issue, add_comment)").
End Operations.
End GitHub.

(** ** Jira *)

Module Jira.
(* [modules/agent/tools/jira.go:JiraTool.search@100-110] *)
Record JiraIssue := { Key : string; Summary : string; Status : string; Assignee : string }.

Section Operations.
Context `{Services} (issues : string -> list JiraIssue) (an_issue : string -> JiraIssue).
(* [modules/agent/tools/jira.go:JiraTool.doRequest] *)
Definition jira_doRequest (method url email token : string) (body : Body) : Result string :=
  resp <-? ask id {| r_method := method; r_url := url; r_auth := Basic email token; r_body := body |} ;;
  answered "jira" resp.
(** A document of one paragraph. *)
Definition paragraph (text : string) : json :=
  JObj [("type", JStr "doc"); ("version", Mcp.JNum "1");
        ("content", Mcp.JArr [JObj [("type", JStr "paragraph"); ("content", Mcp.JArr [JObj [("type", JStr "text"); ("text", JStr text)]])]])].
(* [modules/agent/tools/jira.go:JiraTool.search] *)
Definition jira_search (baseURL email token jql : string) : Result string :=
  if decide (jql = "") then Err "query required for search"
  else
    data <-? jira_doRequest "GET" (baseURL +:+ "/rest/api/3/search?jql=" +:+ jql +:+ "&maxResults=10") email token NoBody ;;
    Ok ("Jira search results:" +:+ nl +:+ nl +:+
        lines_of (fun i => Key i +:+ " — " +:+ Summary i +:+ " [" +:+ Status i +:+ "]" +:+ nl) (issues data) +:+
        (if decide (length (issues data) = 0%nat) then "No results." else "")).
(* [modules/agent/tools/jira.go:JiraTool.getIssue] *)
Definition getIssue (baseURL email token key : string) : Result string :=
  if decide (key = "") then Err "key required"
  else
    data <-? jira_doRequest "GET" (baseURL +:+ "/rest/api/3/issue/" +:+ key) email token NoBody ;;
    let i := an_issue data in
    Ok (Key i +:+ ": " +:+ Summary i +:+ nl +:+ "Status: " +:+ Status i +:+ nl +:+ "Assignee: " +:+ Assignee i).
(* [modules/agent/tools/jira.go:JiraTool.createIssue] *)
Definition jira_createIssue (baseURL email token project title body : string) : Result string :=
  if decide (project = "" \/ title = "") then Err "project and title required"
  else
    let fields := [("project", JObj [("key", JStr project)]); ("summary", JStr title); ("issuetype", JObj [("name", JStr "Task")])] ++
                  (if decide (body = "") then [] else [("description", paragraph body)]) in
    data <-? jira_doRequest "POST" (baseURL +:+ "/rest/api/3/issue") email token (Json (JObj [("fields", JObj fields)])) ;;
    let key := Key (an_issue data) in
    Ok ("Created " +:+ key +:+ ": " +:+ baseURL +:+ "/browse/" +:+ key).
(* [modules/agent/tools/jira.go:JiraTool.addComment] *)
Definition jira_addComment (baseURL email token key body : string) : Result string :=
  if decide (key = "" \/ body = "") then Err "key and body required"
  else
    _ <-? jira_doRequest "POST" (baseURL +:+ "/rest/api/3/issue/" +:+ key +:+ "/comment") email token (Json (JObj [("body", paragraph body)])) ;;
    Ok ("Comment added to " +:+ key).
(* [modules/agent/tools/jira.go:JiraTool.Execute] *)
Definition jira_Execute (input : Strings) : Result string :=
  let action := field "action" input in
  let baseURL := field "base_url" input in
  let email := field "email" input in
  let token := field "token" input in
  if decide (action = "" \/ baseURL = "" \/ email = "" \/ token = "") then Err "action, base_url, email, and token are required"
  else if decide (action = "search") then jira_search baseURL email token (field "query" input)
  else if decide (action = "get_issue") then getIssue baseURL email token (field "key" input)
  else if decide (action = "create_issue") then jira_createIssue baseURL email token (field "project" input) (field "title" input) (field "body" input)
  else if decide (action = "add_comment") then jira_addComment baseURL email token (field "key" input) (field "body" input)
  else Err ("unknown action: " +:+ action).
End Operations.
End Jira.

(** ** Search, pictures and speech *)

Section Vendors.
Context `{Services}.
(** A status other than 200 is an error with the answer's text. *)
Definition fine (what : string) (body : string -> string) (resp : Z * string) : Result string :=
  if decide (resp.1 <> 200) then Err (what +:+ " error " +:+ itoa resp.1 +:+ ": " +:+ body resp.2) else Ok resp.2.
Definition created (e : error) : error := "create request: " +:+ e.
(** A request whose making, sending and status each have an error of their own. *)
Definition call (sent refused : string) (shown : string -> string) (r : Request) : Result string :=
  match bad_request (r_url r) with
  | Some e => Err (created e)
  | None => resp <-? wrap_err sent (send r) ;; fine refused shown resp
  end.

(* [modules/agent/tools/websearch.go:WebSearchTool] *)
Record WebSearchTool := { firecrawlURL : string; apiKey : string }.
(* [modules/agent/tools/websearch.go:NewWebSearchTool] *)
Definition NewWebSearchTool (gateway : option ToolAgents.ToolGateway) (FIRECRAWL_URL FIRECRAWL_API_KEY : string) : WebSearchTool :=
  let '(url, key, _) := ToolAgents.Endpoint gateway "search" (or_else FIRECRAWL_URL "http://localhost:3002") FIRECRAWL_API_KEY in
  {| firecrawlURL := url; apiKey := key |}.
(* [modules/agent/tools/websearch.go:WebSearchTool.Execute@92-97] *)
Record Found := { f_URL : string; f_Title : string; Description : string; Markdown : string }.
Definition bearer (key : string) : Authorization := if decide (key = "") then Anonymous else Bearer key.
Definition num_results (s : string) : Z := match Atoi s with Some n => if decide (1 <= n <= 10) then n else 5 | None => 5 end.
Fixpoint list_found (i : Z) (l : list Found) : string :=
  match l with
  | [] => ""
  | f :: l =>
      let desc := if bool_decide (Description f = "") && (200 <? String.length (Markdown f))%nat then take_bytes 200 (Markdown f) +:+ "..." else Description f in
      itoa i +:+ ". " +:+ or_else (f_Title f) (f_URL f) +:+ nl +:+ "   URL: " +:+ f_URL f +:+ nl +:+ "   " +:+ desc +:+ nl +:+ nl +:+ list_found (i + 1) l
  end.
(** [decode] reads whether the search succeeded and what it found. *)
(* [modules/agent/tools/websearch.go:WebSearchTool.Execute] *)
Definition WebSearch_Execute (decode : string -> Result (bool * list Found)) (t : WebSearchTool) (input : Strings) : Result string :=
  let query := field "query" input in
  if decide (query = "") then Err "query is required"
  else
    let limit := num_results (field "num_results" input) in
    data <-? call "search request" "search" id
      {| r_method := "POST"; r_url := firecrawlURL t +:+ "/v1/search"; r_auth := bearer (apiKey t);
         r_body := Json (JObj [("query", JStr query); ("limit", Mcp.JNum (itoa limit))]) |} ;;
    result <-? wrap_err "decode response" (decode data) ;;
    let '(success, found) := result in
    Ok (if negb success || (length found =? 0)%nat then "No results found." else list_found 1 found).

(* [modules/agent/tools/imagegen.go:ImageGenTool.Execute] *)
Definition ImageGen_Execute (apiURL : string) (decode : string -> Result (list (string * string))) (input : Strings) : Result string :=
  let prompt := field "prompt" input in
  let key := field "api_key" input in
  if decide (prompt = "" \/ key = "") then Err "prompt and api_key are required"
  else
    data <-? call "image generation API" "API" id
      {| r_method := "POST"; r_url := apiURL; r_auth := Bearer key;
         r_body := Json (JObj [("model", JStr (or_else (field "model" input) "dall-e-3")); ("prompt", JStr prompt); ("n", Mcp.JNum "1");
                               ("size", JStr (or_else (field "size" input) "1024x1024"))]) |} ;;
    images <-? wrap_err "decode response" (decode data) ;;
    match images with
    | [] => Err "no image generated"
    | (url, revised) :: _ => Ok ("Image URL: " +:+ url +:+ nl +:+ nl +:+ "Revised Prompt: " +:+ revised)
    end.

(* [modules/agent/tools/tts.go:NewTextToSpeechTool] *)
Definition NewTextToSpeechTool (gateway : option ToolAgents.ToolGateway) (OPENAI_API_KEY : string) : string :=
  (ToolAgents.Endpoint gateway "tts" "https://api.openai.com/v1/audio/speech" OPENAI_API_KEY).1.1.
(** The answer's bytes come with the error of reading them. *)
(* [modules/agent/tools/tts.go:TextToSpeechTool.Synthesize] *)
Definition Synthesize (apiURL : string) (read_error : string -> option error) (text key voice model format : string) : Result (string * string) :=
  if decide (TrimSpace text = "") then Err "text is required"
  else
    let format := or_else format "mp3" in
    audio <-? call "tts API" "tts API" (take_bytes 2048)
      {| r_method := "POST"; r_url := apiURL; r_auth := bearer key;
         r_body := Json (JObj [("model", JStr (or_else model "tts-1")); ("input", JStr text); ("voice", JStr (or_else voice "alloy"));
                               ("response_format", JStr format)]) |} ;;
    match read_error audio with
    | Some e => Err ("read audio: " +:+ e)
    | None => if decide (audio = "") then Err "provider returned no audio" else Ok (audio, format)
    end.
Inductive Effect := CreateTemp (path : string) | MkdirAll (dir : string) | WriteFile (path data : string).
(** What is done to the file system, and the answer; [temp] names a new file. *)
(* [modules/agent/tools/tts.go:TextToSpeechTool.Execute] *)
Definition TTS_Execute (apiURL outDir TempDir : string) (read_error : string -> option error) (temp : string -> string -> Result string)
    (write : string -> option error) (input : Strings) : list Effect * Result string :=
  match Synthesize apiURL read_error (field "text" input) (field "api_key" input) (field "voice" input) (field "model" input) (field "format" input) with
  | Err e => ([], Err e)
  | Ok (audio, format) =>
      let finish prepared outPath :=
        ([prepared; WriteFile outPath audio],
         match write outPath with
         | Some e => Err ("write audio: " +:+ e)
         | None => Ok ("Audio written to " +:+ outPath +:+ " (" +:+ itoa (Z.of_nat (String.length audio)) +:+ " bytes, " +:+ format +:+ ")")
         end) in
      let outPath := field "out_path" input in
      if decide (outPath = "") then
        match temp (or_else outDir TempDir) ("cyntr-tts-*." +:+ format) with
        | Err e => ([], Err ("create output file: " +:+ e))
        | Ok path => finish (CreateTemp path) path
        end
      else finish (MkdirAll (ToolFiles.Dir outPath)) outPath
  end.

(** [file] reads what there is of a file; [decode] the text of an answer, empty when it has none. *)
(* [modules/agent/tools/transcribe.go:TranscribeTool.Execute] *)
Definition Transcribe_Execute (apiURL : string) (file : string -> Result string) (decode : string -> string) (input : Strings) : Result string :=
  let filePath := field "file_path" input in
  let key := field "api_key" input in
  let lang := field "language" input in
  if decide (filePath = "" \/ key = "") then Err "file_path and api_key are required"
  else
    content <-? wrap_err "open file" (file filePath) ;;
    let form := [("file", content); ("model", "whisper-1")] ++ (if decide (lang = "") then [] else [("language", lang)]) in
    resp <-? ask (fun e => "transcription API: " +:+ e) {| r_method := "POST"; r_url := apiURL; r_auth := Bearer key; r_body := Form form |} ;;
    data <-? fine "API" id resp ;;
    Ok (decode data).

Definition severity_prefix (severity : string) : string :=
  if decide (severity = "warning") then "[WARNING]" else if decide (severity = "critical") then "[CRITICAL]" else "[INFO]".
(* [modules/agent/tools/send_notification.go:SendNotificationTool.Execute] *)
Definition SendNotification_Execute (input : Strings) : Result string :=
  let url := field "webhook_url" input in
  let title := field "title" input in
  let message := field "message" input in
  let severity := or_else (field "severity" input) "info" in
  if decide (url = "" \/ title = "" \/ message = "") then Err "webhook_url, title, and message are required"
  else match bad_request url with
  | Some e => Err (created e)
  | None =>
      resp <-? wrap_err "send notification" (send {| r_method := "POST"; r_url := url; r_auth := Anonymous;
        r_body := Json (JObj [("text", JStr (severity_prefix severity +:+ " *" +:+ title +:+ "*" +:+ nl +:+ message))]) |}) ;;
      if decide (400 <= resp.1) then Err ("webhook returned " +:+ itoa resp.1)
      else Ok ("Notification sent: [" +:+ severity +:+ "] " +:+ title)
  end.
End Vendors.

(** ** Who gets the credentials *)

(** Services that answer the requests of a kind in the same way. *)
Definition agree (P : Request -> Prop) (s1 s2 : Services) : Prop :=
  (forall url, @bad_request s1 url = @bad_request s2 url) /\ forall r, P r -> @send s1 r = @send s2 r.
Lemma ask_agree P s1 s2 what r : agree P s1 s2 -> P r -> @ask s1 what r = @ask s2 what r.
Proof. intros [Hb Hs] Hp. unfold ask. by rewrite Hb, Hs. Qed.
Definition from (base : string) (auth : Authorization) (r : Request) : Prop := (exists rest, r_url r = base +:+ rest) /\ r_auth r = auth.

(** A token for GitHub is sent to nobody but the API, below the repository's address as the model gave it. *)
Lemma github_asks_api apiURL prs a_pr an_issue input s1 s2 :
  agree (from (apiURL +:+ "/repos/" +:+ field "repo" input) (Bearer (field "token" input))) s1 s2 ->
  @GitHub.github_Execute s1 apiURL prs a_pr an_issue input = @GitHub.github_Execute s2 apiURL prs a_pr an_issue input.
Proof.
  intros Ha. assert (Hd : forall method rest body,
    @GitHub.github_doRequest s1 method (GitHub.endpoint apiURL (field "repo" input) rest) (field "token" input) body =
    @GitHub.github_doRequest s2 method (GitHub.endpoint apiURL (field "repo" input) rest) (field "token" input) body).
  { intros. unfold GitHub.github_doRequest. erewrite ask_agree; [done|exact Ha|]. split; [|done].
    exists rest. unfold GitHub.endpoint. cbn [r_url]. by rewrite !str_app_assoc. }
  unfold GitHub.github_Execute, GitHub.listPRs, GitHub.getPR, GitHub.github_createIssue, GitHub.github_addComment. by rewrite !Hd.
Qed.
(** The account's token for Jira goes to the address the model gave, whatever site that is. *)
Lemma jira_asks_base issues an_issue input s1 s2 :
  agree (from (field "base_url" input +:+ "/rest/api/3/") (Basic (field "email" input) (field "token" input))) s1 s2 ->
  @Jira.jira_Execute s1 issues an_issue input = @Jira.jira_Execute s2 issues an_issue input.
Proof.
  intros Ha. assert (Hd : forall method url body, (exists rest, url = field "base_url" input +:+ "/rest/api/3/" +:+ rest) ->
    @Jira.jira_doRequest s1 method url (field "email" input) (field "token" input) body =
    @Jira.jira_doRequest s2 method url (field "email" input) (field "token" input) body).
  { intros method url body [rest ->]. unfold Jira.jira_doRequest. erewrite ask_agree; [done|exact Ha|]. split; [|done]. exists rest. by rewrite str_app_assoc. }
  unfold Jira.jira_Execute, Jira.jira_search, Jira.getIssue, Jira.jira_createIssue, Jira.jira_addComment.
  repeat (case_decide; [try reflexivity|]); try reflexivity; (rewrite Hd; [reflexivity|eexists; cbn; reflexivity]).
Qed.

(** ** At concrete inputs *)

(** A service that shows what it was asked. *)
Definition echo : Services := {| bad_request := fun _ => None; send := fun r => Ok (500, r_method r +:+ " " +:+ r_url r) |}.
Definition asked (l : list (string * string)) : Strings := list_to_map l.
(** Nothing is escaped on the way into an address: a number climbs out of the repository, a query sets parameters of its own. *)
Example number_climbs :
  @GitHub.github_Execute echo "https://api.github.com" (fun _ => []) (fun _ => {| GitHub.pr := {| GitHub.Number := 0; GitHub.Title := ""; GitHub.Login := ""; GitHub.State := "" |};
      GitHub.Text := ""; GitHub.Additions := 0; GitHub.Deletions := 0 |}) (fun _ => {| GitHub.i_Number := 0; GitHub.HTMLURL := "" |})
    (asked [("action", "get_pr"); ("repo", "me/it"); ("token", "t"); ("number", "../../../user")]) =
  Err "github API 500: GET https://api.github.com/repos/me/it/pulls/../../../user".
Proof. vm_compute. reflexivity. Qed.
(** Speech routed through the bundled gateway is asked for at its bare address and without its key. *)
Example speech_without_key :
  let gw := ToolAgents.ToolGatewayFromEnv "https://gw.example/" "secret" "" in
  NewTextToSpeechTool gw "" = "https://gw.example" /\ bearer (field "api_key" (asked [("text", "hello")])) = Anonymous /\
  apiKey (NewWebSearchTool gw "" "") = "secret".
Proof. repeat split; vm_compute; reflexivity. Qed.
(** Between 1 and 200 bytes of an article are not shown when there is no description. *)
Example short_article_dropped :
  list_found 1 [{| f_URL := "u"; f_Title := ""; Description := ""; Markdown := "short" |}] =
  "1. u" +:+ nl +:+ "   URL: u" +:+ nl +:+ "   " +:+ nl +:+ nl.
Proof. vm_compute. reflexivity. Qed.
