(* ===== verification/Host.v ===== *)
(** * Host: the files of a node's machine

    Three modules, each over the file system it needs: Workspace, the context files of an agent and the schema migrations
    ([src/modules/agent/context_files.go], [migrations.go]); Migrate, the import of an OpenClaw home
    ([src/cmd/cyntr/migrate]); Backup, the operator's archive of a working directory ([src/cmd/cyntr/backup.go]). *)
From S2P Require Import Prelude GoStr GoText Paths.
From S2P Require Skills SkillFiles Config ToolFiles.

(** * Workspace: the files of an agent's workspace, and schema migrations

    [src/modules/agent/context_files.go] and [migrations.go].  The file system is what stating and reading a path give, the
    database what each statement does. *)
Module Workspace.
Local Open Scope go_scope.
Local Open Scope Z_scope.

(* [modules/agent/context_files.go:DefaultContextFileNames] *)
Definition DefaultContextFileNames : list string := ["AGENTS.md"; "CYNTR.md"; "SOUL.md"; "TOOLS.md"].
(** A cached file is its time of change and its text. *)
(* [modules/agent/context_files.go:ContextLoader] *)
Record ContextLoader := { root : string; names : list string; cache : gmap string (time * string) }.
(* [modules/agent/context_files.go:NewContextLoader] *)
Definition NewContextLoader (root : string) (names : list string) : ContextLoader :=
  {| root := root; names := if decide (names = []) then DefaultContextFileNames else names; cache := ∅ |}.

Section Loader.
(** The working directory; a path's time of change and whether it is a directory; a file's text. *)
Context (cwd : Result string) (Stat : string -> Result (time * bool)) (ReadFile : string -> Result string).

(* [modules/agent/context_files.go:ContextLoader.safeDir] *)
Definition safeDir (c : ContextLoader) (tenant agent : string) : option string :=
  match Abs cwd (root c) with
  | Err _ => None
  | Ok rootAbs =>
      let dir := Clean (rootAbs +:+ "/" +:+ tenant +:+ "/" +:+ agent) in
      if ToolFiles.escapes (Rel rootAbs dir) then None else Some dir
  end.
(* [modules/agent/context_files.go:ContextLoader.readCached] *)
Definition readCached (path : string) (c : ContextLoader) : ContextLoader * string :=
  match Stat path with
  | Err _ | Ok (_, true) => (c, "")
  | Ok (mtime, false) =>
      let fresh :=
        match ReadFile path with
        | Err _ => (c, "")
        | Ok data => ({| root := root c; names := names c; cache := <[path := (mtime, data)]> (cache c) |}, data)
        end in
      match cache c !! path with
      | Some (t, content) => if decide (t = mtime) then (c, content) else fresh
      | None => fresh
      end
  end.
Fixpoint load_files (dir : string) (ns : list string) (c : ContextLoader) (b : string) : ContextLoader * string :=
  match ns with
  | [] => (c, b)
  | name :: ns =>
      let '(c, content) := readCached (Join2 dir name) c in
      if decide (TrimSpace content = "") then load_files dir ns c b
      else load_files dir ns c (b +:+ (if decide (b = "") then "" else nl +:+ nl) +:+ "# " +:+ name +:+ nl +:+ nl +:+ TrimRight ["010"%char] content +:+ nl)
  end.
(** [None] when there is no loader. *)
(* [modules/agent/context_files.go:ContextLoader.Load] *)
Definition Load (c : option ContextLoader) (tenant agent : string) : option ContextLoader * string :=
  match c with
  | None => (None, "")
  | Some c =>
      if decide (root c = "") then (Some c, "")
      else match safeDir c tenant agent with
           | None => (Some c, "")
           | Some dir => let '(c, text) := load_files dir (names c) c "" in (Some c, text)
           end
  end.

(** The cache holds what was in the files at their times: [at_] is a file's text at a time. *)
Context (at_ : string -> time -> string).
Definition cache_true (c : ContextLoader) : Prop := map_Forall (fun path tc => tc.2 = at_ path tc.1) (cache c).
(** What is now in a file that can be read. *)
Definition now_in (path : string) : string :=
  match Stat path with Ok (mtime, false) => at_ path mtime | _ => "" end.
Context (Hread : forall path mtime, Stat path = Ok (mtime, false) -> ReadFile path = Ok (at_ path mtime)).
Lemma readCached_now path c : cache_true c -> (readCached path c).2 = now_in path /\ cache_true (readCached path c).1 /\ names (readCached path c).1 = names c.
Proof.
  intros Hc. unfold readCached, now_in. destruct (Stat path) as [[mtime [|]]|] eqn:Es; [done| |done]. cbv zeta. rewrite (Hread _ _ Es).
  assert (Hn : cache_true {| root := root c; names := names c; cache := <[path := (mtime, at_ path mtime)]> (cache c) |}) by (apply map_Forall_insert_2; done).
  destruct (cache c !! path) as [[t content]|] eqn:E; [|done]. case_decide as Ht; [|done]. subst t. split; [|done]. exact (Hc _ _ E).
Qed.
(** The text of a directory's files, from what is in them. *)
Fixpoint text_of (dir : string) (ns : list string) (b : string) : string :=
  match ns with
  | [] => b
  | name :: ns =>
      let content := now_in (Join2 dir name) in
      text_of dir ns (if decide (TrimSpace content = "") then b
                      else b +:+ (if decide (b = "") then "" else nl +:+ nl) +:+ "# " +:+ name +:+ nl +:+ nl +:+ TrimRight ["010"%char] content +:+ nl)
  end.
Lemma load_files_now dir ns : forall c b, cache_true c -> (load_files dir ns c b).2 = text_of dir ns b /\ cache_true (load_files dir ns c b).1.
Proof.
  induction ns as [|name ns IH]; intros c b Hc; [done|]. cbn [load_files text_of]. destruct (readCached_now (Join2 dir name) c Hc) as (E & Hc1 & _).
  destruct (readCached _ c) as [c1 content]. cbn [fst snd] in *. subst content. cbv zeta. case_decide; by apply IH.
Qed.
(** Edits are seen: what is loaded is made of what is in the files now, whatever was cached before. *)
Lemma load_current c tenant agent dir : cache_true c -> root c <> "" -> safeDir c tenant agent = Some dir -> (Load (Some c) tenant agent).2 = text_of dir (names c) "".
Proof.
  intros Hc Hr Hd. unfold Load. rewrite decide_False by done. rewrite Hd. destruct (load_files_now dir (names c) c "" Hc) as [E _].
  by destruct (load_files dir (names c) c "").
Qed.
End Loader.
(** Whatever a tenant and an agent are called, their directory is below the root. *)
Lemma workspace_confined cwd c tenant agent dir : (forall d, cwd = Ok d -> IsAbs d = true) -> safeDir cwd c tenant agent = Some dir ->
  exists rootAbs, Abs cwd (root c) = Ok rootAbs /\ ToolFiles.inside rootAbs dir.
Proof.
  intros Hcwd. unfold safeDir. destruct (Abs cwd (root c)) as [rootAbs|] eqn:E; [|done]. cbv zeta. destruct (ToolFiles.escapes _) eqn:Ee; [done|].
  intros [= <-]. exists rootAbs. split; [done|]. apply ToolFiles.Rel_inside; [|done].
  apply Clean_rooted, IsAbs_app. unfold Abs in E. destruct (IsAbs (root c)) eqn:Ei; [injection E as <-; by apply Clean_rooted|].
  apply rbind_Ok in E as (wd & Hw & E). injection E as <-. apply Clean_rooted, IsAbs_app. by apply Hcwd.
Qed.
(** But not below that of the tenant: an agent may be named for the files of another tenant's. *)
Example other_tenant_loaded :
  safeDir (Ok "/srv") (NewContextLoader "workspace" []) "acme" "../beta/bot" = Some "/srv/workspace/beta/bot".
Proof. vm_compute. reflexivity. Qed.

(** ** Schema migrations *)

(** A version and its description. *)
(* [modules/agent/migrations.go:Migrations] *)
Definition Migrations : list (Z * string) :=
  [(1, "Add users table"); (2, "Add messages FTS index"); (3, "Add usage tracking table"); (4, "Add agent_versions table")].
(** [exec] is the error of a migration's statement, [counts] and [records] whether asking for a version's row and inserting it work; the state is
    the versions recorded and those whose statement ran. *)
(* [modules/agent/migrations.go:RunMigrations] *)
Fixpoint RunMigrations (exec : Z -> option error) (counts records : Z -> bool) (ms : list (Z * string)) (st : gset Z * list Z) : gset Z * list Z * option error :=
  match ms with
  | [] => (st, None)
  | (v, description) :: ms =>
      let '(recorded, ran) := st in
      if decide (v ∈ recorded /\ counts v = true) then RunMigrations exec counts records ms st
      else match exec v with
           | Some e => (st, Some ("migration v" +:+ itoa v +:+ " (" +:+ description +:+ ") failed: " +:+ e))
           | None => RunMigrations exec counts records ms (if records v then {[v]} ∪ recorded else recorded, ran ++ [v])
           end
  end.
Lemma filter_more (v : Z) (recorded : gset Z) (l : list Z) : v ∉ l -> filter (fun w => w ∉ {[v]} ∪ recorded) l = filter (fun w => w ∉ recorded) l.
Proof.
  induction l as [|w l IH]; intros Hv; [done|]. rewrite !filter_cons. apply not_elem_of_cons in Hv as [Hw Hv]. rewrite (IH Hv).
  destruct (decide (w ∈ recorded)); [rewrite !decide_False by set_solver|rewrite !decide_True by set_solver]; done.
Qed.
(** Migrations run in order, and those recorded do not run again: a run that succeeds has recorded all of them, having run just the ones
    that were not. *)
Lemma migrations_once exec ms : NoDup ms.*1 -> forall recorded ran recorded' ran',
  RunMigrations exec (fun _ => true) (fun _ => true) ms (recorded, ran) = (recorded', ran', None) ->
  recorded' = list_to_set ms.*1 ∪ recorded /\ ran' = ran ++ filter (fun v => v ∉ recorded) ms.*1.
Proof.
  intros Hnd. induction ms as [|[v d] ms IH]; intros recorded ran recorded' ran'; cbn [RunMigrations].
  { intros [= <- <-]. cbn. split; [set_solver|by rewrite app_nil_r]. }
  apply NoDup_cons in Hnd as [Hv Hnd]. rewrite fmap_cons, filter_cons. cbn [fst list_to_set]. case_decide as Hd.
  - intros E. apply (IH Hnd) in E as [-> ->]. destruct Hd as [Hd _]. rewrite (decide_False (P := v ∉ recorded)) by set_solver. split; [set_solver|done].
  - destruct (exec v); [done|]. intros E. apply (IH Hnd) in E as [-> ->]. rewrite (decide_True (P := v ∉ recorded)) by naive_solver. split; [set_solver|].
    rewrite <-app_assoc, filter_more by done. done.
Qed.
(** One whose record is lost runs again. *)
Example unrecorded_runs_again :
  let '(r1, ran1, _) := RunMigrations (fun _ => None) (fun _ => true) (fun v => negb (v =? 3)) Migrations (∅, []) in
  let '(_, ran2, _) := RunMigrations (fun _ => None) (fun _ => true) (fun _ => true) Migrations (r1, []) in (ran1, ran2) = ([1; 2; 3; 4], [3]).
Proof. vm_compute. reflexivity. Qed.
End Workspace.

(** * Migrate: importing an OpenClaw home

    [src/cmd/cyntr/migrate]: skills and configuration of another runtime are planned, shown and written, over a file
    system of files and directories.  YAML, JSON, the environment, the clock and the failing of a write are arguments. *)
Module Migrate.
Import Skills (InstalledSkill, Manifest, SkillManifest, Instructions, skill_name).
Import Config (CyntrConfig, DefaultConfig, Listen, Address, WebUI, Auth, Provider, Issuer, ClientID).
Local Open Scope go_scope.
Local Open Scope Z_scope.

(** ** The file system *)

Inductive node := File (text : string) | Dir.
(** A place is the segments from the root. *)
Notation place := (list string).
Notation FS := (gmap place node).

Definition prefixes (l : place) : list place := (fun n => take n l) <$> seq 0 (S (length l)).
Definition make_dir (fs : FS) (l : place) : FS := match fs !! l with None => <[l := Dir]> fs | Some _ => fs end.
(** What is below a place makes the place be there. *)
Definition closed (fs : FS) : Prop := forall l x, fs !! (l ++ [x]) <> None -> fs !! l <> None.
(** Everything is as it was, except at some places. *)
Definition kept (ex : list place) (fs fs' : FS) : Prop := forall l n, l ∉ ex -> fs !! l = Some n -> fs' !! l = Some n.
Lemma kept_refl ex fs : kept ex fs fs.
Proof. by intros l n _. Qed.
Lemma kept_trans ex fs1 fs2 fs3 : kept ex fs1 fs2 -> kept ex fs2 fs3 -> kept ex fs1 fs3.
Proof. intros H1 H2 l n Hl Hn. by apply H2, H1. Qed.
Lemma kept_weaken ex ex' fs fs' : ex ⊆ ex' -> kept ex fs fs' -> kept ex' fs fs'.
Proof. intros He Hk l n Hl. apply Hk. set_solver. Qed.

Lemma make_dirs ls : forall fs, kept [] fs (foldl make_dir fs ls) /\ (forall l, foldl make_dir fs ls !! l <> None <-> fs !! l <> None \/ l ∈ ls) .
Proof.
  induction ls as [|q ls IH]; intros fs; cbn [foldl]; [split; [apply kept_refl|set_solver]|].
  destruct (IH (make_dir fs q)) as [Hk Hd]. split.
  - eapply kept_trans; [|exact Hk]. intros l n _ Hn. unfold make_dir. destruct (fs !! q) eqn:E; [done|]. rewrite lookup_insert_ne; [done|congruence].
  - intros l. rewrite Hd, elem_of_cons. unfold make_dir. destruct (fs !! q) as [n|] eqn:E.
    + split; [naive_solver|]. intros [?|[->|?]]; [by left|left; congruence|by right].
    + destruct (decide (l = q)) as [->|Hne]; [rewrite lookup_insert_eq; naive_solver|]. rewrite lookup_insert_ne by done. naive_solver.
Qed.
Lemma prefixes_spec l q : q ∈ prefixes l <-> exists n, (n <= length l)%nat /\ q = take n l.
Proof.
  unfold prefixes. rewrite list_elem_of_fmap. setoid_rewrite elem_of_seq. split; intros (n & Hn1 & Hn2); exists n; split; auto; lia.
Qed.
(** Writing where nothing was keeps everything. *)
Lemma kept_absent ex fs fs' : (forall l, l ∈ ex -> fs !! l = None) -> kept ex fs fs' -> kept [] fs fs'.
Proof. intros He Hk l n _ Hn. apply Hk; [|done]. intros Hl. rewrite He in Hn; done. Qed.

Section FileSystem.
(** The working directory; the error of a write with what was written before it. *)
Context (cwd : string) (fault : place -> option (error * string)).
Definition loc (p : string) : place := clean_segs (if IsAbs p then p else cwd +:+ "/" +:+ p).
Definition ReadFile (fs : FS) (p : string) : Result string :=
  match fs !! loc p with
  | Some (File text) => Ok text
  | Some Dir => Err ("read " +:+ p +:+ ": is a directory")
  | None => Err ("open " +:+ p +:+ ": no such file or directory")
  end.
Definition MkdirAll (p : string) (fs : FS) : FS * option error :=
  if existsb (fun l => match fs !! l with Some (File _) => true | _ => false end) (prefixes (loc p)) then (fs, Some ("mkdir " +:+ p +:+ ": not a directory"))
  else (foldl make_dir fs (prefixes (loc p)), None).
Definition WriteFile (p data : string) (fs : FS) : FS * option error :=
  let l := loc p in
  match fs !! removelast l, fs !! l with
  | Some Dir, Some Dir => (fs, Some ("open " +:+ p +:+ ": is a directory"))
  | Some Dir, _ => match fault l with
                   | Some (e, part) => (<[l := File part]> fs, Some e)
                   | None => (<[l := File data]> fs, None)
                   end
  | _, _ => (fs, Some ("open " +:+ p +:+ ": no such file or directory"))
  end.

Lemma MkdirAll_kept p fs fs' e : MkdirAll p fs = (fs', e) -> kept [] fs fs' /\ (closed fs -> closed fs').
Proof.
  unfold MkdirAll. case_match; intros [= <- <-]; [split; [apply kept_refl|done]|]. destruct (make_dirs (prefixes (loc p)) fs) as [Hk Hd]. split; [done|].
  intros Hc l x. rewrite !Hd. intros [Hx|Hx]; [left; by eapply Hc|]. right. apply prefixes_spec in Hx as (n & Hn & E). apply prefixes_spec.
  exists (length l). assert (length (l ++ [x]) = n) as <- by (rewrite E, length_take; lia). rewrite length_app in Hn. cbn [length] in Hn. split; [lia|].
  assert (take (length l) (l ++ [x]) = l) as El by apply take_app_length. rewrite <-El at 1. rewrite E, take_take, length_app. f_equal. cbn. lia.
Qed.
Lemma WriteFile_kept p data fs fs' e : WriteFile p data fs = (fs', e) -> kept [loc p] fs fs' /\ (closed fs -> closed fs').
Proof.
  assert (Hins : forall n l, kept [l] fs (<[l := n]> fs)).
  { intros n l q m Hq Hm. rewrite lookup_insert_ne; [done|]. intros ->. apply Hq. by left. }
  assert (Hcl : forall n, fs !! removelast (loc p) = Some Dir -> closed fs -> closed (<[loc p := n]> fs)).
  { intros n Hd Hc l x. destruct (decide (l = loc p)) as [->|Hl]; [by rewrite lookup_insert_eq|]. rewrite (lookup_insert_ne _ (loc p) l) by done.
    destruct (decide (l ++ [x] = loc p)) as [E|E]; [|rewrite lookup_insert_ne by done; apply Hc].
    intros _. rewrite <-E, removelast_last in Hd. by rewrite Hd. }
  unfold WriteFile. cbv zeta. destruct (fs !! removelast (loc p)) as [[t|]|] eqn:Ep; [intros [= <- <-]; split; [apply kept_refl|done]| |intros [= <- <-]; split; [apply kept_refl|done]].
  destruct (fs !! loc p) as [[t|]|]; [|intros [= <- <-]; split; [apply kept_refl|done]|]; destruct (fault (loc p)) as [[err part]|]; intros [= <- <-]; auto.
Qed.
Lemma WriteFile_written p data fs fs' : WriteFile p data fs = (fs', None) -> ReadFile fs' p = Ok data.
Proof.
  unfold WriteFile, ReadFile. cbv zeta. destruct (fs !! removelast (loc p)) as [[|]|]; [done| |done].
  destruct (fs !! loc p) as [[|]|]; [|done|]; destruct (fault (loc p)) as [[? ?]|]; intros [=]; subst fs'; by rewrite lookup_insert_eq.
Qed.
Lemma read_kept ex fs fs' p data : kept ex fs fs' -> loc p ∉ ex -> ReadFile fs p = Ok data -> ReadFile fs' p = Ok data.
Proof.
  intros Hk Hl. unfold ReadFile. destruct (fs !! loc p) as [[t|]|] eqn:E; [|done|done]. by rewrite (Hk _ _ Hl E).
Qed.
End FileSystem.

(** ** The plan *)

(* [cmd/cyntr/migrate/openclaw.go:Options] *)
Record Options := { OpenClawDir : string; ConfigPath : string; SkillsDir : string; o_Tenant : string; DryRun : bool }.
(* [cmd/cyntr/migrate/openclaw.go:changeAction] *)
Inductive changeAction := actionCreate | actionConflict.
#[export] Instance changeAction_eq_dec : EqDecision changeAction.
Proof. solve_decision. Defined.
(* [cmd/cyntr/migrate/openclaw.go:skillChange] *)
Record skillChange := { sc_Name : string; sc_Source : string; Dest : string; sc_Action : changeAction; sc_Version : string; sc_Err : string }.
(* [cmd/cyntr/migrate/openclaw.go:configChange] *)
Record configChange := { cc_Field : string; Value : string; cc_Action : changeAction }.
(* [cmd/cyntr/migrate/openclaw.go:Report] *)
Record Report := { r_opts : Options; Timestamp : time; Skills : list skillChange; Config : list configChange; Applied : list string }.
(** [strings.EqualFold] with a word of which no letter folds to one that is not ASCII. *)
Fixpoint lower_ascii (s : string) : string :=
  match s with "" => "" | String c s => String (let n := N_of_ascii c in if ((65 <=? n) && (n <=? 90))%N then ascii_of_N (n + 32) else c) (lower_ascii s) end.
Definition EqualFold (s word : string) : Prop := lower_ascii s = lower_ascii word.
#[export] Instance EqualFold_dec s t : Decision (EqualFold s t).
Proof. unfold EqualFold. apply _. Defined.
(** The flags, of which the ones without their value are dropped, as is what is not a flag. *)
(* [cmd/cyntr/migrate/openclaw.go:ParseArgs] *)
Fixpoint ParseArgs (args : list string) (o : Options) : Options :=
  match args with
  | [] => o
  | a :: args =>
      if decide (a = "--dry-run") then ParseArgs args {| OpenClawDir := OpenClawDir o; ConfigPath := ConfigPath o; SkillsDir := SkillsDir o; o_Tenant := o_Tenant o; DryRun := true |}
      else if decide (a ∈ ["--tenant"; "--dir"; "--config"; "--skills-dir"]) then
        match args with
        | [] => o
        | v :: args =>
            ParseArgs args
              (if decide (a = "--tenant") then {| OpenClawDir := OpenClawDir o; ConfigPath := ConfigPath o; SkillsDir := SkillsDir o; o_Tenant := v; DryRun := DryRun o |}
               else if decide (a = "--dir") then {| OpenClawDir := v; ConfigPath := ConfigPath o; SkillsDir := SkillsDir o; o_Tenant := o_Tenant o; DryRun := DryRun o |}
               else if decide (a = "--config") then {| OpenClawDir := OpenClawDir o; ConfigPath := v; SkillsDir := SkillsDir o; o_Tenant := o_Tenant o; DryRun := DryRun o |}
               else {| OpenClawDir := OpenClawDir o; ConfigPath := ConfigPath o; SkillsDir := v; o_Tenant := o_Tenant o; DryRun := DryRun o |})
        end
      else ParseArgs args
             (if has_prefix "--dry-run=" a then {| OpenClawDir := OpenClawDir o; ConfigPath := ConfigPath o; SkillsDir := SkillsDir o; o_Tenant := o_Tenant o;
                                                   DryRun := bool_decide (EqualFold (TrimPrefix a "--dry-run=") "true") |} else o)
  end.
(* [cmd/cyntr/migrate/openclaw.go:Report.Counts] *)
Definition Counts (r : Report) : nat * nat * nat :=
  let ok := filter (fun s => sc_Err s = "") (Skills r) in
  ((length (filter (fun s => sc_Action s = actionCreate) ok) + length (filter (fun c => cc_Action c = actionCreate) (Config r)))%nat,
   (length (filter (fun s => sc_Action s = actionConflict) ok) + length (filter (fun c => cc_Action c = actionConflict) (Config r)))%nat,
   length (filter (fun s => sc_Err s <> "") (Skills r))).
(* [cmd/cyntr/migrate/openclaw.go:openClawConfig] *)
Record openClawConfig := { oc_Address : string; oc_WebUI : string; oc_Provider : string; oc_Issuer : string; oc_ClientID : string }.
(** The fields that can be imported: of the other configuration, and of Cyntr's. *)
Definition incoming (oc : openClawConfig) : list (string * string) :=
  [("listen.address", oc_Address oc); ("listen.webui", oc_WebUI oc); ("auth.provider", oc_Provider oc); ("auth.issuer", oc_Issuer oc); ("auth.client_id", oc_ClientID oc)].
Definition get_field (f : string) (c : CyntrConfig) : string :=
  if decide (f = "listen.address") then Address (Listen c) else if decide (f = "listen.webui") then WebUI (Listen c)
  else if decide (f = "auth.provider") then Provider (Auth c) else if decide (f = "auth.issuer") then Issuer (Auth c)
  else if decide (f = "auth.client_id") then ClientID (Auth c) else "".
Definition with_listen_auth (l : Config.ListenConfig) (a : Config.AuthConfig) (c : CyntrConfig) : CyntrConfig :=
  {| Config.Version := Config.Version c; Listen := l; Config.Tenants := Config.Tenants c; Auth := a; Config.Audit := Config.Audit c;
     Config.Federation := Config.Federation c; Config.ShellExecPolicies := Config.ShellExecPolicies c; Config.Packs := Config.Packs c |}.
Definition set_field (f v : string) (c : CyntrConfig) : CyntrConfig :=
  let l := Listen c in let a := Auth c in
  if decide (f = "listen.address") then with_listen_auth {| Address := v; WebUI := WebUI l |} a c
  else if decide (f = "listen.webui") then with_listen_auth {| Address := Address l; WebUI := v |} a c
  else if decide (f = "auth.provider") then with_listen_auth l {| Provider := v; Issuer := Issuer a; ClientID := ClientID a |} c
  else if decide (f = "auth.issuer") then with_listen_auth l {| Provider := Provider a; Issuer := v; ClientID := ClientID a |} c
  else if decide (f = "auth.client_id") then with_listen_auth l {| Provider := Provider a; Issuer := Issuer a; ClientID := v |} c
  else c.
Lemma get_set_field f g v c : f <> g -> get_field g (set_field f v c) = get_field g c.
Proof. intros Hne. unfold get_field, set_field. repeat case_decide; subst; done. Qed.

Section Run.
Context (cwd : string) (fault : place -> option (error * string)).
(** The order of skills in a plan. *)
Definition by_name (a b : skillChange) : Prop := string_le (sc_Name a) (sc_Name b).
Context {sorter : SliceSorter by_name}.
(** The directories' entries, with whether each is a directory; YAML of front matter, of manifests and of configurations,
    which are read onto one that is there, as far as they can be when there is an error; JSON of the other configuration; a report as JSON, and its file's stamp. *)
Context (ReadDir : FS -> string -> Result (list (string * bool))) (unmarshal_front : string -> Result SkillFiles.Frontmatter).
Context (marshal_manifest : SkillManifest -> Result string) (unmarshal : CyntrConfig -> string -> CyntrConfig * option error) (marshal : CyntrConfig -> Result string).
Context (oc_yaml oc_json : string -> Result openClawConfig) (marshal_report : Report -> Result string) (stamp : time -> string).
(** The environment and the user's home. *)
Context (getenv : string -> string) (UserHomeDir : Result string).
Notation read := (ReadFile cwd).

(* [cmd/cyntr/migrate/openclaw.go:homeDir] *)
Definition homeDir : string :=
  match UserHomeDir with
  | Ok h => if decide (h <> "") then h else if decide (getenv "HOME" <> "") then getenv "HOME" else "."
  | Err _ => if decide (getenv "HOME" <> "") then getenv "HOME" else "."
  end.
(* [cmd/cyntr/migrate/openclaw.go:resolveOpenClawDir] *)
Definition resolveOpenClawDir (explicit : string) : string :=
  if decide (explicit <> "") then explicit else if decide (getenv "CYNTR_OPENCLAW_DIR" <> "") then getenv "CYNTR_OPENCLAW_DIR" else Join2 homeDir ".openclaw".
(* [cmd/cyntr/migrate/openclaw.go:resolveConfigPath] *)
Definition resolveConfigPath (explicit : string) : string :=
  if decide (explicit <> "") then explicit else if decide (getenv "CYNTR_CONFIG" <> "") then getenv "CYNTR_CONFIG" else "cyntr.yaml".
(* [cmd/cyntr/migrate/openclaw.go:resolveSkillsDir] *)
Definition resolveSkillsDir (explicit : string) : string :=
  if decide (explicit <> "") then explicit else if decide (getenv "CYNTR_SKILLS_DIR" <> "") then getenv "CYNTR_SKILLS_DIR"
  else if decide (getenv "CYNTR_DATA_DIR" <> "") then Join2 (getenv "CYNTR_DATA_DIR") "skills" else Join2 (Join2 homeDir ".cyntr") "skills".
Definition load_skill (fs : FS) (src : string) : Result InstalledSkill := SkillFiles.LoadOpenClawSkillFromFile unmarshal_front (read fs) src.
Definition plan_entry (fs : FS) (skillsRoot skillsDir : string) (entry : string * bool) : option skillChange :=
  let src := Join2 (Join2 skillsRoot entry.1) "SKILL.md" in
  if negb entry.2 then None
  else match fs !! loc cwd src with
  | None => None
  | Some _ =>
      match load_skill fs src with
      | Err e => Some {| sc_Name := ""; sc_Source := src; Dest := ""; sc_Action := actionCreate; sc_Version := ""; sc_Err := e |}
      | Ok parsed =>
          let dest := Join2 skillsDir (skill_name parsed) in
          Some {| sc_Name := skill_name parsed; sc_Source := src; Dest := dest;
                  sc_Action := match fs !! loc cwd dest with Some _ => actionConflict | None => actionCreate end;
                  sc_Version := Skills.Version (Manifest parsed); sc_Err := "" |}
      end
  end.
(* [cmd/cyntr/migrate/openclaw.go:planSkills] *)
Definition planSkills (fs : FS) (openClawDir skillsDir : string) : list skillChange :=
  let skillsRoot := Join2 openClawDir "skills" in
  match ReadDir fs skillsRoot with
  | Err _ => []
  | Ok entries => sortSlice by_name (omap (plan_entry fs skillsRoot skillsDir) entries)
  end.
(** [None] when there is neither file. *)
(* [cmd/cyntr/migrate/openclaw.go:readOpenClawConfig] *)
Definition readOpenClawConfig (fs : FS) (openClawDir : string) : Result (option openClawConfig) :=
  let yamlPath := Join2 openClawDir "config.yaml" in let jsonPath := Join2 openClawDir "config.json" in
  match read fs yamlPath with
  | Ok data => oc <-? wrap_err ("parse " +:+ quote yamlPath) (oc_yaml data) ;; Ok (Some oc)
  | Err _ => match read fs jsonPath with
             | Ok data => oc <-? wrap_err ("parse " +:+ quote jsonPath) (oc_json data) ;; Ok (Some oc)
             | Err _ => Ok None
             end
  end.
Definition zero_config : CyntrConfig :=
  {| Config.Version := ""; Listen := {| Address := ""; WebUI := "" |}; Config.Tenants := ∅; Auth := {| Provider := ""; Issuer := ""; ClientID := "" |};
     Config.Audit := {| Config.StoragePath := ""; Config.Retention := "" |}; Config.Federation := {| Config.f_Enabled := false; Config.Peers := [] |};
     Config.ShellExecPolicies := []; Config.Packs := ∅ |}.
(** The error of a malformed file is ignored, and what could be read of it stays. *)
Definition existing_config (fs : FS) (path : string) : CyntrConfig :=
  match read fs path with Ok data => (unmarshal zero_config data).1 | Err _ => zero_config end.
(* [cmd/cyntr/migrate/openclaw.go:planConfig@262-271] *)
Definition consider (existing : CyntrConfig) (fv : string * string) : option configChange :=
  if decide (fv.2 = "") then None
  else Some {| cc_Field := fv.1; Value := fv.2; cc_Action := if decide (get_field fv.1 existing <> "") then actionConflict else actionCreate |}.
(* [cmd/cyntr/migrate/openclaw.go:planConfig] *)
Definition planConfig (fs : FS) (openClawDir path : string) : Result (list configChange) :=
  oc <-? readOpenClawConfig fs openClawDir ;;
  match oc with
  | None => Ok []
  | Some oc => Ok (omap (consider (existing_config fs path)) (incoming oc))
  end.

(** ** Applying it *)

(* [cmd/cyntr/migrate/openclaw.go:writeSkillDir] *)
Definition writeSkillDir (dest : string) (s : InstalledSkill) (fs : FS) : FS * option error :=
  match fs !! loc cwd dest with
  | Some _ => (fs, Some ("destination " +:+ quote dest +:+ " already exists — refusing to overwrite"))
  | None =>
      match MkdirAll cwd dest fs with
      | (fs, Some e) => (fs, Some e)
      | (fs, None) =>
          match marshal_manifest (Manifest s) with
          | Err e => (fs, Some e)
          | Ok data =>
              match WriteFile cwd fault (Join2 dest "skill.yaml") data fs with
              | (fs, Some e) => (fs, Some e)
              | (fs, None) => WriteFile cwd fault (Join2 dest "skill.md") (Instructions s) fs
              end
          end
      end
  end.
Definition with_error (e : error) (sc : skillChange) : skillChange :=
  {| sc_Name := sc_Name sc; sc_Source := sc_Source sc; Dest := Dest sc; sc_Action := sc_Action sc; sc_Version := sc_Version sc; sc_Err := e |}.
(** The changes with what went wrong, and the names of those written. *)
Definition apply_skill (st : FS * list skillChange * list string) (sc : skillChange) : FS * list skillChange * list string :=
  let '(fs, done, applied) := st in
  if decide (sc_Action sc <> actionCreate \/ sc_Err sc <> "") then (fs, done ++ [sc], applied)
  else match load_skill fs (sc_Source sc) with
  | Err e => (fs, done ++ [with_error e sc], applied)
  | Ok parsed =>
      match writeSkillDir (Dest sc) parsed fs with
      | (fs, Some e) => (fs, done ++ [with_error e sc], applied)
      | (fs, None) => (fs, done ++ [sc], applied ++ ["skill:" +:+ sc_Name sc])
      end
  end.
Definition is_create (c : configChange) : bool := bool_decide (cc_Action c = actionCreate).
(* [cmd/cyntr/migrate/openclaw.go:hasConfigCreates] *)
Definition hasConfigCreates (changes : list configChange) : bool := existsb is_create changes.
Definition merge (changes : list configChange) (cfg : CyntrConfig) : CyntrConfig :=
  foldl (fun cfg c => if is_create c then set_field (cc_Field c) (Value c) cfg else cfg) cfg changes.
Definition Dir_of (p : string) : string := match find_last "/" p with Some (a, _) => Clean (a +:+ "/") | None => "." end.
(** Making the directory may fail without more ado. *)
(* [cmd/cyntr/migrate/openclaw.go:applyConfig] *)
Definition applyConfig (path : string) (changes : list configChange) (fs : FS) : FS * option error :=
  match (match read fs path with
         | Ok data => match unmarshal DefaultConfig data with
                      | (_, Some e) => Err ("parse existing config " +:+ quote path +:+ ": " +:+ e)
                      | (cfg, None) => Ok cfg
                      end
         | Err _ => Ok DefaultConfig
         end) with
  | Err e => (fs, Some e)
  | Ok cfg =>
      match marshal (merge changes cfg) with
      | Err e => (fs, Some e)
      | Ok out => WriteFile cwd fault path out (MkdirAll cwd (Dir_of path) fs).1
      end
  end.
Definition record_path (r : Report) : string := Join2 (SkillsDir (r_opts r)) ("openclaw-migration-" +:+ stamp (Timestamp r) +:+ ".json").
(* [cmd/cyntr/migrate/openclaw.go:writeRecord] *)
Definition writeRecord (r : Report) (fs : FS) : FS * option error :=
  match MkdirAll cwd (SkillsDir (r_opts r)) fs with
  | (fs, Some e) => (fs, Some e)
  | (fs, None) => match marshal_report r with Err e => (fs, Some e) | Ok data => WriteFile cwd fault (record_path r) data fs end
  end.
Definition with_result (skills : list skillChange) (applied : list string) (r : Report) : Report :=
  {| r_opts := r_opts r; Timestamp := Timestamp r; Skills := skills; Config := Config r; Applied := applied |}.
(* [cmd/cyntr/migrate/openclaw.go:apply] *)
Definition apply (r : Report) (fs : FS) : FS * Report * option error :=
  let '(fs, skills, applied) := foldl apply_skill (fs, [], Applied r) (Skills r) in
  let r := with_result skills applied r in
  match (if hasConfigCreates (Config r) then applyConfig (ConfigPath (r_opts r)) (Config r) fs else (fs, None)) with
  | (fs, Some e) => (fs, r, Some ("apply config: " +:+ e))
  | (fs, None) =>
      let r := with_result skills (applied ++ (if hasConfigCreates (Config r) then (fun c => "config:" +:+ cc_Field c) <$> filter (fun c => is_create c = true) (Config r) else [])) r in
      match writeRecord r fs with
      | (fs, Some e) => (fs, r, Some ("write migration record: " +:+ e))
      | (fs, None) => (fs, r, None)
      end
  end.
Definition resolved (o : Options) : Options :=
  {| OpenClawDir := resolveOpenClawDir (OpenClawDir o); ConfigPath := resolveConfigPath (ConfigPath o); SkillsDir := resolveSkillsDir (SkillsDir o);
     o_Tenant := if decide (o_Tenant o = "") then "default" else o_Tenant o; DryRun := DryRun o |}.
(** [None] for the report when it is the empty one. *)
(* [cmd/cyntr/migrate/openclaw.go:RunMigrateOpenClaw] *)
Definition RunMigrateOpenClaw (now : time) (o : Options) (fs : FS) : FS * option Report * option error :=
  let o := resolved o in
  match fs !! loc cwd (OpenClawDir o) with
  | None => (fs, None, Some ("openclaw home " +:+ quote (OpenClawDir o) +:+ " not found: stat " +:+ OpenClawDir o +:+ ": no such file or directory"))
  | Some (File _) => (fs, None, Some ("openclaw home " +:+ quote (OpenClawDir o) +:+ " is not a directory"))
  | Some Dir =>
      let skills := planSkills fs (OpenClawDir o) (SkillsDir o) in
      match planConfig fs (OpenClawDir o) (ConfigPath o) with
      | Err e => (fs, None, Some e)
      | Ok config =>
          let r := {| r_opts := o; Timestamp := now; Skills := skills; Config := config; Applied := [] |} in
          if DryRun o then (fs, Some r, None)
          else let '(fs, r, err) := apply r fs in (fs, Some r, err)
      end
  end.

Lemma writeSkillDir_kept dest s fs fs' e : IsAbs dest = true -> closed fs -> writeSkillDir dest s fs = (fs', e) -> kept [] fs fs' /\ closed fs'.
Proof.
  intros Hd Hc. unfold writeSkillDir. destruct (fs !! loc cwd dest) as [n|] eqn:E; [intros [= <- <-]; split; [apply kept_refl|done]|].
  assert (Hl : forall n, lacks "/"%char n -> SkillFiles.solid n -> loc cwd (Join2 dest n) = loc cwd dest ++ [n]).
  { intros n Hn Hs. unfold loc. rewrite Hd. assert (IsAbs (Join2 dest n) = true) as -> by (apply Clean_rooted; by apply IsAbs_app). by apply SkillFiles.join_name. }
  assert (Hnew : forall n l, l ∈ [loc cwd dest ++ [n]] -> fs !! l = None).
  { intros n l ->%list_elem_of_singleton. destruct (fs !! (loc cwd dest ++ [n])) eqn:En; [|done]. exfalso. eapply (Hc (loc cwd dest) n); congruence. }
  destruct (MkdirAll cwd dest fs) as [fs1 e1] eqn:E1. apply MkdirAll_kept in E1 as [K1 C1].
  destruct e1; [by intros [= <- <-]; auto|]. destruct (marshal_manifest _); [|by intros [= <- <-]; auto].
  destruct (WriteFile _ _ _ _ fs1) as [fs2 e2] eqn:E2. apply WriteFile_kept in E2 as [K2 C2]. rewrite Hl in K2 by done.
  assert (kept [] fs fs2) as K02.
  { apply (kept_absent [loc cwd dest ++ ["skill.yaml"]]); [apply Hnew|]. eapply kept_trans; [|exact K2]. eapply kept_weaken; [|exact K1]. set_solver. }
  destruct e2; [by intros [= <- <-]; auto|]. intros E3. apply WriteFile_kept in E3 as [K3 C3]. rewrite Hl in K3 by done. split; [|auto].
  apply (kept_absent [loc cwd dest ++ ["skill.md"]]); [apply Hnew|]. eapply kept_trans; [|exact K3]. eapply kept_weaken; [|exact K02]. set_solver.
Qed.
Definition placed (sc : skillChange) : Prop := sc_Err sc = "" -> IsAbs (Dest sc) = true.
Lemma apply_skills_kept scs : forall st, Forall placed scs -> closed st.1.1 ->
  kept [] st.1.1 (foldl apply_skill st scs).1.1 /\ closed (foldl apply_skill st scs).1.1.
Proof.
  induction scs as [|sc scs IH]; intros [[fs dn] applied] Hp Hc; cbn [foldl fst] in *; [split; [apply kept_refl|done]|].
  apply Forall_cons in Hp as [Hp Hps]. assert (kept [] fs (apply_skill (fs, dn, applied) sc).1.1 /\ closed (apply_skill (fs, dn, applied) sc).1.1) as [K C].
  { unfold apply_skill. case_decide as Hd; [split; [apply kept_refl|done]|]. destruct (load_skill fs (sc_Source sc)); [|split; [apply kept_refl|done]].
    destruct (writeSkillDir _ _ _) as [fs1 e] eqn:Ew. apply writeSkillDir_kept in Ew; [|apply Hp; destruct (decide (sc_Err sc = "")); naive_solver|done].
    destruct e; exact Ew. }
  destruct (apply_skill _ _) as [[fs1 dn1] ap1]. destruct (IH (fs1, dn1, ap1) Hps C) as [K2 C2]. split; [|done]. eapply kept_trans; eassumption.
Qed.
Lemma load_error fs src : load_skill fs src <> Err "".
Proof.
  unfold load_skill, SkillFiles.LoadOpenClawSkillFromFile. destruct (read fs src) as [content|e]; [|done]. cbn [wrap_err rbind]. unfold SkillFiles.ParseOpenClawSkill.
  destruct (SkillFiles.splitFrontmatter content) as [parts|e]; [|done]. cbn [wrap_err rbind]. destruct (unmarshal_front parts.1) as [fm|e]; [|done].
  cbn [wrap_err rbind]. by case_decide.
Qed.
Lemma planned_placed fs dir skillsDir : IsAbs skillsDir = true -> Forall placed (planSkills fs dir skillsDir).
Proof.
  intros Hs. unfold planSkills. destruct (ReadDir _ _) as [entries|]; [|done]. apply Forall_forall. intros sc Hin. rewrite sortSlice_perm in Hin.
  apply list_elem_of_omap in Hin as (e & _ & He). unfold plan_entry in He. repeat case_match; simplify_eq; try done; try (intros _; apply Clean_rooted; by apply IsAbs_app).
  intros Hz; cbn in Hz; subst; exfalso; eapply load_error; eassumption.
Qed.
Lemma merge_keeps f changes : (forall c, c ∈ changes -> is_create c = true -> cc_Field c <> f) -> forall cfg, get_field f (merge changes cfg) = get_field f cfg.
Proof.
  intros Hf. unfold merge. induction changes as [|c changes IH]; intros cfg; [done|]. cbn [foldl]. rewrite IH by (intros c' Hc'; apply Hf; by right).
  destruct (is_create c) eqn:E; [|done]. apply get_set_field, Hf; [by left|done].
Qed.
Lemma planned_conflicts fs dir path config f : planConfig fs dir path = Ok config -> get_field f (existing_config fs path) <> "" ->
  forall c, c ∈ config -> is_create c = true -> cc_Field c <> f.
Proof.
  unfold planConfig. intros (oc & _ & H)%rbind_Ok Hf c Hc Hi <-. destruct oc as [oc|]; [|by injection H as <-; apply elem_of_nil in Hc].
  apply (f_equal (fun r => match r with Ok l => l | Err _ => [] end)) in H. change (omap (consider (existing_config fs path)) (incoming oc) = config) in H. subst config.
  apply list_elem_of_omap in Hc as (fv & _ & Hfv). unfold consider in Hfv. case_decide; [done|]. injection Hfv as <-. cbn in *. unfold is_create in Hi. cbn in Hi. by rewrite decide_True in Hi.
Qed.
Lemma applyConfig_kept path changes fs fs' e : closed fs -> applyConfig path changes fs = (fs', e) -> kept [loc cwd path] fs fs' /\ closed fs'.
Proof.
  intros Hc. unfold applyConfig. destruct (match read fs path with Ok _ => _ | Err _ => _ end) as [cfg|]; [|intros [= <- <-]; split; [apply kept_refl|done]].
  destruct (marshal _); [|intros [= <- <-]; split; [apply kept_refl|done]]. destruct (MkdirAll _ _ fs) as [fs1 e1] eqn:E1. cbn [fst].
  apply MkdirAll_kept in E1 as [K1 C1]. intros E2. apply WriteFile_kept in E2 as [K2 C2]. split; [|auto]. eapply kept_trans; [|exact K2].
  eapply kept_weaken; [|exact K1]. set_solver.
Qed.
Lemma writeRecord_kept r fs fs' e : closed fs -> writeRecord r fs = (fs', e) -> kept [loc cwd (record_path r)] fs fs' /\ closed fs'.
Proof.
  intros Hc. unfold writeRecord. destruct (MkdirAll _ _ fs) as [fs1 e1] eqn:E1. apply MkdirAll_kept in E1 as [K1 C1].
  assert (kept [loc cwd (record_path r)] fs fs1) as K by (eapply kept_weaken; [|exact K1]; set_solver).
  destruct e1; [intros [= <- <-]; auto|]. destruct (marshal_report r); [|intros [= <- <-]; auto].
  intros E2. apply WriteFile_kept in E2 as [K2 C2]. split; [|auto]. eapply kept_trans; eassumption.
Qed.
(** What a run writes over: the configuration and its own record. *)
Definition rewritten (now : time) (o : Options) : list place :=
  [loc cwd (ConfigPath o); loc cwd (Join2 (SkillsDir o) ("openclaw-migration-" +:+ stamp now +:+ ".json"))].
Lemma apply_kept r fs fs' r' e : IsAbs (SkillsDir (r_opts r)) = true -> closed fs -> Forall placed (Skills r) -> apply r fs = (fs', r', e) ->
  kept (rewritten (Timestamp r) (r_opts r)) fs fs'.
Proof.
  intros Ha Hc Hp. unfold apply. destruct (apply_skills_kept (Skills r) (fs, [], Applied r) Hp Hc) as [K1 C1].
  destruct (foldl apply_skill _ _) as [[fs1 skills] applied]. cbn [fst] in *.
  assert (Hw : forall ex, kept [] fs fs1 -> kept ex fs fs1) by (intros ex; apply kept_weaken; set_solver).
  destruct (if hasConfigCreates _ then _ else _) as [fs2 e2] eqn:E2.
  assert (kept [loc cwd (ConfigPath (r_opts r))] fs fs2 /\ closed fs2) as [K2 C2].
  { destruct (hasConfigCreates _); [|injection E2 as <- <-; auto]. apply applyConfig_kept in E2 as [K2 C2]; [|done]. split; [|done]. eapply kept_trans; eauto. }
  unfold rewritten. destruct e2; [intros [= <- <- <-]; eapply kept_weaken; [|exact K2]; set_solver|].
  destruct (writeRecord _ fs2) as [fs3 e3] eqn:E3. apply writeRecord_kept in E3 as [K3 C3]; [|done]. intros E.
  assert (fs' = fs3) as -> by (destruct e3; by injection E). eapply kept_trans; [eapply kept_weaken; [|exact K2]; set_solver|].
  eapply kept_weaken; [|exact K3]. unfold record_path. cbn. set_solver.
Qed.
Lemma apply_config r fs fs' r' data cfg f : closed fs -> Forall placed (Skills r) -> apply r fs = (fs', r', None) ->
  loc cwd (ConfigPath (r_opts r)) <> loc cwd (record_path r) -> read fs (ConfigPath (r_opts r)) = Ok data -> unmarshal DefaultConfig data = (cfg, None) ->
  (forall c, c ∈ Config r -> is_create c = true -> cc_Field c <> f) ->
  exists data', read fs' (ConfigPath (r_opts r)) = Ok data' /\ (data' = data \/ exists cfg', marshal cfg' = Ok data' /\ get_field f cfg' = get_field f cfg).
Proof.
  intros Hc Hp Ha Hne Hr Hu Hf. revert Ha. unfold apply. destruct (apply_skills_kept (Skills r) (fs, [], Applied r) Hp Hc) as [K1 C1].
  destruct (foldl apply_skill _ _) as [[fs1 skills] applied]. cbn [fst] in *. apply (read_kept _ _ _ _ _ _ K1) in Hr; [|set_solver].
  destruct (if hasConfigCreates _ then _ else _) as [fs2 [e2|]] eqn:E2; [done|].
  assert (closed fs2 /\ exists data', read fs2 (ConfigPath (r_opts r)) = Ok data' /\ (data' = data \/ exists cfg', marshal cfg' = Ok data' /\ get_field f cfg' = get_field f cfg))
    as (C2 & data' & Hd & Hor).
  { destruct (hasConfigCreates _); [|injection E2 as <-; eauto 6]. split; [by eapply applyConfig_kept|]. revert E2. unfold applyConfig. cbn [r_opts with_result]. 
    rewrite Hr, Hu. destruct (marshal _) as [out|] eqn:Em; [|done]. intros E2%WriteFile_written. exists out. split; [done|]. right. eexists. split; [exact Em|].
    by apply merge_keeps. }
  destruct (writeRecord _ fs2) as [fs3 [e3|]] eqn:E3; [done|]. intros [= <- <-]. apply writeRecord_kept in E3 as [K3 _]; [|done].
  exists data'. split; [|done]. eapply read_kept; [exact K3| |exact Hd]. intros Hl%list_elem_of_singleton. by apply Hne.
Qed.
(** Migrating never costs the operator anything.  Nothing that was there is changed or lost, except that the configuration's
    file and this run's record may be rewritten; a dry run, or one that stops before its plan is made, changes nothing at all; and a
    run that succeeds leaves every value the configuration had for a field as it was: what another runtime says for it is
    reported as a conflict and not taken over. *)
Lemma migration_preserves now o fs fs' r err :
  closed fs -> IsAbs (SkillsDir (resolved o)) = true -> RunMigrateOpenClaw now o fs = (fs', r, err) ->
  kept (rewritten now (resolved o)) fs fs' /\ (DryRun o = true \/ r = None -> fs' = fs) /\
  (forall data cfg f, NoDup (rewritten now (resolved o)) -> err = None ->
     read fs (ConfigPath (resolved o)) = Ok data -> unmarshal DefaultConfig data = (cfg, None) -> get_field f (existing_config fs (ConfigPath (resolved o))) <> "" ->
     exists data', read fs' (ConfigPath (resolved o)) = Ok data' /\ (data' = data \/ exists cfg', marshal cfg' = Ok data' /\ get_field f cfg' = get_field f cfg)).
Proof.
  intros Hc Ha. unfold RunMigrateOpenClaw. set (o' := resolved o) in *. change (DryRun o) with (DryRun o').
  destruct (fs !! loc cwd (OpenClawDir o')) as [[t|]|]; [intros [= <- <- <-]; split; [apply kept_refl|split; [done|by intros]]| |intros [= <- <- <-]; split; [apply kept_refl|split; [done|by intros]]].
  destruct (planConfig _ _ _) as [config|e] eqn:Ep; [|intros [= <- <- <-]; split; [apply kept_refl|split; [done|by intros]]].
  destruct (DryRun o'); [intros [= <- <- <-]; split; [apply kept_refl|split; [done|intros; eauto]]|].
  set (rep := {| r_opts := o' |}). destruct (apply rep fs) as [[fs1 r1] e1] eqn:E. intros [= <- <- <-].
  assert (Hp := planned_placed fs (OpenClawDir o') (SkillsDir o') Ha).
  split; [exact (apply_kept rep fs fs1 r1 e1 Ha Hc Hp E)|]. split; [by intros [?|?]|]. intros data cfg f Hd -> Hr Hu Hf.
  apply (apply_config rep fs fs1 r1 data cfg f Hc Hp E); [|done..|by apply (planned_conflicts _ _ _ _ _ Ep)].
  intros Hl. unfold rewritten in Hd. change (loc cwd (ConfigPath o') = loc cwd (record_path rep)) in Hl. rewrite Hl in Hd. apply NoDup_cons in Hd as [Hd _]. apply Hd. by left.
Qed.
End Run.

(** ** Concrete runs *)

Definition below (fs : FS) (l : place) : bool := bool_decide (l = []) || bool_decide (fs !! removelast l <> None).
Lemma closed_check fs : forallb (fun ln => below fs ln.1) (map_to_list fs) = true -> closed fs.
Proof.
  intros Hf l x Hx. destruct (fs !! (l ++ [x])) as [n|] eqn:E; [|done]. apply elem_of_map_to_list in E. rewrite forallb_forall in Hf.
  specialize (Hf (l ++ [x], n)). cbn [fst] in Hf. unfold below in Hf. rewrite removelast_last in Hf. apply list_elem_of_In in E. specialize (Hf E).
  apply orb_true_iff in Hf as [Hf|Hf]; [apply bool_decide_eq_true in Hf; by destruct l|by apply bool_decide_eq_true in Hf].
Qed.
#[local] Instance by_name_dec : RelDecision by_name.
Proof. intros a b. unfold by_name. apply _. Defined.
#[local] Instance by_name_total : Total by_name.
Proof. intros a b. unfold by_name. destruct (string_le_total (sc_Name a) (sc_Name b)); auto. Qed.
#[local] Instance by_name_trans : Transitive by_name.
Proof. intros a b c. unfold by_name. apply string_le_trans. Qed.
#[local] Instance demo_sorter : SliceSorter by_name := merge_sorter by_name.
Definition demo_ReadDir (fs : FS) (p : string) : Result (list (string * bool)) := Ok [("a", true)].
Definition demo_front (s : string) : Result SkillFiles.Frontmatter :=
  Ok {| SkillFiles.fm_Name := "/../../../etc/a"; SkillFiles.fm_Description := ""; SkillFiles.fm_Version := ""; SkillFiles.fm_Author := "";
        SkillFiles.fm_Capabilities := {| Skills.Network := []; Skills.Filesystem := []; Skills.Shell := false; Skills.Tools := [] |}; SkillFiles.fm_Tools := [] |}.
Definition demo_unmarshal (c : CyntrConfig) (s : string) : CyntrConfig * option error :=
  (with_listen_auth {| Address := s; WebUI := WebUI (Listen c) |} (Auth c) c, None).
Definition demo_marshal (c : CyntrConfig) : Result string := Ok (Address (Listen c) +:+ Provider (Auth c)).
Definition demo_oc (s : string) : Result openClawConfig := Ok {| oc_Address := "0.0.0.0:1"; oc_WebUI := ""; oc_Provider := "p"; oc_Issuer := ""; oc_ClientID := "" |}.
Definition demo_fs : FS :=
  {[ [] := Dir; ["oc"] := Dir; ["oc"; "config.yaml"] := File "x"; ["oc"; "skills"] := Dir; ["oc"; "skills"; "a"] := Dir;
     ["oc"; "skills"; "a"; "SKILL.md"] := File ("---" +:+ nl +:+ "n" +:+ nl +:+ "---" +:+ nl); ["c.yaml"] := File "127.0.0.1:2" ]}.
Definition demo_options : Options := {| OpenClawDir := "/oc"; ConfigPath := "/c.yaml"; SkillsDir := "/var/skills"; o_Tenant := ""; DryRun := false |}.
Definition demo_env (s : string) : string := "".
Definition demo_run : FS * option Report * option error :=
  RunMigrateOpenClaw "/" (fun _ => None) demo_ReadDir demo_front (fun _ => Ok "m") demo_unmarshal demo_marshal demo_oc demo_oc (fun _ => Ok "r") (fun _ => "t")
    demo_env (Ok "/home") 0 demo_options demo_fs.
Lemma migration_preserves_witness :
  kept (rewritten "/" (fun _ => "t") 0 demo_options) demo_fs demo_run.1.1 /\ demo_run.2 = None /\
  exists data', ReadFile "/" demo_run.1.1 "/c.yaml" = Ok data' /\
    (data' = "127.0.0.1:2" \/ exists cfg', demo_marshal cfg' = Ok data' /\ get_field "listen.address" cfg' = "127.0.0.1:2").
Proof.
  assert (Hd : demo_run.2 = None) by (vm_compute; reflexivity).
  destruct (migration_preserves "/" (fun _ => None) demo_ReadDir demo_front (fun _ => Ok "m") demo_unmarshal demo_marshal demo_oc demo_oc (fun _ => Ok "r") (fun _ => "t")
              demo_env (Ok "/home") 0 demo_options demo_fs demo_run.1.1 demo_run.1.2 demo_run.2) as (H1 & _ & H3).
  - apply closed_check. vm_compute. reflexivity.
  - reflexivity.
  - rewrite <-!surjective_pairing. reflexivity.
  - split; [exact H1|]. split; [exact Hd|]. apply (H3 "127.0.0.1:2" (demo_unmarshal DefaultConfig "127.0.0.1:2").1 "listen.address").
    + apply (bool_decide_unpack _). vm_compute. exact I.
    + exact Hd.
    + vm_compute. reflexivity.
    + reflexivity.
    + vm_compute. discriminate.
Defined.
(** What a skill is called is not looked at: its directory need not be below that of the skills. *)
Example skill_climbs : option_map (fun r => Dest <$> Skills r) demo_run.1.2 = Some ["/etc/a"] /\ demo_run.1.1 !! ["etc"; "a"; "skill.md"] = Some (File "").
Proof. vm_compute. split; reflexivity. Qed.
End Migrate.

(** * Backup: the operator's archive of a working directory

    [src/cmd/cyntr/backup.go]: the archive as its entries, the regular files of the working directory as a map from names.
    Compression, the clock's text and the failures of the file system are arguments. *)
Module Backup.
Local Open Scope go_scope.

Notation files := (gmap string string).

(* [cmd/cyntr/backup.go:isBackupFile] *)
Definition isBackupFile (name : string) : bool := existsb (fun ext => has_suffix ext name) [".yaml"; ".db"; ".json"].
(* [cmd/cyntr/backup.go:runBackup@19-28] *)
Definition backup_names : list string :=
  ["cyntr.yaml"; "policy.yaml"; "sessions.db"; "memory.db"; "audit.db"; "knowledge_base.db"; "usage.db"; "scheduler_jobs.json"].
(** The entries of the archive; [listed] are the names of the directory's files, [skipped] the ones that cannot be stated, entered or opened. *)
(* [cmd/cyntr/backup.go:runBackup] *)
Definition runBackup (listed : list string) (skipped : string -> bool) (fs : files) : list (string * string) :=
  omap (fun name => match fs !! name with
                    | Some data => if skipped name then None else Some (name, data)
                    | None => None
                    end) (backup_names ++ filter (fun name => has_suffix "-agent.json" name = true) listed).

(** What restoring one entry meets: the clock's text, whether renaming and creating work, and how much of the data is written. *)
Record Luck := { stamp : string; rename_ok : bool; create_ok : bool; written : nat }.
Definition bak (name stamp : string) : string := name +:+ ".bak." +:+ stamp.
(** The error of the renaming is not looked at. *)
Definition set_aside (l : Luck) (name : string) (fs : files) : files :=
  match fs !! name with
  | Some data => if rename_ok l then <[bak name (stamp l) := data]> (delete name fs) else fs
  | None => fs
  end.
(* [cmd/cyntr/backup.go:runRestore@117-139] *)
Definition restore_entry (fs : files) (entry : string * string * Luck) : files :=
  let '(header, data, l) := entry in
  let name := Base header in
  if negb (isBackupFile name) then fs
  else let fs := set_aside l name fs in
       if create_ok l then <[name := take_bytes (written l) data]> fs else fs.
(** The entries that could be read. *)
(* [cmd/cyntr/backup.go:runRestore] *)
Definition runRestore (entries : list (string * string * Luck)) (fs : files) : files := foldl restore_entry fs entries.

(** ** What restoring keeps *)

Definition entry_name (e : string * string * Luck) : string := Base e.1.1.
Definition whole (e : string * string * Luck) : Prop := rename_ok e.2 = true /\ create_ok e.2 = true /\ (String.length e.1.2 <= written e.2)%nat.
Lemma take_bytes_all n : forall s, (String.length s <= n)%nat -> take_bytes n s = s.
Proof. induction n as [|n IH]; intros [|c s] Hn; cbn in *; try done; [lia|]. rewrite IH; [done|lia]. Qed.
Lemma has_suffix_app p s : has_suffix p s = true -> exists a, s = a +:+ p.
Proof.
  unfold has_suffix. intros [Hl%bool_decide_eq_true E%bool_decide_eq_true]%andb_true_iff. exists (take_bytes (String.length s - String.length p) s).
  rewrite <-E at 2. generalize (String.length s - String.length p)%nat as n. clear. intros n. revert s. induction n as [|n IH]; intros [|c s]; try done.
  cbn [take_bytes drop_bytes]. rewrite str_app_cons. f_equal. apply IH.
Qed.
Lemma restore_other e fs name : name <> entry_name e -> (forall d, fs !! name = Some d -> name <> bak (entry_name e) (stamp e.2)) ->
  forall d, fs !! name = Some d -> restore_entry fs e !! name = Some d.
Proof.
  destruct e as [[h data] l]. unfold entry_name. cbn [fst snd]. intros Hne Hb d Hd. unfold restore_entry. cbv zeta. destruct (isBackupFile (Base h)); [|done]. cbn [negb].
  assert (set_aside l (Base h) fs !! name = Some d) as E.
  { unfold set_aside. destruct (fs !! Base h); [|done]. destruct (rename_ok l); [|done]. rewrite lookup_insert_ne by (intros E; by eapply Hb). by rewrite lookup_delete_ne. }
  destruct (create_ok l); [by rewrite lookup_insert_ne|done].
Qed.
Lemma restore_here e fs d : rename_ok e.2 = true -> fs !! entry_name e = Some d ->
  restore_entry fs e !! entry_name e = Some d \/ restore_entry fs e !! bak (entry_name e) (stamp e.2) = Some d.
Proof.
  destruct e as [[h data] l]. unfold entry_name. cbn [fst snd]. intros Hr Hd. unfold restore_entry. cbv zeta. destruct (isBackupFile (Base h)); [|by left]. cbn [negb]. right.
  assert (bak (Base h) (stamp l) <> Base h) as Hne by (unfold bak; intros E; apply (f_equal String.length) in E; rewrite !str_length_app in E; cbn [String.length] in E; lia).
  unfold set_aside. rewrite Hd, Hr. destruct (create_ok l); rewrite ?lookup_insert_ne by done; by rewrite lookup_insert_eq.
Qed.
(** Restoring writes into the working directory only, and only files of the known kinds and what it sets aside. *)
Lemma restore_names entries : forall fs name, runRestore entries fs !! name <> fs !! name ->
  exists e, e ∈ entries /\ isBackupFile (entry_name e) = true /\ lacks "/"%char (entry_name e) /\ (name = entry_name e \/ name = bak (entry_name e) (stamp e.2)).
Proof.
  induction entries as [|e entries IH]; intros fs name; cbn [runRestore foldl]; [done|]. fold (runRestore entries (restore_entry fs e)). intros Hne.
  destruct (decide (runRestore entries (restore_entry fs e) !! name = restore_entry fs e !! name)) as [E|E].
  2: { destruct (IH _ _ E) as (e' & He' & Hrest). exists e'. split; [by right|done]. }
  rewrite E in Hne. exists e. split; [by left|]. destruct e as [[h data] l]. unfold entry_name. cbn [fst snd]. unfold restore_entry in Hne. cbv zeta in Hne.
  destruct (isBackupFile (Base h)) eqn:Ek; [|done]. cbn [negb] in Hne. split; [done|]. split.
  - unfold Base in *. case_decide; [done|]. destruct (last _) as [s|] eqn:El; [|done]. apply last_Some_elem_of, list_elem_of_filter in El as [_ El]. by eapply split_parts_lack.
  - destruct (decide (name = Base h)) as [|Hn]; [by left|]. right. destruct (decide (name = bak (Base h) (stamp l))) as [|Hb]; [done|]. exfalso. apply Hne.
    assert (set_aside l (Base h) fs !! name = fs !! name) as Es.
    { unfold set_aside. destruct (fs !! Base h); [|done]. destruct (rename_ok l); [|done]. by rewrite lookup_insert_ne, lookup_delete_ne by done. }
    destruct (create_ok l); [by rewrite lookup_insert_ne|done].
Qed.
Lemma restore_keep entries name d : (forall e, e ∈ entries -> isBackupFile name = false \/ name <> entry_name e) ->
  (forall e, e ∈ entries -> name <> bak (entry_name e) (stamp e.2)) -> forall fs, fs !! name = Some d -> runRestore entries fs !! name = Some d.
Proof.
  induction entries as [|e entries IH]; intros Hn Hb fs Hd; cbn [runRestore foldl]; [done|]. fold (runRestore entries (restore_entry fs e)).
  apply IH; [intros e' He'; apply Hn; by right|intros e' He'; apply Hb; by right|].
  destruct (decide (name = entry_name e)) as [E|E]; [|apply restore_other; [done|intros _ _; apply Hb; by left|done]].
  destruct (Hn e) as [Hk|Hk]; [by left| |done]. destruct e as [[h data] l]. unfold entry_name in E. cbn [fst snd] in E. unfold restore_entry. cbv zeta. by rewrite <-E, Hk.
Qed.
(** The text of a clock: fourteen characters, no dot. *)
Definition clock (s : string) : Prop := String.length s = 14%nat /\ lacks "."%char s.
Lemma bak_kind name s : clock s -> isBackupFile (bak name s) = false.
Proof.
  intros [Hl Hd]. destruct (isBackupFile (bak name s)) eqn:E; [|done]. exfalso. apply existsb_exists in E as (ext & Hext & E).
  apply has_suffix_app in E as (a & E). unfold bak in E. rewrite <-!str_app_assoc in E.
  assert (Hin : forall x y u v : string, x +:+ u = y +:+ v -> (String.length v <= String.length u)%nat -> exists w, u = w +:+ v).
  { clear. intros x. induction x as [|c x IH]; intros y u v E Hl.
    - exists y. exact E.
    - destruct y as [|c' y]; [exfalso; apply (f_equal String.length) in E; rewrite str_app_cons in E; cbn [String.length] in E; change ("" +:+ v) with v in E; rewrite str_length_app in E; lia|].
      rewrite !str_app_cons in E. injection E as -> E. by eapply IH. }
  destruct (Hin _ _ _ _ E) as [w ->]; [rewrite Hl; repeat destruct Hext as [<-|Hext]; cbn; try lia; done|].
  assert (Hw : forall w v, lacks "."%char (w +:+ v) -> lacks "."%char v) by (clear; intros w; induction w as [|c w IH]; intros v H; [done|]; rewrite str_app_cons in H; apply lacks_cons in H as [_ H]; auto).
  apply Hw in Hd. repeat destruct Hext as [<-|Hext]; try done; by apply lacks_cons in Hd as [? _].
Qed.
Lemma bak_inj n n' s s' : clock s -> clock s' -> bak n s = bak n' s' -> n = n'.
Proof.
  unfold bak. intros [Hl _] [Hl' _] E. assert (String.length n = String.length n') as Hn by (apply (f_equal String.length) in E; rewrite !str_length_app in E; cbn [String.length] in E; lia).
  clear Hl Hl'. revert n' E Hn. induction n as [|c n IH]; intros [|c' n'] E Hn; try done. rewrite !str_app_cons in E. injection E as -> E. f_equal. apply IH; [done|]. by injection Hn.
Qed.
(** Restoring an archive loses nothing, as long as its entries have different names, the renames work and nothing has the
    name of something set aside: every file there was is there after, under its own name or, replaced, under the name it was
    set aside with; and only files of the known kinds, in the working directory itself, are written, whatever paths the archive
    names. *)
Lemma restore_keeps entries fs :
  NoDup (entry_name <$> entries) -> Forall (fun e => rename_ok e.2 = true /\ clock (stamp e.2)) entries ->
  Forall (fun e => fs !! bak (entry_name e) (stamp e.2) = None) entries ->
  (forall name d, fs !! name = Some d -> runRestore entries fs !! name = Some d \/
     exists e, e ∈ entries /\ entry_name e = name /\ runRestore entries fs !! bak name (stamp e.2) = Some d) /\
  (forall name, runRestore entries fs !! name <> fs !! name ->
     exists e, e ∈ entries /\ isBackupFile (entry_name e) = true /\ lacks "/"%char (entry_name e) /\ (name = entry_name e \/ name = bak (entry_name e) (stamp e.2))).
Proof.
  intros Hnd Hok Hfresh. split; [|apply restore_names]. intros name d Hd.
  assert (Hnb : forall e, e ∈ entries -> name <> bak (entry_name e) (stamp e.2)) by (intros e He ->; rewrite Forall_forall in Hfresh; rewrite (Hfresh e He) in Hd; done).
  clear Hfresh. revert fs Hd. induction entries as [|e entries IH]; intros fs Hd; [by left|].
  apply NoDup_cons in Hnd as [Hnin Hnd]. apply Forall_cons in Hok as [[Hr Hc] Hok]. cbn [runRestore foldl]. fold (runRestore entries (restore_entry fs e)).
  destruct (decide (name = entry_name e)) as [->|Hne].
  - destruct (restore_here e fs d Hr Hd) as [Hk|Hk].
    + left. apply restore_keep; [|intros e' He'; apply Hnb; by right|done]. intros e' He'. right. intros E. apply Hnin. rewrite E. by apply list_elem_of_fmap_2.
    + right. exists e. split; [by left|]. split; [done|]. apply restore_keep; [intros e' _; left; by apply bak_kind| |done].
      intros e' He' E. rewrite Forall_forall in Hok. apply bak_inj in E; [|done|by apply Hok]. apply Hnin. rewrite E. by apply list_elem_of_fmap_2.
  - destruct (IH Hnd Hok) with (fs := restore_entry fs e) as [Hk|(e' & He' & Hrest)]; [intros e' He'; apply Hnb; by right| |by left|right; exists e'; split; [by right|done]].
    apply restore_other; [done|intros _ _; apply Hnb; by left|done].
Qed.
Lemma runBackup_names listed fs : (runBackup listed (fun _ => false) fs).*1 =
  filter (fun name => is_Some (fs !! name)) (backup_names ++ filter (fun name => has_suffix "-agent.json" name = true) listed).
Proof.
  unfold runBackup. generalize (backup_names ++ filter (fun name => has_suffix "-agent.json" name = true) listed) as l. intros l. unfold omap.
  induction l as [|x l IH]; [done|]. rewrite filter_cons. cbn [list_omap]. destruct (fs !! x) eqn:E; case_decide as Hd; try (exfalso; naive_solver).
  - cbn [fmap list_fmap fst]. by f_equal.
  - exact IH.
Qed.
(** Restoring what has other names than what is there. *)
Lemma restore_fresh entries : forall fs, NoDup (entry_name <$> entries) ->
  Forall (fun e => isBackupFile (entry_name e) = true /\ create_ok e.2 = true /\ (String.length e.1.2 <= written e.2)%nat /\ fs !! entry_name e = None) entries ->
  runRestore entries fs = list_to_map ((fun e => (entry_name e, e.1.2)) <$> entries) ∪ fs.
Proof.
  induction entries as [|e entries IH]; intros fs Hnd Hok; cbn [runRestore foldl]; [symmetry; apply (left_id_L ∅ (∪))|]. fold (runRestore entries (restore_entry fs e)).
  apply NoDup_cons in Hnd as [Hnin Hnd]. apply Forall_cons in Hok as [(Hk & Hc & Hw & Hf) Hok].
  assert (restore_entry fs e = <[entry_name e := e.1.2]> fs) as ->.
  { destruct e as [[h data] l]. unfold entry_name in *. cbn [fst snd] in *. unfold restore_entry, set_aside. cbv zeta. by rewrite Hk, Hf, Hc, take_bytes_all. }
  rewrite IH; [|done|].
  - cbn [fmap list_fmap list_to_map foldr]. cbn [uncurry curry fst snd]. rewrite <-insert_union_r; [by rewrite insert_union_l|].
    apply not_elem_of_list_to_map_1. rewrite <-list_fmap_compose. exact Hnin.
  - rewrite Forall_forall in Hok |- *. intros e' He'. destruct (Hok e' He') as (H1 & H2 & H3 & H4). split_and!; try done.
    rewrite lookup_insert_ne; [done|]. intros E. apply Hnin. rewrite E. by apply list_elem_of_fmap_2.
Qed.
Lemma Base_plain name : lacks "/"%char name -> name <> "" -> Base name = name.
Proof. intros Hl Hne. unfold Base. rewrite decide_False, split_lacking by done. cbn. by rewrite decide_True. Qed.
Lemma has_suffix_trans e s : isBackupFile s = true -> has_suffix s e = true -> isBackupFile e = true.
Proof.
  intros (ext & Hin & H1)%existsb_exists H2. apply existsb_exists. exists ext. split; [done|]. apply has_suffix_app in H1 as [a ->], H2 as [b ->].
  unfold has_suffix. rewrite <-str_app_assoc, str_length_app. apply andb_true_iff. rewrite !bool_decide_eq_true. split; [lia|].
  rewrite Nat.add_sub. generalize (b +:+ a). clear. intros w. induction w as [|c w IH]; [by destruct ext|]. exact IH.
Qed.
(** A backup restored into an empty directory, nothing failing, gives exactly the files that were entered into it, each
    whole: the ones of the fixed list and the agents' that were there. *)
Lemma backup_restores listed fs luck :
  NoDup listed -> Forall (fun name => lacks "/"%char name) listed ->
  (forall name data, fs !! name = Some data -> create_ok (luck name) = true /\ (String.length data <= written (luck name))%nat) ->
  forall name, runRestore ((fun e => (e, luck e.1)) <$> runBackup listed (fun _ => false) fs) ∅ !! name =
    if decide (name ∈ backup_names \/ name ∈ listed /\ has_suffix "-agent.json" name = true) then fs !! name else None.
Proof.
  intros Hnd Hl Hluck name. set (names := backup_names ++ filter (fun name => has_suffix "-agent.json" name = true) listed).
  assert (Hin : forall x, x ∈ names <-> x ∈ backup_names \/ x ∈ listed /\ has_suffix "-agent.json" x = true) by (intros x; unfold names; rewrite elem_of_app, list_elem_of_filter; naive_solver).
  assert (Hplain : forall x, x ∈ names -> Base x = x /\ isBackupFile x = true).
  { intros x [Hx|[Hx Hs]]%Hin.
    - assert (Forall (fun x => Base x = x /\ isBackupFile x = true) backup_names) as Hall by (repeat constructor). rewrite Forall_forall in Hall. by apply Hall.
    - rewrite Forall_forall in Hl. split; [apply Base_plain; [by apply Hl|intros ->; done]|by eapply has_suffix_trans; [|exact Hs]]. }
  assert (Hnames : NoDup names).
  { apply NoDup_app. split; [apply (bool_decide_unpack _); vm_compute; exact I|]. split; [|by apply NoDup_filter].
    intros x Hx [Hs _]%list_elem_of_filter. assert (Forall (fun x => has_suffix "-agent.json" x = false) backup_names) as Hall by (repeat constructor).
    rewrite Forall_forall in Hall. rewrite Hall in Hs; done. }
  assert (Har : forall e, e ∈ runBackup listed (fun _ => false) fs <-> e.1 ∈ names /\ fs !! e.1 = Some e.2).
  { intros [x d]. unfold runBackup. fold names. rewrite list_elem_of_omap. cbn [fst snd]. split.
    - intros (y & Hy & E). destruct (fs !! y) eqn:Ey; [|done]. injection E as <- <-. done.
    - intros [Hx Hd]. exists x. rewrite Hd. done. }
  set (archive := runBackup listed (fun _ => false) fs) in *.
  assert (Hkv : (fun e => (entry_name e, e.1.2)) <$> ((fun e => (e, luck e.1)) <$> archive) = archive).
  { rewrite <-list_fmap_compose. etransitivity; [|apply list_fmap_id]. apply list_fmap_ext. intros i [x d] He%list_elem_of_lookup_2. apply Har in He as [Hx _]. cbn in Hx.
    unfold entry_name. cbn. by rewrite (proj1 (Hplain x Hx)). }
  assert (Hfst : NoDup archive.*1) by (unfold archive; rewrite runBackup_names; by apply NoDup_filter).
  rewrite restore_fresh.
  - rewrite Hkv, (right_id_L ∅ (∪)). case_decide as Hd.
    + destruct (fs !! name) as [d|] eqn:Ed.
      * apply elem_of_list_to_map_1; [done|]. apply Har. split; [by apply Hin|done].
      * apply not_elem_of_list_to_map_1. intros ([x d] & -> & Hx)%list_elem_of_fmap. apply Har in Hx as [_ Hx]. cbn in *. congruence.
    + apply not_elem_of_list_to_map_1. intros ([x d] & -> & Hx)%list_elem_of_fmap. apply Har in Hx as [Hx _]. by apply Hd, Hin.
  - rewrite <-Hkv in Hfst. rewrite <-list_fmap_compose in Hfst. exact Hfst.
  - apply Forall_fmap, Forall_forall. intros [x d] He. apply Har in He as [Hx Hd]. cbn in Hx, Hd. unfold entry_name. cbn. destruct (Hplain x Hx) as [-> Hk].
    destruct (Hluck x d Hd) as [Hc Hw]. split_and!; auto.
Qed.

(** ** A concrete directory *)

Definition demo_files : files := {["cyntr.yaml" := "a"; "sessions.db" := "s"; "x-agent.json" := "g"; "other.txt" := "o"]}.
Definition demo_luck (name : string) : Luck := {| stamp := "20260101000000"; rename_ok := true; create_ok := true; written := 100 |}.
Lemma backup_restores_witness :
  forall name, runRestore ((fun e => (e, demo_luck e.1)) <$> runBackup ["x-agent.json"; "other.txt"] (fun _ => false) demo_files) ∅ !! name =
    if decide (name ∈ backup_names \/ name ∈ ["x-agent.json"; "other.txt"] /\ has_suffix "-agent.json" name = true) then demo_files !! name else None.
Proof.
  apply (backup_restores ["x-agent.json"; "other.txt"] demo_files demo_luck).
  - apply (bool_decide_unpack _). vm_compute. exact I.
  - repeat constructor.
  - intros name data Hd. split; [done|]. cbn. revert name data Hd. apply (map_Forall_to_list (fun _ data => String.length data <= 100)%nat). vm_compute. repeat constructor.
Defined.
Definition demo_entries : list (string * string * Luck) := [("dir/cyntr.yaml", "b", demo_luck ""); ("../../etc/passwd", "p", demo_luck "")].
Lemma restore_keeps_witness :
  (exists e, e ∈ demo_entries /\ entry_name e = "cyntr.yaml" /\ runRestore demo_entries demo_files !! bak "cyntr.yaml" (stamp e.2) = Some "a") /\
  forall name, runRestore demo_entries demo_files !! name <> demo_files !! name ->
     exists e, e ∈ demo_entries /\ isBackupFile (entry_name e) = true /\ lacks "/"%char (entry_name e) /\ (name = entry_name e \/ name = bak (entry_name e) (stamp e.2)).
Proof.
  destruct (restore_keeps demo_entries demo_files) as [H1 H2].
  - apply (bool_decide_unpack _). vm_compute. exact I.
  - repeat constructor.
  - repeat constructor; vm_compute; reflexivity.
  - split; [|exact H2]. destruct (H1 "cyntr.yaml" "a") as [H|H]; [vm_compute; reflexivity| |exact H].
    exfalso. revert H. vm_compute. discriminate.
Defined.
(** Two entries of one name, within a second: what was there is gone, for the second is set aside over it. *)
Example same_name_loses :
  let fs := runRestore [("a/cyntr.yaml", "b", demo_luck ""); ("cyntr.yaml", "c", demo_luck "")] demo_files in
  (fs !! "cyntr.yaml", fs !! bak "cyntr.yaml" "20260101000000") = (Some "c", Some "b").
Proof. vm_compute. reflexivity. Qed.
(** A rename that fails is not looked at, and the file is written over. *)
Example rename_fails_loses :
  let l := {| stamp := "20260101000000"; rename_ok := false; create_ok := true; written := 1 |} in
  map_to_list (filter (fun kv => kv.2 = "a") (runRestore [("cyntr.yaml", "b", l)] demo_files)) = [].
Proof. vm_compute. reflexivity. Qed.
End Backup.
